(* ===== verification/_CoqProject ===== *)
-Q . S2P
Prelude.v
Memory.v
Libc.v
Spinlock.v
PageAllocator.v
PageAllocatorSpec.v
PageTable.v
AddressSpace.v
BlockAllocator.v
BlockAllocatorSpec.v
Paths.v
KernelHeap.v
Scheduler.v
SchedulerSpec.v
SchedulerProps.v
Vfs.v
VfsSpec.v
Ustar.v
UstarSpec.v
TarImage.v
Syscalls.v
SyscallsSpec.v
Fork.v
DeviceManager.v
DeviceManagerSpec.v
IoQueue.v
Clock.v
Framebuffer.v
Serial.v
Printk.v
Acpi.v
Boot.v
Elf.v
Descriptors.v
Interrupts.v
Timers.v
Smp.v
Stages.v
StagesSpec.v
Logger.v
Listings.v
Kernel.v
Init.v
