(* ===== verification/Prelude.v ===== *)
(** Verification of the GaOS kernel.

    * The program

    GaOS is a small x86-64 kernel written in C, under src/kernel/src.  The boot
    loader hands it a memory map; a page allocator ([memory/physical/page_allocator.c])
    manages the usable pages with one bitmap per pool, the page-table manager
    ([arch/x86_64/page_table_manager]) builds four-level tables out of its pages,
    and the block allocator ([memory/physical/block_allocator.c]) maps pages at
    the end of a virtual region and splits them into blocks.  Everything else
    allocates from these two: the round-robin scheduler ([schedulers/task/round_robin])
    with the per-processor contexts ([arch/x86_64/context]), the virtual file
    system ([filesystem/vfs.c]), the initial ram disk ([filesystem/ustar.c]), the
    device manager with devfs ([devices/manager.c]), the queue of asynchronous i/o
    ([io/queue.c]) and the system calls ([syscalls]), which tie the scheduler, the
    file systems and the page tables together.  The elf loader ([executables/elf.c])
    turns a file into a task; the framebuffer, the serial port ([devices]) and
    the printk family ([misc/libc.c]) are the output; the acpi tables ([acpi]) and
    the boot modules ([boot/limine.c]) are found in what the boot loader left.
    Under [arch/x86_64] are the descriptor tables, the handler of the exceptions,
    the local interrupt controller, the timers and the start of the other
    processors; [misc/logger.c], [misc/panic.c] and [sanitizers] report to the
    output, and [apps/init] is the first user program.

    * How the code is modelled

    A C function is a Rocq function with the same name (or the name of its loop)
    from a state to an [outcome]: it returns a value and the new state ([Done]),
    calls [panic] ([Panicked]), spins on a lock that its own thread holds
    ([Deadlock]), does something C gives no meaning to ([Undef]) or is a loop that
    did not end within its fuel ([Timeout]).  Theorems about results exclude the
    last three, so they include termination; where memory can run out they say
    "panics or ...".  Unsigned 64-bit arithmetic is [Z] with its wrap-around
    written out ([u64], [+w], [-w], [*w]), [int] is [s32], [ssize_t] is [s64].

    Memory is a finite map from virtual addresses to bytes.  Page tables, bitmaps,
    block headers, strings, descriptor tables and archives are bytes of it;
    tasks, scheduler contexts, nodes, mount points, devices and i/o tasks are
    records in typed heaps that are indexed by the addresses the allocators
    returned, and a pointer that is null or of another kind is [Undef].  The lower
    half of the memory is that of the running task.

    * The files

    - [Prelude]: outcomes, machine integers, tactics, lemmas on lists and maps.
    - [Memory]: bytes, words and the relation [changes] (a memory differs from
      another only where a predicate allows).
    - [Libc]: [misc/libc.c] and the error pointers of [misc/libc.h].
    - [Spinlock]: [lock/spinlock.c], for one processor and for any number of
      processors that interleave single atomic steps.
    - [PageAllocator], [PageAllocatorSpec]: the page allocator, its pools and
      bitmaps, and its refinement to a set of page addresses.  The class
      [PageSource] with [PageSourceLaws] is what it promises to its clients.
    - [PageTable]: the page-table manager over any page source, its refinement to
      a partial function from page numbers to frames and flags.
    - [AddressSpace]: the copy of an address space that [sys_fork] makes.
    - [BlockAllocator], [BlockAllocatorSpec]: the block allocator over any page
      source, the layout of its region and its refinement to a set of blocks.
    - [KernelHeap]: the class [KernelHeap] with [KernelHeapLaws], what both
      allocators together promise to the rest of the kernel, the block allocator
      as an instance, and [lift_heap], which makes a state that contains a heap
      a heap.
    - [Scheduler], [SchedulerSpec], [SchedulerProps]: processor contexts, queues,
      rescheduling and the creation of tasks.
    - [Paths], [Vfs], [VfsSpec]: path functions, mount points, dispatch.
    - [Ustar], [UstarSpec], [TarImage]: the ram disk, archives as lists of files,
      and the images that tar writes for them.
    - [Syscalls], [SyscallsSpec], [Fork]: the system calls.
    - [DeviceManager], [DeviceManagerSpec]: the device tree and devfs.
    - [IoQueue], [Clock]: the i/o queue, the choice of the timers.
    - [Framebuffer], [Serial], [Printk]: the framebuffer with its font, the
      16550 port over any device with its laws (class [Uart16550]), and the
      printk family over either of them (class [Console]).
    - [Acpi], [Boot]: the acpi tables, the boot modules and the initialisation of
      the ram disk.
    - [Elf]: the loader of executables.
    - [Descriptors], [Interrupts]: the segment table, the interrupt table and the
      registers of the system calls ([arch/x86_64/gdt], [idt], [syscall]); the
      handler of the exceptions.
    - [Timers]: the local interrupt controller and the timers ([arch/x86_64/xapic],
      [timers], [devices/timers]) over any device registers (class [Platform]).
    - [Smp]: the start of the processors ([arch/x86_64/smp]) as interleaved steps.
    - [Stages], [StagesSpec]: the stages of [arch/x86_64/arch.c], the loading of the
      bootstrap table and what a woken processor runs, on one machine.
    - [Logger]: the log, [panic], the sanitizers ([misc/logger.c], [misc/panic.c],
      [sanitizers]) and the console device, on a screen and a serial port with one
      memory.
    - [Listings]: the lists of devices, mount points, blocks and files that the
      kernel prints.
    - [Kernel]: [_start] of [main.c], from the first initialisation to the start of
      the scheduler on every processor.
    - [Init]: the table and the entry of the system calls, and the first user
      program ([apps/init]) over a system call instruction (class [Userland]).

    * What the theorems show

    Allocators: after any history of calls, what clients hold is disjoint, inside
    the pools or the region, and keeps its contents; each operation refines its
    abstract counterpart; the page allocator panics exactly when no pool has
    enough bytes.  Page tables: the optimised [map_range] maps what page-by-page
    mapping maps, and [translate_to_physical] reads back what was mapped.
    Scheduler: a preemption saves and restores the right registers, every
    runnable task of a queue is chosen within one round, new tasks go to a
    shortest queue.  Locks: mutual exclusion.  File systems: a path is opened by
    the first mount point that starts it; a file of an archive written by tar is
    found, read back and reported as ended.  System calls: descriptors are given
    out lowest first and freed, [waitpid] reports only zombies that descend from
    the caller and delivers their exit code, the walk over ancestors ends, a child
    of [fork] continues where the call returns.  Devices: devfs finds a device by
    its exact name.  Fork: the child's pages are fresh copies of the parent's.
    Elf: a segment is loaded byte for byte, the task starts at the entry point
    with its stack below the segments.  Output: printk renders its format, on the
    serial line with carriage returns, on the screen inside the framebuffer; a log
    line has its time, module and text; [panic] reports whoever holds the locks
    of the log, but not when the lock of the framebuffer is held; the sanitizer
    names the right fault and place.  Machine: every selector in use names a
    descriptor of the right type, every vector below 255 leads to its handler, a
    fault in the stack maps one fresh page, sleeping with the event timer is long
    enough, the processors start one by one and all of them arrive in every
    interleaving.  The stages: after [arch_init] registers, tables and memory agree,
    and a woken processor leaves the tables of the others alone.  The entry: at the
    end of [_start] every processor runs a task of its own queue, and a concrete
    machine boots up to its first program.  Init: the numbers
    of the calls agree, and a test of the first program shifts out of range.  A few theorems state what the code does where that is not what
    it means to do; PROJECT.json lists these findings.

    * Fuel and bounds

    Loops over linked structures get the number of records of the typed heap,
    loops over strings the length of the string or the number of bytes of the
    memory, scans of archives the number of bytes of the memory; the theorems
    show that this is enough.  The search for a runnable task gets one round of
    the queue.  The walk of [device_create_at] gets two steps per character.
    Bounds such as [kh_fits] (the virtual region of the blocks does not wrap) and
    limits below 2^63 are hypotheses, met by every witness.

    * Hypotheses about what the code relies on

    [named], [left_alone] and [untouched] say that a string the caller passes is
    not overwritten by the allocations made before it is copied; they hold for
    strings in blocks of the heap ([named_block], [left_alone_block],
    [untouched_block]).  The functions of devices and the file systems at their
    addresses are parameters, and so is what other tasks do while a call yields.

    * Not modelled

    The save areas of the vector registers, the assembly around the handlers of
    interrupts, and the requests to the boot loader, whose responses are arguments.
    What [_start] prints is left out of [Kernel] (see [Logger] and [Listings]), and
    the processors that wait join the scheduler there in the order of the list; the
    interleavings of the locks are in [Smp]. *)

From stdpp Require Export base option list gmap.
From Stdlib Require Export ZArith Lia.

#[export] Set Default Goal Selector "!".
Open Scope Z_scope.

(** * Outcomes of kernel code

    A C function either returns, calls the [noreturn] function [panic], spins
    for ever on a lock that its own thread already holds, or does something the
    C language gives no meaning to (an access outside an array, a dereference
    of a null pointer).  [Timeout] is the verdict of a fuelled loop that did not
    finish within its fuel. *)

Inductive outcome (A : Type) : Type :=
  | Done (a : A)
  | Panicked
  | Deadlock
  | Undef
  | Timeout.
Arguments Done {_} _.
Arguments Panicked {_}.
Arguments Deadlock {_}.
Arguments Undef {_}.
Arguments Timeout {_}.

#[export] Instance outcome_ret : MRet outcome := fun _ a => Done a.
#[export] Instance outcome_bind : MBind outcome := fun _ _ f o =>
  match o with
  | Done a => f a
  | Panicked => Panicked
  | Deadlock => Deadlock
  | Undef => Undef
  | Timeout => Timeout
  end.

Lemma bind_done {A B} (f : A -> outcome B) (a : A) : mbind f (Done a) = f a.
Proof. reflexivity. Qed.

(** A bind returned: so did both of its halves. *)
Lemma bind_done_inv {A B} (f : A -> outcome B) (o : outcome A) (b : B) :
  mbind f o = Done b -> exists a, o = Done a /\ f a = Done b.
Proof. destruct o; simpl; try discriminate; eauto. Qed.

Lemma bind_assoc {A B C} (o : outcome A) (f : A -> outcome B) (g : B -> outcome C) :
  (o ≫= f) ≫= g = o ≫= (fun a => f a ≫= g).
Proof. by destruct o. Qed.

(** Whether a computation returned; used to evaluate concrete runs without
    displaying their final state. *)
Definition is_done {A} (o : outcome A) : bool :=
  match o with Done _ => true | _ => false end.

Lemma is_done_inv {A} (o : outcome A) : is_done o = true -> exists a, o = Done a.
Proof. destruct o; simpl; try discriminate; eauto. Qed.

Lemma is_done_bind {A B} (o : outcome A) (f : A -> outcome B) :
  is_done (mbind f o) = true -> exists a, o = Done a /\ is_done (f a) = true.
Proof. destruct o; simpl; try discriminate; eauto. Qed.

(** A value that C dereferences: [None] is the null pointer. *)
Definition deref {A} (o : option A) : outcome A :=
  match o with Some a => Done a | None => Undef end.

(** * Machine integers

    A [w]-bit integer is a [Z]; the wrap-around is written where the source
    computes modulo [2^w]. *)

Definition u8 (z : Z) : Z := z mod 256.
Definition u16 (z : Z) : Z := z mod 65536.
Definition u32 (z : Z) : Z := z mod 4294967296.
Definition u64 (z : Z) : Z := z mod 18446744073709551616.
Definition s32 (z : Z) : Z := (z + 2147483648) mod 4294967296 - 2147483648.
Definition s64 (z : Z) : Z :=
  (z + 9223372036854775808) mod 18446744073709551616 - 9223372036854775808.

Declare Scope word_scope.
Delimit Scope word_scope with word.
Notation "x '+w' y" := (u64 (x + y)) (at level 50, left associativity) : word_scope.
Notation "x '-w' y" := (u64 (x - y)) (at level 50, left associativity) : word_scope.
Notation "x '*w' y" := (u64 (x * y)) (at level 40, left associativity) : word_scope.
Open Scope word_scope.

Abbreviation in_u64 z := (0 <= z < 18446744073709551616).

Ltac zlia := Z.to_euclidean_division_equations; lia.

Lemma u64_range z : in_u64 (u64 z).
Proof. unfold u64. apply Z.mod_pos_bound. lia. Qed.

Lemma u64_small z : in_u64 z -> u64 z = z.
Proof. intros. unfold u64. by apply Z.mod_small. Qed.

Lemma u64_idemp z : u64 (u64 z) = u64 z.
Proof. apply u64_small, u64_range. Qed.

Lemma s64_range z : -9223372036854775808 <= s64 z < 9223372036854775808.
Proof. unfold s64. pose proof (Z.mod_pos_bound (z + 9223372036854775808) 18446744073709551616). lia. Qed.

Lemma s64_small z : -9223372036854775808 <= z < 9223372036854775808 -> s64 z = z.
Proof. intros. unfold s64. rewrite Z.mod_small; lia. Qed.

Lemma s32_small z : -2147483648 <= z < 2147483648 -> s32 z = z.
Proof. intros. unfold s32. rewrite Z.mod_small; lia. Qed.

Create HintDb gaos.
#[export] Hint Resolve u64_range : gaos.
Create Rewrite HintDb gaos.
#[export] Hint Rewrite u64_idemp : gaos.

(** Rewrite away every [u64] whose argument is in range. *)
Ltac wsimp :=
  repeat match goal with
  | |- context [u64 ?z] => rewrite (u64_small z) by lia
  | H : context [u64 ?z] |- _ => rewrite (u64_small z) in H by lia
  end.

(** Case analysis on the boolean tests the models branch on. *)
Ltac btest :=
  match goal with
  | |- context [?a <? ?b] => destruct (Z.ltb_spec a b)
  | |- context [?a <=? ?b] => destruct (Z.leb_spec a b)
  | |- context [?a =? ?b] => destruct (Z.eqb_spec a b)
  | |- context [?a >=? ?b] => rewrite (Z.geb_leb a b)
  | |- context [?a >? ?b] => rewrite (Z.gtb_ltb a b)
  end.

Ltac btest_in H :=
  match type of H with
  | context [?a <? ?b] => destruct (Z.ltb_spec a b)
  | context [?a <=? ?b] => destruct (Z.leb_spec a b)
  | context [?a =? ?b] => destruct (Z.eqb_spec a b)
  | context [?a >=? ?b] => rewrite (Z.geb_leb a b) in H
  | context [?a >? ?b] => rewrite (Z.gtb_ltb a b) in H
  end.

(** * Bit facts shared by the bitmap and the page tables *)

Lemma testbit_1 i : Z.testbit 1 i = bool_decide (i = 0).
Proof.
  case_bool_decide as H; [by subst|].
  destruct (Z.ltb_spec i 0); [by apply Z.testbit_neg_r|].
  apply (Z.bits_above_log2 1 i); simpl; lia.
Qed.

Lemma testbit_mask b i :
  0 <= b -> 0 <= i -> Z.testbit (Z.shiftl 1 b) i = bool_decide (i = b).
Proof.
  intros. rewrite Z.shiftl_spec by done. rewrite testbit_1. apply bool_decide_ext. lia.
Qed.

Lemma mask_range b : 0 <= b < 64 -> in_u64 (Z.shiftl 1 b).
Proof.
  intros. rewrite Z.shiftl_mul_pow2, Z.mul_1_l by lia.
  change 18446744073709551616 with (2 ^ 64).
  split; [apply Z.pow_nonneg; lia | apply Z.pow_lt_mono_r; lia].
Qed.

(** A value below [2^n] has no bit from [n] on, and conversely. *)
Lemma testbit_high n v i : 0 <= v < 2 ^ n -> n <= i -> Z.testbit v i = false.
Proof.
  intros Hv Hi. destruct (Z.leb_spec 0 n).
  - rewrite <- (Z.mod_small v (2 ^ n)) by done. by apply Z.mod_pow2_bits_high.
  - rewrite Z.pow_neg_r in Hv by lia. lia.
Qed.

Lemma bound_of_bits n v :
  0 <= n -> 0 <= v -> (forall i, n <= i -> Z.testbit v i = false) -> v < 2 ^ n.
Proof.
  intros Hn Hv Hb. destruct (Z.ltb_spec v (2 ^ n)) as [|Hge]; [done|]. exfalso.
  assert (n <= Z.log2 v) as Hl by (apply Z.log2_le_pow2; [|done]; pose proof (Z.pow_pos_nonneg 2 n); lia).
  pose proof (Hb (Z.log2 v) Hl) as Hf. rewrite Z.bit_log2 in Hf; [done|].
  pose proof (Z.pow_pos_nonneg 2 n). lia.
Qed.

Lemma lor_u64 a b : in_u64 a -> in_u64 b -> in_u64 (Z.lor a b).
Proof.
  intros. split; [apply Z.lor_nonneg; lia|].
  apply (bound_of_bits 64); [lia|apply Z.lor_nonneg; lia|].
  intros i Hi. rewrite Z.lor_spec, !(testbit_high 64) by (done || lia). done.
Qed.

Lemma land_u64 a b : in_u64 a -> 0 <= b -> in_u64 (Z.land a b).
Proof.
  intros. split; [apply Z.land_nonneg; lia|].
  apply (bound_of_bits 64); [lia|apply Z.land_nonneg; lia|].
  intros i Hi. rewrite Z.land_spec, (testbit_high 64 a) by (done || lia). done.
Qed.

(** [x & (1 << b)] is zero exactly when bit [b] is clear. *)
Lemma land_mask_zero x b : 0 <= b -> (Z.land x (Z.shiftl 1 b) =? 0) = negb (Z.testbit x b).
Proof.
  intros Hb. destruct (Z.testbit x b) eqn:E; simpl.
  - apply Z.eqb_neq. intros H0.
    assert (Z.testbit (Z.land x (Z.shiftl 1 b)) b = false) as Hf by (rewrite H0; apply Z.testbit_0_l).
    rewrite Z.land_spec, E, testbit_mask, bool_decide_true in Hf by done. done.
  - apply Z.eqb_eq. apply Z.bits_inj'. intros i Hi.
    rewrite Z.land_spec, testbit_mask, Z.testbit_0_l by done.
    case_bool_decide; [subst; by rewrite E | by rewrite andb_false_r].
Qed.

(** * List facts *)

(** The first element of a list that satisfies a test, with what precedes it. *)
Lemma list_find_split {A} (P : A -> bool) (l : list A) :
  (exists l1 x l2, l = l1 ++ x :: l2 /\ P x = true /\ Forall (fun y => P y = false) l1) \/
  Forall (fun y => P y = false) l.
Proof.
  induction l as [|a l IH]; [by right|].
  destruct (P a) eqn:E.
  - left. exists [], a, l. eauto using Forall_nil.
  - destruct IH as [(l1 & x & l2 & -> & Hx & H1)|IH].
    + left. exists (a :: l1), x, l2. eauto using Forall_cons.
    + right. by constructor.
Qed.

(** Lists written [l1 ++ x :: l2]: an update of the element in the middle. *)
Lemma elem_of_middle {A} (x : A) l1 l2 y : y ∈ l1 ++ x :: l2 <-> y = x \/ y ∈ l1 ++ l2.
Proof. rewrite !elem_of_app, elem_of_cons. tauto. Qed.

Section Middle.
Context {A : Type} (R : A -> A -> Prop) (x x' : A) (l1 l2 : list A).

Lemma pairs_middle : (forall a b, R a b -> R b a) ->
  ForallOrdPairs R (l1 ++ x :: l2) -> forall y, y ∈ l1 ++ l2 -> R x y.
Proof.
  intros Hsym. induction l1 as [|a l IH]; simpl; intros H y Hy.
  - inversion_clear H as [|? ? Hx _]. rewrite Forall_forall in Hx. by apply Hx.
  - inversion_clear H as [|? ? Ha Hl]. apply elem_of_cons in Hy as [->|Hy].
    + apply Hsym. rewrite Forall_forall in Ha. apply Ha. set_solver.
    + by apply IH.
Qed.

Lemma pairs_replace : (forall y, R y x -> R y x') -> (forall y, R x y -> R x' y) ->
  ForallOrdPairs R (l1 ++ x :: l2) -> ForallOrdPairs R (l1 ++ x' :: l2).
Proof.
  intros Hl Hr. induction l1 as [|a l IH]; simpl; intros H; inversion_clear H as [|? ? Ha Hp].
  - constructor; [|done]. eapply Forall_impl; eauto.
  - constructor; [|by apply IH]. apply Forall_app in Ha as [H1 H2].
    apply Forall_app; split; [done|]. inversion_clear H2. constructor; eauto.
Qed.
End Middle.

(** Distinct keys of a map are not more than its size. *)
Lemma keys_size {A} (m : gmap Z A) (l : list Z) :
  NoDup l -> (forall x, x ∈ l -> is_Some (m !! x)) -> (length l <= size m)%nat.
Proof.
  intros Hn Hl. rewrite <- (size_dom (D := gset Z)).
  rewrite <- (size_list_to_set (C := gset Z) l Hn). apply subseteq_size.
  intros x Hx. apply elem_of_dom, Hl. by apply elem_of_list_to_set in Hx.
Qed.
