(* ===== verification/Memory.v ===== *)
(** The memory the kernel addresses: bytes indexed by kernel virtual address,
    little-endian loads and stores of the widths the kernel uses, the fill loop
    behind [memset] and the page-clearing routine of
    [arch/x86_64/memory/memory.asm], and the frame reasoning the components
    share. *)

From S2P Require Import Prelude.

(** Memory is total; an address without a cell reads as zero.  A cell is
    normalised to a byte when it is read, so no well-formedness condition on
    the map is needed. *)
Abbreviation mem := (gmap Z Z).

Definition ld8 (m : mem) (a : Z) : Z := u8 (default 0 (m !! a)).
Definition st8 (m : mem) (a v : Z) : mem := <[a := u8 v]> m.

(** Little-endian access to [n] bytes. *)
Fixpoint le_load (m : mem) (a : Z) (n : nat) : Z :=
  match n with
  | O => 0
  | S n' => ld8 m a + 256 * le_load m (a + 1) n'
  end.

Fixpoint le_store (m : mem) (a : Z) (n : nat) (v : Z) : mem :=
  match n with
  | O => m
  | S n' => le_store (st8 m a v) (a + 1) n' (v / 256)
  end.

Definition ld16 (m : mem) (a : Z) : Z := le_load m a 2.
Definition ld32 (m : mem) (a : Z) : Z := le_load m a 4.
Definition ld64 (m : mem) (a : Z) : Z := le_load m a 8.
Definition st32 (m : mem) (a v : Z) : mem := le_store m a 4 v.
Definition st64 (m : mem) (a v : Z) : mem := le_store m a 8 v.

(** [for (i = 0; i < n; i++) p[i] = v], upwards from [a]. *)
Fixpoint fill (m : mem) (a : Z) (n : nat) (v : Z) : mem :=
  match n with
  | O => m
  | S n' => fill (st8 m a v) (a + 1) n' v
  end.

(** [bytes m a n]: the [n] bytes from [a] on, as a list. *)
Fixpoint bytes (m : mem) (a : Z) (n : nat) : list Z :=
  match n with
  | O => []
  | S n' => ld8 m a :: bytes m (a + 1) n'
  end.

(** One iteration of the loop of [arch_zero_pages] clears the 4096 bytes at
    [rdi] (256 stores of 16 bytes at increasing offsets), then advances. *)
Fixpoint arch_zero_pages (m : mem) (rdi : Z) (rsi : nat) : mem :=
  match rsi with
  | O => m
  | S n => arch_zero_pages (fill m rdi 4096 0) (rdi + 4096) n
  end.

(** Two memories that agree on every byte. *)
Definition mem_eq (m m' : mem) : Prop := forall a, ld8 m a = ld8 m' a.

(** [m'] differs from [m] at most on the addresses of [P]. *)
Definition changes (P : Z -> Prop) (m m' : mem) : Prop :=
  forall a, ~ P a -> ld8 m' a = ld8 m a.

(** * Bytes *)

Lemma ld8_range m a : 0 <= ld8 m a < 256.
Proof. unfold ld8, u8. apply Z.mod_pos_bound. lia. Qed.

Lemma ld8_st8 m a v b : ld8 (st8 m a v) b = if decide (a = b) then u8 v else ld8 m b.
Proof.
  unfold ld8, st8. rewrite lookup_insert. case_decide; simpl; [|done].
  unfold u8. by rewrite Z.mod_mod.
Qed.

Lemma ld8_fill m a n v b :
  ld8 (fill m a n v) b = if decide (a <= b < a + Z.of_nat n) then u8 v else ld8 m b.
Proof.
  revert m a. induction n as [|n IH]; intros m a; simpl.
  - case_decide; [lia|done].
  - rewrite IH, ld8_st8. repeat case_decide; try lia; done.
Qed.

Lemma ld8_zero_pages m a n b :
  ld8 (arch_zero_pages m a n) b =
  if decide (a <= b < a + 4096 * Z.of_nat n) then 0 else ld8 m b.
Proof.
  revert m a. induction n as [|n IH]; intros m a; cbn [arch_zero_pages].
  - case_decide; [lia|done].
  - rewrite IH, ld8_fill. repeat case_decide; try lia; done.
Qed.

Lemma ld8_le_store_other m a n v b :
  b < a \/ a + Z.of_nat n <= b -> ld8 (le_store m a n v) b = ld8 m b.
Proof.
  revert m a v. induction n as [|n IH]; intros m a v H; simpl; [done|].
  rewrite IH by lia. rewrite ld8_st8. case_decide; [lia|done].
Qed.

(** * Words *)

Lemma le_load_ext m m' a n :
  (forall b, a <= b < a + Z.of_nat n -> ld8 m' b = ld8 m b) -> le_load m' a n = le_load m a n.
Proof.
  revert a. induction n as [|n IH]; intros a H; simpl; [done|].
  rewrite H by lia. rewrite IH; [done|]. intros. apply H. lia.
Qed.

Lemma le_load_range m a n : 0 <= le_load m a n < 256 ^ Z.of_nat n.
Proof.
  revert a. induction n as [|n IH]; intros a; cbn [le_load]; [done|].
  rewrite Nat2Z.inj_succ, Z.pow_succ_r by lia. specialize (IH (a + 1)).
  pose proof (ld8_range m a). lia.
Qed.

Lemma le_load_store_same m a n v : le_load (le_store m a n v) a n = v mod 256 ^ Z.of_nat n.
Proof.
  revert m a v. induction n as [|n IH]; intros m a v; cbn [le_load le_store].
  - by rewrite Z.mod_1_r.
  - rewrite IH, ld8_le_store_other, ld8_st8, decide_True by (done || lia).
    unfold u8. rewrite Nat2Z.inj_succ, Z.pow_succ_r by lia.
    rewrite Z.rem_mul_r by (try apply Z.pow_pos_nonneg; lia). lia.
Qed.

Lemma le_load_store_other m a n v b k :
  b + Z.of_nat k <= a \/ a + Z.of_nat n <= b -> le_load (le_store m a n v) b k = le_load m b k.
Proof. intros. apply le_load_ext. intros. apply ld8_le_store_other. lia. Qed.

Lemma ld64_range m a : in_u64 (ld64 m a).
Proof. apply (le_load_range m a 8). Qed.

Lemma ld64_st64 m a v : ld64 (st64 m a v) a = u64 v.
Proof. apply (le_load_store_same m a 8). Qed.

Lemma ld64_st64_other m a v b : b + 8 <= a \/ a + 8 <= b -> ld64 (st64 m a v) b = ld64 m b.
Proof. intros. apply le_load_store_other. lia. Qed.

Lemma ld8_st64_other m a v b : b < a \/ a + 8 <= b -> ld8 (st64 m a v) b = ld8 m b.
Proof. intros. apply ld8_le_store_other. lia. Qed.

Lemma ld64_ext m m' a :
  (forall b, a <= b < a + 8 -> ld8 m' b = ld8 m b) -> ld64 m' a = ld64 m a.
Proof. intros H. apply le_load_ext. intros. apply H. lia. Qed.

Lemma ld64_zero m a : (forall b, a <= b < a + 8 -> ld8 m b = 0) -> ld64 m a = 0.
Proof.
  intros H. rewrite (ld64_ext ∅); [done|]. intros b Hb. by rewrite H.
Qed.

(** * Byte lists *)

Lemma length_bytes m a n : length (bytes m a n) = n.
Proof. revert a. induction n; intros; simpl; auto. Qed.

Lemma bytes_lookup m a n i :
  (i < n)%nat -> bytes m a n !! i = Some (ld8 m (a + Z.of_nat i)).
Proof.
  revert a i. induction n as [|n IH]; intros a i Hi; [lia|].
  destruct i; cbn [bytes].
  - simpl. do 2 f_equal. lia.
  - cbn [lookup list_lookup]. change (bytes m (a + 1) n !! i = Some (ld8 m (a + Z.of_nat (S i)))).
    rewrite IH by lia. do 2 f_equal. lia.
Qed.

Lemma bytes_ext m m' a n :
  (forall b, a <= b < a + Z.of_nat n -> ld8 m' b = ld8 m b) -> bytes m' a n = bytes m a n.
Proof.
  revert a. induction n as [|n IH]; intros a H; cbn [bytes]; [done|].
  rewrite H by lia. f_equal. apply IH. intros. apply H. lia.
Qed.

Lemma bytes_app m a n k : bytes m a (n + k) = bytes m a n ++ bytes m (a + Z.of_nat n) k.
Proof.
  revert a. induction n as [|n IH]; intros a; cbn [bytes Nat.add].
  - simpl. f_equal. lia.
  - rewrite IH. simpl. do 3 f_equal. lia.
Qed.

(** * The equivalence of memories *)

#[export] Instance mem_eq_equivalence : Equivalence mem_eq.
Proof.
  split; unfold mem_eq; [done| intros ?? H a; by rewrite H | intros ??? H1 H2 a; by rewrite H1].
Qed.

#[export] Instance ld8_proper : Proper (mem_eq ==> eq ==> eq) ld8.
Proof. intros m m' H a ? <-. apply H. Qed.

#[export] Instance st8_proper : Proper (mem_eq ==> eq ==> eq ==> mem_eq) st8.
Proof. intros m m' H a ? <- v ? <- b. rewrite !ld8_st8. case_decide; [done|apply H]. Qed.

#[export] Instance le_load_proper : Proper (mem_eq ==> eq ==> eq ==> eq) le_load.
Proof. intros m m' H a ? <- n ? <-. symmetry. apply le_load_ext. intros. symmetry. apply H. Qed.

#[export] Instance ld64_proper : Proper (mem_eq ==> eq ==> eq) ld64.
Proof. intros m m' H a ? <-. unfold ld64. by rewrite H. Qed.

(** * Frames *)

Lemma changes_refl P m : changes P m m.
Proof. done. Qed.

Lemma changes_trans P m1 m2 m3 : changes P m1 m2 -> changes P m2 m3 -> changes P m1 m3.
Proof. intros H1 H2 a Ha. rewrite H2, H1; done. Qed.

Lemma changes_mono (P Q : Z -> Prop) m m' :
  (forall a, P a -> Q a) -> changes P m m' -> changes Q m m'.
Proof. intros H Hc a Ha. apply Hc. naive_solver. Qed.

Lemma changes_ld64 P m m' a :
  changes P m m' -> (forall b, a <= b < a + 8 -> ~ P b) -> ld64 m' a = ld64 m a.
Proof. intros Hc H. apply ld64_ext. intros. apply Hc. auto. Qed.

Lemma changes_st8 (P : Z -> Prop) m m' a v : changes P m m' -> P a -> changes P m (st8 m' a v).
Proof. intros H Ha b Hb. rewrite ld8_st8. case_decide; [congruence|by apply H]. Qed.

Lemma changes_st64 (P : Z -> Prop) m a v :
  (forall b, a <= b < a + 8 -> P b) -> changes P m (st64 m a v).
Proof.
  intros H b Hb. apply ld8_st64_other.
  destruct (Z.ltb_spec b a); [by left|]. destruct (Z.leb_spec (a + 8) b); [by right|].
  exfalso. apply Hb, H. lia.
Qed.

Lemma changes_fill (P : Z -> Prop) m a n v :
  (forall b, a <= b < a + Z.of_nat n -> P b) -> changes P m (fill m a n v).
Proof. intros H b Hb. rewrite ld8_fill. case_decide; [|done]. exfalso. eauto. Qed.

Lemma changes_zero_pages (P : Z -> Prop) m a n :
  (forall b, a <= b < a + 4096 * Z.of_nat n -> P b) -> changes P m (arch_zero_pages m a n).
Proof. intros H b Hb. rewrite ld8_zero_pages. case_decide; [|done]. exfalso. eauto. Qed.

#[export] Hint Resolve ld8_range ld64_range changes_refl : gaos.
