(* ===== verification/Libc.v ===== *)
(** The freestanding C library of the kernel: [misc/libc.c] and the inline
    functions and error-value macros of [misc/libc.h].

    Every function works on the shared memory.  The scan of [strlen] has no
    bound in the source; here its fuel is the number of cells of the memory
    plus one, which is always enough because a memory has finitely many
    non-zero bytes ([strlen_spec]). *)

From S2P Require Import Prelude Memory.

(** * Errors as values *)

Definition EPERM : Z := 1.
Definition ENOENT : Z := 2.
Definition EBADF : Z := 9.
Definition ECHILD : Z := 10.
Definition EACCES : Z := 13.
Definition EFAULT : Z := 14.
Definition EINVAL : Z := 22.
Definition EMAXLEVEL : Z := 255.

Definition error_of (x : Z) : Z := s64 x.
Definition is_error (x : Z) : bool := (error_of x <? 0) && (- EMAXLEVEL <=? error_of x).

(** [error_ptr(-e)]: the error as a pointer value. *)
Definition error_ptr (x : Z) : Z := u64 x.

(** * Integer helpers *)

Definition min (a b : Z) : Z := let a := s32 a in let b := s32 b in if a >? b then b else a.
Definition max (a b : Z) : Z := let a := s32 a in let b := s32 b in if a >? b then a else b.
Definition abs (a : Z) : Z := let a := s32 a in if a <? 0 then s32 (- a) else a.

(** * Memory functions *)

Fixpoint memcpy_loop (m : mem) (dest src : Z) (n : nat) : mem :=
  match n with
  | O => m
  | S n' => memcpy_loop (st8 m dest (ld8 m src)) (dest + 1) (src + 1) n'
  end.

Definition memcpy (m : mem) (dest src n : Z) : mem := memcpy_loop m dest src (Z.to_nat n).

(** [for (i = n; i > 0; i--) pdest[i - 1] = psrc[i - 1]]. *)
Fixpoint memmove_down (m : mem) (dest src : Z) (n : nat) : mem :=
  match n with
  | O => m
  | S n' => memmove_down (st8 m (dest + Z.of_nat n') (ld8 m (src + Z.of_nat n'))) dest src n'
  end.

Definition memmove (m : mem) (dest src n : Z) : mem :=
  if src >? dest then memcpy_loop m dest src (Z.to_nat n)
  else if src <? dest then memmove_down m dest src (Z.to_nat n)
  else m.

Definition memset (m : mem) (s c n : Z) : mem := fill m s (Z.to_nat n) c.

Fixpoint memcmp_loop (m : mem) (p1 p2 : Z) (n : nat) : Z :=
  match n with
  | O => 0
  | S n' =>
      if negb (ld8 m p1 =? ld8 m p2) then (if ld8 m p1 <? ld8 m p2 then -1 else 1)
      else memcmp_loop m (p1 + 1) (p2 + 1) n'
  end.

Definition memcmp (m : mem) (s1 s2 n : Z) : Z := memcmp_loop m s1 s2 (Z.to_nat n).

(** [zero64]: stores of 8 bytes, [n / 8] of them. *)
Fixpoint zero64_loop (m : mem) (s : Z) (n : nat) : mem :=
  match n with
  | O => m
  | S n' => zero64_loop (st64 m s 0) (s + 8) n'
  end.

Definition zero64 (m : mem) (s n : Z) : mem := zero64_loop m s (Z.to_nat (n / 8)).

(** * String functions *)

Fixpoint strlen_loop (m : mem) (str i : Z) (fuel : nat) : Z :=
  match fuel with
  | O => i
  | S f => if ld8 m (str + i) =? 0 then i else strlen_loop m str (i + 1) f
  end.

Definition strlen (m : mem) (str : Z) : Z := strlen_loop m str 0 (S (size m)).

Definition strcpy (m : mem) (dest src : Z) : mem := memcpy m dest src (strlen m src).

(** The loop of [strncmp]: the pointers and the count it stops with. *)
Fixpoint strncmp_loop (m : mem) (s1 s2 : Z) (n : nat) : Z * Z * nat :=
  match n with
  | O => (s1, s2, O)
  | S n' =>
      if negb (ld8 m s1 =? 0) && (ld8 m s1 =? ld8 m s2)
      then strncmp_loop m (s1 + 1) (s2 + 1) n'
      else (s1, s2, n)
  end.

Definition strncmp (m : mem) (s1 s2 n : Z) : Z :=
  match strncmp_loop m s1 s2 (Z.to_nat n) with
  | (_, _, O) => 0
  | (s1, s2, S _) => ld8 m s1 - ld8 m s2
  end.

(** [for (i, j; i < j; i++, j--)] exchanging [str[i]] and [str[j]]. *)
Fixpoint swap_loop (m : mem) (str i j : Z) (fuel : nat) : mem :=
  match fuel with
  | O => m
  | S f =>
      if i <? j then
        let a := ld8 m (str + i) in
        let m1 := st8 m (str + i) (ld8 m (str + j)) in
        let m2 := st8 m1 (str + j) a in
        swap_loop m2 str (i + 1) (j - 1) f
      else m
  end.

Definition strrev (m : mem) (str : Z) : mem :=
  let len := strlen m str in
  swap_loop m str 0 (s32 (len - 1)) (Z.to_nat len).

(** * Numbers to text *)

(** ["0123456789ABCDEF"[digit]]. *)
Definition digit_char (digit : Z) : Z := if digit <? 10 then 48 + digit else 55 + digit.

(** The digits, least significant first, until the value is used up or the
    buffer is full; the new memory and [buffer_index]. *)
Fixpoint digits_loop (m : mem) (buffer value base index limit : Z) (fuel : nat) :
    outcome (mem * Z) :=
  match fuel with
  | O => Timeout
  | S f =>
      if value =? 0 then Done (m, index)
      else
        let digit := value mod base in
        let m' := st8 m (buffer + index) (digit_char digit) in
        if limit <=? index + 1 then Done (m', index + 1)
        else digits_loop m' buffer (value / base) base (index + 1) limit f
  end.

Definition num_to_string (m : mem) (value buffer buffer_bytes base : Z) : outcome mem :=
  let limit := buffer_bytes -w 1 in
  if value =? 0 then Done (st8 (st8 m buffer 48) (buffer + 1) 0)
  else
    '(m1, n) ← digits_loop m buffer value base 0 limit 65;
    let m2 := swap_loop m1 buffer 0 (s32 (n - 1)) (Z.to_nat n) in
    Done (st8 m2 (buffer + n) 0).

(** * C strings: the specification side *)

(** [str] points to the bytes [s] and a terminator. *)
Definition cstr (m : mem) (str : Z) (s : list Z) : Prop :=
  bytes m str (length s) = s /\ ld8 m (str + Z.of_nat (length s)) = 0 /\
  Forall (fun c => c <> 0) s.

(** Horner's rule on text, most significant digit first. *)
Definition char_digit (c : Z) : Z := if c <? 58 then c - 48 else c - 55.
Definition read_number (base : Z) (s : list Z) : Z :=
  fold_left (fun acc c => acc * base + char_digit c) s 0.

(** The first position at which two byte strings of length [n] differ decides
    their lexicographic order. *)
Fixpoint lex_compare (l1 l2 : list Z) : Z :=
  match l1, l2 with
  | a :: l1', b :: l2' => if a =? b then lex_compare l1' l2' else if a <? b then -1 else 1
  | _, _ => 0
  end.

(** * Lemmas *)

Lemma is_error_spec x : in_u64 x ->
  is_error x = true <-> 18446744073709551616 - 255 <= x.
Proof.
  intros Hx. unfold is_error, error_of, EMAXLEVEL, s64.
  rewrite andb_true_iff, Z.ltb_lt, Z.leb_le. zlia.
Qed.

Lemma is_error_ptr e : 1 <= e <= 255 -> is_error (error_ptr (- e)) = true.
Proof.
  intros. apply is_error_spec; unfold error_ptr; [apply u64_range|]. unfold u64. zlia.
Qed.

Lemma error_of_ptr e : 0 <= e <= 255 -> error_of (error_ptr (- e)) = - e.
Proof. intros. unfold error_of, error_ptr, s64, u64. zlia. Qed.

Lemma min_small a b : -2147483648 <= a < 2147483648 -> -2147483648 <= b < 2147483648 ->
  min a b = Z.min a b.
Proof. intros. unfold min. rewrite !s32_small by lia. btest. btest; lia. Qed.

(** Closes an equation between bytes once the addresses are compared. *)
Ltac by_bytes :=
  repeat case_decide; subst; try lia;
  unfold u8; rewrite ?Z.mod_small by apply ld8_range; try done; try (f_equal; lia).

(** A copy between disjoint ranges. *)
Lemma ld8_memcpy_loop m dest src n b :
  dest + Z.of_nat n <= src \/ src + Z.of_nat n <= dest ->
  ld8 (memcpy_loop m dest src n) b =
  if decide (dest <= b < dest + Z.of_nat n) then ld8 m (src + (b - dest)) else ld8 m b.
Proof.
  revert m dest src. induction n as [|n IH]; intros m dest src H; cbn [memcpy_loop].
  - case_decide; [lia|done].
  - rewrite IH by lia. rewrite !ld8_st8. by_bytes.
Qed.

(** An upward copy is also right when the destination is below the source. *)
Lemma ld8_memcpy_up m dest src n b :
  dest <= src ->
  ld8 (memcpy_loop m dest src n) b =
  if decide (dest <= b < dest + Z.of_nat n) then ld8 m (src + (b - dest)) else ld8 m b.
Proof.
  revert m dest src. induction n as [|n IH]; intros m dest src H; cbn [memcpy_loop].
  - case_decide; [lia|done].
  - rewrite IH by lia. rewrite !ld8_st8. by_bytes.
Qed.

Lemma ld8_memmove_down m dest src n b :
  src <= dest ->
  ld8 (memmove_down m dest src n) b =
  if decide (dest <= b < dest + Z.of_nat n) then ld8 m (src + (b - dest)) else ld8 m b.
Proof.
  revert m. induction n as [|n IH]; intros m H; cbn [memmove_down].
  - case_decide; [lia|done].
  - rewrite IH by lia. rewrite !ld8_st8. by_bytes.
Qed.

Lemma changes_memcpy (P : Z -> Prop) m dest src n :
  (forall b, dest <= b < dest + Z.of_nat n -> P b) -> changes P m (memcpy_loop m dest src n).
Proof.
  revert m dest src. induction n as [|n IH]; intros m dest src H; cbn [memcpy_loop]; [done|].
  eapply changes_trans; [|apply IH; intros; apply H; lia].
  apply changes_st8; [done|]. apply H. lia.
Qed.

(** Any copy, at a byte whose source is not in the destination. *)
Lemma ld8_memcpy_byte m dest src n i :
  0 <= i < Z.of_nat n -> ~ (dest <= src + i < dest + i) ->
  ld8 (memcpy_loop m dest src n) (dest + i) = ld8 m (src + i).
Proof.
  revert m dest src i. induction n as [|n IH]; intros m dest src i Hi Hs; cbn [memcpy_loop]; [lia|].
  destruct (decide (i = 0)) as [->|Hne].
  - rewrite !Z.add_0_r. rewrite (changes_memcpy (fun b => dest < b)) by lia. rewrite ld8_st8. by_bytes.
  - replace (dest + i) with (dest + 1 + (i - 1)) by lia. rewrite IH by lia. rewrite ld8_st8.
    replace (src + 1 + (i - 1)) with (src + i) by lia. rewrite decide_False by lia. done.
Qed.

Lemma ld8_zero64_loop m a n b :
  ld8 (zero64_loop m a n) b = if decide (a <= b < a + 8 * Z.of_nat n) then 0 else ld8 m b.
Proof.
  revert m a. induction n as [|n IH]; intros m a; cbn [zero64_loop].
  - case_decide; [lia|done].
  - rewrite IH. destruct (decide (a <= b < a + 8)) as [Hin|Hout].
    + rewrite decide_False by lia. rewrite decide_True by lia.
      assert (ld64 (st64 m a 0) a = 0) as Hz by (rewrite ld64_st64; done).
      unfold ld64 in Hz. cbn [le_load] in Hz.
      pose proof (ld8_range (st64 m a 0)) as Hr.
      assert (b = a \/ b = a+1 \/ b = a+1+1 \/ b = a+1+1+1 \/ b = a+1+1+1+1 \/ b = a+1+1+1+1+1
              \/ b = a+1+1+1+1+1+1 \/ b = a+1+1+1+1+1+1+1) as Hb by lia.
      pose proof (Hr a). pose proof (Hr (a+1)). pose proof (Hr (a+1+1)).
      pose proof (Hr (a+1+1+1)). pose proof (Hr (a+1+1+1+1)). pose proof (Hr (a+1+1+1+1+1)).
      pose proof (Hr (a+1+1+1+1+1+1)). pose proof (Hr (a+1+1+1+1+1+1+1)).
      destruct_or!; subst b; lia.
    + rewrite ld8_st64_other by lia. repeat case_decide; (lia || done).
Qed.

(** [strlen_loop] stops at the first zero or at the end of its fuel. *)
Lemma strlen_loop_spec m str i f :
  let r := strlen_loop m str i f in
  i <= r <= i + Z.of_nat f /\ (forall k, i <= k < r -> ld8 m (str + k) <> 0) /\
  (r < i + Z.of_nat f -> ld8 m (str + r) = 0).
Proof.
  revert i. induction f as [|f IH]; intros i; cbn [strlen_loop].
  - split; [lia|]. split; intros; lia.
  - destruct (Z.eqb_spec (ld8 m (str + i)) 0) as [E|E]; simpl.
    + split; [lia|]. split; intros; [lia|done].
    + destruct (IH (i + 1)) as (H1 & H2 & H3). split; [lia|]. split.
      * intros k Hk. destruct (decide (k = i)) as [->|]; [done|]. apply H2. lia.
      * intros. apply H3. lia.
Qed.

(** More consecutive non-zero bytes than the memory has cells cannot be. *)
Lemma nonzero_run_bound m a n :
  (forall k, 0 <= k < Z.of_nat n -> ld8 m (a + k) <> 0) -> (n <= size m)%nat.
Proof.
  intros H. set (X := (list_to_set (seqZ a (Z.of_nat n)) : gset Z)).
  assert (size X = n) as HX.
  { unfold X. rewrite size_list_to_set by apply NoDup_seqZ. rewrite length_seqZ. lia. }
  rewrite <- HX, <- size_dom. apply subseteq_size. intros b Hb.
  apply elem_of_list_to_set, elem_of_seqZ in Hb.
  apply elem_of_dom. destruct (m !! b) eqn:E; [eauto|]. exfalso.
  apply (H (b - a)); [lia|]. unfold ld8. replace (a + (b - a)) with b by lia. by rewrite E.
Qed.

(** The fuel of [strlen] is always enough. *)
Lemma strlen_spec m str :
  0 <= strlen m str /\ ld8 m (str + strlen m str) = 0 /\
  (forall k, 0 <= k < strlen m str -> ld8 m (str + k) <> 0).
Proof.
  unfold strlen. pose proof (strlen_loop_spec m str 0 (S (size m))) as H. cbv zeta in H.
  set (r := strlen_loop m str 0 (S (size m))) in *. destruct H as (H1 & H2 & H3).
  split; [lia|]. split; [|done]. apply H3.
  assert (Z.to_nat r <= size m)%nat; [|lia].
  apply (nonzero_run_bound m str). intros k Hk. apply H2. lia.
Qed.

Lemma strlen_cstr m str s : cstr m str s -> strlen m str = Z.of_nat (length s).
Proof.
  intros (Hs & H0 & Hnz). destruct (strlen_spec m str) as (Hp & Hz & Hn).
  destruct (Z.lt_trichotomy (strlen m str) (Z.of_nat (length s))) as [Hlt|[|Hgt]]; [|done|].
  - exfalso. set (i := Z.to_nat (strlen m str)).
    assert (s !! i = Some 0) as Hl.
    { rewrite <- Hs, bytes_lookup by lia. f_equal. rewrite <- Hz. do 2 f_equal. lia. }
    by apply (Forall_lookup_1 _ _ _ _ Hnz Hl).
  - exfalso. apply (Hn (Z.of_nat (length s))); [lia|done].
Qed.

(** Every pointer is a C string in this memory. *)
Lemma cstr_strlen m str : cstr m str (bytes m str (Z.to_nat (strlen m str))).
Proof.
  destruct (strlen_spec m str) as (Hp & Hz & Hn). unfold cstr. rewrite !length_bytes.
  split; [done|]. rewrite Z2Nat.id by done. split; [done|].
  apply Forall_lookup. intros i c Hc. pose proof (lookup_lt_Some _ _ _ Hc) as Hi.
  rewrite length_bytes in Hi. rewrite bytes_lookup in Hc by done. injection Hc as <-.
  apply Hn. lia.
Qed.

Lemma memcmp_lex m p1 p2 n : memcmp_loop m p1 p2 n = lex_compare (bytes m p1 n) (bytes m p2 n).
Proof.
  revert p1 p2. induction n as [|n IH]; intros; cbn [memcmp_loop bytes lex_compare]; [done|].
  destruct (ld8 m p1 =? ld8 m p2); simpl; [apply IH|done].
Qed.

Lemma lex_compare_eq l1 l2 :
  length l1 = length l2 -> lex_compare l1 l2 = 0 <-> l1 = l2.
Proof.
  revert l2. induction l1 as [|a l1 IH]; intros [|b l2] Hl; simpl in *; try done.
  destruct (Z.eqb_spec a b) as [->|Hne].
  - rewrite IH by lia. naive_solver.
  - btest; naive_solver.
Qed.

(** [strncmp] finds no difference exactly when the strings agree up to [n]
    characters or up to a common terminator. *)
Lemma strncmp_loop_zero m s1 s2 n :
  (match strncmp_loop m s1 s2 n with
   | (_, _, O) => 0 | (s1, s2, S _) => ld8 m s1 - ld8 m s2 end) = 0 <->
  (forall k, 0 <= k < Z.of_nat n -> (forall j, 0 <= j < k -> ld8 m (s1 + j) <> 0) ->
             ld8 m (s1 + k) = ld8 m (s2 + k)).
Proof.
  revert s1 s2. induction n as [|n IH]; intros s1 s2; cbn [strncmp_loop].
  - split; [intros; lia|done].
  - destruct (Z.eqb_spec (ld8 m s1) 0) as [Ez|Enz]; simpl.
    + split.
      * intros H k Hk Hj. destruct (decide (k = 0)) as [->|]; [rewrite !Z.add_0_r; lia|].
        exfalso. apply (Hj 0); [lia|]. by rewrite Z.add_0_r.
      * intros H. specialize (H 0). rewrite !Z.add_0_r in H.
        rewrite H; [lia|lia|intros; lia].
    + destruct (Z.eqb_spec (ld8 m s1) (ld8 m s2)) as [E|E].
      * rewrite IH. split.
        -- intros H k Hk Hj. destruct (decide (k = 0)) as [->|]; [by rewrite !Z.add_0_r|].
           specialize (H (k - 1)). replace (s1 + 1 + (k - 1)) with (s1 + k) in H by lia.
           replace (s2 + 1 + (k - 1)) with (s2 + k) in H by lia. apply H; [lia|].
           intros j Hj'. replace (s1 + 1 + j) with (s1 + (j + 1)) by lia. apply Hj. lia.
        -- intros H k Hk Hj. replace (s1 + 1 + k) with (s1 + (k + 1)) by lia.
           replace (s2 + 1 + k) with (s2 + (k + 1)) by lia. apply H; [lia|].
           intros j Hj'. destruct (decide (j = 0)) as [->|]; [by rewrite Z.add_0_r|].
           replace (s1 + j) with (s1 + 1 + (j - 1)) by lia. apply Hj. lia.
      * split; [intros; lia|]. intros H. exfalso. apply E. specialize (H 0).
        rewrite !Z.add_0_r in H. apply H; [lia|intros; lia].
Qed.

(** The shape in which the kernel uses it: comparing a C string over exactly
    its own length is a prefix test. *)
Lemma strncmp_prefix m s1 s2 s :
  cstr m s1 s ->
  strncmp m s1 s2 (Z.of_nat (length s)) = 0 <-> bytes m s2 (length s) = s.
Proof.
  intros (Hs & _ & Hnz). unfold strncmp. rewrite Nat2Z.id, strncmp_loop_zero.
  assert (forall j, 0 <= j < Z.of_nat (length s) -> ld8 m (s1 + j) <> 0) as Hj.
  { intros j Hj. eapply (Forall_lookup_1 _ _ (Z.to_nat j) _ Hnz). rewrite <- Hs.
    rewrite (bytes_lookup _ _ _ (Z.to_nat j)) by lia. do 2 f_equal. lia. }
  split.
  - intros H. rewrite <- Hs at 2. apply list_eq_same_length with (n := length s);
      rewrite ?length_bytes; [done..|].
    intros i x y Hi Hx Hy. rewrite bytes_lookup in Hx, Hy by done. simplify_eq.
    symmetry. apply H; [lia|]. intros. apply Hj. lia.
  - intros H k Hk _. rewrite <- Hs in H at 2. apply (f_equal (.!! Z.to_nat k)) in H.
    rewrite !bytes_lookup in H by lia. rewrite Z2Nat.id in H by lia. by simplify_eq.
Qed.

(** The swap loop reverses a range and touches nothing else. *)
Lemma ld8_swap_loop m str i j f b :
  j - i < 2 * Z.of_nat f ->
  ld8 (swap_loop m str i j f) b =
  if decide (str + i <= b <= str + j) then ld8 m (str + i + (str + j - b)) else ld8 m b.
Proof.
  revert m i j. induction f as [|f IH]; intros m i j Hf; cbn [swap_loop].
  - case_decide; [lia|done].
  - btest; simpl.
    + rewrite IH by lia. rewrite !ld8_st8. by_bytes.
    + case_decide; [f_equal; lia|done].
Qed.

Lemma bytes_swap m str n :
  bytes (swap_loop m str 0 (Z.of_nat n - 1) n) str n = reverse (bytes m str n).
Proof.
  apply list_eq_same_length with (n := n); rewrite ?length_reverse, ?length_bytes; [done..|].
  intros i x y Hi Hx Hy. rewrite bytes_lookup, ld8_swap_loop in Hx by lia.
  rewrite reverse_lookup in Hy by (rewrite length_bytes; lia).
  rewrite length_bytes, bytes_lookup in Hy by lia.
  rewrite decide_True in Hx by lia. injection Hx as <-. injection Hy as <-. f_equal. lia.
Qed.

(** The value of a list of digits, least significant first. *)
Definition digits_value (base : Z) (ds : list Z) : Z :=
  fold_right (fun d acc => d + base * acc) 0 ds.

Lemma digit_char_byte d : 0 <= d < 16 -> u8 (digit_char d) = digit_char d.
Proof. intros. unfold digit_char, u8. btest; apply Z.mod_small; lia. Qed.

Lemma digits_loop_S m buffer value base index limit f :
  digits_loop m buffer value base index limit (S f) =
  if value =? 0 then Done (m, index)
  else
    let m' := st8 m (buffer + index) (digit_char (value mod base)) in
    if limit <=? index + 1 then Done (m', index + 1)
    else digits_loop m' buffer (value / base) base (index + 1) limit f.
Proof. reflexivity. Qed.

(** The digits of a value below [2^fuel], least significant first. *)
Fixpoint digits_of (base value : Z) (fuel : nat) : list Z :=
  match fuel with
  | O => []
  | S f => if value =? 0 then [] else value mod base :: digits_of base (value / base) f
  end.

(** The text of a 64-bit number, without leading zeros. *)
Definition numeral (base value : Z) : list Z :=
  if value =? 0 then [48] else reverse (map digit_char (digits_of base value 64)).

Lemma digits_of_zero base f : digits_of base 0 f = [].
Proof. by destruct f. Qed.

Lemma quotient_bound base value f :
  2 <= base -> 0 <= value < 2 ^ Z.of_nat (S f) -> 0 <= value / base < 2 ^ Z.of_nat f.
Proof.
  intros Hb Hv. rewrite Nat2Z.inj_succ, Z.pow_succ_r in Hv by lia.
  split; [apply Z.div_pos; lia|]. apply Z.div_lt_upper_bound; nia.
Qed.

Lemma digits_of_value base value f :
  2 <= base -> 0 <= value < 2 ^ Z.of_nat f ->
  Forall (fun d => 0 <= d < base) (digits_of base value f) /\ digits_value base (digits_of base value f) = value.
Proof.
  intros Hb. revert value. induction f as [|f IH]; intros value Hv; cbn [digits_of].
  - simpl in Hv. split; [constructor|simpl; lia].
  - destruct (Z.eqb_spec value 0) as [->|Hnz]; [split; [constructor|done]|].
    destruct (IH (value / base) (quotient_bound base value f Hb Hv)) as [H1 H2].
    split; [constructor; [apply Z.mod_pos_bound; lia|done]|]. simpl. rewrite H2.
    pose proof (Z.div_mod value base). lia.
Qed.

Lemma digits_loop_spec m buffer value base index limit f :
  2 <= base <= 16 -> 0 <= value < 2 ^ Z.of_nat f -> index < limit ->
  value < base ^ (limit - index) ->
  let ds := digits_of base value f in
  exists m',
    digits_loop m buffer value base index limit (S f) = Done (m', index + Z.of_nat (length ds)) /\
    index + Z.of_nat (length ds) <= limit /\
    bytes m' (buffer + index) (length ds) = map digit_char ds /\
    changes (fun b => buffer + index <= b < buffer + limit) m m' /\
    changes (fun b => buffer + index <= b) m m'.
Proof.
  intros Hbase. revert m value index.
  induction f as [|f IH]; intros m value index Hv Hidx Hfit; rewrite digits_loop_S; cbv zeta; cbn [digits_of].
  - assert (value = 0) as -> by (simpl in Hv; lia).
    exists m. simpl. rewrite Z.add_0_r. split_and!; (done || lia).
  - destruct (Z.eqb_spec value 0) as [->|Hnz].
    { exists m. simpl. rewrite Z.add_0_r. split_and!; (done || lia). }
    pose proof (Z.mod_pos_bound value base). pose proof (Z.div_mod value base).
    set (m1 := st8 m (buffer + index) (digit_char (value mod base))).
    assert (forall P : Z -> Prop, P (buffer + index) -> changes P m m1) as Hm1
      by (intros; by apply changes_st8).
    assert (ld8 m1 (buffer + index) = digit_char (value mod base)) as Hd
      by (unfold m1; rewrite ld8_st8, decide_True by done; apply digit_char_byte; lia).
    destruct (Z.leb_spec limit (index + 1)) as [Hlim|Hlim].
    + replace (limit - index) with 1 in Hfit by lia. rewrite Z.pow_1_r in Hfit.
      rewrite (Z.div_small value base), digits_of_zero by lia. exists m1. simpl. rewrite Hd.
      split_and!; (done || lia || (apply Hm1; lia)).
    + destruct (IH m1 (value / base) (index + 1)) as (m' & Hl & Hn & Hb & Hc & Hc').
      * apply quotient_bound; lia.
      * lia.
      * replace (limit - index) with (Z.succ (limit - (index + 1))) in Hfit by lia.
        rewrite Z.pow_succ_r in Hfit by lia. apply Z.div_lt_upper_bound; lia.
      * exists m'. rewrite Hl. cbn [length bytes map]. split_and!.
        -- do 2 f_equal. lia.
        -- lia.
        -- replace (buffer + index + 1) with (buffer + (index + 1)) by lia. rewrite Hb, Hc', Hd by lia. done.
        -- eapply changes_trans; [apply Hm1; lia|]. eapply changes_mono; [|exact Hc]. simpl. lia.
        -- eapply changes_trans; [apply Hm1; lia|]. eapply changes_mono; [|exact Hc']. simpl. lia.
Qed.

Lemma char_digit_char d : 0 <= d < 16 -> char_digit (digit_char d) = d.
Proof. intros. unfold char_digit, digit_char. repeat btest; lia. Qed.

Lemma read_number_digits base ds :
  base <= 16 -> Forall (fun d => 0 <= d < base) ds ->
  read_number base (reverse (map digit_char ds)) = digits_value base ds.
Proof.
  intros Hb Hd. unfold read_number, reverse. rewrite <- rev_alt, <- fold_left_rev_right, rev_involutive.
  induction Hd as [|d ds Hd _ IH]; simpl; [done|].
  rewrite IH, char_digit_char by lia. lia.
Qed.

Lemma digit_char_nonzero ds : Forall (fun d => 0 <= d < 16) ds ->
  Forall (fun c => c <> 0) (reverse (map digit_char ds)).
Proof.
  intros H. apply Forall_reverse, Forall_map. eapply Forall_impl; [exact H|].
  simpl. intros d Hd. unfold digit_char. btest; lia.
Qed.

Lemma num_to_string_spec m value buffer buffer_bytes base :
  2 <= base <= 16 -> in_u64 value -> 2 <= buffer_bytes < 2147483648 ->
  value < base ^ (buffer_bytes - 1) ->
  exists m',
    num_to_string m value buffer buffer_bytes base = Done m' /\
    cstr m' buffer (numeral base value) /\ Z.of_nat (length (numeral base value)) < buffer_bytes /\
    read_number base (numeral base value) = value /\
    changes (fun b => buffer <= b < buffer + buffer_bytes) m m'.
Proof.
  intros Hbase Hv Hbb Hfit. unfold num_to_string, numeral. rewrite u64_small by lia.
  destruct (Z.eqb_spec value 0) as [->|Hnz].
  - exists (st8 (st8 m buffer 48) (buffer + 1) 0). split_and!; try done.
    + split_and!; simpl; [|rewrite ld8_st8, decide_True by lia; done|by repeat constructor].
      rewrite !ld8_st8, decide_False, decide_True by lia. done.
    + simpl; lia.
    + repeat apply changes_st8; (done || lia).
  - destruct (digits_of_value base value 64) as [Hd Hval]; [lia|done|].
    destruct (digits_loop_spec m buffer value base 0 (buffer_bytes - 1) 64)
      as (m1 & -> & Hn & Hb & Hc & _); [lia|done|lia|by rewrite Z.sub_0_r|].
    set (ds := digits_of base value 64) in *.
    rewrite bind_done, Z.add_0_l. rewrite Z.add_0_l in Hn. rewrite Z.add_0_r in Hb, Hc.
    rewrite s32_small, Nat2Z.id by lia.
    set (m2 := swap_loop m1 buffer 0 (Z.of_nat (length ds) - 1) (length ds)).
    assert (bytes m2 buffer (length ds) = reverse (map digit_char ds)) as Hm2.
    { unfold m2. rewrite bytes_swap. by f_equal. }
    exists (st8 m2 (buffer + Z.of_nat (length ds)) 0).
    rewrite length_reverse, length_map. split_and!; [done| |lia| |].
    + unfold cstr. rewrite length_reverse, length_map. split_and!.
      * rewrite <- Hm2. apply bytes_ext. intros b Hb'. rewrite ld8_st8, decide_False by lia. done.
      * rewrite ld8_st8, decide_True by done. done.
      * apply digit_char_nonzero. eapply Forall_impl; [exact Hd|]. simpl. lia.
    + rewrite read_number_digits; [done|lia|done].
    + apply changes_st8; [|lia]. eapply changes_trans; [eapply changes_mono; [|exact Hc]; simpl; lia|].
      intros b Hb'. unfold m2. rewrite ld8_swap_loop by lia. rewrite decide_False by lia. done.
Qed.

(** * Properties *)

(** memmove copies the range as it was before the call, also when source and destination
    overlap, and changes nothing else. *)
Theorem memmove_copies m dest src n b :
  ld8 (memmove m dest src n) b =
  if decide (dest <= b < dest + n) then ld8 m (src + (b - dest)) else ld8 m b.
Proof.
  unfold memmove. rewrite Z.gtb_ltb.
  destruct (Z.ltb_spec dest src); [rewrite ld8_memcpy_up by lia; repeat case_decide; (done || lia)|].
  btest; [rewrite ld8_memmove_down by lia; repeat case_decide; (done || lia)|].
  case_decide; [f_equal; lia|done].
Qed.

(** strlen terminates at the first zero byte. *)
Theorem strlen_total m str :
  0 <= strlen m str /\ ld8 m (str + strlen m str) = 0 /\
  (forall k, 0 <= k < strlen m str -> ld8 m (str + k) <> 0).
Proof. apply strlen_spec. Qed.

(** strcpy copies the characters of the string and leaves the byte after them as it was: the
    terminator is not copied. *)
Theorem strcpy_copies_without_terminator m dest src s :
  cstr m src s ->
  dest + Z.of_nat (length s) < src \/ src + Z.of_nat (length s) < dest ->
  bytes (strcpy m dest src) dest (length s) = s /\
  ld8 (strcpy m dest src) (dest + Z.of_nat (length s)) = ld8 m (dest + Z.of_nat (length s)).
Proof.
  intros Hs Hd. unfold strcpy, memcpy. rewrite (strlen_cstr _ _ _ Hs), Nat2Z.id.
  split; [|by rewrite ld8_memcpy_loop, decide_False by lia].
  destruct Hs as (Hs & _). rewrite <- Hs at 3.
  apply list_eq_same_length with (n := length s); rewrite ?length_bytes; [done..|].
  intros i x y Hi Hx Hy. rewrite bytes_lookup in Hx, Hy by done.
  rewrite ld8_memcpy_loop, decide_True in Hx by lia. simplify_eq. f_equal. lia.
Qed.

Lemma strcpy_copies_without_terminator_witness :
  let m := st8 (st8 (st8 ∅ 10 47) 11 100) 22 7 in
  bytes (strcpy m 20 10) 20 2 = [47; 100] /\ ld8 (strcpy m 20 10) 22 = 7.
Proof.
  destruct (strcpy_copies_without_terminator
    (st8 (st8 (st8 ∅ 10 47) 11 100) 22 7) 20 10 [47; 100]) as [H1 H2].
  - split; [vm_compute; reflexivity|]. split; [vm_compute; reflexivity|].
    repeat constructor; discriminate.
  - simpl. lia.
  - split; [exact H1|]. etransitivity; [exact H2|vm_compute; reflexivity].
Defined.

(** C39. num_to_string writes a terminated string inside the buffer that reads back as the
    number, in every base from 2 to 16, when the buffer is large enough. *)
Theorem num_to_string_roundtrip m value buffer buffer_bytes base :
  2 <= base <= 16 -> in_u64 value -> 2 <= buffer_bytes < 2147483648 ->
  value < base ^ (buffer_bytes - 1) ->
  exists m',
    num_to_string m value buffer buffer_bytes base = Done m' /\
    cstr m' buffer (numeral base value) /\ Z.of_nat (length (numeral base value)) < buffer_bytes /\
    read_number base (numeral base value) = value /\
    changes (fun b => buffer <= b < buffer + buffer_bytes) m m'.
Proof. intros. destruct (num_to_string_spec m value buffer buffer_bytes base) as (m' & ?); eauto. Qed.

Lemma num_to_string_roundtrip_witness :
  exists m',
    num_to_string ∅ 48879 100 32 16 = Done m' /\
    cstr m' 100 [66; 69; 69; 70] /\ 4 < 32 /\
    read_number 16 [66; 69; 69; 70] = 48879 /\ changes (fun b => 100 <= b < 100 + 32) ∅ m'.
Proof. apply (num_to_string_roundtrip ∅ 48879 100 32 16); try lia. Defined.

(** Comparing a string over its own length with strncmp gives 0 exactly when the other string
    starts with it. *)
Theorem strncmp_prefix_test m s1 s2 s :
  cstr m s1 s ->
  strncmp m s1 s2 (strlen m s1) = 0 <-> bytes m s2 (length s) = s.
Proof. intros H. rewrite (strlen_cstr _ _ _ H). by apply strncmp_prefix. Qed.

Lemma strncmp_prefix_test_witness :
  let m := st8 (st8 (st8 (st8 ∅ 10 47) 20 47) 21 47) 22 47 in
  strncmp m 10 20 (strlen m 10) = 0 <-> bytes m 20 1 = [47].
Proof.
  apply (strncmp_prefix_test (st8 (st8 (st8 (st8 ∅ 10 47) 20 47) 21 47) 22 47) 10 20 [47]).
  split; [vm_compute; reflexivity|]. split; [vm_compute; reflexivity|].
  repeat constructor; discriminate.
Defined.
