(* ===== verification/Spinlock.v ===== *)
(** The spin locks of [lock/spinlock.c].

    Sequential view: the lock word as the code that runs on one processor sees
    it, threaded through the state of the component it protects.  Acquiring a
    lock that is already taken spins for ever when nobody else can release it,
    which is the outcome [Deadlock].

    Concurrent view: any number of processors that run
    [spinlock_acquire; critical section; spinlock_release] in a loop, one atomic
    access to the lock word per step; [test_and_set] either takes the lock or
    leaves the processor spinning, exactly as the [while] of
    [spinlock_acquire]. *)

From S2P Require Import Prelude.

(** * Sequential view *)

(** [atomic_flag]: [true] is "set". *)
Abbreviation spinlock_t := bool.

Definition spinlock_acquire (lock : spinlock_t) : outcome spinlock_t :=
  if lock then Deadlock else Done true.

Definition spinlock_release (lock : spinlock_t) : spinlock_t := false.

(** * Concurrent view *)

Module Concurrent.

(** Where a processor stands with respect to one lock.  [Spinning count] is
    inside the [while] with the retry counter that is reset when it reaches
    [100000000]. *)
Inductive pc : Type :=
  | Outside
  | Spinning (count : Z)
  | Critical.

Record state := State { lock : spinlock_t; cpus : list pc }.

Definition limit : Z := 100000000.

(** The atomic read-modify-write: the old value and the new state. *)
Definition test_and_set (l : spinlock_t) : bool * spinlock_t := (l, true).

(** The retry counter after one failed attempt. *)
Definition bump (count : Z) : Z := if limit <=? count + 1 then 0 else count + 1.

(** One step of one processor. *)
Definition cpu_step (l : spinlock_t) (p : pc) : spinlock_t * pc :=
  match p with
  | Outside => (l, Spinning 0)
  | Spinning count =>
      let '(old, l') := test_and_set l in
      if old then (l', Spinning (bump count)) else (l', Critical)
  | Critical => (spinlock_release l, Outside)
  end.

(** The system: any processor may take the next step. *)
Inductive step : state -> state -> Prop :=
  | step_cpu l ps i p :
      ps !! i = Some p ->
      step (State l ps) (State (fst (cpu_step l p)) (<[i := snd (cpu_step l p)]> ps)).

Inductive reachable (n : nat) : state -> Prop :=
  | reach_init : reachable n (State false (replicate n Outside))
  | reach_step s s' : reachable n s -> step s s' -> reachable n s'.

Definition critical (s : state) (i : nat) : Prop := cpus s !! i = Some Critical.

(** The lock word is set exactly while one processor is in its critical
    section, and no retry counter leaves its range. *)
Record inv (s : state) : Prop := {
  inv_excl : forall i j, critical s i -> critical s j -> i = j;
  inv_held : lock s = true <-> exists i, critical s i;
  inv_count : forall i c, cpus s !! i = Some (Spinning c) -> 0 <= c < limit
}.

Lemma bump_range c : 0 <= c < limit -> 0 <= bump c < limit.
Proof. unfold bump, limit. intros. btest; lia. Qed.

Lemma inv_init n : inv (State false (replicate n Outside)).
Proof.
  split; unfold critical; simpl.
  - intros i j Hi. by apply lookup_replicate in Hi as [? _].
  - split; [done|]. intros [i Hi]. by apply lookup_replicate in Hi as [? _].
  - intros i c Hi. by apply lookup_replicate in Hi as [? _].
Qed.

(** What one processor's new position does to the critical set. *)
Lemma critical_update l ps i q j :
  (i < length ps)%nat ->
  critical (State l (<[i := q]> ps)) j <->
  (j = i /\ q = Critical) \/ (j <> i /\ ps !! j = Some Critical).
Proof.
  intros Hi. unfold critical; simpl. destruct (decide (j = i)) as [->|Hne].
  - rewrite list_lookup_insert_eq by done. naive_solver.
  - rewrite list_lookup_insert_ne by done. naive_solver.
Qed.

Lemma spin_range_update l ps i q :
  (forall j c, ps !! j = Some (Spinning c) -> 0 <= c < limit) ->
  (forall c, q = Spinning c -> 0 <= c < limit) ->
  forall j c, cpus (State l (<[i := q]> ps)) !! j = Some (Spinning c) -> 0 <= c < limit.
Proof.
  simpl. intros Hps Hq j c Hj. apply list_lookup_insert_Some in Hj as [(-> & -> & _)|[_ Hj]]; eauto.
Qed.

Lemma inv_step s s' : inv s -> step s s' -> inv s'.
Proof.
  intros [He Hh Hc] Hs. destruct Hs as [l ps i p Hp]. unfold critical in *; simpl in *.
  pose proof (lookup_lt_Some _ _ _ Hp) as Hi.
  assert (forall q, (forall c, q = Spinning c -> 0 <= c < limit) ->
          forall l' j c, cpus (State l' (<[i := q]> ps)) !! j = Some (Spinning c) -> 0 <= c < limit)
    as Hcnt by (intros; eapply spin_range_update; eauto).
  destruct p as [|c|]; [|destruct l|]; simpl; split;
    try (intros j k; rewrite !critical_update by done);
    try (setoid_rewrite critical_update; [|done]);
    try (apply Hcnt; intros ? [= <-]; unfold limit; (lia || (apply bump_range; eauto)));
    simpl; naive_solver.
Qed.

Lemma inv_reachable n s : reachable n s -> inv s.
Proof. induction 1; eauto using inv_init, inv_step. Qed.

(** C22. With any number of processors that acquire and release one spin lock, at most one is
    between the two at any time, and none is while the lock is clear. *)
Theorem spinlock_mutual_exclusion (n : nat) (s : state) :
  reachable n s ->
  (forall i j, critical s i -> critical s j -> i = j) /\
  (lock s = false -> forall i, ~ critical s i).
Proof.
  intros H%inv_reachable. split; [apply (inv_excl _ H)|].
  intros Hf i Hi. apply not_true_iff_false in Hf. apply Hf, (inv_held _ H). eauto.
Qed.

Lemma spinlock_mutual_exclusion_witness :
  let s := State true [Spinning 1; Critical] in
  reachable 2 s /\ (forall i j, critical s i -> critical s j -> i = j) /\
  (lock s = false -> forall i, ~ critical s i).
Proof.
  assert (reachable 2 (State true [Spinning 1; Critical])) as H.
  { eapply reach_step; [eapply reach_step; [eapply reach_step; [eapply reach_step;
      [apply (reach_init 2)|]|]|]|].
    - apply (step_cpu false [Outside; Outside] 1 Outside). reflexivity.
    - apply (step_cpu false [Outside; Spinning 0] 1 (Spinning 0)). reflexivity.
    - apply (step_cpu true [Outside; Critical] 0 Outside). reflexivity.
    - apply (step_cpu true [Spinning 0; Critical] 0 (Spinning 0)). reflexivity. }
  split; [exact H|]. apply (spinlock_mutual_exclusion 2 _ H).
Defined.

(** Progress: a processor that retries while the lock is free enters. *)
Lemma acquire_enters c : cpu_step false (Spinning c) = (true, Critical).
Proof. reflexivity. Qed.

End Concurrent.
