(* ===== verification/PageAllocator.v ===== *)
(** The physical page allocator, [memory/physical/page_allocator.c].

    A pool manages one usable region of the boot memory map: a bitmap at the
    start of the region (one bit per page, in 64-bit words) followed by the
    pages it hands out.  The bitmap and the pages are parts of the same memory,
    as in the kernel, so clearing a page could in principle damage a bitmap;
    the invariant of this file shows it does not. *)

From S2P Require Import Prelude Memory Libc Spinlock.

Definition PAGE : Z := 4096.

(** * Data *)

Record page_allocator_pool_t := Pool {
  allocate_base : Z;
  bitmap_base : Z;
  used : Z;
  available : Z;
  total : Z;
  bitmap_entries : Z;
  last_allocated_page_index : Z
}.

(** An entry of the memory map the boot loader hands over.  The numeric type
    of a usable region is [LIMINE_MEMMAP_USABLE], a constant of the boot
    protocol's header. *)
Record limine_memmap_entry := MemmapEntry {
  entry_base : Z;
  entry_length : Z;
  entry_type : Z
}.

(** The globals of the allocator and the memory it works on.  The list holds
    the first [allocator_pool_index] elements of [allocator_pools]. *)
Record pa_state := PA {
  pa_mem : mem;
  allocator_pools : list page_allocator_pool_t;
  page_allocator_lock : spinlock_t
}.

Definition set_pa_mem (s : pa_state) (m : mem) : pa_state :=
  PA m (allocator_pools s) (page_allocator_lock s).

(** * The bitmap *)

Definition bitmap_set (m : mem) (bitmap index : Z) : mem :=
  let byte_offset := index / 64 in
  let bit := index mod 64 in
  let mask := Z.shiftl 1 bit in
  let pointer := bitmap + 8 * byte_offset in
  st64 m pointer (Z.lor (ld64 m pointer) mask).

Definition bitmap_unset (m : mem) (bitmap index : Z) : mem :=
  let byte_offset := index / 64 in
  let bit := index mod 64 in
  let mask := Z.shiftl 1 bit in
  let pointer := bitmap + 8 * byte_offset in
  st64 m pointer (Z.land (ld64 m pointer) (Z.lnot mask)).

Definition bitmap_get (m : mem) (bitmap index : Z) : Z :=
  let byte_offset := index / 64 in
  let bit := index mod 64 in
  let mask := Z.shiftl 1 bit in
  let pointer := bitmap + 8 * byte_offset in
  Z.land (ld64 m pointer) mask.

(** * Creating the pools *)

Section Create.
Context (kernel_hhdm_offset : Z) (LIMINE_MEMMAP_USABLE : Z).

Definition required_bitmap_bytes (length : Z) : Z :=
  let bytes := length / PAGE / 8 in
  if bytes mod PAGE =? 0 then bytes else bytes + (PAGE - bytes mod PAGE).

Definition new_pool (e : limine_memmap_entry) : page_allocator_pool_t :=
  let req := required_bitmap_bytes (entry_length e) in
  {| bitmap_entries := entry_length e / PAGE;
     bitmap_base := entry_base e +w kernel_hhdm_offset;
     allocate_base := u64 (entry_base e + req + kernel_hhdm_offset);
     used := 0;
     available := entry_length e -w req;
     total := entry_length e -w req;
     last_allocated_page_index := 0 |}.

(** The body of the loop over the memory map.  [allocator_pools] has 128
    elements. *)
Definition create_pool (s : pa_state) (e : limine_memmap_entry) : outcome pa_state :=
  if negb (entry_type e =? LIMINE_MEMMAP_USABLE) then Done s
  else if entry_length e <=? 128 * 1024 then Done s
  else if (128 <=? length (allocator_pools s))%nat then Undef
  else
    let p := new_pool e in
    Done (PA (zero64 (pa_mem s) (bitmap_base p) (required_bitmap_bytes (entry_length e)))
             (allocator_pools s ++ [p]) (page_allocator_lock s)).

Fixpoint page_allocator_create_pools_limine
    (s : pa_state) (entries : list limine_memmap_entry) : outcome pa_state :=
  match entries with
  | [] => Done s
  | e :: es => s' ← create_pool s e; page_allocator_create_pools_limine s' es
  end.

(** [page_allocator_init] then only sums up and prints the totals. *)
Definition page_allocator_init (m : mem) (entries : list limine_memmap_entry) :
    outcome pa_state :=
  page_allocator_create_pools_limine (PA m [] false) entries.
End Create.

(** * Allocation *)

(** The scan of the fast path: the first clear bit among [n] from [index] on. *)
Fixpoint scan_single (m : mem) (bitmap index : Z) (n : nat) : option Z :=
  match n with
  | O => None
  | S n' =>
      if negb (bitmap_get m bitmap index =? 0) then scan_single m bitmap (index + 1) n'
      else Some index
  end.

(** The loop over the pools of [__page_allocate_single_fast]; the new value of
    the pools is returned with the pointer. *)
Fixpoint single_fast_loop (m : mem) (ps : list page_allocator_pool_t) :
    option (Z * mem * list page_allocator_pool_t) :=
  match ps with
  | [] => None
  | pool :: rest =>
      let next :=
        match single_fast_loop m rest with
        | Some (ptr, m', rest') => Some (ptr, m', pool :: rest')
        | None => None
        end in
      if available pool <? PAGE then next
      else
        match scan_single m (bitmap_base pool) (last_allocated_page_index pool)
                (Z.to_nat (bitmap_entries pool - last_allocated_page_index pool)) with
        | None => next
        | Some index =>
            let m1 := bitmap_set m (bitmap_base pool) index in
            let pool' :=
              {| allocate_base := allocate_base pool; bitmap_base := bitmap_base pool;
                 used := used pool +w PAGE; available := available pool -w PAGE;
                 total := total pool; bitmap_entries := bitmap_entries pool;
                 last_allocated_page_index := index |} in
            let pointer := allocate_base pool +w (index *w PAGE) in
            Some (pointer, arch_zero_pages m1 pointer 1, pool' :: rest)
        end
  end.

Definition __page_allocate_single_fast (s : pa_state) : outcome (Z * pa_state) :=
  l ← spinlock_acquire (page_allocator_lock s);
  match single_fast_loop (pa_mem s) (allocator_pools s) with
  | Some (pointer, m', ps') => Done (pointer, PA m' ps' (spinlock_release l))
  | None => Panicked
  end.

(** [for (offset = 0; offset < pages; offset++) if (bitmap_get(...)) goto try_next]. *)
Fixpoint range_free (m : mem) (bitmap index : Z) (pages : nat) : bool :=
  match pages with
  | O => true
  | S n => if negb (bitmap_get m bitmap index =? 0) then false
           else range_free m bitmap (index + 1) n
  end.

Fixpoint set_range (m : mem) (bitmap index : Z) (pages : nat) : mem :=
  match pages with
  | O => m
  | S n => set_range (bitmap_set m bitmap index) bitmap (index + 1) n
  end.

(** The scan of the general path. *)
Fixpoint scan_range (m : mem) (bitmap entries pages index : Z) (n : nat) : option Z :=
  match n with
  | O => None
  | S n' =>
      let next := scan_range m bitmap entries pages (index + 1) n' in
      if negb (bitmap_get m bitmap index =? 0) then next
      else if entries <? index +w pages then next
      else if range_free m bitmap index (Z.to_nat pages) then Some index
      else next
  end.

Fixpoint page_allocate_loop (m : mem) (pages : Z) (ps : list page_allocator_pool_t) :
    option (Z * mem * list page_allocator_pool_t) :=
  match ps with
  | [] => None
  | pool :: rest =>
      let required_bytes := pages *w PAGE in
      let next :=
        match page_allocate_loop m pages rest with
        | Some (ptr, m', rest') => Some (ptr, m', pool :: rest')
        | None => None
        end in
      if available pool <? required_bytes then next
      else
        match scan_range m (bitmap_base pool) (bitmap_entries pool) pages
                (last_allocated_page_index pool)
                (Z.to_nat (bitmap_entries pool - last_allocated_page_index pool)) with
        | None => next
        | Some index =>
            let m1 := set_range m (bitmap_base pool) index (Z.to_nat pages) in
            let pool' :=
              {| allocate_base := allocate_base pool; bitmap_base := bitmap_base pool;
                 used := used pool +w required_bytes;
                 available := available pool -w required_bytes;
                 total := total pool; bitmap_entries := bitmap_entries pool;
                 last_allocated_page_index := index |} in
            let pointer := allocate_base pool +w (index *w PAGE) in
            Some (pointer, arch_zero_pages m1 pointer (Z.to_nat pages), pool' :: rest)
        end
  end.

(** The general path of [page_allocate], after the tests on [pages]. *)
Definition page_allocate_general (pages : Z) (s : pa_state) : outcome (Z * pa_state) :=
  l ← spinlock_acquire (page_allocator_lock s);
  match page_allocate_loop (pa_mem s) pages (allocator_pools s) with
  | Some (pointer, m', ps') => Done (pointer, PA m' ps' (spinlock_release l))
  | None => Panicked
  end.

Definition page_allocate (pages : Z) (s : pa_state) : outcome (Z * pa_state) :=
  let pages := if pages =? 0 then 1 else pages in
  if pages =? 1 then __page_allocate_single_fast s else page_allocate_general pages s.

(** * Deallocation *)

(** Clears the bits that are set; a clear bit is only reported. *)
Fixpoint unset_range (m : mem) (bitmap index : Z) (pages : nat) : mem :=
  match pages with
  | O => m
  | S n =>
      let m' := if bitmap_get m bitmap index =? 0 then m else bitmap_unset m bitmap index in
      unset_range m' bitmap (index + 1) n
  end.

Fixpoint page_deallocate_loop (m : mem) (base_int pages : Z) (ps : list page_allocator_pool_t) :
    mem :=
  match ps with
  | [] => m
  | pool :: rest =>
      if (allocate_base pool <=? base_int) && (base_int <=? allocate_base pool +w total pool) then
        let index := (base_int - allocate_base pool) / PAGE in
        unset_range m (bitmap_base pool) index (Z.to_nat pages)
      else page_deallocate_loop m base_int pages rest
  end.

Definition page_deallocate (base pages : Z) (s : pa_state) : outcome pa_state :=
  l ← spinlock_acquire (page_allocator_lock s);
  Done (PA (page_deallocate_loop (pa_mem s) base pages (allocator_pools s))
           (allocator_pools s) (spinlock_release l)).

Definition page_reallocate (base old_pages new_pages : Z) (s : pa_state) :
    outcome (Z * pa_state) :=
  '(new_base, s1) ← page_allocate new_pages s;
  let s2 := set_pa_mem s1 (memcpy (pa_mem s1) new_base base (old_pages *w PAGE)) in
  s3 ← page_deallocate base old_pages s2;
  Done (new_base, s3).

(** * Accounting *)

Definition sum_pools (f : page_allocator_pool_t -> Z) (s : pa_state) : Z :=
  fold_left (fun acc p => acc +w f p) (allocator_pools s) 0.

Definition page_count_free (s : pa_state) : Z := sum_pools available s.
Definition page_count_used (s : pa_state) : Z := sum_pools used s.
Definition page_count_total (s : pa_state) : Z := sum_pools total s.

(** * The bitmap as a set of page indices *)

Definition bit (m : mem) (bitmap index : Z) : bool := negb (bitmap_get m bitmap index =? 0).

(** The address of the word that holds a bit. *)
Definition word_of (bitmap index : Z) : Z := bitmap + 8 * (index / 64).

Lemma bit_testbit m bm i :
  bit m bm i = Z.testbit (ld64 m (word_of bm i)) (i mod 64).
Proof.
  unfold bit, bitmap_get. rewrite land_mask_zero by (apply Z.mod_pos_bound; lia).
  by rewrite negb_involutive.
Qed.

Lemma word_of_cases bm i j : word_of bm i = word_of bm j \/
  word_of bm i + 8 <= word_of bm j \/ word_of bm j + 8 <= word_of bm i.
Proof. unfold word_of. lia. Qed.

Lemma word_of_same bm i j : word_of bm i = word_of bm j -> i mod 64 = j mod 64 -> i = j.
Proof. unfold word_of. zlia. Qed.

Lemma bit_set m bm i j :
  bit (bitmap_set m bm i) bm j = if decide (i = j) then true else bit m bm j.
Proof.
  rewrite !bit_testbit. unfold bitmap_set. fold (word_of bm i).
  pose proof (Z.mod_pos_bound i 64). pose proof (Z.mod_pos_bound j 64).
  destruct (word_of_cases bm i j) as [E|E].
  - rewrite <- E, ld64_st64, u64_small by (apply lor_u64; auto using ld64_range, mask_range with lia).
    rewrite Z.lor_spec, testbit_mask by lia. case_decide as Hij.
    + subst. by rewrite bool_decide_true, orb_true_r.
    + rewrite bool_decide_false, orb_false_r; [done|]. intros Hm. apply Hij.
      by apply (word_of_same bm).
  - rewrite ld64_st64_other by lia. case_decide as Hij; [subst; lia|done].
Qed.

Lemma bit_unset m bm i j :
  bit (bitmap_unset m bm i) bm j = if decide (i = j) then false else bit m bm j.
Proof.
  rewrite !bit_testbit. unfold bitmap_unset. fold (word_of bm i).
  pose proof (Z.mod_pos_bound i 64). pose proof (Z.mod_pos_bound j 64).
  destruct (word_of_cases bm i j) as [E|E].
  - rewrite <- E, ld64_st64, u64_small.
    2:{ rewrite <- Z.ldiff_land. pose proof (ld64_range m (word_of bm i)).
        split; [apply Z.ldiff_nonneg; lia|].
        apply (bound_of_bits 64); [lia|apply Z.ldiff_nonneg; lia|]. intros k Hk.
        rewrite Z.ldiff_spec, (testbit_high 64 (ld64 _ _)) by (done || lia). done. }
    rewrite Z.land_spec, Z.lnot_spec, testbit_mask by lia. case_decide as Hij.
    + subst. by rewrite bool_decide_true, andb_false_r.
    + rewrite bool_decide_false, andb_true_r; [done|]. intros Hm. apply Hij.
      by apply (word_of_same bm).
  - rewrite ld64_st64_other by lia. case_decide as Hij; [subst; lia|done].
Qed.

(** A bit depends on the bytes of its word only. *)
Lemma bit_changes P m m' bm i :
  changes P m m' -> (forall b, word_of bm i <= b < word_of bm i + 8 -> ~ P b) ->
  bit m' bm i = bit m bm i.
Proof. intros Hc H. rewrite !bit_testbit. by rewrite (changes_ld64 _ _ _ _ Hc H). Qed.

Lemma bitmap_set_changes (P : Z -> Prop) m bm i :
  (forall b, word_of bm i <= b < word_of bm i + 8 -> P b) -> changes P m (bitmap_set m bm i).
Proof. intros H. apply changes_st64. exact H. Qed.

Lemma bitmap_unset_changes (P : Z -> Prop) m bm i :
  (forall b, word_of bm i <= b < word_of bm i + 8 -> P b) -> changes P m (bitmap_unset m bm i).
Proof. intros H. apply changes_st64. exact H. Qed.

Lemma range_free_spec m bm i n :
  range_free m bm i n = true <-> forall j, i <= j < i + Z.of_nat n -> bit m bm j = false.
Proof.
  revert i. induction n as [|n IH]; intros i; cbn [range_free].
  - split; [intros; lia|done].
  - fold (bit m bm i). destruct (bit m bm i) eqn:E.
    + split; [done|]. intros H. rewrite H in E by lia. done.
    + rewrite IH. split; intros H j Hj.
      * destruct (decide (j = i)) as [->|]; [done|]. apply H. lia.
      * apply H. lia.
Qed.

Lemma bit_set_range m bm i n j :
  bit (set_range m bm i n) bm j =
  if decide (i <= j < i + Z.of_nat n) then true else bit m bm j.
Proof.
  revert m i. induction n as [|n IH]; intros m i; cbn [set_range].
  - case_decide; [lia|done].
  - rewrite IH, bit_set. repeat case_decide; (lia || done).
Qed.

Lemma set_range_changes (P : Z -> Prop) m bm i n :
  (forall j b, i <= j < i + Z.of_nat n -> word_of bm j <= b < word_of bm j + 8 -> P b) ->
  changes P m (set_range m bm i n).
Proof.
  revert m i. induction n as [|n IH]; intros m i H; cbn [set_range]; [done|].
  apply (changes_trans _ _ (bitmap_set m bm i)); [apply bitmap_set_changes; intros; apply (H i); lia|].
  apply IH. intros j b Hj. apply H. lia.
Qed.

Lemma bit_unset_range m bm i n j :
  bit (unset_range m bm i n) bm j =
  if decide (i <= j < i + Z.of_nat n) then false else bit m bm j.
Proof.
  revert m i. induction n as [|n IH]; intros m i; cbn [unset_range].
  - case_decide; [lia|done].
  - rewrite IH. destruct (bitmap_get m bm i =? 0) eqn:E; rewrite ?bit_unset.
    + destruct (decide (j = i)) as [->|]; [|repeat case_decide; (lia || done)].
      rewrite decide_False, decide_True by lia. unfold bit. by rewrite E.
    + repeat case_decide; (lia || done).
Qed.

Lemma unset_range_changes (P : Z -> Prop) m bm i n :
  (forall j b, i <= j < i + Z.of_nat n -> word_of bm j <= b < word_of bm j + 8 -> P b) ->
  changes P m (unset_range m bm i n).
Proof.
  revert m i. induction n as [|n IH]; intros m i H; cbn [unset_range]; [done|].
  eapply changes_trans; [|apply IH; intros j b Hj; apply H; lia].
  destruct (_ =? 0); [done|]. apply bitmap_unset_changes. intros. apply (H i); lia.
Qed.

(** * Invariant *)

(** One past the last byte of the bitmap. *)
Definition bitmap_end (p : page_allocator_pool_t) : Z :=
  bitmap_base p + 8 * ((bitmap_entries p + 63) / 64).

(** One past the last byte of the region. *)
Definition pool_end (p : page_allocator_pool_t) : Z := allocate_base p + total p.

(** The bitmap lies before the pages; the counters add up; every bit from
    [used / PAGE] on is clear, and the scan starts at or before that index. *)
Record pool_wf (m : mem) (p : page_allocator_pool_t) : Prop := {
  pw_entries : in_u64 (bitmap_entries p);
  pw_base : 0 <= bitmap_base p;
  pw_bitmap : bitmap_end p <= allocate_base p;
  pw_top : pool_end p < 18446744073709551616;
  pw_align : allocate_base p mod PAGE = 0;
  pw_used : 0 <= used p;
  pw_used_pages : used p mod PAGE = 0;
  pw_avail : 0 <= available p;
  pw_sum : used p + available p = total p;
  pw_total : total p <= bitmap_entries p * PAGE;
  pw_last : 0 <= last_allocated_page_index p;
  pw_last_used : last_allocated_page_index p * PAGE <= used p;
  pw_clear : forall i, used p / PAGE <= i < bitmap_entries p -> bit m (bitmap_base p) i = false
}.

Definition pool_disjoint (p q : page_allocator_pool_t) : Prop :=
  pool_end p <= bitmap_base q \/ pool_end q <= bitmap_base p.

Definition pools_wf (m : mem) (ps : list page_allocator_pool_t) : Prop :=
  Forall (pool_wf m) ps /\ ForallOrdPairs pool_disjoint ps.

(** The page at address [a] is handed out. *)
Definition allocated (m : mem) (ps : list page_allocator_pool_t) (a : Z) : Prop :=
  exists p i, p ∈ ps /\ 0 <= i < bitmap_entries p /\ a = allocate_base p + i * PAGE /\
              bit m (bitmap_base p) i = true.

(** * The scans *)

(** The general scan restricted to one page is the scan of the fast path. *)
Lemma scan_single_range m bm entries idx n :
  0 <= idx -> idx + Z.of_nat n <= entries -> in_u64 entries ->
  scan_range m bm entries 1 idx n = scan_single m bm idx n.
Proof.
  revert idx. induction n as [|n IH]; intros idx H0 H1 H2; cbn [scan_range scan_single]; [done|].
  rewrite IH by lia. destruct (bitmap_get m bm idx =? 0) eqn:E; simpl negb; cbv iota; [|done].
  rewrite u64_small by lia. destruct (Z.ltb_spec entries (idx + 1)); [lia|].
  change (Z.to_nat 1) with 1%nat. cbn [range_free]. by rewrite E.
Qed.

Lemma scan_range_some m bm entries pages idx n r :
  scan_range m bm entries pages idx n = Some r ->
  idx <= r < idx + Z.of_nat n /\ r +w pages <= entries /\
  range_free m bm r (Z.to_nat pages) = true.
Proof.
  revert idx. induction n as [|n IH]; intros idx; cbn [scan_range]; [done|].
  intros H. destruct (negb _).
  - apply IH in H as (? & ? & ?). split_and!; (done || lia).
  - destruct (Z.ltb_spec entries (idx +w pages)).
    + apply IH in H as (? & ? & ?). split_and!; (done || lia).
    + destruct (range_free m bm idx _) eqn:E.
      * injection H as <-. split_and!; (done || lia).
      * apply IH in H as (? & ? & ?). split_and!; (done || lia).
Qed.

(** The scan stops no later than any index that fits. *)
Lemma scan_range_found m bm entries pages idx n k :
  1 <= pages -> idx <= k < idx + Z.of_nat n -> k +w pages <= entries ->
  range_free m bm k (Z.to_nat pages) = true ->
  exists r, scan_range m bm entries pages idx n = Some r /\ r <= k.
Proof.
  intros Hp. revert idx. induction n as [|n IH]; intros idx Hk Hfit Hfree; cbn [scan_range]; [lia|].
  destruct (decide (k = idx)) as [<-|Hne].
  - assert (bit m bm k = false) as Hb.
    { apply (proj1 (range_free_spec m bm k (Z.to_nat pages)) Hfree). lia. }
    fold (bit m bm k). rewrite Hb. destruct (Z.ltb_spec entries (k +w pages)); [lia|].
    rewrite Hfree. eauto with lia.
  - destruct (IH (idx + 1)) as (r & Hr & Hle); [lia|done|done|]. rewrite Hr.
    destruct (negb _); [eauto|]. destruct (_ <? _); [eauto|].
    destruct (range_free m bm idx _); eauto with lia.
Qed.

(** * Allocation from one pool *)

(** The pool after [pages] pages were taken at [index]. *)
Definition take_pages (p : page_allocator_pool_t) (index pages : Z) : page_allocator_pool_t :=
  {| allocate_base := allocate_base p; bitmap_base := bitmap_base p;
     used := used p + pages * PAGE; available := available p - pages * PAGE;
     total := total p; bitmap_entries := bitmap_entries p;
     last_allocated_page_index := index |}.

Definition take_mem (m : mem) (p : page_allocator_pool_t) (index pages : Z) : mem :=
  arch_zero_pages (set_range m (bitmap_base p) index (Z.to_nat pages))
    (allocate_base p + index * PAGE) (Z.to_nat pages).

(** [pages] clear bits at [index], at or below the first unused index. *)
Record takeable (m : mem) (p : page_allocator_pool_t) (index pages : Z) : Prop := {
  tk_pages : 1 <= pages;
  tk_avail : pages * PAGE <= available p;
  tk_index : 0 <= index <= used p / PAGE;
  tk_free : forall j, index <= j < index + pages -> bit m (bitmap_base p) j = false
}.

Section OnePool.
Context (m : mem) (p : page_allocator_pool_t) (Hp : pool_wf m p).

Lemma word_in_bitmap i : 0 <= i < bitmap_entries p ->
  bitmap_base p <= word_of (bitmap_base p) i /\
  word_of (bitmap_base p) i + 8 <= bitmap_end p.
Proof. unfold word_of, bitmap_end. zlia. Qed.

Lemma used_bound : used p / PAGE * PAGE = used p.
Proof. pose proof (pw_used_pages _ _ Hp). unfold PAGE in *. zlia. Qed.

(** The page after the used ones fits as long as the counter says so. *)
Lemma used_fits pages : 0 <= pages -> pages * PAGE <= available p ->
  used p / PAGE + pages <= bitmap_entries p.
Proof.
  intros. pose proof used_bound. destruct Hp. unfold PAGE in *. nia.
Qed.

Context (index pages : Z) (Ht : takeable m p index pages).

Lemma take_fits : index + pages <= bitmap_entries p.
Proof. destruct Ht. pose proof (used_fits pages). lia. Qed.

Lemma take_in_pool :
  allocate_base p <= allocate_base p + index * PAGE /\
  allocate_base p + index * PAGE + pages * PAGE <= pool_end p.
Proof.
  destruct Ht. pose proof used_bound. destruct Hp. unfold pool_end, PAGE in *. nia.
Qed.

Lemma take_changes :
  changes (fun b => allocate_base p + index * PAGE <= b < allocate_base p + index * PAGE + pages * PAGE \/
                    bitmap_base p <= b < bitmap_end p) m (take_mem m p index pages).
Proof.
  destruct Ht. pose proof take_fits. unfold take_mem, PAGE in *.
  eapply changes_trans; [apply set_range_changes|apply changes_zero_pages]; [|lia].
  intros j b Hj Hb. right. pose proof (word_in_bitmap j). lia.
Qed.

Lemma take_zeroed b :
  allocate_base p + index * PAGE <= b < allocate_base p + index * PAGE + pages * PAGE ->
  ld8 (take_mem m p index pages) b = 0.
Proof.
  intros Hb. destruct Ht. unfold take_mem, PAGE in *.
  rewrite ld8_zero_pages, decide_True by lia. done.
Qed.

Lemma take_bits j : 0 <= j < bitmap_entries p ->
  bit (take_mem m p index pages) (bitmap_base p) j =
  if decide (index <= j < index + pages) then true else bit m (bitmap_base p) j.
Proof.
  intros Hj. pose proof take_in_pool. pose proof (word_in_bitmap j Hj).
  pose proof (pw_bitmap _ _ Hp). destruct Ht.
  assert (changes (fun b => allocate_base p <= b)
    (set_range m (bitmap_base p) index (Z.to_nat pages)) (take_mem m p index pages)) as Hc
    by (apply changes_zero_pages; lia).
  rewrite (bit_changes _ _ _ _ _ Hc) by lia.
  rewrite bit_set_range. repeat case_decide; (lia || done).
Qed.

Lemma take_pool_wf : pool_wf (take_mem m p index pages) (take_pages p index pages).
Proof.
  pose proof take_bits as Hb. pose proof take_in_pool. pose proof used_bound as Hu.
  pose proof take_fits. destruct Ht. destruct Hp.
  split; simpl; unfold bitmap_end, pool_end in *; simpl in *; unfold PAGE in *;
    try done; try lia.
  - zlia.
  - intros i Hi. rewrite Hb by zlia. rewrite decide_False by zlia. apply pw_clear0. zlia.
Qed.
End OnePool.

(** A pool does not see what happens outside its own region. *)
Lemma pool_wf_changes P m m' p :
  pool_wf m p -> changes P m m' ->
  (forall b, bitmap_base p <= b < bitmap_end p -> ~ P b) -> pool_wf m' p.
Proof.
  intros Hp Hc H. destruct Hp; split; try done.
  intros i Hi. rewrite (bit_changes _ _ _ _ _ Hc); [by apply pw_clear0|].
  intros b Hb. apply H. pose proof (word_in_bitmap p i). unfold PAGE in *.
  assert (0 <= used p / 4096) by (apply Z.div_pos; lia). lia.
Qed.

Lemma pool_bitmap_in m p : pool_wf m p -> bitmap_base p <= bitmap_end p <= pool_end p.
Proof.
  intros []. unfold bitmap_end, pool_end in *.
  assert (0 <= (bitmap_entries p + 63) / 64) by (apply Z.div_pos; lia). lia.
Qed.

(** * Allocation over the list of pools *)

Lemma page_allocate_loop_spec m pages ps :
  Forall (pool_wf m) ps -> 1 <= pages -> in_u64 (pages * PAGE) ->
  match page_allocate_loop m pages ps with
  | None => Forall (fun p => available p < pages * PAGE) ps
  | Some (ptr, m', ps') =>
      exists l1 p l2 index,
        ps = l1 ++ p :: l2 /\ ps' = l1 ++ take_pages p index pages :: l2 /\
        Forall (fun q => available q < pages * PAGE) l1 /\
        takeable m p index pages /\
        ptr = allocate_base p + index * PAGE /\ m' = take_mem m p index pages
  end.
Proof.
  intros Hwf H1 Hr. induction Hwf as [|p ps Hp Hps IH]; cbn [page_allocate_loop]; [done|].
  rewrite (u64_small (pages * PAGE)) by done.
  destruct (Z.ltb_spec (available p) (pages * PAGE)) as [Hlt|Hge].
  - destruct (page_allocate_loop m pages ps) as [[[ptr m'] ps']|]; [|by constructor].
    destruct IH as (l1 & q & l2 & index & -> & -> & Hl1 & Ht & -> & ->).
    exists (p :: l1), q, l2, index. split_and!; try done. by constructor.
  - set (H := used p / PAGE).
    assert (H + pages <= bitmap_entries p) as HH by (apply (used_fits m p Hp); lia).
    assert (0 <= H) by (apply Z.div_pos; [apply (pw_used _ _ Hp)|done]).
    pose proof (used_bound m p Hp) as Hub. fold H in Hub.
    pose proof (pw_last_used _ _ Hp). pose proof (pw_last _ _ Hp). pose proof (pw_entries _ _ Hp).
    assert (last_allocated_page_index p <= H) by (unfold PAGE in *; lia).
    destruct (scan_range_found m (bitmap_base p) (bitmap_entries p) pages
      (last_allocated_page_index p) (Z.to_nat (bitmap_entries p - last_allocated_page_index p)) H)
      as (r & Hscan & Hle); [done|lia|rewrite u64_small by lia; lia| |].
    { apply range_free_spec. intros j Hj. apply (pw_clear _ _ Hp). lia. }
    rewrite Hscan. apply scan_range_some in Hscan as (Hr1 & _ & Hfree).
    assert (takeable m p r pages) as Ht.
    { split; [done|done|fold H; lia|]. intros j Hj. apply (proj1 (range_free_spec _ _ _ _) Hfree). lia. }
    pose proof (take_in_pool m p Hp r pages Ht) as [Hin1 Hin2].
    pose proof (pw_top _ _ Hp). pose proof (pw_bitmap _ _ Hp). pose proof (pool_bitmap_in _ _ Hp).
    pose proof (pw_base _ _ Hp).
    assert (r * PAGE <= used p) by (unfold PAGE in *; lia).
    assert (used p + pages * PAGE <= total p) by (pose proof (pw_sum _ _ Hp); lia).
    assert (total p <= pool_end p) by (unfold pool_end in *; lia).
    rewrite (u64_small (r * PAGE)) by (unfold PAGE in *; lia).
    rewrite !u64_small by (pose proof (pw_sum _ _ Hp); pose proof (pw_avail _ _ Hp);
      pose proof (pw_used _ _ Hp); unfold PAGE in *; lia).
    exists [], p, ps, r. split_and!; (done || constructor).
Qed.

Lemma set_range_1 m bm i : set_range m bm i 1 = bitmap_set m bm i.
Proof. reflexivity. Qed.

(** The fast path is the general loop at one page. *)
Lemma single_fast_loop_eq m ps :
  Forall (fun p => in_u64 (last_allocated_page_index p) /\ in_u64 (bitmap_entries p)) ps ->
  single_fast_loop m ps = page_allocate_loop m 1 ps.
Proof.
  induction 1 as [|p ps [Hl He] _ IH]; cbn [single_fast_loop page_allocate_loop]; [done|].
  change (1 *w PAGE) with PAGE. rewrite IH. destruct (available p <? PAGE); [done|].
  destruct (Z.ltb_spec (bitmap_entries p) (last_allocated_page_index p)).
  - replace (Z.to_nat (bitmap_entries p - last_allocated_page_index p)) with O by lia. done.
  - rewrite scan_single_range by lia. reflexivity.
Qed.

(** * Allocation: effect on the whole allocator *)

Lemma pool_disjoint_sym p q : pool_disjoint p q -> pool_disjoint q p.
Proof. unfold pool_disjoint. tauto. Qed.

(** A page that is handed out lies inside its pool, after the bitmap. *)
Lemma set_bit_in_pool m p i :
  pool_wf m p -> 0 <= i < bitmap_entries p -> bit m (bitmap_base p) i = true ->
  bitmap_end p <= allocate_base p + i * PAGE /\
  allocate_base p + i * PAGE + PAGE <= allocate_base p + used p.
Proof.
  intros Hp Hi Hb. pose proof (used_bound m p Hp). pose proof (pw_bitmap _ _ Hp).
  assert (i < used p / PAGE).
  { destruct (Z.ltb_spec i (used p / PAGE)); [done|].
    rewrite (pw_clear _ _ Hp) in Hb by lia. done. }
  unfold PAGE in *. lia.
Qed.

Section Take.
Context (m : mem) (l1 l2 : list page_allocator_pool_t) (p : page_allocator_pool_t)
        (index pages : Z).
Let ps := l1 ++ p :: l2.
Let ps' := l1 ++ take_pages p index pages :: l2.
Let m' := take_mem m p index pages.
Let ptr := allocate_base p + index * PAGE.
Context (Hwf : pools_wf m ps) (Ht : takeable m p index pages).

Lemma take_p_wf : pool_wf m p.
Proof using Hwf. destruct Hwf as [H _]. rewrite Forall_forall in H. apply H, elem_of_middle. by left. Qed.

Lemma take_other q : q ∈ l1 ++ l2 -> pool_wf m q /\ pool_disjoint p q.
Proof.
  intros Hq. destruct Hwf as [H1 H2]. split.
  - rewrite Forall_forall in H1. apply H1. unfold ps. rewrite elem_of_middle. by right.
  - apply (pairs_middle pool_disjoint p l1 l2); auto using pool_disjoint_sym.
Qed.

(** Nothing of another pool's region is written. *)
Lemma take_changes_other q b :
  q ∈ l1 ++ l2 -> bitmap_base q <= b < pool_end q -> ld8 m' b = ld8 m b.
Proof.
  intros Hq Hb. destruct (take_other q Hq) as [_ Hd]. apply (take_changes m p take_p_wf _ _ Ht).
  pose proof (take_in_pool m p take_p_wf _ _ Ht). pose proof (pool_bitmap_in _ _ take_p_wf).
  pose proof (pw_bitmap _ _ take_p_wf). unfold pool_disjoint in Hd. lia.
Qed.

Lemma take_bit_other q i :
  q ∈ l1 ++ l2 -> 0 <= i < bitmap_entries q ->
  bit m' (bitmap_base q) i = bit m (bitmap_base q) i.
Proof.
  intros Hq Hi. destruct (take_other q Hq) as [Hwq _].
  apply (bit_changes (fun b => ~ bitmap_base q <= b < pool_end q)).
  - intros b Hb. apply (take_changes_other q); [done|].
    destruct (decide (bitmap_base q <= b < pool_end q)); tauto.
  - pose proof (word_in_bitmap q i Hi). pose proof (pool_bitmap_in _ _ Hwq). lia.
Qed.

Lemma take_pools_wf : pools_wf m' ps'.
Proof.
  destruct Hwf as [H1 H2]. split.
  - apply Forall_forall. intros q Hq%elem_of_middle.
    destruct Hq as [->|Hq]; [apply take_pool_wf; [apply take_p_wf|done]|].
    destruct (take_other q Hq) as [Hwq Hd].
    apply (pool_wf_changes (fun b => ~ bitmap_base q <= b < pool_end q) m); [done| |].
    + intros b Hb. apply (take_changes_other q); [done|].
      destruct (decide (bitmap_base q <= b < pool_end q)); tauto.
    + pose proof (pool_bitmap_in _ _ Hwq). lia.
  - eapply pairs_replace; [| |exact H2]; done.
Qed.

Lemma take_fresh i : 0 <= i < pages -> ~ allocated m ps (ptr + i * PAGE).
Proof.
  intros Hi (q & j & Hq & Hj & Ha & Hb). unfold ptr in Ha.
  apply elem_of_middle in Hq as [->|Hq].
  - assert (j = index + i) as -> by (unfold PAGE in *; lia).
    rewrite (tk_free _ _ _ _ Ht) in Hb by lia. done.
  - destruct (take_other q Hq) as [Hwq Hd].
    pose proof (set_bit_in_pool m q j Hwq Hj Hb). pose proof (take_in_pool m p take_p_wf _ _ Ht).
    pose proof (pool_bitmap_in _ _ Hwq). pose proof (pool_bitmap_in _ _ take_p_wf).
    pose proof (pw_sum _ _ Hwq). pose proof (pw_avail _ _ Hwq). pose proof (pw_bitmap _ _ take_p_wf).
    pose proof (pw_bitmap _ _ Hwq). unfold pool_disjoint, pool_end, PAGE in *. lia.
Qed.

Lemma take_allocated a :
  allocated m' ps' a <-> allocated m ps a \/ exists i, 0 <= i < pages /\ a = ptr + i * PAGE.
Proof.
  pose proof (take_bits m p take_p_wf _ _ Ht) as Hbits. pose proof (take_fits m p take_p_wf _ _ Ht).
  pose proof (tk_index _ _ _ _ Ht). unfold allocated, ptr. split.
  - intros (q & j & Hq & Hj & -> & Hb). apply elem_of_middle in Hq as [->|Hq]; simpl in *.
    + unfold m' in Hb. rewrite Hbits in Hb by done. case_decide as Hd.
      * right. exists (j - index). split; [lia|]. unfold PAGE. lia.
      * left. exists p, j. split_and!; try done; try lia. apply elem_of_middle. by left.
    + left. exists q, j. rewrite take_bit_other in Hb by done.
      split_and!; try done; try lia. apply elem_of_middle. by right.
  - intros [(q & j & Hq & Hj & -> & Hb)|(i & Hi & ->)].
    + apply elem_of_middle in Hq as [->|Hq].
      * exists (take_pages p index pages), j. split_and!; simpl; try done; try lia.
        -- apply elem_of_middle. by left.
        -- change (bit m' (bitmap_base p) j = true). unfold m'. rewrite Hbits by done. by case_decide.
      * exists q, j. split_and!; try done; try lia.
        -- apply elem_of_middle. by right.
        -- by rewrite take_bit_other.
    + exists (take_pages p index pages), (index + i). split_and!; simpl; try done; try lia.
      * apply elem_of_middle. by left.
      * change (bit m' (bitmap_base p) (index + i) = true). unfold m'.
        rewrite Hbits by lia. rewrite decide_True by lia. done.
Qed.

(** The contents of every page that was already handed out survive. *)
Lemma take_preserves a b : allocated m ps a -> a <= b < a + PAGE -> ld8 m' b = ld8 m b.
Proof.
  intros (q & j & Hq & Hj & -> & Hb) Hab.
  apply elem_of_middle in Hq as [->|Hq].
  - apply (take_changes m p take_p_wf _ _ Ht).
    pose proof (set_bit_in_pool m p j take_p_wf Hj Hb).
    destruct (decide (index <= j < index + pages)) as [Hr|Hr];
      [rewrite (tk_free _ _ _ _ Ht) in Hb by lia; done|]. unfold PAGE in *. lia.
  - destruct (take_other q Hq) as [Hwq _]. pose proof (set_bit_in_pool m q j Hwq Hj Hb).
    pose proof (pool_bitmap_in _ _ Hwq). apply (take_changes_other q); [done|].
    pose proof (pw_sum _ _ Hwq). pose proof (pw_avail _ _ Hwq). unfold pool_end in *. lia.
Qed.
End Take.

(** * The invariant of the allocator and what allocation does to it *)

(** The pages of a pool are seen through the higher-half direct map. *)
Definition pool_mapped (hhdm : Z) (p : page_allocator_pool_t) : Prop :=
  hhdm < allocate_base p /\ pool_end p <= hhdm + 4503599627370496.

Definition pa_wf (hhdm : Z) (s : pa_state) : Prop :=
  page_allocator_lock s = false /\ pools_wf (pa_mem s) (allocator_pools s) /\
  Forall (pool_mapped hhdm) (allocator_pools s).

Definition pa_allocated (s : pa_state) (a : Z) : Prop := allocated (pa_mem s) (allocator_pools s) a.

(** The number of pages [page_allocate] really takes. *)
Definition pages_taken (pages : Z) : Z := Z.max 1 pages.

Lemma pools_wf_u64 m ps :
  Forall (pool_wf m) ps ->
  Forall (fun p => in_u64 (last_allocated_page_index p) /\ in_u64 (bitmap_entries p)) ps.
Proof.
  intros H. eapply Forall_impl; [exact H|]. simpl. intros p Hp.
  pose proof (used_bound m p Hp). pose proof (pool_bitmap_in m p Hp). destruct Hp.
  unfold pool_end, PAGE in *. split; lia.
Qed.

(** Both paths are the general loop at [pages_taken] pages. *)
Lemma page_allocate_unfold pages s hhdm :
  pa_wf hhdm s -> 0 <= pages ->
  page_allocate pages s =
  match page_allocate_loop (pa_mem s) (pages_taken pages) (allocator_pools s) with
  | Some (ptr, m', ps') => Done (ptr, PA m' ps' false)
  | None => Panicked
  end.
Proof.
  intros (Hl & [Hp _] & _) H0. unfold page_allocate, pages_taken.
  destruct (Z.eqb_spec pages 0) as [->|Hnz]; [|destruct (Z.eqb_spec pages 1) as [->|]];
    unfold __page_allocate_single_fast, page_allocate_general, spinlock_acquire; rewrite Hl;
    simpl; rewrite ?single_fast_loop_eq by (eapply pools_wf_u64; eauto); try done.
  by rewrite Z.max_r by lia.
Qed.

(** The two ways [page_allocate] can end, in a well-formed state. *)
Inductive alloc_result (hhdm pages : Z) (s : pa_state) : outcome (Z * pa_state) -> Prop :=
  | alloc_ok l1 p l2 index :
      allocator_pools s = l1 ++ p :: l2 ->
      takeable (pa_mem s) p index (pages_taken pages) ->
      alloc_result hhdm pages s
        (Done (allocate_base p + index * PAGE,
               PA (take_mem (pa_mem s) p index (pages_taken pages))
                  (l1 ++ take_pages p index (pages_taken pages) :: l2) false))
  | alloc_full :
      Forall (fun p => available p < pages_taken pages * PAGE) (allocator_pools s) ->
      alloc_result hhdm pages s Panicked.

Lemma page_allocate_result hhdm pages s :
  pa_wf hhdm s -> 0 <= pages -> in_u64 (pages_taken pages * PAGE) ->
  alloc_result hhdm pages s (page_allocate pages s).
Proof.
  intros Hwf H0 Hr. rewrite (page_allocate_unfold _ _ _ Hwf H0).
  pose proof (page_allocate_loop_spec (pa_mem s) (pages_taken pages) (allocator_pools s)) as H.
  destruct Hwf as (Hl & [Hp _] & _).
  destruct (page_allocate_loop _ _ _) as [[[ptr m'] ps']|].
  - destruct H as (l1 & p & l2 & index & Hps & -> & _ & Ht & -> & ->);
      [done|unfold pages_taken; lia|done|]. by econstructor.
  - constructor. apply H; [done|unfold pages_taken; lia|done].
Qed.

(** Facts about a successful allocation, collected for the clients. *)
Lemma page_allocate_done hhdm pages s ptr s' :
  pa_wf hhdm s -> 0 <= pages -> in_u64 (pages_taken pages * PAGE) ->
  page_allocate pages s = Done (ptr, s') ->
  pa_wf hhdm s' /\ ptr mod PAGE = 0 /\ hhdm < ptr /\
  ptr + pages_taken pages * PAGE <= hhdm + 4503599627370496 /\
  (forall i, 0 <= i < pages_taken pages -> ~ pa_allocated s (ptr + i * PAGE)) /\
  (forall a, pa_allocated s' a <->
     pa_allocated s a \/ exists i, 0 <= i < pages_taken pages /\ a = ptr + i * PAGE) /\
  (forall b, ptr <= b < ptr + pages_taken pages * PAGE -> ld8 (pa_mem s') b = 0) /\
  (forall a b, pa_allocated s a -> a <= b < a + PAGE -> ld8 (pa_mem s') b = ld8 (pa_mem s) b).
Proof.
  intros Hwf H0 Hr Hd. pose proof (page_allocate_result hhdm pages s Hwf H0 Hr) as H.
  rewrite Hd in H. destruct s as [m ps lk]. destruct Hwf as (Hl & Hps & Hm). simpl in *.
  inversion H as [l1 p l2 index Hps' Ht E|]; clear H. simpl in *. subst. unfold pa_allocated; simpl.
  pose proof (take_p_wf m l1 l2 p Hps) as Hp.
  pose proof (take_in_pool m p Hp _ _ Ht). pose proof (tk_index _ _ _ _ Ht).
  assert (pool_mapped hhdm p) as Hpm by (rewrite Forall_forall in Hm; apply Hm; set_solver).
  split_and!.
  - split_and!; simpl; [done|apply (take_pools_wf m l1 l2 p); done|].
    apply Forall_app in Hm as [Hm1 Hm2]. inversion_clear Hm2.
    apply Forall_app; split; [done|]. by constructor.
  - pose proof (pw_align _ _ Hp). unfold PAGE in *. zlia.
  - unfold pool_mapped, PAGE in *. lia.
  - unfold pool_mapped, PAGE in *. lia.
  - intros i Hi. by apply (take_fresh m l1 l2 p index (pages_taken pages)).
  - intros a. by apply (take_allocated m l1 l2 p index (pages_taken pages)).
  - intros b Hb. by apply take_zeroed.
  - intros a b. by apply (take_preserves m l1 l2 p index (pages_taken pages)).
Qed.

(** * Deallocation *)

(** [pages] consecutive pages from [base] on, all handed out by one pool. *)
Definition owned_block (s : pa_state) (base pages : Z) : Prop :=
  exists p i, p ∈ allocator_pools s /\ 0 <= i /\ i + pages <= bitmap_entries p /\ 1 <= pages /\
    base = allocate_base p + i * PAGE /\
    forall j, i <= j < i + pages -> bit (pa_mem s) (bitmap_base p) j = true.

Lemma page_deallocate_loop_spec m ps p i pages :
  pools_wf m ps -> p ∈ ps -> 0 <= i -> i + pages <= bitmap_entries p -> 1 <= pages ->
  bit m (bitmap_base p) i = true ->
  page_deallocate_loop m (allocate_base p + i * PAGE) pages ps =
  unset_range m (bitmap_base p) i (Z.to_nat pages).
Proof.
  intros [Hwf Hd] Hp Hi Hn H1 Hb. induction ps as [|q ps IH]; [by apply elem_of_nil in Hp|].
  inversion_clear Hwf as [|? ? Hq Hps]. inversion_clear Hd as [|? ? Hqd Hpd].
  cbn [page_deallocate_loop]. pose proof (pool_bitmap_in _ _ Hq). pose proof (pw_top _ _ Hq).
  pose proof (pw_base _ _ Hq). rewrite u64_small by (fold (pool_end q); lia).
  apply elem_of_cons in Hp as [<-|Hp].
  - pose proof (set_bit_in_pool m p i Hq ltac:(lia) Hb). pose proof (pw_sum _ _ Hq).
    pose proof (pw_avail _ _ Hq). unfold PAGE in *.
    destruct (Z.leb_spec (allocate_base p) (allocate_base p + i * 4096)); [|lia].
    destruct (Z.leb_spec (allocate_base p + i * 4096) (allocate_base p + total p)); [|lia].
    simpl. f_equal. replace (allocate_base p + i * 4096 - allocate_base p) with (i * 4096) by lia.
    by apply Z.div_mul.
  - rewrite IH by done. clear IH. rewrite Forall_forall in Hqd. specialize (Hqd p Hp).
    rewrite Forall_forall in Hps. specialize (Hps p Hp).
    pose proof (set_bit_in_pool m p i Hps ltac:(lia) Hb).
    pose proof (pw_sum _ _ Hps). pose proof (pw_avail _ _ Hps). pose proof (pw_bitmap _ _ Hq).
    assert (bitmap_base p < bitmap_end p) by (unfold bitmap_end; zlia).
    destruct (Z.leb_spec (allocate_base q) (allocate_base p + i * PAGE)); [|done].
    destruct (Z.leb_spec (allocate_base p + i * PAGE) (allocate_base q + total q)); [|done].
    exfalso. unfold pool_disjoint, pool_end, PAGE in *. lia.
Qed.

Section Give.
Context (m : mem) (ps : list page_allocator_pool_t) (p : page_allocator_pool_t) (i pages : Z).
Let m' := unset_range m (bitmap_base p) i (Z.to_nat pages).
Context (Hwf : pools_wf m ps) (Hp : p ∈ ps) (Hi : 0 <= i) (Hn : i + pages <= bitmap_entries p)
        (H1 : 1 <= pages).

Lemma give_changes : changes (fun b => bitmap_base p <= b < bitmap_end p) m m'.
Proof.
  apply unset_range_changes. intros j b Hj Hb. pose proof (word_in_bitmap p j). lia.
Qed.

(** Two pools of the list are the same one or lie apart. *)
Lemma give_other q : q ∈ ps -> q = p \/ pool_disjoint p q.
Proof.
  intros Hq. destruct Hwf as [_ Hd]. clear -Hq Hp Hd.
  induction Hd as [|a l Ha _ IH]; [by apply elem_of_nil in Hq|]. rewrite Forall_forall in Ha.
  apply elem_of_cons in Hp as [->|Hp]; apply elem_of_cons in Hq as [->|Hq]; auto.
  right. by apply pool_disjoint_sym, Ha.
Qed.

Lemma give_wf_pool q : q ∈ ps -> pool_wf m q.
Proof. destruct Hwf as [H _]. rewrite Forall_forall in H. auto. Qed.

Lemma give_bits q j : q ∈ ps -> 0 <= j < bitmap_entries q ->
  bit m' (bitmap_base q) j = true <->
  bit m (bitmap_base q) j = true /\ ~ (q = p /\ i <= j < i + pages).
Proof.
  intros Hq Hj. pose proof (give_wf_pool q Hq) as Hwq.
  destruct (give_other q Hq) as [->|Hd].
  - unfold m'. rewrite bit_unset_range. case_decide; naive_solver lia.
  - rewrite (bit_changes _ _ _ _ _ give_changes).
    + split; [|tauto]. intros Hb. split; [done|]. intros [-> _].
      pose proof (pool_bitmap_in _ _ Hwq). unfold pool_disjoint in Hd.
      assert (bitmap_base p < bitmap_end p) by (unfold bitmap_end; zlia). lia.
    + pose proof (word_in_bitmap q j Hj). pose proof (pool_bitmap_in _ _ Hwq).
      pose proof (pool_bitmap_in _ _ (give_wf_pool p Hp)). unfold pool_disjoint in Hd. lia.
Qed.

Lemma give_pools_wf : pools_wf m' ps.
Proof.
  destruct Hwf as [_ Hd]. split; [|done]. apply Forall_forall. intros q Hq.
  pose proof (give_wf_pool q Hq) as Hwq. pose proof (give_bits q) as Hb.
  destruct Hwq; split; try done. intros j Hj. apply not_true_iff_false.
  assert (0 <= used q / PAGE) by (apply Z.div_pos; done). rewrite Hb by (done || lia).
  rewrite pw_clear0 by done. naive_solver.
Qed.

(** Page addresses identify the pool and the index. *)
Lemma page_address_inj q j : q ∈ ps -> 0 <= j < bitmap_entries q ->
  bit m (bitmap_base q) j = true -> bit m (bitmap_base p) i = true ->
  forall k, 0 <= k < pages -> bit m (bitmap_base p) (i + k) = true ->
  allocate_base q + j * PAGE = allocate_base p + i * PAGE + k * PAGE -> q = p /\ j = i + k.
Proof.
  intros Hq Hj Hbq Hbp k Hk Hbk E. pose proof (give_wf_pool q Hq) as Hwq.
  pose proof (give_wf_pool p Hp) as Hwp.
  destruct (give_other q Hq) as [->|Hd]; [split; [done|unfold PAGE in *; lia]|]. exfalso.
  pose proof (set_bit_in_pool m q j Hwq Hj Hbq).
  pose proof (set_bit_in_pool m p (i + k) Hwp ltac:(lia) Hbk).
  pose proof (pool_bitmap_in _ _ Hwq). pose proof (pool_bitmap_in _ _ Hwp).
  pose proof (pw_sum _ _ Hwp). pose proof (pw_avail _ _ Hwp).
  pose proof (pw_sum _ _ Hwq). pose proof (pw_avail _ _ Hwq).
  unfold pool_disjoint, pool_end, PAGE in *. lia.
Qed.

Lemma give_preserves a b :
  allocated m ps a -> a <= b < a + PAGE -> ld8 m' b = ld8 m b.
Proof.
  intros (q & j & Hq & Hj & -> & Hb) Hab. apply give_changes.
  pose proof (give_wf_pool q Hq) as Hwq. pose proof (set_bit_in_pool m q j Hwq Hj Hb).
  pose proof (give_wf_pool p Hp) as Hwp. pose proof (pool_bitmap_in _ _ Hwq).
  pose proof (pool_bitmap_in _ _ Hwp). pose proof (pw_sum _ _ Hwq). pose proof (pw_avail _ _ Hwq).
  destruct (give_other q Hq) as [->|Hd]; [lia|].
  unfold pool_disjoint, pool_end, PAGE in *. lia.
Qed.
End Give.

Lemma page_deallocate_done hhdm s base pages :
  pa_wf hhdm s -> owned_block s base pages ->
  exists s', page_deallocate base pages s = Done s' /\ pa_wf hhdm s' /\
    allocator_pools s' = allocator_pools s /\
    (forall a, pa_allocated s' a <->
       pa_allocated s a /\ ~ exists i, 0 <= i < pages /\ a = base + i * PAGE) /\
    (forall a b, pa_allocated s a -> a <= b < a + PAGE -> ld8 (pa_mem s') b = ld8 (pa_mem s) b).
Proof.
  intros (Hl & Hps & Hm) (p & i & Hp & Hi & Hn & H1 & -> & Hb).
  destruct s as [m ps lk]; simpl in *. subst lk. unfold page_deallocate; simpl.
  rewrite (page_deallocate_loop_spec m ps p i pages) by (auto; apply Hb; lia).
  eexists; split; [done|]. unfold pa_allocated; simpl. split_and!; [|done| |].
  - split_and!; simpl; [done|by apply give_pools_wf|done].
  - pose proof (give_bits m ps p i pages Hps Hp Hi Hn H1) as Hgb. intros a. unfold allocated. split.
    + intros (q & j & Hq & Hj & -> & Hbq). rewrite Hgb in Hbq by done. destruct Hbq as [Hbq Hno].
      split; [by exists q, j|]. intros (k & Hk & E). apply Hno.
      apply (page_address_inj m ps p i pages) with (k := k) in E; try done; [|apply Hb; lia..].
      destruct E as [-> ->]. split; [done|lia].
    + intros [(q & j & Hq & Hj & -> & Hbq) Hno]. exists q, j. split_and!; try done; try lia.
      rewrite Hgb by done. split; [done|]. intros [-> Hr]. apply Hno.
      exists (j - i). split; [lia|]. unfold PAGE. lia.
  - intros a b. by apply give_preserves.
Qed.
