(* ===== verification/PageAllocatorSpec.v ===== *)
(** What the page allocator promises: the abstract allocator (a set of page
    addresses), the refinement of [page_allocate] and [page_deallocate] to it,
    the histories of calls, the initial state built from the boot memory map,
    and the interface [PageSource] against which the page-table manager is
    verified. *)

From S2P Require Import Prelude Memory Libc Spinlock PageAllocator.

(** * The abstract allocator: a set of page addresses *)

Definition alloc_spec (A : Z -> Prop) (n ptr : Z) (A' : Z -> Prop) : Prop :=
  (forall i, 0 <= i < n -> ~ A (ptr + i * PAGE)) /\
  (forall a, A' a <-> A a \/ exists i, 0 <= i < n /\ a = ptr + i * PAGE).

Definition free_spec (A : Z -> Prop) (n ptr : Z) (A' : Z -> Prop) : Prop :=
  forall a, A' a <-> A a /\ ~ exists i, 0 <= i < n /\ a = ptr + i * PAGE.

(** * The pools of the boot memory map *)

Lemma required_bitmap_bytes_props n :
  128 * 1024 < n -> let r := required_bitmap_bytes n in
  0 < r /\ r mod PAGE = 0 /\ r < n /\ n / PAGE / 8 <= r.
Proof. unfold required_bitmap_bytes, PAGE. intros. btest; zlia. Qed.

Section Init.
Context (hhdm usable : Z).

(** An entry for which a pool is created. *)
Definition pooled (e : limine_memmap_entry) : bool :=
  (entry_type e =? usable) && negb (entry_length e <=? 128 * 1024).

(** What the boot protocol guarantees of a usable entry (page-aligned, below
    the 52-bit physical limit), and that its bitmap is large enough: one bit
    per page of the entry. *)
Definition entry_ok (e : limine_memmap_entry) : Prop :=
  0 <= entry_base e /\ 0 <= entry_length e /\ entry_base e mod PAGE = 0 /\
  entry_base e + entry_length e <= 4503599627370496 /\
  entry_length e / PAGE <= 8 * required_bitmap_bytes (entry_length e).

Definition entries_apart (e f : limine_memmap_entry) : Prop :=
  entry_base e + entry_length e <= entry_base f \/ entry_base f + entry_length f <= entry_base e.

Definition pooled_entries (es : list limine_memmap_entry) : list limine_memmap_entry :=
  List.filter pooled es.

(** The usable entries of a memory map, as the boot protocol describes it,
    and no more of them than [allocator_pools] has elements. *)
Definition memmap_ok (es : list limine_memmap_entry) : Prop :=
  Forall entry_ok (pooled_entries es) /\ ForallOrdPairs entries_apart (pooled_entries es) /\
  (length (pooled_entries es) <= 128)%nat.

Context (Hhhdm : 0 <= hhdm < 18446744073709551616 - 4503599627370496) (Halign : hhdm mod PAGE = 0).

Lemma new_pool_fields e : entry_ok e -> 128 * 1024 < entry_length e ->
  let p := new_pool hhdm e in
  bitmap_base p = entry_base e + hhdm /\
  allocate_base p = entry_base e + hhdm + required_bitmap_bytes (entry_length e) /\
  total p = entry_length e - required_bitmap_bytes (entry_length e) /\
  pool_end p = entry_base e + entry_length e + hhdm.
Proof using Hhhdm.
  intros (H1 & H2 & H3 & H4 & H5) Hbig. pose proof (required_bitmap_bytes_props _ Hbig) as Hr.
  simpl in Hr. unfold pool_end; simpl.
  rewrite !u64_small by lia. split_and!; lia.
Qed.

Lemma new_pool_wf e m : entry_ok e -> 128 * 1024 < entry_length e ->
  let p := new_pool hhdm e in
  pool_wf (zero64 m (bitmap_base p) (required_bitmap_bytes (entry_length e))) p /\
  pool_mapped hhdm p.
Proof using Hhhdm Halign.
  intros He Hbig p. pose proof (new_pool_fields e He Hbig) as (F1 & F2 & F3 & F4).
  fold p in F1, F2, F3, F4. destruct He as (H1 & H2 & H3 & H4 & H5).
  pose proof (required_bitmap_bytes_props _ Hbig) as Hr. simpl in Hr.
  set (r := required_bitmap_bytes (entry_length e)) in *.
  assert (available p = total p) as Ha by done.
  assert (bitmap_entries p = entry_length e / PAGE) as Hn by done.
  assert (bitmap_end p <= allocate_base p) as Hbe.
  { unfold bitmap_end. rewrite Hn, F1, F2. unfold PAGE in *. zlia. }
  split; [|unfold pool_mapped; rewrite F2, F4; lia].
  split; try rewrite Ha; simpl used; simpl last_allocated_page_index;
    rewrite ?Hn, ?F1, ?F2, ?F3, ?F4; try done; try (unfold PAGE in *; zlia).
  - intros i Hi. rewrite <- F1, bit_testbit.
    rewrite ld64_zero; [apply Z.testbit_0_l|]. intros b Hb.
    unfold zero64. rewrite ld8_zero64_loop, decide_True; [done|].
    pose proof (word_in_bitmap p i) as Hw. rewrite Hn in Hw. unfold PAGE in *.
    change (0 / 4096) with 0 in Hi. specialize (Hw Hi). zlia.
Qed.

(** A pool that was created before the entries still to come. *)
Definition pool_apart (p : page_allocator_pool_t) (e : limine_memmap_entry) : Prop :=
  pool_end p <= entry_base e + hhdm \/ entry_base e + entry_length e + hhdm <= bitmap_base p.

Lemma create_pool_pooled s e :
  create_pool hhdm usable s e =
  if pooled e then
    if (128 <=? length (allocator_pools s))%nat then Undef
    else let p := new_pool hhdm e in
      Done (PA (zero64 (pa_mem s) (bitmap_base p) (required_bitmap_bytes (entry_length e)))
               (allocator_pools s ++ [p]) (page_allocator_lock s))
  else Done s.
Proof using. unfold create_pool, pooled. destruct (_ =? _), (_ <=? _); done. Qed.

(** Clearing the bitmap of a new pool does not touch the others. *)
Lemma new_pool_others m ps e :
  entry_ok e -> 128 * 1024 < entry_length e -> pools_wf m ps ->
  Forall (fun p => pool_apart p e) ps ->
  let p := new_pool hhdm e in
  pools_wf (zero64 m (bitmap_base p) (required_bitmap_bytes (entry_length e))) (ps ++ [p]).
Proof using Hhhdm Halign.
  intros He Hbig [Hwf Hd] Hap p. pose proof (new_pool_fields e He Hbig) as (F1 & F2 & F3 & F4).
  fold p in F1, F2, F3, F4. pose proof (required_bitmap_bytes_props _ Hbig) as Hr. simpl in Hr.
  split.
  - apply Forall_app. split; [|constructor; [by apply new_pool_wf|done]].
    apply Forall_forall. intros q Hq. rewrite Forall_forall in Hwf, Hap.
    specialize (Hwf q Hq). specialize (Hap q Hq). unfold pool_apart in Hap.
    apply (pool_wf_changes (fun b => bitmap_base p <= b < pool_end p) m); [done| |].
    + intros b Hb. unfold zero64. rewrite ld8_zero64_loop. case_decide; [|done].
      exfalso. apply Hb. rewrite F1, F4 in *. zlia.
    + pose proof (pool_bitmap_in _ _ Hwf). lia.
  - clear Hwf. induction Hd as [|a l Ha Hl IH]; simpl; [by repeat constructor|].
    inversion_clear Hap as [|? ? Ha1 Hl1]. constructor; [|by apply IH].
    apply Forall_app. split; [done|]. constructor; [|done].
    unfold pool_disjoint, pool_apart in *. rewrite F1, F4. lia.
Qed.

Lemma create_pools_wf es s :
  pa_wf hhdm s -> Forall entry_ok (pooled_entries es) ->
  ForallOrdPairs entries_apart (pooled_entries es) ->
  (length (allocator_pools s) + length (pooled_entries es) <= 128)%nat ->
  Forall (fun e => Forall (fun p => pool_apart p e) (allocator_pools s)) (pooled_entries es) ->
  exists s', page_allocator_create_pools_limine hhdm usable s es = Done s' /\ pa_wf hhdm s' /\
    length (allocator_pools s') = (length (allocator_pools s) + length (pooled_entries es))%nat /\
    (forall p, p ∈ allocator_pools s' -> p ∈ allocator_pools s \/ used p = 0).
Proof using Hhhdm Halign.
  revert s. induction es as [|e es IH]; intros s Hwf Hok Hpair Hlen Hap.
  { exists s. simpl. split_and!; [done|done|lia|by left]. }
  cbn [page_allocator_create_pools_limine]. rewrite create_pool_pooled.
  unfold pooled_entries in *. cbn [List.filter] in *.
  destruct (pooled e) eqn:Ep; [|rewrite bind_done; by apply IH].
  inversion_clear Hok as [|? ? He Hes]. inversion_clear Hpair as [|? ? Hpe Hpes].
  inversion_clear Hap as [|? ? Hae Haes]. simpl length in Hlen.
  destruct (Nat.leb_spec 128 (length (allocator_pools s))) as [?|_]; [lia|].
  rewrite bind_done. destruct Hwf as (Hl & Hwf & Hmap).
  assert (128 * 1024 < entry_length e) as Hbig
    by (unfold pooled in Ep; apply andb_prop in Ep as [_ Ep]; by btest_in Ep).
  pose proof (new_pool_fields e He Hbig) as (F1 & F2 & F3 & F4).
  edestruct IH as (s' & Hs' & Hwf' & Hlen' & Hnew); [| | | | |exists s'; split_and!; [exact Hs'|done| |]].
  - split_and!; [done|by apply new_pool_others|]. simpl. apply Forall_app.
    split; [done|]. constructor; [|done]. by apply (new_pool_wf e (pa_mem s)).
  - done.
  - done.
  - simpl. rewrite length_app. simpl. lia.
  - simpl. apply Forall_forall. intros f Hf. apply Forall_app. rewrite Forall_forall in Haes, Hpe.
    split; [by apply Haes|]. constructor; [|done]. specialize (Hpe f Hf).
    unfold pool_apart, entries_apart in *. rewrite F1, F4. lia.
  - rewrite Hlen'. simpl. rewrite length_app. simpl. lia.
  - intros p Hp. apply Hnew in Hp as [Hp|]; [|by right]. simpl in Hp.
    apply elem_of_app in Hp as [Hp|Hp]; [by left|right].
    apply list_elem_of_singleton in Hp as ->. done.
Qed.
End Init.

(** * Blocks in the hands of callers *)

Definition blocks_apart (b c : Z * Z) : Prop :=
  b.1 + b.2 * PAGE <= c.1 \/ c.1 + c.2 * PAGE <= b.1.

Lemma owned_allocated s base n :
  owned_block s base n -> forall i, 0 <= i < n -> pa_allocated s (base + i * PAGE).
Proof.
  intros (p & i & Hp & Hi & Hn & H1 & -> & Hb) k Hk.
  exists p, (i + k). split_and!; try done; try lia. apply Hb. lia.
Qed.

Lemma owned_aligned hhdm s base n : pa_wf hhdm s -> owned_block s base n -> base mod PAGE = 0.
Proof.
  intros (_ & [Hwf _] & _) (p & i & Hp & _ & _ & _ & -> & _).
  rewrite Forall_forall in Hwf. pose proof (pw_align _ _ (Hwf p Hp)). unfold PAGE in *. zlia.
Qed.

(** A block cannot overlap pages that are not handed out. *)
Lemma owned_apart_fresh hhdm s base n ptr k :
  pa_wf hhdm s -> owned_block s base n -> ptr mod PAGE = 0 -> 1 <= k -> 1 <= n ->
  (forall i, 0 <= i < k -> ~ pa_allocated s (ptr + i * PAGE)) -> blocks_apart (ptr, k) (base, n).
Proof.
  intros Hwf Ho Hp Hk Hn Hfresh. pose proof (owned_aligned _ _ _ _ Hwf Ho) as Hb.
  pose proof (owned_allocated _ _ _ Ho) as Ha. unfold blocks_apart; simpl.
  set (d := (base - ptr) / PAGE).
  assert (base = ptr + d * PAGE) as E by (unfold d, PAGE in *; zlia).
  destruct (decide (k <= d)); [left; unfold PAGE in *; lia|].
  destruct (decide (n <= - d)); [right; unfold PAGE in *; lia|]. exfalso.
  destruct (decide (0 <= d)).
  - apply (Hfresh d); [lia|]. rewrite <- E. specialize (Ha 0 ltac:(lia)).
    by rewrite Z.mul_0_l, Z.add_0_r in Ha.
  - apply (Hfresh 0); [lia|]. specialize (Ha (- d) ltac:(lia)).
    replace (ptr + 0 * PAGE) with (base + - d * PAGE) by (unfold PAGE in *; lia). done.
Qed.

(** Allocation keeps every block and adds the new one. *)
Lemma owned_after_take m l1 p l2 lk lk' index pages base n :
  pools_wf m (l1 ++ p :: l2) -> takeable m p index pages ->
  owned_block (PA m (l1 ++ p :: l2) lk) base n ->
  owned_block (PA (take_mem m p index pages) (l1 ++ take_pages p index pages :: l2) lk') base n.
Proof.
  intros Hwf Ht (q & i & Hq & Hi & Hn & H1 & -> & Hb). simpl in *.
  pose proof (take_p_wf m l1 l2 p Hwf) as Hp.
  apply elem_of_middle in Hq as [->|Hq].
  - exists (take_pages p index pages), i. simpl. split_and!; try done.
    + apply elem_of_middle. by left.
    + intros j Hj. rewrite (take_bits m p Hp _ _ Ht) by lia. case_decide; [done|]. by apply Hb.
  - exists q, i. simpl. split_and!; try done.
    + apply elem_of_middle. by right.
    + intros j Hj. rewrite (take_bit_other m l1 l2 p index pages Hwf Ht) by (done || lia).
      by apply Hb.
Qed.

Lemma owned_new m l1 p l2 lk index pages :
  pools_wf m (l1 ++ p :: l2) -> takeable m p index pages ->
  owned_block (PA (take_mem m p index pages) (l1 ++ take_pages p index pages :: l2) lk)
    (allocate_base p + index * PAGE) pages.
Proof.
  intros Hwf Ht. pose proof (take_p_wf m l1 l2 p Hwf) as Hp.
  pose proof (take_fits m p Hp _ _ Ht). exists (take_pages p index pages), index. simpl.
  split_and!; try done; try apply Ht; [apply elem_of_middle; by left|].
  intros j Hj. pose proof (tk_index _ _ _ _ Ht). rewrite (take_bits m p Hp _ _ Ht) by lia.
  by rewrite decide_True by lia.
Qed.

(** Giving one block back keeps every block that lies apart from it. *)
Lemma owned_after_free hhdm s s' ptr k base n :
  pa_wf hhdm s -> owned_block s ptr k -> page_deallocate ptr k s = Done s' ->
  owned_block s base n -> blocks_apart (ptr, k) (base, n) -> owned_block s' base n.
Proof.
  intros (Hl & Hwf & _) (p & i & Hp & Hi & Hn & H1 & -> & Hb) Hd (q & j & Hq & Hj & Hm & H2 & -> & Hc) Hap.
  destruct s as [m ps lk]; simpl in *. subst lk. unfold page_deallocate in Hd; simpl in Hd.
  rewrite (page_deallocate_loop_spec m ps p i k) in Hd by (auto; apply Hb; lia).
  injection Hd as <-. exists q, j. simpl. split_and!; try done. intros l Hlj.
  rewrite (give_bits m ps p i k Hwf Hp Hi Hn H1 q l) by (done || lia).
  split; [by apply Hc|]. intros [-> Hr]. unfold blocks_apart, PAGE in Hap; simpl in Hap. lia.
Qed.

(** The bytes of a pool, from its bitmap on. *)
Definition pool_bytes (p : page_allocator_pool_t) (b : Z) : Prop := bitmap_base p <= b < pool_end p.

(** The bytes the clients of the allocator write: those of the pages that are
    handed out and those outside the pools. *)
Definition client_byte (s : pa_state) (b : Z) : Prop :=
  (exists a, pa_allocated s a /\ a <= b < a + PAGE) \/
  Forall (fun p => ~ pool_bytes p b) (allocator_pools s).

(** Writing there disturbs no bitmap. *)
Lemma write_in_pages hhdm s m' :
  pa_wf hhdm s ->
  changes (client_byte s) (pa_mem s) m' ->
  forall q i, q ∈ allocator_pools s -> 0 <= i < bitmap_entries q ->
    bit m' (bitmap_base q) i = bit (pa_mem s) (bitmap_base q) i.
Proof.
  intros (_ & [Hwf Hd] & _) Hc q i Hq Hi. apply (bit_changes _ _ _ _ _ Hc).
  intros b Hb [(a & (p & j & Hp & Hj & -> & Hbit) & Hab)|Ho].
  2:{ rewrite Forall_forall in Hwf, Ho. specialize (Ho q Hq). pose proof (word_in_bitmap q i Hi).
      pose proof (pool_bitmap_in _ _ (Hwf q Hq)). unfold pool_bytes in Ho. lia. }
  pose proof (give_other (pa_mem s) _ q (conj Hwf Hd) Hq p Hp) as Ho.
  rewrite Forall_forall in Hwf. pose proof (Hwf q Hq) as Hwq. pose proof (Hwf p Hp) as Hwp.
  pose proof (set_bit_in_pool _ p j Hwp Hj Hbit). pose proof (word_in_bitmap q i Hi).
  pose proof (pool_bitmap_in _ _ Hwq). pose proof (pool_bitmap_in _ _ Hwp).
  pose proof (pw_sum _ _ Hwp). pose proof (pw_avail _ _ Hwp).
  destruct Ho as [->|Ho]; [lia|]. unfold pool_disjoint, pool_end in *. lia.
Qed.

Lemma write_wf hhdm s m' :
  pa_wf hhdm s ->
  changes (client_byte s) (pa_mem s) m' ->
  pa_wf hhdm (set_pa_mem s m') /\
  (forall a, pa_allocated (set_pa_mem s m') a <-> pa_allocated s a).
Proof.
  intros Hwf Hc. pose proof (write_in_pages hhdm s m' Hwf Hc) as Hb. destruct Hwf as (Hl & [Hwf Hd] & Hm).
  split.
  - split_and!; [done| |done]. split; [|done]. apply Forall_forall. intros q Hq. simpl.
    rewrite Forall_forall in Hwf. pose proof (pw_clear _ _ (Hwf q Hq)) as Hcl. destruct (Hwf q Hq); split; try done.
    intros i Hi. assert (0 <= used q / PAGE) by (apply Z.div_pos; done). rewrite Hb by (done || lia).
    by apply Hcl.
  - intros a. unfold pa_allocated, allocated; simpl.
    split; intros (q & i & Hq & Hi & Ha & Hbit); exists q, i; rewrite Hb in * by done; auto.
Qed.

Lemma write_owned hhdm s m' base n :
  pa_wf hhdm s ->
  changes (client_byte s) (pa_mem s) m' ->
  owned_block s base n -> owned_block (set_pa_mem s m') base n.
Proof.
  intros Hwf Hc (q & j & Hq & Hj & Hm & H2 & -> & Hb). exists q, j. simpl. split_and!; try done.
  intros l Hl. rewrite (write_in_pages hhdm s m' Hwf Hc) by (done || lia). by apply Hb.
Qed.

Lemma blocks_apart_sym b c : blocks_apart b c -> blocks_apart c b.
Proof. unfold blocks_apart. tauto. Qed.

(** * Histories *)

Section Histories.
Context (hhdm usable : Z).

(** The states the callers can bring about, with the blocks (address and
    number of pages) they hold: allocation, giving back a block that is held,
    and writing inside a block that is held. *)
Inductive history : pa_state -> list (Z * Z) -> Prop :=
  | hist_init m es s :
      memmap_ok usable es -> page_allocator_init hhdm usable m es = Done s -> history s []
  | hist_alloc s L pages ptr s' :
      history s L -> 0 <= pages -> in_u64 (pages_taken pages * PAGE) ->
      page_allocate pages s = Done (ptr, s') -> history s' ((ptr, pages_taken pages) :: L)
  | hist_free s L1 L2 ptr n s' :
      history s (L1 ++ (ptr, n) :: L2) -> page_deallocate ptr n s = Done s' ->
      history s' (L1 ++ L2)
  | hist_write s L m' :
      history s L ->
      changes (fun b => exists ptr n, (ptr, n) ∈ L /\ ptr <= b < ptr + n * PAGE) (pa_mem s) m' ->
      history (set_pa_mem s m') L.

Definition holds (s : pa_state) (L : list (Z * Z)) : Prop :=
  pa_wf hhdm s /\ Forall (fun b => owned_block s b.1 b.2) L /\ ForallOrdPairs blocks_apart L.

Lemma holds_alloc s L pages ptr s' :
  holds s L -> 0 <= pages -> in_u64 (pages_taken pages * PAGE) ->
  page_allocate pages s = Done (ptr, s') -> holds s' ((ptr, pages_taken pages) :: L).
Proof.
  intros (Hwf & Ho & Hd) H0 Hr Ha.
  pose proof (page_allocate_done hhdm pages s ptr s' Hwf H0 Hr Ha) as (Hwf' & Hal & _ & _ & Hfresh & _).
  pose proof (page_allocate_result hhdm pages s Hwf H0 Hr) as Hres. rewrite Ha in Hres.
  destruct s as [m ps lk]. pose proof Hwf as (Hl & Hps & _).
  inversion Hres as [l1 p l2 index Hps' Ht E|]; simpl in *; subst.
  rewrite Forall_forall in Ho. split_and!; [done| |].
  - constructor; [by apply owned_new|]. apply Forall_forall. intros b Hb.
    eapply owned_after_take; eauto.
  - constructor; [|done]. apply Forall_forall. intros [base n] Hb. specialize (Ho _ Hb).
    assert (1 <= n) by (by destruct Ho as (? & ? & _ & _ & _ & ? & _)).
    eapply owned_apart_fresh; [exact Hwf|exact Ho|done|unfold pages_taken; lia|done|done].
Qed.

Lemma holds_free s L1 L2 ptr n s' :
  holds s (L1 ++ (ptr, n) :: L2) -> page_deallocate ptr n s = Done s' -> holds s' (L1 ++ L2).
Proof.
  intros (Hwf & Ho & Hd) Hf. rewrite Forall_forall in Ho.
  assert (owned_block s ptr n) as Hb by (apply (Ho (ptr, n)), elem_of_middle; by left).
  destruct (page_deallocate_done hhdm s ptr n Hwf Hb) as (s2 & Hs2 & Hwf2 & _).
  rewrite Hf in Hs2. injection Hs2 as <-.
  pose proof (pairs_middle _ _ _ _ blocks_apart_sym Hd) as Hap. split_and!; [done| |].
  - apply Forall_forall. intros [base k] Hin.
    apply (owned_after_free hhdm s s' ptr n); try done; [|by apply Hap].
    apply (Ho (base, k)), elem_of_middle. by right.
  - clear -Hd. induction L1 as [|a L IH]; simpl in *; [by inversion_clear Hd|].
    inversion_clear Hd as [|? ? Ha Hl]. constructor; [|by apply IH].
    apply Forall_app in Ha as [H1 H2]. inversion_clear H2. apply Forall_app. done.
Qed.

Lemma holds_write s L m' :
  holds s L ->
  changes (fun b => exists ptr n, (ptr, n) ∈ L /\ ptr <= b < ptr + n * PAGE) (pa_mem s) m' ->
  holds (set_pa_mem s m') L.
Proof.
  intros (Hwf & Ho & Hd) Hc. rewrite Forall_forall in Ho.
  assert (changes (client_byte s) (pa_mem s) m') as Hc'.
  { eapply changes_mono; [|exact Hc]. intros b (ptr & n & Hin & Hb). left.
    exists (ptr + (b - ptr) / PAGE * PAGE). specialize (Ho _ Hin). simpl in Ho.
    split; [apply (owned_allocated s ptr n Ho); unfold PAGE in *; zlia|unfold PAGE; zlia]. }
  split_and!; [by apply write_wf| |done]. apply Forall_forall. intros b Hb.
  eapply write_owned; eauto.
Qed.

Context (Hhhdm : 0 <= hhdm < 18446744073709551616 - 4503599627370496) (Halign : hhdm mod PAGE = 0).

Lemma init_wf m es s :
  memmap_ok usable es -> page_allocator_init hhdm usable m es = Done s ->
  pa_wf hhdm s /\ length (allocator_pools s) = length (pooled_entries usable es) /\
  (forall p, p ∈ allocator_pools s -> used p = 0).
Proof.
  intros (Hok & Hp & Hlen) Hi.
  destruct (create_pools_wf hhdm usable Hhhdm Halign es (PA m [] false)) as (s' & Hs & Hwf & Hl & Hu).
  - split_and!; [done| |constructor]. split; constructor.
  - done.
  - done.
  - simpl. lia.
  - apply Forall_forall. intros. constructor.
  - unfold page_allocator_init in Hi. rewrite Hs in Hi. injection Hi as <-. split_and!; try done.
    intros p Hq. apply Hu in Hq as [Hq|]; [|done]. by apply elem_of_nil in Hq.
Qed.

Lemma history_holds s L : history s L -> holds s L.
Proof.
  induction 1; eauto using holds_alloc, holds_free, holds_write.
  split_and!; [eapply init_wf; eauto|constructor..].
Qed.
End Histories.

(** * The interface of the page source

    What [page_allocate(1)] promises to a component that builds structures out
    of pages. *)

Class PageSource (St : Type) := {
  src_mem : St -> mem;
  src_with_mem : St -> mem -> St;
  src_page_allocate : Z -> St -> outcome (Z * St);
  src_page_reallocate : Z -> Z -> Z -> St -> outcome (Z * St);
  src_page_deallocate : Z -> Z -> St -> outcome St;
  src_ok : St -> Prop;
  src_owned : St -> Z -> Prop;
  src_in : (Z -> Prop) -> St -> Prop
}.

(** The bytes of the pages that are handed out. *)
Definition src_bytes `{PageSource St} (s : St) (b : Z) : Prop :=
  exists a, src_owned s a /\ a <= b < a + PAGE.

(** [src_in R s]: everything the source keeps or hands out are bytes of [R]. *)
Class PageSourceLaws (hhdm : Z) (St : Type) `{!PageSource St} : Prop := {
  law_with_mem : forall (s : St) m, src_mem (src_with_mem s m) = m;
  law_with_twice : forall (s : St) m m', src_with_mem (src_with_mem s m) m' = src_with_mem s m';
  law_range : forall (s : St) a, src_ok s -> src_owned s a ->
    a mod PAGE = 0 /\ hhdm < a /\ a + PAGE <= hhdm + 4503599627370496;
  law_outcome : forall (s : St) n, src_ok s -> 1 <= n -> in_u64 (n * PAGE) ->
    src_page_allocate n s = Panicked \/ exists p s', src_page_allocate n s = Done (p, s');
  law_alloc : forall (s s' : St) n p, src_ok s -> 1 <= n -> in_u64 (n * PAGE) ->
    src_page_allocate n s = Done (p, s') ->
    src_ok s' /\ (forall i, 0 <= i < n -> ~ src_owned s (p + i * PAGE)) /\
    (forall a, src_owned s' a <-> src_owned s a \/ exists i, 0 <= i < n /\ a = p + i * PAGE) /\
    (forall b, p <= b < p + n * PAGE -> ld8 (src_mem s') b = 0) /\
    (forall b, src_bytes s b -> ld8 (src_mem s') b = ld8 (src_mem s) b);
  law_in : forall (s s' : St) R n p, src_ok s -> src_in R s -> 1 <= n -> in_u64 (n * PAGE) ->
    src_page_allocate n s = Done (p, s') ->
    src_in R s' /\ changes R (src_mem s) (src_mem s');
  law_in_owned : forall (s : St) R a b, src_ok s -> src_in R s -> src_owned s a -> a <= b < a + PAGE -> R b;
  law_in_write : forall (s : St) R m, src_ok s -> src_in R s ->
    changes (fun b => src_bytes s b \/ ~ R b) (src_mem s) m ->
    src_ok (src_with_mem s m) /\ forall a, src_owned (src_with_mem s m) a <-> src_owned s a;
  law_in_mem : forall (s : St) R m, src_in R (src_with_mem s m) <-> src_in R s;
  law_everywhere : forall (s : St), src_in (fun _ => True) s
}.

(** Everything lies below [V]. *)
Definition src_below `{PageSource St} (V : Z) (s : St) : Prop := src_in (fun b => b < V) s.

Section Below.
Context {hhdm : Z} {St : Type} `{!PageSource St} `{!PageSourceLaws hhdm St}.
Implicit Types s : St.

Lemma law_below s s' V n p : src_ok s -> src_below V s -> 1 <= n -> in_u64 (n * PAGE) -> src_page_allocate n s = Done (p, s') ->
  src_below V s' /\ changes (fun b => b < V) (src_mem s) (src_mem s').
Proof using PageSourceLaws0. apply law_in. Qed.

Lemma law_below_owned s V a : src_ok s -> src_below V s -> src_owned s a -> a + PAGE <= V.
Proof using PageSourceLaws0.
  intros Hok HV Ha. pose proof (law_in_owned s _ a (a + PAGE - 1) Hok HV Ha) as Hb. cbn beta in Hb. unfold PAGE in *. lia.
Qed.

Lemma law_below_write s V m : src_below V (src_with_mem s m) <-> src_below V s.
Proof using PageSourceLaws0. apply law_in_mem. Qed.

Lemma law_write s V m : src_ok s -> src_below V s -> changes (fun b => src_bytes s b \/ V <= b) (src_mem s) m ->
  src_ok (src_with_mem s m) /\ forall a, src_owned (src_with_mem s m) a <-> src_owned s a.
Proof using PageSourceLaws0.
  intros Hok HV Hc. apply (law_in_write s _ m Hok HV). eapply changes_mono; [|exact Hc].
  intros b [Hb|Hb]; [by left|right]. lia.
Qed.

(** Writing to pages that are in use. *)
Lemma law_write_bytes s m : src_ok s -> changes (src_bytes s) (src_mem s) m ->
  src_ok (src_with_mem s m) /\ forall a, src_owned (src_with_mem s m) a <-> src_owned s a.
Proof using PageSourceLaws0.
  intros Hok Hc. apply (law_in_write s _ m Hok (law_everywhere s)). eapply changes_mono; [|exact Hc]. by left.
Qed.
End Below.

Lemma pool_bytes_below V p : pool_end p <= V -> forall b, pool_bytes p b -> b < V.
Proof. unfold pool_bytes. lia. Qed.

#[export] Instance pa_source (hhdm : Z) : PageSource pa_state := {|
  src_mem := pa_mem;
  src_with_mem := set_pa_mem;
  src_page_allocate := page_allocate;
  src_page_reallocate := page_reallocate;
  src_page_deallocate := page_deallocate;
  src_ok := pa_wf hhdm;
  src_owned := pa_allocated;
  src_in := fun R s => Forall (fun p => forall b, pool_bytes p b -> R b) (allocator_pools s)
|}.

Lemma page_allocate_in hhdm s s' (R : Z -> Prop) n p :
  pa_wf hhdm s -> Forall (fun p => forall b, pool_bytes p b -> R b) (allocator_pools s) ->
  1 <= n -> in_u64 (n * PAGE) -> page_allocate n s = Done (p, s') ->
  Forall (fun p => forall b, pool_bytes p b -> R b) (allocator_pools s') /\
  changes R (pa_mem s) (pa_mem s').
Proof.
  intros Hok Hv Hn Hr Ha. pose proof (page_allocate_result hhdm n s Hok ltac:(lia)) as Hres.
  unfold pages_taken in Hres. rewrite Z.max_r in Hres by lia. specialize (Hres Hr). rewrite Ha in Hres.
  destruct s as [m ps lk]. destruct Hok as (Hl & Hps & Hm). simpl in *.
  inversion Hres as [l1 q l2 index Hps' Ht E|]; clear Hres. simpl in *. subst.
  unfold pages_taken in Ht |- *. rewrite Z.max_r in Ht |- * by lia.
  pose proof (take_p_wf m l1 l2 q Hps) as Hq. pose proof (pool_bitmap_in _ _ Hq).
  pose proof (take_in_pool m q Hq _ _ Ht).
  apply Forall_app in Hv as [Hv1 Hv2]. apply Forall_cons in Hv2 as [Hv Hv2]. split.
  - apply Forall_app; split; [done|]. constructor; [|done]. unfold pool_bytes, pool_end in *; simpl in *. done.
  - eapply changes_mono; [|by apply take_changes]. intros b Hb. apply Hv. pose proof (pw_bitmap _ _ Hq).
    unfold pool_bytes, PAGE in *. lia.
Qed.

#[export] Instance pa_source_laws (hhdm : Z) :
  @PageSourceLaws hhdm pa_state (pa_source hhdm).
Proof.
  split; simpl.
  - done.
  - done.
  - intros s a (Hl & [Hwf _] & Hm) (p & i & Hp & Hi & -> & Hb).
    rewrite Forall_forall in Hwf, Hm. specialize (Hwf p Hp). specialize (Hm p Hp).
    pose proof (set_bit_in_pool _ p i Hwf Hi Hb). pose proof (pw_align _ _ Hwf).
    pose proof (pw_sum _ _ Hwf). pose proof (pw_avail _ _ Hwf).
    unfold pool_mapped, pool_end, PAGE in *. split_and!; [zlia|lia|lia].
  - intros s n Hok Hn Hr. pose proof (page_allocate_result hhdm n s Hok ltac:(lia)) as Hres.
    unfold pages_taken in Hres. rewrite Z.max_r in Hres by lia. specialize (Hres Hr).
    inversion Hres; [right|left]; eauto.
  - intros s s' n p Hok Hn Hr Ha.
    destruct (page_allocate_done hhdm n s p s' Hok) as (H1 & H2 & H3 & H4 & H5 & H6 & H7 & H8);
      [lia|unfold pages_taken; by rewrite Z.max_r by lia|done|].
    unfold pages_taken in *. rewrite Z.max_r in * by lia. split_and!; try done.
    intros b (a & Ha' & Hab). eapply H8; eauto.
  - intros s s' R n p Hok Hv Hn Hr Ha. by apply (page_allocate_in hhdm s s' R n p).
  - intros s R a b Hok Hv (p & i & Hp & Hi & -> & Hb) Hab. destruct Hok as (_ & [Hwf _] & _).
    rewrite Forall_forall in Hwf, Hv. specialize (Hwf p Hp). apply (Hv p Hp).
    pose proof (set_bit_in_pool _ p i Hwf Hi Hb). pose proof (pw_sum _ _ Hwf). pose proof (pool_bitmap_in _ _ Hwf).
    pose proof (pw_avail _ _ Hwf). pose proof (pw_bitmap _ _ Hwf). unfold pool_bytes, pool_end, PAGE in *. lia.
  - intros s R m Hok Hv Hc. apply write_wf; [done|]. eapply changes_mono; [|done].
    intros b [Hb|Hb]; [by left|right]. eapply Forall_impl; [exact Hv|]. intros p Hp Hx. apply Hb, Hp, Hx.
  - done.
  - intros s. by apply Forall_forall.
Qed.

(** * Properties *)

(** A one-pool state for the concrete instances below: four pages at 8192. *)
Definition demo_pool : page_allocator_pool_t := Pool 8192 4096 0 16384 16384 4 0.
Definition demo_state : pa_state := PA ∅ [demo_pool] false.

Lemma bit_empty bm i : bit ∅ bm i = false.
Proof. rewrite bit_testbit, ld64_zero by done. apply Z.testbit_0_l. Qed.

Lemma demo_wf : pa_wf 0 demo_state.
Proof.
  split_and!; [done| |].
  - split; [|repeat constructor]. constructor; [|constructor].
    split; unfold bitmap_end, pool_end, PAGE; simpl; try zlia; try reflexivity.
  - constructor; [|constructor]. unfold pool_mapped, pool_end; simpl. lia.
Qed.

(** C1. After any sequence of page_allocate and page_deallocate that starts from
    page_allocator_init, the pools are well formed and the page ranges that clients hold are
    marked as allocated and pairwise disjoint. *)
Theorem history_blocks_disjoint hhdm usable s L :
  0 <= hhdm < 18446744073709551616 - 4503599627370496 -> hhdm mod PAGE = 0 ->
  history hhdm usable s L ->
  pa_wf hhdm s /\ ForallOrdPairs blocks_apart L /\
  Forall (fun b => forall i, 0 <= i < b.2 -> pa_allocated s (b.1 + i * PAGE)) L.
Proof.
  intros H1 H2 H. destruct (history_holds hhdm usable H1 H2 s L H) as (Hwf & Ho & Hd).
  split_and!; [done|done|]. eapply Forall_impl; [exact Ho|]. intros b. apply owned_allocated.
Qed.

Definition demo_memmap : list limine_memmap_entry :=
  [MemmapEntry 0 4096 1; MemmapEntry 1048576 262144 0].

Lemma demo_memmap_ok : memmap_ok 0 demo_memmap.
Proof.
  change (pooled_entries 0 demo_memmap) with [MemmapEntry 1048576 262144 0]. split_and!.
  - repeat constructor; vm_compute; congruence.
  - repeat constructor.
  - vm_compute. lia.
Qed.

Lemma history_blocks_disjoint_witness :
  exists s ptr1 ptr2, history 65536 0 s [(ptr2, 3); (ptr1, 1)] /\
    ForallOrdPairs blocks_apart [(ptr2, 3); (ptr1, 1)].
Proof.
  assert (is_done (s ← page_allocator_init 65536 0 ∅ demo_memmap;
                   '(_, s1) ← page_allocate 1 s; page_allocate 3 s1) = true) as H
    by (vm_compute; reflexivity).
  apply is_done_bind in H as (s & E0 & H). apply is_done_bind in H as ([p1 s1] & E1 & H).
  apply is_done_inv in H as ([p2 s2] & E2).
  assert (history 65536 0 s []) as H0 by (eapply hist_init; [exact demo_memmap_ok|exact E0]).
  assert (history 65536 0 s1 [(p1, 1)]) as H1
    by (apply (hist_alloc 65536 0 s [] 1 p1 s1 H0); [lia|unfold pages_taken, PAGE; lia|exact E1]).
  assert (history 65536 0 s2 [(p2, 3); (p1, 1)]) as H2
    by (apply (hist_alloc 65536 0 s1 [(p1, 1)] 3 p2 s2 H1); [lia|unfold pages_taken, PAGE; lia|exact E2]).
  exists s2, p1, p2. split; [exact H2|].
  apply (history_blocks_disjoint 65536 0 s2 [(p2, 3); (p1, 1)]); [lia|reflexivity|exact H2].
Defined.

(** C12. page_allocate returns page-aligned pages that were free, marks exactly these as
    allocated and keeps the pools well formed. *)
Theorem page_allocate_refines hhdm pages s ptr s' :
  pa_wf hhdm s -> 0 <= pages -> in_u64 (pages_taken pages * PAGE) ->
  page_allocate pages s = Done (ptr, s') ->
  pa_wf hhdm s' /\ ptr mod PAGE = 0 /\
  alloc_spec (pa_allocated s) (pages_taken pages) ptr (pa_allocated s').
Proof.
  intros Hwf H0 Hr Ha.
  destruct (page_allocate_done _ _ _ _ _ Hwf H0 Hr Ha) as (H1 & H2 & _ & _ & H5 & H6 & _). done.
Qed.

Lemma page_allocate_refines_witness :
  exists ptr s', page_allocate 2 demo_state = Done (ptr, s') /\
    alloc_spec (pa_allocated demo_state) 2 ptr (pa_allocated s').
Proof.
  assert (is_done (page_allocate 2 demo_state) = true) as H by (vm_compute; reflexivity).
  apply is_done_inv in H as ([ptr s'] & E).
  exists ptr, s'. split; [exact E|].
  apply (page_allocate_refines 0 2 demo_state ptr s' demo_wf); [lia|unfold pages_taken, PAGE; lia|exact E].
Defined.

(** The pages that page_allocate returns are zero and inside one pool, and the contents of all
    pages that were allocated before are unchanged. *)
Theorem page_allocate_zeroed hhdm pages s ptr s' :
  pa_wf hhdm s -> 0 <= pages -> in_u64 (pages_taken pages * PAGE) ->
  page_allocate pages s = Done (ptr, s') ->
  (forall b, ptr <= b < ptr + pages_taken pages * PAGE -> ld8 (pa_mem s') b = 0) /\
  (forall a b, pa_allocated s a -> a <= b < a + PAGE -> ld8 (pa_mem s') b = ld8 (pa_mem s) b) /\
  (exists p, p ∈ allocator_pools s /\ allocate_base p <= ptr /\
             ptr + pages_taken pages * PAGE <= allocate_base p + total p).
Proof.
  intros Hwf H0 Hr Ha.
  destruct (page_allocate_done _ _ _ _ _ Hwf H0 Hr Ha) as (_ & _ & _ & _ & _ & _ & H7 & H8).
  split_and!; [done|done|]. pose proof (page_allocate_result hhdm pages s Hwf H0 Hr) as Hres.
  rewrite Ha in Hres. inversion Hres as [l1 p l2 index Hps Ht E|]; subst.
  destruct Hwf as (_ & Hps' & _). rewrite Hps in *.
  pose proof (take_in_pool _ p (take_p_wf _ _ _ _ Hps') _ _ Ht).
  exists p. split; [apply elem_of_middle; by left|]. unfold pool_end in *. lia.
Qed.

Lemma page_allocate_zeroed_witness :
  exists ptr s', page_allocate 0 demo_state = Done (ptr, s') /\
    (forall b, ptr <= b < ptr + pages_taken 0 * PAGE -> ld8 (pa_mem s') b = 0).
Proof.
  assert (is_done (page_allocate 0 demo_state) = true) as H by (vm_compute; reflexivity).
  apply is_done_inv in H as ([ptr s'] & E).
  exists ptr, s'. split; [exact E|].
  apply (page_allocate_zeroed 0 0 demo_state ptr s' demo_wf); [lia|unfold pages_taken, PAGE; lia|exact E].
Defined.

(** C23. page_allocate panics exactly when no pool has enough bytes available, and otherwise
    returns. *)
Theorem page_allocate_panics_iff hhdm pages s :
  pa_wf hhdm s -> 0 <= pages -> in_u64 (pages_taken pages * PAGE) ->
  (page_allocate pages s = Panicked <->
   forall p, p ∈ allocator_pools s -> available p < pages_taken pages * PAGE) /\
  (page_allocate pages s = Panicked \/ exists ptr s', page_allocate pages s = Done (ptr, s')).
Proof.
  intros Hwf H0 Hr. pose proof (page_allocate_result hhdm pages s Hwf H0 Hr) as Hres.
  inversion Hres as [l1 p l2 index Hps Ht E|Hf E]; split.
  - split; [done|]. intros Hn. specialize (Hn p). pose proof (tk_avail _ _ _ _ Ht).
    rewrite Hps in Hn. assert (available p < pages_taken pages * PAGE) by (apply Hn, elem_of_middle; by left). lia.
  - eauto.
  - split; [|done]. intros _. by apply Forall_forall.
  - by left.
Qed.

Lemma page_allocate_panics_iff_witness :
  page_allocate 5 demo_state = Panicked <->
  forall p, p ∈ allocator_pools demo_state -> available p < 5 * PAGE.
Proof.
  apply (page_allocate_panics_iff 0 5 demo_state demo_wf); [lia|unfold pages_taken, PAGE; lia].
Defined.

(** The fast path for single pages computes what the general loop computes for one page. *)
Theorem page_allocate_fast_path s :
  Forall (fun p => in_u64 (last_allocated_page_index p) /\ in_u64 (bitmap_entries p))
    (allocator_pools s) ->
  __page_allocate_single_fast s = page_allocate_general 1 s.
Proof.
  intros H. unfold __page_allocate_single_fast, page_allocate_general.
  by rewrite single_fast_loop_eq.
Qed.

Lemma page_allocate_fast_path_witness :
  __page_allocate_single_fast demo_state = page_allocate_general 1 demo_state.
Proof. apply page_allocate_fast_path. repeat constructor; simpl; lia. Defined.

(** page_deallocate of pages that are allocated succeeds, frees exactly these pages and leaves
    the contents of allocated pages alone. *)
Theorem page_deallocate_refines hhdm s base pages :
  pa_wf hhdm s -> owned_block s base pages ->
  exists s', page_deallocate base pages s = Done s' /\ pa_wf hhdm s' /\
    free_spec (pa_allocated s) pages base (pa_allocated s') /\
    (forall a b, pa_allocated s a -> a <= b < a + PAGE -> ld8 (pa_mem s') b = ld8 (pa_mem s) b).
Proof.
  intros Hwf Ho. destruct (page_deallocate_done hhdm s base pages Hwf Ho) as (s' & H1 & H2 & _ & H3 & H4).
  by exists s'.
Qed.

Lemma page_deallocate_refines_witness :
  exists ptr s' s'', page_allocate 2 demo_state = Done (ptr, s') /\ page_deallocate ptr 2 s' = Done s'' /\
    free_spec (pa_allocated s') 2 ptr (pa_allocated s'').
Proof.
  assert (is_done (page_allocate 2 demo_state) = true) as H by (vm_compute; reflexivity).
  apply is_done_inv in H as ([ptr s'] & E).
  assert (holds 0 s' [(ptr, 2)]) as (Hwf & Ho & _).
  { apply (holds_alloc 0 demo_state [] 2 ptr s'); [|lia|unfold pages_taken, PAGE; lia|exact E].
    split; [exact demo_wf|]. split; constructor. }
  inversion_clear Ho as [|? ? Hb _].
  destruct (page_deallocate_refines 0 s' ptr 2 Hwf Hb) as (s'' & H1 & _ & H3 & _).
  exists ptr, s', s''. split; [exact E|]. split; [exact H1|exact H3].
Defined.

Lemma u64_swap a d x : (a +w d) +w x = (a +w x) +w d.
Proof. unfold u64. rewrite !Z.add_mod_idemp_l by lia. f_equal. lia. Qed.

Lemma fold_pools_shift (f : page_allocator_pool_t -> Z) l a d :
  fold_left (fun acc p => acc +w f p) l (a +w d) = u64 (fold_left (fun acc p => acc +w f p) l a + d).
Proof.
  revert a. induction l as [|y l IH]; intros a; simpl; [done|]. by rewrite u64_swap, IH.
Qed.

(** Taking pages lowers the sum of the [available] fields by what was taken. *)
Lemma sum_available_take m m' l1 p l2 lk lk' index pages :
  sum_pools available (PA m' (l1 ++ take_pages p index pages :: l2) lk') =
  sum_pools available (PA m (l1 ++ p :: l2) lk) -w (pages * PAGE).
Proof.
  unfold sum_pools; simpl. rewrite !fold_left_app. simpl.
  set (a := fold_left _ l1 0).
  replace (a +w (available p - pages * PAGE)) with ((a +w available p) +w (- (pages * PAGE)))
    by (unfold u64; rewrite Z.add_mod_idemp_l by lia; f_equal; lia).
  by rewrite fold_pools_shift.
Qed.

(** Deallocating pages clears their bits but does not give their bytes back to the pool: the
    free count stays lower by what was allocated. *)
Theorem page_capacity_not_returned hhdm pages s ptr s1 s2 :
  pa_wf hhdm s -> 0 <= pages -> in_u64 (pages_taken pages * PAGE) ->
  page_allocate pages s = Done (ptr, s1) ->
  page_deallocate ptr (pages_taken pages) s1 = Done s2 ->
  (forall a, pa_allocated s2 a <-> pa_allocated s a) /\
  page_count_free s2 = page_count_free s -w (pages_taken pages * PAGE).
Proof.
  intros Hwf H0 Hr Ha Hd.
  destruct (page_allocate_done _ _ _ _ _ Hwf H0 Hr Ha) as (Hwf1 & _ & _ & _ & Hf & Hal & _).
  assert (holds hhdm s1 [(ptr, pages_taken pages)]) as (_ & Ho & _).
  { apply (holds_alloc hhdm s [] pages); [|done..]. split; [done|split; constructor]. }
  inversion_clear Ho as [|? ? Hb _].
  destruct (page_deallocate_done hhdm s1 _ _ Hwf1 Hb) as (s2' & Hd' & _ & Hp & Hal2 & _).
  simpl in Hd'. rewrite Hd in Hd'. injection Hd' as <-. split.
  - intros a. rewrite Hal2, Hal. simpl. split; [tauto|]. intros Hx. split; [by left|].
    intros (i & Hi & ->). by apply (Hf i).
  - pose proof (page_allocate_result hhdm pages s Hwf H0 Hr) as Hres. rewrite Ha in Hres.
    inversion Hres as [l1 p l2 index Hps Ht E|]; subst. destruct s as [m ps lk], s2 as [m2 ps2 lk2].
    simpl in *. subst. unfold page_count_free. apply sum_available_take.
Qed.

Lemma page_capacity_not_returned_witness :
  exists ptr s1 s2, page_allocate 4 demo_state = Done (ptr, s1) /\
    page_deallocate ptr 4 s1 = Done s2 /\ page_count_free s2 = page_count_free demo_state -w (4 * PAGE).
Proof.
  assert (is_done ('(ptr, s1) ← page_allocate 4 demo_state; page_deallocate ptr 4 s1) = true) as H
    by (vm_compute; reflexivity).
  apply is_done_bind in H as ([ptr s1] & E & H). apply is_done_inv in H as (s2 & E2).
  exists ptr, s1, s2. split; [exact E|]. split; [exact E2|].
  apply (page_capacity_not_returned 0 4 demo_state ptr s1 s2 demo_wf);
    [lia|unfold pages_taken, PAGE; lia|exact E|exact E2].
Defined.

(** On a memory map whose usable entries are disjoint and in range, page_allocator_init creates
    one well-formed pool per usable entry larger than 128 KB, with no page allocated. *)
Theorem page_allocator_init_ok hhdm usable m es :
  0 <= hhdm < 18446744073709551616 - 4503599627370496 -> hhdm mod PAGE = 0 ->
  memmap_ok usable es ->
  exists s, page_allocator_init hhdm usable m es = Done s /\ pa_wf hhdm s /\
    length (allocator_pools s) = length (pooled_entries usable es) /\
    forall a, ~ pa_allocated s a.
Proof.
  intros H1 H2 H.
  assert (exists s, page_allocator_init hhdm usable m es = Done s) as [s Hs].
  { destruct H as (Hok & Hp & Hlen).
    destruct (create_pools_wf hhdm usable H1 H2 es (PA m [] false)) as (s' & Hs & _); eauto.
    - split_and!; [done| |constructor]. split; constructor.
    - apply Forall_forall. intros. constructor. }
  destruct (init_wf hhdm usable H1 H2 m es s H Hs) as (Hwf & Hl & Hu). exists s. split_and!; try done.
  intros a (p & i & Hp & Hi & _ & Hb). destruct Hwf as (_ & [Hwf _] & _).
  rewrite Forall_forall in Hwf. pose proof (set_bit_in_pool _ p i (Hwf p Hp) Hi Hb) as Hx.
  rewrite (Hu p Hp) in Hx. unfold PAGE in Hx. lia.
Qed.

Lemma page_allocator_init_ok_witness :
  exists s, page_allocator_init 65536 0 ∅ demo_memmap = Done s /\ pa_wf 65536 s /\
    length (allocator_pools s) = length (pooled_entries 0 demo_memmap) /\
    forall a, ~ pa_allocated s a.
Proof.
  apply (page_allocator_init_ok 65536 0 ∅ demo_memmap); [lia|reflexivity|exact demo_memmap_ok].
Defined.

(** The rounding of the bitmap size can leave the bitmap short: for a usable entry of 32771
    pages, the word of the bitmap that holds the bit of page 32768 is the first word of the
    first page that is handed out. *)
Theorem bitmap_can_be_short :
  let e := MemmapEntry 1048576 (32771 * PAGE) 0 in
  let p := new_pool 0 e in
  32768 < bitmap_entries p /\ 32769 * PAGE <= total p /\
  word_of (bitmap_base p) 32768 = allocate_base p.
Proof. vm_compute. split_and!; congruence. Qed.

(** The byte [k] of a block lies in one of its pages. *)
Lemma in_block_page base n b : base <= b < base + n * PAGE ->
  exists i, 0 <= i < n /\ base + i * PAGE <= b < base + i * PAGE + PAGE.
Proof. intros H. exists ((b - base) / PAGE). unfold PAGE in *. zlia. Qed.

(** page_reallocate copies the old pages to the new ones, frees exactly the old ones and keeps
    the pools well formed. *)
Theorem page_reallocate_moves hhdm s base old new new_base s' :
  pa_wf hhdm s -> owned_block s base old -> 0 <= new -> old <= pages_taken new ->
  in_u64 (pages_taken new * PAGE) ->
  page_reallocate base old new s = Done (new_base, s') ->
  pa_wf hhdm s' /\
  (forall k, 0 <= k < old * PAGE -> ld8 (pa_mem s') (new_base + k) = ld8 (pa_mem s) (base + k)) /\
  (forall a, pa_allocated s' a <->
     (pa_allocated s a \/ exists i, 0 <= i < pages_taken new /\ a = new_base + i * PAGE) /\
     ~ exists i, 0 <= i < old /\ a = base + i * PAGE).
Proof.
  intros Hwf Ho H0 Hle Hr Hre. unfold page_reallocate in Hre.
  apply bind_done_inv in Hre as ([nb s1] & Ha & Hre). apply bind_done_inv in Hre as (s3 & Hd & Hre).
  injection Hre as -> ->. assert (1 <= old) as H1 by (by destruct Ho as (? & ? & _ & _ & _ & ? & _)).
  destruct (page_allocate_done _ _ _ _ _ Hwf H0 Hr Ha) as (Hwf1 & Hal & _ & _ & Hfresh & Hset & _ & Hkeep).
  destruct (holds_alloc hhdm s [(base, old)] new new_base s1) as (_ & Ho1 & _);
    [split_and!; [done|by repeat constructor..]|done..|].
  inversion_clear Ho1 as [|? ? Hnew Ho2]. inversion_clear Ho2 as [|? ? Hold _].
  assert (1 <= pages_taken new) as Hpt by (unfold pages_taken; lia).
  pose proof (owned_apart_fresh _ _ _ _ new_base _ Hwf Ho Hal Hpt H1 Hfresh) as Hap.
  unfold blocks_apart in Hap. simpl in Hold, Hnew, Hap.
  unfold memcpy in Hd. rewrite u64_small in Hd by (unfold PAGE in *; lia).
  set (m2 := memcpy_loop _ _ _ _) in Hd.
  assert (changes (client_byte s1) (pa_mem s1) m2) as Hc.
  { apply changes_memcpy. intros b Hb. left.
    destruct (in_block_page new_base old b) as (i & Hi & Hpg); [unfold PAGE in *; lia|].
    exists (new_base + i * PAGE). split; [|done]. apply (owned_allocated s1 _ _ Hnew). lia. }
  destruct (write_wf hhdm s1 m2 Hwf1 Hc) as [Hwf2 Hset2].
  pose proof (write_owned hhdm s1 m2 base old Hwf1 Hc Hold) as Hold2.
  destruct (page_deallocate_done hhdm _ _ _ Hwf2 Hold2) as (s3' & Hd' & Hwf3 & _ & Hset3 & Hkeep3).
  rewrite Hd in Hd'. injection Hd' as <-. split_and!; [done| |].
  - intros k Hk.
    destruct (in_block_page new_base old (new_base + k)) as (i & Hi & Hpg); [lia|].
    rewrite (Hkeep3 (new_base + i * PAGE)); [|apply Hset2, (owned_allocated s1 _ _ Hnew); lia|done].
    destruct (in_block_page base old (base + k)) as (j & Hj & Hpj); [lia|].
    simpl. unfold m2. rewrite ld8_memcpy_loop by (unfold PAGE in *; lia).
    rewrite decide_True by (unfold PAGE in *; lia).
    replace (base + (new_base + k - new_base)) with (base + k) by lia.
    apply (Hkeep (base + j * PAGE)); [|done]. apply (owned_allocated s _ _ Ho). lia.
  - intros a. by rewrite Hset3, Hset2, Hset.
Qed.

Lemma page_reallocate_moves_witness :
  exists ptr s1 new_base s', page_allocate 1 demo_state = Done (ptr, s1) /\
    page_reallocate ptr 1 2 s1 = Done (new_base, s') /\
    (forall k, 0 <= k < 1 * PAGE -> ld8 (pa_mem s') (new_base + k) = ld8 (pa_mem s1) (ptr + k)).
Proof.
  assert (is_done ('(ptr, s1) ← page_allocate 1 demo_state; page_reallocate ptr 1 2 s1) = true) as H
    by (vm_compute; reflexivity).
  apply is_done_bind in H as ([ptr s1] & E & H). apply is_done_inv in H as ([nb s'] & E2).
  assert (holds 0 s1 [(ptr, 1)]) as (Hwf & Ho & _).
  { apply (holds_alloc 0 demo_state [] 1 ptr s1); [|lia|unfold pages_taken, PAGE; lia|exact E].
    split; [exact demo_wf|]. split; constructor. }
  inversion_clear Ho as [|? ? Hb _].
  exists ptr, s1, nb, s'. split; [exact E|]. split; [exact E2|].
  apply (page_reallocate_moves 0 s1 ptr 1 2 nb s' Hwf Hb);
    [lia|unfold pages_taken; lia|unfold pages_taken, PAGE; lia|exact E2].
Defined.
