(* ===== verification/PageTable.v ===== *)
(** The page-table manager, [arch/x86_64/page_table_manager/table_manager.c] and
    [.h]: four-level page tables built in pages that come from the page source,
    reached through the higher-half direct map.

    The theorems are proved against the interface [PageSource]; the page
    allocator is one instance.  Layers are named by the address the kernel
    reads them at (physical address plus [kernel_hhdm_offset]). *)

From S2P Require Import Prelude Memory Libc Spinlock PageAllocator PageAllocatorSpec.

Definition TABLE_ENTRY_PRESENT : Z := 1.
Definition TABLE_ENTRY_READ_WRITE : Z := 2.
Definition TABLE_ENTRY_USER : Z := 4.
Definition TABLE_ENTRY_CACHE_DISABLE : Z := 16.
Definition TABLE_ENTRY_NO_EXECUTE : Z := Z.shiftl 1 63.

(** The bits of an entry that are not its address field. *)
Definition FLAG_MASK : Z := 0xFFF0000000000FFF.

Definition arch_table_manager_get_address (entry : Z) : Z := Z.land entry (Z.lnot FLAG_MASK).

Definition arch_table_manager_set_address (entry address : Z) : Z :=
  Z.lor (Z.land entry FLAG_MASK) address.

(** The nine-bit fields of a virtual address. *)
Definition pml3_index (va : Z) : Z := Z.shiftr (Z.land va (Z.shiftl 0x1FF 39)) 39.
Definition pml2_index (va : Z) : Z := Z.shiftr (Z.land va (Z.shiftl 0x1FF 30)) 30.
Definition pml1_index (va : Z) : Z := Z.shiftr (Z.land va (Z.shiftl 0x1FF 21)) 21.
Definition p_index (va : Z) : Z := Z.shiftr (Z.land va (Z.shiftl 0x1FF 12)) 12.

Section Model.
Context (kernel_hhdm_offset : Z) {St : Type} `{!PageSource St}.

Definition entry_at (s : St) (layer index : Z) : Z := ld64 (src_mem s) (layer + 8 * index).

Definition set_entry (s : St) (layer index v : Z) : St :=
  src_with_mem s (st64 (src_mem s) (layer + 8 * index) v).

(** The next layer, or 0 for [nullptr]. *)
Definition arch_table_manager_get_next_layer (s : St) (layer index : Z) : Z :=
  if layer + 8 * index <=? kernel_hhdm_offset then 0
  else if Z.land (entry_at s layer index) TABLE_ENTRY_PRESENT =? 0 then 0
  else arch_table_manager_get_address (entry_at s layer index) +w kernel_hhdm_offset.

(** The two read-modify-writes of a fresh entry are written as one store. *)
Definition arch_table_manager_allocate_next_layer (s : St) (layer index flags : Z) :
    outcome (Z * St) :=
  let flags := Z.land flags 0xFF in
  s' ← (if Z.land (entry_at s layer index) TABLE_ENTRY_PRESENT =? 0 then
          '(page, s1) ← src_page_allocate 1 s;
          let newLayer := page -w kernel_hhdm_offset in
          let e := Z.lor (entry_at s1 layer index) newLayer in
          Done (set_entry s1 layer index (Z.lor e (Z.lor flags TABLE_ENTRY_PRESENT)))
        else Done (set_entry s layer index (Z.lor (entry_at s layer index) flags)));
  Done (arch_table_manager_get_address (entry_at s' layer index) +w kernel_hhdm_offset, s').

(** The final read-modify-writes of a leaf entry. *)
Definition set_leaf (s : St) (pml1 index physical_address flags : Z) : St :=
  let e := Z.lor (entry_at s pml1 index) (Z.lor flags TABLE_ENTRY_PRESENT) in
  set_entry s pml1 index (arch_table_manager_set_address e physical_address).

Definition arch_table_manager_map (table virtual_address physical_address flags : Z) (s : St) :
    outcome St :=
  '(pml3, s) ← arch_table_manager_allocate_next_layer s table (pml3_index virtual_address) flags;
  '(pml2, s) ← arch_table_manager_allocate_next_layer s pml3 (pml2_index virtual_address) flags;
  '(pml1, s) ← arch_table_manager_allocate_next_layer s pml2 (pml1_index virtual_address) flags;
  Done (set_leaf s pml1 (p_index virtual_address) physical_address flags).

(** [for (i = 0; i < to_map; ++i)] over consecutive entries of one layer. *)
Fixpoint map_entries (s : St) (pml1 index physical_address flags : Z) (n : nat) : St :=
  match n with
  | O => s
  | S n' => map_entries (set_leaf s pml1 index physical_address flags) pml1 (index + 1)
              (physical_address +w PAGE) flags n'
  end.

(** The [while (count > 0)] of [arch_table_manager_map_range]; each round maps
    at least one page, so [count] rounds are enough. *)
Fixpoint map_range_loop (table flags : Z) (fuel : nat) (s : St)
    (pml3 pml2 pml1 i3 i2 i1 ip physical_address count : Z) : outcome St :=
  match fuel with
  | O => if count =? 0 then Done s else Timeout
  | S fuel' =>
      if count =? 0 then Done s else
      let remaining_in_pml1 := 512 - ip in
      let to_map := if count <? remaining_in_pml1 then count else remaining_in_pml1 in
      let s := map_entries s pml1 ip physical_address flags (Z.to_nat to_map) in
      let physical_address := physical_address +w (to_map *w PAGE) in
      let count := count - to_map in
      let i1 := i1 + 1 in
      if 512 <=? i1 then
        let i1 := 0 in
        let i2 := i2 + 1 in
        if 512 <=? i2 then
          let i2 := 0 in
          let i3 := i3 + 1 in
          '(pml3, s) ← arch_table_manager_allocate_next_layer s table i3 flags;
          '(pml2, s) ← arch_table_manager_allocate_next_layer s pml3 i2 flags;
          '(pml1, s) ← arch_table_manager_allocate_next_layer s pml2 i1 flags;
          map_range_loop table flags fuel' s pml3 pml2 pml1 i3 i2 i1 0 physical_address count
        else
          '(pml2, s) ← arch_table_manager_allocate_next_layer s pml3 i2 flags;
          '(pml1, s) ← arch_table_manager_allocate_next_layer s pml2 i1 flags;
          map_range_loop table flags fuel' s pml3 pml2 pml1 i3 i2 i1 0 physical_address count
      else
        '(pml1, s) ← arch_table_manager_allocate_next_layer s pml2 i1 flags;
        map_range_loop table flags fuel' s pml3 pml2 pml1 i3 i2 i1 0 physical_address count
  end.

Definition arch_table_manager_map_range
    (table virtual_address physical_address flags count : Z) (s : St) : outcome St :=
  let i3 := pml3_index virtual_address in
  let i2 := pml2_index virtual_address in
  let i1 := pml1_index virtual_address in
  '(pml3, s) ← arch_table_manager_allocate_next_layer s table i3 flags;
  '(pml2, s) ← arch_table_manager_allocate_next_layer s pml3 i2 flags;
  '(pml1, s) ← arch_table_manager_allocate_next_layer s pml2 i1 flags;
  map_range_loop table flags (Z.to_nat count) s pml3 pml2 pml1 i3 i2 i1
    (p_index virtual_address) physical_address count.

Definition arch_table_manager_translate_to_physical (table virtual_address : Z) (s : St) : Z :=
  let pml3 := arch_table_manager_get_next_layer s table (pml3_index virtual_address) in
  if pml3 =? 0 then 0 else
  let pml2 := arch_table_manager_get_next_layer s pml3 (pml2_index virtual_address) in
  if pml2 =? 0 then 0 else
  let pml1 := arch_table_manager_get_next_layer s pml2 (pml1_index virtual_address) in
  if pml1 =? 0 then 0 else
  let entry := entry_at s pml1 (p_index virtual_address) in
  if Z.land entry TABLE_ENTRY_PRESENT =? 0 then 0 else arch_table_manager_get_address entry.

Definition arch_table_manager_new (s : St) : outcome (Z * St) := src_page_allocate 1 s.

(** The bootstrap table: every entry of the memory map in the direct map, the
    kernel image at its link address.  The result is [arch_bootstrap_page_table]. *)
Fixpoint map_memmap (LIMINE_MEMMAP_EXECUTABLE_AND_MODULES kernel_physical_base
    kernel_virtual_base table : Z) (entries : list limine_memmap_entry) (s : St) : outcome St :=
  match entries with
  | [] => Done s
  | e :: es =>
      let physical_base :=
        if entry_base e mod PAGE =? 0 then entry_base e else entry_base e - entry_base e mod PAGE in
      let virtual_base := physical_base +w kernel_hhdm_offset in
      s ← (if entry_type e =? LIMINE_MEMMAP_EXECUTABLE_AND_MODULES then
             arch_table_manager_map_range table kernel_virtual_base kernel_physical_base
               TABLE_ENTRY_READ_WRITE (entry_length e / PAGE) s
           else
             arch_table_manager_map_range table virtual_base physical_base
               TABLE_ENTRY_READ_WRITE (entry_length e / PAGE) s);
      map_memmap LIMINE_MEMMAP_EXECUTABLE_AND_MODULES kernel_physical_base
        kernel_virtual_base table es s
  end.

Definition arch_table_manager_create_bootstrap_table_limine
    (LIMINE_MEMMAP_EXECUTABLE_AND_MODULES kernel_physical_base kernel_virtual_base : Z)
    (entries : list limine_memmap_entry) (s : St) : outcome (Z * St) :=
  '(table, s) ← arch_table_manager_new s;
  s ← map_memmap LIMINE_MEMMAP_EXECUTABLE_AND_MODULES kernel_physical_base
        kernel_virtual_base table entries s;
  Done (table, s).
End Model.

(** * Entries *)

Lemma flag_mask_bits i : 0 <= i -> Z.testbit FLAG_MASK i = (i <? 12) || ((52 <=? i) && (i <? 64)).
Proof.
  intros Hi. change FLAG_MASK with (Z.lor (Z.ones 12) (Z.shiftl (Z.ones 12) 52)).
  rewrite Z.lor_spec, Z.shiftl_spec, Z.testbit_ones_nonneg by lia.
  destruct (Z.ltb_spec i 12); simpl; [done|].
  destruct (Z.leb_spec 52 i); simpl.
  - rewrite Z.testbit_ones_nonneg by lia. repeat btest; (done || lia).
  - by apply Z.testbit_neg_r; lia.
Qed.

Lemma get_address_lor a b :
  arch_table_manager_get_address (Z.lor a b) =
  Z.lor (arch_table_manager_get_address a) (arch_table_manager_get_address b).
Proof. apply Z.land_lor_distr_l. Qed.

(** A page-aligned 52-bit address is its own address field. *)
Lemma get_address_page pa :
  0 <= pa < 4503599627370496 -> pa mod PAGE = 0 -> arch_table_manager_get_address pa = pa.
Proof.
  intros H1 H2. apply Z.bits_inj'. intros i Hi. unfold arch_table_manager_get_address.
  rewrite Z.land_spec, Z.lnot_spec, flag_mask_bits by lia.
  destruct (Z.ltb_spec i 12); simpl.
  - replace pa with (Z.shiftl (pa / 2 ^ 12) 12).
    2:{ rewrite Z.shiftl_mul_pow2 by lia. change (2 ^ 12) with 4096. unfold PAGE in H2. zlia. }
    rewrite Z.shiftl_spec, Z.testbit_neg_r by lia. done.
  - destruct (Z.leb_spec 52 i); simpl; [|by rewrite andb_true_r].
    rewrite (testbit_high 52) by (done || lia). done.
Qed.

Lemma get_address_flags f : 0 <= f < 4096 -> arch_table_manager_get_address f = 0.
Proof.
  intros H. apply Z.bits_inj'. intros i Hi. unfold arch_table_manager_get_address.
  rewrite Z.land_spec, Z.lnot_spec, flag_mask_bits, Z.testbit_0_l by lia.
  destruct (Z.ltb_spec i 12); simpl; [by rewrite andb_false_r|].
  rewrite (testbit_high 12) by (done || lia). done.
Qed.

Lemma get_address_masked x : arch_table_manager_get_address (Z.land x FLAG_MASK) = 0.
Proof. unfold arch_table_manager_get_address. rewrite <- Z.land_assoc, Z.land_lnot_diag. apply Z.land_0_r. Qed.

Lemma low_flags_range f : 0 <= Z.land f 0xFF < 256.
Proof. change 0xFF with (Z.ones 8). rewrite Z.land_ones by lia. apply Z.mod_pos_bound. lia. Qed.

Lemma lor_low a b : 0 <= a < 4096 -> 0 <= b < 4096 -> 0 <= Z.lor a b < 4096.
Proof.
  intros. split; [apply Z.lor_nonneg; lia|].
  apply (bound_of_bits 12); [lia|apply Z.lor_nonneg; lia|].
  intros i Hi. rewrite Z.lor_spec, !(testbit_high 12) by (done || lia). done.
Qed.

Lemma present_bit e : (Z.land e TABLE_ENTRY_PRESENT =? 0) = negb (Z.testbit e 0).
Proof. apply (land_mask_zero e 0). lia. Qed.

Lemma get_address_range e : in_u64 e -> 0 <= arch_table_manager_get_address e < 4503599627370496.
Proof.
  intros He. assert (0 <= arch_table_manager_get_address e) by (apply Z.land_nonneg; lia).
  split; [done|]. apply (bound_of_bits 52); [lia|done|]. intros i Hi.
  unfold arch_table_manager_get_address. rewrite Z.land_spec, Z.lnot_spec, flag_mask_bits by lia.
  destruct (Z.ltb_spec i 12); [lia|]. destruct (Z.leb_spec 52 i); [|lia]. simpl.
  destruct (Z.ltb_spec i 64); simpl; [by rewrite andb_false_r|].
  rewrite (testbit_high 64) by (done || lia). done.
Qed.

(** * Indices *)

Lemma index_field va n : 0 <= n -> Z.shiftr (Z.land va (Z.shiftl 0x1FF n)) n = va / 2 ^ n mod 512.
Proof.
  intros Hn. rewrite Z.shiftr_land, Z.shiftr_shiftl_l, Z.sub_diag, Z.shiftl_0_r by lia.
  change 0x1FF with (Z.ones 9). rewrite Z.land_ones, Z.shiftr_div_pow2 by lia. done.
Qed.

Lemma indices_range va :
  0 <= pml3_index va < 512 /\ 0 <= pml2_index va < 512 /\
  0 <= pml1_index va < 512 /\ 0 <= p_index va < 512.
Proof.
  unfold pml3_index, pml2_index, pml1_index, p_index. rewrite !index_field by lia.
  split_and!; apply Z.mod_pos_bound; lia.
Qed.

(** The 36 bits of a virtual address that select a page. *)
Definition page_number (va : Z) : Z := va / PAGE mod 68719476736.

Lemma page_number_indices va :
  page_number va =
  ((pml3_index va * 512 + pml2_index va) * 512 + pml1_index va) * 512 + p_index va.
Proof.
  unfold page_number, pml3_index, pml2_index, pml1_index, p_index, PAGE. rewrite !index_field by lia.
  change (2 ^ 39) with 549755813888. change (2 ^ 30) with 1073741824.
  change (2 ^ 21) with 2097152. change (2 ^ 12) with 4096. zlia.
Qed.

Lemma page_number_inj va vb :
  page_number va = page_number vb <->
  pml3_index va = pml3_index vb /\ pml2_index va = pml2_index vb /\
  pml1_index va = pml1_index vb /\ p_index va = p_index vb.
Proof.
  rewrite !page_number_indices. pose proof (indices_range va). pose proof (indices_range vb). lia.
Qed.

(** * The tree of layers *)

Section Tree.
Context (hhdm : Z) {St : Type} `{!PageSource St} `{!PageSourceLaws hhdm St}.

(** The layer an entry points to. *)
Definition child (s : St) (l i : Z) : option Z :=
  if Z.testbit (entry_at s l i) 0
  then Some (arch_table_manager_get_address (entry_at s l i) + hhdm) else None.

(** The page-table walk over a list of indices. *)
Fixpoint look (s : St) (l : Z) (path : list Z) : Z :=
  match path with
  | [] => 0
  | i :: path' =>
      match path' with
      | [] => if Z.testbit (entry_at s l i) 0
              then arch_table_manager_get_address (entry_at s l i) else 0
      | _ => match child s l i with Some c => look s c path' | None => 0 end
      end
  end.

(** The walk over [path] ends at the entry [i] of the leaf layer [m]. *)
Fixpoint leads (s : St) (l : Z) (path : list Z) (m i : Z) : Prop :=
  match path with
  | [] => False
  | j :: path' =>
      match path' with
      | [] => l = m /\ j = i
      | _ => exists c, child s l j = Some c /\ leads s c path' m i
      end
  end.

(** [lev] gives the level of each layer of the table: 4 for the root, 1 for
    the layers whose entries map pages. *)
Record tree_wf (s : St) (root : Z) (lev : gmap Z nat) : Prop := {
  tw_ok : src_ok s;
  tw_root : lev !! root = Some 4%nat;
  tw_owned : forall l k, lev !! l = Some k -> src_owned s l;
  tw_child : forall l k i c, lev !! l = Some (S (S k)) -> 0 <= i < 512 ->
    child s l i = Some c -> lev !! c = Some (S k);
  tw_absent : forall l k i, lev !! l = Some (S (S k)) -> 0 <= i < 512 ->
    child s l i = None -> entry_at s l i = 0;
  tw_parent : forall l1 k1 i1 l2 k2 i2 c,
    lev !! l1 = Some (S (S k1)) -> lev !! l2 = Some (S (S k2)) ->
    0 <= i1 < 512 -> 0 <= i2 < 512 ->
    child s l1 i1 = Some c -> child s l2 i2 = Some c -> l1 = l2 /\ i1 = i2
}.

Definition in_table (path : list Z) : Prop := Forall (fun i => 0 <= i < 512) path.

(** Only bytes of the source change, and no page is given up. *)
Definition within (s s' : St) : Prop :=
  (forall R, src_in R s -> src_in R s' /\ changes R (src_mem s) (src_mem s')) /\
  forall a, src_owned s a -> src_owned s' a.

(** What building layers does to a table: it only adds links, and no
    translation changes. *)
Record grown (s : St) (lev : gmap Z nat) (s' : St) (lev' : gmap Z nat) : Prop := {
  gr_lev : lev ⊆ lev';
  gr_child : forall l k i c, lev !! l = Some (S (S k)) -> 0 <= i < 512 ->
    child s l i = Some c -> child s' l i = Some c;
  gr_look : forall path l, in_table path -> lev !! l = Some (length path) ->
    look s' l path = look s l path;
  gr_within : within s s'
}.
End Tree.

Section TreeProofs.
Context (hhdm : Z) {St : Type} `{!PageSource St} `{!PageSourceLaws hhdm St}.
Implicit Types s : St.

Lemma within_refl s : within s s.
Proof using. split; [|done]. intros V H. split; [done|]. apply changes_refl. Qed.

Lemma within_trans s1 s2 s3 : within s1 s2 -> within s2 s3 -> within s1 s3.
Proof using.
  intros [H1 O1] [H2 O2]. split; [|by auto]. intros V HV. destruct (H1 V HV) as [HV2 C1]. destruct (H2 V HV2) as [HV3 C2].
  split; [done|]. by apply (changes_trans _ _ (src_mem s2)).
Qed.

Lemma grown_refl s lev : grown hhdm s lev s lev.
Proof using. split; by try apply within_refl. Qed.

Lemma grown_trans s1 lev1 s2 lev2 s3 lev3 :
  grown hhdm s1 lev1 s2 lev2 -> grown hhdm s2 lev2 s3 lev3 -> grown hhdm s1 lev1 s3 lev3.
Proof using.
  intros [H1 H2 H3 W1] [H4 H5 H6 W2]. split; [| | |by eapply within_trans].
  - by etrans.
  - intros l k i c Hl Hi Hc. eapply H5; [by eapply lookup_weaken|done|]. by eapply H2.
  - intros path l Hp Hl. rewrite H6, H3; try done. by eapply lookup_weaken.
Qed.

Lemma look_step s l i j path :
  look hhdm s l (i :: j :: path) =
  match child hhdm s l i with Some c => look hhdm s c (j :: path) | None => 0 end.
Proof using. done. Qed.

Lemma look_one s l i :
  look hhdm s l [i] =
  if Z.testbit (entry_at s l i) 0 then arch_table_manager_get_address (entry_at s l i) else 0.
Proof using. done. Qed.

(** ** Stores into entries *)

Lemma owned_disjoint s l l' :
  src_ok s -> src_owned s l -> src_owned s l' -> l <> l' -> l + PAGE <= l' \/ l' + PAGE <= l.
Proof using PageSourceLaws0.
  intros Hok H1 H2 Hne. destruct (law_range s l Hok H1) as [? _].
  destruct (law_range s l' Hok H2) as [? _]. unfold PAGE in *. zlia.
Qed.

Lemma entry_set s l i v l' i' :
  src_ok s -> src_owned s l -> src_owned s l' -> 0 <= i < 512 -> 0 <= i' < 512 ->
  entry_at (set_entry s l i v) l' i' =
  if decide (l = l' /\ i = i') then u64 v else entry_at s l' i'.
Proof using PageSourceLaws0.
  intros Hok Hl Hl' Hi Hi'. unfold entry_at, set_entry. rewrite law_with_mem.
  destruct (decide (l = l' /\ i = i')) as [[-> ->]|Hne]; [apply ld64_st64|].
  apply ld64_st64_other. destruct (decide (l = l')) as [->|Hll].
  - assert (i <> i') by naive_solver. lia.
  - destruct (owned_disjoint s l l' Hok Hl Hl' Hll); unfold PAGE in *; lia.
Qed.

Lemma set_entry_ok s l i v :
  src_ok s -> src_owned s l -> 0 <= i < 512 ->
  src_ok (set_entry s l i v) /\ forall a, src_owned (set_entry s l i v) a <-> src_owned s a.
Proof using PageSourceLaws0.
  intros Hok Hl Hi. apply law_write_bytes; [done|].
  apply changes_st64. intros b Hb. exists l. split; [done|]. unfold PAGE. lia.
Qed.

Lemma set_entry_within s l i v :
  src_ok s -> src_owned s l -> 0 <= i < 512 -> within s (set_entry s l i v).
Proof using PageSourceLaws0.
  intros Hok Hl Hi. split; [|intros a; by apply (set_entry_ok s l i v Hok Hl Hi)].
  intros R HR. unfold set_entry. split; [by apply law_in_mem|].
  rewrite law_with_mem. apply changes_st64. intros b Hb.
  apply (law_in_owned s R l); [done|done|done|]. unfold PAGE. lia.
Qed.

Lemma entry_range s l i : in_u64 (entry_at s l i).
Proof using. apply ld64_range. Qed.

(** The pages that are in use outside the table stay outside, with their
    bytes. *)
Definition kept s (lev : gmap Z nat) s' (lev' : gmap Z nat) : Prop :=
  forall a, src_owned s a -> lev !! a = None ->
    src_owned s' a /\ lev' !! a = None /\ forall b, a <= b < a + PAGE -> ld8 (src_mem s') b = ld8 (src_mem s) b.

Lemma kept_trans s1 lev1 s2 lev2 s3 lev3 :
  kept s1 lev1 s2 lev2 -> kept s2 lev2 s3 lev3 -> kept s1 lev1 s3 lev3.
Proof using.
  intros H1 H2 a Ha Hl. destruct (H1 a Ha Hl) as (O2 & L2 & B2). destruct (H2 a O2 L2) as (O3 & L3 & B3).
  split_and!; [done|done|]. intros b Hb. rewrite B3 by done. by apply B2.
Qed.

Lemma set_entry_kept s root lev l k i v :
  tree_wf hhdm s root lev -> lev !! l = Some k -> 0 <= i < 512 -> kept s lev (set_entry s l i v) lev.
Proof using PageSourceLaws0.
  intros Hwf Hl Hi a Ha Hna. pose proof (tw_ok _ _ _ _ Hwf) as Hok. pose proof (tw_owned _ _ _ _ Hwf l _ Hl) as Hol.
  split_and!; [by apply (set_entry_ok s l i v Hok Hol Hi)|done|]. intros b Hb. unfold set_entry. rewrite law_with_mem.
  apply ld8_st64_other. assert (l <> a) as Hne by congruence.
  destruct (owned_disjoint s l a Hok Hol Ha Hne); unfold PAGE in *; lia.
Qed.

(** ** Entries with flags added *)

Lemma testbit0_page x : x mod PAGE = 0 -> Z.testbit x 0 = false.
Proof using.
  intros H. rewrite Z.bit0_odd. 
  rewrite <- Z.negb_even. assert (Z.even x = true) as ->; [|done].
  apply Z.even_spec. exists (x / 2). unfold PAGE in H. zlia.
Qed.

(** Adding flag bits keeps the address field of a present entry. *)
Lemma add_flags e f : in_u64 e -> 0 <= f < 4096 ->
  in_u64 (Z.lor e f) /\
  arch_table_manager_get_address (Z.lor e f) = arch_table_manager_get_address e.
Proof using.
  intros He Hf. split; [by apply lor_u64; lia|].
  rewrite get_address_lor, (get_address_flags f Hf). apply Z.lor_0_r.
Qed.

End TreeProofs.

Section Growth.
Context (hhdm : Z) {St : Type} `{!PageSource St} `{!PageSourceLaws hhdm St}.
Context (Hhhdm : 0 <= hhdm /\ hhdm + 4503599627370496 <= 18446744073709551616 /\ hhdm mod PAGE = 0).
Implicit Types s : St.

(** The entry of a fresh layer. *)
Lemma fresh_entry page f :
  page mod PAGE = 0 -> hhdm < page -> page + PAGE <= hhdm + 4503599627370496 ->
  let e := Z.lor (Z.lor 0 (page -w hhdm)) (Z.lor (Z.land f 0xFF) TABLE_ENTRY_PRESENT) in
  in_u64 e /\ Z.testbit e 0 = true /\ arch_table_manager_get_address e + hhdm = page.
Proof using Hhhdm.
  intros H1 H2 H3 e. pose proof (low_flags_range f). unfold PAGE in *.
  assert (page -w hhdm = page - hhdm) as Hw by (apply u64_small; lia).
  assert (0 <= Z.lor (Z.land f 0xFF) TABLE_ENTRY_PRESENT < 4096)
    by (apply lor_low; unfold TABLE_ENTRY_PRESENT; lia).
  unfold e. rewrite Z.lor_0_l, Hw. destruct (add_flags (page - hhdm) _ ltac:(lia) H0) as [Ha Hb].
  split; [done|split].
  - rewrite !Z.lor_spec. change (Z.testbit TABLE_ENTRY_PRESENT 0) with true.
    by rewrite !orb_true_r.
  - rewrite Hb, get_address_page; [lia|lia|]. destruct Hhhdm as (_ & _ & Hal). unfold PAGE in *. zlia.
Qed.

(** ** One link *)

Lemma child_set s l i v c l' i' :
  src_ok s -> src_owned s l -> src_owned s l' -> 0 <= i < 512 -> 0 <= i' < 512 ->
  in_u64 v -> Z.testbit v 0 = true -> arch_table_manager_get_address v + hhdm = c ->
  child hhdm (set_entry s l i v) l' i' =
  if decide (l = l' /\ i = i') then Some c else child hhdm s l' i'.
Proof using PageSourceLaws0.
  intros Hok Hl Hl' Hi Hi' Hv Hp <-. unfold child.
  rewrite (entry_set hhdm) by done. case_decide; [|done]. by rewrite u64_small, Hp.
Qed.

Definition zero_layer s (c : Z) : Prop := forall i, 0 <= i < 512 -> entry_at s c i = 0.

Lemma zero_child s c i : zero_layer s c -> 0 <= i < 512 -> child hhdm s c i = None.
Proof using. intros Hz Hi. unfold child. by rewrite Hz. Qed.

Lemma look_zero s c path : zero_layer s c -> in_table path -> look hhdm s c path = 0.
Proof using.
  intros Hz Hp. destruct path as [|i path]; [done|]. inversion Hp; subst.
  destruct path; simpl; [by rewrite Hz|]. by rewrite zero_child.
Qed.

(** Two states whose tables agree. *)
Lemma look_ext s s' (lev : gmap Z nat) :
  (forall l k i c, lev !! l = Some (S (S k)) -> 0 <= i < 512 ->
     child hhdm s l i = Some c -> lev !! c = Some (S k)) ->
  (forall l k i, lev !! l = Some (S k) -> 0 <= i < 512 -> entry_at s' l i = entry_at s l i) ->
  forall path l, in_table path -> lev !! l = Some (length path) ->
  look hhdm s' l path = look hhdm s l path.
Proof using.
  intros Hc He path. induction path as [|i [|j path] IH]; intros l Hp Hl; [done| |];
    inversion_clear Hp; simpl.
  - by rewrite (He l 0%nat) by done.
  - unfold child at 1. rewrite (He l (S (length path))) by done. fold (child hhdm s l i).
    destruct (child hhdm s l i) as [c|] eqn:E; [|done].
    apply IH; [done|]. by eapply Hc.
Qed.

(** Another state with the same entries. *)
Lemma tree_ext s s' root lev :
  tree_wf hhdm s root lev -> src_ok s' -> (forall a, src_owned s a -> src_owned s' a) ->
  (forall l k i, lev !! l = Some k -> 0 <= i < 512 -> entry_at s' l i = entry_at s l i) ->
  tree_wf hhdm s' root lev /\
  forall path l, in_table path -> lev !! l = Some (length path) ->
  look hhdm s' l path = look hhdm s l path.
Proof using.
  intros Hwf Hok Ho' He.
  assert (forall l k i, lev !! l = Some k -> 0 <= i < 512 -> child hhdm s' l i = child hhdm s l i) as Hc.
  { intros. unfold child. by erewrite He. }
  split.
  - destruct Hwf as [? ? Ho Hch Hab Hpar]. split; [done|done| | | |].
    + intros l k Hl. apply Ho'. by eapply Ho.
    + intros l k i c Hl Hi. erewrite Hc by done. by apply Hch.
    + intros l k i Hl Hi. erewrite Hc, He by done. by eapply Hab.
    + intros l1 k1 i1 l2 k2 i2 c Hl1 Hl2 Hi1 Hi2. erewrite !Hc by done. by eapply Hpar.
  - apply (look_ext s s' lev); [|by intros; eapply He].
    intros l k i c. apply (tw_child _ _ _ _ Hwf).
Qed.

(** The laws for one page. *)
Lemma alloc_one s s' p :
  src_ok s -> src_page_allocate 1 s = Done (p, s') ->
  src_ok s' /\ ~ src_owned s p /\ (forall a, src_owned s' a <-> src_owned s a \/ a = p) /\
  (forall b, p <= b < p + PAGE -> ld8 (src_mem s') b = 0) /\
  (forall b, src_bytes s b -> ld8 (src_mem s') b = ld8 (src_mem s) b) /\ within s s'.
Proof using PageSourceLaws0.
  intros Hok Ha. assert (in_u64 (1 * PAGE)) as Hr by (unfold PAGE; lia).
  destruct (law_alloc s s' 1 p Hok ltac:(lia) Hr Ha) as (H1 & H2 & H3 & H4 & H5).
  split_and!; [done| | | |done|].
  - specialize (H2 0 ltac:(lia)). by rewrite Z.mul_0_l, Z.add_0_r in H2.
  - intros a. rewrite H3. split; intros [Hx|Hx]; [by left| |by left|right].
    + destruct Hx as (i & Hi & ->). right. assert (i = 0) as -> by lia. lia.
    + exists 0. lia.
  - intros b Hb. apply H4. lia.
  - split; [intros R HR; by apply (law_in s s' R 1 p)|]. intros a Hx. apply H3. by left.
Qed.

(** The page source only touches bytes outside the table. *)
Lemma alloc_keeps s root lev p s' :
  tree_wf hhdm s root lev -> src_page_allocate 1 s = Done (p, s') ->
  tree_wf hhdm s' root lev /\ grown hhdm s lev s' lev /\
  lev !! p = None /\ src_owned s' p /\ zero_layer s' p /\
  (forall l k i, lev !! l = Some k -> 0 <= i < 512 -> entry_at s' l i = entry_at s l i).
Proof using PageSourceLaws0.
  intros Hwf Ha. pose proof (tw_ok _ _ _ _ Hwf) as Hok.
  destruct (alloc_one s s' p Hok Ha) as (H1 & H2 & H3 & H4 & H5 & Hw).
  assert (forall l k i, lev !! l = Some k -> 0 <= i < 512 -> entry_at s' l i = entry_at s l i) as He.
  { intros l k i Hl Hi. apply ld64_ext. intros b Hb. apply H5. exists l.
    split; [by eapply tw_owned|]. unfold PAGE. lia. }
  destruct (tree_ext s s' root lev Hwf H1) as [W' L']; [intros a Hx; apply H3; by left|done|].
  split_and!; [done| | | | |done].
  - split; [done| |done|done].
    intros l k i c Hl Hi. unfold child. by erewrite He.
  - apply eq_None_not_Some. intros [k Hk]. apply H2. by eapply tw_owned.
  - apply H3. by right.
  - intros i Hi. apply ld64_zero. intros b Hb. apply H4. unfold PAGE. lia.
Qed.

(** Rewriting an entry that keeps its link. *)
Lemma relink s root lev l k i v c :
  tree_wf hhdm s root lev -> lev !! l = Some (S (S k)) -> 0 <= i < 512 ->
  in_u64 v -> Z.testbit v 0 = true -> arch_table_manager_get_address v + hhdm = c ->
  child hhdm s l i = Some c ->
  tree_wf hhdm (set_entry s l i v) root lev /\ grown hhdm s lev (set_entry s l i v) lev.
Proof using PageSourceLaws0.
  intros Hwf Hl Hi Hv Hp Hc Hch. pose proof (tw_ok _ _ _ _ Hwf) as Hok.
  pose proof (tw_owned _ _ _ _ Hwf l _ Hl) as Hol.
  destruct (set_entry_ok hhdm s l i v Hok Hol Hi) as [Hok' How].
  assert (forall l' k' i', lev !! l' = Some k' -> 0 <= i' < 512 ->
    child hhdm (set_entry s l i v) l' i' = child hhdm s l' i') as Hsame.
  { intros l' k' i' Hl' Hi'. rewrite (child_set s l i v c); try done.
    - case_decide as Hd; [|done]. by destruct Hd as [<- <-].
    - by eapply (tw_owned _ _ _ _ Hwf). }
  split.
  - destruct Hwf as [? ? Ho Hcd Hab Hpar]. split; [done|done| | | |].
    + intros l' k' Hl'. apply How. by eapply Ho.
    + intros l' k' i' c' Hl' Hi'. erewrite Hsame by done. by apply Hcd.
    + intros l' k' i' Hl' Hi' Hn. erewrite Hsame in Hn by done.
      rewrite (entry_set hhdm) by (done || by eapply Ho).
      case_decide as Hd; [destruct Hd as [<- <-]; congruence|]. by eapply Hab.
    + intros l1 k1 i1 l2 k2 i2 c' Hl1 Hl2 Hi1 Hi2. erewrite !Hsame by done. by eapply Hpar.
  - split; [done| | |by apply (set_entry_within hhdm)].
    + intros l' k' i' c' Hl' Hi'. by erewrite Hsame.
    + intros path. induction path as [|j [|j' path] IH]; intros l' Hpa Hl'; [done| |];
        inversion_clear Hpa; simpl.
      * rewrite (entry_set hhdm) by (done || by eapply (tw_owned _ _ _ _ Hwf)).
        case_decide as Hd; [|done]. destruct Hd as [<- _]. by rewrite Hl in Hl'.
      * erewrite Hsame by done. destruct (child hhdm s l' j) as [c'|] eqn:E; [|done].
        apply IH; [done|]. by eapply (tw_child _ _ _ _ Hwf).
Qed.

(** Linking a fresh zero layer [c] at the empty entry [i] of [l]. *)
Section NewLink.
Context (s : St) (root : Z) (lev : gmap Z nat) (l : Z) (k : nat) (i v c : Z).
Context (Hwf : tree_wf hhdm s root lev) (Hl : lev !! l = Some (S (S k))) (Hi : 0 <= i < 512).
Context (Hv : in_u64 v) (Hp : Z.testbit v 0 = true).
Context (Hc : arch_table_manager_get_address v + hhdm = c) (Hch : child hhdm s l i = None).
Context (Hnc : lev !! c = None) (Hoc : src_owned s c) (Hz : zero_layer s c).
Let s' := set_entry s l i v.
Let lev' := <[c := S k]> lev.

Lemma newlink_old l' k' : lev !! l' = Some k' -> lev' !! l' = Some k'.
Proof using Hnc. intros Hl'. unfold lev'. rewrite lookup_insert_ne; [done|congruence]. Qed.

Lemma newlink_owned l' k' : lev' !! l' = Some k' -> src_owned s l'.
Proof using Hwf Hoc.
  intros [[<- _]|[_ Hl']]%lookup_insert_Some; [done|]. by eapply (tw_owned _ _ _ _ Hwf).
Qed.

Lemma newlink_set l' k' i' : lev' !! l' = Some k' -> 0 <= i' < 512 ->
  child hhdm s' l' i' = (if decide (l = l' /\ i = i') then Some c else child hhdm s l' i') /\
  entry_at s' l' i' = (if decide (l = l' /\ i = i') then u64 v else entry_at s l' i').
Proof using All.
  intros Hl' Hi'. pose proof (newlink_owned _ _ Hl').
  pose proof (tw_owned _ _ _ _ Hwf l _ Hl). pose proof (tw_ok _ _ _ _ Hwf).
  split; [by apply child_set|by apply (entry_set hhdm)].
Qed.

Lemma newlink_inv l' k' i' c' : lev' !! l' = Some (S (S k')) -> 0 <= i' < 512 ->
  child hhdm s' l' i' = Some c' -> lev !! l' = Some (S (S k')) /\
  ((l = l' /\ i = i' /\ c' = c) \/ child hhdm s l' i' = Some c').
Proof using All.
  intros Hl' Hi' Hch'. destruct (newlink_set l' _ i' Hl' Hi') as [Hs _]. rewrite Hs in Hch'.
  apply lookup_insert_Some in Hl' as [[<- _]|[_ Hl']].
  - rewrite decide_False in Hch' by (intros [-> _]; congruence). by rewrite zero_child in Hch'.
  - split; [done|]. case_decide as Hd; [left|by right].
    destruct Hd. split_and!; congruence.
Qed.

Lemma newlink_wf : tree_wf hhdm s' root lev'.
Proof using All.
  pose proof (tw_owned _ _ _ _ Hwf l _ Hl) as Hol.
  destruct (set_entry_ok hhdm s l i v (tw_ok _ _ _ _ Hwf) Hol Hi) as [Hok' How].
  split; [done| | | | |].
  - apply newlink_old, Hwf.
  - intros l' k' Hl'. by eapply How, newlink_owned.
  - intros l' k' i' c' Hl' Hi' Hch'.
    destruct (newlink_inv l' k' i' c' Hl' Hi' Hch') as [Hl0 [(<- & <- & ->)|Hx]].
    + assert (k' = k) as -> by congruence. apply lookup_insert_eq.
    + apply newlink_old. by eapply (tw_child _ _ _ _ Hwf).
  - intros l' k' i' Hl' Hi'. destruct (newlink_set l' _ i' Hl' Hi') as [-> ->].
    case_decide; [done|]. intros Hn.
    apply lookup_insert_Some in Hl' as [[<- _]|[_ Hl']]; [by apply Hz|].
    by eapply (tw_absent _ _ _ _ Hwf).
  - intros l1 k1 i1 l2 k2 i2 c' Hl1 Hl2 Hi1 Hi2 Hc1 Hc2.
    destruct (newlink_inv l1 k1 i1 c' Hl1 Hi1 Hc1) as [Hl1' [(<- & <- & ->)|Hx1]];
    destruct (newlink_inv l2 k2 i2 _ Hl2 Hi2 Hc2) as [Hl2' [(<- & <- & E)|Hx2]]; try done.
    + pose proof (tw_child _ _ _ _ Hwf _ _ _ _ Hl2' Hi2 Hx2). congruence.
    + rewrite E in Hx1. pose proof (tw_child _ _ _ _ Hwf _ _ _ _ Hl1' Hi1 Hx1). congruence.
    + by eapply (tw_parent _ _ _ _ Hwf).
Qed.

Lemma newlink_zero : zero_layer s' c.
Proof using All.
  intros j Hj. destruct (newlink_set c (S k) j (lookup_insert_eq _ _ _) Hj) as [_ ->].
  rewrite decide_False; [by apply Hz|]. intros [E _]. congruence.
Qed.

Lemma newlink_grown : grown hhdm s lev s' lev'.
Proof using All.
  split; [| | |apply (set_entry_within hhdm); [apply Hwf|by eapply (tw_owned _ _ _ _ Hwf)|done]].
  - by apply insert_subseteq.
  - intros l' k' i' c' Hl' Hi' Hch'.
    destruct (newlink_set l' _ i' (newlink_old _ _ Hl') Hi') as [-> _].
    rewrite decide_False; [done|]. intros [<- <-]. congruence.
  - intros path. induction path as [|j [|j' path] IH]; intros l' Hpa Hl'; [done| |];
      inversion_clear Hpa as [|? ? Hj Hpa']; simpl;
      destruct (newlink_set l' _ j (newlink_old _ _ Hl') Hj) as [Hcs Hes].
    + rewrite Hes, decide_False; [done|]. intros [<- _]. by rewrite Hl in Hl'.
    + rewrite Hcs. case_decide as Hd.
      * destruct Hd as [<- <-]. rewrite Hch.
        apply (look_zero _ _ (j' :: path)); [apply newlink_zero|done].
      * destruct (child hhdm s l' j) as [c'|] eqn:E; [|done].
        apply IH; [done|]. by eapply (tw_child _ _ _ _ Hwf).
Qed.
End NewLink.

(** ** Building the next layer *)

Lemma child_get s l i c : child hhdm s l i = Some c ->
  Z.testbit (entry_at s l i) 0 = true /\
  c = arch_table_manager_get_address (entry_at s l i) + hhdm.
Proof using. unfold child. destruct (Z.testbit _ 0); [|done]. by intros [= <-]. Qed.

Lemma next_word s l i : 0 <= i < 512 ->
  arch_table_manager_get_address (entry_at s l i) +w hhdm =
  arch_table_manager_get_address (entry_at s l i) + hhdm.
Proof using Hhhdm.
  intros _. pose proof (get_address_range _ (entry_range s l i)). apply u64_small. lia.
Qed.

Lemma allocate_next_layer_spec s root lev l k i flags :
  tree_wf hhdm s root lev -> lev !! l = Some (S (S k)) -> 0 <= i < 512 ->
  arch_table_manager_allocate_next_layer hhdm s l i flags = Panicked \/
  exists c s' lev', arch_table_manager_allocate_next_layer hhdm s l i flags = Done (c, s') /\
    tree_wf hhdm s' root lev' /\ grown hhdm s lev s' lev' /\
    lev' !! c = Some (S k) /\ child hhdm s' l i = Some c /\ kept s lev s' lev'.
Proof using All.
  intros Hwf Hl Hi. unfold arch_table_manager_allocate_next_layer. rewrite present_bit.
  pose proof (tw_owned _ _ _ _ Hwf l _ Hl) as Hol. pose proof (tw_ok _ _ _ _ Hwf) as Hok.
  pose proof (low_flags_range flags) as Hf.
  destruct (child hhdm s l i) as [c|] eqn:Hc.
  - destruct (child_get _ _ _ _ Hc) as [Hb Hca]. rewrite Hb. simpl. right.
    destruct (add_flags (entry_at s l i) (Z.land flags 0xFF) (entry_range _ _ _) ltac:(lia)) as [Hr Hg].
    destruct (relink s root lev l k i _ c Hwf Hl Hi Hr) as [H1 H2];
      [by rewrite Z.lor_spec, Hb|by rewrite Hg|done|].
    eexists _, _, lev. split; [reflexivity|]. rewrite next_word by done.
    rewrite !(entry_set hhdm), !decide_True, u64_small, Hg, <- Hca by done.
    split_and!; [done|done|by eapply (tw_child _ _ _ _ Hwf)|by eapply gr_child|by eapply (set_entry_kept hhdm)].
  - assert (Z.testbit (entry_at s l i) 0 = false) as -> by (unfold child in Hc; by destruct (Z.testbit _ 0)).
    simpl. destruct (law_outcome s 1 Hok) as [->|(p & s1 & Ha)]; [lia|unfold PAGE; lia|by left|]. right. rewrite Ha. simpl.
    destruct (alloc_keeps s root lev p s1 Hwf Ha) as (Hwf1 & Hgr & Hnp & Hop & Hz & He).
    destruct (law_range s1 p (tw_ok _ _ _ _ Hwf1) Hop) as (Hp1 & Hp2 & Hp3).
    assert (entry_at s1 l i = 0) as E0 by (rewrite (He l _ i Hl Hi); by eapply (tw_absent _ _ _ _ Hwf)).
    rewrite E0. destruct (fresh_entry p flags Hp1 Hp2 Hp3) as (Hr & Hb & Hg).
    set (v := Z.lor (Z.lor 0 (p -w hhdm)) (Z.lor (Z.land flags 255) TABLE_ENTRY_PRESENT)) in *.
    assert (child hhdm s1 l i = None) as Hc1 by (unfold child; by rewrite E0).
    pose proof (tw_owned _ _ _ _ Hwf1 l _ Hl) as Hol1. pose proof (tw_ok _ _ _ _ Hwf1) as Hok1.
    eexists p, _, (<[p := S k]> lev). split.
    { rewrite next_word, !(entry_set hhdm), !decide_True, u64_small, Hg by done. reflexivity. }
    split_and!; [by eapply newlink_wf|eapply grown_trans; [done|by eapply (newlink_grown s1 root)]|apply lookup_insert_eq|by rewrite (child_set s1 l i v p), decide_True by done|].
    intros a Ha' Hna. destruct (alloc_one s s1 p Hok Ha) as (_ & Hn & Ho & _ & Hb' & _).
    destruct (set_entry_kept hhdm s1 root lev l (S (S k)) i v Hwf1 Hl Hi a) as (O2 & _ & B2); [apply Ho; by left|done|].
    split_and!; [done|rewrite lookup_insert_ne; [done|intros ->; done]|]. intros b Hb2. rewrite B2 by done. apply Hb'. by exists a.
Qed.

(** ** Leaf entries *)

Definition frame_ok (pa : Z) : Prop := pa mod PAGE = 0 /\ 0 <= pa < 4503599627370496.

Lemma leaf_entry e pa flags :
  in_u64 e -> in_u64 flags -> frame_ok pa ->
  let v := arch_table_manager_set_address (Z.lor e (Z.lor flags TABLE_ENTRY_PRESENT)) pa in
  in_u64 v /\ Z.testbit v 0 = true /\ arch_table_manager_get_address v = pa.
Proof using.
  intros He Hf [Ha Hr] v. unfold v, arch_table_manager_set_address.
  set (x := Z.lor e (Z.lor flags TABLE_ENTRY_PRESENT)).
  assert (in_u64 x) by (unfold x, TABLE_ENTRY_PRESENT; apply lor_u64; [lia|apply lor_u64; lia]).
  split; [apply lor_u64; [apply land_u64; [lia|unfold FLAG_MASK; lia]|lia]|]. split.
  - rewrite Z.lor_spec, Z.land_spec, flag_mask_bits by lia. unfold x. rewrite !Z.lor_spec.
    change (Z.testbit TABLE_ENTRY_PRESENT 0) with true. by rewrite !orb_true_r.
  - rewrite get_address_lor, get_address_masked, Z.lor_0_l. by apply get_address_page.
Qed.

Section Leaf.
Context (s : St) (root : Z) (lev : gmap Z nat) (m i pa flags : Z).
Context (Hwf : tree_wf hhdm s root lev) (Hm : lev !! m = Some 1%nat) (Hi : 0 <= i < 512).
Context (Hpa : frame_ok pa) (Hflags : in_u64 flags).
Let s' := set_leaf s m i pa flags.

Lemma leaf_entry_at l k j : lev !! l = Some k -> 0 <= j < 512 -> ~ (m = l /\ i = j) ->
  entry_at s' l j = entry_at s l j.
Proof using All.
  intros Hl Hj Hne. unfold s', set_leaf.
  pose proof (tw_owned _ _ _ _ Hwf l _ Hl). pose proof (tw_owned _ _ _ _ Hwf m _ Hm).
  pose proof (tw_ok _ _ _ _ Hwf). rewrite (entry_set hhdm) by done. by rewrite decide_False.
Qed.

Lemma leaf_child l k j : lev !! l = Some (S (S k)) -> 0 <= j < 512 ->
  child hhdm s' l j = child hhdm s l j.
Proof using All.
  intros Hl Hj. unfold child. rewrite (leaf_entry_at l _ j Hl Hj); [done|].
  intros [<- _]. congruence.
Qed.

Lemma leaf_wf : tree_wf hhdm s' root lev.
Proof using All.
  pose proof (tw_owned _ _ _ _ Hwf m _ Hm) as Hom.
  destruct (set_entry_ok hhdm s m i
    (arch_table_manager_set_address (Z.lor (entry_at s m i) (Z.lor flags TABLE_ENTRY_PRESENT)) pa)
    (tw_ok _ _ _ _ Hwf) Hom Hi) as [Hok' How].
  pose proof leaf_child as Hcs.
  split; [done|apply Hwf| | | |].
  - intros l k Hl. apply How. by eapply (tw_owned _ _ _ _ Hwf).
  - intros l k j c Hl Hj. erewrite Hcs by done. by apply (tw_child _ _ _ _ Hwf).
  - intros l k j Hl Hj. erewrite Hcs by done. intros Hn.
    erewrite leaf_entry_at; [by eapply (tw_absent _ _ _ _ Hwf)|done|done|].
    intros [<- _]. congruence.
  - intros l1 k1 i1 l2 k2 i2 c Hl1 Hl2 Hi1 Hi2. erewrite !Hcs by done.
    by eapply (tw_parent _ _ _ _ Hwf).
Qed.

(** The walk over the path that leads to the entry gives the new frame,
    every other walk what it gave before. *)
Lemma leaf_look p q l l' :
  length p = length q -> in_table p -> in_table q ->
  lev !! l' = Some (length p) -> lev !! l = Some (length q) -> leads hhdm s l q m i ->
  look hhdm s' l' p = if decide (l' = l /\ p = q) then pa else look hhdm s l' p.
Proof using All.
  revert q l l'. induction p as [|i' [|j' p] IH]; intros [|iq [|jq q]] l l' Hlen Hp Hq Hl' Hl Hle;
    try done; inversion_clear Hp; inversion_clear Hq; simpl in Hle.
  - destruct Hle as [-> ->]. rewrite !look_one.
    assert (entry_at s' m i = u64 (arch_table_manager_set_address
      (Z.lor (entry_at s m i) (Z.lor flags TABLE_ENTRY_PRESENT)) pa)) as E.
    { pose proof (tw_owned _ _ _ _ Hwf m _ Hm). pose proof (tw_ok _ _ _ _ Hwf).
      unfold s', set_leaf. rewrite (entry_set hhdm) by done. by rewrite decide_True. }
    destruct (leaf_entry (entry_at s m i) pa flags (entry_range _ _ _) Hflags Hpa) as (V1 & V2 & V3).
    destruct (decide (l' = m /\ i' = i)) as [[-> ->]|Hne].
    + by rewrite E, u64_small, V2, V3, decide_True.
    + rewrite (leaf_entry_at l' _ i' Hl') by (done || by intros [<- <-]; apply Hne).
      rewrite decide_False; [done|]. intros [-> [= ->]]. by apply Hne.
  - destruct Hle as (c & Hc & Hle). rewrite !look_step.
    rewrite (leaf_child l' (length p) i' Hl' H).
    destruct (child hhdm s l' i') as [c'|] eqn:Hc'.
    + pose proof (tw_child _ _ _ _ Hwf _ _ _ _ Hl' H Hc').
      pose proof (tw_child _ _ _ _ Hwf _ _ _ _ Hl H1 Hc).
      rewrite (IH (jq :: q) c c'); try done; [|simpl in *; lia].
      destruct (decide (c' = c /\ j' :: p = jq :: q)) as [[-> E]|Hne].
      * destruct (tw_parent _ _ _ _ Hwf _ _ _ _ _ _ _ Hl' Hl H H1 Hc' Hc) as [-> ->].
        rewrite decide_True; [done|]. split; congruence.
      * rewrite decide_False; [done|]. intros [-> E]. apply Hne. split; congruence.
    + rewrite decide_False; [done|]. intros [-> [= -> _]]. congruence.
Qed.
End Leaf.

(** ** Walks from the root *)

Definition path_of (va : Z) : list Z :=
  [pml3_index va; pml2_index va; pml1_index va; p_index va].

(** The layers below the root for the indices [i3], [i2], [i1]. *)
Record chain s (root i3 i2 i1 pml3 pml2 pml1 : Z) : Prop := {
  ch_range : 0 <= i3 < 512 /\ 0 <= i2 < 512 /\ 0 <= i1 < 512;
  ch_3 : child hhdm s root i3 = Some pml3;
  ch_2 : child hhdm s pml3 i2 = Some pml2;
  ch_1 : child hhdm s pml2 i1 = Some pml1
}.

Definition first_page (i3 i2 i1 : Z) : Z := ((i3 * 512 + i2) * 512 + i1) * 512.

Lemma in_table4 a b c d :
  0 <= a < 512 -> 0 <= b < 512 -> 0 <= c < 512 -> 0 <= d < 512 -> in_table [a; b; c; d].
Proof using. intros. by do 4 (constructor; [done|]). Qed.

Lemma path_in_table va : in_table (path_of va).
Proof using. pose proof (indices_range va) as (?&?&?&?). by apply in_table4. Qed.

Lemma chain_levels s root lev i3 i2 i1 pml3 pml2 pml1 :
  tree_wf hhdm s root lev -> chain s root i3 i2 i1 pml3 pml2 pml1 ->
  lev !! pml3 = Some 3%nat /\ lev !! pml2 = Some 2%nat /\ lev !! pml1 = Some 1%nat.
Proof using.
  intros Hwf [(R3 & R2 & R1) C3 C2 C1]. pose proof (tw_root _ _ _ _ Hwf) as Hr.
  pose proof (tw_child _ _ _ _ Hwf _ _ _ _ Hr R3 C3) as H3.
  pose proof (tw_child _ _ _ _ Hwf _ _ _ _ H3 R2 C2) as H2.
  by pose proof (tw_child _ _ _ _ Hwf _ _ _ _ H2 R1 C1).
Qed.

Lemma chain_grown s root lev s' lev' i3 i2 i1 pml3 pml2 pml1 :
  tree_wf hhdm s root lev -> grown hhdm s lev s' lev' ->
  chain s root i3 i2 i1 pml3 pml2 pml1 -> chain s' root i3 i2 i1 pml3 pml2 pml1.
Proof using.
  intros Hwf Hg Hc. destruct (chain_levels _ _ _ _ _ _ _ _ _ Hwf Hc) as (L3 & L2 & L1).
  pose proof (tw_root _ _ _ _ Hwf) as Hr. destruct Hc as [(R3 & R2 & R1) C3 C2 C1].
  split; [done|by eapply gr_child..].
Qed.

Lemma chain_leads s root i3 i2 i1 pml3 pml2 pml1 i :
  chain s root i3 i2 i1 pml3 pml2 pml1 -> leads hhdm s root [i3; i2; i1; i] pml1 i.
Proof using. intros [_ C3 C2 C1]. simpl. eauto 10. Qed.

(** Building the chain of layers for some indices; the first, the first two or
    all three layers may be there already. *)
Lemma build_layer s root lev l k i flags {A} (f : Z * St -> outcome A) (Q : outcome A -> Prop) :
  tree_wf hhdm s root lev -> lev !! l = Some (S (S k)) -> 0 <= i < 512 ->
  Q Panicked ->
  (forall c s' lev', tree_wf hhdm s' root lev' -> grown hhdm s lev s' lev' ->
     lev' !! c = Some (S k) -> child hhdm s' l i = Some c -> Q (f (c, s'))) ->
  Q (arch_table_manager_allocate_next_layer hhdm s l i flags ≫= f).
Proof using All.
  intros Hwf Hl Hi Hpan Hk.
  destruct (allocate_next_layer_spec s root lev l k i flags Hwf Hl Hi)
    as [->|(c & s' & lev' & -> & H1 & H2 & H3 & H4 & _)]; [done|]. simpl. by eapply Hk.
Qed.

Lemma look_path s root lev s' lev' vb :
  tree_wf hhdm s root lev -> grown hhdm s lev s' lev' ->
  look hhdm s' root (path_of vb) = look hhdm s root (path_of vb).
Proof using.
  intros Hwf Hg. eapply gr_look; [done|apply path_in_table|]. by apply (tw_root _ _ _ _ Hwf).
Qed.

(** ** The loop over the entries of a leaf layer *)

Lemma set_leaf_page s root lev i3 i2 i1 pml3 pml2 pml1 i pa flags vb :
  tree_wf hhdm s root lev -> chain s root i3 i2 i1 pml3 pml2 pml1 -> 0 <= i < 512 ->
  frame_ok pa -> in_u64 flags ->
  look hhdm (set_leaf s pml1 i pa flags) root (path_of vb) =
  if decide (page_number vb = first_page i3 i2 i1 + i) then pa
  else look hhdm s root (path_of vb).
Proof using All.
  intros Hwf Hc Hi Hpa Hf. destruct (chain_levels _ _ _ _ _ _ _ _ _ Hwf Hc) as (L3 & L2 & L1).
  pose proof (ch_range _ _ _ _ _ _ _ _ Hc) as (R3 & R2 & R1).
  rewrite (leaf_look s root lev pml1 i pa flags Hwf L1 Hi Hpa Hf (path_of vb) [i3; i2; i1; i] root root);
    try done; [|apply path_in_table|by apply in_table4|apply (tw_root _ _ _ _ Hwf)..|by eapply chain_leads].
  pose proof (indices_range vb) as (V3 & V2 & V1 & V0). rewrite page_number_indices. unfold path_of, first_page.
  destruct (decide (root = root /\ _)) as [[_ [= <- <- <- <-]]|Hne].
  - rewrite decide_True; [done|lia].
  - rewrite decide_False; [done|]. intros E. apply Hne. split; [done|].
    assert (pml3_index vb = i3 /\ pml2_index vb = i2 /\ pml1_index vb = i1 /\ p_index vb = i) by lia.
    destruct H as (-> & -> & -> & ->). done.
Qed.

Lemma set_leaf_chain s root lev i3 i2 i1 pml3 pml2 pml1 i pa flags :
  tree_wf hhdm s root lev -> chain s root i3 i2 i1 pml3 pml2 pml1 -> 0 <= i < 512 ->
  frame_ok pa -> in_u64 flags ->
  tree_wf hhdm (set_leaf s pml1 i pa flags) root lev /\
  chain (set_leaf s pml1 i pa flags) root i3 i2 i1 pml3 pml2 pml1.
Proof using All.
  intros Hwf Hc Hi Hpa Hf. destruct (chain_levels _ _ _ _ _ _ _ _ _ Hwf Hc) as (L3 & L2 & L1).
  pose proof (tw_root _ _ _ _ Hwf) as Hr. destruct Hc as [(R3 & R2 & R1) C3 C2 C1].
  split; [by apply leaf_wf|]. split; [done| | |].
  - by rewrite (leaf_child s root lev pml1 i pa flags Hwf L1 Hi Hpa Hf root _ i3 Hr R3).
  - by rewrite (leaf_child s root lev pml1 i pa flags Hwf L1 Hi Hpa Hf pml3 _ i2 L3 R2).
  - by rewrite (leaf_child s root lev pml1 i pa flags Hwf L1 Hi Hpa Hf pml2 _ i1 L2 R1).
Qed.

Lemma set_leaf_within s root lev i3 i2 i1 pml3 pml2 pml1 i pa flags :
  tree_wf hhdm s root lev -> chain s root i3 i2 i1 pml3 pml2 pml1 -> 0 <= i < 512 ->
  within s (set_leaf s pml1 i pa flags).
Proof using PageSourceLaws0.
  intros Hwf Hc Hi. destruct (chain_levels _ _ _ _ _ _ _ _ _ Hwf Hc) as (_ & _ & L1).
  apply (set_entry_within hhdm); [apply Hwf|by eapply (tw_owned _ _ _ _ Hwf)|done].
Qed.

(** Mapping [n] pages from page number [first] and frame [pa] on. *)
Definition remaps s s' (root first pa n : Z) : Prop := forall vb,
  look hhdm s' root (path_of vb) =
  if (first <=? page_number vb) && (page_number vb <? first + n)
  then pa + (page_number vb - first) * PAGE else look hhdm s root (path_of vb).

Lemma map_entries_spec n s root lev i3 i2 i1 pml3 pml2 pml1 i pa flags :
  tree_wf hhdm s root lev -> chain s root i3 i2 i1 pml3 pml2 pml1 ->
  0 <= i -> i + Z.of_nat n <= 512 -> in_u64 flags ->
  pa mod PAGE = 0 -> 0 <= pa -> pa + Z.of_nat n * PAGE <= 4503599627370496 ->
  tree_wf hhdm (map_entries s pml1 i pa flags n) root lev /\
  chain (map_entries s pml1 i pa flags n) root i3 i2 i1 pml3 pml2 pml1 /\
  remaps s (map_entries s pml1 i pa flags n) root (first_page i3 i2 i1 + i) pa (Z.of_nat n) /\
  within s (map_entries s pml1 i pa flags n).
Proof using All.
  revert s i pa. induction n as [|n IH]; intros s i pa Hwf Hc Hi0 Hi Hf Ha H0 Hpa.
  - simpl. split_and!; [done|done| |apply within_refl]. intros vb. repeat btest; (done || lia).
  - assert (frame_ok pa) as Hfr by (split; [done|unfold PAGE in *; lia]).
    destruct (set_leaf_chain s root lev i3 i2 i1 pml3 pml2 pml1 i pa flags) as [Hwf' Hc'];
      [done|done|lia|done|done|]. cbn [map_entries].
    assert (pa +w PAGE = pa + PAGE) as -> by (apply u64_small; unfold PAGE in *; lia).
      destruct (IH (set_leaf s pml1 i pa flags) (i + 1) (pa + PAGE)) as (W & C & R & Wi);
        [done|done|lia|lia|done|unfold PAGE in *; zlia|unfold PAGE in *; lia|unfold PAGE in *; lia|].
      split_and!; [done|done| |].
      2:{ eapply within_trans; [|done]. eapply set_leaf_within; [done|done|lia]. }
      intros vb. rewrite R.
      rewrite (set_leaf_page s root lev i3 i2 i1 pml3 pml2 pml1) by (done || lia).
      unfold PAGE. case_decide; repeat btest; cbn [andb]; (done || lia).
Qed.

(** ** The loop over the leaf layers *)

Lemma remaps_trans s1 s2 s3 root first pa n n' :
  0 <= n -> 0 <= n' -> remaps s1 s2 root first pa n ->
  remaps s2 s3 root (first + n) (pa + n * PAGE) n' -> remaps s1 s3 root first pa (n + n').
Proof using.
  intros Hn Hn' H1 H2 vb. rewrite H2, H1. unfold PAGE.
  repeat btest; cbn [andb]; (done || lia).
Qed.

Lemma remaps_grown s1 s2 s3 root lev2 lev3 first pa n :
  remaps s1 s2 root first pa n -> tree_wf hhdm s2 root lev2 -> grown hhdm s2 lev2 s3 lev3 ->
  remaps s1 s3 root first pa n.
Proof using. intros H Hwf Hg vb. rewrite <- (H vb). by eapply look_path. Qed.

Lemma grown_remaps s1 s2 s3 root lev1 lev2 first pa n :
  tree_wf hhdm s1 root lev1 -> grown hhdm s1 lev1 s2 lev2 -> remaps s2 s3 root first pa n ->
  remaps s1 s3 root first pa n.
Proof using. intros Hwf Hg H vb. rewrite (H vb). by erewrite (look_path s1) by done. Qed.

(** What a mapping operation does: it panics (the page source ran out), or the
    table is well formed and the [n] pages from [first] on are remapped. *)
Definition maps_to s (root first pa n : Z) (r : outcome St) : Prop :=
  r = Panicked \/ exists s' lev', r = Done s' /\ tree_wf hhdm s' root lev' /\
    remaps s s' root first pa n /\ within s s'.

(** One round: the entries are mapped, then the next chain is built by [next]. *)
Lemma chain_make s root lev i3 i2 i1 flags {A}
    (f : Z -> Z -> Z -> St -> outcome A) (Q : outcome A -> Prop) :
  tree_wf hhdm s root lev -> 0 <= i3 < 512 -> 0 <= i2 < 512 -> 0 <= i1 < 512 ->
  Q Panicked ->
  (forall pml3 pml2 pml1 s' lev', tree_wf hhdm s' root lev' -> grown hhdm s lev s' lev' ->
     chain s' root i3 i2 i1 pml3 pml2 pml1 -> Q (f pml3 pml2 pml1 s')) ->
  Q ('(pml3, s) ← arch_table_manager_allocate_next_layer hhdm s root i3 flags;
     '(pml2, s) ← arch_table_manager_allocate_next_layer hhdm s pml3 i2 flags;
     '(pml1, s) ← arch_table_manager_allocate_next_layer hhdm s pml2 i1 flags;
     f pml3 pml2 pml1 s).
Proof using All.
  intros Hwf R3 R2 R1 HP Hk.
  eapply build_layer; [done|apply (tw_root _ _ _ _ Hwf)|done|done|]. intros c3 s1 lev1 W1 G1 L1 C1. cbn beta iota.
  eapply build_layer; [done|done|done|done|]. intros c2 s2 lev2 W2 G2 L2 C2. cbn beta iota.
  eapply build_layer; [done|done|done|done|]. intros c1 s3 lev3 W3 G3 L3 C3. cbn beta iota.
  apply (Hk c3 c2 c1 s3 lev3); [done| |].
  - eapply grown_trans; [done|]. by eapply grown_trans.
  - assert (lev2 !! c3 = Some 3%nat) by (eapply lookup_weaken; [done|apply (gr_lev _ _ _ _ _ G2)]).
    split; [done| | |done].
    + eapply (gr_child _ _ _ _ _ G3); [apply (tw_root _ _ _ _ W2)|done|].
      by eapply (gr_child _ _ _ _ _ G2); [apply (tw_root _ _ _ _ W1)|..].
    + by eapply (gr_child _ _ _ _ _ G3).
Qed.

(** The next chain in the same second or third layer. *)
Lemma chain_next2 s root lev i3 pml3 i2 i1 flags {A}
    (f : Z -> Z -> St -> outcome A) (Q : outcome A -> Prop) :
  tree_wf hhdm s root lev -> 0 <= i3 < 512 -> 0 <= i2 < 512 -> 0 <= i1 < 512 ->
  child hhdm s root i3 = Some pml3 ->
  Q Panicked ->
  (forall pml2 pml1 s' lev', tree_wf hhdm s' root lev' -> grown hhdm s lev s' lev' ->
     chain s' root i3 i2 i1 pml3 pml2 pml1 -> Q (f pml2 pml1 s')) ->
  Q ('(pml2, s) ← arch_table_manager_allocate_next_layer hhdm s pml3 i2 flags;
     '(pml1, s) ← arch_table_manager_allocate_next_layer hhdm s pml2 i1 flags;
     f pml2 pml1 s).
Proof using All.
  intros Hwf R3 R2 R1 C3 HP Hk. pose proof (tw_root _ _ _ _ Hwf) as Hr.
  pose proof (tw_child _ _ _ _ Hwf _ _ _ _ Hr R3 C3) as L3.
  eapply build_layer; [done|done|done|done|]. intros c2 s2 lev2 W2 G2 L2 C2. cbn beta iota.
  eapply build_layer; [done|done|done|done|]. intros c1 s3 lev3 W3 G3 L1 C1. cbn beta iota.
  apply (Hk c2 c1 s3 lev3); [done|by eapply grown_trans|].
  assert (lev2 !! pml3 = Some 3%nat) by (eapply lookup_weaken; [done|apply (gr_lev _ _ _ _ _ G2)]).
  split; [done| | |done].
  - eapply (gr_child _ _ _ _ _ G3); [apply (tw_root _ _ _ _ W2)|done|]. by eapply (gr_child _ _ _ _ _ G2).
  - by eapply (gr_child _ _ _ _ _ G3).
Qed.

Lemma chain_next1 s root lev i3 pml3 i2 pml2 i1 flags {A}
    (f : Z -> St -> outcome A) (Q : outcome A -> Prop) :
  tree_wf hhdm s root lev -> 0 <= i3 < 512 -> 0 <= i2 < 512 -> 0 <= i1 < 512 ->
  child hhdm s root i3 = Some pml3 -> child hhdm s pml3 i2 = Some pml2 ->
  Q Panicked ->
  (forall pml1 s' lev', tree_wf hhdm s' root lev' -> grown hhdm s lev s' lev' ->
     chain s' root i3 i2 i1 pml3 pml2 pml1 -> Q (f pml1 s')) ->
  Q ('(pml1, s) ← arch_table_manager_allocate_next_layer hhdm s pml2 i1 flags; f pml1 s).
Proof using All.
  intros Hwf R3 R2 R1 C3 C2 HP Hk. pose proof (tw_root _ _ _ _ Hwf) as Hr.
  pose proof (tw_child _ _ _ _ Hwf _ _ _ _ Hr R3 C3) as L3.
  pose proof (tw_child _ _ _ _ Hwf _ _ _ _ L3 R2 C2) as L2.
  eapply build_layer; [done|done|done|done|]. intros c1 s3 lev3 W3 G3 L1 C1. cbn beta iota.
  apply (Hk c1 s3 lev3); [done|done|]. split; [done|by eapply (gr_child _ _ _ _ _ G3)..|done].
Qed.

(** The rest of the loop, once the next chain is there. *)
Lemma maps_to_continue s s1 s2 root lev1 lev2 first pa n n' r :
  0 <= n -> 0 <= n' ->
  remaps s s1 root first pa n -> within s s1 ->
  tree_wf hhdm s1 root lev1 -> grown hhdm s1 lev1 s2 lev2 ->
  maps_to s2 root (first + n) (pa + n * PAGE) n' r -> maps_to s root first pa (n + n') r.
Proof using.
  intros Hn Hn' HR Wi W G [->|(s' & lev' & -> & W' & R' & Wi')]; [by left|]. right.
  exists s', lev'. split_and!; [done|done| |].
  2:{ eapply within_trans; [done|]. eapply within_trans; [by eapply gr_within|done]. }
  eapply remaps_trans; [done|done| |done].
  by eapply remaps_grown.
Qed.

Lemma maps_to_shift s root first first' pa n r :
  n = 0 \/ first = first' -> maps_to s root first pa n r -> maps_to s root first' pa n r.
Proof using.
  intros [-> | ->]; [|done]. intros [->|(s' & lev' & -> & W & R & Wi)]; [by left|right].
  exists s', lev'. split_and!; [done|done| |done]. intros vb. rewrite R.
  repeat btest; cbn [andb]; (done || lia).
Qed.

Lemma map_range_loop_spec fuel s root lev i3 i2 i1 pml3 pml2 pml1 ip pa count flags :
  tree_wf hhdm s root lev -> chain s root i3 i2 i1 pml3 pml2 pml1 ->
  0 <= ip < 512 -> 0 <= count <= Z.of_nat fuel -> in_u64 flags ->
  (count <> 0 -> first_page i3 i2 i1 + ip + count <= 68719476736 - 512) ->
  pa mod PAGE = 0 -> 0 <= pa -> pa + count * PAGE <= 4503599627370496 ->
  maps_to s root (first_page i3 i2 i1 + ip) pa count
    (map_range_loop hhdm root flags fuel s pml3 pml2 pml1 i3 i2 i1 ip pa count).
Proof using All.
  revert s lev i3 i2 i1 pml3 pml2 pml1 ip pa count.
  induction fuel as [|fuel IH];
    intros s lev i3 i2 i1 pml3 pml2 pml1 ip pa count Hwf Hc Hip Hn Hf Hb Ha H0 Hpa.
  { assert (count = 0) as -> by lia. right. exists s, lev. split_and!; [done|done| |apply within_refl].
    intros vb. repeat btest; cbn [andb]; (done || lia). }
  cbn [map_range_loop]. destruct (Z.eqb_spec count 0) as [->|Hne].
  { right. exists s, lev. split_and!; [done|done| |apply within_refl]. intros vb. repeat btest; cbn [andb]; (done || lia). }
  specialize (Hb Hne). set (n := if count <? 512 - ip then count else 512 - ip).
  assert (n <= 512 - ip /\ 1 <= n <= count /\ (count - n <> 0 -> n = 512 - ip)) as (N1 & N2 & N3)
    by (unfold n; btest; lia).
  destruct (map_entries_spec (Z.to_nat n) s root lev i3 i2 i1 pml3 pml2 pml1 ip pa flags)
    as (W & C & R & Wi); [done|done|lia|lia|done|done|done|unfold PAGE in *; lia|].
  rewrite Z2Nat.id in R by lia. set (s1 := map_entries s pml1 ip pa flags (Z.to_nat n)) in *.
  assert (pa +w (n *w PAGE) = pa + n * PAGE) as ->.
  { rewrite (u64_small (n * PAGE)) by (unfold PAGE in *; lia). apply u64_small. unfold PAGE in *; lia. }
  pose proof (ch_range _ _ _ _ _ _ _ _ C) as (R3 & R2 & R1).
  assert (forall c3 c2 c1 j3 j2 j1 s2 lev2, tree_wf hhdm s2 root lev2 -> grown hhdm s1 lev s2 lev2 ->
    chain s2 root j3 j2 j1 c3 c2 c1 -> first_page j3 j2 j1 = first_page i3 i2 i1 + 512 ->
    maps_to s root (first_page i3 i2 i1 + ip) pa count
      (map_range_loop hhdm root flags fuel s2 c3 c2 c1 j3 j2 j1 0 (pa + n * PAGE) (count - n))) as HK.
  { intros c3 c2 c1 j3 j2 j1 s2 lev2 W2 G2 C2 Hfp. replace count with (n + (count - n)) at 1 by lia.
    eapply (maps_to_continue s s1 s2); [lia|lia|done|done|done|done|].
    apply (maps_to_shift _ _ (first_page j3 j2 j1 + 0)); [lia|].
    eapply IH; [done|done|lia|lia|done|lia|unfold PAGE in *; zlia|unfold PAGE in *; lia..]. }
  unfold first_page in *.
  destruct (Z.leb_spec 512 (i1 + 1)); [destruct (Z.leb_spec 512 (i2 + 1))|].
  - eapply chain_make; [done|lia|lia|lia|by left|]. intros. eapply HK; [done|done|done|lia].
  - eapply (chain_next2 s1 root lev i3); [done|lia|lia|lia|apply C|by left|]. intros. eapply HK; [done|done|done|lia].
  - eapply (chain_next1 s1 root lev i3 _ i2); [done|lia|lia|lia|apply C|apply C|by left|]. intros. eapply HK; [done|done|done|lia].
Qed.

Lemma translate_look s root lev va :
  tree_wf hhdm s root lev ->
  arch_table_manager_translate_to_physical hhdm root va s = look hhdm s root (path_of va).
Proof using All.
  intros Hwf. unfold arch_table_manager_translate_to_physical, path_of.
  assert (forall l k i, lev !! l = Some (S (S k)) -> 0 <= i < 512 ->
    arch_table_manager_get_next_layer hhdm s l i = default 0 (child hhdm s l i) /\
    forall c, child hhdm s l i = Some c -> c <> 0) as Hn.
  { intros l k i Hl Hi.
    pose proof (law_range s l (tw_ok _ _ _ _ Hwf) (tw_owned _ _ _ _ Hwf _ _ Hl)) as (_ & Hlo & _).
    unfold arch_table_manager_get_next_layer. rewrite present_bit. btest; [lia|].
    rewrite next_word by done. unfold child at 1. split; [by destruct (Z.testbit _ 0)|].
    intros c Hc. pose proof (tw_child _ _ _ _ Hwf _ _ _ _ Hl Hi Hc) as Hlc.
    pose proof (law_range s c (tw_ok _ _ _ _ Hwf) (tw_owned _ _ _ _ Hwf _ _ Hlc)). lia. }
  pose proof (indices_range va) as (R3 & R2 & R1 & R0). rewrite !look_step.
  pose proof (tw_root _ _ _ _ Hwf) as Hr.
  destruct (Hn root _ _ Hr R3) as [-> N3]. destruct (child hhdm s root _) as [c3|] eqn:C3; [simpl|done].
  rewrite (proj2 (Z.eqb_neq c3 0)) by (by apply N3).
  pose proof (tw_child _ _ _ _ Hwf _ _ _ _ Hr R3 C3) as L3.
  destruct (Hn c3 _ _ L3 R2) as [-> N2]. destruct (child hhdm s c3 _) as [c2|] eqn:C2; [simpl|done].
  rewrite (proj2 (Z.eqb_neq c2 0)) by (by apply N2).
  pose proof (tw_child _ _ _ _ Hwf _ _ _ _ L3 R2 C2) as L2.
  destruct (Hn c2 _ _ L2 R1) as [-> N1]. destruct (child hhdm s c2 _) as [c1|] eqn:C1; [simpl|done].
  rewrite (proj2 (Z.eqb_neq c1 0)) by (by apply N1).
  rewrite present_bit. change (Z.odd ?e) with (Z.testbit e 0). by destruct (Z.testbit _ 0).
Qed.

Lemma new_table_wf s s' table :
  src_ok s -> arch_table_manager_new s = Done (table, s') ->
  tree_wf hhdm s' table {[table := 4%nat]} /\ zero_layer s' table.
Proof using PageSourceLaws0.
  intros Hok Ha. destruct (alloc_one s s' table Hok Ha) as (H1 & H2 & H3 & H4 & H5 & _).
  assert (zero_layer s' table) as Hz.
  { intros i Hi. apply ld64_zero. intros b Hb. apply H4. unfold PAGE. lia. }
  split; [|done]. split; [done|apply lookup_insert_eq| | | |].
  - intros l k [<- _]%lookup_singleton_Some. apply H3. by right.
  - intros l k i c [<- _]%lookup_singleton_Some Hi. by rewrite zero_child.
  - intros l k i [<- _]%lookup_singleton_Some Hi _. by apply Hz.
  - intros l1 k1 i1 l2 k2 i2 c [<- _]%lookup_singleton_Some _ Hi1 _. by rewrite zero_child.
Qed.
End Growth.

(** * Properties *)

(** A page map: what each page number translates to.  [overlay] is the effect
    of mapping a range. *)
Definition overlay (first pa n : Z) (t : Z -> Z) (page : Z) : Z :=
  if (first <=? page) && (page <? first + n) then pa + (page - first) * PAGE else t page.

(** The direct map starts at a page boundary and 52 bits of it fit in the
    address space. *)
Definition hhdm_ok (hhdm : Z) : Prop :=
  0 <= hhdm /\ hhdm + 4503599627370496 <= 18446744073709551616 /\ hhdm mod PAGE = 0.

(** The pages from [va] on and the frames from [pa] on that a range may have.
    The last two megabytes of the address space are excluded. *)
Definition range_ok (va pa n : Z) : Prop :=
  0 <= n /\ page_number va + n <= 68719476736 - 512 /\
  pa mod PAGE = 0 /\ 0 <= pa /\ pa + n * PAGE <= 4503599627370496.

(** One entry of the memory map: the range it maps. *)
Definition memmap_range (hhdm EXEC kernel_physical_base kernel_virtual_base : Z)
    (e : limine_memmap_entry) : Z * Z * Z :=
  let base := entry_base e - entry_base e mod PAGE in
  if entry_type e =? EXEC then (kernel_virtual_base, kernel_physical_base, entry_length e / PAGE)
  else (base +w hhdm, base, entry_length e / PAGE).

(** The page map of the bootstrap table. *)
Definition memmap_view (hhdm EXEC kernel_physical_base kernel_virtual_base : Z)
    (entries : list limine_memmap_entry) (t : Z -> Z) : Z -> Z :=
  foldl (fun t e =>
    let '(va, pa, n) := memmap_range hhdm EXEC kernel_physical_base kernel_virtual_base e in
    overlay (page_number va) pa n t) t entries.

Section Maps.
Context (hhdm : Z) {St : Type} `{!PageSource St} `{!PageSourceLaws hhdm St}.
Implicit Types s : St.

(** The table at [root] translates as [t] says. *)
Definition table_view s (root : Z) (t : Z -> Z) : Prop :=
  (exists lev, tree_wf hhdm s root lev) /\
  forall va, arch_table_manager_translate_to_physical hhdm root va s = t (page_number va).

Lemma maps_to_view s root lev t first pa n r :
  hhdm_ok hhdm -> tree_wf hhdm s root lev -> maps_to hhdm s root first pa n r ->
  table_view s root t ->
  r = Panicked \/ exists s', r = Done s' /\ table_view s' root (overlay first pa n t) /\ within s s'.
Proof using PageSourceLaws0.
  intros Hh Hwf [->|(s' & lev' & -> & W & R & Wi)] [_ Hv]; [by left|right]. exists s'.
  split; [done|]. split; [|done]. split; [by exists lev'|]. intros va.
  rewrite (translate_look hhdm Hh s' root lev' va W), R. unfold overlay. case_match; [done|].
  by rewrite <- Hv, (translate_look hhdm Hh s root lev va Hwf).
Qed.

(** Writes above the source's memory leave the table as it is. *)
Lemma table_view_above s V m root t :
  hhdm_ok hhdm -> src_below V s -> changes (fun b => V <= b) (src_mem s) m ->
  table_view s root t -> table_view (src_with_mem s m) root t.
Proof using PageSourceLaws0.
  intros Hh HV Hc [[lev Hwf] Hv]. pose proof (tw_ok _ _ _ _ Hwf) as Hok.
  destruct (law_write s V m Hok HV) as [Hok' Ho]; [eapply changes_mono; [|done]; by right|].
  destruct (tree_ext hhdm s (src_with_mem s m) root lev Hwf Hok') as [W L]; [by intros; apply Ho| |].
  - intros l k i Hl Hi. unfold entry_at. rewrite law_with_mem. apply (changes_ld64 _ _ _ _ Hc).
    intros b Hb. pose proof (law_below_owned s V l Hok HV (tw_owned _ _ _ _ Hwf _ _ Hl)).
    unfold PAGE in *. lia.
  - split; [by exists lev|]. intros va. rewrite <- Hv.
    rewrite (translate_look hhdm Hh _ _ _ va W), (translate_look hhdm Hh _ _ _ va Hwf).
    apply L; [apply path_in_table|apply Hwf].
Qed.

(** Allocating other pages leaves the table as it is. *)
Lemma table_view_alloc s n p s' root t :
  hhdm_ok hhdm -> 1 <= n -> in_u64 (n * PAGE) -> src_page_allocate n s = Done (p, s') ->
  table_view s root t -> table_view s' root t.
Proof using PageSourceLaws0.
  intros Hh Hn Hr Ha [[lev Hwf] Hv]. pose proof (tw_ok _ _ _ _ Hwf) as Hok.
  destruct (law_alloc s s' n p Hok Hn Hr Ha) as (H1 & _ & H3 & _ & H5).
  destruct (tree_ext hhdm s s' root lev Hwf H1) as [W L]; [intros a Hx; apply H3; by left| |].
  - intros l k i Hl Hi. apply ld64_ext. intros b Hb. apply H5. exists l.
    split; [by eapply (tw_owned _ _ _ _ Hwf)|]. unfold PAGE. lia.
  - split; [by exists lev|]. intros va. rewrite <- Hv.
    rewrite (translate_look hhdm Hh _ _ _ va W), (translate_look hhdm Hh _ _ _ va Hwf).
    apply L; [apply path_in_table|apply Hwf].
Qed.

Lemma map_range_view table va pa flags count s t :
  hhdm_ok hhdm -> range_ok va pa count -> in_u64 flags -> table_view s table t ->
  arch_table_manager_map_range hhdm table va pa flags count s = Panicked \/
  exists s', arch_table_manager_map_range hhdm table va pa flags count s = Done s' /\
    table_view s' table (overlay (page_number va) pa count t) /\ within s s'.
Proof using PageSourceLaws0.
  intros Hh (Hn & Hva & Ha & H0 & Hpa) Hf Hv. destruct Hv as [[lev Hwf] Hv].
  apply (maps_to_view s table lev); [done|done| |by split; [exists lev|]].
  pose proof (indices_range va) as (R3 & R2 & R1 & R0). unfold arch_table_manager_map_range.
  eapply (chain_make hhdm Hh); [done|done|done|done|by left|]. intros c3 c2 c1 s' lev' W G C.
  assert (page_number va = first_page (pml3_index va) (pml2_index va) (pml1_index va) + p_index va) as E
    by (rewrite page_number_indices; unfold first_page; lia).
  destruct (map_range_loop_spec hhdm Hh (Z.to_nat count) s' table lev' (pml3_index va) (pml2_index va)
    (pml1_index va) c3 c2 c1 (p_index va) pa count flags) as [->|(s2 & lev2 & -> & W2 & R & Wi)];
    [done|done|done|lia|done|lia|done|done|done|by left|right].
  exists s2, lev2. split_and!; [done|done| |by eapply within_trans; [eapply gr_within|apply Wi]].
  rewrite E. by eapply grown_remaps.
Qed.

Lemma map_view table va pa flags s t :
  hhdm_ok hhdm -> frame_ok pa -> in_u64 flags -> table_view s table t ->
  arch_table_manager_map hhdm table va pa flags s = Panicked \/
  exists s', arch_table_manager_map hhdm table va pa flags s = Done s' /\
    table_view s' table (overlay (page_number va) pa 1 t) /\ within s s'.
Proof using PageSourceLaws0.
  intros Hh Hpa Hf Hv. destruct Hv as [[lev Hwf] Hv].
  apply (maps_to_view s table lev); [done|done| |by split; [exists lev|]].
  pose proof (indices_range va) as (R3 & R2 & R1 & R0). unfold arch_table_manager_map.
  eapply (chain_make hhdm Hh); [done|done|done|done|by left|]. intros c3 c2 c1 s' lev' W G C.
  right. eexists _, lev'. split; [done|].
  destruct (set_leaf_chain hhdm Hh s' table lev' (pml3_index va) (pml2_index va) (pml1_index va)
    c3 c2 c1 (p_index va) pa flags) as [W' _]; [done..|]. split; [done|].
  split; [|by eapply within_trans; [eapply gr_within|eapply set_leaf_within]].
  eapply grown_remaps; [done|done|]. intros vb.
  rewrite (set_leaf_page hhdm Hh s' table lev' (pml3_index va) (pml2_index va) (pml1_index va) c3 c2 c1) by done.
  unfold first_page, PAGE. rewrite (page_number_indices va).
  case_decide; repeat btest; cbn [andb]; (done || lia).
Qed.

(** The same with the layers of the table: what is outside them is kept. *)
Lemma map_kept table lev va pa flags s s' :
  hhdm_ok hhdm -> frame_ok pa -> in_u64 flags -> tree_wf hhdm s table lev ->
  arch_table_manager_map hhdm table va pa flags s = Done s' ->
  exists lev', tree_wf hhdm s' table lev' /\ kept s lev s' lev'.
Proof using PageSourceLaws0.
  intros Hh Hpa Hf W E. pose proof (indices_range va) as (R3 & R2 & R1 & R0). unfold arch_table_manager_map in E.
  destruct (allocate_next_layer_spec hhdm Hh s table lev table 2 (pml3_index va) flags W (tw_root _ _ _ _ W) R3)
    as [E1|(c3 & s1 & lev1 & E1 & W1 & _ & L1 & _ & K1)]; rewrite E1 in E; [done|]. cbn [mbind outcome_bind] in E. cbn beta iota in E.
  destruct (allocate_next_layer_spec hhdm Hh s1 table lev1 c3 1 (pml2_index va) flags W1 L1 R2)
    as [E2|(c2 & s2 & lev2 & E2 & W2 & _ & L2 & _ & K2)]; rewrite E2 in E; [done|]. cbn [mbind outcome_bind] in E. cbn beta iota in E.
  destruct (allocate_next_layer_spec hhdm Hh s2 table lev2 c2 0 (pml1_index va) flags W2 L2 R1)
    as [E3|(c1 & s3 & lev3 & E3 & W3 & _ & L3 & _ & K3)]; rewrite E3 in E; [done|]. cbn [mbind outcome_bind] in E. cbn beta iota in E.
  injection E as <-. exists lev3. split; [by eapply (leaf_wf hhdm)|].
  eapply kept_trans; [exact K1|]. eapply kept_trans; [exact K2|]. eapply kept_trans; [exact K3|].
  unfold set_leaf. by eapply (set_entry_kept hhdm).
Qed.

Lemma new_view s s' table :
  hhdm_ok hhdm -> src_ok s -> arch_table_manager_new s = Done (table, s') ->
  table_view s' table (fun _ => 0).
Proof using PageSourceLaws0.
  intros Hh Hok Ha. destruct (new_table_wf hhdm s s' table Hok Ha) as [W Hz].
  split; [by eexists|]. intros va. rewrite (translate_look hhdm Hh _ _ _ va W).
  apply look_zero; [done|apply path_in_table].
Qed.

Lemma map_memmap_view EXEC kpb kvb table entries s t :
  hhdm_ok hhdm ->
  Forall (fun e => let '(va, pa, n) := memmap_range hhdm EXEC kpb kvb e in range_ok va pa n) entries ->
  table_view s table t ->
  map_memmap hhdm EXEC kpb kvb table entries s = Panicked \/
  exists s', map_memmap hhdm EXEC kpb kvb table entries s = Done s' /\
    table_view s' table (memmap_view hhdm EXEC kpb kvb entries t).
Proof using PageSourceLaws0.
  intros Hh. revert s t. induction entries as [|e es IH]; intros s t Hf Hv; [by right; exists s|].
  inversion_clear Hf as [|? ? He Hes]. simpl. unfold memmap_range in *.
  assert ((if entry_base e mod PAGE =? 0 then entry_base e else entry_base e - entry_base e mod PAGE)
    = entry_base e - entry_base e mod PAGE) as -> by (btest; lia).
  assert (in_u64 TABLE_ENTRY_READ_WRITE) as Hrw by (unfold TABLE_ENTRY_READ_WRITE; lia).
  destruct (entry_type e =? EXEC);
    edestruct map_range_view as [->|(s1 & -> & Hv1 & _)]; eauto; by left.
Qed.
End Maps.

(** Mapping a range one page at a time, the reference for [map_range]. *)
Fixpoint map_each (hhdm : Z) {St} `{!PageSource St} (table va pa flags : Z) (n : nat) (s : St) :
    outcome St :=
  match n with
  | O => Done s
  | S n' =>
      s ← arch_table_manager_map hhdm table va pa flags s;
      map_each hhdm table (va + PAGE) (pa + PAGE) flags n' s
  end.

Lemma page_number_next va : page_number va + 1 < 68719476736 -> page_number (va + PAGE) = page_number va + 1.
Proof. unfold page_number, PAGE. intros. zlia. Qed.

Lemma overlay_step first pa n t page :
  0 <= n -> overlay (first + 1) (pa + PAGE) n (overlay first pa 1 t) page = overlay first pa (n + 1) t page.
Proof. intros. unfold overlay, PAGE. repeat btest; cbn [andb]; (done || lia). Qed.

Lemma table_view_ext hhdm {St} `{!PageSource St} (s : St) root t t' :
  (forall n, t n = t' n) -> table_view hhdm s root t -> table_view hhdm s root t'.
Proof. intros E [W V]. split; [done|]. intros va. by rewrite V, E. Qed.

Lemma map_each_view hhdm {St} `{!PageSource St} `{!PageSourceLaws hhdm St} table flags n :
  forall va pa (s s' : St) t,
  hhdm_ok hhdm -> range_ok va pa (Z.of_nat n) -> in_u64 flags -> table_view hhdm s table t ->
  map_each hhdm table va pa flags n s = Done s' ->
  table_view hhdm s' table (overlay (page_number va) pa (Z.of_nat n) t).
Proof.
  induction n as [|n IH]; intros va pa s s' t Hh (Hn & Hva & Ha & H0 & Hpa) Hf Hv Hm.
  - simpl in Hm. injection Hm as <-. eapply table_view_ext; [|done].
    intros x. unfold overlay. repeat btest; cbn [andb]; (done || lia).
  - cbn [map_each] in Hm. apply bind_done_inv in Hm as (s1 & E1 & Hm).
    destruct (map_view hhdm table va pa flags s t Hh) as [E|(s1' & E & Hv1 & _)];
      [split; [done|unfold PAGE in *; lia]|done|done|congruence|].
    assert (s1' = s1) as -> by congruence.
    destruct n as [|n'].
    { simpl in Hm. injection Hm as <-. eapply table_view_ext; [|done]. done. }
    apply (IH (va + PAGE) (pa + PAGE) s1 s' _) in Hv1; [|done| |done|done].
    + rewrite page_number_next in Hv1 by lia. eapply table_view_ext; [|done].
      intros x. simpl. rewrite overlay_step by lia. f_equal. lia.
    + split_and!; [lia|rewrite page_number_next; lia|unfold PAGE in *; zlia|unfold PAGE in *; lia..].
Qed.

(** A table in pages of the page allocator, for the concrete instances. *)
Definition table_pool : page_allocator_pool_t := Pool 8192 4096 0 131072 131072 32 0.
Definition table_state : pa_state := PA ∅ [table_pool] false.

Lemma table_state_wf : pa_wf 0 table_state.
Proof.
  split_and!; [done| |].
  - split; [|repeat constructor]. constructor; [|constructor].
    split; unfold bitmap_end, pool_end, PAGE; simpl; try zlia; try reflexivity.
  - constructor; [|constructor]. unfold pool_mapped, pool_end; simpl. lia.
Qed.

#[local] Instance demo_source : PageSource pa_state := pa_source 0.
#[local] Instance demo_source_laws : PageSourceLaws 0 pa_state := pa_source_laws 0.

Lemma demo_table : exists table s, arch_table_manager_new table_state = Done (table, s) /\
  table_view 0 s table (fun _ => 0).
Proof.
  destruct (is_done_inv (arch_table_manager_new table_state)) as ([table s] & E); [by vm_compute|].
  exists table, s. split; [done|]. eapply (new_view 0); [|apply table_state_wf|done].
  unfold hhdm_ok. split_and!; [lia|lia|done].
Qed.

Lemma hhdm_ok_0 : hhdm_ok 0.
Proof. unfold hhdm_ok. split_and!; [lia|lia|done]. Qed.

(** C37. arch_table_manager_map either runs out of pages or changes the translation of exactly
    one page, to the given frame, which arch_table_manager_translate_to_physical then returns. *)
Theorem map_refines (hhdm : Z) {St} `{!PageSource St} `{!PageSourceLaws hhdm St}
    (s : St) (table va pa flags : Z) (t : Z -> Z) :
  hhdm_ok hhdm -> frame_ok pa -> in_u64 flags -> table_view hhdm s table t ->
  arch_table_manager_map hhdm table va pa flags s = Panicked \/
  exists s', arch_table_manager_map hhdm table va pa flags s = Done s' /\
    table_view hhdm s' table (fun page => if page =? page_number va then pa else t page) /\
    arch_table_manager_translate_to_physical hhdm table va s' = pa.
Proof.
  intros Hh Hpa Hf Hv. destruct (map_view hhdm table va pa flags s t Hh Hpa Hf Hv) as [->|(s' & -> & Hv' & _)];
    [by left|right]. exists s'.
  assert (table_view hhdm s' table (fun page => if page =? page_number va then pa else t page)) as Hv2.
  { eapply table_view_ext; [|done]. intros x. unfold overlay, PAGE.
    repeat btest; cbn [andb]; (done || lia). }
  split_and!; [done|done|]. rewrite (proj2 Hv2 va). by rewrite Z.eqb_refl.
Qed.

Lemma map_refines_witness :
  exists table s, table_view 0 s table (fun _ => 0) /\
  (arch_table_manager_map 0 table 0xFFFF800000200000 0x7000 3 s = Panicked \/
   exists s', arch_table_manager_map 0 table 0xFFFF800000200000 0x7000 3 s = Done s' /\
     table_view 0 s' table (fun page => if page =? page_number 0xFFFF800000200000 then 0x7000 else 0) /\
     arch_table_manager_translate_to_physical 0 table 0xFFFF800000200000 s' = 0x7000).
Proof.
  destruct demo_table as (table & s & E & Hv). exists table, s. split; [done|].
  apply (map_refines 0 s table 0xFFFF800000200000 0x7000 3 (fun _ => 0));
    [apply hhdm_ok_0|by split; [|lia]|lia|done].
Defined.

(** C3. The optimised arch_table_manager_map_range either runs out of pages or maps exactly the
    requested range over what the table mapped before, and translates every address as mapping
    the pages one by one does. *)
Theorem map_range_refines_map (hhdm : Z) {St} `{!PageSource St} `{!PageSourceLaws hhdm St}
    (s : St) (table va pa flags count : Z) (t : Z -> Z) :
  hhdm_ok hhdm -> range_ok va pa count -> in_u64 flags -> table_view hhdm s table t ->
  arch_table_manager_map_range hhdm table va pa flags count s = Panicked \/
  exists s', arch_table_manager_map_range hhdm table va pa flags count s = Done s' /\
    table_view hhdm s' table (overlay (page_number va) pa count t) /\
    forall s2, map_each hhdm table va pa flags (Z.to_nat count) s = Done s2 ->
      forall vb, arch_table_manager_translate_to_physical hhdm table vb s' =
                 arch_table_manager_translate_to_physical hhdm table vb s2.
Proof.
  intros Hh Hr Hf Hv.
  destruct (map_range_view hhdm table va pa flags count s t Hh Hr Hf Hv) as [->|(s' & -> & Hv' & _)];
    [by left|right]. exists s'. split_and!; [done|done|]. intros s2 E2 vb.
  assert (Z.of_nat (Z.to_nat count) = count) as Hc by (apply Z2Nat.id; apply Hr).
  pose proof (map_each_view hhdm table flags (Z.to_nat count) va pa s s2 t Hh) as H2. rewrite Hc in H2.
  by rewrite (proj2 Hv'), (proj2 (H2 Hr Hf Hv E2)).
Qed.

Lemma map_range_refines_map_witness :
  exists table s, table_view 0 s table (fun _ => 0) /\
  (arch_table_manager_map_range 0 table 0x1FF000 0x5000 2 3 s = Panicked \/
   exists s', arch_table_manager_map_range 0 table 0x1FF000 0x5000 2 3 s = Done s' /\
     table_view 0 s' table (overlay 511 0x5000 3 (fun _ => 0)) /\
     forall s2, map_each 0 table 0x1FF000 0x5000 2 3 s = Done s2 ->
       forall vb, arch_table_manager_translate_to_physical 0 table vb s' =
                  arch_table_manager_translate_to_physical 0 table vb s2).
Proof.
  destruct demo_table as (table & s & E & Hv). exists table, s. split; [done|].
  apply (map_range_refines_map 0 s table 0x1FF000 0x5000 2 3 (fun _ => 0));
    [apply hhdm_ok_0| |lia|done].
  change (range_ok 0x1FF000 0x5000 3) with (0 <= 3 /\ page_number 0x1FF000 + 3 <= 68719476736 - 512 /\
    0x5000 mod PAGE = 0 /\ 0 <= 0x5000 /\ 0x5000 + 3 * PAGE <= 4503599627370496).
  split_and!; vm_compute; congruence.
Defined.


(** A memory map with a usable entry and the kernel image. *)
Definition small_memmap : list limine_memmap_entry :=
  [MemmapEntry 0x5000 0x3000 0; MemmapEntry 0x100000 0x2000 6].


(** Mapping a range that ends with the last page of the address space writes entry 512 of the
    top layer, which is outside the table. *)
Theorem map_range_leaves_table :
  exists table s s', arch_table_manager_new table_state = Done (table, s) /\
    arch_table_manager_map_range 0 table 0xFFFFFFFFFFFFF000 0x5000 TABLE_ENTRY_READ_WRITE 1 s = Done s' /\
    entry_at s table 512 = 0 /\ Z.testbit (entry_at s' table 512) 0 = true.
Proof.
  assert (is_done ('(table, s) ← arch_table_manager_new table_state;
    s' ← arch_table_manager_map_range 0 table 0xFFFFFFFFFFFFF000 0x5000 TABLE_ENTRY_READ_WRITE 1 s;
    if (entry_at s table 512 =? 0) && Z.testbit (entry_at s' table 512) 0
    then Done tt else Panicked) = true) as H by (vm_compute; reflexivity).
  apply is_done_bind in H as ([table s] & E1 & H). apply is_done_bind in H as (s' & E2 & H).
  exists table, s, s'. split_and!; [done|done|..]; destruct (Z.eqb_spec (entry_at s table 512) 0); try done;
    by destruct (Z.testbit (entry_at s' table 512) 0).
Qed.
