(* ===== verification/AddressSpace.v ===== *)
(** Address spaces: a page table next to the pages that hold data, for the code
    that fills pages while it maps them, [fork] and the loader.

    [copy_address_space] is the loop of [syscalls/sys_fork.c] over the page table
    of the parent. *)

From S2P Require Import Prelude Memory Libc Spinlock PageAllocator PageAllocatorSpec PageTable.

(** * The copy of an address space *)

Section Copy.
Context (kernel_hhdm_offset arch_bootstrap_page_table : Z) {St : Type} `{!PageSource St}.
Implicit Types s : St.

(** [for (i = first; ...; i++)] over [n] entries of a layer, skipping the ones
    that are not present. *)
Fixpoint for_present (f : Z -> Z -> St -> outcome St) (layer i : Z) (n : nat) s : outcome St :=
  match n with
  | O => Done s
  | S n' =>
      let e := entry_at s layer i in
      s ← (if Z.land e TABLE_ENTRY_PRESENT =? 0 then Done s else f i e s);
      for_present f layer (i + 1) n' s
  end.

(** The layer that an entry points to. *)
Definition layer_of (e : Z) : Z := arch_table_manager_get_address e +w kernel_hhdm_offset.

(** [for (i = 0x100; i <= 0x1FF; i++)]. *)
Fixpoint share_higher_half (child_pt i : Z) (n : nat) s : St :=
  match n with
  | O => s
  | S n' =>
      share_higher_half child_pt (i + 1) n' (set_entry s child_pt i (entry_at s arch_bootstrap_page_table i))
  end.

(** The address with the four indices. *)
Definition virtual_address (i1 i2 i3 i4 : Z) : Z :=
  Z.lor (Z.lor (Z.lor (Z.shiftl i4 12) (Z.shiftl i3 21)) (Z.shiftl i2 30)) (Z.shiftl i1 39).

(** One page of the parent copied to a new page of the child. *)
Definition copy_page (child_pt i1 i2 i3 i4 e4 : Z) s : outcome St :=
  let parent_physical_address := layer_of e4 in
  '(child_physical_address, s) ← src_page_allocate 1 s;
  let s := src_with_mem s (memcpy (src_mem s) child_physical_address parent_physical_address PAGE) in
  arch_table_manager_map kernel_hhdm_offset child_pt (virtual_address i1 i2 i3 i4)
    (child_physical_address -w kernel_hhdm_offset) (Z.land e4 0xFFF0000000000FFF) s.

Definition copy_address_space (child_pt parent_pt : Z) s : outcome St :=
  for_present (fun i1 e1 =>
    for_present (fun i2 e2 =>
      for_present (fun i3 e3 =>
        for_present (fun i4 e4 => copy_page child_pt i1 i2 i3 i4 e4) (layer_of e3) 0 512)
      (layer_of e2) 0 512)
    (layer_of e1) 0 512)
  parent_pt 0 256 s.
End Copy.

(** * What mapping cannot reach *)

(** A predicate that writing to memory and allocating pages keep is kept by the
    page-table manager. *)
Section Closed.
Context (hhdm : Z) {St : Type} `{!PageSource St} (F : St -> Prop).
Implicit Types s : St.
Context (F_mem : forall s m, F s -> F (src_with_mem s m)) (F_page : forall s n p s', src_page_allocate n s = Done (p, s') -> F s -> F s').

Lemma layer_closed s l i flags c s' : arch_table_manager_allocate_next_layer hhdm s l i flags = Done (c, s') -> F s -> F s'.
Proof using F_mem F_page.
  intros E HF. unfold arch_table_manager_allocate_next_layer in E. apply bind_done_inv in E as (s1 & E1 & [= _ <-]).
  destruct (_ =? 0) in E1; [|injection E1 as <-; by apply F_mem].
  apply bind_done_inv in E1 as ([p s2] & E2 & [= <-]). apply F_mem. by eapply F_page.
Qed.

Lemma map_closed table va pa flags s s' : arch_table_manager_map hhdm table va pa flags s = Done s' -> F s -> F s'.
Proof using F_mem F_page.
  intros E HF. unfold arch_table_manager_map in E. apply bind_done_inv in E as ([c3 s1] & E1 & E).
  apply bind_done_inv in E as ([c2 s2] & E2 & E). apply bind_done_inv in E as ([c1 s3] & E3 & [= <-]).
  apply F_mem. eapply layer_closed; [exact E3|]. eapply layer_closed; [exact E2|]. by eapply layer_closed.
Qed.

Lemma entries_closed n : forall s m i pa flags, F s -> F (map_entries s m i pa flags n).
Proof using F_mem. induction n as [|n IH]; intros s m i pa flags HF; cbn [map_entries]; [done|]. apply IH. by apply F_mem. Qed.

Lemma range_loop_closed fuel : forall root flags s c3 c2 c1 i3 i2 i1 ip pa count s',
  map_range_loop hhdm root flags fuel s c3 c2 c1 i3 i2 i1 ip pa count = Done s' -> F s -> F s'.
Proof using F_mem F_page.
  induction fuel as [|fuel IH]; intros root flags s c3 c2 c1 i3 i2 i1 ip pa count s' E HF; cbn [map_range_loop] in E;
    (destruct (count =? 0); [by injection E as <-|]); [done|].
  set (s1 := map_entries s c1 ip pa flags _) in E. assert (F s1) as H1 by (by apply entries_closed).
  destruct (512 <=? i1 + 1); [destruct (512 <=? i2 + 1)|].
  - apply bind_done_inv in E as ([d3 s2] & E2 & E). apply bind_done_inv in E as ([d2 s3] & E3 & E). apply bind_done_inv in E as ([d1 s4] & E4 & E).
    eapply IH; [exact E|]. eapply layer_closed; [exact E4|]. eapply layer_closed; [exact E3|]. by eapply layer_closed.
  - apply bind_done_inv in E as ([d2 s3] & E3 & E). apply bind_done_inv in E as ([d1 s4] & E4 & E).
    eapply IH; [exact E|]. eapply layer_closed; [exact E4|]. by eapply layer_closed.
  - apply bind_done_inv in E as ([d1 s4] & E4 & E). eapply IH; [exact E|]. by eapply layer_closed.
Qed.

Lemma map_range_closed table va pa flags count s s' : arch_table_manager_map_range hhdm table va pa flags count s = Done s' -> F s -> F s'.
Proof using F_mem F_page.
  intros E HF. unfold arch_table_manager_map_range in E. apply bind_done_inv in E as ([c3 s1] & E1 & E).
  apply bind_done_inv in E as ([c2 s2] & E2 & E). apply bind_done_inv in E as ([c1 s3] & E3 & E).
  eapply range_loop_closed; [exact E|]. eapply layer_closed; [exact E3|]. eapply layer_closed; [exact E2|]. by eapply layer_closed.
Qed.

Lemma bootstrap_closed EXEC kpb kvb entries s table s' :
  arch_table_manager_create_bootstrap_table_limine hhdm EXEC kpb kvb entries s = Done (table, s') -> F s -> F s'.
Proof using F_mem F_page.
  intros E HF. apply bind_done_inv in E as ([t s1] & E1 & E). apply bind_done_inv in E as (s2 & E2 & [= <- <-]).
  apply F_page in E1; [|done]. clear HF. revert s1 E1 E2. induction entries as [|e es IH]; intros s1 H1 E2; cbn [map_memmap] in E2; [by injection E2 as <-|].
  apply bind_done_inv in E2 as (s3 & E3 & E2). eapply IH; [|exact E2].
  destruct (entry_type e =? EXEC); by eapply map_range_closed.
Qed.
End Closed.

(** A translation reads the memory only, whatever the source of the pages. *)
Lemma next_layer_mem hhdm {St St'} {P : PageSource St} {P' : PageSource St'} (s : St) (s' : St') l i :
  src_mem s = src_mem s' ->
  arch_table_manager_get_next_layer hhdm s l i = arch_table_manager_get_next_layer hhdm s' l i.
Proof. intros E. unfold arch_table_manager_get_next_layer, entry_at. by rewrite E. Qed.

Lemma translate_mem hhdm {St St'} {P : PageSource St} {P' : PageSource St'} (s : St) (s' : St') table va :
  src_mem s = src_mem s' ->
  arch_table_manager_translate_to_physical hhdm table va s = arch_table_manager_translate_to_physical hhdm table va s'.
Proof.
  intros E. unfold arch_table_manager_translate_to_physical. cbv zeta. rewrite !(next_layer_mem hhdm s s') by done.
  unfold entry_at. by rewrite E.
Qed.

(** * A table and pages with data *)

Section Space.
Context (hhdm : Z) {St : Type} `{!PageSource St} `{!PageSourceLaws hhdm St}.
Implicit Types s : St.

(** The table at [root] translates as [t]; the pages [D] are in use and no
    layers of it. *)
Record address_space s (root : Z) (t : Z -> Z) (D : list Z) : Prop := {
  sp_tree : exists lev, tree_wf hhdm s root lev /\ forall a, a ∈ D -> src_owned s a /\ lev !! a = None;
  sp_view : forall va, arch_table_manager_translate_to_physical hhdm root va s = t (page_number va)
}.

(** The pages [D] keep their bytes. *)
Definition pages_kept (D : list Z) s s' : Prop :=
  forall a, a ∈ D -> forall b, a <= b < a + PAGE -> ld8 (src_mem s') b = ld8 (src_mem s) b.

Lemma pages_kept_trans D s1 s2 s3 : pages_kept D s1 s2 -> pages_kept D s2 s3 -> pages_kept D s1 s3.
Proof using. intros H1 H2 a Ha b Hb. rewrite (H2 a Ha b Hb). by apply (H1 a Ha). Qed.

Lemma pages_kept_sub D D' s s' : (forall a, a ∈ D -> a ∈ D') -> pages_kept D' s s' -> pages_kept D s s'.
Proof using. intros Hs H a Ha. apply H. by apply Hs. Qed.

Lemma space_table s root t D : address_space s root t D -> table_view hhdm s root t.
Proof using. intros [(lev & W & _) V]. split; [by exists lev|done]. Qed.

Lemma space_ok s root t D : address_space s root t D -> src_ok s.
Proof using. intros [(lev & W & _) _]. apply W. Qed.

Lemma space_owned s root t D a : address_space s root t D -> a ∈ D -> src_owned s a.
Proof using. intros [(lev & _ & HD) _] Ha. by apply HD. Qed.

Lemma space_alloc s root t D p s' :
  hhdm_ok hhdm -> address_space s root t D -> src_page_allocate 1 s = Done (p, s') ->
  address_space s' root t (p :: D) /\ ~ src_owned s p /\ frame_ok (p -w hhdm) /\ p -w hhdm + hhdm = p /\
  (forall b, p <= b < p + PAGE -> ld8 (src_mem s') b = 0) /\ pages_kept D s s' /\
  (forall a, src_owned s a -> src_owned s' a).
Proof using PageSourceLaws0.
  intros Hh Hs Ha. pose proof (space_table _ _ _ _ Hs) as Hv. destruct Hs as [(lev & W & HD) V].
  pose proof (tw_ok _ _ _ _ W) as Hok.
  destruct (alloc_one hhdm s s' p Hok Ha) as (Hok' & Hn & Ho & Hz & Hb & _).
  destruct (alloc_keeps hhdm s root lev p s' W Ha) as (W' & _ & Hl & Hop & _).
  destruct (table_view_alloc hhdm s 1 p s' root t Hh ltac:(lia) ltac:(done) Ha Hv) as [_ V'].
  destruct (law_range s' p Hok' Hop) as (R1 & R2 & R3). unfold hhdm_ok in Hh.
  split_and!; [|done| | |done| |].
  - split; [|done]. exists lev. split; [done|]. intros a [->|Hx]%elem_of_cons; [done|].
    destruct (HD a Hx) as [O L]. split; [apply Ho; by left|done].
  - split; rewrite u64_small by (unfold PAGE in *; lia); [|unfold PAGE in *; lia].
    destruct Hh as (H1 & H2 & H3). unfold PAGE in *. zlia.
  - rewrite u64_small by (unfold PAGE in *; lia). lia.
  - intros a Hx b Hb'. apply Hb. exists a. split; [by apply HD|done].
  - intros a Hx. apply Ho. by left.
Qed.

(** A new table next to pages in use. *)
Lemma space_new s D root s' :
  hhdm_ok hhdm -> src_ok s -> (forall a, a ∈ D -> src_owned s a) -> arch_table_manager_new s = Done (root, s') ->
  address_space s' root (fun _ => 0) D /\ pages_kept D s s'.
Proof using PageSourceLaws0.
  intros Hh Hok HD E. destruct (new_view hhdm s s' root Hh Hok E) as [_ V].
  destruct (new_table_wf hhdm s s' root Hok E) as [W _]. destruct (alloc_one hhdm s s' root Hok E) as (_ & Hn & Ho & _ & Hb & _).
  split; [split; [|exact V]|].
  - exists {[root := 4%nat]}. split; [done|]. intros a Ha. split; [apply Ho; left; by apply HD|].
    apply lookup_singleton_ne. intros ->. by apply Hn, HD.
  - intros a Ha b Hb'. apply Hb. exists a. split; [by apply HD|done].
Qed.

Lemma space_map s root t D va pa flags :
  hhdm_ok hhdm -> frame_ok pa -> in_u64 flags -> address_space s root t D ->
  arch_table_manager_map hhdm root va pa flags s = Panicked \/
  exists s', arch_table_manager_map hhdm root va pa flags s = Done s' /\
    address_space s' root (overlay (page_number va) pa 1 t) D /\ pages_kept D s s' /\
    (forall a, src_owned s a -> src_owned s' a).
Proof using PageSourceLaws0.
  intros Hh Hpa Hf Hs. pose proof (space_table _ _ _ _ Hs) as Hv. destruct Hs as [(lev & W & HD) V].
  destruct (map_view hhdm root va pa flags s t Hh Hpa Hf Hv) as [->|(s' & E & [_ V'] & [_ Ho])]; [by left|right].
  destruct (map_kept hhdm root lev va pa flags s s' Hh Hpa Hf W E) as (lev' & W' & K).
  exists s'. split; [done|]. split_and!; [split; [|done]| |done].
  - exists lev'. split; [done|]. intros a Ha. destruct (HD a Ha) as [O L]. by destruct (K a O L) as (? & ? & _).
  - intros a Ha. destruct (HD a Ha) as [O L]. by destruct (K a O L) as (_ & _ & ?).
Qed.

(** Another state of the source whose memory differs in the pages [D] only. *)
Lemma space_change s s' root t D :
  hhdm_ok hhdm -> address_space s root t D -> src_ok s' -> (forall a, src_owned s a -> src_owned s' a) ->
  changes (fun b => exists a, a ∈ D /\ a <= b < a + PAGE) (src_mem s) (src_mem s') ->
  address_space s' root t D.
Proof using PageSourceLaws0.
  intros Hh [(lev & W & HD) V] Hok' Ho Hc. pose proof (tw_ok _ _ _ _ W) as Hok.
  destruct (tree_ext hhdm s s' root lev W Hok' Ho) as [W' L].
  - intros l k i Hl Hi. apply (changes_ld64 _ _ _ _ Hc).
    intros b Hb (a & Ha & Hb'). destruct (HD a Ha) as [Oa La]. assert (l <> a) as Hne by congruence.
    destruct (owned_disjoint hhdm s l a Hok (tw_owned _ _ _ _ W l _ Hl) Oa Hne); unfold PAGE in *; lia.
  - split.
    + exists lev. split; [done|]. intros a Ha. destruct (HD a Ha). split; [by apply Ho|done].
    + intros va. rewrite <- V. rewrite (translate_look hhdm Hh _ _ _ va W'), (translate_look hhdm Hh _ _ _ va W).
      apply L; [apply path_in_table|apply W].
Qed.

Lemma space_write s root t D m :
  hhdm_ok hhdm -> address_space s root t D ->
  changes (fun b => exists a, a ∈ D /\ a <= b < a + PAGE) (src_mem s) m ->
  address_space (src_with_mem s m) root t D /\ forall a, src_owned (src_with_mem s m) a <-> src_owned s a.
Proof using PageSourceLaws0.
  intros Hh Hs Hc. destruct (law_write_bytes s m (space_ok _ _ _ _ Hs)) as [Hok' Ho].
  { eapply changes_mono; [|exact Hc]. intros b (a & Ha & Hb). exists a. split; [by eapply space_owned|done]. }
  split; [|exact Ho]. eapply space_change; [done|exact Hs|done|by intros; apply Ho|by rewrite law_with_mem].
Qed.

(** Pages that were not written keep their bytes. *)
Lemma write_kept s s' root t D p :
  address_space s root t (p :: D) -> p ∉ D ->
  changes (fun b => p <= b < p + PAGE) (src_mem s) (src_mem s') -> pages_kept D s s'.
Proof using PageSourceLaws0.
  intros Hs Hp Hc a Ha b Hb. apply Hc. intros Hx.
  assert (p <> a) as Hne by (intros ->; done).
  destruct (owned_disjoint hhdm s p a (space_ok _ _ _ _ Hs)) as [?|?]; [| |done|lia|lia];
    (eapply space_owned; [exact Hs|]); [apply list_elem_of_here|by apply list_elem_of_further].
Qed.
End Space.

(** The page at [p] in [m] has the bytes of the page at [q] in [m']. *)
Definition same_page (m : mem) (p : Z) (m' : mem) (q : Z) : Prop :=
  forall k, 0 <= k < PAGE -> ld8 m (p + k) = ld8 m' (q + k).

Lemma same_page_ext m p m' q m1 m1' :
  (forall b, p <= b < p + PAGE -> ld8 m1 b = ld8 m b) -> (forall b, q <= b < q + PAGE -> ld8 m1' b = ld8 m' b) ->
  same_page m p m' q -> same_page m1 p m1' q.
Proof. intros H1 H2 H k Hk. rewrite H1, H2 by lia. by apply H. Qed.

Lemma memcpy_page m p src : p + PAGE <= src \/ src + PAGE <= p ->
  same_page (memcpy m p src PAGE) p m src /\ changes (fun b => p <= b < p + PAGE) m (memcpy m p src PAGE).
Proof.
  intros Hd. unfold memcpy. set (n := Z.to_nat PAGE). assert (Z.of_nat n = PAGE) as Hn by (apply Z2Nat.id; done).
  split; [|apply changes_memcpy; intros b Hb; lia].
  intros k Hk. rewrite ld8_memcpy_loop, decide_True by lia. f_equal. lia.
Qed.

(** * The pages of the parent *)

(** The entries of a layer that are present. *)
Fixpoint present (m : mem) (layer i : Z) (n : nat) : list (Z * Z) :=
  match n with
  | O => []
  | S n' =>
      let e := ld64 m (layer + 8 * i) in
      if Z.land e TABLE_ENTRY_PRESENT =? 0 then present m layer (i + 1) n' else (i, e) :: present m layer (i + 1) n'
  end.

(** The pages of the lower half: the four indices and the last entry. *)
Record leaf := Leaf { lf_1 : Z; lf_2 : Z; lf_3 : Z; lf_4 : Z; lf_entry : Z }.

Definition leaves (hhdm : Z) (m : mem) (parent : Z) : list leaf :=
  present m parent 0 256 ≫= fun '(i1, e1) =>
  present m (layer_of hhdm e1) 0 512 ≫= fun '(i2, e2) =>
  present m (layer_of hhdm e2) 0 512 ≫= fun '(i3, e3) =>
  (fun '(i4, e4) => Leaf i1 i2 i3 i4 e4) <$> present m (layer_of hhdm e3) 0 512.

(** The layers and the pages of the lower half are among [D]. *)
Record closed (hhdm : Z) (m : mem) (parent : Z) (D : list Z) : Prop := {
  cl_root : parent ∈ D;
  cl_1 : forall i1 e1, (i1, e1) ∈ present m parent 0 256 -> layer_of hhdm e1 ∈ D /\
    forall i2 e2, (i2, e2) ∈ present m (layer_of hhdm e1) 0 512 -> layer_of hhdm e2 ∈ D /\
    forall i3 e3, (i3, e3) ∈ present m (layer_of hhdm e2) 0 512 -> layer_of hhdm e3 ∈ D /\
    forall i4 e4, (i4, e4) ∈ present m (layer_of hhdm e3) 0 512 -> layer_of hhdm e4 ∈ D
}.

Definition leaf_page (l : leaf) : Z := ((lf_1 l * 512 + lf_2 l) * 512 + lf_3 l) * 512 + lf_4 l.
Definition leaf_address (l : leaf) : Z := virtual_address (lf_1 l) (lf_2 l) (lf_3 l) (lf_4 l).

Lemma present_in m layer i n j e :
  (j, e) ∈ present m layer i n -> i <= j < i + Z.of_nat n /\ e = ld64 m (layer + 8 * j).
Proof.
  revert i. induction n as [|n IH]; intros i; cbn [present]; [by intros H%elem_of_nil|].
  case_match; [|rewrite elem_of_cons; intros [E|Hj]].
  - intros Hj. destruct (IH _ Hj). split; [lia|done].
  - injection E as -> ->. split; [lia|done].
  - destruct (IH _ Hj). split; [lia|done].
Qed.

(** ** The order of the leaves *)

(** Strictly increasing in [lo, hi). *)
Fixpoint increasing (lo hi : Z) (l : list Z) : Prop :=
  match l with
  | [] => lo <= hi
  | x :: l' => lo <= x < hi /\ increasing (x + 1) hi l'
  end.

Lemma increasing_weaken lo lo' hi l : lo' <= lo -> increasing lo hi l -> increasing lo' hi l.
Proof. destruct l; simpl; [lia|]. intros ? []. split; [lia|done]. Qed.

Lemma increasing_app lo mid hi l l' : increasing lo mid l -> increasing mid hi l' -> increasing lo hi (l ++ l').
Proof.
  revert lo. induction l as [|x l IH]; intros lo H1 H2; simpl in *; [by eapply increasing_weaken|].
  destruct H1 as [Hx H1]. assert (mid <= hi).
  { clear -H2. revert mid H2. induction l' as [|y l' IH]; intros mid; simpl; [lia|]. intros [? ?%IH]. lia. }
  split; [lia|]. by apply IH.
Qed.

Lemma increasing_lower lo hi l x : increasing lo hi l -> x ∈ l -> lo <= x.
Proof.
  revert lo. induction l as [|y l IH]; intros lo; simpl; [by intros _ H%elem_of_nil|].
  intros [Hy Hl] [->|Hx]%elem_of_cons; [lia|]. specialize (IH _ Hl Hx). lia.
Qed.

Lemma increasing_nodup lo hi l : increasing lo hi l -> NoDup l.
Proof.
  revert lo. induction l as [|x l IH]; intros lo; simpl; [constructor|]. intros [_ Hl].
  constructor; [|by eapply IH]. intros Hx. pose proof (increasing_lower _ _ _ _ Hl Hx). lia.
Qed.

Lemma present_increasing m layer (w c : Z) (g : Z * Z -> list Z) n : forall i,
  0 <= w -> (forall j e, increasing (c + j * w) (c + (j + 1) * w) (g (j, e))) ->
  increasing (c + i * w) (c + (i + Z.of_nat n) * w) (present m layer i n ≫= g).
Proof.
  induction n as [|n IH]; intros i Hw Hg; cbn [present]; [simpl; lia|].
  specialize (IH (i + 1) Hw Hg). replace (i + 1 + Z.of_nat n) with (i + Z.of_nat (S n)) in IH by lia.
  case_match; [eapply increasing_weaken; [|exact IH]; lia|]. rewrite bind_cons. eapply increasing_app; [apply Hg|exact IH].
Qed.

Lemma bind_fmap_list {A B C} (l : list A) (g : A -> list B) (f : B -> C) : f <$> (l ≫= g) = l ≫= (fun x => f <$> g x).
Proof. induction l as [|x l IH]; [done|]. rewrite !bind_cons, fmap_app. by f_equal. Qed.

Lemma fmap_as_bind {A B} (l : list A) (f : A -> B) : f <$> l = l ≫= (fun x => [f x]).
Proof. induction l as [|x l IH]; [done|]. rewrite bind_cons, fmap_cons. by f_equal. Qed.

Lemma leaves_nodup hhdm m parent : NoDup (leaf_page <$> leaves hhdm m parent).
Proof.
  apply (increasing_nodup 0 (256 * 134217728)). unfold leaves. rewrite bind_fmap_list.
  apply (present_increasing m parent 134217728 0 _ 256 0); [lia|]. intros i1 e1. rewrite bind_fmap_list.
  replace (0 + i1 * 134217728) with (i1 * 134217728 + 0 * 262144) by lia.
  replace (0 + (i1 + 1) * 134217728) with (i1 * 134217728 + (0 + Z.of_nat 512) * 262144) by lia.
  apply present_increasing; [lia|]. intros i2 e2. rewrite bind_fmap_list.
  replace (i1 * 134217728 + i2 * 262144) with (i1 * 134217728 + i2 * 262144 + 0 * 512) by lia.
  replace (i1 * 134217728 + (i2 + 1) * 262144) with (i1 * 134217728 + i2 * 262144 + (0 + Z.of_nat 512) * 512) by lia.
  apply present_increasing; [lia|]. intros i3 e3.
  rewrite <- list_fmap_compose, fmap_as_bind.
  set (c := i1 * 134217728 + i2 * 262144).
  replace (c + i3 * 512) with (c + i3 * 512 + 0 * 1) by lia.
  replace (c + (i3 + 1) * 512) with (c + i3 * 512 + (0 + Z.of_nat 512) * 1) by lia.
  apply present_increasing; [lia|]. intros i4 e4. cbn. unfold leaf_page, c. simpl. lia.
Qed.

(** The elements of the list. *)
Lemma leaves_in hhdm m parent D l :
  closed hhdm m parent D -> l ∈ leaves hhdm m parent ->
  0 <= lf_1 l < 256 /\ 0 <= lf_2 l < 512 /\ 0 <= lf_3 l < 512 /\ 0 <= lf_4 l < 512 /\
  in_u64 (lf_entry l) /\ layer_of hhdm (lf_entry l) ∈ D.
Proof.
  intros [_ C]. unfold leaves. rewrite list_elem_of_bind. intros ([i1 e1] & Hl & H1).
  apply list_elem_of_bind in Hl as ([i2 e2] & Hl & H2). apply list_elem_of_bind in Hl as ([i3 e3] & Hl & H3).
  apply list_elem_of_fmap in Hl as ([i4 e4] & -> & H4). simpl.
  destruct (C _ _ H1) as [_ C2]. destruct (C2 _ _ H2) as [_ C3]. destruct (C3 _ _ H3) as [_ C4].
  pose proof (C4 _ _ H4). apply present_in in H1 as [R1 _], H2 as [R2 _], H3 as [R3 _], H4 as [R4 ->].
  split_and!; try lia; [apply ld64_range..|done].
Qed.

Lemma shift_add a n x : 0 <= n -> 0 <= x < 2 ^ n -> Z.lor x (Z.shiftl a n) = a * 2 ^ n + x.
Proof.
  intros Hn Hx. rewrite Z.lor_comm, <- Z.shiftl_mul_pow2 by done.
  assert (Z.land (Z.shiftl a n) x = 0) as H0.
  { apply Z.bits_inj'. intros i Hi. rewrite Z.land_spec, Z.testbit_0_l.
    destruct (Z.ltb_spec i n); [by rewrite Z.shiftl_spec_low|]. by rewrite (testbit_high n x), andb_false_r. }
  by rewrite Z.add_nocarry_lxor, Z.lxor_lor.
Qed.

Lemma leaf_page_number l :
  0 <= lf_1 l < 256 -> 0 <= lf_2 l < 512 -> 0 <= lf_3 l < 512 -> 0 <= lf_4 l < 512 ->
  page_number (leaf_address l) = leaf_page l.
Proof.
  intros H1 H2 H3 H4. unfold leaf_address, virtual_address, leaf_page.
  rewrite (Z.shiftl_mul_pow2 (lf_4 l)) by lia. rewrite (shift_add (lf_3 l) 21) by lia.
  rewrite (shift_add (lf_2 l) 30) by lia. rewrite (shift_add (lf_1 l) 39) by lia.
  unfold page_number, PAGE. change (2 ^ 39) with 549755813888. change (2 ^ 30) with 1073741824.
  change (2 ^ 21) with 2097152. change (2 ^ 12) with 4096.
  replace (lf_1 l * 549755813888 + (lf_2 l * 1073741824 + (lf_3 l * 2097152 + lf_4 l * 4096)))
    with ((((lf_1 l * 512 + lf_2 l) * 512 + lf_3 l) * 512 + lf_4 l) * 4096) by lia.
  rewrite Z.div_mul by lia. apply Z.mod_small. lia.
Qed.

(** * The copy over the list *)

(** A loop over a list. *)
Fixpoint each {A St} (f : A -> St -> outcome St) (l : list A) (s : St) : outcome St :=
  match l with
  | [] => Done s
  | x :: l' => s ← f x s; each f l' s
  end.

Section Each.
Context {A St : Type} (I : St -> Prop).

Lemma each_app (f : A -> St -> outcome St) l l' s : each f (l ++ l') s = (s ← each f l s; each f l' s).
Proof using. revert s. induction l as [|x l IH]; intros s; simpl; [done|]. rewrite bind_assoc. by destruct (f x s); simpl. Qed.

(** Loops whose bodies agree while an invariant holds. *)
Lemma each_agree (f g : A -> St -> outcome St) l s :
  I s -> (forall x s, x ∈ l -> I s -> f x s = g x s) ->
  (forall x s s', x ∈ l -> I s -> g x s = Done s' -> I s') -> each f l s = each g l s.
Proof using.
  revert s. induction l as [|x l IH]; intros s Hs Hf Hg; [done|]. cbn [each].
  rewrite Hf by (set_solver || done). destruct (g x s) as [s'| | | |] eqn:E; cbn; try done.
  apply IH; [eapply Hg; [|exact Hs|exact E]; apply list_elem_of_here| |].
  - intros y s2 Hy. apply Hf. by apply list_elem_of_further.
  - intros y s2 s3 Hy. apply Hg. by apply list_elem_of_further.
Qed.

Lemma each_keeps (f : A -> St -> outcome St) l s s' :
  I s -> (forall x s s', x ∈ l -> I s -> f x s = Done s' -> I s') -> each f l s = Done s' -> I s'.
Proof using.
  revert s. induction l as [|x l IH]; intros s Hs Hf E; [by injection E as <-|].
  apply bind_done_inv in E as (s1 & E1 & E). eapply IH; [|by intros; eapply Hf; [apply list_elem_of_further|..]|exact E].
  eapply Hf; [apply list_elem_of_here|exact Hs|exact E1].
Qed.
End Each.

Lemma each_bind {A B St} (f : B -> St -> outcome St) (g : A -> list B) l s :
  each f (l ≫= g) s = each (fun x => each f (g x)) l s.
Proof.
  revert s. induction l as [|x l IH]; intros s; [done|]. rewrite bind_cons, each_app. cbn [each].
  destruct (each f (g x) s); cbn; [apply IH|done..].
Qed.

Lemma each_fmap {A B St} (f : B -> St -> outcome St) (g : A -> B) l (s : St) :
  each f (g <$> l) s = each (fun x => f (g x)) l s.
Proof. revert s. induction l as [|x l IH]; intros s; [done|]. cbn. destruct (f (g x) s); cbn; [apply IH|done..]. Qed.

Section CopySpec.
Context (hhdm : Z) {St : Type} `{!PageSource St} `{!PageSourceLaws hhdm St} (child : Z) (Hh : hhdm_ok hhdm).
Implicit Types s : St.

Definition copy_leaf (l : leaf) s : outcome St :=
  copy_page hhdm child (lf_1 l) (lf_2 l) (lf_3 l) (lf_4 l) (lf_entry l) s.

(** One page. *)
Lemma copy_leaf_spec s t D l :
  address_space hhdm s child t D -> layer_of hhdm (lf_entry l) ∈ D -> in_u64 (lf_entry l) ->
  copy_leaf l s = Panicked \/
  exists p s', copy_leaf l s = Done s' /\
    address_space hhdm s' child (overlay (page_number (leaf_address l)) (p -w hhdm) 1 t) (p :: D) /\
    ~ src_owned s p /\ pages_kept D s s' /\ (forall a, src_owned s a -> src_owned s' a) /\
    same_page (src_mem s') p (src_mem s) (layer_of hhdm (lf_entry l)).
Proof using All.
  intros Hs HD He. unfold copy_leaf, copy_page. fold (leaf_address l). set (src := layer_of hhdm (lf_entry l)) in *.
  destruct (law_outcome s 1 (space_ok _ _ _ _ _ Hs)) as [->|(p & s1 & E1)]; [lia|done|by left|]. rewrite E1.
  cbn [mbind outcome_bind].
  destruct (space_alloc hhdm s child t D p s1 Hh Hs E1) as (Hs1 & Hn & Hf & Hp & Hz & K1 & O1).
  assert (p ∉ D) as HpD by (intros Hx; apply Hn; by eapply space_owned).
  assert (p + PAGE <= src \/ src + PAGE <= p) as Hdis.
  { eapply (owned_disjoint hhdm s1); [by eapply space_ok|eapply space_owned; [exact Hs1|apply list_elem_of_here]| |].
    - eapply space_owned; [exact Hs1|by apply list_elem_of_further].
    - intros ->. done. }
  destruct (memcpy_page (src_mem s1) p src Hdis) as [Hb Hc].
  destruct (space_write hhdm s1 child t (p :: D) (memcpy (src_mem s1) p src PAGE) Hh Hs1) as [Hs2 O2].
  { eapply changes_mono; [|exact Hc]. intros b Hb'. exists p. split; [apply list_elem_of_here|done]. }
  pose proof (write_kept hhdm s1 (src_with_mem s1 (memcpy (src_mem s1) p src PAGE)) child t D p Hs1 HpD
    ltac:(by rewrite law_with_mem)) as K2.
  destruct (space_map hhdm (src_with_mem s1 (memcpy (src_mem s1) p src PAGE)) child t (p :: D) (leaf_address l) (p -w hhdm) (Z.land (lf_entry l) 0xFFF0000000000FFF) Hh Hf)
    as [E3|(s3 & E3 & Hs3 & K3 & O3)]; [by apply land_u64|exact Hs2|rewrite E3; by left|]. rewrite E3.
  right. exists p, s3. split_and!; [done|done|done| | |].
  - eapply pages_kept_trans; [exact K1|]. eapply pages_kept_trans; [exact K2|].
    eapply pages_kept_sub; [|exact K3]. intros a Ha. by apply list_elem_of_further.
  - intros a Ha. by apply O3, O2, O1.
  - eapply same_page_ext; [|intros b Hb'; symmetry; by apply (K1 src)|exact Hb].
    intros b Hb'. rewrite <- (law_with_mem s1 (memcpy (src_mem s1) p src PAGE)).
    apply (K3 p); [apply list_elem_of_here|done].
Qed.

(** All of them. *)
Lemma copy_leaves_spec ls : forall s t D,
  address_space hhdm s child t D -> NoDup (leaf_page <$> ls) ->
  (forall l, l ∈ ls -> layer_of hhdm (lf_entry l) ∈ D /\ in_u64 (lf_entry l) /\
     page_number (leaf_address l) = leaf_page l) ->
  each copy_leaf ls s = Panicked \/
  exists s' F t' D', each copy_leaf ls s = Done s' /\ address_space hhdm s' child t' D' /\
    length F = length ls /\ NoDup F /\ (forall p, p ∈ F -> ~ src_owned s p) /\ pages_kept D s s' /\
    (forall page, page ∉ leaf_page <$> ls -> t' page = t page) /\
    forall i l p, ls !! i = Some l -> F !! i = Some p ->
      t' (leaf_page l) = p -w hhdm /\
      same_page (src_mem s') p (src_mem s) (layer_of hhdm (lf_entry l)).
Proof using All.
  induction ls as [|l ls IH]; intros s t D Hs Hn Hin.
  { right. exists s, [], t, D. split_and!; try done; try (by intros; set_solver). }
  rewrite fmap_cons in Hn. apply NoDup_cons in Hn as [Hl Hn].
  destruct (Hin l ltac:(apply list_elem_of_here)) as (HD & He & Hpg).
  cbn [each]. destruct (copy_leaf_spec s t D l Hs HD He) as [->|(p & s1 & -> & Hs1 & Hp & K1 & O1 & B1)]; [by left|].
  cbn [mbind outcome_bind]. rewrite Hpg in Hs1.
  destruct (IH s1 _ (p :: D) Hs1 Hn) as [->|(s' & F & t' & D' & -> & Hs' & HF & HnF & Hfr & K & T1 & T2)]; [|by left|].
  { intros l' Hl'. destruct (Hin l') as (? & ? & ?); [by apply list_elem_of_further|].
    split; [by apply list_elem_of_further|]. split; assumption. }
  right. exists s', (p :: F), t', D'. split; [reflexivity|]. split; [exact Hs'|]. split; [by simpl; f_equal|].
  split; [|split; [|split; [|split]]].
  - constructor; [|done]. intros Hx. apply (Hfr p Hx). eapply space_owned; [exact Hs1|apply list_elem_of_here].
  - intros q [->|Hq]%elem_of_cons; [done|]. intros Hx. by apply (Hfr q Hq), O1.
  - eapply pages_kept_trans; [exact K1|]. eapply pages_kept_sub; [|exact K]. intros a Ha. by apply list_elem_of_further.
  - intros page Hx. rewrite fmap_cons in Hx. apply not_elem_of_cons in Hx as [Hx1 Hx2]. rewrite T1 by done.
    unfold overlay. repeat btest; cbn [andb]; (done || lia).
  - intros [|i] l' q Hi Hq; simpl in Hi, Hq.
    + injection Hi as <-. injection Hq as <-. split.
      * rewrite T1 by done. unfold overlay, PAGE. repeat btest; cbn [andb]; try lia.
      * eapply same_page_ext; [|done|exact B1]. intros b Hb. apply (K p); [apply list_elem_of_here|done].
    + destruct (T2 i l' q Hi Hq) as [T3 T4]. split; [done|].
      destruct (Hin l') as (HD' & _); [apply list_elem_of_further; by eapply list_elem_of_lookup_2|].
      eapply same_page_ext; [done| |exact T4]. intros b Hb. symmetry. by apply (K1 _ HD').
Qed.

(** ** The nested loops *)

(** While the child is built, the pages [D] are as they were in [s0]. *)
Definition copying (D : list Z) s0 s : Prop :=
  (exists t D', address_space hhdm s child t (D' ++ D)) /\ pages_kept D s0 s.

Lemma copying_leaf D s0 l s s' :
  layer_of hhdm (lf_entry l) ∈ D -> in_u64 (lf_entry l) -> copying D s0 s -> copy_leaf l s = Done s' -> copying D s0 s'.
Proof using All.
  intros HD He [(t & D' & Hs) K] E.
  destruct (copy_leaf_spec s t (D' ++ D) l Hs) as [Ex|(p & s1 & Ex & Hs1 & _ & K1 & _)];
    [apply elem_of_app; by right|done|congruence|].
  rewrite Ex in E. injection E as ->. split; [eexists _, (p :: D'); exact Hs1|].
  eapply pages_kept_trans; [exact K|]. eapply pages_kept_sub; [|exact K1]. intros a Ha. apply elem_of_app. by right.
Qed.

(** A loop over the entries of a layer that does not change. *)
Lemma for_present_each D s0 layer f n : forall i s,
  layer ∈ D -> 0 <= i -> i + Z.of_nat n <= 512 -> copying D s0 s ->
  (forall j e s s', (j, e) ∈ present (src_mem s0) layer i n -> copying D s0 s -> f j e s = Done s' -> copying D s0 s') ->
  for_present f layer i n s = each (fun '(j, e) => f j e) (present (src_mem s0) layer i n) s.
Proof using All.
  induction n as [|n IH]; intros i s HD Hi Hn Hs Hf; [done|]. cbn [for_present present].
  assert (entry_at s layer i = ld64 (src_mem s0) (layer + 8 * i)) as ->.
  { apply ld64_ext. intros b Hb. apply (proj2 Hs layer HD). unfold PAGE. lia. }
  cbn [present] in Hf. destruct (Z.land _ _ =? 0).
  - cbn [mbind outcome_bind]. apply IH; (done || lia).
  - cbn [each]. destruct (f i _ s) as [s'| | | |] eqn:E; cbn [mbind outcome_bind]; try done.
    apply IH; [done|lia|lia| |].
    + eapply Hf; [apply list_elem_of_here|exact Hs|exact E].
    + intros j e s1 s2 Hj. apply Hf. by apply list_elem_of_further.
Qed.

(** A nested loop as one loop over the leaves below. *)
Lemma nested_each D s0 layer n f (g : Z * Z -> list leaf) s :
  layer ∈ D -> Z.of_nat n <= 512 -> copying D s0 s ->
  (forall j e s, (j, e) ∈ present (src_mem s0) layer 0 n -> copying D s0 s -> f j e s = each copy_leaf (g (j, e)) s) ->
  (forall j e l, (j, e) ∈ present (src_mem s0) layer 0 n -> l ∈ g (j, e) ->
     layer_of hhdm (lf_entry l) ∈ D /\ in_u64 (lf_entry l)) ->
  for_present f layer 0 n s = each copy_leaf (present (src_mem s0) layer 0 n ≫= g) s.
Proof using All.
  intros HD Hn Hs Hf Hg.
  assert (forall j e s s', (j, e) ∈ present (src_mem s0) layer 0 n -> copying D s0 s ->
    each copy_leaf (g (j, e)) s = Done s' -> copying D s0 s') as Hk.
  { intros j e s1 s2 Hj Hs1. apply each_keeps; [done|]. intros l s3 s4 Hl. by apply copying_leaf; eapply Hg. }
  rewrite (for_present_each D s0) by (done || lia || (intros j e s1 s2 Hj Hs1; rewrite Hf by done; by apply Hk)).
  rewrite each_bind. apply (each_agree (copying D s0)); [done| |].
  - intros [j e] s1 Hj Hs1. by apply Hf.
  - intros [j e] s1 s2 Hj Hs1. by apply Hk.
Qed.

Lemma copy_address_space_each D s parent :
  closed hhdm (src_mem s) parent D -> copying D s s ->
  copy_address_space hhdm child parent s = each copy_leaf (leaves hhdm (src_mem s) parent) s.
Proof using All.
  intros [Hr C] Hs. unfold copy_address_space, leaves.
  assert (forall m layer i n j e, (j, e) ∈ present m layer i n -> in_u64 e) as Hu.
  { intros m layer i n j e Hj. apply present_in in Hj as [_ ->]. apply ld64_range. }
  apply nested_each with (D := D) (s0 := s); [done|lia|done| |].
  - intros i1 e1 s1 H1 Hs1. destruct (C _ _ H1) as [D1 C1]. apply nested_each with (D := D) (s0 := s); [done|lia|done| |].
    + intros i2 e2 s2 H2 Hs2. destruct (C1 _ _ H2) as [D2 C2]. apply nested_each with (D := D) (s0 := s); [done|lia|done| |].
      * intros i3 e3 s3 H3 Hs3. destruct (C2 _ _ H3) as [D3 C3]. rewrite each_fmap. 
        rewrite (for_present_each D s); [|done|lia|lia|done|].
        -- apply (each_agree (fun _ => True)); [done| |done]. by intros [j e].
        -- intros j e s4 s5 Hj. apply (copying_leaf D s (Leaf i1 i2 i3 j e)); [exact (C3 _ _ Hj)|exact (Hu _ _ _ _ _ _ Hj)].
      * intros i3 e3 l H3 Hl. destruct (C2 _ _ H3) as [D3 C3]. apply list_elem_of_fmap in Hl as ([i4 e4] & -> & H4).
        split; [exact (C3 _ _ H4)|exact (Hu _ _ _ _ _ _ H4)].
    + intros i2 e2 l H2 Hl. destruct (C1 _ _ H2) as [D2 C2]. apply list_elem_of_bind in Hl as ([i3 e3] & Hl & H3).
      destruct (C2 _ _ H3) as [D3 C3]. apply list_elem_of_fmap in Hl as ([i4 e4] & -> & H4).
      split; [exact (C3 _ _ H4)|exact (Hu _ _ _ _ _ _ H4)].
  - intros i1 e1 l H1 Hl. destruct (C _ _ H1) as [D1 C1]. apply list_elem_of_bind in Hl as ([i2 e2] & Hl & H2).
    destruct (C1 _ _ H2) as [D2 C2]. apply list_elem_of_bind in Hl as ([i3 e3] & Hl & H3).
    destruct (C2 _ _ H3) as [D3 C3]. apply list_elem_of_fmap in Hl as ([i4 e4] & -> & H4).
    split; [exact (C3 _ _ H4)|exact (Hu _ _ _ _ _ _ H4)].
Qed.
End CopySpec.

(** ** The parent's translation *)

Lemma present_iff m layer i n j e :
  (j, e) ∈ present m layer i n <->
  i <= j < i + Z.of_nat n /\ e = ld64 m (layer + 8 * j) /\ (Z.land e TABLE_ENTRY_PRESENT =? 0) = false.
Proof.
  revert i. induction n as [|n IH]; intros i; cbn [present].
  - split; [by intros H%elem_of_nil|]. intros (? & _). lia.
  - destruct (Z.land (ld64 m (layer + 8 * i)) TABLE_ENTRY_PRESENT =? 0) eqn:E.
    + rewrite IH. split; [intros (? & ? & ?); split_and!; (done || lia)|]. intros (Hj & -> & Hp).
      split_and!; try done; [|lia]. destruct (decide (j = i)) as [->|]; [congruence|lia].
    + rewrite elem_of_cons, IH. split.
      * intros [[= -> ->]|(? & ? & ?)]; split_and!; (done || lia).
      * intros (Hj & -> & Hp). destruct (decide (j = i)) as [->|]; [by left|right]. split_and!; (done || lia).
Qed.

Section Walk.
Context (hhdm : Z) {St : Type} `{!PageSource St} (s : St) (parent : Z) (D : list Z).
Hypothesis HD : forall a, a ∈ D -> hhdm < a.
Hypothesis HC : closed hhdm (src_mem s) parent D.

(** The next layer is the one of an entry that is present. *)
Lemma next_layer_present layer j n :
  layer ∈ D -> 0 <= j < Z.of_nat n ->
  (arch_table_manager_get_next_layer hhdm s layer j = 0 /\ forall e, (j, e) ∉ present (src_mem s) layer 0 n) \/
  (j, entry_at s layer j) ∈ present (src_mem s) layer 0 n /\
  arch_table_manager_get_next_layer hhdm s layer j = layer_of hhdm (entry_at s layer j).
Proof using HD.
  intros Hl Hj. specialize (HD _ Hl). unfold arch_table_manager_get_next_layer. btest; [lia|].
  destruct (Z.land (entry_at s layer j) TABLE_ENTRY_PRESENT =? 0) eqn:E.
  - left. split; [done|]. intros e (_ & -> & Hp)%present_iff. unfold entry_at in E. congruence.
  - right. split; [|done]. apply present_iff. split_and!; (done || lia).
Qed.

Lemma leaves_elem i1 i2 i3 i4 e4 :
  Leaf i1 i2 i3 i4 e4 ∈ leaves hhdm (src_mem s) parent <->
  exists e1 e2 e3, (i1, e1) ∈ present (src_mem s) parent 0 256 /\ (i2, e2) ∈ present (src_mem s) (layer_of hhdm e1) 0 512 /\
    (i3, e3) ∈ present (src_mem s) (layer_of hhdm e2) 0 512 /\ (i4, e4) ∈ present (src_mem s) (layer_of hhdm e3) 0 512.
Proof using.
  unfold leaves. rewrite list_elem_of_bind. split.
  - intros ([j1 e1] & Hl & H1). apply list_elem_of_bind in Hl as ([j2 e2] & Hl & H2).
    apply list_elem_of_bind in Hl as ([j3 e3] & Hl & H3). apply list_elem_of_fmap in Hl as ([j4 e4'] & [= -> -> -> -> ->] & H4).
    exists e1, e2, e3. auto.
  - intros (e1 & e2 & e3 & H1 & H2 & H3 & H4). exists (i1, e1). split; [|exact H1].
    apply list_elem_of_bind. exists (i2, e2). split; [|exact H2].
    apply list_elem_of_bind. exists (i3, e3). split; [|exact H3]. apply list_elem_of_fmap. exists (i4, e4). by split.
Qed.

Lemma no_leaf va :
  (forall e, Leaf (pml3_index va) (pml2_index va) (pml1_index va) (p_index va) e ∉ leaves hhdm (src_mem s) parent) ->
  page_number va ∉ leaf_page <$> leaves hhdm (src_mem s) parent.
Proof using HC.
  intros Hn (l & Hp & Hl)%list_elem_of_fmap. destruct (leaves_in _ _ _ _ _ HC Hl) as (R1 & R2 & R3 & R4 & _).
  rewrite page_number_indices in Hp. pose proof (indices_range va). unfold leaf_page in Hp.
  apply (Hn (lf_entry l)). destruct l as [i1 i2 i3 i4 e]. simpl in *.
  assert (pml3_index va = i1 /\ pml2_index va = i2 /\ pml1_index va = i3 /\ p_index va = i4) as (-> & -> & -> & ->) by lia.
  exact Hl.
Qed.

Lemma leaves_path va e : Leaf (pml3_index va) (pml2_index va) (pml1_index va) (p_index va) e ∈ leaves hhdm (src_mem s) parent ->
  exists e1 e2 e3, (pml3_index va, e1) ∈ present (src_mem s) parent 0 256 /\ e1 = entry_at s parent (pml3_index va) /\
    (pml2_index va, e2) ∈ present (src_mem s) (layer_of hhdm e1) 0 512 /\ e2 = entry_at s (layer_of hhdm e1) (pml2_index va) /\
    (pml1_index va, e3) ∈ present (src_mem s) (layer_of hhdm e2) 0 512 /\ e3 = entry_at s (layer_of hhdm e2) (pml1_index va) /\
    (p_index va, e) ∈ present (src_mem s) (layer_of hhdm e3) 0 512.
Proof using.
  intros (e1 & e2 & e3 & H1 & H2 & H3 & H4)%leaves_elem. exists e1, e2, e3.
  pose proof (proj2 (present_in _ _ _ _ _ _ H1)). pose proof (proj2 (present_in _ _ _ _ _ _ H2)).
  pose proof (proj2 (present_in _ _ _ _ _ _ H3)). split_and!; assumption.
Qed.

(** The parent's lower half is the list of its leaves. *)
Lemma translate_leaf va :
  0 <= hhdm -> pml3_index va < 256 ->
  (arch_table_manager_translate_to_physical hhdm parent va s = 0 /\
   page_number va ∉ leaf_page <$> leaves hhdm (src_mem s) parent) \/
  exists l, l ∈ leaves hhdm (src_mem s) parent /\ leaf_page l = page_number va /\
    arch_table_manager_translate_to_physical hhdm parent va s = arch_table_manager_get_address (lf_entry l).
Proof using HD HC.
  intros H0 Hlow. pose proof (indices_range va) as (R1 & R2 & R3 & R4). pose proof HC as [Hr C].
  unfold arch_table_manager_translate_to_physical.
  assert (forall a, a ∈ D -> (a =? 0) = false) as Hnz by (intros a Ha; apply Z.eqb_neq; specialize (HD a Ha); lia).
  destruct (next_layer_present parent (pml3_index va) 256 Hr ltac:(lia)) as [[-> N]|[P1 ->]].
  { left. split; [done|]. apply no_leaf. intros e (e1 & e2 & e3 & H1 & _)%leaves_path. exact (N _ H1). }
  set (e1 := entry_at s parent (pml3_index va)) in *. destruct (C _ _ P1) as [D1 C1]. rewrite (Hnz _ D1).
  destruct (next_layer_present (layer_of hhdm e1) (pml2_index va) 512 D1 ltac:(lia)) as [[-> N]|[P2 ->]].
  { left. split; [done|]. apply no_leaf. intros e (f1 & f2 & f3 & _ & -> & H2 & _)%leaves_path. exact (N _ H2). }
  set (e2 := entry_at s (layer_of hhdm e1) (pml2_index va)) in *. destruct (C1 _ _ P2) as [D2 C2]. rewrite (Hnz _ D2).
  destruct (next_layer_present (layer_of hhdm e2) (pml1_index va) 512 D2 ltac:(lia)) as [[-> N]|[P3 ->]].
  { left. split; [done|]. apply no_leaf. intros e (f1 & f2 & f3 & _ & -> & _ & -> & H3 & _)%leaves_path. exact (N _ H3). }
  set (e3 := entry_at s (layer_of hhdm e2) (pml1_index va)) in *. destruct (C2 _ _ P3) as [D3 C3]. rewrite (Hnz _ D3).
  destruct (Z.land (entry_at s (layer_of hhdm e3) (p_index va)) TABLE_ENTRY_PRESENT =? 0) eqn:E.
  - left. split; [done|]. apply no_leaf. intros e (f1 & f2 & f3 & _ & -> & _ & -> & _ & -> & H4)%leaves_path.
    apply present_iff in H4 as (_ & -> & Hp). unfold entry_at in E. fold e3 in Hp. unfold e3, e2, e1 in *. congruence.
  - right. exists (Leaf (pml3_index va) (pml2_index va) (pml1_index va) (p_index va) (entry_at s (layer_of hhdm e3) (p_index va))).
    split_and!; [|rewrite page_number_indices; unfold leaf_page; simpl; lia|done].
    apply leaves_elem. exists e1, e2, e3. split; [exact P1|]. split; [exact P2|]. split; [exact P3|].
    apply present_iff. split; [lia|]. split; [reflexivity|exact E].
Qed.
End Walk.

(** The pages with their copies, as a map. *)
Lemma frames_lookup (ks F : list Z) k p :
  NoDup ks -> length F = length ks ->
  (list_to_map (zip ks F) : gmap Z Z) !! k = Some p <-> exists i, ks !! i = Some k /\ F !! i = Some p.
Proof.
  intros Hn Hl. rewrite <- elem_of_list_to_map by (by rewrite fst_zip by lia). rewrite list_elem_of_lookup.
  split; intros (i & Hi); exists i; [apply lookup_zip_with_Some in Hi as (? & ? & [= <- <-] & ? & ?); done|].
  apply lookup_zip_with_Some. naive_solver.
Qed.

(** * Two concrete address spaces *)

#[local] Existing Instance demo_source.
#[local] Existing Instance demo_source_laws.

(** A parent that maps the page at 12288 at 4 MiB. *)
Definition demo_parent : outcome (Z * pa_state) :=
  '(parent, s) ← arch_table_manager_new table_state;
  '(p, s) ← src_page_allocate 1 s;
  s ← arch_table_manager_map 0 parent 0x400000 p 7 s;
  Done (parent, set_pa_mem s (st8 (src_mem s) p 42)).

Definition demo_parent_state : pa_state := match demo_parent with Done (_, s) => s | _ => table_state end.

(** The root, the page and the layers of the parent. *)
Definition demo_pages : list Z := (fun i => 8192 + i * PAGE) <$> [0; 1; 2; 3; 4].

Lemma demo_parent_done : demo_parent = Done (8192, demo_parent_state).
Proof.
  assert (match demo_parent with Done (r, _) => r =? 8192 | _ => false end = true) as H by (vm_compute; reflexivity).
  unfold demo_parent_state. destruct demo_parent as [[r s]| | | |]; try discriminate H.
  apply Z.eqb_eq in H. by rewrite H.
Qed.

Lemma demo_parent_wf parent s : demo_parent = Done (parent, s) -> src_ok s.
Proof.
  intros E. unfold demo_parent in E. apply bind_done_inv in E as ([root s1] & E1 & E).
  apply bind_done_inv in E as ([p s2] & E2 & E). apply bind_done_inv in E as (s3 & E3 & E).
  injection E as <- <-.
  destruct (@space_new 0 _ demo_source demo_source_laws table_state [] root s1 hhdm_ok_0 table_state_wf) as [H1 _]; [by intros a Ha%elem_of_nil|exact E1|].
  destruct (space_alloc 0 s1 root _ [] p s2 hhdm_ok_0 H1 E2) as (H2 & _ & Hf & Hp & _).
  assert (p -w 0 = p) as Ep by lia. rewrite Ep in Hf.
  destruct (space_map 0 s2 root _ [p] 0x400000 p 7 hhdm_ok_0 Hf ltac:(lia) H2) as [E|(s4 & E & H4 & _)];
    rewrite E in E3; [discriminate E3|]. injection E3 as ->.
  destruct (space_write 0 s3 root _ [p] (st8 (src_mem s3) p 42) hhdm_ok_0 H4) as [H5 _].
  { apply changes_st8; [apply changes_refl|]. exists p. split; [apply list_elem_of_here|unfold PAGE; lia]. }
  exact (space_ok _ _ _ _ _ H5).
Qed.

Lemma demo_pages_owned a : a ∈ demo_pages -> src_owned demo_parent_state a.
Proof.
  set (q := default table_pool (head (allocator_pools demo_parent_state))).
  assert (allocator_pools demo_parent_state = [q]) as Eq by (vm_compute; reflexivity).
  assert (forallb (fun i => bit (pa_mem demo_parent_state) (bitmap_base q) i) [0; 1; 2; 3; 4] = true) as Hb
    by (vm_compute; reflexivity).
  assert (allocate_base q = 8192 /\ 5 <= bitmap_entries q) as [H1 H2] by (vm_compute; split; [reflexivity|discriminate]).
  rewrite forallb_forall in Hb. intros (i & -> & Hi)%list_elem_of_fmap.
  change (allocated (pa_mem demo_parent_state) (allocator_pools demo_parent_state) (8192 + i * PAGE)).
  rewrite Eq. exists q, i. rewrite H1. split; [apply list_elem_of_here|]. apply list_elem_of_In in Hi.
  split; [simpl in Hi; lia|]. split; [reflexivity|by apply Hb].
Qed.

(** With a new table for the child. *)
Definition demo_child_state : pa_state :=
  match arch_table_manager_new demo_parent_state with Done (_, s) => s | _ => table_state end.

Lemma demo_child_done : arch_table_manager_new demo_parent_state = Done (28672, demo_child_state).
Proof.
  assert (match arch_table_manager_new demo_parent_state with Done (r, _) => r =? 28672 | _ => false end = true) as H
    by (vm_compute; reflexivity).
  unfold demo_child_state. destruct (arch_table_manager_new demo_parent_state) as [[r s]| | | |]; try discriminate H.
  apply Z.eqb_eq in H. by rewrite H.
Qed.

Lemma demo_closed : closed 0 (src_mem demo_child_state) 8192 demo_pages.
Proof.
  split; [vm_compute; apply list_elem_of_here|].
  assert (present (src_mem demo_child_state) 8192 0 256 = [(0, 16391)]) as -> by (vm_compute; reflexivity).
  intros i1 e1 [= -> ->]%list_elem_of_singleton. split; [apply (proj2 (list_elem_of_fmap _ _ _)); exists 2; split; [reflexivity|set_solver]|].
  assert (present (src_mem demo_child_state) (layer_of 0 16391) 0 512 = [(0, 20487)]) as -> by (vm_compute; reflexivity).
  intros i2 e2 [= -> ->]%list_elem_of_singleton. split; [apply (proj2 (list_elem_of_fmap _ _ _)); exists 3; split; [reflexivity|set_solver]|].
  assert (present (src_mem demo_child_state) (layer_of 0 20487) 0 512 = [(2, 24583)]) as -> by (vm_compute; reflexivity).
  intros i3 e3 [= -> ->]%list_elem_of_singleton. split; [apply (proj2 (list_elem_of_fmap _ _ _)); exists 4; split; [reflexivity|set_solver]|].
  assert (present (src_mem demo_child_state) (layer_of 0 24583) 0 512 = [(0, 12295)]) as -> by (vm_compute; reflexivity).
  intros i4 e4 [= -> ->]%list_elem_of_singleton. apply (proj2 (list_elem_of_fmap _ _ _)). exists 1. split; [reflexivity|set_solver].
Qed.

(** * Properties *)

(** C16. The copy of the address space that sys_fork makes either runs out of pages or gives the
    child, for every page of the lower half that the parent maps, a page of its own with the
    same bytes at the same address; the parent's pages and translations stay as they are. *)
Theorem fork_copies_memory (hhdm : Z) {St} `{!PageSource St} `{!PageSourceLaws hhdm St}
    (s : St) (child parent : Z) (t : Z -> Z) (D : list Z) :
  hhdm_ok hhdm -> address_space hhdm s child t D -> closed hhdm (src_mem s) parent D ->
  copy_address_space hhdm child parent s = Panicked \/
  exists s' (frames : gmap Z Z), copy_address_space hhdm child parent s = Done s' /\
    (forall va, pml3_index va < 256 ->
       match frames !! page_number va with
       | None => arch_table_manager_translate_to_physical hhdm parent va s = 0 /\
                 arch_table_manager_translate_to_physical hhdm child va s' = t (page_number va)
       | Some p => ~ src_owned s p /\ arch_table_manager_translate_to_physical hhdm child va s' = p -w hhdm /\
                   same_page (src_mem s') p (src_mem s)
                     (arch_table_manager_translate_to_physical hhdm parent va s +w hhdm)
       end) /\
    (forall a b p, frames !! a = Some p -> frames !! b = Some p -> a = b) /\
    pages_kept D s s'.
Proof.
  intros Hh Hs HC. set (ls := leaves hhdm (src_mem s) parent). pose proof (leaves_nodup hhdm (src_mem s) parent : NoDup (leaf_page <$> ls)) as Hnd.
  rewrite (copy_address_space_each hhdm child Hh D s parent HC) by (split; [by exists t, []|done]). fold ls.
  assert (forall l, l ∈ ls -> layer_of hhdm (lf_entry l) ∈ D /\ in_u64 (lf_entry l) /\ page_number (leaf_address l) = leaf_page l) as Hin.
  { intros l Hl. destruct (leaves_in _ _ _ _ _ HC Hl) as (R1 & R2 & R3 & R4 & He & HD). split; [exact HD|]. split; [exact He|].
    by apply leaf_page_number. }
  assert (forall a, a ∈ D -> hhdm < a) as HD.
  { intros a Ha. by apply (law_range s a (space_ok _ _ _ _ _ Hs)); eapply space_owned. }
  destruct (copy_leaves_spec hhdm child Hh ls s t D Hs Hnd Hin)
    as [->|(s' & F & t' & D' & E & Hs' & HF & HnF & Hfr & K & T1 & T2)]; [by left|right].
  exists s', (list_to_map (zip (leaf_page <$> ls) F)). split; [exact E|]. split; [|split; [|exact K]].
  - intros va Hva. rewrite (sp_view _ _ _ _ _ Hs' va).
    destruct (list_to_map (zip (leaf_page <$> ls) F) !! page_number va) as [p|] eqn:Ef.
    + apply frames_lookup in Ef as (i & Hi & Hp); [|done|by rewrite length_fmap].
      apply list_lookup_fmap_Some in Hi as (l & Hpg & Hi). destruct (T2 i l p Hi Hp) as [T3 T4].
      rewrite Hpg, T3. split; [apply Hfr; by eapply list_elem_of_lookup_2|]. split; [reflexivity|].
      destruct (translate_leaf hhdm s parent D HD HC va ltac:(apply Hh) Hva) as [[_ Hno]|(l' & Hl' & Hpg' & ->)].
      { exfalso. apply Hno, list_elem_of_fmap. exists l. split; [exact Hpg|]. by eapply list_elem_of_lookup_2. }
      assert (l' = l) as ->; [|exact T4]. fold ls in Hl'. apply list_elem_of_lookup in Hl' as [j Hj].
      assert (j = i) as ->; [|congruence].
      apply (NoDup_lookup (leaf_page <$> ls) j i (page_number va)); [done| |]; rewrite list_lookup_fmap.
      * rewrite Hj. cbn. by rewrite Hpg'.
      * rewrite Hi. cbn. by rewrite Hpg.
    + assert (page_number va ∉ leaf_page <$> ls) as Hno.
      { intros Hx. apply list_elem_of_lookup in Hx as [i Hi]. pose proof (lookup_lt_Some _ _ _ Hi) as Hlt. rewrite length_fmap in Hlt.
        destruct (lookup_lt_is_Some_2 F i) as [p Hp]; [lia|]. rewrite (proj2 (frames_lookup _ F _ p Hnd ltac:(by rewrite length_fmap))) in Ef; [done|].
        by exists i. }
      split; [|by apply T1].
      destruct (translate_leaf hhdm s parent D HD HC va ltac:(apply Hh) Hva) as [[? _]|(l & Hl & Hpg & _)]; [done|].
      exfalso. apply Hno, list_elem_of_fmap. by exists l.
  - intros a b p (i & Ha & Hi)%frames_lookup (j & Hb & Hj)%frames_lookup; try (done || by rewrite length_fmap).
    assert (i = j) as -> by (by eapply NoDup_lookup). congruence.
Qed.

Lemma fork_copies_memory_witness :
  exists s' frames, copy_address_space 0 28672 8192 demo_child_state = Done s' /\
    (forall a b p, frames !! a = Some p -> frames !! b = Some p -> a = b) /\
    exists p, (frames : gmap Z Z) !! page_number 0x400000 = Some p /\ ld8 (src_mem s') p = 42.
Proof.
  destruct (@space_new 0 _ demo_source demo_source_laws demo_parent_state demo_pages 28672 demo_child_state hhdm_ok_0
    (demo_parent_wf 8192 demo_parent_state demo_parent_done) demo_pages_owned demo_child_done) as [Hs _].
  assert (is_done (copy_address_space 0 28672 8192 demo_child_state) = true) as Hd by (vm_compute; reflexivity).
  destruct (@fork_copies_memory 0 _ demo_source demo_source_laws demo_child_state 28672 8192 (fun _ => 0) demo_pages
    hhdm_ok_0 Hs demo_closed) as [Ep|(s' & frames & E & Hv & Hi & _)].
  - rewrite Ep in Hd. discriminate Hd.
  - exists s', frames. split; [exact E|]. split; [exact Hi|].
    assert (arch_table_manager_translate_to_physical 0 8192 0x400000 demo_child_state = 12288) as Et by (vm_compute; reflexivity).
    assert (ld8 (src_mem demo_child_state) 12288 = 42) as Eb by (vm_compute; reflexivity).
    specialize (Hv 0x400000 ltac:(vm_compute; reflexivity)). rewrite Et in Hv.
    destruct (frames !! page_number 0x400000) as [p|].
    + exists p. split; [reflexivity|]. destruct Hv as (_ & _ & Hp). specialize (Hp 0 ltac:(unfold PAGE; lia)).
      rewrite Z.add_0_r in Hp. rewrite Hp. exact Eb.
    + destruct Hv as [Hv _]. discriminate Hv.
Defined.
