(* ===== verification/BlockAllocator.v ===== *)
(** The block allocator, [memory/physical/block_allocator.c]: variable-sized
    blocks in a virtual region that grows upwards from
    [block_allocator_virtual_base], with a free list and a busy list of headers
    that are linked in both directions.

    The headers are bytes of the memory of the page source, at the virtual
    address the code uses; a block header is the address of its first byte.  The
    region lies above everything the page source keeps ([src_below]), and the
    pages behind it are reached through it only. *)

From S2P Require Import Prelude Memory Libc Spinlock PageAllocator PageAllocatorSpec PageTable.

Definition BLOCK_MINIMUM_ALLOCATION : Z := 16.
Definition BLOCK_SIGNATURE : Z := 0x7B3CC1F2D2FACAE0.

(** [struct block_header]: the offsets of its fields and its size. *)
Definition off_signature : Z := 0.
Definition off_size : Z := 8.
Definition off_next : Z := 16.
Definition off_previous : Z := 32.
Definition sizeof_block_header : Z := 48.

Definition h_signature (m : mem) (b : Z) : Z := ld64 m (b + off_signature).
Definition h_size (m : mem) (b : Z) : Z := ld64 m (b + off_size).
Definition h_next (m : mem) (b : Z) : Z := ld64 m (b + off_next).
Definition h_previous (m : mem) (b : Z) : Z := ld64 m (b + off_previous).

Record ba_state (St : Type) := BA {
  ba_src : St;
  block_free_list_start : Z;
  block_busy_list_start : Z;
  block_allocator_virtual_base : Z;
  block_allocator_current_virtual_address : Z;
  block_allocator_lock : spinlock_t
}.
Arguments BA {St}.
Arguments ba_src {St}.
Arguments block_free_list_start {St}.
Arguments block_busy_list_start {St}.
Arguments block_allocator_virtual_base {St}.
Arguments block_allocator_current_virtual_address {St}.
Arguments block_allocator_lock {St}.

(** [(x + PAGE - 1) & ~(PAGE - 1)]. *)
Definition page_round_up (x : Z) : Z := Z.land (x +w (PAGE - 1)) (Z.lnot (PAGE - 1)).

Section Model.
Context (kernel_hhdm_offset arch_bootstrap_page_table : Z) {St : Type} `{!PageSource St}.
Implicit Types s : ba_state St.

Definition ba_mem s : mem := src_mem (ba_src s).

Definition set_ba_mem s (m : mem) : ba_state St :=
  BA (src_with_mem (ba_src s) m) (block_free_list_start s) (block_busy_list_start s)
    (block_allocator_virtual_base s) (block_allocator_current_virtual_address s)
    (block_allocator_lock s).

Definition set_lists s (m : mem) (free busy : Z) : ba_state St :=
  BA (src_with_mem (ba_src s) m) free busy (block_allocator_virtual_base s)
    (block_allocator_current_virtual_address s) (block_allocator_lock s).

Definition set_ba_lock s (l : spinlock_t) : ba_state St :=
  BA (ba_src s) (block_free_list_start s) (block_busy_list_start s)
    (block_allocator_virtual_base s) (block_allocator_current_virtual_address s) l.

(** The stores that initialise a header. *)
Definition init_header (m : mem) (hdr size : Z) : mem :=
  let m := st64 m (hdr + off_signature) BLOCK_SIGNATURE in
  let m := st64 m (hdr + off_previous) 0 in
  let m := st64 m (hdr + off_next) 0 in
  st64 m (hdr + off_size) size.

Definition block_allocator_allocate_block (pages : Z) s : outcome (Z * ba_state St) :=
  '(page, src) ← src_page_allocate pages (ba_src s);
  let physical_base := page -w kernel_hhdm_offset in
  let virtual_base := page_round_up (block_allocator_current_virtual_address s) in
  src ← arch_table_manager_map_range kernel_hhdm_offset arch_bootstrap_page_table virtual_base
          physical_base TABLE_ENTRY_READ_WRITE pages src;
  let m := init_header (src_mem src) virtual_base ((pages *w PAGE) -w sizeof_block_header) in
  Done (virtual_base,
        BA (src_with_mem src m) (block_free_list_start s) (block_busy_list_start s)
          (block_allocator_virtual_base s) (virtual_base +w (pages *w PAGE))
          (block_allocator_lock s)).

(** The new memory and the new head of the list. *)
Definition block_allocator_push_block (m : mem) (list block : Z) : mem * Z :=
  let m := st64 m (block + off_next) list in
  let m := st64 m (block + off_previous) 0 in
  let m := if list =? 0 then m else st64 m (list + off_previous) block in
  (m, block).

Definition block_allocator_remove_block_from_list (block : Z) s : ba_state St :=
  let m := ba_mem s in
  let m := if h_previous m block =? 0 then m
           else st64 m (h_previous m block + off_next) (h_next m block) in
  let m := if h_next m block =? 0 then m
           else st64 m (h_next m block + off_previous) (h_previous m block) in
  let free := if block =? block_free_list_start s then h_next m block
              else block_free_list_start s in
  let busy := if block =? block_busy_list_start s then h_next m block
              else block_busy_list_start s in
  let m := st64 m (block + off_previous) 0 in
  let m := st64 m (block + off_next) 0 in
  set_lists s m free busy.

Definition block_allocator_create_free_block (pages : Z) s : outcome (Z * ba_state St) :=
  '(b, s) ← block_allocator_allocate_block pages s;
  let m := init_header (ba_mem s) b ((pages *w PAGE) -w sizeof_block_header) in
  if block_free_list_start s =? 0 then
    Done (b, set_lists s m b (block_busy_list_start s))
  else
    let '(m, free) := block_allocator_push_block m (block_free_list_start s) b in
    Done (b, set_lists s m free (block_busy_list_start s)).

Definition block_allocator_move_to_free_list (block : Z) s : ba_state St :=
  let s := block_allocator_remove_block_from_list block s in
  let '(m, free) := block_allocator_push_block (ba_mem s) (block_free_list_start s) block in
  set_lists s m free (block_busy_list_start s).

Definition block_allocator_move_to_busy_list (block : Z) s : ba_state St :=
  let s := block_allocator_remove_block_from_list block s in
  let '(m, busy) := block_allocator_push_block (ba_mem s) (block_busy_list_start s) block in
  set_lists s m (block_free_list_start s) busy.

(** The last entry of the memory map gives the lowest address the region may
    start at; [None] stands for the read before the array when it is empty. *)
Definition block_allocator_find_lowest_free_virtual_address_limine
    (memory_map_entries : list limine_memmap_entry) s : outcome (ba_state St) :=
  highest_entry ← deref (last memory_map_entries);
  let base := entry_base highest_entry +w entry_length highest_entry +w kernel_hhdm_offset in
  let base := page_round_up base in
  Done (BA (ba_src s) (block_free_list_start s) (block_busy_list_start s) base base
          (block_allocator_lock s)).

Definition block_allocator_init (memory_map_entries : list limine_memmap_entry) s :
    outcome (ba_state St) :=
  s ← block_allocator_find_lowest_free_virtual_address_limine memory_map_entries s;
  '(_, s) ← block_allocator_create_free_block 1 s;
  Done s.

(** [while (current_block && current_block->size < size)].  A free list holds at
    most one block per byte of the region, which is the fuel. *)
Fixpoint find_block (m : mem) (current_block size : Z) (fuel : nat) : outcome Z :=
  if current_block =? 0 then Done 0
  else if negb (h_size m current_block <? size) then Done current_block
  else match fuel with
       | O => Timeout
       | S fuel' => find_block m (h_next m current_block) size fuel'
       end.

(** The block is cut at [size] when the rest can hold a block of its own. *)
Definition split_block (m : mem) (current_block size : Z) : mem :=
  if h_size m current_block >? size +w sizeof_block_header +w BLOCK_MINIMUM_ALLOCATION then
    let old_size := h_size m current_block in
    let new_block_size := old_size -w size -w sizeof_block_header in
    let m := st64 m (current_block + off_size) size in
    let new_block := current_block +w sizeof_block_header +w h_size m current_block in
    let m := st64 m (new_block + off_size) new_block_size in
    let m := st64 m (new_block + off_next) (h_next m current_block) in
    let m := st64 m (new_block + off_previous) current_block in
    let m := st64 m (new_block + off_signature) BLOCK_SIGNATURE in
    let m := if h_next m new_block =? 0 then m
             else st64 m (h_next m new_block + off_previous) new_block in
    st64 m (current_block + off_next) new_block
  else m.

(** The size that is really allocated. *)
Definition block_round_size (size : Z) : Z :=
  let size := if size <? BLOCK_MINIMUM_ALLOCATION then BLOCK_MINIMUM_ALLOCATION else size in
  if size mod 16 =? 0 then size else size +w (16 - size mod 16).

Definition block_allocate (size : Z) s : outcome (Z * ba_state St) :=
  let size := block_round_size size in
  l ← spinlock_acquire (block_allocator_lock s);
  let s := set_ba_lock s l in
  current_block ← find_block (ba_mem s) (block_free_list_start s) size
    (Z.to_nat (block_allocator_current_virtual_address s - block_allocator_virtual_base s));
  '(current_block, s) ←
    (if current_block =? 0 then
       let need := size +w sizeof_block_header in
       let pages := (need +w (PAGE - 1)) / PAGE in
       block_allocator_create_free_block pages s
     else Done (current_block, s));
  let s := set_ba_mem s (split_block (ba_mem s) current_block size) in
  let s := block_allocator_move_to_busy_list current_block s in
  let s := set_ba_lock s (spinlock_release l) in
  let contents := current_block +w sizeof_block_header in
  Done (contents, set_ba_mem s (memset (ba_mem s) contents 0 size)).

(** The two [log_error]s have no effect on the state. *)
Definition block_deallocate (block : Z) s : outcome (ba_state St) :=
  if block =? 0 then Done s else
  let header := block -w sizeof_block_header in
  if negb (h_signature (ba_mem s) header =? BLOCK_SIGNATURE) then Done s else
  l ← spinlock_acquire (block_allocator_lock s);
  let s := set_ba_lock s l in
  let s := if (block_allocator_virtual_base s <? block) &&
              (block <? block_allocator_current_virtual_address s)
           then block_allocator_move_to_free_list header s else s in
  Done (set_ba_lock s (spinlock_release l)).

(** The totals that [block_allocate_dump_usage] and the list dumps compute:
    bytes and blocks of a list. *)
Fixpoint list_usage (m : mem) (list : Z) (fuel : nat) : outcome (Z * Z) :=
  if list =? 0 then Done (0, 0)
  else match fuel with
       | O => Timeout
       | S fuel' =>
           '(bytes, blocks) ← list_usage m (h_next m list) fuel';
           Done (h_size m list +w bytes, blocks +w 1)
       end.

(** Bytes and blocks of the free list, then of the busy list; the printing is
    left out. *)
Definition block_allocate_dump_usage s : outcome ((Z * Z) * (Z * Z)) :=
  _ ← spinlock_acquire (block_allocator_lock s);
  let fuel := Z.to_nat (block_allocator_current_virtual_address s - block_allocator_virtual_base s) in
  free ← list_usage (ba_mem s) (block_free_list_start s) fuel;
  used ← list_usage (ba_mem s) (block_busy_list_start s) fuel;
  Done (free, used).
End Model.

(** * Doubly linked lists *)

(** [l] is the list that starts at [h], followed along [nx], with the back
    pointers [pv]; [prev] is the back pointer of the first block. *)
Fixpoint dlist (nx pv : Z -> Z) (prev h : Z) (l : list Z) : Prop :=
  match l with
  | [] => h = 0
  | b :: l' => h = b /\ b <> 0 /\ pv b = prev /\ dlist nx pv b (nx b) l'
  end.

Lemma dlist_ext nx pv nx' pv' prev h l :
  (forall b, b ∈ l -> nx' b = nx b /\ pv' b = pv b) -> dlist nx pv prev h l -> dlist nx' pv' prev h l.
Proof.
  revert prev h. induction l as [|b l IH]; intros prev h He; simpl; [done|].
  intros (-> & H0 & H1 & H2). destruct (He b) as [-> ->]; [set_solver|]. split_and!; try done.
  apply IH; [|done]. intros. apply He. set_solver.
Qed.

(** The first block decides whether the list is empty. *)
Lemma dlist_head nx pv prev h l : dlist nx pv prev h l -> (h = 0 <-> l = []) /\ (h <> 0 -> h ∈ l).
Proof. destruct l; simpl; [set_solver|]. intros (-> & H & _). split; [done|]. set_solver. Qed.

(** Changing the back pointer of the first block. *)
Lemma dlist_prev nx pv pv' prev prev' h l :
  NoDup l -> (h <> 0 -> pv' h = prev') -> (forall b, b ∈ l -> b <> h -> pv' b = pv b) ->
  dlist nx pv prev h l -> dlist nx pv' prev' h l.
Proof.
  destruct l as [|b l]; simpl; [done|]. intros [Hb Hl]%NoDup_cons Hh Ho (-> & H0 & H1 & H2).
  split_and!; [done|done|by apply Hh|]. eapply dlist_ext; [|done].
  intros x Hx. split; [done|]. apply Ho; set_solver.
Qed.

Lemma dlist_push nx pv nx' pv' h l b :
  dlist nx pv 0 h l -> NoDup l -> b ∉ l -> b <> 0 ->
  nx' b = h -> pv' b = 0 -> (h <> 0 -> pv' h = b) ->
  (forall x, x ∈ l -> nx' x = nx x) -> (forall x, x ∈ l -> x <> h -> pv' x = pv x) ->
  dlist nx' pv' 0 b (b :: l).
Proof.
  intros Hd Hnd Hb H0 Hnx Hpv Hh Hn Hp. simpl. split_and!; try done. rewrite Hnx.
  eapply (dlist_prev nx' pv pv' 0); [done|done|done|].
  eapply dlist_ext; [|done]. intros x Hx. by rewrite Hn.
Qed.

(** The neighbours of a block. *)
Lemma dlist_middle nx pv prev h l1 b l2 :
  dlist nx pv prev h (l1 ++ b :: l2) ->
  b <> 0 /\ pv b = default prev (last l1) /\ dlist nx pv b (nx b) l2 /\
  (l1 = [] -> h = b) /\ (l1 <> [] -> pv b ∈ l1 /\ h ∈ l1).
Proof.
  revert prev h. induction l1 as [|a l1 IH]; intros prev h; simpl.
  - intros (-> & H0 & H1 & H2). split_and!; try done.
  - intros (-> & H0 & H1 & H2). destruct (IH _ _ H2) as (I0 & I1 & I2 & I3 & I4).
    split_and!; [done| |done|done|].
    + rewrite I1. destruct l1; [done|]. rewrite last_cons_cons. destruct (last (z :: l1)) eqn:E; [done|].
      by apply last_None in E.
    + intros _. split; [|set_solver]. destruct l1 as [|c l1]; [rewrite I1; simpl; set_solver|].
      destruct I4 as [I4 _]; [done|set_solver].
Qed.

Lemma dlist_remove nx pv nx' pv' h l1 b l2 :
  forall prev, dlist nx pv prev h (l1 ++ b :: l2) -> NoDup (l1 ++ b :: l2) -> prev ∉ l1 ++ b :: l2 ->
  (l1 <> [] -> nx' (pv b) = nx b) -> (nx b <> 0 -> pv' (nx b) = pv b) ->
  (forall x, x ∈ l1 ++ l2 -> x <> pv b -> nx' x = nx x) ->
  (forall x, x ∈ l1 ++ l2 -> x <> nx b -> pv' x = pv x) ->
  dlist nx' pv' prev (if decide (l1 = []) then nx b else h) (l1 ++ l2).
Proof.
  revert h. induction l1 as [|a l1 IH]; intros h prev Hd Hnd Hpr Hnp Hpn Hn Hp.
  - simpl in *. destruct Hd as (-> & H0 & H1 & H2). apply NoDup_cons in Hnd as [Hb Hnd].
    eapply (dlist_prev nx' pv); [done|by rewrite <- H1|by intros; apply Hp|].
    eapply dlist_ext; [|done]. intros x Hx. split; [|done]. apply Hn; [done|]. set_solver.
  - destruct (dlist_middle _ _ _ _ _ _ _ Hd) as (B0 & B1 & B2 & _ & B4).
    destruct (dlist_head _ _ _ _ _ B2) as [_ Hin].
    rewrite decide_False by done. simpl in Hd |- *. destruct Hd as (-> & H0 & H1 & H2).
    apply NoDup_cons in Hnd as [Ha Hnd].
    split_and!; [done|done|rewrite Hp; [done|set_solver|]|].
    { intros ->. destruct (decide (nx b = 0)); [done|]. set_solver. }
    specialize (IH (nx a) a H2 Hnd ltac:(done)).
    replace (nx' a) with (if decide (l1 = []) then nx b else nx a).
    + apply IH; [|done|by intros; apply Hn; set_solver|by intros; apply Hp; set_solver].
      intros _. by apply Hnp.
    + case_decide as E.
      * subst l1. simpl in B1. rewrite <- B1. symmetry. by apply Hnp.
      * symmetry. apply Hn; [set_solver|]. intros ->.
        destruct (dlist_middle _ _ _ _ _ _ _ H2) as (_ & _ & _ & _ & C4).
        destruct (C4 E) as [C4' _]. set_solver.
Qed.

(** * Header fields *)

(** Distinct headers do not overlap. *)
Definition spaced (L : list Z) : Prop :=
  forall a b, a ∈ L -> b ∈ L -> a <> b -> a + 48 <= b \/ b + 48 <= a.

Definition is_field (o : Z) : Prop := o = 0 \/ o = 8 \/ o = 16 \/ o = 32.

Lemma field_st L m b o v x o' :
  spaced L -> b ∈ L -> x ∈ L -> is_field o -> is_field o' ->
  ld64 (st64 m (b + o) v) (x + o') = if decide (b = x /\ o = o') then u64 v else ld64 m (x + o').
Proof.
  intros Hs Hb Hx Ho Ho'. case_decide as Hd; [destruct Hd as [-> ->]; apply ld64_st64|].
  apply ld64_st64_other. unfold is_field in *. destruct (decide (b = x)) as [->|Hn].
  - assert (o <> o') by (intros ->; tauto). lia.
  - specialize (Hs b x Hb Hx Hn). lia.
Qed.

Lemma field_signature : is_field off_signature. Proof. by left. Qed.
Lemma field_size : is_field off_size. Proof. right. by left. Qed.
Lemma field_next : is_field off_next. Proof. right. right. by left. Qed.
Lemma field_previous : is_field off_previous. Proof. right. right. by right. Qed.
#[export] Hint Resolve field_signature field_size field_next field_previous : gaos.

(** The fields of a header after the stores of an operation. *)
Ltac fields L :=
  unfold h_signature, h_size, h_next, h_previous in *;
  repeat rewrite (field_st L) by (assumption || auto with gaos).

Ltac offsets := unfold off_signature, off_size, off_next, off_previous in *.

Ltac field_cases :=
  repeat first
    [ rewrite decide_True by (split; (reflexivity || assumption || congruence))
    | rewrite decide_False by
        (let E1 := fresh in let E2 := fresh in intros [E1 E2]; offsets; (congruence || lia)) ].

(** Bytes of the link fields of the headers. *)
Definition link_byte (L : list Z) (x : Z) : Prop := exists b, b ∈ L /\ b + 16 <= x < b + 40.

(** Only links change: the sizes and signatures stay. *)
Record relinked (L : list Z) (m m' : mem) : Prop := {
  rl_changes : changes (link_byte L) m m';
  rl_size : forall b, b ∈ L -> h_size m' b = h_size m b;
  rl_signature : forall b, b ∈ L -> h_signature m' b = h_signature m b
}.

Lemma relinked_refl L m : relinked L m m.
Proof. by split. Qed.

Lemma relinked_trans L m1 m2 m3 : relinked L m1 m2 -> relinked L m2 m3 -> relinked L m1 m3.
Proof.
  intros [C1 S1 G1] [C2 S2 G2]. split; [by apply (changes_trans _ _ m2)|..]; intros b Hb.
  - by rewrite S2, S1.
  - by rewrite G2, G1.
Qed.

Lemma relinked_st L m b o v :
  spaced L -> b ∈ L -> o = off_next \/ o = off_previous -> relinked L m (st64 m (b + o) v).
Proof.
  intros Hs Hb Ho. assert (is_field o) by (destruct Ho as [-> | ->]; auto with gaos). split.
  - apply changes_st64. intros x Hx. exists b. split; [done|]. offsets. lia.
  - intros x Hx. fields L. rewrite decide_False; [done|]. offsets. lia.
  - intros x Hx. fields L. rewrite decide_False; [done|]. offsets. lia.
Qed.

Lemma h_range m b : in_u64 (h_next m b) /\ in_u64 (h_previous m b).
Proof. split; apply ld64_range. Qed.

(** ** Pushing *)

Lemma push_fields L m list block m' h' :
  spaced L -> block ∈ L -> (list = 0 \/ list ∈ L) -> list <> block -> in_u64 list -> in_u64 block ->
  block_allocator_push_block m list block = (m', h') ->
  h' = block /\ relinked L m m' /\
  h_next m' block = list /\ h_previous m' block = 0 /\ (list <> 0 -> h_previous m' list = block) /\
  forall x, x ∈ L -> x <> block ->
    h_next m' x = h_next m x /\ (x <> list -> h_previous m' x = h_previous m x).
Proof.
  intros Hs Hb Hl Hne Hr Hrb [= <- <-]. split; [done|].
  set (m1 := st64 m (block + off_next) list). set (m2 := st64 m1 (block + off_previous) 0).
  assert (relinked L m m2) as R2.
  { eapply relinked_trans; apply relinked_st; auto. }
  destruct (Z.eqb_spec list 0) as [->|Hn0].
  - split_and!; [done|..]; unfold m2, m1.
    + fields L. offsets. rewrite decide_False, decide_True by lia. done.
    + fields L. by rewrite decide_True.
    + done.
    + intros x Hx Hxb. split; [|intros _]; fields L; by rewrite !decide_False by (intros [? _]; congruence).
  - destruct Hl as [|Hl]; [done|].
    split_and!; [eapply relinked_trans; [done|apply relinked_st; auto]|..]; unfold m2, m1.
    + fields L. offsets. rewrite !decide_False, decide_True by lia. by apply u64_small.
    + fields L. rewrite decide_False, decide_True by (done || intros [? _]; congruence). done.
    + intros _. fields L. rewrite decide_True by done. by apply u64_small.
    + intros x Hx Hxb. split; [|intros Hxl]; fields L; offsets.
      * rewrite !decide_False by (intros [? ?]; (congruence || lia)). done.
      * by rewrite !decide_False by (intros [? _]; congruence).
Qed.

(** ** Removing *)

(** The stores of [block_allocator_remove_block_from_list]. *)
Definition unlink_neighbours (m : mem) (block : Z) : mem :=
  let m := if h_previous m block =? 0 then m
           else st64 m (h_previous m block + off_next) (h_next m block) in
  if h_next m block =? 0 then m else st64 m (h_next m block + off_previous) (h_previous m block).

Definition unlink (m : mem) (block : Z) : mem :=
  st64 (st64 (unlink_neighbours m block) (block + off_previous) 0) (block + off_next) 0.

Section Unlink.
Context (L : list Z) (m : mem) (block : Z).
Context (Hs : spaced L) (Hb : block ∈ L) (H0 : 0 ∉ L).
Context (Hp : h_previous m block = 0 \/ h_previous m block ∈ L) (Hpb : h_previous m block <> block).
Context (Hn : h_next m block = 0 \/ h_next m block ∈ L) (Hnb : h_next m block <> block).

Let m1 := if h_previous m block =? 0 then m
          else st64 m (h_previous m block + off_next) (h_next m block).

Lemma unlink_first :
  relinked L m m1 /\ h_next m1 block = h_next m block /\
  forall x, x ∈ L -> h_previous m1 x = h_previous m x /\
    h_next m1 x = if decide (x = h_previous m block) then h_next m block else h_next m x.
Proof using All.
  unfold m1. destruct (Z.eqb_spec (h_previous m block) 0) as [E|E].
  - split_and!; [apply relinked_refl|done|]. intros x Hx. rewrite E.
    rewrite decide_False; [done|]. congruence.
  - destruct Hp as [|Hp']; [done|]. pose proof (h_range m block) as [Rn _].
    unfold h_next, h_previous in *.
    split_and!; [apply relinked_st; auto|fields L; rewrite decide_False; [done|intros [? _]; done]|].
    intros x Hx. fields L. split.
    + rewrite decide_False; [done|]. offsets. lia.
    + destruct (decide (x = ld64 m (block + off_previous))) as [->|Hx'].
      * rewrite decide_True by done. by apply u64_small.
      * rewrite decide_False; [done|]. intros [? _]; congruence.
Qed.

Lemma unlink_second :
  relinked L m (unlink_neighbours m block) /\
  h_next (unlink_neighbours m block) block = h_next m block /\
  forall x, x ∈ L ->
    h_next (unlink_neighbours m block) x =
      (if decide (x = h_previous m block) then h_next m block else h_next m x) /\
    h_previous (unlink_neighbours m block) x =
      (if decide (x = h_next m block) then h_previous m block else h_previous m x).
Proof using All.
  destruct unlink_first as (R1 & N1 & F1). unfold unlink_neighbours. fold m1.
  destruct (F1 block Hb) as [P1 _]. rewrite N1, P1.
  destruct (Z.eqb_spec (h_next m block) 0) as [E|E].
  - split_and!; [done|congruence|]. intros x Hx. destruct (F1 x Hx) as [-> ->]. split; [done|].
    rewrite (decide_False (P := x = h_next m block)); [done|]. congruence.
  - destruct Hn as [|Hn']; [done|]. pose proof (h_range m block) as [_ Rp].
    split_and!; [eapply relinked_trans; [done|apply relinked_st; auto]|..].
    + rewrite <- N1 at 2. unfold h_next at 1. rewrite (field_st L) by (done || auto with gaos).
      rewrite decide_False; [done|]. offsets. lia.
    + intros x Hx. destruct (F1 x Hx) as [Fp Fn]. split.
      * rewrite <- Fn. unfold h_next at 1. rewrite (field_st L) by (done || auto with gaos).
        rewrite decide_False; [done|]. offsets. lia.
      * unfold h_previous at 1. rewrite (field_st L) by (done || auto with gaos).
        fold (h_previous m1 x). rewrite Fp.
        destruct (decide (x = h_next m block)) as [->|Hx'].
        -- rewrite decide_True by done. by apply u64_small.
        -- rewrite decide_False; [done|]. intros [? _]; congruence.
Qed.

Lemma unlink_fields :
  relinked L m (unlink m block) /\
  forall x, x ∈ L -> x <> block ->
    h_next (unlink m block) x =
      (if decide (x = h_previous m block) then h_next m block else h_next m x) /\
    h_previous (unlink m block) x =
      (if decide (x = h_next m block) then h_previous m block else h_previous m x).
Proof using All.
  destruct unlink_second as (R2 & N2 & F2). unfold unlink. split.
  - eapply relinked_trans; [done|]. eapply relinked_trans; apply relinked_st; auto.
  - intros x Hx Hxb. destruct (F2 x Hx) as [<- <-]. unfold h_next, h_previous.
    rewrite !(field_st L) by (done || auto with gaos).
    by rewrite !decide_False by (intros [? _]; congruence).
Qed.
End Unlink.

(** * The heap invariant *)

Definition h_end (m : mem) (b : Z) : Z := b + 48 + h_size m b.

(** The blocks [L] lie in the region, are well formed and do not overlap. *)
Record layout (m : mem) (vb cur : Z) (L : list Z) : Prop := {
  ly_region : 0 < vb /\ vb <= cur < 18446744073709551616;
  ly_nodup : NoDup L;
  ly_in : forall b, b ∈ L -> vb <= b /\ h_end m b <= cur;
  ly_size : forall b, b ∈ L -> 16 <= h_size m b /\ h_size m b mod 16 = 0 /\ b mod 16 = 0;
  ly_signature : forall b, b ∈ L -> h_signature m b = BLOCK_SIGNATURE;
  ly_apart : forall a b, a ∈ L -> b ∈ L -> a <> b -> h_end m a <= b \/ h_end m b <= a
}.

(** [F] and [B] are the free list and the busy list. *)
Record heap (m : mem) (vb cur free busy : Z) (F B : list Z) : Prop := {
  hp_layout : layout m vb cur (F ++ B);
  hp_free : dlist (h_next m) (h_previous m) 0 free F;
  hp_busy : dlist (h_next m) (h_previous m) 0 busy B
}.

(** A list without one block. *)
Definition del (b : Z) (l : list Z) : list Z := filter (fun x => x <> b) l.

Lemma elem_of_del b x l : x ∈ del b l <-> x ∈ l /\ x <> b.
Proof. unfold del. rewrite list_elem_of_filter. tauto. Qed.

Lemma del_notin b l : b ∉ l -> del b l = l.
Proof.
  unfold del. induction l as [|a l IH]; [done|]. intros H. rewrite filter_cons, decide_True by set_solver.
  by rewrite IH by set_solver.
Qed.

Lemma del_middle b l1 l2 : NoDup (l1 ++ b :: l2) -> del b (l1 ++ b :: l2) = l1 ++ l2.
Proof.
  intros H. apply NoDup_app in H as (_ & H1 & H2). apply NoDup_cons in H2 as [H2 _].
  unfold del. rewrite filter_app, filter_cons, decide_False by auto.
  fold (del b l1) (del b l2). rewrite !del_notin; [done|done|]. intros Hb. apply (H1 b Hb). set_solver.
Qed.

Lemma del_perm b l : NoDup l -> b ∈ l -> b :: del b l ≡ₚ l.
Proof.
  intros Hn Hb. apply list_elem_of_split in Hb as (l1 & l2 & ->). rewrite del_middle by done.
  apply Permutation_middle.
Qed.

Lemma NoDup_del b l : NoDup l -> NoDup (del b l).
Proof. apply NoDup_filter. Qed.

Section Layout.
Context (m : mem) (vb cur : Z) (L : list Z) (HL : layout m vb cur L).

Lemma layout_spaced : spaced L.
Proof using HL.
  intros a b Ha Hb Hn. pose proof (ly_apart _ _ _ _ HL a b Ha Hb Hn) as H.
  pose proof (ly_size _ _ _ _ HL a Ha). pose proof (ly_size _ _ _ _ HL b Hb). unfold h_end in *. lia.
Qed.

Lemma layout_pos b : b ∈ L -> 0 < b /\ in_u64 b.
Proof using HL.
  intros Hb. pose proof (ly_region _ _ _ _ HL). pose proof (ly_in _ _ _ _ HL b Hb).
  pose proof (ly_size _ _ _ _ HL b Hb). unfold h_end in *. lia.
Qed.

Lemma layout_zero : 0 ∉ L.
Proof using HL. intros H. apply layout_pos in H. lia. Qed.

Lemma layout_perm L' : L ≡ₚ L' -> layout m vb cur L'.
Proof using HL.
  intros Hp. destruct HL. split; [done|by rewrite <- Hp|..]; setoid_rewrite <- Hp; done.
Qed.

Lemma layout_sub L' : NoDup L' -> (forall x, x ∈ L' -> x ∈ L) -> layout m vb cur L'.
Proof using HL. intros Hn Hs. destruct HL. split; auto. Qed.

Lemma layout_relinked m' : relinked L m m' -> layout m' vb cur L.
Proof using HL.
  intros R. pose proof (rl_size _ _ _ R) as Hz. pose proof (rl_signature _ _ _ R) as Hg.
  destruct HL. unfold h_end in *. split; [done|done|..].
  - intros b Hb. unfold h_end. rewrite Hz by done. auto.
  - intros b Hb. rewrite Hz by done. auto.
  - intros b Hb. rewrite Hg by done. auto.
  - intros a b Ha Hb Hn. unfold h_end. rewrite !Hz by done. auto.
Qed.
End Layout.

(** The neighbours of a block of a list are blocks of that list. *)
Lemma dlist_neighbours nx pv h l b :
  dlist nx pv 0 h l -> NoDup l -> b ∈ l ->
  (pv b = 0 \/ pv b ∈ l) /\ pv b <> b /\ (nx b = 0 \/ nx b ∈ l) /\ nx b <> b.
Proof.
  intros Hd Hn Hb. apply list_elem_of_split in Hb as (l1 & l2 & ->).
  destruct (dlist_middle _ _ _ _ _ _ _ Hd) as (B0 & B1 & B2 & B3 & B4).
  destruct (dlist_head _ _ _ _ _ B2) as [H1 H2].
  apply NoDup_app in Hn as (_ & N1 & N2). apply NoDup_cons in N2 as [N2 _].
  split_and!.
  - destruct l1 as [|a l1]; [left; by rewrite B1|right]. destruct B4 as [B4 _]; [done|set_solver].
  - destruct l1 as [|a l1]; [rewrite B1; done|]. destruct B4 as [B4 _]; [done|].
    intros E. apply (N1 b); [congruence|set_solver].
  - destruct (decide (nx b = 0)); [by left|right; set_solver].
  - intros E. apply N2. rewrite E in H2. apply H2. done.
Qed.

(** Removing a block from the list it is in, or from neither. *)
Lemma dlist_del nx pv nx' pv' h l b :
  dlist nx pv 0 h l -> NoDup l -> 0 ∉ l -> b <> 0 ->
  (b ∉ l -> (pv b ∉ l) /\ (nx b ∉ l)) ->
  (forall x, x ∈ l -> x <> b ->
     nx' x = (if decide (x = pv b) then nx b else nx x) /\
     pv' x = (if decide (x = nx b) then pv b else pv x)) ->
  dlist nx' pv' 0 (if b =? h then nx b else h) (del b l).
Proof.
  intros Hd Hn H0 Hb0 Hout Hf. destruct (decide (b ∈ l)) as [Hb|Hb].
  - destruct (dlist_neighbours _ _ _ _ _ Hd Hn Hb) as (P1 & P2 & P3 & P4).
    apply list_elem_of_split in Hb as (l1 & l2 & ->). rewrite del_middle by done.
    destruct (dlist_middle _ _ _ _ _ _ _ Hd) as (B0 & B1 & B2 & B3 & B4).
    apply NoDup_app in Hn as Hn'. destruct Hn' as (_ & N1 & N2). apply NoDup_cons in N2 as [N2 _].
    assert (Hx : forall x, x ∈ l1 ++ l2 -> x ∈ l1 ++ b :: l2 /\ x <> b).
    { intros x Hx. split; [set_solver|]. intros ->. apply elem_of_app in Hx as [Hx|Hx]; [|done].
      apply (N1 b); [done|set_solver]. }
    assert ((if b =? h then nx b else h) = (if decide (l1 = []) then nx b else h)) as ->.
    { case_decide as E; [rewrite (B3 E), Z.eqb_refl; done|]. btest; [|done].
      destruct (B4 E) as [_ B4']. exfalso. apply (N1 b); [congruence|set_solver]. }
    apply (dlist_remove nx pv); [done|done|done|..].
    + intros E. destruct (B4 E) as [B4' _].
      destruct (Hf (pv b)) as [-> _]; [set_solver|done|]. by rewrite decide_True.
    + intros E. destruct (dlist_head _ _ _ _ _ B2) as [_ Hi].
      destruct (Hf (nx b)) as [_ ->]; [set_solver|done|]. by rewrite decide_True.
    + intros x Hx1 Hx2. destruct (Hx x Hx1). destruct (Hf x) as [-> _]; [done|done|]. by rewrite decide_False.
    + intros x Hx1 Hx2. destruct (Hx x Hx1). destruct (Hf x) as [_ ->]; [done|done|]. by rewrite decide_False.
  - rewrite del_notin by done. destruct (Hout Hb) as [O1 O2].
    destruct (dlist_head _ _ _ _ _ Hd) as [_ Hh].
    assert ((if b =? h then nx b else h) = h) as ->.
    { btest; [|done]. subst h. exfalso. auto. }
    eapply dlist_ext; [|done]. intros x Hx. destruct (Hf x Hx) as [-> ->]; [set_solver|].
    by rewrite !decide_False by (intros ->; done).
Qed.

Section Moves.
Context (m : mem) (vb cur free busy : Z) (F B : list Z) (H : heap m vb cur free busy F B).

Lemma heap_lists :
  NoDup F /\ NoDup B /\ (forall x, x ∈ F -> x ∉ B) /\ (0 ∉ F) /\ (0 ∉ B).
Proof using H.
  pose proof (layout_zero _ _ _ _ (hp_layout _ _ _ _ _ _ _ H)) as H0.
  destruct (proj1 (NoDup_app _ _) (ly_nodup _ _ _ _ (hp_layout _ _ _ _ _ _ _ H))) as (N1 & N2 & N3).
  split_and!; [done|done|done|set_solver|set_solver].
Qed.

Lemma heap_starts : (free = 0 \/ free ∈ F) /\ (busy = 0 \/ busy ∈ B).
Proof using H.
  destruct (dlist_head _ _ _ _ _ (hp_free _ _ _ _ _ _ _ H)) as [_ H1].
  destruct (dlist_head _ _ _ _ _ (hp_busy _ _ _ _ _ _ _ H)) as [_ H2].
  split; [destruct (decide (free = 0))|destruct (decide (busy = 0))]; auto.
Qed.

(** The neighbours of a block are in the list the block is in. *)
Lemma heap_neighbours b : b ∈ F ++ B ->
  let p := h_previous m b in let n := h_next m b in
  (p = 0 \/ p ∈ F ++ B) /\ p <> b /\ (n = 0 \/ n ∈ F ++ B) /\ n <> b /\
  (b ∉ F -> (p ∉ F) /\ (n ∉ F)) /\ (b ∉ B -> (p ∉ B) /\ (n ∉ B)).
Proof using H.
  destruct heap_lists as (N1 & N2 & N3 & Z1 & Z2). intros Hb p n.
  apply elem_of_app in Hb as [Hb|Hb].
  - destruct (dlist_neighbours _ _ _ _ _ (hp_free _ _ _ _ _ _ _ H) N1 Hb) as (P1 & P2 & P3 & P4).
    fold p n in P1, P2, P3, P4.
    split_and!; [set_solver|done|set_solver|done|done|]. intros _.
    split; [destruct P1 as [-> | P1]|destruct P3 as [-> | P3]]; auto.
  - destruct (dlist_neighbours _ _ _ _ _ (hp_busy _ _ _ _ _ _ _ H) N2 Hb) as (P1 & P2 & P3 & P4).
    fold p n in P1, P2, P3, P4.
    split_and!; [set_solver|done|set_solver|done| |done]. intros _.
    split; [destruct P1 as [-> | P1]|destruct P3 as [-> | P3]]; auto; intros ?; by eapply N3.
Qed.

Lemma heap_unlink b : b ∈ F ++ B ->
  relinked (F ++ B) m (unlink m b) /\ layout (unlink m b) vb cur (F ++ B) /\
  h_next (unlink_neighbours m b) b = h_next m b /\
  dlist (h_next (unlink m b)) (h_previous (unlink m b)) 0 (if b =? free then h_next m b else free) (del b F) /\
  dlist (h_next (unlink m b)) (h_previous (unlink m b)) 0 (if b =? busy then h_next m b else busy) (del b B).
Proof using H.
  intros Hb. pose proof (hp_layout _ _ _ _ _ _ _ H) as HL.
  destruct (heap_neighbours b Hb) as (P1 & P2 & P3 & P4 & P5 & P6).
  pose proof (layout_spaced _ _ _ _ HL) as Hs. pose proof (layout_zero _ _ _ _ HL) as H0.
  pose proof (layout_pos _ _ _ _ HL b Hb) as [Hpos _].
  destruct heap_lists as (N1 & N2 & N3 & Z1 & Z2).
  destruct (unlink_fields (F ++ B) m b Hs Hb H0 P1 P2 P3 P4) as [R Hf].
  destruct (unlink_second (F ++ B) m b Hs Hb H0 P1 P2 P3 P4) as (_ & Hnx & _).
  split_and!; [done|by eapply layout_relinked|done|..].
  - apply (dlist_del (h_next m) (h_previous m)); try done; [apply H|lia|].
    intros x Hx Hxb. apply Hf; [set_solver|done].
  - apply (dlist_del (h_next m) (h_previous m)); try done; [apply H|lia|].
    intros x Hx Hxb. apply Hf; [set_solver|done].
Qed.
End Moves.

(** Pushing a block of the layout on one of two disjoint lists. *)
Lemma heap_push m vb cur L h l l' h' b m' hd :
  layout m vb cur L -> b ∈ L -> b ∉ l -> b ∉ l' -> NoDup l -> (forall x, x ∈ l -> x ∈ L) ->
  (forall x, x ∈ l' -> x ∈ L /\ (x ∉ l)) ->
  dlist (h_next m) (h_previous m) 0 h l -> dlist (h_next m) (h_previous m) 0 h' l' ->
  block_allocator_push_block m h b = (m', hd) ->
  hd = b /\ relinked L m m' /\ layout m' vb cur L /\
  dlist (h_next m') (h_previous m') 0 b (b :: l) /\ dlist (h_next m') (h_previous m') 0 h' l'.
Proof.
  intros HL Hb Hbl Hbl' Hn Hl Hl' Hd Hd' Hp.
  destruct (dlist_head _ _ _ _ _ Hd) as [_ Hh].
  pose proof (layout_pos _ _ _ _ HL b Hb) as [Hpos Hr].
  assert (h = 0 \/ h ∈ l) as Hh' by (destruct (decide (h = 0)); auto).
  destruct (push_fields L m h b m' hd) as (-> & R & P1 & P2 & P3 & P4); try done.
  - by eapply layout_spaced.
  - destruct Hh' as [->|Hh']; auto.
  - intros ->. destruct Hh' as [->|?]; [lia|done].
  - destruct Hh' as [->|Hh']; [lia|]. apply (layout_pos _ _ _ _ HL h). auto.
  - split_and!; [done|done|by eapply layout_relinked|..].
    + apply (dlist_push (h_next m) (h_previous m) _ _ h); try done; [lia|..].
      * intros x Hx. apply P4; [auto|]. intros ->; done.
      * intros x Hx Hxh. apply P4; [auto| |done]. intros ->; done.
    + eapply dlist_ext; [|done]. intros x Hx. destruct (Hl' x Hx) as [Hx1 Hx2].
      destruct (P4 x Hx1) as [-> Q]; [intros ->; done|]. split; [done|]. apply Q.
      intros ->. destruct Hh' as [->|?]; [|done]. eapply layout_zero; [exact HL|]. auto.
Qed.

(** * Splitting a block *)

Lemma dlist_insert_after nx pv nx' pv' l1 b nb l2 :
  forall prev h, dlist nx pv prev h (l1 ++ b :: l2) -> NoDup (l1 ++ b :: l2) ->
  (nb ∉ l1 ++ b :: l2) -> nb <> 0 ->
  nx' b = nb -> nx' nb = nx b -> pv' nb = b -> (nx b <> 0 -> pv' (nx b) = nb) ->
  (forall x, x ∈ l1 ++ b :: l2 -> x <> b -> nx' x = nx x) ->
  (forall x, x ∈ l1 ++ b :: l2 -> x <> nx b -> pv' x = pv x) ->
  dlist nx' pv' prev h (l1 ++ b :: nb :: l2).
Proof.
  induction l1 as [|a l1 IH]; intros prev h Hd Hnd Hnb Hn0 H1 H2 H3 H4 H5 H6; simpl in *.
  - destruct Hd as (-> & B0 & B1 & B2). apply NoDup_cons in Hnd as [Hb Hnd].
    destruct (dlist_head _ _ _ _ _ B2) as [_ Hi].
    rewrite H1. split_and!; [done|done| |done|done|done|].
    { rewrite H6; [done|set_solver|]. intros E. apply Hb. rewrite <- E in Hi. auto. }
    rewrite H2. eapply (dlist_prev nx' pv); [done|done|intros; apply H6; set_solver|].
    eapply dlist_ext; [|done]. intros x Hx. split; [|done]. apply H5; set_solver.
  - pose proof (dlist_middle _ _ _ _ (a :: l1) _ _ Hd) as (_ & _ & M2 & _ & _).
    destruct (dlist_head _ _ _ _ _ M2) as [_ Hi].
    destruct Hd as (-> & B0 & B1 & B2). apply NoDup_cons in Hnd as [Ha Hnd].
    split_and!; [done|done| |].
    { rewrite H6; [done|set_solver|]. intros ->. set_solver. }
    rewrite (H5 a) by set_solver. apply IH; try done; set_solver.
Qed.

(** The bytes of the headers. *)
Definition header_byte (L : list Z) (x : Z) : Prop := exists b, b ∈ L /\ b <= x < b + 48.

Lemma header_store L m b o v : b ∈ L -> is_field o -> changes (header_byte L) m (st64 m (b + o) v).
Proof.
  intros Hb Ho. apply changes_st64. intros x Hx. exists b. split; [done|]. unfold is_field in Ho. lia.
Qed.

Section Split.
Context (m : mem) (vb cur free busy : Z) (F B : list Z) (H : heap m vb cur free busy F B).
Context (b size : Z) (Hb : b ∈ F) (Hsz : 16 <= size) (Hal : size mod 16 = 0).
Context (Hfit : size + 64 < h_size m b).
Let nb := b + 48 + size.
Let L := F ++ B.

Lemma split_in : b ∈ L.
Proof using Hb. apply elem_of_app. by left. Qed.

Lemma split_new_apart x : x ∈ L -> x + 48 <= nb /\ x <= b \/ h_end m b <= x.
Proof using H Hb Hsz.
  intros Hx. pose proof (hp_layout _ _ _ _ _ _ _ H) as HL. unfold nb.
  destruct (decide (x = b)) as [->|Hn]; [left; lia|].
  pose proof (ly_apart _ _ _ _ HL x b Hx split_in Hn). pose proof (ly_size _ _ _ _ HL x Hx).
  unfold h_end in *. lia.
Qed.

Lemma split_nb_notin : nb ∉ L.
Proof using H Hb Hsz Hfit.
  intros Hx. pose proof (split_new_apart nb Hx). unfold h_end, nb in *. lia.
Qed.

Lemma split_spaced : spaced (nb :: L).
Proof using H Hb Hsz Hfit.
  pose proof (layout_spaced _ _ _ _ (hp_layout _ _ _ _ _ _ _ H)) as Hs.
  intros x y Hx Hy Hn. apply elem_of_cons in Hx as [->|Hx], Hy as [->|Hy]; [done|..|by apply Hs].
  - pose proof (split_new_apart y Hy). unfold h_end, nb in *. lia.
  - pose proof (split_new_apart x Hx). unfold h_end, nb in *. lia.
Qed.

(** The fields of the headers after the split. *)
Lemma split_fields :
  let m' := split_block m b size in
  h_size m' b = size /\ h_size m' nb = h_size m b - size - 48 /\
  h_signature m' nb = BLOCK_SIGNATURE /\
  h_next m' b = nb /\ h_next m' nb = h_next m b /\ h_previous m' nb = b /\
  (h_next m b <> 0 -> h_previous m' (h_next m b) = nb) /\
  (forall x, x ∈ L -> h_signature m' x = h_signature m x) /\
  (forall x, x ∈ L -> x <> b -> h_size m' x = h_size m x /\ h_next m' x = h_next m x) /\
  (forall x, x ∈ L -> x <> h_next m b -> h_previous m' x = h_previous m x) /\
  changes (header_byte (nb :: L)) m m'.
Proof using All.
  pose proof split_spaced as Hs. pose proof split_in as HbL. pose proof split_nb_notin as Hnn.
  pose proof (hp_layout _ _ _ _ _ _ _ H) as HL.
  destruct (heap_neighbours _ _ _ _ _ _ _ H b HbL) as (_ & _ & N3 & N4 & _ & _).
  pose proof (ly_in _ _ _ _ HL b HbL) as Hin. pose proof (ly_region _ _ _ _ HL) as Hreg.
  pose proof (layout_pos _ _ _ _ HL b HbL) as [Hpos Hbr]. unfold h_end in Hin.
  assert (nb ∈ nb :: L /\ b ∈ nb :: L) as [I1 I2] by set_solver.
  assert (Hsub : forall x, x ∈ L -> x ∈ nb :: L) by set_solver.
  assert (h_next m b = 0 \/ h_next m b ∈ nb :: L) as I3 by (destruct N3; set_solver).
  assert (nb <> b) as Hnb by (unfold nb; lia).
  assert (h_next m b <> nb) as Hnnb by (intros E; rewrite E in N3; destruct N3; [unfold nb in *; lia|done]).
  pose proof (ld64_range m (b + off_next)) as Rn. fold (h_next m b) in Rn.
  intros m'. unfold m', split_block. rewrite Z.gtb_ltb.
  unfold BLOCK_MINIMUM_ALLOCATION, sizeof_block_header in *. rewrite !(u64_small (size + 48)) by lia.
  rewrite (u64_small (size + 48 + 16)) by lia. rewrite (proj2 (Z.ltb_lt _ _)) by lia.
  set (m1 := st64 m (b + off_size) size).
  assert (h_size m1 b = size) as -> by (unfold m1, h_size; rewrite ld64_st64; apply u64_small; lia).
  rewrite (u64_small (b + 48)), (u64_small (b + 48 + size)) by lia. fold nb.
  rewrite (u64_small (h_size m b - size)), (u64_small (h_size m b - size - 48)) by lia.
  set (m2 := st64 m1 (nb + off_size) (h_size m b - size - 48)).
  assert (h_next m2 b = h_next m b) as ->.
  { unfold m2, m1. fields (nb :: L). rewrite !decide_False; [done|offsets; lia..]. }
  set (m5 := st64 (st64 (st64 m2 (nb + off_next) (h_next m b)) (nb + off_previous) b)
               (nb + off_signature) BLOCK_SIGNATURE).
  assert (h_next m5 nb = h_next m b) as ->.
  { unfold m5. fields (nb :: L). field_cases. by apply u64_small. }
  assert (changes (header_byte (nb :: L)) m m5) as C5.
  { unfold m5, m2, m1. do 5 (eapply changes_trans; [|apply header_store; [|auto with gaos]; eassumption]).
    apply changes_refl. }
  assert (u64 size = size /\ u64 (h_size m b - size - 48) = h_size m b - size - 48 /\ u64 nb = nb)
    as (U1 & U2 & U3) by (split_and!; apply u64_small; unfold nb; lia).
  destruct (Z.eqb_spec (h_next m b) 0) as [E|E].
  - split_and!; intros; lazymatch goal with
    | |- changes _ _ _ => eapply changes_trans; [exact C5|apply header_store; auto with gaos]
    | _ => unfold m5, m2, m1; fields (nb :: L); field_cases; first [done|by apply u64_small]
    end.
  - destruct I3 as [I3|I3]; [done|]. split_and!; intros; lazymatch goal with
    | |- changes _ _ _ =>
        do 2 (eapply changes_trans; [|apply header_store; [|auto with gaos]; eassumption]); exact C5
    | _ => unfold m5, m2, m1; fields (nb :: L); field_cases; first [done|by apply u64_small]
    end.
Qed.

Lemma split_layout : layout (split_block m b size) vb cur (nb :: L).
Proof using All.
  destruct split_fields as (S1 & S2 & S3 & _ & _ & _ & _ & S8 & S9 & _ & _).
  set (m' := split_block m b size) in *. pose proof (hp_layout _ _ _ _ _ _ _ H) as HL.
  pose proof split_in as HbL. pose proof split_nb_notin as Hnn.
  pose proof (ly_in _ _ _ _ HL b HbL) as Hin. pose proof (ly_size _ _ _ _ HL b HbL) as Hbs.
  assert (He : forall x, x ∈ L -> x <> b -> h_end m' x = h_end m x).
  { intros x Hx Hn. unfold h_end. by rewrite (proj1 (S9 x Hx Hn)). }
  assert (h_end m' b = nb /\ h_end m' nb = h_end m b) as [E1 E2] by (unfold h_end; rewrite S1, S2; unfold nb; lia).
  assert (Hap : forall x, x ∈ L -> h_end m' x <= nb \/ h_end m b <= x).
  { intros x Hx. destruct (decide (x = b)) as [->|Hn]; [lia|]. rewrite He by done.
    pose proof (ly_apart _ _ _ _ HL x b Hx HbL Hn). unfold nb. lia. }
  split; [apply HL| | | | |].
  - apply NoDup_cons. split; [done|apply HL].
  - intros x [->|Hx]%elem_of_cons; [unfold nb in *; lia|].
    destruct (decide (x = b)) as [->|Hn]; [unfold nb, h_end in *; lia|]. rewrite He by done. by apply (ly_in _ _ _ _ HL).
  - intros x [->|Hx]%elem_of_cons; [rewrite S2; unfold nb; split_and!; zlia|].
    pose proof (ly_size _ _ _ _ HL x Hx).
    destruct (decide (x = b)) as [->|Hn]; [rewrite S1; lia|]. by rewrite (proj1 (S9 x Hx Hn)).
  - intros x [->|Hx]%elem_of_cons; [done|]. rewrite S8 by done. by apply (ly_signature _ _ _ _ HL).
  - intros x y [->|Hx]%elem_of_cons [->|Hy]%elem_of_cons Hn; [done|..].
    + rewrite E2. destruct (Hap y Hy); auto.
    + rewrite E2. destruct (Hap x Hx); auto.
    + pose proof (ly_apart _ _ _ _ HL x y Hx Hy Hn). unfold nb in *.
      destruct (decide (x = b)) as [->|Hx']; destruct (decide (y = b)) as [->|Hy']; try done;
        rewrite ?E1, ?He by done; unfold h_end in *; lia.
Qed.

Lemma split_heap : exists F', heap (split_block m b size) vb cur free busy F' B /\
  (forall x, x ∈ F' <-> x = nb \/ x ∈ F).
Proof using All.
  destruct split_fields as (S1 & S2 & S3 & S4 & S5 & S6 & S7 & S8 & S9 & S10 & _).
  pose proof split_layout as HL'. set (m' := split_block m b size) in *.
  pose proof split_in as HbL. pose proof split_nb_notin as Hnn.
  destruct (heap_lists _ _ _ _ _ _ _ H) as (N1 & N2 & N3 & Z1 & Z2).
  destruct (heap_neighbours _ _ _ _ _ _ _ H b HbL) as (_ & _ & _ & _ & _ & O6).
  pose proof (layout_pos _ _ _ _ HL' nb ltac:(set_solver)) as [Hnpos _].
  apply list_elem_of_split in Hb as Hs. destruct Hs as (l1 & l2 & EF).
  exists (l1 ++ b :: nb :: l2). split; [split|].
  - eapply layout_perm; [exact HL'|]. unfold L. rewrite EF, <- !app_assoc. simpl.
    by rewrite <- !Permutation_middle, (Permutation_swap nb b).
  - apply (dlist_insert_after (h_next m) (h_previous m)); rewrite <- ?EF; try done.
    + apply H.
    + unfold L in Hnn. set_solver.
    + lia.
    + intros x Hx Hn. apply S9; [set_solver|done].
    + intros x Hx Hn. apply S10; [set_solver|done].
  - eapply dlist_ext; [|apply H]. intros x Hx. split.
    + apply S9; [set_solver|]. intros ->. by apply (N3 b).
    + apply S10; [set_solver|]. intros ->. destruct O6 as [_ O6]; [by apply N3|done].
  - intros x. rewrite EF. set_solver.
Qed.
End Split.

(** The contents of a block hold no header. *)
Lemma layout_content m vb cur L x a :
  layout m vb cur L -> x ∈ L -> x + 48 <= a < h_end m x -> ~ header_byte L a.
Proof.
  intros HL Hx Ha (y & Hy & Hay). destruct (decide (x = y)) as [->|Hn]; [lia|].
  pose proof (ly_apart _ _ _ _ HL x y Hx Hy Hn). pose proof (ly_size _ _ _ _ HL y Hy).
  unfold h_end in *. lia.
Qed.

Lemma link_header L a : link_byte L a -> header_byte L a.
Proof. intros (b & Hb & Ha). exists b. split; [done|lia]. Qed.

(** [split_block], whether it cuts the block or not. *)
Lemma split_any m vb cur free busy F B b size :
  heap m vb cur free busy F B -> b ∈ F -> 16 <= size -> size mod 16 = 0 -> size <= h_size m b ->
  size + 64 < 18446744073709551616 ->
  exists F', heap (split_block m b size) vb cur free busy F' B /\
    (forall x, x ∈ F -> x ∈ F') /\ size <= h_size (split_block m b size) b /\
    h_end (split_block m b size) b <= h_end m b /\
    (forall x, x ∈ B -> h_size (split_block m b size) x = h_size m x) /\
    changes (header_byte (F' ++ B)) m (split_block m b size).
Proof.
  intros H Hb Hs Ha Hfit Hr. destruct (decide (size + 64 < h_size m b)) as [Hlt|Hge].
  - destruct (split_heap m vb cur free busy F B H b size Hb Hs Ha Hlt) as (F' & HF' & Hel).
    destruct (split_fields m vb cur free busy F B H b size Hb Hs Ha Hlt)
      as (S1 & _ & _ & _ & _ & _ & _ & _ & S9 & _ & SC).
    destruct (heap_lists _ _ _ _ _ _ _ H) as (N1 & N2 & N3 & Z1 & Z2).
    exists F'. split_and!; [done|intros; apply Hel; by right|lia|unfold h_end; lia| |].
    + intros x Hx. apply S9; [set_solver|]. intros ->. by apply (N3 b).
    + eapply changes_mono; [|exact SC]. intros x (y & Hy & Hxy). exists y. split; [|done].
      apply elem_of_cons in Hy as [->|Hy]; [|set_solver].
      apply elem_of_app. left. apply Hel. by left.
  - assert (split_block m b size = m) as ->.
    { unfold split_block, sizeof_block_header, BLOCK_MINIMUM_ALLOCATION. rewrite Z.gtb_ltb.
      rewrite (u64_small (size + 48)), (u64_small (size + 48 + 16)) by lia.
      rewrite (proj2 (Z.ltb_ge _ _)) by lia. done. }
    exists F. split_and!; done.
Qed.

(** * A larger region *)

(** Changes outside the headers leave the heap as it is. *)
Lemma heap_frame (P : Z -> Prop) m m' vb cur free busy F B :
  changes P m m' -> (forall a, header_byte (F ++ B) a -> ~ P a) ->
  heap m vb cur free busy F B -> heap m' vb cur free busy F B.
Proof.
  intros Hc HP H.
  assert (Hf : forall x o, x ∈ F ++ B -> is_field o -> ld64 m' (x + o) = ld64 m (x + o)).
  { intros x o Hx Ho. apply (changes_ld64 _ _ _ _ Hc). intros a Ha. apply HP. exists x.
    split; [done|]. unfold is_field in Ho. lia. }
  destruct H as [HL HF HB]. split.
  - destruct HL as [L1 L2 L3 L4 L5 L6]. unfold h_end, h_size, h_signature in *.
    split; [done|done|..]; unfold h_end, h_size, h_signature; intros; rewrite ?Hf by auto with gaos; auto.
  - eapply dlist_ext; [|done]. intros x Hx. split; apply Hf; auto with gaos; set_solver.
  - eapply dlist_ext; [|done]. intros x Hx. split; apply Hf; auto with gaos; set_solver.
Qed.

Lemma heap_header_byte m vb cur free busy F B a :
  heap m vb cur free busy F B -> header_byte (F ++ B) a -> vb <= a < cur.
Proof.
  intros [HL _ _] (x & Hx & Ha). pose proof (ly_in _ _ _ _ HL x Hx). pose proof (ly_size _ _ _ _ HL x Hx).
  unfold h_end in *. lia.
Qed.

Lemma init_fields m b size : in_u64 size ->
  let m' := init_header m b size in
  h_signature m' b = BLOCK_SIGNATURE /\ h_size m' b = size /\ h_next m' b = 0 /\ h_previous m' b = 0 /\
  changes (fun a => b <= a < b + 48) m m'.
Proof.
  intros Hr m'. assert (spaced [b]) as Hs by (intros x y ->%list_elem_of_singleton ->%list_elem_of_singleton; done).
  assert (b ∈ [b]) by set_solver. unfold m', init_header. split_and!.
  1-4: fields [b]; field_cases; first [done|by apply u64_small].
  offsets. do 4 (eapply changes_trans; [|apply changes_st64; intros; lia]). apply changes_refl.
Qed.

(** A new block at the end of the region becomes the first free block. *)
Lemma heap_extend m vb cur cur' free busy F B size :
  heap m vb cur free busy F B ->
  cur' = cur + 48 + size -> cur' < 18446744073709551616 -> 16 <= size -> size mod 16 = 0 -> cur mod 16 = 0 ->
  let m1 := init_header m cur size in
  let '(m2, hd) := if free =? 0 then (m1, cur) else block_allocator_push_block m1 free cur in
  hd = cur /\ heap m2 vb cur' cur busy (cur :: F) B /\
  changes (header_byte ((cur :: F) ++ B)) m m2 /\
  h_size m2 cur = size /\ (forall x, x ∈ B -> h_size m2 x = h_size m x).
Proof.
  intros H Hcur Hlt Hs Ha Hca m1.
  pose proof (ly_region _ _ _ _ (hp_layout _ _ _ _ _ _ _ H)) as Hreg.
  destruct (init_fields m cur size ltac:(lia)) as (I1 & I2 & I3 & I4 & I5).
  change (init_header m cur size) with m1 in I1, I2, I3, I4, I5.
  assert (heap m1 vb cur free busy F B) as H1.
  { eapply (heap_frame _ m); [exact I5| |done]. intros a Hh Hx. pose proof (heap_header_byte _ _ _ _ _ _ _ _ H Hh). cbn beta in Hx. lia. }
  pose proof (hp_layout _ _ _ _ _ _ _ H1) as HL.
  assert (Hout : forall x, x ∈ F ++ B -> h_end m1 x <= cur /\ x < cur).
  { intros x Hx. pose proof (ly_in _ _ _ _ HL x Hx). pose proof (ly_size _ _ _ _ HL x Hx). unfold h_end in *. lia. }
  assert (cur ∉ F ++ B) as Hnin by (intros Hx; apply Hout in Hx; lia).
  assert (layout m1 vb cur' (cur :: F ++ B)) as HL'.
  { split; [lia|apply NoDup_cons; split; [done|apply HL]|..].
    - intros x [->|Hx]%elem_of_cons; [unfold h_end; rewrite I2; lia|]. pose proof (ly_in _ _ _ _ HL x Hx). lia.
    - intros x [->|Hx]%elem_of_cons; [rewrite I2; done|]. by apply (ly_size _ _ _ _ HL).
    - intros x [->|Hx]%elem_of_cons; [done|]. by apply (ly_signature _ _ _ _ HL).
    - intros x y [->|Hx]%elem_of_cons [->|Hy]%elem_of_cons Hn; [done|..|by apply (ly_apart _ _ _ _ HL)].
      + right. apply Hout. done.
      + left. apply Hout. done. }
  destruct (heap_lists _ _ _ _ _ _ _ H1) as (N1 & N2 & N3 & Z1 & Z2).
  assert (Hsz : forall x, x ∈ B -> h_size m1 x = h_size m x).
  { intros x Hx. apply (changes_ld64 _ _ _ _ I5). intros a Ha' Hx'. cbn beta in Hx'. unfold off_size in Ha'.
    assert (header_byte (F ++ B) a) as Hh by (exists x; split; [set_solver|lia]).
    pose proof (heap_header_byte _ _ _ _ _ _ _ a H Hh). lia. }
  assert (changes (header_byte (cur :: F ++ B)) m m1) as C1.
  { eapply changes_mono; [|exact I5]. intros a Ha'. exists cur. cbn beta in Ha'. split; [set_solver|lia]. }
  destruct (Z.eqb_spec free 0) as [->|Hf0].
  - destruct F as [|f F].
    2:{ destruct (hp_free _ _ _ _ _ _ _ H1) as (<- & E & _). by destruct E. }
    split_and!; try done. split; [done|by simpl; split_and!; [|lia|..]|apply H1].
  - destruct (block_allocator_push_block m1 free cur) as [m2 hd] eqn:Ep.
    eapply (heap_push m1 vb cur' _ free F B busy) in Ep as (-> & R & HL2 & D1 & D2);
      [|exact HL'|set_solver|set_solver|set_solver|done|set_solver|set_solver|apply H1|apply H1].
    split_and!; [done|by split| |by rewrite (rl_size _ _ _ R) by set_solver|].
    + eapply changes_trans; [exact C1|]. eapply changes_mono; [|apply R]. apply link_header.
    + intros x Hx. rewrite (rl_size _ _ _ R) by set_solver. auto.
Qed.
