(* ===== verification/BlockAllocatorSpec.v ===== *)
(** The block allocator, continued: the invariant of its state, the specification
    of [block_allocate] and [block_deallocate], and its properties. *)

From S2P Require Import Prelude Memory Libc Spinlock PageAllocator PageAllocatorSpec PageTable BlockAllocator.

(** * The state invariant *)

Lemma page_round_up_aligned x :
  x mod PAGE = 0 -> 0 <= x -> x + PAGE <= 18446744073709551616 -> page_round_up x = x.
Proof.
  intros Ha H0 Hr. unfold page_round_up. rewrite u64_small by (unfold PAGE in *; lia).
  change (PAGE - 1) with (Z.ones 12). rewrite <- Z.ldiff_land, Z.ldiff_ones_r by lia.
  rewrite Z.shiftr_div_pow2, Z.shiftl_mul_pow2 by lia. unfold PAGE in *. change (2 ^ 12) with 4096.
  change (Z.ones 12) with 4095. zlia.
Qed.

Lemma round_size_spec size :
  0 <= size -> size + 16 < 18446744073709551616 ->
  size <= block_round_size size < size + 32 /\ 16 <= block_round_size size /\
  block_round_size size mod 16 = 0.
Proof.
  intros H0 Hr. unfold block_round_size, BLOCK_MINIMUM_ALLOCATION.
  set (x := if size <? 16 then 16 else size). assert (16 <= x /\ size <= x < size + 17 /\ (x = 16 \/ x = size)) as Hx
    by (unfold x; btest; lia).
  destruct (Z.eqb_spec (x mod 16) 0); [zlia|].
  rewrite u64_small by zlia. destruct Hx as (Hx1 & Hx2 & [E | E]); rewrite E in *; zlia.
Qed.

(** * Finding a block *)

Lemma find_block_spec m size prev h l fuel :
  dlist (h_next m) (h_previous m) prev h l -> (length l <= fuel)%nat ->
  exists c, find_block m h size fuel = Done c /\ (c <> 0 -> c ∈ l /\ size <= h_size m c).
Proof.
  revert prev h fuel. induction l as [|b l IH]; intros prev h fuel; simpl.
  - intros -> _. exists 0. split; [by destruct fuel|done].
  - intros (-> & H0 & H1 & H2) Hf. destruct fuel as [|fuel]; [lia|]. cbn [find_block].
    rewrite (proj2 (Z.eqb_neq b 0)) by done. destruct (Z.ltb_spec (h_size m b) size); simpl.
    + destruct (IH b (h_next m b) fuel H2 ltac:(lia)) as (c & -> & Hc). exists c.
      split; [done|]. intros Hn. destruct (Hc Hn). set_solver.
    + exists b. split; [done|]. intros _. split; [set_solver|done].
Qed.

(** Distinct blocks of the region are not more than its bytes. *)
Lemma region_length m vb cur free busy F B :
  heap m vb cur free busy F B -> (length F <= Z.to_nat (cur - vb))%nat.
Proof.
  intros H. destruct (heap_lists _ _ _ _ _ _ _ H) as (N1 & _).
  rewrite <- (length_seqZ vb (cur - vb)). apply submseteq_length, NoDup_submseteq; [done|].
  intros x Hx. apply elem_of_seqZ. pose proof (hp_layout _ _ _ _ _ _ _ H) as HL.
  pose proof (ly_in _ _ _ _ HL x ltac:(set_solver)). pose proof (ly_size _ _ _ _ HL x ltac:(set_solver)).
  unfold h_end in *. lia.
Qed.

(** The pages a block of [size] bytes needs when no free block fits. *)
Definition block_pages (size : Z) : Z := (block_round_size size + 48 + 4095) / PAGE.

Section State.
Context (hhdm table : Z) {St : Type} `{!PageSource St} `{!PageSourceLaws hhdm St}.
Implicit Types s : ba_state St.

Record ba_wf s (F B : list Z) : Prop := {
  bw_ok : src_ok (ba_src s);
  bw_below : src_below (block_allocator_virtual_base s) (ba_src s);
  bw_table : exists t, table_view hhdm (ba_src s) table t;
  bw_align : block_allocator_current_virtual_address s mod PAGE = 0;
  bw_heap : heap (ba_mem s) (block_allocator_virtual_base s)
              (block_allocator_current_virtual_address s)
              (block_free_list_start s) (block_busy_list_start s) F B
}.

(** The region can grow by [pages] pages. *)
Definition room s (pages : Z) : Prop :=
  block_allocator_current_virtual_address s + pages * PAGE + PAGE <= 18446744073709551616 /\
  page_number (block_allocator_current_virtual_address s) + pages <= 68719476736 - 512.

(** Pages that were handed out stay handed out. *)
Definition keeps s s' : Prop := forall a, src_owned (ba_src s) a -> src_owned (ba_src s') a.

Lemma ba_mem_set s m : ba_mem (set_ba_mem s m) = m.
Proof using PageSourceLaws0. apply law_with_mem. Qed.

Lemma ba_mem_lists s m free busy : ba_mem (set_lists s m free busy) = m.
Proof using PageSourceLaws0. apply law_with_mem. Qed.

Lemma src_above s m :
  hhdm_ok hhdm -> src_ok (ba_src s) -> src_below (block_allocator_virtual_base s) (ba_src s) ->
  (exists t, table_view hhdm (ba_src s) table t) ->
  changes (fun a => block_allocator_virtual_base s <= a) (ba_mem s) m ->
  src_ok (src_with_mem (ba_src s) m) /\
  src_below (block_allocator_virtual_base s) (src_with_mem (ba_src s) m) /\
  (exists t, table_view hhdm (src_with_mem (ba_src s) m) table t) /\
  (forall a, src_owned (src_with_mem (ba_src s) m) a <-> src_owned (ba_src s) a).
Proof using PageSourceLaws0.
  intros Hh Hok Hb [t Ht] Hc.
  destruct (law_write (ba_src s) _ m Hok Hb) as [H1 H2]; [eapply changes_mono; [|done]; by right|].
  split_and!; [done|by apply law_below_write| |done]. exists t. by eapply table_view_above.
Qed.

(** The lists and the memory of the region change; everything else stays. *)
Lemma ba_wf_lists s F B m free busy F' B' :
  hhdm_ok hhdm -> ba_wf s F B ->
  changes (fun a => block_allocator_virtual_base s <= a) (ba_mem s) m ->
  heap m (block_allocator_virtual_base s) (block_allocator_current_virtual_address s) free busy F' B' ->
  ba_wf (set_lists s m free busy) F' B'.
Proof using PageSourceLaws0.
  intros Hh [W2 W3 W4 W5 W6] Hc H.
  destruct (src_above s m Hh W2 W3 W4 Hc) as (S1 & S2 & S3 & _). split; try done.
  unfold ba_mem; simpl. by rewrite law_with_mem.
Qed.

Lemma header_above s F B a : ba_wf s F B -> header_byte (F ++ B) a ->
  block_allocator_virtual_base s <= a.
Proof using. intros W Ha. by apply (heap_header_byte _ _ _ _ _ _ _ _ (bw_heap _ _ _ W) Ha). Qed.

Lemma keeps_above s s' F B :
  hhdm_ok hhdm -> ba_wf s F B -> ba_src s' = src_with_mem (ba_src s) (ba_mem s') ->
  changes (fun a => block_allocator_virtual_base s <= a) (ba_mem s) (ba_mem s') -> keeps s s'.
Proof using PageSourceLaws0.
  intros Hh W E Hc a Ha. rewrite E. by apply (src_above s (ba_mem s') Hh (bw_ok _ _ _ W) (bw_below _ _ _ W) (bw_table _ _ _ W) Hc).
Qed.

Lemma move_to_busy_src s b :
  ba_src (block_allocator_move_to_busy_list b s) =
  src_with_mem (ba_src s) (ba_mem (block_allocator_move_to_busy_list b s)).
Proof using PageSourceLaws0.
  unfold block_allocator_move_to_busy_list. cbv zeta.
  destruct (block_allocator_push_block _ _ b) as [m hd]. rewrite ba_mem_lists. simpl. apply law_with_twice.
Qed.

(** ** Moving a block *)

Lemma relinked_above s F B m : ba_wf s F B -> relinked (F ++ B) (ba_mem s) m ->
  changes (fun a => block_allocator_virtual_base s <= a) (ba_mem s) m.
Proof using.
  intros W R. eapply changes_mono; [|apply R]. intros a Ha. eapply header_above; [done|]. by apply link_header.
Qed.

Lemma remove_spec s F B b :
  hhdm_ok hhdm -> ba_wf s F B -> b ∈ F ++ B ->
  let s' := block_allocator_remove_block_from_list b s in
  ba_wf s' (del b F) (del b B) /\ relinked (F ++ B) (ba_mem s) (ba_mem s') /\
  layout (ba_mem s') (block_allocator_virtual_base s) (block_allocator_current_virtual_address s) (F ++ B).
Proof using PageSourceLaws0.
  intros Hh W Hb s'. pose proof (bw_heap _ _ _ W) as H.
  destruct (heap_unlink _ _ _ _ _ _ _ H b Hb) as (R1 & L1 & Hnx & D1 & D2).
  destruct (heap_lists _ _ _ _ _ _ _ H) as (N1 & N2 & N3 & Z1 & Z2).
  change s' with (set_lists s (unlink (ba_mem s) b)
      (if b =? block_free_list_start s then h_next (unlink_neighbours (ba_mem s) b) b else block_free_list_start s)
      (if b =? block_busy_list_start s then h_next (unlink_neighbours (ba_mem s) b) b else block_busy_list_start s)).
  rewrite Hnx, ba_mem_lists. split_and!; [|done|done].
  apply (ba_wf_lists s F B); [done|done|by eapply relinked_above|]. split; [|done|done].
  eapply layout_sub; [exact L1|..].
  - apply NoDup_app. split_and!; [by apply NoDup_del| |by apply NoDup_del].
    intros x [Hx1 _]%elem_of_del [Hx2 _]%elem_of_del. by apply (N3 x).
  - intros x. rewrite elem_of_app, !elem_of_del. set_solver.
Qed.

(** The second half of a move: the block goes in front of [l]. *)
Lemma push_back s F B b (h : Z) (l l' : list Z) h' :
  ba_wf s (del b F) (del b B) -> NoDup (F ++ B) -> b ∈ F ++ B ->
  layout (ba_mem s) (block_allocator_virtual_base s) (block_allocator_current_virtual_address s) (F ++ B) ->
  (l = del b F /\ l' = del b B) \/ (l = del b B /\ l' = del b F) ->
  dlist (h_next (ba_mem s)) (h_previous (ba_mem s)) 0 h l ->
  dlist (h_next (ba_mem s)) (h_previous (ba_mem s)) 0 h' l' ->
  let '(m, hd) := block_allocator_push_block (ba_mem s) h b in
  hd = b /\ relinked (F ++ B) (ba_mem s) m /\
  dlist (h_next m) (h_previous m) 0 b (b :: l) /\ dlist (h_next m) (h_previous m) 0 h' l' /\
  layout m (block_allocator_virtual_base s) (block_allocator_current_virtual_address s) (F ++ B).
Proof using PageSourceLaws0.
  intros W Hn Hb HL Hll D1 D2. apply NoDup_app in Hn as (N1 & N3 & N2).
  destruct (block_allocator_push_block (ba_mem s) h b) as [m hd] eqn:Ep.
  assert ((b ∉ l) /\ (b ∉ l') /\ NoDup l /\ (forall x, x ∈ l -> x ∈ F ++ B) /\
    (forall x, x ∈ l' -> x ∈ F ++ B /\ (x ∉ l))) as (A1 & A2 & A3 & A4 & A5).
  { destruct Hll as [[-> ->]|[-> ->]]; split_and!;
      [rewrite elem_of_del; tauto|rewrite elem_of_del; tauto|by apply NoDup_del|
       intros x [Hx _]%elem_of_del; set_solver|
       intros x [Hx _]%elem_of_del; split; [set_solver|intros [Hy _]%elem_of_del; by apply (N3 x)]
      |rewrite elem_of_del; tauto|rewrite elem_of_del; tauto|by apply NoDup_del|
       intros x [Hx _]%elem_of_del; set_solver|
       intros x [Hx _]%elem_of_del; split; [set_solver|intros [Hy _]%elem_of_del; by apply (N3 x)]]. }
  destruct (heap_push _ _ _ (F ++ B) h l l' h' b m hd HL Hb A1 A2 A3 A4 A5 D1 D2 Ep)
    as (-> & R2 & L2 & E1 & E2). by split_and!.
Qed.

Lemma move_to_free_spec s F B b :
  hhdm_ok hhdm -> ba_wf s F B -> b ∈ F ++ B ->
  let s' := block_allocator_move_to_free_list b s in
  ba_wf s' (b :: del b F) (del b B) /\ relinked (F ++ B) (ba_mem s) (ba_mem s').
Proof using PageSourceLaws0.
  intros Hh W Hb s'. pose proof (ly_nodup _ _ _ _ (hp_layout _ _ _ _ _ _ _ (bw_heap _ _ _ W))) as Hn.
  destruct (remove_spec s F B b Hh W Hb) as (W1 & R1 & L1).
  unfold s', block_allocator_move_to_free_list. cbv zeta.
  set (s1 := block_allocator_remove_block_from_list b s) in *.
  pose proof (push_back s1 F B b (block_free_list_start s1) (del b F) (del b B)
    (block_busy_list_start s1) W1 Hn Hb L1) as Hp.
  destruct (block_allocator_push_block (ba_mem s1) (block_free_list_start s1) b) as [m' hd].
  destruct Hp as (-> & R2 & E1 & E2 & L2); [by left|apply (bw_heap _ _ _ W1)..|].
  rewrite ba_mem_lists. split; [|by eapply relinked_trans].
  apply (ba_wf_lists s1 (del b F) (del b B)); [done|done| |].
  - eapply changes_mono; [|apply R2]. intros a Ha. change (block_allocator_virtual_base s1) with (block_allocator_virtual_base s).
    apply (header_above s F B); [done|]. by apply link_header.
  - split; [|done|done]. eapply layout_perm; [exact L2|]. simpl.
    rewrite <- (del_perm b (F ++ B)) by done. unfold del. by rewrite filter_app.
Qed.

Lemma move_to_busy_spec s F B b :
  hhdm_ok hhdm -> ba_wf s F B -> b ∈ F ++ B ->
  let s' := block_allocator_move_to_busy_list b s in
  ba_wf s' (del b F) (b :: del b B) /\ relinked (F ++ B) (ba_mem s) (ba_mem s').
Proof using PageSourceLaws0.
  intros Hh W Hb s'. pose proof (ly_nodup _ _ _ _ (hp_layout _ _ _ _ _ _ _ (bw_heap _ _ _ W))) as Hn.
  destruct (remove_spec s F B b Hh W Hb) as (W1 & R1 & L1).
  unfold s', block_allocator_move_to_busy_list. cbv zeta.
  set (s1 := block_allocator_remove_block_from_list b s) in *.
  pose proof (push_back s1 F B b (block_busy_list_start s1) (del b B) (del b F)
    (block_free_list_start s1) W1 Hn Hb L1) as Hp.
  destruct (block_allocator_push_block (ba_mem s1) (block_busy_list_start s1) b) as [m' hd].
  destruct Hp as (-> & R2 & E1 & E2 & L2); [by right|apply (bw_heap _ _ _ W1)..|].
  rewrite ba_mem_lists. split; [|by eapply relinked_trans].
  apply (ba_wf_lists s1 (del b F) (del b B)); [done|done| |].
  - eapply changes_mono; [|apply R2]. intros a Ha. change (block_allocator_virtual_base s1) with (block_allocator_virtual_base s).
    apply (header_above s F B); [done|]. by apply link_header.
  - split; [|done|done]. eapply layout_perm; [exact L2|]. rewrite <- Permutation_middle.
    rewrite <- (del_perm b (F ++ B)) by done. unfold del. by rewrite filter_app.
Qed.

(** ** Growing the region *)

Lemma allocated_range_ok s src p pages :
  hhdm_ok hhdm -> src_ok (ba_src s) -> room s pages -> 1 <= pages ->
  src_page_allocate pages (ba_src s) = Done (p, src) ->
  in_u64 (pages * PAGE) ->
  range_ok (block_allocator_current_virtual_address s) (p -w hhdm) pages.
Proof using PageSourceLaws0.
  intros (Hh1 & Hh2 & Hh3) Hok [_ Hroom] Hp Ha Hr.
  destruct (law_alloc _ _ _ _ Hok Hp Hr Ha) as (Hok' & _ & Hown & _).
  assert (src_owned src p) as O1 by (apply Hown; right; exists 0; lia).
  assert (src_owned src (p + (pages - 1) * PAGE)) as O2 by (apply Hown; right; exists (pages - 1); lia).
  pose proof (law_range _ _ Hok' O1) as (A1 & A2 & A3).
  pose proof (law_range _ _ Hok' O2) as (B1 & B2 & B3).
  rewrite u64_small by (unfold PAGE in *; lia). unfold PAGE in *. unfold range_ok, PAGE.
  split_and!; [lia|lia|zlia|lia|lia].
Qed.

(** The bytes that allocating may touch besides the region: the page source's. *)
Definition grow_byte s (L : list Z) (a : Z) : Prop :=
  a < block_allocator_virtual_base s \/ header_byte L a.

(** The pages behind the new part of the region, mapped and with a header. *)
Lemma allocate_block_spec s F B pages :
  hhdm_ok hhdm -> ba_wf s F B -> room s pages -> 1 <= pages ->
  let vb := block_allocator_virtual_base s in
  let cur := block_allocator_current_virtual_address s in
  block_allocator_allocate_block hhdm table pages s = Panicked \/
  exists src, block_allocator_allocate_block hhdm table pages s =
      Done (cur, BA src (block_free_list_start s) (block_busy_list_start s) vb
                   (cur + pages * PAGE) (block_allocator_lock s)) /\
    src_ok src /\ src_below vb src /\ (exists t, table_view hhdm src table t) /\
    (forall a, src_owned (ba_src s) a -> src_owned src a) /\
    changes (fun a => a < vb \/ cur <= a < cur + 48) (ba_mem s) (src_mem src).
Proof using PageSourceLaws0.
  intros Hh W Hroom Hp vb cur. pose proof (bw_heap _ _ _ W) as H. destruct (bw_table _ _ _ W) as [t Ht].
  pose proof (ly_region _ _ _ _ (hp_layout _ _ _ _ _ _ _ H)) as Hreg. fold vb cur in Hreg.
  pose proof Hroom as [Hr1 _]. fold cur in Hr1.
  assert (in_u64 (pages * PAGE)) as Hr by (unfold PAGE in *; lia).
  unfold block_allocator_allocate_block.
  destruct (law_outcome (ba_src s) pages (bw_ok _ _ _ W) Hp Hr) as [->|(p & s1 & Ha)]; [by left|].
  pose proof (allocated_range_ok s s1 p pages Hh (bw_ok _ _ _ W) Hroom Hp Ha Hr) as Hrange.
  destruct (law_below _ _ _ _ _ (bw_ok _ _ _ W) (bw_below _ _ _ W) Hp Hr Ha) as [B1 C1].
  destruct (law_alloc _ _ _ _ (bw_ok _ _ _ W) Hp Hr Ha) as (_ & _ & Own1 & _).
  pose proof (table_view_alloc hhdm _ _ _ _ table t Hh Hp Hr Ha Ht) as Ht1.
  rewrite Ha. cbn [mbind outcome_bind]. cbn beta iota. fold cur.
  rewrite (page_round_up_aligned cur) by (apply W || lia || (unfold PAGE in *; lia)).
  destruct (map_range_view hhdm table cur (p -w hhdm) TABLE_ENTRY_READ_WRITE pages s1 t Hh Hrange)
    as [->|(s2 & -> & Ht2 & Wi)]; [unfold TABLE_ENTRY_READ_WRITE; lia|done|by left|]. right.
  destruct Wi as [Wi Wo]. destruct (Wi _ B1) as [B2 C2].
  assert (src_ok s2) as Ok2 by (destruct Ht2 as [[lev Hwf] _]; apply Hwf).
  cbn [mbind outcome_bind]. cbn beta iota. rewrite !(u64_small (pages * PAGE)), (u64_small (cur + _)) by (unfold PAGE in *; lia).
  unfold sizeof_block_header. set (m3 := init_header _ _ _).
  assert (changes (fun a => cur <= a < cur + 48) (src_mem s2) m3) as C3.
  { apply init_fields. pose proof (u64_range (pages * PAGE - 48)). lia. }
  exists (src_with_mem s2 m3). split; [done|].
  destruct (src_above (BA s2 0 0 vb 0 false) m3 Hh Ok2 B2 ltac:(by eexists)) as (S1 & S2 & S3 & S4).
  { eapply changes_mono; [|exact C3]. intros a Ha'. simpl in *. lia. }
  split_and!; [done|done|done|intros a Ho; apply S4, Wo, Own1; by left|]. rewrite law_with_mem.
  apply (changes_trans _ _ (src_mem s2)); [apply (changes_trans _ _ (src_mem s1))|].
  - eapply changes_mono; [|exact C1]. by left.
  - eapply changes_mono; [|exact C2]. by left.
  - eapply changes_mono; [|exact C3]. by right.
Qed.

Lemma create_free_block_spec s F B pages :
  hhdm_ok hhdm -> ba_wf s F B -> room s pages -> 1 <= pages ->
  let vb := block_allocator_virtual_base s in
  let cur := block_allocator_current_virtual_address s in
  block_allocator_create_free_block hhdm table pages s = Panicked \/
  exists s', block_allocator_create_free_block hhdm table pages s = Done (cur, s') /\
    ba_wf s' (cur :: F) B /\ block_allocator_virtual_base s' = vb /\
    block_allocator_lock s' = block_allocator_lock s /\ keeps s s' /\
    h_size (ba_mem s') cur = pages * PAGE - 48 /\
    (forall x, x ∈ B -> h_size (ba_mem s') x = h_size (ba_mem s) x) /\
    changes (grow_byte s ((cur :: F) ++ B)) (ba_mem s) (ba_mem s').
Proof using PageSourceLaws0.
  intros Hh W Hroom Hp vb cur. pose proof (bw_heap _ _ _ W) as H. fold vb cur in H.
  pose proof (ly_region _ _ _ _ (hp_layout _ _ _ _ _ _ _ H)) as Hreg.
  pose proof Hroom as [Hr1 _]. fold cur in Hr1. pose proof (bw_align _ _ _ W) as Hal. fold cur in Hal.
  unfold block_allocator_create_free_block.
  destruct (allocate_block_spec s F B pages Hh W Hroom Hp) as [->|(src & -> & Ok & Be & Ta & Own & C)]; [by left|].
  right. cbn [mbind outcome_bind]. cbn beta iota.
  rewrite (u64_small (pages * PAGE)) by (unfold PAGE in *; lia). unfold sizeof_block_header.
  rewrite (u64_small (pages * PAGE - 48)) by (unfold PAGE in *; lia). fold vb cur.
  unfold ba_mem at 1 2. cbn [ba_src block_free_list_start block_busy_list_start].
  assert (forall a, header_byte (F ++ B) a -> ~ (a < vb \/ cur <= a < cur + 48)) as Hout.
  { intros a Ha. pose proof (heap_header_byte _ _ _ _ _ _ _ _ H Ha). lia. }
  pose proof (heap_frame _ _ _ _ _ _ _ _ _ C Hout H) as H1.
  assert (forall x, x ∈ B -> h_size (src_mem src) x = h_size (ba_mem s) x) as Hsz.
  { intros x Hx. apply (changes_ld64 _ _ _ _ C). intros a Ha. apply Hout. exists x. unfold off_size in Ha.
    split; [set_solver|lia]. }
  pose proof (heap_extend (src_mem src) vb cur (cur + pages * PAGE) (block_free_list_start s)
    (block_busy_list_start s) F B (pages * PAGE - 48) H1) as E. cbv zeta in E.
  set (m4 := init_header (src_mem src) cur (pages * PAGE - 48)) in *.
  set (r := if block_free_list_start s =? 0 then (m4, cur)
            else block_allocator_push_block m4 (block_free_list_start s) cur) in *.
  destruct r as [m5 hd] eqn:Er.
  destruct E as (-> & H5 & C5 & Z5 & ZB); [unfold PAGE in *; lia|unfold PAGE in *; lia|unfold PAGE in *; lia|
    unfold PAGE in *; zlia|unfold PAGE in *; zlia|].
  set (s3 := BA src (block_free_list_start s) (block_busy_list_start s) vb (cur + pages * PAGE) (block_allocator_lock s)).
  exists (set_lists s3 m5 cur (block_busy_list_start s)). split.
  { unfold r in Er. destruct (block_free_list_start s =? 0); [injection Er as ->; done|]. by rewrite Er. }
  destruct (src_above s3 m5 Hh Ok Be Ta) as (S1 & S2 & S3 & S4).
  { eapply changes_mono; [|exact C5]. intros a Ha. simpl.
    by apply (heap_header_byte _ _ _ _ _ _ _ _ H5 Ha). }
  rewrite ba_mem_lists. split_and!; [|done|done|intros a Ho; by apply S4, Own|done|
    intros; rewrite ZB, Hsz by done; done|].
  - split; [done|done|done| |].
    + simpl. unfold PAGE in *. zlia.
    + unfold ba_mem. simpl. by rewrite law_with_mem.
  - apply (changes_trans _ _ (src_mem src)).
    + eapply changes_mono; [|exact C]. intros a [Ha|Ha]; [by left|right]. exists cur. split; [set_solver|lia].
    + eapply changes_mono; [|exact C5]. by right.
Qed.

(** ** The operations *)

Lemma ba_wf_lock s F B l : ba_wf s F B -> ba_wf (set_ba_lock s l) F B.
Proof using. by intros []. Qed.

(** A block that can hold [size] bytes is at hand: found, or created. *)
Lemma obtain_block_spec s F B size :
  hhdm_ok hhdm -> ba_wf s F B -> 16 <= size -> size mod 16 = 0 ->
  size + 8192 < 18446744073709551616 -> room s ((size + 48 + 4095) / PAGE) ->
  let r := current_block ← find_block (ba_mem s) (block_free_list_start s) size
      (Z.to_nat (block_allocator_current_virtual_address s - block_allocator_virtual_base s));
    if current_block =? 0 then
      block_allocator_create_free_block hhdm table
        ((size +w sizeof_block_header +w (PAGE - 1)) / PAGE) s
    else Done (current_block, s) in
  r = Panicked \/ exists b s1 F1, r = Done (b, s1) /\ ba_wf s1 F1 B /\ b ∈ F1 /\
    size <= h_size (ba_mem s1) b /\ (forall x, x ∈ F -> x ∈ F1) /\ keeps s s1 /\
    block_allocator_virtual_base s1 = block_allocator_virtual_base s /\
    (forall x, x ∈ B -> h_size (ba_mem s1) x = h_size (ba_mem s) x) /\
    changes (grow_byte s (F1 ++ B)) (ba_mem s) (ba_mem s1).
Proof using PageSourceLaws0.
  intros Hh W Hs Ha Hr Hroom r. pose proof (bw_heap _ _ _ W) as H.
  destruct (find_block_spec (ba_mem s) size 0 (block_free_list_start s) F
    (Z.to_nat (block_allocator_current_virtual_address s - block_allocator_virtual_base s)))
    as (c & Hc & Hc2); [apply H|by eapply region_length|].
  unfold r. rewrite Hc. cbn [mbind outcome_bind]. destruct (Z.eqb_spec c 0) as [->|Hn].
  - unfold sizeof_block_header. rewrite (u64_small (size + 48)), u64_small by (unfold PAGE; lia).
    replace (size + 48 + (PAGE - 1)) with (size + 48 + 4095) by (unfold PAGE; lia).
    destruct (create_free_block_spec s F B ((size + 48 + 4095) / PAGE) Hh W Hroom)
      as [->|(s1 & -> & W1 & V1 & _ & Ke & Z1 & ZB & C1)]; [unfold PAGE; zlia|by left|right].
    eexists _, s1, _. split; [done|]. split; [exact W1|]. split_and!; [set_solver| |set_solver|done|done|done|done].
    rewrite Z1. unfold PAGE. zlia.
  - right. destruct (Hc2 Hn) as [Hin Hfit]. exists c, s, F. split_and!; try done; by intros a.
Qed.

(** Bytes inside the block [x]. *)
Definition content (m : mem) (x a : Z) : Prop := x + 48 <= a < h_end m x.

(** A client writes inside its blocks. *)
Lemma client_write_spec s F B m :
  hhdm_ok hhdm -> ba_wf s F B ->
  changes (fun a => exists x, x ∈ B /\ content (ba_mem s) x a) (ba_mem s) m ->
  ba_wf (set_ba_mem s m) F B /\ forall x, x ∈ F ++ B -> h_size m x = h_size (ba_mem s) x.
Proof using PageSourceLaws0.
  intros Hh W Hc. pose proof (bw_heap _ _ _ W) as H. pose proof (hp_layout _ _ _ _ _ _ _ H) as HL.
  assert (forall a, header_byte (F ++ B) a -> ~ (exists x, x ∈ B /\ content (ba_mem s) x a)) as Hout.
  { intros a Ha (x & Hx & Hxa). eapply (layout_content _ _ _ _ x a HL); [set_solver|done|done]. }
  split.
  - apply (ba_wf_lists s F B); [done|done| |by eapply heap_frame].
    eapply changes_mono; [|exact Hc]. intros a (x & Hx & Hxa).
    pose proof (ly_in _ _ _ _ HL x ltac:(set_solver)). unfold content in Hxa. lia.
  - intros x Hx. apply (changes_ld64 _ _ _ _ Hc). intros a Ha. apply Hout. exists x.
    unfold off_size in Ha. split; [done|lia].
Qed.

(** Contents survive changes of headers and of the page source's memory. *)
Lemma content_kept s s' F F' B L :
  ba_wf s F B -> ba_wf s' F' B -> L = F' ++ B ->
  block_allocator_virtual_base s' = block_allocator_virtual_base s ->
  (forall x, x ∈ B -> h_size (ba_mem s') x = h_size (ba_mem s) x) ->
  changes (grow_byte s L) (ba_mem s) (ba_mem s') ->
  forall x a, x ∈ B -> content (ba_mem s) x a -> ld8 (ba_mem s') a = ld8 (ba_mem s) a.
Proof using PageSourceLaws0.
  intros W W' -> HV HZ Hc x a Hx Ha. apply Hc. intros [Hlt|Hh].
  - pose proof (ly_in _ _ _ _ (hp_layout _ _ _ _ _ _ _ (bw_heap _ _ _ W)) x ltac:(set_solver)).
    unfold content in Ha. lia.
  - eapply (layout_content _ _ _ _ x a (hp_layout _ _ _ _ _ _ _ (bw_heap _ _ _ W')));
      [set_solver| |done]. unfold h_end. rewrite HZ by done. exact Ha.
Qed.

(** Cutting a free block to size and moving it to the busy list. *)
Lemma take_block_spec s F B b size :
  hhdm_ok hhdm -> ba_wf s F B -> b ∈ F -> 16 <= size -> size mod 16 = 0 ->
  size <= h_size (ba_mem s) b -> size + 64 < 18446744073709551616 ->
  let s' := block_allocator_move_to_busy_list b (set_ba_mem s (split_block (ba_mem s) b size)) in
  exists F', ba_wf s' F' (b :: B) /\ size <= h_size (ba_mem s') b /\ keeps s s' /\
    (forall x, x ∈ B -> h_size (ba_mem s') x = h_size (ba_mem s) x /\
       forall a, content (ba_mem s) x a -> ld8 (ba_mem s') a = ld8 (ba_mem s) a).
Proof using PageSourceLaws0.
  intros Hh W Hb Q2 Q3 Hfit Hr s'. pose proof (bw_heap _ _ _ W) as H1.
  destruct (split_any _ _ _ _ _ _ _ b size H1 Hb Q2 Q3 Hfit Hr) as (F2 & H2 & I2 & Hfit2 & _ & ZB2 & C2).
  set (m2 := split_block (ba_mem s) b size) in *.
  assert (changes (fun a => block_allocator_virtual_base s <= a) (ba_mem s) m2) as A2.
  { eapply changes_mono; [|exact C2]. intros a Ha. by apply (heap_header_byte _ _ _ _ _ _ _ _ H2 Ha). }
  assert (ba_wf (set_ba_mem s m2) F2 B) as W2 by (by apply (ba_wf_lists s F B)).
  pose proof (ba_mem_set s m2) as M2. set (s2 := set_ba_mem s m2) in *.
  destruct (heap_lists _ _ _ _ _ _ _ H1) as (_ & _ & Hdis & _). pose proof (Hdis b Hb) as HbB.
  destruct (move_to_busy_spec s2 F2 B b Hh W2 ltac:(set_solver)) as [W3 R3]. fold s' in W3, R3.
  rewrite (del_notin b B HbB) in W3. rewrite M2 in R3.
  exists (del b F2). split; [done|]. split; [rewrite (rl_size _ _ _ R3) by set_solver; done|]. split.
  { apply (keeps_above s s' F B); [done|done| |].
    - unfold s'. rewrite move_to_busy_src. apply law_with_twice.
    - apply (changes_trans _ _ m2); [done|].
      rewrite <- M2. eapply (relinked_above s2); [done|]. by rewrite M2. }
  intros x Hx. rewrite (rl_size _ _ _ R3), ZB2 by set_solver. split; [done|]. intros a Ha.
  assert (content m2 x a) as Ha2 by (unfold content, h_end in *; by rewrite ZB2).
  pose proof (layout_content _ _ _ _ x a (hp_layout _ _ _ _ _ _ _ H2) ltac:(set_solver) Ha2) as Hno.
  rewrite <- (C2 a Hno). apply (rl_changes _ _ _ R3). intros Hl. by apply Hno, link_header.
Qed.

Lemma block_allocate_spec s F B size :
  hhdm_ok hhdm -> block_allocator_lock s = false -> ba_wf s F B ->
  0 <= size -> size + 16384 < 18446744073709551616 -> room s (block_pages size) ->
  block_allocate hhdm table size s = Panicked \/
  exists b s' F', block_allocate hhdm table size s = Done (b + 48, s') /\
    block_allocator_lock s' = false /\ ba_wf s' F' (b :: B) /\ size <= h_size (ba_mem s') b /\
    keeps s s' /\
    (forall a, b + 48 <= a < b + 48 + size -> ld8 (ba_mem s') a = 0) /\
    (forall x, x ∈ B -> h_size (ba_mem s') x = h_size (ba_mem s) x /\
       forall a, content (ba_mem s) x a -> ld8 (ba_mem s') a = ld8 (ba_mem s) a).
Proof using PageSourceLaws0.
  intros Hh Hlk W0 Hs0 Hsr Hroom. unfold block_allocate, block_pages in *.
  destruct (round_size_spec size Hs0 ltac:(lia)) as (Q1 & Q2 & Q3). set (size' := block_round_size size) in *.
  rewrite Hlk. cbn [spinlock_acquire mbind outcome_bind].
  pose proof (ba_wf_lock s F B true W0) as W. set (s0 := set_ba_lock s true) in *.
  pose proof (obtain_block_spec s0 F B size' Hh W Q2 Q3 ltac:(lia) Hroom) as Hob. cbv zeta in Hob.
  rewrite <- bind_assoc. destruct Hob as [->|(b & s1 & F1 & -> & W1 & Hb & Hfit & _ & Ke1 & V1 & ZB & C1)]; [by left|right].
  cbn [mbind outcome_bind]. cbn beta iota.
  destruct (take_block_spec s1 F1 B b size' Hh W1 Hb Q2 Q3 Hfit ltac:(lia)) as (F3 & W3 & Hfit3 & Ke3 & K3).
  set (s3 := block_allocator_move_to_busy_list b _) in *.
  pose proof (hp_layout _ _ _ _ _ _ _ (bw_heap _ _ _ W3)) as L3.
  assert (b ∈ F3 ++ b :: B) as Hb3 by set_solver.
  pose proof (layout_pos _ _ _ _ L3 b Hb3) as [Hpos _]. pose proof (ly_in _ _ _ _ L3 b Hb3) as Hin3.
  pose proof (ly_region _ _ _ _ L3) as Hreg3.
  unfold sizeof_block_header. rewrite (u64_small (b + 48)) by (unfold h_end in *; lia).
  set (s4 := set_ba_lock s3 (spinlock_release true)). unfold memset.
  change (ba_mem s4) with (ba_mem s3). set (m5 := fill (ba_mem s3) (b + 48) (Z.to_nat size') 0).
  destruct (client_write_spec s4 F3 (b :: B) m5 Hh (ba_wf_lock _ _ _ _ W3)) as [W5 Z5].
  { apply changes_fill. intros a Ha. exists b. split; [set_solver|]. unfold content, h_end.
    change (ba_mem s4) with (ba_mem s3). lia. }
  assert (keeps s4 (set_ba_mem s4 m5)) as Ke5.
  { apply (keeps_above s4 _ F3 (b :: B)); [done|by apply ba_wf_lock|by rewrite ba_mem_set|].
    rewrite ba_mem_set. apply changes_fill. intros a Ha. change (block_allocator_virtual_base s4) with
      (block_allocator_virtual_base s3). lia. }
  exists b, (set_ba_mem s4 m5), F3. rewrite ba_mem_set, (Z5 b Hb3).
  split_and!; [done|done|done|change (ba_mem s4) with (ba_mem s3); lia|
    intros a Ho; by apply Ke5, Ke3, Ke1| |].
  - intros a Ha. unfold m5. by rewrite ld8_fill, decide_True by lia.
  - intros x Hx. destruct (K3 x Hx) as [K3a K3b]. rewrite (Z5 x) by set_solver.
    change (ba_mem s4) with (ba_mem s3). rewrite K3a, (ZB x Hx). split; [done|]. intros a Ha.
    assert (content (ba_mem s1) x a) as Ha1 by (unfold content, h_end in *; by rewrite (ZB x Hx)).
    pose proof (content_kept s0 s1 F F1 B _ W W1 eq_refl V1 ZB C1 x a Hx Ha) as Hk.
    change (ba_mem s0) with (ba_mem s) in Hk. rewrite <- Hk, <- (K3b a Ha1).
    unfold m5. rewrite ld8_fill, decide_False; [done|].
    assert (x <> b) as Hxb.
    { intros ->. pose proof (ly_nodup _ _ _ _ L3) as Hn. apply NoDup_app in Hn as (_ & _ & Hn).
      apply NoDup_cons in Hn as [Hn _]. done. }
    pose proof (ly_apart _ _ _ _ L3 x b ltac:(set_solver) Hb3 Hxb).
    unfold content, h_end in *. rewrite K3a, (ZB x Hx) in *. change (ba_mem s0) with (ba_mem s) in *. lia.
Qed.

(** The region grows by the pages of the block at most. *)
Lemma create_free_block_current s pages b s' :
  block_allocator_create_free_block hhdm table pages s = Done (b, s') ->
  block_allocator_current_virtual_address s' =
    page_round_up (block_allocator_current_virtual_address s) +w (pages *w PAGE).
Proof using.
  intros E. apply bind_done_inv in E as ([b1 s1] & E1 & E).
  apply bind_done_inv in E1 as ([page src] & _ & E1). apply bind_done_inv in E1 as (src2 & _ & [= <- <-]).
  cbv beta iota zeta in E. destruct (_ =? 0); [by injection E as _ <-|].
  destruct (block_allocator_push_block _ _ _). by injection E as _ <-.
Qed.

Lemma move_to_busy_current s b :
  block_allocator_current_virtual_address (block_allocator_move_to_busy_list b s) =
  block_allocator_current_virtual_address s.
Proof using. unfold block_allocator_move_to_busy_list. by destruct (block_allocator_push_block _ _ _). Qed.

Lemma block_allocate_current s F B size p s' :
  ba_wf s F B -> 0 <= size -> size + 16384 < 18446744073709551616 -> room s (block_pages size) ->
  block_allocate hhdm table size s = Done (p, s') ->
  block_allocator_current_virtual_address s <= block_allocator_current_virtual_address s' <=
    block_allocator_current_virtual_address s + block_pages size * PAGE /\
  block_allocator_current_virtual_address s' mod PAGE = 0.
Proof using PageSourceLaws0.
  intros W H0 Hr [Hroom _] E. destruct (round_size_spec size H0 ltac:(lia)) as (Q1 & Q2 & Q3).
  unfold block_allocate in E. cbv zeta in E. unfold block_pages in *. set (size' := block_round_size size) in *.
  apply bind_done_inv in E as (l & _ & E). apply bind_done_inv in E as (c & _ & E).
  apply bind_done_inv in E as ([c1 s1] & E1 & [= _ <-]).
  pose proof (ly_region _ _ _ _ (hp_layout _ _ _ _ _ _ _ (bw_heap _ _ _ W))) as Hreg.
  pose proof (bw_align _ _ _ W) as Hal.
  cbn [set_ba_mem set_ba_lock block_allocator_current_virtual_address]. rewrite move_to_busy_current.
  cbn [set_ba_mem block_allocator_current_virtual_address].
  destruct (c =? 0); [|injection E1 as _ <-; cbn; split; [unfold PAGE in *; zlia|done]].
  apply create_free_block_current in E1. cbn [set_ba_lock block_allocator_current_virtual_address] in E1.
  unfold sizeof_block_header in E1. rewrite (u64_small (size' + 48)) in E1 by lia.
  rewrite (u64_small (size' + 48 + _)) in E1 by (unfold PAGE; lia).
  rewrite page_round_up_aligned in E1 by (unfold PAGE in *; zlia).
  replace (size' + 48 + (PAGE - 1)) with (size' + 48 + 4095) in E1 by (unfold PAGE; lia).
  set (n := (size' + 48 + 4095) / PAGE) in *. assert (0 <= n) by (unfold n, PAGE; zlia).
  rewrite (u64_small (n * PAGE)), u64_small in E1 by (unfold PAGE in *; lia). rewrite E1.
  unfold PAGE in *. split; [lia|zlia].
Qed.

Lemma block_deallocate_spec s F B b :
  hhdm_ok hhdm -> block_allocator_lock s = false -> ba_wf s F B -> b ∈ F ++ B ->
  exists s', block_deallocate (b + 48) s = Done s' /\ block_allocator_lock s' = false /\
    ba_wf s' (b :: del b F) (del b B) /\
    (forall x, x ∈ F ++ B -> h_size (ba_mem s') x = h_size (ba_mem s) x /\
       forall a, content (ba_mem s) x a -> ld8 (ba_mem s') a = ld8 (ba_mem s) a).
Proof using PageSourceLaws0.
  intros Hh Hlk W0 Hb. pose proof (hp_layout _ _ _ _ _ _ _ (bw_heap _ _ _ W0)) as L0.
  pose proof (layout_pos _ _ _ _ L0 b Hb) as [Hpos Hr]. pose proof (ly_in _ _ _ _ L0 b Hb) as Hin.
  pose proof (ly_region _ _ _ _ L0) as Hreg. pose proof (ly_size _ _ _ _ L0 b Hb) as Hsz. unfold h_end in Hin.
  unfold block_deallocate, sizeof_block_header. rewrite (proj2 (Z.eqb_neq (b + 48) 0)) by lia.
  rewrite u64_small by lia. replace (b + 48 - 48) with b by lia.
  rewrite (ly_signature _ _ _ _ L0 b Hb), Z.eqb_refl, Hlk. cbn [negb spinlock_acquire mbind outcome_bind].
  pose proof (ba_wf_lock s F B true W0) as W.
  change (block_allocator_virtual_base (set_ba_lock s true)) with (block_allocator_virtual_base s).
  change (block_allocator_current_virtual_address (set_ba_lock s true)) with
    (block_allocator_current_virtual_address s).
  rewrite (proj2 (Z.ltb_lt _ _)), (proj2 (Z.ltb_lt _ _)) by lia. cbn [andb].
  destruct (move_to_free_spec (set_ba_lock s true) F B b Hh W Hb) as [W1 R1].
  change (ba_mem (set_ba_lock s true)) with (ba_mem s) in R1.
  set (s1 := block_allocator_move_to_free_list b _) in *.
  exists (set_ba_lock s1 (spinlock_release true)). split_and!; [done|done|by apply ba_wf_lock|].
  change (ba_mem (set_ba_lock s1 _)) with (ba_mem s1).
  intros x Hx. split; [by apply R1|]. intros a Ha. apply (rl_changes _ _ _ R1). intros Hl.
  by eapply (layout_content _ _ _ _ x a L0), link_header.
Qed.
End State.

(** * Initialisation *)

Lemma page_round_up_mod x : in_u64 (x + (PAGE - 1)) -> page_round_up x mod PAGE = 0.
Proof.
  intros H. unfold page_round_up. rewrite u64_small by done.
  change (PAGE - 1) with (Z.ones 12). rewrite <- Z.ldiff_land, Z.ldiff_ones_r by lia.
  rewrite Z.shiftr_div_pow2, Z.shiftl_mul_pow2 by lia. unfold PAGE. change (2 ^ 12) with 4096. zlia.
Qed.

Lemma heap_empty m vb : 0 < vb < 18446744073709551616 -> heap m vb vb 0 0 [] [].
Proof. intros H. split; [|done|done]. split; [lia|constructor|..]; set_solver. Qed.

(** * Histories *)

(** What can happen to the allocator: its clients allocate, free and write in
    what they hold.  The list holds the blocks in use with the sizes asked for. *)
Inductive block_history (hhdm table : Z) {St} `{!PageSource St} :
    ba_state St -> list (Z * Z) -> Prop :=
  | bh_start s F : block_allocator_lock s = false -> ba_wf hhdm table s F [] ->
      block_history hhdm table s []
  | bh_allocate s L size ptr s' : block_history hhdm table s L ->
      0 <= size -> size + 16384 < 18446744073709551616 -> room s (block_pages size) ->
      block_allocate hhdm table size s = Done (ptr, s') ->
      block_history hhdm table s' ((ptr, size) :: L)
  | bh_free s L1 ptr n L2 s' : block_history hhdm table s (L1 ++ (ptr, n) :: L2) ->
      block_deallocate ptr s = Done s' -> block_history hhdm table s' (L1 ++ L2)
  | bh_write s L m : block_history hhdm table s L ->
      changes (fun a => exists ptr n, (ptr, n) ∈ L /\ ptr <= a < ptr + n) (ba_mem s) m ->
      block_history hhdm table (set_ba_mem s m) L.

Section Histories.
Context (hhdm table : Z) {St : Type} `{!PageSource St} `{!PageSourceLaws hhdm St}.
Implicit Types s : ba_state St.

Definition header_of (p : Z * Z) : Z := p.1 - 48.

(** The busy list is the list of the blocks in use. *)
Definition in_use s (L : list (Z * Z)) : Prop :=
  block_allocator_lock s = false /\
  exists F, ba_wf hhdm table s F (map header_of L) /\
    forall p n, (p, n) ∈ L -> n <= h_size (ba_mem s) (p - 48).

Lemma header_in p n (L : list (Z * Z)) : (p, n) ∈ L -> p - 48 ∈ map header_of L.
Proof using. intros H. apply list_elem_of_fmap. by exists (p, n). Qed.

Lemma in_use_free s L1 ptr n L2 s' :
  hhdm_ok hhdm -> in_use s (L1 ++ (ptr, n) :: L2) -> block_deallocate ptr s = Done s' ->
  in_use s' (L1 ++ L2).
Proof using PageSourceLaws0.
  intros Hh (Hl & F & W & Hz) Hd. rewrite map_app in W. simpl in W.
  pose proof (ly_nodup _ _ _ _ (hp_layout _ _ _ _ _ _ _ (bw_heap _ _ _ _ _ W))) as Hn.
  apply NoDup_app in Hn as (_ & Hdis & Hn).
  destruct (block_deallocate_spec hhdm table s F _ (ptr - 48) Hh Hl W) as (s1 & E & Hl1 & W1 & K1).
  { unfold header_of. simpl. set_solver. }
  replace (ptr - 48 + 48) with ptr in E by lia. assert (s1 = s') as -> by congruence.
  split; [done|]. change (ptr - 48) with (header_of (ptr, n)) in W1. rewrite del_middle, <- map_app in W1 by done.
  eexists. split; [exact W1|]. intros p k Hp.
  assert ((p, k) ∈ L1 ++ (ptr, n) :: L2) as Hp' by set_solver.
  pose proof (header_in _ _ _ Hp') as Hin. rewrite map_app in Hin. simpl in Hin.
  rewrite (proj1 (K1 (p - 48) ltac:(set_solver))). by apply Hz.
Qed.

Lemma in_use_write s L m :
  hhdm_ok hhdm -> in_use s L ->
  changes (fun a => exists ptr n, (ptr, n) ∈ L /\ ptr <= a < ptr + n) (ba_mem s) m ->
  in_use (set_ba_mem s m) L.
Proof using PageSourceLaws0.
  intros Hh (Hl & F & W & Hz) Hc. destruct (client_write_spec hhdm table s F _ m Hh W) as [W1 Z1].
  - eapply changes_mono; [|exact Hc]. intros a (p & n & Hp & Ha). exists (p - 48).
    split; [by eapply header_in|]. specialize (Hz p n Hp). unfold content, h_end. lia.
  - split; [done|]. exists F. split; [done|]. intros p n Hp. rewrite (ba_mem_set hhdm), Z1; [by apply Hz|].
    apply elem_of_app. right. by eapply header_in.
Qed.

Lemma history_in_use s L : hhdm_ok hhdm -> block_history hhdm table s L -> in_use s L.
Proof using PageSourceLaws0.
  intros Hh. induction 1 as [s F Hl W|s L size ptr s' _ IH H0 Hr Hroom Ha|s L1 ptr n L2 s' _ IH Hd|s L m _ IH Hc].
  - split; [done|]. exists F. split; [done|]. set_solver.
  - destruct IH as (Hl & F & W & Hz).
    destruct (block_allocate_spec hhdm table s F _ size Hh Hl W H0 Hr Hroom)
      as [E|(b & s1 & F1 & E & Hl1 & W1 & Hfit & _ & _ & K)]; [congruence|].
    assert (ptr = b + 48 /\ s1 = s') as [-> ->] by (split; congruence). split; [done|]. exists F1.
    unfold header_of at 1. simpl. replace (b + 48 - 48) with b by lia. split; [done|].
    intros p n [[= -> ->]|Hp]%elem_of_cons; [by replace (b + 48 - 48) with b by lia|].
    rewrite (proj1 (K (p - 48) (header_in _ _ _ Hp))). by apply Hz.
  - by eapply in_use_free.
  - by apply in_use_write.
Qed.
End Histories.

(** * Properties *)

(** A concrete allocator: the page source of [PageTable], a fresh page table,
    a memory map whose last entry ends at 1 MiB. *)
#[local] Existing Instance demo_source.
#[local] Existing Instance demo_source_laws.

Definition heap_memmap : list limine_memmap_entry := [MemmapEntry 0x2000 0xFE000 0].

Definition demo_boot : outcome (Z * ba_state pa_state) :=
  '(table, src) ← arch_table_manager_new table_state;
  s ← block_allocator_init 0 table heap_memmap (BA src 0 0 0 0 false);
  Done (table, s).

(** block_allocator_init establishes the heap invariant: one free block of a page at the base of
    the region above the memory map. *)
Theorem block_allocator_init_ok (hhdm table : Z) {St} `{!PageSource St} `{!PageSourceLaws hhdm St}
    (memmap : list limine_memmap_entry) (e : limine_memmap_entry) (s : ba_state St) :
  hhdm_ok hhdm -> last memmap = Some e ->
  block_free_list_start s = 0 -> block_busy_list_start s = 0 ->
  src_ok (ba_src s) -> (exists t, table_view hhdm (ba_src s) table t) ->
  0 <= entry_base e -> 0 <= entry_length e ->
  0 < entry_base e + entry_length e + hhdm ->
  entry_base e + entry_length e + hhdm + 3 * PAGE <= 18446744073709551616 ->
  page_number (page_round_up (entry_base e + entry_length e + hhdm)) + 1 <= 68719476736 - 512 ->
  src_below (page_round_up (entry_base e + entry_length e + hhdm)) (ba_src s) ->
  block_allocator_init hhdm table memmap s = Panicked \/
  exists s', block_allocator_init hhdm table memmap s = Done s' /\
    block_allocator_lock s' = block_allocator_lock s /\
    ba_wf hhdm table s' [block_allocator_virtual_base s'] [] /\
    h_size (ba_mem s') (block_allocator_virtual_base s') = PAGE - 48.
Proof.
  intros Hh Hlast Hf Hb Hok Ht H1 H2 H3 H4 H5 H6.
  unfold block_allocator_init, block_allocator_find_lowest_free_virtual_address_limine.
  rewrite Hlast. cbn [deref mbind outcome_bind].
  pose proof (proj1 Hh) as Hh0. rewrite (u64_small (entry_base e + entry_length e)), u64_small by (unfold PAGE in *; lia).
  set (vb := page_round_up _) in *.
  assert (vb mod PAGE = 0) as Hal by (apply page_round_up_mod; unfold PAGE in *; lia).
  assert (entry_base e + entry_length e + hhdm <= vb <= entry_base e + entry_length e + hhdm + 4095) as Hvb.
  { unfold vb, page_round_up. rewrite u64_small by (unfold PAGE in *; lia).
    change (PAGE - 1) with (Z.ones 12). rewrite <- Z.ldiff_land, Z.ldiff_ones_r by lia.
    rewrite Z.shiftr_div_pow2, Z.shiftl_mul_pow2 by lia. change (2 ^ 12) with 4096.
    change (Z.ones 12) with 4095. zlia. }
  rewrite Hf, Hb. set (s1 := BA (ba_src s) 0 0 vb vb (block_allocator_lock s)).
  assert (ba_wf hhdm table s1 [] []) as W1.
  { split; [done|done|done|done|]. apply heap_empty. simpl. unfold PAGE in *; lia. }
  destruct (create_free_block_spec hhdm table s1 [] [] 1 Hh W1) as [->|(s' & -> & W & V & Hl & _ & Hz & _)];
    [split; simpl; unfold PAGE in *; lia|lia|by left|right].
  exists s'. rewrite V, Hl. split_and!; [done|done|exact W|]. simpl in *. by rewrite Hz.
Qed.

Lemma demo_boot_done : is_done demo_boot = true.
Proof. vm_compute. reflexivity. Qed.

Lemma demo_src_below table src :
  arch_table_manager_new table_state = Done (table, src) -> src_below 0x100000 src.
Proof.
  intros E. destruct (@law_below 0 pa_state demo_source demo_source_laws table_state src 0x100000 1 table table_state_wf) as [H _];
    [|lia|unfold PAGE; lia|done|done].
  constructor; [|constructor]. apply pool_bytes_below. unfold pool_end. simpl. lia.
Qed.

Lemma block_allocator_init_ok_witness :
  exists table src, arch_table_manager_new table_state = Done (table, src) /\
  (block_allocator_init 0 table heap_memmap (BA src 0 0 0 0 false) = Panicked \/
   exists s', block_allocator_init 0 table heap_memmap (BA src 0 0 0 0 false) = Done s' /\
     block_allocator_lock s' = false /\
     ba_wf 0 table s' [block_allocator_virtual_base s'] [] /\
     h_size (ba_mem s') (block_allocator_virtual_base s') = PAGE - 48).
Proof.
  destruct demo_table as (table & src & E & Hv). exists table, src. split; [done|].
  apply (block_allocator_init_ok 0 table heap_memmap (MemmapEntry 0x2000 0xFE000 0) (BA src 0 0 0 0 false)).
  - apply hhdm_ok_0.
  - reflexivity.
  - reflexivity.
  - reflexivity.
  - destruct Hv as [[lev Hwf] _]. apply Hwf.
  - by eexists.
  - simpl. lia.
  - simpl. lia.
  - simpl. lia.
  - simpl. unfold PAGE. lia.
  - vm_compute. congruence.
  - by eapply demo_src_below.
Defined.

(** The state after the boot of the concrete allocator. *)
Lemma demo_heap : exists table s, demo_boot = Done (table, s) /\ block_allocator_lock s = false /\
  block_allocator_current_virtual_address s = 0x101000 /\
  ba_wf 0 table s [block_allocator_virtual_base s] [].
Proof.
  pose proof demo_boot_done as H. unfold demo_boot in *.
  apply is_done_bind in H as ([table src] & E & H). apply is_done_bind in H as (s & E2 & _).
  exists table, s. rewrite E. cbn [mbind outcome_bind]. rewrite E2. split; [done|].
  destruct demo_table as (table' & src' & E' & Hv). rewrite E in E'. injection E' as <- <-.
  assert (is_done ('(table, src) ← arch_table_manager_new table_state;
    s ← block_allocator_init 0 table heap_memmap (BA src 0 0 0 0 false);
    if negb (block_allocator_lock s) && (block_allocator_current_virtual_address s =? 0x101000) then Done tt
    else Panicked) = true) as Hc by (vm_compute; reflexivity).
  rewrite E in Hc. cbn [mbind outcome_bind] in Hc. rewrite E2 in Hc. cbn [mbind outcome_bind] in Hc.
  destruct (block_allocator_lock s) eqn:El; [done|].
  destruct (Z.eqb_spec (block_allocator_current_virtual_address s) 0x101000) as [Ec|]; [|done].
  split_and!; [done|done|]. unfold block_allocator_init in E2.
  apply bind_done_inv in E2 as (s1 & E1 & E2). apply bind_done_inv in E2 as ([b s2] & E3 & E2).
  injection E2 as <-. unfold block_allocator_find_lowest_free_virtual_address_limine in E1.
  simpl in E1. injection E1 as <-.
  set (s1 := BA _ _ _ _ _ _) in E3. assert (ba_wf 0 table s1 [] []) as W1.
  { split; [destruct Hv as [[lev Hwf] _]; apply Hwf|by eapply demo_src_below|by eexists|done|].
    apply heap_empty. done. }
  destruct (create_free_block_spec 0 table s1 [] [] 1 hhdm_ok_0 W1) as [Ex|(s' & Ex & W & V & _)];
    [split; vm_compute; congruence|lia|congruence|].
  rewrite E3 in Ex. injection Ex as -> ->. rewrite V. exact W.
Qed.

(** C10. block_allocate either runs out of pages or returns an aligned, zeroed block of at least
    the requested size that was not in use, keeps the heap well formed and leaves the bytes of
    every block in use alone. *)
Theorem block_allocate_refines (hhdm table : Z) {St} `{!PageSource St} `{!PageSourceLaws hhdm St}
    (s : ba_state St) (F B : list Z) (size : Z) :
  hhdm_ok hhdm -> block_allocator_lock s = false -> ba_wf hhdm table s F B ->
  0 <= size -> size + 16384 < 18446744073709551616 -> room s (block_pages size) ->
  block_allocate hhdm table size s = Panicked \/
  exists ptr s' F', block_allocate hhdm table size s = Done (ptr, s') /\
    block_allocator_lock s' = false /\ ba_wf hhdm table s' F' ((ptr - 48) :: B) /\
    ptr mod 16 = 0 /\ ptr <> 0 /\ (ptr - 48 ∉ B) /\ size <= h_size (ba_mem s') (ptr - 48) /\
    (forall a, ptr <= a < ptr + size -> ld8 (ba_mem s') a = 0) /\
    (forall x, x ∈ B -> h_size (ba_mem s') x = h_size (ba_mem s) x /\
       forall a, content (ba_mem s) x a -> ld8 (ba_mem s') a = ld8 (ba_mem s) a).
Proof.
  intros Hh Hl W H0 Hr Hroom.
  destruct (block_allocate_spec hhdm table s F B size Hh Hl W H0 Hr Hroom)
    as [->|(b & s' & F' & -> & Hl' & W' & Hfit & _ & Hz & K)]; [by left|right].
  exists (b + 48), s', F'. replace (b + 48 - 48) with b by lia.
  pose proof (hp_layout _ _ _ _ _ _ _ (bw_heap _ _ _ _ _ W')) as L.
  assert (b ∈ F' ++ b :: B) as Hb by set_solver.
  pose proof (ly_size _ _ _ _ L b Hb). pose proof (layout_pos _ _ _ _ L b Hb).
  split_and!; [done|done|done|zlia|lia| |done|done|done].
  pose proof (ly_nodup _ _ _ _ L) as Hn. apply NoDup_app in Hn as (_ & _ & Hn). by apply NoDup_cons in Hn as [Hn _].
Qed.

Lemma block_allocate_refines_witness :
  exists table s, demo_boot = Done (table, s) /\
  (block_allocate 0 table 100 s = Panicked \/
   exists ptr s' F', block_allocate 0 table 100 s = Done (ptr, s') /\
     block_allocator_lock s' = false /\ ba_wf 0 table s' F' [ptr - 48] /\
     ptr mod 16 = 0 /\ ptr <> 0 /\ (ptr - 48 ∉ []) /\ 100 <= h_size (ba_mem s') (ptr - 48) /\
     (forall a, ptr <= a < ptr + 100 -> ld8 (ba_mem s') a = 0) /\
     (forall x, x ∈ [] -> h_size (ba_mem s') x = h_size (ba_mem s) x /\
        forall a, content (ba_mem s) x a -> ld8 (ba_mem s') a = ld8 (ba_mem s) a)).
Proof.
  destruct demo_heap as (table & s & E & Hl & Hc & W). exists table, s. split; [done|].
  apply (block_allocate_refines 0 table s _ [] 100 hhdm_ok_0 Hl W); [lia|lia|].
  split; rewrite Hc; vm_compute; congruence.
Defined.

(** C11. block_deallocate of a block moves it to the front of the free list and keeps the bytes
    of all blocks; deallocating it a second time leaves the heap well formed with the same
    blocks free. *)
Theorem block_deallocate_refines (hhdm table : Z) {St} `{!PageSource St} `{!PageSourceLaws hhdm St}
    (s : ba_state St) (F B : list Z) (ptr : Z) :
  hhdm_ok hhdm -> block_allocator_lock s = false -> ba_wf hhdm table s F B -> ptr - 48 ∈ F ++ B ->
  exists s', block_deallocate ptr s = Done s' /\ block_allocator_lock s' = false /\
    ba_wf hhdm table s' ((ptr - 48) :: del (ptr - 48) F) (del (ptr - 48) B) /\
    (forall x, x ∈ F ++ B -> h_size (ba_mem s') x = h_size (ba_mem s) x /\
       forall a, content (ba_mem s) x a -> ld8 (ba_mem s') a = ld8 (ba_mem s) a) /\
    exists s'', block_deallocate ptr s' = Done s'' /\
      ba_wf hhdm table s'' ((ptr - 48) :: del (ptr - 48) F) (del (ptr - 48) B).
Proof.
  intros Hh Hl W Hin.
  destruct (block_deallocate_spec hhdm table s F B (ptr - 48) Hh Hl W Hin) as (s' & E & Hl' & W' & K).
  replace (ptr - 48 + 48) with ptr in E by lia. exists s'. split_and!; try done.
  destruct (block_deallocate_spec hhdm table s' _ _ (ptr - 48) Hh Hl' W') as (s'' & E' & _ & W'' & _); [set_solver|].
  replace (ptr - 48 + 48) with ptr in E' by lia. exists s''. split; [done|].
  assert (forall l, del (ptr - 48) (del (ptr - 48) l) = del (ptr - 48) l) as Hd.
  { intros l. apply del_notin. rewrite elem_of_del. tauto. }
  rewrite Hd in W''. unfold del in W'' at 1. rewrite filter_cons, decide_False in W'' by auto.
  fold (del (ptr - 48) (del (ptr - 48) F)) in W''. by rewrite Hd in W''.
Qed.

Lemma block_deallocate_refines_witness :
  exists table s, demo_boot = Done (table, s) /\
  exists s', block_deallocate (block_allocator_virtual_base s + 48) s = Done s' /\
    block_allocator_lock s' = false.
Proof.
  destruct demo_heap as (table & s & E & Hl & Hc & W). exists table, s. split; [done|].
  destruct (block_deallocate_refines 0 table s _ [] (block_allocator_virtual_base s + 48) hhdm_ok_0 Hl W)
    as (s' & E' & Hl' & _).
  - replace (block_allocator_virtual_base s + 48 - 48) with (block_allocator_virtual_base s) by lia. simpl. left.
  - exists s'. split; assumption.
Defined.

(** C2. After any sequence of block_allocate, client writes and block_deallocate, the blocks
    that clients hold are aligned to 16 bytes, lie inside the region of the allocator and do not
    overlap. *)
Theorem block_history_disjoint (hhdm table : Z) {St} `{!PageSource St} `{!PageSourceLaws hhdm St}
    (s : ba_state St) (L : list (Z * Z)) :
  hhdm_ok hhdm -> block_history hhdm table s L ->
  (forall p n, (p, n) ∈ L -> p mod 16 = 0 /\ block_allocator_virtual_base s < p /\
     p + n <= block_allocator_current_virtual_address s) /\
  forall i j p n q k, i <> j -> L !! i = Some (p, n) -> L !! j = Some (q, k) ->
    p + n <= q \/ q + k <= p.
Proof.
  intros Hh H. destruct (history_in_use hhdm table s L Hh H) as (_ & F & W & Hz).
  pose proof (hp_layout _ _ _ _ _ _ _ (bw_heap _ _ _ _ _ W)) as HL. split.
  - intros p n Hp. pose proof (header_in _ _ _ Hp) as Hin.
    assert (p - 48 ∈ F ++ map header_of L) as Hin' by set_solver.
    pose proof (ly_in _ _ _ _ HL _ Hin'). pose proof (ly_size _ _ _ _ HL _ Hin').
    specialize (Hz p n Hp). unfold h_end in *. split_and!; [zlia|lia|lia].
  - intros i j p n q k Hij Hi Hj.
    pose proof (list_elem_of_lookup_2 _ _ _ Hi) as Hp. pose proof (list_elem_of_lookup_2 _ _ _ Hj) as Hq.
    assert (p - 48 <> q - 48) as Hne.
    { intros E. apply Hij. pose proof (ly_nodup _ _ _ _ HL) as Hn. apply NoDup_app in Hn as (_ & _ & Hn).
      eapply (NoDup_lookup (header_of <$> L)); [exact Hn| |]; rewrite list_lookup_fmap.
      - rewrite Hi. done.
      - rewrite Hj. unfold header_of. simpl. by rewrite E. }
    pose proof (header_in _ _ _ Hp). pose proof (header_in _ _ _ Hq).
    pose proof (ly_apart _ _ _ _ HL (p - 48) (q - 48) ltac:(set_solver) ltac:(set_solver) Hne).
    pose proof (Hz p n Hp). pose proof (Hz q k Hq). unfold h_end in *. lia.
Qed.

Lemma block_history_disjoint_witness :
  exists table s p s1 q s2, demo_boot = Done (table, s) /\
    block_allocate 0 table 100 s = Done (p, s1) /\ block_allocate 0 table 200 s1 = Done (q, s2) /\
    block_history 0 table s2 [(q, 200); (p, 100)] /\ (q + 200 <= p \/ p + 100 <= q).
Proof.
  destruct demo_heap as (table & s & E & Hl & Hc & W).
  assert (is_done ('(table, s) ← demo_boot; '(p, s1) ← block_allocate 0 table 100 s;
    if block_allocator_current_virtual_address s1 =? 0x101000 then block_allocate 0 table 200 s1
    else Panicked) = true) as H by (vm_compute; reflexivity).
  rewrite E in H. cbn [mbind outcome_bind] in H.
  apply is_done_bind in H as ([p s1] & E1 & H).
  destruct (Z.eqb_spec (block_allocator_current_virtual_address s1) 0x101000) as [Hc1|]; [|done].
  apply is_done_inv in H as ([q s2] & E2).
  assert (block_history 0 table s2 [(q, 200); (p, 100)]) as Hh.
  { apply (bh_allocate _ _ s1 _ 200 q s2); [|lia|lia| |exact E2].
    - apply (bh_allocate _ _ s _ 100 p s1); [|lia|lia| |exact E1].
      + exact (bh_start _ _ s _ Hl W).
      + split; rewrite Hc; vm_compute; congruence.
    - split; rewrite Hc1; vm_compute; congruence. }
  exists table, s, p, s1, q, s2. split; [exact E|]. split; [exact E1|]. split; [exact E2|]. split; [exact Hh|].
  exact (proj2 (block_history_disjoint 0 table s2 _ hhdm_ok_0 Hh) 0%nat 1%nat q 200 p 100
    ltac:(lia) eq_refl eq_refl).
Defined.
