(* ===== verification/Paths.v ===== *)
(** The path functions of [filesystem/vfs.c]: [vfs_dirname], [vfs_basename] and
    [vfs_sanatise_path], on C strings in memory, and what they compute on the
    list of the characters. *)

From S2P Require Import Prelude Memory Libc.

(** ['/']. *)
Definition SLASH : Z := 47.

(** * Model *)

(** [while (path[max_offset] != '/' && max_offset != 0) max_offset--]. *)
Fixpoint back_to_slash (m : mem) (path : Z) (offset : nat) : nat :=
  if negb (ld8 m (path + Z.of_nat offset) =? SLASH)
  then match offset with O => O | S o => back_to_slash m path o end
  else offset.

Definition vfs_dirname (m : mem) (path dirname max_len : Z) : mem :=
  let max_offset := strlen m path in
  let max_offset := if ld8 m (path + max_offset) =? SLASH then max_offset -w 1 else max_offset in
  let max_offset := Z.of_nat (back_to_slash m path (Z.to_nat max_offset)) in
  memcpy m dirname path (u64 (min max_len max_offset)).

Definition vfs_basename (m : mem) (path basename max_len : Z) : mem :=
  let max_offset := strlen m path in
  let base_offset := Z.of_nat (back_to_slash m path (Z.to_nat max_offset)) in
  let base_offset := if ld8 m (path + base_offset) =? SLASH then base_offset + 1 else base_offset in
  memcpy m basename (path + base_offset) (u64 (min max_len (max_offset -w base_offset))).

(** [i++] on an [int]; its overflow is undefined. *)
Definition int_incr (i : Z) : outcome Z := if i =? 2147483647 then Undef else Done (i + 1).

(** [for (int i = index; path[i] != 0; i++) path[i] = path[i + 1]]; [i + 1] is an
    [int], too. *)
Fixpoint shift_left (m : mem) (path i : Z) (fuel : nat) : outcome mem :=
  match fuel with
  | O => Timeout
  | S fuel' =>
      if ld8 m (path + i) =? 0 then Done m else
      next ← int_incr i;
      shift_left (st8 m (path + i) (ld8 m (path + next))) path next fuel'
  end.

(** The outer loop; each round either removes a character or moves on, so the
    length of the string is enough fuel. *)
Fixpoint sanatise_loop (m : mem) (path index : Z) (fuel : nat) : outcome (mem * Z) :=
  match fuel with
  | O => Timeout
  | S fuel' =>
      if ld8 m (path + index) =? 0 then Done (m, index)
      else if (ld8 m (path + index - 1) =? SLASH) && (ld8 m (path + index) =? SLASH) then
        m ← shift_left m path index (S (size m));
        sanatise_loop m path index fuel'
      else
        index ← int_incr index;
        sanatise_loop m path index fuel'
  end.

Definition vfs_sanatise_path (m : mem) (path : Z) : outcome (mem * Z) :=
  if ld8 m path =? 0 then Done (m, 0) else sanatise_loop m path 1 (Z.to_nat (strlen m path)).

(** * Specification *)

(** The string without the delimiters that follow a delimiter. *)
Fixpoint squeeze (prev : Z) (s : list Z) : list Z :=
  match s with
  | [] => []
  | c :: s' => if (prev =? SLASH) && (c =? SLASH) then squeeze prev s' else c :: squeeze c s'
  end.

Definition sanitised (s : list Z) : list Z :=
  match s with
  | [] => []
  | c :: s' => c :: squeeze c s'
  end.

(** No two delimiters next to each other. *)
Definition no_double_slash (s : list Z) : Prop :=
  forall i, s !! i = Some SLASH -> s !! S i <> Some SLASH.

(** * Strings in memory *)

Lemma cstr_cons m p c s : cstr m p (c :: s) <-> ld8 m p = c /\ c <> 0 /\ cstr m (p + 1) s.
Proof.
  unfold cstr. cbn [length bytes]. rewrite Forall_cons.
  replace (p + Z.of_nat (S (length s))) with (p + 1 + Z.of_nat (length s)) by lia.
  split.
  - intros ([= H1 H2] & H3 & H4 & H5). by rewrite H2.
  - intros (<- & H1 & H2 & H3 & H4). by rewrite H2.
Qed.

Lemma cstr_nil m p : cstr m p [] <-> ld8 m p = 0.
Proof.
  unfold cstr. simpl. rewrite Z.add_0_r. split; [by intros (_ & ? & _)|]. intros. by split_and!; [|done|constructor].
Qed.

Lemma cstr_lookup m p s i : cstr m p s -> (i <= length s)%nat ->
  ld8 m (p + Z.of_nat i) = default 0 (s !! i).
Proof.
  intros (H1 & H2 & _) Hi. destruct (decide (i = length s)) as [->|].
  - rewrite lookup_ge_None_2 by lia. done.
  - rewrite <- H1, bytes_lookup by lia. done.
Qed.

Lemma cstr_ext m m' p s :
  (forall b, p <= b <= p + Z.of_nat (length s) -> ld8 m' b = ld8 m b) -> cstr m p s -> cstr m' p s.
Proof.
  intros H (H1 & H2 & H3). split_and!; [|by rewrite H by lia|done].
  rewrite (bytes_ext m m') by (intros; apply H; lia). done.
Qed.

Lemma cstr_length_size m p s : cstr m p s -> (length s <= size m)%nat.
Proof.
  intros H. apply (nonzero_run_bound m p). intros k Hk.
  pose proof (cstr_lookup m p s (Z.to_nat k) H ltac:(lia)) as E. rewrite Z2Nat.id in E by lia. rewrite E.
  destruct H as (_ & _ & Hf). destruct (s !! Z.to_nat k) as [c|] eqn:Ec; [by apply (Forall_lookup_1 _ _ _ _ Hf Ec)|].
  apply lookup_ge_None in Ec. lia.
Qed.

(** * [vfs_sanatise_path] *)

Lemma int_incr_small i : i < 2147483647 -> int_incr i = Done (i + 1).
Proof. intros Hi. unfold int_incr. by rewrite (proj2 (Z.eqb_neq _ _)) by lia. Qed.

Lemma shift_left_spec s : forall m path i c fuel,
  cstr m (path + i) (c :: s) -> (S (length s) < fuel)%nat -> i + Z.of_nat (S (length s)) <= 2147483647 ->
  exists m', shift_left m path i fuel = Done m' /\ cstr m' (path + i) s /\
    changes (fun b => path + i <= b < path + i + Z.of_nat (S (length s))) m m'.
Proof.
  induction s as [|d s IH]; intros m path i c fuel Hc Hf Hi; destruct fuel as [|fuel]; try lia; cbn [shift_left];
    apply cstr_cons in Hc as (H1 & H2 & H3); rewrite H1, (proj2 (Z.eqb_neq c 0)), int_incr_small by (done || lia);
    cbn [mbind outcome_bind]; replace (path + (i + 1)) with (path + i + 1) by lia.
  - destruct fuel as [|fuel]; [simpl in Hf; lia|]. cbn [shift_left]. apply cstr_nil in H3. rewrite H3.
    replace (path + (i + 1)) with (path + i + 1) by lia.
    rewrite ld8_st8, decide_False, H3 by lia. simpl. exists (st8 m (path + i) 0). split_and!; [done| |].
    + apply cstr_nil. by rewrite ld8_st8, decide_True.
    + apply changes_st8; [done|cbn beta; cbn [length]; lia].
  - pose proof H3 as H3'. apply cstr_cons in H3 as (H4 & H5 & H6).
    destruct (IH (st8 m (path + i) (ld8 m (path + i + 1))) path (i + 1) d fuel) as (m' & E & Hs & Hch).
    { replace (path + (i + 1)) with (path + i + 1) by lia.
      apply (cstr_ext m); [|done]. intros b Hb. rewrite ld8_st8, decide_False by lia. done. }
    { simpl in Hf. lia. }
    { cbn [length] in *. lia. }
    replace (path + (i + 1)) with (path + i + 1) in * by lia.
    exists m'. split_and!; [done| |].
    + apply cstr_cons. split_and!; [|done|done]. rewrite (Hch (path + i)) by (simpl; lia).
      rewrite ld8_st8, decide_True, <- H4 by done. unfold u8. apply Z.mod_small, ld8_range.
    + apply (changes_trans _ m (st8 m (path + i) (ld8 m (path + i + 1)))); [apply changes_st8; [done|cbn beta; cbn [length]; lia]|].
      eapply changes_mono; [|exact Hch]. intros b. cbn [length]. lia.
Qed.

Lemma sanatise_loop_spec s : forall m path index prev fuel,
  cstr m (path + index) s -> ld8 m (path + index - 1) = prev -> (length s < fuel)%nat ->
  index + Z.of_nat (length s) <= 2147483647 ->
  exists m' n, sanatise_loop m path index fuel = Done (m', n) /\ n = index + Z.of_nat (length (squeeze prev s)) /\
    cstr m' (path + index) (squeeze prev s) /\
    changes (fun b => path + index <= b < path + index + Z.of_nat (length s)) m m'.
Proof.
  induction s as [|c s IH]; intros m path index prev fuel Hc Hp Hf Hi; destruct fuel as [|fuel]; try lia;
    cbn [sanatise_loop squeeze].
  - pose proof Hc as Hc'. apply cstr_nil in Hc'. rewrite Hc'. simpl. exists m, index. split_and!; [done|simpl; lia|done|done].
  - pose proof Hc as Hc'. apply cstr_cons in Hc' as (H1 & H2 & H3). rewrite H1, (proj2 (Z.eqb_neq c 0)), Hp by done.
    destruct ((prev =? SLASH) && (c =? SLASH)) eqn:E.
    + pose proof (cstr_length_size _ _ _ Hc) as Hsz.
      destruct (shift_left_spec s m path index c (S (size m)) Hc ltac:(simpl in Hsz; lia) Hi) as (m1 & -> & Hs & C1).
      cbn [mbind outcome_bind]. destruct (IH m1 path index prev fuel Hs) as (m' & n & -> & Hn & Hs' & C2).
      { rewrite (C1 (path + index - 1)) by (simpl; lia). done. } { simpl in Hf. lia. } { cbn [length] in Hi. lia. }
      exists m', n. split_and!; [done|done|done|]. eapply changes_trans; [exact C1|].
      eapply changes_mono; [|exact C2]. intros b. cbn [length]. lia.
    + rewrite int_incr_small by (cbn [length] in Hi; lia). cbn [mbind outcome_bind].
      replace (path + index + 1) with (path + (index + 1)) in H3 by lia.
      destruct (IH m path (index + 1) c fuel H3) as (m' & n & -> & Hn & Hs' & C2).
      { by replace (path + (index + 1) - 1) with (path + index) by lia. } { simpl in Hf. lia. } { cbn [length] in Hi. lia. }
      exists m', n. split_and!; [done|simpl; lia| |].
      * apply cstr_cons. replace (path + index + 1) with (path + (index + 1)) by lia. split_and!; [|done|done].
        rewrite (C2 (path + index)) by lia. done.
      * eapply changes_mono; [|exact C2]. intros b. cbn [length]. lia.
Qed.

Lemma squeeze_no_double s : forall prev,
  no_double_slash (squeeze prev s) /\ (prev = SLASH -> squeeze prev s !! 0%nat <> Some SLASH).
Proof.
  induction s as [|c s IH]; intros prev; cbn [squeeze]; [by split|].
  destruct ((prev =? SLASH) && (c =? SLASH)) eqn:E; [apply IH|]. destruct (IH c) as [H1 H2]. split.
  - intros [|i]; [|apply H1]. intros [= ->]. by apply H2.
  - intros -> [= ->]. discriminate E.
Qed.

Lemma sanitised_no_double s : no_double_slash (sanitised s).
Proof.
  destruct s as [|c s]; [done|]. destruct (squeeze_no_double s c) as [H1 H2]. intros [|i]; simpl; [|apply H1].
  intros [= ->]. by apply H2.
Qed.

(** A path without double delimiters is left alone. *)
Lemma squeeze_id s : forall prev, no_double_slash (prev :: s) -> squeeze prev s = s.
Proof.
  induction s as [|c s IH]; intros prev H; cbn [squeeze]; [done|].
  destruct (Z.eqb_spec prev SLASH) as [->|Hp]; destruct (Z.eqb_spec c SLASH) as [->|Hc]; cbn [andb];
    try (f_equal; apply IH; intros i; apply (H (S i))).
  exfalso. by apply (H 0%nat).
Qed.

(** * [vfs_dirname] and [vfs_basename] *)

(** The position of the last delimiter at or before [offset], or 0. *)
Lemma back_to_slash_spec m path offset :
  let r := back_to_slash m path offset in
  (r <= offset)%nat /\ (forall i, (r < i <= offset)%nat -> ld8 m (path + Z.of_nat i) <> SLASH) /\
  (r <> O -> ld8 m (path + Z.of_nat r) = SLASH).
Proof.
  induction offset as [|o IH]; cbn [back_to_slash].
  - destruct (negb _); split_and!; [lia|lia|done|lia|lia|done].
  - destruct (Z.eqb_spec (ld8 m (path + Z.of_nat (S o))) SLASH) as [E|E]; cbn [negb].
    + split_and!; [lia|lia|done].
    + destruct IH as (H1 & H2 & H3). split_and!; [lia| |done]. intros i Hi.
      destruct (decide (i = S o)) as [->|]; [done|]. apply H2. lia.
Qed.

(** The last delimiter of [d ++ [SLASH] ++ b]. *)
Lemma back_to_slash_split m path d b :
  cstr m path (d ++ SLASH :: b) -> SLASH ∉ b ->
  back_to_slash m path (length (d ++ SLASH :: b)) = length d.
Proof.
  intros Hc Hb. pose proof (back_to_slash_spec m path (length (d ++ SLASH :: b))) as H. cbv zeta in H.
  set (r := back_to_slash _ _ _) in *. destruct H as (H1 & H2 & H3).
  assert (Hd : ld8 m (path + Z.of_nat (length d)) = SLASH).
  { rewrite (cstr_lookup _ _ _ _ Hc) by (rewrite length_app; lia). by rewrite list_lookup_middle. }
  destruct (Nat.lt_trichotomy r (length d)) as [Hlt|[|Hgt]]; [|done|].
  - exfalso. apply (H2 (length d)); [rewrite length_app; lia|done].
  - exfalso. apply Hb. specialize (H3 ltac:(lia)). rewrite (cstr_lookup _ _ _ _ Hc) in H3 by done.
    rewrite lookup_app_r in H3 by lia. destruct (r - length d)%nat as [|k] eqn:Ek; [lia|]. simpl in H3.
    destruct (b !! k) as [c|] eqn:Eb; [|done]. simpl in H3. subst c. by eapply list_elem_of_lookup_2.
Qed.

Lemma back_to_slash_none m path s :
  cstr m path s -> SLASH ∉ s -> back_to_slash m path (length s) = O.
Proof.
  intros Hc Hs. pose proof (back_to_slash_spec m path (length s)) as H. cbv zeta in H.
  set (r := back_to_slash _ _ _) in *. destruct H as (H1 & _ & H3). destruct (decide (r = O)) as [|Hr]; [done|].
  exfalso. specialize (H3 Hr). rewrite (cstr_lookup _ _ _ _ Hc) in H3 by done.
  destruct (s !! r) as [c|] eqn:Ec; [|done]. simpl in H3. subst c. apply Hs. by eapply list_elem_of_lookup_2.
Qed.

(** A copy of [n] bytes to a place apart. *)
Lemma bytes_memcpy m dest src n :
  0 <= n -> dest + n <= src \/ src + n <= dest ->
  bytes (memcpy m dest src n) dest (Z.to_nat n) = bytes m src (Z.to_nat n) /\
  changes (fun b => dest <= b < dest + n) m (memcpy m dest src n).
Proof.
  intros Hn Hd. unfold memcpy. split.
  - apply list_eq_same_length with (n := Z.to_nat n); rewrite ?length_bytes; [done..|].
    intros i x y Hi Hx Hy. rewrite bytes_lookup in Hx, Hy by done. rewrite ld8_memcpy_loop in Hx by lia.
    rewrite decide_True in Hx by lia. injection Hx as <-. injection Hy as <-. f_equal. lia.
  - apply changes_memcpy. intros. lia.
Qed.

(** ** Writing a string *)

Fixpoint put (m : mem) (p : Z) (l : list Z) : mem :=
  match l with
  | [] => m
  | c :: l' => put (st8 m p c) (p + 1) l'
  end.

Lemma ld8_put l : forall m p b, Forall (fun c => 0 <= c < 256) l ->
  ld8 (put m p l) b = if decide (p <= b < p + Z.of_nat (length l)) then default 0 (l !! Z.to_nat (b - p)) else ld8 m b.
Proof.
  induction l as [|c l IH]; intros m p b Hl; cbn [put length].
  - by rewrite decide_False by lia.
  - apply Forall_cons in Hl as [Hc Hl]. rewrite IH, ld8_st8 by done.
    destruct (decide (p = b)) as [->|Hne].
    + rewrite decide_False, decide_True, Z.sub_diag by lia. unfold u8. by rewrite Z.mod_small.
    + destruct (decide (p + 1 <= b < p + 1 + Z.of_nat (length l))).
      * rewrite decide_True by lia. replace (Z.to_nat (b - p)) with (S (Z.to_nat (b - (p + 1)))) by lia. done.
      * by rewrite decide_False by lia.
Qed.

Lemma bytes_put l : forall m p, Forall (fun c => 0 <= c < 256) l -> bytes (put m p l) p (length l) = l.
Proof.
  intros m p Hl. apply list_eq. intros i. destruct (decide (i < length l)%nat) as [Hi|Hi].
  - rewrite bytes_lookup by done. rewrite ld8_put, decide_True by (done || lia).
    replace (Z.to_nat (p + Z.of_nat i - p)) with i by lia. destruct (l !! i) eqn:E; [done|]. apply lookup_ge_None in E. lia.
  - rewrite !lookup_ge_None_2; [done|lia|rewrite length_bytes; lia].
Qed.

Lemma put_spec l : forall m p,
  Forall (fun c => 0 < c < 256) l -> ld8 m (p + Z.of_nat (length l)) = 0 ->
  cstr (put m p l) p l /\ changes (fun b => p <= b < p + Z.of_nat (length l)) m (put m p l).
Proof.
  induction l as [|c l IH]; intros m p Hl H0; cbn [put].
  - split; [|done]. apply cstr_nil. by rewrite Z.add_0_r in H0.
  - apply Forall_cons in Hl as [Hc Hl]. cbn [length] in *. destruct (IH (st8 m p c) (p + 1) Hl) as [H1 H2].
    { rewrite ld8_st8, decide_False by lia. rewrite <- H0. f_equal. lia. }
    split.
    + apply cstr_cons. split_and!; [|lia|done]. rewrite (H2 p) by lia. rewrite ld8_st8, decide_True by done.
      unfold u8. apply Z.mod_small. lia.
    + apply (changes_trans _ m (st8 m p c)).
      * apply changes_st8; [done|cbn beta; lia].
      * eapply changes_mono; [|exact H2]. intros b. cbn beta. lia.
Qed.

(** * Properties *)

(** C38. vfs_sanatise_path terminates on every string of at most 2^31-1 characters, where its
    int indices do not overflow, leaves the string without its repeated delimiters, returns its
    length and writes nowhere else; a string without repeated delimiters is unchanged. *)
Theorem sanatise_refines (m : mem) (path : Z) (s : list Z) :
  cstr m path s -> Z.of_nat (length s) <= 2147483647 ->
  exists m', vfs_sanatise_path m path = Done (m', Z.of_nat (length (sanitised s))) /\
    cstr m' path (sanitised s) /\ no_double_slash (sanitised s) /\
    (no_double_slash s -> sanitised s = s) /\
    changes (fun b => path <= b < path + Z.of_nat (length s)) m m'.
Proof.
  intros Hc Hlen. unfold vfs_sanatise_path. destruct s as [|c s].
  - pose proof Hc as H0. apply cstr_nil in H0. rewrite H0. simpl. exists m. split_and!; try done.
  - pose proof Hc as Hc'. apply cstr_cons in Hc' as (H1 & H2 & H3). rewrite H1, (proj2 (Z.eqb_neq c 0)) by done.
    rewrite (strlen_cstr _ _ _ Hc), Nat2Z.id.
    destruct (sanatise_loop_spec s m path 1 c (length (c :: s)) H3) as (m' & n & -> & Hn & Hs & Hch).
    { by replace (path + 1 - 1) with path by lia. } { simpl. lia. } { cbn [length] in Hlen. lia. }
    exists m'. split_and!; [|..].
    + do 2 f_equal. rewrite Hn. simpl. lia.
    + apply cstr_cons. split_and!; [|done|done]. rewrite (Hch path) by lia. done.
    + apply sanitised_no_double.
    + intros Hnd. simpl. by rewrite squeeze_id.
    + eapply changes_mono; [|exact Hch]. intros b. cbn [length]. lia.
Qed.

(** ["/a//b"] at 100. *)
Definition demo_string : mem := list_to_map (zip (seqZ 100 6) [47; 97; 47; 47; 98; 0]).

Lemma sanatise_refines_witness :
  exists m', vfs_sanatise_path demo_string 100 = Done (m', 4) /\ cstr m' 100 [47; 97; 47; 98].
Proof.
  destruct (sanatise_refines demo_string 100 [47; 97; 47; 47; 98]) as (m' & E & Hs & _).
  - split; [vm_compute; reflexivity|]. split; [vm_compute; reflexivity|]. repeat constructor; discriminate.
  - simpl. lia.
  - exists m'. split; [exact E|exact Hs].
Defined.

(** vfs_basename copies what follows the last delimiter and vfs_dirname what precedes it, also
    when the path ends with the delimiter; neither writes anything else. *)
Theorem path_parts (m : mem) (path dest max_len : Z) (d b : list Z) :
  cstr m path (d ++ SLASH :: b) -> (SLASH ∉ b) ->
  Z.of_nat (length (d ++ SLASH :: b)) <= max_len < 2147483648 ->
  dest + max_len <= path \/ path + max_len <= dest ->
  (let m' := vfs_basename m path dest max_len in
   bytes m' dest (length b) = b /\ changes (fun a => dest <= a < dest + Z.of_nat (length b)) m m') /\
  (let m' := vfs_dirname m path dest max_len in
   bytes m' dest (length d) = d /\ changes (fun a => dest <= a < dest + Z.of_nat (length d)) m m').
Proof.
  intros Hc Hb Hlen Hd. pose proof (strlen_cstr _ _ _ Hc) as Hs.
  pose proof (back_to_slash_split m path d b Hc Hb) as Hr.
  assert (Hsl : ld8 m (path + Z.of_nat (length d)) = SLASH).
  { rewrite (cstr_lookup _ _ _ _ Hc) by (rewrite length_app; lia). by rewrite list_lookup_middle. }
  pose proof Hc as (Hbytes & H0 & _). rewrite length_app in *. cbn [length] in *.
  set (n := length d) in *. set (k := length b) in *.
  split; cbv zeta.
  - unfold vfs_basename. rewrite Hs, Nat2Z.id, Hr, Hsl, Z.eqb_refl.
    rewrite (u64_small (Z.of_nat (n + S k) - _)) by lia. rewrite min_small by lia.
    rewrite u64_small by lia. replace (Z.min max_len _) with (Z.of_nat k) by lia.
    destruct (bytes_memcpy m dest (path + (Z.of_nat n + 1)) (Z.of_nat k)) as [H1 H2]; [lia|lia|].
    rewrite Nat2Z.id in H1. split; [|done]. rewrite H1.
    replace (n + S k)%nat with (S n + k)%nat in Hbytes by lia. rewrite bytes_app in Hbytes.
    change (d ++ SLASH :: b) with (d ++ [SLASH] ++ b) in Hbytes. rewrite app_assoc in Hbytes.
    apply app_inj_1 in Hbytes as [_ Hb']; [etrans; [|exact Hb']; f_equal; lia|]. rewrite length_bytes, length_app. simpl. lia.
  - unfold vfs_dirname. rewrite Hs, H0. change (0 =? SLASH) with false. cbv iota. rewrite Nat2Z.id, Hr.
    rewrite min_small by lia. rewrite u64_small by lia. replace (Z.min max_len _) with (Z.of_nat n) by lia.
    destruct (bytes_memcpy m dest path (Z.of_nat n)) as [H1 H2]; [lia|lia|].
    rewrite Nat2Z.id in H1. split; [|done]. rewrite H1.
    rewrite bytes_app in Hbytes. apply app_inj_1 in Hbytes as [Hd' _]; [exact Hd'|]. by rewrite length_bytes.
Qed.

Lemma path_parts_witness :
  bytes (vfs_basename demo_string 100 200 64) 200 1 = [98] /\
  bytes (vfs_dirname demo_string 100 200 64) 200 3 = [47; 97; 47].
Proof.
  destruct (path_parts demo_string 100 200 64 [47; 97; 47] [98]) as [[H1 _] [H2 _]].
  - split; [vm_compute; reflexivity|]. split; [vm_compute; reflexivity|]. repeat constructor; discriminate.
  - rewrite list_elem_of_singleton. discriminate.
  - simpl. lia.
  - lia.
  - split; [exact H1|exact H2].
Defined.
