(* ===== verification/KernelHeap.v ===== *)
(** The interface between the two allocators and the rest of the kernel: pages
    and blocks that are fresh, zeroed and stay what their holder made them.  The
    block allocator over a page source is an instance. *)

From S2P Require Import Prelude Memory Libc Spinlock PageAllocator PageAllocatorSpec PageTable BlockAllocator BlockAllocatorSpec Paths.

Class KernelHeap (St : Type) := {
  kh_mem : St -> mem;
  kh_with_mem : St -> mem -> St;
  kh_page_allocate : Z -> St -> outcome (Z * St);
  kh_page_reallocate : Z -> Z -> Z -> St -> outcome (Z * St);
  kh_page_deallocate : Z -> Z -> St -> outcome St;
  kh_block_allocate : Z -> St -> outcome (Z * St);
  kh_block_deallocate : Z -> St -> outcome St;
  kh_ok : St -> Prop;
  kh_fits : list Z -> St -> Prop;
  kh_live : St -> Z -> Prop;
  kh_block : St -> Z -> Prop;
  kh_extent : St -> Z -> Z
}.

(** The byte [b] is inside a block that is in use. *)
Definition kh_data `{KernelHeap St} (s : St) (b : Z) : Prop :=
  exists a, kh_block s a /\ a <= b < a + kh_extent s a.

(** The blocks in use stay in use, with their bytes. *)
Definition kh_keeps `{KernelHeap St} (s s' : St) : Prop :=
  forall a, kh_block s a -> kh_block s' a /\ kh_extent s' a = kh_extent s a /\
    forall b, a <= b < a + kh_extent s a -> ld8 (kh_mem s') b = ld8 (kh_mem s) b.

(** [kh_live s a]: the page or block at [a] is in use; [kh_block s a]: the block
    is, and it has [kh_extent s a] bytes.  [kh_fits l s]: the region of the
    blocks can still grow by blocks of the sizes [l]. *)
Class KernelHeapLaws (St : Type) `{!KernelHeap St} : Prop := {
  kh_mem_law : forall (s : St) m, kh_mem (kh_with_mem s m) = m;
  kh_page_outcome : forall (s : St), kh_ok s ->
    kh_page_allocate 1 s = Panicked \/ exists p s', kh_page_allocate 1 s = Done (p, s');
  kh_page_law : forall (s s' : St) p, kh_ok s -> kh_page_allocate 1 s = Done (p, s') ->
    kh_ok s' /\ p <> 0 /\ ~ kh_live s p /\ kh_live s' p /\ (forall a, kh_live s a -> kh_live s' a) /\
    (forall b, p <= b < p + PAGE -> ld8 (kh_mem s') b = 0) /\
    (forall l, kh_fits l s' <-> kh_fits l s) /\ kh_keeps s s';
  kh_block_outcome : forall (s : St) n l, kh_ok s -> kh_fits (n :: l) s ->
    kh_block_allocate n s = Panicked \/ exists p s', kh_block_allocate n s = Done (p, s');
  kh_block_law : forall (s s' : St) n l p, kh_ok s -> kh_fits (n :: l) s ->
    kh_block_allocate n s = Done (p, s') ->
    kh_ok s' /\ p <> 0 /\ ~ kh_live s p /\ kh_live s' p /\ (forall a, kh_live s a -> kh_live s' a) /\
    (forall b, p <= b < p + n -> ld8 (kh_mem s') b = 0) /\
    kh_block s' p /\ n <= kh_extent s' p /\ kh_fits l s' /\ kh_keeps s s';
  kh_free_law : forall (s : St) p, kh_ok s -> kh_block s p ->
    exists s', kh_block_deallocate p s = Done s' /\ kh_ok s' /\ ~ kh_block s' p /\
      forall a, kh_block s a -> a <> p -> kh_block s' a /\ kh_extent s' a = kh_extent s a /\
        forall b, a <= b < a + kh_extent s a -> ld8 (kh_mem s') b = ld8 (kh_mem s) b;
  kh_block_live : forall (s : St) a, kh_block s a -> kh_live s a;
  kh_range : forall (s : St) a, kh_ok s -> kh_block s a ->
    0 < a /\ 0 < kh_extent s a /\ a + kh_extent s a < 18446744073709551616;
  kh_disjoint : forall (s : St) a b, kh_ok s -> kh_block s a -> kh_block s b -> a <> b ->
    a + kh_extent s a <= b \/ b + kh_extent s b <= a;
  kh_write_law : forall (s : St) m, kh_ok s -> changes (kh_data s) (kh_mem s) m ->
    kh_ok (kh_with_mem s m) /\
    (forall a, kh_live (kh_with_mem s m) a <-> kh_live s a) /\
    (forall a, kh_block (kh_with_mem s m) a <-> kh_block s a) /\
    (forall a, kh_block s a -> kh_extent (kh_with_mem s m) a = kh_extent s a) /\
    (forall l, kh_fits l (kh_with_mem s m) <-> kh_fits l s)
}.

#[export] Instance kh_keeps_preorder `{KernelHeap St} : PreOrder kh_keeps.
Proof.
  split.
  - intros s a Ha. done.
  - intros s1 s2 s3 H1 H2 a Ha. destruct (H1 a Ha) as (B2 & E2 & M2). destruct (H2 a B2) as (B3 & E3 & M3).
    split_and!; [done|congruence|]. intros b Hb. rewrite M3 by lia. by apply M2.
Qed.

(** A kernel heap serves the page-table manager. *)
#[export] Instance heap_source {St} `{!KernelHeap St} : PageSource St := {|
  src_mem := kh_mem;
  src_with_mem := kh_with_mem;
  src_page_allocate := kh_page_allocate;
  src_page_reallocate := kh_page_reallocate;
  src_page_deallocate := kh_page_deallocate;
  src_ok := kh_ok;
  src_owned := kh_live;
  src_in := fun R s => forall a b, kh_live s a -> a <= b < a + PAGE -> R b
|}.

(** The page operations of a heap with an invariant of their own: early in the
    boot there are pages but no blocks. *)
Definition page_view {H : Type} `{!KernelHeap H} (ok : H -> Prop) (owned : H -> Z -> Prop) (inside : (Z -> Prop) -> H -> Prop) : PageSource H := {|
  src_mem := kh_mem;
  src_with_mem := kh_with_mem;
  src_page_allocate := kh_page_allocate;
  src_page_reallocate := kh_page_reallocate;
  src_page_deallocate := kh_page_deallocate;
  src_ok := ok;
  src_owned := owned;
  src_in := inside
|}.

(** * Copying a name into a fresh block *)

Section Copy.
Context {H : Type} `{!KernelHeap H}.

Lemma copy_name (h : H) copy name n :
  kh_ok h -> kh_block h copy -> Z.of_nat (length n) <= kh_extent h copy -> Forall (fun c => c <> 0) n ->
  bytes (kh_mem h) name (length n) = n ->
  (forall b, copy <= b < copy + Z.of_nat (length n) -> ld8 (kh_mem h) b = 0) ->
  let m := memcpy (kh_mem h) copy name (Z.of_nat (length n)) in
  bytes m copy (length n) = n /\ changes (fun b => copy <= b < copy + Z.of_nat (length n)) (kh_mem h) m /\
  changes (kh_data h) (kh_mem h) m.
Proof using.
  intros Hok Hb He Hnz Hn Hz m.
  assert (copy + Z.of_nat (length n) <= name \/ name + Z.of_nat (length n) <= copy) as Hd.
  { destruct (decide (copy + Z.of_nat (length n) <= name)); [by left|].
    destruct (decide (name + Z.of_nat (length n) <= copy)); [by right|]. exfalso.
    set (b := Z.max copy name). assert (copy <= b < copy + Z.of_nat (length n)) as Hb1 by lia.
    assert (n !! Z.to_nat (b - name) = Some 0) as Hl.
    { rewrite <- Hn, bytes_lookup by lia. rewrite Z2Nat.id by lia. f_equal. rewrite <- (Hz b Hb1). f_equal. lia. }
    by apply (Forall_lookup_1 _ _ _ _ Hnz Hl). }
  destruct (bytes_memcpy (kh_mem h) copy name (Z.of_nat (length n)) ltac:(lia) Hd) as [H1 H2].
  rewrite Nat2Z.id, Hn in H1. split_and!; [done|done|]. eapply changes_mono; [|exact H2].
  intros b Hb'. exists copy. split; [done|]. cbn beta in Hb'. lia.
Qed.
End Copy.

(** * A heap that is a part of a larger state *)

Section Lift.
Context {S H : Type} (get : S -> H) (set : S -> H -> S) `{!KernelHeap H}.

Definition lift_op {A} (f : H -> outcome (A * H)) (s : S) : outcome (A * S) :=
  '(a, h) ← f (get s); Done (a, set s h).

Definition lift_heap : KernelHeap S := {|
  kh_mem := fun s => kh_mem (get s);
  kh_with_mem := fun s m => set s (kh_with_mem (get s) m);
  kh_page_allocate := fun n => lift_op (kh_page_allocate n);
  kh_page_reallocate := fun base old_pages new_pages => lift_op (kh_page_reallocate base old_pages new_pages);
  kh_page_deallocate := fun base pages s => h ← kh_page_deallocate base pages (get s); Done (set s h);
  kh_block_allocate := fun n => lift_op (kh_block_allocate n);
  kh_block_deallocate := fun p s => h ← kh_block_deallocate p (get s); Done (set s h);
  kh_ok := fun s => kh_ok (get s);
  kh_fits := fun l s => kh_fits l (get s);
  kh_live := fun s => kh_live (get s);
  kh_block := fun s => kh_block (get s);
  kh_extent := fun s => kh_extent (get s)
|}.

Lemma lift_op_done {A} (f : H -> outcome (A * H)) s a s' :
  lift_op f s = Done (a, s') -> exists h, f (get s) = Done (a, h) /\ s' = set s h.
Proof using. intros E. apply bind_done_inv in E as ([a' h] & E & [= -> <-]). by exists h. Qed.

Lemma lift_op_outcome (f : H -> outcome (Z * H)) s :
  f (get s) = Panicked \/ (exists p h, f (get s) = Done (p, h)) ->
  lift_op f s = Panicked \/ exists p s', lift_op f s = Done (p, s').
Proof using. unfold lift_op. intros [->|(p & h & ->)]; [by left|right]. by eexists _, _. Qed.

Lemma lift_heap_laws `{!KernelHeapLaws H} : (forall s h, get (set s h) = h) -> @KernelHeapLaws S lift_heap.
Proof using.
  intros Hgs. split; cbn.
  - intros s m. rewrite Hgs. apply kh_mem_law.
  - intros s Hok. apply lift_op_outcome. by apply kh_page_outcome.
  - intros s s' p Hok (h & E & ->)%lift_op_done. unfold kh_keeps. cbn. rewrite Hgs. exact (kh_page_law _ _ _ Hok E).
  - intros s n l Hok Hfit. apply lift_op_outcome. by eapply kh_block_outcome.
  - intros s s' n l p Hok Hfit (h & E & ->)%lift_op_done. unfold kh_keeps. cbn. rewrite Hgs.
    exact (kh_block_law _ _ _ _ _ Hok Hfit E).
  - intros s p Hok Hb. destruct (kh_free_law _ _ Hok Hb) as (h & E & R). exists (set s h). rewrite E, Hgs. by split.
  - intros s a. apply kh_block_live.
  - intros s a. apply kh_range.
  - intros s a b. apply kh_disjoint.
  - intros s m Hok Hc. rewrite Hgs. exact (kh_write_law (get s) m Hok Hc).
Qed.
End Lift.

(** The same for a page source. *)
Section LiftPages.
Context {S H : Type} (get : S -> H) (set : S -> H -> S) `{!PageSource H}.

Definition lift_pages : PageSource S := {|
  src_mem := fun s => src_mem (get s);
  src_with_mem := fun s m => set s (src_with_mem (get s) m);
  src_page_allocate := fun n => lift_op get set (src_page_allocate n);
  src_page_reallocate := fun base old_pages new_pages => lift_op get set (src_page_reallocate base old_pages new_pages);
  src_page_deallocate := fun base pages s => h ← src_page_deallocate base pages (get s); Done (set s h);
  src_ok := fun s => src_ok (get s);
  src_owned := fun s => src_owned (get s);
  src_in := fun R s => src_in R (get s)
|}.

Lemma lift_pages_laws hhdm : PageSourceLaws hhdm H -> (forall s h, get (set s h) = h) -> (forall s h h', set (set s h) h' = set s h') ->
  @PageSourceLaws hhdm S lift_pages.
Proof using.
  intros [L1 L2 L3 L4 L5 L6 L7 L8 L9 L10] Hgs Hss.
  split; unfold src_bytes in *; cbn [src_mem src_with_mem src_page_allocate src_ok src_owned src_in lift_pages] in *.
  - intros s m. rewrite Hgs. apply L1.
  - intros s m m'. by rewrite Hgs, Hss, L2.
  - intros s. apply L3.
  - intros s n Hok Hn Hr. apply lift_op_outcome. by apply L4.
  - intros s s' n p Hok Hn Hr (h & E & ->)%lift_op_done. rewrite Hgs. exact (L5 _ _ _ _ Hok Hn Hr E).
  - intros s s' R n p Hok HR Hn Hr (h & E & ->)%lift_op_done. rewrite Hgs. exact (L6 _ _ _ _ _ Hok HR Hn Hr E).
  - intros s. apply L7.
  - intros s R m. rewrite Hgs. apply L8.
  - intros s R m. rewrite Hgs. apply L9.
  - intros s. apply L10.
Qed.
End LiftPages.

(** * The block allocator as a kernel heap *)

Lemma dlist_fun nx pv h l l' prev prev' : dlist nx pv prev h l -> dlist nx pv prev' h l' -> l = l'.
Proof.
  revert h l' prev prev'. induction l as [|b l IH]; intros h [|b' l'] prev prev'; simpl.
  - done.
  - intros -> (E & H0 & _). by rewrite E in H0.
  - intros (-> & H0 & _) ->. done.
  - intros (-> & _ & _ & H1) (<- & _ & _ & H2). f_equal. by eapply IH.
Qed.

Section BlockHeap.
Context (hhdm table : Z) {St : Type} `{!PageSource St} `{!PageSourceLaws hhdm St}.

(** The state with another page source. *)
Definition with_src (s : ba_state St) (src : St) : ba_state St :=
  BA src (block_free_list_start s) (block_busy_list_start s) (block_allocator_virtual_base s)
    (block_allocator_current_virtual_address s) (block_allocator_lock s).

Definition ba_page_allocate (n : Z) (s : ba_state St) : outcome (Z * ba_state St) :=
  '(p, src) ← src_page_allocate n (ba_src s); Done (p, with_src s src).

Definition ba_page_reallocate (base old_pages new_pages : Z) (s : ba_state St) : outcome (Z * ba_state St) :=
  '(p, src) ← src_page_reallocate base old_pages new_pages (ba_src s); Done (p, with_src s src).

Definition ba_page_deallocate (base pages : Z) (s : ba_state St) : outcome (ba_state St) :=
  src ← src_page_deallocate base pages (ba_src s); Done (with_src s src).

(** The block at [a] is on the busy list. *)
Definition busy_block (s : ba_state St) (a : Z) : Prop :=
  exists B, dlist (h_next (ba_mem s)) (h_previous (ba_mem s)) 0 (block_busy_list_start s) B /\
    a - 48 ∈ B.

(** The pages that blocks of the sizes [l] may need. *)
Definition list_pages (l : list Z) : Z := foldr (fun n acc => block_pages n + acc) 0 l.

#[local] Instance ba_heap : KernelHeap (ba_state St) := {|
  kh_mem := ba_mem;
  kh_with_mem := set_ba_mem;
  kh_page_allocate := ba_page_allocate;
  kh_page_reallocate := ba_page_reallocate;
  kh_page_deallocate := ba_page_deallocate;
  kh_block_allocate := block_allocate hhdm table;
  kh_block_deallocate := block_deallocate;
  kh_ok := fun s => block_allocator_lock s = false /\ exists F B, ba_wf hhdm table s F B;
  kh_fits := fun l s => Forall (fun n => 0 <= n /\ n + 16384 < 18446744073709551616) l /\
                        room s (list_pages l);
  kh_live := fun s a => src_owned (ba_src s) a \/ busy_block s a;
  kh_block := busy_block;
  kh_extent := fun s a => h_size (ba_mem s) (a - 48)
|}.

Lemma busy_iff s F B a : ba_wf hhdm table s F B -> busy_block s a <-> a - 48 ∈ B.
Proof using.
  intros W. split.
  - intros (B' & Hd & Ha). by rewrite (dlist_fun _ _ _ _ _ _ _ Hd (hp_busy _ _ _ _ _ _ _ (bw_heap _ _ _ _ _ W))) in Ha.
  - intros Ha. exists B. split; [apply W|done].
Qed.

(** Pages lie below the region of the blocks. *)
Lemma page_not_busy s F B a :
  ba_wf hhdm table s F B -> src_owned (ba_src s) a -> a - 48 ∉ B.
Proof using PageSourceLaws0.
  intros W Ho Hb. pose proof (law_below_owned _ _ _ (bw_ok _ _ _ _ _ W) (bw_below _ _ _ _ _ W) Ho).
  pose proof (ly_in _ _ _ _ (hp_layout _ _ _ _ _ _ _ (bw_heap _ _ _ _ _ W)) (a - 48) ltac:(set_solver)).
  unfold PAGE in *. lia.
Qed.

Lemma ba_page_wf s F B p src n :
  hhdm_ok hhdm -> ba_wf hhdm table s F B -> 1 <= n -> in_u64 (n * PAGE) ->
  src_page_allocate n (ba_src s) = Done (p, src) ->
  ba_wf hhdm table (BA src (block_free_list_start s) (block_busy_list_start s)
             (block_allocator_virtual_base s) (block_allocator_current_virtual_address s)
             (block_allocator_lock s)) F B.
Proof using PageSourceLaws0.
  intros Hh W Hn Hr Ha. destruct (law_alloc _ _ _ _ (bw_ok _ _ _ _ _ W) Hn Hr Ha) as (Hok & _).
  destruct (law_below _ _ _ _ _ (bw_ok _ _ _ _ _ W) (bw_below _ _ _ _ _ W) Hn Hr Ha) as [B1 C1].
  destruct (bw_table _ _ _ _ _ W) as [t Ht]. split; [done|done| |apply W|].
  - exists t. by eapply table_view_alloc.
  - eapply heap_frame; [exact C1| |apply W]. intros a Ha' Hlt. cbn beta in Hlt.
    pose proof (heap_header_byte _ _ _ _ _ _ _ _ (bw_heap _ _ _ _ _ W) Ha'). lia.
Qed.

Lemma block_live_step s F B b s' F' :
  ba_wf hhdm table s F B -> ba_wf hhdm table s' F' (b :: B) -> keeps s s' ->
  ~ (src_owned (ba_src s) (b + 48) \/ busy_block s (b + 48)) /\ busy_block s' (b + 48) /\
  (forall a, src_owned (ba_src s) a \/ busy_block s a -> src_owned (ba_src s') a \/ busy_block s' a).
Proof using PageSourceLaws0.
  intros W W' Ke. rewrite (busy_iff s F B), (busy_iff s' F' (b :: B)) by done.
  replace (b + 48 - 48) with b by lia. split_and!; [|set_solver|].
  - intros [Ho|Hb].
    + apply Ke in Ho. eapply (page_not_busy s' F' (b :: B)) in Ho; [|done].
      apply Ho. replace (b + 48 - 48) with b by lia. set_solver.
    + pose proof (ly_nodup _ _ _ _ (hp_layout _ _ _ _ _ _ _ (bw_heap _ _ _ _ _ W'))) as Hn.
      apply NoDup_app in Hn as (_ & _ & Hn). by apply NoDup_cons in Hn as [Hn _].
  - intros a [Ho|Hb]; [left; by apply Ke|right]. rewrite (busy_iff s F B) in Hb by done.
    rewrite (busy_iff s' F' (b :: B)) by done. set_solver.
Qed.

Context (Hh : hhdm_ok hhdm).

Lemma room_step (s s' : ba_state St) a b :
  room s (a + b) -> 0 <= b ->
  0 <= block_allocator_current_virtual_address s <= block_allocator_current_virtual_address s' ->
  block_allocator_current_virtual_address s' <= block_allocator_current_virtual_address s + a * PAGE ->
  block_allocator_current_virtual_address s mod PAGE = 0 ->
  block_allocator_current_virtual_address s' mod PAGE = 0 -> room s' b.
Proof using.
  intros [R1 R2] Hb [H0 H1] H2 A1 A2. unfold room, page_number, PAGE in *. split; [lia|].
  set (x := block_allocator_current_virtual_address s) in *.
  set (y := block_allocator_current_virtual_address s') in *.
  assert (y / 4096 - x / 4096 <= a) as Hd by zlia. assert (x / 4096 <= y / 4096) by (apply Z.div_le_mono; lia).
  assert (y / 4096 mod 68719476736 = x / 4096 mod 68719476736 + (y / 4096 - x / 4096)) as ->; [|lia].
  symmetry. apply Z.mod_unique with (x / 4096 / 68719476736); [|zlia].
  left. pose proof (Z.mod_pos_bound (x / 4096) 68719476736). lia.
Qed.

Lemma block_pages_nonneg n : 0 <= n -> n + 16384 < 18446744073709551616 -> 0 <= block_pages n.
Proof using.
  intros H0 Hr. destruct (round_size_spec n H0 ltac:(lia)) as (Q1 & Q2 & Q3). unfold block_pages, PAGE. zlia.
Qed.

Lemma list_pages_nonneg l :
  Forall (fun n => 0 <= n /\ n + 16384 < 18446744073709551616) l -> 0 <= list_pages l.
Proof using.
  induction 1 as [|n l [H1 H2] _ IH]; simpl; [lia|]. pose proof (block_pages_nonneg n H1 H2). unfold list_pages in *. lia.
Qed.

Lemma fits_head (s : ba_state St) n l : kh_fits (n :: l) s ->
  0 <= n /\ n + 16384 < 18446744073709551616 /\ room s (block_pages n).
Proof using.
  intros [Hf [R1 R2]]. apply Forall_cons in Hf as [[H1 H2] Hl]. pose proof (list_pages_nonneg l Hl).
  change (list_pages (n :: l)) with (block_pages n + list_pages l) in *. split_and!; [done|done|].
  unfold room, PAGE in *. split; lia.
Qed.

(** The blocks of the busy list keep their extents and bytes. *)
Lemma keeps_of s s' F B F' B' :
  ba_wf hhdm table s F B -> ba_wf hhdm table s' F' B' -> (forall x, x ∈ B -> x ∈ B') ->
  (forall x, x ∈ B -> h_size (ba_mem s') x = h_size (ba_mem s) x /\
       forall a, content (ba_mem s) x a -> ld8 (ba_mem s') a = ld8 (ba_mem s) a) ->
  kh_keeps s s'.
Proof using.
  intros W W' Hin Hk a Ha. simpl in *. rewrite (busy_iff s F B) in Ha by done. rewrite (busy_iff s' F' B') by done.
  destruct (Hk _ Ha) as [K1 K2]. split_and!; [auto|done|]. intros b Hb. apply K2. unfold content, h_end. lia.
Qed.

Lemma busy_layout s F B a : ba_wf hhdm table s F B -> busy_block s a ->
  0 < a /\ 0 < h_size (ba_mem s) (a - 48) /\ a + h_size (ba_mem s) (a - 48) < 18446744073709551616.
Proof using All.
  intros W Ha. rewrite (busy_iff s F B) in Ha by done.
  pose proof (hp_layout _ _ _ _ _ _ _ (bw_heap _ _ _ _ _ W)) as HL.
  pose proof (ly_region _ _ _ _ HL). pose proof (ly_in _ _ _ _ HL (a - 48) ltac:(set_solver)) as Hin.
  pose proof (ly_size _ _ _ _ HL (a - 48) ltac:(set_solver)). unfold h_end in Hin. lia.
Qed.

Lemma page_law s s' p :
  kh_ok s -> kh_page_allocate 1 s = Done (p, s') ->
  kh_ok s' /\ p <> 0 /\ ~ kh_live s p /\ kh_live s' p /\ (forall a, kh_live s a -> kh_live s' a) /\
  (forall b, p <= b < p + PAGE -> ld8 (kh_mem s') b = 0) /\
  (forall l, kh_fits l s' <-> kh_fits l s) /\ kh_keeps s s'.
Proof using Hh PageSourceLaws0.
  intros [Hl (F & B & W)] E. change (ba_page_allocate 1 s = Done (p, s')) in E. unfold ba_page_allocate in E.
  apply bind_done_inv in E as ([q src] & Ea & [= -> <-]).
  assert (in_u64 (1 * PAGE)) as Hr by (unfold PAGE; lia).
  destruct (law_alloc (ba_src s) src 1 p (bw_ok _ _ _ _ _ W) ltac:(lia) Hr Ea) as (Hok & Hfresh & Hown & Hz & _).
  pose proof (ba_page_wf s F B p src 1 Hh W ltac:(lia) Hr Ea) as W'.
  assert (src_owned src p) as Hp by (apply Hown; right; exists 0; lia).
  pose proof (law_range _ _ Hok Hp) as (_ & Hlo & _). pose proof (proj1 Hh).
  destruct (law_below (ba_src s) src _ 1 p (bw_ok _ _ _ _ _ W) (bw_below _ _ _ _ _ W) ltac:(lia) Hr Ea) as [_ C1].
  split_and!; [split; [exact Hl|by exists F, B]|lia| |by left| | |done|].
  - intros [Ho|Hb].
    + specialize (Hfresh 0 ltac:(lia)). by rewrite Z.mul_0_l, Z.add_0_r in Hfresh.
    + rewrite (busy_iff s F B) in Hb by done. by eapply (page_not_busy _ F B p W').
  - intros a [Ho|Hb]; [left; apply Hown; by left|right]. rewrite (busy_iff s F B) in Hb by done.
    by rewrite (busy_iff _ F B) by done.
  - intros b Hb. apply Hz. lia.
  - pose proof (hp_layout _ _ _ _ _ _ _ (bw_heap _ _ _ _ _ W)) as HL.
    eapply (keeps_of _ _ F B F B W W'); [done|]. intros x Hx.
    pose proof (ly_in _ _ _ _ HL x ltac:(set_solver)). split.
    + apply (changes_ld64 _ _ _ _ C1). intros a Ha. cbn beta. unfold off_size in Ha. lia.
    + intros a Ha. apply C1. cbn beta. unfold content in Ha. lia.
Qed.

Lemma block_law s s' n l p :
  kh_ok s -> kh_fits (n :: l) s -> kh_block_allocate n s = Done (p, s') ->
  kh_ok s' /\ p <> 0 /\ ~ kh_live s p /\ kh_live s' p /\ (forall a, kh_live s a -> kh_live s' a) /\
  (forall b, p <= b < p + n -> ld8 (kh_mem s') b = 0) /\
  kh_block s' p /\ n <= kh_extent s' p /\ kh_fits l s' /\ kh_keeps s s'.
Proof using Hh PageSourceLaws0.
  intros [Hl (F & B & W)] Hfit E. destruct (fits_head s n l Hfit) as (Hn & Hf1 & Hf2). simpl in *.
  destruct (block_allocate_spec hhdm table s F B n Hh Hl W Hn Hf1 Hf2)
    as [Ex|(b & s1 & F' & Ex & Hl' & W' & Hsz & Ke & Hz & Kb)]; [congruence|].
  assert (p = b + 48 /\ s1 = s') as [-> ->] by (split; congruence).
  destruct (block_live_step s F B b s' F' W W' Ke) as (L1 & L2 & L3).
  pose proof (layout_pos _ _ _ _ (hp_layout _ _ _ _ _ _ _ (bw_heap _ _ _ _ _ W')) b ltac:(set_solver)).
  destruct (block_allocate_current hhdm table s F B n _ s' W Hn Hf1 Hf2 E) as [Hcur Hal].
  pose proof (ly_region _ _ _ _ (hp_layout _ _ _ _ _ _ _ (bw_heap _ _ _ _ _ W))).
  destruct Hfit as [Hall Hroom]. apply Forall_cons in Hall as [_ Hall].
  split_and!; [exact Hl'|by eexists _, _|lia|done|by right|done|done|done| |done| |].
  - by replace (b + 48 - 48) with b by lia.
  - apply (room_step s s' (block_pages n) (list_pages l)); [done|by apply list_pages_nonneg|lia|lia|apply W|done].
  - by apply (keeps_of s s' F B F' (b :: B)); [done|done|set_solver|].
Qed.

Lemma free_law s p : kh_ok s -> kh_block s p ->
  exists s', kh_block_deallocate p s = Done s' /\ kh_ok s' /\ ~ kh_block s' p /\
    forall a, kh_block s a -> a <> p -> kh_block s' a /\ kh_extent s' a = kh_extent s a /\
      forall b, a <= b < a + kh_extent s a -> ld8 (kh_mem s') b = ld8 (kh_mem s) b.
Proof using Hh PageSourceLaws0.
  intros [Hl (F & B & W)] Hp. simpl in *. rewrite (busy_iff s F B) in Hp by done.
  destruct (block_deallocate_spec hhdm table s F B (p - 48) Hh Hl W ltac:(set_solver)) as (s' & E & Hl' & W' & Hk).
  replace (p - 48 + 48) with p in E by lia. exists s'. rewrite (busy_iff s' _ _ p W').
  split_and!; [done|done|by eexists _, _|rewrite elem_of_del; tauto|].
  intros a Ha Hap. rewrite (busy_iff s F B) in Ha by done. rewrite (busy_iff s' _ _ a W'), elem_of_del.
  destruct (Hk (a - 48) ltac:(set_solver)) as [K1 K2]. split_and!; [done|lia|done|]. intros b Hb. apply K2.
  unfold content, h_end. lia.
Qed.

Lemma write_law s m : kh_ok s -> changes (kh_data s) (kh_mem s) m ->
  kh_ok (kh_with_mem s m) /\
  (forall a, kh_live (kh_with_mem s m) a <-> kh_live s a) /\
  (forall a, kh_block (kh_with_mem s m) a <-> kh_block s a) /\
  (forall a, kh_block s a -> kh_extent (kh_with_mem s m) a = kh_extent s a) /\
  (forall l, kh_fits l (kh_with_mem s m) <-> kh_fits l s).
Proof using Hh PageSourceLaws0.
  intros [Hl (F & B & W)] Hc. simpl in *.
  destruct (client_write_spec hhdm table s F B m Hh W) as [W' Hsz].
  { eapply changes_mono; [|exact Hc]. intros a (x & Hx & Ha). simpl in *. rewrite (busy_iff s F B) in Hx by done.
    exists (x - 48). split; [done|]. unfold content, h_end. lia. }
  assert (forall a, busy_block (set_ba_mem s m) a <-> busy_block s a) as Hb.
  { intros a. by rewrite (busy_iff _ F B), (busy_iff s F B). }
  destruct (src_above hhdm table s m Hh (bw_ok _ _ _ _ _ W) (bw_below _ _ _ _ _ W) (bw_table _ _ _ _ _ W)) as (_ & _ & _ & Ho).
  { eapply changes_mono; [|exact Hc]. intros a (x & Hx & Ha). simpl in *. rewrite (busy_iff s F B) in Hx by done.
    pose proof (ly_in _ _ _ _ (hp_layout _ _ _ _ _ _ _ (bw_heap _ _ _ _ _ W)) (x - 48) ltac:(set_solver)). lia. }
  split_and!; [done|by exists F, B| |done| |done].
  - intros a. by rewrite Hb, (Ho a).
  - intros a Ha. rewrite (busy_iff s F B) in Ha by done. rewrite (ba_mem_set hhdm). apply Hsz. set_solver.
Qed.

#[local] Instance ba_heap_laws : KernelHeapLaws (ba_state St).
Proof using All.
  split.
  - apply (ba_mem_set hhdm).
  - intros s [Hl (F & B & W)]. simpl. unfold ba_page_allocate.
    destruct (law_outcome (ba_src s) 1 (bw_ok _ _ _ _ _ W)) as [->|(p & s' & ->)];
      [lia|unfold PAGE; lia|by left|right]. simpl. eauto.
  - exact page_law.
  - intros s n l [Hl (F & B & W)] Hfit. destruct (fits_head s n l Hfit) as (Hn & Hf1 & Hf2). simpl in *.
    destruct (block_allocate_spec hhdm table s F B n Hh Hl W Hn Hf1 Hf2) as [->|(b & s' & F' & -> & _)]; eauto.
  - exact block_law.
  - exact free_law.
  - intros s a Ha. by right.
  - intros s a [_ (F & B & W)]. by apply (busy_layout s F B).
  - intros s a b [_ (F & B & W)] Ha Hb Hab. simpl in *. rewrite (busy_iff s F B) in Ha, Hb by done.
    pose proof (ly_apart _ _ _ _ (hp_layout _ _ _ _ _ _ _ (bw_heap _ _ _ _ _ W)) (a - 48) (b - 48)
      ltac:(set_solver) ltac:(set_solver) ltac:(lia)) as Hap. unfold h_end in Hap. lia.
  - exact write_law.
Qed.
End BlockHeap.

(** * Pages before there are blocks *)

Definition early_heap : KernelHeap pa_state := {|
  kh_mem := pa_mem;
  kh_with_mem := set_pa_mem;
  kh_page_allocate := page_allocate;
  kh_page_reallocate := page_reallocate;
  kh_page_deallocate := page_deallocate;
  kh_block_allocate := fun _ _ => Undef;
  kh_block_deallocate := fun _ _ => Undef;
  kh_ok := fun _ => False;
  kh_fits := fun _ _ => False;
  kh_live := fun _ _ => False;
  kh_block := fun _ _ => False;
  kh_extent := fun _ _ => 0
|}.

(** The pools are in the region. *)
Definition pools_in (R : Z -> Prop) (s : pa_state) : Prop := Forall (fun p => forall b, pool_bytes p b -> R b) (allocator_pools s).

Lemma early_laws hhdm : @PageSourceLaws hhdm pa_state (@page_view pa_state early_heap (pa_wf hhdm) pa_allocated pools_in).
Proof. exact (pa_source_laws hhdm). Qed.
