(* ===== verification/Scheduler.v ===== *)
(** The round-robin task scheduler, [schedulers/task/round_robin/round_robin.c]
    and [.h], with the part of the processor it uses ([arch/x86_64/context],
    [arch/x86_64/state]): its data and its operations.

    Tasks and scheduler contexts are kept in typed heaps that are indexed by
    the addresses the allocators return: a fresh page or block is all zeroes,
    which is the record with every field zero.  A pointer that is null or does
    not point to a task is [Undef].  The state holds one processor: the one
    that executes the operation; other processors run the same operations on
    the shared part, under the locks of the queues. *)

From S2P Require Import Prelude Memory Libc Spinlock PageAllocator PageAllocatorSpec PageTable BlockAllocator BlockAllocatorSpec KernelHeap.

Definition RUN_MODE_RUNNING : Z := 0.
Definition RUN_MODE_ZOMBIE : Z := 1.

(** * Data *)

Record arch_cpu_state_t := CpuState {
  r_cr3 : Z; r_rax : Z; r_rbx : Z; r_rcx : Z; r_rdx : Z; r_rsi : Z;
  r_rdi : Z; r_rbp : Z; r_r8 : Z; r_r9 : Z; r_r10 : Z; r_r11 : Z;
  r_r12 : Z; r_r13 : Z; r_r14 : Z; r_r15 : Z; r_error : Z;
  r_rip : Z; r_cs : Z; r_rflags : Z; r_rsp : Z; r_ss : Z
}.

Definition zero_state : arch_cpu_state_t := CpuState 0 0 0 0 0 0 0 0 0 0 0 0 0 0 0 0 0 0 0 0 0 0.

(** The 512 bytes that [fxsave] stores. *)
Abbreviation arch_simd_state_t := (list Z).

Record scheduler_task := Task {
  t_id : Z;
  t_syscall_stack_top : Z;
  t_userspace_stack_top : Z;
  t_simd_state : arch_simd_state_t;
  t_state : arch_cpu_state_t;
  t_name : Z;
  t_name_length : Z;
  t_empty : bool;
  t_ppid : Z;
  t_exit_code : Z;
  t_run_mode : Z;
  t_is_waited : bool;
  t_virtual_stack_top : Z;
  t_fd_count : Z;
  t_fd_max : Z;
  t_fd_translation : Z;
  t_fd_allocated_pages : Z;
  t_parent_queue : Z;
  t_next : Z;
  t_previous : Z
}.

(** A zeroed page read as a task. *)
Definition zero_task : scheduler_task :=
  Task 0 0 0 (replicate 512 0) zero_state 0 0 false 0 0 0 false 0 0 0 0 0 0 0 0.

Definition set_t_next (v : Z) (t : scheduler_task) : scheduler_task :=
  Task (t_id t) (t_syscall_stack_top t) (t_userspace_stack_top t) (t_simd_state t) (t_state t)
    (t_name t) (t_name_length t) (t_empty t) (t_ppid t) (t_exit_code t) (t_run_mode t)
    (t_is_waited t) (t_virtual_stack_top t) (t_fd_count t) (t_fd_max t) (t_fd_translation t)
    (t_fd_allocated_pages t) (t_parent_queue t) v (t_previous t).

Definition set_t_parent_queue (v : Z) (t : scheduler_task) : scheduler_task :=
  Task (t_id t) (t_syscall_stack_top t) (t_userspace_stack_top t) (t_simd_state t) (t_state t)
    (t_name t) (t_name_length t) (t_empty t) (t_ppid t) (t_exit_code t) (t_run_mode t)
    (t_is_waited t) (t_virtual_stack_top t) (t_fd_count t) (t_fd_max t) (t_fd_translation t)
    (t_fd_allocated_pages t) v (t_next t) (t_previous t).

Definition set_t_state (v : arch_cpu_state_t) (t : scheduler_task) : scheduler_task :=
  Task (t_id t) (t_syscall_stack_top t) (t_userspace_stack_top t) (t_simd_state t) v (t_name t)
    (t_name_length t) (t_empty t) (t_ppid t) (t_exit_code t) (t_run_mode t) (t_is_waited t)
    (t_virtual_stack_top t) (t_fd_count t) (t_fd_max t) (t_fd_translation t)
    (t_fd_allocated_pages t) (t_parent_queue t) (t_next t) (t_previous t).

Definition set_t_simd_state (v : arch_simd_state_t) (t : scheduler_task) : scheduler_task :=
  Task (t_id t) (t_syscall_stack_top t) (t_userspace_stack_top t) v (t_state t) (t_name t)
    (t_name_length t) (t_empty t) (t_ppid t) (t_exit_code t) (t_run_mode t) (t_is_waited t)
    (t_virtual_stack_top t) (t_fd_count t) (t_fd_max t) (t_fd_translation t)
    (t_fd_allocated_pages t) (t_parent_queue t) (t_next t) (t_previous t).

Definition set_t_empty (v : bool) (t : scheduler_task) : scheduler_task :=
  Task (t_id t) (t_syscall_stack_top t) (t_userspace_stack_top t) (t_simd_state t) (t_state t)
    (t_name t) (t_name_length t) v (t_ppid t) (t_exit_code t) (t_run_mode t) (t_is_waited t)
    (t_virtual_stack_top t) (t_fd_count t) (t_fd_max t) (t_fd_translation t)
    (t_fd_allocated_pages t) (t_parent_queue t) (t_next t) (t_previous t).

Definition set_t_run_mode (v : Z) (t : scheduler_task) : scheduler_task :=
  Task (t_id t) (t_syscall_stack_top t) (t_userspace_stack_top t) (t_simd_state t) (t_state t)
    (t_name t) (t_name_length t) (t_empty t) (t_ppid t) (t_exit_code t) v (t_is_waited t)
    (t_virtual_stack_top t) (t_fd_count t) (t_fd_max t) (t_fd_translation t)
    (t_fd_allocated_pages t) (t_parent_queue t) (t_next t) (t_previous t).

Definition set_t_exit_code (v : Z) (t : scheduler_task) : scheduler_task :=
  Task (t_id t) (t_syscall_stack_top t) (t_userspace_stack_top t) (t_simd_state t) (t_state t)
    (t_name t) (t_name_length t) (t_empty t) (t_ppid t) v (t_run_mode t) (t_is_waited t)
    (t_virtual_stack_top t) (t_fd_count t) (t_fd_max t) (t_fd_translation t)
    (t_fd_allocated_pages t) (t_parent_queue t) (t_next t) (t_previous t).

Definition set_t_is_waited (v : bool) (t : scheduler_task) : scheduler_task :=
  Task (t_id t) (t_syscall_stack_top t) (t_userspace_stack_top t) (t_simd_state t) (t_state t)
    (t_name t) (t_name_length t) (t_empty t) (t_ppid t) (t_exit_code t) (t_run_mode t) v
    (t_virtual_stack_top t) (t_fd_count t) (t_fd_max t) (t_fd_translation t)
    (t_fd_allocated_pages t) (t_parent_queue t) (t_next t) (t_previous t).
Record scheduler_task_queue := Queue {
  q_current : Z;
  q_head : Z;
  q_last : Z;
  q_lock : spinlock_t;
  q_count : Z
}.

Record scheduler_context := Context_ {
  c_cpu_id : Z;
  c_running : scheduler_task_queue;
  c_next : Z;
  c_previous : Z
}.

(** [arch_cpu_context_t]. *)
Record arch_cpu_context_t := CpuContext {
  cx_context_type : Z;
  cx_cpu_id : Z;
  cx_is_bsp : bool;
  cx_gdt : Z;
  cx_scheduler_context : Z
}.

(** The processor: the two GS base registers, the vector registers, the
    registers of the code it continues with, the preemption timer and the
    interrupt flag. *)
Record cpu := Cpu {
  gs_base : Z;
  gs_kernel_base : Z;
  cpu_simd : arch_simd_state_t;
  cpu_running : option arch_cpu_state_t;
  cpu_timer_armed : bool;
  cpu_interrupts : bool
}.

Definition CONTEXT_TYPE_CPU : Z := 0x55555555.

Definition zero_queue : scheduler_task_queue := Queue 0 0 0 false 0.
Definition zero_context : scheduler_context := Context_ 0 zero_queue 0 0.

(** [sizeof(scheduler_context_t)]: one word, the five words of the queue, two
    pointers. *)
Definition sizeof_scheduler_context : Z := 64.

(** [&context->running]. *)
Definition running_of (context : Z) : Z := context + 8.

(** * Queues

    [tasks] is the heap of the tasks. *)

Abbreviation tasks_t := (gmap Z scheduler_task).

(** [task->field = v]. *)
Definition update_task (f : scheduler_task -> scheduler_task) (p : Z) (tasks : tasks_t) : outcome tasks_t :=
  t ← deref (tasks !! p); Done (<[p := f t]> tasks).

Definition task_scheduler_round_robin_pop_from_queue (queue : scheduler_task_queue) (tasks : tasks_t) :
    outcome (Z * scheduler_task_queue * tasks_t) :=
  l ← spinlock_acquire (q_lock queue);
  let to_pop := q_head queue in
  if to_pop =? 0 then Panicked else
  if q_count queue >? 1 then
    t ← deref (tasks !! q_head queue);
    let head := t_next t in
    tasks ← update_task (set_t_next to_pop) (q_last queue) tasks;
    tasks ← update_task (set_t_next head) to_pop tasks;
    Done (to_pop, Queue to_pop head to_pop (spinlock_release l) (q_count queue), tasks)
  else
    Done (to_pop, Queue (q_current queue) (q_head queue) (q_last queue) (spinlock_release l) (q_count queue),
          tasks).

(** [queue_address] is the address of the queue. *)
Definition task_scheduler_round_robin_push_to_queue (queue_address : Z) (queue : scheduler_task_queue)
    (task : Z) (tasks : tasks_t) : outcome (scheduler_task_queue * tasks_t) :=
  l ← spinlock_acquire (q_lock queue);
  tasks ← update_task (set_t_parent_queue queue_address) task tasks;
  if q_count queue >? 0 then
    tasks ← update_task (set_t_next task) (q_last queue) tasks;
    Done (Queue (q_current queue) (q_head queue) task (spinlock_release l) (q_count queue +w 1), tasks)
  else
    Done (Queue task task task (spinlock_release l) (q_count queue +w 1), tasks).

(** The inner loop of [get_pid]: from [current_task] along [next] until the
    end of the list or the head of the queue; 0 when no task has the id. *)
Fixpoint scan_tasks (tasks : tasks_t) (head current_task pid : Z) (fuel : nat) : outcome Z :=
  match fuel with
  | O => Timeout
  | S fuel' =>
      t ← deref (tasks !! current_task);
      if t_id t =? pid then Done current_task
      else if negb (t_next t =? 0) && negb (t_next t =? head)
           then scan_tasks tasks head (t_next t) pid fuel'
           else Done 0
  end.

(** The outer loop: from [current_context] along [previous].  Each queue is
    locked while it is searched. *)
Fixpoint scan_contexts (tasks : tasks_t) (contexts : gmap Z scheduler_context)
    (last_context current_context pid : Z) (fuel : nat) : outcome Z :=
  match fuel with
  | O => Timeout
  | S fuel' =>
      c ← deref (contexts !! current_context);
      _ ← spinlock_acquire (q_lock (c_running c));
      found ← scan_tasks tasks (q_head (c_running c)) (q_head (c_running c)) pid (size tasks);
      if negb (found =? 0) then Done found
      else if negb (c_previous c =? 0) && negb (c_previous c =? last_context)
           then scan_contexts tasks contexts last_context (c_previous c) pid fuel'
           else Done 0
  end.

(** The loop that looks for the least busy context; a strictly smaller count
    wins, so the first of equal ones along the chain does. *)
Fixpoint least_busy (contexts : gmap Z scheduler_context) (current_context min free_context : Z)
    (fuel : nat) : outcome Z :=
  match fuel with
  | O => Timeout
  | S fuel' =>
      c ← deref (contexts !! current_context);
      let '(min, free_context) :=
        if q_count (c_running c) <? min then (q_count (c_running c), current_context)
        else (min, free_context) in
      if c_previous c =? 0 then Done free_context
      else least_busy contexts (c_previous c) min free_context fuel'
  end.

(** The loop of [debug_dump_queue]; the printing is left out. *)
Fixpoint dump_tasks (tasks : tasks_t) (head task : Z) (fuel : nat) : outcome unit :=
  match fuel with
  | O => Timeout
  | S fuel' =>
      if task =? 0 then Panicked else
      t ← deref (tasks !! task);
      if negb (t_next t =? 0) && negb (t_next t =? head) then dump_tasks tasks head (t_next t) fuel'
      else Done tt
  end.

(** * The state *)

Record sched (St : Type) := Sched {
  sc_heap : St;
  sc_tasks : tasks_t;
  sc_contexts : gmap Z scheduler_context;
  sc_cpu_contexts : gmap Z arch_cpu_context_t;
  last_context : Z;
  last_context_lock : spinlock_t;
  last_id : Z;
  last_id_lock : spinlock_t;
  sc_cpu : cpu
}.
Arguments Sched {St}.
Arguments sc_heap {St}.
Arguments sc_tasks {St}.
Arguments sc_contexts {St}.
Arguments sc_cpu_contexts {St}.
Arguments last_context {St}.
Arguments last_context_lock {St}.
Arguments last_id {St}.
Arguments last_id_lock {St}.
Arguments sc_cpu {St}.

Section Model.
Context (kernel_hhdm_offset arch_bootstrap_page_table : Z) {St : Type} `{!KernelHeap St}.
Implicit Types s : sched St.

Definition with_heap s (h : St) : sched St :=
  Sched h (sc_tasks s) (sc_contexts s) (sc_cpu_contexts s) (last_context s)
    (last_context_lock s) (last_id s) (last_id_lock s) (sc_cpu s).
Definition with_tasks s (ts : tasks_t) : sched St :=
  Sched (sc_heap s) ts (sc_contexts s) (sc_cpu_contexts s) (last_context s)
    (last_context_lock s) (last_id s) (last_id_lock s) (sc_cpu s).
Definition with_contexts s (cs : gmap Z scheduler_context) : sched St :=
  Sched (sc_heap s) (sc_tasks s) cs (sc_cpu_contexts s) (last_context s)
    (last_context_lock s) (last_id s) (last_id_lock s) (sc_cpu s).
Definition with_cpu_contexts s (cs : gmap Z arch_cpu_context_t) : sched St :=
  Sched (sc_heap s) (sc_tasks s) (sc_contexts s) cs (last_context s)
    (last_context_lock s) (last_id s) (last_id_lock s) (sc_cpu s).
Definition with_last_context s (p : Z) (l : spinlock_t) : sched St :=
  Sched (sc_heap s) (sc_tasks s) (sc_contexts s) (sc_cpu_contexts s) p l
    (last_id s) (last_id_lock s) (sc_cpu s).
Definition with_last_id s (i : Z) (l : spinlock_t) : sched St :=
  Sched (sc_heap s) (sc_tasks s) (sc_contexts s) (sc_cpu_contexts s) (last_context s)
    (last_context_lock s) i l (sc_cpu s).
Definition with_cpu s (c : cpu) : sched St :=
  Sched (sc_heap s) (sc_tasks s) (sc_contexts s) (sc_cpu_contexts s) (last_context s)
    (last_context_lock s) (last_id s) (last_id_lock s) c.

(** ** Processor contexts, [arch/x86_64/context/context.c] *)

(** [wrmsr(MSR_GS_BASE, p)]. *)
Definition set_gs s (p : Z) : sched St :=
  let c := sc_cpu s in
  with_cpu s (Cpu p (gs_kernel_base c) (cpu_simd c) (cpu_running c) (cpu_timer_armed c) (cpu_interrupts c)).

(** [swapgs]. *)
Definition swapgs s : sched St :=
  let c := sc_cpu s in
  with_cpu s (Cpu (gs_kernel_base c) (gs_base c) (cpu_simd c) (cpu_running c) (cpu_timer_armed c)
    (cpu_interrupts c)).

(** [context->context_type]: the first word, which is the id when the
    address is that of a task. *)
Definition context_type s (p : Z) : outcome Z :=
  match sc_cpu_contexts s !! p with
  | Some c => Done (cx_context_type c)
  | None => t ← deref (sc_tasks s !! p); Done (t_id t)
  end.

Definition arch_get_current_context s : Z := gs_base (sc_cpu s).

Definition arch_get_cpu_context s : outcome (Z * sched St) :=
  let context := arch_get_current_context s in
  if context =? 0 then let s := swapgs s in Done (arch_get_current_context s, s)
  else
    ty ← context_type s context;
    let s := if negb (ty =? CONTEXT_TYPE_CPU) then swapgs s else s in
    Done (arch_get_current_context s, s).

Definition arch_get_task_context s : outcome (Z * sched St) :=
  ty ← context_type s (arch_get_current_context s);
  let s := if ty =? CONTEXT_TYPE_CPU then swapgs s else s in
  Done (arch_get_current_context s, s).

Definition arch_context_install s : outcome (Z * sched St) :=
  '(context, h) ← kh_page_allocate 1 (sc_heap s);
  let s := with_heap s h in
  let s := with_cpu_contexts s (<[context := CpuContext CONTEXT_TYPE_CPU 0 false 0 0]> (sc_cpu_contexts s)) in
  let c := sc_cpu s in
  Done (context, with_cpu s (Cpu context 0 (cpu_simd c) (cpu_running c) (cpu_timer_armed c) (cpu_interrupts c))).

Definition arch_install_scheduler_context (context : Z) s : outcome (sched St) :=
  '(p, s) ← arch_get_cpu_context s;
  c ← deref (sc_cpu_contexts s !! p);
  Done (with_cpu_contexts s (<[p := CpuContext (cx_context_type c) (cx_cpu_id c) (cx_is_bsp c) (cx_gdt c) context]>
    (sc_cpu_contexts s))).

Definition arch_get_scheduler_context s : outcome (Z * sched St) :=
  '(p, s) ← arch_get_cpu_context s;
  c ← deref (sc_cpu_contexts s !! p);
  Done (cx_scheduler_context c, s).

Definition arch_install_task_context (context : Z) s : outcome (sched St) :=
  '(_, s) ← arch_get_task_context s;
  Done (set_gs s context).

(** [arch_save_simd_state(&task->simd_state)] and its inverse. *)
Definition arch_save_simd_state (task : Z) s : outcome (sched St) :=
  ts ← update_task (set_t_simd_state (cpu_simd (sc_cpu s))) task (sc_tasks s);
  Done (with_tasks s ts).

Definition arch_restore_simd_state (task : Z) s : outcome (sched St) :=
  t ← deref (sc_tasks s !! task);
  let c := sc_cpu s in
  Done (with_cpu s (Cpu (gs_base c) (gs_kernel_base c) (t_simd_state t) (cpu_running c) (cpu_timer_armed c)
    (cpu_interrupts c))).

(** [clock_preemption_timer.schedule_one_shot()]. *)
Definition schedule_one_shot s : sched St :=
  let c := sc_cpu s in
  with_cpu s (Cpu (gs_base c) (gs_kernel_base c) (cpu_simd c) (cpu_running c) true (cpu_interrupts c)).

(** [arch_switch_state(&task->state)]: the processor continues with the
    registers of the task. *)
Definition arch_switch_state (task : Z) s : outcome (sched St) :=
  t ← deref (sc_tasks s !! task);
  let c := sc_cpu s in
  Done (with_cpu s (Cpu (gs_base c) (gs_kernel_base c) (cpu_simd c) (Some (t_state t)) (cpu_timer_armed c)
    (cpu_interrupts c))).

(** ** Operations *)

(** Popping from and pushing to [&context->running]. *)
Definition pop_running (context : Z) s : outcome (Z * sched St) :=
  c ← deref (sc_contexts s !! context);
  '(task, q, ts) ← task_scheduler_round_robin_pop_from_queue (c_running c) (sc_tasks s);
  Done (task, with_contexts (with_tasks s ts)
    (<[context := Context_ (c_cpu_id c) q (c_next c) (c_previous c)]> (sc_contexts s))).

Definition push_running (context task : Z) s : outcome (sched St) :=
  c ← deref (sc_contexts s !! context);
  '(q, ts) ← task_scheduler_round_robin_push_to_queue (running_of context) (c_running c) task (sc_tasks s);
  Done (with_contexts (with_tasks s ts)
    (<[context := Context_ (c_cpu_id c) q (c_next c) (c_previous c)]> (sc_contexts s))).

Definition debug_dump_queue s : outcome (sched St) :=
  _ ← spinlock_acquire (last_id_lock s);
  '(context, s) ← arch_get_scheduler_context s;
  c ← deref (sc_contexts s !! context);
  _ ← dump_tasks (sc_tasks s) (q_head (c_running c)) (q_head (c_running c)) (S (size (sc_tasks s)));
  Done s.

(** The interrupt flag is cleared and restored around the search. *)
Definition task_scheduler_round_robin_get_pid (pid : Z) s : outcome Z :=
  if pid =? 0 then Done 0 else
  _ ← spinlock_acquire (last_context_lock s);
  scan_contexts (sc_tasks s) (sc_contexts s) (last_context s) (last_context s) pid (size (sc_contexts s)).

(** The loop of [reschedule] that skips tasks that cannot run.  It is given
    one round of the queue. *)
Fixpoint pop_runnable (context : Z) s (fuel : nat) : outcome (Z * sched St) :=
  '(next_task, s) ← pop_running context s;
  t ← deref (sc_tasks s !! next_task);
  if t_empty t || (t_run_mode t =? RUN_MODE_ZOMBIE) then
    match fuel with
    | O => Timeout
    | S fuel' => pop_runnable context s fuel'
    end
  else Done (next_task, s).

Definition task_scheduler_round_robin_reschedule (state : arch_cpu_state_t) s : outcome (sched St) :=
  '(context, s) ← arch_get_scheduler_context s;
  c ← deref (sc_contexts s !! context);
  _ ← spinlock_acquire (q_lock (c_running c));
  let current := q_current (c_running c) in
  s ← arch_save_simd_state current s;
  ts ← update_task (set_t_state state) current (sc_tasks s);
  let s := with_tasks s ts in
  '(next_task, s) ← pop_runnable context s (Z.to_nat (q_count (c_running c)));
  s ← arch_install_task_context next_task s;
  s ← arch_restore_simd_state next_task s;
  let s := schedule_one_shot s in
  arch_switch_state next_task s.

Definition task_scheduler_round_robin_enable s : outcome (sched St) :=
  '(context, s) ← arch_get_scheduler_context s;
  '(task, s) ← pop_running context s;
  s ← arch_restore_simd_state task s;
  let s := schedule_one_shot s in
  arch_switch_state task s.

(** The registers of a kernel task. *)
Definition kernel_state (entry rsp : Z) : arch_cpu_state_t :=
  CpuState (arch_bootstrap_page_table -w kernel_hhdm_offset) 0 0 0 0 0 0 0 0 0 0 0 0 0 0 0 0
    entry 8 0x202 rsp 16.

(** The links between the new context and the one before it. *)
Definition add_to_chain (new_context : Z) s : outcome (sched St) :=
  if last_context s =? 0 then Done s else
  last ← deref (sc_contexts s !! last_context s);
  let cs := <[last_context s := Context_ (c_cpu_id last) (c_running last) new_context (c_previous last)]>
              (sc_contexts s) in
  new ← deref (cs !! new_context);
  Done (with_contexts s (<[new_context := Context_ (c_cpu_id new) (c_running new) (c_next new)
                             (last_context s)]> cs)).

(** [idle_name] and [idle_entry] are the addresses of the string ["idle"]
    and of [_idle_task]. *)
Definition task_scheduler_round_robin_install_context (cpu_id idle_name idle_entry : Z) s :
    outcome (sched St) :=
  '(new_context, h) ← kh_block_allocate sizeof_scheduler_context (sc_heap s);
  let s := with_heap s h in
  let s := with_contexts s (<[new_context := Context_ cpu_id zero_queue 0 0]> (sc_contexts s)) in
  l ← spinlock_acquire (last_context_lock s);
  s ← add_to_chain new_context s;
  let s := with_last_context s new_context (spinlock_release l) in
  s ← arch_install_scheduler_context new_context s;
  '(task, h) ← kh_page_allocate 1 (sc_heap s);
  '(stack, h) ← kh_page_allocate 1 h;
  let s := with_heap s h in
  let s := with_tasks s (<[task := Task 0 0 0 (replicate 512 0) (kernel_state idle_entry (stack +w PAGE))
      idle_name 4 false 0 0 0 false 0 0 0 0 0 0 0 0]> (sc_tasks s)) in
  s ← arch_save_simd_state task s;
  s ← push_running new_context task s;
  debug_dump_queue s.

(** The copy of the name has no terminator. *)
Definition task_scheduler_round_robin_create (name : Z) s : outcome (Z * sched St) :=
  '(task, h) ← kh_page_allocate 1 (sc_heap s);
  let name_len := strlen (kh_mem h) name in
  '(name_copy, h) ← kh_block_allocate name_len h;
  let h := kh_with_mem h (memcpy (kh_mem h) name_copy name name_len) in
  '(stack, h) ← kh_page_allocate 1 h;
  l ← spinlock_acquire (last_id_lock s);
  let id := s32 (last_id s + 1) in
  let s := with_last_id s id (spinlock_release l) in
  '(fds, h) ← kh_page_allocate 1 h;
  let s := with_heap s h in
  let s := with_tasks s (<[task := Task (u64 id) (stack +w PAGE) 0 (replicate 512 0) zero_state
      name_copy name_len true 0 0 0 false 0 1 (PAGE / 8) fds 1 0 0 0]> (sc_tasks s)) in
  '(own, s) ← arch_get_scheduler_context s;
  free_context ← least_busy (sc_contexts s) (last_context s) 18446744073709551615 own
    (size (sc_contexts s));
  s ← arch_save_simd_state task s;
  s ← push_running free_context task s;
  Done (task, s).

Definition task_scheduler_round_robin_create_kernel (name : Z) (entry : Z) s :
    outcome (Z * sched St) :=
  '(new_task, s) ← task_scheduler_round_robin_create name s;
  '(stack, h) ← kh_page_allocate 1 (sc_heap s);
  let s := with_heap s h in
  ts ← update_task (set_t_state (kernel_state entry (stack +w PAGE))) new_task (sc_tasks s);
  Done (new_task, with_tasks s ts).

(** [clock_preemption_timer.interrupt_now()]: the timer fires at once. *)
Definition task_scheduler_round_robin_yield s : sched St := schedule_one_shot s.

Definition task_scheduler_round_robin_init (idle_name idle_entry cpu_id : Z) s : outcome (sched St) :=
  task_scheduler_round_robin_install_context cpu_id idle_name idle_entry s.
End Model.
