(* ===== verification/SchedulerSpec.v ===== *)
(** The round-robin scheduler, continued: a run queue is a list of tasks, popping
    rotates it and pushing appends to it; the properties of the scheduler. *)

From S2P Require Import Prelude Memory Libc Spinlock PageAllocator PageAllocatorSpec PageTable BlockAllocator BlockAllocatorSpec Paths KernelHeap Scheduler.

(** * Run queues as lists *)

Definition tnext (ts : tasks_t) (x : Z) : option Z := t_next <$> ts !! x.

(** Each task of [l] points to the following one, the last one to [e]. *)
Fixpoint links (ts : tasks_t) (l : list Z) (e : Z) : Prop :=
  match l with
  | [] => True
  | x :: l' => tnext ts x = Some (default e (head l')) /\ links ts l' e
  end.

(** The last task points nowhere or back to the first one. *)
Record queue_rep (ts : tasks_t) (q : scheduler_task_queue) (l : list Z) : Prop := {
  qr_lock : q_lock q = false;
  qr_count : q_count q = Z.of_nat (length l);
  qr_small : Z.of_nat (length l) < 9223372036854775808;
  qr_nodup : NoDup l;
  qr_nonzero : 0 ∉ l;
  qr_head : q_head q = default 0 (head l);
  qr_last : q_last q = default 0 (last l);
  qr_links : exists e, links ts l e /\ (e = 0 \/ e = default 0 (head l));
  qr_current : l <> [] -> q_current q ∈ l
}.

(** Two heaps of tasks that differ in [next] fields only. *)
Definition same_but_next (ts ts' : tasks_t) : Prop :=
  forall p, set_t_next 0 <$> ts' !! p = set_t_next 0 <$> ts !! p.

#[export] Instance same_but_next_equiv : Equivalence same_but_next.
Proof.
  split.
  - intros ts p. done.
  - intros ts ts' H p. symmetry. apply H.
  - intros t1 t2 t3 H1 H2 p. etrans; [apply H2|apply H1].
Qed.

Lemma same_next ts ts' p t : same_but_next ts ts' -> ts !! p = Some t ->
  exists v, ts' !! p = Some (set_t_next v t).
Proof.
  intros H Hp. specialize (H p). rewrite Hp in H. destruct (ts' !! p) as [t'|]; [|done].
  exists (t_next t'). f_equal. destruct t', t. simpl in H. injection H. intros. subst. done.
Qed.

Lemma links_ext ts ts' l e : (forall x, x ∈ l -> tnext ts' x = tnext ts x) -> links ts l e -> links ts' l e.
Proof.
  induction l as [|x l IH]; intros H; simpl; [done|]. intros [H1 H2]. split; [rewrite H; [done|set_solver]|].
  apply IH; [|done]. intros y Hy. apply H. set_solver.
Qed.

Lemma links_task ts l e x : links ts l e -> x ∈ l -> is_Some (ts !! x).
Proof.
  induction l as [|y l IH]; [set_solver|]. intros [H1 H2].
  intros [->|Hx]%elem_of_cons; [|by apply IH]. unfold tnext in H1. by destruct (ts !! y) eqn:E; [eexists|].
Qed.

(** Redirecting the last task. *)
Lemma links_snoc ts ts' l x e e' :
  links ts l e -> (x ∉ l) -> NoDup l ->
  (forall y, last l = Some y -> tnext ts' y = Some x) ->
  (forall y, y ∈ l -> last l <> Some y -> tnext ts' y = tnext ts y) ->
  tnext ts' x = Some e' -> links ts' (l ++ [x]) e'.
Proof.
  intros Hl Hx Hn Hlast Hother Hxe. induction l as [|a l IH]; simpl; [done|]. destruct Hl as [H1 H2].
  apply NoDup_cons in Hn as [Ha Hn]. destruct l as [|b l].
  - simpl. split; [|done]. by apply Hlast.
  - split.
    + rewrite Hother; [|set_solver|].
      * rewrite H1. done.
      * intros E. rewrite last_cons_cons in E. apply Ha. by eapply last_Some_elem_of.
    + apply IH; [done|set_solver|done| |].
      * intros y Hy. apply Hlast. by rewrite last_cons_cons.
      * intros y Hy Hny. apply Hother; [set_solver|]. by rewrite last_cons_cons.
Qed.

Lemma update_task_done f p ts t : ts !! p = Some t -> update_task f p ts = Done (<[p := f t]> ts).
Proof. intros H. unfold update_task. by rewrite H. Qed.

Lemma same_set_next p v t ts : ts !! p = Some t -> same_but_next ts (<[p := set_t_next v t]> ts).
Proof.
  intros H x. rewrite lookup_insert. case_decide as E; [|done]. subst x. by rewrite H.
Qed.

Lemma tnext_insert ts p v t x : tnext (<[p := set_t_next v t]> ts) x =
  if decide (p = x) then Some v else tnext ts x.
Proof. unfold tnext. rewrite lookup_insert. by case_decide. Qed.

(** Popping rotates the queue. *)
Lemma pop_spec q ts x l :
  queue_rep ts q (x :: l) ->
  exists q' ts', task_scheduler_round_robin_pop_from_queue q ts = Done (x, q', ts') /\
    queue_rep ts' q' (l ++ [x]) /\ q_current q' = x /\ same_but_next ts ts' /\
    (forall p, p ∉ x :: l -> ts' !! p = ts !! p).
Proof.
  intros [Hlk Hc Hsm Hn H0 Hh Hla (e & Hlinks & He) Hcur]. unfold task_scheduler_round_robin_pop_from_queue.
  rewrite Hlk. change (default 0 (head (x :: l))) with x in *.
  cbn [spinlock_acquire mbind outcome_bind]. rewrite Hh.
  assert (x <> 0) as Hx0 by set_solver. rewrite (proj2 (Z.eqb_neq x 0)) by done.
  rewrite Hc, Z.gtb_ltb. destruct l as [|y l].
  - simpl. eexists _, ts. split; [done|]. simpl in *.
    assert (q_current q = x) as -> by (specialize (Hcur ltac:(done)); set_solver).
    split_and!; [|done|done|done]. split; simpl; try done; [by eauto|]. intros _. set_solver.
  - rewrite (proj2 (Z.ltb_lt 1 _)) by (simpl; lia).
    destruct (links_task _ _ _ x Hlinks ltac:(set_solver)) as [t Ht]. rewrite Ht. cbn [deref mbind outcome_bind].
    destruct Hlinks as [L1 L2]. apply NoDup_cons in Hn as [Hxn Hn].
    rewrite Hla, last_cons_cons. destruct (last (y :: l)) as [z|] eqn:Ez; [|by apply last_None in Ez].
    assert (z ∈ y :: l) as Hz by (by eapply last_Some_elem_of). simpl default.
    destruct (links_task _ _ _ z L2 Hz) as [tz Htz].
    rewrite (update_task_done _ _ _ tz Htz). cbn [mbind outcome_bind].
    assert (z <> x) as Hzx by (intros ->; done).
    rewrite (update_task_done _ _ _ t) by (by rewrite lookup_insert_ne). cbn [mbind outcome_bind].
    unfold tnext in L1. rewrite Ht in L1. injection L1 as L1. simpl in L1. rewrite L1.
    eexists _, _. split; [done|].
    set (ts1 := <[z := set_t_next x tz]> ts).
    assert (same_but_next ts (<[x := set_t_next y t]> ts1)) as Hs.
    { etrans; [by apply (same_set_next z x tz)|]. apply same_set_next. unfold ts1. by rewrite lookup_insert_ne. }
    split_and!; [|done|done|].
    + split; simpl; try done.
      * rewrite length_app. simpl. lia.
      * rewrite length_app. simpl. simpl in Hsm. lia.
      * change (NoDup ((y :: l) ++ [x])). apply NoDup_app. split_and!; [done|set_solver|apply NoDup_singleton].
      * set_solver.
      * rewrite app_comm_cons, last_snoc. done.
      * exists y. split; [|by right].
        change (links (<[x := set_t_next y t]> ts1) ((y :: l) ++ [x]) y).
        apply (links_snoc ts _ (y :: l) x e y); [done|done|done|..].
        -- intros w Hw. assert (w = z) as -> by congruence. unfold ts1.
           rewrite !tnext_insert, decide_False, decide_True by done. done.
        -- intros w Hw Hnw. unfold ts1. rewrite !tnext_insert, !decide_False; [done|congruence|].
           intros ->. done.
        -- rewrite tnext_insert. by rewrite decide_True.
      * set_solver.
    + intros p Hp. unfold ts1. rewrite !lookup_insert_ne; [done|set_solver|set_solver].
Qed.

Lemma queue_rep_ext ts ts' q l :
  (forall x, x ∈ l -> tnext ts' x = tnext ts x) -> queue_rep ts q l -> queue_rep ts' q l.
Proof.
  intros H [? ? ? ? ? ? ? (e & Hl & He) ?]. split; try done. exists e. split; [by eapply links_ext|done].
Qed.

Lemma queue_task ts q l x : queue_rep ts q l -> x ∈ l -> is_Some (ts !! x).
Proof. intros [_ _ _ _ _ _ _ (e & Hl & _) _]. by apply links_task with (e := e). Qed.

(** Pushing appends. *)
Lemma push_spec addr q ts l x t :
  queue_rep ts q l -> (x ∉ l) -> x <> 0 -> ts !! x = Some t -> t_next t = 0 ->
  Z.of_nat (length l) + 1 < 9223372036854775808 ->
  exists q' ts', task_scheduler_round_robin_push_to_queue addr q x ts = Done (q', ts') /\
    queue_rep ts' q' (l ++ [x]) /\ (l <> [] -> q_current q' = q_current q) /\
    ts' !! x = Some (set_t_parent_queue addr t) /\
    (forall p tp, p <> x -> ts !! p = Some tp -> exists v, ts' !! p = Some (set_t_next v tp)) /\
    (forall p, p <> x -> p ∉ l -> ts' !! p = ts !! p).
Proof.
  intros [Hlk Hc Hsm Hn H0 Hh Hla (e & Hlinks & He) Hcur] Hx Hx0 Ht Htn Hlen.
  unfold task_scheduler_round_robin_push_to_queue. rewrite Hlk. cbn [spinlock_acquire mbind outcome_bind].
  rewrite (update_task_done _ _ _ t Ht). cbn [mbind outcome_bind]. rewrite Hc, Z.gtb_ltb, u64_small by lia.
  set (ts1 := <[x := set_t_parent_queue addr t]> ts).
  assert (tnext ts1 x = Some 0) as Hx1 by (unfold tnext, ts1; rewrite lookup_insert_eq; simpl; by rewrite Htn).
  destruct l as [|y l].
  - simpl. eexists _, ts1. split; [done|]. split_and!; [|done|by unfold ts1; rewrite lookup_insert_eq|..].
    + split; simpl; try done; [apply NoDup_singleton|set_solver| |set_solver]. exists 0. by split; [|left].
    + intros p tp Hp Htp. exists (t_next tp). unfold ts1. rewrite lookup_insert_ne by done. rewrite Htp. by destruct tp.
    + intros p Hp _. unfold ts1. by rewrite lookup_insert_ne.
  - rewrite (proj2 (Z.ltb_lt 0 _)) by (simpl; lia).
    destruct (last (y :: l)) as [z|] eqn:Ez; [|by apply last_None in Ez].
    assert (z ∈ y :: l) as Hz by (by eapply last_Some_elem_of).
    rewrite Hla. change (default 0 (Some z)) with z.
    destruct (links_task _ _ _ z Hlinks Hz) as [tz Htz]. assert (x <> z) as Hxz by (intros ->; done).
    rewrite (update_task_done _ _ _ tz) by (unfold ts1; by rewrite lookup_insert_ne). cbn [mbind outcome_bind].
    eexists _, _. split; [done|]. split_and!; [|done|..].
    + split; cbn [q_lock q_count q_head q_last q_current]; try done.
      * rewrite length_app. simpl. simpl in *. lia.
      * rewrite length_app. simpl. simpl in *. lia.
      * apply NoDup_app. split_and!; [done|set_solver|apply NoDup_singleton].
      * set_solver.
      * by rewrite last_snoc.
      * exists 0. split; [|by left]. apply (links_snoc ts _ (y :: l) x e 0); [done|done|done|..].
        -- intros w Hw. assert (w = z) as -> by congruence. by rewrite tnext_insert, decide_True.
        -- intros w Hw Hnw. rewrite tnext_insert, decide_False by congruence.
           unfold tnext, ts1. by rewrite lookup_insert_ne by (intros ->; done).
        -- by rewrite tnext_insert, decide_False by done.
      * intros _. specialize (Hcur ltac:(done)). set_solver.
    + rewrite lookup_insert_ne by done. by unfold ts1; rewrite lookup_insert_eq.
    + intros p tp Hp Htp. rewrite lookup_insert. case_decide as E.
      * subst p. exists x. f_equal. congruence.
      * exists (t_next tp). unfold ts1. rewrite lookup_insert_ne by done. rewrite Htp. by destruct tp.
    + intros p Hp Hpl. rewrite lookup_insert_ne by (intros ->; done). unfold ts1. by rewrite lookup_insert_ne.
Qed.

(** * Choosing the next task *)

Definition runnable (t : scheduler_task) : bool :=
  negb (t_empty t || (t_run_mode t =? RUN_MODE_ZOMBIE)).

Definition runs (ts : tasks_t) (x : Z) : bool := default false (runnable <$> ts !! x).

Lemma runs_same ts ts' x : same_but_next ts ts' -> runs ts' x = runs ts x.
Proof.
  intros H. unfold runs. destruct (ts !! x) as [t|] eqn:E.
  - destruct (same_next _ _ _ _ H E) as [v ->]. done.
  - specialize (H x). rewrite E in H. by destruct (ts' !! x).
Qed.

Section Pick.
Context {St : Type}.
Implicit Types s : sched St.

(** The state after a change of the tasks and of one context. *)
Definition with_queue s (ctx : Z) (c : scheduler_context) (q : scheduler_task_queue) (ts : tasks_t) : sched St :=
  with_contexts (with_tasks s ts) (<[ctx := Context_ (c_cpu_id c) q (c_next c) (c_previous c)]> (sc_contexts s)).

Lemma with_queue_twice s ctx c q q' ts ts' :
  with_queue (with_queue s ctx c q ts) ctx (Context_ (c_cpu_id c) q (c_next c) (c_previous c)) q' ts' =
  with_queue s ctx c q' ts'.
Proof using. unfold with_queue, with_contexts, with_tasks. simpl. by rewrite insert_insert_eq. Qed.

(** The first runnable task in queue order is chosen; it and the tasks
    before it move to the end. *)
Lemma pop_runnable_spec l1 : forall s ctx c x l2 fuel,
  sc_contexts s !! ctx = Some c -> queue_rep (sc_tasks s) (c_running c) (l1 ++ x :: l2) ->
  Forall (fun y => runs (sc_tasks s) y = false) l1 -> runs (sc_tasks s) x = true ->
  (length l1 <= fuel)%nat ->
  exists q ts, pop_runnable ctx s fuel = Done (x, with_queue s ctx c q ts) /\
    queue_rep ts q (l2 ++ l1 ++ [x]) /\ q_current q = x /\ same_but_next (sc_tasks s) ts /\
    (forall p, p ∉ l1 ++ x :: l2 -> ts !! p = sc_tasks s !! p).
Proof using.
  induction l1 as [|a l1 IH]; intros s ctx c x l2 fuel Hc Hq Hf Hx Hfu.
  - simpl in Hq. destruct (pop_spec _ _ _ _ Hq) as (q & ts & E & Hq' & Hcur & Hs & Ho).
    exists q, ts. split_and!; try done.
    assert (pop_running ctx s = Done (x, with_queue s ctx c q ts)) as Ep.
    { unfold pop_running. rewrite Hc. cbn [deref mbind outcome_bind]. by rewrite E. }
    rewrite <- (runs_same _ _ x Hs) in Hx. unfold runs in Hx.
    destruct fuel; cbn [pop_runnable]; rewrite Ep; cbn [mbind outcome_bind]; cbn beta iota;
      change (sc_tasks (with_queue s ctx c q ts)) with ts;
      (destruct (ts !! x) as [t|]; [|done]); cbn [deref mbind outcome_bind]; simpl in Hx; unfold runnable in Hx;
      by destruct (t_empty t || (t_run_mode t =? RUN_MODE_ZOMBIE)).
  - destruct fuel as [|fuel]; [simpl in Hfu; lia|].
    apply Forall_cons in Hf as [Ha Hf]. rewrite <- app_comm_cons in Hq.
    destruct (pop_spec _ _ _ _ Hq) as (q & ts & E & Hq' & Hcur & Hs & Ho).
    assert (pop_running ctx s = Done (a, with_queue s ctx c q ts)) as Ep.
    { unfold pop_running. rewrite Hc. cbn [deref mbind outcome_bind]. by rewrite E. }
    destruct (IH (with_queue s ctx c q ts) ctx (Context_ (c_cpu_id c) q (c_next c) (c_previous c)) x
      (l2 ++ [a]) fuel) as (q2 & ts2 & E2 & Hq2 & Hcur2 & Hs2 & Ho2).
    + apply lookup_insert_eq.
    + simpl. by rewrite <- app_assoc in Hq'.
    + eapply Forall_impl; [exact Hf|]. intros y Hy. simpl. rewrite <- Hy. by apply runs_same.
    + rewrite <- Hx. by apply runs_same.
    + simpl in Hfu. lia.
    + exists q2, ts2. cbn [pop_runnable]. rewrite Ep. cbn [mbind outcome_bind]. cbn beta iota.
      rewrite <- (runs_same _ _ a Hs) in Ha. unfold runs in Ha.
      change (sc_tasks (with_queue s ctx c q ts)) with ts in *.
      destruct (queue_task _ _ _ a Hq') as [t Ht]; [set_solver|]. rewrite Ht in Ha |- *.
      cbn [deref mbind outcome_bind]. simpl in Ha. unfold runnable in Ha.
      destruct (t_empty t || (t_run_mode t =? RUN_MODE_ZOMBIE)); [|done].
      rewrite E2, with_queue_twice. split_and!; [done| |done|by etrans|].
      * rewrite <- app_comm_cons. by rewrite <- (app_assoc l2) in Hq2.
      * intros p Hp. rewrite Ho2 by set_solver. simpl. apply Ho. set_solver.
Qed.
End Pick.

(** * The processor *)

Section Processor.
Context {St : Type}.
Implicit Types s : sched St.

(** The two GS bases are the context [p] of the processor and the task [k]
    (0 when none is installed), in either order. *)
Record on_cpu s (p k : Z) (cx : arch_cpu_context_t) : Prop := {
  oc_bases : (gs_base (sc_cpu s) = p /\ gs_kernel_base (sc_cpu s) = k) \/
             (gs_base (sc_cpu s) = k /\ gs_kernel_base (sc_cpu s) = p);
  oc_context : sc_cpu_contexts s !! p = Some cx;
  oc_nonzero : p <> 0;
  oc_type : cx_context_type cx = CONTEXT_TYPE_CPU;
  oc_task : k = 0 \/ (sc_cpu_contexts s !! k = None /\
                      exists t, sc_tasks s !! k = Some t /\ t_id t <> CONTEXT_TYPE_CPU)
}.

(** The GS bases set to [a] and [b]. *)
Definition with_gs s (a b : Z) : sched St :=
  let c := sc_cpu s in
  with_cpu s (Cpu a b (cpu_simd c) (cpu_running c) (cpu_timer_armed c) (cpu_interrupts c)).

Lemma with_gs_same s a b : gs_base (sc_cpu s) = a -> gs_kernel_base (sc_cpu s) = b -> with_gs s a b = s.
Proof using. intros <- <-. destruct s as [? ? ? ? ? ? ? ? []]. done. Qed.

Lemma get_cpu_context_spec s p k cx :
  on_cpu s p k cx -> arch_get_cpu_context s = Done (p, with_gs s p k).
Proof using.
  intros [Hb Hc H0 Ht Hk]. unfold arch_get_cpu_context, arch_get_current_context, context_type.
  destruct Hb as [[E1 E2]|[E1 E2]]; rewrite E1.
  - rewrite (proj2 (Z.eqb_neq p 0)), Hc by done. cbn [mbind outcome_bind]. rewrite Ht, Z.eqb_refl. cbn [negb].
    by rewrite E1, with_gs_same.
  - destruct (Z.eqb_spec k 0) as [->|Hk0].
    + unfold swapgs. simpl. by rewrite E1, E2.
    + destruct Hk as [|[Hkc (t & Hkt & Hid)]]; [done|]. rewrite Hkc, Hkt. cbn [deref mbind outcome_bind].
      rewrite (proj2 (Z.eqb_neq _ _) Hid). cbn [negb]. unfold swapgs. simpl. by rewrite E1, E2.
Qed.

Lemma get_task_context_spec s p k cx :
  on_cpu s p k cx -> gs_base (sc_cpu s) <> 0 -> arch_get_task_context s = Done (k, with_gs s k p).
Proof using.
  intros [Hb Hc H0 Ht Hk] Hn. unfold arch_get_task_context, arch_get_current_context, context_type.
  destruct Hb as [[E1 E2]|[E1 E2]]; rewrite E1 in *.
  - rewrite Hc. cbn [mbind outcome_bind]. rewrite Ht, Z.eqb_refl. unfold swapgs. simpl. by rewrite E1, E2.
  - destruct Hk as [|[Hkc (t & Hkt & Hid)]]; [done|]. rewrite Hkc, Hkt. cbn [deref mbind outcome_bind].
    rewrite (proj2 (Z.eqb_neq _ _) Hid), E1. by rewrite with_gs_same.
Qed.

Lemma get_scheduler_context_spec s p k cx :
  on_cpu s p k cx -> arch_get_scheduler_context s = Done (cx_scheduler_context cx, with_gs s p k).
Proof using.
  intros H. unfold arch_get_scheduler_context. rewrite (get_cpu_context_spec _ _ _ _ H).
  cbn [mbind outcome_bind]. cbn beta iota. simpl. by rewrite (oc_context _ _ _ _ H).
Qed.

(** ** Rescheduling *)

(** The task [x] after the registers of the processor are saved in [y]. *)
Definition saved (st : arch_cpu_state_t) (simd : arch_simd_state_t) (y x : Z) (t : scheduler_task) : scheduler_task :=
  if decide (y = x) then set_t_state st (set_t_simd_state simd t) else t.

Lemma runs_saved ts st simd y t x :
  ts !! y = Some t -> runs (<[y := set_t_state st (set_t_simd_state simd t)]> ts) x = runs ts x.
Proof using.
  intros Hy. unfold runs. rewrite lookup_insert. case_decide as E; [|done]. subst x. by rewrite Hy.
Qed.

Lemma reschedule_spec s p k cx ctx c l1 x l2 st tx :
  on_cpu s p k cx -> cx_scheduler_context cx = ctx -> sc_contexts s !! ctx = Some c ->
  queue_rep (sc_tasks s) (c_running c) (l1 ++ x :: l2) ->
  Forall (fun y => runs (sc_tasks s) y = false) l1 -> runs (sc_tasks s) x = true ->
  sc_tasks s !! x = Some tx ->
  let cur := q_current (c_running c) in
  let tx' := saved st (cpu_simd (sc_cpu s)) cur x tx in
  exists s' c', task_scheduler_round_robin_reschedule st s = Done s' /\
    sc_contexts s' = <[ctx := c']> (sc_contexts s) /\
    c_next c' = c_next c /\ c_previous c' = c_previous c /\ c_cpu_id c' = c_cpu_id c /\
    queue_rep (sc_tasks s') (c_running c') (l2 ++ l1 ++ [x]) /\ q_current (c_running c') = x /\
    (forall y t, sc_tasks s !! y = Some t ->
       exists v, sc_tasks s' !! y = Some (set_t_next v (saved st (cpu_simd (sc_cpu s)) cur y t))) /\
    (forall y, y ∉ l1 ++ x :: l2 -> sc_tasks s' !! y = sc_tasks s !! y) /\
    sc_cpu s' = Cpu x p (t_simd_state tx') (Some (t_state tx')) true (cpu_interrupts (sc_cpu s)) /\
    sc_cpu_contexts s' = sc_cpu_contexts s /\ sc_heap s' = sc_heap s /\ last_context s' = last_context s.
Proof using.
  intros Hoc Hctx Hc Hq Hf Hx Htx cur tx'. unfold task_scheduler_round_robin_reschedule.
  rewrite (get_scheduler_context_spec _ _ _ _ Hoc), Hctx. cbn [mbind outcome_bind]. cbn beta iota.
  change (sc_contexts (with_gs s p k)) with (sc_contexts s). rewrite Hc. cbn [deref mbind outcome_bind].
  rewrite (qr_lock _ _ _ Hq). cbn [spinlock_acquire mbind outcome_bind]. fold cur.
  assert (cur ∈ l1 ++ x :: l2) as Hcur by (apply (qr_current _ _ _ Hq); by destruct l1).
  destruct (queue_task _ _ _ _ Hq Hcur) as [tc Htc].
  unfold arch_save_simd_state. change (sc_tasks (with_gs s p k)) with (sc_tasks s).
  change (cpu_simd (sc_cpu (with_gs s p k))) with (cpu_simd (sc_cpu s)).
  rewrite (update_task_done _ _ _ tc Htc). cbn [mbind outcome_bind].
  change (sc_tasks (with_tasks ?a ?ts)) with ts.
  rewrite (update_task_done _ _ _ _ (lookup_insert_eq _ _ _)). cbn [mbind outcome_bind]. rewrite insert_insert_eq.
  set (ts1 := <[cur := set_t_state st (set_t_simd_state (cpu_simd (sc_cpu s)) tc)]> (sc_tasks s)).
  set (s1 := with_tasks _ ts1).
  destruct (pop_runnable_spec l1 s1 ctx c x l2 (Z.to_nat (q_count (c_running c)))) as (q & ts2 & E2 & Q2 & C2 & S2 & O2).
  { done. }
  { apply (queue_rep_ext (sc_tasks s)); [|done]. intros y Hy. unfold s1, tnext. simpl. unfold ts1.
    rewrite lookup_insert. case_decide as E; [|done]. subst y. by rewrite Htc. }
  { eapply Forall_impl; [exact Hf|]. intros y <-. by apply runs_saved. }
  { rewrite <- Hx. by apply runs_saved. }
  { rewrite (qr_count _ _ _ Hq), length_app. lia. }
  rewrite E2. cbn [mbind outcome_bind]. cbn beta iota. unfold arch_install_task_context.
  assert (sc_tasks s1 !! x = Some tx') as Hx1.
  { unfold s1, tx', saved. simpl. unfold ts1. rewrite lookup_insert. case_decide as E; [|done].
    rewrite E in Htc. congruence. }
  destruct (same_next _ _ _ _ S2 Hx1) as [vx Hvx].
  unfold arch_get_task_context, context_type, arch_get_current_context, arch_restore_simd_state, arch_switch_state.
  cbn [with_queue with_contexts with_tasks with_gs with_cpu s1 sc_cpu gs_base sc_cpu_contexts].
  rewrite (oc_context _ _ _ _ Hoc). cbn [mbind outcome_bind]. rewrite (oc_type _ _ _ _ Hoc), Z.eqb_refl.
  cbn [mbind outcome_bind]. cbn beta iota. unfold set_gs, swapgs. simpl. rewrite !Hvx. simpl. rewrite Hvx. simpl.
  eexists _, (Context_ (c_cpu_id c) q (c_next c) (c_previous c)). split; [reflexivity|]. simpl. split_and!; try done.
  - intros y t Hy. apply (same_next ts1); [exact S2|]. unfold ts1, saved. rewrite lookup_insert.
    case_decide as E; [|done]. rewrite E in Htc. congruence.
  - intros y Hy. rewrite O2 by done. simpl. unfold ts1. rewrite lookup_insert_ne; [done|]. intros ->. done.
Qed.
End Processor.

(** * Sequences of preemptions *)

Section Fairness.
Context {St : Type}.
Implicit Types s : sched St.

(** The processor with context [p], installed task [k] and queue [l] can be
    preempted. *)
Record ready s (p k : Z) (cx : arch_cpu_context_t) (c : scheduler_context) (l : list Z) : Prop := {
  rd_cpu : on_cpu s p k cx;
  rd_context : sc_contexts s !! cx_scheduler_context cx = Some c;
  rd_queue : queue_rep (sc_tasks s) (c_running c) l;
  rd_tasks : forall x, x ∈ l -> sc_cpu_contexts s !! x = None /\
    exists t, sc_tasks s !! x = Some t /\ t_id t <> CONTEXT_TYPE_CPU;
  rd_runs : exists x, x ∈ l /\ runs (sc_tasks s) x = true
}.

Lemma first_runnable ts l : (exists x, x ∈ l /\ runs ts x = true) ->
  exists l1 x l2, l = l1 ++ x :: l2 /\ Forall (fun y => runs ts y = false) l1 /\ runs ts x = true.
Proof using.
  intros (x & Hx & Hr). induction l as [|a l IH]; [set_solver|].
  destruct (runs ts a) eqn:Ha; [by exists [], a, l|].
  apply elem_of_cons in Hx as [->|Hx]; [congruence|].
  destruct (IH Hx) as (l1 & y & l2 & -> & Hf & Hy). exists (a :: l1), y, l2. split_and!; [done|by constructor|done].
Qed.

Lemma reschedule_ready s p k cx c l st :
  ready s p k cx c l ->
  exists l1 x l2 s' c', l = l1 ++ x :: l2 /\ Forall (fun y => runs (sc_tasks s) y = false) l1 /\
    runs (sc_tasks s) x = true /\ task_scheduler_round_robin_reschedule st s = Done s' /\
    ready s' p x cx c' (l2 ++ l1 ++ [x]) /\ gs_base (sc_cpu s') = x /\
    forall y, y ∈ l -> runs (sc_tasks s') y = runs (sc_tasks s) y.
Proof using.
  intros [Hoc Hc Hq Ht Hr]. destruct (first_runnable _ _ Hr) as (l1 & x & l2 & -> & Hf & Hx).
  destruct (Ht x ltac:(set_solver)) as (Hxc & tx & Htx & Hid).
  destruct (reschedule_spec s p k cx _ c l1 x l2 st tx Hoc eq_refl Hc Hq Hf Hx Htx)
    as (s' & c' & E & Ec & _ & _ & _ & Q' & Cur & Hts & _ & Hcpu & Hcx & _ & _).
  assert (Hruns : forall y t, sc_tasks s !! y = Some t -> runs (sc_tasks s') y = runs (sc_tasks s) y).
  { intros y t Hy. destruct (Hts y t Hy) as [v Hv]. unfold runs. rewrite Hv, Hy. unfold saved. by case_decide. }
  assert (Hids : forall y t, sc_tasks s !! y = Some t -> exists t', sc_tasks s' !! y = Some t' /\ t_id t' = t_id t).
  { intros y t Hy. destruct (Hts y t Hy) as [v Hv]. eexists. split; [exact Hv|]. unfold saved. by case_decide. }
  exists l1, x, l2, s', c'. split_and!; try done; [|by rewrite Hcpu|].
  - split.
    + split; [right; by rewrite Hcpu|rewrite Hcx; apply Hoc|apply Hoc|apply Hoc|].
      right. rewrite Hcx. split; [done|]. destruct (Hids x tx Htx) as (t' & Ht' & Heq). exists t'. by rewrite Heq.
    + rewrite Ec. apply lookup_insert_eq.
    + done.
    + intros y Hy. rewrite Hcx. destruct (Ht y ltac:(set_solver)) as (Hyc & ty & Hty & Hyid). split; [done|].
      destruct (Hids y ty Hty) as (t' & Ht' & Heq). exists t'. by rewrite Heq.
    + exists x. split; [set_solver|]. by rewrite (Hruns x tx).
  - intros y Hy. destruct (Ht y Hy) as (_ & ty & Hty & _). by eapply Hruns.
Qed.

(** Preemptions at the register states [sts], one after the other; the tasks
    that were chosen. *)
Fixpoint preempt (sts : list arch_cpu_state_t) s : outcome (list Z * sched St) :=
  match sts with
  | [] => Done ([], s)
  | st :: sts' =>
      s ← task_scheduler_round_robin_reschedule st s;
      '(chosen, s') ← preempt sts' s;
      Done (gs_base (sc_cpu s) :: chosen, s')
  end.

Lemma preempt_fair sts : forall s p k cx c l l1 x l2,
  ready s p k cx c l -> l = l1 ++ x :: l2 -> runs (sc_tasks s) x = true ->
  exists chosen s' k' c' l', preempt sts s = Done (chosen, s') /\ length chosen = length sts /\
    ready s' p k' cx c' l' /\ ((length l1 < length sts)%nat -> x ∈ chosen).
Proof using.
  induction sts as [|st sts IH]; intros s p k cx c l l1 x l2 Hr Hl Hx.
  - exists [], s, k, c, l. split_and!; [done|done|done|]. simpl. lia.
  - destruct (reschedule_ready s p k cx c l st Hr) as (m1 & y & m2 & s1 & c1 & El & Hf & Hy & E & Hr1 & Hg & Hruns).
    cbn [preempt]. rewrite E. cbn [mbind outcome_bind].
    assert (x ∈ l) as Hxl by (rewrite Hl; set_solver).
    assert (y = x \/ exists n1 n2, m2 ++ m1 ++ [y] = n1 ++ x :: n2 /\ (length n1 < length l1)%nat) as Hpos.
    { rewrite Hl in El. apply app_eq_inv in El as [(k1 & -> & Ek)|(k1 & -> & Ek)].
      - destruct k1 as [|z k1]; simpl in Ek; injection Ek as -> ->; [by left|right].
        exists k1, (l2 ++ m1 ++ [z]). rewrite <- !app_assoc. split; [done|]. rewrite length_app. simpl. lia.
      - destruct k1 as [|z k1]; simpl in Ek; injection Ek as -> ->; [by left|].
        rewrite Forall_app in Hf. destruct Hf as [_ Hf]. inversion_clear Hf. congruence. }
    destruct Hpos as [->|(n1 & n2 & En & Hlen)].
    + destruct (IH s1 p x cx c1 _ (m2 ++ m1) x [] Hr1) as (ch & s' & k' & c' & l' & E' & Hlc & Hr' & _).
      { by rewrite <- app_assoc. } { by rewrite Hruns. }
      rewrite E'. eexists _, s', k', c', l'. split; [done|]. simpl. split_and!; [lia|done|]. rewrite Hg. set_solver.
    + destruct (IH s1 p y cx c1 _ n1 x n2 Hr1 En) as (ch & s' & k' & c' & l' & E' & Hlc & Hr' & Hin).
      { by rewrite Hruns. }
      rewrite E'. eexists _, s', k', c', l'. split; [done|]. simpl. split_and!; [lia|done|]. intros Hlt.
      apply elem_of_cons. right. apply Hin. lia.
Qed.

(** Only tasks that can run are chosen. *)
Lemma preempt_runnable sts : forall s p k cx c l chosen s',
  ready s p k cx c l -> preempt sts s = Done (chosen, s') ->
  Forall (fun x => runs (sc_tasks s) x = true /\ x ∈ l) chosen.
Proof using.
  induction sts as [|st sts IH]; intros s p k cx c l chosen s' Hr E.
  - injection E as <- <-. constructor.
  - destruct (reschedule_ready s p k cx c l st Hr) as (m1 & y & m2 & s1 & c1 & El & _ & Hy & E1 & Hr1 & Hg & Hruns).
    cbn [preempt] in E. rewrite E1 in E. cbn [mbind outcome_bind] in E.
    apply bind_done_inv in E as ([ch s2] & E2 & E). injection E as <- <-. rewrite Hg. constructor.
    + split; [done|set_solver].
    + eapply Forall_impl; [eapply IH; [exact Hr1|exact E2]|]. intros x [Hx Hin]. assert (x ∈ l) by set_solver.
      by rewrite <- Hruns.
Qed.

(** ** Accesses to the two contexts of the processor *)

Inductive context_op := GetCpuContext | GetTaskContext | GetSchedulerContext.

(** The results of a sequence of accesses. *)
Fixpoint access_contexts (ops : list context_op) s : outcome (list Z * sched St) :=
  match ops with
  | [] => Done ([], s)
  | op :: ops' =>
      '(r, s) ← match op with
                | GetCpuContext => arch_get_cpu_context s
                | GetTaskContext => arch_get_task_context s
                | GetSchedulerContext => arch_get_scheduler_context s
                end;
      '(rs, s) ← access_contexts ops' s;
      Done (r :: rs, s)
  end.

Definition access_result (p k : Z) (cx : arch_cpu_context_t) (op : context_op) : Z :=
  match op with
  | GetCpuContext => p
  | GetTaskContext => k
  | GetSchedulerContext => cx_scheduler_context cx
  end.

Lemma on_cpu_with_gs s p k cx a b :
  on_cpu s p k cx -> (a = p /\ b = k) \/ (a = k /\ b = p) -> on_cpu (with_gs s a b) p k cx.
Proof using. intros [H1 H2 H3 H4 H5] Hab. by split. Qed.
End Fairness.

(** * All the queues *)

(** The contexts [C], newest first, linked by [previous]. *)
Fixpoint chain_rep (cs : gmap Z scheduler_context) (C : list Z) : Prop :=
  match C with
  | [] => True
  | c :: C' => (exists ctx, cs !! c = Some ctx /\ c_previous ctx = default 0 (head C')) /\ chain_rep cs C'
  end.

(** [Q] gives the queue of each context. *)
Record sched_wf {St} `{!KernelHeap St} (s : sched St) (C : list Z) (Q : Z -> list Z) : Prop := {
  sw_chain : chain_rep (sc_contexts s) C;
  sw_nodup : NoDup C;
  sw_zero : 0 ∉ C;
  sw_last : last_context s = default 0 (head C);
  sw_queue : forall c, c ∈ C -> exists ctx, sc_contexts s !! c = Some ctx /\
    queue_rep (sc_tasks s) (c_running ctx) (Q c) /\ Q c <> [];
  sw_disjoint : forall c d x, c ∈ C -> d ∈ C -> c <> d -> x ∈ Q c -> x ∉ Q d;
  sw_live : forall x, is_Some (sc_tasks s !! x) -> kh_live (sc_heap s) x;
  sw_live_contexts : forall c, is_Some (sc_contexts s !! c) -> kh_live (sc_heap s) c;
  sw_live_cpus : forall p, is_Some (sc_cpu_contexts s !! p) -> kh_live (sc_heap s) p;
  sw_apart : forall x, is_Some (sc_tasks s !! x) -> sc_cpu_contexts s !! x = None;
  sw_heap : kh_ok (sc_heap s);
  sw_context_lock : last_context_lock s = false;
  sw_id_lock : last_id_lock s = false
}.

Lemma links_app ts pre x suf e :
  links ts (pre ++ x :: suf) e -> tnext ts x = Some (default e (head suf)) /\ links ts suf e.
Proof. induction pre as [|a pre IH]; simpl; [done|]. intros [_ H]. by apply IH. Qed.

Lemma scan_tasks_spec ts q l pid suf : forall pre x fuel,
  queue_rep ts q l -> l = pre ++ x :: suf -> (length suf < fuel)%nat ->
  exists r, scan_tasks ts (default 0 (head l)) x pid fuel = Done r /\
    (r <> 0 -> r ∈ l /\ exists t, ts !! r = Some t /\ t_id t = pid) /\
    (r = 0 -> forall y t, y ∈ x :: suf -> ts !! y = Some t -> t_id t <> pid).
Proof.
  induction suf as [|y suf IH]; intros pre x fuel Hq Hl Hf; destruct fuel as [|fuel]; try lia; cbn [scan_tasks].
  - destruct (queue_task _ _ _ x Hq) as [t Ht]; [set_solver|]. rewrite Ht. cbn [deref mbind outcome_bind].
    destruct Hq as [_ _ _ _ H0 _ _ (e & Hlinks & He) _]. rewrite Hl in Hlinks at 1.
    destruct (links_app _ _ _ _ _ Hlinks) as [Hn _]. unfold tnext in Hn. rewrite Ht in Hn.
    injection Hn as Hn. simpl in Hn. rewrite Hn.
    destruct (Z.eqb_spec (t_id t) pid) as [E|E].
    + exists x. split_and!; [done|intros _; split; [set_solver|by exists t]|]. intros ->. set_solver.
    + exists 0. split; [|split; [done|]].
      * destruct He as [-> | ->]; [done|]. rewrite Z.eqb_refl. by rewrite andb_false_r.
      * intros _ y t' ->%list_elem_of_singleton Ht'. congruence.
  - destruct (queue_task _ _ _ x Hq) as [t Ht]; [set_solver|]. rewrite Ht. cbn [deref mbind outcome_bind].
    pose proof Hq as [_ _ _ Hnd H0 _ _ (e & Hlinks & He) _]. rewrite Hl in Hlinks at 1.
    destruct (links_app _ _ _ _ _ Hlinks) as [Hn _]. unfold tnext in Hn. rewrite Ht in Hn.
    injection Hn as Hn. simpl in Hn.
    destruct (Z.eqb_spec (t_id t) pid) as [E|E].
    + exists x. split_and!; [done|intros _; split; [set_solver|by exists t]|]. intros ->. set_solver.
    + rewrite Hn, (proj2 (Z.eqb_neq y 0)) by (intros ->; set_solver). rewrite (proj2 (Z.eqb_neq y _)).
      * cbn [negb andb]. destruct (IH (pre ++ [x]) y fuel Hq) as (r & Er & R1 & R2).
        { by rewrite <- app_assoc. } { simpl in Hf. lia. }
        exists r. split_and!; [done|done|]. intros Hr z t' [->|Hz]%elem_of_cons Ht'; [congruence|by eapply R2].
      * intros Ey. rewrite Hl in Hnd, Ey. destruct pre as [|a pre]; simpl in Ey, Hnd;
          apply NoDup_cons in Hnd as [Hnd _]; set_solver.
Qed.

Section Contexts.
Context {St : Type} `{!KernelHeap St}.
Implicit Types s : sched St.

Lemma chain_previous cs C pre c C' :
  chain_rep cs C -> C = pre ++ c :: C' -> exists ctx, cs !! c = Some ctx /\ c_previous ctx = default 0 (head C').
Proof using. intros H ->. induction pre as [|a pre IH]; simpl in H; [apply H|]. apply IH, H. Qed.

Lemma context_unique s C Q c ctx : sched_wf s C Q -> c ∈ C -> sc_contexts s !! c = Some ctx ->
  queue_rep (sc_tasks s) (c_running ctx) (Q c) /\ Q c <> [].
Proof using. intros W Hc E. destruct (sw_queue _ _ _ W c Hc) as (ctx' & E' & H). by simplify_eq. Qed.

Lemma scan_contexts_spec s C Q pid suf : forall pre c fuel,
  sched_wf s C Q -> C = pre ++ c :: suf -> (length suf < fuel)%nat ->
  exists r, scan_contexts (sc_tasks s) (sc_contexts s) (last_context s) c pid fuel = Done r /\
    (r <> 0 -> exists d t, d ∈ C /\ r ∈ Q d /\ sc_tasks s !! r = Some t /\ t_id t = pid) /\
    (r = 0 -> forall d x t, d ∈ c :: suf -> x ∈ Q d -> sc_tasks s !! x = Some t -> t_id t <> pid).
Proof using.
  induction suf as [|d suf IH]; intros pre c fuel W HC Hf; destruct fuel as [|fuel]; try lia; cbn [scan_contexts];
    destruct (chain_previous _ _ _ _ _ (sw_chain _ _ _ W) HC) as (ctx & Ec & Ep);
    destruct (context_unique s C Q c ctx W ltac:(set_solver) Ec) as [Hq Hne];
    rewrite Ec; cbn [deref mbind outcome_bind]; rewrite (qr_lock _ _ _ Hq); cbn [spinlock_acquire mbind outcome_bind];
    (destruct (Q c) as [|x l] eqn:EQ; [done|]); rewrite (qr_head _ _ _ Hq);
    destruct (scan_tasks_spec (sc_tasks s) (c_running ctx) (x :: l) pid l [] x (size (sc_tasks s)) Hq eq_refl)
      as (r & Er & R1 & R2);
      try (change (S (length l) <= size (sc_tasks s))%nat;
           apply (keys_size (sc_tasks s) (x :: l)); [apply Hq|intros y Hy; by eapply queue_task]);
    change (default 0 (head (x :: l))) with x in *; rewrite Er; cbn [mbind outcome_bind];
    destruct (Z.eqb_spec r 0) as [->|Hr]; cbn [negb];
    try (exists r; split_and!; [done|intros _; destruct (R1 Hr) as (Hin & t & Ht & Hid); exists c, t;
           rewrite EQ; split_and!; [set_solver|done|done|done]|done]).
  - rewrite Ep. simpl. exists 0. split_and!; [done|done|]. intros _ d y t ->%list_elem_of_singleton Hy.
    rewrite EQ in Hy. by apply R2.
  - rewrite Ep. simpl. rewrite (proj2 (Z.eqb_neq d 0)) by (intros ->; apply (sw_zero _ _ _ W); set_solver).
    rewrite (proj2 (Z.eqb_neq d (last_context s))); [cbn [negb andb]|].
    + destruct (IH (pre ++ [c]) d fuel W) as (r & Er' & R1' & R2').
      { by rewrite <- app_assoc. } { simpl in Hf. lia. }
      exists r. split_and!; [done|done|]. intros Hr e y t [->|He]%elem_of_cons Hy; [rewrite EQ in Hy; by apply R2|].
      by eapply R2'.
    + rewrite (sw_last _ _ _ W). intros Ed. pose proof (sw_nodup _ _ _ W) as Hn. rewrite HC in Hn, Ed.
      destruct pre as [|a pre]; simpl in Ed, Hn; apply NoDup_cons in Hn as [Hn _]; set_solver.
Qed.

Lemma get_pid_spec s C Q pid :
  sched_wf s C Q -> C <> [] -> pid <> 0 ->
  exists r, task_scheduler_round_robin_get_pid pid s = Done r /\
    (r <> 0 -> exists c t, c ∈ C /\ r ∈ Q c /\ sc_tasks s !! r = Some t /\ t_id t = pid) /\
    (r = 0 -> forall c x t, c ∈ C -> x ∈ Q c -> sc_tasks s !! x = Some t -> t_id t <> pid).
Proof using.
  intros W Hne Hp. unfold task_scheduler_round_robin_get_pid. rewrite (proj2 (Z.eqb_neq pid 0)) by done.
  rewrite (sw_context_lock _ _ _ W). cbn [spinlock_acquire mbind outcome_bind].
  destruct C as [|c C]; [done|].
  pose proof (sw_last _ _ _ W) as Hl. change (default 0 (head (c :: C))) with c in Hl.
  pose proof (scan_contexts_spec s (c :: C) Q pid C [] c (size (sc_contexts s)) W eq_refl) as Hs.
  rewrite Hl in *. apply Hs.
  change (length (c :: C) <= size (sc_contexts s))%nat. apply keys_size; [apply W|].
  intros d Hd. destruct (sw_queue _ _ _ W d Hd) as (ctx & E & _). by exists ctx.
Qed.
End Contexts.

Lemma zero_queue_rep ts : queue_rep ts zero_queue [].
Proof. split; try done; simpl; [constructor|set_solver|]. exists 0. by split; [|left]. Qed.

Lemma chain_rep_other cs C n ctx : (n ∉ C) -> chain_rep cs C -> chain_rep (<[n := ctx]> cs) C.
Proof.
  induction C as [|d C IH]; simpl; [done|]. intros Hn [(x & Hx & Hp) HC]. split; [|apply IH; set_solver].
  exists x. rewrite lookup_insert_ne by set_solver. done.
Qed.

(** The loop of [debug_dump_queue] over a queue of one task. *)
Lemma dump_single ts q x fuel :
  queue_rep ts q [x] -> dump_tasks ts x x (S fuel) = Done tt.
Proof.
  intros Hq. cbn [dump_tasks]. assert (x <> 0) by (pose proof (qr_nonzero _ _ _ Hq); set_solver).
  rewrite (proj2 (Z.eqb_neq x 0)) by done. destruct (queue_task _ _ _ x Hq) as [t Ht]; [set_solver|].
  rewrite Ht. cbn [deref mbind outcome_bind].
  destruct Hq as [_ _ _ _ _ _ _ (e & [Hl _] & He) _]. unfold tnext in Hl. rewrite Ht in Hl. injection Hl as Hl.
  simpl in Hl, He. rewrite Hl. destruct He as [-> | ->]; [done|]. by rewrite Z.eqb_refl, andb_false_r.
Qed.

(** * Creating tasks *)

Section Create.
Context (hhdm table : Z) {St : Type} `{!KernelHeap St}.
Implicit Types s : sched St.

Lemma least_busy_spec s C Q suf : forall pre c min f fuel,
  sched_wf s C Q -> C = pre ++ c :: suf -> (length suf < fuel)%nat ->
  (min = 18446744073709551615 \/
     (f ∈ C /\ min = Z.of_nat (length (Q f)) /\ forall d, d ∈ pre -> min <= Z.of_nat (length (Q d)))) ->
  (min = 18446744073709551615 -> pre = []) ->
  exists r, least_busy (sc_contexts s) c min f fuel = Done r /\ r ∈ C /\
    (length (Q r) <= length (Q c))%nat /\ forall d, d ∈ pre ++ c :: suf -> (length (Q r) <= length (Q d))%nat.
Proof using.
  induction suf as [|d suf IH]; intros pre c min f fuel W HC Hf Hm Hpre; destruct fuel as [|fuel]; try lia;
    cbn [least_busy]; destruct (chain_previous _ _ _ _ _ (sw_chain _ _ _ W) HC) as (ctx & Ec & Ep);
    destruct (context_unique s C Q c ctx W ltac:(set_solver) Ec) as [Hq Hne];
    rewrite Ec; cbn [deref mbind outcome_bind]; rewrite (qr_count _ _ _ Hq), Ep;
    pose proof (qr_small _ _ _ Hq) as Hsm;
    (assert (exists min' f', (if Z.of_nat (length (Q c)) <? min then (Z.of_nat (length (Q c)), c) else (min, f))
        = (min', f') /\ f' ∈ C /\ min' = Z.of_nat (length (Q f')) /\
        forall e, e ∈ pre ++ [c] -> min' <= Z.of_nat (length (Q e))) as (min' & f' & -> & H1 & H2 & H3);
     [destruct Hm as [->|(Hfc & -> & Hle)]; btest; eexists _, _; (split; [reflexivity|]); try lia;
       [rewrite (Hpre eq_refl); split_and!; [set_solver|done|intros e ->%list_elem_of_singleton; lia]
       |split_and!; [set_solver|done|];
          intros e [He| ->%list_elem_of_singleton]%elem_of_app; [specialize (Hle e He); lia|lia]
       |split_and!; [done|done|];
          intros e [He| ->%list_elem_of_singleton]%elem_of_app; [by apply Hle|lia]]|]).
  - simpl. exists f'. split_and!; [done|done|specialize (H3 c ltac:(set_solver)); lia|].
    intros e He. specialize (H3 e He). lia.
  - simpl. rewrite (proj2 (Z.eqb_neq d 0)) by (intros ->; apply (sw_zero _ _ _ W); set_solver).
    destruct (IH (pre ++ [c]) d min' f' fuel W) as (r & Er & R1 & R2 & R3).
    { by rewrite <- app_assoc. } { simpl in Hf. lia. } { right. by split_and!. }
    { intros E. pose proof (context_unique s C Q f') as Hu.
      destruct (sw_queue _ _ _ W f' H1) as (ctx' & _ & Hq' & _). pose proof (qr_small _ _ _ Hq'). lia. }
    rewrite <- app_assoc in R3. exists r. split_and!; [done|done|apply R3; set_solver|done].
Qed.

Lemma chain_rep_insert cs C c ctx ctx' :
  cs !! c = Some ctx -> c_previous ctx' = c_previous ctx -> chain_rep cs C -> chain_rep (<[c := ctx']> cs) C.
Proof using.
  intros Hc Hp. induction C as [|d C IH]; simpl; [done|]. intros [(x & Hx & Hpx) HC]. split; [|by apply IH].
  destruct (decide (c = d)) as [->|Hn].
  - exists ctx'. rewrite lookup_insert_eq. split; [done|]. rewrite Hp. congruence.
  - exists x. by rewrite lookup_insert_ne.
Qed.

(** Appending a fresh task to the queue of [c]. *)
Definition push_queue (Q : Z -> list Z) (c x d : Z) : list Z := if decide (d = c) then Q c ++ [x] else Q d.

Lemma push_running_spec s C Q c x t :
  sched_wf s C Q -> c ∈ C -> sc_tasks s !! x = Some t -> t_next t = 0 -> x <> 0 ->
  (forall d, d ∈ C -> x ∉ Q d) -> Z.of_nat (length (Q c)) + 1 < 9223372036854775808 ->
  exists s', push_running c x s = Done s' /\ sched_wf s' C (push_queue Q c x) /\
    sc_tasks s' !! x = Some (set_t_parent_queue (running_of c) t) /\
    (forall p tp, p <> x -> sc_tasks s !! p = Some tp -> exists v, sc_tasks s' !! p = Some (set_t_next v tp)) /\
    last_id s' = last_id s /\ sc_heap s' = sc_heap s /\ sc_cpu s' = sc_cpu s /\
    sc_cpu_contexts s' = sc_cpu_contexts s.
Proof using.
  intros W Hc Ht Htn Hx0 Hfresh Hlen. destruct (sw_queue _ _ _ W c Hc) as (ctx & Ec & Hq & Hne).
  destruct (push_spec (running_of c) (c_running ctx) (sc_tasks s) (Q c) x t Hq (Hfresh c Hc) Hx0 Ht Htn Hlen)
    as (q' & ts' & E & Hq' & _ & Hx' & Hsame & Hout).
  unfold push_running. rewrite Ec. cbn [deref mbind outcome_bind]. rewrite E. cbn [mbind outcome_bind]. cbn beta iota.
  eexists. split; [reflexivity|]. split; [|simpl; by split_and!].
  assert (Hdom : forall y, is_Some (ts' !! y) -> is_Some (sc_tasks s !! y)).
  { intros y [ty Hy]. destruct (decide (y = x)) as [->|Hyx]; [by exists t|].
    destruct (decide (y ∈ Q c)) as [Hyc|Hyc]; [by eapply queue_task|]. rewrite <- (Hout y Hyx Hyc). by exists ty. }
  destruct W as [W1 W2 W3 W5 W6 W7 W8 W8c W8p W8a W9 W10 W11]. split; try done; simpl; [|..|by auto].
  - by eapply chain_rep_insert.
  - intros d Hd. unfold push_queue. destruct (decide (d = c)) as [->|Hdc].
    + eexists. rewrite lookup_insert_eq. split; [done|]. split; [done|]. by destruct (Q c).
    + destruct (W6 d Hd) as (ctxd & Ed & Hqd & Hned). exists ctxd. rewrite lookup_insert_ne by done.
      split_and!; [done| |done]. apply (queue_rep_ext (sc_tasks s)); [|done]. intros y Hy. unfold tnext.
      rewrite Hout; [done| |].
      * intros ->. by apply (Hfresh d).
      * intros Hyc. by apply (W7 d c y).
  - intros d e y Hd He Hde. unfold push_queue.
    destruct (decide (d = c)) as [->|Hdc]; destruct (decide (e = c)) as [->|Hec]; [done|..].
    + intros [Hy| ->%list_elem_of_singleton]%elem_of_app; [by apply (W7 c e y)|by apply Hfresh].
    + intros Hy [Hy2| ->%list_elem_of_singleton]%elem_of_app; [by eapply (W7 d c y)|by apply (Hfresh d)].
    + intros Hy. by apply (W7 d e y).
  - auto.
  - intros d [cd Hd]. apply W8c. apply lookup_insert_Some in Hd as [[<- _]|[_ Hd]]; eauto.
Qed.

Context `{!KernelHeapLaws St}.

Lemma sched_wf_heap s C Q h :
  sched_wf s C Q -> kh_ok h -> (forall a, kh_live (sc_heap s) a -> kh_live h a) -> sched_wf (with_heap s h) C Q.
Proof using. intros [] Hok Hl. split; try done; simpl; auto. Qed.

(** A task in a page that was not in use. *)
Lemma sched_wf_new_task s C Q x t :
  sched_wf s C Q -> sc_tasks s !! x = None -> sc_cpu_contexts s !! x = None -> kh_live (sc_heap s) x ->
  sched_wf (with_tasks s (<[x := t]> (sc_tasks s))) C Q.
Proof using.
  intros W Hn Hnc Hl. destruct W as [W1 W2 W3 W5 W6 W7 W8 W8c W8p W8a W9 W10 W11]. split; try done.
  - intros c Hc. destruct (W6 c Hc) as (ctx & E & Hq & Hne). exists ctx. split_and!; [done| |done]. simpl.
    apply (queue_rep_ext (sc_tasks s)); [|done]. intros y Hy. unfold tnext. rewrite lookup_insert_ne; [done|].
    intros ->. destruct (queue_task _ _ _ _ Hq Hy). congruence.
  - intros y [ty Hy]. simpl in *. apply lookup_insert_Some in Hy as [[<- _]|[_ Hy]]; [done|]. apply W8. by exists ty.
  - intros y [ty Hy]. simpl in *. apply lookup_insert_Some in Hy as [[<- _]|[_ Hy]]; [done|]. apply W8a. by exists ty.
Qed.

(** A change of a task that leaves its link alone. *)
Lemma sched_wf_update s C Q x t t' :
  sched_wf s C Q -> sc_tasks s !! x = Some t -> t_next t' = t_next t ->
  sched_wf (with_tasks s (<[x := t']> (sc_tasks s))) C Q.
Proof using.
  intros W Hx Hn. assert (Hdom : forall y, is_Some (<[x := t']> (sc_tasks s) !! y) -> is_Some (sc_tasks s !! y)).
  { intros y [ty Hy]. apply lookup_insert_Some in Hy as [[<- _]|[_ Hy]]; eauto. }
  destruct W as [W1 W2 W3 W5 W6 W7 W8 W8c W8p W8a W9 W10 W11]. split; try done; simpl; auto.
  intros c Hc. destruct (W6 c Hc) as (ctx & E & Hq & Hne). exists ctx. split_and!; [done| |done].
  apply (queue_rep_ext (sc_tasks s)); [|done]. intros y Hy. unfold tnext. rewrite lookup_insert.
  case_decide as Ex; [|done]. subst y. rewrite Hx. simpl. by rewrite Hn.
Qed.

Lemma fresh_not_queued s C Q x : sched_wf s C Q -> sc_tasks s !! x = None -> forall c, c ∈ C -> x ∉ Q c.
Proof using.
  intros W Hn c Hc Hx. destruct (sw_queue _ _ _ W c Hc) as (ctx & _ & Hq & _).
  destruct (queue_task _ _ _ _ Hq Hx). congruence.
Qed.

(** The new task of [create]. *)
Definition created (id stack name_copy name_len fds : Z) (simd : arch_simd_state_t) (q : Z) : scheduler_task :=
  set_t_parent_queue q (set_t_simd_state simd
    (Task id stack 0 (replicate 512 0) zero_state name_copy name_len true 0 0 0 false 0 1 512 fds 1 0 0 0)).

(** The end of [create]: the least busy context gets the task. *)
Lemma create_push s C Q p k cx x t :
  sched_wf s C Q -> C <> [] -> on_cpu s p k cx -> sc_tasks s !! x = Some t -> t_next t = 0 -> x <> 0 ->
  (forall c, c ∈ C -> x ∉ Q c) -> (forall c, c ∈ C -> Z.of_nat (length (Q c)) + 1 < 9223372036854775808) ->
  exists s' c,
    ('(own, s) ← arch_get_scheduler_context s;
     free_context ← least_busy (sc_contexts s) (last_context s) 18446744073709551615 own (size (sc_contexts s));
     s ← arch_save_simd_state x s;
     s ← push_running free_context x s;
     Done (x, s)) = Done (x, s') /\ c ∈ C /\
    (forall d, d ∈ C -> (length (Q c) <= length (Q d))%nat) /\ sched_wf s' C (push_queue Q c x) /\
    sc_tasks s' !! x = Some (set_t_parent_queue (running_of c) (set_t_simd_state (cpu_simd (sc_cpu s)) t)) /\
    last_id s' = last_id s /\ sc_cpu s' = sc_cpu (with_gs s p k) /\
    sc_cpu_contexts s' = sc_cpu_contexts s /\ sc_heap s' = sc_heap s /\
    (forall y ty, y <> x -> sc_tasks s !! y = Some ty -> exists v, sc_tasks s' !! y = Some (set_t_next v ty)).
Proof using.
  intros W HC Hoc Ht Htn Hx0 Hfresh Hlen. rewrite (get_scheduler_context_spec _ _ _ _ Hoc).
  cbn [mbind outcome_bind]. cbn beta iota.
  assert (sched_wf (with_gs s p k) C Q) as W1 by (by destruct W; split).
  destruct C as [|c0 C']; [done|].
  pose proof (sw_last _ _ _ W) as Hl. change (default 0 (head (c0 :: C'))) with c0 in Hl.
  change (last_context (with_gs s p k)) with (last_context s). rewrite Hl.
  destruct (least_busy_spec (with_gs s p k) (c0 :: C') Q C' [] c0 18446744073709551615 (cx_scheduler_context cx)
    (size (sc_contexts (with_gs s p k))) W1 eq_refl) as (f & Ef & Hf & _ & Hmin); [|by left|done|].
  { change (length (c0 :: C') <= size (sc_contexts s))%nat. apply keys_size; [apply W|].
    intros d Hd. destruct (sw_queue _ _ _ W d Hd) as (ctx & E & _). by exists ctx. }
  rewrite Ef. cbn [mbind outcome_bind]. unfold arch_save_simd_state.
  change (sc_tasks (with_gs s p k)) with (sc_tasks s). rewrite (update_task_done _ _ _ t Ht). cbn [mbind outcome_bind].
  change (cpu_simd (sc_cpu (with_gs s p k))) with (cpu_simd (sc_cpu s)).
  set (s2 := with_tasks (with_gs s p k) _).
  assert (sched_wf s2 (c0 :: C') Q) as W2.
  { destruct W1 as [? ? ? ? Hq ? Hlv ? ? Hap ? ? ?]. split; try done.
    - intros c Hc. destruct (Hq c Hc) as (ctx & E & Hqc & Hne). exists ctx. split_and!; [done| |done].
      apply (queue_rep_ext (sc_tasks s)); [|done]. intros y Hy. unfold tnext, s2. simpl.
      rewrite lookup_insert_ne; [done|]. intros ->. by apply (Hfresh c).
    - intros y [ty Hy]. apply Hlv. simpl in *. apply lookup_insert_Some in Hy as [[<- _]|[_ Hy]]; eauto.
    - intros y [ty Hy]. apply Hap. simpl in *. apply lookup_insert_Some in Hy as [[<- _]|[_ Hy]]; eauto. }
  destruct (push_running_spec s2 (c0 :: C') Q f x (set_t_simd_state (cpu_simd (sc_cpu s)) t) W2 Hf)
    as (s' & Es & W' & Hx' & Hoth & Hi & Hhp & Hcp & Hcx); try done; [by apply lookup_insert_eq|by apply Hlen|].
  rewrite Es. exists s', f. split_and!; try done. intros y ty Hy Hty. apply Hoth; [done|].
  simpl. by rewrite lookup_insert_ne.
Qed.

(** The name [n] at [name] is still there after the allocations that come
    before it is copied. *)
Definition named (h : St) (name : Z) (n : list Z) : Prop :=
  forall p1 h1, kh_page_allocate 1 h = Done (p1, h1) ->
    cstr (kh_mem h1) name n /\
    forall p2 h2, kh_block_allocate (Z.of_nat (length n)) h1 = Done (p2, h2) ->
      bytes (kh_mem h2) name (length n) = n.

(** A string inside a block stays. *)
Lemma named_block h name n :
  kh_ok h -> kh_block h name -> cstr (kh_mem h) name n -> Z.of_nat (length n) < kh_extent h name ->
  kh_fits [Z.of_nat (length n)] h -> named h name n.
Proof using KernelHeapLaws0.
  intros Hok Hb Hc He Hfit p1 h1 E1. destruct (kh_page_law _ _ _ Hok E1) as (Ok1 & _ & _ & _ & _ & _ & Fit1 & K1).
  destruct (K1 name Hb) as (_ & _ & M1). split.
  - apply (cstr_ext (kh_mem h)); [|done]. intros b Hb'. apply M1. lia.
  - intros p2 h2 E2. destruct (kh_block_law _ _ _ _ _ Ok1 (proj2 (Fit1 _) Hfit) E2) as (_ & _ & _ & _ & _ & _ & _ & _ & _ & K2).
    assert (kh_keeps h h2) as K by (by etrans). destruct (K name Hb) as (_ & _ & M2).
    rewrite (bytes_ext (kh_mem h)); [apply Hc|]. intros b Hb'. apply M2. lia.
Qed.

(** The allocations of [create]: what is in use stays in use, the copy of the
    name is made, the table of the descriptors is empty. *)
Lemma create_allocations (h : St) name n :
  kh_ok h -> kh_fits [Z.of_nat (length n)] h -> named h name n ->
  kh_page_allocate 1 h = Panicked \/ exists task h1, kh_page_allocate 1 h = Done (task, h1) /\
  strlen (kh_mem h1) name = Z.of_nat (length n) /\
  (kh_block_allocate (Z.of_nat (length n)) h1 = Panicked \/
   exists copy h2, kh_block_allocate (Z.of_nat (length n)) h1 = Done (copy, h2) /\
   let h3 := kh_with_mem h2 (memcpy (kh_mem h2) copy name (Z.of_nat (length n))) in
   (kh_page_allocate 1 h3 = Panicked \/ exists stack h4, kh_page_allocate 1 h3 = Done (stack, h4) /\
    (kh_page_allocate 1 h4 = Panicked \/ exists fds h', kh_page_allocate 1 h4 = Done (fds, h') /\
     kh_ok h' /\ task <> 0 /\ ~ kh_live h task /\ kh_live h' task /\ (forall a, kh_live h a -> kh_live h' a) /\
     bytes (kh_mem h') copy (length n) = n))).
Proof using KernelHeapLaws0.
  intros Hok Hfit Hnm. destruct (kh_page_outcome h Hok) as [->|(x & h1 & E1)]; [by left|].
  destruct (kh_page_law _ _ _ Hok E1) as (Ok1 & Hx0 & Hnl & Hl1 & Mono1 & _ & Fit1 & _). rewrite E1.
  destruct (Hnm _ _ E1) as [Hc Hby]. right. exists x, h1. split_and!; [done|by apply strlen_cstr|].
  destruct (kh_block_outcome h1 (Z.of_nat (length n)) [] Ok1) as [->|(copy & h2 & E2)]; [by apply Fit1|by left|].
  destruct (kh_block_law h1 h2 _ _ _ Ok1 (proj2 (Fit1 _) Hfit) E2) as (Ok2 & _ & _ & _ & Mono2 & Hz & Bc & Ex & _).
  rewrite E2. right. exists copy, h2. split; [done|]. cbv zeta.
  destruct (copy_name h2 copy name n Ok2 Bc Ex ltac:(apply Hc) (Hby _ _ E2) Hz) as (M1 & M2 & M3).
  set (m3 := memcpy (kh_mem h2) copy name (Z.of_nat (length n))) in *.
  destruct (kh_write_law h2 m3 Ok2 M3) as (Ok3 & Lv3 & Bl3 & Ex3 & _).
  destruct (kh_page_outcome _ Ok3) as [->|(stack & h4 & E4)]; [by left|].
  destruct (kh_page_law _ _ _ Ok3 E4) as (Ok4 & _ & _ & _ & Mono4 & _ & _ & K4).
  rewrite E4. right. exists stack, h4. split; [done|].
  destruct (kh_page_outcome h4 Ok4) as [->|(fds & h5 & E5)]; [by left|].
  destruct (kh_page_law _ _ _ Ok4 E5) as (Ok5 & _ & _ & _ & Mono5 & _ & _ & K5).
  rewrite E5. right. exists fds, h5. assert (kh_keeps (kh_with_mem h2 m3) h5) as K by (by etrans).
  destruct (K copy (proj2 (Bl3 copy) Bc)) as (_ & _ & Hb). rewrite (Ex3 _ Bc) in Hb.
  split_and!; try done.
  - apply Mono5, Mono4, Lv3. auto.
  - intros a Ha. apply Mono5, Mono4, Lv3. auto.
  - transitivity (bytes (kh_mem (kh_with_mem h2 m3)) copy (length n)); [|by rewrite kh_mem_law].
    apply bytes_ext. intros b Hb'. apply Hb. lia.
Qed.

Lemma create_spec s C Q p k cx name n :
  sched_wf s C Q -> C <> [] -> on_cpu s p k cx -> kh_fits [Z.of_nat (length n)] (sc_heap s) ->
  named (sc_heap s) name n ->
  0 <= last_id s < 2147483647 -> (forall c, c ∈ C -> Z.of_nat (length (Q c)) + 1 < 9223372036854775808) ->
  task_scheduler_round_robin_create name s = Panicked \/
  exists x s' c stack copy fds,
    task_scheduler_round_robin_create name s = Done (x, s') /\ c ∈ C /\
    (forall d, d ∈ C -> (length (Q c) <= length (Q d))%nat) /\
    sched_wf s' C (push_queue Q c x) /\ sc_tasks s !! x = None /\ last_id s' = last_id s + 1 /\
    sc_tasks s' !! x = Some (created (last_id s + 1) stack copy (Z.of_nat (length n)) fds
                               (cpu_simd (sc_cpu s)) (running_of c)) /\
    bytes (kh_mem (sc_heap s')) copy (length n) = n /\ sc_cpu s' = sc_cpu (with_gs s p k) /\
    sc_cpu_contexts s' = sc_cpu_contexts s /\
    (forall y ty, sc_tasks s !! y = Some ty -> exists v, sc_tasks s' !! y = Some (set_t_next v ty)).
Proof using KernelHeapLaws0.
  intros W HC Hoc Hfit Hnm Hid Hlen. unfold task_scheduler_round_robin_create.
  destruct (create_allocations (sc_heap s) name n (sw_heap _ _ _ W) Hfit Hnm) as [->|(x & h1 & E1 & El & Hr)]; [by left|].
  rewrite E1. cbn [mbind outcome_bind]. cbn beta iota. rewrite El.
  destruct Hr as [->|(copy & h2 & E2 & Hr)]; [by left|]. rewrite E2. cbn [mbind outcome_bind]. cbn beta iota. cbv zeta.
  destruct Hr as [->|(stack & h4 & E4 & Hr)]; [by left|]. rewrite E4. cbn [mbind outcome_bind]. cbn beta iota.
  rewrite (sw_id_lock _ _ _ W). cbn [spinlock_acquire mbind outcome_bind].
  destruct Hr as [->|(fds & h5 & E5 & Ok5 & Hx0 & Hnl & Hlx & Mono & Hby)]; [by left|right].
  rewrite E5. cbn [mbind outcome_bind]. cbn beta iota.
  assert (s32 (last_id s + 1) = last_id s + 1) as -> by (apply s32_small; lia).
  rewrite (u64_small (last_id s + 1)) by lia.
  assert (sc_tasks s !! x = None) as Hxn.
  { apply eq_None_not_Some. intros Hs. by apply Hnl, (sw_live _ _ _ W). }
  assert (sc_cpu_contexts s !! x = None) as Hxc.
  { apply eq_None_not_Some. intros Hs. by apply Hnl, (sw_live_cpus _ _ _ W). }
  set (s1 := with_last_id s (last_id s + 1) (spinlock_release true)).
  set (t := Task (last_id s + 1) (stack +w PAGE) 0 (replicate 512 0) zero_state copy _ true 0 0 0 false 0 1 _ fds 1 0 0 0).
  assert (sched_wf s1 C Q) as W1 by (by destruct W; split).
  pose proof (sched_wf_heap s1 C Q h5 W1 Ok5 Mono) as W2.
  pose proof (sched_wf_new_task (with_heap s1 h5) C Q x t W2 Hxn Hxc Hlx) as W3.
  set (s3 := with_tasks (with_heap s1 h5) (<[x := t]> (sc_tasks (with_heap s1 h5)))) in *.
  destruct (create_push s3 C Q p k cx x t W3 HC) as (s' & c & E & Hc & Hmin & W' & Hx' & Hi & Hcp & Hcx & Hhp & Hoth).
  { destruct Hoc as [O1 O2 O3 O4 O5]. split; try done. destruct O5 as [->|(O5 & tk & Htk & Hk)]; [by left|right].
    split; [done|]. exists tk. split; [|done]. simpl. rewrite lookup_insert_ne; [done|]. congruence. }
  { simpl. apply lookup_insert_eq. }
  { done. }
  { done. }
  { by apply (fresh_not_queued s). }
  { done. }
  exists x, s', c, (stack +w PAGE), copy, fds. split_and!; try done.
  - by rewrite Hhp.
  - intros y ty Hty. assert (y <> x) by congruence. apply Hoth; [done|]. simpl. by rewrite lookup_insert_ne.
Qed.

(** The new kernel task has its registers and is still marked as empty. *)
Lemma create_kernel_spec s C Q p k cx name n entry x s' :
  sched_wf s C Q -> C <> [] -> on_cpu s p k cx -> kh_fits [Z.of_nat (length n)] (sc_heap s) ->
  named (sc_heap s) name n ->
  0 <= last_id s < 2147483647 -> (forall c, c ∈ C -> Z.of_nat (length (Q c)) + 1 < 9223372036854775808) ->
  task_scheduler_round_robin_create_kernel hhdm table name entry s = Done (x, s') ->
  exists c t stack, c ∈ C /\ sched_wf s' C (push_queue Q c x) /\ sc_tasks s !! x = None /\
    sc_tasks s' !! x = Some t /\ t_id t = last_id s + 1 /\ t_empty t = true /\
    t_state t = kernel_state hhdm table entry stack /\ on_cpu s' p k cx /\
    (forall y ty, sc_tasks s !! y = Some ty -> exists v, sc_tasks s' !! y = Some (set_t_next v ty)).
Proof using KernelHeapLaws0.
  intros W HC Hoc Hfit Hnm Hid Hlen E. unfold task_scheduler_round_robin_create_kernel in E.
  destruct (create_spec s C Q p k cx name n W HC Hoc Hfit Hnm Hid Hlen) as [E1|(y & s1 & c & stk & copy & fds & E1 & Hc & _ &
    W1 & Hxn & _ & Hx & _ & Hcp & Hcx & Hoth)]; rewrite E1 in E; [done|].
  cbn [mbind outcome_bind] in E. cbn beta iota in E.
  apply bind_done_inv in E as ([stack h] & E2 & E). cbv zeta in E.
  destruct (kh_page_law _ _ _ (sw_heap _ _ _ W1) E2) as (Ok2 & _ & _ & _ & Mono2 & _).
  pose proof (sched_wf_heap s1 C _ h W1 Ok2 Mono2) as W2.
  change (sc_tasks (with_heap s1 h)) with (sc_tasks s1) in E. rewrite (update_task_done _ _ _ _ Hx) in E.
  cbn [mbind outcome_bind] in E. injection E as -> <-. set (t0 := created _ _ _ _ _ _ _) in *.
  set (t1 := set_t_state (kernel_state hhdm table entry (stack +w PAGE)) t0).
  pose proof (sched_wf_update (with_heap s1 h) C _ x t0 t1 W2 Hx eq_refl) as W3.
  assert (Hkeep : forall y ty, sc_tasks s !! y = Some ty -> exists v,
    <[x := t1]> (sc_tasks s1) !! y = Some (set_t_next v ty)).
  { intros y ty Hy. destruct (Hoth y ty Hy) as [v Hv]. exists v. rewrite lookup_insert_ne; [done|]. congruence. }
  exists c, t1, (stack +w PAGE). split_and!; [done|exact W3|done|apply lookup_insert_eq|done|done|done| |exact Hkeep].
  destruct Hoc as [O1 O2 O3 O4 O5]. split; try done.
  - left. change (sc_cpu (with_tasks (with_heap s1 h) ?m)) with (sc_cpu s1). by rewrite Hcp.
  - change (sc_cpu_contexts (with_tasks (with_heap s1 h) ?m)) with (sc_cpu_contexts s1). by rewrite Hcx.
  - destruct O5 as [->|(O5 & tk & Htk & Hk)]; [by left|right].
    change (sc_cpu_contexts (with_tasks (with_heap s1 h) ?m)) with (sc_cpu_contexts s1). rewrite Hcx. split; [done|].
    destruct (Hkeep k tk Htk) as [v Hv]. eexists. split; [exact Hv|]. done.
Qed.

(** ** A new context *)

Lemma install_scheduler_context_spec s p k cx c :
  on_cpu s p k cx ->
  let cx' := CpuContext (cx_context_type cx) (cx_cpu_id cx) (cx_is_bsp cx) (cx_gdt cx) c in
  arch_install_scheduler_context c s =
    Done (with_cpu_contexts (with_gs s p k) (<[p := cx']> (sc_cpu_contexts s))) /\
  on_cpu (with_cpu_contexts (with_gs s p k) (<[p := cx']> (sc_cpu_contexts s))) p k cx'.
Proof using.
  intros Hoc cx'. unfold arch_install_scheduler_context. rewrite (get_cpu_context_spec _ _ _ _ Hoc).
  cbn [mbind outcome_bind]. cbn beta iota. change (sc_cpu_contexts (with_gs s p k)) with (sc_cpu_contexts s).
  rewrite (oc_context _ _ _ _ Hoc). split; [done|].
  destruct Hoc as [O1 O2 O3 O4 O5]. split; try done; simpl; [by left|apply lookup_insert_eq|].
  destruct O5 as [->|(O5 & O6)]; [by left|right]. split; [|done]. rewrite lookup_insert_ne; [done|].
  intros ->. congruence.
Qed.

(** Linking the new context [n] in front of the chain. *)
Definition link_context (cs : gmap Z scheduler_context) (last n cpu_id : Z) : gmap Z scheduler_context :=
  let cs := <[n := Context_ cpu_id zero_queue 0 0]> cs in
  match cs !! last with
  | Some l =>
      if last =? 0 then cs else
      <[n := Context_ cpu_id zero_queue 0 last]>
        (<[last := Context_ (c_cpu_id l) (c_running l) n (c_previous l)]> cs)
  | None => cs
  end.

Lemma link_context_spec s C Q n cpu_id :
  sched_wf s C Q -> sc_contexts s !! n = None -> n <> 0 ->
  add_to_chain n (with_contexts s (<[n := Context_ cpu_id zero_queue 0 0]> (sc_contexts s)))
  = Done (with_contexts s (link_context (sc_contexts s) (last_context s) n cpu_id)) /\
  chain_rep (link_context (sc_contexts s) (last_context s) n cpu_id) (n :: C) /\
  (exists cn, link_context (sc_contexts s) (last_context s) n cpu_id !! n = Some cn /\ c_running cn = zero_queue) /\
  (forall c, c ∈ C -> exists ctx ctx', sc_contexts s !! c = Some ctx /\
     link_context (sc_contexts s) (last_context s) n cpu_id !! c = Some ctx' /\ c_running ctx' = c_running ctx) /\
  (forall c, is_Some (link_context (sc_contexts s) (last_context s) n cpu_id !! c) -> is_Some (sc_contexts s !! c) \/ c = n).
Proof using KernelHeapLaws0.
  intros W Hn Hn0. assert (forall c, c ∈ C -> c <> n) as HnC.
  { intros c Hc ->. destruct (sw_queue _ _ _ W n Hc) as (ctx & E & _). congruence. }
  assert (forall c, c ∈ C -> exists ctx, sc_contexts s !! c = Some ctx) as Hex.
  { intros c Hc. destruct (sw_queue _ _ _ W c Hc) as (ctx & E & _). by exists ctx. }
  pose proof (sw_last _ _ _ W) as Hl. pose proof (sw_chain _ _ _ W) as Hch. unfold link_context, add_to_chain. cbn [with_contexts last_context sc_contexts].
  destruct C as [|c0 C]; simpl in Hl.
  - rewrite Hl. simpl. assert (forall m : gmap Z scheduler_context, match m !! 0 with Some _ => m | None => m end = m) as Hm
      by (intros m; by destruct (m !! 0)).
    rewrite Hm. split_and!; [done| |done|..].
    + by eexists; rewrite lookup_insert_eq.
    + eexists. by rewrite lookup_insert_eq.
    + set_solver.
    + intros c [x Hx]. apply lookup_insert_Some in Hx as [[<- _]|[_ Hx]]; eauto.
  - rewrite Hl. assert (c0 <> 0) as Hc0 by (intros ->; apply (sw_zero _ _ _ W); set_solver).
    rewrite (proj2 (Z.eqb_neq c0 0)) by done. destruct (Hex c0 ltac:(set_solver)) as [x0 Ex0].
    pose proof (HnC c0 ltac:(set_solver)) as Hne. rewrite lookup_insert_ne, Ex0 by done.
    cbn [deref mbind outcome_bind]. rewrite lookup_insert_ne, lookup_insert_eq by done. cbn [deref mbind outcome_bind].
    split_and!; [done| | | |].
    + simpl. split; [by eexists; rewrite lookup_insert_eq|].
      apply (chain_rep_other _ (c0 :: C)); [set_solver|].
      apply (chain_rep_insert _ _ _ x0); [by rewrite lookup_insert_ne|done|].
      apply (chain_rep_other _ (c0 :: C)); [set_solver|done].
    + eexists. by rewrite lookup_insert_eq.
    + intros c Hc. destruct (Hex c Hc) as [x Ex]. exists x. pose proof (HnC c Hc).
      destruct (decide (c0 = c)) as [->|Hd].
      * rewrite lookup_insert_ne, lookup_insert_eq by done. eexists. split_and!; [done|done|]. simpl. congruence.
      * rewrite !lookup_insert_ne by done. exists x. done.
    + intros c [x Hx]. destruct (decide (c = n)) as [->|]; [by right|left].
      rewrite lookup_insert_ne in Hx by done. apply lookup_insert_Some in Hx as [[<- _]|[_ Hx]]; [by exists x0|].
      rewrite lookup_insert_ne in Hx by done. by exists x.
Qed.

Definition add_queue (Q : Z -> list Z) (n x d : Z) : list Z := if decide (d = n) then [x] else Q d.

(** The state between the two halves of [install_context]: the new context
    is in the chain, its queue is still empty. *)
Definition linked_state s (h : St) (n cpu_id p k : Z) (cx' : arch_cpu_context_t) : sched St :=
  with_cpu_contexts
    (with_gs (with_last_context (with_contexts (with_heap s h)
      (link_context (sc_contexts s) (last_context s) n cpu_id)) n false) p k)
    (<[p := cx']> (sc_cpu_contexts s)).

(** The idle task goes in the queue of the new context. *)
Lemma push_idle s C Q h n cpu_id p k cx' h2 x t :
  sched_wf s C Q -> kh_ok h2 -> (forall a, kh_live (sc_heap s) a -> kh_live h2 a) -> kh_live h2 n -> kh_live h2 x ->
  sc_contexts s !! n = None -> n <> 0 -> sc_tasks s !! x = None -> x <> 0 -> t_next t = 0 ->
  sc_cpu_contexts s !! x = None -> is_Some (sc_cpu_contexts s !! p) ->
  exists s', push_running n x (with_tasks (with_heap (linked_state s h n cpu_id p k cx') h2)
      (<[x := t]> (sc_tasks s))) = Done s' /\
    sched_wf s' (n :: C) (add_queue Q n x) /\
    sc_tasks s' = <[x := set_t_parent_queue (running_of n) t]> (sc_tasks s) /\
    sc_cpu s' = sc_cpu (with_gs s p k) /\ sc_cpu_contexts s' = <[p := cx']> (sc_cpu_contexts s) /\ sc_heap s' = h2.
Proof using KernelHeapLaws0.
  intros W Hok Hmono Hn Hx Hcn Hn0 Htx Hx0 Htn Hxc Hp.
  destruct (link_context_spec s C Q n cpu_id W Hcn Hn0) as (_ & Hch & (cn & En & Zn) & Hold & Hdom).
  set (cs := link_context (sc_contexts s) (last_context s) n cpu_id) in *.
  destruct (push_spec (running_of n) zero_queue (<[x := t]> (sc_tasks s)) [] x t (zero_queue_rep _))
    as (q' & ts' & E & Hq' & _ & Hx' & Hsame & Hout); [set_solver|done|apply lookup_insert_eq|done|simpl; lia|].
  assert (ts' = <[x := set_t_parent_queue (running_of n) t]> (sc_tasks s)) as ->.
  { apply map_eq. intros y. rewrite lookup_insert. case_decide as Ey; [by subst y|].
    rewrite Hout by set_solver. by rewrite lookup_insert_ne. }
  unfold push_running. simpl. fold cs. rewrite En. cbn [deref mbind outcome_bind]. rewrite Zn, E.
  cbn [mbind outcome_bind]. cbn beta iota. eexists. split; [reflexivity|]. split; [|done].
  assert (n ∉ C) as HnC by (intros Hc; destruct (sw_queue _ _ _ W n Hc) as (? & ? & _); congruence).
  assert (Hkeep : forall y, y <> x -> <[x := set_t_parent_queue (running_of n) t]> (sc_tasks s) !! y = sc_tasks s !! y)
    by (intros y Hy; by rewrite lookup_insert_ne).
  assert (HxQ : forall c, c ∈ C -> x ∉ Q c) by (by apply (fresh_not_queued s)).
  destruct W as [W1 W2 W3 W5 W6 W7 W8 W8c W8p W8a W9 W10 W11]. split; simpl; try done.
  - by apply (chain_rep_insert cs (n :: C) n cn).
  - by apply NoDup_cons.
  - set_solver.
  - intros d Hd. unfold add_queue. destruct (decide (d = n)) as [->|Hdn].
    + eexists. rewrite lookup_insert_eq. split; [done|]. split; [exact Hq'|done].
    + apply elem_of_cons in Hd as [->|Hd]; [done|]. destruct (Hold d Hd) as (ctx & ctx' & E1 & E2 & E3).
      destruct (W6 d Hd) as (ctx0 & E0 & Hq0 & Hne0). exists ctx'. rewrite lookup_insert_ne by done.
      split_and!; [done| |done]. rewrite E3. assert (ctx = ctx0) as -> by congruence.
      apply (queue_rep_ext (sc_tasks s)); [|done]. intros y Hy. unfold tnext. rewrite Hkeep; [done|].
      intros ->. by apply (HxQ d).
  - intros d e y Hd He Hde. unfold add_queue.
    destruct (decide (d = n)) as [->|Hdn]; destruct (decide (e = n)) as [->|Hen]; [done|..].
    + intros ->%list_elem_of_singleton. apply HxQ. set_solver.
    + intros Hy ->%list_elem_of_singleton. apply (HxQ d); [set_solver|done].
    + intros Hy. apply (W7 d e y); [set_solver|set_solver|done|done].
  - intros y [ty Hy]. apply lookup_insert_Some in Hy as [[<- _]|[_ Hy]]; [done|]. apply Hmono, W8. by exists ty.
  - intros c [xc Hc]. apply lookup_insert_Some in Hc as [[<- _]|[_ Hc]]; [done|].
    destruct (Hdom c ltac:(by eexists)) as [Hi| ->]; [by apply Hmono, W8c|done].
  - intros d [xd Hd]. apply lookup_insert_Some in Hd as [[<- _]|[_ Hd]]; [by apply Hmono, W8p|].
    apply Hmono, W8p. by exists xd.
  - intros y [ty Hy]. rewrite lookup_insert_ne.
    + apply lookup_insert_Some in Hy as [[<- _]|[_ Hy]]; [done|]. apply W8a. by exists ty.
    + intros ->. apply lookup_insert_Some in Hy as [[<- _]|[_ Hy]]; [by destruct Hp; congruence|].
      destruct Hp as [? Hp]. rewrite (W8a y) in Hp; [done|by eexists].
Qed.

(** The context of the processor afterwards, and the idle task. *)
Definition scheduled_context (cx : arch_cpu_context_t) (n : Z) : arch_cpu_context_t :=
  CpuContext (cx_context_type cx) (cx_cpu_id cx) (cx_is_bsp cx) (cx_gdt cx) n.

Lemma install_context_full s C Q p k cx cpu_id idle_name idle_entry sizes :
  sched_wf s C Q -> on_cpu s p k cx -> kh_fits (sizeof_scheduler_context :: sizes) (sc_heap s) ->
  task_scheduler_round_robin_install_context hhdm table cpu_id idle_name idle_entry s = Panicked \/
  exists s' n x t top, task_scheduler_round_robin_install_context hhdm table cpu_id idle_name idle_entry s = Done s' /\
    sched_wf s' (n :: C) (add_queue Q n x) /\ (n ∉ C) /\ sc_tasks s !! x = None /\
    sc_tasks s' = <[x := t]> (sc_tasks s) /\ runnable t = true /\ t_id t = 0 /\
    t_state t = kernel_state hhdm table idle_entry top /\ on_cpu s' p k (scheduled_context cx n) /\
    sc_cpu s' = sc_cpu (with_gs s p k) /\ sc_cpu_contexts s' = <[p := scheduled_context cx n]> (sc_cpu_contexts s) /\
    kh_fits sizes (sc_heap s').
Proof using KernelHeapLaws0.
  intros W Hoc Hfit. unfold task_scheduler_round_robin_install_context.
  destruct (kh_block_outcome _ sizeof_scheduler_context sizes (sw_heap _ _ _ W) Hfit) as [->|(n & h & E1)]; [by left|].
  destruct (kh_block_law _ _ _ _ _ (sw_heap _ _ _ W) Hfit E1)
    as (Ok1 & Hn0 & Hnl & Hl1 & Mono1 & _ & _ & _ & Fit1 & _).
  rewrite E1. cbn [mbind outcome_bind]. cbn beta iota.
  assert (sc_contexts s !! n = None) as Hcn.
  { apply eq_None_not_Some. intros Hs. by apply Hnl, (sw_live_contexts _ _ _ W). }
  cbv zeta. change (last_context_lock (with_contexts (with_heap s h) _)) with (last_context_lock s).
  rewrite (sw_context_lock _ _ _ W). cbn [spinlock_acquire mbind outcome_bind].
  destruct (link_context_spec (with_heap s h) C Q n cpu_id
    (sched_wf_heap s C Q h W Ok1 Mono1) Hcn Hn0) as (El & _).
  change (sc_contexts (with_heap s h)) with (sc_contexts s) in *.
  rewrite El. cbn [mbind outcome_bind].
  set (s1 := with_last_context _ n (spinlock_release true)).
  assert (on_cpu s1 p k cx) as Hoc1 by (by destruct Hoc; split).
  destruct (install_scheduler_context_spec s1 p k cx n Hoc1) as [E2 Hoc2]. cbv zeta in E2. rewrite E2.
  change (CpuContext _ _ _ _ n) with (scheduled_context cx n) in *. set (cx' := scheduled_context cx n) in *. cbn [mbind outcome_bind].
  change (with_cpu_contexts (with_gs s1 p k) _) with (linked_state s h n cpu_id p k cx').
  change (sc_heap (linked_state s h n cpu_id p k cx')) with h.
  destruct (kh_page_outcome h Ok1) as [->|(x & h1 & E3)]; [by left|].
  destruct (kh_page_law _ _ _ Ok1 E3) as (Ok2 & Hx0 & Hxl & Hl2 & Mono2 & _ & Fit2 & _).
  rewrite E3. cbn [mbind outcome_bind]. cbn beta iota.
  destruct (kh_page_outcome h1 Ok2) as [->|(stack & h2 & E4)]; [by left|].
  destruct (kh_page_law _ _ _ Ok2 E4) as (Ok3 & _ & _ & _ & Mono3 & _ & Fit3 & _).
  rewrite E4. cbn [mbind outcome_bind]. cbn beta iota. right.
  assert (sc_tasks s !! x = None) as Hxn.
  { apply eq_None_not_Some. intros Hs. by apply Hxl, Mono1, (sw_live _ _ _ W). }
  assert (sc_cpu_contexts s !! x = None) as Hxc.
  { apply eq_None_not_Some. intros Hs. by apply Hxl, Mono1, (sw_live_cpus _ _ _ W). }
  set (t0 := Task 0 0 0 _ _ idle_name 4 false 0 0 0 false 0 0 0 0 0 0 0 0).
  unfold arch_save_simd_state.
  rewrite (update_task_done _ x _ t0) by (simpl; apply lookup_insert_eq). cbn [mbind outcome_bind].
  set (t1 := set_t_simd_state _ t0).
  destruct (push_idle s C Q h n cpu_id p k cx' h2 x t1 W Ok3) as (s' & E5 & W' & Hts & Hcp & Hcx & Hhp);
    [by auto|by auto|by auto|done|done|done|done|done|done|by exists cx; apply (oc_context _ _ _ _ Hoc)|].
  change (with_tasks (with_tasks ?a ?b) ?c) with (with_tasks a c).
  change (sc_tasks (with_tasks ?a ?b)) with b.
  change (sc_tasks (with_heap (linked_state s h n cpu_id p k cx') h2)) with (sc_tasks s).
  rewrite insert_insert_eq, E5. cbn [mbind outcome_bind].
  assert (on_cpu s' p k cx') as Hoc'.
  { destruct Hoc as [O1 O2 O3 O4 O5]. split; [left; by rewrite Hcp|by rewrite Hcx, lookup_insert_eq|done|done|].
    destruct O5 as [->|(O5 & tk & Htk & Hk)]; [by left|right]. rewrite Hcx, Hts. split.
    - rewrite lookup_insert_ne; [done|]. intros ->. congruence.
    - exists tk. rewrite lookup_insert_ne; [done|]. intros ->. congruence. }
  assert (Hgs : with_gs s' p k = s') by (apply with_gs_same; by rewrite Hcp).
  destruct (sw_queue _ _ _ W' n ltac:(set_solver)) as (ctx & Ec & Hq & _).
  unfold add_queue in Hq. rewrite decide_True in Hq by done.
  exists s', n, x, (set_t_parent_queue (running_of n) t1), (stack +w PAGE). split.
  { unfold debug_dump_queue. rewrite (sw_id_lock _ _ _ W'). cbn [spinlock_acquire mbind outcome_bind].
    rewrite (get_scheduler_context_spec _ _ _ _ Hoc'), Hgs. cbn [mbind outcome_bind]. cbn beta iota.
    change (cx_scheduler_context cx') with n. rewrite Ec. cbn [deref mbind outcome_bind].
    rewrite (qr_head _ _ _ Hq). change (default 0 (head [x])) with x. by rewrite (dump_single _ _ _ _ Hq). }
  split_and!; try done.
  - pose proof (sw_nodup _ _ _ W') as Hn. by apply NoDup_cons in Hn as [Hn _].
  - rewrite Hhp. by apply Fit3, Fit2.
Qed.

Lemma install_context_spec s C Q p k cx cpu_id idle_name idle_entry :
  sched_wf s C Q -> on_cpu s p k cx -> kh_fits [sizeof_scheduler_context] (sc_heap s) ->
  task_scheduler_round_robin_install_context hhdm table cpu_id idle_name idle_entry s = Panicked \/
  exists s' n x t cx', task_scheduler_round_robin_install_context hhdm table cpu_id idle_name idle_entry s = Done s' /\
    sched_wf s' (n :: C) (add_queue Q n x) /\ (n ∉ C) /\ sc_tasks s !! x = None /\
    sc_tasks s' = <[x := t]> (sc_tasks s) /\ runnable t = true /\ t_id t = 0 /\
    on_cpu s' p k cx' /\ cx_scheduler_context cx' = n.
Proof using KernelHeapLaws0.
  intros W Hoc Hfit. destruct (install_context_full s C Q p k cx cpu_id idle_name idle_entry [] W Hoc Hfit)
    as [E|(s' & n & x & t & top & E & W' & Hn & Hx & Ht & Hr & Hi & _ & Hoc' & _)]; [by left|right].
  exists s', n, x, t, (scheduled_context cx n). by split_and!.
Qed.

(** ** The first task of a processor *)

(** Popping from the queue of [c]. *)
Definition rotate_queue (Q : Z -> list Z) (c d : Z) : list Z :=
  if decide (d = c) then match Q c with x :: l => l ++ [x] | [] => [] end else Q d.

Lemma rotate_elem Q c d y : y ∈ rotate_queue Q c d <-> y ∈ Q d.
Proof using.
  unfold rotate_queue. case_decide as Hd; [subst d|done]. destruct (Q c) as [|x l]; [done|].
  rewrite elem_of_app, list_elem_of_singleton, elem_of_cons. split; (intros [?|?]; [by right|by left]).
Qed.

Lemma pop_running_spec s C Q c x l :
  sched_wf s C Q -> c ∈ C -> Q c = x :: l ->
  exists s', pop_running c s = Done (x, s') /\ sched_wf s' C (rotate_queue Q c) /\ same_but_next (sc_tasks s) (sc_tasks s') /\
    sc_heap s' = sc_heap s /\ sc_cpu s' = sc_cpu s /\ sc_cpu_contexts s' = sc_cpu_contexts s.
Proof using.
  intros W Hc HQ. destruct (sw_queue _ _ _ W c Hc) as (ctx & Ec & Hq & _). rewrite HQ in Hq.
  destruct (pop_spec _ _ _ _ Hq) as (q & ts & E & Hq' & _ & Hs & Ho).
  unfold pop_running. rewrite Ec. cbn [deref mbind outcome_bind]. rewrite E. cbn [mbind outcome_bind]. cbn beta iota.
  eexists. split; [reflexivity|]. split; [|by split_and!].
  assert (Hdom : forall y, is_Some (ts !! y) -> is_Some (sc_tasks s !! y)).
  { intros y [ty Hy]. specialize (Hs y). rewrite Hy in Hs. by destruct (sc_tasks s !! y). }
  destruct W as [W1 W2 W3 W5 W6 W7 W8 W8c W8p W8a W9 W10 W11]. split; try done; simpl; [|..|by auto].
  - by eapply chain_rep_insert.
  - intros d Hd. destruct (W6 d Hd) as (ctxd & Ed & Hqd & Hned). unfold rotate_queue. case_decide as Hdc; [subst d|].
    + eexists. rewrite lookup_insert_eq, HQ. split; [done|]. split; [done|]. by destruct l.
    + exists ctxd. rewrite lookup_insert_ne by done. split_and!; [done| |done].
      apply (queue_rep_ext (sc_tasks s)); [|done]. intros y Hy. unfold tnext. rewrite Ho; [done|].
      rewrite <- HQ. intros Hyc. by apply (W7 d c y).
  - intros d e y Hd He Hde. rewrite !rotate_elem. by apply W7.
  - auto.
  - intros d [cd Hd]. apply W8c. apply lookup_insert_Some in Hd as [[<- _]|[_ Hd]]; eauto.
Qed.

(** [task_scheduler_round_robin_enable] continues with the first task of the
    queue of the processor, whatever its state. *)
Lemma enable_spec s C Q p k cx x l :
  sched_wf s C Q -> on_cpu s p k cx -> cx_scheduler_context cx ∈ C -> Q (cx_scheduler_context cx) = x :: l ->
  exists s' t, task_scheduler_round_robin_enable s = Done s' /\ sched_wf s' C (rotate_queue Q (cx_scheduler_context cx)) /\
    sc_tasks s !! x = Some t /\ same_but_next (sc_tasks s) (sc_tasks s') /\ sc_heap s' = sc_heap s /\
    sc_cpu s' = Cpu p k (t_simd_state t) (Some (t_state t)) true (cpu_interrupts (sc_cpu s)) /\
    sc_cpu_contexts s' = sc_cpu_contexts s.
Proof using KernelHeapLaws0.
  intros W Hoc Hc HQ. unfold task_scheduler_round_robin_enable.
  rewrite (get_scheduler_context_spec _ _ _ _ Hoc). cbn [mbind outcome_bind]. cbn beta iota.
  assert (sched_wf (with_gs s p k) C Q) as W1 by (by destruct W; split).
  destruct (pop_running_spec _ C Q _ x l W1 Hc HQ) as (s1 & -> & W' & Hs & Hh & Hcp & Hcx). cbn [mbind outcome_bind]. cbn beta iota.
  destruct (sw_queue _ _ _ W _ Hc) as (ctx & _ & Hq & _). destruct (queue_task _ _ _ x Hq) as [t Ht]; [rewrite HQ; set_solver|].
  destruct (same_next _ _ _ _ Hs Ht) as [v Hv]. unfold arch_restore_simd_state. rewrite Hv. cbn [deref mbind outcome_bind].
  unfold arch_switch_state, schedule_one_shot. cbn [sc_tasks with_cpu]. rewrite Hv. cbn [deref mbind outcome_bind].
  eexists _, t. split; [reflexivity|]. split; [by destruct W'; split|]. split_and!; try done. cbn [with_cpu sc_cpu]. rewrite Hcp. done.
Qed.
End Create.
