(* ===== verification/SchedulerProps.v ===== *)
(** The properties of the round-robin scheduler. *)

From S2P Require Import Prelude Memory Libc Spinlock PageAllocator PageAllocatorSpec PageTable BlockAllocator BlockAllocatorSpec Paths KernelHeap Scheduler SchedulerSpec.

(** * A concrete scheduler

    One processor whose heap is the one of [BlockAllocatorSpec], with its
    context installed and two user tasks. *)

#[local] Existing Instance demo_source.
#[local] Existing Instance demo_source_laws.

Section Demo.
Context (table : Z).
#[local] Instance demo_kernel_heap : KernelHeap (ba_state pa_state) := ba_heap 0 table.

Definition demo_cpu : cpu := Cpu 0 0 [] None false true.

Definition demo_empty (h : ba_state pa_state) : sched (ba_state pa_state) :=
  Sched h ∅ ∅ ∅ 0 false 0 false demo_cpu.

(** ["io"]. *)
Definition demo_name : list Z := [105; 111].

(** The context of the processor, the scheduler context with its idle task, and
    a name in a block. *)
Definition demo_install (h : ba_state pa_state) : outcome (Z * Z * sched (ba_state pa_state)) :=
  '(p, s) ← arch_context_install (demo_empty h);
  s ← task_scheduler_round_robin_install_context 0 table 0 7 100 s;
  '(name, h) ← kh_block_allocate 3 (sc_heap s);
  Done (p, name, with_heap s (kh_with_mem h (put (kh_mem h) name demo_name))).

#[local] Instance demo_kernel_heap_laws : KernelHeapLaws (ba_state pa_state) :=
  ba_heap_laws 0 table hhdm_ok_0.

Lemma demo_context_wf h p s F B :
  block_allocator_lock h = false -> ba_wf 0 table h F B ->
  block_allocator_current_virtual_address h = 0x101000 ->
  ('(p, s) ← arch_context_install (demo_empty h);
   s ← task_scheduler_round_robin_install_context 0 table 0 7 100 s; Done (p, s)) = Done (p, s) ->
  exists n x t cx, sched_wf s [n] (add_queue (fun _ => []) n x) /\ sc_tasks s = {[x := t]} /\
    runnable t = true /\ t_id t = 0 /\ on_cpu s p 0 cx /\ cx_scheduler_context cx = n.
Proof using.
  intros Hl W Hcur E. apply bind_done_inv in E as ([p1 s1] & E1 & E).
  apply bind_done_inv in E as (s2 & E2 & [= <- <-]).
  assert (kh_ok h) as Hok by (split; [done|by exists F, B]).
  unfold arch_context_install in E1. apply bind_done_inv in E1 as ([p2 h2] & E3 & [= <- <-]).
  destruct (kh_page_law _ _ _ Hok E3) as (Ok2 & Hp0 & Hnl & Hl2 & _ & _ & Fit & _).
  set (s1 := with_cpu _ _) in E2.
  assert (sched_wf s1 [] (fun _ => [])) as W1.
  { split.
    - exact I.
    - constructor.
    - apply not_elem_of_nil.
    - reflexivity.
    - intros c Hc. by apply elem_of_nil in Hc.
    - intros c d x Hc. by apply elem_of_nil in Hc.
    - intros x [t Hx]. simpl in Hx. by rewrite lookup_empty in Hx.
    - intros x [t Hx]. simpl in Hx. by rewrite lookup_empty in Hx.
    - intros q [c Hc]. simpl in Hc. apply lookup_insert_Some in Hc as [[<- _]|[_ Hc]]; [exact Hl2|].
      by rewrite lookup_empty in Hc.
    - intros x [t Hx]. simpl in Hx. by rewrite lookup_empty in Hx.
    - exact Ok2.
    - reflexivity.
    - reflexivity. }
  destruct (install_context_spec 0 table s1 [] (fun _ => []) p2 0 (CpuContext CONTEXT_TYPE_CPU 0 false 0 0) 0 7 100 W1)
    as [Ex|(s' & n & x & t & cx' & Ex & Ws & _ & _ & Hts & Hr & Hid & Hoc & Hcx)].
  - split; simpl; [by left|apply lookup_insert_eq|done|done|by left].
  - apply Fit. split; [constructor; [unfold sizeof_scheduler_context; lia|constructor]|].
    split; rewrite Hcur; vm_compute; congruence.
  - congruence.
  - assert (s' = s2) as -> by congruence. exists n, x, t, cx'. split_and!; try done.
Qed.

(** Writing a name into a fresh block. *)
Lemma demo_name_wf s C Q name h :
  sched_wf s C Q -> kh_fits [3] (sc_heap s) -> kh_block_allocate 3 (sc_heap s) = Done (name, h) ->
  let s' := with_heap s (kh_with_mem h (put (kh_mem h) name demo_name)) in
  sched_wf s' C Q /\ kh_block (sc_heap s') name /\ 3 <= kh_extent (sc_heap s') name /\
  cstr (kh_mem (sc_heap s')) name demo_name.
Proof using.
  intros W Hfit E s'. destruct (kh_block_law _ _ _ _ _ (sw_heap _ _ _ W) Hfit E) as (Ok & _ & _ & _ & Mo & Hz & Bn & Ex & _).
  destruct (put_spec demo_name (kh_mem h) name) as [P1 P2]; [repeat constructor|apply Hz; simpl; lia|].
  assert (changes (kh_data h) (kh_mem h) (put (kh_mem h) name demo_name)) as P3.
  { eapply changes_mono; [|exact P2]. intros b Hb. cbn beta in Hb. exists name. split; [exact Bn|]. simpl length in Hb. lia. }
  destruct (kh_write_law h _ Ok P3) as (Ok3 & Lv3 & Bl3 & Ex3 & _). split_and!.
  - apply sched_wf_heap; [exact W|exact Ok3|]. intros a Ha. apply Lv3. by apply Mo.
  - exact (proj2 (Bl3 name) Bn).
  - change (3 <= kh_extent (kh_with_mem h (put (kh_mem h) name demo_name)) name). rewrite (Ex3 name Bn). exact Ex.
  - change (cstr (kh_mem (kh_with_mem h (put (kh_mem h) name demo_name))) name demo_name). rewrite kh_mem_law. exact P1.
Qed.
End Demo.

(** What the properties need of the numbers of the concrete state. *)
Definition demo_small (s : sched (ba_state pa_state)) : bool :=
  (last_id s =? 0) && (block_allocator_current_virtual_address (sc_heap s) <? 0x1000000) &&
  (0 <=? block_allocator_current_virtual_address (sc_heap s)) &&
  forallb (fun '(_, t) => t_ppid t =? 0) (map_to_list (sc_tasks s)).

Lemma demo_small_inv s n : demo_small s = true -> 0 <= n < 0x100000 ->
  last_id s = 0 /\ Forall (fun n => 0 <= n /\ n + 16384 < 18446744073709551616) [n] /\ room (sc_heap s) (list_pages [n]).
Proof.
  intros H Hn. unfold demo_small in H. apply andb_true_iff in H as [H _]. apply andb_true_iff in H as [[H1%Z.eqb_eq H2%Z.ltb_lt]%andb_true_iff H3%Z.leb_le].
  assert (0 <= block_round_size n <= 0x100010) as Hr.
  { unfold block_round_size, BLOCK_MINIMUM_ALLOCATION. cbv zeta. repeat btest; try lia; rewrite u64_small; zlia. }
  split; [done|]. split; [constructor; [lia|constructor]|].
  unfold room, list_pages, block_pages, page_number, PAGE. simpl. split; zlia.
Qed.

Lemma demo_small_orphans s x t : demo_small s = true -> sc_tasks s !! x = Some t -> t_ppid t = 0.
Proof.
  intros H Hx. apply andb_true_iff in H as [_ H]. rewrite forallb_forall in H.
  apply elem_of_map_to_list, list_elem_of_In, H in Hx. by apply Z.eqb_eq in Hx.
Qed.

Lemma demo_sched : exists table h p name s n x t cx,
  demo_boot = Done (table, h) /\ demo_install table h = Done (p, name, s) /\
  @sched_wf _ (ba_heap 0 table) s [n] (add_queue (fun _ => []) n x) /\
  sc_tasks s = {[x := t]} /\ runnable t = true /\ t_id t = 0 /\ on_cpu s p 0 cx /\ cx_scheduler_context cx = n /\
  demo_small s = true /\
  is_done (@task_scheduler_round_robin_create_kernel 0 table _ (ba_heap 0 table) name 4096 s) = true /\
  @named _ (ba_heap 0 table) (sc_heap s) name demo_name.
Proof.
  assert (is_done ('(table, h) ← demo_boot;
    '(p, s) ← @arch_context_install _ (demo_kernel_heap table) (demo_empty h);
    s ← @task_scheduler_round_robin_install_context 0 table _ (demo_kernel_heap table) 0 7 100 s;
    if demo_small s then Done tt else Undef) = true) as H0 by (vm_compute; reflexivity).
  assert (is_done ('(table, h) ← demo_boot; '(p, name, s) ← demo_install table h;
    if demo_small s && is_done (@task_scheduler_round_robin_create_kernel 0 table _ (ba_heap 0 table) name 4096 s)
    then Done tt else Undef) = true) as H by (vm_compute; reflexivity).
  destruct demo_heap as (table & h & E & Hl & Hc & W).
  rewrite E in H, H0. cbn [mbind outcome_bind] in H, H0. apply is_done_bind in H as ([[p name] s] & E2 & H).
  apply is_done_inv in H as [u H]. destruct (demo_small s) eqn:E3; [|discriminate H]. cbn [andb] in H.
  destruct (is_done (task_scheduler_round_robin_create_kernel _ _ _ _ _)) eqn:E4; [|discriminate H]. pose proof E2 as E2'. unfold demo_install in E2.
  apply bind_done_inv in E2 as ([p1 s1] & E5 & E2). apply bind_done_inv in E2 as (s2 & E6 & E2).
  apply bind_done_inv in E2 as ([nm h3] & E7 & E2).
  destruct (demo_context_wf table h p1 s2 _ _ Hl W Hc) as (n & x & t & cx & H1 & H2 & H3 & H4 & H5 & H6).
  { rewrite E5. cbn [mbind outcome_bind]. rewrite E6. reflexivity. }
  rewrite E5 in H0. cbn [mbind outcome_bind] in H0. rewrite E6 in H0. cbn [mbind outcome_bind] in H0.
  destruct (demo_small s2) eqn:E8; [|cbn [is_done] in H0; discriminate H0]. destruct (demo_small_inv s2 3 E8 ltac:(lia)) as (_ & Hf1 & Hf2).
  destruct (demo_name_wf table s2 [n] _ nm h3 H1 (conj Hf1 Hf2) E7) as (W' & Hb & He & Hcs).
  injection E2 as <- <- <-. destruct (demo_small_inv _ 2 E3 ltac:(lia)) as (_ & Hg1 & Hg2).
  eexists table, h, p1, nm, _, n, x, t, cx. split_and!; [exact E|exact E2'|exact W'|exact H2|exact H3|exact H4| |exact H6|exact E3|exact E4|].
  - destruct H5 as [O1 O2 O3 O4 O5]. split; [exact O1|exact O2|exact O3|exact O4|exact O5].
  - apply (@named_block _ (ba_heap 0 table) (ba_heap_laws 0 table hhdm_ok_0)).
    + exact (@sw_heap _ (ba_heap 0 table) _ _ _ W').
    + exact Hb.
    + exact Hcs.
    + exact (Z.lt_le_trans 2 3 _ eq_refl He).
    + split; [exact Hg1|exact Hg2].
Qed.

(** A processor that belongs to the scheduler can be preempted. *)
Lemma wf_ready {St} `{!KernelHeap St} (s : sched St) C Q p k cx :
  sched_wf s C Q -> on_cpu s p k cx -> cx_scheduler_context cx ∈ C ->
  (forall x t, sc_tasks s !! x = Some t -> t_id t <> CONTEXT_TYPE_CPU) ->
  (exists x, x ∈ Q (cx_scheduler_context cx) /\ runs (sc_tasks s) x = true) ->
  exists c, ready s p k cx c (Q (cx_scheduler_context cx)).
Proof.
  intros W Hoc Hin Hid Hr. destruct (sw_queue _ _ _ W _ Hin) as (ctx & E & Hq & Hne). exists ctx.
  split; [done|done|done| |done]. intros x Hx. destruct (queue_task _ _ _ _ Hq Hx) as [t Ht]. split.
  - apply (sw_apart _ _ _ W). by exists t.
  - exists t. split; [done|]. by eapply Hid.
Qed.

Lemma demo_ready : exists (s : sched (ba_state pa_state)) p cx c x, ready s p 0 cx c [x] /\ runs (sc_tasks s) x = true.
Proof.
  destruct demo_sched as (table & h & p & name & s & n & x & t & cx & _ & _ & W & Ht & Hr & Hid & Hoc & Hn & _).
  assert (runs (sc_tasks s) x = true) as Hrx by (unfold runs; rewrite Ht, lookup_singleton_eq; exact Hr).
  destruct (@wf_ready _ (ba_heap 0 table) s [n] _ p 0 cx W Hoc) as [c Hc].
  - rewrite Hn. apply list_elem_of_singleton. reflexivity.
  - intros y ty Hy. rewrite Ht in Hy. apply lookup_singleton_Some in Hy as [_ <-]. rewrite Hid. unfold CONTEXT_TYPE_CPU. lia.
  - exists x. split; [|exact Hrx]. unfold add_queue. rewrite decide_True by exact Hn. apply list_elem_of_singleton. reflexivity.
  - exists s, p, cx, c, x. split; [|exact Hrx]. unfold add_queue in Hc. rewrite decide_True in Hc by exact Hn. exact Hc.
Qed.

(** * Properties *)

(** C5. A preemption saves the registers in the current task, rotates the queue up to the first
    task that is neither empty nor a zombie, and continues with the saved registers of that
    task, its address in GS and the timer armed. *)
Theorem reschedule_switches {St} (s : sched St) (p k : Z) (cx : arch_cpu_context_t) (c : scheduler_context)
    (l : list Z) (st : arch_cpu_state_t) :
  ready s p k cx c l ->
  exists l1 x l2 tx s' c',
    l = l1 ++ x :: l2 /\ Forall (fun y => runs (sc_tasks s) y = false) l1 /\ runs (sc_tasks s) x = true /\
    sc_tasks s !! x = Some tx /\
    task_scheduler_round_robin_reschedule st s = Done s' /\
    sc_contexts s' = <[cx_scheduler_context cx := c']> (sc_contexts s) /\
    queue_rep (sc_tasks s') (c_running c') (l2 ++ l1 ++ [x]) /\ q_current (c_running c') = x /\
    (forall y t, sc_tasks s !! y = Some t -> exists v, sc_tasks s' !! y =
       Some (set_t_next v (saved st (cpu_simd (sc_cpu s)) (q_current (c_running c)) y t))) /\
    sc_cpu s' =
      (let tx' := saved st (cpu_simd (sc_cpu s)) (q_current (c_running c)) x tx in
       Cpu x p (t_simd_state tx') (Some (t_state tx')) true (cpu_interrupts (sc_cpu s))).
Proof.
  intros [Hoc Hc Hq Ht Hr]. destruct (first_runnable _ _ Hr) as (l1 & x & l2 & -> & Hf & Hx).
  destruct (Ht x ltac:(set_solver)) as (_ & tx & Htx & _).
  destruct (reschedule_spec s p k cx _ c l1 x l2 st tx Hoc eq_refl Hc Hq Hf Hx Htx)
    as (s' & c' & E & Ec & _ & _ & _ & Q' & Cur & Hts & _ & Hcpu & _).
  exists l1, x, l2, tx, s', c'. by split_and!.
Qed.

Lemma reschedule_switches_witness :
  exists (s : sched (ba_state pa_state)) s' x p, task_scheduler_round_robin_reschedule zero_state s = Done s' /\
    sc_cpu s' = Cpu x p (cpu_simd (sc_cpu s)) (Some zero_state) true (cpu_interrupts (sc_cpu s)).
Proof.
  destruct demo_ready as (s & p & cx & c & x & Hr & Hx).
  destruct (reschedule_switches s p 0 cx c [x] zero_state Hr)
    as (l1 & y & l2 & tx & s' & c' & El & _ & _ & Htx & E & _ & _ & _ & _ & Hcpu).
  assert (y = x) as ->.
  { destruct l1 as [|a l1]; simpl in El; [congruence|]. injection El as _ El. by destruct l1. }
  assert (q_current (c_running c) = x) as Hcur.
  { apply list_elem_of_singleton, (qr_current _ _ _ (rd_queue _ _ _ _ _ _ Hr)). done. }
  exists s, s', x, p. split; [exact E|]. rewrite Hcpu, Hcur. unfold saved. by rewrite decide_True.
Defined.

(** C4. A runnable task of a run queue of n tasks is chosen within n preemptions of its
    processor, and every preemption succeeds. *)
Theorem preemption_fair {St} (s : sched St) (p k : Z) (cx : arch_cpu_context_t) (c : scheduler_context)
    (l : list Z) (x : Z) (sts : list arch_cpu_state_t) :
  ready s p k cx c l -> x ∈ l -> runs (sc_tasks s) x = true -> (length l <= length sts)%nat ->
  exists chosen s' k' c' l', preempt sts s = Done (chosen, s') /\ length chosen = length sts /\
    ready s' p k' cx c' l' /\ x ∈ chosen.
Proof.
  intros Hr Hx Hrun Hlen. apply list_elem_of_split in Hx as (l1 & l2 & Hl).
  destruct (preempt_fair sts s p k cx c l l1 x l2 Hr Hl Hrun) as (ch & s' & k' & c' & l' & E & Hc & Hr' & Hin).
  exists ch, s', k', c', l'. split_and!; try done. apply Hin. rewrite Hl in Hlen. rewrite length_app in Hlen.
  simpl in Hlen. lia.
Qed.

Lemma preemption_fair_witness :
  exists (s : sched (ba_state pa_state)) x chosen s', preempt [zero_state; zero_state] s = Done (chosen, s') /\ x ∈ chosen.
Proof.
  destruct demo_ready as (s & p & cx & c & x & Hr & Hx).
  destruct (preemption_fair s p 0 cx c [x] x [zero_state; zero_state] Hr) as (ch & s' & k' & c' & l' & E & _ & _ & Hin).
  - apply list_elem_of_singleton. reflexivity.
  - exact Hx.
  - simpl. lia.
  - exists s, x, ch, s'. split; assumption.
Defined.

(** Any sequence of accesses to the processor, task and scheduler contexts through the GS bases
    returns the same three contexts, whichever base is active at the start. *)
Theorem context_access_stable {St} (s : sched St) (p k : Z) (cx : arch_cpu_context_t) (ops : list context_op) :
  on_cpu s p k cx -> k <> 0 ->
  exists s', access_contexts ops s = Done (map (access_result p k cx) ops, s') /\ on_cpu s' p k cx /\
    (s' = with_gs s p k \/ s' = with_gs s k p).
Proof.
  intros Hoc Hk. revert s Hoc. induction ops as [|op ops IH]; intros s Hoc.
  - exists s. split_and!; [done|done|]. destruct (oc_bases _ _ _ _ Hoc) as [[E1 E2]|[E1 E2]]; [left|right];
      by rewrite with_gs_same.
  - assert (gs_base (sc_cpu s) <> 0) as Hg.
    { pose proof (oc_nonzero _ _ _ _ Hoc). destruct (oc_bases _ _ _ _ Hoc) as [[-> _]|[-> _]]; done. }
    assert (exists a b, (a = p /\ b = k \/ a = k /\ b = p) /\
      match op with
      | GetCpuContext => arch_get_cpu_context s
      | GetTaskContext => arch_get_task_context s
      | GetSchedulerContext => arch_get_scheduler_context s
      end = Done (access_result p k cx op, with_gs s a b)) as (a & b & Hab & E).
    { destruct op; [exists p, k|exists k, p|exists p, k].
      - split; [by left|]. exact (get_cpu_context_spec _ _ _ _ Hoc).
      - split; [by right|]. exact (get_task_context_spec _ _ _ _ Hoc Hg).
      - split; [by left|]. exact (get_scheduler_context_spec _ _ _ _ Hoc). }
    destruct (IH (with_gs s a b) (on_cpu_with_gs _ _ _ _ _ _ Hoc Hab)) as (s' & E' & Hoc' & Hs').
    exists s'. split_and!; [|done|destruct Hs' as [-> | ->]; [by left|by right]].
    cbn [access_contexts map]. rewrite E. cbn [mbind outcome_bind]. cbn beta iota. rewrite E'. done.
Qed.

Lemma context_access_stable_witness :
  exists (s s' : sched unit), access_contexts [GetTaskContext; GetCpuContext; GetCpuContext; GetTaskContext] s =
    Done ([8192; 4096; 4096; 8192], s').
Proof.
  set (s := Sched tt {[8192 := zero_task]} ∅ {[4096 := CpuContext CONTEXT_TYPE_CPU 0 true 0 0]} 0 false 0 false
    (Cpu 8192 4096 [] None false true)).
  destruct (context_access_stable s 4096 8192 (CpuContext CONTEXT_TYPE_CPU 0 true 0 0)
    [GetTaskContext; GetCpuContext; GetCpuContext; GetTaskContext]) as (s' & E & _ & _).
  - split; simpl; [right; lia|reflexivity|lia|reflexivity|]. right. split; [reflexivity|]. exists zero_task.
    split; [reflexivity|]. simpl. unfold CONTEXT_TYPE_CPU. lia.
  - lia.
  - exists s, s'. exact E.
Defined.

(** task_scheduler_round_robin_get_pid terminates and returns a queued task with the id, or null
    exactly when no queued task has it. *)
Theorem get_pid_finds {St} `{!KernelHeap St} (s : sched St) (C : list Z) (Q : Z -> list Z) (pid : Z) :
  sched_wf s C Q -> C <> [] -> pid <> 0 ->
  exists r, task_scheduler_round_robin_get_pid pid s = Done r /\
    (r <> 0 -> exists c t, c ∈ C /\ r ∈ Q c /\ sc_tasks s !! r = Some t /\ t_id t = pid) /\
    (r = 0 -> forall c x t, c ∈ C -> x ∈ Q c -> sc_tasks s !! x = Some t -> t_id t <> pid).
Proof. exact (get_pid_spec s C Q pid). Qed.

Lemma get_pid_finds_witness :
  exists (s : sched (ba_state pa_state)) r, task_scheduler_round_robin_get_pid 3 s = Done r.
Proof.
  destruct demo_sched as (table & h & p & name & s & n & x & t & cx & _ & _ & W & _).
  destruct (@get_pid_finds _ (ba_heap 0 table) s [n] _ 3 W) as (r & E & _).
  - discriminate.
  - lia.
  - exists s, r. exact E.
Defined.

(** The queues of the contexts [C] differ in length by one at most. *)
Definition balanced (C : list Z) (Q : Z -> list Z) : Prop :=
  forall c d, c ∈ C -> d ∈ C -> (length (Q c) <= length (Q d) + 1)%nat.

(** task_scheduler_round_robin_create either runs out of memory or gives a new task with the
    next id to a context with the shortest queue; queues whose lengths differ by one at most
    stay so. *)
Theorem create_balances {St} `{!KernelHeap St} `{!KernelHeapLaws St} (s : sched St) (C : list Z) (Q : Z -> list Z)
    (p k : Z) (cx : arch_cpu_context_t) (name : Z) (n : list Z) :
  sched_wf s C Q -> C <> [] -> on_cpu s p k cx -> kh_fits [Z.of_nat (length n)] (sc_heap s) ->
  named (sc_heap s) name n ->
  0 <= last_id s < 2147483647 -> (forall c, c ∈ C -> Z.of_nat (length (Q c)) + 1 < 9223372036854775808) ->
  task_scheduler_round_robin_create name s = Panicked \/
  exists x s' c stack copy fds,
    task_scheduler_round_robin_create name s = Done (x, s') /\ c ∈ C /\
    (forall d, d ∈ C -> (length (Q c) <= length (Q d))%nat) /\
    sched_wf s' C (push_queue Q c x) /\ (balanced C Q -> balanced C (push_queue Q c x)) /\
    sc_tasks s !! x = None /\ last_id s' = last_id s + 1 /\
    sc_tasks s' !! x = Some (created (last_id s + 1) stack copy (Z.of_nat (length n)) fds
                               (cpu_simd (sc_cpu s)) (running_of c)) /\
    bytes (kh_mem (sc_heap s')) copy (length n) = n.
Proof.
  intros W HC Hoc Hfit Hnm Hid Hlen.
  destruct (create_spec s C Q p k cx name n W HC Hoc Hfit Hnm Hid Hlen)
    as [E|(x & s' & c & stack & copy & fds & E & Hc & Hmin & W' & Hx & Hl & Ht & Hs & _)]; [by left|right].
  exists x, s', c, stack, copy, fds. split_and!; try done. intros Hb d e Hd He. unfold push_queue.
  pose proof (Hb d e Hd He). pose proof (Hmin e He). pose proof (Hb d c Hd Hc).
  repeat case_decide; rewrite ?length_app; subst; simpl; lia.
Qed.

Lemma create_balances_witness :
  exists (table : Z) (s : sched (ba_state pa_state)) name x s',
    @task_scheduler_round_robin_create _ (ba_heap 0 table) name s = Done (x, s') /\ last_id s' = 1.
Proof.
  destruct demo_sched as (table & h & p & name & s & n & x & t & cx & _ & _ & W & _ & _ & _ & Hoc & _ & Hs & Hd & Hnm).
  destruct (demo_small_inv s 2 Hs ltac:(lia)) as (H0 & Hf1 & Hf2).
  destruct (@create_balances _ (ba_heap 0 table) (ba_heap_laws 0 table hhdm_ok_0) s [n] _ p 0 cx name demo_name W)
    as [E|(y & s' & c & stack & copy & fds & E & _ & _ & _ & _ & _ & Hl & _)].
  - discriminate.
  - exact Hoc.
  - split; [exact Hf1|exact Hf2].
  - exact Hnm.
  - rewrite H0. lia.
  - intros c Hc. unfold add_queue. case_decide; simpl; lia.
  - exfalso. unfold task_scheduler_round_robin_create_kernel in Hd. rewrite E in Hd. discriminate.
  - exists table, s, name, y, s'. split; [exact E|]. rewrite Hl, H0. reflexivity.
Defined.

(** task_scheduler_round_robin_install_context either runs out of memory or adds a context for
    the processor whose queue holds a runnable idle task, and keeps the chain of contexts and
    all queues well formed. *)
Theorem install_context_adds (hhdm table : Z) {St} `{!KernelHeap St} `{!KernelHeapLaws St} (s : sched St)
    (C : list Z) (Q : Z -> list Z) (p k : Z) (cx : arch_cpu_context_t) (cpu_id idle_name idle_entry : Z) :
  sched_wf s C Q -> on_cpu s p k cx -> kh_fits [sizeof_scheduler_context] (sc_heap s) ->
  task_scheduler_round_robin_install_context hhdm table cpu_id idle_name idle_entry s = Panicked \/
  exists s' n x t cx', task_scheduler_round_robin_install_context hhdm table cpu_id idle_name idle_entry s = Done s' /\
    sched_wf s' (n :: C) (add_queue Q n x) /\ (n ∉ C) /\ sc_tasks s !! x = None /\
    sc_tasks s' = <[x := t]> (sc_tasks s) /\ runnable t = true /\ t_id t = 0 /\
    on_cpu s' p k cx' /\ cx_scheduler_context cx' = n.
Proof. exact (install_context_spec hhdm table s C Q p k cx cpu_id idle_name idle_entry). Qed.

Lemma install_context_adds_witness :
  exists (table : Z) (s : sched (ba_state pa_state)) C Q,
    @task_scheduler_round_robin_install_context 0 table _ (ba_heap 0 table) 1 7 100 s = Panicked \/
    exists s' n x, @task_scheduler_round_robin_install_context 0 table _ (ba_heap 0 table) 1 7 100 s = Done s' /\
      @sched_wf _ (ba_heap 0 table) s' (n :: C) (add_queue Q n x).
Proof.
  destruct demo_sched as (table & h & p & name & s & n & x & t & cx & _ & _ & W & _ & _ & _ & Hoc & _ & Hs & _).
  destruct (demo_small_inv s sizeof_scheduler_context Hs ltac:(unfold sizeof_scheduler_context; lia)) as (H0 & Hf1 & Hf2).
  exists table, s, [n], (add_queue (fun _ => []) n x).
  destruct (@install_context_adds 0 table _ (ba_heap 0 table) (ba_heap_laws 0 table hhdm_ok_0) s [n] _ p 0 cx 1 7 100 W Hoc)
    as [E|(s' & m & y & ty & cx' & E & W' & _)].
  - split; [exact Hf1|exact Hf2].
  - left. exact E.
  - right. exists s', m, y. split; [exact E|exact W'].
Defined.

(** A task created by task_scheduler_round_robin_create_kernel keeps the mark of an empty task,
    so no sequence of preemptions ever chooses it. *)
Theorem create_kernel_never_chosen (hhdm table : Z) {St} `{!KernelHeap St} `{!KernelHeapLaws St} (s : sched St)
    (C : list Z) (Q : Z -> list Z) (p k : Z) (cx : arch_cpu_context_t) (name : Z) (n : list Z) (entry x : Z) (s' : sched St)
    (sts : list arch_cpu_state_t) :
  sched_wf s C Q -> C <> [] -> on_cpu s p k cx -> kh_fits [Z.of_nat (length n)] (sc_heap s) ->
  named (sc_heap s) name n ->
  0 <= last_id s < 2147483647 -> last_id s + 1 <> CONTEXT_TYPE_CPU ->
  (forall c, c ∈ C -> Z.of_nat (length (Q c)) + 1 < 9223372036854775808) ->
  (forall y t, sc_tasks s !! y = Some t -> t_id t <> CONTEXT_TYPE_CPU) ->
  cx_scheduler_context cx ∈ C -> (exists y, y ∈ Q (cx_scheduler_context cx) /\ runs (sc_tasks s) y = true) ->
  task_scheduler_round_robin_create_kernel hhdm table name entry s = Done (x, s') ->
  exists t chosen s'', sc_tasks s' !! x = Some t /\ r_rip (t_state t) = entry /\
    preempt sts s' = Done (chosen, s'') /\ length chosen = length sts /\ x ∉ chosen.
Proof.
  intros W HC Hoc Hfit Hnm Hid Hid' Hlen Hids Hin (y & Hy & Hry) E.
  destruct (create_kernel_spec hhdm table s C Q p k cx name n entry x s' W HC Hoc Hfit Hnm Hid Hlen E)
    as (c & t & stack & Hc & W' & Hxn & Hx & Ht & He & Hst & Hoc' & Hkeep).
  assert (Hidt : forall z tz, sc_tasks s' !! z = Some tz -> z ∈ push_queue Q c x (cx_scheduler_context cx) ->
     t_id tz <> CONTEXT_TYPE_CPU).
  { intros z tz Hz Hzq. destruct (decide (z = x)) as [->|Hzx]; [congruence|].
    assert (z ∈ Q (cx_scheduler_context cx)) as Hzq'.
    { unfold push_queue in Hzq. case_decide; [|done]. subst c. set_solver. }
    destruct (sw_queue _ _ _ W _ Hin) as (ctx & _ & Hq & _). destruct (queue_task _ _ _ _ Hq Hzq') as [tz' Hz'].
    destruct (Hkeep z tz' Hz') as [v Hv]. assert (tz = set_t_next v tz') as -> by congruence. exact (Hids z tz' Hz'). }
  destruct (sw_queue _ _ _ W' _ Hin) as (ctx & Ec & Hq & _).
  set (l := push_queue Q c x (cx_scheduler_context cx)) in *.
  assert (ready s' p k cx ctx l) as Hr.
  { split; [done|done|done| |].
    - intros z Hz. destruct (queue_task _ _ _ _ Hq Hz) as [tz Htz]. split; [apply (sw_apart _ _ _ W'); by exists tz|].
      exists tz. split; [done|]. by apply (Hidt z).
    - exists y. split; [unfold l, push_queue; case_decide as Ed; [rewrite <- Ed; set_solver|done]|].
      unfold runs in Hry |- *. destruct (sc_tasks s !! y) as [ty|] eqn:Ety; [|done].
      destruct (Hkeep y ty Ety) as [v ->]. done. }
  destruct (rd_runs _ _ _ _ _ _ Hr) as (z & Hz & Hrz). apply list_elem_of_split in Hz as (l1 & l2 & Hl).
  destruct (preempt_fair sts s' p k cx ctx l l1 z l2 Hr Hl Hrz) as (ch & s'' & _ & _ & _ & Ep & Hch & _).
  exists t, ch, s''. split_and!; [done|by rewrite Hst|done|done|].
  intros Hxc. pose proof (preempt_runnable sts s' p k cx ctx l ch s'' Hr Ep) as Hf.
  rewrite Forall_forall in Hf. destruct (Hf x Hxc) as [Hrx _]. unfold runs, runnable in Hrx. rewrite Hx in Hrx.
  simpl in Hrx. by rewrite He in Hrx.
Qed.

Lemma create_kernel_never_chosen_witness :
  exists (table : Z) (s s' : sched (ba_state pa_state)) name x,
    @task_scheduler_round_robin_create_kernel 0 table _ (ba_heap 0 table) name 4096 s = Done (x, s') /\
    exists chosen s'', preempt (replicate 10 zero_state) s' = Done (chosen, s'') /\ x ∉ chosen.
Proof.
  destruct demo_sched as (table & h & p & name & s & n & i & t & cx & _ & _ & W & Ht & Hr & Hid & Hoc & Hn & Hs & Hd & Hnm).
  destruct (demo_small_inv s 2 Hs ltac:(lia)) as (H0 & Hf1 & Hf2). apply is_done_inv in Hd as ([x s'] & E).
  destruct (@create_kernel_never_chosen 0 table _ (ba_heap 0 table) (ba_heap_laws 0 table hhdm_ok_0) s [n] _ p 0 cx
    name demo_name 4096 x s' (replicate 10 zero_state) W) as (tx & ch & s'' & _ & _ & Ep & _ & Hx).
  - discriminate.
  - exact Hoc.
  - split; [exact Hf1|exact Hf2].
  - exact Hnm.
  - rewrite H0. lia.
  - rewrite H0. unfold CONTEXT_TYPE_CPU. lia.
  - intros c Hc. unfold add_queue. case_decide; simpl; lia.
  - intros y ty Hy. rewrite Ht in Hy. apply lookup_singleton_Some in Hy as [_ <-]. rewrite Hid. unfold CONTEXT_TYPE_CPU. lia.
  - rewrite Hn. apply list_elem_of_singleton. reflexivity.
  - exists i. split.
    + unfold add_queue. rewrite decide_True by exact Hn. apply list_elem_of_singleton. reflexivity.
    + unfold runs. rewrite Ht, lookup_singleton_eq. exact Hr.
  - exact E.
  - exists table, s, s', name, x. split; [exact E|]. exists ch, s''. split; [exact Ep|exact Hx].
Defined.
