(* ===== verification/Vfs.v ===== *)
(** The virtual file system, [filesystem/vfs.c] and [vfs.h]: the mount points,
    the resolution of a path and the dispatch to the file systems.

    Nodes and mount points are kept in typed heaps indexed by the addresses the
    block allocator returns; strings are bytes of the memory.  A file system is
    the structure of its operations, of which each may be absent (a null
    pointer); its address is what mount points and nodes refer to. *)

From S2P Require Import Prelude Memory Libc Spinlock KernelHeap Paths.

Definition O_RDONLY : Z := 1.
Definition O_WRONLY : Z := 2.
Definition SEEK_SET : Z := 0.
Definition SEEK_CUR : Z := 1.
Definition SEEK_END : Z := 2.

(** * Data *)

(** [n_private] is the word that a file system keeps after the header: the
    [ustar_header] of a [ustar_node_t], the [device] of a [device_node_t]. *)
Record vfs_fs_node := Node {
  n_path : Z;
  n_path_length : Z;
  n_mode : Z;
  n_seek_position : Z;
  n_max_seek_position : Z;
  n_is_device : bool;
  n_fs : Z;
  n_private : Z
}.

(** A zeroed block read as a node. *)
Definition zero_node : vfs_fs_node := Node 0 0 0 0 0 false 0 0.

Definition set_seek_position (v : Z) (n : vfs_fs_node) : vfs_fs_node :=
  Node (n_path n) (n_path_length n) (n_mode n) v (n_max_seek_position n) (n_is_device n) (n_fs n) (n_private n).

Record vfs_mount_point := Mount {
  m_name : Z;
  m_name_length : Z;
  m_fs : Z;
  m_next : Z;
  m_prev : Z
}.

Definition zero_mount : vfs_mount_point := Mount 0 0 0 0 0.

(** [sizeof(vfs_mount_point_t)], and of a node with one private word. *)
Definition sizeof_vfs_mount_point : Z := 40.
Definition sizeof_node : Z := 64.

(** The operations of a file system; results are the value that is returned,
    an [ssize_t] or a pointer that may be an error pointer, and the new state. *)
Record vfs_fs_ops (S : Type) := Ops {
  fs_open : option (Z -> Z -> Z -> S -> outcome (Z * S));
  fs_read : option (Z -> Z -> Z -> S -> outcome (Z * S));
  fs_write : option (Z -> Z -> Z -> S -> outcome (Z * S));
  fs_lseek : option (Z -> Z -> Z -> S -> outcome (Z * S));
  fs_close : option (Z -> S -> outcome S);
  fs_dup : option (Z -> S -> outcome (Z * S));
  fs_async_task_register : option (Z -> Z -> S -> outcome S);
  fs_async_task_update : option (Z -> Z -> S -> outcome S);
  fs_async_task_unregister : option (Z -> Z -> S -> outcome S)
}.
Arguments Ops {S}.
Arguments fs_open {S}.
Arguments fs_read {S}.
Arguments fs_write {S}.
Arguments fs_lseek {S}.
Arguments fs_close {S}.
Arguments fs_dup {S}.
Arguments fs_async_task_register {S}.
Arguments fs_async_task_update {S}.
Arguments fs_async_task_unregister {S}.

(** The state of the file systems: [initrd] is the archive of
    [filesystem/ustar.c]. *)
Record vfs_state (H : Type) := Vfs {
  vs_heap : H;
  vs_nodes : gmap Z vfs_fs_node;
  vs_mounts : gmap Z vfs_mount_point;
  mount_points : Z;
  mount_lock : spinlock_t;
  initrd : Z
}.
Arguments Vfs {H}.
Arguments vs_heap {H}.
Arguments vs_nodes {H}.
Arguments vs_mounts {H}.
Arguments mount_points {H}.
Arguments mount_lock {H}.
Arguments initrd {H}.

Section Model.
Context {H : Type} `{!KernelHeap H}.
Implicit Types s : vfs_state H.

Definition fs_mem s : mem := kh_mem (vs_heap s).
Definition set_heap s (h : H) : vfs_state H :=
  Vfs h (vs_nodes s) (vs_mounts s) (mount_points s) (mount_lock s) (initrd s).
Definition set_mem s (m : mem) : vfs_state H := set_heap s (kh_with_mem (vs_heap s) m).
Definition set_nodes s (ns : gmap Z vfs_fs_node) : vfs_state H :=
  Vfs (vs_heap s) ns (vs_mounts s) (mount_points s) (mount_lock s) (initrd s).
Definition set_mounts s (ms : gmap Z vfs_mount_point) : vfs_state H :=
  Vfs (vs_heap s) (vs_nodes s) ms (mount_points s) (mount_lock s) (initrd s).
Definition set_mount_lock s (l : spinlock_t) : vfs_state H :=
  Vfs (vs_heap s) (vs_nodes s) (vs_mounts s) (mount_points s) l (initrd s).

(** The file systems at their addresses. *)
Context (filesystems : Z -> option (vfs_fs_ops (vfs_state H))).

Definition vfs_init s : outcome (vfs_state H) :=
  '(p, h) ← kh_block_allocate sizeof_vfs_mount_point (vs_heap s);
  Done (Vfs h (vs_nodes s) (<[p := zero_mount]> (vs_mounts s)) p (mount_lock s) (initrd s)).

(** [while (point->next) point = point->next]. *)
Fixpoint last_mount (ms : gmap Z vfs_mount_point) (point : Z) (fuel : nat) : outcome Z :=
  match fuel with
  | O => Timeout
  | S fuel' =>
      p ← deref (ms !! point);
      if m_next p =? 0 then Done point else last_mount ms (m_next p) fuel'
  end.

Definition vfs_mount_fs (name fs : Z) s : outcome (vfs_state H) :=
  l ← spinlock_acquire (mount_lock s);
  let s := set_mount_lock s l in
  let name_len := strlen (fs_mem s) name in
  '(new_mount, h) ← kh_block_allocate sizeof_vfs_mount_point (vs_heap s);
  '(copy, h) ← kh_block_allocate name_len h;
  let s := set_heap s h in
  let s := set_mem s (memcpy (fs_mem s) copy name name_len) in
  let s := set_mounts s (<[new_mount := Mount copy name_len fs 0 0]> (vs_mounts s)) in
  point ← last_mount (vs_mounts s) (mount_points s) (size (vs_mounts s));
  p ← deref (vs_mounts s !! point);
  let s := set_mounts s (<[point := Mount (m_name p) (m_name_length p) (m_fs p) new_mount (m_prev p)]>
                           (vs_mounts s)) in
  Done (set_mount_lock s (spinlock_release l)).

(** The loop of [vfs_open]: the first mount point whose name starts the path,
    0 when there is none. *)
Fixpoint find_mount (m : mem) (ms : gmap Z vfs_mount_point) (path path_len mount : Z) (fuel : nat) :
    outcome Z :=
  if mount =? 0 then Done 0 else
  match fuel with
  | O => Timeout
  | S fuel' =>
      p ← deref (ms !! mount);
      if path_len <? m_name_length p then find_mount m ms path path_len (m_next p) fuel'
      else if strncmp m path (m_name p) (m_name_length p) =? 0 then Done mount
      else find_mount m ms path path_len (m_next p) fuel'
  end.

Definition vfs_open (path mode : Z) s : outcome (Z * vfs_state H) :=
  if path =? 0 then Done (error_ptr (- ENOENT), s) else
  let path_len := strlen (fs_mem s) path in
  if negb (ld8 (fs_mem s) path =? SLASH) then Done (error_ptr (- ENOENT), s) else
  _ ← spinlock_acquire (mount_lock s);
  head ← deref (vs_mounts s !! mount_points s);
  mount ← find_mount (fs_mem s) (vs_mounts s) path path_len (m_next head) (size (vs_mounts s));
  if mount =? 0 then Done (error_ptr (- ENOENT), s) else
  p ← deref (vs_mounts s !! mount);
  fs ← deref (filesystems (m_fs p));
  match fs_open fs with
  | None => Panicked
  | Some open => open (m_fs p) (path + m_name_length p) mode s
  end.

(** The file system of a node; a null node is a kernel bug. *)
Definition node_ops (node : Z) s : outcome (vfs_fs_ops (vfs_state H)) :=
  if node =? 0 then Panicked else
  n ← deref (vs_nodes s !! node);
  deref (filesystems (n_fs n)).

Definition vfs_read (node buffer size : Z) s : outcome (Z * vfs_state H) :=
  fs ← node_ops node s;
  match fs_read fs with
  | None => Done (- EBADF, s)
  | Some read => read node buffer size s
  end.

Definition vfs_write (node buffer size : Z) s : outcome (Z * vfs_state H) :=
  fs ← node_ops node s;
  match fs_write fs with
  | None => Done (- EBADF, s)
  | Some write => write node buffer size s
  end.

Definition vfs_lseek (node offset whence : Z) s : outcome (Z * vfs_state H) :=
  fs ← node_ops node s;
  match fs_lseek fs with
  | None => Done (- EBADF, s)
  | Some lseek => lseek node offset whence s
  end.

Definition vfs_close (node : Z) s : outcome (vfs_state H) :=
  fs ← node_ops node s;
  match fs_close fs with
  | None => Panicked
  | Some close => close node s
  end.

Definition vfs_dup (node : Z) s : outcome (Z * vfs_state H) :=
  fs ← node_ops node s;
  match fs_dup fs with
  | None => Panicked
  | Some dup => dup node s
  end.

(** The three asynchronous operations are used only when all are there. *)
Definition async_ops (node : Z) s :
    outcome (option ((Z -> Z -> vfs_state H -> outcome (vfs_state H)) *
                     (Z -> Z -> vfs_state H -> outcome (vfs_state H)) *
                     (Z -> Z -> vfs_state H -> outcome (vfs_state H)))) :=
  n ← deref (vs_nodes s !! node);
  fs ← deref (filesystems (n_fs n));
  Done match fs_async_task_register fs, fs_async_task_update fs, fs_async_task_unregister fs with
       | Some r, Some u, Some d => Some (r, u, d)
       | _, _, _ => None
       end.

Definition vfs_async_task_register (node task : Z) s : outcome (bool * vfs_state H) :=
  ops ← async_ops node s;
  match ops with
  | None => Done (false, s)
  | Some (register, _, _) => s ← register node task s; Done (true, s)
  end.

Definition vfs_async_task_update (node task : Z) s : outcome (vfs_state H) :=
  ops ← async_ops node s;
  match ops with
  | None => Done s
  | Some (_, update, _) => update node task s
  end.

Definition vfs_async_task_unregister (node task : Z) s : outcome (vfs_state H) :=
  ops ← async_ops node s;
  match ops with
  | None => Done s
  | Some (_, _, unregister) => unregister node task s
  end.
End Model.

(** * The file systems as a kernel heap *)

#[export] Instance vfs_heap {H} `{!KernelHeap H} : KernelHeap (vfs_state H) := lift_heap vs_heap set_heap.

#[export] Instance vfs_heap_laws {H} `{!KernelHeap H} `{!KernelHeapLaws H} : KernelHeapLaws (vfs_state H).
Proof. by apply lift_heap_laws. Qed.
