(* ===== verification/VfsSpec.v ===== *)
(** The virtual file system, continued: the mount points as a list, the
    resolution of a path as the first name that starts it, and the properties. *)

From S2P Require Import Prelude Memory Libc Spinlock PageAllocator PageAllocatorSpec PageTable BlockAllocator BlockAllocatorSpec KernelHeap Paths Vfs.

(** * Specification *)

(** A mount point: its address, its name and its file system. *)
Record mounted := Mounted { mt_address : Z; mt_name : list Z; mt_fs : Z }.

(** The mount points [L] are chained from [p] on, their names in memory. *)
Fixpoint mount_chain (m : mem) (ms : gmap Z vfs_mount_point) (p : Z) (L : list mounted) : Prop :=
  match L with
  | [] => p = 0
  | e :: L' => p = mt_address e /\ p <> 0 /\
      exists mp, ms !! p = Some mp /\ m_name_length mp = Z.of_nat (length (mt_name e)) /\
        bytes m (m_name mp) (length (mt_name e)) = mt_name e /\ m_fs mp = mt_fs e /\
        mount_chain m ms (m_next mp) L'
  end.

(** The first mount point whose name starts the path. *)
Fixpoint resolve (p : list Z) (L : list mounted) : option mounted :=
  match L with
  | [] => None
  | e :: L' => if decide (mt_name e `prefix_of` p) then Some e else resolve p L'
  end.

(** * Resolution *)

Lemma strncmp_prefix_of m path p name n :
  cstr m path p -> (n <= length p)%nat ->
  strncmp m path name (Z.of_nat n) = 0 <-> bytes m name n = take n p.
Proof.
  intros Hc Hn. unfold strncmp. rewrite Nat2Z.id, strncmp_loop_zero.
  assert (Hp : forall k, 0 <= k < Z.of_nat n -> ld8 m (path + k) <> 0 /\ p !! Z.to_nat k = Some (ld8 m (path + k))).
  { intros k Hk. pose proof (cstr_lookup m path p (Z.to_nat k) Hc ltac:(lia)) as E. rewrite Z2Nat.id in E by lia.
    destruct Hc as (_ & _ & Hf). destruct (p !! Z.to_nat k) as [c|] eqn:Ec; [|apply lookup_ge_None in Ec; lia].
    simpl in E. rewrite E. split; [by apply (Forall_lookup_1 _ _ _ _ Hf Ec)|done]. }
  split.
  - intros Hz. apply list_eq_same_length with (n := n); rewrite ?length_bytes, ?length_take; [lia|lia|].
    intros i x y Hi Hx Hy. rewrite bytes_lookup in Hx by done. rewrite lookup_take_lt in Hy by done.
    destruct (Hp (Z.of_nat i) ltac:(lia)) as [_ E]. rewrite Nat2Z.id in E.
    rewrite <- Hz in Hx; [congruence|lia|]. intros j Hj. apply Hp. lia.
  - intros Hb k Hk _. destruct (Hp k Hk) as [_ E]. apply (f_equal (.!! Z.to_nat k)) in Hb.
    rewrite bytes_lookup, lookup_take_lt, E in Hb by lia. rewrite Z2Nat.id in Hb by lia. by injection Hb.
Qed.

Lemma prefix_iff_take (n p : list Z) : n `prefix_of` p <-> (length n <= length p)%nat /\ take (length n) p = n.
Proof.
  split.
  - intros [k ->]. rewrite length_app, take_app_length. split; [lia|done].
  - intros [_ <-]. apply prefix_take.
Qed.

Lemma find_mount_spec L : forall m ms path p mount fuel,
  cstr m path p -> mount_chain m ms mount L -> (length L <= fuel)%nat ->
  find_mount m ms path (Z.of_nat (length p)) mount fuel =
    Done (default 0 (mt_address <$> resolve p L)).
Proof.
  induction L as [|e L IH]; intros m ms path p mount fuel Hc; cbn [mount_chain resolve].
  - intros -> _. by destruct fuel.
  - intros (He & H0 & mp & Hmp & Hlen & Hb & _ & Hch) Hf. destruct fuel as [|fuel]; [simpl in Hf; lia|].
    cbn [find_mount]. rewrite (proj2 (Z.eqb_neq mount 0)) by done. rewrite Hmp. cbn [deref mbind outcome_bind].
    rewrite Hlen. case_decide as Hp; rewrite prefix_iff_take in Hp.
    + destruct Hp as [Hl Ht]. rewrite (proj2 (Z.ltb_ge _ _)) by lia.
      rewrite (proj2 (Z.eqb_eq _ _)); [simpl; by rewrite He|].
      apply (strncmp_prefix_of m path p); [done|done|]. by rewrite Hb.
    + assert (find_mount m ms path (Z.of_nat (length p)) (m_next mp) fuel =
        Done (default 0 (mt_address <$> resolve p L))) as E by (apply IH; [done|done|simpl in Hf; lia]).
      destruct (Z.ltb_spec (Z.of_nat (length p)) (Z.of_nat (length (mt_name e)))) as [|Hge]; [done|].
      rewrite (proj2 (Z.eqb_neq _ _)); [done|]. intros Hz.
      apply (strncmp_prefix_of m path p) in Hz; [|done|lia]. apply Hp. split; [lia|]. congruence.
Qed.

Lemma resolve_in p L e : resolve p L = Some e -> e ∈ L /\ mt_name e `prefix_of` p.
Proof.
  induction L as [|a L IH]; cbn [resolve]; [done|]. case_decide; [intros [= ->]; set_solver|].
  intros E. destruct (IH E). set_solver.
Qed.

Lemma resolve_snoc p L e :
  resolve p (L ++ [e]) =
  match resolve p L with
  | Some x => Some x
  | None => if decide (mt_name e `prefix_of` p) then Some e else None
  end.
Proof. induction L as [|a L IH]; cbn [app resolve]; [done|]. destruct (decide (mt_name a `prefix_of` p)); [done|exact IH]. Qed.

Lemma mount_chain_lookup m ms L e : forall p, mount_chain m ms p L -> e ∈ L ->
  mt_address e <> 0 /\ exists mp, ms !! mt_address e = Some mp /\ m_fs mp = mt_fs e /\
    m_name_length mp = Z.of_nat (length (mt_name e)).
Proof.
  induction L as [|a L IH]; intros p; cbn [mount_chain]; [set_solver|].
  intros (-> & H0 & mp & Hmp & Hl & _ & Hf & Hch) [->|He]%elem_of_cons; [|by eapply IH]. split; [done|]. by exists mp.
Qed.

Lemma mount_chain_bytes m ms L e mp : forall p, mount_chain m ms p L -> e ∈ L ->
  ms !! mt_address e = Some mp -> bytes m (m_name mp) (length (mt_name e)) = mt_name e.
Proof.
  induction L as [|a L IH]; intros p; cbn [mount_chain]; [set_solver|].
  intros (-> & H0 & ma & Hma & _ & Hb & _ & Hch) [->|He]%elem_of_cons Hmp; [|by eapply IH]. congruence.
Qed.

(** The rest of the path after a prefix is a string of its own. *)
Lemma cstr_drop m path p n : cstr m path p -> (n <= length p)%nat -> cstr m (path + Z.of_nat n) (drop n p).
Proof.
  revert path p. induction n as [|n IH]; intros path p Hc Hn.
  - by rewrite drop_0, Z.add_0_r.
  - destruct p as [|c p]; [simpl in Hn; lia|]. apply cstr_cons in Hc as (_ & _ & Hc).
    replace (path + Z.of_nat (S n)) with (path + 1 + Z.of_nat n) by lia. apply IH; [done|]. simpl in Hn. lia.
Qed.

(** * The state invariant *)

Section Invariant.
Context {H : Type} `{!KernelHeap H}.
Implicit Types s : vfs_state H.

(** The mount points are [L], after the unnamed head of the list. *)
Record vfs_wf s (L : list mounted) : Prop := {
  vw_lock : mount_lock s = false;
  vw_head : exists hd, vs_mounts s !! mount_points s = Some hd /\
    mount_chain (fs_mem s) (vs_mounts s) (m_next hd) L;
  vw_nodup : NoDup (mount_points s :: map mt_address L);
  vw_heap : kh_ok (vs_heap s);
  vw_names : forall e mp, e ∈ L -> vs_mounts s !! mt_address e = Some mp ->
    kh_block (vs_heap s) (m_name mp) /\ Z.of_nat (length (mt_name e)) <= kh_extent (vs_heap s) (m_name mp);
  vw_live : forall a, is_Some (vs_mounts s !! a) -> kh_live (vs_heap s) a
}.

Lemma vfs_wf_size s L : vfs_wf s L -> (S (length L) <= size (vs_mounts s))%nat.
Proof using.
  intros W. rewrite <- (length_map mt_address L). apply (keys_size _ (mount_points s :: map mt_address L)).
  - apply W.
  - destruct (vw_head _ _ W) as (hd & Hh & Hch). intros a [->|Ha]%elem_of_cons; [by exists hd|].
    apply list_elem_of_fmap in Ha as (e & -> & He). destruct (mount_chain_lookup _ _ _ _ _ Hch He) as (_ & mp & Hmp & _).
    by exists mp.
Qed.

(** The specification of [vfs_open]. *)
Definition open_result (filesystems : Z -> option (vfs_fs_ops (vfs_state H))) (path mode : Z) (p : list Z)
    (L : list mounted) s : outcome (Z * vfs_state H) :=
  if decide (head p = Some SLASH) then
    match resolve p L with
    | None => Done (error_ptr (- ENOENT), s)
    | Some e =>
        match filesystems (mt_fs e) with
        | None => Undef
        | Some ops =>
            match fs_open ops with
            | None => Panicked
            | Some open => open (mt_fs e) (path + Z.of_nat (length (mt_name e))) mode s
            end
        end
    end
  else Done (error_ptr (- ENOENT), s).

Lemma vfs_open_spec filesystems s L path mode p :
  vfs_wf s L -> path <> 0 -> cstr (fs_mem s) path p ->
  vfs_open filesystems path mode s = open_result filesystems path mode p L s.
Proof using.
  intros W H0 Hc. unfold vfs_open, open_result. rewrite (proj2 (Z.eqb_neq path 0)), (strlen_cstr _ _ _ Hc) by done.
  assert (ld8 (fs_mem s) path = default 0 (head p)) as ->.
  { destruct p as [|c p]; [by apply cstr_nil in Hc|]. by apply cstr_cons in Hc as (-> & _). }
  destruct (decide (head p = Some SLASH)) as [->|Hn].
  2: { destruct p as [|c p]; simpl in *; [done|]. rewrite (proj2 (Z.eqb_neq c SLASH)) by congruence. done. }
  cbn [default id Z.eqb negb]. rewrite (vw_lock _ _ W). cbn [spinlock_acquire mbind outcome_bind].
  destruct (vw_head _ _ W) as (hd & Hh & Hch). change (default 0 (Some SLASH)) with SLASH. rewrite Z.eqb_refl.
  cbn [negb]. rewrite Hh. cbn [deref mbind outcome_bind].
  rewrite (find_mount_spec L _ _ _ p) by (try done; pose proof (vfs_wf_size s L W); lia). cbn [mbind outcome_bind].
  destruct (resolve p L) as [e|] eqn:Er; [|done]. apply resolve_in in Er as [He _].
  destruct (mount_chain_lookup _ _ _ _ _ Hch He) as (Ha & mp & Hmp & Hfs & Hl).
  cbn [fmap option_fmap option_map]. change (default 0 (Some (mt_address e))) with (mt_address e).
  rewrite (proj2 (Z.eqb_neq _ 0)), Hmp by done. cbn [deref mbind outcome_bind]. rewrite Hfs, Hl.
  by destruct (filesystems (mt_fs e)) as [ops|].
Qed.

(** ** Mounting *)

Lemma last_mount_spec m L : forall ms point hd fuel,
  ms !! point = Some hd -> mount_chain m ms (m_next hd) L -> (length L < fuel)%nat ->
  exists q, last_mount ms point fuel = Done q /\ q = default point (mt_address <$> last L) /\
    exists mq, ms !! q = Some mq /\ m_next mq = 0.
Proof using.
  induction L as [|e L IH]; intros ms point hd fuel Hp Hch Hf; destruct fuel as [|fuel]; try lia;
    cbn [last_mount]; rewrite Hp; cbn [deref mbind outcome_bind]; cbn [mount_chain] in Hch.
  - rewrite Hch. exists point. split_and!; [done|done|]. by exists hd.
  - destruct Hch as (He & H0 & mp & Hmp & _ & _ & _ & Hch). rewrite (proj2 (Z.eqb_neq _ 0)) by done.
    destruct (IH ms (m_next hd) mp fuel Hmp Hch ltac:(simpl in Hf; lia)) as (q & -> & -> & Hq).
    eexists. split; [done|]. split; [|done]. rewrite He. destruct L as [|y L]; [done|].
    rewrite last_cons_cons. by destruct (last (y :: L)) eqn:El; [|apply last_None in El].
Qed.

(** Appending a mount point to the chain. *)
Lemma mount_chain_snoc m m' ms ms' L e : forall p,
  mount_chain m ms p L -> NoDup (map mt_address L) ->
  (forall a mp, a ∈ map mt_address L -> ms !! a = Some mp -> exists mp', ms' !! a = Some mp' /\
     m_name mp' = m_name mp /\ m_name_length mp' = m_name_length mp /\ m_fs mp' = m_fs mp /\
     m_next mp' = if decide (last (map mt_address L) = Some a) then mt_address e else m_next mp) ->
  (forall x mp, x ∈ L -> ms !! mt_address x = Some mp -> bytes m' (m_name mp) (length (mt_name x)) = mt_name x) ->
  (exists mp, ms' !! mt_address e = Some mp /\ m_name_length mp = Z.of_nat (length (mt_name e)) /\
     bytes m' (m_name mp) (length (mt_name e)) = mt_name e /\ m_fs mp = mt_fs e /\ m_next mp = 0) ->
  mt_address e <> 0 ->
  mount_chain m' ms' (if decide (L = []) then mt_address e else p) (L ++ [e]).
Proof using.
  induction L as [|x L IH]; intros p Hch Hnd Hold Hb (mp & H1 & H2 & H3 & H4 & H5) H0; cbn [app mount_chain].
  - rewrite decide_True by done. split_and!; [done|done|]. exists mp. by split_and!.
  - rewrite decide_False by done. destruct Hch as (-> & Hx0 & mx & Hmx & Hlx & Hbx & Hfx & Hch). split_and!; [done|done|].
    cbn [map] in *. apply NoDup_cons in Hnd as [Hxn Hnd].
    destruct (Hold (mt_address x) mx ltac:(set_solver) Hmx) as (mx' & E & Ea & Eb & Ec & Ed).
    exists mx'. rewrite Ea, Eb, Ec. split_and!; [done|done| |done|].
    { apply (Hb x mx); [set_solver|done]. }
    assert (mount_chain m' ms' (if decide (L = []) then mt_address e else m_next mx) (L ++ [e])) as IH'.
    { apply IH; [done|done| | |by exists mp|done].
      - intros a ma Ha Hma. destruct (Hold a ma ltac:(set_solver) Hma) as (ma' & F1 & F2 & F3 & F4 & F5).
        exists ma'. split_and!; try done. rewrite F5.
        destruct (map mt_address L) eqn:EL; [set_solver|]. by rewrite last_cons_cons.
      - intros y my Hy. apply Hb. set_solver. }
    rewrite Ed. destruct L as [|y L]; simpl in IH' |- *; [by rewrite decide_True|].
    rewrite decide_False; [done|]. intros Hl. apply Hxn. simpl. change (mt_address x ∈ mt_address y :: map mt_address L).
    apply last_Some_elem_of. exact Hl.
Qed.

(** The two allocations of [vfs_mount_fs] do not write to the string [name]. *)
Definition left_alone s (sizes : Z * Z) (name : Z) (n : list Z) : Prop :=
  forall p1 h1 p2 h2, kh_block_allocate sizes.1 (vs_heap s) = Done (p1, h1) ->
    kh_block_allocate sizes.2 h1 = Done (p2, h2) -> bytes (kh_mem h2) name (length n) = n.

(** The mount points after [q] got the successor [new]. *)
Definition relink (ms : gmap Z vfs_mount_point) (q new : Z) : gmap Z vfs_mount_point :=
  match ms !! q with
  | Some p => <[q := Mount (m_name p) (m_name_length p) (m_fs p) new (m_prev p)]> ms
  | None => ms
  end.

Lemma relink_lookup ms q new a mp : ms !! a = Some mp ->
  exists mp', relink ms q new !! a = Some mp' /\ m_name mp' = m_name mp /\ m_name_length mp' = m_name_length mp /\
    m_fs mp' = m_fs mp /\ m_next mp' = if decide (q = a) then new else m_next mp.
Proof using.
  intros Ha. unfold relink. destruct (ms !! q) as [p|] eqn:Eq.
  - destruct (decide (q = a)) as [->|Hn]; [rewrite lookup_insert_eq|rewrite lookup_insert_ne by done].
    + assert (p = mp) as -> by congruence. by eexists.
    + by exists mp.
  - exists mp. rewrite decide_False by congruence. done.
Qed.

Lemma relink_dom ms q new a : is_Some (relink ms q new !! a) -> is_Some (ms !! a).
Proof using.
  unfold relink. destruct (ms !! q) as [p|] eqn:Eq; [|done]. intros [x Hx].
  apply lookup_insert_Some in Hx as [[<- _]|[_ Hx]]; by eexists.
Qed.

(** The new mount point is the last of the chain. *)
Lemma mount_links s L hd new copy n fs m :
  vfs_wf s L -> vs_mounts s !! mount_points s = Some hd ->
  mount_chain (fs_mem s) (vs_mounts s) (m_next hd) L -> new <> 0 -> vs_mounts s !! new = None ->
  bytes m copy (length n) = n ->
  (forall x mp, x ∈ L -> vs_mounts s !! mt_address x = Some mp ->
     bytes m (m_name mp) (length (mt_name x)) = mt_name x) ->
  let q := default (mount_points s) (mt_address <$> last L) in
  let ms := relink (<[new := Mount copy (Z.of_nat (length n)) fs 0 0]> (vs_mounts s)) q new in
  exists hd', ms !! mount_points s = Some hd' /\ mount_chain m ms (m_next hd') (L ++ [Mounted new n fs]).
Proof using.
  intros W Hhd Hch Hn0 Hnew Hb Hold q ms. pose proof (vw_nodup _ _ W) as Hnd. apply NoDup_cons in Hnd as [Hhn Hnd].
  assert (Hlast : last (map mt_address L) = mt_address <$> last L) by apply fmap_last.
  assert (Hin : forall a, a ∈ map mt_address L -> is_Some (vs_mounts s !! a)).
  { intros a Ha. apply list_elem_of_fmap in Ha as (x & -> & Hx).
    destruct (mount_chain_lookup _ _ _ _ _ Hch Hx) as (_ & mp & Hmp & _). by exists mp. }
  assert (Hhead : vs_mounts s !! mount_points s <> None) by (rewrite Hhd; done).
  set (ms1 := <[new := _]> (vs_mounts s)) in *.
  destruct (relink_lookup ms1 q new (mount_points s) hd) as (hd' & Eh & _ & _ & _ & Enext).
  { unfold ms1. by rewrite lookup_insert_ne by congruence. }
  destruct (relink_lookup ms1 q new new (Mount copy (Z.of_nat (length n)) fs 0 0)) as (mn & En & N1 & N2 & N3 & N4).
  { unfold ms1. by rewrite lookup_insert_eq. }
  assert (q <> new) as Hqn.
  { intros Hq. unfold q in Hq. destruct (last L) as [x|] eqn:El; simpl in Hq; [|congruence].
    destruct (Hin new) as [? ?]; [|congruence]. rewrite <- Hq. apply last_Some_elem_of. by rewrite Hlast. }
  exists hd'. split; [done|]. rewrite Enext.
  replace (if decide (q = mount_points s) then new else m_next hd)
    with (if decide (L = []) then new else m_next hd).
  2: { destruct L as [|x L]; [by rewrite !decide_True|]. rewrite decide_False by done. rewrite decide_False; [done|].
       unfold q. intros Hq. apply Hhn. rewrite <- Hq. apply last_Some_elem_of. rewrite Hlast.
       by destruct (last (x :: L)) eqn:El; [|apply last_None in El]. }
  apply (mount_chain_snoc (fs_mem s) m (vs_mounts s) ms L (Mounted new n fs)); [done|done| |done| |done].
  - intros a mp Ha Hmp. destruct (relink_lookup ms1 q new a mp) as (mp' & R1 & R2 & R3 & R4 & R5).
    { unfold ms1. rewrite lookup_insert_ne; [done|]. intros ->. congruence. }
    exists mp'. split_and!; try done. rewrite R5, Hlast. unfold q.
    destruct (last L) as [x|] eqn:El; simpl.
    + repeat case_decide; congruence.
    + apply last_None in El as ->. set_solver.
  - exists mn. simpl in *. rewrite N1, N2, N3, N4. rewrite decide_False by done. by split_and!.
Qed.

Context `{!KernelHeapLaws H}.

Lemma vfs_mount_fs_spec s L name n fs :
  vfs_wf s L -> cstr (fs_mem s) name n -> kh_fits [sizeof_vfs_mount_point; Z.of_nat (length n)] (vs_heap s) ->
  left_alone s (sizeof_vfs_mount_point, Z.of_nat (length n)) name n ->
  vfs_mount_fs name fs s = Panicked \/
  exists s' a, vfs_mount_fs name fs s = Done s' /\ vfs_wf s' (L ++ [Mounted a n fs]) /\
    vs_nodes s' = vs_nodes s /\ kh_keeps (vs_heap s) (vs_heap s').
Proof using KernelHeapLaws0.
  intros W Hc Hfit Hstr. unfold vfs_mount_fs. rewrite (vw_lock _ _ W). cbn [spinlock_acquire mbind outcome_bind].
  change (fs_mem (set_mount_lock s true)) with (fs_mem s). rewrite (strlen_cstr _ _ _ Hc).
  change (vs_heap (set_mount_lock s true)) with (vs_heap s).
  destruct (kh_block_outcome _ _ _ (vw_heap _ _ W) Hfit) as [->|(new & h1 & E1)]; [by left|].
  destruct (kh_block_law _ _ _ _ _ (vw_heap _ _ W) Hfit E1) as (Ok1 & Hn0 & Hnl & Hl1 & Mo1 & _ & _ & _ & Fit1 & K1).
  rewrite E1. cbn [mbind outcome_bind]. cbn beta iota.
  destruct (kh_block_outcome _ _ _ Ok1 Fit1) as [->|(copy & h2 & E2)]; [by left|right].
  destruct (kh_block_law _ _ _ _ _ Ok1 Fit1 E2) as (Ok2 & _ & Hcl & _ & Mo2 & Hz & Bc & Ex & _ & K2).
  rewrite E2. cbn [mbind outcome_bind]. cbn beta iota.
  pose proof (Hstr _ _ _ _ E1 E2) as Hn. cbv zeta.
  set (m3 := memcpy (fs_mem (set_heap (set_mount_lock s true) h2)) copy name (Z.of_nat (length n))).
  destruct (copy_name h2 copy name n Ok2 Bc Ex ltac:(apply Hc) Hn Hz) as (M1 & M2 & M3).
  change (memcpy (kh_mem h2) copy name (Z.of_nat (length n))) with m3 in M1, M2, M3.
  destruct (kh_write_law h2 m3 Ok2 M3) as (Ok3 & Lv3 & Bl3 & Ex3 & _).
  assert (Kh : kh_keeps (vs_heap s) h2) by (by etrans).
  assert (vs_mounts s !! new = None) as Hnew.
  { apply eq_None_not_Some. intros Hs. by apply Hnl, (vw_live _ _ W). }
  destruct (vw_head _ _ W) as (hd & Hhd & Hch).
  set (ms1 := <[new := Mount copy (Z.of_nat (length n)) fs 0 0]> (vs_mounts s)).
  assert (Hsub : forall a mp, vs_mounts s !! a = Some mp -> ms1 !! a = Some mp).
  { intros a mp Ha. unfold ms1. rewrite lookup_insert_ne; [done|]. congruence. }
  assert (mount_chain (fs_mem s) ms1 (m_next hd) L) as Hch1.
  { clear -Hch Hsub. revert Hch. generalize (m_next hd). induction L as [|e L IH]; intros p; cbn [mount_chain]; [done|].
    intros (He & H0 & mp & Hmp & R1 & R2 & R3 & R4). split_and!; [done|done|]. exists mp. split_and!; auto. }
  destruct (last_mount_spec (fs_mem s) L ms1 (mount_points s) hd (size ms1) (Hsub _ _ Hhd) Hch1) as (q & Eq & Hq & mq & Hmq & _).
  { pose proof (vfs_wf_size s L W). unfold ms1. rewrite map_size_insert_None by done. lia. }
  change (vs_mounts (set_mem (set_heap (set_mount_lock s true) h2) m3)) with (vs_mounts s).
  change (mount_points (set_mounts _ _)) with (mount_points s). fold ms1.
  change (vs_mounts (set_mounts (set_mem (set_heap (set_mount_lock s true) h2) m3) ms1)) with ms1.
  rewrite Eq. cbn [mbind outcome_bind]. rewrite Hmq. cbn [deref mbind outcome_bind].
  assert (Hold : forall x mp, x ∈ L -> vs_mounts s !! mt_address x = Some mp ->
    kh_block (vs_heap s) (m_name mp) /\ m_name mp <> copy /\
    bytes m3 (m_name mp) (length (mt_name x)) = mt_name x).
  { intros x mp Hx Hmp. destruct (vw_names _ _ W x mp Hx Hmp) as [Bx Exx]. destruct (K1 _ Bx) as (B1 & X1 & Y1).
    destruct (K2 _ B1) as (B2 & X2 & Y2). assert (m_name mp <> copy) as Hne by (intros Eq'; apply Hcl, kh_block_live; by rewrite <- Eq').
    split_and!; [done|done|]. destruct (kh_disjoint h2 (m_name mp) copy Ok2 B2 Bc Hne) as [Hd|Hd].
    all: rewrite (bytes_ext (fs_mem s)); [by apply (mount_chain_bytes _ _ _ _ _ _ Hch)|]; intros b Hb;
      rewrite (M2 b) by (cbn beta; lia); rewrite Y2, Y1 by lia; done. }
  destruct (mount_links s L hd new copy n fs m3 W Hhd Hch Hn0 Hnew M1) as (hd' & Eh & Hch').
  { intros x mp Hx Hmp. by apply (Hold x mp Hx Hmp). }
  rewrite <- Hq in Eh, Hch'. unfold relink in Eh, Hch'. fold ms1 in Eh, Hch'. rewrite Hmq in Eh, Hch'.
  eexists _, new. split; [reflexivity|]. split; [|split; [done|]].
  2: { simpl. intros a Ha. destruct (Kh a Ha) as (B2 & X2 & Y2). rewrite Bl3, Ex3 by done. split_and!; [done|done|].
       intros b Hb. rewrite kh_mem_law. rewrite (M2 b); [by apply Y2|]. intros Hbc. cbn beta in Hbc.
       assert (a <> copy) as Hne by (intros ->; apply Hcl, kh_block_live; by apply K1).
       destruct (kh_disjoint h2 a copy Ok2 B2 Bc Hne); lia. }
  split.
  - done.
  - exists hd'. split; [done|]. unfold fs_mem. simpl. rewrite kh_mem_law. exact Hch'.
  - rewrite map_app. simpl. change (mount_points s :: map mt_address L ++ [new]) with ((mount_points s :: map mt_address L) ++ [new]).
    apply NoDup_app. split_and!; [apply W| |apply NoDup_singleton]. intros a Ha ->%list_elem_of_singleton.
    apply elem_of_cons in Ha as [Ha|Ha]; [congruence|]. apply list_elem_of_fmap in Ha as (x & Ex' & Hx).
    destruct (mount_chain_lookup _ _ _ _ _ Hch Hx) as (_ & mp & Hmp & _). congruence.
  - exact Ok3.
  - intros x mp Hx Hmp. simpl in Hmp |- *. rewrite Bl3.
    assert (Hnm : exists mp0, ms1 !! mt_address x = Some mp0 /\ m_name mp = m_name mp0).
    { apply lookup_insert_Some in Hmp as [[E <-]|[_ Hmp]]; [exists mq; by rewrite <- E|by exists mp]. }
    destruct Hnm as (mp0 & Hmp0 & ->). apply elem_of_app in Hx as [Hx| ->%list_elem_of_singleton].
    + destruct (mount_chain_lookup _ _ _ _ _ Hch Hx) as (_ & mp1 & Hmp1 & _).
      assert (mp0 = mp1) as -> by (pose proof (Hsub _ _ Hmp1); congruence).
      destruct (vw_names _ _ W x mp1 Hx Hmp1) as [Bx Exx]. destruct (Kh _ Bx) as (B2 & X2 & _).
      rewrite Ex3 by done. split; [done|lia].
    + simpl in *. unfold ms1 in Hmp0. rewrite lookup_insert_eq in Hmp0. injection Hmp0 as <-. simpl.
      rewrite Ex3 by done. done.
  - intros a Ha. simpl in *. rewrite Lv3. assert (is_Some (ms1 !! a)) as Ha1.
    { destruct Ha as [x Hx]. apply lookup_insert_Some in Hx as [[<- _]|[_ Hx]]; by eexists. }
    destruct Ha1 as [x Hx]. apply lookup_insert_Some in Hx as [[<- _]|[_ Hx]]; [by apply Mo2|].
    apply Mo2, Mo1, (vw_live _ _ W). by exists x.
Qed.
End Invariant.

(** ** The empty file system *)

Section Init.
Context {H : Type} `{!KernelHeap H} `{!KernelHeapLaws H}.
Implicit Types s : vfs_state H.

Lemma vfs_init_spec s l :
  vs_mounts s = ∅ -> mount_lock s = false -> kh_ok (vs_heap s) ->
  kh_fits (sizeof_vfs_mount_point :: l) (vs_heap s) ->
  vfs_init s = Panicked \/ exists s', vfs_init s = Done s' /\ vfs_wf s' [] /\ kh_fits l (vs_heap s') /\
    vs_nodes s' = vs_nodes s.
Proof using KernelHeapLaws0.
  intros Hm Hl Hok Hfit. unfold vfs_init.
  destruct (kh_block_outcome _ _ _ Hok Hfit) as [->|(p & h & E)]; [by left|right].
  destruct (kh_block_law _ _ _ _ _ Hok Hfit E) as (Ok & Hp0 & _ & Hlive & _ & _ & _ & _ & Fit & _).
  rewrite E. cbn [mbind outcome_bind]. cbn beta iota. eexists. split; [reflexivity|].
  split; [|by split]. rewrite Hm. split; simpl; try done.
  - exists zero_mount. split; [apply lookup_insert_eq|done].
  - apply NoDup_singleton.
  - set_solver.
  - intros a [x Hx]. apply lookup_insert_Some in Hx as [[<- _]|[_ Hx]]; [done|]. by rewrite lookup_empty in Hx.
Qed.

(** A name inside a block of the heap is left alone by allocations. *)
Lemma left_alone_block s name n k :
  kh_ok (vs_heap s) -> kh_block (vs_heap s) name -> cstr (fs_mem s) name n ->
  Z.of_nat (length n) <= kh_extent (vs_heap s) name -> kh_fits [k; Z.of_nat (length n)] (vs_heap s) ->
  left_alone s (k, Z.of_nat (length n)) name n.
Proof using KernelHeapLaws0.
  intros Hok Hb Hc He Hfit p1 h1 p2 h2 E1 E2. simpl in E1, E2.
  destruct (kh_block_law _ _ _ _ _ Hok Hfit E1) as (Ok1 & _ & _ & _ & _ & _ & _ & _ & Fit1 & K1).
  destruct (kh_block_law _ _ _ _ _ Ok1 Fit1 E2) as (_ & _ & _ & _ & _ & _ & _ & _ & _ & K2).
  assert (kh_keeps (vs_heap s) h2) as K by (by etrans). destruct (K name Hb) as (_ & _ & Hk).
  rewrite (bytes_ext (fs_mem s)); [apply Hc|]. intros b Hb'. apply Hk. lia.
Qed.
End Init.

(** * A concrete file system *)

#[local] Existing Instance demo_source.
#[local] Existing Instance demo_source_laws.

Section Demo.
Context (table : Z).
#[local] Instance demo_fs_heap : KernelHeap (ba_state pa_state) := ba_heap 0 table.
#[local] Instance demo_fs_heap_laws : KernelHeapLaws (ba_state pa_state) := ba_heap_laws 0 table hhdm_ok_0.

(** No nodes, no mount points. *)
Definition no_files {H} (h : H) : vfs_state H := Vfs h ∅ ∅ 0 false 0.

(** An empty file system and a string in a block of the heap. *)
Definition demo_fs (text : list Z) (h : ba_state pa_state) : outcome (Z * vfs_state (ba_state pa_state)) :=
  s ← vfs_init (no_files h);
  '(p, h) ← kh_block_allocate (Z.of_nat (length text) + 1) (vs_heap s);
  let s := set_heap s h in
  Done (p, set_mem s (put (fs_mem s) p text)).

Lemma demo_fs_wf text h p s l :
  kh_ok h -> kh_fits (sizeof_vfs_mount_point :: Z.of_nat (length text) + 1 :: l) h ->
  Forall (fun c => 0 < c < 256) text -> demo_fs text h = Done (p, s) ->
  vfs_wf s [] /\ cstr (fs_mem s) p text /\ kh_fits l (vs_heap s) /\ kh_block (vs_heap s) p /\
  Z.of_nat (length text) + 1 <= kh_extent (vs_heap s) p /\ p <> 0.
Proof using.
  intros Hok Hfit Ht E. unfold demo_fs in E. apply bind_done_inv in E as (s1 & E1 & E).
  assert (vfs_wf s1 [] /\ kh_fits (Z.of_nat (length text) + 1 :: l) (vs_heap s1)) as [W Fit].
  { destruct (vfs_init_spec (no_files h) _ eq_refl eq_refl Hok Hfit) as [Ex|(s1' & Ex & W & Fit & _)];
      rewrite Ex in E1; [discriminate E1|]. injection E1 as <-. split; [exact W|exact Fit]. }
  apply bind_done_inv in E as ([q h2] & E2 & E). injection E as <- <-.
  destruct (kh_block_law _ _ _ _ _ (vw_heap _ _ W) Fit E2) as (Ok2 & Hq0 & _ & _ & Mo & Hz & Bq & Eq & Fit2 & Ke).
  destruct (put_spec text (kh_mem h2) q Ht) as [P1 P2]; [apply Hz; lia|].
  assert (changes (kh_data h2) (kh_mem h2) (put (kh_mem h2) q text)) as P3.
  { eapply changes_mono; [|exact P2]. intros b Hb. cbn beta in Hb. exists q. split; [exact Bq|lia]. }
  destruct (kh_write_law h2 _ Ok2 P3) as (Ok3 & Lv3 & Bl3 & Ex3 & Fit3).
  change (fs_mem (set_heap s1 h2)) with (kh_mem h2).
  split_and!.
  - destruct W as [W1 (hd & W2 & W3) W4 W5 W6 W7]. split; [exact W1| |exact W4|exact Ok3|set_solver|].
    + exists hd. split; [exact W2|]. exact W3.
    + intros a Ha. simpl. apply Lv3, Mo, W7. exact Ha.
  - change (cstr (kh_mem (kh_with_mem h2 (put (kh_mem h2) q text))) q text). rewrite kh_mem_law. exact P1.
  - exact (proj2 (Fit3 l) Fit2).
  - exact (proj2 (Bl3 q) Bq).
  - change (Z.of_nat (length text) + 1 <= kh_extent (kh_with_mem h2 (put (kh_mem h2) q text)) q).
    rewrite (Ex3 q Bq). lia.
  - exact Hq0.
Qed.
End Demo.

(** ["/dev"]. *)
Definition dev_name : list Z := [47; 100; 101; 118].

Lemma demo_fs_ready : exists table h p s,
  demo_boot = Done (table, h) /\ @demo_fs table dev_name h = Done (p, s) /\
  @vfs_wf _ (ba_heap 0 table) s [] /\ cstr (@fs_mem _ (ba_heap 0 table) s) p dev_name /\
  @kh_fits _ (ba_heap 0 table) [sizeof_vfs_mount_point; 4] (vs_heap s) /\
  @kh_block _ (ba_heap 0 table) (vs_heap s) p /\ 5 <= @kh_extent _ (ba_heap 0 table) (vs_heap s) p /\ p <> 0 /\
  is_done (@vfs_mount_fs _ (ba_heap 0 table) p 1000 s) = true.
Proof.
  assert (is_done ('(table, h) ← demo_boot; '(p, s) ← @demo_fs table dev_name h;
    @vfs_mount_fs _ (ba_heap 0 table) p 1000 s) = true) as H by (vm_compute; reflexivity).
  destruct demo_heap as (table & h & E & Hl & Hc & W). rewrite E in H. cbn [mbind outcome_bind] in H.
  apply is_done_bind in H as ([p s] & E2 & H).
  destruct (demo_fs_wf table dev_name h p s [sizeof_vfs_mount_point; 4]) as (H1 & H2 & H3 & H4 & H5 & H6).
  - split; [exact Hl|]. exists [block_allocator_virtual_base h], []. exact W.
  - split; [repeat constructor; vm_compute; congruence|]. split; rewrite Hc; vm_compute; congruence.
  - repeat constructor.
  - exact E2.
  - exists table, h, p, s. split_and!; assumption.
Qed.

(** * Properties *)

(** vfs_mount_fs either runs out of memory or appends the mount point with a copy of its name:
    paths that resolved before resolve as before, the others resolve to the new file system when
    they start with its name. *)
Theorem vfs_mount_appends {H} `{!KernelHeap H} `{!KernelHeapLaws H} (s : vfs_state H) (L : list mounted)
    (name : Z) (n : list Z) (fs : Z) :
  vfs_wf s L -> cstr (fs_mem s) name n -> kh_fits [sizeof_vfs_mount_point; Z.of_nat (length n)] (vs_heap s) ->
  left_alone s (sizeof_vfs_mount_point, Z.of_nat (length n)) name n ->
  vfs_mount_fs name fs s = Panicked \/
  exists s' a, vfs_mount_fs name fs s = Done s' /\ vfs_wf s' (L ++ [Mounted a n fs]) /\
    vs_nodes s' = vs_nodes s /\
    forall p, resolve p (L ++ [Mounted a n fs]) =
      match resolve p L with
      | Some e => Some e
      | None => if decide (n `prefix_of` p) then Some (Mounted a n fs) else None
      end.
Proof.
  intros W Hc Hfit Hn. destruct (vfs_mount_fs_spec s L name n fs W Hc Hfit Hn) as [E|(s' & a & E & W' & Hns & _)];
    [by left|right]. exists s', a. split_and!; try done. intros p. apply resolve_snoc.
Qed.

Lemma vfs_mount_appends_witness :
  exists table s s' p a, @vfs_mount_fs _ (ba_heap 0 table) p 1000 s = Done s' /\
    @vfs_wf _ (ba_heap 0 table) s' [Mounted a dev_name 1000].
Proof.
  destruct demo_fs_ready as (table & h & p & s & _ & _ & W & Hc & Hfit & Hb & He & _ & Hd).
  destruct (@vfs_mount_appends _ (ba_heap 0 table) (ba_heap_laws 0 table hhdm_ok_0) s [] p dev_name 1000 W Hc Hfit)
    as [E|(s' & a & E & W' & _)].
  - apply (@left_alone_block _ (ba_heap 0 table) (ba_heap_laws 0 table hhdm_ok_0)).
    + exact (@vw_heap _ (ba_heap 0 table) _ _ W).
    + exact Hb.
    + exact Hc.
    + change (Z.of_nat (length dev_name)) with 4. lia.
    + exact Hfit.
  - exfalso. rewrite E in Hd. discriminate Hd.
  - exists table, s, s', p, a. split; [exact E|exact W'].
Defined.

(** C9. vfs_open hands the path to the first mount point, in mount order, whose name the path
    starts with, and passes on the rest of the path as a string; a path that is not absolute or
    that no mount point starts gives the error pointer of ENOENT, and a file system without open
    panics. *)
Theorem vfs_open_resolves {H} `{!KernelHeap H} (filesystems : Z -> option (vfs_fs_ops (vfs_state H)))
    (s : vfs_state H) (L : list mounted) (path mode : Z) (p : list Z) :
  vfs_wf s L -> path <> 0 -> cstr (fs_mem s) path p ->
  vfs_open filesystems path mode s = open_result filesystems path mode p L s /\
  (forall e, resolve p L = Some e ->
     cstr (fs_mem s) (path + Z.of_nat (length (mt_name e))) (drop (length (mt_name e)) p)).
Proof.
  intros W H0 Hc. split; [by apply vfs_open_spec|]. intros e [_ Hp]%resolve_in. apply cstr_drop; [done|].
  by apply prefix_length.
Qed.

(** A file system whose [open] returns the path it gets. *)
Definition echo_fs {S} : vfs_fs_ops S :=
  Ops (Some (fun _ path _ s => Done (path, s))) None None None None None None None None.

Lemma vfs_open_resolves_witness :
  exists table s p, @vfs_open _ (ba_heap 0 table) (fun _ => Some echo_fs) p O_RDONLY s =
    Done (error_ptr (- ENOENT), s).
Proof.
  destruct demo_fs_ready as (table & h & p & s & _ & _ & W & Hc & _ & _ & _ & H0 & _).
  destruct (@vfs_open_resolves _ (ba_heap 0 table) (fun _ => Some echo_fs) s [] p O_RDONLY dev_name W H0 Hc) as [E _].
  exists table, s, p. rewrite E. unfold open_result. rewrite decide_True by reflexivity. reflexivity.
Defined.
