(* ===== verification/Ustar.v ===== *)
(** The initial ram disk, [filesystem/ustar.c]: a read-only file system over a
    tar archive in memory, and what its operations do on an archive that is a
    list of files. *)

From S2P Require Import Prelude Memory Libc Spinlock KernelHeap Paths Vfs VfsSpec.

(** * Model *)

Definition TAR_BLOCK_SIZE : Z := 512.

(** The offset of [size] in [ustar_header_t]. *)
Definition off_tar_size : Z := 124.

(** [char] is signed. *)
Definition signed_char (c : Z) : Z := if c <? 128 then c else c - 256.

(** The loop of [parse_size_of] over [n] characters from [p] on. *)
Fixpoint parse_digits (m : mem) (p : Z) (n : nat) (size : Z) : Z :=
  match n with
  | O => size
  | S n' =>
      let c := ld8 m p in
      if (c =? 0) || (c =? 32) then parse_digits m (p + 1) n' size
      else parse_digits m (p + 1) n' ((size *w 8) +w (signed_char c - 48))
  end.

Definition parse_size_of (m : mem) (header : Z) : Z := parse_digits m (header + off_tar_size) 12 0.

(** The bytes of a file with its header, rounded up to whole blocks. *)
Definition tar_real_size (size : Z) : Z :=
  let real_size := size +w TAR_BLOCK_SIZE in
  if negb (real_size mod TAR_BLOCK_SIZE =? 0) then real_size +w (512 - real_size mod TAR_BLOCK_SIZE)
  else real_size.

(** The loop of [ustar_open_header]; 0 is the null pointer. *)
Fixpoint scan_headers (m : mem) (path header : Z) (fuel : nat) : outcome Z :=
  match fuel with
  | O => Timeout
  | S fuel' =>
      if ld8 m header =? 0 then Done 0
      else if strncmp m path (header + 2) (strlen m path) =? 0 then Done header
      else scan_headers m path (header +w tar_real_size (parse_size_of m header)) fuel'
  end.

(** Headers start with a non-zero byte, so there are not more of them than
    bytes in memory. *)
Definition ustar_open_header (m : mem) (initrd path : Z) : outcome Z :=
  scan_headers m path (initrd +w TAR_BLOCK_SIZE) (S (size m)).

(** [size = min(node_size, size)]: [min] takes and returns [int]. *)
Definition read_size (node_size size : Z) : Z := u64 (min node_size size).

Section Model.
Context {H : Type} `{!KernelHeap H}.
Implicit Types s : vfs_state H.

Definition ustar_open (fs path mode : Z) s : outcome (Z * vfs_state H) :=
  if negb (Z.land mode O_WRONLY =? 0) then Done (error_ptr (- EACCES), s) else
  '(node, h) ← kh_block_allocate sizeof_node (vs_heap s);
  let s := set_heap s h in
  header ← ustar_open_header (fs_mem s) (initrd s) path;
  if header =? 0 then Done (error_ptr (- ENOENT), s) else
  let path_len := strlen (fs_mem s) path in
  '(copy, h) ← kh_block_allocate path_len (vs_heap s);
  let s := set_heap s h in
  let max_seek_position := parse_size_of (fs_mem s) header in
  let s := set_mem s (memcpy (fs_mem s) copy path path_len) in
  Done (node, set_nodes s (<[node := Node copy path_len mode 0 max_seek_position false fs header]> (vs_nodes s))).

Definition ustar_dup (node : Z) s : outcome (Z * vfs_state H) :=
  n ← deref (vs_nodes s !! node);
  '(new_node, s) ← ustar_open (n_fs n) (n_path n) (n_mode n) s;
  new ← deref (vs_nodes s !! new_node);
  Done (new_node, set_nodes s (<[new_node := set_seek_position (n_seek_position n) new]> (vs_nodes s))).

Definition ustar_read (node buffer size : Z) s : outcome (Z * vfs_state H) :=
  n ← deref (vs_nodes s !! node);
  let node_size := parse_size_of (fs_mem s) (n_private n) in
  let size := read_size node_size size in
  if n_seek_position n >=? node_size then Done (- EINVAL, s) else
  let size := if n_seek_position n >=? node_size then node_size -w n_seek_position n else size in
  let contents := n_private n +w TAR_BLOCK_SIZE in
  let s := set_mem s (memcpy (fs_mem s) buffer (contents +w n_seek_position n) size) in
  Done (s64 size, set_nodes s (<[node := set_seek_position (n_seek_position n +w size) n]> (vs_nodes s))).

Definition ustar_lseek (node offset whence : Z) s : outcome (Z * vfs_state H) :=
  n ← deref (vs_nodes s !! node);
  let position :=
    if whence =? SEEK_SET then u64 offset
    else if whence =? SEEK_CUR then n_seek_position n +w offset
    else if whence =? SEEK_END then n_max_seek_position n +w offset
    else n_seek_position n in
  let position := if position >? n_max_seek_position n then n_max_seek_position n else position in
  Done (s64 position, set_nodes s (<[node := set_seek_position position n]> (vs_nodes s))).

Definition ustar_close (node : Z) s : outcome (vfs_state H) :=
  n ← deref (vs_nodes s !! node);
  h ← (if n_path n =? 0 then Done (vs_heap s) else kh_block_deallocate (n_path n) (vs_heap s));
  h ← kh_block_deallocate node h;
  Done (set_nodes (set_heap s h) (delete node (vs_nodes s))).

(** The operations that [ustar_init] installs. *)
Definition ustar : vfs_fs_ops (vfs_state H) :=
  Ops (Some ustar_open) (Some ustar_read) None (Some ustar_lseek) (Some ustar_close) (Some ustar_dup)
    None None None.
End Model.

(** * Archives as lists of files *)

Record tar_file := TarFile { tf_header : Z; tf_name : list Z; tf_content : list Z }.

(** The files [A] follow each other from [header] on; names start with ["./"]. *)
Fixpoint archive (m : mem) (header : Z) (A : list tar_file) : Prop :=
  match A with
  | [] => ld8 m header = 0
  | f :: A' =>
      header = tf_header f /\ 0 < header /\ cstr m header (46 :: 47 :: tf_name f) /\
      parse_size_of m header = Z.of_nat (length (tf_content f)) /\
      bytes m (header + TAR_BLOCK_SIZE) (length (tf_content f)) = tf_content f /\
      header + Z.of_nat (length (tf_content f)) + 1024 < 18446744073709551616 /\
      archive m (header + tar_real_size (Z.of_nat (length (tf_content f)))) A'
  end.

(** The first file whose name starts with the path. *)
Fixpoint find_file (p : list Z) (A : list tar_file) : option tar_file :=
  match A with
  | [] => None
  | f :: A' => if decide (p `prefix_of` tf_name f) then Some f else find_file p A'
  end.

(** Twelve characters: eleven octal digits and a terminator. *)
Fixpoint octal (n : Z) (k : nat) : list Z :=
  match k with
  | O => []
  | S k' => octal (n / 8) k' ++ [48 + n mod 8]
  end.

(** * Sizes *)

Lemma parse_digits_snoc m k : forall p acc,
  parse_digits m p (S k) acc = parse_digits m (p + Z.of_nat k) 1 (parse_digits m p k acc).
Proof.
  assert (forall k p acc, parse_digits m p (S k) acc = parse_digits m (p + 1) k
    (if (ld8 m p =? 0) || (ld8 m p =? 32) then acc else (acc *w 8) +w (signed_char (ld8 m p) - 48))) as Hs.
  { intros j p acc. cbn [parse_digits]. by destruct ((ld8 m p =? 0) || (ld8 m p =? 32)). }
  induction k as [|k IH]; intros p acc; [by rewrite Z.add_0_r|].
  rewrite (Hs (S k)), IH, (Hs k). f_equal. lia.
Qed.

Lemma parse_digits_ext m m' n : forall p size, (forall b, p <= b < p + Z.of_nat n -> ld8 m' b = ld8 m b) ->
  parse_digits m' p n size = parse_digits m p n size.
Proof using.
  induction n as [|n IH]; intros p size He; cbn [parse_digits]; [done|]. rewrite (He p) by lia.
  destruct (_ || _); apply IH; intros b Hb; apply He; lia.
Qed.

Lemma length_octal n k : length (octal n k) = k.
Proof. revert n. induction k as [|k IH]; intros n; cbn [octal]; [done|]. rewrite length_app, IH. simpl. lia. Qed.

Lemma parse_digits_octal m k : forall p n acc,
  bytes m p k = octal n k -> 0 <= n < 8 ^ Z.of_nat k -> 0 <= acc ->
  acc * 8 ^ Z.of_nat k + n < 18446744073709551616 ->
  parse_digits m p k acc = acc * 8 ^ Z.of_nat k + n.
Proof.
  induction k as [|k IH]; intros p n acc Hb Hn Ha Hr.
  - simpl in *. rewrite Z.pow_0_r in *. lia.
  - rewrite parse_digits_snoc. cbn [octal] in Hb.
    replace (S k) with (k + 1)%nat in Hb by lia. rewrite bytes_app in Hb.
    apply app_inj_1 in Hb as [Hb Hd]; [|by rewrite length_bytes, length_octal].
    rewrite Nat2Z.inj_succ, Z.pow_succ_r in * by lia.
    rewrite (IH p (n / 8) acc Hb) by (try lia; pose proof (Z.pow_pos_nonneg 8 (Z.of_nat k)); zlia).
    cbn [bytes] in Hd. injection Hd as Hd. cbn [parse_digits]. rewrite Hd.
    pose proof (Z.mod_pos_bound n 8 ltac:(lia)).
    rewrite (proj2 (Z.eqb_neq (48 + n mod 8) 0)), (proj2 (Z.eqb_neq (48 + n mod 8) 32)) by lia. cbn [orb].
    unfold signed_char. rewrite (proj2 (Z.ltb_lt (48 + n mod 8) 128)) by lia.
    pose proof (Z.pow_pos_nonneg 8 (Z.of_nat k) ltac:(lia) ltac:(lia)) as Hpow.
    set (q := 8 ^ Z.of_nat k) in *.
    assert (n = 8 * (n / 8) + n mod 8) as Hdm by (apply Z.div_mod; lia).
    assert (0 <= acc * q) by (apply Z.mul_nonneg_nonneg; lia).
    rewrite (u64_small ((acc * q + n / 8) * 8)) by zlia. rewrite u64_small by zlia. lia.
Qed.

Lemma real_size_spec n : 0 <= n -> n + 1024 < 18446744073709551616 ->
  n + 512 <= tar_real_size n < n + 1024 /\ tar_real_size n mod 512 = 0.
Proof.
  intros H0 Hr. unfold tar_real_size, TAR_BLOCK_SIZE. cbv zeta. rewrite u64_small by lia.
  destruct (Z.eqb_spec ((n + 512) mod 512) 0); cbn [negb]; [zlia|]. rewrite u64_small by zlia. zlia.
Qed.

(** * Looking up a file *)

Lemma strncmp_name m path p name n :
  cstr m path p -> cstr m name n ->
  strncmp m path name (strlen m path) = 0 <-> p `prefix_of` n.
Proof.
  intros Hp Hn. rewrite (strlen_cstr _ _ _ Hp), (strncmp_prefix m path name p Hp). split.
  - intros Hb. assert (forall i c, p !! i = Some c -> ld8 m (name + Z.of_nat i) = c) as Hi.
    { intros i c Hi. pose proof (lookup_lt_Some _ _ _ Hi). rewrite <- Hb, bytes_lookup in Hi by done. congruence. }
    assert (length p <= length n)%nat as Hle.
    { destruct (decide (length p <= length n)%nat); [done|]. exfalso.
      destruct (lookup_lt_is_Some_2 p (length n)) as [c Hc]; [lia|]. pose proof (Hi _ _ Hc) as E.
      destruct Hn as (_ & Hz & _). rewrite Hz in E. subst c. destruct Hp as (_ & _ & Hf).
      by apply (Forall_lookup_1 _ _ _ _ Hf Hc). }
    rewrite prefix_iff_take. split; [done|]. apply list_eq. intros i. destruct (decide (i < length p)%nat).
    + rewrite lookup_take_lt by done. destruct (lookup_lt_is_Some_2 p i) as [c Hc]; [done|]. rewrite Hc.
      pose proof (Hi _ _ Hc) as E. rewrite (cstr_lookup _ _ _ _ Hn) in E by lia.
      destruct (lookup_lt_is_Some_2 n i) as [d Hd]; [lia|]. rewrite Hd in *. simpl in E. by subst.
    + rewrite lookup_take_ge, (lookup_ge_None_2 p) by lia. done.
  - rewrite prefix_iff_take. intros [Hle Ht]. rewrite <- Ht at 2. destruct Hn as (Hb & _ & _).
    rewrite <- Hb. replace (length n) with (length p + (length n - length p))%nat by lia.
    rewrite bytes_app. rewrite take_app_length'; [done|]. by rewrite length_bytes.
Qed.

Lemma archive_bound m A : forall header, archive m header A ->
  forall f, f ∈ A -> header <= tf_header f /\ ld8 m (tf_header f) <> 0.
Proof.
  induction A as [|g A IH]; intros header; cbn [archive]; [set_solver|].
  intros (-> & H0 & Hc & _ & _ & Hb & HA) f [->|Hf]%elem_of_cons.
  - apply cstr_cons in Hc as (-> & _). split; [lia|done].
  - destruct (IH _ HA f Hf) as [H1 H2]. split; [|done].
    destruct (real_size_spec (Z.of_nat (length (tf_content g)))); lia.
Qed.

Lemma archive_nodup m A : forall header, archive m header A -> NoDup (map tf_header A).
Proof.
  induction A as [|g A IH]; intros header; cbn [archive map]; [constructor|].
  intros (-> & H0 & _ & _ & _ & Hb & HA). apply NoDup_cons. split; [|by eapply IH].
  intros Hin. apply list_elem_of_fmap in Hin as (f & Ef & Hf). destruct (archive_bound _ _ _ HA f Hf) as [H1 _].
  destruct (real_size_spec (Z.of_nat (length (tf_content g)))); lia.
Qed.

Lemma archive_length m A header : archive m header A -> (length A <= size m)%nat.
Proof.
  intros HA. rewrite <- (length_map tf_header). apply keys_size; [exact (archive_nodup _ _ _ HA)|].
  intros a (f & -> & Hf)%list_elem_of_fmap. destruct (archive_bound _ _ _ HA f Hf) as [_ Hz].
  unfold ld8 in Hz. destruct (m !! tf_header f); [by eexists|done].
Qed.

Lemma scan_headers_spec m path p A : forall header fuel,
  cstr m path p -> archive m header A -> (length A < fuel)%nat ->
  scan_headers m path header fuel = Done (default 0 (tf_header <$> find_file p A)).
Proof.
  induction A as [|f A IH]; intros header fuel Hp HA Hf; destruct fuel as [|fuel]; try lia;
    cbn [scan_headers find_file archive] in *; [by rewrite HA|].
  destruct HA as (-> & H0 & Hc & Hs & _ & Hb & HA). pose proof Hc as Hc'.
  apply cstr_cons in Hc as (-> & _ & Hc). apply cstr_cons in Hc as (_ & _ & Hc).
  replace (tf_header f + 1 + 1) with (tf_header f + 2) in Hc by lia. cbn [Z.eqb].
  change (46 =? 0) with false. cbv iota. case_decide as Hd.
  - rewrite (proj2 (Z.eqb_eq _ _)); [done|]. by apply (strncmp_name m path p _ (tf_name f)).
  - rewrite (proj2 (Z.eqb_neq _ _)).
    + rewrite Hs. destruct (real_size_spec (Z.of_nat (length (tf_content f)))) as [R1 _]; [lia|lia|].
      rewrite u64_small by lia. apply IH; [done|done|]. simpl in Hf. lia.
    + intros E. apply Hd. by apply (strncmp_name m path p _ (tf_name f)) in E.
Qed.
