(* ===== verification/UstarSpec.v ===== *)
(** The initial ram disk, continued: the specification of its operations on an
    archive, a concrete archive, and the properties. *)

From S2P Require Import Prelude Memory Libc Spinlock PageAllocator PageAllocatorSpec PageTable BlockAllocator BlockAllocatorSpec KernelHeap Paths Vfs VfsSpec Ustar.

Lemma find_file_in p A f : find_file p A = Some f -> f ∈ A /\ p `prefix_of` tf_name f.
Proof.
  induction A as [|g A IH]; cbn [find_file]; [done|]. case_decide; [intros [= ->]; set_solver|].
  intros E. destruct (IH E). set_solver.
Qed.

Lemma archive_file m A f : forall header, archive m header A -> f ∈ A ->
  0 < tf_header f /\ parse_size_of m (tf_header f) = Z.of_nat (length (tf_content f)) /\
  bytes m (tf_header f + TAR_BLOCK_SIZE) (length (tf_content f)) = tf_content f /\
  tf_header f + Z.of_nat (length (tf_content f)) + 1024 < 18446744073709551616.
Proof.
  induction A as [|g A IH]; intros header; cbn [archive]; [set_solver|].
  intros (-> & H0 & _ & Hs & Hb & Hr & HA) [->|Hf]%elem_of_cons; [done|by eapply IH].
Qed.

Lemma open_header_spec m ird path p A :
  cstr m path p -> archive m (ird +w TAR_BLOCK_SIZE) A ->
  ustar_open_header m ird path = Done (default 0 (tf_header <$> find_file p A)).
Proof.
  intros Hp HA. unfold ustar_open_header. apply scan_headers_spec; [done|done|].
  pose proof (archive_length _ _ _ HA). lia.
Qed.

Lemma read_size_small a b : 0 <= a < 2147483648 -> 0 <= b < 2147483648 -> read_size a b = Z.min a b.
Proof. intros. unfold read_size. rewrite min_small by lia. apply u64_small. lia. Qed.

Section Operations.
Context {H : Type} `{!KernelHeap H} `{!KernelHeapLaws H}.
Implicit Types s : vfs_state H.

(** The bytes [X] hold the path and the archive, and the two allocations of
    [ustar_open], of [sizeof_node] and of [n] bytes, neither write them nor
    hand them out. *)
Record untouched s (n : Z) (X : Z -> Prop) : Prop := {
  un_first : forall p1 h1, kh_block_allocate sizeof_node (vs_heap s) = Done (p1, h1) ->
    forall b, X b -> ld8 (kh_mem h1) b = ld8 (fs_mem s) b;
  un_second : forall p1 h1 p2 h2, kh_block_allocate sizeof_node (vs_heap s) = Done (p1, h1) ->
    kh_block_allocate n h1 = Done (p2, h2) ->
    forall b, X b -> ld8 (kh_mem h2) b = ld8 (fs_mem s) b /\ ~ (p2 <= b < p2 + n)
}.

(** The path [p] and the archive [A] are determined by the bytes [X]. *)
Definition initrd_on s (X : Z -> Prop) (path : Z) (p : list Z) (A : list tar_file) : Prop :=
  forall m, (forall b, X b -> ld8 m b = ld8 (fs_mem s) b) ->
    cstr m path p /\ archive m (initrd s +w TAR_BLOCK_SIZE) A.

(** The state after [ustar_open] found the file [f]. *)
Record opened s (path mode fs : Z) (p : list Z) (f : tar_file) (X : Z -> Prop) (node : Z) (s' : vfs_state H) : Prop := {
  op_heap : kh_ok (vs_heap s');
  op_keeps : kh_keeps (vs_heap s) (vs_heap s');
  op_nodes : exists copy, vs_nodes s' = <[node := Node copy (Z.of_nat (length p)) mode 0
      (Z.of_nat (length (tf_content f))) false fs (tf_header f)]> (vs_nodes s) /\
    bytes (fs_mem s') copy (length p) = p /\
    kh_block (vs_heap s') copy /\ ~ kh_block (vs_heap s) copy /\ copy <> 0 /\ copy <> node;
  op_node : node <> 0 /\ kh_block (vs_heap s') node /\ ~ kh_block (vs_heap s) node;
  op_bytes : forall b, X b -> ld8 (fs_mem s') b = ld8 (fs_mem s) b;
  op_rest : vs_mounts s' = vs_mounts s /\ mount_points s' = mount_points s /\ initrd s' = initrd s /\
    mount_lock s' = mount_lock s
}.

Lemma ustar_open_spec s path mode fs p A X :
  kh_ok (vs_heap s) -> kh_fits [sizeof_node; Z.of_nat (length p)] (vs_heap s) ->
  initrd_on s X path p A -> untouched s (Z.of_nat (length p)) X -> Z.land mode O_WRONLY = 0 ->
  ustar_open fs path mode s = Panicked \/
  match find_file p A with
  | None => exists s', ustar_open fs path mode s = Done (error_ptr (- ENOENT), s') /\ vs_nodes s' = vs_nodes s
  | Some f => exists node s', ustar_open fs path mode s = Done (node, s') /\ opened s path mode fs p f X node s'
  end.
Proof using KernelHeapLaws0.
  intros Hok Hfit Hon [U1 U2] Hm. unfold ustar_open. rewrite Hm. cbn [Z.eqb negb].
  destruct (kh_block_outcome _ _ _ Hok Hfit) as [->|(node & h1 & E1)]; [by left|].
  destruct (kh_block_law _ _ _ _ _ Hok Hfit E1) as (Ok1 & Hn0 & Hnl & _ & Mo1 & _ & Bn & _ & Fit1 & K1).
  rewrite E1. cbn [mbind outcome_bind]. cbn beta iota. cbv zeta.
  change (fs_mem (set_heap s h1)) with (kh_mem h1). change (initrd (set_heap s h1)) with (initrd s).
  destruct (Hon (kh_mem h1) (U1 _ _ E1)) as [Hc1 HA1].
  rewrite (open_header_spec _ _ _ p A Hc1 HA1). cbn [mbind outcome_bind].
  destruct (find_file p A) as [f|] eqn:Ef.
  2: { right. eexists. split; [reflexivity|done]. }
  destruct (find_file_in _ _ _ Ef) as [Hf Hpre]. destruct (archive_file _ _ _ _ HA1 Hf) as (Hh0 & _).
  cbn [fmap option_fmap option_map]. change (default 0 (Some (tf_header f))) with (tf_header f).
  rewrite (proj2 (Z.eqb_neq (tf_header f) 0)) by lia. rewrite (strlen_cstr _ _ _ Hc1).
  change (vs_heap (set_heap s h1)) with h1.
  destruct (kh_block_outcome _ _ _ Ok1 Fit1) as [->|(copy & h2 & E2)]; [by left|right].
  destruct (kh_block_law _ _ _ _ _ Ok1 Fit1 E2) as (Ok2 & Hc0 & Hcl & _ & _ & Hz & Bc & Ex & _ & K2).
  rewrite E2. cbn [mbind outcome_bind]. cbn beta iota. cbv zeta.
  change (fs_mem (set_heap (set_heap s h1) h2)) with (kh_mem h2).
  destruct (Hon (kh_mem h2) (fun b Hb => proj1 (U2 _ _ _ _ E1 E2 b Hb))) as [Hc2 HA2].
  destruct (archive_file _ _ _ _ HA2 Hf) as (_ & Hs2 & _). rewrite Hs2.
  destruct (copy_name h2 copy path p Ok2 Bc Ex ltac:(apply Hc2) ltac:(apply Hc2) Hz) as (M1 & M2 & M3).
  set (m3 := memcpy (kh_mem h2) copy path (Z.of_nat (length p))) in *.
  destruct (kh_write_law h2 m3 Ok2 M3) as (Ok3 & _ & Bl3 & Ex3 & _).
  destruct (K2 node Bn) as (Bn2 & _ & _).
  assert (~ kh_block h1 copy) as Hcb1 by (intros Hb; by apply Hcl, kh_block_live).
  assert (~ kh_block (vs_heap s) copy) as Hcb by (intros Hb; by apply Hcb1, K1).
  assert (~ kh_block (vs_heap s) node) as Hnb by (intros Hb; by apply Hnl, kh_block_live).
  eexists node, _. split; [reflexivity|]. split; simpl.
  - exact Ok3.
  - intros a Ha. assert (kh_keeps (vs_heap s) h2) as K by (by etrans). destruct (K a Ha) as (B2 & X2 & Y2).
    rewrite Bl3, Ex3, kh_mem_law by done. split_and!; [done|done|]. intros b Hb. rewrite (M2 b); [by apply Y2|].
    assert (a <> copy) as Hne by (intros ->; done). cbn beta. destruct (kh_disjoint h2 a copy Ok2 B2 Bc Hne); lia.
  - exists copy. split_and!; [done| |by apply Bl3|done|done|intros ->; done].
    unfold fs_mem. simpl. by rewrite kh_mem_law.
  - split_and!; [done|by apply Bl3|done].
  - intros b Hb. unfold fs_mem at 1. simpl. rewrite kh_mem_law. destruct (U2 _ _ _ _ E1 E2 b Hb) as [<- Hout].
    by apply M2.
  - done.
Qed.

(** ** Reading *)

(** The node reads the file [f] of the archive. *)
Record reads s (node : Z) (n : vfs_fs_node) (f : tar_file) : Prop := {
  rd_node : vs_nodes s !! node = Some n;
  rd_header : n_private n = tf_header f;
  rd_size : parse_size_of (fs_mem s) (tf_header f) = Z.of_nat (length (tf_content f));
  rd_bytes : bytes (fs_mem s) (tf_header f + TAR_BLOCK_SIZE) (length (tf_content f)) = tf_content f;
  rd_range : 0 < tf_header f /\ tf_header f + Z.of_nat (length (tf_content f)) + 1024 < 18446744073709551616;
  rd_small : Z.of_nat (length (tf_content f)) < 2147483648
}.

Lemma ustar_read_spec s node n f buffer size :
  reads s node n f -> 0 <= n_seek_position n -> 0 <= size < 2147483648 ->
  let len := Z.of_nat (length (tf_content f)) in
  let k := Z.min len size in
  let source := tf_header f + TAR_BLOCK_SIZE + n_seek_position n in
  ustar_read node buffer size s =
    if n_seek_position n >=? len then Done (- EINVAL, s)
    else Done (k, set_nodes (set_mem s (memcpy (fs_mem s) buffer source k))
           (<[node := set_seek_position (n_seek_position n + k) n]> (vs_nodes s))).
Proof using.
  intros [R1 R2 R3 R4 R5 R6] Hp Hs len k source. unfold ustar_read. rewrite R1. cbn [deref mbind outcome_bind].
  rewrite R2, R3. fold len. rewrite read_size_small by lia. fold k. destruct (n_seek_position n >=? len) eqn:E; [done|].
  rewrite Z.geb_leb in E. apply Z.leb_gt in E. unfold TAR_BLOCK_SIZE in *.
  rewrite (u64_small (tf_header f + 512)), u64_small by lia. rewrite (u64_small (n_seek_position n + k)) by lia.
  rewrite s64_small by lia. done.
Qed.

(** ** Closing *)

Lemma ustar_close_spec s node n :
  kh_ok (vs_heap s) -> vs_nodes s !! node = Some n -> kh_block (vs_heap s) node ->
  kh_block (vs_heap s) (n_path n) -> n_path n <> node -> n_path n <> 0 ->
  exists s', ustar_close node s = Done s' /\ kh_ok (vs_heap s') /\ vs_nodes s' = delete node (vs_nodes s) /\
    ~ kh_block (vs_heap s') node /\
    forall a, kh_block (vs_heap s) a -> a <> node -> a <> n_path n -> kh_block (vs_heap s') a /\
      kh_extent (vs_heap s') a = kh_extent (vs_heap s) a /\
      forall b, a <= b < a + kh_extent (vs_heap s) a -> ld8 (fs_mem s') b = ld8 (fs_mem s) b.
Proof using KernelHeapLaws0.
  intros Hok Hn Hb Hp Hne H0. unfold ustar_close. rewrite Hn. cbn [deref mbind outcome_bind].
  rewrite (proj2 (Z.eqb_neq _ 0)) by done.
  destruct (kh_free_law _ _ Hok Hp) as (h1 & E1 & Ok1 & _ & K1). rewrite E1. cbn [mbind outcome_bind].
  destruct (K1 node Hb ltac:(done)) as (B1 & _ & _).
  destruct (kh_free_law _ _ Ok1 B1) as (h2 & E2 & Ok2 & Hn2 & K2). rewrite E2. cbn [mbind outcome_bind].
  eexists. split; [reflexivity|]. split_and!; [done|done|done|]. intros a Ha Han Hap.
  destruct (K1 a Ha Hap) as (A1 & X1 & Y1). destruct (K2 a A1 Han) as (A2 & X2 & Y2). split_and!; [done|simpl; congruence|].
  intros b Hb'. change (fs_mem (set_nodes (set_heap s h2) _)) with (kh_mem h2). rewrite Y2 by lia. by apply Y1.
Qed.

(** ** Seeking *)

(** The position before it is clamped to the end of the file. *)
Definition seek_target (n : vfs_fs_node) (offset whence : Z) : Z :=
  if whence =? SEEK_SET then offset
  else if whence =? SEEK_CUR then n_seek_position n + offset
  else if whence =? SEEK_END then n_max_seek_position n + offset
  else n_seek_position n.

Lemma ustar_lseek_spec s node n offset whence :
  vs_nodes s !! node = Some n -> 0 <= n_seek_position n <= n_max_seek_position n ->
  n_max_seek_position n < 4611686018427387904 -> -4611686018427387904 <= offset < 4611686018427387904 ->
  let target := seek_target n offset whence in
  let position := if decide (0 <= target <= n_max_seek_position n) then target else n_max_seek_position n in
  ustar_lseek node offset whence s =
    Done (position, set_nodes s (<[node := set_seek_position position n]> (vs_nodes s))).
Proof using.
  intros Hn Hp Hm Ho target position. unfold ustar_lseek. rewrite Hn. cbn [deref mbind outcome_bind].
  assert (Hu : forall z, -9223372036854775808 <= z < 9223372036854775808 ->
    (if u64 z >? n_max_seek_position n then n_max_seek_position n else u64 z) =
    if decide (0 <= z <= n_max_seek_position n) then z else n_max_seek_position n).
  { intros z Hz. rewrite Z.gtb_ltb. unfold u64. case_decide.
    - rewrite Z.mod_small by lia. btest; lia.
    - destruct (Z.leb_spec 0 z); [rewrite Z.mod_small by lia; btest; lia|].
      rewrite <- (Z.mod_add z 1), Z.mod_small by lia. btest; lia. }
  assert ((let q := if whence =? SEEK_SET then u64 offset
      else if whence =? SEEK_CUR then n_seek_position n +w offset
      else if whence =? SEEK_END then n_max_seek_position n +w offset
      else n_seek_position n in
    if q >? n_max_seek_position n then n_max_seek_position n else q) = position) as E.
  { unfold position, target, seek_target. cbv zeta.
    destruct (whence =? SEEK_SET); [apply Hu; lia|]. destruct (whence =? SEEK_CUR); [apply Hu; lia|].
    destruct (whence =? SEEK_END); [apply Hu; lia|]. rewrite Z.gtb_ltb. rewrite decide_True by done. btest; lia. }
  cbv zeta in E |- *. rewrite E. rewrite s64_small; [done|]. unfold position. case_decide; lia.
Qed.
End Operations.
