(* ===== verification/TarImage.v ===== *)
(** The initial ram disk, continued: archives as [tar] writes them, the proof
    that the walk of [ustar.c] reads them back, a concrete archive in the heap,
    and the properties. *)

From S2P Require Import Prelude Memory Libc Spinlock PageAllocator PageAllocatorSpec PageTable BlockAllocator BlockAllocatorSpec KernelHeap Paths Vfs VfsSpec Ustar UstarSpec.

(** * The archive format *)

(** What [tar] stores of a file: its name, the 24 bytes of the mode and the owners,
    the content, and the 377 bytes of the header after the digits of the size: the
    end of that field, the time, the checksum, the type, the magic and so on. *)
Record tar_member := Member {
  tm_name : list Z;
  tm_owner : list Z;
  tm_content : list Z;
  tm_rest : list Z
}.

(** A header: the name after ["./"] in a field of 100 bytes, and the size as eleven
    octal digits at offset 124. *)
Definition tar_header_bytes (f : tar_member) : list Z :=
  (46 :: 47 :: tm_name f) ++ replicate (98 - length (tm_name f)) 0 ++ tm_owner f ++
  octal (Z.of_nat (length (tm_content f))) 11 ++ tm_rest f.

Definition tar_padding (n : Z) : nat := Z.to_nat ((- n) mod 512).

(** The content is padded to whole blocks. *)
Definition tar_entry (f : tar_member) : list Z :=
  tar_header_bytes f ++ tm_content f ++ replicate (tar_padding (Z.of_nat (length (tm_content f)))) 0.

(** An archive ends with two blocks of zeros. *)
Definition tar_image (files : list tar_member) : list Z := concat (map tar_entry files) ++ replicate 1024 0.

(** The files with the addresses of their headers, the first one at [a]. *)
Fixpoint placed (a : Z) (files : list tar_member) : list tar_file :=
  match files with
  | [] => []
  | f :: files' => TarFile a (tm_name f) (tm_content f) :: placed (a + Z.of_nat (length (tar_entry f))) files'
  end.

(** Names are strings of at most 97 characters, and the size is ended by a zero or
    a space.  The other bytes of the header are arbitrary. *)
Record tar_member_ok (f : tar_member) : Prop := {
  to_name : (length (tm_name f) <= 97)%nat /\ Forall (fun c => c <> 0) (tm_name f);
  to_owner : length (tm_owner f) = 24%nat;
  to_size : Z.of_nat (length (tm_content f)) < 8589934592;
  to_rest : length (tm_rest f) = 377%nat;
  to_end : head (tm_rest f) = Some 0 \/ head (tm_rest f) = Some 32
}.

Definition tar_files (files : list tar_member) : Prop := Forall tar_member_ok files.

(** * Memory that holds a list *)

Definition holds (m : mem) (a : Z) (l : list Z) : Prop := bytes m a (length l) = l.

Lemma holds_app m a l1 l2 : holds m a (l1 ++ l2) <-> holds m a l1 /\ holds m (a + Z.of_nat (length l1)) l2.
Proof.
  unfold holds. rewrite length_app, bytes_app. split; [|intros [-> ->]; done].
  intros E. apply app_inj_1 in E; [done|]. by rewrite length_bytes.
Qed.

Lemma holds_cons m a c l : holds m a (c :: l) <-> ld8 m a = c /\ holds m (a + 1) l.
Proof. unfold holds. cbn [length bytes]. split; [by intros [= ? ?]|intros [-> ->]; done]. Qed.

Lemma holds_ext m m' a l : (forall b, a <= b < a + Z.of_nat (length l) -> ld8 m' b = ld8 m b) ->
  holds m a l -> holds m' a l.
Proof. intros He. unfold holds. by rewrite (bytes_ext m m' _ _ He). Qed.

Lemma length_tar_header f : tar_member_ok f -> length (tar_header_bytes f) = 512%nat.
Proof.
  intros [[Hn _] Ho _ Hr _]. unfold tar_header_bytes. rewrite !length_app, !length_replicate, length_octal, Ho, Hr. cbn [length]. lia.
Qed.

Lemma tar_entry_length f : tar_member_ok f ->
  Z.of_nat (length (tar_entry f)) = tar_real_size (Z.of_nat (length (tm_content f))).
Proof.
  intros Hf. pose proof (to_size f Hf) as Hs. unfold tar_entry, tar_padding. rewrite !length_app, length_replicate, length_tar_header by done.
  set (n := Z.of_nat (length (tm_content f))) in *. unfold tar_real_size, TAR_BLOCK_SIZE. cbv zeta. rewrite u64_small by lia.
  destruct (Z.eqb_spec ((n + 512) mod 512) 0); cbn [negb]; [|rewrite u64_small by zlia]; zlia.
Qed.

(** * Reading a header back *)

Lemma header_size m a f :
  holds m a (tar_header_bytes f) -> tar_member_ok f -> parse_size_of m a = Z.of_nat (length (tm_content f)).
Proof.
  unfold tar_header_bytes. intros Hh [[Hl _] Ho Hn Hr He]. apply holds_app in Hh as [_ Hh]. apply holds_app in Hh as [_ Hh].
  apply holds_app in Hh as [_ Hh]. rewrite length_replicate, Ho in Hh. cbn [length] in Hh.
  replace (a + Z.of_nat (S (S (length (tm_name f)))) + Z.of_nat (98 - length (tm_name f)) + Z.of_nat 24) with (a + 124) in Hh by lia.
  apply holds_app in Hh as [Hd Hz]. rewrite length_octal in Hz. unfold parse_size_of, off_tar_size.
  set (n := Z.of_nat (length (tm_content f))) in *.
  rewrite (parse_digits_snoc m 11), (parse_digits_octal m 11 (a + 124) n 0).
  - destruct (tm_rest f) as [|c rest]; [done|]. apply holds_cons in Hz as [Hz _].
    cbn [parse_digits]. rewrite Hz. destruct He as [[= ->]|[= ->]]; done.
  - unfold holds in Hd. by rewrite length_octal in Hd.
  - split; [lia|]. by apply Hn.
  - lia.
  - lia.
Qed.

Lemma header_name m a f :
  holds m a (tar_header_bytes f) -> tar_member_ok f -> cstr m a (46 :: 47 :: tm_name f).
Proof.
  unfold tar_header_bytes. intros Hh [[Hl Hc] _ _ _ _]. apply holds_app in Hh as [Hn Hz]. split_and!.
  - exact Hn.
  - destruct (98 - length (tm_name f))%nat as [|k] eqn:Ek; [lia|]. cbn [replicate app] in Hz.
    by apply holds_cons in Hz as [Hz _].
  - constructor; [done|]. constructor; [done|exact Hc].
Qed.

(** An image in memory is an archive. *)
Lemma tar_image_archive m files : forall a,
  0 < a -> holds m a (tar_image files) -> tar_files files ->
  a + Z.of_nat (length (tar_image files)) + 1024 < 18446744073709551616 ->
  archive m a (placed a files).
Proof.
  induction files as [|f files IH]; intros a Ha Hm Hf Hr; cbn [placed archive].
  - change (tar_image []) with (0 :: replicate 1023 0) in Hm. by apply holds_cons in Hm as [Hm _].
  - apply Forall_cons in Hf as [Hok Hf]. pose proof (to_size f Hok) as Hs.
    assert (tar_image (f :: files) = tar_entry f ++ tar_image files) as Ei.
    { unfold tar_image. cbn [map concat]. by rewrite app_assoc. }
    rewrite Ei in Hm, Hr. rewrite length_app, Nat2Z.inj_add, tar_entry_length in Hr by done.
    apply holds_app in Hm as [He Hm]. rewrite tar_entry_length in Hm |- * by done. cbn [tf_header tf_name tf_content].
    unfold tar_entry in He. apply holds_app in He as [Hh Hc]. rewrite length_tar_header in Hc by done.
    apply holds_app in Hc as [Hc _]. pose proof (real_size_spec (Z.of_nat (length (tm_content f)))) as [Hrs _]; [lia|lia|].
    split_and!; [done|done|by eapply header_name|by eapply header_size|exact Hc|lia|].
    apply IH; [lia|done|done|lia].
Qed.

(** The content of the first file whose name starts with the path. *)
Fixpoint lookup_file (p : list Z) (files : list tar_member) : option (list Z) :=
  match files with
  | [] => None
  | f :: files' => if decide (p `prefix_of` tm_name f) then Some (tm_content f) else lookup_file p files'
  end.

Lemma find_file_placed p files : forall a, tf_content <$> find_file p (placed a files) = lookup_file p files.
Proof. induction files as [|f files IH]; intros a; cbn; [done|]. case_decide; [done|apply IH]. Qed.

(** * Opening and reading a file of an image *)

Section Image.
Context {H : Type} `{!KernelHeap H} `{!KernelHeapLaws H}.
Implicit Types s : vfs_state H.

(** The bytes [X] hold the image, one block after [initrd], and the path. *)
Record image_on s (X : Z -> Prop) (path : Z) (p : list Z) (files : list tar_member) : Prop := {
  im_path : cstr (fs_mem s) path p;
  im_image : holds (fs_mem s) (initrd s + TAR_BLOCK_SIZE) (tar_image files);
  im_files : tar_files files;
  im_range : 0 <= initrd s /\
    initrd s + TAR_BLOCK_SIZE + Z.of_nat (length (tar_image files)) + 1024 < 18446744073709551616;
  im_path_bytes : forall b, path <= b <= path + Z.of_nat (length p) -> X b;
  im_image_bytes : forall b, 0 <= b - (initrd s + TAR_BLOCK_SIZE) < Z.of_nat (length (tar_image files)) -> X b
}.

Lemma image_on_mem s X path p files m :
  image_on s X path p files -> (forall b, X b -> ld8 m b = ld8 (fs_mem s) b) ->
  cstr m path p /\ holds m (initrd s + TAR_BLOCK_SIZE) (tar_image files).
Proof using.
  intros [I1 I2 I3 I4 I5 I6] He. split.
  - apply (cstr_ext (fs_mem s)); [|done]. intros b Hb. apply He, I5. lia.
  - apply (holds_ext (fs_mem s)); [|done]. intros b Hb. apply He, I6. lia.
Qed.

Lemma image_on_initrd s X path p files :
  image_on s X path p files -> initrd_on s X path p (placed (initrd s + TAR_BLOCK_SIZE) files).
Proof using.
  intros I m He. destruct (image_on_mem _ _ _ _ _ m I He) as [H1 H2]. destruct I as [I1 I2 I3 I4 I5 I6].
  unfold TAR_BLOCK_SIZE in *. rewrite u64_small by lia. split; [done|]. apply tar_image_archive; [lia|done|done|lia].
Qed.

(** Bytes of blocks are left alone by the two allocations of [ustar_open]. *)
Lemma untouched_block s n X :
  kh_ok (vs_heap s) -> kh_fits [sizeof_node; n] (vs_heap s) -> (forall b, X b -> kh_data (vs_heap s) b) ->
  untouched s n X.
Proof using KernelHeapLaws0.
  intros Hok Hfit HX. split.
  - intros p1 h1 E1 b (a & Ha & Hb)%HX.
    destruct (kh_block_law _ _ _ _ _ Hok Hfit E1) as (_ & _ & _ & _ & _ & _ & _ & _ & _ & K1). by apply (K1 a).
  - intros p1 h1 p2 h2 E1 E2 b (a & Ha & Hb)%HX.
    destruct (kh_block_law _ _ _ _ _ Hok Hfit E1) as (Ok1 & _ & _ & _ & _ & _ & _ & _ & Fit1 & K1).
    destruct (kh_block_law _ _ _ _ _ Ok1 Fit1 E2) as (Ok2 & _ & Hl & _ & _ & _ & B2 & X2 & _ & K2).
    destruct (K1 a Ha) as (A1 & Y1 & _). destruct (K2 a A1) as (A2 & Y2 & _).
    assert (kh_keeps (vs_heap s) h2) as K by (by etrans). destruct (K a Ha) as (_ & _ & M2).
    split; [by apply M2|]. assert (a <> p2) as Hne by (intros ->; by apply Hl, kh_block_live).
    destruct (kh_disjoint h2 a p2 Ok2 A2 B2 Hne); lia.
Qed.

(** What [open] followed by [read] does for a file of [content]. *)
Definition reads_back s (fs path mode buffer size : Z) (content : list Z) : Prop :=
  exists node s1, ustar_open fs path mode s = Done (node, s1) /\
    match content with
    | [] => ustar_read node buffer size s1 = Done (- EINVAL, s1)
    | _ => exists s2, ustar_read node buffer size s1 = Done (Z.of_nat (length content), s2) /\
        holds (fs_mem s2) buffer content /\
        ustar_read node buffer size s2 = Done (- EINVAL, s2)
    end.

(** A node of a file reads it as long as the image is in memory. *)
Lemma image_reads s a node n f files :
  0 < a -> a + Z.of_nat (length (tar_image files)) + 1024 < 18446744073709551616 -> tar_files files ->
  holds (fs_mem s) a (tar_image files) -> f ∈ placed a files ->
  vs_nodes s !! node = Some n -> n_private n = tf_header f -> Z.of_nat (length (tf_content f)) < 2147483648 ->
  reads s node n f.
Proof using.
  intros Ha Hr Hfs Hh Hf Hn Hp Hs. pose proof (tar_image_archive _ _ _ Ha Hh Hfs Hr) as HA.
  destruct (archive_file _ _ _ _ HA Hf) as (F1 & F2 & F3 & F4). by split.
Qed.

(** The contents of the files are bytes of the image. *)
Lemma placed_content_bytes files : forall a f, tar_files files -> f ∈ placed a files ->
  a <= tf_header f /\
  tf_header f + TAR_BLOCK_SIZE + Z.of_nat (length (tf_content f)) <= a + Z.of_nat (length (tar_image files)).
Proof using.
  clear. induction files as [|g files IH]; intros a f Hf Hin; cbn [placed] in Hin; [by apply elem_of_nil in Hin|].
  apply Forall_cons in Hf as [Hok Hf]. unfold tar_image. cbn [map concat]. rewrite <- app_assoc, length_app.
  rewrite Nat2Z.inj_add. apply elem_of_cons in Hin as [-> | Hin]; cbn [tf_header tf_content].
  - unfold tar_entry. rewrite !length_app, length_tar_header by done. unfold TAR_BLOCK_SIZE. lia.
  - destruct (IH _ f Hf Hin) as [H1 H2]. unfold tar_image in H2. lia.
Qed.

Lemma fs_mem_set s m ns : fs_mem (set_nodes (set_mem s m) ns) = m.
Proof using KernelHeapLaws0. unfold fs_mem. simpl. apply kh_mem_law. Qed.

Lemma read_back s fs path mode buffer size p files content X :
  kh_ok (vs_heap s) -> kh_fits [sizeof_node; Z.of_nat (length p)] (vs_heap s) ->
  image_on s X path p files -> untouched s (Z.of_nat (length p)) X -> Z.land mode O_WRONLY = 0 ->
  buffer + size <= initrd s \/ initrd s + TAR_BLOCK_SIZE + Z.of_nat (length (tar_image files)) <= buffer ->
  lookup_file p files = Some content -> Z.of_nat (length content) <= size < 2147483648 ->
  ustar_open fs path mode s = Panicked \/ reads_back s fs path mode buffer size content.
Proof using KernelHeapLaws0.
  intros Hok Hfit I U Hm Hbuf Hl Hs. pose proof I as [_ _ I3 I4 _ _].
  destruct (ustar_open_spec s path mode fs p _ X Hok Hfit (image_on_initrd _ _ _ _ _ I) U Hm) as [E|E]; [by left|right].
  rewrite <- (find_file_placed _ _ (initrd s + TAR_BLOCK_SIZE)) in Hl.
  destruct (find_file p (placed (initrd s + TAR_BLOCK_SIZE) files)) as [f|] eqn:Ef; [|done].
  injection Hl as Hc. destruct E as (node & s1 & E & O). destruct (find_file_in _ _ _ Ef) as [Hf _].
  destruct (placed_content_bytes _ _ _ I3 Hf) as [Hlo Hhi]. destruct (image_on_mem _ _ _ _ _ _ I (op_bytes _ _ _ _ _ _ _ _ _ O)) as [_ Hh1].
  destruct (op_nodes _ _ _ _ _ _ _ _ _ O) as (copy & Hn1 & _). set (n1 := Node copy _ _ _ _ _ _ _) in Hn1.
  unfold TAR_BLOCK_SIZE in *.
  assert (reads s1 node n1 f) as R1.
  { eapply (image_reads s1 (initrd s + 512) node n1 f files); try done; [lia|lia|by rewrite Hn1, lookup_insert_eq|rewrite Hc; lia]. }
  exists node, s1. split; [done|]. pose proof (ustar_read_spec s1 node n1 f buffer size R1) as Er. cbv zeta in Er.
  rewrite Hc in *. rewrite Er by (simpl; lia). change (n_seek_position n1) with 0. rewrite Z.add_0_r, Z.min_l by lia.
  destruct content as [|c content]; [done|]. rewrite Z.geb_leb, (proj2 (Z.leb_gt (Z.of_nat (length (c :: content))) 0)) by (cbn [length]; lia).
  set (len := Z.of_nat (length (c :: content))) in *. unfold TAR_BLOCK_SIZE.
  set (m2 := memcpy (fs_mem s1) buffer (tf_header f + 512) len).
  destruct (bytes_memcpy (fs_mem s1) buffer (tf_header f + 512) len) as [M1 M2]; [lia|lia|]. fold m2 in M1, M2.
  eexists _. split_and!; [reflexivity| |].
  - unfold holds. rewrite fs_mem_set. replace (length (c :: content)) with (Z.to_nat len) by (unfold len; lia).
    rewrite M1. unfold len. rewrite Nat2Z.id, <- Hc at 1. rewrite <- Hc. apply (rd_bytes _ _ _ _ R1).
  - set (s2 := set_nodes _ _). assert (reads s2 node (set_seek_position len n1) f) as R2.
    { eapply (image_reads s2 (initrd s + 512) node _ f files); try done; [lia|lia| | |rewrite Hc; lia].
      - unfold s2. rewrite fs_mem_set. apply (holds_ext (fs_mem s1)); [|done]. intros b Hb. apply M2. lia.
      - apply lookup_insert_eq. }
    pose proof (ustar_read_spec s2 node _ f buffer size R2) as Er2. cbv zeta in Er2. rewrite Hc in Er2.
    rewrite Er2 by (simpl; lia). simpl n_seek_position. fold len. rewrite Z.geb_leb, Z.leb_refl.
    done.
Qed.
End Image.

(** * A concrete archive *)

Lemma put_holds l : forall m p, Forall (fun c => 0 <= c < 256) l ->
  holds (put m p l) p l /\ changes (fun b => p <= b < p + Z.of_nat (length l)) m (put m p l).
Proof.
  induction l as [|c l IH]; intros m p Hl; cbn [put]; [done|].
  apply Forall_cons in Hl as [Hc Hl]. destruct (IH (st8 m p c) (p + 1) Hl) as [H1 H2]. cbn [length]. split.
  - apply holds_cons. split; [|done]. rewrite (H2 p), ld8_st8, decide_True by (lia || done).
    unfold u8. apply Z.mod_small. lia.
  - apply (changes_trans _ m (st8 m p c)).
    + apply changes_st8; [done|cbn beta; lia].
    + eapply changes_mono; [|exact H2]. intros b. cbn beta. lia.
Qed.

(** The root entry, the image and a path, as one block. *)
Definition initrd_text (files : list tar_member) (p : list Z) : list Z :=
  replicate 512 0 ++ tar_image files ++ p ++ [0].

Section Demo.
Context {H : Type} `{!KernelHeap H} `{!KernelHeapLaws H}.

Definition demo_initrd (text : list Z) (h : H) : outcome (vfs_state H) :=
  '(q, h) ← kh_block_allocate (Z.of_nat (length text)) h;
  Done (Vfs (kh_with_mem h (put (kh_mem h) q text)) ∅ ∅ 0 false q).

Lemma demo_initrd_text text h s l :
  kh_ok h -> kh_fits (Z.of_nat (length text) :: l) h -> Forall (fun c => 0 <= c < 256) text ->
  demo_initrd text h = Done s ->
  kh_ok (vs_heap s) /\ kh_fits l (vs_heap s) /\ 0 < initrd s /\ holds (fs_mem s) (initrd s) text /\
  forall b, initrd s <= b < initrd s + Z.of_nat (length text) -> kh_data (vs_heap s) b.
Proof using KernelHeapLaws0.
  intros Hok Hfit Hc E. unfold demo_initrd in E. apply bind_done_inv in E as ([q h1] & E1 & E). injection E as <-.
  destruct (kh_block_law _ _ _ _ _ Hok Hfit E1) as (Ok1 & Hq0 & _ & _ & _ & _ & Bq & Eq & Fit1 & _).
  destruct (put_holds text (kh_mem h1) q Hc) as [P1 P2].
  assert (changes (kh_data h1) (kh_mem h1) (put (kh_mem h1) q text)) as P3.
  { eapply changes_mono; [|exact P2]. intros b Hb. cbn beta in Hb. exists q. split; [exact Bq|lia]. }
  destruct (kh_write_law h1 _ Ok1 P3) as (Ok3 & _ & Bl3 & Ex3 & Fit3).
  destruct (kh_range h1 q Ok1 Bq) as (Q1 & _ & _). split_and!; cbn [initrd vs_heap].
  - exact Ok3.
  - by apply Fit3.
  - done.
  - unfold fs_mem. cbn [vs_heap]. by rewrite kh_mem_law.
  - intros b Hb. exists q. split; [by apply Bl3|]. rewrite (Ex3 q Bq). lia.
Qed.

Lemma initrd_image files p s :
  tar_files files -> Forall (fun c => c <> 0) p -> 0 < initrd s < 4294967296 ->
  Z.of_nat (length (initrd_text files p)) < 1048576 ->
  holds (fs_mem s) (initrd s) (initrd_text files p) ->
  (forall b, initrd s <= b < initrd s + Z.of_nat (length (initrd_text files p)) -> kh_data (vs_heap s) b) ->
  image_on s (kh_data (vs_heap s)) (initrd s + TAR_BLOCK_SIZE + Z.of_nat (length (tar_image files))) p files.
Proof using.
  unfold initrd_text. intros Hf Hp Hi Hl Hh Hd. rewrite !length_app, length_replicate in *. cbn [length] in *.
  apply holds_app in Hh as [_ Hh]. rewrite length_replicate in Hh.
  apply holds_app in Hh as [Pi Hh]. apply holds_app in Hh as [Pp Pz]. apply holds_cons in Pz as [Pz _].
  change (Z.of_nat 512) with TAR_BLOCK_SIZE in *. unfold TAR_BLOCK_SIZE in *.
  split; unfold TAR_BLOCK_SIZE; [done|done|done|lia|..]; intros b Hb; apply Hd; lia.
Qed.
End Demo.

#[local] Existing Instance demo_source.
#[local] Existing Instance demo_source_laws.

(** The rest of the header of a regular file in the format of GNU tar: the time, the
    checksum, the type, no link, the magic and empty fields. *)
Definition demo_rest : list Z :=
  [0] ++ [49; 52; 55; 48; 48; 48; 48; 48; 48; 48; 48; 0] ++ [48; 49; 48; 54; 53; 51; 0; 32] ++ [48] ++ replicate 100 0 ++
  [117; 115; 116; 97; 114; 32; 32; 0] ++ replicate 247 0.

(** "0000644", "0001750" and "0001750", each with a terminator. *)
Definition demo_owner : list Z :=
  [48; 48; 48; 48; 54; 52; 52; 0] ++ [48; 48; 48; 49; 55; 53; 48; 0] ++ [48; 48; 48; 49; 55; 53; 48; 0].

Definition demo_member (name content : list Z) : tar_member := Member name demo_owner content demo_rest.

(** ["a"] with the content [1 2 3] and the empty file ["bcdefghijklmnopqrs"]. *)
Definition demo_files : list tar_member :=
  [demo_member [97] [1; 2; 3]; demo_member [98; 99; 100; 101; 102; 103; 104; 105; 106; 107; 108; 109; 110; 111; 112; 113; 114; 115] []].

Lemma demo_files_ok : tar_files demo_files.
Proof.
  constructor; [|constructor; [|constructor]]; (split; [split; [apply (bool_decide_unpack _); vm_compute; exact I|repeat constructor; discriminate]
    |reflexivity|reflexivity|reflexivity|by left]).
Qed.

(** ["a"]. *)
Definition demo_path : list Z := [97].

(** ["bcdefghijklmnopq"], 16 characters. *)
Definition demo_path16 : list Z := [98; 99; 100; 101; 102; 103; 104; 105; 106; 107; 108; 109; 110; 111; 112; 113].

Definition is_undef {A} (o : outcome A) : bool := match o with Undef => true | _ => false end.

Lemma demo_tar_ready : exists table s,
  @kh_ok _ (ba_heap 0 table) (vs_heap s) /\ @kh_fits _ (ba_heap 0 table) [sizeof_node; 1] (vs_heap s) /\
  @image_on _ (ba_heap 0 table) s (@kh_data _ (ba_heap 0 table) (vs_heap s))
    (initrd s + TAR_BLOCK_SIZE + Z.of_nat (length (tar_image demo_files))) demo_path demo_files /\
  is_done (@ustar_open _ (ba_heap 0 table) 1000
    (initrd s + TAR_BLOCK_SIZE + Z.of_nat (length (tar_image demo_files))) O_RDONLY s) = true /\ initrd s < 0x80000000.
Proof.
  assert (is_done ('(table, h) ← demo_boot; s ← @demo_initrd _ (ba_heap 0 table) (initrd_text demo_files demo_path) h;
    if (initrd s <? 0x80000000) && is_done (@ustar_open _ (ba_heap 0 table) 1000
      (initrd s + TAR_BLOCK_SIZE + Z.of_nat (length (tar_image demo_files))) O_RDONLY s)
    then Done tt else Undef) = true) as H by (vm_compute; reflexivity).
  destruct demo_heap as (table & h & E & Hl & Hc & W). rewrite E in H. cbn [mbind outcome_bind] in H.
  apply is_done_bind in H as (s & E2 & H). destruct (initrd s <? 0x80000000) eqn:Ei; [|discriminate H].
  apply Z.ltb_lt in Ei. cbn [andb] in H. destruct (is_done (ustar_open _ _ _ _)) eqn:E4; [|discriminate H].
  destruct (@demo_initrd_text _ (ba_heap 0 table) (ba_heap_laws 0 table hhdm_ok_0) (initrd_text demo_files demo_path) h s
    [sizeof_node; 1]) as (H1 & H2 & H3 & H4 & H5).
  - split; [exact Hl|]. exists [block_allocator_virtual_base h], []. exact W.
  - split; [repeat constructor; vm_compute; congruence|]. split; rewrite Hc; vm_compute; congruence.
  - apply Forall_forall. intros c Hc'. assert (forallb (fun c => (0 <=? c) && (c <? 256)) (initrd_text demo_files demo_path) = true) as Hb
      by (vm_compute; reflexivity). rewrite forallb_forall in Hb. specialize (Hb c ltac:(by apply list_elem_of_In)). lia.
  - exact E2.
  - exists table, s. split; [exact H1|]. split; [exact H2|]. split; [|split; [exact E4|exact Ei]].
    apply initrd_image; [exact demo_files_ok|repeat constructor; discriminate|lia| |exact H4|exact H5].
    vm_compute. reflexivity.
Qed.

(** * Properties *)

(** C21. On the image that tar writes for a list of files, whatever the bytes of the headers
    besides the name and the size are, ustar_open_header terminates with the header of the first
    file whose name starts with the path, whose size field and content read back what was
    written, or with null when there is none. *)
Theorem tar_lookup_roundtrip (m : mem) (initrd path : Z) (p : list Z) (files : list tar_member) :
  0 <= initrd -> holds m (initrd + TAR_BLOCK_SIZE) (tar_image files) -> tar_files files ->
  initrd + TAR_BLOCK_SIZE + Z.of_nat (length (tar_image files)) + 1024 < 18446744073709551616 ->
  cstr m path p ->
  exists header, ustar_open_header m initrd path = Done header /\
    match lookup_file p files with
    | Some content => header <> 0 /\ parse_size_of m header = Z.of_nat (length content) /\
        holds m (header + TAR_BLOCK_SIZE) content
    | None => header = 0
    end.
Proof.
  intros Hi Hh Hf Hr Hp. assert (archive m (initrd + TAR_BLOCK_SIZE) (placed (initrd + TAR_BLOCK_SIZE) files)) as HA.
  { apply tar_image_archive; [unfold TAR_BLOCK_SIZE; lia|done|done|lia]. }
  eexists. split.
  - apply (open_header_spec m initrd path p); [done|]. unfold TAR_BLOCK_SIZE in *. rewrite u64_small by lia. exact HA.
  - rewrite <- (find_file_placed p files (initrd + TAR_BLOCK_SIZE)).
    destruct (find_file p _) as [f|] eqn:Ef; [|done]. destruct (find_file_in _ _ _ Ef) as [Hin _].
    destruct (archive_file _ _ _ _ HA Hin) as (F1 & F2 & F3 & _). simpl. split_and!; [lia|done|done].
Qed.

Lemma tar_lookup_roundtrip_witness :
  exists m header, ustar_open_header m 4096 (4096 + 512 + Z.of_nat (length (tar_image demo_files))) = Done header /\
    parse_size_of m header = 3 /\ holds m (header + TAR_BLOCK_SIZE) [1; 2; 3].
Proof.
  exists (put ∅ 4096 (initrd_text demo_files demo_path)).
  destruct (tar_lookup_roundtrip (put ∅ 4096 (initrd_text demo_files demo_path)) 4096
    (4096 + 512 + Z.of_nat (length (tar_image demo_files))) demo_path demo_files) as (header & E & _ & H1 & H2).
  - lia.
  - vm_compute. reflexivity.
  - exact demo_files_ok.
  - vm_compute. reflexivity.
  - split_and!; [vm_compute; reflexivity|vm_compute; reflexivity|repeat constructor; discriminate].
  - exists header. split_and!; assumption.
Defined.

(** C7. On an archive in the format that tar writes, whatever owners, times, checksums, types
    and magic its headers hold, ustar_open followed by ustar_read of at least the size of the
    file puts the content of the first file whose name starts with the path into the buffer and
    returns its length, and the next read gives EINVAL; ustar_open runs out of memory or gives
    ENOENT when there is no such file. A read of an empty file gives EINVAL. *)
Theorem ustar_open_read {H} `{!KernelHeap H} `{!KernelHeapLaws H} (s : vfs_state H) (X : Z -> Prop)
    (fs path mode buffer size : Z) (p : list Z) (files : list tar_member) :
  kh_ok (vs_heap s) -> kh_fits [sizeof_node; Z.of_nat (length p)] (vs_heap s) ->
  image_on s X path p files -> untouched s (Z.of_nat (length p)) X -> Z.land mode O_WRONLY = 0 ->
  buffer + size <= initrd s \/ initrd s + TAR_BLOCK_SIZE + Z.of_nat (length (tar_image files)) <= buffer ->
  (forall content, lookup_file p files = Some content -> Z.of_nat (length content) <= size) -> size < 2147483648 ->
  ustar_open fs path mode s = Panicked \/
  match lookup_file p files with
  | Some content => reads_back s fs path mode buffer size content
  | None => exists s', ustar_open fs path mode s = Done (error_ptr (- ENOENT), s') /\ vs_nodes s' = vs_nodes s
  end.
Proof.
  intros Hok Hfit I U Hm Hbuf Hs Hb. destruct (lookup_file p files) as [content|] eqn:El.
  - eapply read_back; try done. specialize (Hs content eq_refl). lia.
  - destruct (ustar_open_spec s path mode fs p _ X Hok Hfit (image_on_initrd _ _ _ _ _ I) U Hm) as [E|E]; [by left|right].
    rewrite <- (find_file_placed _ _ (initrd s + TAR_BLOCK_SIZE)) in El.
    by destruct (find_file p (placed (initrd s + TAR_BLOCK_SIZE) files)).
Qed.

Lemma ustar_open_read_witness :
  exists table s path, @reads_back _ (ba_heap 0 table) s 1000 path O_RDONLY 0x90000000 3 [1; 2; 3].
Proof.
  destruct demo_tar_ready as (table & s & H1 & H2 & H3 & H4 & H5). exists table, s.
  exists (initrd s + TAR_BLOCK_SIZE + Z.of_nat (length (tar_image demo_files))).
  destruct (@ustar_open_read _ (ba_heap 0 table) (ba_heap_laws 0 table hhdm_ok_0) s _ 1000
    _ O_RDONLY 0x90000000 3 demo_path demo_files H1 H2 H3) as [E|E].
  - apply (@untouched_block _ (ba_heap 0 table) (ba_heap_laws 0 table hhdm_ok_0)); [exact H1|exact H2|]. intros b Hb; exact Hb.
  - reflexivity.
  - right. change (Z.of_nat (length (tar_image demo_files))) with 2560. unfold TAR_BLOCK_SIZE. lia.
  - change (lookup_file demo_path demo_files) with (Some [1; 2; 3]). intros content [= <-]. reflexivity.
  - reflexivity.
  - exfalso. rewrite E in H4. discriminate H4.
  - exact E.
Defined.

(** ustar_lseek moves to the target when it is inside the file, to the end when it is behind the
    end, and also to the end when the target is negative. *)
Theorem ustar_lseek_clamps {H} `{!KernelHeap H} (s : vfs_state H) (node : Z) (n : vfs_fs_node) (offset whence : Z) :
  vs_nodes s !! node = Some n -> 0 <= n_seek_position n <= n_max_seek_position n ->
  n_max_seek_position n < 4611686018427387904 -> -4611686018427387904 <= offset < 4611686018427387904 ->
  exists position s', ustar_lseek node offset whence s = Done (position, s') /\
    0 <= position <= n_max_seek_position n /\
    vs_nodes s' = <[node := set_seek_position position n]> (vs_nodes s) /\ fs_mem s' = fs_mem s /\
    (0 <= seek_target n offset whence -> position = Z.min (seek_target n offset whence) (n_max_seek_position n)) /\
    (seek_target n offset whence < 0 -> position = n_max_seek_position n).
Proof.
  intros Hn Hp Hm Ho. eexists _, _. split; [by apply (ustar_lseek_spec s node n)|]. case_decide; split_and!; (done || lia).
Qed.

Lemma ustar_lseek_clamps_witness :
  exists s', ustar_lseek 8 (-1) SEEK_SET
    (Vfs (BA table_state 0 0 0 0 false) {[8 := Node 16 1 0 2 3 false 1 4096]} ∅ 0 false 0) = Done (3, s').
Proof.
  destruct (@ustar_lseek_clamps _ (ba_heap 0 0)
    (Vfs (BA table_state 0 0 0 0 false) {[8 := Node 16 1 0 2 3 false 1 4096]} ∅ 0 false 0) 8
    (Node 16 1 0 2 3 false 1 4096) (-1) SEEK_SET) as (position & s' & E & _ & _ & _ & _ & Hneg).
  - apply lookup_singleton_eq.
  - simpl. lia.
  - simpl. lia.
  - lia.
  - exists s'. rewrite E. rewrite Hneg by (vm_compute; reflexivity). reflexivity.
Defined.

(** A file opened by a path of 16 characters cannot be duplicated: the copy of the path has no
    terminator, the bytes after it belong to the next block, the lookup fails and the error
    pointer is dereferenced. *)
Theorem ustar_dup_unterminated :
  match
    '(table, h) ← demo_boot;
    s ← @demo_initrd _ (ba_heap 0 table) (initrd_text demo_files demo_path16) h;
    '(node, s) ← @ustar_open _ (ba_heap 0 table) 1000
      (initrd s + TAR_BLOCK_SIZE + Z.of_nat (length (tar_image demo_files))) O_RDONLY s;
    Done (table, node, s)
  with
  | Done (table, node, s) =>
      bool_decide (is_Some (vs_nodes s !! node)) && is_undef (@ustar_dup _ (ba_heap 0 table) node s)
  | _ => false
  end = true.
Proof. vm_compute. reflexivity. Qed.
