(* ===== verification/Syscalls.v ===== *)
(** The system calls, [syscalls/sys_*.c] and [syscalls/helpers.h], over the
    scheduler, the file systems and the page tables.

    The state is that of the scheduler whose heap is the state of the file
    systems.  Memory is indexed by virtual addresses: its lower half is that of
    the calling task.  A call that yields is given what the other tasks do until
    the caller runs again, one function per yield; when they are used up the
    call is still waiting.  The traces of the calls are output. *)

From S2P Require Import Prelude Memory Libc Spinlock PageAllocator PageAllocatorSpec PageTable AddressSpace Paths KernelHeap Scheduler Vfs.

(** * Task fields *)

Definition set_t_fds (count max translation pages : Z) (t : scheduler_task) : scheduler_task :=
  Task (t_id t) (t_syscall_stack_top t) (t_userspace_stack_top t) (t_simd_state t) (t_state t)
    (t_name t) (t_name_length t) (t_empty t) (t_ppid t) (t_exit_code t) (t_run_mode t)
    (t_is_waited t) (t_virtual_stack_top t) count max translation pages (t_parent_queue t) (t_next t)
    (t_previous t).

Definition set_t_fd_count (v : Z) (t : scheduler_task) : scheduler_task :=
  set_t_fds v (t_fd_max t) (t_fd_translation t) (t_fd_allocated_pages t) t.

Definition set_t_ppid (v : Z) (t : scheduler_task) : scheduler_task :=
  Task (t_id t) (t_syscall_stack_top t) (t_userspace_stack_top t) (t_simd_state t) (t_state t)
    (t_name t) (t_name_length t) (t_empty t) v (t_exit_code t) (t_run_mode t) (t_is_waited t)
    (t_virtual_stack_top t) (t_fd_count t) (t_fd_max t) (t_fd_translation t)
    (t_fd_allocated_pages t) (t_parent_queue t) (t_next t) (t_previous t).

(** [&task->fd_translation[fd]]. *)
Definition fd_slot (t : scheduler_task) (fd : Z) : Z := t_fd_translation t + 8 * fd.

(** [while (fd_translation[fd] != nullptr && fd <= fd_max) fd++]. *)
Fixpoint find_fd (m : mem) (table fd_max fd : Z) (fuel : nat) : outcome Z :=
  match fuel with
  | O => Timeout
  | S fuel' =>
      if negb (ld64 m (table + 8 * fd) =? 0) && (fd <=? fd_max) then find_fd m table fd_max (fd + 1) fuel'
      else Done fd
  end.

(** * System calls *)

Section Syscalls.
Context (kernel_hhdm_offset arch_bootstrap_page_table : Z) {H : Type} `{!KernelHeap H}.
Context (filesystems : Z -> option (vfs_fs_ops (vfs_state H))).
Implicit Types s : sched (vfs_state H).

Definition sys_mem s : mem := fs_mem (sc_heap s).
Definition set_sys_mem s (m : mem) : sched (vfs_state H) := with_heap s (set_mem (sc_heap s) m).

(** [task->field = v]. *)
Definition set_task (f : scheduler_task -> scheduler_task) (p : Z) s : outcome (sched (vfs_state H)) :=
  ts ← update_task f p (sc_tasks s); Done (with_tasks s ts).

(** A call of the file systems. *)
Definition on_files {A} (f : vfs_state H -> outcome (A * vfs_state H)) s : outcome (A * sched (vfs_state H)) :=
  '(a, h) ← f (sc_heap s); Done (a, with_heap s h).

Definition GET_CALLER_TASK s : outcome (Z * scheduler_task * sched (vfs_state H)) :=
  '(p, s) ← arch_get_task_context s;
  t ← deref (sc_tasks s !! p);
  Done (p, t, s).

Definition GET_PAGE_TABLE (t : scheduler_task) : Z := r_cr3 (t_state t) +w kernel_hhdm_offset.

Definition IS_MAPPED (x page_table : Z) s : bool :=
  negb (arch_table_manager_translate_to_physical kernel_hhdm_offset page_table x (sc_heap s) =? 0).

Definition IS_HIGHER_HALF_ADDRESS (x : Z) : bool := x >=? kernel_hhdm_offset.

Definition IS_USER_MEMORY (address : Z) (t : scheduler_task) s : bool :=
  negb (IS_HIGHER_HALF_ADDRESS address) && IS_MAPPED address (GET_PAGE_TABLE t) s.

(** The descriptor table of [sys_open].  A table that is full grows by one page;
    the second attempt finds the first entry of that page. *)
Fixpoint install_fd (fuel : nat) (caller node : Z) s : outcome (Z * sched (vfs_state H)) :=
  t ← deref (sc_tasks s !! caller);
  fd ← find_fd (sys_mem s) (t_fd_translation t) (t_fd_max t) 0 (S (S (Z.to_nat (t_fd_max t))));
  if fd =? t_fd_max t then
    match fuel with
    | O => Timeout
    | S fuel' =>
        let old_pages := t_fd_allocated_pages t in
        let new_pages := old_pages +w 1 in
        '(table, s) ← on_files (kh_page_reallocate (t_fd_translation t) old_pages new_pages) s;
        s ← set_task (set_t_fds (t_fd_count t) (t_fd_max t +w PAGE / 8) table (new_pages +w 1)) caller s;
        install_fd fuel' caller node s
    end
  else
    let s := set_sys_mem s (st64 (sys_mem s) (fd_slot t fd) node) in
    s ← set_task (set_t_fd_count (t_fd_count t +w 1)) caller s;
    Done (fd, s).

Definition sys_open (path oflag : Z) s : outcome (Z * sched (vfs_state H)) :=
  '(caller, t, s) ← GET_CALLER_TASK s;
  if negb (IS_USER_MEMORY path t s) then Done (- EPERM, s) else
  '(node, s) ← on_files (vfs_open filesystems path oflag) s;
  if is_error node then Done (error_of node, s) else
  '(fd, s) ← install_fd 1 caller node s;
  Done (s64 fd, s).

Definition sys_close (fd : Z) s : outcome (Z * sched (vfs_state H)) :=
  '(caller, t, s) ← GET_CALLER_TASK s;
  if (fd >=? t_fd_max t) || (ld64 (sys_mem s) (fd_slot t fd) =? 0) then Done (- EBADF, s) else
  let node := ld64 (sys_mem s) (fd_slot t fd) in
  h ← vfs_close filesystems node (sc_heap s);
  let s := with_heap s h in
  s ← set_task (set_t_fd_count (t_fd_count t -w 1)) caller s;
  Done (0, set_sys_mem s (st64 (sys_mem s) (fd_slot t fd) 0)).

(** The node of a descriptor for [sys_read], [sys_write] and [sys_lseek], 0
    when there is none. *)
Definition fd_node (t : scheduler_task) (fd : Z) s : Z :=
  if fd >=? t_fd_count t then 0 else ld64 (sys_mem s) (fd_slot t fd).

Definition sys_read (fd buffer size : Z) s : outcome (Z * sched (vfs_state H)) :=
  '(caller, t, s) ← GET_CALLER_TASK s;
  if negb (IS_USER_MEMORY buffer t s) then Done (- EPERM, s) else
  let node := fd_node t fd s in
  if node =? 0 then Done (- EBADF, s) else
  on_files (vfs_read filesystems node buffer size) s.

Definition sys_write (fd buffer size : Z) s : outcome (Z * sched (vfs_state H)) :=
  '(caller, t, s) ← GET_CALLER_TASK s;
  if negb (IS_USER_MEMORY buffer t s) then Done (- EPERM, s) else
  let node := fd_node t fd s in
  if node =? 0 then Done (- EBADF, s) else
  on_files (vfs_write filesystems node buffer size) s.

(** [node->fs->lseek(...)]: a call through a null pointer is undefined. *)
Definition sys_lseek (fd offset whence : Z) s : outcome (Z * sched (vfs_state H)) :=
  '(caller, t, s) ← GET_CALLER_TASK s;
  let node := fd_node t fd s in
  if node =? 0 then Done (- EBADF, s) else
  n ← deref (vs_nodes (sc_heap s) !! node);
  fs ← deref (filesystems (n_fs n));
  lseek ← deref (fs_lseek fs);
  on_files (lseek node offset whence) s.

(** ** Waiting *)

(** What the other tasks do between a yield and the return to the caller. *)
Abbreviation others := (sched (vfs_state H) -> outcome (sched (vfs_state H))).

(** [while (!ready) task_scheduler_yield()]; [false] when it still waits after
    the given turns of the others. *)
Fixpoint yield_until (ready : sched (vfs_state H) -> outcome bool) (turns : list others) s :
    outcome (bool * sched (vfs_state H)) :=
  b ← ready s;
  if (b : bool) then Done (true, s) else
  match turns with
  | [] => Done (false, s)
  | turn :: turns' => s ← turn (task_scheduler_round_robin_yield s); yield_until ready turns' s
  end.

Definition sys_yield (turn : others) s : outcome (Z * sched (vfs_state H)) :=
  s ← turn (task_scheduler_round_robin_yield s); Done (0, s).

(** [while (1) task_scheduler_yield()] after the two stores. *)
Definition sys_exit (code : Z) (turns : list others) s : outcome (bool * sched (vfs_state H)) :=
  '(caller, t, s) ← GET_CALLER_TASK s;
  s ← set_task (set_t_exit_code code) caller s;
  s ← set_task (set_t_run_mode RUN_MODE_ZOMBIE) caller s;
  yield_until (fun _ => Done false) turns s.

(** The loop over the ancestors of [current_task]. *)
Fixpoint has_ancestor (id current_task : Z) s (fuel : nat) : outcome bool :=
  match fuel with
  | O => Timeout
  | S fuel' =>
      t ← deref (sc_tasks s !! current_task);
      if t_ppid t =? id then Done true else
      parent ← task_scheduler_round_robin_get_pid (t_ppid t) s;
      if parent =? 0 then Done false else has_ancestor id parent s fuel'
  end.

(** [refered_task->run_mode == RUN_MODE_ZOMBIE]. *)
Definition is_zombie (task : Z) s : outcome bool :=
  t ← deref (sc_tasks s !! task); Done (t_run_mode t =? RUN_MODE_ZOMBIE).

(** [None] while the call waits. *)
Definition sys_waitpid (pid stat_loc : Z) (turns : list others) s : outcome (option Z * sched (vfs_state H)) :=
  refered_task ← task_scheduler_round_robin_get_pid (u64 pid) s;
  '(caller, t, s) ← GET_CALLER_TASK s;
  if (pid <? 0) || (refered_task =? 0) then Done (Some (- ECHILD), s) else
  r ← deref (sc_tasks s !! refered_task);
  if t_is_waited r then Done (Some (- ECHILD), s) else
  if negb (IS_USER_MEMORY stat_loc t s) then Done (Some (- EFAULT), s) else
  is_child ← has_ancestor (t_id t) refered_task s (size (sc_tasks s));
  if negb is_child || t_is_waited r then Done (Some (- ECHILD), s) else
  s ← set_task (set_t_is_waited true) refered_task s;
  '(done, s) ← yield_until (is_zombie refered_task) turns s;
  if negb done then Done (None, s) else
  r ← deref (sc_tasks s !! refered_task);
  Done (Some pid, set_sys_mem s (st32 (sys_mem s) stat_loc (Z.land (t_exit_code r) 0xFF))).

(** ** Fork *)

(** The registers of the child. *)
Definition fork_state (parent : scheduler_task) (state : arch_cpu_state_t) (cr3 : Z) : arch_cpu_state_t :=
  CpuState cr3 0 (r_rbx state) 0 (r_rdx state) (r_rsi state) (r_rdi state) (r_rbp state)
    (r_r8 state) (r_r9 state) (r_r10 state) 0 (r_r12 state) (r_r13 state) (r_r14 state) (r_r15 state)
    (r_error state) (r_rcx state) (Z.lor (8 * 4) 3) (Z.lor (r_r11 state) 0x200) (t_userspace_stack_top parent)
    (Z.lor (8 * 3) 3).

(** The loop over the descriptors from [i] on. *)
Fixpoint dup_fds (parent_table child_table i : Z) (n : nat) (h : vfs_state H) : outcome (vfs_state H) :=
  match n with
  | O => Done h
  | S n' =>
      let node := ld64 (fs_mem h) (parent_table + 8 * i) in
      h ← (if node =? 0 then Done h else
             '(copy, h) ← vfs_dup filesystems node h;
             Done (set_mem h (st64 (fs_mem h) (child_table + 8 * i) copy)));
      dup_fds parent_table child_table (i + 1) n' h
  end.

Definition sys_fork (state : arch_cpu_state_t) s : outcome (Z * sched (vfs_state H)) :=
  '(parent, p, s) ← GET_CALLER_TASK s;
  '(child, s) ← task_scheduler_round_robin_create (t_name p) s;
  s ← arch_save_simd_state child s;
  s ← set_task (set_t_ppid (t_id p)) child s;
  '(child_pt, s) ← on_files arch_table_manager_new s;
  let parent_pt := r_cr3 state +w kernel_hhdm_offset in
  let s := with_heap s (share_higher_half arch_bootstrap_page_table child_pt 0x100 256 (sc_heap s)) in
  h ← copy_address_space kernel_hhdm_offset child_pt parent_pt (sc_heap s);
  let s := with_heap s h in
  s ← set_task (set_t_state (fork_state p state (child_pt -w kernel_hhdm_offset))) child s;
  '(table, s) ← on_files (kh_page_allocate (t_fd_allocated_pages p)) s;
  s ← set_task (set_t_fds (t_fd_count p) (t_fd_max p) table (t_fd_allocated_pages p)) child s;
  h ← dup_fds (t_fd_translation p) table 0 (Z.to_nat (t_fd_count p)) (sc_heap s);
  let s := with_heap s h in
  s ← set_task (set_t_empty false) child s;
  c ← deref (sc_tasks s !! child);
  Done (s64 (t_id c), s).
End Syscalls.
