(* ===== verification/SyscallsSpec.v ===== *)
(** The system calls, continued: descriptor tables as lists of nodes, what the
    calls do to them, waiting and exiting, and the properties. *)

From S2P Require Import Prelude Memory Libc Spinlock PageAllocator PageAllocatorSpec PageTable BlockAllocator BlockAllocatorSpec Paths KernelHeap Scheduler SchedulerSpec SchedulerProps Vfs VfsSpec Syscalls.

#[local] Existing Instance demo_source.
#[local] Existing Instance demo_source_laws.

(** * Descriptor tables *)

(** The nodes of the [n] entries of the table; 0 is a free entry. *)
Definition fd_list (m : mem) (table : Z) (n : nat) : list Z :=
  map (fun i => ld64 m (table + 8 * Z.of_nat i)) (seq 0 n).

Lemma length_fd_list m table n : length (fd_list m table n) = n.
Proof. unfold fd_list. by rewrite length_map, length_seq. Qed.

Lemma fd_list_lookup m table n i : (i < n)%nat -> fd_list m table n !! i = Some (ld64 m (table + 8 * Z.of_nat i)).
Proof.
  intros Hi. unfold fd_list. rewrite list_lookup_fmap. by rewrite lookup_seq_lt.
Qed.

Lemma fd_list_ext m m' table n :
  (forall b, table <= b < table + 8 * Z.of_nat n -> ld8 m' b = ld8 m b) -> fd_list m' table n = fd_list m table n.
Proof.
  intros He. apply map_ext_in. intros i Hi%in_seq. apply ld64_ext. intros b Hb. apply He. lia.
Qed.

Lemma fd_list_store m table n fd v : (fd < n)%nat ->
  fd_list (st64 m (table + 8 * Z.of_nat fd) v) table n = <[fd := u64 v]> (fd_list m table n).
Proof.
  intros Hfd. apply list_eq_same_length with (n := n); rewrite ?length_insert, ?length_fd_list; [done..|].
  intros i x y Hi Hx Hy. rewrite fd_list_lookup in Hx by done. injection Hx as <-.
  destruct (decide (i = fd)) as [->|Hne].
  - rewrite list_lookup_insert_eq in Hy by (by rewrite length_fd_list). injection Hy as <-. apply ld64_st64.
  - rewrite list_lookup_insert_ne, fd_list_lookup in Hy by done. injection Hy as <-. apply ld64_st64_other. lia.
Qed.

(** Where the search of [sys_open] stops: at the first free entry, or one or
    two entries past the table. *)
Lemma find_fd_spec m table fd_max fuel : forall fd,
  (Z.to_nat (fd_max + 2 - fd) <= fuel)%nat -> fd <= fd_max + 1 ->
  exists k, find_fd m table fd_max fd fuel = Done k /\ fd <= k <= fd_max + 1 /\
    (forall i, fd <= i < k -> ld64 m (table + 8 * i) <> 0) /\
    (k <= fd_max -> ld64 m (table + 8 * k) = 0).
Proof.
  induction fuel as [|fuel IH]; intros fd Hf Hle; [lia|]. cbn [find_fd].
  destruct (Z.eqb_spec (ld64 m (table + 8 * fd)) 0) as [E|E]; cbn [negb andb].
  - exists fd. split_and!; [done|lia|lia|intros; lia|done].
  - destruct (Z.leb_spec fd fd_max) as [Hle'|Hgt].
    + destruct (IH (fd + 1)) as (k & Ek & H1 & H2 & H3); [lia|lia|]. exists k. split_and!; [done|lia|lia| |done].
      intros i Hi. destruct (decide (i = fd)) as [->|]; [done|]. apply H2. lia.
    + exists fd. split_and!; [done|lia|lia|intros; lia|lia].
Qed.

(** A status of one byte. *)
Lemma ld32_st32_byte m a v : ld32 (st32 m a (Z.land v 255)) a = Z.land v 255.
Proof.
  unfold ld32, st32. rewrite le_load_store_same. apply Z.mod_small. change 255 with (Z.ones 8).
  rewrite Z.land_ones by lia. pose proof (Z.mod_pos_bound v (2 ^ 8) ltac:(lia)). lia.
Qed.

(** The caller of a system call: the task [k] runs on the processor [p]. *)
Record calling {St} (s : sched St) (k : Z) (t : scheduler_task) (p : Z) (cx : arch_cpu_context_t) : Prop := {
  ca_cpu : on_cpu s p k cx;
  ca_task : sc_tasks s !! k = Some t;
  ca_nonzero : k <> 0;
  ca_apart : sc_cpu_contexts s !! k = None;
  ca_id : t_id t <> CONTEXT_TYPE_CPU
}.

Section Calls.
Context (hhdm : Z) {H : Type} `{!KernelHeap H} `{!KernelHeapLaws H}.
Context (filesystems : Z -> option (vfs_fs_ops (vfs_state H))).
Implicit Types s : sched (vfs_state H).

Lemma sys_mem_set s m : sys_mem (set_sys_mem s m) = m.
Proof using KernelHeapLaws0. unfold sys_mem, fs_mem. simpl. apply kh_mem_law. Qed.

Lemma caller_spec s k t p cx :
  calling s k t p cx -> GET_CALLER_TASK s = Done (k, t, with_gs s k p) /\ calling (with_gs s k p) k t p cx.
Proof using.
  intros [Hoc Ht H0 Ha Hid]. unfold GET_CALLER_TASK. rewrite (get_task_context_spec _ p k cx Hoc).
  - cbn [mbind outcome_bind]. cbn beta iota. simpl. rewrite Ht. split; [done|].
    split; try done. destruct Hoc as [O1 O2 O3 O4 O5]. split; try done. by right.
  - destruct Hoc as [[[-> _]|[-> _]] _ Hp _ _]; done.
Qed.

(** A change of the caller's record that keeps its id. *)
Lemma calling_task s k t p cx t' h :
  calling s k t p cx -> t_id t' = t_id t ->
  calling (with_tasks (with_heap s h) (<[k := t']> (sc_tasks s))) k t' p cx.
Proof using.
  intros [[O1 O2 O3 O4 O5] Ht H0 Ha Hid] Hi. split; simpl; try done.
  - split; simpl; try done. right. split; [done|]. exists t'. rewrite lookup_insert_eq. split; [done|congruence].
  - apply lookup_insert_eq.
  - congruence.
Qed.

(** The effect of storing a node in the entry [fd] and counting it. *)
Lemma install_fd_store fuel s k t p cx node fd :
  calling s k t p cx -> 0 <= t_fd_max t -> 0 <= fd -> fd <> t_fd_max t ->
  find_fd (sys_mem s) (t_fd_translation t) (t_fd_max t) 0 (S (S (Z.to_nat (t_fd_max t)))) = Done fd ->
  exists s', install_fd fuel k node s = Done (fd, s') /\
    sc_tasks s' = <[k := set_t_fd_count (t_fd_count t +w 1) t]> (sc_tasks s) /\
    sys_mem s' = st64 (sys_mem s) (fd_slot t fd) node /\
    calling s' k (set_t_fd_count (t_fd_count t +w 1) t) p cx.
Proof using KernelHeapLaws0.
  intros Hc Hm H0 Hne Hf. exists (with_tasks (set_sys_mem s (st64 (sys_mem s) (fd_slot t fd) node))
    (<[k := set_t_fd_count (t_fd_count t +w 1) t]> (sc_tasks s))). split_and!.
  - destruct fuel; cbn [install_fd]; rewrite (ca_task _ _ _ _ _ Hc); cbn [deref mbind outcome_bind];
      rewrite Hf; cbn [mbind outcome_bind]; rewrite (proj2 (Z.eqb_neq _ _) Hne);
      unfold set_task, update_task; simpl; rewrite (ca_task _ _ _ _ _ Hc); done.
  - done.
  - apply (sys_mem_set s).
  - by apply (calling_task s k t).
Qed.

(** The search stops at the first free entry. *)
Lemma find_fd_first m t fd :
  0 <= t_fd_max t -> 0 <= fd < t_fd_max t -> ld64 m (fd_slot t fd) = 0 ->
  (forall i, 0 <= i < fd -> ld64 m (fd_slot t i) <> 0) ->
  find_fd m (t_fd_translation t) (t_fd_max t) 0 (S (S (Z.to_nat (t_fd_max t)))) = Done fd.
Proof using.
  intros Hm Hfd Hz Hn. destruct (find_fd_spec m (t_fd_translation t) (t_fd_max t) (S (S (Z.to_nat (t_fd_max t)))) 0)
    as (k & -> & Hk & H1 & H2); [lia|lia|]. f_equal. destruct (Z.lt_trichotomy k fd) as [Hlt|[->|Hgt]]; [|done|].
  - exfalso. apply (Hn k); [lia|]. apply H2. lia.
  - exfalso. apply (H1 fd); [lia|]. exact Hz.
Qed.

(** ** Opening *)

Lemma sys_open_perm s k t p cx path oflag :
  calling s k t p cx -> IS_USER_MEMORY hhdm path t s = false ->
  sys_open hhdm filesystems path oflag s = Done (- EPERM, with_gs s k p).
Proof using.
  intros Hc Hu. unfold sys_open. rewrite (proj1 (caller_spec _ _ _ _ _ Hc)). cbn [mbind outcome_bind]. cbn beta iota.
  change (IS_USER_MEMORY hhdm path t (with_gs s k p)) with (IS_USER_MEMORY hhdm path t s). by rewrite Hu.
Qed.

Lemma sys_open_node s k t p cx path oflag node h :
  calling s k t p cx -> IS_USER_MEMORY hhdm path t s = true ->
  vfs_open filesystems path oflag (sc_heap s) = Done (node, h) ->
  sys_open hhdm filesystems path oflag s =
    if is_error node then Done (error_of node, with_heap (with_gs s k p) h)
    else '(fd, s) ← install_fd 1 k node (with_heap (with_gs s k p) h); Done (s64 fd, s).
Proof using.
  intros Hc Hu Ho. unfold sys_open. rewrite (proj1 (caller_spec _ _ _ _ _ Hc)). cbn [mbind outcome_bind]. cbn beta iota.
  change (IS_USER_MEMORY hhdm path t (with_gs s k p)) with (IS_USER_MEMORY hhdm path t s). rewrite Hu. cbn [negb].
  unfold on_files. change (sc_heap (with_gs s k p)) with (sc_heap s). rewrite Ho. done.
Qed.

(** The state in which the node is stored. *)
Lemma calling_heap s k t p cx h : calling s k t p cx -> calling (with_heap (with_gs s k p) h) k t p cx.
Proof using.
  intros Hc. destruct (proj2 (caller_spec _ _ _ _ _ Hc)) as [[O1 O2 O3 O4 O5] C1 C2 C3 C4]. by repeat split.
Qed.

(** ** Closing *)

Lemma sys_close_spec s k t p cx fd h :
  calling s k t p cx -> 0 <= fd < t_fd_max t -> ld64 (sys_mem s) (fd_slot t fd) <> 0 ->
  vfs_close filesystems (ld64 (sys_mem s) (fd_slot t fd)) (sc_heap s) = Done h ->
  exists s', sys_close filesystems fd s = Done (0, s') /\
    sc_tasks s' = <[k := set_t_fd_count (t_fd_count t -w 1) t]> (sc_tasks s) /\
    sc_heap s' = set_mem h (st64 (fs_mem h) (fd_slot t fd) 0) /\
    calling s' k (set_t_fd_count (t_fd_count t -w 1) t) p cx.
Proof using KernelHeapLaws0.
  intros Hc Hfd Hn Hcl. pose proof (calling_heap s k t p cx h Hc) as Hc'.
  exists (set_sys_mem (with_tasks (with_heap (with_gs s k p) h) (<[k := set_t_fd_count (t_fd_count t -w 1) t]> (sc_tasks s)))
    (st64 (fs_mem h) (fd_slot t fd) 0)). split_and!.
  - unfold sys_close. rewrite (proj1 (caller_spec _ _ _ _ _ Hc)). cbn [mbind outcome_bind]. cbn beta iota.
    change (sys_mem (with_gs s k p)) with (sys_mem s). change (sc_heap (with_gs s k p)) with (sc_heap s).
    rewrite Z.geb_leb, (proj2 (Z.leb_gt _ _)), (proj2 (Z.eqb_neq _ 0)) by (done || lia). cbn [orb]. rewrite Hcl.
    cbn [mbind outcome_bind]. unfold set_task, update_task. simpl. rewrite (ca_task _ _ _ _ _ Hc). done.
  - done.
  - done.
  - pose proof (calling_task _ k t p cx (set_t_fd_count (t_fd_count t -w 1) t)
      (set_mem h (st64 (fs_mem h) (fd_slot t fd) 0)) Hc' eq_refl) as [[O1 O2 O3 O4 O5] C1 C2 C3 C4].
    split; [split; [exact O1|exact O2|exact O3|exact O4|exact O5]|exact C1|exact C2|exact C3|exact C4].
Qed.

(** ** Using a descriptor *)

Lemma fd_node_spec t fd s : fd_node t fd s = if decide (fd < t_fd_count t) then ld64 (sys_mem s) (fd_slot t fd) else 0.
Proof using. unfold fd_node. rewrite Z.geb_leb. case_decide; btest; (done || lia). Qed.

Lemma sys_lseek_bad s k t p cx fd offset whence :
  calling s k t p cx -> fd_node t fd s = 0 -> sys_lseek filesystems fd offset whence s = Done (- EBADF, with_gs s k p).
Proof using.
  intros Hc Hn. unfold sys_lseek. rewrite (proj1 (caller_spec _ _ _ _ _ Hc)). cbn [mbind outcome_bind]. cbn beta iota.
  change (fd_node t fd (with_gs s k p)) with (fd_node t fd s). by rewrite Hn.
Qed.
End Calls.

(** * Waiting *)

Section Waiting.
Context (hhdm : Z) {H : Type} `{!KernelHeap H}.
Implicit Types s : sched (vfs_state H).

Lemma yield_until_ready ready turns : forall s s',
  yield_until ready turns s = Done (true, s') -> ready s' = Done true.
Proof using.
  induction turns as [|turn turns IH]; intros s s' E; cbn [yield_until] in E.
  all: apply bind_done_inv in E as (b & Eb & E); destruct b; [by injection E as <-|].
  - done.
  - apply bind_done_inv in E as (s1 & _ & E). by apply IH in E.
Qed.

Lemma yield_until_now ready turns s : ready s = Done true -> yield_until ready turns s = Done (true, s).
Proof using. intros E. destruct turns; cbn [yield_until]; by rewrite E. Qed.

(** The task [x] has an ancestor with the id [id]: its parent has it, or a task with
    the id of its parent has such an ancestor. *)
Inductive descends s (id : Z) : Z -> Prop :=
| descends_child x t : sc_tasks s !! x = Some t -> t_ppid t = id -> descends s id x
| descends_step x t parent tp : sc_tasks s !! x = Some t -> sc_tasks s !! parent = Some tp ->
    t_ppid t <> 0 -> t_id tp = t_ppid t -> descends s id parent -> descends s id x.

(** What the search returns has the id. *)
Lemma scan_tasks_id ts hd pid fuel : forall x r, scan_tasks ts hd x pid fuel = Done r -> r <> 0 ->
  exists t, ts !! r = Some t /\ t_id t = pid.
Proof using.
  induction fuel as [|fuel IH]; intros x r E Hr; cbn [scan_tasks] in E; [done|].
  destruct (ts !! x) as [t|] eqn:Ex; cbn [deref mbind outcome_bind] in E; [|done].
  destruct (Z.eqb_spec (t_id t) pid); [injection E as <-; by exists t|].
  destruct (_ && _); [by eapply IH|]. by injection E as <-.
Qed.

Lemma scan_contexts_id ts cs lc pid fuel : forall c r, scan_contexts ts cs lc c pid fuel = Done r -> r <> 0 ->
  exists t, ts !! r = Some t /\ t_id t = pid.
Proof using.
  induction fuel as [|fuel IH]; intros c r E Hr; cbn [scan_contexts] in E; [done|].
  apply bind_done_inv in E as (ctx & _ & E). apply bind_done_inv in E as (? & _ & E). apply bind_done_inv in E as (found & Ef & E).
  destruct (Z.eqb_spec found 0); cbn [negb] in E; [|injection E as <-; by eapply scan_tasks_id].
  destruct (_ && _); [by eapply IH|]. by injection E as <-.
Qed.

Lemma get_pid_id s pid r : task_scheduler_round_robin_get_pid pid s = Done r -> r <> 0 ->
  exists t, sc_tasks s !! r = Some t /\ t_id t = pid.
Proof using.
  intros E Hr. unfold task_scheduler_round_robin_get_pid in E. destruct (pid =? 0); [by injection E as <-|].
  apply bind_done_inv in E as (? & _ & E). by eapply scan_contexts_id.
Qed.

Lemma has_ancestor_descends s id fuel : forall x, has_ancestor id x s fuel = Done true -> descends s id x.
Proof using.
  induction fuel as [|fuel IH]; intros x E; cbn [has_ancestor] in E; [done|].
  destruct (sc_tasks s !! x) as [t|] eqn:Ex; cbn [deref mbind outcome_bind] in E; [|done].
  destruct (Z.eqb_spec (t_ppid t) id); [by eapply descends_child|].
  apply bind_done_inv in E as (parent & Ep & E). destruct (Z.eqb_spec parent 0) as [|Hp]; [done|].
  destruct (get_pid_id _ _ _ Ep Hp) as (tp & Etp & Hid). apply (descends_step s id x t parent tp); try done; [|by apply IH].
  intros E0. rewrite E0 in Ep. by injection Ep as <-.
Qed.

(** Parents are older than their children. *)
Definition parents_older s : Prop := forall x t, sc_tasks s !! x = Some t -> t_ppid t = 0 \/ t_ppid t < t_id t.

(** Every task is in a queue, and no two tasks have the same id. *)
Record all_queued s (C : list Z) (Q : Z -> list Z) : Prop := {
  aq_queue : forall x t, sc_tasks s !! x = Some t -> exists c, c ∈ C /\ x ∈ Q c;
  aq_id : forall x y tx ty, sc_tasks s !! x = Some tx -> sc_tasks s !! y = Some ty -> t_id tx = t_id ty -> x = y
}.

Lemma get_pid_unique s C Q pid x t : sched_wf s C Q -> C <> [] -> all_queued s C Q -> pid <> 0 ->
  sc_tasks s !! x = Some t -> t_id t = pid -> task_scheduler_round_robin_get_pid pid s = Done x.
Proof using.
  intros W HC [A1 A2] Hp Ht Hid. destruct (get_pid_spec s C Q pid W HC Hp) as (r & E & H1 & H0). rewrite E.
  destruct (A1 x t Ht) as (c & Hc & Hx). destruct (decide (r = 0)) as [E0|Hr]; [by destruct (H0 E0 c x t Hc Hx Ht)|].
  destruct (H1 Hr) as (_ & tr & _ & _ & Htr & Hidr). f_equal. apply (A2 r x tr t Htr Ht). congruence.
Qed.

Lemma has_ancestor_spec s C Q id fuel : forall (seen : list Z) x t,
  sched_wf s C Q -> C <> [] -> parents_older s -> sc_tasks s !! x = Some t ->
  NoDup seen -> (forall y, y ∈ seen -> exists ty, sc_tasks s !! y = Some ty /\ t_id t < t_id ty) ->
  (size (sc_tasks s) <= length seen + fuel)%nat ->
  exists b, has_ancestor id x s fuel = Done b /\ (all_queued s C Q -> descends s id x -> b = true).
Proof using.
  induction fuel as [|fuel IH]; intros seen x t W HC Ho Ht Hnd Hs Hf.
  - exfalso. assert (NoDup (x :: seen)) as Hn.
    { constructor; [|done]. intros (ty & Hy & Hlt)%Hs. assert (ty = t) as -> by congruence. lia. }
    pose proof (keys_size (sc_tasks s) (x :: seen) Hn) as Hsz. cbn [length] in Hsz.
    assert (S (length seen) <= size (sc_tasks s))%nat; [|lia]. apply Hsz. intros y [->|Hy]%elem_of_cons; [by exists t|].
    destruct (Hs y Hy) as (ty & Hty & _). by exists ty.
  - cbn [has_ancestor]. rewrite Ht. cbn [deref mbind outcome_bind].
    destruct (Z.eqb_spec (t_ppid t) id) as [E|E]; [by exists true|].
    assert (Hinv : all_queued s C Q -> descends s id x -> exists parent, t_ppid t <> 0 /\
      task_scheduler_round_robin_get_pid (t_ppid t) s = Done parent /\ parent <> 0 /\ descends s id parent).
    { intros A D. inversion D as [? t' Ht' He|? t' parent tp Ht' Hp H0 Hid Hd]; subst.
      - exfalso. assert (t' = t) as -> by congruence. done.
      - assert (t' = t) as -> by congruence. exists parent.
        pose proof (get_pid_unique s C Q (t_ppid t) parent tp W HC A H0 Hp Hid) as Eg. split_and!; [done|done| |done].
        intros ->. destruct (aq_queue _ _ _ A 0 tp Hp) as (c & Hc & Hq). destruct (sw_queue _ _ _ W c Hc) as (ctx & _ & Hr & _).
        by apply (qr_nonzero _ _ _ Hr). }
    destruct (Z.eqb_spec (t_ppid t) 0) as [E0|E0].
    { exists false. rewrite E0. split; [done|]. intros A D. by destruct (Hinv A D) as (? & ? & _). }
    destruct (get_pid_spec s C Q (t_ppid t) W HC E0) as (parent & Ep & Hp1 & _). rewrite Ep.
    cbn [mbind outcome_bind]. destruct (Z.eqb_spec parent 0) as [->|Hpn].
    { exists false. split; [done|]. intros A D. destruct (Hinv A D) as (parent & _ & Ep' & ? & _). congruence. }
    destruct (Hp1 Hpn) as (c & tp & Hc & Hq & Htp & Hid).
    assert (t_id tp < t_id t) as Hlt by (destruct (Ho x t Ht); [done|lia]).
    destruct (IH (x :: seen) parent tp W HC Ho Htp) as (b & Eb & Hb).
    + constructor; [|done]. intros (ty & Hy & Hl)%Hs. assert (ty = t) as -> by congruence. lia.
    + intros y [->|Hy]%elem_of_cons; [by exists t|]. destruct (Hs y Hy) as (ty & Hty & Hl). exists ty. split; [done|lia].
    + cbn [length]. lia.
    + exists b. split; [done|]. intros A D. destruct (Hinv A D) as (parent' & _ & Ep' & _ & D'). apply (Hb A). congruence.
Qed.

Lemma has_ancestor_gs s a b id fuel : forall x, has_ancestor id x (with_gs s a b) fuel = has_ancestor id x s fuel.
Proof using.
  induction fuel as [|fuel IH]; intros x; cbn [has_ancestor]; [done|].
  change (sc_tasks (with_gs s a b)) with (sc_tasks s). destruct (sc_tasks s !! x) as [t|]; [|done].
  cbn [deref mbind outcome_bind]. destruct (t_ppid t =? id); [done|].
  change (task_scheduler_round_robin_get_pid (t_ppid t) (with_gs s a b)) with (task_scheduler_round_robin_get_pid (t_ppid t) s).
  destruct (task_scheduler_round_robin_get_pid (t_ppid t) s) as [parent| | | | ]; cbn [mbind outcome_bind]; try done.
  destruct (parent =? 0); [done|]. apply IH.
Qed.

(** The target of a wait: a task that is not waited for and descends from the
    caller. *)
Record waitable s (t : scheduler_task) (pid stat_loc r : Z) (tr : scheduler_task) : Prop := {
  wa_pid : 0 <= pid < 9223372036854775808;
  wa_found : task_scheduler_round_robin_get_pid pid s = Done r;
  wa_nonzero : r <> 0;
  wa_task : sc_tasks s !! r = Some tr;
  wa_free : t_is_waited tr = false;
  wa_memory : IS_USER_MEMORY hhdm stat_loc t s = true;
  wa_child : has_ancestor (t_id t) r s (size (sc_tasks s)) = Done true
}.

Lemma sys_waitpid_waits s k t p cx pid stat_loc r tr turns :
  calling s k t p cx -> waitable s t pid stat_loc r tr ->
  sys_waitpid hhdm pid stat_loc turns s =
    '(done, s) ← yield_until (is_zombie r) turns
      (with_tasks (with_gs s k p) (<[r := set_t_is_waited true tr]> (sc_tasks s)));
    if negb done then Done (None, s) else
    tr ← deref (sc_tasks s !! r);
    Done (Some pid, set_sys_mem s (st32 (sys_mem s) stat_loc (Z.land (t_exit_code tr) 0xFF))).
Proof using.
  intros Hc [W1 W2 W3 W4 W5 W6 W7]. unfold sys_waitpid. rewrite u64_small by lia. rewrite W2.
  rewrite (proj1 (caller_spec _ _ _ _ _ Hc)). cbn [mbind outcome_bind]. cbn beta iota.
  rewrite (proj2 (Z.ltb_ge pid 0)), (proj2 (Z.eqb_neq r 0)) by (done || lia). cbn [orb].
  change (sc_tasks (with_gs s k p)) with (sc_tasks s). rewrite W4. cbn [deref mbind outcome_bind]. rewrite W5.
  change (IS_USER_MEMORY hhdm stat_loc t (with_gs s k p)) with (IS_USER_MEMORY hhdm stat_loc t s). rewrite W6. cbn [negb].
  rewrite has_ancestor_gs, W7. cbn [mbind outcome_bind negb orb]. unfold set_task, update_task.
  change (sc_tasks (with_gs s k p)) with (sc_tasks s). rewrite W4. cbn [deref mbind outcome_bind]. done.
Qed.

(** A call that returns an id found a waitable task. *)
Lemma sys_waitpid_inv s k t p cx pid stat_loc turns v s' :
  calling s k t p cx -> -9223372036854775808 <= pid < 9223372036854775808 ->
  sys_waitpid hhdm pid stat_loc turns s = Done (Some v, s') -> 0 <= v ->
  exists r tr, waitable s t pid stat_loc r tr.
Proof using.
  intros Hc Hpid E Hv. unfold sys_waitpid in E. apply bind_done_inv in E as (r & Er & E).
  rewrite (proj1 (caller_spec _ _ _ _ _ Hc)) in E. cbn [mbind outcome_bind] in E. cbn beta iota in E.
  destruct ((pid <? 0) || (r =? 0)) eqn:Eb; [injection E as <- _; unfold ECHILD in Hv; lia|].
  apply orb_false_iff in Eb as [Ep%Z.ltb_ge Er0%Z.eqb_neq]. rewrite u64_small in Er by lia.
  change (sc_tasks (with_gs s k p)) with (sc_tasks s) in E.
  apply bind_done_inv in E as (tr & Etr & E). destruct (sc_tasks s !! r) as [tr'|] eqn:Et; [|discriminate Etr].
  injection Etr as ->. destruct (t_is_waited tr) eqn:Ew; [injection E as <- _; unfold ECHILD in Hv; lia|].
  change (IS_USER_MEMORY hhdm stat_loc t (with_gs s k p)) with (IS_USER_MEMORY hhdm stat_loc t s) in E.
  destruct (IS_USER_MEMORY hhdm stat_loc t s) eqn:Eu; cbn [negb] in E; [|injection E as <- _; unfold EFAULT in Hv; lia].
  apply bind_done_inv in E as (c & Ec & E). rewrite has_ancestor_gs in Ec.
  destruct c; cbn [negb orb] in E; [|injection E as <- _; unfold ECHILD in Hv; lia].
  exists r, tr. split; (done || lia).
Qed.

Lemma waitpid_again s k t p cx pid stat_loc r tr turns :
  calling s k t p cx -> 0 <= pid < 9223372036854775808 -> task_scheduler_round_robin_get_pid pid s = Done r ->
  sc_tasks s !! r = Some tr -> t_is_waited tr = true ->
  sys_waitpid hhdm pid stat_loc turns s = Done (Some (- ECHILD), with_gs s k p).
Proof using.
  intros Hc Hp Hr Ht Hw. unfold sys_waitpid. rewrite u64_small by lia. rewrite Hr.
  rewrite (proj1 (caller_spec _ _ _ _ _ Hc)). cbn [mbind outcome_bind]. cbn beta iota.
  destruct ((pid <? 0) || (r =? 0)); [done|]. change (sc_tasks (with_gs s k p)) with (sc_tasks s). rewrite Ht.
  cbn [deref mbind outcome_bind]. by rewrite Hw.
Qed.
End Waiting.

(** ** Exiting *)

Lemma yield_forever {H} (turns : list (sched (vfs_state H) -> outcome (sched (vfs_state H)))) : forall s b s',
  yield_until (fun _ => Done false) turns s = Done (b, s') -> b = false.
Proof.
  induction turns as [|turn turns IH]; intros s b s' E; cbn in E.
  - by injection E.
  - destruct (turn (task_scheduler_round_robin_yield s)) as [s1| | | | ]; try done. by apply IH in E.
Qed.

(** The record of a task that exited. *)
Definition exited (code : Z) (t : scheduler_task) : scheduler_task :=
  set_t_run_mode RUN_MODE_ZOMBIE (set_t_exit_code code t).

Lemma sys_exit_spec {H} (s : sched (vfs_state H)) k t p cx code turns :
  calling s k t p cx ->
  sys_exit code turns s =
    yield_until (fun _ => Done false) turns (with_tasks (with_gs s k p) (<[k := exited code t]> (sc_tasks s))).
Proof.
  intros Hc. unfold sys_exit. rewrite (proj1 (caller_spec _ _ _ _ _ Hc)). cbn [mbind outcome_bind]. cbn beta iota.
  unfold set_task, update_task. simpl. rewrite (ca_task _ _ _ _ _ Hc). cbn [deref mbind outcome_bind]. simpl.
  rewrite lookup_insert_eq. cbn [deref mbind outcome_bind]. simpl. by rewrite insert_insert_eq.
Qed.

(** * A concrete caller

    The task 1 runs at the address 0x9000 with the page 0x5000 mapped; the path
    ["/f"] is there, the file system at 1000 is mounted at ["/"] and opens every
    path as the node 0x30000. *)

Definition demo_hhdm : Z := 0x10000.

(** [fds] are the first words of the descriptor table at 0x8000. *)
Definition demo_sys_mem (fds : list Z) : mem :=
  let m := put ∅ 0x5000 [47; 102] in
  let m := st64 m 0x11000 0x2001 in
  let m := st64 m 0x12000 0x3001 in
  let m := st64 m 0x13000 0x4001 in
  let m := st64 m 0x14028 0x7007 in
  fst (fold_left (fun '(m, a) v => (st64 m a v, a + 8)) fds (m, 0x8000)).

Definition demo_caller (id count max : Z) : scheduler_task :=
  set_t_fds count max 0x8000 1 (set_t_state (CpuState 0x1000 0 0 0 0 0 0 0 0 0 0 0 0 0 0 0 0 0 0 0 0 0)
    (Task id 0 0 [] zero_state 0 0 false 0 0 0 false 0 0 0 0 0 0 0 0)).

Definition demo_files_state (fds : list Z) : vfs_state (ba_state pa_state) :=
  Vfs (BA (set_pa_mem table_state (demo_sys_mem fds)) 0 0 0 0 false)
    {[0x30000 := Node 0 0 0 0 0 false 1000 0]}
    (<[0x20100 := Mount 0x5000 1 1000 0 0]> {[0x20000 := Mount 0 0 0 0x20100 0]}) 0x20000 false 0.

Definition demo_sys (fds : list Z) (count max : Z) : sched (vfs_state (ba_state pa_state)) :=
  Sched (demo_files_state fds) {[0x9000 := demo_caller 1 count max]} ∅
    {[0xA000 := CpuContext CONTEXT_TYPE_CPU 0 true 0 0]} 0 false 1 false
    (Cpu 0x9000 0xA000 [] None false true).

(** Every open gives the node 0x30000, close does nothing; [lseek] is absent. *)
Definition demo_sys_fs {S} : vfs_fs_ops S :=
  Ops (Some (fun _ _ _ s => Done (0x30000, s))) None None None (Some (fun _ s => Done s)) None None None None.

Lemma demo_calling fds count max :
  calling (demo_sys fds count max) 0x9000 (demo_caller 1 count max) 0xA000 (CpuContext CONTEXT_TYPE_CPU 0 true 0 0).
Proof.
  split.
  - split; [by right|apply lookup_singleton_eq|done|done|]. right. split; [by apply lookup_singleton_ne|].
    exists (demo_caller 1 count max). split; [apply lookup_singleton_eq|done].
  - apply lookup_singleton_eq.
  - done.
  - by apply lookup_singleton_ne.
  - done.
Qed.

(** The task 1 and its zombie child 2, which exited with the code 300, in one
    queue. *)
Definition demo_child : scheduler_task :=
  Task 2 0 0 [] zero_state 0 0 false 1 300 RUN_MODE_ZOMBIE false 0 0 0 0 0 0 0x9000 0.

Definition demo_parent : scheduler_task := set_t_next 0xB000 (demo_caller 1 0 4).

Definition demo_wait : sched (vfs_state (ba_state pa_state)) :=
  Sched (demo_files_state []) (<[0xB000 := demo_child]> {[0x9000 := demo_parent]})
    {[0xC000 := Context_ 0 (Queue 0x9000 0x9000 0xB000 false 2) 0 0]}
    {[0xA000 := CpuContext CONTEXT_TYPE_CPU 0 true 0 0xC000]} 0xC000 false 2 false
    (Cpu 0x9000 0xA000 [] None false true).

Lemma demo_wait_calling : calling demo_wait 0x9000 demo_parent 0xA000 (CpuContext CONTEXT_TYPE_CPU 0 true 0 0xC000).
Proof.
  split.
  - split; [by right|apply lookup_singleton_eq|done|done|]. right. split; [by apply lookup_singleton_ne|].
    exists demo_parent. split; [reflexivity|done].
  - reflexivity.
  - done.
  - by apply lookup_singleton_ne.
  - done.
Qed.

Lemma demo_waitable : @waitable demo_hhdm _ (ba_heap 0 0) demo_wait demo_parent 2 0x5000 0xB000 demo_child.
Proof. split; try reflexivity; [lia|lia]. Qed.

(** The child before it exits. *)
Definition demo_live : scheduler_task :=
  Task 2 0 0 [] zero_state 0 0 false 1 0 RUN_MODE_RUNNING false 0 0 0 0 0 0 0x9000 0.

Definition demo_exit : sched (vfs_state (ba_state pa_state)) :=
  Sched (demo_files_state []) (<[0xB000 := demo_live]> {[0x9000 := demo_parent]})
    (sc_contexts demo_wait) (sc_cpu_contexts demo_wait) 0xC000 false 2 false (Cpu 0xB000 0xA000 [] None false true).

Lemma demo_exit_calling : calling demo_exit 0xB000 demo_live 0xA000 (CpuContext CONTEXT_TYPE_CPU 0 true 0 0xC000).
Proof.
  split.
  - split; [by right|apply lookup_singleton_eq|done|done|]. right. split; [by apply lookup_singleton_ne|].
    exists demo_live. split; [reflexivity|done].
  - reflexivity.
  - done.
  - by apply lookup_singleton_ne.
  - done.
Qed.

(** * Properties *)

(** C6. When the path is user memory, the file system opens it and the descriptor table has a
    free entry, sys_open returns the lowest free descriptor, stores the node there, counts it,
    and writes nothing else. *)
Theorem sys_open_refines (hhdm : Z) {H} `{!KernelHeap H} `{!KernelHeapLaws H}
    (filesystems : Z -> option (vfs_fs_ops (vfs_state H))) (s : sched (vfs_state H)) (k p path oflag node : Z)
    (t : scheduler_task) (cx : arch_cpu_context_t) (h : vfs_state H) (fd : nat) :
  calling s k t p cx -> IS_USER_MEMORY hhdm path t s = true ->
  vfs_open filesystems path oflag (sc_heap s) = Done (node, h) -> is_error node = false -> in_u64 node ->
  0 <= t_fd_max t < 9223372036854775808 -> 0 <= t_fd_count t < 9223372036854775808 ->
  let L := fd_list (fs_mem h) (t_fd_translation t) (Z.to_nat (t_fd_max t)) in
  L !! fd = Some 0 -> (forall i, (i < fd)%nat -> L !! i <> Some 0) ->
  exists s', sys_open hhdm filesystems path oflag s = Done (Z.of_nat fd, s') /\
    fd_list (sys_mem s') (t_fd_translation t) (Z.to_nat (t_fd_max t)) = <[fd := node]> L /\
    sc_tasks s' = <[k := set_t_fd_count (t_fd_count t + 1) t]> (sc_tasks s) /\
    changes (fun b => fd_slot t (Z.of_nat fd) <= b < fd_slot t (Z.of_nat fd) + 8) (fs_mem h) (sys_mem s') /\
    calling s' k (set_t_fd_count (t_fd_count t + 1) t) p cx.
Proof.
  intros Hc Hu Ho He Hn Hm Hct L Hz Hlow. pose proof (lookup_lt_Some _ _ _ Hz) as Hlt. unfold L in Hlt.
  rewrite length_fd_list in Hlt. unfold L in Hz. rewrite fd_list_lookup in Hz by done. injection Hz as Hz.
  rewrite (sys_open_node hhdm filesystems s k t p cx path oflag node h Hc Hu Ho), He.
  pose proof (calling_heap s k t p cx h Hc) as Hc1. set (s1 := with_heap (with_gs s k p) h) in *.
  destruct (install_fd_store 1 s1 k t p cx node (Z.of_nat fd) Hc1) as (s' & E & Ht & Hmem & Hc'); try lia.
  { apply find_fd_first; [lia|lia|exact Hz|]. intros i Hi Hzi. apply (Hlow (Z.to_nat i)); [lia|].
    unfold L. rewrite fd_list_lookup by lia. rewrite Z2Nat.id by lia. f_equal. exact Hzi. }
  rewrite (u64_small (t_fd_count t + 1)) in Ht, Hc' by lia. change (sys_mem s1) with (fs_mem h) in Hmem.
  rewrite E. cbn [mbind outcome_bind]. cbn beta iota. exists s'. rewrite s64_small by lia. split_and!.
  - done.
  - rewrite Hmem. unfold fd_slot. rewrite fd_list_store by done. by rewrite u64_small by done.
  - exact Ht.
  - rewrite Hmem. intros b Hb. cbn beta in Hb. apply ld8_st64_other. lia.
  - exact Hc'.
Qed.

Lemma sys_open_refines_witness :
  exists s', @sys_open demo_hhdm _ (ba_heap 0 0) (fun _ => Some demo_sys_fs) 0x5000 O_RDONLY (demo_sys [9; 0; 7; 0] 2 4) =
    Done (1, s').
Proof.
  destruct (@sys_open_refines demo_hhdm _ (ba_heap 0 0) (ba_heap_laws 0 0 hhdm_ok_0) (fun _ => Some demo_sys_fs)
    (demo_sys [9; 0; 7; 0] 2 4) 0x9000 0xA000 0x5000 O_RDONLY 0x30000 (demo_caller 1 2 4)
    (CpuContext CONTEXT_TYPE_CPU 0 true 0 0) (demo_files_state [9; 0; 7; 0]) 1 (demo_calling _ _ _)) as (s' & E & _).
  - vm_compute. reflexivity.
  - vm_compute. reflexivity.
  - reflexivity.
  - split; vm_compute; congruence.
  - split; vm_compute; congruence.
  - split; vm_compute; congruence.
  - vm_compute. reflexivity.
  - intros i Hi. assert (i = O) as -> by lia. vm_compute. congruence.
  - exists s'. exact E.
Defined.

(** When the descriptor table is full and the word after it is not null, sys_open stores the
    node two words past the table and returns a descriptor that sys_close refuses. *)
Theorem sys_open_overruns (hhdm : Z) {H} `{!KernelHeap H} `{!KernelHeapLaws H}
    (filesystems : Z -> option (vfs_fs_ops (vfs_state H))) (s : sched (vfs_state H)) (k p path oflag node : Z)
    (t : scheduler_task) (cx : arch_cpu_context_t) (h : vfs_state H) :
  calling s k t p cx -> IS_USER_MEMORY hhdm path t s = true ->
  vfs_open filesystems path oflag (sc_heap s) = Done (node, h) -> is_error node = false -> in_u64 node ->
  0 <= t_fd_max t < 9223372036854775806 ->
  (forall i, 0 <= i <= t_fd_max t -> ld64 (fs_mem h) (fd_slot t i) <> 0) ->
  let past := t_fd_max t + 1 in
  exists s', sys_open hhdm filesystems path oflag s = Done (past, s') /\
    fd_slot t (t_fd_max t) + 8 = fd_slot t past /\ ld64 (sys_mem s') (fd_slot t past) = node /\
    fd_list (sys_mem s') (t_fd_translation t) (Z.to_nat (t_fd_max t)) =
      fd_list (fs_mem h) (t_fd_translation t) (Z.to_nat (t_fd_max t)) /\
    exists s'', sys_close filesystems past s' = Done (- EBADF, s'').
Proof.
  intros Hc Hu Ho He Hn Hm Hfull past. pose proof (calling_heap s k t p cx h Hc) as Hc1.
  rewrite (sys_open_node hhdm filesystems s k t p cx path oflag node h Hc Hu Ho), He.
  set (s1 := with_heap (with_gs s k p) h) in *.
  destruct (find_fd_spec (sys_mem s1) (t_fd_translation t) (t_fd_max t) (S (S (Z.to_nat (t_fd_max t)))) 0)
    as (fd & Ef & Hfd & _ & Hz); [lia|lia|].
  assert (fd = past) as ->.
  { unfold past. destruct (decide (fd <= t_fd_max t)) as [Hle|]; [|lia]. exfalso. by apply (Hfull fd ltac:(lia)), Hz. }
  destruct (install_fd_store 1 s1 k t p cx node past Hc1) as (s' & E & Ht & Hmem & Hc'); try (unfold past; lia); [done|].
  rewrite E. cbn [mbind outcome_bind]. cbn beta iota. exists s'. rewrite s64_small by (unfold past; lia).
  change (sys_mem s1) with (fs_mem h) in Hmem. rewrite Hmem. split_and!; [done|unfold fd_slot, past; lia| | |].
  - rewrite ld64_st64. by apply u64_small.
  - apply fd_list_ext. intros b Hb. apply ld8_st64_other. unfold fd_slot, past. lia.
  - eexists. unfold sys_close. rewrite (proj1 (caller_spec _ _ _ _ _ Hc')). cbn [mbind outcome_bind]. cbn beta iota.
    change (t_fd_max (set_t_fd_count (t_fd_count t +w 1) t)) with (t_fd_max t).
    rewrite Z.geb_leb, (proj2 (Z.leb_le _ _)) by (unfold past; lia). reflexivity.
Qed.

Lemma sys_open_overruns_witness :
  exists s', @sys_open demo_hhdm _ (ba_heap 0 0) (fun _ => Some demo_sys_fs) 0x5000 O_RDONLY (demo_sys [9; 8; 7] 3 2) =
    Done (3, s').
Proof.
  destruct (@sys_open_overruns demo_hhdm _ (ba_heap 0 0) (ba_heap_laws 0 0 hhdm_ok_0) (fun _ => Some demo_sys_fs)
    (demo_sys [9; 8; 7] 3 2) 0x9000 0xA000 0x5000 O_RDONLY 0x30000 (demo_caller 1 3 2)
    (CpuContext CONTEXT_TYPE_CPU 0 true 0 0) (demo_files_state [9; 8; 7]) (demo_calling _ _ _)) as (s' & E & _).
  - vm_compute. reflexivity.
  - vm_compute. reflexivity.
  - reflexivity.
  - split; vm_compute; congruence.
  - split; vm_compute; congruence.
  - intros i Hi. change (t_fd_max (demo_caller 1 3 2)) with 2 in Hi. assert (i = 0 \/ i = 1 \/ i = 2) as Hi' by lia.
    destruct Hi' as [->|[->| ->]]; vm_compute; congruence.
  - exists s'. exact E.
Defined.

(** C20. sys_close of an open descriptor closes its node with vfs_close, frees the entry, counts
    down and changes nothing else; since the other calls compare a descriptor with the count,
    the highest descriptor of a dense table is then refused with EBADF although it is still
    open. *)
Theorem sys_close_refines {H} `{!KernelHeap H} `{!KernelHeapLaws H}
    (filesystems : Z -> option (vfs_fs_ops (vfs_state H))) (s : sched (vfs_state H)) (k p : Z)
    (t : scheduler_task) (cx : arch_cpu_context_t) (h : vfs_state H) (fd : nat) (node : Z) :
  calling s k t p cx -> 1 <= t_fd_count t < 18446744073709551616 ->
  let table := t_fd_translation t in
  let n := Z.to_nat (t_fd_max t) in
  let L := fd_list (sys_mem s) table n in
  L !! fd = Some node -> node <> 0 -> vfs_close filesystems node (sc_heap s) = Done h ->
  fd_list (fs_mem h) table n = L ->
  exists s', sys_close filesystems (Z.of_nat fd) s = Done (0, s') /\
    fd_list (sys_mem s') table n = <[fd := 0]> L /\
    sc_tasks s' = <[k := set_t_fd_count (t_fd_count t - 1) t]> (sc_tasks s) /\
    sc_heap s' = set_mem h (st64 (fs_mem h) (fd_slot t (Z.of_nat fd)) 0) /\
    forall last, (last < n)%nat -> Z.of_nat last = t_fd_count t - 1 -> last <> fd -> L !! last <> Some 0 ->
      fd_list (sys_mem s') table n !! last = L !! last /\
      exists s'', forall offset whence, sys_lseek filesystems (Z.of_nat last) offset whence s' = Done (- EBADF, s'').
Proof.
  intros Hc Hct table n L Hl Hn0 Hcl Hkeep. pose proof (lookup_lt_Some _ _ _ Hl) as Hlt. unfold L in Hlt.
  rewrite length_fd_list in Hlt. unfold L in Hl. rewrite fd_list_lookup in Hl by done. injection Hl as Hl.
  destruct (sys_close_spec filesystems s k t p cx (Z.of_nat fd) h Hc) as (s' & E & Ht & Hheap & Hc').
  - unfold n in Hlt. lia.
  - unfold fd_slot. fold table. by rewrite Hl.
  - unfold fd_slot. fold table. by rewrite Hl.
  - rewrite (u64_small (t_fd_count t - 1)) in Ht, Hc' by lia.
    assert (fd_list (sys_mem s') table n = <[fd := 0]> L) as Hf.
    { assert (sys_mem s' = st64 (fs_mem h) (fd_slot t (Z.of_nat fd)) 0) as -> by (unfold sys_mem; rewrite Hheap; apply kh_mem_law).
      unfold fd_slot. fold table. rewrite fd_list_store, Hkeep by done. done. }
    exists s'. split_and!; [done|done|done|done|]. intros last Hla Hlast Hne _. split.
    + rewrite Hf. by rewrite list_lookup_insert_ne.
    + eexists. intros offset whence. eapply sys_lseek_bad; [exact Hc'|]. rewrite fd_node_spec. cbn [t_fd_count set_t_fd_count set_t_fds].
      rewrite decide_False by lia. done.
Qed.

Lemma sys_close_refines_witness :
  exists s', @sys_close _ (ba_heap 0 0) (fun _ => Some demo_sys_fs) 1 (demo_sys [0x30000; 0x30000; 0x30000; 0] 3 4) =
    Done (0, s').
Proof.
  destruct (@sys_close_refines _ (ba_heap 0 0) (ba_heap_laws 0 0 hhdm_ok_0) (fun _ => Some demo_sys_fs)
    (demo_sys [0x30000; 0x30000; 0x30000; 0] 3 4) 0x9000 0xA000 (demo_caller 1 3 4)
    (CpuContext CONTEXT_TYPE_CPU 0 true 0 0) (demo_files_state [0x30000; 0x30000; 0x30000; 0]) 1 0x30000
    (demo_calling _ _ _)) as (s' & E & _).
  - split; vm_compute; congruence.
  - vm_compute. reflexivity.
  - discriminate.
  - vm_compute. reflexivity.
  - reflexivity.
  - exists s'. exact E.
Defined.

(** sys_lseek on a node whose file system has no lseek calls through a null pointer, where
    vfs_lseek gives EBADF. *)
Theorem sys_lseek_null {H} `{!KernelHeap H} (filesystems : Z -> option (vfs_fs_ops (vfs_state H)))
    (s : sched (vfs_state H)) (k p fd offset whence : Z) (t : scheduler_task) (cx : arch_cpu_context_t)
    (n : vfs_fs_node) (fs : vfs_fs_ops (vfs_state H)) :
  calling s k t p cx -> fd < t_fd_count t -> ld64 (sys_mem s) (fd_slot t fd) <> 0 ->
  vs_nodes (sc_heap s) !! ld64 (sys_mem s) (fd_slot t fd) = Some n -> filesystems (n_fs n) = Some fs ->
  fs_lseek fs = None ->
  sys_lseek filesystems fd offset whence s = Undef /\
  vfs_lseek filesystems (ld64 (sys_mem s) (fd_slot t fd)) offset whence (sc_heap s) = Done (- EBADF, sc_heap s).
Proof.
  intros Hc Hfd Hn0 Hn Hfs Hl. split.
  - unfold sys_lseek. rewrite (proj1 (caller_spec _ _ _ _ _ Hc)). cbn [mbind outcome_bind]. cbn beta iota.
    rewrite fd_node_spec, decide_True by done. change (sys_mem (with_gs s k p)) with (sys_mem s).
    change (sc_heap (with_gs s k p)) with (sc_heap s). rewrite (proj2 (Z.eqb_neq _ 0) Hn0), Hn. cbn [deref mbind outcome_bind].
    rewrite Hfs. cbn [deref mbind outcome_bind]. by rewrite Hl.
  - unfold vfs_lseek, node_ops. rewrite (proj2 (Z.eqb_neq _ 0) Hn0), Hn. cbn [deref mbind outcome_bind].
    rewrite Hfs. cbn [deref mbind outcome_bind]. by rewrite Hl.
Qed.

Lemma sys_lseek_null_witness :
  @sys_lseek _ (ba_heap 0 0) (fun _ => Some demo_sys_fs) 0 0 SEEK_END (demo_sys [0x30000; 0] 1 2) = Undef.
Proof.
  apply (@sys_lseek_null _ (ba_heap 0 0) (fun _ => Some demo_sys_fs) (demo_sys [0x30000; 0] 1 2) 0x9000 0xA000 0 0
    SEEK_END (demo_caller 1 1 2) (CpuContext CONTEXT_TYPE_CPU 0 true 0 0) (Node 0 0 0 0 0 false 1000 0) demo_sys_fs
    (demo_calling _ _ _)).
  - vm_compute. reflexivity.
  - vm_compute. congruence.
  - vm_compute. reflexivity.
  - reflexivity.
  - reflexivity.
Defined.

(** With every task in a run queue and unique ids, the walk of sys_waitpid over the ancestors
    terminates within one step per task when parents are older than their children, and finds
    the caller exactly when the task descends from it. *)
Theorem waitpid_ancestors {H} `{!KernelHeap H} (s : sched (vfs_state H)) (C : list Z) (Q : Z -> list Z)
    (id x : Z) (t : scheduler_task) :
  sched_wf s C Q -> C <> [] -> all_queued s C Q -> parents_older s -> sc_tasks s !! x = Some t ->
  exists b, has_ancestor id x s (size (sc_tasks s)) = Done b /\ (b = true <-> descends s id x).
Proof.
  intros W HC A Ho Ht. destruct (has_ancestor_spec s C Q id (size (sc_tasks s)) [] x t) as (b & E & Hb); try done.
  - constructor.
  - intros y Hy. by apply elem_of_nil in Hy.
  - exists b. split; [done|]. split; [intros ->; by eapply has_ancestor_descends|by apply Hb].
Qed.

(** The scheduler over a heap, with an empty file system. *)
Definition with_no_files {St} (s : sched St) : sched (vfs_state St) :=
  Sched (no_files (sc_heap s)) (sc_tasks s) (sc_contexts s) (sc_cpu_contexts s) (last_context s)
    (last_context_lock s) (last_id s) (last_id_lock s) (sc_cpu s).

Lemma sched_wf_no_files {St} `{!KernelHeap St} (s : sched St) C Q : sched_wf s C Q -> sched_wf (with_no_files s) C Q.
Proof. intros []. split; assumption. Qed.

Lemma waitpid_ancestors_witness :
  exists (s : sched (vfs_state (ba_state pa_state))) x, exists b, has_ancestor 1 x s (size (sc_tasks s)) = Done b.
Proof.
  destruct demo_sched as (table & h & p & name & s & n & x & t & cx & _ & _ & W & Ht & _ & _ & _ & _ & Hs & _).
  destruct (@waitpid_ancestors _ (ba_heap 0 table) (with_no_files s) [n] _ 1 x t
    (@sched_wf_no_files _ (ba_heap 0 table) s _ _ W)) as (b & E & _).
  - discriminate.
  - split; change (sc_tasks (with_no_files s)) with (sc_tasks s); rewrite Ht.
    + intros y ty [<- _]%lookup_singleton_Some. exists n. split; [by apply list_elem_of_singleton|].
      unfold add_queue. rewrite decide_True by done. by apply list_elem_of_singleton.
    + intros y z ty tz [<- _]%lookup_singleton_Some [<- _]%lookup_singleton_Some _. done.
  - intros y ty Hy. left. exact (demo_small_orphans s y ty Hs Hy).
  - change (sc_tasks (with_no_files s)) with (sc_tasks s). rewrite Ht. apply lookup_singleton_eq.
  - exists (with_no_files s), x, b. exact E.
Defined.

(** C8. sys_waitpid returns only the id it was called with, and only for a task with that id
    that descends from the caller through the ids of the parents, had not been waited for and is
    a zombie by then, whatever the other tasks do meanwhile; the low byte of its exit code is
    then at the status address, which is user memory. *)
Theorem waitpid_reports (hhdm : Z) {H} `{!KernelHeap H} `{!KernelHeapLaws H} (s : sched (vfs_state H)) (k p : Z)
    (t : scheduler_task) (cx : arch_cpu_context_t) (pid stat_loc v : Z)
    (turns : list (sched (vfs_state H) -> outcome (sched (vfs_state H)))) (s' : sched (vfs_state H)) :
  calling s k t p cx -> -9223372036854775808 <= pid < 9223372036854775808 ->
  sys_waitpid hhdm pid stat_loc turns s = Done (Some v, s') -> 0 <= v ->
  exists r tr tr', v = pid /\ sc_tasks s !! r = Some tr /\ t_id tr = pid /\ t_is_waited tr = false /\
    descends s (t_id t) r /\ IS_USER_MEMORY hhdm stat_loc t s = true /\
    sc_tasks s' !! r = Some tr' /\ t_run_mode tr' = RUN_MODE_ZOMBIE /\
    ld32 (sys_mem s') stat_loc = Z.land (t_exit_code tr') 255.
Proof.
  intros Hc Hpid E Hv. destruct (sys_waitpid_inv hhdm s k t p cx pid stat_loc turns v s' Hc Hpid E Hv) as (r & tr & Hw).
  rewrite (sys_waitpid_waits hhdm s k t p cx pid stat_loc r tr turns Hc Hw) in E.
  apply bind_done_inv in E as ([[|] s1] & Ey & E); [|done]. cbn [negb] in E.
  apply yield_until_ready in Ey. unfold is_zombie in Ey. destruct (sc_tasks s1 !! r) as [tr'|] eqn:Et; [|done].
  cbn [deref mbind outcome_bind] in E, Ey. injection Ey as Ez%Z.eqb_eq. injection E as <- <-.
  destruct Hw as [W1 W2 W3 W4 W5 W6 W7]. destruct (get_pid_id s pid r W2 W3) as (tr2 & Etr & Hid).
  assert (tr2 = tr) as -> by congruence.
  exists r, tr, tr'. split_and!; [done|done|done|done|by eapply has_ancestor_descends|done|exact Et|done|].
  rewrite sys_mem_set. apply ld32_st32_byte.
Qed.

Lemma waitpid_reports_witness :
  exists s' r tr', @sys_waitpid demo_hhdm _ (ba_heap 0 0) 2 0x5000 [] demo_wait = Done (Some 2, s') /\
    sc_tasks s' !! r = Some tr' /\ @ld32 (@sys_mem _ (ba_heap 0 0) s') 0x5000 = Z.land (t_exit_code tr') 255.
Proof.
  assert (match @sys_waitpid demo_hhdm _ (ba_heap 0 0) 2 0x5000 [] demo_wait with
    | Done (Some v, _) => v =? 2 | _ => false end = true) as Hd by (vm_compute; reflexivity).
  destruct (@sys_waitpid demo_hhdm _ (ba_heap 0 0) 2 0x5000 [] demo_wait) as [[[v|] s']| | | | ] eqn:E;
    [|discriminate Hd..]. apply Z.eqb_eq in Hd. subst v.
  destruct (@waitpid_reports demo_hhdm _ (ba_heap 0 0) (ba_heap_laws 0 0 hhdm_ok_0) demo_wait 0x9000 0xA000 demo_parent
    (CpuContext CONTEXT_TYPE_CPU 0 true 0 0xC000) 2 0x5000 2 [] s' demo_wait_calling) as (r & tr & tr' & _ & _ & _ & _ & _ & _ & H1 & _ & H2).
  - lia.
  - exact E.
  - lia.
  - exists s', r, tr'. split; [reflexivity|]. split; [exact H1|exact H2].
Defined.

(** sys_waitpid for a zombie returns its id at once and marks it, so that a second wait for it
    gives ECHILD. *)
Theorem waitpid_reaps_once (hhdm : Z) {H} `{!KernelHeap H} `{!KernelHeapLaws H} (s : sched (vfs_state H)) (k p : Z)
    (t : scheduler_task) (cx : arch_cpu_context_t) (pid stat_loc r : Z) (tr : scheduler_task)
    (turns : list (sched (vfs_state H) -> outcome (sched (vfs_state H)))) :
  calling s k t p cx -> waitable hhdm s t pid stat_loc r tr -> r <> k -> t_run_mode tr = RUN_MODE_ZOMBIE ->
  exists s', sys_waitpid hhdm pid stat_loc turns s = Done (Some pid, s') /\
    sys_mem s' = st32 (sys_mem s) stat_loc (Z.land (t_exit_code tr) 255) /\
    sc_tasks s' = <[r := set_t_is_waited true tr]> (sc_tasks s) /\
    forall s2 t2 loc2 turns2, calling s2 k t2 p cx -> task_scheduler_round_robin_get_pid pid s2 = Done r ->
      sc_tasks s2 !! r = sc_tasks s' !! r ->
      sys_waitpid hhdm pid loc2 turns2 s2 = Done (Some (- ECHILD), with_gs s2 k p).
Proof.
  intros Hc Hw Hrk Hz. rewrite (sys_waitpid_waits hhdm s k t p cx pid stat_loc r tr turns Hc Hw).
  set (s1 := with_tasks _ _). assert (sc_tasks s1 !! r = Some (set_t_is_waited true tr)) as Hr by apply lookup_insert_eq.
  rewrite yield_until_now by (unfold is_zombie; rewrite Hr; cbn [deref mbind outcome_bind]; simpl; by rewrite Hz).
  cbn [mbind outcome_bind negb]. cbn beta iota. rewrite Hr. cbn [deref mbind outcome_bind].
  eexists. split; [reflexivity|]. split_and!; [apply sys_mem_set|done|].
  intros s2 t2 loc2 turns2 Hc2 Hg H2. apply (waitpid_again hhdm s2 k t2 p cx pid loc2 r (set_t_is_waited true tr)); try done.
  - exact (wa_pid _ _ _ _ _ _ _ Hw).
  - rewrite H2. exact Hr.
Qed.

Lemma waitpid_reaps_once_witness :
  exists s', @sys_waitpid demo_hhdm _ (ba_heap 0 0) 2 0x5000 [] demo_wait = Done (Some 2, s').
Proof.
  destruct (@waitpid_reaps_once demo_hhdm _ (ba_heap 0 0) (ba_heap_laws 0 0 hhdm_ok_0) demo_wait 0x9000 0xA000 demo_parent
    (CpuContext CONTEXT_TYPE_CPU 0 true 0 0xC000) 2 0x5000 0xB000 demo_child [] demo_wait_calling demo_waitable)
    as (s' & E & _).
  - discriminate.
  - reflexivity.
  - exists s'. exact E.
Defined.

(** C13. sys_exit never returns and leaves a zombie that the scheduler does not choose;
    sys_waitpid of an ancestor then returns at once with the low byte of the exit code. *)
Theorem exit_reaches_parent (hhdm : Z) {H} `{!KernelHeap H} `{!KernelHeapLaws H} (s s2 : sched (vfs_state H))
    (k p parent p2 : Z) (t t2 : scheduler_task) (cx cx2 : arch_cpu_context_t) (code pid stat_loc : Z)
    (turns : list (sched (vfs_state H) -> outcome (sched (vfs_state H)))) :
  calling s k t p cx -> calling s2 parent t2 p2 cx2 ->
  sc_tasks s2 !! k = Some (exited code t) -> waitable hhdm s2 t2 pid stat_loc k (exited code t) -> k <> parent ->
  (forall b s', sys_exit code turns s = Done (b, s') -> b = false) /\
  (exists s1, sys_exit code [] s = Done (false, s1) /\ sc_tasks s1 = <[k := exited code t]> (sc_tasks s) /\
     runs (sc_tasks s1) k = false) /\
  (exists s3, sys_waitpid hhdm pid stat_loc turns s2 = Done (Some pid, s3) /\
     ld32 (sys_mem s3) stat_loc = Z.land code 255).
Proof.
  intros Hc Hc2 Hk Hw Hne. split_and!.
  - intros b s' E. rewrite (sys_exit_spec s k t p cx code turns Hc) in E. by apply yield_forever in E.
  - eexists. rewrite (sys_exit_spec s k t p cx code [] Hc). split; [reflexivity|]. split; [done|].
    unfold runs. simpl. rewrite lookup_insert_eq. unfold runnable. simpl. by rewrite orb_true_r.
  - rewrite (sys_waitpid_waits hhdm s2 parent t2 p2 cx2 pid stat_loc k _ turns Hc2 Hw).
    set (s1 := with_tasks _ _). assert (sc_tasks s1 !! k = Some (set_t_is_waited true (exited code t))) as Hr by apply lookup_insert_eq.
    rewrite yield_until_now by (unfold is_zombie; by rewrite Hr).
    cbn [mbind outcome_bind negb]. cbn beta iota. rewrite Hr. cbn [deref mbind outcome_bind].
    eexists. split; [reflexivity|]. rewrite sys_mem_set. apply ld32_st32_byte.
Qed.

Lemma exit_reaches_parent_witness :
  exists s1 s3, sys_exit 300 [] demo_exit = Done (false, s1) /\
    @sys_waitpid demo_hhdm _ (ba_heap 0 0) 2 0x5000 [] demo_wait = Done (Some 2, s3) /\
    ld32 (@sys_mem _ (ba_heap 0 0) s3) 0x5000 = 44.
Proof.
  destruct (@exit_reaches_parent demo_hhdm _ (ba_heap 0 0) (ba_heap_laws 0 0 hhdm_ok_0) demo_exit demo_wait 0xB000 0xA000
    0x9000 0xA000 demo_live demo_parent (CpuContext CONTEXT_TYPE_CPU 0 true 0 0xC000)
    (CpuContext CONTEXT_TYPE_CPU 0 true 0 0xC000) 300 2 0x5000 [] demo_exit_calling demo_wait_calling)
    as (_ & (s1 & E1 & _) & (s3 & E3 & H3)).
  - reflexivity.
  - exact demo_waitable.
  - discriminate.
  - exists s1, s3. split; [exact E1|]. split; [exact E3|exact H3].
Defined.
