(* ===== verification/Fork.v ===== *)
(** [sys_fork], continued: the child it makes. *)

From S2P Require Import Prelude Memory Libc Spinlock PageAllocator PageAllocatorSpec PageTable AddressSpace BlockAllocator BlockAllocatorSpec Paths KernelHeap Scheduler SchedulerSpec SchedulerProps Vfs VfsSpec Syscalls SyscallsSpec.

#[local] Existing Instance demo_source.
#[local] Existing Instance demo_source_laws.

Section ForkSpec.
Context (hhdm table : Z) {H : Type} `{!KernelHeap H} `{!KernelHeapLaws H}.
Context (filesystems : Z -> option (vfs_fs_ops (vfs_state H))).
Implicit Types s : sched (vfs_state H).

Lemma set_task_done s f x t s' :
  sc_tasks s !! x = Some t -> set_task f x s = Done s' ->
  sc_tasks s' = <[x := f t]> (sc_tasks s) /\ sc_contexts s' = sc_contexts s /\ last_id s' = last_id s.
Proof using.
  intros Ht. unfold set_task. rewrite (update_task_done _ _ _ t Ht). cbn [mbind outcome_bind]. by intros [= <-].
Qed.

Lemma on_files_done {A} (f : vfs_state H -> outcome (A * vfs_state H)) s a s' :
  on_files f s = Done (a, s') -> exists h, f (sc_heap s) = Done (a, h) /\ s' = with_heap s h.
Proof using. intros E. apply bind_done_inv in E as ([a' h] & E & [= -> <-]). by exists h. Qed.

(** Everything after the creation of the task only changes the record of the
    child. *)
Lemma fork_tail s child tc parent state pid s' :
  sc_tasks s !! child = Some tc ->
  (s ← arch_save_simd_state child s;
   s ← set_task (set_t_ppid (t_id parent)) child s;
   '(child_pt, s) ← on_files arch_table_manager_new s;
   let parent_pt := r_cr3 state +w hhdm in
   let s := with_heap s (share_higher_half table child_pt 0x100 256 (sc_heap s)) in
   h ← copy_address_space hhdm child_pt parent_pt (sc_heap s);
   let s := with_heap s h in
   s ← set_task (set_t_state (fork_state parent state (child_pt -w hhdm))) child s;
   '(fds, s) ← on_files (kh_page_allocate (t_fd_allocated_pages parent)) s;
   s ← set_task (set_t_fds (t_fd_count parent) (t_fd_max parent) fds (t_fd_allocated_pages parent)) child s;
   h ← dup_fds filesystems (t_fd_translation parent) fds 0 (Z.to_nat (t_fd_count parent)) (sc_heap s);
   let s := with_heap s h in
   s ← set_task (set_t_empty false) child s;
   c ← deref (sc_tasks s !! child);
   Done (s64 (t_id c), s)) = Done (pid, s') ->
  exists child_pt fds, pid = s64 (t_id tc) /\ sc_contexts s' = sc_contexts s /\ last_id s' = last_id s /\
    sc_tasks s' = <[child :=
      set_t_empty false (set_t_fds (t_fd_count parent) (t_fd_max parent) fds (t_fd_allocated_pages parent)
        (set_t_state (fork_state parent state (child_pt -w hhdm))
          (set_t_ppid (t_id parent) (set_t_simd_state (cpu_simd (sc_cpu s)) tc))))]> (sc_tasks s).
Proof using.
  intros Htc E. unfold arch_save_simd_state in E. rewrite (update_task_done _ _ _ tc Htc) in E. cbn [mbind outcome_bind] in E.
  set (s1 := with_tasks s _) in E. assert (sc_tasks s1 !! child = Some (set_t_simd_state (cpu_simd (sc_cpu s)) tc)) as H1
    by apply lookup_insert_eq.
  apply bind_done_inv in E as (s2 & E2 & E). destruct (set_task_done _ _ _ _ _ H1 E2) as (T2 & C2 & L2).
  apply bind_done_inv in E as ([child_pt s3] & E3 & E). apply on_files_done in E3 as (h3 & _ & ->). cbv zeta in E.
  apply bind_done_inv in E as (h4 & _ & E). apply bind_done_inv in E as (s5 & E5 & E).
  eapply set_task_done in E5 as (T5 & C5 & L5); [|simpl; rewrite T2; apply lookup_insert_eq].
  apply bind_done_inv in E as ([fds s6] & E6 & E). apply on_files_done in E6 as (h6 & _ & ->).
  apply bind_done_inv in E as (s7 & E7 & E).
  eapply set_task_done in E7 as (T7 & C7 & L7); [|simpl; rewrite T5; apply lookup_insert_eq].
  apply bind_done_inv in E as (h8 & _ & E). apply bind_done_inv in E as (s9 & E9 & E).
  eapply set_task_done in E9 as (T9 & C9 & L9); [|simpl; rewrite T7; apply lookup_insert_eq].
  rewrite T9, lookup_insert_eq in E. cbn [deref mbind outcome_bind] in E. injection E as <- <-.
  exists child_pt, fds. simpl in *. split_and!; [done|congruence|congruence|].
  rewrite T9. simpl. rewrite T7. simpl. rewrite T5. simpl. rewrite T2. simpl. by rewrite !insert_insert_eq.
Qed.
End ForkSpec.

(** * A concrete fork *)

(** A task with the name at [name] and one page of descriptors. *)
Definition demo_forker (name : Z) (t : scheduler_task) : scheduler_task :=
  Task 1 0 0x7000 [] zero_state name 2 false 0 0 0 false 0 0 512 0 1 0 (t_next t) (t_previous t).

(** The one task of the scheduler calls. *)
Definition demo_fork (p name : Z) (s : sched (ba_state pa_state)) : sched (vfs_state (ba_state pa_state)) :=
  let x := match map_to_list (sc_tasks s) with (x, _) :: _ => x | [] => 0 end in
  with_gs (with_tasks (with_no_files s) (demo_forker name <$> sc_tasks s)) x p.

(** The registers at the call; nothing is mapped. *)
Definition demo_registers : arch_cpu_state_t :=
  CpuState 0x40000000 4 0 0x1234 0 0 0 0 0 0 0 0x202 0 0 0 0 0 0 0 0 0 0.

Lemma demo_fork_ready `{!KernelHeap (ba_state pa_state)} (s : sched (ba_state pa_state)) n x t p cx name :
  sched_wf s [n] (add_queue (fun _ => []) n x) -> sc_tasks s = {[x := t]} -> on_cpu s p 0 cx ->
  sched_wf (demo_fork p name s) [n] (add_queue (fun _ => []) n x) /\
  calling (demo_fork p name s) x (demo_forker name t) p cx.
Proof.
  intros W Ht Hoc.
  assert (sc_tasks (demo_fork p name s) = <[x := demo_forker name t]> (sc_tasks (with_no_files s))) as Et.
  { unfold demo_fork. simpl. rewrite Ht, map_fmap_singleton. symmetry. apply insert_singleton_eq. }
  assert (is_Some (sc_tasks s !! x)) as Hx by (rewrite Ht, lookup_singleton_eq; by eexists).
  pose proof (sched_wf_update (with_no_files s) [n] _ x t (demo_forker name t) (sched_wf_no_files s _ _ W)
    ltac:(simpl; rewrite Ht; apply lookup_singleton_eq) eq_refl) as W1.
  assert (x <> 0) as Hx0.
  { destruct (sw_queue _ _ _ W n) as (c & _ & Hq & _); [by apply list_elem_of_singleton|].
    unfold add_queue in Hq. rewrite decide_True in Hq by done. intros ->. apply (qr_nonzero _ _ _ Hq). by apply list_elem_of_singleton. }
  assert (sc_tasks (demo_fork p name s) !! x = Some (demo_forker name t)) as Hxt by (rewrite Et; apply lookup_insert_eq).
  split.
  - rewrite <- Et in W1. destruct W1. split; try done.
  - split; [|exact Hxt|exact Hx0|exact (sw_apart _ _ _ W x Hx)|done].
    destruct Hoc as [O1 O2 O3 O4 O5]. split; [|exact O2|exact O3|exact O4|].
    + right. unfold demo_fork. simpl. rewrite Ht, map_to_list_singleton. done.
    + right. split; [exact (sw_apart _ _ _ W x Hx)|]. exists (demo_forker name t). split; [exact Hxt|done].
Qed.

Lemma demo_fork_named table (s : sched (ba_state pa_state)) p name :
  @named _ (ba_heap 0 table) (sc_heap s) name demo_name ->
  @named _ (@vfs_heap _ (ba_heap 0 table)) (sc_heap (demo_fork p name s)) name demo_name.
Proof.
  intros Hnm p1 s1 E1. apply lift_op_done in E1 as (h1 & E1 & ->). destruct (Hnm p1 h1 E1) as [N1 N2]. split; [exact N1|].
  intros p2 s2 E2. apply lift_op_done in E2 as (h2 & E2 & ->). exact (N2 p2 h2 E2).
Qed.

(** * Properties *)

(** C14. When sys_fork returns, a task with the next id, that id being the result, is at the end
    of a shortest run queue; it can run, its parent is the caller, it continues at the return
    address of the call (rcx) with rax, rcx and r11 zero, interrupts enabled, the user selectors
    and user stack pointer, and every other register as the caller has it, and no other task
    changed except for its link. *)
Theorem fork_child (hhdm table : Z) {H} `{!KernelHeap H} `{!KernelHeapLaws H}
    (filesystems : Z -> option (vfs_fs_ops (vfs_state H))) (s : sched (vfs_state H)) (C : list Z) (Q : Z -> list Z)
    (k p : Z) (t : scheduler_task) (cx : arch_cpu_context_t) (n : list Z) (state : arch_cpu_state_t)
    (pid : Z) (s' : sched (vfs_state H)) :
  calling s k t p cx -> sched_wf s C Q -> C <> [] -> kh_fits [Z.of_nat (length n)] (sc_heap s) ->
  named (sc_heap s) (t_name t) n -> 0 <= last_id s < 2147483647 ->
  (forall c, c ∈ C -> Z.of_nat (length (Q c)) + 1 < 9223372036854775808) ->
  sys_fork hhdm table filesystems state s = Done (pid, s') ->
  exists child c q tc, pid = last_id s + 1 /\ last_id s' = pid /\
    c ∈ C /\ (forall d, d ∈ C -> (length (Q c) <= length (Q d))%nat) /\
    sc_contexts s' !! c = Some q /\ queue_rep (sc_tasks s') (c_running q) (Q c ++ [child]) /\
    sc_tasks s !! child = None /\ sc_tasks s' !! child = Some tc /\
    t_id tc = pid /\ t_ppid tc = t_id t /\ runnable tc = true /\
    (let r := t_state tc in
     r_rip r = r_rcx state /\ r_rax r = 0 /\ r_rcx r = 0 /\ r_r11 r = 0 /\ r_cs r = 35 /\ r_ss r = 27 /\
     r_rflags r = Z.lor (r_r11 state) 512 /\ r_rsp r = t_userspace_stack_top t /\
     [r_rbx r; r_rdx r; r_rsi r; r_rdi r; r_rbp r; r_r8 r; r_r9 r; r_r10 r; r_r12 r; r_r13 r; r_r14 r; r_r15 r; r_error r] =
     [r_rbx state; r_rdx state; r_rsi state; r_rdi state; r_rbp state; r_r8 state; r_r9 state; r_r10 state;
      r_r12 state; r_r13 state; r_r14 state; r_r15 state; r_error state]) /\
    t_fd_count tc = t_fd_count t /\ t_fd_max tc = t_fd_max t /\
    forall y ty, sc_tasks s !! y = Some ty -> exists v, sc_tasks s' !! y = Some (set_t_next v ty).
Proof.
  intros Hc W HC Hfit Hnm Hid Hlen E. unfold sys_fork in E.
  destruct (caller_spec _ _ _ _ _ Hc) as [Ec Hc1]. rewrite Ec in E. cbn [mbind outcome_bind] in E. cbn beta iota in E.
  assert (sched_wf (with_gs s k p) C Q) as W1 by (by destruct W; split).
  destruct (create_spec (with_gs s k p) C Q p k cx (t_name t) n W1 HC (ca_cpu _ _ _ _ _ Hc1) Hfit Hnm Hid Hlen)
    as [E1|(x & s1 & c & stack & copy & fds & E1 & Hin & Hmin & W2 & Hxn & Hl & Hx & _ & _ & _ & Hoth)];
    rewrite E1 in E; cbn [mbind outcome_bind] in E; [done|]. cbn beta iota in E.
  apply (fork_tail hhdm table filesystems s1 x _ t state pid s' Hx) in E as (child_pt & fds' & Ep & Ecx & El & Et).
  change (last_id (with_gs s k p)) with (last_id s) in *. simpl in Ep. rewrite s64_small in Ep by lia.
  destruct (sw_queue _ _ _ W2 c Hin) as (q & Eq & Hq & _).
  set (tc := set_t_empty false _) in Et. exists x, c, q, tc.
  assert (sc_tasks s' !! x = Some tc) as Hxc by (rewrite Et; apply lookup_insert_eq).
  split_and!; try done; try (rewrite ?Ecx, ?El; congruence).
  - apply (queue_rep_ext (sc_tasks s1)).
    + intros y Hy. unfold tnext. destruct (decide (y = x)) as [->|Hne]; [by rewrite Hxc, Hx|].
      rewrite Et, lookup_insert_ne by done. done.
    + unfold push_queue in Hq. by rewrite decide_True in Hq.
  - intros y ty Hy. destruct (Hoth y ty Hy) as [v Hv]. exists v. rewrite Et, lookup_insert_ne; [done|]. simpl in Hxn. congruence.
Qed.

Lemma fork_child_witness :
  exists table s pid s', @sys_fork 0 table _ (ba_heap 0 table) (fun _ => None) demo_registers s = Done (pid, s') /\
    pid = 1 /\ exists child tc, sc_tasks s' !! child = Some tc /\ t_id tc = 1 /\ r_rip (t_state tc) = 0x1234.
Proof.
  assert (is_done ('(table, h) ← demo_boot; '(p, name, s) ← demo_install table h;
    @sys_fork 0 table _ (ba_heap 0 table) (fun _ => None) demo_registers (demo_fork p name s)) = true) as Hd
    by (vm_compute; reflexivity).
  destruct demo_sched as (table & h & p & name & s & n & x & t & cx & Eb & Ei & W & Ht & _ & _ & Hoc & _ & Hs & _ & Hnm).
  rewrite Eb in Hd. cbn [mbind outcome_bind] in Hd. rewrite Ei in Hd. cbn [mbind outcome_bind] in Hd.
  apply is_done_inv in Hd as ([pid s'] & E). destruct (demo_small_inv s 2 Hs ltac:(lia)) as (H0 & Hf1 & Hf2).
  destruct (@demo_fork_ready (ba_heap 0 table) s n x t p cx name W Ht Hoc) as [W1 Hc].
  destruct (@fork_child 0 table _ (ba_heap 0 table) (ba_heap_laws 0 table hhdm_ok_0) (fun _ => None) (demo_fork p name s) [n]
    _ x p (demo_forker name t) cx demo_name demo_registers pid s' Hc W1)
    as (child & c & q & tc & Ep & _ & _ & _ & _ & _ & _ & H1 & H2 & _ & _ & H3 & _).
  - discriminate.
  - split; [exact Hf1|exact Hf2].
  - exact (demo_fork_named table s p name Hnm).
  - change (last_id (demo_fork p name s)) with (last_id s). rewrite H0. lia.
  - intros d Hd. unfold add_queue. case_decide; simpl; lia.
  - exact E.
  - change (last_id (demo_fork p name s)) with (last_id s) in Ep. rewrite H0 in Ep.
    exists table, (demo_fork p name s), pid, s'. split; [exact E|]. split; [exact Ep|].
    exists child, tc. split; [exact H1|]. split; [rewrite H2; exact Ep|]. exact (proj1 H3).
Defined.
