(* ===== verification/DeviceManager.v ===== *)
(** The device manager, [devices/manager.c] and [manager.h]: the tree of the
    devices and the file system [devfs] over it.

    Devices are kept in a typed heap indexed by their addresses; their names are
    bytes of the memory.  The functions of a device are addresses, 0 for none,
    of code that is a parameter.  Printing the tree is left out. *)

From S2P Require Import Prelude Memory Libc Spinlock Paths KernelHeap Vfs.

(** [device_type_t]. *)
Definition DEV_OTHER : Z := 0.
Definition DEV_RESERVED : Z := 1.
Definition DEV_SERIAL : Z := 2.
Definition DEV_FRAMEBUFFER : Z := 3.
Definition DEV_TIMER : Z := 4.
Definition DEV_HMI : Z := 5.
Definition DEV_MODULE : Z := 6.
Definition DEV_ACPI_TABLE : Z := 7.

Record device := Device {
  d_name : Z;
  d_name_length : Z;
  d_type : Z;
  d_read : Z;
  d_write : Z;
  d_initialise_node : Z;
  d_parent : Z;
  d_child : Z;
  d_next : Z;
  d_prev : Z
}.

Definition sizeof_device : Z := 80.

Definition set_d_parent (v : Z) (d : device) : device :=
  Device (d_name d) (d_name_length d) (d_type d) (d_read d) (d_write d) (d_initialise_node d) v (d_child d)
    (d_next d) (d_prev d).
Definition set_d_child (v : Z) (d : device) : device :=
  Device (d_name d) (d_name_length d) (d_type d) (d_read d) (d_write d) (d_initialise_node d) (d_parent d) v
    (d_next d) (d_prev d).
Definition set_d_next (v : Z) (d : device) : device :=
  Device (d_name d) (d_name_length d) (d_type d) (d_read d) (d_write d) (d_initialise_node d) (d_parent d)
    (d_child d) v (d_prev d).
Definition set_d_name_length (v : Z) (d : device) : device :=
  Device (d_name d) v (d_type d) (d_read d) (d_write d) (d_initialise_node d) (d_parent d) (d_child d)
    (d_next d) (d_prev d).

(** * The devices next to the heap *)

Record dev_state (H : Type) := Devs {
  dv_heap : H;
  dv_devices : gmap Z device;
  device_list : Z
}.
Arguments Devs {H}.
Arguments dv_heap {H}.
Arguments dv_devices {H}.
Arguments device_list {H}.

Definition with_dv_heap {H} (s : dev_state H) (h : H) : dev_state H := Devs h (dv_devices s) (device_list s).

#[export] Instance dev_heap {H} `{!KernelHeap H} : KernelHeap (dev_state H) := lift_heap dv_heap with_dv_heap.

#[export] Instance dev_heap_laws {H} `{!KernelHeap H} `{!KernelHeapLaws H} : KernelHeapLaws (dev_state H).
Proof. by apply lift_heap_laws. Qed.

(** * Strings *)

(** [for (dir_len = 0; path[dir_len] != '/' && path[dir_len] != 0; dir_len++)]. *)
Fixpoint dir_length (m : mem) (path : Z) (fuel : nat) : outcome Z :=
  match fuel with
  | O => Timeout
  | S fuel' =>
      if (ld8 m path =? SLASH) || (ld8 m path =? 0) then Done 0
      else n ← dir_length m (path + 1) fuel'; Done (n + 1)
  end.

(** [if ( *path == '/') path++]. *)
Definition skip_slash (m : mem) (path : Z) : Z := if ld8 m path =? SLASH then path + 1 else path.

(** [dir_len == dev->name_length && strncmp(name, dev->name, dir_len) == 0]. *)
Definition same_name (m : mem) (name len : Z) (d : device) : bool :=
  (len =? d_name_length d) && (strncmp m name (d_name d) len =? 0).

(** [while (dev)] over a list, to the first device with the name; 0 if there is
    none. *)
Fixpoint find_device (m : mem) (devices : gmap Z device) (name len dev : Z) (fuel : nat) : outcome Z :=
  if dev =? 0 then Done 0 else
  match fuel with
  | O => Timeout
  | S fuel' =>
      d ← deref (devices !! dev);
      if same_name m name len d then Done dev else find_device m devices name len (d_next d) fuel'
  end.

(** The loop that looks for the last device of a list; [None] when the name of
    one starts with the path. *)
Fixpoint last_device (m : mem) (devices : gmap Z device) (path last current : Z) (fuel : nat) :
    outcome (option Z) :=
  if current =? 0 then Done (Some last) else
  match fuel with
  | O => Timeout
  | S fuel' =>
      d ← deref (devices !! current);
      if strncmp m (d_name d) path (strlen m path) =? 0 then Done None
      else last_device m devices path current (d_next d) fuel'
  end.

Section Model.
Context {H : Type} `{!KernelHeap H}.
Abbreviation state := (vfs_state (dev_state H)).
Implicit Types s : state.

(** The string ["."], the functions of the devices, and the ones that prepare a
    node. *)
Context (dot : Z).
Context (functions : Z -> option (Z -> Z -> Z -> state -> outcome (Z * state))).
Context (initialisers : Z -> option (Z -> state -> outcome state)).

Definition devices s : gmap Z device := dv_devices (vs_heap s).
Definition root_list s : Z := device_list (vs_heap s).
Definition set_devices s (ds : gmap Z device) : state :=
  set_heap s (Devs (dv_heap (vs_heap s)) ds (device_list (vs_heap s))).
Definition set_device_list s (p : Z) : state :=
  set_heap s (Devs (dv_heap (vs_heap s)) (dv_devices (vs_heap s)) p).

(** [dev->field = v]. *)
Definition update_device (f : device -> device) (p : Z) s : outcome state :=
  d ← deref (devices s !! p); Done (set_devices s (<[p := f d]> (devices s))).

Definition allocate_device (path type initialise_node read write : Z) s : outcome (Z * state) :=
  '(dev, s) ← kh_block_allocate sizeof_device s;
  let path_len := strlen (fs_mem s) path in
  '(name, s) ← kh_block_allocate path_len s;
  let s := set_devices s (<[dev := Device name path_len type read write initialise_node 0 0 0 0]> (devices s)) in
  Done (dev, set_mem s (memcpy (fs_mem s) name path path_len)).

Definition allocate_dummy s : outcome (Z * state) := allocate_device dot DEV_RESERVED 0 0 0 s.

(** ** Paths of devices *)

(** The device and its parents. *)
Fixpoint hierarchy_of (ds : gmap Z device) (current_list : Z) (fuel : nat) : outcome (list Z) :=
  if current_list =? 0 then Done [] else
  match fuel with
  | O => Timeout
  | S fuel' =>
      d ← deref (ds !! current_list);
      rest ← hierarchy_of ds (d_parent d) fuel';
      Done (current_list :: rest)
  end.

Fixpoint store_words (m : mem) (p : Z) (l : list Z) : mem :=
  match l with
  | [] => m
  | v :: l' => store_words (st64 m p v) (p + 8) l'
  end.

(** The loop from [hierarchy[i - 1]] down to [hierarchy[0]]. *)
Fixpoint write_path (ds : gmap Z device) (m : mem) (hierarchy path path_len offset : Z) (i : nat) :
    outcome (mem * Z) :=
  match i with
  | O => Done (m, offset)
  | S i' =>
      d ← deref (ds !! ld64 m (hierarchy + 8 * Z.of_nat i'));
      let name := d_name d in
      if path_len <=? offset then Done (m, offset) else
      let m := st8 m (path + offset) SLASH in
      let offset := offset + 1 in
      if path_len <=? offset then Done (m, offset) else
      let m := memcpy m (path + offset) name (u64 (min (strlen m name) (path_len -w offset))) in
      write_path ds m hierarchy path path_len (offset +w strlen m name) i'
  end.

Definition device_generate_path_of (device path path_len : Z) s : outcome (Z * state) :=
  chain ← hierarchy_of (devices s) device (size (devices s));
  '(hierarchy, s) ← kh_block_allocate (8 * Z.of_nat (length chain)) s;
  let s := set_mem s (store_words (fs_mem s) hierarchy chain) in
  '(m, offset) ← write_path (devices s) (fs_mem s) hierarchy path (path_len -w 1) 0 (length chain);
  let s := set_mem s (st8 m (path + offset) 0) in
  s ← kh_block_deallocate hierarchy s;
  Done (path, s).

(** ** Creating a device *)

(** [strcpy] and [vfs_sanatise_path] into a new block, and the path after its
    first delimiter with its offset. *)
Definition prepare_path (path : Z) s : outcome (Z * Z * Z * state) :=
  '(copy, s) ← kh_block_allocate (strlen (fs_mem s) path + 1) s;
  '(m, _) ← vfs_sanatise_path (strcpy (fs_mem s) copy path) copy;
  let s := set_mem s m in
  Done (copy, skip_slash m copy, skip_slash m copy - copy, s).

(** The search for a directory: its list of children is created when it has
    none; 0 when there is no such directory. *)
Definition enter_directory (name dir_len list : Z) s : outcome (Z * Z * state) :=
  dev ← find_device (fs_mem s) (devices s) name dir_len list (size (devices s));
  if dev =? 0 then Done (0, list, s) else
  d ← deref (devices s !! dev);
  '(child, s) ← (if d_child d =? 0 then
      '(child, s) ← allocate_dummy s;
      s ← update_device (set_d_child child) dev s;
      Done (child, s)
    else Done (d_child d, s));
  s ← update_device (set_d_parent dev) child s;
  Done (dev, child, s).

(** One fragment of a path that goes on: the directory, the list to continue in
    and the rest of the path. *)
Definition walk_directory (path dir_len list : Z) s : outcome (Z * Z * state) :=
  '(name, s) ← kh_block_allocate dir_len s;
  let s := set_mem s (memcpy (fs_mem s) name path dir_len) in
  '(dev, list, s) ← enter_directory name dir_len list s;
  s ← kh_block_deallocate name s;
  Done (dev, list, s).

(** The last fragment of a path. *)
Definition create_last (path_orig path list type initialise_node read write : Z) s : outcome (Z * state) :=
  let create_as_dir := ld8 (fs_mem s) (path + strlen (fs_mem s) path - 1) =? SLASH in
  last ← last_device (fs_mem s) (devices s) path 0 list (size (devices s));
  match last with
  | None => s ← kh_block_deallocate path_orig s; Done (0, s)
  | Some last =>
      '(dev, s) ← allocate_device path type initialise_node read write s;
      s ← update_device (set_d_next dev) last s;
      l ← deref (devices s !! last);
      s ← update_device (set_d_parent (d_parent l)) dev s;
      s ← (if create_as_dir then
             '(child, s) ← allocate_dummy s;
             s ← update_device (set_d_child child) dev s;
             d ← deref (devices s !! dev);
             s ← update_device (set_d_name_length (d_name_length d -w 1)) dev s;
             Done (set_mem s (st8 (fs_mem s) (d_name d + strlen (fs_mem s) (d_name d) - 1) 0))
           else Done s);
      s ← kh_block_deallocate path_orig s;
      Done (dev, s)
  end.

(** The loop of [device_create_at] and, for a directory that is not there, the
    call of itself on the path up to it. *)
Fixpoint create_walk (fuel : nat) (path_orig path offset list type initialise_node read write : Z) s :
    outcome (Z * state) :=
  match fuel with
  | O => Timeout
  | S fuel' =>
      let m := fs_mem s in
      if ld8 m path =? 0 then s ← kh_block_deallocate path_orig s; Done (0, s) else
      dir_len ← dir_length m path (S (size m));
      if dir_len =? 0 then create_walk fuel' path_orig (path + 1) (offset + 1) list type initialise_node read write s
      else if (ld8 m (path + dir_len) =? SLASH) && negb (ld8 m (path + dir_len + 1) =? 0) then
        '(dev, list, s) ← walk_directory path dir_len list s;
        let offset := offset + (skip_slash (fs_mem s) (path + dir_len) - path) in
        let path := skip_slash (fs_mem s) (path + dir_len) in
        if dev =? 0 then
          '(parent, s) ← kh_block_allocate offset s;
          let s := set_mem s (memcpy (fs_mem s) parent path_orig (offset - 1)) in
          '(parent_orig, parent_path, parent_offset, s) ← prepare_path parent s;
          '(new, s) ← create_walk fuel' parent_orig parent_path parent_offset (root_list s) DEV_RESERVED 0 0 0 s;
          _ ← deref (devices s !! new);
          '(child, s) ← allocate_dummy s;
          s ← update_device (set_d_child child) new s;
          s ← update_device (set_d_parent new) child s;
          s ← kh_block_deallocate parent s;
          create_walk fuel' path_orig path offset child type initialise_node read write s
        else create_walk fuel' path_orig path offset list type initialise_node read write s
      else create_last path_orig path list type initialise_node read write s
  end.

(** Each round consumes a character, and the call for a missing directory walks
    over directories that are there. *)
Definition device_create_at (path type initialise_node read write : Z) s : outcome (Z * state) :=
  let fuel := S (S (Z.to_nat (2 * strlen (fs_mem s) path))) in
  '(path_orig, path, offset, s) ← prepare_path path s;
  create_walk fuel path_orig path offset (root_list s) type initialise_node read write s.

(** ** Finding a device by its type *)

(** The result is the path or 0, the index that is left and the state. *)
Fixpoint device_get_by_type_recursive (fuel : nat) (dev type path path_len index : Z) s :
    outcome (Z * Z * state) :=
  if dev =? 0 then Done (0, index, s) else
  match fuel with
  | O => Timeout
  | S fuel' =>
      d ← deref (devices s !! dev);
      if (d_type d =? type) && (index =? 0) then
        '(r, s) ← device_generate_path_of dev path path_len s; Done (r, index -w 1, s)
      else
        let index := if d_type d =? type then index -w 1 else index in
        '(ret, index, s) ← (if d_child d =? 0 then Done (0, index, s)
                            else device_get_by_type_recursive fuel' (d_child d) type path path_len index s);
        if negb (ret =? 0) then Done (ret, index, s)
        else device_get_by_type_recursive fuel' (d_next d) type path path_len index s
  end.

Definition device_get_by_type (type path path_len index : Z) s : outcome (Z * state) :=
  '(ret, _, s) ← device_get_by_type_recursive (S (size (devices s))) (root_list s) type path path_len index s;
  Done (ret, s).

(** ** The file system *)

(** The node of an open device. *)
Definition open_device (fs path_orig mode dev : Z) s : outcome (Z * state) :=
  d ← deref (devices s !! dev);
  if negb (Z.land mode O_RDONLY =? 0) && (d_read d =? 0) then Done (error_ptr (- EACCES), s) else
  if negb (Z.land mode O_WRONLY =? 0) && (d_write d =? 0) then Done (error_ptr (- EACCES), s) else
  '(node, s) ← kh_block_allocate sizeof_node s;
  let path_len := strlen (fs_mem s) path_orig in
  '(copy, s) ← kh_block_allocate path_len s;
  let s := set_mem s (memcpy (fs_mem s) copy path_orig path_len) in
  let s := set_nodes s (<[node := Node copy path_len mode 0 0 true fs dev]> (vs_nodes s)) in
  if d_initialise_node d =? 0 then Done (node, s) else
  initialise ← deref (initialisers (d_initialise_node d));
  s ← initialise node s;
  Done (node, s).

Fixpoint open_walk (fuel : nat) (fs path_orig path mode list : Z) s : outcome (Z * state) :=
  match fuel with
  | O => Timeout
  | S fuel' =>
      let m := fs_mem s in
      if ld8 m path =? 0 then Done (error_ptr (- ENOENT), s) else
      dir_len ← dir_length m path (S (size m));
      if dir_len =? 0 then open_walk fuel' fs path_orig (path + 1) mode list s
      else if (ld8 m (path + dir_len) =? SLASH) && negb (ld8 m (path + dir_len + 1) =? 0) then
        '(dev, list, s) ← walk_directory path dir_len list s;
        if dev =? 0 then Done (error_ptr (- ENOENT), s)
        else open_walk fuel' fs path_orig (skip_slash (fs_mem s) (path + dir_len)) mode list s
      else
        dev ← find_device m (devices s) path dir_len list (size (devices s));
        if dev =? 0 then Done (error_ptr (- ENOENT), s) else open_device fs path_orig mode dev s
  end.

Definition devfs_open (fs path mode : Z) s : outcome (Z * state) :=
  open_walk (S (Z.to_nat (strlen (fs_mem s) path))) fs path (skip_slash (fs_mem s) path) mode (root_list s) s.

Definition devfs_close (node : Z) s : outcome state :=
  n ← deref (vs_nodes s !! node);
  s ← (if n_path n =? 0 then Done s else kh_block_deallocate (n_path n) s);
  s ← kh_block_deallocate node s;
  Done (set_nodes s (delete node (vs_nodes s))).

Definition devfs_read (node buffer size : Z) s : outcome (Z * state) :=
  n ← deref (vs_nodes s !! node);
  d ← deref (devices s !! n_private n);
  if d_read d =? 0 then Done (- EBADF, s) else
  read ← deref (functions (d_read d));
  read node buffer size s.

Definition devfs_write (node buffer size : Z) s : outcome (Z * state) :=
  n ← deref (vs_nodes s !! node);
  d ← deref (devices s !! n_private n);
  if d_write d =? 0 then Done (- EBADF, s) else
  write ← deref (functions (d_write d));
  write node buffer size s.

Definition set_positions (seek max : Z) (n : vfs_fs_node) : vfs_fs_node :=
  Node (n_path n) (n_path_length n) (n_mode n) seek max (n_is_device n) (n_fs n) (n_private n).

Definition devfs_dup (node : Z) s : outcome (Z * state) :=
  n ← deref (vs_nodes s !! node);
  '(new_node, s) ← devfs_open (n_fs n) (n_path n) (n_mode n) s;
  new ← deref (vs_nodes s !! new_node);
  Done (new_node, set_nodes s (<[new_node := set_positions (n_seek_position n) (n_max_seek_position n) new]> (vs_nodes s))).

(** The operations that [device_manager_init] installs. *)
Definition devfs : vfs_fs_ops state :=
  Ops (Some devfs_open) (Some devfs_read) (Some devfs_write) None (Some devfs_close) (Some devfs_dup) None None None.

(** The creation of the detected devices, [create_devices], is their drivers'. *)
Definition device_manager_init (dev_path devfs_address : Z) (create_devices : state -> outcome state) s :
    outcome state :=
  s ← vfs_mount_fs dev_path devfs_address s;
  '(head, s) ← allocate_dummy s;
  create_devices (set_device_list s head).
End Model.
