(* ===== verification/DeviceManagerSpec.v ===== *)
(** The device manager, continued: the lists of devices, the search of [devfs]
    for a device of the top list, concrete trees, and the properties. *)

From S2P Require Import Prelude Memory Libc Spinlock PageAllocator PageAllocatorSpec PageTable BlockAllocator BlockAllocatorSpec Paths KernelHeap Vfs VfsSpec Ustar UstarSpec TarImage DeviceManager.

#[local] Existing Instance demo_source.
#[local] Existing Instance demo_source_laws.

(** * Lists of devices *)

Record dev_entry := DevEntry { de_address : Z; de_name : list Z }.

(** The devices [L] are chained from [p] on, their names in memory. *)
Fixpoint dev_chain (m : mem) (ds : gmap Z device) (p : Z) (L : list dev_entry) : Prop :=
  match L with
  | [] => p = 0
  | e :: L' => p = de_address e /\ p <> 0 /\
      exists d, ds !! p = Some d /\ d_name_length d = Z.of_nat (length (de_name e)) /\
        bytes m (d_name d) (length (de_name e)) = de_name e /\ dev_chain m ds (d_next d) L'
  end.

(** The first device with the name. *)
Fixpoint find_entry (name : list Z) (L : list dev_entry) : option dev_entry :=
  match L with
  | [] => None
  | e :: L' => if decide (de_name e = name) then Some e else find_entry name L'
  end.

Lemma find_entry_in name L e : find_entry name L = Some e -> e ∈ L /\ de_name e = name.
Proof.
  induction L as [|g L IH]; cbn [find_entry]; [done|]. case_decide; [intros [= <-]; split; [apply list_elem_of_here|done]|].
  intros E. destruct (IH E). split; [by apply list_elem_of_further|done].
Qed.

Lemma dev_chain_lookup m ds L e : forall p, dev_chain m ds p L -> e ∈ L ->
  de_address e <> 0 /\ exists d, ds !! de_address e = Some d.
Proof.
  induction L as [|g L IH]; intros p; cbn [dev_chain]; [intros _ He; by apply elem_of_nil in He|].
  intros (-> & H0 & d & Hd & _ & _ & HL) [->|He]%elem_of_cons; [by split; [|exists d]|by eapply IH].
Qed.

Lemma find_device_spec m ds path p n L : forall dev fuel,
  cstr m path p -> (n <= length p)%nat -> dev_chain m ds dev L -> (length L <= fuel)%nat ->
  find_device m ds path (Z.of_nat n) dev fuel = Done (default 0 (de_address <$> find_entry (take n p) L)).
Proof.
  induction L as [|e L IH]; intros dev fuel Hp Hn; cbn [dev_chain find_entry].
  - intros -> _. by destruct fuel.
  - intros (-> & H0 & d & Hd & Hl & Hb & HL) Hf. destruct fuel as [|fuel]; [simpl in Hf; lia|].
    cbn [find_device]. rewrite (proj2 (Z.eqb_neq _ 0)), Hd by done. cbn [deref mbind outcome_bind].
    unfold same_name. rewrite Hl. destruct (Z.eqb_spec (Z.of_nat n) (Z.of_nat (length (de_name e)))) as [El|El].
    + apply Nat2Z.inj in El. pose proof (strncmp_prefix_of m path p (d_name d) n Hp Hn) as Hs.
      rewrite El, Hb, <- El in Hs. case_decide as Hd'.
      * rewrite (proj2 (Z.eqb_eq _ _)); [done|]. by apply Hs.
      * rewrite (proj2 (Z.eqb_neq _ _)); [|by intros E; apply Hd', Hs]. apply IH; [done|done|done|simpl in Hf; lia].
    + rewrite decide_False; [|intros E; apply El; rewrite E, length_take; lia]. cbn [andb].
      apply IH; [done|done|done|simpl in Hf; lia].
Qed.

(** * Fragments of a path *)

Lemma dir_length_spec m frag : forall path rest fuel,
  cstr m path (frag ++ rest) -> Forall (fun c => c <> SLASH) frag -> (rest = [] \/ head rest = Some SLASH) ->
  (length frag < fuel)%nat -> dir_length m path fuel = Done (Z.of_nat (length frag)).
Proof.
  induction frag as [|c frag IH]; intros path rest fuel Hc Hs Hr Hf; (destruct fuel as [|fuel]; [simpl in Hf; lia|]);
    cbn [dir_length app] in *.
  - destruct Hr as [->|Hr].
    + apply cstr_nil in Hc. rewrite Hc. by rewrite orb_true_r.
    + destruct rest as [|r rest]; [done|]. injection Hr as ->. apply cstr_cons in Hc as (-> & _). done.
  - apply cstr_cons in Hc as (-> & H0 & Hc). apply Forall_cons in Hs as [Hcs Hs].
    rewrite (proj2 (Z.eqb_neq c SLASH)), (proj2 (Z.eqb_neq c 0)) by done. cbn [orb].
    rewrite (IH (path + 1) rest fuel Hc Hs Hr ltac:(simpl in Hf; lia)). cbn [mbind outcome_bind]. f_equal. simpl length. lia.
Qed.

Section Open.
Context {H : Type} `{!KernelHeap H} `{!KernelHeapLaws H}.
Context (dot : Z) (initialisers : Z -> option (Z -> vfs_state (dev_state H) -> outcome (vfs_state (dev_state H)))).
Implicit Types s : vfs_state (dev_state H).

(** The mode asks for what the device cannot do. *)
Definition denied (mode : Z) (d : device) : bool :=
  (negb (Z.land mode O_RDONLY =? 0) && (d_read d =? 0)) || (negb (Z.land mode O_WRONLY =? 0) && (d_write d =? 0)).

(** The state in which the node of the device [dev] is filled in. *)
Record dev_opened s (fs mode dev : Z) (p : list Z) (node : Z) s' : Prop := {
  do_heap : kh_ok (vs_heap s');
  do_node : node <> 0 /\ kh_block (vs_heap s') node /\ ~ kh_block (vs_heap s) node;
  do_nodes : exists copy, vs_nodes s' = <[node := Node copy (Z.of_nat (length p)) mode 0 0 true fs dev]> (vs_nodes s) /\
    bytes (fs_mem s') copy (length p) = p /\ kh_block (vs_heap s') copy;
  do_keeps : kh_keeps (vs_heap s) (vs_heap s');
  do_devices : devices s' = devices s /\ root_list s' = root_list s
}.

(** [initialise_node] of the device, when it has one. *)
Definition initialised (d : device) (node : Z) s : outcome (Z * vfs_state (dev_state H)) :=
  if d_initialise_node d =? 0 then Done (node, s) else
  initialise ← deref (initialisers (d_initialise_node d));
  s ← initialise node s;
  Done (node, s).

Lemma open_device_spec s fs path mode dev d p X :
  kh_ok (vs_heap s) -> kh_fits [sizeof_node; Z.of_nat (length p)] (vs_heap s) ->
  cstr (fs_mem s) path p -> (forall b, path <= b <= path + Z.of_nat (length p) -> X b) ->
  untouched s (Z.of_nat (length p)) X -> devices s !! dev = Some d ->
  if denied mode d then open_device initialisers fs path mode dev s = Done (error_ptr (- EACCES), s)
  else open_device initialisers fs path mode dev s = Panicked \/
    exists node s', open_device initialisers fs path mode dev s = initialised d node s' /\
      dev_opened s fs mode dev p node s'.
Proof using KernelHeapLaws0.
  intros Hok Hfit Hp HX [U1 U2] Hd. unfold open_device, denied. rewrite Hd. cbn [deref mbind outcome_bind].
  destruct (negb (Z.land mode O_RDONLY =? 0) && (d_read d =? 0)); [done|]. cbn [orb].
  destruct (negb (Z.land mode O_WRONLY =? 0) && (d_write d =? 0)); [done|].
  change (kh_block_allocate sizeof_node s) with (lift_op vs_heap set_heap (kh_block_allocate sizeof_node) s). unfold lift_op.
  destruct (kh_block_outcome _ _ _ Hok Hfit) as [->|(node & h1 & E1)]; [by left|].
  destruct (kh_block_law _ _ _ _ _ Hok Hfit E1) as (Ok1 & Hn0 & Hnl & _ & _ & _ & Bn & _ & Fit1 & K1).
  rewrite E1. cbn [mbind outcome_bind]. cbn beta iota. cbv zeta.
  assert (cstr (kh_mem h1) path p) as Hp1.
  { apply (cstr_ext (fs_mem s)); [|done]. intros b Hb. by apply (U1 _ _ E1), HX. }
  change (fs_mem (set_heap s h1)) with (kh_mem h1). rewrite (strlen_cstr _ _ _ Hp1).
  change (kh_block_allocate (Z.of_nat (length p)) (set_heap s h1))
    with ('(a, h) ← kh_block_allocate (Z.of_nat (length p)) h1; Done (a, set_heap (set_heap s h1) h)).
  destruct (kh_block_outcome _ _ _ Ok1 Fit1) as [->|(copy & h2 & E2)]; [by left|right].
  destruct (kh_block_law _ _ _ _ _ Ok1 Fit1 E2) as (Ok2 & _ & Hcl & _ & _ & Hz & Bc & Ex & _ & K2).
  rewrite E2. cbn [mbind outcome_bind]. cbn beta iota. cbv zeta.
  assert (bytes (kh_mem h2) path (length p) = p) as Hp2.
  { rewrite (bytes_ext (fs_mem s)); [apply Hp|]. intros b Hb. apply (U2 _ _ _ _ E1 E2), HX. lia. }
  destruct (copy_name h2 copy path p Ok2 Bc Ex ltac:(apply Hp) Hp2 Hz) as (M1 & M2 & M3).
  change (fs_mem (set_heap (set_heap s h1) h2)) with (kh_mem h2).
  set (m3 := memcpy (kh_mem h2) copy path (Z.of_nat (length p))) in *.
  destruct (kh_write_law h2 m3 Ok2 M3) as (Ok3 & _ & Bl3 & Ex3 & _). destruct (K2 node Bn) as (Bn2 & _ & _).
  eexists node, _. split; [reflexivity|]. split.
  - exact Ok3.
  - split_and!; [done|by apply Bl3|]. intros Hb. by apply Hnl, kh_block_live.
  - exists copy. split_and!; [done| |by apply Bl3]. unfold fs_mem. simpl. pose proof (kh_mem_law h2 m3) as Em. simpl in Em.
    by rewrite Em.
  - intros a Ha. assert (kh_keeps (vs_heap s) h2) as K by (by etrans). destruct (K a Ha) as (B2 & X2 & Y2).
    cbn [vs_heap set_nodes set_mem set_heap]. rewrite Bl3, Ex3, kh_mem_law by done. split_and!; [done|done|].
    intros b Hb. rewrite (M2 b); [by apply Y2|].
    assert (a <> copy) as Hne by (intros ->; apply Hcl, kh_block_live; by apply K1).
    cbn beta. destruct (kh_disjoint h2 a copy Ok2 B2 Bc Hne); lia.
  - unfold devices, root_list. simpl. unfold kh_block_allocate in E1, E2. simpl in E1, E2.
    apply lift_op_done in E1 as (h1' & _ & ->). apply lift_op_done in E2 as (h2' & _ & ->). done.
Qed.

(** A path of one fragment, after an optional delimiter. *)
Record top_path (m : mem) (path : Z) (p name : list Z) : Prop := {
  tp_string : cstr m path p;
  tp_form : p = name \/ p = SLASH :: name;
  tp_name : name <> [] /\ Forall (fun c => c <> SLASH) name
}.

Lemma top_path_start m path p name : top_path m path p name -> cstr m (skip_slash m path) name.
Proof using.
  intros [Hp Hf [Hn Hs]]. unfold skip_slash. destruct Hf as [->| ->].
  - destruct name as [|c name]; [done|]. pose proof Hp as Hp'. apply cstr_cons in Hp' as (-> & _).
    apply Forall_cons in Hs as [Hc _]. by rewrite (proj2 (Z.eqb_neq c SLASH)).
  - apply cstr_cons in Hp as (-> & _ & Hp). by rewrite Z.eqb_refl.
Qed.

Lemma devfs_open_top s fs path mode p name L :
  top_path (fs_mem s) path p name -> dev_chain (fs_mem s) (devices s) (root_list s) L ->
  NoDup (map de_address L) ->
  devfs_open dot initialisers fs path mode s =
    match find_entry name L with
    | None => Done (error_ptr (- ENOENT), s)
    | Some e => open_device initialisers fs path mode (de_address e) s
    end.
Proof using.
  intros Hp HL Hnd. pose proof (top_path_start _ _ _ _ Hp) as Hs. destruct Hp as [_ _ [Hn Hsl]].
  unfold devfs_open. cbn [open_walk]. set (start := skip_slash (fs_mem s) path) in *.
  assert (ld8 (fs_mem s) start <> 0) as H0.
  { destruct name as [|c name]; [done|]. by apply cstr_cons in Hs as (-> & ? & _). }
  rewrite (proj2 (Z.eqb_neq _ 0) H0). rewrite (dir_length_spec (fs_mem s) name start [] (S (size (fs_mem s)))).
  2: { by rewrite app_nil_r. }
  2: { done. }
  2: { by left. }
  2: { pose proof (cstr_length_size _ _ _ Hs). lia. }
  cbn [mbind outcome_bind]. rewrite (proj2 (Z.eqb_neq (Z.of_nat (length name)) 0)) by (destruct name; [done|simpl; lia]).
  rewrite (proj1 (proj2 Hs)). cbn [Z.eqb SLASH andb].
  assert (length L <= size (devices s))%nat as Hsz.
  { rewrite <- (length_map de_address). apply keys_size; [done|]. intros a (e & -> & He)%list_elem_of_fmap.
    destruct (dev_chain_lookup _ _ _ _ _ HL He) as (_ & d & Hd). by exists d. }
  rewrite (find_device_spec _ _ _ name (length name) L (root_list s) _ Hs (le_n _) HL Hsz).
  rewrite firstn_all. cbn [mbind outcome_bind]. destruct (find_entry name L) as [e|] eqn:Ef; [|done].
  destruct (find_entry_in _ _ _ Ef) as [He _]. destruct (dev_chain_lookup _ _ _ _ _ HL He) as (Ha & _).
  change (default 0 (de_address <$> Some e)) with (de_address e). by rewrite (proj2 (Z.eqb_neq _ 0) Ha).
Qed.
End Open.

(** * Concrete devices *)

(** A string in a block of its own. *)
Definition new_string {St} `{!KernelHeap St} (text : list Z) (s : St) : outcome (Z * St) :=
  '(p, s) ← kh_block_allocate (Z.of_nat (length text) + 1) s;
  Done (p, kh_with_mem s (put (kh_mem s) p text)).

(** A frame buffer, of type 3, that can be read and written. *)
Fixpoint create_all {St} `{!KernelHeap St} (dot : Z) (paths : list (list Z)) (s : vfs_state (dev_state St)) :
    outcome (list Z * vfs_state (dev_state St)) :=
  match paths with
  | [] => Done ([], s)
  | p :: paths' =>
      '(path, s) ← new_string p s;
      '(dev, s) ← device_create_at dot path 3 0 77 77 s;
      '(devs, s) ← create_all dot paths' s;
      Done (dev :: devs, s)
  end.

(** The devices of a booted kernel: [f] gets the devices and the state. *)
Definition with_devices {A} (paths : list (list Z))
    (f : forall table, Z -> list Z -> vfs_state (dev_state (ba_state pa_state)) -> outcome A) : outcome A :=
  '(table, h) ← demo_boot;
  let KH := ba_heap 0 table in
  '(dot, s) ← new_string [46] (Vfs (Devs h ∅ 0) ∅ ∅ 0 false 0);
  '(head, s) ← allocate_dummy dot s;
  '(devs, s) ← create_all dot paths (set_device_list s head);
  f table dot devs s.

(** The device that opening a path for reading gives, 0 when the open fails. *)
Definition opened_device `{!KernelHeap (ba_state pa_state)} (dot : Z) (p : list Z)
    (s : vfs_state (dev_state (ba_state pa_state))) : outcome Z :=
  '(path, s) ← new_string p s;
  '(node, s) ← devfs_open dot (fun _ => None) 1000 path O_RDONLY s;
  Done (default 0 (n_private <$> vs_nodes s !! node)).

(** ["/a/b"], ["/a/c"], ["/com1"], ["/com"]. *)
Definition path_ab : list Z := [47; 97; 47; 98].
Definition path_ac : list Z := [47; 97; 47; 99].
Definition path_com1 : list Z := [47; 99; 111; 109; 49].
Definition path_com : list Z := [47; 99; 111; 109].

(** ["/f"] in a block, and the device ["f"] whose name is in the same block. *)
Definition demo_devices (s0 : vfs_state (ba_state pa_state)) : vfs_state (dev_state (ba_state pa_state)) :=
  Vfs (Devs (vs_heap s0) {[8 := Device (initrd s0 + 1) 1 0 77 0 0 0 0 0 0]} 8) ∅ ∅ 0 false 0.

Definition path_f : list Z := [47; 102; 0].

(** * Properties *)

(** C15. devfs_open of a path of one fragment finds the first device of the top list with
    exactly that name: ENOENT when there is none, EACCES when the device lacks a function for
    the mode, otherwise it runs out of memory or gives a fresh node of that device with a copy
    of the path, prepared by the device. *)
Theorem devfs_open_refines {H} `{!KernelHeap H} `{!KernelHeapLaws H} (dot : Z)
    (initialisers : Z -> option (Z -> vfs_state (dev_state H) -> outcome (vfs_state (dev_state H))))
    (s : vfs_state (dev_state H)) (fs path mode : Z) (p name : list Z) (L : list dev_entry) (X : Z -> Prop) :
  kh_ok (vs_heap s) -> kh_fits [sizeof_node; Z.of_nat (length p)] (vs_heap s) ->
  top_path (fs_mem s) path p name -> (forall b, path <= b <= path + Z.of_nat (length p) -> X b) ->
  untouched s (Z.of_nat (length p)) X ->
  dev_chain (fs_mem s) (devices s) (root_list s) L -> NoDup (map de_address L) ->
  match find_entry name L with
  | None => devfs_open dot initialisers fs path mode s = Done (error_ptr (- ENOENT), s)
  | Some e => exists d, devices s !! de_address e = Some d /\
      if denied mode d then devfs_open dot initialisers fs path mode s = Done (error_ptr (- EACCES), s)
      else devfs_open dot initialisers fs path mode s = Panicked \/
        exists node s', devfs_open dot initialisers fs path mode s = initialised initialisers d node s' /\
          dev_opened s fs mode (de_address e) p node s'
  end.
Proof.
  intros Hok Hfit Hp HX U HL Hnd. rewrite (devfs_open_top dot initialisers s fs path mode p name L Hp HL Hnd).
  destruct (find_entry name L) as [e|] eqn:Ef; [|done]. destruct (find_entry_in _ _ _ Ef) as [He _].
  destruct (dev_chain_lookup _ _ _ _ _ HL He) as (_ & d & Hd). exists d. split; [done|].
  exact (open_device_spec initialisers s fs path mode _ d p X Hok Hfit (tp_string _ _ _ _ Hp) HX U Hd).
Qed.

Lemma devfs_open_refines_witness :
  exists table s path node s', @devfs_open _ (ba_heap 0 table) 0 (fun _ => None) 1000 path O_RDONLY s = Done (node, s') /\
    exists n, vs_nodes s' !! node = Some n /\ n_private n = 8.
Proof.
  assert (is_done ('(table, h) ← demo_boot; s ← @demo_initrd _ (ba_heap 0 table) path_f h;
    @devfs_open _ (ba_heap 0 table) 0 (fun _ => None) 1000 (initrd s) O_RDONLY (demo_devices s)) = true) as Hd
    by (vm_compute; reflexivity).
  destruct demo_heap as (table & h & E & Hl & Hc & W). rewrite E in Hd. cbn [mbind outcome_bind] in Hd.
  apply is_done_bind in Hd as (s & E2 & Hd).
  destruct (@demo_initrd_text _ (ba_heap 0 table) (ba_heap_laws 0 table hhdm_ok_0) path_f h s [sizeof_node; 2])
    as (H1 & H2 & H3 & H4 & H5).
  - split; [exact Hl|]. exists [block_allocator_virtual_base h], []. exact W.
  - split; [repeat constructor; vm_compute; congruence|]. split; rewrite Hc; vm_compute; congruence.
  - repeat constructor; vm_compute; congruence.
  - exact E2.
  - apply holds_cons in H4 as [B1 H4]. apply holds_cons in H4 as [B2 H4]. apply holds_cons in H4 as [B3 _].
    destruct (@devfs_open_refines _ (ba_heap 0 table) (ba_heap_laws 0 table hhdm_ok_0) 0 (fun _ => None) (demo_devices s) 1000
      (initrd s) O_RDONLY [47; 102] [102] [DevEntry 8 [102]]
      (@kh_data _ (@dev_heap _ (ba_heap 0 table)) (vs_heap (demo_devices s))))
      as (d & Hdev & Hopen).
    + exact H1.
    + exact H2.
    + split.
      * apply cstr_cons. split; [exact B1|]. split; [discriminate|]. apply cstr_cons. split; [exact B2|]. split; [discriminate|].
        apply cstr_nil. exact B3.
      * right. reflexivity.
      * split; [discriminate|repeat constructor; discriminate].
    + intros b Hb. apply H5. change (Z.of_nat (length [47; 102])) with 2 in Hb. change (Z.of_nat (length path_f)) with 3. lia.
    + apply (@untouched_block _ (@dev_heap _ (ba_heap 0 table))
        (@dev_heap_laws _ (ba_heap 0 table) (ba_heap_laws 0 table hhdm_ok_0))); [exact H1|exact H2|]. intros b Hb; exact Hb.
    + split; [reflexivity|]. split; [discriminate|]. eexists. split; [apply lookup_singleton_eq|]. split; [reflexivity|].
      split; [|reflexivity]. cbn [bytes de_name length d_name]. f_equal. exact B2.
    + apply NoDup_singleton.
    + change (devices (demo_devices s)) with ({[8 := Device (initrd s + 1) 1 0 77 0 0 0 0 0 0]} : gmap Z device) in Hdev.
      apply lookup_singleton_Some in Hdev as [_ <-].
      destruct Hopen as [Ep|(node & s' & Eo & Ho)]; [exfalso; rewrite Ep in Hd; discriminate Hd|].
      exists table, (demo_devices s), (initrd s), node, s'. split; [exact Eo|].
      destruct (do_nodes _ _ _ _ _ _ _ Ho) as (copy & Hn & _). rewrite Hn, lookup_insert_eq. eexists. split; [reflexivity|reflexivity].
Defined.

(** Devices created at /a/b, /a/c and /com1, whose directory did not exist, are the distinct
    devices that devfs_open finds at these paths. *)
Theorem device_create_opens :
  with_devices [path_ab; path_ac; path_com1] (fun table dot devs s =>
    let KH := ba_heap 0 table in
    b ← opened_device dot path_ab s;
    c ← opened_device dot path_ac s;
    com1 ← opened_device dot path_com1 s;
    Done (bool_decide (devs = [b; c; com1] /\ NoDup [0; b; c; com1]))) = Done true.
Proof. vm_compute. reflexivity. Qed.

(** A device whose name starts the name of another device of its directory cannot be created,
    although it cannot be opened either. *)
Theorem device_prefix_rejected :
  with_devices [path_com1; path_com] (fun table dot devs s =>
    let KH := ba_heap 0 table in
    com ← opened_device dot path_com s;
    Done (bool_decide (devs !! 1%nat = Some 0 /\ com = 0))) = Done true.
Proof. vm_compute. reflexivity. Qed.

(** The byte 10 of a buffer of 255s after the path of the second frame buffer was
    written to its first six bytes. *)
Definition path_overrun `{!KernelHeap (ba_state pa_state)} (s : vfs_state (dev_state (ba_state pa_state))) :
    outcome (Z * Z) :=
  '(buffer, s) ← kh_block_allocate 64 s;
  let s := set_mem s (fill (fs_mem s) buffer 64 255) in
  '(_, s) ← device_get_by_type 3 buffer 6 1 s;
  Done (ld8 (fs_mem s) (buffer + 9), ld8 (fs_mem s) (buffer + 10)).

(** ["/a/bcdefgh"]. *)
Definition path_long : list Z := [47; 97; 47; 98; 99; 100; 101; 102; 103; 104].

(** device_get_by_type writes the terminator of a path that does not fit after the end of the
    buffer. *)
Theorem device_path_overruns :
  with_devices [path_com1; path_long] (fun table _ _ s => let KH := ba_heap 0 table in path_overrun s) = Done (255, 0).
Proof. vm_compute. reflexivity. Qed.
