(* ===== verification/IoQueue.v ===== *)
(** The queue of asynchronous i/o, [io/queue.c] and [queue.h].

    The tasks are kept in a typed heap next to the kernel heap, so that the
    asynchronous operations of a file system can reach them. *)

From S2P Require Import Prelude Memory Libc Spinlock PageAllocator PageAllocatorSpec PageTable BlockAllocator BlockAllocatorSpec KernelHeap Scheduler Vfs VfsSpec.

#[local] Existing Instance demo_source.
#[local] Existing Instance demo_source_laws.

(** * Model *)

Definition IO_READ : Z := 0.
Definition IO_WRITE : Z := 1.

Record io_task := IoTask {
  io_done : bool;
  io_is_async : bool;
  io_next : Z;
  io_prev : Z;
  io_node : Z;
  io_operation : Z;
  io_buffer : Z;
  io_size : Z;
  io_offset : Z;
  io_fs_status : Z
}.

Definition sizeof_io_task : Z := 72.

Definition set_io_is_async (v : bool) (t : io_task) : io_task :=
  IoTask (io_done t) v (io_next t) (io_prev t) (io_node t) (io_operation t) (io_buffer t) (io_size t) (io_offset t)
    (io_fs_status t).
Definition set_io_next (v : Z) (t : io_task) : io_task :=
  IoTask (io_done t) (io_is_async t) v (io_prev t) (io_node t) (io_operation t) (io_buffer t) (io_size t) (io_offset t)
    (io_fs_status t).
Definition set_io_prev (v : Z) (t : io_task) : io_task :=
  IoTask (io_done t) (io_is_async t) (io_next t) v (io_node t) (io_operation t) (io_buffer t) (io_size t) (io_offset t)
    (io_fs_status t).

Record io_state (H : Type) := Io {
  iq_heap : H;
  iq_tasks : gmap Z io_task;
  queue_start : Z;
  queue_last : Z;
  queue_lock : spinlock_t
}.
Arguments Io {H}.
Arguments iq_heap {H}.
Arguments iq_tasks {H}.
Arguments queue_start {H}.
Arguments queue_last {H}.
Arguments queue_lock {H}.

Definition with_iq_heap {H} (s : io_state H) (h : H) : io_state H :=
  Io h (iq_tasks s) (queue_start s) (queue_last s) (queue_lock s).

#[export] Instance io_heap {H} `{!KernelHeap H} : KernelHeap (io_state H) := lift_heap iq_heap with_iq_heap.

#[export] Instance io_heap_laws {H} `{!KernelHeap H} `{!KernelHeapLaws H} : KernelHeapLaws (io_state H).
Proof. by apply lift_heap_laws. Qed.

Section Model.
Context {H : Type} `{!KernelHeap H}.
Context (filesystems : Z -> option (vfs_fs_ops (vfs_state (io_state H)))).
Implicit Types s : vfs_state (io_state H).

Definition io_tasks s : gmap Z io_task := iq_tasks (vs_heap s).
Definition set_io s (ts : gmap Z io_task) (start last : Z) (l : spinlock_t) : vfs_state (io_state H) :=
  set_heap s (Io (iq_heap (vs_heap s)) ts start last l).
Definition set_io_tasks s (ts : gmap Z io_task) : vfs_state (io_state H) :=
  set_io s ts (queue_start (vs_heap s)) (queue_last (vs_heap s)) (queue_lock (vs_heap s)).
Definition set_queue_lock s (l : spinlock_t) : vfs_state (io_state H) :=
  set_io s (io_tasks s) (queue_start (vs_heap s)) (queue_last (vs_heap s)) l.

(** The loop of [io_executor_task] over the queue. *)
Fixpoint update_tasks (task : Z) s (fuel : nat) : outcome (vfs_state (io_state H)) :=
  if task =? 0 then Done s else
  match fuel with
  | O => Timeout
  | S fuel' =>
      t ← deref (io_tasks s !! task);
      s ← (if io_done t then Done s else
             s ← vfs_async_task_update filesystems (io_node t) task s;
             t ← deref (io_tasks s !! task);
             if io_done t then vfs_async_task_unregister filesystems (io_node t) task s else Done s);
      t ← deref (io_tasks s !! task);
      update_tasks (io_next t) s fuel'
  end.

(** One round of [io_executor_task] after its wait for an interrupt. *)
Definition io_executor_round s : outcome (vfs_state (io_state H)) :=
  l ← spinlock_acquire (queue_lock (vs_heap s));
  s ← update_tasks (queue_start (vs_heap s)) (set_queue_lock s l) (size (io_tasks s));
  Done (set_queue_lock s (spinlock_release l)).

Definition io_queue_task (node operation buffer size offset : Z) s : outcome (Z * vfs_state (io_state H)) :=
  '(new_task, s) ← kh_block_allocate sizeof_io_task s;
  let s := set_io_tasks s (<[new_task := IoTask false false 0 0 node operation buffer size offset 0]> (io_tasks s)) in
  '(is_async, s) ← vfs_async_task_register filesystems node new_task s;
  t ← deref (io_tasks s !! new_task);
  let s := set_io_tasks s (<[new_task := set_io_is_async is_async t]> (io_tasks s)) in
  l ← spinlock_acquire (queue_lock (vs_heap s));
  let start := queue_start (vs_heap s) in
  let last := queue_last (vs_heap s) in
  if negb (start =? 0) then
    e ← deref (io_tasks s !! last);
    let ts := <[last := set_io_next new_task e]> (io_tasks s) in
    t ← deref (ts !! new_task);
    let ts := <[new_task := set_io_prev last t]> ts in
    Done (new_task, set_io s ts start new_task (spinlock_release l))
  else Done (new_task, set_io s (io_tasks s) new_task new_task (spinlock_release l)).
End Model.

(** [io_queue_init]: the kernel task that runs the rounds, with the addresses of
    its name and of [io_executor_task]. *)
Definition io_queue_init (kernel_hhdm_offset arch_bootstrap_page_table : Z) {St} `{!KernelHeap St} (io_executor io_executor_task : Z)
    (s : sched St) : outcome (Z * sched St) :=
  task_scheduler_round_robin_create_kernel kernel_hhdm_offset arch_bootstrap_page_table io_executor io_executor_task s.

(** * Specification *)

(** The tasks [L] are linked from [p] on, the one before [p] is [prev]. *)
Fixpoint io_chain (ts : gmap Z io_task) (prev p : Z) (L : list Z) : Prop :=
  match L with
  | [] => p = 0
  | x :: L' => p = x /\ x <> 0 /\ exists t, ts !! x = Some t /\ io_prev t = prev /\ io_chain ts x (io_next t) L'
  end.

(** The queue: the chain from its start to its last task. *)
Record io_queue {H} (s : vfs_state (io_state H)) (L : list Z) : Prop := {
  io_lock : queue_lock (vs_heap s) = false;
  io_links : io_chain (io_tasks s) 0 (queue_start (vs_heap s)) L;
  io_nodup : NoDup L;
  io_last : L <> [] -> queue_last (vs_heap s) = default 0 (last L)
}.

Lemma io_chain_task ts L x : forall prev p, io_chain ts prev p L -> x ∈ L -> x <> 0 /\ is_Some (ts !! x).
Proof.
  induction L as [|y L IH]; intros prev p; cbn [io_chain]; [intros _ Hx; by apply elem_of_nil in Hx|].
  intros (-> & H0 & t & Ht & _ & HL) [->|Hx]%elem_of_cons; [by split; [|exists t]|by eapply IH].
Qed.

Lemma io_chain_insert ts L x t : forall prev p, io_chain ts prev p L -> x ∉ L -> io_chain (<[x := t]> ts) prev p L.
Proof.
  induction L as [|y L IH]; intros prev p; cbn [io_chain]; [done|].
  intros (-> & H0 & ty & Hty & Hp & HL) Hx. apply not_elem_of_cons in Hx as [Hxy Hx]. split; [done|]. split; [done|].
  exists ty. rewrite lookup_insert_ne by done. split; [done|]. split; [done|]. by apply IH.
Qed.

(** Adding a fresh task after the last one. *)
Lemma io_chain_snoc ts L : forall prev p x t,
  io_chain ts prev p L -> NoDup L -> x ∉ L -> x <> 0 -> L <> [] -> ts !! x = Some t -> io_next t = 0 ->
  exists e, ts !! default 0 (last L) = Some e /\ default 0 (last L) <> x /\
    io_chain (<[x := set_io_prev (default 0 (last L)) t]> (<[default 0 (last L) := set_io_next x e]> ts)) prev p (L ++ [x]).
Proof.
  induction L as [|y L IH]; intros prev p x t Hc Hnd Hx H0 Hne Ht Hn; [done|].
  cbn [io_chain] in Hc. destruct Hc as (-> & Hy0 & ty & Hty & Hp & HL). apply NoDup_cons in Hnd as [HyL Hnd].
  apply not_elem_of_cons in Hx as [Hxy HxL]. destruct L as [|z L].
  - cbn [last]. change (default 0 (Some y)) with y. cbn [io_chain] in HL. exists ty. split_and!; [done|done|].
    cbn [app io_chain]. split; [done|]. split; [done|]. eexists. rewrite lookup_insert_ne, lookup_insert_eq by done.
    split; [reflexivity|]. split; [done|]. cbn [io_next set_io_next]. split; [done|]. split; [done|].
    eexists. rewrite lookup_insert_eq. split; [reflexivity|]. done.
  - destruct (IH y (io_next ty) x t HL Hnd HxL H0 ltac:(done) Ht Hn) as (e & He & Hex & Hch).
    change (last (y :: z :: L)) with (last (z :: L)). exists e. split_and!; [done|done|].
    change ((y :: z :: L) ++ [x]) with (y :: ((z :: L) ++ [x])). cbn [io_chain]. split_and!; [done|done|].
    exists ty. assert (default 0 (last (z :: L)) <> y) as Hly.
    { intros E. apply HyL. rewrite <- E. destruct (last (z :: L)) as [w|] eqn:Ew; [by apply last_Some_elem_of|].
      by apply last_None in Ew. }
    rewrite !lookup_insert_ne by done. done.
Qed.

(** A file system without asynchronous operations, as all of the kernel are. *)
Definition no_async {S} (fs : vfs_fs_ops S) : Prop := fs_async_task_update fs = None.

Section Spec.
Context {H : Type} `{!KernelHeap H} `{!KernelHeapLaws H}.
Context (filesystems : Z -> option (vfs_fs_ops (vfs_state (io_state H)))).
Implicit Types s : vfs_state (io_state H).

(** The node has a file system without asynchronous operations. *)
Definition sync_node s (node : Z) : Prop :=
  exists n fs, vs_nodes s !! node = Some n /\ filesystems (n_fs n) = Some fs /\ no_async fs.

Lemma async_ops_none s node : sync_node s node -> async_ops filesystems node s = Done None.
Proof using.
  intros (n & fs & Hn & Hfs & Hu). unfold async_ops. rewrite Hn. cbn [deref mbind outcome_bind]. rewrite Hfs.
  cbn [deref mbind outcome_bind]. rewrite Hu. by destruct (fs_async_task_register fs).
Qed.

Lemma update_tasks_sync s L : forall prev p fuel,
  io_chain (io_tasks s) prev p L -> (forall x t, x ∈ L -> io_tasks s !! x = Some t -> sync_node s (io_node t)) ->
  (forall x t, x ∈ L -> io_tasks s !! x = Some t -> io_done t = false) ->
  (length L <= fuel)%nat -> update_tasks filesystems p s fuel = Done s.
Proof using.
  induction L as [|x L IH]; intros prev p fuel; cbn [io_chain].
  - intros -> _ _ _. by destruct fuel.
  - intros (-> & H0 & t & Ht & _ & HL) Hs Hd Hf. destruct fuel as [|fuel]; [simpl in Hf; lia|].
    cbn [update_tasks]. rewrite (proj2 (Z.eqb_neq x 0)), Ht by done. cbn [deref mbind outcome_bind].
    rewrite (Hd x t) by (done || apply list_elem_of_here). unfold vfs_async_task_update.
    rewrite async_ops_none by (eapply Hs; [apply list_elem_of_here|done]). cbn [mbind outcome_bind].
    rewrite Ht. cbn [deref mbind outcome_bind]. rewrite (Hd x t) by (done || apply list_elem_of_here).
    cbn [mbind outcome_bind]. rewrite Ht. cbn [deref mbind outcome_bind]. eapply IH; [exact HL| | |simpl in Hf; lia].
    + intros y ty Hy. apply Hs. by apply list_elem_of_further.
    + intros y ty Hy. apply Hd. by apply list_elem_of_further.
Qed.

(** The executor runs [n] rounds. *)
Fixpoint io_rounds (n : nat) s : outcome (vfs_state (io_state H)) :=
  match n with
  | O => Done s
  | S n' => s ← io_executor_round filesystems s; io_rounds n' s
  end.

(** Every queued task waits, on a file system without asynchronous operations. *)
Definition all_wait s (L : list Z) : Prop :=
  forall x t, x ∈ L -> io_tasks s !! x = Some t -> io_done t = false /\ sync_node s (io_node t).

Lemma set_queue_lock_same s : queue_lock (vs_heap s) = false -> set_queue_lock (set_queue_lock s true) false = s.
Proof using. intros E. destruct s as [[h ts st la l] ns ms mp ml ir]. simpl in E. subst l. done. Qed.

Lemma io_rounds_stuck s L n : io_queue s L -> all_wait s L -> io_rounds n s = Done s.
Proof using.
  intros Q Hw. induction n as [|n IH]; cbn [io_rounds]; [done|]. unfold io_executor_round.
  rewrite (io_lock _ _ Q). cbn [spinlock_acquire mbind outcome_bind].
  rewrite (update_tasks_sync (set_queue_lock s true) L 0).
  - cbn [mbind outcome_bind]. change (spinlock_release true) with false. rewrite set_queue_lock_same by apply Q. exact IH.
  - exact (io_links _ _ Q).
  - intros x t Hx Ht. exact (proj2 (Hw x t Hx Ht)).
  - intros x t Hx Ht. exact (proj1 (Hw x t Hx Ht)).
  - apply keys_size; [apply Q|]. intros x Hx. by apply (io_chain_task _ _ x _ _ (io_links _ _ Q)).
Qed.

(** The queue after a task was added to it. *)
Lemma io_append s L x t (h : H) :
  io_queue s L -> x ∉ L -> x <> 0 -> io_tasks s !! x = Some t -> io_next t = 0 -> io_prev t = 0 ->
  exists ts s', s' = set_io s ts (if queue_start (vs_heap s) =? 0 then x else queue_start (vs_heap s)) x false /\
    io_queue s' (L ++ [x]) /\ (exists v, ts !! x = Some (set_io_prev v t)) /\
    (forall y ty, y <> x -> io_tasks s !! y = Some ty -> exists v, ts !! y = Some (set_io_next v ty)) /\
    (if negb (queue_start (vs_heap s) =? 0) then
       e ← deref (io_tasks s !! queue_last (vs_heap s));
       let ts := <[queue_last (vs_heap s) := set_io_next x e]> (io_tasks s) in
       t ← deref (ts !! x);
       let ts := <[x := set_io_prev (queue_last (vs_heap s)) t]> ts in
       Done (x, set_io s ts (queue_start (vs_heap s)) x (spinlock_release true))
     else Done (x, set_io s (io_tasks s) x x (spinlock_release true))) = Done (x, s').
Proof using.
  intros [Q1 Q2 Q3 Q4] Hx H0 Ht Hn Hp. destruct L as [|y L].
  - cbn [io_chain] in Q2. rewrite Q2. exists (io_tasks s). eexists. split; [reflexivity|]. split; [|split_and!].
    + split; [done| |apply NoDup_singleton|done]. cbn [app io_chain]. split; [done|]. split; [done|]. exists t.
      split; [exact Ht|]. by split.
    + exists 0. rewrite Ht. f_equal. destruct t. simpl in *. by subst.
    + intros z tz Hz Htz. exists (io_next tz). rewrite Htz. f_equal. by destruct tz.
    + done.
  - destruct (io_chain_snoc _ _ _ _ x t Q2 Q3 Hx H0 ltac:(done) Ht Hn) as (e & He & Hne & Hch).
    rewrite <- (Q4 ltac:(done)) in He, Hne, Hch. pose proof Q2 as (Es & Hy0 & _). rewrite Es in *.
    rewrite (proj2 (Z.eqb_neq y 0)) by done. cbn [negb]. rewrite He. cbn [deref mbind outcome_bind].
    rewrite lookup_insert_ne, Ht by done. cbn [deref mbind outcome_bind]. eexists _, _.
    split; [reflexivity|]. split; [|split_and!].
    + split; [done|exact Hch| |].
      * apply NoDup_app. split_and!; [done| |apply NoDup_singleton]. intros z Hz ->%list_elem_of_singleton. done.
      * intros _. by rewrite last_snoc.
    + exists (queue_last (vs_heap s)). apply lookup_insert_eq.
    + intros z tz Hz Htz. rewrite lookup_insert_ne by done. destruct (decide (z = queue_last (vs_heap s))) as [->|Hzl].
      * exists x. rewrite lookup_insert_eq. congruence.
      * exists (io_next tz). rewrite lookup_insert_ne, Htz by done. f_equal. by destruct tz.
    + done.
Qed.
End Spec.

(** * Properties *)

(** io_queue_task runs out of memory or appends a new task to the queue; when the file systems
    of the queued nodes have no asynchronous operations, no number of executor rounds changes
    anything, so the task is never done. *)
Theorem io_task_never_done {H} `{!KernelHeap H} `{!KernelHeapLaws H}
    (filesystems : Z -> option (vfs_fs_ops (vfs_state (io_state H)))) (s : vfs_state (io_state H)) (L : list Z)
    (node operation buffer size offset : Z) :
  io_queue s L -> all_wait filesystems s L -> sync_node filesystems s node ->
  kh_ok (vs_heap s) -> kh_fits [sizeof_io_task] (vs_heap s) ->
  (forall x, is_Some (io_tasks s !! x) -> kh_live (vs_heap s) x) ->
  io_queue_task filesystems node operation buffer size offset s = Panicked \/
  exists x s' t, io_queue_task filesystems node operation buffer size offset s = Done (x, s') /\ (x ∉ L) /\
    io_queue s' (L ++ [x]) /\ io_tasks s' !! x = Some t /\ io_node t = node /\ io_operation t = operation /\
    io_is_async t = false /\ io_done t = false /\
    forall n, io_rounds filesystems n s' = Done s'.
Proof.
  intros Q Hw Hs Hok Hfit Hlive. unfold io_queue_task. change (kh_ok s) in Hok. change (kh_fits [sizeof_io_task] s) in Hfit.
  destruct (kh_block_outcome s sizeof_io_task [] Hok Hfit) as [->|(x & s1 & E1)]; [by left|right].
  pose proof (kh_block_law s s1 _ _ _ Hok Hfit E1) as (_ & Hx0 & Hnl & _). rewrite E1. cbn [mbind outcome_bind]. cbn beta iota.
  apply lift_op_done in E1 as (h1 & E1 & ->). apply lift_op_done in E1 as (h2 & _ & ->).
  set (t0 := IoTask false false 0 0 node operation buffer size offset 0).
  set (s2 := set_io_tasks _ _).
  assert (Hs2 : forall y, sync_node filesystems s y -> sync_node filesystems s2 y) by done.
  unfold vfs_async_task_register. rewrite (async_ops_none filesystems s2 node (Hs2 node Hs)). cbn [mbind outcome_bind]. cbn beta iota.
  assert (io_tasks s2 !! x = Some t0) as Hx2 by apply lookup_insert_eq.
  rewrite Hx2. cbn [deref mbind outcome_bind].
  assert (io_tasks s !! x = None) as Hxn by (apply eq_None_not_Some; intros Hy; by apply Hnl, Hlive).
  assert (x ∉ L) as HxL.
  { intros Hx. destruct (io_chain_task _ _ x _ _ (io_links _ _ Q) Hx) as [_ Hy]. rewrite Hxn in Hy. by destruct Hy. }
  set (s3 := set_io_tasks s2 _). assert (io_tasks s3 = <[x := t0]> (io_tasks s)) as E3.
  { change (io_tasks s3) with (<[x := t0]> (<[x := t0]> (io_tasks s))). apply insert_insert_eq. }
  assert (io_queue s3 L) as Q3.
  { destruct Q as [Q1 Q2 Q3 Q4]. split; [exact Q1| |exact Q3|exact Q4]. rewrite E3. change (queue_start (vs_heap s3)) with (queue_start (vs_heap s)).
    by apply io_chain_insert. }
  change (queue_lock (vs_heap s3)) with (queue_lock (vs_heap s)). rewrite (io_lock _ _ Q). cbn [spinlock_acquire mbind outcome_bind].
  destruct (io_append s3 L x t0 (iq_heap (vs_heap s3)) Q3 HxL Hx0) as (ts & s' & Es' & Q' & (v & Hx') & Hoth & E);
    [rewrite E3; apply lookup_insert_eq|done|done|].
  exists x, s', (set_io_prev v t0). split; [exact E|]. split_and!; try done; [by rewrite Es'|].
  intros n. apply (io_rounds_stuck filesystems s' (L ++ [x])); [done|]. rewrite Es'. intros y ty Hy Hty.
  change (io_tasks (set_io s3 ts _ x false)) with ts in Hty. destruct (decide (y = x)) as [->|Hne].
  - assert (ty = set_io_prev v t0) as -> by congruence. split; [done|exact Hs].
  - apply elem_of_app in Hy as [Hy|Hy%list_elem_of_singleton]; [|done].
    destruct (io_chain_task _ _ y _ _ (io_links _ _ Q) Hy) as [_ [ty0 Hy0]].
    destruct (Hoth y ty0 Hne) as [w Hw']; [rewrite E3; by rewrite lookup_insert_ne|].
    assert (ty = set_io_next w ty0) as -> by congruence. destruct (Hw y ty0 Hy Hy0) as [Hd Hsy]. split; [exact Hd|exact Hsy].
Qed.

(** An empty queue and one open node. *)
Definition demo_io (h : ba_state pa_state) : vfs_state (io_state (ba_state pa_state)) :=
  Vfs (Io h ∅ 0 0 false) {[16 := Node 0 0 0 0 0 false 1000 0]} ∅ 0 false 0.

Lemma io_task_never_done_witness :
  exists table s x s', @io_queue_task _ (ba_heap 0 table) (fun _ => Some echo_fs) 16 IO_READ 0 64 0 s = Done (x, s') /\
    @io_rounds _ (fun _ => Some echo_fs) 10 s' = Done s'.
Proof.
  assert (is_done ('(table, h) ← demo_boot;
    @io_queue_task _ (ba_heap 0 table) (fun _ => Some echo_fs) 16 IO_READ 0 64 0 (demo_io h)) = true) as Hd
    by (vm_compute; reflexivity).
  destruct demo_heap as (table & h & E & Hl & Hc & W). rewrite E in Hd. cbn [mbind outcome_bind] in Hd.
  destruct (@io_task_never_done _ (ba_heap 0 table) (ba_heap_laws 0 table hhdm_ok_0) (fun _ => Some echo_fs) (demo_io h) []
    16 IO_READ 0 64 0) as [Ep|(x & s' & t & Eq & _ & _ & _ & _ & _ & _ & _ & Hr)].
  - split; [reflexivity|reflexivity|constructor|]. intros Hn. exfalso. apply Hn. reflexivity.
  - intros y t Hy. exfalso. apply elem_of_nil in Hy. exact Hy.
  - eexists _, echo_fs. split; [apply lookup_singleton_eq|]. split; [reflexivity|reflexivity].
  - split; [exact Hl|]. exists [block_allocator_virtual_base h], []. exact W.
  - split; [repeat constructor; vm_compute; congruence|]. split; [simpl; rewrite Hc|simpl; rewrite Hc]; vm_compute; congruence.
  - intros y [t Hy]. exfalso. change (io_tasks (demo_io h)) with (∅ : gmap Z io_task) in Hy. rewrite lookup_empty in Hy. discriminate Hy.
  - exfalso. rewrite Ep in Hd. discriminate Hd.
  - exists table, (demo_io h), x, s'. split; [exact Eq|]. apply Hr.
Defined.
