(* ===== verification/Clock.v ===== *)
(** The clock, [clock/clock.c]: the choice of the system timer and of the
    preemption timer among the registered time sources.  Functions are addresses. *)

From S2P Require Import Prelude.

Record clock_time_source_t := TimeSource {
  ts_name : Z;
  time_keeping_capable : bool;
  ticks_per_second : Z;
  read_nanoseconds : Z;
  sleep_nanoseconds : Z;
  one_shot_capable : bool;
  schedule_one_shot_at : Z;
  interrupt_now : Z
}.

(** The globals before any registration are zero. *)
Definition no_source : clock_time_source_t := TimeSource 0 false 0 0 0 false 0 0.

Record clock_state := Clock {
  clock_system_timer : clock_time_source_t;
  clock_preemption_timer : clock_time_source_t
}.

Definition clock_register_time_source (time_source : clock_time_source_t) (s : clock_state) : clock_state :=
  let s :=
    if one_shot_capable time_source then
      if ticks_per_second time_source >? ticks_per_second (clock_preemption_timer s)
      then Clock (clock_system_timer s) time_source
      else s
    else s in
  if time_keeping_capable time_source then
    if ticks_per_second time_source >? ticks_per_second (clock_system_timer s)
    then Clock time_source (clock_preemption_timer s)
    else s
  else s.

Definition register_all (sources : list clock_time_source_t) (s : clock_state) : clock_state :=
  fold_left (fun s t => clock_register_time_source t s) sources s.

(** * The best source *)

(** The first of the fastest sources that [capable] accepts, if it is faster
    than [best]. *)
Fixpoint fastest (capable : clock_time_source_t -> bool) (best : clock_time_source_t)
    (sources : list clock_time_source_t) : clock_time_source_t :=
  match sources with
  | [] => best
  | t :: ts => fastest capable (if capable t && (ticks_per_second best <? ticks_per_second t) then t else best) ts
  end.

Lemma register_all_fastest sources : forall s,
  register_all sources s = Clock (fastest time_keeping_capable (clock_system_timer s) sources)
                                 (fastest one_shot_capable (clock_preemption_timer s) sources).
Proof.
  induction sources as [|t ts IH]; intros [sys pre]; [done|].
  change (register_all (t :: ts) (Clock sys pre)) with (register_all ts (clock_register_time_source t (Clock sys pre))).
  rewrite IH. unfold clock_register_time_source. cbn [fastest clock_system_timer clock_preemption_timer].
  destruct (one_shot_capable t); cbn [andb]; rewrite ?Z.gtb_ltb;
    [destruct (ticks_per_second pre <? ticks_per_second t)|]; cbn [clock_system_timer clock_preemption_timer];
    (destruct (time_keeping_capable t); cbn [andb]; rewrite ?Z.gtb_ltb;
      [destruct (ticks_per_second sys <? ticks_per_second t)|]); done.
Qed.

Lemma fastest_spec capable sources : forall best,
  let f := fastest capable best sources in
  (f = best \/ (f ∈ sources /\ capable f = true)) /\ ticks_per_second best <= ticks_per_second f /\
  forall t, t ∈ sources -> capable t = true -> ticks_per_second t <= ticks_per_second f.
Proof.
  induction sources as [|t ts IH]; intros best; cbn [fastest].
  - split_and!; [by left|lia|]. intros t Ht. by apply elem_of_nil in Ht.
  - set (b := if capable t && (ticks_per_second best <? ticks_per_second t) then t else best).
    destruct (IH b) as (H1 & H2 & H3). set (f := fastest capable b ts) in *.
    assert (ticks_per_second best <= ticks_per_second b /\
      (capable t = true -> ticks_per_second t <= ticks_per_second b) /\ (b = best \/ (b = t /\ capable t = true))) as (Hb1 & Hb2 & Hb3).
    { unfold b. destruct (capable t); cbn [andb]; [btest|]; split_and!; (lia || done || auto). }
    split_and!; [|lia|].
    + destruct H1 as [->|[Hf Hc]]; [|right; split; [by apply list_elem_of_further|done]].
      destruct Hb3 as [->|[-> Hc]]; [by left|right]. split; [apply list_elem_of_here|done].
    + intros u [->|Hu]%elem_of_cons Hc; [specialize (Hb2 Hc); lia|by apply H3].
Qed.

(** * Properties *)

(** After any sequence of registrations the system timer and the preemption timer are sources
    capable of the task that no other capable source outruns; without a capable source they stay
    unset. *)
Theorem clock_picks_fastest (sources : list clock_time_source_t) :
  let s := register_all sources (Clock no_source no_source) in
  let best capable f := (f = no_source \/ (f ∈ sources /\ capable f = true)) /\
    forall t, t ∈ sources -> capable t = true -> ticks_per_second t <= ticks_per_second f in
  best time_keeping_capable (clock_system_timer s) /\ best one_shot_capable (clock_preemption_timer s).
Proof.
  cbv zeta. rewrite register_all_fastest. cbn [clock_system_timer clock_preemption_timer].
  destruct (fastest_spec time_keeping_capable sources no_source) as (H1 & _ & H2).
  destruct (fastest_spec one_shot_capable sources no_source) as (H3 & _ & H4). by split_and!.
Qed.
