(* ===== verification/Framebuffer.v ===== *)
(** The framebuffer, [devices/framebuffer/framebuffer.c] and [framebuffer.h]:
    pixels and characters on the screen, and the device [/fb0].

    The structure that the boot loader fills in and the font linked into the
    kernel are arguments or bytes of the memory; what goes to the serial port is
    output. *)

From S2P Require Import Prelude Memory Libc Spinlock PageAllocator PageAllocatorSpec PageTable BlockAllocator BlockAllocatorSpec Paths KernelHeap Vfs DeviceManager.

#[local] Existing Instance demo_source.
#[local] Existing Instance demo_source_laws.

(** * Data *)

Record framebuffer_t := Framebuffer {
  fb_base : Z;
  fb_width : Z;
  fb_height : Z;
  fb_pitch : Z;
  fb_bpp : Z
}.

Record cursor_t := Cursor { cur_x : Z; cur_y : Z; cur_colour : Z }.

(** The globals of the driver next to the memory. *)
Record screen := Screen {
  scr_mem : mem;
  framebuffer_available : bool;
  main_framebuffer : framebuffer_t;
  main_cursor : cursor_t;
  font : Z;
  font_glyphs : Z;
  framebuffer_spinlock : spinlock_t
}.

Definition set_scr_mem (s : screen) (m : mem) : screen :=
  Screen m (framebuffer_available s) (main_framebuffer s) (main_cursor s) (font s) (font_glyphs s)
    (framebuffer_spinlock s).
Definition set_cursor (s : screen) (x y : Z) : screen :=
  Screen (scr_mem s) (framebuffer_available s) (main_framebuffer s) (Cursor x y (cur_colour (main_cursor s)))
    (font s) (font_glyphs s) (framebuffer_spinlock s).
Definition set_fb_lock (s : screen) (l : spinlock_t) : screen :=
  Screen (scr_mem s) (framebuffer_available s) (main_framebuffer s) (main_cursor s) (font s) (font_glyphs s) l.

(** The fields of the [psf2_header_t] at [font] that the driver reads. *)
Definition psf_header_size (m : mem) (font : Z) : Z := ld32 m (font + 8).
Definition psf_glyph_size (m : mem) (font : Z) : Z := ld32 m (font + 20).
Definition psf_height (m : mem) (font : Z) : Z := ld32 m (font + 24).
Definition psf_width (m : mem) (font : Z) : Z := ld32 m (font + 28).

Definition PSF2_MAGIC : list Z := [0x72; 0xB5; 0x4A; 0x86].

(** A [char] is signed on x86-64. *)
Definition char_value (c : Z) : Z := if u8 c <? 128 then u8 c else u8 c - 256.

Definition NEWLINE : Z := 10.

(** * Drawing *)

Definition framebuffer_plot_pixel (f : framebuffer_t) (x y colour : Z) (m : mem) : mem :=
  let line := fb_base f +w (y *w fb_pitch f) in
  st32 m (line +w 4 * x) colour.

(** The glyph of a character: [c * font->glyph_size] is a product of 32 bits. *)
Definition glyph_address (m : mem) (font glyphs c : Z) : Z :=
  glyphs +w u32 (char_value c * psf_glyph_size m font).

(** [character[yy * line_pitch + xx / 8] & (0b10000000 >> xx % 8)]. *)
Definition glyph_bit (m : mem) (character line_pitch xx yy : Z) : bool :=
  negb (Z.land (ld8 m (character + u32 (yy * line_pitch) + xx / 8)) (Z.shiftr 128 (xx mod 8)) =? 0).

(** The inner loop from column [xx] on; the bound is read again in every round. *)
Fixpoint plot_columns (f : framebuffer_t) (font character line_pitch x y colour yy xx : Z) (fuel : nat) (m : mem) :
    outcome mem :=
  if psf_width m font <=? xx then Done m else
  match fuel with
  | O => Timeout
  | S fuel' =>
      let m := if glyph_bit m character line_pitch xx yy
               then framebuffer_plot_pixel f (x +w xx) (y +w yy) colour m else m in
      plot_columns f font character line_pitch x y colour yy (xx + 1) fuel' m
  end.

Fixpoint plot_rows (f : framebuffer_t) (font character line_pitch x y colour yy : Z) (fuel : nat) (m : mem) :
    outcome mem :=
  if psf_height m font <=? yy then Done m else
  match fuel with
  | O => Timeout
  | S fuel' =>
      m ← plot_columns f font character line_pitch x y colour yy 0 (Z.to_nat (psf_width m font)) m;
      plot_rows f font character line_pitch x y colour (yy + 1) fuel' m
  end.

Definition framebuffer_plot_character (c x y colour : Z) (s : screen) : outcome screen :=
  if negb (framebuffer_available s) then Done s else
  let m := scr_mem s in
  let character := glyph_address m (font s) (font_glyphs s) c in
  if psf_height m (font s) =? 0 then Undef else
  let line_pitch := u8 (psf_glyph_size m (font s) / psf_height m (font s)) in
  m ← plot_rows (main_framebuffer s) (font s) character line_pitch x y colour 0
        (Z.to_nat (psf_height m (font s))) m;
  Done (set_scr_mem s m).

(** The end of a line. *)
Definition wrap_line (c : Z) (s : screen) : screen :=
  let x := cur_x (main_cursor s) in
  let y := cur_y (main_cursor s) in
  if (x +w psf_width (scr_mem s) (font s) >=? fb_width (main_framebuffer s)) || (c =? NEWLINE)
  then set_cursor s 0 (y +w psf_height (scr_mem s) (font s)) else s.

(** The end of the screen. *)
Definition wrap_screen (s : screen) : screen :=
  let f := main_framebuffer s in
  if cur_y (main_cursor s) +w psf_height (scr_mem s) (font s) >=? fb_height f then
    let s := set_cursor s 0 0 in
    set_scr_mem s (arch_zero_pages (scr_mem s) (fb_base f) (Z.to_nat (fb_height f *w fb_pitch f / PAGE)))
  else s.

Definition framebuffer_write_character (c : Z) (s : screen) : outcome screen :=
  if negb (framebuffer_available s) then Done s else
  l ← spinlock_acquire (framebuffer_spinlock s);
  let s := wrap_line c (set_fb_lock s l) in
  if c =? NEWLINE then Done (set_fb_lock s (spinlock_release l)) else
  let s := wrap_screen s in
  s ← framebuffer_plot_character c (cur_x (main_cursor s)) (cur_y (main_cursor s)) (cur_colour (main_cursor s)) s;
  let s := set_cursor s (cur_x (main_cursor s) +w psf_width (scr_mem s) (font s)) (cur_y (main_cursor s)) in
  Done (set_fb_lock s (spinlock_release l)).

Fixpoint write_string_loop (string : Z) (fuel : nat) (s : screen) : outcome screen :=
  if ld8 (scr_mem s) string =? 0 then Done s else
  match fuel with
  | O => Timeout
  | S fuel' =>
      s ← framebuffer_write_character (ld8 (scr_mem s) string) s;
      write_string_loop (string + 1) fuel' s
  end.

Definition framebuffer_write_string (string : Z) (s : screen) : outcome screen :=
  write_string_loop string (Z.to_nat (strlen (scr_mem s) string)) s.

(** * Initialisation *)

(** What the boot loader answers; [None] is no response. *)
Definition framebuffer_generate_structure_from_limine (response : option (list framebuffer_t)) :
    option framebuffer_t :=
  match response with
  | Some (fb :: _) => Some fb
  | _ => None
  end.

Definition framebuffer_init (response : option (list framebuffer_t)) (kfont_ptr : Z) (s : screen) : screen :=
  match framebuffer_generate_structure_from_limine response with
  | None => s
  | Some f =>
      let s := Screen (scr_mem s) (framebuffer_available s) f (main_cursor s) (font s) (font_glyphs s)
                 (framebuffer_spinlock s) in
      if negb (fb_bpp f =? 32) then s else
      let glyphs := kfont_ptr +w psf_header_size (scr_mem s) kfont_ptr in
      let s := Screen (scr_mem s) (framebuffer_available s) f (main_cursor s) kfont_ptr glyphs
                 (framebuffer_spinlock s) in
      if negb (lex_compare (bytes (scr_mem s) kfont_ptr 4) PSF2_MAGIC =? 0) then s
      else Screen (scr_mem s) true f (Cursor 0 0 0xFFFFFF) kfont_ptr glyphs (framebuffer_spinlock s)
  end.

(** * The device *)

Section Device.
Context {H : Type} `{!KernelHeap H} (f : framebuffer_t).
Implicit Types s : vfs_state (dev_state H).

(** [memcpy] and the new position of the node. *)
Definition framebuffer_read (node buffer size : Z) s : outcome (Z * vfs_state (dev_state H)) :=
  n ← deref (vs_nodes s !! node);
  let s := set_mem s (memcpy (fs_mem s) buffer (fb_base f +w n_seek_position n) size) in
  Done (s64 size, set_nodes s (<[node := set_seek_position (n_seek_position n +w size) n]> (vs_nodes s))).

Definition framebuffer_write (node buffer size : Z) s : outcome (Z * vfs_state (dev_state H)) :=
  n ← deref (vs_nodes s !! node);
  let position := if n_seek_position n +w size >? n_max_seek_position n
                  then n_max_seek_position n -w size else n_seek_position n in
  let s := set_mem s (memcpy (fs_mem s) (fb_base f +w position) buffer size) in
  Done (s64 size, set_nodes s (<[node := set_seek_position (position +w size) n]> (vs_nodes s))).

Definition framebuffer_initialise_node (node : Z) s : outcome (vfs_state (dev_state H)) :=
  n ← deref (vs_nodes s !! node);
  let max := (fb_pitch f *w fb_height f) -w 1 in
  Done (set_nodes s (<[node := set_positions (n_seek_position n) max n]> (vs_nodes s))).

(** The path ["/fb0"] and the functions by their addresses. *)
Definition framebuffer_create_device (dot path initialise_node read write : Z) (available : bool) s :
    outcome (vfs_state (dev_state H)) :=
  if negb available then Done s else
  '(_, s) ← device_create_at dot path DEV_FRAMEBUFFER initialise_node read write s;
  Done s.
End Device.

(** * The screen that a program sees *)

(** The bytes of the framebuffer. *)
Definition on_screen (f : framebuffer_t) (b : Z) : Prop := fb_base f <= b < fb_base f + fb_height f * fb_pitch f.

Definition pixel_address (f : framebuffer_t) (px py : Z) : Z := fb_base f + py * fb_pitch f + 4 * px.
Definition pixel (f : framebuffer_t) (m : mem) (px py : Z) : Z := ld32 m (pixel_address f px py).

(** A structure that describes lines of 32-bit pixels in the address space. *)
Record framebuffer_ok (f : framebuffer_t) : Prop := {
  fo_base : 0 <= fb_base f;
  fo_width : 0 < fb_width f;
  fo_height : 0 < fb_height f;
  fo_pitch : 4 * fb_width f <= fb_pitch f;
  fo_end : fb_base f + fb_height f * fb_pitch f < 18446744073709551616
}.

(** The header of the font is outside the framebuffer. *)
Definition header_apart (f : framebuffer_t) (font : Z) : Prop :=
  forall b, font <= b < font + 32 -> ~ on_screen f b.

Lemma pixel_inside f px py b :
  framebuffer_ok f -> 0 <= px < fb_width f -> 0 <= py < fb_height f ->
  pixel_address f px py <= b < pixel_address f px py + 4 -> on_screen f b.
Proof. intros [] Hx Hy. unfold pixel_address, on_screen. nia. Qed.

Lemma plot_pixel_address f px py colour m :
  framebuffer_ok f -> 0 <= px < fb_width f -> 0 <= py < fb_height f ->
  framebuffer_plot_pixel f px py colour m = st32 m (pixel_address f px py) colour.
Proof.
  intros Hok Hx Hy. pose proof (pixel_inside f px py (pixel_address f px py) Hok Hx Hy ltac:(lia)) as Hin.
  destruct Hok. unfold framebuffer_plot_pixel, pixel_address, on_screen in *.
  rewrite (u64_small (py * fb_pitch f)) by nia. rewrite (u64_small (fb_base f + py * fb_pitch f)) by nia.
  by rewrite u64_small by lia.
Qed.

Lemma changes_st32 (P : Z -> Prop) m a v : (forall b, a <= b < a + 4 -> P b) -> changes P m (st32 m a v).
Proof.
  intros H b Hb. apply ld8_le_store_other. destruct (Z.ltb_spec b a); [by left|].
  destruct (Z.leb_spec (a + 4) b); [right; lia|]. exfalso. apply Hb, H. lia.
Qed.

(** Two pixels are the same or do not share a byte. *)
Lemma pixel_after_plot f m px py qx qy colour :
  framebuffer_ok f -> 0 <= px < fb_width f -> 0 <= py < fb_height f ->
  0 <= qx < fb_width f -> 0 <= qy < fb_height f ->
  pixel f (framebuffer_plot_pixel f px py colour m) qx qy =
  if decide (qx = px /\ qy = py) then u32 colour else pixel f m qx qy.
Proof.
  intros Hok Hpx Hpy Hqx Hqy. rewrite plot_pixel_address by done. unfold pixel, ld32, st32.
  case_decide as E.
  - destruct E as [-> ->]. apply (le_load_store_same m _ 4).
  - apply le_load_store_other. destruct Hok. unfold pixel_address.
    destruct (decide (qy = py)) as [->|]; [lia|]. nia.
Qed.

(** The header and the glyphs stay as they are while only the screen changes. *)
Lemma ld32_changes (P : Z -> Prop) m m' a :
  changes P m m' -> (forall b, a <= b < a + 4 -> ~ P b) -> ld32 m' a = ld32 m a.
Proof. intros Hc H. apply le_load_ext. intros b Hb. apply Hc, H. lia. Qed.

Lemma header_changes f font m m' :
  changes (on_screen f) m m' -> header_apart f font ->
  psf_width m' font = psf_width m font /\ psf_height m' font = psf_height m font /\
  psf_glyph_size m' font = psf_glyph_size m font.
Proof.
  intros Hc Ha. unfold psf_width, psf_height, psf_glyph_size.
  split_and!; (eapply ld32_changes; [exact Hc|]; intros; apply Ha; lia).
Qed.

Lemma ld32_range m a : 0 <= ld32 m a < 4294967296.
Proof. apply (le_load_range m a 4). Qed.

Lemma psf_ranges m font :
  0 <= psf_width m font < 4294967296 /\ 0 <= psf_height m font < 4294967296 /\
  0 <= psf_glyph_size m font < 4294967296.
Proof. split_and!; apply ld32_range. Qed.

(** ** One character *)

Section Character.
Context (f : framebuffer_t) (font character line_pitch x y colour w h : Z) (m0 : mem).
Hypothesis Hok : framebuffer_ok f.
Hypothesis Hfont : header_apart f font.
Hypothesis Hw : psf_width m0 font = w.
Hypothesis Hh : psf_height m0 font = h.
Hypothesis Hx : 0 <= x /\ x + w <= fb_width f.
Hypothesis Hy : 0 <= y /\ y + h <= fb_height f.

(** The pixel of the glyph at a place of the screen that is in the rows above
    [yy] or in the columns of row [yy] before [xx]. *)
Definition drawn (xx yy qx qy : Z) : bool :=
  bool_decide (x <= qx < x + w /\ (y <= qy < y + yy \/ qy = y + yy /\ qx < x + xx)) &&
  glyph_bit m0 character line_pitch (qx - x) (qy - y).

(** The memory after the pixels up to there. *)
Record partly_drawn (xx yy : Z) (m : mem) : Prop := {
  pd_changes : changes (on_screen f) m0 m;
  pd_pixel : forall qx qy, 0 <= qx < fb_width f -> 0 <= qy < fb_height f ->
    pixel f m qx qy = if drawn xx yy qx qy then u32 colour else pixel f m0 qx qy
}.

(** Whatever the glyph is, only the screen changes. *)
Lemma plot_columns_inside yy xx n m :
  0 <= xx -> xx + Z.of_nat n = w -> 0 <= yy < h -> changes (on_screen f) m0 m ->
  exists m', plot_columns f font character line_pitch x y colour yy xx n m = Done m' /\
    changes (on_screen f) m0 m'.
Proof.
  intros Hxx Hn Hyy. revert xx m Hxx Hn. induction n as [|n IH]; intros xx m Hxx Hn Hc; cbn [plot_columns];
    destruct (header_changes _ _ _ _ Hc Hfont) as (-> & _); rewrite Hw; btest; try lia; [by exists m|].
  apply IH; [lia|lia|]. destruct (glyph_bit _ _ _ _ _); [|done].
  assert (x + xx < 18446744073709551616 /\ y + yy < 18446744073709551616) as [] by (destruct Hok; nia).
  wsimp. eapply changes_trans; [exact Hc|]. rewrite plot_pixel_address by (done || lia). apply changes_st32.
  intros b Hb. eapply pixel_inside; [done| | |exact Hb]; lia.
Qed.

Lemma plot_rows_inside yy n m :
  0 <= yy -> yy + Z.of_nat n = h -> changes (on_screen f) m0 m ->
  exists m', plot_rows f font character line_pitch x y colour yy n m = Done m' /\ changes (on_screen f) m0 m'.
Proof.
  revert yy m. induction n as [|n IH]; intros yy m Hyy Hn Hc; cbn [plot_rows];
    destruct (header_changes _ _ _ _ Hc Hfont) as (Hw' & -> & _); rewrite Hh; btest; try lia; [by exists m|].
  rewrite Hw', Hw. destruct (plot_columns_inside yy 0 (Z.to_nat w) m) as (m1 & -> & H1); [lia| |lia|done|].
  { pose proof (psf_ranges m0 font). lia. }
  cbn [mbind outcome_bind]. apply IH; (done || lia).
Qed.

(** The glyph is outside the framebuffer. *)
Hypothesis Hglyph : forall m xx yy, changes (on_screen f) m0 m -> 0 <= xx < w -> 0 <= yy < h ->
  glyph_bit m character line_pitch xx yy = glyph_bit m0 character line_pitch xx yy.

Lemma partly_drawn_pixel xx yy m :
  0 <= xx < w -> 0 <= yy < h -> partly_drawn xx yy m ->
  partly_drawn (xx + 1) yy (if glyph_bit m character line_pitch xx yy
                            then framebuffer_plot_pixel f (x +w xx) (y +w yy) colour m else m).
Proof.
  intros Hxx Hyy [Hc Hp]. rewrite (Hglyph m xx yy Hc Hxx Hyy).
  assert (x + xx < 18446744073709551616 /\ y + yy < 18446744073709551616) as [] by (destruct Hok; nia).
  wsimp.
  assert (forall qx qy, drawn (xx + 1) yy qx qy =
    if decide (qx = x + xx /\ qy = y + yy) then glyph_bit m0 character line_pitch xx yy else drawn xx yy qx qy) as Hd.
  { intros qx qy. unfold drawn. case_decide as E.
    - destruct E as [-> ->]. rewrite bool_decide_true by lia. simpl. f_equal; lia.
    - f_equal. apply bool_decide_ext. lia. }
  destruct (glyph_bit m0 character line_pitch xx yy); split.
  - eapply changes_trans; [exact Hc|]. rewrite plot_pixel_address by (done || lia). apply changes_st32.
    intros b Hb. eapply pixel_inside; [done| | |exact Hb]; lia.
  - intros qx qy Hqx Hqy. rewrite pixel_after_plot by (done || lia). rewrite Hd, Hp by done. by case_decide.
  - done.
  - intros qx qy Hqx Hqy. rewrite Hd, Hp by done. case_decide as E; [|done]. destruct E as [-> ->].
    unfold drawn. rewrite bool_decide_false by lia. done.
Qed.

Lemma plot_columns_spec yy xx n m :
  0 <= xx -> xx + Z.of_nat n = w -> 0 <= yy < h -> partly_drawn xx yy m ->
  exists m', plot_columns f font character line_pitch x y colour yy xx n m = Done m' /\ partly_drawn w yy m'.
Proof.
  intros Hxx Hn Hyy. revert xx m Hxx Hn. induction n as [|n IH]; intros xx m Hxx Hn Hp; cbn [plot_columns];
    destruct (header_changes _ _ _ _ (pd_changes _ _ _ Hp) Hfont) as (-> & _); rewrite Hw; btest; try lia.
  - exists m. split; [done|]. by replace w with xx by lia.
  - apply IH; [lia|lia|]. apply partly_drawn_pixel; (done || lia).
Qed.

Lemma partly_drawn_row yy m : 0 <= yy -> partly_drawn w yy m <-> partly_drawn 0 (yy + 1) m.
Proof.
  intros Hyy.
  assert (forall qx qy, drawn w yy qx qy = drawn 0 (yy + 1) qx qy) as Hd.
  { intros. unfold drawn. f_equal. apply bool_decide_ext. lia. }
  split; intros [H1 H2]; split; try done; intros; rewrite H2 by done; rewrite Hd; done.
Qed.

Lemma plot_rows_spec yy n m :
  0 <= yy -> yy + Z.of_nat n = h -> partly_drawn 0 yy m ->
  exists m', plot_rows f font character line_pitch x y colour yy n m = Done m' /\ partly_drawn 0 h m'.
Proof.
  revert yy m. induction n as [|n IH]; intros yy m Hyy Hn Hp; cbn [plot_rows];
    destruct (header_changes _ _ _ _ (pd_changes _ _ _ Hp) Hfont) as (Hw' & -> & _); rewrite Hh; btest; try lia.
  - exists m. split; [done|]. by replace h with yy by lia.
  - rewrite Hw', Hw. destruct (plot_columns_spec yy 0 (Z.to_nat w) m) as (m1 & -> & H1); [lia| |lia|done|].
    { pose proof (psf_ranges m0 font). lia. }
    cbn [mbind outcome_bind]. apply IH; [lia|lia|]. by apply partly_drawn_row.
Qed.

Lemma partly_drawn_start : partly_drawn 0 0 m0.
Proof.
  split; [done|]. intros. unfold drawn. rewrite bool_decide_false by lia. done.
Qed.
End Character.

(** ** Strings *)

(** The screen is ready, and a character fits on it. *)
Record screen_ok (s : screen) : Prop := {
  so_available : framebuffer_available s = true;
  so_lock : framebuffer_spinlock s = false;
  so_fb : framebuffer_ok (main_framebuffer s);
  so_font : header_apart (main_framebuffer s) (font s);
  so_width : psf_width (scr_mem s) (font s) <= fb_width (main_framebuffer s);
  so_height : 0 < psf_height (scr_mem s) (font s) <= fb_height (main_framebuffer s);
  so_cursor : 0 <= cur_x (main_cursor s) <= fb_width (main_framebuffer s) /\ 0 <= cur_y (main_cursor s)
}.

(** The line of the cursor ends at most [k] lines of text below the screen. *)
Definition below (k : Z) (s : screen) : Prop :=
  cur_y (main_cursor s) + psf_height (scr_mem s) (font s) <= fb_height (main_framebuffer s) + k * psf_height (scr_mem s) (font s).

(** The lines below after a text: a new line can add one, a character that is drawn
    is on the screen. *)
Definition overhang (k : Z) (text : list Z) : Z := foldl (fun k c => if c =? NEWLINE then k + 1 else 0) k text.

(** What drawing leaves alone. *)
Definition same_screen (s s' : screen) : Prop :=
  main_framebuffer s' = main_framebuffer s /\ font s' = font s /\ font_glyphs s' = font_glyphs s /\
  cur_colour (main_cursor s') = cur_colour (main_cursor s) /\
  changes (on_screen (main_framebuffer s)) (scr_mem s) (scr_mem s').

Lemma same_screen_trans s1 s2 s3 : same_screen s1 s2 -> same_screen s2 s3 -> same_screen s1 s3.
Proof.
  intros (A1 & B1 & C1 & D1 & E1) (A2 & B2 & C2 & D2 & E2). split_and!; try congruence.
  eapply changes_trans; [exact E1|]. by rewrite <- A1.
Qed.

(** A ready screen stays ready as long as the cursor is fine. *)
Lemma screen_ok_step s s' :
  screen_ok s -> same_screen s s' -> framebuffer_available s' = true -> framebuffer_spinlock s' = false ->
  0 <= cur_x (main_cursor s') <= fb_width (main_framebuffer s) -> 0 <= cur_y (main_cursor s') -> screen_ok s'.
Proof.
  intros [] (A & B & C & _ & D) Ha Hl Hx Hy. destruct (header_changes _ _ _ _ D so_font0) as (W & T & _).
  split; rewrite ?A, ?B, ?W, ?T; done.
Qed.

Lemma wrap_line_spec s c :
  framebuffer_ok (main_framebuffer s) ->
  0 <= cur_x (main_cursor s) <= fb_width (main_framebuffer s) ->
  0 <= cur_y (main_cursor s) ->
  cur_y (main_cursor s) + psf_height (scr_mem s) (font s) < 18446744073709551616 ->
  psf_width (scr_mem s) (font s) <= fb_width (main_framebuffer s) ->
  exists x y, wrap_line c s = set_cursor s x y /\
    0 <= x /\ x + psf_width (scr_mem s) (font s) <= fb_width (main_framebuffer s) /\
    cur_y (main_cursor s) <= y <= cur_y (main_cursor s) + psf_height (scr_mem s) (font s).
Proof.
  intros Hok Hx Hy Hyb Hw. pose proof (psf_ranges (scr_mem s) (font s)) as (R1 & R2 & _).
  assert (fb_width (main_framebuffer s) < 4611686018427387904) as Hb by (destruct Hok; nia).
  unfold wrap_line. wsimp. rewrite Z.geb_leb.
  destruct (Z.leb_spec (fb_width (main_framebuffer s)) (cur_x (main_cursor s) + psf_width (scr_mem s) (font s)));
    simpl; [eexists _, _; split; [done|lia]|].
  destruct (c =? NEWLINE); [eexists _, _; split; [done|lia]|].
  exists (cur_x (main_cursor s)), (cur_y (main_cursor s)). split; [by destruct s as [? ? ? []]|lia].
Qed.

Lemma wrap_screen_spec s :
  framebuffer_ok (main_framebuffer s) -> 0 <= cur_y (main_cursor s) -> 0 <= cur_x (main_cursor s) ->
  cur_x (main_cursor s) + psf_width (scr_mem s) (font s) <= fb_width (main_framebuffer s) ->
  cur_y (main_cursor s) + psf_height (scr_mem s) (font s) < 18446744073709551616 ->
  psf_height (scr_mem s) (font s) <= fb_height (main_framebuffer s) ->
  exists x y m, wrap_screen s = set_scr_mem (set_cursor s x y) m /\
    changes (on_screen (main_framebuffer s)) (scr_mem s) m /\
    0 <= x /\ x + psf_width (scr_mem s) (font s) <= fb_width (main_framebuffer s) /\
    0 <= y <= cur_y (main_cursor s) /\ y + psf_height (scr_mem s) (font s) <= fb_height (main_framebuffer s).
Proof.
  intros Hok Hy Hx Hxw Hyb Hh. pose proof (psf_ranges (scr_mem s) (font s)) as (R1 & R2 & _).
  unfold wrap_screen. wsimp. rewrite Z.geb_leb. btest.
  - eexists 0, 0, _. split; [done|]. split; [|lia]. apply changes_zero_pages. intros b Hb.
    unfold on_screen. destruct Hok. rewrite u64_small in Hb by nia. unfold PAGE in Hb.
    assert (0 <= fb_height (main_framebuffer s) * fb_pitch (main_framebuffer s)) by nia. zlia.
  - exists (cur_x (main_cursor s)), (cur_y (main_cursor s)), (scr_mem s). split; [by destruct s as [? ? ? []]|].
    split; [done|lia].
Qed.

Lemma plot_character_inside s c x y colour :
  framebuffer_available s = true -> framebuffer_ok (main_framebuffer s) ->
  header_apart (main_framebuffer s) (font s) -> 0 < psf_height (scr_mem s) (font s) ->
  0 <= x -> x + psf_width (scr_mem s) (font s) <= fb_width (main_framebuffer s) ->
  0 <= y -> y + psf_height (scr_mem s) (font s) <= fb_height (main_framebuffer s) ->
  exists m, framebuffer_plot_character c x y colour s = Done (set_scr_mem s m) /\
    changes (on_screen (main_framebuffer s)) (scr_mem s) m.
Proof.
  intros Ha Hok Hf Hh Hx Hxw Hy Hyh. unfold framebuffer_plot_character. rewrite Ha. simpl negb. cbv iota zeta.
  btest; [lia|].
  edestruct (plot_rows_inside (main_framebuffer s) (font s)
    (glyph_address (scr_mem s) (font s) (font_glyphs s) c)
    (u8 (psf_glyph_size (scr_mem s) (font s) / psf_height (scr_mem s) (font s)))
    x y colour (psf_width (scr_mem s) (font s)) (psf_height (scr_mem s) (font s)) (scr_mem s)
    Hok Hf eq_refl eq_refl (conj Hx Hxw) (conj Hy Hyh) 0 (Z.to_nat (psf_height (scr_mem s) (font s))) (scr_mem s))
    as (m & -> & Hc); [lia|lia|done|]. by exists m.
Qed.

Lemma write_character_spec s c :
  screen_ok s -> cur_y (main_cursor s) + 2 * psf_height (scr_mem s) (font s) < 18446744073709551616 ->
  exists s', framebuffer_write_character c s = Done s' /\ same_screen s s' /\ screen_ok s' /\
    cur_y (main_cursor s') <= cur_y (main_cursor s) + psf_height (scr_mem s) (font s) /\
    forall k, below k s -> below (overhang k [c]) s'.
Proof.
  intros Hs Hyb. pose proof Hs as [Ha Hl Hok Hf Hw Hh [Hx Hy]].
  unfold framebuffer_write_character. rewrite Ha, Hl. cbn [negb spinlock_acquire mbind outcome_bind].
  destruct (wrap_line_spec (set_fb_lock s true) c) as (x & y & -> & B1 & B2 & B3); try done; [simpl; lia|].
  simpl in B2, B3. assert (fb_width (main_framebuffer s) < 4611686018427387904) as Hwb by (destruct Hok; nia).
  pose proof (psf_ranges (scr_mem s) (font s)) as (R1 & R2 & _).
  unfold below, overhang. cbn [foldl]. destruct (c =? NEWLINE).
  { eexists. split; [done|]. assert (same_screen s (set_fb_lock (set_cursor (set_fb_lock s true) x y) false)) as Sm
      by (split_and!; done). split_and!; [exact Sm| |simpl; lia|simpl; intros k Hk; lia].
    eapply screen_ok_step; [exact Hs|exact Sm|done|done|simpl; lia|simpl; lia]. }
  destruct (wrap_screen_spec (set_cursor (set_fb_lock s true) x y)) as (x' & y' & m & -> & Hc & B4 & B5 & B6 & B7);
    simpl; try (done || lia).
  simpl in *. set (s1 := set_scr_mem _ m).
  destruct (header_changes _ _ _ _ Hc Hf) as (Ew & Eh & _).
  destruct (plot_character_inside s1 c x' y' (cur_colour (main_cursor s))) as (m' & -> & Hc'); simpl; try (done || lia).
  cbn [mbind outcome_bind]. destruct (header_changes _ _ _ _ Hc' Hf) as (Ew' & Eh' & _).
  eexists. split; [done|].
  match goal with |- same_screen s ?s' /\ _ => assert (same_screen s s') as Sm end.
  { split_and!; try done. eapply changes_trans; [exact Hc|exact Hc']. }
  unfold s1 in Eh'. simpl in Eh'. split_and!; [exact Sm| |simpl; lia|simpl; intros k _; rewrite Eh', Eh; lia].
  eapply screen_ok_step; [exact Hs|exact Sm|done|done|simpl|simpl; lia].
  unfold s1 in Ew'. simpl in Ew'. rewrite Ew', Ew, u64_small by lia. lia.
Qed.

Lemma write_string_spec string text s :
  screen_ok s -> cstr (scr_mem s) string text ->
  (forall b, string <= b <= string + Z.of_nat (length text) -> ~ on_screen (main_framebuffer s) b) ->
  cur_y (main_cursor s) + (Z.of_nat (length text) + 1) * psf_height (scr_mem s) (font s) < 18446744073709551616 ->
  exists s', write_string_loop string (length text) s = Done s' /\ same_screen s s' /\ screen_ok s' /\
    cur_y (main_cursor s') <= cur_y (main_cursor s) + Z.of_nat (length text) * psf_height (scr_mem s) (font s) /\
    forall k, below k s -> below (overhang k text) s'.
Proof.
  revert string s. induction text as [|c text IH]; intros string s Hs (Ht & H0 & Hnz) Ha Hy; cbn [write_string_loop length].
  - simpl in H0. rewrite Z.add_0_r in H0. rewrite H0. simpl. exists s. split_and!; try done. lia.
  - simpl in Ht, H0. injection Ht as Hc Ht. inversion_clear Hnz as [|? ? Hc0 Hnz'].
    rewrite Hc. destruct (Z.eqb_spec c 0); [done|].
    destruct (write_character_spec s c Hs) as (s1 & -> & Sm & Hs1 & Hy1 & Hb1).
    { cbn [length] in Hy. pose proof (so_height _ Hs). nia. }
    cbn [mbind outcome_bind]. pose proof Sm as (Ef & Efo & _ & _ & Hch).
    destruct (header_changes _ _ _ _ Hch (so_font _ Hs)) as (_ & Eh & _).
    destruct (IH (string + 1) s1 Hs1) as (s2 & -> & Sm2 & Hs2 & Hy2 & Hb2).
    + split_and!; [|by rewrite Hch; [replace (string + 1 + Z.of_nat (length text)) with (string + Z.of_nat (S (length text))) by lia|apply Ha; simpl; lia]|done].
      rewrite <- Ht at 2. apply bytes_ext. intros b Hb. apply Hch, Ha. simpl. lia.
    + intros b Hb. rewrite Ef. apply Ha. simpl. lia.
    + rewrite Efo, Eh. cbn [length] in Hy. nia.
    + exists s2. split_and!; [done|by eapply same_screen_trans|done| |intros k Hk; apply Hb2; by apply Hb1]. rewrite Efo, Eh in Hy2. cbn [length]. nia.
Qed.

(** ** Glyphs *)

(** The bytes of one row of a glyph. *)
Definition row_bytes (s : screen) : Z := (psf_width (scr_mem s) (font s) + 7) / 8.

(** The glyphs of the 7-bit characters are where the header says, outside the
    framebuffer. *)
Record font_ok (s : screen) : Prop := {
  fo_apart : header_apart (main_framebuffer s) (font s);
  fo_rows : 0 < psf_height (scr_mem s) (font s);
  fo_size : psf_glyph_size (scr_mem s) (font s) = psf_height (scr_mem s) (font s) * row_bytes s;
  fo_line : psf_width (scr_mem s) (font s) <= 2040;
  fo_32 : 128 * psf_glyph_size (scr_mem s) (font s) <= 4294967296;
  fo_place : 0 <= font_glyphs s /\ font_glyphs s + 4294967296 < 18446744073709551616;
  fo_glyphs : forall b, font_glyphs s <= b < font_glyphs s + 128 * psf_glyph_size (scr_mem s) (font s) ->
    ~ on_screen (main_framebuffer s) b
}.

(** The bit of the font for column [xx] and row [yy] of the character [c]. *)
Definition font_bit (s : screen) (c xx yy : Z) : bool :=
  Z.testbit (ld8 (scr_mem s) (font_glyphs s + c * psf_glyph_size (scr_mem s) (font s) + yy * row_bytes s + xx / 8))
    (7 - xx mod 8).

Lemma shift_mask xx : Z.shiftr 128 (xx mod 8) = Z.shiftl 1 (7 - xx mod 8).
Proof.
  pose proof (Z.mod_pos_bound xx 8).
  assert (xx mod 8 = 0 \/ xx mod 8 = 1 \/ xx mod 8 = 2 \/ xx mod 8 = 3 \/ xx mod 8 = 4 \/ xx mod 8 = 5 \/
          xx mod 8 = 6 \/ xx mod 8 = 7) as E by lia.
  destruct_or! E; rewrite E; reflexivity.
Qed.

Section Glyph.
Context (s : screen) (c : Z) (F : font_ok s) (Hc : 0 <= c < 128).
Abbreviation w := (psf_width (scr_mem s) (font s)).
Abbreviation h := (psf_height (scr_mem s) (font s)).
Abbreviation line_pitch := (u8 (psf_glyph_size (scr_mem s) (font s) / h)).
Abbreviation character := (glyph_address (scr_mem s) (font s) (font_glyphs s) c).

Lemma line_pitch_rows : line_pitch = row_bytes s.
Proof using F Hc.
  destruct F. rewrite fo_size0, Z.mul_comm, Z.div_mul by lia. unfold u8, row_bytes.
  pose proof (psf_ranges (scr_mem s) (font s)). apply Z.mod_small. zlia.
Qed.

Lemma glyph_place : character = font_glyphs s + c * psf_glyph_size (scr_mem s) (font s).
Proof using F Hc.
  destruct F. pose proof (psf_ranges (scr_mem s) (font s)) as (_ & _ & R). unfold glyph_address, char_value, u8.
  rewrite (Z.mod_small c) by lia. btest; [|lia]. unfold u32.
  set (g := psf_glyph_size (scr_mem s) (font s)) in *.
  destruct (decide (g = 0)) as [->|].
  - rewrite Z.mul_0_r. simpl. apply u64_small. lia.
  - rewrite (Z.mod_small (c * g)) by nia. apply u64_small. nia.
Qed.

Lemma glyph_bit_font m xx yy :
  changes (on_screen (main_framebuffer s)) (scr_mem s) m -> 0 <= xx < w -> 0 <= yy < h ->
  glyph_bit m character line_pitch xx yy = font_bit s c xx yy.
Proof using F Hc.
  intros Hm Hxx Hyy. rewrite line_pitch_rows, glyph_place. unfold glyph_bit, font_bit. pose proof F as [].
  pose proof (psf_ranges (scr_mem s) (font s)) as (_ & _ & R).
  assert (0 <= xx / 8 < row_bytes s) as Hb by (unfold row_bytes; zlia).
  assert (0 <= yy * row_bytes s + xx / 8 < psf_glyph_size (scr_mem s) (font s)) as Hi by (rewrite fo_size0; nia).
  unfold u32. rewrite (Z.mod_small (yy * row_bytes s)) by nia.
  rewrite Hm by (apply fo_glyphs0; nia). rewrite shift_mask, land_mask_zero, negb_involutive; [done|].
  pose proof (Z.mod_pos_bound xx 8). lia.
Qed.
End Glyph.

(** * A small screen *)

Definition demo_fb : framebuffer_t := Framebuffer 65536 32 16 128 32.

(** A font of 8 by 4 pixels with an [A], and the text "A", a new line, "A". *)
Definition demo_font : mem :=
  let m := foldr (fun '(i, v) m => st8 m (256 + i) v) ∅
    [(0, 0x72); (1, 0xB5); (2, 0x4A); (3, 0x86); (8, 32); (20, 4); (24, 4); (28, 8);
     (292, 0x18); (293, 0x24); (294, 0x3C); (295, 0x24)] in
  st8 (st8 (st8 m 8192 65) 8193 10) 8194 65.

Definition demo_screen : screen :=
  framebuffer_init (Some [demo_fb]) 256 (Screen demo_font false (Framebuffer 0 0 0 0 0) (Cursor 0 0 0) 0 0 false).

Lemma demo_framebuffer_ok : framebuffer_ok demo_fb.
Proof. split; simpl; lia. Qed.

Lemma demo_available : framebuffer_available demo_screen = true /\ main_framebuffer demo_screen = demo_fb /\
  font demo_screen = 256 /\ font_glyphs demo_screen = 288 /\ main_cursor demo_screen = Cursor 0 0 0xFFFFFF.
Proof. split_and!; vm_compute; reflexivity. Qed.

Lemma demo_memory : scr_mem demo_screen = demo_font.
Proof. vm_compute. reflexivity. Qed.

Lemma demo_sizes : psf_width (scr_mem demo_screen) (font demo_screen) = 8 /\
  psf_height (scr_mem demo_screen) (font demo_screen) = 4 /\
  psf_glyph_size (scr_mem demo_screen) (font demo_screen) = 4.
Proof. split_and!; vm_compute; reflexivity. Qed.

Lemma demo_screen_ok : screen_ok demo_screen.
Proof.
  destruct demo_available as (Ha & Ef & Eo & Eg & Ec). destruct demo_sizes as (Ew & Eh & _).
  split; rewrite ?Ew, ?Eh, ?Ef, ?Eo, ?Ec.
  - exact Ha.
  - vm_compute. reflexivity.
  - exact demo_framebuffer_ok.
  - intros b Hb. unfold on_screen. simpl. lia.
  - simpl. lia.
  - simpl. lia.
  - simpl. lia.
Qed.

(** * Properties *)

(** Drawing a character below 128 that fits on the screen sets exactly the pixels of its glyph
    in the font to the colour and leaves every other pixel of the screen as it was. *)
Theorem plot_character_draws (s : screen) (c x y colour : Z) :
  framebuffer_available s = true -> framebuffer_ok (main_framebuffer s) -> font_ok s -> 0 <= c < 128 ->
  0 <= x -> x + psf_width (scr_mem s) (font s) <= fb_width (main_framebuffer s) ->
  0 <= y -> y + psf_height (scr_mem s) (font s) <= fb_height (main_framebuffer s) ->
  exists m, framebuffer_plot_character c x y colour s = Done (set_scr_mem s m) /\
    changes (on_screen (main_framebuffer s)) (scr_mem s) m /\
    forall qx qy, 0 <= qx < fb_width (main_framebuffer s) -> 0 <= qy < fb_height (main_framebuffer s) ->
      pixel (main_framebuffer s) m qx qy =
      if bool_decide (x <= qx < x + psf_width (scr_mem s) (font s) /\
                      y <= qy < y + psf_height (scr_mem s) (font s)) && font_bit s c (qx - x) (qy - y)
      then u32 colour else pixel (main_framebuffer s) (scr_mem s) qx qy.
Proof.
  intros Ha Hok F Hc Hx Hxw Hy Hyh. unfold framebuffer_plot_character. rewrite Ha. simpl negb. cbv iota zeta.
  pose proof F as [Hf Hh _ _ _ _ _]. btest; [lia|].
  edestruct (plot_rows_spec (main_framebuffer s) (font s) (glyph_address (scr_mem s) (font s) (font_glyphs s) c)
    (u8 (psf_glyph_size (scr_mem s) (font s) / psf_height (scr_mem s) (font s)))
    x y colour (psf_width (scr_mem s) (font s)) (psf_height (scr_mem s) (font s)) (scr_mem s)
    Hok Hf eq_refl eq_refl (conj Hx Hxw) (conj Hy Hyh)) as (m & -> & [Hch Hp]).
  - intros m xx yy Hm Hxx Hyy. by rewrite !glyph_bit_font.
  - reflexivity.
  - pose proof (psf_ranges (scr_mem s) (font s)). rewrite Z2Nat.id; lia.
  - by apply partly_drawn_start.
  - exists m. split_and!; [done|done|]. intros qx qy Hqx Hqy. rewrite Hp by done. unfold drawn.
    rewrite (bool_decide_ext (_ /\ (_ \/ _)) (x <= qx < x + psf_width (scr_mem s) (font s) /\
                      y <= qy < y + psf_height (scr_mem s) (font s))) by lia.
    case_bool_decide; [|done]. simpl. rewrite glyph_bit_font by (done || lia). done.
Qed.

Lemma plot_character_draws_witness :
  exists m, framebuffer_plot_character 65 0 0 7 demo_screen = Done (set_scr_mem demo_screen m) /\
    pixel demo_fb m 3 0 = 7 /\ pixel demo_fb m 0 0 = pixel demo_fb demo_font 0 0.
Proof.
  destruct demo_available as (Ha & Ef & Eo & Eg & _). destruct demo_sizes as (Ew & Eh & Es).
  destruct (plot_character_draws demo_screen 65 0 0 7 Ha) as (m & E & _ & Hp);
    rewrite ?Ef, ?Ew, ?Eh; try (simpl; lia).
  - exact demo_framebuffer_ok.
  - split; rewrite ?Ew, ?Eh, ?Es, ?Ef, ?Eo, ?Eg; try (simpl; lia).
    + intros b Hb. unfold on_screen. simpl. lia.
    + vm_compute. reflexivity.
    + intros b Hb. unfold on_screen. simpl. lia.
  - rewrite Ef in Hp. exists m. split; [exact E|]. split.
    + rewrite Hp by (simpl; lia). vm_compute. reflexivity.
    + rewrite Hp by (simpl; lia). vm_compute. reflexivity.
Defined.

(** Writing a string that lies outside the framebuffer terminates, keeps every store inside the
    framebuffer and the cursor on the screen. *)
Theorem framebuffer_text_stays_on_screen (s : screen) (string : Z) (text : list Z) :
  screen_ok s -> cstr (scr_mem s) string text ->
  (forall b, string <= b <= string + Z.of_nat (length text) -> ~ on_screen (main_framebuffer s) b) ->
  cur_y (main_cursor s) + (Z.of_nat (length text) + 1) * psf_height (scr_mem s) (font s) < 18446744073709551616 ->
  exists s', framebuffer_write_string string s = Done s' /\ screen_ok s' /\
    changes (on_screen (main_framebuffer s)) (scr_mem s) (scr_mem s').
Proof.
  intros Hs Ht Ha Hy. unfold framebuffer_write_string. rewrite (strlen_cstr _ _ _ Ht), Nat2Z.id.
  destruct (write_string_spec _ _ _ Hs Ht Ha Hy) as (s' & E & (_ & _ & _ & _ & Hc) & Hs' & _). by exists s'.
Qed.

Lemma framebuffer_text_stays_on_screen_witness :
  exists s', framebuffer_write_string 8192 demo_screen = Done s' /\ screen_ok s' /\
    changes (on_screen demo_fb) demo_font (scr_mem s').
Proof.
  destruct demo_available as (_ & Ef & _ & _ & Ec). destruct demo_sizes as (_ & Eh & _).
  destruct (framebuffer_text_stays_on_screen demo_screen 8192 [65; 10; 65]) as (s' & E & Hs & Hc).
  - exact demo_screen_ok.
  - split_and!; [vm_compute; reflexivity|vm_compute; reflexivity|repeat constructor; discriminate].
  - intros b Hb. rewrite Ef. unfold on_screen. cbn [length] in Hb. simpl. lia.
  - rewrite Ec, Eh. simpl. lia.
  - rewrite Ef, demo_memory in Hc. exists s'. split; [exact E|]. split; [exact Hs|exact Hc].
Defined.

(** A character from 128 on is negative as a char and wraps around in the product with the glyph
    size, so its glyph is taken from behind all 256 glyphs of a font. *)
Theorem high_characters_miss_font (s : screen) (c : Z) :
  128 <= c < 256 -> 0 < psf_glyph_size (scr_mem s) (font s) ->
  512 * psf_glyph_size (scr_mem s) (font s) <= 4294967296 ->
  0 <= font_glyphs s -> font_glyphs s + 4294967296 < 18446744073709551616 ->
  font_glyphs s + 256 * psf_glyph_size (scr_mem s) (font s) <=
  glyph_address (scr_mem s) (font s) (font_glyphs s) c.
Proof.
  intros Hc Hg H32 Hp He. unfold glyph_address, char_value, u8. rewrite (Z.mod_small c) by lia. btest; [lia|].
  set (g := psf_glyph_size (scr_mem s) (font s)) in *.
  assert (u32 ((c - 256) * g) = 4294967296 - (256 - c) * g) as ->.
  { unfold u32. symmetry. apply Z.mod_unique with (-1); nia. }
  rewrite u64_small by nia. nia.
Qed.

Lemma high_characters_miss_font_witness :
  288 + 256 * 4 <= glyph_address demo_font 256 288 200.
Proof.
  destruct demo_available as (_ & _ & Eo & Eg & _). destruct demo_sizes as (_ & _ & Es).
  pose proof (high_characters_miss_font demo_screen 200) as Hm. rewrite Es, Eo, Eg, demo_memory in Hm. apply Hm; lia.
Defined.

(** A write to the framebuffer device ends at the end of the device at the latest; one that is
    larger than the device starts before the framebuffer. *)
Theorem framebuffer_write_range {H} `{!KernelHeap H} `{!KernelHeapLaws H} (f : framebuffer_t)
    (s : vfs_state (dev_state H)) (node buffer size : Z) (n : vfs_fs_node) :
  framebuffer_ok f -> vs_nodes s !! node = Some n ->
  n_max_seek_position n = fb_pitch f * fb_height f - 1 ->
  0 <= n_seek_position n <= n_max_seek_position n ->
  0 <= size < 9223372036854775808 -> n_max_seek_position n < 9223372036854775808 ->
  size <= fb_base f + n_max_seek_position n ->
  let start := Z.min (n_seek_position n) (n_max_seek_position n - size) in
  exists s', framebuffer_write f node buffer size s = Done (size, s') /\
    fs_mem s' = memcpy (fs_mem s) (fb_base f + start) buffer size /\
    vs_nodes s' !! node = Some (set_seek_position (start + size) n) /\
    start + size <= n_max_seek_position n /\
    (size <= n_max_seek_position n -> forall b, fb_base f + start <= b < fb_base f + start + size -> on_screen f b) /\
    (n_max_seek_position n < size -> fb_base f + start < fb_base f).
Proof.
  intros Hok Hn Hm Hs Hz Hmax Hb start. unfold framebuffer_write. rewrite Hn. cbn [deref mbind outcome_bind].
  destruct Hok. rewrite (u64_small (n_seek_position n + size)) by lia. rewrite s64_small by lia.
  set (position := if n_seek_position n + size >? n_max_seek_position n then n_max_seek_position n -w size
                   else n_seek_position n).
  assert (fb_base f +w position = fb_base f + start /\ position +w size = start + size) as [Ea Ep].
  { unfold position, start. rewrite Z.gtb_ltb. btest.
    - rewrite Z.min_r by lia. unfold u64. rewrite Z.add_mod_idemp_r, Z.add_mod_idemp_l by lia.
      rewrite !Z.mod_small by nia. lia.
    - rewrite Z.min_l by lia. wsimp. done. }
  rewrite Ea, Ep. eexists. split; [done|]. split_and!.
  - unfold fs_mem. simpl. apply (kh_mem_law (dv_heap (vs_heap s))).
  - simpl. apply lookup_insert_eq.
  - unfold start. lia.
  - intros Hle b Hb'. unfold on_screen, start in *. nia.
  - intros. unfold start. lia.
Qed.

(** The device open at its start. *)
Definition demo_fb_node : vfs_fs_node := Node 0 0 O_WRONLY 0 2047 true 0 0.
Definition demo_fb_state : vfs_state (dev_state (ba_state pa_state)) :=
  Vfs (Devs (BA (PA ∅ [] false) 0 0 0 0 false) ∅ 0) {[8 := demo_fb_node]} ∅ 0 false 0.

Lemma framebuffer_write_range_witness :
  exists s', @framebuffer_write _ (ba_heap 0 0) demo_fb 8 4096 3000 demo_fb_state = Done (3000, s') /\
    @fs_mem _ (@dev_heap _ (ba_heap 0 0)) s' = memcpy ∅ (65536 - 953) 4096 3000 /\ 65536 - 953 < fb_base demo_fb.
Proof.
  destruct (@framebuffer_write_range _ (ba_heap 0 0) (ba_heap_laws 0 0 hhdm_ok_0) demo_fb demo_fb_state 8 4096 3000 demo_fb_node)
    as (s' & E & Em & _ & _ & _ & Hu); try (simpl; lia).
  - exact demo_framebuffer_ok.
  - reflexivity.
  - exists s'. split; [exact E|]. split; [exact Em|]. apply Hu. simpl. lia.
Defined.
