(* ===== verification/Serial.v ===== *)
(** The serial port, [devices/serial/serial.c] and
    [devices/serial/uart16550/uart.c].

    The instructions [in] and [out] of [arch/x86_64/pio.h] are the class [PortIO]
    on the state of the hardware.  The class [Uart16550] says what the data sheet
    of the chip says of the registers that the driver uses: the divisor latch
    behind bit 7 of the line control, the loop back of bit 4 of the modem
    control, and the bit of the line status that tells that a byte can be sent. *)

From S2P Require Import Prelude Memory Libc Spinlock KernelHeap Paths Vfs DeviceManager.

Class PortIO (P : Type) := {
  arch_pio_read8 : Z -> P -> Z * P;
  arch_pio_write8 : Z -> Z -> P -> P
}.

Definition COM_PORT_BASE : Z := 0x3F8.
Definition COM_PORT_DATA : Z := COM_PORT_BASE + 0.
Definition COM_PORT_INTERRUPT_ENABLE : Z := COM_PORT_BASE + 1.
Definition COM_PORT_FIFO_CONTROL : Z := COM_PORT_BASE + 2.
Definition COM_PORT_LINE_CONTROL : Z := COM_PORT_BASE + 3.
Definition COM_PORT_MODEM_CONTROL : Z := COM_PORT_BASE + 4.
Definition COM_PORT_LINE_STATUS : Z := COM_PORT_BASE + 5.

(** [~mask] of a byte. *)
Definition not8 (mask : Z) : Z := 255 - mask.

Definition LF : Z := 10.
Definition CR : Z := 13.

(** * The driver *)

(** The hardware and [uart16650_present] next to the memory. *)
Record serial (P : Type) := Serial { ser_mem : mem; ser_ports : P; uart16650_present : bool }.
Arguments Serial {P}.
Arguments ser_mem {P}.
Arguments ser_ports {P}.
Arguments uart16650_present {P}.

Section Driver.
Context {P : Type} `{!PortIO P}.
Implicit Types s : serial P.

(** [arch_pio_write8(port, f(arch_pio_read8(port)))]. *)
Definition pio_update (port : Z) (f : Z -> Z) (p : P) : P :=
  let '(v, p) := arch_pio_read8 port p in arch_pio_write8 port (f v) p.

Definition uart16650_detect (p : P) : bool * P :=
  let p := pio_update COM_PORT_MODEM_CONTROL (fun v => Z.lor v 16) p in
  let p := arch_pio_write8 COM_PORT_DATA 88 p in
  let '(v, p) := arch_pio_read8 COM_PORT_DATA p in
  if negb (v =? 88) then (false, p)
  else (true, pio_update COM_PORT_MODEM_CONTROL (fun v => Z.land v (not8 16)) p).

(** The writes of [uart16550_init] before the test. *)
Definition uart16550_configure (p : P) : P :=
  let divisor := 1 in
  let p := pio_update COM_PORT_LINE_CONTROL (fun v => Z.lor v 128) p in
  let p := arch_pio_write8 (COM_PORT_BASE + 0) (Z.land divisor 0xFF) p in
  let p := arch_pio_write8 (COM_PORT_BASE + 1) (Z.shiftr divisor 8) p in
  let p := pio_update COM_PORT_LINE_CONTROL (fun v => Z.land v (not8 128)) p in
  let p := pio_update COM_PORT_LINE_CONTROL (fun v => Z.land v (not8 7)) p in
  let p := pio_update COM_PORT_LINE_CONTROL (fun v => Z.lor v 3) p in
  let p := pio_update COM_PORT_LINE_CONTROL (fun v => Z.lor v 0) p in
  arch_pio_write8 COM_PORT_FIFO_CONTROL 49 p.

Definition uart16550_init s : serial P :=
  let '(found, p) := uart16650_detect (uart16550_configure (ser_ports s)) in
  Serial (ser_mem s) p (if found then true else uart16650_present s).

Definition uart16550_can_send (p : P) : bool * P :=
  let '(v, p) := arch_pio_read8 COM_PORT_LINE_STATUS p in (negb (Z.land v 32 =? 0), p).

(** [while (!uart16550_can_send())], at most [polls] times. *)
Fixpoint wait_to_send (polls : nat) (p : P) : outcome P :=
  match polls with
  | O => Timeout
  | S polls' => let '(ready, p) := uart16550_can_send p in if ready then Done p else wait_to_send polls' p
  end.

Context (polls : nat).

(** The end of [uart16550_send_byte]. *)
Definition send_raw (byte : Z) (p : P) : outcome P :=
  p ← wait_to_send polls p; Done (arch_pio_write8 COM_PORT_DATA byte p).

(** The call of itself is with ['\r'], which is not ['\n']. *)
Definition uart16550_send_byte (byte : Z) s : outcome (serial P) :=
  if negb (uart16650_present s) then Done s else
  p ← (if byte =? LF then send_raw CR (ser_ports s) else Done (ser_ports s));
  p ← send_raw byte p;
  Done (Serial (ser_mem s) p (uart16650_present s)).

(** [while ( *string)]. *)
Fixpoint send_string_loop (string : Z) (fuel : nat) s : outcome (serial P) :=
  if ld8 (ser_mem s) string =? 0 then Done s else
  match fuel with
  | O => Timeout
  | S fuel' => s ← uart16550_send_byte (ld8 (ser_mem s) string) s; send_string_loop (string + 1) fuel' s
  end.

Definition uart16550_send_string (string : Z) s : outcome (serial P) :=
  if negb (uart16650_present s) then Done s
  else send_string_loop string (Z.to_nat (strlen (ser_mem s) string)) s.

Definition serial_send_byte (byte : Z) s : outcome (serial P) := uart16550_send_byte (u8 byte) s.
Definition serial_send_string (string : Z) s : outcome (serial P) := uart16550_send_string string s.
Definition serial_init s : serial P := uart16550_init s.

(** ** The device *)

Definition uart16550_read (node buffer size offset : Z) s : outcome (Z * serial P) := Done (0, s).

Fixpoint send_bytes (c : Z) (n : nat) s : outcome (serial P) :=
  match n with
  | O => Done s
  | S n' => s ← uart16550_send_byte (ld8 (ser_mem s) c) s; send_bytes (c + 1) n' s
  end.

(** The caller of the device passes no [offset]: it is what the register of the
    fourth argument holds. *)
Definition uart16550_write (node buffer size offset : Z) s : outcome (Z * serial P) :=
  s ← send_bytes (buffer +w offset) (Z.to_nat size) s;
  Done (buffer +w offset, s).
End Driver.

(** The path ["/uart0"] and the functions by their addresses. *)
Definition uart16550_create_device {H} `{!KernelHeap H} (dot path read write : Z) (present : bool)
    (s : vfs_state (dev_state H)) : outcome (vfs_state (dev_state H)) :=
  if negb present then Done s else
  '(_, s) ← device_create_at dot path DEV_SERIAL 0 read write s;
  Done s.

(** * The chip *)

(** What the driver sees: the line and modem control, the divisor latch, the
    byte received, and the bytes that went out. *)
Record uart_view := View {
  v_lcr : Z;
  v_mcr : Z;
  v_divisor : Z;
  v_received : Z;
  v_wire : list Z
}.

Definition dlab (v : uart_view) : bool := Z.testbit (v_lcr v) 7.
Definition loop_back (v : uart_view) : bool := Z.testbit (v_mcr v) 4.

Class Uart16550 (P : Type) `{!PortIO P} := {
  uart : P -> uart_view;
  (** How often the line status has to be read until a byte can be sent. *)
  uart_busy : P -> nat;
  uart_time : nat;
  uart_lcr_byte : forall p, 0 <= v_lcr (uart p) < 256;
  uart_mcr_byte : forall p, 0 <= v_mcr (uart p) < 256;
  uart_busy_time : forall p, (uart_busy p <= uart_time)%nat;
  uart_read_lcr : forall p, fst (arch_pio_read8 COM_PORT_LINE_CONTROL p) = v_lcr (uart p) /\
    uart (snd (arch_pio_read8 COM_PORT_LINE_CONTROL p)) = uart p;
  uart_read_mcr : forall p, fst (arch_pio_read8 COM_PORT_MODEM_CONTROL p) = v_mcr (uart p) /\
    uart (snd (arch_pio_read8 COM_PORT_MODEM_CONTROL p)) = uart p;
  uart_write_lcr : forall p v, 0 <= v < 256 -> uart (arch_pio_write8 COM_PORT_LINE_CONTROL v p) =
    View v (v_mcr (uart p)) (v_divisor (uart p)) (v_received (uart p)) (v_wire (uart p));
  uart_write_mcr : forall p v, 0 <= v < 256 -> uart (arch_pio_write8 COM_PORT_MODEM_CONTROL v p) =
    View (v_lcr (uart p)) v (v_divisor (uart p)) (v_received (uart p)) (v_wire (uart p));
  (** The latch, low and high byte. *)
  uart_write_low : forall p v, 0 <= v < 256 -> dlab (uart p) = true ->
    uart (arch_pio_write8 COM_PORT_DATA v p) =
    View (v_lcr (uart p)) (v_mcr (uart p)) (v_divisor (uart p) / 256 * 256 + v) (v_received (uart p)) (v_wire (uart p));
  uart_write_high : forall p v, 0 <= v < 256 -> dlab (uart p) = true ->
    uart (arch_pio_write8 COM_PORT_INTERRUPT_ENABLE v p) =
    View (v_lcr (uart p)) (v_mcr (uart p)) (v_divisor (uart p) mod 256 + 256 * v) (v_received (uart p)) (v_wire (uart p));
  uart_write_fifo : forall p v, 0 <= v < 256 -> Z.land v 6 = 0 -> uart (arch_pio_write8 COM_PORT_FIFO_CONTROL v p) = uart p;
  (** A byte that is sent comes back, or goes out. *)
  uart_write_loop : forall p v, 0 <= v < 256 -> dlab (uart p) = false -> loop_back (uart p) = true ->
    uart (arch_pio_write8 COM_PORT_DATA v p) =
    View (v_lcr (uart p)) (v_mcr (uart p)) (v_divisor (uart p)) v (v_wire (uart p));
  uart_read_data : forall p, dlab (uart p) = false ->
    fst (arch_pio_read8 COM_PORT_DATA p) = v_received (uart p) /\
    uart (snd (arch_pio_read8 COM_PORT_DATA p)) = uart p;
  uart_write_data : forall p v, 0 <= v < 256 -> dlab (uart p) = false -> loop_back (uart p) = false ->
    uart_busy p = O ->
    uart (arch_pio_write8 COM_PORT_DATA v p) =
    View (v_lcr (uart p)) (v_mcr (uart p)) (v_divisor (uart p)) (v_received (uart p)) (v_wire (uart p) ++ [v]);
  uart_read_status : forall p,
    Z.testbit (fst (arch_pio_read8 COM_PORT_LINE_STATUS p)) 5 = bool_decide (uart_busy p = O) /\
    uart (snd (arch_pio_read8 COM_PORT_LINE_STATUS p)) = uart p /\
    uart_busy (snd (arch_pio_read8 COM_PORT_LINE_STATUS p)) = pred (uart_busy p)
}.

(** What goes over the line for a text. *)
Definition crlf (text : list Z) : list Z := text ≫= (fun c => if c =? LF then [CR; LF] else [c]).

Lemma land_byte v m : 0 <= v < 256 -> 0 <= m -> 0 <= Z.land v m < 256.
Proof.
  intros. split; [apply Z.land_nonneg; lia|].
  apply (bound_of_bits 8); [lia|apply Z.land_nonneg; lia|]. intros i Hi.
  rewrite Z.land_spec, (testbit_high 8 v) by (done || lia). done.
Qed.

Lemma lor_byte v m : 0 <= v < 256 -> 0 <= m < 256 -> 0 <= Z.lor v m < 256.
Proof.
  intros. split; [apply Z.lor_nonneg; lia|].
  apply (bound_of_bits 8); [lia|apply Z.lor_nonneg; lia|]. intros i Hi.
  rewrite Z.lor_spec, !(testbit_high 8) by (done || lia). done.
Qed.

Section Chip.
Context {P : Type} `{!PortIO P} `{!Uart16550 P}.
Implicit Types p : P.

Lemma update_lcr p f : (forall v, 0 <= v < 256 -> 0 <= f v < 256) ->
  uart (pio_update COM_PORT_LINE_CONTROL f p) =
  View (f (v_lcr (uart p))) (v_mcr (uart p)) (v_divisor (uart p)) (v_received (uart p)) (v_wire (uart p)).
Proof.
  intros Hf. unfold pio_update. pose proof (uart_read_lcr p) as [Hv Hu].
  destruct (arch_pio_read8 COM_PORT_LINE_CONTROL p) as [v p']. simpl in Hv, Hu. subst v.
  rewrite uart_write_lcr by apply Hf, uart_lcr_byte. by rewrite Hu.
Qed.

Lemma update_mcr p f : (forall v, 0 <= v < 256 -> 0 <= f v < 256) ->
  uart (pio_update COM_PORT_MODEM_CONTROL f p) =
  View (v_lcr (uart p)) (f (v_mcr (uart p))) (v_divisor (uart p)) (v_received (uart p)) (v_wire (uart p)).
Proof.
  intros Hf. unfold pio_update. pose proof (uart_read_mcr p) as [Hv Hu].
  destruct (arch_pio_read8 COM_PORT_MODEM_CONTROL p) as [v p']. simpl in Hv, Hu. subst v.
  rewrite uart_write_mcr by apply Hf, uart_mcr_byte. by rewrite Hu.
Qed.

Ltac byte_op := intros; first [by apply lor_byte | by apply land_byte].

(** The line control after [uart16550_configure]. *)
Definition configured_lcr (v : Z) : Z :=
  Z.lor (Z.lor (Z.land (Z.land (Z.lor v 128) (not8 128)) (not8 7)) 3) 0.

Lemma configured_bits v : 0 <= v < 256 ->
  Z.land (configured_lcr v) 7 = 3 /\ Z.testbit (configured_lcr v) 7 = false /\
  (forall i, 3 <= i < 7 -> Z.testbit (configured_lcr v) i = Z.testbit v i).
Proof.
  intros Hv.
  assert (forall i, 0 <= i -> Z.testbit (configured_lcr v) i =
    ((Z.testbit v i || Z.testbit 128 i) && Z.testbit (not8 128) i && Z.testbit (not8 7) i) || Z.testbit 3 i) as Hb.
  { intros i Hi. unfold configured_lcr.
    by rewrite !Z.lor_spec, !Z.land_spec, Z.lor_spec, Z.testbit_0_l, orb_false_r. }
  split_and!.
  - apply Z.bits_inj'. intros i Hi. rewrite Z.land_spec, Hb by done.
    assert (i = 0 \/ i = 1 \/ i = 2 \/ 3 <= i) as [-> | [-> | [-> | Hi3]]] by lia; simpl; rewrite ?andb_false_r; try done.
    rewrite (testbit_high 3 7), (testbit_high 2 3) by lia. by rewrite andb_false_r.
  - rewrite Hb by lia. by rewrite andb_false_r.
  - intros i Hi. rewrite Hb by lia. assert (i = 3 \/ i = 4 \/ i = 5 \/ i = 6) as E by lia.
    destruct_or! E; rewrite E; simpl; by rewrite !andb_true_r, !orb_false_r.
Qed.

Lemma configure_spec p :
  uart (uart16550_configure p) =
  View (configured_lcr (v_lcr (uart p))) (v_mcr (uart p)) 1 (v_received (uart p)) (v_wire (uart p)).
Proof.
  unfold uart16550_configure. change (COM_PORT_BASE + 0) with COM_PORT_DATA.
  change (COM_PORT_BASE + 1) with COM_PORT_INTERRUPT_ENABLE.
  rewrite uart_write_fifo by (done || lia). rewrite !update_lcr by byte_op.
  change (Z.land 1 255) with 1. change (Z.shiftr 1 8) with 0.
  set (p1 := pio_update COM_PORT_LINE_CONTROL (fun v => Z.lor v 128) p).
  assert (uart p1 = View (Z.lor (v_lcr (uart p)) 128) (v_mcr (uart p)) (v_divisor (uart p)) (v_received (uart p)) (v_wire (uart p)))
    as E1 by (unfold p1; apply update_lcr; byte_op).
  assert (Z.testbit (Z.lor (v_lcr (uart p)) 128) 7 = true) as Hd by (rewrite Z.lor_spec; apply orb_true_r).
  assert (uart (arch_pio_write8 COM_PORT_DATA 1 p1) =
    View (Z.lor (v_lcr (uart p)) 128) (v_mcr (uart p)) (v_divisor (uart p) / 256 * 256 + 1) (v_received (uart p)) (v_wire (uart p))) as E2.
  { rewrite uart_write_low; [by rewrite E1|lia|]. unfold dlab. by rewrite E1. }
  rewrite uart_write_high; [|lia|unfold dlab; by rewrite E2]. rewrite E2. simpl. f_equal.
  zlia.
Qed.

Lemma detect_spec p :
  dlab (uart p) = false ->
  exists p', uart16650_detect p = (true, p') /\
    uart p' = View (v_lcr (uart p)) (Z.land (Z.lor (v_mcr (uart p)) 16) (not8 16)) (v_divisor (uart p)) 88 (v_wire (uart p)).
Proof.
  intros Hd. unfold uart16650_detect. set (p1 := pio_update COM_PORT_MODEM_CONTROL (fun v => Z.lor v 16) p).
  assert (uart p1 = View (v_lcr (uart p)) (Z.lor (v_mcr (uart p)) 16) (v_divisor (uart p)) (v_received (uart p)) (v_wire (uart p)))
    as E1 by (unfold p1; apply update_mcr; byte_op).
  assert (uart (arch_pio_write8 COM_PORT_DATA 88 p1) =
    View (v_lcr (uart p)) (Z.lor (v_mcr (uart p)) 16) (v_divisor (uart p)) 88 (v_wire (uart p))) as E2.
  { rewrite uart_write_loop; [by rewrite E1|lia| |]; unfold dlab, loop_back; rewrite E1; [exact Hd|].
    cbn [v_mcr]. rewrite Z.lor_spec. apply orb_true_r. }
  destruct (uart_read_data (arch_pio_write8 COM_PORT_DATA 88 p1)) as [Hv Hu]; [unfold dlab; by rewrite E2|].
  destruct (arch_pio_read8 COM_PORT_DATA (arch_pio_write8 COM_PORT_DATA 88 p1)) as [v p2]. simpl in Hv, Hu.
  rewrite Hv, E2. simpl. eexists. split; [done|]. rewrite update_mcr by byte_op. by rewrite Hu, E2.
Qed.

(** ** Sending *)

(** The chip can send. *)
Definition online (s : serial P) : Prop :=
  uart16650_present s = true /\ dlab (uart (ser_ports s)) = false /\ loop_back (uart (ser_ports s)) = false.

(** The chip sent [t] and nothing else changed. *)
Definition sent (s : serial P) (t : list Z) (s' : serial P) : Prop :=
  ser_mem s' = ser_mem s /\ uart16650_present s' = uart16650_present s /\
  v_lcr (uart (ser_ports s')) = v_lcr (uart (ser_ports s)) /\
  v_mcr (uart (ser_ports s')) = v_mcr (uart (ser_ports s)) /\
  v_wire (uart (ser_ports s')) = v_wire (uart (ser_ports s)) ++ t.

Lemma sent_online s t s' : sent s t s' -> online s -> online s'.
Proof. unfold online, dlab, loop_back. intros (_ & -> & -> & -> & _). done. Qed.

Lemma sent_trans s1 s2 s3 t u : sent s1 t s2 -> sent s2 u s3 -> sent s1 (t ++ u) s3.
Proof.
  intros (A1 & B1 & C1 & D1 & E1) (A2 & B2 & C2 & D2 & E2). split_and!; try congruence.
  by rewrite E2, E1, app_assoc.
Qed.

Lemma wait_spec polls p :
  (uart_busy p < polls)%nat -> exists p', wait_to_send polls p = Done p' /\ uart p' = uart p /\ uart_busy p' = O.
Proof.
  revert p. induction polls as [|polls IH]; intros p Hp; [lia|]. cbn [wait_to_send]. unfold uart16550_can_send.
  destruct (uart_read_status p) as (Hv & Hu & Hb). destruct (arch_pio_read8 COM_PORT_LINE_STATUS p) as [v p'].
  cbn [fst snd] in Hv, Hu, Hb. change 32 with (Z.shiftl 1 5). rewrite land_mask_zero by lia. rewrite Hv, negb_involutive.
  case_bool_decide as E.
  - exists p'. split; [done|]. split; [done|]. rewrite Hb, E. done.
  - destruct (IH p') as (p2 & E2 & U2 & B2); [lia|]. exists p2. split; [exact E2|]. by rewrite U2, Hu.
Qed.

Lemma send_raw_spec polls p byte :
  (uart_time < polls)%nat -> 0 <= byte < 256 -> dlab (uart p) = false -> loop_back (uart p) = false ->
  exists p', send_raw polls byte p = Done p' /\
    uart p' = View (v_lcr (uart p)) (v_mcr (uart p)) (v_divisor (uart p)) (v_received (uart p)) (v_wire (uart p) ++ [byte]).
Proof.
  intros Ht Hb Hd Hl. unfold send_raw. pose proof (uart_busy_time p).
  destruct (wait_spec polls p) as (p1 & -> & U & B); [lia|]. cbn [mbind outcome_bind].
  eexists. split; [done|]. rewrite uart_write_data; [by rewrite U|lia|by rewrite U|by rewrite U|done].
Qed.

Lemma send_byte_spec polls s byte :
  (uart_time < polls)%nat -> 0 <= byte < 256 -> online s ->
  exists s', uart16550_send_byte polls byte s = Done s' /\ sent s (if byte =? LF then [CR; LF] else [byte]) s'.
Proof.
  intros Ht Hb (Hp & Hd & Hl). unfold uart16550_send_byte. rewrite Hp. simpl negb. cbv iota.
  destruct (Z.eqb_spec byte LF) as [->|Hne].
  - destruct (send_raw_spec polls (ser_ports s) CR Ht ltac:(done) Hd Hl) as (p1 & -> & U1). cbn [mbind outcome_bind].
    destruct (send_raw_spec polls p1 LF Ht ltac:(done)) as (p2 & -> & U2).
    + unfold dlab. by rewrite U1.
    + unfold loop_back. by rewrite U1.
    + cbn [mbind outcome_bind]. eexists. split; [done|].
      split_and!; simpl; try done; rewrite ?U2, ?U1; simpl; rewrite <- ?app_assoc; done.
  - cbn [mbind outcome_bind]. destruct (send_raw_spec polls (ser_ports s) byte Ht Hb Hd Hl) as (p1 & -> & U1).
    cbn [mbind outcome_bind]. eexists. split; [done|]. split_and!; simpl; try done; rewrite U1; done.
Qed.

Lemma send_string_spec polls string text s :
  (uart_time < polls)%nat -> online s -> cstr (ser_mem s) string text ->
  exists s', send_string_loop polls string (length text) s = Done s' /\ sent s (crlf text) s'.
Proof.
  intros Ht. revert string s. induction text as [|c text IH]; intros string s Ho (Hb & H0 & Hnz); cbn [send_string_loop length].
  - simpl in H0. rewrite Z.add_0_r in H0. rewrite H0. simpl. exists s. split; [done|].
    split_and!; try done. simpl. by rewrite app_nil_r.
  - simpl in Hb, H0. injection Hb as Hc Hb. inversion_clear Hnz as [|? ? Hc0 Hnz'].
    pose proof (ld8_range (ser_mem s) string) as Hr. rewrite Hc in Hr |- *. destruct (Z.eqb_spec c 0); [done|].
    destruct (send_byte_spec polls s c Ht Hr Ho) as (s1 & -> & S1). cbn [mbind outcome_bind].
    destruct (IH (string + 1) s1) as (s2 & -> & S2); [by eapply sent_online| |].
    + destruct S1 as (-> & _). split_and!; [done| |done]. rewrite <- H0. f_equal. lia.
    + exists s2. split; [done|]. unfold crlf. rewrite bind_cons. by eapply sent_trans.
Qed.
End Chip.

Lemma init_spec {P} `{!PortIO P} `{!Uart16550 P} (s : serial P) :
  let v := uart (ser_ports s) in
  let v' := uart (ser_ports (uart16550_init s)) in
  uart16650_present (uart16550_init s) = true /\ online (uart16550_init s) /\
  v_divisor v' = 1 /\ Z.land (v_lcr v') 7 = 3 /\
  (forall i, 3 <= i < 7 -> Z.testbit (v_lcr v') i = Z.testbit (v_lcr v) i) /\
  v_wire v' = v_wire v /\ ser_mem (uart16550_init s) = ser_mem s.
Proof.
  unfold uart16550_init. pose proof (configure_spec (ser_ports s)) as Ec.
  destruct (configured_bits (v_lcr (uart (ser_ports s))) (uart_lcr_byte _)) as (B1 & B2 & B3).
  destruct (detect_spec (uart16550_configure (ser_ports s))) as (p' & -> & Ed); [unfold dlab; by rewrite Ec|].
  cbv zeta. unfold online, dlab, loop_back. cbn [uart16650_present ser_ports ser_mem].
  rewrite Ed, Ec. cbn [v_lcr v_mcr v_divisor v_wire]. split_and!; try done.
  rewrite Z.land_spec. apply andb_false_r.
Qed.

(** * A concrete chip *)

(** After a byte it is busy until the line status was read. *)
Record chip := Chip { chip_view : uart_view; chip_busy : bool }.

Definition chip_uart (c : chip) : uart_view :=
  let v := chip_view c in View (u8 (v_lcr v)) (u8 (v_mcr v)) (v_divisor v) (v_received v) (v_wire v).

Definition chip_read (port : Z) (c : chip) : Z * chip :=
  let v := chip_uart c in
  if port =? COM_PORT_LINE_CONTROL then (v_lcr v, c)
  else if port =? COM_PORT_MODEM_CONTROL then (v_mcr v, c)
  else if port =? COM_PORT_LINE_STATUS then
    (if chip_busy c then 0 else 32, Chip v false)
  else if port =? COM_PORT_DATA then (v_received v, c)
  else (0, c).

Definition chip_write (port value : Z) (c : chip) : chip :=
  let v := chip_uart c in
  if port =? COM_PORT_LINE_CONTROL then Chip (View value (v_mcr v) (v_divisor v) (v_received v) (v_wire v)) (chip_busy c)
  else if port =? COM_PORT_MODEM_CONTROL then Chip (View (v_lcr v) value (v_divisor v) (v_received v) (v_wire v)) (chip_busy c)
  else if port =? COM_PORT_DATA then
    if dlab v then Chip (View (v_lcr v) (v_mcr v) (v_divisor v / 256 * 256 + value) (v_received v) (v_wire v)) (chip_busy c)
    else if loop_back v then Chip (View (v_lcr v) (v_mcr v) (v_divisor v) value (v_wire v)) (chip_busy c)
    else Chip (View (v_lcr v) (v_mcr v) (v_divisor v) (v_received v)
                 (if chip_busy c then v_wire v else v_wire v ++ [value])) true
  else if port =? COM_PORT_INTERRUPT_ENABLE then
    if dlab v then Chip (View (v_lcr v) (v_mcr v) (v_divisor v mod 256 + 256 * value) (v_received v) (v_wire v)) (chip_busy c)
    else c
  else c.

#[export] Instance chip_ports : PortIO chip := {| arch_pio_read8 := chip_read; arch_pio_write8 := chip_write |}.

Lemma u8_small v : 0 <= v < 256 -> u8 v = v.
Proof. intros. unfold u8. by apply Z.mod_small. Qed.

Lemma u8_idemp v : u8 (u8 v) = u8 v.
Proof. unfold u8. by rewrite Z.mod_mod. Qed.

Lemma chip_uart_view v b : 0 <= v_lcr v < 256 -> 0 <= v_mcr v < 256 -> chip_uart (Chip v b) = v.
Proof. intros. unfold chip_uart. simpl. rewrite !u8_small by lia. by destruct v. Qed.

Lemma chip_bytes c : 0 <= v_lcr (chip_uart c) < 256 /\ 0 <= v_mcr (chip_uart c) < 256.
Proof. unfold chip_uart, u8. simpl. split; apply Z.mod_pos_bound; lia. Qed.

Definition chip_wait (c : chip) : nat := if chip_busy c then 1 else 0.

(** Which port it is. *)
Ltac chip_port :=
  unfold arch_pio_read8, arch_pio_write8, chip_ports, chip_read, chip_write;
  repeat match goal with
  | |- context [?a =? ?b] => let r := eval vm_compute in (a =? b) in change (a =? b) with r
  end; cbv iota zeta.

Ltac chip_law := intros;
  match goal with p : chip |- _ => pose proof (chip_bytes p) as [] end;
  chip_port; cbn [fst snd]; rewrite ?chip_uart_view by done; try done.

#[export] Instance chip_uart16550 : Uart16550 chip.
Proof.
  refine {| uart := chip_uart; uart_busy := chip_wait; uart_time := 1%nat |}.
  - intros p. apply chip_bytes.
  - intros p. apply chip_bytes.
  - intros p. unfold chip_wait. destruct (chip_busy p); lia.
  - chip_law.
  - chip_law.
  - chip_law.
  - chip_law.
  - intros p v Hv Hd. chip_port. rewrite Hd. chip_law.
  - intros p v Hv Hd. chip_port. rewrite Hd. chip_law.
  - chip_law.
  - intros p v Hv Hd Hl. chip_port. rewrite Hd, Hl. chip_law.
  - chip_law.
  - intros p v Hv Hd Hl Hb. chip_port. rewrite Hd, Hl.
    unfold chip_wait in Hb. destruct (chip_busy p); [done|]. chip_law.
  - chip_law. unfold chip_wait. simpl. by destruct (chip_busy p).
Defined.

(** * Properties *)

(** On a port that behaves as a 16550, uart16550_init finds it, sets the divisor to 1 and eight
    data bits, keeps the bits 3 to 6 of the line control and sends nothing. *)
Theorem uart_init_configures {P} `{!PortIO P} `{!Uart16550 P} (s : serial P) :
  let v := uart (ser_ports s) in
  let v' := uart (ser_ports (uart16550_init s)) in
  uart16650_present (uart16550_init s) = true /\ online (uart16550_init s) /\
  v_divisor v' = 1 /\ Z.land (v_lcr v') 7 = 3 /\
  (forall i, 3 <= i < 7 -> Z.testbit (v_lcr v') i = Z.testbit (v_lcr v) i) /\
  v_wire v' = v_wire v /\ ser_mem (uart16550_init s) = ser_mem s.
Proof. apply init_spec. Qed.

Lemma uart_init_configures_witness :
  let s := Serial ∅ (Chip (View 0x1F 0x10 96 0 [1]) true) false in
  uart16650_present (uart16550_init s) = true /\ v_divisor (uart (ser_ports (uart16550_init s))) = 1 /\
  v_wire (uart (ser_ports (uart16550_init s))) = [1].
Proof.
  intros s. destruct (uart_init_configures s) as (H1 & _ & H2 & _ & _ & H3 & _).
  split; [exact H1|]. split; [exact H2|exact H3].
Defined.

(** After uart16550_init, uart16550_send_string terminates and puts the string on the line, with
    a carriage return before each line feed. *)
Theorem uart_sends_text {P} `{!PortIO P} `{!Uart16550 P} (polls : nat) (s : serial P) (string : Z) (text : list Z) :
  (uart_time < polls)%nat -> cstr (ser_mem s) string text ->
  exists s', uart16550_send_string polls string (uart16550_init s) = Done s' /\
    v_wire (uart (ser_ports s')) = v_wire (uart (ser_ports s)) ++ crlf text /\
    ser_mem s' = ser_mem s.
Proof.
  intros Ht Hs. destruct (init_spec s) as (Hp & Ho & _ & _ & _ & Hw & Hm).
  unfold uart16550_send_string. rewrite Hp, Hm, (strlen_cstr _ _ _ Hs), Nat2Z.id. simpl negb. cbv iota.
  destruct (send_string_spec polls string text (uart16550_init s) Ht Ho) as (s' & -> & (M & _ & _ & _ & W)); [by rewrite Hm|].
  exists s'. split_and!; [done|by rewrite W, Hw|by rewrite M].
Qed.

(** The text "hi", a new line, at 64. *)
Lemma uart_sends_text_witness :
  let m := st8 (st8 (st8 ∅ 64 104) 65 105) 66 10 in
  let s := Serial m (Chip (View 0 0 0 0 []) false) false in
  exists s', uart16550_send_string 2 64 (uart16550_init s) = Done s' /\
    v_wire (uart (ser_ports s')) = [104; 105; 13; 10] /\ ser_mem s' = m.
Proof.
  intros m s. destruct (uart_sends_text 2 s 64 [104; 105; 10]) as (s' & E & W & M).
  - simpl. lia.
  - split_and!; [vm_compute; reflexivity|vm_compute; reflexivity|repeat constructor; discriminate].
  - exists s'. split; [exact E|]. split; [rewrite W; reflexivity|exact M].
Defined.
