(* ===== verification/Printk.v ===== *)
(** Formatted output, the second half of [misc/libc.c].

    [vprintk_unsafe] and [vprintk_serial_unsafe] are the same text with two
    different ways to write a character and a string: the class [Console] is
    these two functions, the framebuffer and the serial port are its instances.
    The arguments of a call are a list of words; the conversion buffer of 32
    bytes on the stack and the literal ["0x"] are addresses. *)

From S2P Require Import Prelude Memory Libc Spinlock PageAllocator KernelHeap Framebuffer Serial.

Class Console (S : Type) := {
  con_mem : S -> mem;
  con_with_mem : S -> mem -> S;
  con_character : Z -> S -> outcome S;
  con_string : Z -> S -> outcome S
}.

#[export] Instance screen_console : Console screen := {|
  con_mem := scr_mem;
  con_with_mem := set_scr_mem;
  con_character := framebuffer_write_character;
  con_string := framebuffer_write_string
|}.

Definition set_ser_mem {P} (s : serial P) (m : mem) : serial P := Serial m (ser_ports s) (uart16650_present s).

#[export] Instance serial_console {P} `{!PortIO P} (polls : nat) : Console (serial P) := {|
  con_mem := ser_mem;
  con_with_mem := set_ser_mem;
  con_character := serial_send_byte polls;
  con_string := serial_send_string polls
|}.

Definition PERCENT : Z := 37.

(** * The formats *)

Section Format.
Context {S : Type} `{!Console S} (conversion_buffer hex_prefix : Z).

(** [va_arg(list, ...)]. *)
Definition va_arg (args : list Z) : outcome (Z * list Z) :=
  match args with a :: args' => Done (a, args') | [] => Undef end.

(** [num_to_string(va_arg(list, uint64_t), conversion_buffer, 32, base)] and the
    output of the buffer. *)
Definition write_number (base value : Z) (s : S) : outcome S :=
  m ← num_to_string (con_mem s) value conversion_buffer 32 base;
  con_string conversion_buffer (con_with_mem s m).

(** The [switch]: [None] is its default. *)
Definition convert (directive : Z) (args : list Z) (s : S) : outcome (option (list Z * S)) :=
  if directive =? 100 then
    '(v, args) ← va_arg args; s ← write_number 10 v s; Done (Some (args, s))
  else if (directive =? 120) || (directive =? 112) then
    s ← con_string hex_prefix s;
    '(v, args) ← va_arg args; s ← write_number 16 v s; Done (Some (args, s))
  else if directive =? 115 then
    '(v, args) ← va_arg args; s ← con_string v s; Done (Some (args, s))
  else if directive =? 99 then
    '(v, args) ← va_arg args; s ← con_character (u8 v) s; Done (Some (args, s))
  else Done None.

(** [for (i = 0; fmt[i]; i++)], [fmt] being the address of [fmt[i]]. *)
Fixpoint vprintk_loop (fuel : nat) (fmt : Z) (args : list Z) (s : S) : outcome S :=
  let c := ld8 (con_mem s) fmt in
  if c =? 0 then Done s else
  match fuel with
  | O => Timeout
  | Datatypes.S fuel' =>
      if negb (c =? PERCENT) then s ← con_character c s; vprintk_loop fuel' (fmt + 1) args s
      else
        r ← convert (ld8 (con_mem s) (fmt + 1)) args s;
        match r with
        | None => vprintk_loop fuel' (fmt + 1) args s
        | Some (args, s) => vprintk_loop fuel' (fmt + 2) args s
        end
  end.

Definition vprintk_format (fmt : Z) (args : list Z) (s : S) : outcome S :=
  vprintk_loop (Z.to_nat (strlen (con_mem s) fmt)) fmt args s.

(** With [printk_lock]. *)
Definition vprintk_locked (fmt : Z) (args : list Z) (lock : spinlock_t) (s : S) : outcome (spinlock_t * S) :=
  lock ← spinlock_acquire lock;
  s ← vprintk_format fmt args s;
  Done (spinlock_release lock, s).
End Format.

Section Functions.
Context {P : Type} `{!PortIO P} (polls : nat) (conversion_buffer hex_prefix : Z).

Definition vprintk_unsafe (fmt : Z) (args : list Z) (s : screen) : outcome screen :=
  vprintk_format conversion_buffer hex_prefix fmt args s.
Definition vprintk (fmt : Z) (args : list Z) (lock : spinlock_t) (s : screen) : outcome (spinlock_t * screen) :=
  vprintk_locked conversion_buffer hex_prefix fmt args lock s.
Definition vprintk_serial_unsafe (fmt : Z) (args : list Z) (s : serial P) : outcome (serial P) :=
  @vprintk_format _ (serial_console polls) conversion_buffer hex_prefix fmt args s.
Definition vprintk_serial (fmt : Z) (args : list Z) (lock : spinlock_t) (s : serial P) : outcome (spinlock_t * serial P) :=
  @vprintk_locked _ (serial_console polls) conversion_buffer hex_prefix fmt args lock s.

Definition printk (fmt : Z) (args : list Z) (lock : spinlock_t) (s : screen) : outcome (spinlock_t * screen) :=
  if negb (framebuffer_available s) then Done (lock, s) else vprintk fmt args lock s.
Definition printk_unsafe (fmt : Z) (args : list Z) (s : screen) : outcome screen :=
  if negb (framebuffer_available s) then Done s else vprintk_unsafe fmt args s.
Definition printk_serial (fmt : Z) (args : list Z) (lock : spinlock_t) (s : serial P) : outcome (spinlock_t * serial P) :=
  vprintk_serial fmt args lock s.
Definition printk_serial_unsafe (fmt : Z) (args : list Z) (s : serial P) : outcome (serial P) :=
  vprintk_serial_unsafe fmt args s.
End Functions.

(** * What a console promises *)

(** [con_ready n s]: [n] more characters can be written; [con_own s]: the bytes
    of the memory that the console uses, of which it changes those of
    [con_area s]; [con_wrote s t s']: the text [t] is the output between the two
    states. *)
Class ConsoleLaws (S : Type) `{!Console S} := {
  con_ready : nat -> S -> Prop;
  con_own : S -> Z -> Prop;
  con_area : S -> Z -> Prop;
  con_area_own : forall s b, con_area s b -> con_own s b;
  con_wrote : S -> list Z -> S -> Prop;
  con_wrote_refl : forall s, con_wrote s [] s;
  con_wrote_trans : forall s1 s2 s3 t u, con_wrote s1 t s2 -> con_wrote s2 u s3 -> con_wrote s1 (t ++ u) s3;
  con_mem_law : forall s m, con_mem (con_with_mem s m) = m;
  con_write_law : forall s n m, con_ready n s -> changes (fun b => ~ con_own s b) (con_mem s) m ->
    con_ready n (con_with_mem s m) /\ con_wrote s [] (con_with_mem s m) /\
    con_own (con_with_mem s m) = con_own s /\ con_area (con_with_mem s m) = con_area s;
  con_character_law : forall s n c, con_ready (Datatypes.S n) s -> 0 <= c < 256 ->
    exists s', con_character c s = Done s' /\ con_ready n s' /\ con_wrote s [c] s' /\
      changes (con_area s) (con_mem s) (con_mem s') /\ con_own s' = con_own s /\ con_area s' = con_area s;
  con_string_law : forall s n p t, con_ready (length t + n) s -> cstr (con_mem s) p t ->
    (forall b, p <= b <= p + Z.of_nat (length t) -> ~ con_own s b) ->
    exists s', con_string p s = Done s' /\ con_ready n s' /\ con_wrote s t s' /\
      changes (con_area s) (con_mem s) (con_mem s') /\ con_own s' = con_own s /\ con_area s' = con_area s
}.

(** * Rendering *)

(** An argument: a number, or a string with its address. *)
Inductive argument := Num (v : Z) | Str (p : Z) (t : list Z).

Definition word (a : argument) : Z := match a with Num v => v | Str p _ => p end.

(** The text for one directive and the arguments that are left; [Some None] when
    it is none. *)
Definition render_directive (d : Z) (args : list argument) : option (option (list Z * list argument)) :=
  if d =? 100 then
    match args with Num v :: args => Some (Some (numeral 10 v, args)) | _ => None end
  else if (d =? 120) || (d =? 112) then
    match args with Num v :: args => Some (Some ([48; 120] ++ numeral 16 v, args)) | _ => None end
  else if d =? 115 then
    match args with Str _ t :: args => Some (Some (t, args)) | _ => None end
  else if d =? 99 then
    match args with Num v :: args => Some (Some ([u8 v], args)) | _ => None end
  else Some None.

(** A percent sign that is not followed by a directive is left out. *)
Fixpoint render (fmt : list Z) (args : list argument) : option (list Z) :=
  match fmt with
  | [] => Some []
  | c :: rest =>
      if negb (c =? PERCENT) then t ← render rest args; Some (c :: t) else
      match rest with
      | [] => Some []
      | d :: rest' =>
          r ← render_directive d args;
          match r with
          | None => render rest args
          | Some (t, args) => u ← render rest' args; Some (t ++ u)
          end
      end
  end.

Section Refinement.
Context {S : Type} `{!Console S} `{!ConsoleLaws S} (buffer hex : Z).
Implicit Types s : S.

Definition in_buffer (b : Z) : Prop := buffer <= b < buffer + 32.

(** A string that printing does not overwrite. *)
Definition stable s (p : Z) (t : list Z) : Prop :=
  cstr (con_mem s) p t /\ forall b, p <= b <= p + Z.of_nat (length t) -> ~ con_own s b /\ ~ in_buffer b.

Definition arg_ok s (a : argument) : Prop :=
  match a with Num v => in_u64 v | Str p t => stable s p t end.

(** The text [t] was written, and [n] more characters can be. *)
Record printed s (n : nat) (t : list Z) (s' : S) : Prop := {
  pr_ready : con_ready n s';
  pr_wrote : con_wrote s t s';
  pr_mem : changes (fun b => con_area s b \/ in_buffer b) (con_mem s) (con_mem s');
  pr_own : con_own s' = con_own s;
  pr_area : con_area s' = con_area s
}.

Lemma printed_trans s1 s2 s3 n k t u : printed s1 n t s2 -> printed s2 k u s3 -> printed s1 k (t ++ u) s3.
Proof using.
  intros [A1 B1 C1 D1 E1] [A2 B2 C2 D2 E2]. split; [done|by eapply con_wrote_trans| |congruence|congruence].
  eapply changes_trans; [exact C1|]. by rewrite E1 in C2.
Qed.

Lemma stable_printed s n t s' p u : printed s n t s' -> stable s p u -> stable s' p u.
Proof using.
  intros [_ _ Hm Ho _] [(H1 & H2 & H3) Ha]. split.
  - assert (forall b, p <= b <= p + Z.of_nat (length u) -> ld8 (con_mem s') b = ld8 (con_mem s) b) as He.
    { intros b Hb. apply Hm. destruct (Ha b Hb) as [Hn ?]. intros [Hx%con_area_own|?]; tauto. }
    split_and!; [|by rewrite He by lia|done]. rewrite <- H1 at 2. apply bytes_ext. intros b Hb. apply He. lia.
  - intros b Hb. rewrite Ho. by apply Ha.
Qed.

Lemma args_printed s n t s' args : printed s n t s' -> Forall (arg_ok s) args -> Forall (arg_ok s') args.
Proof using.
  intros Hp Ha. eapply Forall_impl; [exact Ha|]. intros [v|p u]; simpl; [done|]. by apply (stable_printed s n t).
Qed.

Lemma character_printed s n c :
  con_ready (Datatypes.S n) s -> 0 <= c < 256 -> exists s', con_character c s = Done s' /\ printed s n [c] s'.
Proof using.
  intros Hr Hc. destruct (con_character_law s n c Hr Hc) as (s' & E & R & W & M & O & A).
  exists s'. split; [done|]. split; [done|done| |done|done]. eapply changes_mono; [|exact M]. tauto.
Qed.

Lemma string_printed s n p t :
  con_ready (length t + n) s -> stable s p t -> exists s', con_string p s = Done s' /\ printed s n t s'.
Proof using.
  intros Hr [Hc Ha]. destruct (con_string_law s n p t Hr Hc) as (s' & E & R & W & M & O & A); [intros b Hb; by apply Ha|].
  exists s'. split; [done|]. split; [done|done| |done|done]. eapply changes_mono; [|exact M]. tauto.
Qed.

Lemma numeral_bound base v : 10 <= base <= 16 -> in_u64 v ->
  v < base ^ (32 - 1).
Proof using.
  intros Hb Hv. assert (10 ^ 31 <= base ^ (32 - 1)) by (apply Z.pow_le_mono_l; lia).
  assert (18446744073709551616 < 10 ^ 31) by reflexivity. lia.
Qed.

Lemma number_printed s n base v :
  10 <= base <= 16 -> in_u64 v -> con_ready (length (numeral base v) + n) s ->
  (forall b, in_buffer b -> ~ con_own s b) ->
  exists s', write_number buffer base v s = Done s' /\ printed s n (numeral base v) s'.
Proof using.
  intros Hb Hv Hr Hd. unfold write_number.
  destruct (num_to_string_spec (con_mem s) v buffer 32 base) as (m & -> & Hs & Hl & _ & Hm);
    [lia|done|lia|by apply numeral_bound|]. cbn [mbind outcome_bind].
  destruct (con_write_law s (length (numeral base v) + n) m Hr) as (R1 & W1 & O1 & A1).
  { eapply changes_mono; [|exact Hm]. intros b Hb'. by apply Hd. }
  destruct (con_string_law (con_with_mem s m) n buffer (numeral base v) R1) as (s' & E & R & W & M & O & A).
  - by rewrite con_mem_law.
  - intros b Hb'. rewrite O1. apply Hd. unfold in_buffer. lia.
  - rewrite E. exists s'. split; [done|]. rewrite con_mem_law in M. split; [done| | |congruence|congruence].
    + by apply (con_wrote_trans _ _ _ [] _ W1 W).
    + eapply changes_trans; [eapply changes_mono; [|exact Hm]; intros b ?; by right|].
      rewrite A1 in M. eapply changes_mono; [|exact M]. tauto.
Qed.

(** The conditions under which formats are printed. *)
Record printable s : Prop := {
  pb_hex : stable s hex [48; 120];
  pb_buffer : forall b, in_buffer b -> ~ con_own s b
}.

Lemma printable_printed s n t s' : printed s n t s' -> printable s -> printable s'.
Proof using.
  intros Hp [H1 H2]. split; [by eapply stable_printed|]. rewrite (pr_own _ _ _ _ Hp). apply H2.
Qed.

(** One directive. *)
Lemma convert_spec s n d args t rest :
  printable s -> Forall (arg_ok s) args -> render_directive d args = Some (Some (t, rest)) ->
  con_ready (length t + n) s ->
  exists s', convert buffer hex d (word <$> args) s = Done (Some (word <$> rest, s')) /\ printed s n t s'.
Proof using.
  intros Hpb Ha Hr Hn. unfold render_directive in Hr. unfold convert.
  destruct (d =? 100).
  { destruct args as [|[v|p u] args]; try done. injection Hr as <- <-. apply Forall_cons in Ha as [Hv _].
    cbn [fmap list_fmap word va_arg mbind outcome_bind].
    destruct (number_printed s n 10 v) as (s' & -> & Hp); [lia|done|done|apply Hpb|]. by exists s'. }
  destruct ((d =? 120) || (d =? 112)).
  { destruct args as [|[v|p u] args]; try done. injection Hr as <- <-. apply Forall_cons in Ha as [Hv _].
    change (con_ready (length [48; 120] + (length (numeral 16 v) + n)) s) in Hn.
    destruct (string_printed s _ hex [48; 120] Hn (pb_hex _ Hpb)) as (s1 & -> & H1).
    cbn [fmap list_fmap word va_arg mbind outcome_bind].
    destruct (number_printed s1 n 16 v) as (s' & -> & Hp); [lia|done|apply H1|apply (printable_printed _ _ _ _ H1 Hpb)|].
    exists s'. split; [done|]. by apply (printed_trans _ _ _ _ _ [48; 120] _ H1 Hp). }
  destruct (d =? 115).
  { destruct args as [|[v|p u] args]; try done. injection Hr as <- <-. apply Forall_cons in Ha as [Hv _].
    cbn [fmap list_fmap word va_arg mbind outcome_bind].
    destruct (string_printed s n p u Hn Hv) as (s' & -> & Hp). by exists s'. }
  destruct (d =? 99); [|done].
  destruct args as [|[v|p u] args]; try done. injection Hr as <- <-.
  cbn [fmap list_fmap word va_arg mbind outcome_bind].
  destruct (character_printed s n (u8 v)) as (s' & -> & Hp); [done|unfold u8; apply Z.mod_pos_bound; lia|]. by exists s'.
Qed.

Lemma convert_default d args s : render_directive d args = Some None -> convert buffer hex d (word <$> args) s = Done None.
Proof using.
  unfold render_directive, convert. repeat (case_match; try done).
Qed.

(** The tail of a stable string. *)
Lemma stable_tail s p c t : stable s p (c :: t) -> ld8 (con_mem s) p = c /\ c <> 0 /\ stable s (p + 1) t.
Proof using.
  intros [(H1 & H2 & H3) Ha]. cbn [length bytes] in H1, H2. injection H1 as Hc H1. inversion_clear H3.
  split_and!; [done|done|]. split; [split_and!; [done| |done]|intros b Hb; apply Ha; simpl; lia].
  rewrite <- H2. f_equal. lia.
Qed.

Lemma stable_end s p : stable s p [] -> ld8 (con_mem s) p = 0.
Proof using. intros [(_ & H & _) _]. simpl in H. by rewrite Z.add_0_r in H. Qed.

Lemma vprintk_loop_spec fuel : forall text fmt args out s n,
  (length text <= fuel)%nat -> printable s -> stable s fmt text -> Forall (arg_ok s) args ->
  render text args = Some out -> con_ready (length out + n) s ->
  exists s', vprintk_loop buffer hex fuel fmt (word <$> args) s = Done s' /\ printed s n out s'.
Proof using.
  induction fuel as [|fuel IH]; intros text fmt args out s n Hl Hpb Hf Ha Hr Hn;
    (destruct text as [|c text]; [simpl in Hr; injection Hr as <-; apply stable_end in Hf; cbn [vprintk_loop]; rewrite Hf;
       exists s; split; [done|]; split; [done|apply con_wrote_refl|done|done|done]|]); [simpl in Hl; lia|].
  simpl in Hl. apply stable_tail in Hf as (Hc & Hc0 & Hf). cbn [vprintk_loop render] in *. rewrite Hc.
  rewrite (proj2 (Z.eqb_neq c 0)) by done. destruct (Z.eqb_spec c PERCENT) as [->|Hne]; cbn [negb] in *.
  2:{ apply bind_Some in Hr as (t & Ht & [= <-]).
    destruct (character_printed s (length t + n) c) as (s1 & -> & H1); [done|rewrite <- Hc; apply ld8_range|].
    cbn [mbind outcome_bind]. edestruct (IH text (fmt + 1) args t s1 n) as (s' & -> & H2);
      [lia|by eapply printable_printed|by eapply stable_printed|by eapply args_printed|done|apply H1|].
    exists s'. split; [done|]. by apply (printed_trans _ _ _ _ _ [c] _ H1 H2). }
  destruct text as [|d text].
  { injection Hr as <-. rewrite (stable_end _ _ Hf). cbn. 
    destruct (IH [] (fmt + 1) args [] s n) as (s' & E & H2); try done; [lia|]. by exists s'. }
  destruct (stable_tail _ _ _ _ Hf) as (Hd & _ & Hf'). rewrite Hd.
  apply bind_Some in Hr as ([[t rest]|] & Hd' & Hr).
  - apply bind_Some in Hr as (u & Hu & [= <-]). rewrite length_app, <- Nat.add_assoc in Hn.
    destruct (convert_spec s _ d args t rest Hpb Ha Hd' Hn) as (s1 & -> & H1). cbn [mbind outcome_bind].
    edestruct (IH text (fmt + 2) rest u s1 n) as (s' & -> & H2); [simpl in Hl; lia|by eapply printable_printed| | |done|apply H1|].
    + eapply stable_printed; [exact H1|]. by replace (fmt + 2) with (fmt + 1 + 1) by lia.
    + eapply args_printed; [exact H1|]. unfold render_directive in Hd'.
      repeat (case_match; try done); simplify_eq; by inversion_clear Ha.
    + exists s'. split; [done|]. by eapply printed_trans.
  - rewrite (convert_default d args s Hd'). cbn [mbind outcome_bind]. apply (IH (d :: text)); (done || lia).
Qed.

(** A whole format, on any console. *)
Lemma vprintk_format_spec text fmt args out s n :
  printable s -> stable s fmt text -> Forall (arg_ok s) args ->
  render text args = Some out -> con_ready (length out + n) s ->
  exists s', vprintk_format buffer hex fmt (word <$> args) s = Done s' /\ printed s n out s'.
Proof using.
  intros Hp Hf Ha Hr Hn. unfold vprintk_format. rewrite (strlen_cstr _ _ _ (proj1 Hf)), Nat2Z.id.
  by apply (vprintk_loop_spec (length text) text).
Qed.
End Refinement.

(** * The consoles *)

Lemma crlf_app t u : crlf (t ++ u) = crlf t ++ crlf u.
Proof. apply bind_app. Qed.

Section SerialConsole.
Context {P : Type} `{!PortIO P} `{!Uart16550 P} (polls : nat) (Htime : (uart_time < polls)%nat).

Definition wire (s : serial P) : list Z := v_wire (uart (ser_ports s)).

#[local] Instance serial_laws : @ConsoleLaws (serial P) (serial_console polls).
Proof using Htime.
  refine (@Build_ConsoleLaws _ (serial_console polls) (fun _ s => online s) (fun _ _ => False) (fun _ _ => False)
    _ (fun s t s' => wire s' = wire s ++ crlf t) _ _ _ _ _ _); cbn.
  - done.
  - intros s. simpl. by rewrite app_nil_r.
  - intros s1 s2 s3 t u H1 H2. by rewrite H2, H1, crlf_app, app_assoc.
  - done.
  - intros s n m Ho _. split; [done|]. split; [simpl; by rewrite app_nil_r|done].
  - intros s n c Ho Hc. unfold serial_send_byte, u8. rewrite Z.mod_small by lia.
    destruct (send_byte_spec polls s c Htime Hc Ho) as (s' & E & Hs). exists s'. split; [done|].
    split; [by eapply sent_online|]. destruct Hs as (M & _ & _ & _ & W). split; [by rewrite app_nil_r|]. by rewrite M.
  - intros s n p t Ho Hs _. unfold serial_send_string, uart16550_send_string.
    rewrite (proj1 Ho), (strlen_cstr _ _ _ Hs), Nat2Z.id. cbn [negb].
    destruct (send_string_spec polls p t s Htime Ho Hs) as (s' & E & Hsent). exists s'. split; [done|].
    split; [by eapply sent_online|]. destruct Hsent as (M & _ & _ & _ & W). split; [done|]. by rewrite M.
Defined.
End SerialConsole.

(** The bytes that drawing uses: the pixels and the header of the font. *)
Definition screen_own (s : screen) (b : Z) : Prop :=
  on_screen (main_framebuffer s) b \/ font s <= b < font s + 32.

(** Room for [n] more lines below the cursor. *)
Definition screen_ready (n : nat) (s : screen) : Prop :=
  screen_ok s /\
  cur_y (main_cursor s) + (Z.of_nat n + 1) * psf_height (scr_mem s) (font s) < 18446744073709551616.

(** Other memory can be written. *)
Lemma screen_size_mem s m : changes (fun b => ~ screen_own s b) (scr_mem s) m ->
  psf_width m (font s) = psf_width (scr_mem s) (font s) /\ psf_height m (font s) = psf_height (scr_mem s) (font s).
Proof.
  intros Hm.
  assert (forall a, font s <= a -> a + 4 <= font s + 32 -> ld32 m a = ld32 (scr_mem s) a) as Hh.
  { intros a H1 H2. eapply ld32_changes; [exact Hm|]. intros b Hb Hn. apply Hn. right. lia. }
  split; apply Hh; lia.
Qed.

Lemma screen_height_mem s m : changes (fun b => ~ screen_own s b) (scr_mem s) m ->
  psf_height m (font s) = psf_height (scr_mem s) (font s).
Proof. apply screen_size_mem. Qed.

Lemma screen_ready_mem n s m :
  screen_ready n s -> changes (fun b => ~ screen_own s b) (scr_mem s) m -> screen_ready n (set_scr_mem s m).
Proof.
  intros [[] Hy] Hm. destruct (screen_size_mem s m Hm) as [Ew Eh].
  split; [split; simpl; rewrite ?Ew, ?Eh; done|]. simpl. by rewrite Eh.
Qed.

Lemma screen_own_same s s' : same_screen s s' -> screen_own s' = screen_own s.
Proof. intros (A & B & _). unfold screen_own. by rewrite A, B. Qed.

#[export] Instance screen_laws : ConsoleLaws screen.
Proof.
  refine (@Build_ConsoleLaws _ screen_console screen_ready screen_own
    (fun s => on_screen (main_framebuffer s)) _ 
    (fun s t s' => main_framebuffer s' = main_framebuffer s /\ font s' = font s /\ forall k, below k s -> below (overhang k t) s')
    _ _ _ _ _ _); cbn.
  - intros s b Hb. by left.
  - done.
  - intros s1 s2 s3 t u (H1 & H2 & B1) (H3 & H4 & B2). split_and!; [congruence..|]. intros k Hk. unfold overhang.
    rewrite foldl_app. by apply B2, B1.
  - done.
  - intros s n m Hr Hm. split; [by apply screen_ready_mem|]. split_and!; [done|done| |done|done].
    intros k Hk. unfold below in *. simpl. pose proof (screen_height_mem s m Hm) as Eh. congruence.
  - intros s n c [Hs Hy] Hc. pose proof (so_height _ Hs).
    destruct (write_character_spec s c Hs) as (s' & E & Sm & Hs' & Hy' & Hb'); [nia|].
    exists s'. pose proof Sm as (A & B & _ & _ & D). destruct (header_changes _ _ _ _ D (so_font _ Hs)) as (_ & Eh & _).
    split_and!; [done|split; [done|rewrite B, Eh; nia]|done|done|done|done|by apply screen_own_same|by rewrite A].
  - intros s n p t [Hs Hy] Ht Ha. pose proof (so_height _ Hs).
    unfold framebuffer_write_string. rewrite (strlen_cstr _ _ _ Ht), Nat2Z.id.
    destruct (write_string_spec p t s Hs Ht) as (s' & E & Sm & Hs' & Hy' & Hb').
    + intros b Hb Hn. apply (Ha b Hb). by left.
    + nia.
    + exists s'. pose proof Sm as (A & B & _ & _ & D). destruct (header_changes _ _ _ _ D (so_font _ Hs)) as (_ & Eh & _).
      split_and!; [done|split; [done|rewrite B, Eh; nia]|done|done|done|done|by apply screen_own_same|by rewrite A].
Defined.

(** A string away from the conversion buffer. *)
Definition apart_cstr (m : mem) (buffer p : Z) (t : list Z) : Prop :=
  cstr m p t /\ (p + Z.of_nat (length t) < buffer \/ buffer + 32 <= p).

Definition plain_arg (m : mem) (buffer : Z) (a : argument) : Prop :=
  match a with Num v => in_u64 v | Str p t => apart_cstr m buffer p t end.

(** "n=%d %s" and a new line at 64, "ok" at 80, "0x" at 90. *)
Definition demo_format : list Z := [110; 61; 37; 100; 32; 37; 115; 10].
Definition demo_text : mem :=
  let m := foldr (fun '(i, c) m => st8 m (64 + Z.of_nat i) c) ∅ (imap (fun i c => (i, c)) demo_format) in
  st8 (st8 (st8 (st8 m 80 111) 81 107) 90 48) 91 120.

(** A format on the serial port, which stays online. *)
Lemma vprintk_serial_spec {P} `{!PortIO P} `{!Uart16550 P} (polls : nat) (buffer hex fmt : Z) (text : list Z)
    (args : list argument) (out : list Z) (s : serial P) :
  (uart_time < polls)%nat -> online s ->
  apart_cstr (ser_mem s) buffer hex [48; 120] -> apart_cstr (ser_mem s) buffer fmt text ->
  Forall (plain_arg (ser_mem s) buffer) args -> render text args = Some out ->
  exists s', vprintk_serial_unsafe polls buffer hex fmt (word <$> args) s = Done s' /\ online s' /\
    wire s' = wire s ++ crlf out /\ changes (in_buffer buffer) (ser_mem s) (ser_mem s').
Proof.
  intros Ht Ho Hh Hf Ha Hr. set (L := serial_laws polls Ht).
  assert (forall p t, apart_cstr (ser_mem s) buffer p t -> @stable _ (serial_console polls) L buffer s p t) as Hst.
  { intros p t [H1 H2]. split; [exact H1|]. intros b Hb. split; [intros []|]. unfold in_buffer. lia. }
  destruct (@vprintk_format_spec _ (serial_console polls) L buffer hex text fmt args out s 0)
    as (s' & E & [R W M _ _]); try done.
  - split; [by apply Hst|]. intros b _ [].
  - by apply Hst.
  - eapply Forall_impl; [exact Ha|]. intros [v|p t]; [done|apply Hst].
  - exists s'. split_and!; [done|exact R|exact W|]. eapply changes_mono; [|exact M]. by intros b [[]|Hb].
Qed.

(** * Properties *)

(** C18. vprintk_serial_unsafe terminates and sends the text that the format and its arguments
    describe, numbers in the base of their directive and line feeds with a carriage return, and
    writes nothing but its conversion buffer. *)
Theorem vprintk_serial_renders {P} `{!PortIO P} `{!Uart16550 P} (polls : nat) (buffer hex fmt : Z) (text : list Z)
    (args : list argument) (out : list Z) (s : serial P) :
  (uart_time < polls)%nat -> online s ->
  apart_cstr (ser_mem s) buffer hex [48; 120] -> apart_cstr (ser_mem s) buffer fmt text ->
  Forall (plain_arg (ser_mem s) buffer) args -> render text args = Some out ->
  exists s', vprintk_serial_unsafe polls buffer hex fmt (word <$> args) s = Done s' /\
    wire s' = wire s ++ crlf out /\ changes (in_buffer buffer) (ser_mem s) (ser_mem s').
Proof.
  intros Ht Ho Hh Hf Ha Hr. destruct (vprintk_serial_spec polls buffer hex fmt text args out s Ht Ho Hh Hf Ha Hr)
    as (s' & E & _ & W & M). by exists s'.
Qed.

Lemma vprintk_serial_renders_witness :
  let s := Serial demo_text (Chip (View 3 0 1 0 []) false) true in
  exists s', vprintk_serial_unsafe 2 200 90 64 [42; 80] s = Done s' /\
    wire s' = [110; 61; 52; 50; 32; 111; 107; 13; 10].
Proof.
  intros s.
  destruct (vprintk_serial_renders 2 200 90 64 demo_format [Num 42; Str 80 [111; 107]] [110; 61; 52; 50; 32; 111; 107; 10] s)
    as (s' & E & W & _).
  - simpl. lia.
  - split_and!; reflexivity.
  - split; [|simpl; lia]. split_and!; [vm_compute; reflexivity|vm_compute; reflexivity|repeat constructor; discriminate].
  - split; [|simpl; lia]. split_and!; [vm_compute; reflexivity|vm_compute; reflexivity|repeat constructor; discriminate].
  - constructor; [simpl; lia|]. constructor; [|constructor]. split; [|simpl; lia].
    split_and!; [vm_compute; reflexivity|vm_compute; reflexivity|repeat constructor; discriminate].
  - vm_compute. reflexivity.
  - exists s'. split; [exact E|]. rewrite W. vm_compute. reflexivity.
Defined.

(** C40. vprintk on the framebuffer terminates for every format with enough arguments, releases
    its lock, leaves the cursor between the left and the right edge and not above the top, where
    each line feed can put it one line further below the bottom and each character drawn brings
    it back on the screen, and writes nothing outside the framebuffer and its conversion buffer. *)
Theorem vprintk_framebuffer_confined (buffer hex fmt : Z) (text : list Z) (args : list argument) (out : list Z)
    (lock : spinlock_t) (s : screen) :
  lock = false -> screen_ready (length out) s ->
  stable buffer s hex [48; 120] -> stable buffer s fmt text -> Forall (arg_ok buffer s) args ->
  (forall b, in_buffer buffer b -> ~ screen_own s b) ->
  render text args = Some out ->
  exists s', vprintk buffer hex fmt (word <$> args) lock s = Done (false, s') /\ screen_ok s' /\
    0 <= cur_x (main_cursor s') <= fb_width (main_framebuffer s) /\ 0 <= cur_y (main_cursor s') /\
    (forall k, below k s -> below (overhang k out) s') /\
    changes (fun b => on_screen (main_framebuffer s) b \/ in_buffer buffer b) (scr_mem s) (scr_mem s').
Proof.
  intros -> Hr Hh Hf Ha Hb Ht. unfold vprintk, vprintk_locked. cbn [spinlock_acquire mbind outcome_bind].
  destruct (vprintk_format_spec buffer hex text fmt args out s 0) as (s' & -> & [[Hs _] (Ef & _ & Hb') Hm _ _]); try done.
  - by rewrite Nat.add_0_r.
  - cbn [mbind outcome_bind]. exists s'. pose proof (so_cursor _ Hs) as [Hx Hy]. rewrite Ef in Hx.
    split_and!; [done|exact Hs|lia|lia|exact Hy|exact Hb'|exact Hm].
Qed.

(** The text of the small screen, with "0x" at 8300. *)
Definition demo_screen_hex : screen := set_scr_mem demo_screen (st8 (st8 demo_font 8300 48) 8301 120).

Lemma demo_screen_ready : screen_ready 3 demo_screen_hex.
Proof.
  destruct demo_available as (_ & Ef & Eo & _ & Ec). destruct demo_sizes as (_ & Eh & _).
  apply screen_ready_mem.
  - split; [exact demo_screen_ok|]. rewrite Ec, Eh. simpl. lia.
  - rewrite demo_memory. apply changes_st8; [apply changes_st8; [apply changes_refl|]|];
      unfold screen_own, on_screen; rewrite Ef, Eo; simpl; lia.
Qed.

Lemma vprintk_framebuffer_confined_witness :
  exists s', vprintk 8400 8300 8192 [] false demo_screen_hex = Done (false, s') /\ screen_ok s' /\ below 0 s'.
Proof.
  assert (main_framebuffer demo_screen_hex = demo_fb) as Ef by (vm_compute; reflexivity).
  assert (font demo_screen_hex = 256) as Eo by (vm_compute; reflexivity).
  assert (forall b, screen_own demo_screen_hex b -> 65536 <= b \/ b < 288) as Hown.
  { intros b. unfold screen_own, on_screen. rewrite Ef, Eo. simpl. lia. }
  destruct (vprintk_framebuffer_confined 8400 8300 8192 [65; 10; 65] [] [65; 10; 65] false demo_screen_hex)
    as (s' & E & H & _ & _ & Hbelow & _).
  - reflexivity.
  - exact demo_screen_ready.
  - split; [split_and!; [vm_compute; reflexivity|vm_compute; reflexivity|repeat constructor; discriminate]|].
    cbn [length]. intros b Hb. split; [intros Hx; apply Hown in Hx; lia|unfold in_buffer; lia].
  - split; [split_and!; [vm_compute; reflexivity|vm_compute; reflexivity|repeat constructor; discriminate]|].
    cbn [length]. intros b Hb. split; [intros Hx; apply Hown in Hx; lia|unfold in_buffer; lia].
  - constructor.
  - intros b Hb Hx. apply Hown in Hx. unfold in_buffer in Hb. lia.
  - reflexivity.
  - exists s'. split; [exact E|]. split; [exact H|]. apply (Hbelow 0). vm_compute. discriminate.
Defined.
