(* ===== verification/Acpi.v ===== *)
(** The tables of the firmware, [acpi/acpi.c] and [acpi.h].

    The root pointer and the tables are bytes of the memory; the answer of the
    boot loader is the address of the root pointer.  Failures are logged, which
    is output. *)

From S2P Require Import Prelude Memory Libc Spinlock PageAllocator PageAllocatorSpec PageTable BlockAllocator BlockAllocatorSpec Paths KernelHeap Vfs DeviceManager.

(** * Data *)

(** The fields of [acpi_xsdp_t] and of [acpi_sdt_header_t], packed. *)
Definition xsdp_revision (m : mem) (sdp : Z) : Z := ld8 m (sdp + 15).
Definition xsdp_rsdt (m : mem) (sdp : Z) : Z := ld32 m (sdp + 16).
Definition xsdp_xsdt (m : mem) (sdp : Z) : Z := ld64 m (sdp + 24).
Definition sdt_length (m : mem) (sdt : Z) : Z := ld32 m (sdt + 4).
Definition sizeof_sdt_header : Z := 36.

(** The globals. *)
Record acpi := Acpi { acpi_sdt : Z; acpi_sdp : Z; acpi_revision : Z }.

(** * Lookup *)

Section Lookup.
Context (kernel_hhdm_offset : Z).

(** [(sdt->length - sizeof(acpi_sdt_header_t)) / sizeof(entry)]: the difference
    is of 64 bits. *)
Definition sdt_entries (m : mem) (sdt width : Z) : Z := (sdt_length m sdt -w sizeof_sdt_header) / width.

(** The table of entry [i]; entries have 4 or 8 bytes. *)
Definition sdt_entry (m : mem) (sdt width i : Z) : Z :=
  le_load m (sdt + sizeof_sdt_header + i * width) (Z.to_nat width) +w kernel_hhdm_offset.

(** [for (i = 0; i < entries; i++)], [n] rounds from [i] on. *)
Fixpoint find_table (m : mem) (sdt width signature i : Z) (n : nat) : Z :=
  match n with
  | O => 0
  | S n' =>
      let header := sdt_entry m sdt width i in
      if memcmp m header signature 4 =? 0 then header else find_table m sdt width signature (i + 1) n'
  end.

Definition acpi_get_table_xsdt (m : mem) (sdt signature : Z) : Z :=
  find_table m sdt 8 signature 0 (Z.to_nat (sdt_entries m sdt 8)).

Definition acpi_get_table_rsdt (m : mem) (sdt signature : Z) : Z :=
  find_table m sdt 4 signature 0 (Z.to_nat (sdt_entries m sdt 4)).

Definition acpi_get_table (m : mem) (a : acpi) (signature : Z) : Z :=
  if xsdp_revision m (acpi_sdp a) =? 0 then acpi_get_table_rsdt m (acpi_sdt a) signature
  else acpi_get_table_xsdt m (acpi_sdt a) signature.

Definition acpi_init (m : mem) (response : Z) : acpi :=
  let sdp := response in
  let revision := xsdp_revision m sdp in
  if revision =? 0 then Acpi (xsdp_rsdt m sdp +w kernel_hhdm_offset) sdp revision
  else Acpi (xsdp_xsdt m sdp +w kernel_hhdm_offset) sdp revision.

(** * The devices *)

(** What the functions return is the pointer to the buffer. *)
Definition acpi_read {S : Type} (node buffer size : Z) (s : S) : outcome (Z * S) := Done (buffer, s).
Definition acpi_write {S : Type} (node buffer size : Z) (s : S) : outcome (Z * S) := Done (buffer, s).

Context {H : Type} `{!KernelHeap H}.
Implicit Types s : vfs_state (dev_state H).

(** The device of each table: its signature is copied behind ["/acpi/"]. *)
Fixpoint create_tables (dot path sdt width read write i : Z) (n : nat) s : outcome (vfs_state (dev_state H)) :=
  match n with
  | O => Done s
  | S n' =>
      let header := sdt_entry (fs_mem s) sdt width i in
      let s := set_mem s (memcpy (fs_mem s) (path + 6) header 4) in
      let s := set_mem s (st8 (fs_mem s) (path + 6 + 4) 0) in
      '(_, s) ← device_create_at dot path DEV_ACPI_TABLE 0 read write s;
      create_tables dot path sdt width read write (i + 1) n' s
  end.

(** [root] is the string ["/acpi/"]; the number of entries is read once. *)
Definition acpi_create_device (a : acpi) (dot root read write : Z) s : outcome (vfs_state (dev_state H)) :=
  '(path, s) ← kh_page_allocate 1 s;
  let s := set_mem s (strcpy (fs_mem s) path root) in
  '(_, s) ← device_create_at dot path DEV_RESERVED 0 0 0 s;
  let width := if xsdp_revision (fs_mem s) (acpi_sdp a) =? 0 then 4 else 8 in
  s ← create_tables dot path (acpi_sdt a) width read write 0
        (Z.to_nat (sdt_entries (fs_mem s) (acpi_sdt a) width)) s;
  kh_page_deallocate path 1 s.
End Lookup.

(** * Tables as a list *)

(** The root table at [sdt] lists the physical addresses [L]. *)
Definition lists_tables (m : mem) (sdt width : Z) (L : list Z) : Prop :=
  sdt_length m sdt = sizeof_sdt_header + width * Z.of_nat (length L) /\
  forall i p, L !! i = Some p -> le_load m (sdt + sizeof_sdt_header + Z.of_nat i * width) (Z.to_nat width) = p.

(** A table carries the signature. *)
Definition signed (m : mem) (signature : list Z) (header : Z) : bool := bool_decide (bytes m header 4 = signature).

(** The first table with the signature, 0 if there is none. *)
Fixpoint first_signed (hhdm : Z) (m : mem) (signature : list Z) (L : list Z) : Z :=
  match L with
  | [] => 0
  | p :: L' => if signed m signature (p +w hhdm) then p +w hhdm else first_signed hhdm m signature L'
  end.

Lemma memcmp_signature m p q sig : bytes m q 4 = sig -> (memcmp m p q 4 =? 0) = signed m sig p.
Proof.
  intros Hq. unfold memcmp, signed. change (Z.to_nat 4) with 4%nat. rewrite memcmp_lex, Hq.
  assert (length (bytes m p 4) = length sig) as Hl by (by rewrite <- Hq, !length_bytes).
  case_bool_decide as E; [by apply Z.eqb_eq, lex_compare_eq|]. apply Z.eqb_neq. intros H0. by apply E, (lex_compare_eq _ _ Hl).
Qed.

Section ListSpec.
Context (hhdm : Z) (m : mem) (sdt width signature : Z) (sig : list Z).
Hypothesis Hsig : bytes m signature 4 = sig.

Lemma find_table_spec L i :
  (forall j p, L !! j = Some p -> le_load m (sdt + sizeof_sdt_header + (i + Z.of_nat j) * width) (Z.to_nat width) = p) ->
  find_table hhdm m sdt width signature i (length L) = first_signed hhdm m sig L.
Proof using Hsig.
  revert i. induction L as [|p L IH]; intros i HL; [done|]. cbn [length find_table first_signed].
  assert (sdt_entry hhdm m sdt width i = p +w hhdm) as ->.
  { unfold sdt_entry. rewrite <- (HL 0%nat p eq_refl), Z.add_0_r. done. }
  rewrite (memcmp_signature m _ _ _ Hsig). destruct (signed m sig (p +w hhdm)); [done|].
  apply IH. intros j q Hj. rewrite <- (HL (S j) q Hj). do 3 f_equal. lia.
Qed.

Lemma entries_spec L : 0 < width -> lists_tables m sdt width L -> sdt_entries m sdt width = Z.of_nat (length L).
Proof using.
  intros Hw [Hl _]. unfold sdt_entries. pose proof (le_load_range m (sdt + 4) 4) as Hr.
  change (le_load m (sdt + 4) 4) with (sdt_length m sdt) in Hr. rewrite Hl in Hr |- *.
  change (256 ^ Z.of_nat 4) with 4294967296 in Hr. unfold sizeof_sdt_header in *.
  replace (36 + width * Z.of_nat (length L) - 36) with (Z.of_nat (length L) * width) by lia.
  rewrite u64_small by nia. by apply Z.div_mul; lia.
Qed.

Lemma get_table_spec L : 0 < width -> lists_tables m sdt width L ->
  find_table hhdm m sdt width signature 0 (Z.to_nat (sdt_entries m sdt width)) = first_signed hhdm m sig L.
Proof using Hsig.
  intros Hw HL. rewrite (entries_spec L Hw HL), Nat2Z.id. apply find_table_spec. intros j p Hj. by apply HL.
Qed.
End ListSpec.

Lemma first_signed_spec hhdm m sig L :
  (first_signed hhdm m sig L = 0 /\ Forall (fun p => signed m sig (p +w hhdm) = false \/ p +w hhdm = 0) L) \/
  exists L1 p L2, L = L1 ++ p :: L2 /\ first_signed hhdm m sig L = p +w hhdm /\ bytes m (p +w hhdm) 4 = sig /\
    Forall (fun q => signed m sig (q +w hhdm) = false) L1.
Proof.
  induction L as [|p L IH]; [left; split; [done|constructor]|]. cbn [first_signed].
  destruct (signed m sig (p +w hhdm)) eqn:E.
  - right. exists [], p, L. split_and!; [done|done|by apply bool_decide_eq_true in E|constructor].
  - destruct IH as [[H1 H2]|(L1 & q & L2 & -> & H1 & H2 & H3)].
    + left. split; [done|]. constructor; [by left|done].
    + right. exists (p :: L1), q, L2. split_and!; try done. by constructor.
Qed.

(** A root pointer of revision 2 at 1000 with the tables FACP and HPET; the
    higher half starts at 100000, the signature HPET is at 500. *)
Definition FACP : list Z := [70; 65; 67; 80].
Definition HPET : list Z := [72; 80; 69; 84].
Definition demo_tables : mem :=
  let m := put (put (put ∅ 500 HPET) 103000 FACP) 103100 HPET in
  let m := st64 (st64 m 102036 3000) 102044 3100 in
  st32 (st64 (st8 m 1015 2) 1024 2000) 102004 52.

(** * Properties *)

(** acpi_get_table returns the first table of the list, in the width of its revision, that has
    the signature, or null when there is none. *)
Theorem acpi_get_table_finds (hhdm : Z) (m : mem) (response signature width : Z) (sig L : list Z) :
  bytes m signature 4 = sig ->
  width = (if xsdp_revision m response =? 0 then 4 else 8) ->
  lists_tables m (acpi_sdt (acpi_init hhdm m response)) width L ->
  let r := acpi_get_table hhdm m (acpi_init hhdm m response) signature in
  (r = 0 /\ Forall (fun p => bytes m (p +w hhdm) 4 <> sig \/ p +w hhdm = 0) L) \/
  exists L1 p L2, L = L1 ++ p :: L2 /\ r = p +w hhdm /\ bytes m r 4 = sig /\
    Forall (fun q => bytes m (q +w hhdm) 4 <> sig) L1.
Proof.
  intros Hs Hw HL r.
  assert (r = first_signed hhdm m sig L) as Er.
  { unfold r, acpi_get_table. unfold acpi_init in HL |- *.
    destruct (xsdp_revision m response =? 0) eqn:E; cbn [acpi_sdp acpi_sdt] in *; rewrite E; subst width;
      by apply get_table_spec. }
  assert (forall q, signed m sig (q +w hhdm) = false -> bytes m (q +w hhdm) 4 <> sig) as Hq
    by (intros q E; by apply bool_decide_eq_false in E).
  rewrite Er. destruct (first_signed_spec hhdm m sig L) as [[H1 H2]|(L1 & p & L2 & H1 & H2 & H3 & H4)].
  - left. split; [done|]. eapply Forall_impl; [exact H2|]. intros q [Hs'|Hs']; [left; by apply Hq|by right].
  - right. exists L1, p, L2. rewrite H2. split_and!; try done. eapply Forall_impl; [exact H4|]. apply Hq.
Qed.

Lemma acpi_get_table_finds_witness :
  acpi_get_table 100000 demo_tables (acpi_init 100000 demo_tables 1000) 500 = 103100 /\
  exists L1 p L2, [3000; 3100] = L1 ++ p :: L2 /\ 103100 = p +w 100000.
Proof.
  split; [vm_compute; reflexivity|].
  destruct (acpi_get_table_finds 100000 demo_tables 1000 500 8 HPET [3000; 3100]) as [[H0 _]|(L1 & p & L2 & E & Er & _)].
  - vm_compute. reflexivity.
  - vm_compute. reflexivity.
  - split; [vm_compute; reflexivity|]. intros [|[|i]] p Hp; [| |done]; injection Hp as <-; vm_compute; reflexivity.
  - vm_compute in H0. discriminate.
  - exists L1, p, L2. split; [exact E|]. rewrite <- Er. vm_compute. reflexivity.
Defined.

(** A root table whose length is less than the size of its header has more than 2^60 entries to
    scan. *)
Theorem acpi_short_table_overruns (m : mem) (sdt width : Z) :
  sdt_length m sdt < sizeof_sdt_header -> width = 4 \/ width = 8 ->
  2305843009213693947 <= sdt_entries m sdt width.
Proof.
  intros Hl Hw. unfold sdt_entries, sizeof_sdt_header in *. pose proof (le_load_range m (sdt + 4) 4) as Hr.
  change (le_load m (sdt + 4) 4) with (sdt_length m sdt) in Hr.
  assert (sdt_length m sdt -w 36 = 18446744073709551616 + sdt_length m sdt - 36) as ->.
  { unfold u64. symmetry. apply Z.mod_unique with (-1); lia. }
  destruct Hw as [-> | ->]; zlia.
Qed.

Lemma acpi_short_table_overruns_witness :
  2305843009213693947 <= sdt_entries (st32 ∅ 104 8) 100 8.
Proof.
  apply acpi_short_table_overruns; [vm_compute; reflexivity|]. right. reflexivity.
Defined.
