(* ===== verification/Boot.v ===== *)
(** The modules of the boot loader, [boot/limine.c], and the mount of the initial
    ram disk, [ustar_init] of [filesystem/ustar.c].

    The structures of the boot protocol are not of the kernel: a module is the
    three fields the kernel reads of it, the list of them is an argument. *)

From S2P Require Import Prelude Memory Libc Spinlock PageAllocator PageAllocatorSpec PageTable BlockAllocator BlockAllocatorSpec Paths KernelHeap Vfs VfsSpec Ustar DeviceManager.

Record limine_file := LimineFile { lf_path : Z; lf_address : Z; lf_size : Z }.

(** [while ( *fpath && *fpath == '/') fpath++]. *)
Fixpoint skip_slashes (m : mem) (fpath : Z) (fuel : nat) : outcome Z :=
  if negb (ld8 m fpath =? 0) && (ld8 m fpath =? SLASH) then
    match fuel with
    | O => Timeout
    | S fuel' => skip_slashes m (fpath + 1) fuel'
    end
  else Done fpath.

(** The loop over the modules; [None] is the null pointer. *)
Fixpoint limine_get_module (m : mem) (path : Z) (modules : list limine_file) : outcome (option limine_file) :=
  match modules with
  | [] => Done None
  | file :: modules' =>
      fpath ← (if negb (ld8 m path =? SLASH) then skip_slashes m (lf_path file) (size m) else Done (lf_path file));
      if strncmp m fpath path (strlen m path) =? 0 then Done (Some file) else limine_get_module m path modules'
  end.

Section Boot.
Context {H : Type} `{!KernelHeap H} (dot : Z).
Implicit Types s : vfs_state (dev_state H).

(** [strcpy(path + 14, file->path)]. *)
Definition module_path (m : mem) (path file_path : Z) : mem := strcpy m (path + 14) file_path.

Fixpoint create_modules (path : Z) (modules : list limine_file) s : outcome (vfs_state (dev_state H)) :=
  match modules with
  | [] => Done s
  | file :: modules' =>
      let s := set_mem s (module_path (fs_mem s) path (lf_path file)) in
      '(_, s) ← device_create_at dot path DEV_MODULE 0 0 0 s;
      create_modules path modules' s
  end.

(** [root] is the string ["/boot/modules/"]. *)
Definition limine_create_device (root : Z) (response : option (list limine_file)) s :
    outcome (vfs_state (dev_state H)) :=
  '(path, s) ← kh_page_allocate 1 s;
  let s := set_mem s (strcpy (fs_mem s) path root) in
  '(_, s) ← device_create_at dot path DEV_RESERVED 0 0 0 s;
  match response with
  | None => Done s
  | Some modules => create_modules path modules s
  end.

(** ** The initial ram disk *)

Definition DOT_TAR : list Z := [46; 116; 97; 114].

(** [memcmp(path + strlen(path) - 4, ".tar", 4) != 0]. *)
Definition not_tar (m : mem) (path : Z) : bool :=
  negb (lex_compare (bytes m (path + strlen m path - 4) 4) DOT_TAR =? 0).

(** The [do ... while]: the module devices one after the other. *)
Fixpoint find_tarball (fuel : nat) (path i : Z) s : outcome (bool * vfs_state (dev_state H)) :=
  match fuel with
  | O => Timeout
  | S fuel' =>
      '(r, s) ← device_get_by_type DEV_MODULE path 4096 (u64 i) s;
      let status := negb (r =? 0) in
      if status && not_tar (fs_mem s) path then find_tarball fuel' path (s32 (i + 1)) s else Done (status, s)
  end.

Context (kernel_hhdm_offset arch_bootstrap_page_table : Z).

(** There are fewer module devices than devices.  [root] is the string ["/"],
    [ustar_address] that of the operations. *)
Definition ustar_init (root ustar_address : Z) (modules : list limine_file) s : outcome (vfs_state (dev_state H)) :=
  '(path, s) ← kh_page_allocate 1 s;
  '(status, s) ← find_tarball (S (size (devices s))) path 0 s;
  if negb status then Done s else
  '(basename, s) ← kh_page_allocate 1 s;
  let s := set_mem s (vfs_basename (fs_mem s) path basename PAGE) in
  file ← limine_get_module (fs_mem s) basename modules;
  s ← kh_page_deallocate path 1 s;
  s ← kh_page_deallocate basename 1 s;
  match file with
  | None => Done s
  | Some file =>
      let s := Vfs (vs_heap s) (vs_nodes s) (vs_mounts s) (mount_points s) (mount_lock s) (lf_address file) in
      s ← arch_table_manager_map_range kernel_hhdm_offset arch_bootstrap_page_table (initrd s)
            (initrd s -w kernel_hhdm_offset) TABLE_ENTRY_READ_WRITE (lf_size file / PAGE) s;
      vfs_mount_fs root ustar_address s
  end.
End Boot.

(** * Modules by name *)

(** The path without the delimiters at its start. *)
Fixpoint unrooted (n : list Z) : list Z :=
  match n with
  | c :: n' => if c =? SLASH then unrooted n' else n
  | [] => []
  end.

(** The part of a module's path that is compared with [p]. *)
Definition compared (p n : list Z) : list Z :=
  match p with
  | c :: _ => if c =? SLASH then n else unrooted n
  | [] => unrooted n
  end.

Lemma cstr_head m str s : cstr m str s -> ld8 m str = default 0 (head s).
Proof.
  intros (H1 & H2 & _). destruct s as [|c s]; simpl in *; [by rewrite Z.add_0_r in H2|]. by injection H1.
Qed.

Lemma cstr_tail m str c s : cstr m str (c :: s) -> c <> 0 /\ cstr m (str + 1) s.
Proof.
  intros (H1 & H2 & H3). simpl in H1, H2. injection H1 as _ H1. inversion_clear H3. split; [done|].
  split_and!; [done| |done]. rewrite <- H2. f_equal. lia.
Qed.

Lemma cstr_size m str s : cstr m str s -> (length s <= size m)%nat.
Proof.
  intros (H1 & _ & H3). apply (nonzero_run_bound m str). intros k Hk.
  assert (s !! Z.to_nat k = Some (ld8 m (str + k))) as Hl.
  { rewrite <- H1, bytes_lookup by lia. do 2 f_equal. lia. }
  by apply (Forall_lookup_1 _ _ _ _ H3 Hl).
Qed.

Lemma skip_slashes_spec m n : forall fpath fuel, cstr m fpath n -> (length n <= fuel)%nat ->
  exists q, skip_slashes m fpath fuel = Done q /\ cstr m q (unrooted n).
Proof.
  induction n as [|c n IH]; intros fpath fuel Hc Hf; pose proof (cstr_head _ _ _ Hc) as Hh; simpl in Hh.
  - exists fpath. split; [|done]. destruct fuel; cbn [skip_slashes]; by rewrite Hh.
  - destruct (cstr_tail _ _ _ _ Hc) as [H0 Ht]. cbn [unrooted]. simpl in Hf. destruct fuel as [|fuel]; [lia|].
    cbn [skip_slashes]. rewrite Hh, (proj2 (Z.eqb_neq c 0)) by done. cbn [negb andb].
    destruct (c =? SLASH); [apply IH; [done|lia]|by exists fpath].
Qed.

Lemma strncmp_is_prefix m fpath path n p :
  cstr m fpath n -> cstr m path p ->
  (strncmp m fpath path (strlen m path) =? 0) = bool_decide (p `prefix_of` n).
Proof.
  intros Hn Hp. rewrite (strlen_cstr _ _ _ Hp). destruct (decide (length p <= length n)%nat) as [Hl|Hl].
  - pose proof (strncmp_prefix_of m fpath n path (length p) Hn Hl) as Hs. destruct Hp as (Hp & _). rewrite Hp in Hs.
    case_bool_decide as E.
    + apply Z.eqb_eq, Hs. destruct E as [r ->]. by rewrite take_app_length.
    + apply Z.eqb_neq. intros H0. apply E. exists (drop (length p) n). apply Hs in H0. rewrite H0 at 1. by rewrite take_drop.
  - rewrite bool_decide_false by (intros E; apply Hl; by apply prefix_length).
    apply Z.eqb_neq. intros H0. unfold strncmp in H0. rewrite Nat2Z.id in H0. apply strncmp_loop_zero with (k := Z.of_nat (length n)) in H0; [|lia|].
    + destruct Hn as (_ & Hz & _). destruct Hp as (Hp & _ & Hnz). rewrite Hz in H0.
      assert (p !! length n = Some 0) as Hx by (rewrite <- Hp, bytes_lookup by lia; by rewrite H0).
      by apply (Forall_lookup_1 _ _ _ _ Hnz Hx).
    + intros j Hj. destruct Hn as (Hn & _ & Hnz).
      assert (n !! Z.to_nat j = Some (ld8 m (fpath + j))) as Hx.
      { rewrite <- Hn, bytes_lookup by lia. do 2 f_equal. lia. }
      by apply (Forall_lookup_1 _ _ _ _ Hnz Hx).
Qed.

(** The place of a module in the comparison. *)
Lemma compared_spec m path p file n :
  cstr m path p -> cstr m (lf_path file) n ->
  exists q, (if negb (ld8 m path =? SLASH) then skip_slashes m (lf_path file) (size m) else Done (lf_path file)) = Done q /\
    cstr m q (compared p n).
Proof.
  intros Hp Hn. pose proof (cstr_head _ _ _ Hp) as ->. pose proof (cstr_size _ _ _ Hn) as Hs.
  unfold compared. destruct p as [|c p]; simpl; [by apply skip_slashes_spec|].
  destruct (c =? SLASH); cbn [negb]; [by eexists|by apply skip_slashes_spec].
Qed.

(** * Properties *)

(** limine_get_module terminates and returns the first module whose path, without its leading
    delimiters when the given path has none, starts with the given path. *)
Theorem limine_get_module_first (m : mem) (path : Z) (p : list Z) (modules : list limine_file) (names : list (list Z)) :
  cstr m path p -> Forall2 (fun file n => cstr m (lf_path file) n) modules names ->
  (limine_get_module m path modules = Done None /\ Forall (fun n => ~ p `prefix_of` compared p n) names) \/
  exists i file n, limine_get_module m path modules = Done (Some file) /\
    modules !! i = Some file /\ names !! i = Some n /\ p `prefix_of` compared p n /\
    forall j n', (j < i)%nat -> names !! j = Some n' -> ~ p `prefix_of` compared p n'.
Proof.
  intros Hp. induction 1 as [|file n modules names Hn HF IH]; [by left|]. cbn [limine_get_module].
  destruct (compared_spec m path p file n Hp Hn) as (q & -> & Hq). cbn [mbind outcome_bind].
  rewrite (strncmp_is_prefix m q path _ p Hq Hp). case_bool_decide as E.
  - right. exists 0%nat, file, n. split_and!; try done. intros j n' Hj. lia.
  - destruct IH as [[H1 H2]|(i & file' & n' & H1 & H2 & H3 & H4 & H5)].
    + left. split; [done|]. by constructor.
    + right. exists (S i), file', n'. split_and!; try done. intros [|j] n'' Hj Hl; [by injection Hl as <-|].
      apply (H5 j); [lia|done].
Qed.

Lemma limine_get_module_first_witness :
  let m := put (put (put ∅ 100 [98; 46; 116]) 200 [47; 97; 46; 116]) 300 [47; 98; 46; 116] in
  limine_get_module m 100 [LimineFile 200 1 2; LimineFile 300 3 4] = Done (Some (LimineFile 300 3 4)) /\
  exists i n, [[47; 97; 46; 116]; [47; 98; 46; 116]] !! i = Some n /\ [98; 46; 116] `prefix_of` compared [98; 46; 116] n.
Proof.
  intros m. split; [vm_compute; reflexivity|].
  destruct (limine_get_module_first m 100 [98; 46; 116] [LimineFile 200 1 2; LimineFile 300 3 4]
    [[47; 97; 46; 116]; [47; 98; 46; 116]]) as [[H0 _]|(i & file & n & _ & _ & Hi & Hx & _)].
  - split_and!; [vm_compute; reflexivity|vm_compute; reflexivity|repeat constructor; discriminate].
  - constructor; [|constructor; [|constructor]];
      (split_and!; [vm_compute; reflexivity|vm_compute; reflexivity|repeat constructor; discriminate]).
  - exfalso. assert (limine_get_module m 100 [LimineFile 200 1 2; LimineFile 300 3 4] <> Done None) as Hne
      by (vm_compute; discriminate). exact (Hne H0).
  - exists i, n. split; [exact Hi|exact Hx].
Defined.

(** The path of a module that is shorter than the path of the module before it keeps the end of
    that path. *)
Theorem module_names_run_together (m : mem) (path file_path : Z) (root p1 p2 : list Z) :
  cstr m path (root ++ p1) -> length root = 14%nat -> cstr m file_path p2 -> (length p2 <= length p1)%nat ->
  file_path + Z.of_nat (length p2) < path \/ path + Z.of_nat (length root + length p1) < file_path ->
  cstr (module_path m path file_path) path (root ++ p2 ++ drop (length p2) p1).
Proof.
  intros Hc Hr Hf Hl Ha. unfold module_path, strcpy. rewrite (strlen_cstr _ _ _ Hf).
  set (k := length p2) in *.
  destruct (bytes_memcpy m (path + 14) file_path (Z.of_nat k)) as [Hb Hch]; [lia|lia|].
  rewrite Nat2Z.id in Hb. destruct Hf as (Hf & _ & Hnf). fold k in Hf. rewrite Hf in Hb.
  destruct Hc as (Hc & H0 & Hnz). rewrite length_app in Hc, H0. apply Forall_app in Hnz as [Hn1 Hn2].
  set (m' := memcpy m (path + 14) file_path (Z.of_nat k)) in *.
  rewrite bytes_app, Hr in Hc. apply app_inj_1 in Hc as [Hc1 Hc2]; [|by rewrite length_bytes].
  replace (length p1) with (k + (length p1 - k))%nat in Hc2 by lia. rewrite bytes_app in Hc2.
  rewrite <- (take_drop k p1) in Hc2 at 2. apply app_inj_1 in Hc2 as [_ Hc3]; [|rewrite length_bytes, length_take; lia].
  unfold cstr. rewrite !length_app, length_drop, Hr. fold k. split_and!.
  - rewrite bytes_app, bytes_app. f_equal; [|f_equal].
    + rewrite <- Hc1. apply bytes_ext. intros b Hb'. apply Hch. lia.
    + exact Hb.
    + rewrite <- Hc3. apply bytes_ext. intros b Hb'. apply Hch. lia.
  - rewrite Hch by lia. rewrite <- H0. f_equal. lia.
  - apply Forall_app. split; [done|]. apply Forall_app. split; [done|]. by apply Forall_drop.
Qed.

Lemma module_names_run_together_witness :
  let root := replicate 14 47 in
  let m := put (put ∅ 100 (root ++ [47; 97; 98])) 200 [47; 99] in
  cstr (module_path m 100 200) 100 (root ++ [47; 99; 98]).
Proof.
  intros root m. apply (module_names_run_together m 100 200 root [47; 97; 98] [47; 99]).
  - split_and!; [vm_compute; reflexivity|vm_compute; reflexivity|repeat constructor; discriminate].
  - reflexivity.
  - split_and!; [vm_compute; reflexivity|vm_compute; reflexivity|repeat constructor; discriminate].
  - simpl. lia.
  - simpl. lia.
Defined.
