(* ===== verification/Elf.v ===== *)
(** The loader of executables, [executables/elf.c], with the structures of
    [elfabi.h] that it reads.

    The two headers are structures on the kernel stack: they are at the addresses
    [elf_header] and [program_header], and read from the memory after each
    [vfs_read] into them. *)

From S2P Require Import Prelude Memory Libc Spinlock PageAllocator PageAllocatorSpec PageTable AddressSpace BlockAllocator BlockAllocatorSpec Paths KernelHeap Scheduler SchedulerSpec SchedulerProps Vfs VfsSpec Ustar UstarSpec TarImage Syscalls SyscallsSpec Fork.

#[local] Existing Instance demo_source.
#[local] Existing Instance demo_source_laws.

(** * Headers *)

Record Elf64_Ehdr := Ehdr {
  e_ident : list Z;
  e_type : Z;
  e_machine : Z;
  e_entry : Z;
  e_phoff : Z;
  e_phnum : Z
}.

Record Elf64_Phdr := Phdr {
  p_type : Z;
  p_offset : Z;
  p_vaddr : Z;
  p_filesz : Z;
  p_memsz : Z
}.

Definition sizeof_ehdr : Z := 64.
Definition sizeof_phdr : Z := 56.

Definition read_ehdr (m : mem) (a : Z) : Elf64_Ehdr :=
  Ehdr (bytes m a 16) (ld16 m (a + 16)) (ld16 m (a + 18)) (ld64 m (a + 24)) (ld64 m (a + 32)) (ld16 m (a + 56)).

Definition read_phdr (m : mem) (a : Z) : Elf64_Phdr :=
  Phdr (ld32 m a) (ld64 m (a + 8)) (ld64 m (a + 16)) (ld64 m (a + 32)) (ld64 m (a + 40)).

Definition ELFMAG : list Z := [0x7F; 69; 76; 70].
Definition ELFDATA2MSB : Z := 2.
Definition ET_EXEC : Z := 2.
Definition EM_X86_64 : Z := 62.
Definition PT_LOAD : Z := 1.

(** The four checks. *)
Definition header_ok (h : Elf64_Ehdr) : bool :=
  (lex_compare (take 4 (e_ident h)) ELFMAG =? 0) && (nth 4 (e_ident h) 0 =? ELFDATA2MSB) &&
  (e_type h =? ET_EXEC) && (e_machine h =? EM_X86_64).

(** The bytes that pass them. *)
Lemma header_ok_iff m a : header_ok (read_ehdr m a) = true <->
  bytes m a 4 = [127; 69; 76; 70] /\ ld8 m (a + 4) = 2 /\ ld16 m (a + 16) = 2 /\ ld16 m (a + 18) = 62.
Proof.
  unfold header_ok, read_ehdr. cbn [e_ident e_type e_machine]. unfold ELFMAG, ELFDATA2MSB, ET_EXEC, EM_X86_64.
  rewrite !andb_true_iff, !Z.eqb_eq, lex_compare_eq by (by rewrite length_take, length_bytes).
  assert (take 4 (bytes m a 16) = bytes m a 4) as -> by reflexivity.
  assert (nth 4 (bytes m a 16) 0 = ld8 m (a + 4)) as ->.
  { cbn [bytes nth]. f_equal. lia. }
  tauto.
Qed.

(** * Segments *)

(** The bytes to read for the page at offset [i]: [None] is the [continue]. *)
Definition load_size (filesz i : Z) : option Z :=
  let load_size := s64 (s64 filesz - s64 i) in
  if load_size <? - PAGE then None
  else Some (u64 (min (abs load_size) PAGE)).

Section Segment.
Context (kernel_hhdm_offset : Z) {St : Type} `{!PageSource St}.
(** [vfs_lseek(node, offset, SEEK_SET); vfs_read(node, buffer, size)]. *)
Context (file_read : Z -> Z -> Z -> St -> outcome St).

(** The page at offset [i] of the segment. *)
Definition load_page (page_table : Z) (ph : Elf64_Phdr) (i : Z) (s : St) : outcome St :=
  '(page, s) ← src_page_allocate 1 s;
  s ← arch_table_manager_map kernel_hhdm_offset page_table (p_vaddr ph +w i) (page -w kernel_hhdm_offset)
        (Z.lor TABLE_ENTRY_USER TABLE_ENTRY_READ_WRITE) s;
  match load_size (p_filesz ph) i with
  | None => Done s
  | Some n => file_read (p_offset ph +w i) page n s
  end.

(** [for (uint64_t i = 0; i <= memsize; i += PAGE)]. *)
Fixpoint load_pages (fuel : nat) (page_table : Z) (ph : Elf64_Phdr) (i : Z) (s : St) : outcome St :=
  if p_memsz ph <? i then Done s else
  match fuel with
  | O => Timeout
  | S fuel' =>
      s ← load_page page_table ph i s;
      load_pages fuel' page_table ph (i +w PAGE) s
  end.

Definition load_segment (page_table : Z) (ph : Elf64_Phdr) (s : St) : outcome St :=
  load_pages (S (Z.to_nat (p_memsz ph / PAGE))) page_table ph 0 s.
End Segment.

(** * The loader *)

Definition set_t_virtual_stack_top (v : Z) (t : scheduler_task) : scheduler_task :=
  Task (t_id t) (t_syscall_stack_top t) (t_userspace_stack_top t) (t_simd_state t) (t_state t)
    (t_name t) (t_name_length t) (t_empty t) (t_ppid t) (t_exit_code t) (t_run_mode t) (t_is_waited t)
    v (t_fd_count t) (t_fd_max t) (t_fd_translation t)
    (t_fd_allocated_pages t) (t_parent_queue t) (t_next t) (t_previous t).

(** The registers that are assigned. *)
Definition elf_state (cr3 rip rsp : Z) (st : arch_cpu_state_t) : arch_cpu_state_t :=
  CpuState cr3 (r_rax st) (r_rbx st) (r_rcx st) (r_rdx st) (r_rsi st) (r_rdi st) (r_rbp st)
    (r_r8 st) (r_r9 st) (r_r10 st) (r_r11 st) (r_r12 st) (r_r13 st) (r_r14 st) (r_r15 st)
    (r_error st) rip (Z.lor (8 * 4) 3) 0x202 rsp (Z.lor (8 * 3) 3).

Section Elf.
Context (kernel_hhdm_offset arch_bootstrap_page_table : Z) {H : Type} `{!KernelHeap H}.
Context (filesystems : Z -> option (vfs_fs_ops (vfs_state H))).
Context (elf_header program_header : Z).
Implicit Types s : sched (vfs_state H).

Definition read_at (node offset buffer size : Z) (h : vfs_state H) : outcome (vfs_state H) :=
  '(_, h) ← vfs_lseek filesystems node offset SEEK_SET h;
  '(_, h) ← vfs_read filesystems node buffer size h;
  Done h.

(** Program header [i]. *)
Definition read_program_header (node i : Z) (e : Elf64_Ehdr) (h : vfs_state H) : outcome (Elf64_Phdr * vfs_state H) :=
  h ← read_at node (e_phoff e +w sizeof_phdr *w i) program_header sizeof_phdr h;
  Done (read_phdr (fs_mem h) program_header, h).

(** The smallest address of a segment. *)
Fixpoint find_base (node : Z) (e : Elf64_Ehdr) (i base_address : Z) (n : nat) (h : vfs_state H) :
    outcome (Z * vfs_state H) :=
  match n with
  | O => Done (base_address, h)
  | S n' =>
      '(ph, h) ← read_program_header node i e h;
      let base_address :=
        if negb (p_type ph =? PT_LOAD) then base_address
        else if p_vaddr ph <? base_address then p_vaddr ph else base_address in
      find_base node e (i + 1) base_address n' h
  end.

Fixpoint load_segments (node page_table : Z) (e : Elf64_Ehdr) (i : Z) (n : nat) (h : vfs_state H) :
    outcome (vfs_state H) :=
  match n with
  | O => Done h
  | S n' =>
      '(ph, h) ← read_program_header node i e h;
      h ← (if negb (p_type ph =? PT_LOAD) then Done h
           else load_segment kernel_hhdm_offset (read_at node) page_table ph h);
      load_segments node page_table e (i + 1) n' h
  end.

(** The address space: the page table and the address below which the stack
    is. *)
Definition load_image (node : Z) (e : Elf64_Ehdr) (h : vfs_state H) : outcome (Z * Z * vfs_state H) :=
  '(base_address, h) ← find_base node e 0 18446744073709551615 (Z.to_nat (e_phnum e)) h;
  '(page_table, h) ← arch_table_manager_new h;
  let h := share_higher_half arch_bootstrap_page_table page_table 0x100 256 h in
  h ← load_segments node page_table e 0 (Z.to_nat (e_phnum e)) h;
  let stack_base := base_address -w PAGE in
  '(stack, h) ← kh_page_allocate 1 h;
  h ← arch_table_manager_map kernel_hhdm_offset page_table stack_base (stack -w kernel_hhdm_offset)
        (Z.lor (Z.lor TABLE_ENTRY_USER TABLE_ENTRY_READ_WRITE) TABLE_ENTRY_NO_EXECUTE) h;
  Done (page_table, stack_base, h).

Definition elf_load_from (node : Z) s : outcome (bool * sched (vfs_state H)) :=
  h ← read_at node 0 elf_header sizeof_ehdr (sc_heap s);
  let e := read_ehdr (fs_mem h) elf_header in
  if negb (header_ok e) then
    h ← vfs_close filesystems node h; Done (false, with_heap s h)
  else
    '(page_table, stack_base, h) ← load_image node e h;
    let s := with_heap s h in
    n ← deref (vs_nodes (sc_heap s) !! node);
    '(new_task, s) ← task_scheduler_round_robin_create (n_path n) s;
    t ← deref (sc_tasks s !! new_task);
    s ← set_task (set_t_state (elf_state (page_table -w kernel_hhdm_offset) (e_entry e) (stack_base +w PAGE -w 8)
                    (t_state t))) new_task s;
    s ← set_task (set_t_virtual_stack_top (stack_base +w PAGE)) new_task s;
    s ← set_task (set_t_empty false) new_task s;
    h ← vfs_close filesystems node (sc_heap s);
    Done (true, with_heap s h).
End Elf.

(** * What a segment becomes *)

(** The bytes that are read for the page of offset [k] reach [k]. *)
Definition loaded (filesz k : Z) : bool :=
  let i := k / PAGE * PAGE in
  match load_size filesz i with None => false | Some n => k - i <? n end.

(** What the byte [v] at offset [k] of the segment can be: past the end of the
    file [F] a read gives anything. *)
Definition segment_byte (F : list Z) (ph : Elf64_Phdr) (k v : Z) : Prop :=
  if loaded (p_filesz ph) k then p_offset ph + k < Z.of_nat (length F) -> v = default 0 (F !! Z.to_nat (p_offset ph + k))
  else v = 0.

Lemma abs_small a : -2147483648 < a < 2147483648 -> abs a = Z.abs a.
Proof. intros Ha. unfold abs. rewrite s32_small by lia. btest; [rewrite s32_small by lia|]; lia. Qed.

Lemma load_size_small filesz i :
  0 <= filesz < 1073741824 -> 0 <= i < 1073741824 ->
  load_size filesz i = if filesz - i <? - PAGE then None else Some (Z.min (Z.abs (filesz - i)) PAGE).
Proof.
  intros Hf Hi. unfold load_size. rewrite !s64_small by (rewrite ?s64_small by lia; lia). btest; [done|].
  rewrite abs_small, min_small by (unfold PAGE in *; lia). f_equal. apply u64_small. unfold PAGE in *. lia.
Qed.

(** Inside the file size every byte is read; in the page where the file ends the
    rest is not. *)
Lemma loaded_file filesz k : 0 <= filesz < 1073741824 -> 0 <= k < filesz -> loaded filesz k = true.
Proof.
  intros Hf Hk. unfold loaded. rewrite load_size_small by (unfold PAGE in *; zlia).
  unfold PAGE in *. btest; [zlia|]. apply Z.ltb_lt. zlia.
Qed.

Lemma loaded_tail filesz k : 0 <= filesz < 1073741824 -> filesz <= k < 1073741824 ->
  k / PAGE * PAGE <= filesz \/ filesz + PAGE < k / PAGE * PAGE -> loaded filesz k = false.
Proof.
  intros Hf Hk Hp. unfold loaded. rewrite load_size_small by (unfold PAGE in *; zlia).
  unfold PAGE in *. btest; [done|]. apply Z.ltb_ge. zlia.
Qed.

(** In the first page after the end of the file, as many bytes as it is away from
    the end are read. *)
Lemma loaded_after filesz k : 0 <= filesz < 1073741824 -> 0 <= k < 1073741824 ->
  filesz < k / PAGE * PAGE <= filesz + PAGE ->
  loaded filesz k = (k mod PAGE <? k / PAGE * PAGE - filesz).
Proof.
  intros Hf Hk Hp. unfold loaded. rewrite load_size_small by (unfold PAGE in *; zlia).
  unfold PAGE in *. btest; [zlia|]. repeat btest; (done || zlia).
Qed.

Section SegmentSpec.
Context (hhdm : Z) {St : Type} `{!PageSource St} `{!PageSourceLaws hhdm St} (Hh : hhdm_ok hhdm).
Context (file_read : Z -> Z -> Z -> St -> outcome St).
Implicit Types s : St.

(** In the states [I] a read from the file [F] into a page in use gives the bytes
    of the file as far as they go; a read past the end gives anything, in the bytes
    asked for.  Allocating and mapping pages leads to such states again. *)
Record file_reader (F : list Z) (I : St -> Prop) : Prop := {
  fr_page : forall s p s', src_ok s -> src_page_allocate 1 s = Done (p, s') -> I s -> I s';
  fr_map : forall table va pa flags s s', arch_table_manager_map hhdm table va pa flags s = Done s' -> within s s' -> I s -> I s';
  fr_read : forall s offset p size,
    src_ok s -> src_owned s p -> I s -> 0 <= offset < 4611686018427387904 -> 0 <= size <= PAGE ->
    exists s', file_read offset p size s = Done s' /\ src_ok s' /\ I s' /\ (forall a, src_owned s a -> src_owned s' a) /\
      changes (fun b => p <= b < p + size) (src_mem s) (src_mem s') /\
      forall i, 0 <= i < size -> offset + i < Z.of_nat (length F) ->
        ld8 (src_mem s') (p + i) = default 0 (F !! Z.to_nat (offset + i))
}.

Context (F : list Z) (I : St -> Prop) (HF : file_reader F I) (ph : Elf64_Phdr) (table : Z).
Hypothesis Hsize : 0 <= p_filesz ph < 1073741824 /\ 0 <= p_memsz ph < 1073737728.
Hypothesis Haddr : p_vaddr ph mod PAGE = 0 /\ 0 <= p_vaddr ph /\ p_vaddr ph + p_memsz ph + PAGE <= 281474976710656.
Hypothesis Hoff : 0 <= p_offset ph < 2305843009213693952.

(** The offset of the first byte that is not mapped. *)
Definition segment_end : Z := (p_memsz ph / PAGE + 1) * PAGE.

(** One page of the loop. *)
Lemma load_page_spec s t D i :
  address_space hhdm s table t D -> I s -> i mod PAGE = 0 -> 0 <= i <= p_memsz ph ->
  load_page hhdm file_read table ph i s = Panicked \/
  exists p s', load_page hhdm file_read table ph i s = Done s' /\ I s' /\
    address_space hhdm s' table (overlay (page_number (p_vaddr ph + i)) (p -w hhdm) 1 t) (p :: D) /\
    pages_kept D s s' /\ ~ src_owned s p /\
    forall k, i <= k < i + PAGE -> segment_byte F ph k (ld8 (src_mem s') (p + (k - i))).
Proof.
  intros Hs HI Hi Hm. unfold load_page. pose proof (space_ok _ _ _ _ _ Hs) as Hok.
  destruct (law_outcome s 1 Hok) as [->|(p & s1 & E1)]; [lia|done|by left|]. rewrite E1.
  cbn [mbind outcome_bind]. pose proof (fr_page _ _ HF _ _ _ Hok E1 HI) as HI1.
  destruct (space_alloc hhdm s table t D p s1 Hh Hs E1) as (Hs1 & Hn & Hf & Hp & Hz & K1 & O1).
  assert (p ∉ D) as HpD by (intros Hx; apply Hn; by eapply space_owned).
  rewrite (u64_small (p_vaddr ph + i)) by (unfold PAGE in *; lia).
  set (flags := Z.lor TABLE_ENTRY_USER TABLE_ENTRY_READ_WRITE). assert (in_u64 flags) as Hflags by done.
  destruct (space_map hhdm s1 table t (p :: D) (p_vaddr ph + i) (p -w hhdm) flags Hh Hf Hflags Hs1)
    as [E2|(s2 & E2 & Hs2 & K2 & O2)]; [rewrite E2; by left|].
  destruct (map_view hhdm table (p_vaddr ph + i) (p -w hhdm) flags s1 t Hh Hf Hflags (space_table _ _ _ _ _ Hs1))
    as [E2'|(s2' & E2' & _ & Wi)]; [congruence|]. assert (s2' = s2) as -> by congruence. clear E2'.
  pose proof (fr_map _ _ HF _ _ _ _ _ _ E2 Wi HI1) as HI2. rewrite E2. cbn [mbind outcome_bind].
  assert (pages_kept D s s2) as K.
  { eapply pages_kept_trans; [exact K1|]. eapply pages_kept_sub; [|exact K2]. intros a Ha. by apply list_elem_of_further. }
  assert (forall k, i <= k < i + PAGE -> k / PAGE * PAGE = i) as Hki by (intros k Hk; unfold PAGE in *; zlia).
  assert (forall b, p <= b < p + PAGE -> ld8 (src_mem s2) b = 0) as Hz2.
  { intros b Hb. rewrite (K2 p) by (done || apply list_elem_of_here). by apply Hz. }
  right. exists p. unfold segment_byte, loaded. rewrite (u64_small (p_offset ph + i)) by lia.
  destruct (load_size (p_filesz ph) i) as [n|] eqn:El.
  - assert (0 <= n <= PAGE) as Hnr.
    { rewrite load_size_small in El by lia. revert El. btest; [done|]. intros [= <-]. unfold PAGE in *. lia. }
    destruct (fr_read _ _ HF s2 (p_offset ph + i) p n (space_ok _ _ _ _ _ Hs2)) as (s3 & E3 & Ok3 & HI3 & O3 & M3 & B3);
      [eapply space_owned; [exact Hs2|apply list_elem_of_here]|done|lia|done|].
    assert (changes (fun b => p <= b < p + PAGE) (src_mem s2) (src_mem s3)) as Hc.
    { eapply changes_mono; [|exact M3]. cbn beta. lia. }
    exists s3. split_and!; [done|done| | |done|].
    + apply (space_change hhdm s2 s3 _ _ _ Hh Hs2 Ok3 O3). eapply changes_mono; [|exact Hc].
      intros b Hb. exists p. split; [apply list_elem_of_here|done].
    + eapply pages_kept_trans; [exact K|]. by apply (write_kept hhdm s2 s3 table _ D p Hs2).
    + intros k Hk. rewrite Hki, El by done. btest.
      * intros Hl. rewrite B3 by lia. do 2 f_equal. lia.
      * rewrite M3 by lia. apply Hz2. lia.
  - exists s2. split_and!; [done|done|done|done|done|]. intros k Hk. rewrite Hki, El by done. apply Hz2. lia.
Qed.

(** The page of an offset. *)
Lemma segment_page k : 0 <= k < segment_end -> page_number (p_vaddr ph + k) = p_vaddr ph / PAGE + k / PAGE.
Proof.
  intros Hk. unfold page_number, segment_end, PAGE in *.
  replace (p_vaddr ph + k) with (k + p_vaddr ph / 4096 * 4096) by zlia. rewrite Z.div_add by lia.
  rewrite Z.mod_small by zlia. lia.
Qed.

(** The pages from [i] on. *)
Lemma load_pages_spec n : forall i s t D,
  address_space hhdm s table t D -> I s -> i mod PAGE = 0 -> 0 <= i -> i + Z.of_nat n * PAGE = segment_end ->
  load_pages hhdm file_read n table ph i s = Panicked \/
  exists s' t' D', load_pages hhdm file_read n table ph i s = Done s' /\ address_space hhdm s' table t' D' /\
    pages_kept D s s' /\
    (forall page, page < p_vaddr ph / PAGE + i / PAGE \/ p_vaddr ph / PAGE + segment_end / PAGE <= page -> t' page = t page) /\
    forall k, i <= k < segment_end -> exists p, t' (page_number (p_vaddr ph + k)) = p -w hhdm /\
      segment_byte F ph k (ld8 (src_mem s') (p + k mod PAGE)).
Proof.
  assert (segment_end mod PAGE = 0) as He by (unfold segment_end; apply Z.mod_mul; done).
  induction n as [|n IH]; intros i s t D Hs HI Hi H0 Hn; cbn [load_pages].
  - assert (i = segment_end) as -> by lia. btest; [|unfold segment_end, PAGE in *; zlia].
    right. exists s, t, D. split_and!; try done. intros k Hk. lia.
  - assert (i <= p_memsz ph) as Hm by (unfold segment_end, PAGE in *; zlia). btest; [lia|].
    destruct (load_page_spec s t D i Hs HI Hi ltac:(lia)) as [->|(p & s1 & -> & HI1 & Hs1 & K1 & _ & B1)]; [by left|].
    cbn [mbind outcome_bind]. rewrite u64_small by (unfold PAGE in *; lia).
    destruct (IH (i + PAGE) s1 _ (p :: D) Hs1 HI1) as [->|(s' & t' & D' & -> & Hs' & K & T1 & T2)];
      [unfold PAGE in *; zlia|unfold PAGE; lia|lia|by left|right].
    rewrite (segment_page i) in T1 by (unfold segment_end, PAGE in *; zlia).
    assert (forall x, (x + PAGE) / PAGE = x / PAGE + 1) as Hdiv by (intros x; unfold PAGE; zlia).
    rewrite Hdiv in T1.
    exists s', t', D'. split_and!; [done|done| | |].
    + eapply pages_kept_trans; [exact K1|]. eapply pages_kept_sub; [|exact K]. intros a Ha. by apply list_elem_of_further.
    + intros page Hp. assert (i / PAGE < segment_end / PAGE) by (unfold PAGE in *; zlia).
      rewrite T1 by lia. unfold overlay. repeat btest; cbn [andb]; (done || lia).
    + intros k Hk. destruct (decide (i + PAGE <= k)); [apply T2; lia|].
      assert (k / PAGE = i / PAGE /\ k mod PAGE = k - i) as [Hkd Hkm] by (unfold PAGE in *; zlia).
      exists p. rewrite (segment_page k), Hkd by lia. split.
      * rewrite T1 by lia. unfold overlay, PAGE. repeat btest; cbn [andb]; lia.
      * rewrite Hkm, (K p) by (apply list_elem_of_here || lia). apply B1. lia.
Qed.
End SegmentSpec.

(** * Where the stack goes *)

(** The lowest address that the segments of the headers ask for. *)
Definition lowest (phs : list Elf64_Phdr) : Z :=
  foldr Z.min 18446744073709551615 (p_vaddr <$> filter (fun ph => p_type ph = PT_LOAD) phs).

Lemma foldr_min_init l a b : foldr Z.min (Z.min a b) l = Z.min a (foldr Z.min b l).
Proof. induction l as [|x l IH]; simpl; [done|]. rewrite IH. lia. Qed.

(** The top of the stack is the lowest address of a segment. *)
Lemma stack_top b : in_u64 b -> (b -w PAGE) +w PAGE = b.
Proof. intros Hb. unfold u64. rewrite Zplus_mod_idemp_l, Z.sub_add. by apply Z.mod_small. Qed.

Lemma lowest_range phs : Forall (fun ph => in_u64 (p_vaddr ph)) phs -> in_u64 (lowest phs).
Proof.
  unfold lowest. induction 1 as [|ph phs Hp _ IH]; [done|].
  rewrite filter_cons. case_decide; [|done]. cbn [fmap list_fmap foldr]. lia.
Qed.

Section Headers.
Context (hhdm bootstrap : Z) {H : Type} `{!KernelHeap H} (filesystems : Z -> option (vfs_fs_ops (vfs_state H))).
Context (program_header : Z).

(** The headers that are read from header [i] on. *)
Fixpoint read_headers (node : Z) (e : Elf64_Ehdr) (i : Z) (n : nat) (h : vfs_state H) :
    outcome (list Elf64_Phdr * vfs_state H) :=
  match n with
  | O => Done ([], h)
  | S n' =>
      '(ph, h) ← read_program_header filesystems program_header node i e h;
      '(phs, h) ← read_headers node e (i + 1) n' h;
      Done (ph :: phs, h)
  end.

Lemma find_base_lowest node e n : forall i base h base' h',
  find_base filesystems program_header node e i base n h = Done (base', h') ->
  exists phs, read_headers node e i n h = Done (phs, h') /\ length phs = n /\
    Forall (fun ph => in_u64 (p_vaddr ph)) phs /\
    base' = foldr Z.min base (p_vaddr <$> filter (fun ph => p_type ph = PT_LOAD) phs).
Proof.
  induction n as [|n IH]; intros i base h base' h' E; cbn [find_base read_headers] in *.
  - injection E as <- <-. exists []. split_and!; [done..|constructor|done].
  - apply bind_done_inv in E as ([ph h1] & E1 & E). rewrite E1. cbn [mbind outcome_bind]. cbv zeta in E.
    apply IH in E as (phs & Er & Hl & Hv & ->). rewrite Er. exists (ph :: phs).
    split; [done|]. split; [simpl; congruence|]. split.
    { constructor; [|done]. unfold read_program_header in E1. apply bind_done_inv in E1 as (h2 & _ & [= <- _]). apply ld64_range. }
    rewrite filter_cons. destruct (Z.eqb_spec (p_type ph) PT_LOAD); cbn [negb]; [rewrite decide_True by done|by rewrite decide_False by done].
    cbn [fmap list_fmap foldr]. rewrite <- foldr_min_init. f_equal. btest; lia.
Qed.

Lemma load_image_base node e h page_table stack_base h' :
  load_image hhdm bootstrap filesystems program_header node e h = Done (page_table, stack_base, h') ->
  exists phs h0, read_headers node e 0 (Z.to_nat (e_phnum e)) h = Done (phs, h0) /\
    length phs = Z.to_nat (e_phnum e) /\ in_u64 (lowest phs) /\ stack_base = lowest phs -w PAGE.
Proof.
  intros E. unfold load_image in E. apply bind_done_inv in E as ([base h1] & E1 & E).
  apply find_base_lowest in E1 as (phs & Er & Hl & Hv & ->). exists phs, h1.
  split; [done|]. split; [done|]. split; [by apply lowest_range|].
  apply bind_done_inv in E as ([t h2] & _ & E). apply bind_done_inv in E as (h3 & _ & E).
  apply bind_done_inv in E as ([st h4] & _ & E). apply bind_done_inv in E as (h5 & _ & E).
  by injection E as <- <- <-.
Qed.
End Headers.

(** * Reading from the ram disk *)

Section Ustar.
Context (hhdm : Z) {H : Type} `{!KernelHeap H} (ok : H -> Prop) (owned : H -> Z -> Prop) (inside : (Z -> Prop) -> H -> Prop).
Context (Hlaws : @PageSourceLaws hhdm H (page_view ok owned inside)).
Context (filesystems : Z -> option (vfs_fs_ops (vfs_state H))) (node : Z) (f : tar_file) (R : Z -> Prop).
Implicit Types s : vfs_state H.

(** The pages of the heap, seen from the state of the file systems. *)
Definition files_view : PageSource (vfs_state H) := @lift_pages (vfs_state H) H vs_heap set_heap (page_view ok owned inside).
#[local] Existing Instance files_view.

Lemma files_laws : PageSourceLaws hhdm (vfs_state H).
Proof using Hlaws. apply (@lift_pages_laws _ _ vs_heap set_heap (page_view ok owned inside)); [exact Hlaws|done|done]. Qed.
#[local] Existing Instance files_laws.

(** The node is open for the file [f] of the archive, which is in none of the
    bytes [R], and these hold the pages. *)
Record loads_from s : Prop := {
  lf_node : exists n, reads s node n f /\ filesystems (n_fs n) = Some ustar /\ 0 <= n_seek_position n /\
    n_max_seek_position n = Z.of_nat (length (tf_content f));
  lf_nonzero : node <> 0;
  lf_apart : forall b, tf_header f <= b < tf_header f + TAR_BLOCK_SIZE + Z.of_nat (length (tf_content f)) -> ~ R b;
  lf_in : inside R (vs_heap s)
}.

(** The records stay, the bytes of [R] change. *)
Lemma loads_from_keep s s' : vs_nodes s' = vs_nodes s -> inside R (vs_heap s') -> changes R (fs_mem s) (fs_mem s') ->
  loads_from s -> loads_from s'.
Proof using.
  intros En Hi Hc [(n & [R1 R2 R3 R4 R5 R6] & Hn) H0 Ha _]. split; [|done|done|done]. exists n. split; [|done].
  unfold TAR_BLOCK_SIZE in *. split; [by rewrite En|done| | |done|done].
  - rewrite <- R3. unfold parse_size_of, off_tar_size. apply parse_digits_ext. intros b Hb. apply Hc, Ha. lia.
  - rewrite <- R4 at 2. apply bytes_ext. intros b Hb. apply Hc, Ha. unfold TAR_BLOCK_SIZE in *. lia.
Qed.

(** Moving the position. *)
Lemma loads_from_seek s n q : vs_nodes s !! node = Some n -> 0 <= q -> loads_from s ->
  loads_from (set_nodes s (<[node := set_seek_position q n]> (vs_nodes s))).
Proof using.
  intros Hn Hq [(n' & [R1 R2 R3 R4 R5 R6] & Hf & _ & Hm) H0 Ha Hi]. split; [|done|done|done].
  assert (n' = n) as -> by congruence. exists (set_seek_position q n). split; [|done]. split; [apply lookup_insert_eq|done..].
Qed.

(** Seeking from the start. *)
Lemma loads_from_set s offset : loads_from s -> 0 <= offset < 4611686018427387904 ->
  let position := Z.min offset (Z.of_nat (length (tf_content f))) in
  exists n, vs_nodes s !! node = Some n /\
    vfs_lseek filesystems node offset SEEK_SET s = Done (position, set_nodes s (<[node := set_seek_position position n]> (vs_nodes s))) /\
    loads_from (set_nodes s (<[node := set_seek_position position n]> (vs_nodes s))).
Proof using.
  intros HI Ho position. destruct (lf_node _ HI) as (n & Hr & Hf & Hq & Hm). pose proof (rd_node _ _ _ _ Hr) as R1.
  pose proof (rd_small _ _ _ _ Hr) as R6. exists n. split; [done|]. split.
  - unfold vfs_lseek, node_ops. rewrite (proj2 (Z.eqb_neq node 0) (lf_nonzero _ HI)), R1. cbn [deref mbind outcome_bind]. rewrite Hf.
    cbn [deref mbind outcome_bind fs_lseek ustar]. unfold ustar_lseek. rewrite R1. cbn [deref mbind outcome_bind]. cbv zeta.
    change (SEEK_SET =? SEEK_SET) with true. cbn match. rewrite u64_small, Hm, Z.gtb_ltb by lia.
    assert ((if Z.of_nat (length (tf_content f)) <? offset then Z.of_nat (length (tf_content f)) else offset) = position) as ->
      by (unfold position; btest; lia).
    rewrite s64_small by (unfold position; lia). done.
  - apply loads_from_seek; [done|unfold position; lia|done].
Qed.

Lemma read_at_reader : file_reader hhdm (read_at filesystems node) (tf_content f) loads_from.
Proof using Hlaws.
  split.
  - intros s p s' Hok E HI. destruct (law_in s s' R 1 p Hok (lf_in _ HI) ltac:(lia) ltac:(done) E) as [Hi Hc].
    apply lift_op_done in E as (h & _ & ->). by apply (loads_from_keep s).
  - intros table va pa flags s s' E [W _] HI. destruct (W R (lf_in _ HI)) as [Hi Hc]. apply (loads_from_keep s); [|done|done|done].
    apply (map_closed hhdm (fun s1 => vs_nodes s1 = vs_nodes s)) in E; [done|by intros|by intros s1 k p s2 (h & _ & ->)%lift_op_done|done].
  - intros s offset p size Hok Hp HI Ho Hs. pose proof (loads_from_set s offset HI Ho) as (n & Hn & Es & HI1).
    unfold read_at. rewrite Es. cbn [mbind outcome_bind]. set (len := Z.of_nat (length (tf_content f))) in *.
    set (s1 := set_nodes s _) in *. unfold vfs_read, node_ops. destruct (lf_node _ HI1) as (n1 & Hr & Hf & Hq & Hm).
    pose proof Hr as [R1 R2 R3 R4 R5 R6]. assert (n1 = set_seek_position (Z.min offset len) n) as ->.
    { assert (vs_nodes s1 !! node = Some (set_seek_position (Z.min offset len) n)) as E by apply lookup_insert_eq. congruence. }
    rewrite (proj2 (Z.eqb_neq node 0) (lf_nonzero _ HI1)), R1. cbn [deref mbind outcome_bind]. rewrite Hf.
    cbn [deref mbind outcome_bind fs_read ustar].
    rewrite (ustar_read_spec s1 node _ f p size Hr) by (unfold PAGE in *; lia). cbn [n_seek_position set_seek_position].
    fold len. destruct (Z.geb_spec (Z.min offset len) len).
    + cbn [mbind outcome_bind]. exists s1. split_and!; [done|exact Hok|exact HI1|done|done|]. intros i Hi Hx. lia.
    + cbn [mbind outcome_bind]. replace (Z.min offset len) with offset by lia.
      set (m := memcpy _ _ _ _). assert (changes (fun b => p <= b < p + size) (src_mem s) m) as Hc.
      { apply changes_memcpy. intros b Hb. unfold len in Hb. lia. }
      destruct (law_write_bytes s m Hok) as [Hok' Ho'].
      { eapply changes_mono; [|exact Hc]. intros b Hb. exists p. split; [done|]. cbn beta in Hb. lia. }
      assert (forall b, p <= b < p + PAGE -> R b) as HpR by (intros b Hb; by apply (law_in_owned s R p b Hok (lf_in _ HI))).
      eexists. split; [reflexivity|]. split_and!; [exact Hok'| |intros a Ha; by apply Ho'| |].
      * apply (loads_from_seek (set_mem s1 m) (set_seek_position (Z.min offset len) n)); [exact R1|lia|]. apply (loads_from_keep s1 (set_mem s1 m)); [done| | |exact HI1].
        -- change (src_in R (src_with_mem s m)). apply law_in_mem. exact (lf_in _ HI).
        -- change (changes R (src_mem s) (src_mem (src_with_mem s m))). rewrite law_with_mem.
           eapply changes_mono; [|exact Hc]. intros b Hb. apply HpR. cbn beta in Hb. lia.
      * change (changes (fun b => p <= b < p + size) (src_mem s) (src_mem (src_with_mem s m))). by rewrite law_with_mem.
      * intros i Hi Hx. change (ld8 (src_mem (src_with_mem s m)) (p + i) = default 0 (tf_content f !! Z.to_nat (offset + i))).
        rewrite law_with_mem. unfold m, memcpy. fold len in R5.
        assert (forall b, tf_header f + TAR_BLOCK_SIZE <= b < tf_header f + TAR_BLOCK_SIZE + len -> ~ (p <= b < p + PAGE)) as Hap.
        { intros b Hb Hpb. apply (lf_apart _ HI b); [unfold len, TAR_BLOCK_SIZE in *; lia|by apply HpR]. }
        rewrite ld8_memcpy_byte; [|lia|intros Hb; apply (Hap (tf_header f + TAR_BLOCK_SIZE + offset + i)); lia].
        rewrite <- R4, bytes_lookup by lia. change (fs_mem s1) with (src_mem s). cbn [default from_option id]. f_equal. lia.
Qed.

(** A new table. *)
Lemma loads_new s table s' : hhdm_ok hhdm -> src_ok s -> loads_from s ->
  @arch_table_manager_new _ (@heap_source _ vfs_heap) s = Done (table, s') ->
  address_space hhdm s' table (fun _ => 0) [] /\ loads_from s'.
Proof using Hlaws.
  intros Hh Hok HI E. change (src_page_allocate 1 s = Done (table, s')) in E. split.
  - eapply (space_new hhdm s [] table s' Hh Hok); [by intros a Ha%elem_of_nil|exact E].
  - exact (fr_page _ _ _ _ read_at_reader _ _ _ Hok E HI).
Qed.

Lemma loads_from_small s : loads_from s -> Z.of_nat (length (tf_content f)) < 2147483648.
Proof using. intros [(n & Hr & _) _ _ _]. apply Hr. Qed.

(** All pages of a segment. *)
Lemma segment_spec (Hh : hhdm_ok hhdm) (ph : Elf64_Phdr) (table : Z) s t D :
  address_space hhdm s table t D -> loads_from s ->
  0 <= p_filesz ph < 1073741824 /\ 0 <= p_memsz ph < 1073737728 ->
  p_vaddr ph mod PAGE = 0 /\ 0 <= p_vaddr ph /\ p_vaddr ph + p_memsz ph + PAGE <= 281474976710656 ->
  0 <= p_offset ph < 2305843009213693952 ->
  let load := @load_segment hhdm _ (@heap_source _ vfs_heap) (read_at filesystems node) table ph s in
  load = Panicked \/
  exists s' t', load = Done s' /\
    (forall va, @arch_table_manager_translate_to_physical hhdm _ (@heap_source _ vfs_heap) table va s' = t' (page_number va)) /\
    (forall a, a ∈ D -> forall b, a <= b < a + PAGE -> ld8 (fs_mem s') b = ld8 (fs_mem s) b) /\
    (forall page, page < p_vaddr ph / PAGE \/ p_vaddr ph / PAGE + segment_end ph / PAGE <= page -> t' page = t page) /\
    forall k, 0 <= k < segment_end ph -> exists p, t' (page_number (p_vaddr ph + k)) = p -w hhdm /\
      segment_byte (tf_content f) ph k (ld8 (fs_mem s') (p + k mod PAGE)).
Proof using Hlaws.
  intros Hs HI Hsize Haddr Hoff load.
  destruct (load_pages_spec hhdm Hh _ _ _ read_at_reader ph table Hsize Haddr Hoff (S (Z.to_nat (p_memsz ph / PAGE))) 0 s t D Hs HI)
    as [E|(s' & t' & D' & E & Hs' & K & T1 & T2)];
    [done|lia|unfold segment_end; rewrite Nat2Z.inj_succ, Z2Nat.id by (unfold PAGE; zlia); lia|by left|right].
  exists s', t'. split_and!; [exact E| |exact K| |exact T2].
  { intros va. rewrite <- (sp_view _ _ _ _ _ Hs'). by apply translate_mem. }
  intros page Hp. apply T1. change (0 / PAGE) with 0. lia.
Qed.
End Ustar.

(** * A concrete file *)

(** A file of 5000 bytes of the ram disk, open at node 1, with pages below it. *)
#[local] Instance demo_early : KernelHeap pa_state := early_heap.

Definition demo_file : list Z := replicate (Z.to_nat 5000) 7.
Definition demo_image : tar_file := TarFile 0x200000 [97] demo_file.
Definition demo_files_state : vfs_state pa_state :=
  Vfs (set_pa_mem table_state (put ∅ 0x200000 (tar_entry (demo_member [97] demo_file))))
    {[1 := Node 0 0 O_RDONLY 0 5000 false 0 0x200000]} ∅ 0 false 0x1FFE00.
Definition demo_ustar : Z -> option (vfs_fs_ops (vfs_state pa_state)) := fun _ => Some ustar.
Definition demo_pages : PageSource (vfs_state pa_state) := files_view (pa_wf 0) pa_allocated pools_in.

(** A segment of 4090 bytes of it, with 6000 bytes in memory. *)
Definition demo_segment : Elf64_Phdr := Phdr PT_LOAD 100 0x400000 4090 6000.

Lemma demo_files_ready : @src_ok _ demo_pages demo_files_state /\ loads_from pools_in demo_ustar 1 demo_image (fun b => b < 0x200000) demo_files_state.
Proof.
  assert (Forall (fun c => 0 <= c < 256) (tar_entry (demo_member [97] demo_file))) as Hb.
  { apply Forall_forall. intros c Hc.
    assert (forallb (fun c => (0 <=? c) && (c <? 256)) (tar_entry (demo_member [97] demo_file)) = true) as Hf by (vm_compute; reflexivity).
    rewrite forallb_forall in Hf. specialize (Hf c). rewrite list_elem_of_In in Hc. apply Hf in Hc. lia. }
  assert (pools_in (fun b => b < 0x200000) table_state) as Hin.
  { constructor; [|constructor]. apply pool_bytes_below. unfold pool_end, table_pool, PAGE. simpl. lia. }
  split.
  - refine (proj1 (law_in_write (hhdm := 0) table_state (fun b => b < 0x200000) (put ∅ 0x200000 (tar_entry (demo_member [97] demo_file))) table_state_wf Hin _)).
    intros b Hx. change (src_mem table_state) with (∅ : mem). rewrite ld8_put by done. rewrite decide_False; [done|].
    intros Hy. apply Hx. right. lia.
  - split; [|lia|simpl; intros b Hx; lia|exact Hin].
    exists (Node 0 0 O_RDONLY 0 5000 false 0 0x200000). split; [|split_and!; [done|simpl; lia|reflexivity]].
    split; [reflexivity|reflexivity|vm_compute; reflexivity| |simpl; lia|simpl; lia].
    vm_compute. reflexivity.
Qed.

Lemma demo_load : exists table s s',
  @address_space 0 _ demo_pages s table (fun _ => 0) [] /\
  loads_from pools_in demo_ustar 1 demo_image (fun b => b < 0x200000) s /\
  load_segment 0 (read_at demo_ustar 1) table demo_segment s = Done s'.
Proof.
  assert (is_done ('(table, s) ← arch_table_manager_new demo_files_state; load_segment 0 (read_at demo_ustar 1) table demo_segment s) = true)
    as Hd by (vm_compute; reflexivity).
  apply is_done_bind in Hd as ([table s] & E & Hd). apply is_done_inv in Hd as [s' E'].
  exists table, s, s'. destruct demo_files_ready as [Hok HI].
  destruct (loads_new 0 (pa_wf 0) pa_allocated pools_in (early_laws 0) demo_ustar 1 demo_image (fun b => b < 0x200000) demo_files_state table s
    hhdm_ok_0 Hok HI E) as [H1 H2]. split_and!; [exact H1|exact H2|exact E'].
Qed.

(** * Properties *)



(** In the first page that starts after the end of the file part of a segment, as many bytes as
    that page is away from the end are read from a file of the ram disk that goes on there,
    instead of being zero. *)
Theorem elf_bss_holds_file (hhdm : Z) {H} `{!KernelHeap H} (ok : H -> Prop) (owned : H -> Z -> Prop) (inside : (Z -> Prop) -> H -> Prop)
    (filesystems : Z -> option (vfs_fs_ops (vfs_state H))) (node : Z) (f : tar_file) (R : Z -> Prop)
    (ph : Elf64_Phdr) (table : Z) (s s' : vfs_state H) (t : Z -> Z) (D : list Z) (k : Z) :
  hhdm_ok hhdm -> @PageSourceLaws hhdm H (page_view ok owned inside) ->
  @address_space hhdm _ (files_view ok owned inside) s table t D -> loads_from inside filesystems node f R s ->
  0 <= p_filesz ph < 1073741824 /\ 0 <= p_memsz ph < 1073737728 ->
  p_vaddr ph mod PAGE = 0 /\ 0 <= p_vaddr ph /\ p_vaddr ph + p_memsz ph + PAGE <= 281474976710656 ->
  0 <= p_offset ph ->
  load_segment hhdm (read_at filesystems node) table ph s = Done s' ->
  0 <= k <= p_memsz ph -> p_filesz ph < k / PAGE * PAGE <= p_filesz ph + PAGE ->
  k mod PAGE < k / PAGE * PAGE - p_filesz ph -> p_offset ph + k < Z.of_nat (length (tf_content f)) ->
  exists p, arch_table_manager_translate_to_physical hhdm table (p_vaddr ph + k) s' = p -w hhdm /\
    ld8 (fs_mem s') (p + k mod PAGE) = default 0 (tf_content f !! Z.to_nat (p_offset ph + k)).
Proof.
  intros Hh Hlaws Hs HI Hsize Haddr Hoff El Hk Hpg Hkm Hlen0. pose proof (loads_from_small _ _ _ _ _ _ HI) as Hlen.
  destruct (segment_spec hhdm ok owned inside Hlaws filesystems node f R Hh ph table s t D Hs HI Hsize Haddr ltac:(lia))
    as [E|(s2 & t' & E & V & _ & _ & T2)]; rewrite E in El; [done|]. injection El as ->.
  destruct (T2 k) as (p & Hp & Hb); [unfold segment_end, PAGE in *; zlia|].
  exists p. split; [by rewrite V|]. unfold segment_byte in Hb.
  rewrite loaded_after, (proj2 (Z.ltb_lt _ _) Hkm) in Hb by lia. by apply Hb.
Qed.

Lemma elf_bss_holds_file_witness :
  exists table s s' p, load_segment 0 (read_at demo_ustar 1) table demo_segment s = Done s' /\
    arch_table_manager_translate_to_physical 0 table (0x400000 + 4096) s' = p -w 0 /\ ld8 (fs_mem s') (p + 4096 mod PAGE) = 7.
Proof.
  destruct demo_load as (table & s & s' & Hs & HI & E).
  destruct (elf_bss_holds_file 0 (pa_wf 0) pa_allocated pools_in demo_ustar 1 demo_image (fun b => b < 0x200000) demo_segment table s s'
    (fun _ => 0) [] 4096) as (p & Ht & Hb).
  - exact hhdm_ok_0.
  - exact (early_laws 0).
  - exact Hs.
  - exact HI.
  - simpl. lia.
  - split; [reflexivity|]. simpl. unfold PAGE. lia.
  - simpl. lia.
  - exact E.
  - simpl. lia.
  - change (4096 / PAGE * PAGE) with 4096. simpl. unfold PAGE. lia.
  - change (4096 / PAGE * PAGE) with 4096. change (4096 mod PAGE) with 0. simpl. lia.
  - vm_compute. reflexivity.
  - exists table, s, s', p. split; [exact E|]. split; [exact Ht|]. rewrite Hb. vm_compute. reflexivity.
Defined.

(** C19. elf_load_from succeeds exactly when the header has the four magic bytes, 2 as its
    class, 2 as its type and 62 as its machine, and then leaves a task that is not empty, starts
    at the entry point of the header in user mode with interrupts enabled, and has its stack end
    at the lowest address of the loadable segments; a rejected file changes no task. *)
Theorem elf_load_spawns (hhdm bootstrap : Z) {H} `{!KernelHeap H}
    (filesystems : Z -> option (vfs_fs_ops (vfs_state H))) (elf_header program_header node : Z)
    (s s' : sched (vfs_state H)) (b : bool) :
  elf_load_from hhdm bootstrap filesystems elf_header program_header node s = Done (b, s') ->
  exists h, read_at filesystems node 0 elf_header sizeof_ehdr (sc_heap s) = Done h /\
    (b = true <-> bytes (fs_mem h) elf_header 4 = [127; 69; 76; 70] /\ ld8 (fs_mem h) (elf_header + 4) = 2 /\
       ld16 (fs_mem h) (elf_header + 16) = 2 /\ ld16 (fs_mem h) (elf_header + 18) = 62) /\
    if b then
      exists phs h0 n h1 x s1 tx t',
        read_headers filesystems program_header node (read_ehdr (fs_mem h) elf_header) 0 (length phs) h = Done (phs, h0) /\
        Z.of_nat (length phs) = ld16 (fs_mem h) (elf_header + 56) /\ vs_nodes h1 !! node = Some n /\
        task_scheduler_round_robin_create (n_path n) (with_heap s h1) = Done (x, s1) /\
        sc_tasks s1 !! x = Some tx /\ sc_contexts s' = sc_contexts s1 /\ last_id s' = last_id s1 /\
        sc_tasks s' = <[x := t']> (sc_tasks s1) /\
        t_id t' = t_id tx /\ t_name t' = t_name tx /\ t_next t' = t_next tx /\ t_parent_queue t' = t_parent_queue tx /\
        t_empty t' = false /\ t_virtual_stack_top t' = lowest phs /\ r_rsp (t_state t') = u64 (lowest phs - 8) /\
        r_rip (t_state t') = ld64 (fs_mem h) (elf_header + 24) /\ r_cs (t_state t') = 35 /\ r_ss (t_state t') = 27 /\
        r_rflags (t_state t') = 0x202
    else sc_tasks s' = sc_tasks s /\ sc_contexts s' = sc_contexts s /\ last_id s' = last_id s.
Proof.
  intros E. unfold elf_load_from in E. apply bind_done_inv in E as (h & Eh & E). cbv zeta in E.
  exists h. split; [done|]. pose proof (header_ok_iff (fs_mem h) elf_header) as Hiff.
  destruct (header_ok (read_ehdr (fs_mem h) elf_header)); cbn [negb] in E.
  2:{ apply bind_done_inv in E as (h2 & _ & [= <- <-]). done. }
  apply bind_done_inv in E as ([[page_table stack_base] h1] & E1 & E).
  apply load_image_base in E1 as (phs & h0 & Er & Hlen & Hlow & ->).
  apply bind_done_inv in E as (n & En & E). apply bind_done_inv in E as ([x s1] & Ec & E). apply bind_done_inv in E as (tx & Ex & E).
  destruct (vs_nodes (sc_heap (with_heap s h1)) !! node) as [n'|] eqn:En'; [|done]. injection En as ->.
  destruct (sc_tasks s1 !! x) as [tx'|] eqn:Ex'; [|done]. injection Ex as ->.
  apply bind_done_inv in E as (s2 & E2 & E). eapply set_task_done in E2 as (T2 & C2 & L2); [|exact Ex'].
  apply bind_done_inv in E as (s3 & E3 & E). eapply set_task_done in E3 as (T3 & C3 & L3); [|rewrite T2; apply lookup_insert_eq].
  apply bind_done_inv in E as (s4 & E4 & E). eapply set_task_done in E4 as (T4 & C4 & L4); [|rewrite T3; apply lookup_insert_eq].
  apply bind_done_inv in E as (h5 & _ & E). injection E as <- <-. split; [done|].
  assert (Z.of_nat (length phs) = ld16 (fs_mem h) (elf_header + 56)) as Hnum
    by (rewrite Hlen; apply Z2Nat.id, (le_load_range (fs_mem h) (elf_header + 56) 2)).
  rewrite <- Hlen in Er. exists phs, h0, n, h1, x, s1, tx.
  exists (set_t_empty false (set_t_virtual_stack_top ((lowest phs -w PAGE) +w PAGE)
    (set_t_state (elf_state (page_table -w hhdm) (ld64 (fs_mem h) (elf_header + 24)) ((lowest phs -w PAGE) +w PAGE -w 8)
      (t_state tx)) tx))).
  split_and!; try done; simpl; try congruence.
  - rewrite T4, T3, T2. by rewrite !insert_insert_eq.
  - by apply stack_top.
  - by rewrite stack_top.
Qed.

(** An executable with one segment of three bytes, read by a file system whose
    nodes are in the list. *)
Definition demo_elf : list Z :=
  [0x7F; 69; 76; 70; 2] ++ replicate 11 0 ++ [2; 0; 62; 0; 1; 0; 0; 0] ++ [0; 0x10; 0x40; 0; 0; 0; 0; 0] ++
  [64; 0; 0; 0; 0; 0; 0; 0] ++ replicate 16 0 ++ [1; 0] ++ replicate 6 0 ++
  [1; 0; 0; 0; 5; 0; 0; 0] ++ [120; 0; 0; 0; 0; 0; 0; 0] ++ [0; 0x10; 0x40; 0; 0; 0; 0; 0] ++
  [0; 0x10; 0x40; 0; 0; 0; 0; 0] ++ [3; 0; 0; 0; 0; 0; 0; 0] ++ [3; 0; 0; 0; 0; 0; 0; 0] ++ replicate 8 0 ++ [11; 12; 13].

Section DemoElf.
Context `{!KernelHeap (ba_state pa_state)}.

Definition demo_elf_fs : vfs_fs_ops (vfs_state (ba_state pa_state)) :=
  Ops None
    (Some (fun node buffer size s =>
       n ← deref (vs_nodes s !! node);
       Done (size, set_mem s (put (fs_mem s) buffer (take (Z.to_nat size) (drop (Z.to_nat (n_seek_position n)) demo_elf))))))
    None
    (Some (fun node offset whence s =>
       n ← deref (vs_nodes s !! node);
       Done (offset, Vfs (vs_heap s) (<[node := set_seek_position offset n]> (vs_nodes s)) (vs_mounts s) (mount_points s)
         (mount_lock s) (initrd s))))
    (Some (fun node s => Done s)) None None None None.

Definition demo_elf_node (name : Z) (s : sched (vfs_state (ba_state pa_state))) : sched (vfs_state (ba_state pa_state)) :=
  with_heap s (Vfs (vs_heap (sc_heap s)) {[1 := Node name 2 0 0 (Z.of_nat (length demo_elf)) false 1 0]}
    (vs_mounts (sc_heap s)) (mount_points (sc_heap s)) (mount_lock (sc_heap s)) (initrd (sc_heap s))).

Definition demo_elf_load table name s :=
  elf_load_from 0 table (fun _ => Some demo_elf_fs) 0x800 0x900 1 (demo_elf_node name (with_no_files s)).
End DemoElf.

(** The task runs at the entry point, with its stack below the segment. *)
Definition demo_spawned (s : sched (vfs_state (ba_state pa_state))) : bool :=
  existsb (fun t => (t_id t =? 1) && (r_rip (t_state t) =? 0x401000) && (r_rsp (t_state t) =? 0x400FF8))
    (map_to_list (sc_tasks s)).*2.

Lemma elf_load_spawns_witness :
  exists table name s s', @demo_elf_load (ba_heap 0 table) table name s = Done (true, s') /\ demo_spawned s' = true /\
    exists x t', sc_tasks s' !! x = Some t' /\ t_empty t' = false /\ r_cs (t_state t') = 35.
Proof.
  assert (is_done ('(table, h) ← demo_boot; '(p, name, s) ← demo_install table h;
    '(b, s) ← @demo_elf_load (ba_heap 0 table) table name s;
    if b && demo_spawned s then Done tt else Undef) = true) as Hd by (vm_compute; reflexivity).
  apply is_done_bind in Hd as ([table h] & _ & Hd). apply is_done_bind in Hd as ([[p name] s] & _ & Hd).
  apply is_done_bind in Hd as ([b s'] & E & Hd).
  destruct b; [|discriminate Hd]. destruct (demo_spawned s') eqn:Hs; [|discriminate Hd].
  exists table, name, s, s'. split; [exact E|]. split; [exact Hs|].
  destruct (@elf_load_spawns 0 table _ (ba_heap 0 table) _ _ _ _ _ _ _ E)
    as (h1 & _ & _ & phs & h0 & n & h2 & x & s1 & tx & t' & _ & _ & _ & _ & _ & _ & _ & Et & _ & _ & _ & _ & He & _ & _ & _ & Hc & _).
  exists x, t'. rewrite Et. split; [apply lookup_insert_eq|]. split; [exact He|exact Hc].
Defined.
