(* ===== verification/Descriptors.v ===== *)
(** The descriptor tables and the entry of system calls:
    [arch/x86_64/gdt/gdt.c] with [gdt.asm], the tables of
    [arch/x86_64/idt/idt.c] and [arch/x86_64/syscall/syscall.c].

    The tables are bytes of the memory, written at the offsets of the packed
    structures; what the processor reads from them is stated with the layout of
    the architecture. *)

From S2P Require Import Prelude Memory Libc Spinlock PageAllocator PageAllocatorSpec PageTable AddressSpace BlockAllocator BlockAllocatorSpec Paths KernelHeap Scheduler SchedulerSpec SchedulerProps Vfs VfsSpec Syscalls SyscallsSpec Fork Elf.

#[local] Existing Instance demo_source.
#[local] Existing Instance demo_source_laws.

Definition st16 (m : mem) (a v : Z) : mem := le_store m a 2 v.

(** * The control registers of a processor *)

(** The limit and the base of the two tables, the selectors, the interrupt flag
    and the model-specific registers. *)
Record control := Control {
  c_gdtr : Z * Z;
  c_idtr : Z * Z;
  c_cs : Z;
  c_ds : Z;
  c_tr : Z;
  c_interrupts : bool;
  c_msrs : gmap Z Z
}.

Definition rdmsr (ecx : Z) (c : control) : Z := default 0 (c_msrs c !! ecx).

Definition wrmsr (ecx value : Z) (c : control) : control :=
  Control (c_gdtr c) (c_idtr c) (c_cs c) (c_ds c) (c_tr c) (c_interrupts c)
    (<[ecx := Z.lor (Z.shiftl (Z.land (Z.shiftr value 32) 0xFFFFFFFF) 32) (Z.land value 0xFFFFFFFF)]> (c_msrs c)).

(** * Segments *)

(** [sizeof(gdt_segment_t)], [sizeof(gdt_system_segment_t)], [sizeof(gdt_tss_t)]. *)
Definition sizeof_gdt_segment : Z := 8.
Definition sizeof_gdt_system_segment : Z := 16.
Definition sizeof_gdt_tss : Z := 104.

(** The offsets in [gdt_info_t]. *)
Definition off_null : Z := 16.
Definition off_kernel_code : Z := 24.
Definition off_kernel_data : Z := 32.
Definition off_user_data : Z := 40.
Definition off_user_code : Z := 48.
Definition off_tss_segment : Z := 56.
Definition off_tss : Z := 80.

(** The offsets in [gdt_tss_t]. *)
Definition off_rsp (i : Z) : Z := 4 + 8 * i.
Definition off_ist (i : Z) : Z := 36 + 8 * i.

(** [segment->access = access; segment->flags = flags], the latter the upper
    half of a byte. *)
Definition set_segment (segment access flags : Z) (m : mem) : mem :=
  let m := st8 m (segment + 5) access in
  st8 m (segment + 6) (Z.lor (Z.land (ld8 m (segment + 6)) 0xF) (Z.shiftl flags 4)).

Definition set_tss_segment (segment tss_address : Z) (m : mem) : mem :=
  let m := st8 m (segment + 5) 0x89 in
  let m := st16 m segment sizeof_gdt_tss in
  let m := st16 m (segment + 2) (u16 tss_address) in
  let m := st8 m (segment + 4) (u8 (Z.shiftr tss_address 16)) in
  let m := st8 m (segment + 7) (u8 (Z.shiftr tss_address 24)) in
  st32 m (segment + 8) (u32 (Z.shiftr tss_address 32)).

(** The tables of one processor, without its stacks. *)
Definition fill_gdt (info : Z) (m : mem) : mem :=
  let m := st16 m info (sizeof_gdt_segment * 5 + sizeof_gdt_system_segment - 1) in
  let m := st64 m (info + 2) (info + off_null) in
  let m := set_segment (info + off_kernel_data) 0x92 0xA m in
  let m := set_segment (info + off_kernel_code) 0x9A 0xA m in
  let m := set_segment (info + off_user_data) 0xF2 0xA m in
  let m := set_segment (info + off_user_code) 0xFA 0xA m in
  set_tss_segment (info + off_tss_segment) (info + off_tss) m.

(** [arch_gdt_load]: the table register, the data selectors, the task register
    and, through the far return, the code selector.  Reloading [gs] clears its
    base, which [arch_context_install] sets next. *)
Definition arch_gdt_load (m : mem) (gdtr : Z) (c : control) : control :=
  Control (ld16 m gdtr, ld64 m (gdtr + 2)) (c_idtr c) (8 * 1) (8 * 2) (8 * 5) (c_interrupts c) (c_msrs c).

Section Tables.
Context {St : Type} `{!PageSource St}.

(** One stack of a page: its top goes to the address. *)
Definition new_stack (slot : Z) (s : St) : outcome St :=
  '(page, s) ← src_page_allocate 1 s;
  Done (src_with_mem s (st64 (src_mem s) slot (page +w PAGE))).

(** The first part of [arch_load_gdt]: the page with the tables and the stacks. *)
Definition gdt_create (s : St) : outcome (Z * St) :=
  '(info, s) ← src_page_allocate 1 s;
  let s := src_with_mem s (fill_gdt info (src_mem s)) in
  s ← new_stack (info + off_tss + off_ist 0) s;
  s ← new_stack (info + off_tss + off_rsp 0) s;
  s ← new_stack (info + off_tss + off_rsp 2) s;
  Done (info, s).

(** * Interrupt gates *)

Definition sizeof_gate : Z := 16.

Definition arch_interrupts_map_vector (offset vector handler : Z) (m : mem) : mem :=
  let gate := offset +w vector *w sizeof_gate in
  let m := st16 m gate handler in
  let m := st16 m (gate + 6) (Z.shiftr handler 16) in
  let m := st32 m (gate + 8) (Z.shiftr handler 32) in
  let m := st16 m (gate + 2) (8 * 1) in
  let m := st8 m (gate + 4) 1 in
  st8 m (gate + 5) 0xEE.

(** [for (size_t i = 0; i < 0xFF; i++)], from [i] on. *)
Fixpoint map_vectors (offset arch_isr_handlers i : Z) (n : nat) (m : mem) : mem :=
  match n with
  | O => m
  | S n' =>
      map_vectors offset arch_isr_handlers (i + 1) n'
        (arch_interrupts_map_vector offset i (ld64 m (arch_isr_handlers + 8 * i)) m)
  end.

Definition arch_idt_load (idtr : Z * Z) (c : control) : control :=
  Control (c_gdtr c) idtr (c_cs c) (c_ds c) (c_tr c) (c_interrupts c) (c_msrs c).

Definition arch_interrupts_enable (c : control) : control :=
  Control (c_gdtr c) (c_idtr c) (c_cs c) (c_ds c) (c_tr c) true (c_msrs c).

Definition arch_interrupts_disable (c : control) : control :=
  Control (c_gdtr c) (c_idtr c) (c_cs c) (c_ds c) (c_tr c) false (c_msrs c).

(** The result holds [arch_global_idtr]: size and offset. *)
Definition arch_interrupts_init (arch_isr_handlers : Z) (c : control) (s : St) : outcome ((Z * Z) * control * St) :=
  '(offset, s) ← src_page_allocate 1 s;
  let idtr := (0xFF * sizeof_gate - 1, offset) in
  let s := src_with_mem s (map_vectors offset arch_isr_handlers 0 255 (src_mem s)) in
  Done (idtr, arch_interrupts_enable (arch_idt_load idtr c), s).
End Tables.

(** [arch_interrupts_reserve_kernel_vector] on [interrupts_vector_base]. *)
Definition arch_interrupts_reserve_kernel_vector (interrupts_vector_base : Z) : Z * Z :=
  (interrupts_vector_base, u16 (interrupts_vector_base + 1)).

(** * System calls *)

Definition IA32_STAR : Z := 0xC0000081.
Definition IA32_LSTAR : Z := 0xC0000082.
Definition IA32_FMASK : Z := 0xC0000084.
Definition IA32_EFER : Z := 0xC0000080.

Definition arch_syscall_init (arch_syscall_entry : Z) (c : control) : control :=
  let c := wrmsr IA32_EFER (Z.lor (rdmsr IA32_EFER c) 1) c in
  let c := wrmsr IA32_STAR 0x0013000800000000 c in
  let c := wrmsr IA32_LSTAR arch_syscall_entry c in
  wrmsr IA32_FMASK 0xFFFFFFFD c.

(** * The whole of [arch_load_gdt] *)

Definition set_gdt (info : Z) (c : arch_cpu_context_t) : arch_cpu_context_t :=
  CpuContext (cx_context_type c) (cx_cpu_id c) (cx_is_bsp c) info (cx_scheduler_context c).

Definition arch_load_gdt {H : Type} `{!KernelHeap H} (c : control) (s : sched H) : outcome (control * sched H) :=
  '(info, h) ← gdt_create (sc_heap s);
  let c := arch_gdt_load (kh_mem h) info c in
  '(context, s) ← arch_context_install (with_heap s h);
  cx ← deref (sc_cpu_contexts s !! context);
  Done (c, with_cpu_contexts s (<[context := set_gdt info cx]> (sc_cpu_contexts s))).

(** * What the processor reads *)

(** The descriptor of a selector: inside the limit of the table. *)
Definition descriptor (c : control) (selector : Z) : Z := snd (c_gdtr c) + Z.land selector 0xFFF8.
Definition in_table (c : control) (selector size : Z) : bool := Z.land selector 0xFFF8 + size - 1 <=? fst (c_gdtr c).
Definition rpl (selector : Z) : Z := Z.land selector 3.

(** The access byte: present, privilege, code or data, executable; the flag for
    64-bit code. *)
Definition d_present (m : mem) (d : Z) : bool := Z.testbit (ld8 m (d + 5)) 7.
Definition d_dpl (m : mem) (d : Z) : Z := Z.land (Z.shiftr (ld8 m (d + 5)) 5) 3.
Definition d_ordinary (m : mem) (d : Z) : bool := Z.testbit (ld8 m (d + 5)) 4.
Definition d_executable (m : mem) (d : Z) : bool := Z.testbit (ld8 m (d + 5)) 3.
Definition d_writable (m : mem) (d : Z) : bool := Z.testbit (ld8 m (d + 5)) 1.
Definition d_long (m : mem) (d : Z) : bool := Z.testbit (ld8 m (d + 6)) 5.

(** The selector can be loaded as the code segment, as the stack segment, of the
    privilege level. *)
Definition code_selector (m : mem) (c : control) (level selector : Z) : bool :=
  let d := descriptor c selector in
  in_table c selector 8 && d_present m d && d_ordinary m d && d_executable m d && d_long m d &&
  (d_dpl m d =? level) && (rpl selector =? level).

Definition data_selector (m : mem) (c : control) (level selector : Z) : bool :=
  let d := descriptor c selector in
  in_table c selector 8 && d_present m d && d_ordinary m d && negb (d_executable m d) && d_writable m d &&
  (d_dpl m d =? level) && (rpl selector =? level).

(** The selectors of [syscall] and [sysret]. *)
Definition star (c : control) : Z := rdmsr IA32_STAR c.
Definition syscall_cs (c : control) : Z := Z.land (Z.shiftr (star c) 32) 0xFFFC.
Definition syscall_ss (c : control) : Z := Z.land (Z.shiftr (star c) 32) 0xFFFF + 8.
Definition sysret_cs (c : control) : Z := Z.lor (Z.land (Z.shiftr (star c) 48) 0xFFFF + 16) 3.
Definition sysret_ss (c : control) : Z := Z.lor (Z.land (Z.shiftr (star c) 48) 0xFFFF + 8) 3.

(** The task state segment: type 9 is "available". *)
Definition tss_base (m : mem) (d : Z) : Z :=
  ld16 m (d + 2) + 65536 * ld8 m (d + 4) + 16777216 * ld8 m (d + 7) + 4294967296 * ld32 m (d + 8).
Definition tss_selector (m : mem) (c : control) (selector : Z) : bool :=
  let d := descriptor c selector in
  in_table c selector 16 && d_present m d && negb (d_ordinary m d) && (Z.land (ld8 m (d + 5)) 15 =? 9).

(** An interrupt gate. *)
Definition gate_handler (m : mem) (g : Z) : Z := ld16 m g + 65536 * ld16 m (g + 6) + 4294967296 * ld32 m (g + 8).
Definition gate_selector (m : mem) (g : Z) : Z := ld16 m (g + 2).
Definition gate_ist (m : mem) (g : Z) : Z := Z.land (ld8 m (g + 4)) 7.
Definition gate_type (m : mem) (g : Z) : Z := Z.land (ld8 m (g + 5)) 15.
Definition gate_dpl (m : mem) (g : Z) : Z := Z.land (Z.shiftr (ld8 m (g + 5)) 5) 3.
Definition gate_present (m : mem) (g : Z) : bool := Z.testbit (ld8 m (g + 5)) 7.

(** * Reading back stores *)

Lemma ld8_load m a : ld8 m a = le_load m a 1.
Proof. cbn [le_load]. lia. Qed.

Lemma st8_store m a v : st8 m a v = le_store m a 1 v.
Proof. done. Qed.

(** Loads of a memory written by stores at other offsets of the same base. *)
Ltac read_back :=
  unfold ld16, ld32, ld64, st16, st32, st64; rewrite ?st8_store, ?ld8_load;
  repeat first [rewrite le_load_store_same | rewrite le_load_store_other by lia].

(** The three parts of an address that is stored in pieces. *)
Lemma split_address a : in_u64 a ->
  a mod 65536 + 65536 * (Z.shiftr a 16 mod 65536) + 4294967296 * (Z.shiftr a 32 mod 4294967296) = a.
Proof. intros Ha. rewrite !Z.shiftr_div_pow2 by lia. change (2 ^ 16) with 65536. change (2 ^ 32) with 4294967296. zlia. Qed.

Lemma split_base a : in_u64 a ->
  a mod 65536 + 65536 * (Z.shiftr a 16 mod 256) + 16777216 * (Z.shiftr a 24 mod 256) +
  4294967296 * (Z.shiftr a 32 mod 4294967296) = a.
Proof.
  intros Ha. rewrite !Z.shiftr_div_pow2 by lia. change (2 ^ 16) with 65536. change (2 ^ 24) with 16777216.
  change (2 ^ 32) with 4294967296. zlia.
Qed.

(** The bytes of a range are those of another memory. *)
Definition same_bytes (m m' : mem) (a n : Z) : Prop := forall b, a <= b < a + n -> ld8 m' b = ld8 m b.

Lemma same_load m m' a n b k : same_bytes m m' a n -> a <= b -> b + Z.of_nat k <= a + n ->
  le_load m' b k = le_load m b k.
Proof. intros H H1 H2. apply le_load_ext. intros x Hx. apply H. lia. Qed.

(** ** Segments *)

(** A zeroed page becomes a table: the bytes of the descriptors. *)
Lemma fill_gdt_reads m info : in_u64 (info + 200) -> 0 <= info -> (forall b, info <= b < info + 200 -> ld8 m b = 0) ->
  let m' := fill_gdt info m in
  ld16 m' info = 55 /\ ld64 m' (info + 2) = info + off_null /\
  (forall off access, (off, access) ∈ [(off_kernel_code, 0x9A); (off_kernel_data, 0x92); (off_user_data, 0xF2); (off_user_code, 0xFA)] ->
     ld8 m' (info + off + 5) = access /\ ld8 m' (info + off + 6) = 0xA0) /\
  ld8 m' (info + off_tss_segment + 5) = 0x89 /\ tss_base m' (info + off_tss_segment) = info + off_tss.
Proof.
  intros Hi Hi0 Hz. assert (forall k, 0 <= k < 200 -> le_load m (info + k) 1 = 0) as Hz1.
  { intros k Hk. rewrite <- ld8_load. apply Hz. lia. }
  cbv zeta. unfold fill_gdt, set_tss_segment, set_segment, off_null, off_kernel_code, off_kernel_data, off_user_data,
    off_user_code, off_tss_segment, off_tss. split_and!.
  - read_back. reflexivity.
  - read_back. rewrite Z.mod_small; [lia|]. change (256 ^ Z.of_nat 8) with 18446744073709551616. lia.
  - intros off access Ho. rewrite !elem_of_cons in Ho.
    destruct Ho as [[= -> ->]|[[= -> ->]|[[= -> ->]|[[= -> ->]|Ho%elem_of_nil]]]]; [..|done];
      (split; read_back; [reflexivity|]); rewrite <- ?Z.add_assoc, ?Hz1 by lia; reflexivity.
  - read_back. reflexivity.
  - unfold tss_base. read_back. unfold u8, u16, u32. change (256 ^ Z.of_nat 1) with 256. change (256 ^ Z.of_nat 2) with 65536.
    change (256 ^ Z.of_nat 4) with 4294967296. rewrite !Z.mod_mod by lia. apply split_base. lia.
Qed.

Section Pages.
Context (hhdm : Z) {St : Type} `{!PageSource St} `{!PageSourceLaws hhdm St}.
Implicit Types s : St.

(** Writing to a page that is in use. *)
Lemma page_write s a m :
  src_ok s -> src_owned s a -> changes (fun b => a <= b < a + PAGE) (src_mem s) m ->
  src_ok (src_with_mem s m) /\ forall x, src_owned (src_with_mem s m) x <-> src_owned s x.
Proof using PageSourceLaws0.
  intros Hok Ha Hc. apply (law_write_bytes s m Hok). eapply changes_mono; [|exact Hc]. intros b Hb. by exists a.
Qed.

Lemma page_alloc s : src_ok s ->
  src_page_allocate 1 s = Panicked \/ exists p s', src_page_allocate 1 s = Done (p, s').
Proof using PageSourceLaws0. intros Hok. by apply law_outcome. Qed.

(** No page is given up, none that was in use changes, and nothing is written
    but the bytes of the source. *)
Definition steady s s' : Prop := within s s' /\ forall b, src_bytes s b -> ld8 (src_mem s') b = ld8 (src_mem s) b.

Lemma steady_trans s1 s2 s3 : steady s1 s2 -> steady s2 s3 -> steady s1 s3.
Proof using.
  intros [W1 B1] [W2 B2]. split; [by eapply within_trans|]. intros b Hb. rewrite B2; [by apply B1|].
  destruct Hb as (a & Ha & Hb). exists a. split; [by apply W1|done].
Qed.

Lemma steady_alloc s p s' : src_ok s -> src_page_allocate 1 s = Done (p, s') -> steady s s'.
Proof using PageSourceLaws0. intros Hok E. by destruct (alloc_one hhdm s s' p Hok E) as (_ & _ & _ & _ & Hb & Wi). Qed.

(** Writing to a page that was not in use. *)
Lemma steady_write s s1 a m :
  src_ok s1 -> steady s s1 -> src_owned s1 a -> ~ src_owned s a -> changes (fun b => a <= b < a + PAGE) (src_mem s1) m ->
  steady s (src_with_mem s1 m).
Proof using PageSourceLaws0.
  intros Hok [[W1 O1] B1] Ha Hn Hc. destruct (page_write s1 a m Hok Ha Hc) as [_ Ho]. split; [split|].
  - intros R HR. destruct (W1 R HR) as [HR1 C1]. split; [by apply law_in_mem|]. rewrite law_with_mem.
    eapply changes_trans; [exact C1|]. eapply changes_mono; [|exact Hc]. intros b Hb. by apply (law_in_owned s1 R a).
  - intros x Hx. apply Ho. by apply O1.
  - intros b (x & Hx & Hb). rewrite law_with_mem, Hc; [apply B1; by exists x|].
    assert (a <> x) as Hne by (by intros ->). destruct (owned_disjoint hhdm s1 a x Hok Ha (O1 _ Hx) Hne); lia.
Qed.

(** The page of [slot] keeps its other bytes. *)
Lemma new_stack_spec s a slot :
  src_ok s -> src_owned s a -> a <= slot -> slot + 8 <= a + PAGE ->
  new_stack slot s = Panicked \/
  exists p s', new_stack slot s = Done s' /\ src_ok s' /\ ~ src_owned s p /\ src_owned s' p /\
    (forall x, src_owned s x -> src_owned s' x) /\ ld64 (src_mem s') slot = p +w PAGE /\
    (forall b, a <= b < a + PAGE -> b < slot \/ slot + 8 <= b -> ld8 (src_mem s') b = ld8 (src_mem s) b) /\
    forall s0, steady s0 s -> ~ src_owned s0 a -> steady s0 s'.
Proof using PageSourceLaws0.
  intros Hok Ha H1 H2. unfold new_stack. destruct (page_alloc s Hok) as [->|(p & s1 & E)]; [by left|right]. rewrite E.
  destruct (alloc_one hhdm s s1 p Hok E) as (Hok1 & Hn & Ho & _ & Hk & _). cbn [mbind outcome_bind].
  destruct (page_write s1 a (st64 (src_mem s1) slot (p +w PAGE)) Hok1) as [Hok2 Ho2].
  { apply Ho. by left. }
  { apply changes_st64. intros b Hb. lia. }
  eexists p, _. split; [reflexivity|]. split_and!; [exact Hok2|exact Hn| | | | |].
  - apply Ho2, Ho. by right.
  - intros x Hx. apply Ho2, Ho. by left.
  - rewrite law_with_mem, ld64_st64. apply u64_idemp.
  - intros b Hb Hs. rewrite law_with_mem, ld8_st64_other by done. apply Hk. by exists a.
  - intros s0 H0 Hn0. apply (steady_write s0 s1 a); [done|by eapply steady_trans; [|eapply steady_alloc]|apply Ho; by left|done|].
    apply changes_st64. intros b Hb. lia.
Qed.

Lemma fill_gdt_changes info m : changes (fun b => info <= b < info + off_tss) m (fill_gdt info m).
Proof using.
  intros b Hb. unfold fill_gdt, set_tss_segment, set_segment, off_null, off_kernel_code, off_kernel_data, off_user_data,
    off_user_code, off_tss_segment, off_tss in *. by read_back.
Qed.

(** The pages that are new in [s']. *)
Definition fresh_pages s s' (l : list Z) : Prop :=
  NoDup l /\ Forall (fun p => src_owned s' p /\ ~ src_owned s p) l.

Lemma gdt_create_spec s : hhdm_ok hhdm -> src_ok s ->
  gdt_create s = Panicked \/
  exists info p1 p2 p3 m0 s', gdt_create s = Done (info, s') /\ src_ok s' /\ fresh_pages s s' [p3; p2; p1; info] /\
    in_u64 (info + 200) /\ 0 <= info /\ (forall b, info <= b < info + 200 -> ld8 m0 b = 0) /\
    same_bytes (fill_gdt info m0) (src_mem s') info off_tss /\
    ld64 (src_mem s') (info + off_tss + off_ist 0) = p1 +w PAGE /\
    ld64 (src_mem s') (info + off_tss + off_rsp 0) = p2 +w PAGE /\
    ld64 (src_mem s') (info + off_tss + off_rsp 2) = p3 +w PAGE /\ steady s s'.
Proof using PageSourceLaws0.
  intros Hh Hok. unfold gdt_create. destruct (page_alloc s Hok) as [->|(info & s1 & E)]; [by left|]. rewrite E.
  destruct (alloc_one hhdm s s1 info Hok E) as (Hok1 & Hn & Ho & Hz & _ & _). cbn [mbind outcome_bind].
  assert (src_owned s1 info) as Hi by (apply Ho; by right).
  destruct (law_range s1 info Hok1 Hi) as (R1 & R2 & R3). unfold hhdm_ok in Hh.
  destruct (page_write s1 info (fill_gdt info (src_mem s1)) Hok1 Hi) as [Hok2 Ho2].
  { eapply changes_mono; [|apply fill_gdt_changes]. unfold off_tss, PAGE. intros b Hb. lia. }
  set (s2 := src_with_mem s1 _) in *. assert (src_owned s2 info) as Hi2 by (by apply Ho2).
  set (tss := info + off_tss). assert (info <= tss /\ tss + 92 <= info + PAGE) as Ht by (unfold tss, off_tss, PAGE; lia).
  unfold off_ist, off_rsp. rewrite Z.mul_0_r, !Z.add_0_r.
  destruct (new_stack_spec s2 info (tss + 36) Hok2 Hi2) as [->|(p1 & s3 & -> & Hok3 & N1 & O1 & M1 & L1 & K1 & T1)]; [lia|lia|by left|].
  cbn [mbind outcome_bind].
  destruct (new_stack_spec s3 info (tss + 4) Hok3 (M1 _ Hi2)) as [->|(p2 & s4 & -> & Hok4 & N2 & O2 & M2 & L2 & K2 & T2)]; [lia|lia|by left|].
  cbn [mbind outcome_bind].
  destruct (new_stack_spec s4 info (tss + (4 + 8 * 2)) Hok4 (M2 _ (M1 _ Hi2))) as [->|(p3 & s5 & -> & Hok5 & N3 & O3 & M3 & L3 & K3 & T3)];
    [lia|lia|by left|right].
  cbn [mbind outcome_bind]. exists info, p1, p2, p3, (src_mem s1), s5. split; [done|]. split; [done|].
  assert (forall x, src_owned s x -> src_owned s2 x) as M0 by (intros x Hx; apply Ho2, Ho; by left).
  assert (steady s s5) as HT.
  { apply T3; [|done]. apply T2; [|done]. apply T1; [|done]. apply (steady_write s s1 info); [done|by eapply steady_alloc|done|done|].
    eapply changes_mono; [|apply fill_gdt_changes]. unfold off_tss, PAGE. intros b Hb. lia. }
  clear T1 T2 T3. split; [split|split; [|split_and!]].
  - repeat (apply NoDup_cons; split; [rewrite ?elem_of_cons, elem_of_nil; naive_solver|]). constructor.
  - repeat (apply Forall_cons; split; [naive_solver|]). constructor.
  - unfold PAGE in *. lia.
  - lia.
  - intros b Hb. apply Hz. unfold PAGE. lia.
  - intros b Hb. unfold PAGE in *. rewrite K3, K2, K1 by (unfold tss in *; lia). unfold s2. by rewrite law_with_mem.
  - rewrite <- L1. apply ld64_ext. intros b Hb. rewrite K3, K2 by (unfold PAGE in *; lia). done.
  - rewrite <- L2. apply ld64_ext. intros b Hb. rewrite K3 by (unfold PAGE in *; lia). done.
  - exact L3.
  - exact HT.
Qed.
End Pages.

(** The pair of selectors of a privilege level. *)
Definition selectors (m : mem) (c : control) (level cs ss : Z) : bool :=
  code_selector m c level cs && data_selector m c level ss.

(** A memory with the bytes of the table. *)
Lemma selectors_spec m0 m info c :
  in_u64 (info + 200) -> 0 <= info -> (forall b, info <= b < info + 200 -> ld8 m0 b = 0) ->
  same_bytes (fill_gdt info m0) m info off_tss -> c_gdtr c = (ld16 m info, ld64 m (info + 2)) ->
  selectors m c 0 8 16 = true /\ selectors m c 3 35 27 = true /\ tss_selector m c 40 = true /\
  tss_base m (descriptor c 40) = info + off_tss.
Proof.
  intros Hi H0 Hz Hs Hc. destruct (fill_gdt_reads m0 info Hi H0 Hz) as (R1 & R2 & R3 & R4 & R5).
  assert (forall b, info <= b < info + off_tss -> ld8 m b = ld8 (fill_gdt info m0) b) as R by (intros; by apply Hs).
  assert (c_gdtr c = (55, info + off_null)) as Hg.
  { rewrite Hc. f_equal; [rewrite <- R1|rewrite <- R2]; apply (same_load _ _ _ _ _ _ Hs); unfold off_tss; lia. }
  unfold off_tss, off_null in *.
  assert (forall off access, (off, access) ∈ [(off_kernel_code, 0x9A); (off_kernel_data, 0x92); (off_user_data, 0xF2); (off_user_code, 0xFA)] ->
    ld8 m (info + 16 + (off - 16) + 5) = access /\ ld8 m (info + 16 + (off - 16) + 6) = 0xA0) as Ra.
  { intros off access Ho. destruct (R3 off access Ho) as [A1 A2]. assert (24 <= off <= 48) as Hoff.
    { rewrite !elem_of_cons in Ho. unfold off_kernel_code, off_kernel_data, off_user_data, off_user_code in Ho.
      destruct Ho as [[= -> ->]|[[= -> ->]|[[= -> ->]|[[= -> ->]|Ho%elem_of_nil]]]]; (done || lia). }
    replace (info + 16 + (off - 16)) with (info + off) by lia. by rewrite !R by lia. }
  destruct (Ra off_kernel_code 0x9A) as [K1 K2]; [set_solver|]. destruct (Ra off_kernel_data 0x92) as [K3 K4]; [set_solver|].
  destruct (Ra off_user_data 0xF2) as [K5 K6]; [set_solver|]. destruct (Ra off_user_code 0xFA) as [K7 K8]; [set_solver|].
  unfold off_kernel_code, off_kernel_data, off_user_data, off_user_code in *.
  change (24 - 16) with 8 in *. change (32 - 16) with 16 in *. change (40 - 16) with 24 in *. change (48 - 16) with 32 in *.
  assert (ld8 m (info + 16 + 40 + 5) = 0x89) as K9.
  { rewrite R by lia. rewrite <- R4. f_equal. unfold off_tss_segment. lia. }
  unfold selectors, code_selector, data_selector, tss_selector, in_table, descriptor, d_present, d_ordinary, d_executable,
    d_long, d_writable, d_dpl. rewrite Hg.
  cbn [fst snd]. change (Z.land 8 65528) with 8. change (Z.land 16 65528) with 16. change (Z.land 35 65528) with 32.
  change (Z.land 27 65528) with 24. change (Z.land 40 65528) with 40.
  rewrite K1, K2, K3, K5, K7, K8, K9. split_and!; [reflexivity..|].
  rewrite <- R5. unfold tss_base, off_tss_segment. rewrite !ld8_load. unfold ld16, ld32.
  replace (info + 16 + 40) with (info + 56) by lia.
  rewrite !(same_load _ _ _ _ _ _ Hs) by (unfold off_tss; lia). done.
Qed.

(** ** Gates *)

(** A gate that leads to the handler. *)
Definition gate_to (m : mem) (g handler : Z) : Prop :=
  gate_handler m g = handler /\ gate_selector m g = 8 /\ gate_ist m g = 1 /\ gate_type m g = 14 /\ gate_dpl m g = 3 /\
  gate_present m g = true.

Lemma gate_to_same m m' g h : same_bytes m m' g 16 -> gate_to m g h -> gate_to m' g h.
Proof.
  intros Hs. unfold gate_to, gate_handler, gate_selector, gate_ist, gate_type, gate_dpl, gate_present.
  rewrite !ld8_load. unfold ld16, ld32. by rewrite !(same_load _ _ _ _ _ _ Hs) by lia.
Qed.

Lemma map_vector_spec offset v handler m :
  0 <= offset -> 0 <= v < 255 -> offset + 4096 <= 18446744073709551616 -> in_u64 handler ->
  let m' := arch_interrupts_map_vector offset v handler m in
  gate_to m' (offset + v * 16) handler /\ changes (fun b => offset + v * 16 <= b < offset + v * 16 + 12) m m'.
Proof.
  intros H0 Hv Hm Hh. cbv zeta. unfold arch_interrupts_map_vector, sizeof_gate.
  rewrite (u64_small (v * 16)), (u64_small (offset + _)) by lia. set (g := offset + v * 16). split.
  - unfold gate_to, gate_handler, gate_selector, gate_ist, gate_type, gate_dpl, gate_present. split_and!; read_back; try reflexivity.
    change (256 ^ Z.of_nat 2) with 65536. change (256 ^ Z.of_nat 4) with 4294967296. by apply split_address.
  - intros b Hb. read_back. done.
Qed.

Lemma map_vectors_spec offset handlers n : forall i m,
  0 <= offset -> 0 <= i -> i + Z.of_nat n <= 255 -> offset + 4096 <= 18446744073709551616 ->
  (forall b, handlers <= b < handlers + 2040 -> ~ (offset <= b < offset + 4096)) ->
  let m' := map_vectors offset handlers i n m in
  changes (fun b => offset + i * 16 <= b < offset + (i + Z.of_nat n) * 16) m m' /\
  forall v, i <= v < i + Z.of_nat n -> gate_to m' (offset + v * 16) (ld64 m (handlers + 8 * v)).
Proof.
  induction n as [|n IH]; intros i m H0 Hi Hn Hm Hd; cbn [map_vectors].
  - split; [apply changes_refl|]. intros v Hv. lia.
  - destruct (map_vector_spec offset i (ld64 m (handlers + 8 * i)) m) as [G1 C1]; [lia|lia|lia|apply ld64_range|].
    set (m1 := arch_interrupts_map_vector _ _ _ _) in *.
    destruct (IH (i + 1) m1 H0 ltac:(lia) ltac:(lia) Hm Hd) as [C2 G2]. split.
    + eapply changes_trans; [eapply changes_mono; [|exact C1]|eapply changes_mono; [|exact C2]]; intros b Hb; cbn beta in *; lia.
    + intros v Hv. destruct (decide (v = i)) as [->|Hne].
      * eapply gate_to_same; [|exact G1]. intros b Hb. apply C2. lia.
      * rewrite <- (changes_ld64 _ _ _ _ C1); [apply G2; lia|]. intros b Hb Hx. apply (Hd b); lia.
Qed.

(** ** The interrupt table *)

Lemma interrupts_init_spec (hhdm : Z) {St} `{!PageSource St} `{!PageSourceLaws hhdm St} (s : St) (c : control) (handlers : Z) (R : Z -> Prop) :
  hhdm_ok hhdm -> src_ok s -> src_in R s -> (forall b, handlers <= b < handlers + 2048 -> ~ R b) ->
  0 <= handlers /\ handlers + 2048 <= 18446744073709551616 ->
  arch_interrupts_init handlers c s = Panicked \/
  exists limit offset c' s', arch_interrupts_init handlers c s = Done ((limit, offset), c', s') /\ src_ok s' /\
    ~ src_owned s offset /\ src_owned s' offset /\ c_idtr c' = (limit, offset) /\ c_interrupts c' = true /\
    (forall v, 0 <= v < 255 -> offset + v * 16 + 15 <= offset + limit /\
       gate_to (src_mem s') (offset + v * 16) (ld64 (src_mem s) (handlers + 8 * v))) /\
    limit = 4079 /\ steady s s' /\
    c' = arch_interrupts_enable (arch_idt_load (limit, offset) c) /\ exists s1 m, src_page_allocate 1 s = Done (offset, s1) /\ s' = src_with_mem s1 m.
Proof.
  intros Hh Hok HV Hle Hb. unfold arch_interrupts_init. destruct (page_alloc hhdm s Hok) as [->|(p & s1 & E)]; [by left|right].
  rewrite E. cbn [mbind outcome_bind]. destruct (alloc_one hhdm s s1 p Hok E) as (Hok1 & Hn & Ho & _).
  assert (src_owned s1 p) as Hp by (apply Ho; by right). destruct (law_range s1 p Hok1 Hp) as (R1 & R2 & R3).
  destruct (law_in s s1 R 1 p Hok HV ltac:(lia) ltac:(done) E) as [HV1 Hc1].
  assert (forall b, handlers <= b < handlers + 2040 -> ~ (p <= b < p + 4096)) as Hapart.
  { intros b Hx Hp4. apply (Hle b); [lia|]. by apply (law_in_owned s1 R p b). }
  unfold hhdm_ok, PAGE in *.
  destruct (map_vectors_spec p handlers 255 0 (src_mem s1)) as [Hc Hg]; [lia|lia|lia|lia|exact Hapart|].
  destruct (page_write hhdm s1 p (map_vectors p handlers 0 255 (src_mem s1)) Hok1 Hp) as [Hok2 Ho2].
  { eapply changes_mono; [|exact Hc]. intros b Hx. cbn beta in Hx. unfold PAGE. lia. }
  eexists _, p, _, _. split; [reflexivity|]. split_and!; [exact Hok2|exact Hn|by apply Ho2|done|done| |done| |done|by eexists _, _].
  - intros v Hv. split; [unfold sizeof_gate; lia|]. rewrite law_with_mem.
    rewrite <- (changes_ld64 _ _ _ (handlers + 8 * v) Hc1); [apply Hg; lia|]. intros b Hx. apply Hle. lia.
  - apply (steady_write hhdm s s1 p); [done|by eapply (steady_alloc hhdm)|done|done|].
    eapply changes_mono; [|exact Hc]. intros b Hx. cbn beta in Hx. unfold PAGE. lia.
Qed.

(** * Properties *)

(** C32. The segment table that arch_load_gdt builds gives every selector the kernel uses a
    present descriptor of the right type and privilege: those loaded by arch_gdt_load, those in
    the registers of new kernel tasks, loaded programs and forked tasks, and those that syscall
    and sysret derive from the IA32_STAR value of arch_syscall_init; the task register names the
    task state segment, whose three stacks end in fresh pages. *)
Theorem gdt_selectors_agree (hhdm table : Z) {St} `{!PageSource St} `{!PageSourceLaws hhdm St} (s : St) (c : control)
    (entry : Z) (parent : scheduler_task) (regs : arch_cpu_state_t) (cr3 rip rsp : Z) :
  hhdm_ok hhdm -> src_ok s ->
  gdt_create s = Panicked \/
  exists info s', gdt_create s = Done (info, s') /\ src_ok s' /\
    let m := src_mem s' in
    let c' := arch_syscall_init entry (arch_gdt_load m info c) in
    let kernel := kernel_state hhdm table rip rsp in
    let user := elf_state cr3 rip rsp regs in
    let child := fork_state parent regs cr3 in
    selectors m c' 0 (c_cs c') (c_ds c') = true /\ selectors m c' 0 (r_cs kernel) (r_ss kernel) = true /\
    selectors m c' 0 (syscall_cs c') (syscall_ss c') = true /\ selectors m c' 3 (sysret_cs c') (sysret_ss c') = true /\
    selectors m c' 3 (r_cs user) (r_ss user) = true /\ selectors m c' 3 (r_cs child) (r_ss child) = true /\
    tss_selector m c' (c_tr c') = true /\
    exists p1 p2 p3, fresh_pages s s' [p3; p2; p1; info] /\
      let tss := tss_base m (descriptor c' (c_tr c')) in
      ld64 m (tss + off_ist 0) = p1 +w PAGE /\ ld64 m (tss + off_rsp 0) = p2 +w PAGE /\ ld64 m (tss + off_rsp 2) = p3 +w PAGE.
Proof.
  intros Hh Hok. destruct (gdt_create_spec hhdm s Hh Hok) as [->|(info & p1 & p2 & p3 & m0 & s' & E & Hok' & Hf & Hi & H0 & Hz & Hs & L1 & L2 & L3 & _)];
    [by left|right]. exists info, s'. split; [done|]. split; [done|]. cbv zeta.
  set (c' := arch_syscall_init entry _).
  destruct (selectors_spec m0 (src_mem s') info c' Hi H0 Hz Hs eq_refl) as (S1 & S2 & S3 & S4).
  assert (star c' = 0x0013000800000000) as Hstar.
  { unfold star, rdmsr, c', arch_syscall_init, wrmsr. cbn [c_msrs]. unfold IA32_FMASK, IA32_LSTAR.
    rewrite !lookup_insert_ne, lookup_insert_eq by done. reflexivity. }
  unfold syscall_cs, syscall_ss, sysret_cs, sysret_ss. rewrite Hstar. change (c_cs c') with 8. change (c_ds c') with 16.
  change (c_tr c') with 40. split_and!; [exact S1|exact S1|exact S1|exact S2|exact S2|exact S2|exact S3|].
  exists p1, p2, p3. rewrite S4. done.
Qed.

Lemma gdt_selectors_agree_witness : exists info s',
  @gdt_create _ demo_source table_state = Done (info, s') /\
  let m := @src_mem _ demo_source s' in
  let c' := arch_syscall_init 0x1000 (arch_gdt_load m info (Control (0, 0) (0, 0) 0 0 0 false ∅)) in
  selectors m c' 3 (sysret_cs c') (sysret_ss c') = true.
Proof.
  assert (is_done (@gdt_create _ demo_source table_state) = true) as Hd by (vm_compute; reflexivity).
  destruct (@gdt_selectors_agree 0 0 _ demo_source demo_source_laws table_state (Control (0, 0) (0, 0) 0 0 0 false ∅) 0x1000
    zero_task zero_state 0 0 0 hhdm_ok_0 table_state_wf) as [Hp|(info & s' & E & _ & _ & _ & _ & H & _)].
  - rewrite Hp in Hd. discriminate Hd.
  - exists info, s'. split; [exact E|exact H].
Defined.

(** arch_interrupts_init runs out of pages or loads a table in a fresh page in which each vector
    below 255 leads to its entry of arch_isr_handlers through an interrupt gate to the kernel
    code segment with the first interrupt stack; vector 255 is outside the limit. *)
Theorem idt_dispatches (hhdm : Z) {St} `{!PageSource St} `{!PageSourceLaws hhdm St} (s : St) (c : control) (handlers : Z) (R : Z -> Prop) :
  hhdm_ok hhdm -> src_ok s -> src_in R s -> (forall b, handlers <= b < handlers + 2048 -> ~ R b) ->
  0 <= handlers /\ handlers + 2048 <= 18446744073709551616 ->
  arch_interrupts_init handlers c s = Panicked \/
  exists limit offset c' s', arch_interrupts_init handlers c s = Done ((limit, offset), c', s') /\ src_ok s' /\
    ~ src_owned s offset /\ src_owned s' offset /\ c_idtr c' = (limit, offset) /\ c_interrupts c' = true /\
    (forall v, 0 <= v < 255 -> offset + v * 16 + 15 <= offset + limit /\
       gate_to (src_mem s') (offset + v * 16) (ld64 (src_mem s) (handlers + 8 * v))) /\
    offset + limit < offset + 255 * 16.
Proof.
  intros Hh Hok HV Hle Hb.
  destruct (interrupts_init_spec hhdm s c handlers R Hh Hok HV Hle Hb) as [->|(limit & offset & c' & s' & E & Hok' & Hn & Ho & Hi & Hf & Hg & Hl & _)]; [by left|right].
  exists limit, offset, c', s'. split_and!; try done. lia.
Qed.

Lemma idt_dispatches_witness : exists limit offset c' s',
  @arch_interrupts_init _ demo_source 0x100000 (Control (0, 0) (0, 0) 0 0 0 false ∅) table_state = Done ((limit, offset), c', s') /\
  gate_to (@src_mem _ demo_source s') (offset + 14 * 16) (ld64 (@src_mem _ demo_source table_state) (0x100000 + 8 * 14)).
Proof.
  assert (is_done (@arch_interrupts_init _ demo_source 0x100000 (Control (0, 0) (0, 0) 0 0 0 false ∅) table_state) = true) as Hd
    by (vm_compute; reflexivity).
  destruct (@idt_dispatches 0 _ demo_source demo_source_laws table_state (Control (0, 0) (0, 0) 0 0 0 false ∅) 0x100000 (fun b => b < 0x100000)
    hhdm_ok_0 table_state_wf) as [Hp|(limit & offset & c' & s' & E & _ & _ & _ & _ & _ & H & _)].
  - constructor; [|constructor]. apply pool_bytes_below. unfold pool_end, table_pool. simpl. unfold PAGE. lia.
  - lia.
  - lia.
  - rewrite Hp in Hd. discriminate Hd.
  - exists limit, offset, c', s'. split; [exact E|]. destruct (H 14) as [_ G]; [lia|exact G].
Defined.
