(* ===== verification/Interrupts.v ===== *)
(** Exceptions and interrupts: [arch_isr_handler] of [arch/x86_64/idt/idt.c], to
    which the entry points of [idt.asm] pass the saved registers and the
    vector. *)

From S2P Require Import Prelude Memory Libc Spinlock PageAllocator PageAllocatorSpec PageTable AddressSpace BlockAllocator BlockAllocatorSpec Paths KernelHeap Scheduler SchedulerSpec SchedulerProps Vfs VfsSpec Syscalls SyscallsSpec Fork.

#[local] Existing Instance demo_source.
#[local] Existing Instance demo_source_laws.

(** The interrupted code continues, or the processor stops for ever. *)
Inductive resume := Resume | Halted.

Definition VECTOR_NMI : Z := 0x2.
Definition VECTOR_DOUBLE_FAULT : Z := 0x8.
Definition VECTOR_PAGE_FAULT : Z := 0xE.

(** A new page at the page of [cr2]. *)
Definition grow_stack {St : Type} `{!PageSource St} (kernel_hhdm_offset page_table cr2 : Z) (s : St) : outcome St :=
  '(page, s) ← src_page_allocate 1 s;
  arch_table_manager_map kernel_hhdm_offset page_table (Z.land cr2 (-4096)) (page -w kernel_hhdm_offset)
    (Z.lor TABLE_ENTRY_USER TABLE_ENTRY_READ_WRITE) s.

Section Handler.
Context (kernel_hhdm_offset : Z) {H : Type} `{!KernelHeap H}.
Implicit Types s : sched H.

(** [cr2 >= 0x1000 && cr2 < task->virtual_stack_top]. *)
Definition in_stack (cr2 task : Z) s : outcome bool :=
  if cr2 <? 0x1000 then Done false else
  t ← deref (sc_tasks s !! task);
  Done (cr2 <? t_virtual_stack_top t).

Definition page_fault (cr2 : Z) (state : arch_cpu_state_t) s : outcome (resume * sched H) :=
  '(task, s) ← arch_get_task_context s;
  if Z.land (r_cs state) 3 =? 0 then Panicked else
  stack ← in_stack cr2 task s;
  if negb stack then Panicked else
  t ← deref (sc_tasks s !! task);
  h ← grow_stack kernel_hhdm_offset (r_cr3 (t_state t) +w kernel_hhdm_offset) cr2 (sc_heap s);
  Done (Resume, with_heap s h).

Definition arch_isr_handler (cr2 : Z) (state : arch_cpu_state_t) (interrupt_number : Z) s : outcome (resume * sched H) :=
  if (interrupt_number =? VECTOR_NMI) || (interrupt_number =? VECTOR_DOUBLE_FAULT) then Done (Halted, s)
  else if interrupt_number <? 0x20 then
    if interrupt_number =? VECTOR_PAGE_FAULT then page_fault cr2 state s else Panicked
  else Done (Resume, s).

(** The fault of a running task. *)
Lemma page_fault_spec s k t p cx cr2 state :
  calling s k t p cx ->
  arch_isr_handler cr2 state VECTOR_PAGE_FAULT s =
  if negb (Z.land (r_cs state) 3 =? 0) && (0x1000 <=? cr2) && (cr2 <? t_virtual_stack_top t) then
    h ← grow_stack kernel_hhdm_offset (r_cr3 (t_state t) +w kernel_hhdm_offset) cr2 (sc_heap s);
    Done (Resume, with_heap (with_gs s k p) h)
  else Panicked.
Proof using.
  intros [Hoc Ht H0 Ha Hid]. change (arch_isr_handler cr2 state VECTOR_PAGE_FAULT s) with (page_fault cr2 state s).
  unfold page_fault. rewrite (get_task_context_spec _ p k cx Hoc).
  2:{ destruct Hoc as [[[-> _]|[-> _]] _ Hp _ _]; done. }
  cbn [mbind outcome_bind]. cbn beta iota. destruct (Z.land (r_cs state) 3 =? 0); cbn [negb andb]; [done|].
  unfold in_stack. rewrite Z.ltb_antisym. destruct (0x1000 <=? cr2); cbn [negb andb]; [|done].
  change (sc_tasks (with_gs s k p)) with (sc_tasks s). rewrite Ht. cbn [deref mbind outcome_bind].
  destruct (cr2 <? t_virtual_stack_top t); done.
Qed.
End Handler.

Section Stack.
Context (hhdm : Z) {St : Type} `{!PageSource St} `{!PageSourceLaws hhdm St} (Hh : hhdm_ok hhdm).
Implicit Types s : St.

Lemma page_of_cr2 cr2 : 0 <= cr2 -> page_number (Z.land cr2 (-4096)) = page_number cr2.
Proof using.
  intros Hc. assert (Z.land cr2 (-4096) = cr2 / 4096 * 4096) as ->.
  { change (-4096) with (Z.lnot (Z.ones 12)). rewrite <- Z.ldiff_land, Z.ldiff_ones_r by lia.
    rewrite Z.shiftl_mul_pow2, Z.shiftr_div_pow2 by lia. done. }
  unfold page_number, PAGE. zlia.
Qed.

Lemma grow_stack_spec s table t D cr2 :
  address_space hhdm s table t D -> 0 <= cr2 ->
  grow_stack hhdm table cr2 s = Panicked \/
  exists p s', grow_stack hhdm table cr2 s = Done s' /\ ~ src_owned s p /\
    address_space hhdm s' table (overlay (page_number cr2) (p -w hhdm) 1 t) (p :: D) /\ pages_kept D s s' /\
    forall b, p <= b < p + PAGE -> ld8 (src_mem s') b = 0.
Proof using Hh PageSourceLaws0.
  intros Hs Hc. unfold grow_stack.
  destruct (law_outcome s 1 (space_ok _ _ _ _ _ Hs)) as [->|(p & s1 & E1)]; [lia|done|by left|]. rewrite E1.
  cbn [mbind outcome_bind].
  destruct (space_alloc hhdm s table t D p s1 Hh Hs E1) as (Hs1 & Hn & Hf & Hp & Hz & K1 & O1).
  destruct (space_map hhdm s1 table t (p :: D) (Z.land cr2 (-4096)) (p -w hhdm) (Z.lor TABLE_ENTRY_USER TABLE_ENTRY_READ_WRITE) Hh Hf)
    as [E2|(s2 & E2 & Hs2 & K2 & O2)]; [done|exact Hs1|by left|right].
  rewrite page_of_cr2 in Hs2 by done. exists p, s2. split_and!; [done|done|done| |].
  - eapply pages_kept_trans; [exact K1|]. eapply pages_kept_sub; [|exact K2]. intros a Ha. by apply list_elem_of_further.
  - intros b Hb. rewrite (K2 p) by (done || apply list_elem_of_here). by apply Hz.
Qed.
End Stack.

(** * Properties *)

(** C33. Growing the stack at a page fault runs out of pages or maps exactly the page of the
    faulting address to a fresh page of zeros and keeps the bytes of all other pages, whether or
    not the page was mapped before. *)
Theorem stack_fault_maps_page (hhdm : Z) {St} `{!PageSource St} `{!PageSourceLaws hhdm St}
    (s : St) (table cr2 : Z) (t : Z -> Z) (D : list Z) :
  hhdm_ok hhdm -> address_space hhdm s table t D -> 0 <= cr2 ->
  grow_stack hhdm table cr2 s = Panicked \/
  exists p s', grow_stack hhdm table cr2 s = Done s' /\ ~ src_owned s p /\
    (forall va, arch_table_manager_translate_to_physical hhdm table va s' =
       if decide (page_number va = page_number cr2) then p -w hhdm
       else arch_table_manager_translate_to_physical hhdm table va s) /\
    (forall b, p <= b < p + PAGE -> ld8 (src_mem s') b = 0) /\ pages_kept D s s'.
Proof.
  intros Hh Hs Hc. destruct (grow_stack_spec hhdm Hh s table t D cr2 Hs Hc) as [->|(p & s' & E & Hn & Hs' & K & Hz)]; [by left|right].
  exists p, s'. split_and!; [done|done| |done|done]. intros va.
  rewrite (sp_view _ _ _ _ _ Hs'), (sp_view _ _ _ _ _ Hs). unfold overlay. case_decide as Hd; repeat btest; cbn [andb]; (done || lia).
Qed.

(** A page of the stack is mapped, and faults again. *)
Definition demo_fault : outcome (Z * Z * pa_state) :=
  '(table, s) ← arch_table_manager_new table_state;
  s ← grow_stack 0 table 0x5008 s;
  let frame := arch_table_manager_translate_to_physical 0 table 0x5008 s in
  s ← grow_stack 0 table 0x5008 s;
  Done (table, frame, s).

Lemma stack_fault_maps_page_witness :
  exists table s1 s2 p q, @grow_stack _ demo_source 0 table 0x5008 s1 = Done s2 /\
    @arch_table_manager_translate_to_physical 0 _ demo_source table 0x5000 s1 = q -w 0 /\
    @src_owned _ demo_source s1 q /\ ~ @src_owned _ demo_source s1 p /\
    @arch_table_manager_translate_to_physical 0 _ demo_source table 0x5000 s2 = p -w 0.
Proof.
  assert (is_done demo_fault = true) as Hd by (vm_compute; reflexivity). unfold demo_fault in Hd.
  apply is_done_bind in Hd as ([table s] & E & Hd). apply is_done_bind in Hd as (s1 & E1 & Hd). cbv zeta in Hd.
  apply is_done_bind in Hd as (s2 & E2 & _).
  destruct (@space_new 0 _ demo_source demo_source_laws table_state [] table s hhdm_ok_0 table_state_wf) as [H1 _];
    [by intros a Ha%elem_of_nil|exact E|].
  destruct (@grow_stack_spec 0 _ demo_source demo_source_laws hhdm_ok_0 s table (fun _ => 0) [] 0x5008 H1 ltac:(lia))
    as [Hp|(q & s1' & E1' & _ & H2 & _ & _)]; [rewrite Hp in E1; discriminate E1|].
  rewrite E1' in E1. injection E1 as ->.
  destruct (@stack_fault_maps_page 0 _ demo_source demo_source_laws s1 table 0x5008 _ [q] hhdm_ok_0 H2 ltac:(lia))
    as [Hp|(p & s2' & E2' & Hn & Ht & _)]; [rewrite Hp in E2; discriminate E2|].
  rewrite E2' in E2. injection E2 as ->.
  exists table, s1, s2, p, q. split; [exact E2'|]. split; [|split; [|split; [exact Hn|]]].
  - rewrite (sp_view _ _ _ _ _ H2). apply Z.add_0_r.
  - eapply space_owned; [exact H2|apply list_elem_of_here].
  - rewrite Ht. reflexivity.
Defined.

(** C34. sys_fork leaves the end of the stack of the child at 0, so every page fault of the
    child, also one that would grow the stack of its parent, panics. *)
Theorem forked_task_stack_fault (hhdm table : Z) {H} `{!KernelHeap H} `{!KernelHeapLaws H}
    (filesystems : Z -> option (vfs_fs_ops (vfs_state H))) (s : sched (vfs_state H)) (C : list Z) (Q : Z -> list Z)
    (k p : Z) (t : scheduler_task) (cx : arch_cpu_context_t) (n : list Z) (state : arch_cpu_state_t)
    (pid : Z) (s' : sched (vfs_state H)) :
  calling s k t p cx -> sched_wf s C Q -> C <> [] -> kh_fits [Z.of_nat (length n)] (sc_heap s) ->
  named (sc_heap s) (t_name t) n -> 0 <= last_id s < 2147483647 ->
  (forall c, c ∈ C -> Z.of_nat (length (Q c)) + 1 < 9223372036854775808) ->
  sys_fork hhdm table filesystems state s = Done (pid, s') ->
  exists child tc, sc_tasks s' !! child = Some tc /\ t_id tc = pid /\ t_virtual_stack_top tc = 0 /\
    forall (s2 : sched (vfs_state H)) t2 p2 cx2 cr2 regs,
      calling s2 child t2 p2 cx2 -> t_virtual_stack_top t2 = t_virtual_stack_top tc ->
      arch_isr_handler hhdm cr2 regs VECTOR_PAGE_FAULT s2 = Panicked.
Proof.
  intros Hc W HC Hfit Hnm Hid Hlen E. unfold sys_fork in E.
  destruct (caller_spec _ _ _ _ _ Hc) as [Ec Hc1]. rewrite Ec in E. cbn [mbind outcome_bind] in E. cbn beta iota in E.
  assert (sched_wf (with_gs s k p) C Q) as W1 by (by destruct W; split).
  destruct (create_spec (with_gs s k p) C Q p k cx (t_name t) n W1 HC (ca_cpu _ _ _ _ _ Hc1) Hfit Hnm Hid Hlen)
    as [E1|(x & s1 & c & stack & copy & fds & E1 & _ & _ & _ & _ & _ & Hx & _)];
    rewrite E1 in E; cbn [mbind outcome_bind] in E; [done|]. cbn beta iota in E.
  apply (fork_tail hhdm table filesystems s1 x _ t state pid s' Hx) in E as (child_pt & fds' & Ep & _ & _ & Et).
  change (last_id (with_gs s k p)) with (last_id s) in *. simpl in Ep. rewrite s64_small in Ep by lia.
  eexists x, _. rewrite Et. split; [apply lookup_insert_eq|]. split; [simpl; lia|]. split; [done|].
  intros s2 t2 p2 cx2 cr2 regs Hc2 Htop. rewrite (page_fault_spec hhdm s2 x t2 p2 cx2 cr2 regs Hc2), Htop.
  change (t_virtual_stack_top _) with 0. destruct (Z.leb_spec 0x1000 cr2); [|by rewrite andb_false_r].
  rewrite (proj2 (Z.ltb_ge cr2 0)) by lia. by rewrite andb_false_r.
Qed.

Lemma forked_task_stack_fault_witness :
  exists table s pid s', @sys_fork 0 table _ (ba_heap 0 table) (fun _ => None) demo_registers s = Done (pid, s') /\
    exists child tc, sc_tasks s' !! child = Some tc /\ t_id tc = pid /\ t_virtual_stack_top tc = 0.
Proof.
  assert (is_done ('(table, h) ← demo_boot; '(p, name, s) ← demo_install table h;
    @sys_fork 0 table _ (ba_heap 0 table) (fun _ => None) demo_registers (demo_fork p name s)) = true) as Hd
    by (vm_compute; reflexivity).
  destruct demo_sched as (table & h & p & name & s & n & x & t & cx & Eb & Ei & W & Ht & _ & _ & Hoc & _ & Hs & _ & Hnm).
  rewrite Eb in Hd. cbn [mbind outcome_bind] in Hd. rewrite Ei in Hd. cbn [mbind outcome_bind] in Hd.
  apply is_done_inv in Hd as ([pid s'] & E). destruct (demo_small_inv s 2 Hs ltac:(lia)) as (H0 & Hf1 & Hf2).
  destruct (@demo_fork_ready (ba_heap 0 table) s n x t p cx name W Ht Hoc) as [W1 Hc].
  destruct (@forked_task_stack_fault 0 table _ (ba_heap 0 table) (ba_heap_laws 0 table hhdm_ok_0) (fun _ => None) (demo_fork p name s) [n]
    _ x p (demo_forker name t) cx demo_name demo_registers pid s' Hc W1) as (child & tc & H1 & H2 & H3 & _).
  - discriminate.
  - split; [exact Hf1|exact Hf2].
  - exact (demo_fork_named table s p name Hnm).
  - change (last_id (demo_fork p name s)) with (last_id s). rewrite H0. lia.
  - intros d Hd. unfold add_queue. case_decide; simpl; lia.
  - exact E.
  - exists table, (demo_fork p name s), pid, s'. split; [exact E|]. exists child, tc. split; [exact H1|]. split; [exact H2|exact H3].
Defined.
