(* ===== verification/Timers.v ===== *)
(** The interrupt controller and the timers: [arch/x86_64/xapic/xapic.c] and [.h],
    [arch/x86_64/timers/hpet.c], [tsc.c] and [xapic.c], and
    [devices/timers/acpi_pm/pm.c].

    Device registers, ports, the time-stamp counter and [cpuid] are the class
    [Platform]: a read may change the platform, which is how time passes.  A
    waiting loop has the number of its polls as fuel. *)

From S2P Require Import Prelude Memory Libc Spinlock PageAllocator PageAllocatorSpec PageTable AddressSpace BlockAllocator BlockAllocatorSpec Paths KernelHeap Scheduler SchedulerSpec SchedulerProps Vfs VfsSpec Syscalls SyscallsSpec Fork Elf Clock DeviceManager Acpi Descriptors.

#[local] Existing Instance demo_source.
#[local] Existing Instance demo_source_laws.

Class Platform (P : Type) := {
  mmio_read32 : Z -> P -> Z * P;
  mmio_write32 : Z -> Z -> P -> P;
  mmio_read64 : Z -> P -> Z * P;
  mmio_write64 : Z -> Z -> P -> P;
  port_read32 : Z -> P -> Z * P;
  port_write8 : Z -> Z -> P -> P;
  rdtsc : P -> Z * P;
  cpuid_eax : Z -> P -> Z
}.

(** * Registers *)

Definition MSR_APIC_BASE : Z := 0x1B.
Definition XAPIC_REG_ID : Z := 0x20.
Definition XAPIC_REG_SIV : Z := 0xF0.
Definition XAPIC_REG_EOI : Z := 0xB0.
Definition XAPIC_REG_TPR : Z := 0x80.
Definition XAPIC_REG_DFR : Z := 0xE0.
Definition XAPIC_REG_LDR : Z := 0xD0.
Definition XAPIC_REG_ICR_LOW : Z := 0x300.
Definition XAPIC_REG_ICR_HIGH : Z := 0x310.
Definition XAPIC_REG_TIMER_DIVISOR : Z := 0x3E0.
Definition XAPIC_REG_TIMER_INIT_COUNT : Z := 0x380.
Definition XAPIC_REG_TIMER_CURRENT_COUNT : Z := 0x390.
Definition XAPIC_REG_LVT_TIMER : Z := 0x320.
Definition XAPIC_REG_LVT0 : Z := 0x350.
Definition XAPIC_REG_LVT1 : Z := 0x360.
Definition XAPIC_BASE : Z := 0xFEE00000.

Definition HPET_OFFSET_GENERAL_CAPABILITIES : Z := 0.
Definition HPET_OFFSET_GENERAL_CONFIGURATION : Z := 0x10.
Definition HPET_OFFSET_MAIN_COUNTER : Z := 0xF0.
Definition HPET_OFFSET_TIMER_CONFIGURATION_CAPABILITY (n : Z) : Z := 0x100 + 0x20 * n.
Definition HPET_OFFSET_TIMER_COMPARATOR (n : Z) : Z := 0x108 + 0x20 * n.

Definition ACPI_ADDRESS_SPACE_SYSTEM_MEMORY : Z := 0.
Definition ACPI_ADDRESS_SPACE_I_O : Z := 1.

Definition SCHEDULER_DESIRED_FREQUENCY : Z := 100.

(** The fields of [acpi_hpet_t] and [acpi_fadt_t] that are read. *)
Definition hpet_address_space (m : mem) (h : Z) : Z := ld8 m (h + 40).
Definition hpet_address (m : mem) (h : Z) : Z := ld64 m (h + 44).
Definition fadt_PMTimer (m : mem) (f : Z) : Z := ld32 m (f + 76).
Definition fadt_PMTimerLen (m : mem) (f : Z) : Z := ld8 m (f + 91).
Definition fadt_PMTimer64_space (m : mem) (f : Z) : Z := ld8 m (f + 208).
Definition fadt_PMTimer64_address (m : mem) (f : Z) : Z := ld64 m (f + 212).

(** * State *)

(** The globals of the files; [tm_src] is the memory with its pages. *)
Record timers (P St : Type) := Timers {
  tm_hw : P;
  tm_src : St;
  tm_control : control;
  tm_clock : clock_state;
  arch_hpet_header : Z;
  arch_hpet_ticks_to_nanoseconds : Z;
  arch_tsc_offset : Z;
  arch_tsc_ticks_per_second : Z;
  ticks_per_scheduling_burst : Z;
  xapic_vector : Z;
  interrupts_vector_base : Z
}.
Arguments Timers {P St}.
Arguments tm_hw {P St}.
Arguments tm_src {P St}.
Arguments tm_control {P St}.
Arguments tm_clock {P St}.
Arguments arch_hpet_header {P St}.
Arguments arch_hpet_ticks_to_nanoseconds {P St}.
Arguments arch_tsc_offset {P St}.
Arguments arch_tsc_ticks_per_second {P St}.
Arguments ticks_per_scheduling_burst {P St}.
Arguments xapic_vector {P St}.
Arguments interrupts_vector_base {P St}.

(** [while (read() < target) arch_hint_spinlock();]. *)
Fixpoint wait_until {S : Type} (read : S -> outcome (Z * S)) (target : Z) (polls : nat) (s : S) : outcome S :=
  '(now, s) ← read s;
  if target <=? now then Done s else
  match polls with
  | O => Timeout
  | Datatypes.S polls' => wait_until read target polls' s
  end.

Section Model.
Context (kernel_hhdm_offset arch_bootstrap_page_table : Z) {P : Type} `{!Platform P} {St : Type} `{!PageSource St}.
Context (polls : nat).
Implicit Types s : timers P St.

Definition set_hw s (p : P) : timers P St :=
  Timers p (tm_src s) (tm_control s) (tm_clock s) (arch_hpet_header s) (arch_hpet_ticks_to_nanoseconds s) (arch_tsc_offset s)
    (arch_tsc_ticks_per_second s) (ticks_per_scheduling_burst s) (xapic_vector s) (interrupts_vector_base s).
Definition set_src s (x : St) : timers P St :=
  Timers (tm_hw s) x (tm_control s) (tm_clock s) (arch_hpet_header s) (arch_hpet_ticks_to_nanoseconds s) (arch_tsc_offset s)
    (arch_tsc_ticks_per_second s) (ticks_per_scheduling_burst s) (xapic_vector s) (interrupts_vector_base s).
Definition set_control s (c : control) : timers P St :=
  Timers (tm_hw s) (tm_src s) c (tm_clock s) (arch_hpet_header s) (arch_hpet_ticks_to_nanoseconds s) (arch_tsc_offset s)
    (arch_tsc_ticks_per_second s) (ticks_per_scheduling_burst s) (xapic_vector s) (interrupts_vector_base s).
Definition set_clock s (c : clock_state) : timers P St :=
  Timers (tm_hw s) (tm_src s) (tm_control s) c (arch_hpet_header s) (arch_hpet_ticks_to_nanoseconds s) (arch_tsc_offset s)
    (arch_tsc_ticks_per_second s) (ticks_per_scheduling_burst s) (xapic_vector s) (interrupts_vector_base s).
Definition set_hpet s (header ticks : Z) : timers P St :=
  Timers (tm_hw s) (tm_src s) (tm_control s) (tm_clock s) header ticks (arch_tsc_offset s)
    (arch_tsc_ticks_per_second s) (ticks_per_scheduling_burst s) (xapic_vector s) (interrupts_vector_base s).
Definition set_tsc s (offset ticks : Z) : timers P St :=
  Timers (tm_hw s) (tm_src s) (tm_control s) (tm_clock s) (arch_hpet_header s) (arch_hpet_ticks_to_nanoseconds s) offset
    ticks (ticks_per_scheduling_burst s) (xapic_vector s) (interrupts_vector_base s).
Definition set_xapic s (burst vector base : Z) : timers P St :=
  Timers (tm_hw s) (tm_src s) (tm_control s) (tm_clock s) (arch_hpet_header s) (arch_hpet_ticks_to_nanoseconds s) (arch_tsc_offset s)
    (arch_tsc_ticks_per_second s) burst vector base.

Definition tm_mem s : mem := src_mem (tm_src s).

(** ** The interrupt controller *)

Definition arch_xapic_write (offset value : Z) s : timers P St :=
  set_hw s (mmio_write32 (XAPIC_BASE +w offset +w kernel_hhdm_offset) (u32 value) (tm_hw s)).

Definition arch_xapic_read (offset : Z) s : Z * timers P St :=
  let '(v, p) := mmio_read32 (XAPIC_BASE +w offset +w kernel_hhdm_offset) (tm_hw s) in (u32 v, set_hw s p).

Definition arch_xapic_eoi s : timers P St := arch_xapic_write XAPIC_REG_EOI 0 s.

Definition arch_get_id s : Z * timers P St :=
  let '(v, s) := arch_xapic_read XAPIC_REG_ID s in (Z.shiftr v 24, s).

Definition arch_is_bsp (arch_bsp_id : Z) s : bool * timers P St :=
  let '(id, s) := arch_get_id s in (id =? arch_bsp_id, s).

(** The registers; the result is what the context of the processor gets. *)
Definition arch_xapic_init (arch_bsp_id : Z) s : outcome (bool * Z * timers P St) :=
  if negb (Z.land (rdmsr MSR_APIC_BASE (tm_control s)) 0xFFFFF000 =? XAPIC_BASE) then Panicked else
  let s := set_hw s (port_write8 0x21 0xFF (tm_hw s)) in
  let s := set_hw s (port_write8 0xA1 0xFF (tm_hw s)) in
  x ← arch_table_manager_map kernel_hhdm_offset arch_bootstrap_page_table (XAPIC_BASE +w kernel_hhdm_offset) XAPIC_BASE
        (Z.lor TABLE_ENTRY_READ_WRITE TABLE_ENTRY_CACHE_DISABLE) (tm_src s);
  let s := set_src s x in
  let s := arch_xapic_write XAPIC_REG_DFR 0xFF000000 s in
  let s := arch_xapic_write XAPIC_REG_LDR 0x01000000 s in
  let s := arch_xapic_write XAPIC_REG_LVT0 0x00010000 s in
  let s := arch_xapic_write XAPIC_REG_LVT1 0x00010000 s in
  let s := arch_xapic_write XAPIC_REG_TPR 0 s in
  let base := Z.lor (rdmsr MSR_APIC_BASE (tm_control s)) 0x800 in
  let '(bsp, s) := arch_is_bsp arch_bsp_id s in
  let base := if bsp then Z.lor base 0x100 else base in
  let s := set_control s (wrmsr MSR_APIC_BASE base (tm_control s)) in
  let s := arch_xapic_write XAPIC_REG_SIV 0x120 s in
  let '(_, s) := arch_get_id s in
  let '(is_bsp, s) := arch_is_bsp arch_bsp_id s in
  let '(cpu_id, s) := arch_get_id s in
  Done (is_bsp, cpu_id, s).

(** An interrupt that cannot be masked for all other processors. *)
Definition arch_kill_ap (arch_aps_online : bool) s : timers P St :=
  if negb arch_aps_online then s else
  let icr := Z.lor (Z.shiftl 4 8) (Z.shiftl 3 18) in
  let s := arch_xapic_write XAPIC_REG_ICR_LOW (Z.land icr 0xFFFFFFFF) s in
  arch_xapic_write XAPIC_REG_ICR_HIGH (Z.land (Z.shiftr icr 32) 0xFFFFFFFF) s.

(** ** The event timer *)

Definition arch_hpet_write (offset data : Z) s : timers P St :=
  set_hw s (mmio_write64 (kernel_hhdm_offset +w hpet_address (tm_mem s) (arch_hpet_header s) +w offset) data (tm_hw s)).

Definition arch_hpet_read (offset : Z) s : Z * timers P St :=
  let '(v, p) := mmio_read64 (kernel_hhdm_offset +w hpet_address (tm_mem s) (arch_hpet_header s) +w offset) (tm_hw s) in
  (u64 v, set_hw s p).

Definition arch_hpet_read_nanoseconds s : outcome (Z * timers P St) :=
  let '(v, s) := arch_hpet_read HPET_OFFSET_MAIN_COUNTER s in Done (v *w arch_hpet_ticks_to_nanoseconds s, s).

Definition arch_hpet_sleep_nanoseconds (nanos : Z) s : outcome (timers P St) :=
  '(now, s) ← arch_hpet_read_nanoseconds s;
  wait_until arch_hpet_read_nanoseconds (now +w nanos) polls s.

(** ** The time-stamp counter *)

Definition arch_tsc_read_nanoseconds s : outcome (Z * timers P St) :=
  let '(v, p) := rdtsc (tm_hw s) in
  let per_nanosecond := arch_tsc_ticks_per_second s / 1000000000 in
  if per_nanosecond =? 0 then Undef
  else Done ((v -w arch_tsc_offset s) / per_nanosecond, set_hw s p).

Definition arch_tsc_sleep_nanoseconds (nanoseconds : Z) s : outcome (timers P St) :=
  '(now, s) ← arch_tsc_read_nanoseconds s;
  wait_until arch_tsc_read_nanoseconds (now +w nanoseconds) polls s.

Definition arch_tsc_reset s : timers P St :=
  let '(v, p) := rdtsc (tm_hw s) in set_tsc (set_hw s p) v (arch_tsc_ticks_per_second s).

(** ** Calibration *)

(** The addresses of the functions and the names of the time sources. *)
Context (hpet_name tsc_name xapic_name hpet_read_at hpet_sleep_at tsc_read_at tsc_sleep_at one_shot_at interrupt_now_at : Z).

(** [clock_system_timer.sleep_nanoseconds(nanos)]. *)
Definition clock_sleep (nanos : Z) s : outcome (timers P St) :=
  let f := sleep_nanoseconds (clock_system_timer (tm_clock s)) in
  if f =? hpet_sleep_at then arch_hpet_sleep_nanoseconds nanos s
  else if f =? tsc_sleep_at then arch_tsc_sleep_nanoseconds nanos s
  else Undef.

Definition register (t : clock_time_source_t) s : timers P St := set_clock s (clock_register_time_source t (tm_clock s)).

(** [HPET] is the string of that signature. *)
Definition arch_hpet_init (a : acpi) (HPET : Z) s : outcome (timers P St) :=
  let header := acpi_get_table kernel_hhdm_offset (tm_mem s) a HPET in
  let s := set_hpet s header (arch_hpet_ticks_to_nanoseconds s) in
  if header =? 0 then Done s else
  if negb (hpet_address_space (tm_mem s) header =? ACPI_ADDRESS_SPACE_SYSTEM_MEMORY) then Done s else
  let address := hpet_address (tm_mem s) header in
  x ← arch_table_manager_map kernel_hhdm_offset arch_bootstrap_page_table (address +w kernel_hhdm_offset) address
        (Z.lor TABLE_ENTRY_READ_WRITE TABLE_ENTRY_CACHE_DISABLE) (tm_src s);
  let s := set_src s x in
  let '(capabilities, s) := arch_hpet_read HPET_OFFSET_GENERAL_CAPABILITIES s in
  let ticks_to_femtoseconds := u32 (Z.shiftr capabilities 32) in
  if ticks_to_femtoseconds =? 0 then Undef else
  let ticks_per_second := u32 (1000000000000000 / ticks_to_femtoseconds) in
  let s := set_hpet s header (ticks_to_femtoseconds / 1000000) in
  let s := register (TimeSource hpet_name true ticks_per_second hpet_read_at hpet_sleep_at false 0 0) s in
  let s := arch_hpet_write HPET_OFFSET_MAIN_COUNTER 0 s in
  let s := arch_hpet_write (HPET_OFFSET_TIMER_CONFIGURATION_CAPABILITY 0) (Z.lor (Z.shiftl 1 3) (Z.shiftl 1 6)) s in
  let s := arch_hpet_write (HPET_OFFSET_TIMER_COMPARATOR 0) 0 s in
  Done (arch_hpet_write HPET_OFFSET_GENERAL_CONFIGURATION 1 s).

(** The family and the model of the processor, as they are computed. *)
Definition constant_tsc (eax : Z) : bool :=
  let family := Z.land (Z.shiftr eax 8) 0xF in
  let model := Z.land (Z.shiftr eax 4) 0xF in
  let model := if 6 <=? family then u32 (Z.shiftl (Z.shiftr eax 16) 4) else model in
  let family := if family =? 15 then u32 (family + Z.shiftr eax 20) else family in
  (7 <=? family) || ((family =? 6) && (0xF <=? model)).

Definition arch_tsc_init s : outcome (timers P St) :=
  if sleep_nanoseconds (clock_system_timer (tm_clock s)) =? 0 then Done s else
  if constant_tsc (u32 (cpuid_eax 1 (tm_hw s))) then
    let '(a, p) := rdtsc (tm_hw s) in
    s ← clock_sleep (100 * 1000000) (set_hw s p);
    let '(b, p) := rdtsc (tm_hw s) in
    let s := set_tsc (set_hw s p) (arch_tsc_offset s) ((b -w a) *w 10) in
    Done (register (TimeSource tsc_name true (arch_tsc_ticks_per_second s) tsc_read_at tsc_sleep_at false 0 0) s)
  else Done s.

(** ** The timer of the interrupt controller *)

Definition arch_xapic_timer_schedule_one_shot s : timers P St :=
  let s := arch_xapic_eoi s in
  arch_xapic_write XAPIC_REG_TIMER_INIT_COUNT (ticks_per_scheduling_burst s) s.

Definition arch_xapic_timer_interrupt_now s : timers P St :=
  let s := arch_xapic_eoi s in
  arch_xapic_write XAPIC_REG_TIMER_INIT_COUNT 1 s.

(** [ticks_per_scheduling_burst * 1000 / SCHEDULER_DESIRED_FREQUENCY]. *)
Definition xapic_rate (burst : Z) : Z := u32 (burst * 1000) / SCHEDULER_DESIRED_FREQUENCY.

Definition arch_xapic_timer_init (arch_bsp_id idt_offset arch_xapic_isr_handler_entry : Z) s : outcome (timers P St) :=
  if sleep_nanoseconds (clock_system_timer (tm_clock s)) =? 0 then Panicked else
  let '(vector, base) := arch_interrupts_reserve_kernel_vector (interrupts_vector_base s) in
  let s := set_xapic s (ticks_per_scheduling_burst s) vector base in
  let s := set_control s (arch_interrupts_disable (tm_control s)) in
  let s := arch_xapic_write XAPIC_REG_TIMER_DIVISOR 3 s in
  let s := arch_xapic_write XAPIC_REG_LVT_TIMER vector s in
  let s := arch_xapic_write XAPIC_REG_TIMER_INIT_COUNT 0xFFFFFFFF s in
  s ← clock_sleep (1000000000 / SCHEDULER_DESIRED_FREQUENCY) s;
  let '(count, s) := arch_xapic_read XAPIC_REG_TIMER_CURRENT_COUNT s in
  let burst := u32 (0xFFFFFFFF - count) in
  let s := set_xapic s burst (xapic_vector s) (interrupts_vector_base s) in
  let s := arch_xapic_write XAPIC_REG_TIMER_INIT_COUNT 0 s in
  let s := set_control s (arch_interrupts_enable (tm_control s)) in
  let '(bsp, s) := arch_is_bsp arch_bsp_id s in
  let s := if bsp then register (TimeSource xapic_name false (xapic_rate burst) 0 0 true one_shot_at interrupt_now_at) s else s in
  Done (set_src s (src_with_mem (tm_src s)
    (arch_interrupts_map_vector idt_offset (xapic_vector s) arch_xapic_isr_handler_entry (tm_mem s)))).

(** ** The power management timer *)

Definition acpi_pm_timer_read_nanoseconds (acpi_revision acpi_fadt : Z) s : Z * timers P St :=
  let m := tm_mem s in
  let '(ticks, s) :=
    if 2 <=? acpi_revision then
      if fadt_PMTimer64_space m acpi_fadt =? ACPI_ADDRESS_SPACE_SYSTEM_MEMORY then
        let '(v, p) := mmio_read32 (fadt_PMTimer64_address m acpi_fadt) (tm_hw s) in (u32 v, set_hw s p)
      else if fadt_PMTimer64_space m acpi_fadt =? ACPI_ADDRESS_SPACE_I_O then
        let '(v, p) := port_read32 (u16 (fadt_PMTimer64_address m acpi_fadt)) (tm_hw s) in (u32 v, set_hw s p)
      else (0, s)
    else
      let '(v, p) := port_read32 (u16 (fadt_PMTimer m acpi_fadt)) (tm_hw s) in (u32 v, set_hw s p) in
  (ticks *w 1000000000 / 3579545, s).

(** The result is [acpi_fadt]. *)
Definition acpi_pm_timer_init (a : acpi) (FACP : Z) (m : mem) : Z := acpi_get_table kernel_hhdm_offset m a FACP.
End Model.

(** The end of [arch_xapic_init]: the context of the processor. *)
Definition arch_xapic_init_context {H : Type} (is_bsp : bool) (cpu_id : Z) (s : sched H) : outcome (sched H) :=
  '(p, s) ← arch_get_cpu_context s;
  cx ← deref (sc_cpu_contexts s !! p);
  Done (with_cpu_contexts s (<[p := CpuContext (cx_context_type cx) cpu_id is_bsp (cx_gdt cx) (cx_scheduler_context cx)]>
    (sc_cpu_contexts s))).

(** * Counters *)

(** A register that counts: a read takes between one and [step] ticks. *)
Definition counts {P : Type} (read : P -> Z * P) (ticks : P -> Z) (step : Z) : Prop :=
  forall p, exists p', read p = (ticks p, p') /\ ticks p < ticks p' <= ticks p + step.

(** A function that shows the reading [f n] at tick [n]. *)
Definition shows {S : Type} (read : S -> outcome (Z * S)) (inv : S -> Prop) (ticks : S -> Z) (f : Z -> Z) (step : Z) : Prop :=
  forall s, inv s -> exists s', read s = Done (f (ticks s), s') /\ inv s' /\ ticks s < ticks s' <= ticks s + step.

(** The loop ends at a reading that reached the target, at the latest one step
    after tick [N] from which on the readings do. *)
Lemma wait_until_spec {S} (read : S -> outcome (Z * S)) inv ticks f step target N :
  shows read inv ticks f step -> (forall n, N <= n <= N + step -> target <= f n) ->
  forall polls s, inv s -> ticks s <= N + step -> N - ticks s <= Z.of_nat polls ->
  exists s' n, wait_until read target polls s = Done s' /\ inv s' /\ ticks s <= n <= N + step /\ target <= f n /\
    n < ticks s' <= n + step.
Proof.
  intros Hr HN. induction polls as [|polls IH]; intros s Hs Ht Hp; cbn [wait_until];
    destruct (Hr s Hs) as (s1 & E1 & Hs1 & H1); rewrite E1; cbn [mbind outcome_bind]; btest.
  - exists s1, (ticks s). split_and!; try lia; done.
  - specialize (HN (ticks s) ltac:(lia)). lia.
  - exists s1, (ticks s). split_and!; try lia; done.
  - assert (ticks s < N) as Hlt. { destruct (decide (N <= ticks s)); [|lia]. specialize (HN (ticks s) ltac:(lia)). lia. }
    destruct (IH s1 Hs1 ltac:(lia) ltac:(lia)) as (s' & n & E & Hs' & Hn & Hf & Ht'). exists s', n. split_and!; try lia; done.
Qed.

Section Readings.
Context (hhdm : Z) {P : Type} `{!Platform P} {St : Type} `{!PageSource St}.
Implicit Types s : timers P St.

(** The address of the main counter. *)
Definition hpet_counter (m : mem) (header : Z) : Z := hhdm +w hpet_address m header +w HPET_OFFSET_MAIN_COUNTER.

(** Waiting changes nothing but the hardware. *)
Definition only_hw (s0 s : timers P St) : Prop := s = set_hw s0 (tm_hw s).

Lemma hpet_shows s0 ticks step :
  counts (mmio_read64 (hpet_counter (tm_mem s0) (arch_hpet_header s0))) ticks step ->
  shows (arch_hpet_read_nanoseconds hhdm) (only_hw s0) (fun s => ticks (tm_hw s))
    (fun n => u64 n *w arch_hpet_ticks_to_nanoseconds s0) step.
Proof using.
  intros Hc s Hs. rewrite Hs. unfold arch_hpet_read_nanoseconds, arch_hpet_read. cbn [tm_hw set_hw].
  change (tm_mem (set_hw s0 (tm_hw s))) with (tm_mem s0). change (arch_hpet_header (set_hw s0 (tm_hw s))) with (arch_hpet_header s0).
  destruct (Hc (tm_hw s)) as (p' & E & Ht). unfold hpet_counter in E. rewrite E. exists (set_hw s0 p'). done.
Qed.

Lemma tsc_shows s0 ticks step :
  counts (@rdtsc P _) ticks step -> 1000000000 <= arch_tsc_ticks_per_second s0 ->
  shows arch_tsc_read_nanoseconds (only_hw s0) (fun s => ticks (tm_hw s))
    (fun n => (n -w arch_tsc_offset s0) / (arch_tsc_ticks_per_second s0 / 1000000000)) step.
Proof using.
  intros Hc Hr s Hs. rewrite Hs. unfold arch_tsc_read_nanoseconds. cbn [tm_hw set_hw arch_tsc_offset arch_tsc_ticks_per_second].
  destruct (Hc (tm_hw s)) as (p' & E & Ht). rewrite E. btest; [zlia|]. exists (set_hw s0 p'). done.
Qed.
End Readings.

Lemma div_bounds a k : 0 <= a -> 1 <= k -> 0 <= a / k /\ a / k <= a /\ a < (a / k + 1) * k /\ a / k * k <= a.
Proof. intros Ha Hk. pose proof (Z.div_mod a k ltac:(lia)). pose proof (Z.mod_pos_bound a k ltac:(lia)). split_and!; nia. Qed.

(** Sleeping with the event timer ends, and changes nothing but the hardware. *)
Lemma hpet_sleep_spec (hhdm : Z) {P} `{!Platform P} {St} `{!PageSource St} (polls : nat) (s : timers P St)
    (ticks : P -> Z) (step period nanos : Z) :
  counts (mmio_read64 (hpet_counter hhdm (tm_mem s) (arch_hpet_header s))) ticks step ->
  1000000 <= period -> arch_hpet_ticks_to_nanoseconds s = period / 1000000 ->
  0 <= ticks (tm_hw s) -> 0 <= nanos -> nanos / (period / 1000000) <= Z.of_nat polls ->
  (ticks (tm_hw s) + nanos + 2 * step) * (period / 1000000) < 18446744073709551616 ->
  exists p, arch_hpet_sleep_nanoseconds hhdm polls nanos s = Done (set_hw s p) /\
    nanos * 1000000 <= (ticks p - ticks (tm_hw s)) * period /\
    (ticks p - ticks (tm_hw s)) * (period / 1000000) <= nanos + (1 + 2 * step) * (period / 1000000).
Proof.
  intros Hc Hp Hf H0 Hn Hpolls Hb. set (k := period / 1000000) in *. assert (1 <= k /\ k * 1000000 <= period) as [Hk Hkp] by (unfold k; zlia).
  pose proof (hpet_shows hhdm s ticks step Hc) as Hsh. rewrite Hf in Hsh.
  unfold arch_hpet_sleep_nanoseconds. destruct (Hsh s) as (s1 & E1 & Hs1 & Ht1); [by destruct s|]. rewrite E1. cbn [mbind outcome_bind].
  set (t0 := ticks (tm_hw s)) in *. set (N := t0 + nanos / k + 1).
  destruct (div_bounds nanos k) as (Hd0 & Hd1 & Hd2 & Hd3); [lia|lia|].
  assert (0 < step) by lia.
  assert (forall n n', 0 <= n <= n' -> 0 <= n * k <= n' * k) as Hmono by (intros; split; [apply Z.mul_nonneg_nonneg|apply Z.mul_le_mono_nonneg_r]; lia).
  pose proof (Hmono (N + step) (t0 + nanos + 2 * step) ltac:(unfold N; lia)) as HNb. pose proof (Hmono t0 t0 ltac:(lia)) as Ht0.
  assert (N * k = t0 * k + (nanos / k + 1) * k) as HNk by (unfold N; ring).
  assert (N * k <= (N + step) * k) by (apply Hmono; unfold N; lia).
  assert (forall n, 0 <= n <= N + step -> u64 n *w k = n * k) as Hu.
  { intros n Hr. specialize (Hmono n _ Hr). assert (n <= n * k) by (rewrite <- (Z.mul_1_r n) at 1; apply Z.mul_le_mono_nonneg_l; lia).
    rewrite (u64_small n), u64_small by lia. done. }
  rewrite (Hu t0), (u64_small (t0 * k + nanos)) by (unfold N; lia).
  destruct (wait_until_spec _ _ _ _ step (t0 * k + nanos) N Hsh) with (polls := polls) (s := s1) as (s' & n & E & Hs' & Hn1 & Hn2 & Hn3).
  - intros n Hr. rewrite Hu by (unfold N in *; lia). pose proof (Hmono N n ltac:(unfold N in *; lia)). lia.
  - done.
  - unfold N. lia.
  - cbn beta. unfold N. lia.
  - exists (tm_hw s'). split; [rewrite E; f_equal; exact Hs'|]. rewrite Hu in Hn2 by (unfold N in *; lia). set (t' := ticks (tm_hw s')) in *.
    assert ((t' - t0) * k = t' * k - t0 * k) as Hmul by ring. pose proof (Hmono n t' ltac:(unfold N in *; lia)).
    pose proof (Hmono t' (N + 2 * step) ltac:(unfold N in *; lia)). split.
    + assert ((t' - t0) * (k * 1000000) <= (t' - t0) * period) by (apply Z.mul_le_mono_nonneg_l; unfold N in *; lia). lia.
    + assert ((N + 2 * step) * k = N * k + 2 * step * k) by ring.
      assert ((nanos / k + 1) * k = nanos / k * k + k) by ring. assert ((1 + 2 * step) * k = k + 2 * step * k) by ring.
      lia.
Qed.

(** A platform whose counters advance by one per read. *)
Record toy := Toy { toy_time : Z; toy_registers : gmap Z Z }.
Definition tick (p : toy) : toy := Toy (toy_time p + 1) (toy_registers p).

#[export] Instance toy_platform : Platform toy := {|
  mmio_read32 := fun a p => (default 0 (toy_registers p !! a), tick p);
  mmio_write32 := fun a v p => Toy (toy_time p) (<[a := v]> (toy_registers p));
  mmio_read64 := fun a p => (toy_time p, tick p);
  mmio_write64 := fun a v p => p;
  port_read32 := fun a p => (toy_time p, tick p);
  port_write8 := fun a v p => p;
  rdtsc := fun p => (toy_time p, tick p);
  cpuid_eax := fun _ _ => 0x000906EA
|}.

Definition toy_timers : timers toy pa_state :=
  Timers (Toy 1000 ∅) table_state (Control (0, 0) (0, 0) 8 16 40 true {[MSR_APIC_BASE := 0xFEE00000]}) (Clock no_source no_source)
    0x9000 69 0 1999999999 0 0 0x20.

(** * Properties *)

(** C35. With a counter that advances by at most a fixed number of ticks per read, whose period
    is at least a nanosecond, arch_hpet_sleep_nanoseconds terminates when its target does not
    wrap around, waits at least the given time, and at most one tick and two reads longer in the
    rounded unit. *)
Theorem hpet_sleep_is_long_enough (hhdm : Z) {P} `{!Platform P} {St} `{!PageSource St} (polls : nat) (s : timers P St)
    (ticks : P -> Z) (step period nanos : Z) :
  counts (mmio_read64 (hpet_counter hhdm (tm_mem s) (arch_hpet_header s))) ticks step ->
  1000000 <= period -> arch_hpet_ticks_to_nanoseconds s = period / 1000000 ->
  0 <= ticks (tm_hw s) -> 0 <= nanos -> nanos <= Z.of_nat polls ->
  (ticks (tm_hw s) + nanos + 2 * step) * (period / 1000000) < 18446744073709551616 ->
  exists s', arch_hpet_sleep_nanoseconds hhdm polls nanos s = Done s' /\
    nanos * 1000000 <= (ticks (tm_hw s') - ticks (tm_hw s)) * period /\
    (ticks (tm_hw s') - ticks (tm_hw s)) * (period / 1000000) <= nanos + (1 + 2 * step) * (period / 1000000).
Proof.
  intros Hc Hp Hf H0 Hn Hpolls Hb. assert (nanos / (period / 1000000) <= nanos) by (apply div_bounds; zlia).
  destruct (hpet_sleep_spec hhdm polls s ticks step period nanos) as (p & E & H1 & H2); [done|done|done|done|done|lia|done|].
  by exists (set_hw s p).
Qed.

Lemma hpet_sleep_is_long_enough_witness : exists s',
  @arch_hpet_sleep_nanoseconds 0 toy _ pa_state demo_source 500 500 toy_timers = Done s' /\
  500 * 1000000 <= (toy_time (tm_hw s') - 1000) * 69841279.
Proof.
  destruct (@hpet_sleep_is_long_enough 0 toy _ pa_state demo_source 500 toy_timers toy_time 1 69841279 500) as (s' & E & H & _).
  - intros p. exists (tick p). simpl. split; [reflexivity|lia].
  - lia.
  - reflexivity.
  - simpl. lia.
  - lia.
  - lia.
  - simpl. change (69841279 / 1000000) with 69. lia.
  - exists s'. split; [exact E|exact H].
Defined.

(** arch_tsc_sleep_nanoseconds waits for the time in ticks of the rate divided by a billion and
    rounded down, so when the remainder outweighs the reads it returns before the time has
    passed. *)
Theorem tsc_sleep_returns_early {P} `{!Platform P} {St} `{!PageSource St} (polls : nat) (s : timers P St)
    (ticks : P -> Z) (step nanos : Z) :
  let rate := arch_tsc_ticks_per_second s in
  let k := rate / 1000000000 in
  let t0 := ticks (tm_hw s) in
  counts (@rdtsc P _) ticks step -> 1000000000 <= rate -> 0 <= arch_tsc_offset s <= t0 -> 1 <= nanos ->
  nanos * k <= Z.of_nat polls -> t0 + nanos * k + step < 18446744073709551616 ->
  exists p, arch_tsc_sleep_nanoseconds polls nanos s = Done (set_hw s p) /\
    (nanos - 1) * k < ticks p - t0 <= nanos * k + 2 * step /\
    (2 * step * 1000000000 < rate mod 1000000000 * nanos -> (ticks p - t0) * 1000000000 < nanos * rate).
Proof.
  cbv zeta. intros Hc Hr Ho Hn Hpolls Hb. set (rate := arch_tsc_ticks_per_second s) in *. set (k := rate / 1000000000) in *.
  assert (rate = k * 1000000000 + rate mod 1000000000) as Hrate by (unfold k; zlia). assert (1 <= k) as Hk by (unfold k; zlia).
  pose proof (tsc_shows s ticks step Hc Hr) as Hsh. fold rate in Hsh. fold k in Hsh.
  set (off := arch_tsc_offset s) in *. set (t0 := ticks (tm_hw s)) in *.
  unfold arch_tsc_sleep_nanoseconds. destruct (Hsh s) as (s1 & E1 & Hs1 & Ht1); [by destruct s|]. fold t0 in E1, Ht1. rewrite E1. cbn [mbind outcome_bind].
  rewrite (u64_small (t0 - off)) by lia. set (q := (t0 - off) / k).
  destruct (div_bounds (t0 - off) k) as (Hq0 & Hq1 & Hq2 & Hq3); [lia|lia|]. fold q in Hq0, Hq1, Hq2, Hq3.
  assert (nanos <= nanos * k) by (rewrite <- (Z.mul_1_r nanos) at 1; apply Z.mul_le_mono_nonneg_l; lia).
  rewrite (u64_small (q + nanos)) by lia. set (N := off + (q + nanos) * k).
  assert (N = off + q * k + nanos * k) as HN by (unfold N; ring). assert ((q + 1) * k = q * k + k) by ring.
  assert (k <= nanos * k) by (rewrite <- (Z.mul_1_l k) at 1; apply Z.mul_le_mono_nonneg_r; lia).
  destruct (wait_until_spec _ _ _ _ step (q + nanos) N Hsh) with (polls := polls) (s := s1) as (s' & n & E & Hs' & Hn1 & Hn2 & Hn3).
  - intros n Hx. rewrite (u64_small (n - off)) by lia. apply Z.div_le_lower_bound; [lia|]. unfold N in Hx. lia.
  - done.
  - cbn beta. lia.
  - cbn beta. lia.
  - exists (tm_hw s'). split; [rewrite E; f_equal; exact Hs'|]. cbn beta in *. set (t' := ticks (tm_hw s')) in *. rewrite (u64_small (n - off)) in Hn2 by lia.
    assert ((q + nanos) * k <= n - off) as Hlow.
    { destruct (div_bounds (n - off) k) as (_ & _ & _ & Hd); [lia|lia|].
      etransitivity; [|exact Hd]. apply Z.mul_le_mono_nonneg_r; lia. }
    assert ((nanos - 1) * k = nanos * k - k) by ring. split; [unfold N in *; lia|]. intros Hs.
    assert (nanos * rate = nanos * k * 1000000000 + rate mod 1000000000 * nanos) as -> by (rewrite Hrate at 1; ring). unfold N in *. lia.
Qed.

Lemma tsc_sleep_returns_early_witness : exists p,
  @arch_tsc_sleep_nanoseconds toy _ pa_state 500 500 toy_timers = Done (set_hw toy_timers p) /\
  (toy_time p - 1000) * 1000000000 < 500 * 1999999999.
Proof.
  destruct (@tsc_sleep_returns_early toy _ pa_state demo_source 500 toy_timers toy_time 1 500) as (s' & E & _ & H).
  - intros p. exists (tick p). simpl. split; [reflexivity|lia].
  - simpl. lia.
  - simpl. lia.
  - lia.
  - change (arch_tsc_ticks_per_second toy_timers / 1000000000) with 1. lia.
  - change (arch_tsc_ticks_per_second toy_timers / 1000000000) with 1. simpl. lia.
  - exists s'. split; [exact E|]. apply H. change (arch_tsc_ticks_per_second toy_timers mod 1000000000) with 999999999. lia.
Defined.

(** With a time-stamp counter below 1 GHz arch_tsc_read_nanoseconds divides by zero. *)
Theorem slow_tsc_divides_by_zero {P} `{!Platform P} {St} `{!PageSource St} (s : timers P St) :
  0 <= arch_tsc_ticks_per_second s < 1000000000 -> arch_tsc_read_nanoseconds s = Undef.
Proof.
  intros Hr. unfold arch_tsc_read_nanoseconds. destruct (rdtsc (tm_hw s)) as [v p].
  rewrite Z.div_small by lia. done.
Qed.

Lemma slow_tsc_divides_by_zero_witness :
  @arch_tsc_read_nanoseconds toy _ pa_state (set_tsc toy_timers 0 800000000) = Undef.
Proof. apply (@slow_tsc_divides_by_zero toy _ pa_state demo_source). simpl. lia. Defined.

(** Without a usable HPET table the initialisation of the timers ends in the panic of
    arch_xapic_timer_init, although a time-stamp counter is present. *)
Theorem no_hpet_panics (hhdm table : Z) {P} `{!Platform P} {St} `{!PageSource St} (polls : nat)
    (hpet_name tsc_name xapic_name hpet_read_at hpet_sleep_at tsc_read_at tsc_sleep_at one_shot_at interrupt_now_at : Z)
    (a : acpi) (HPET bsp idt entry : Z) (s : timers P St) :
  tm_clock s = Clock no_source no_source ->
  acpi_get_table hhdm (tm_mem s) a HPET = 0 \/
  hpet_address_space (tm_mem s) (acpi_get_table hhdm (tm_mem s) a HPET) <> ACPI_ADDRESS_SPACE_SYSTEM_MEMORY ->
  (s ← arch_hpet_init hhdm table hpet_name hpet_read_at hpet_sleep_at a HPET s;
   s ← arch_tsc_init hhdm polls tsc_name hpet_sleep_at tsc_read_at tsc_sleep_at s;
   arch_xapic_timer_init hhdm polls xapic_name hpet_sleep_at tsc_sleep_at one_shot_at interrupt_now_at bsp idt entry s) = Panicked.
Proof.
  intros Hc Ht. unfold arch_hpet_init.
  assert (forall x : timers P St, tm_clock x = Clock no_source no_source ->
    (s ← arch_tsc_init hhdm polls tsc_name hpet_sleep_at tsc_read_at tsc_sleep_at x;
     arch_xapic_timer_init hhdm polls xapic_name hpet_sleep_at tsc_sleep_at one_shot_at interrupt_now_at bsp idt entry s) = Panicked) as Hx.
  { intros x Hx. unfold arch_tsc_init. rewrite Hx. cbn [clock_system_timer no_source sleep_nanoseconds]. rewrite Z.eqb_refl.
    cbn [mbind outcome_bind]. unfold arch_xapic_timer_init. by rewrite Hx. }
  set (header := acpi_get_table hhdm (tm_mem s) a HPET) in *. btest; cbn [mbind outcome_bind]; [by apply Hx|].
  change (tm_mem (set_hpet s header (arch_hpet_ticks_to_nanoseconds s))) with (tm_mem s).
  destruct Ht as [?|Ht]; [done|]. apply Z.eqb_neq in Ht. rewrite Ht. cbn [negb mbind outcome_bind]. by apply Hx.
Qed.

(** A root table without entries. *)
Definition toy_no_tables : timers toy pa_state := set_src toy_timers (set_pa_mem table_state (st32 ∅ 0x9004 36)).

Lemma no_hpet_panics_witness :
  (s ← @arch_hpet_init 0 0 toy _ pa_state demo_source 0 1 2 (Acpi 0x9000 0x9000 2) 0x9100 toy_no_tables;
   s ← @arch_tsc_init 0 toy _ pa_state demo_source 10 0 2 3 4 s;
   @arch_xapic_timer_init 0 toy _ pa_state demo_source 10 0 2 4 5 6 0 0x8000 7 s) = Panicked.
Proof.
  apply (@no_hpet_panics 0 0 toy _ pa_state demo_source 10 0 0 0 1 2 3 4 5 6 (Acpi 0x9000 0x9000 2) 0x9100 0 0x8000 7 toy_no_tables).
  - reflexivity.
  - left. vm_compute. reflexivity.
Defined.
