(* ===== verification/Smp.v ===== *)
(** The start of the other processors, [arch/x86_64/smp/smp.c]: the first
    processor runs [arch_bootstrap_ap_limine] and later
    [arch_bootstrap_ap_scheduler], every other one [arch_bootstrap_entry_limine]
    once it is woken.  They take single steps in any order; a step accesses one
    shared variable. *)

From S2P Require Import Prelude Spinlock.

(** * Steps *)

(** The shared variables. *)
Record shared := Shared {
  arch_mp_bootstrap_lock : spinlock_t;
  arch_mp_enable_scheduler_lock : spinlock_t;
  arch_mp_completion_lock : spinlock_t;
  arch_complete : Z
}.

(** Where the first processor is; [i] is the index of the loop. *)
Inductive bsp_pc :=
  | BLockEnable
  | BLoop (i : nat)
  | BWake (i : nat)
  | BWait (i : nat)
  | BBooted
  | BWaitComplete
  | BDone.

(** Where another processor is; before [AInit] it is halted by the boot loader.
    [AWriting v] has read [v] from [arch_complete]. *)
Inductive ap_pc :=
  | AParked
  | AInit
  | AWaitEnable
  | AInstall
  | ALock
  | AReading
  | AWriting (v : Z)
  | AUnlock
  | AEnabled.

Record smp := State { g : shared; bsp : bsp_pc; aps : list ap_pc }.

(** One attempt of [spinlock_acquire]: [None] is another round of its loop. *)
Definition try_acquire (l : spinlock_t) : option spinlock_t := if l then None else Some true.

Section Steps.
(** The [lapic_id]s of the response, and that of the first processor. *)
Context (cpus : list Z) (arch_bsp_id : Z).

Definition bsp_step (s : smp) : smp :=
  let '(State (Shared boot enable completion complete) b aps) := s in
  let g := Shared boot enable completion complete in
  match b with
  | BLockEnable =>
      match try_acquire enable with
      | None => s
      | Some l => State (Shared boot l completion complete) (BLoop 0) aps
      end
  | BLoop i =>
      match cpus !! i with
      | None => State g BBooted aps
      | Some id =>
          if id =? arch_bsp_id then State g (BLoop (S i)) aps else
          match try_acquire boot with
          | None => s
          | Some l => State (Shared l enable completion complete) (BWake i) aps
          end
      end
  | BWake i => State g (BWait i) (<[i := AInit]> aps)
  | BWait i => if boot then s else State g (BLoop (S i)) aps
  | BBooted => State (Shared boot (spinlock_release enable) completion complete) BWaitComplete aps
  | BWaitComplete => if complete =? Z.of_nat (length cpus) - 1 then State g BDone aps else s
  | BDone => s
  end.

Definition ap_step (g : shared) (a : ap_pc) : shared * ap_pc :=
  let '(Shared boot enable completion complete) := g in
  match a with
  | AParked => (g, AParked)
  | AInit => (Shared (spinlock_release boot) enable completion complete, AWaitEnable)
  | AWaitEnable => if enable then (g, AWaitEnable) else (g, AInstall)
  | AInstall => (g, ALock)
  | ALock =>
      match try_acquire completion with
      | None => (g, ALock)
      | Some l => (Shared boot enable l complete, AReading)
      end
  | AReading => (g, AWriting complete)
  | AWriting v => (Shared boot enable completion (v + 1), AUnlock)
  | AUnlock => (Shared boot enable (spinlock_release completion) complete, AEnabled)
  | AEnabled => (g, AEnabled)
  end.

Definition at_ap (j : nat) (s : smp) : smp :=
  match aps s !! j with
  | Some a => let '(g', a') := ap_step (g s) a in State g' (bsp s) (<[j := a']> (aps s))
  | None => s
  end.

Inductive step : smp -> smp -> Prop :=
  | step_bsp s : step s (bsp_step s)
  | step_ap s j : step s (at_ap j s).

Definition initial : smp := State (Shared false false false 0) BLockEnable (replicate (length cpus) AParked).

Inductive reachable : smp -> Prop :=
  | reach_init : reachable initial
  | reach_step s s' : reachable s -> step s s' -> reachable s'.
End Steps.

(** * The invariant *)

(** The processors below this index that are not the first one are awake. *)
Definition woken (n : nat) (b : bsp_pc) : nat :=
  match b with
  | BLockEnable => 0
  | BLoop i | BWake i => i
  | BWait i => S i
  | BBooted | BWaitComplete | BDone => n
  end.

(** The first processor let the others go. *)
Definition released (b : bsp_pc) : bool := match b with BWaitComplete | BDone => true | _ => false end.

(** The first processor holds the others back. *)
Definition holding (b : bsp_pc) : bool := match b with BLoop _ | BWake _ | BWait _ | BBooted => true | _ => false end.

(** Before the scheduler, inside the lock, past the increment. *)
Definition early (a : ap_pc) : bool := match a with AParked | AInit | AWaitEnable => true | _ => false end.
Definition inside (a : ap_pc) : bool := match a with AReading | AWriting _ | AUnlock => true | _ => false end.
Definition counted (a : ap_pc) : bool := match a with AUnlock | AEnabled => true | _ => false end.
Definition installed (a : ap_pc) : bool := match a with AParked | AInit | AWaitEnable | AInstall => false | _ => true end.

Definition count (l : list ap_pc) : Z := Z.of_nat (length (filter (fun a => counted a = true) l)).

Section Invariant.
Context (cpus : list Z) (arch_bsp_id : Z).

Record inv (s : smp) : Prop := {
  i_length : length (aps s) = length cpus;
  i_index : (woken (length cpus) (bsp s) <= length cpus)%nat;
  i_awake : forall j a, aps s !! j = Some a ->
    (a <> AParked <-> (j < woken (length cpus) (bsp s))%nat /\ cpus !! j <> Some arch_bsp_id);
  i_wake : forall i, bsp s = BWake i -> (i < length cpus)%nat /\ cpus !! i <> Some arch_bsp_id /\
    arch_mp_bootstrap_lock (g s) = true;
  i_init : forall j, aps s !! j = Some AInit -> bsp s = BWait j /\ arch_mp_bootstrap_lock (g s) = true;
  i_boot : arch_mp_bootstrap_lock (g s) = true ->
    (exists i, bsp s = BWake i) \/ (exists i, bsp s = BWait i /\ aps s !! i = Some AInit);
  i_enable : arch_mp_enable_scheduler_lock (g s) = holding (bsp s);
  i_early : released (bsp s) = false -> forall j a, aps s !! j = Some a -> early a = true;
  i_mutex : forall j k a b, aps s !! j = Some a -> aps s !! k = Some b -> inside a = true -> inside b = true -> j = k;
  i_lock : arch_mp_completion_lock (g s) = true <-> exists j a, aps s !! j = Some a /\ inside a = true;
  i_value : forall j v, aps s !! j = Some (AWriting v) -> v = arch_complete (g s);
  i_count : arch_complete (g s) = count (aps s);
  i_done : bsp s = BDone -> forall j a, aps s !! j = Some a -> cpus !! j <> Some arch_bsp_id -> counted a = true
}.

(** ** Counting *)

Lemma count_cons x l : count (x :: l) = Z.b2z (counted x) + count l.
Proof using. unfold count. rewrite filter_cons. destruct (counted x); case_decide; simpl; (done || lia). Qed.

Lemma count_insert l : forall j a a', l !! j = Some a ->
  count (<[j := a']> l) = count l + Z.b2z (counted a') - Z.b2z (counted a).
Proof using.
  induction l as [|x l IH]; intros j a a' Hj; [done|]. destruct j as [|j].
  - injection Hj as ->. change (<[0%nat := a']> (a :: l)) with (a' :: l). rewrite !count_cons. lia.
  - change (<[S j := a']> (x :: l)) with (x :: <[j := a']> l). rewrite !count_cons, (IH j a a' Hj). lia.
Qed.

Lemma count_le l : count l <= Z.of_nat (length l).
Proof using. induction l as [|x l IH]; [done|]. rewrite count_cons. destruct (counted x); simpl; lia. Qed.

Lemma count_miss l : forall j a, l !! j = Some a -> counted a = false -> count l + 1 <= Z.of_nat (length l).
Proof using.
  induction l as [|x l IH]; intros j a Hj Ha; [done|]. rewrite count_cons. destruct j as [|j].
  - injection Hj as ->. rewrite Ha. pose proof (count_le l). simpl. lia.
  - specialize (IH j a Hj Ha). destruct (counted x); simpl in *; lia.
Qed.

Lemma count_miss_two l : forall i j a b, l !! i = Some a -> l !! j = Some b -> i <> j ->
  counted a = false -> counted b = false -> count l + 2 <= Z.of_nat (length l).
Proof using.
  induction l as [|x l IH]; intros i j a b Hi Hj Hne Ha Hb; [done|]. rewrite count_cons.
  destruct i as [|i], j as [|j]; [done|..].
  - injection Hi as ->. rewrite Ha. pose proof (count_miss l j b Hj Hb). simpl. lia.
  - injection Hj as ->. rewrite Hb. pose proof (count_miss l i a Hi Ha). simpl. lia.
  - specialize (IH i j a b Hi Hj ltac:(lia) Ha Hb). destruct (counted x); simpl; lia.
Qed.

(** ** The first processor *)

(** One processor of the list is the first one. *)
Hypothesis Hbsp : exists b, cpus !! b = Some arch_bsp_id /\ forall j, cpus !! j = Some arch_bsp_id -> j = b.

Lemma all_counted s : inv s -> arch_complete (g s) = Z.of_nat (length cpus) - 1 ->
  forall j a, aps s !! j = Some a -> cpus !! j <> Some arch_bsp_id -> counted a = true.
Proof using Hbsp.
  intros I Hc j a Hj Hn. destruct Hbsp as (b & Hb & _). destruct (counted a) eqn:Ha; [done|exfalso].
  assert (is_Some (aps s !! b)) as [x Hx].
  { apply lookup_lt_is_Some. rewrite (i_length _ I). by apply lookup_lt_Some in Hb. }
  assert (x = AParked) as ->.
  { destruct (i_awake _ I b x Hx) as [Hw _]. destruct x; try done; exfalso; apply Hw; done. }
  assert (j <> b) by congruence. rewrite (i_count _ I) in Hc.
  pose proof (count_miss_two _ j b a AParked Hj Hx ltac:(done) Ha eq_refl). rewrite (i_length _ I) in *. lia.
Qed.

Lemma inv_initial : inv (initial cpus).
Proof using.
  assert (forall j a, replicate (length cpus) AParked !! j = Some a -> a = AParked) as Hr.
  { intros j a Ha. by apply lookup_replicate in Ha as [-> _]. }
  split; simpl; try done.
  - apply length_replicate.
  - lia.
  - intros j a Ha. apply Hr in Ha as ->. split; [done|lia].
  - intros j Ha. by apply Hr in Ha.
  - intros _ j a Ha. by apply Hr in Ha as ->.
  - intros j k a b Ha _ Hi. by apply Hr in Ha as ->.
  - split; [done|]. intros (j & a & Ha & Hi). by apply Hr in Ha as ->.
  - intros j v Ha. by apply Hr in Ha.
  - clear. induction (length cpus) as [|n IH]; [done|]. simpl. rewrite count_cons. done.
Qed.

(** Waking the processor of the loop. *)
Lemma inv_wake gs i l : inv (State gs (BWake i) l) -> inv (State gs (BWait i) (<[i := AInit]> l)).
Proof using.
  clear Hbsp. intros [I1 I2 I3 I4 I5 I6 I7 I8 I9 I10 I11 I12 I13]; simpl in *.
  destruct (I4 i eq_refl) as (Hi & Hn & Hb).
  assert (is_Some (l !! i)) as [x Hx] by (apply lookup_lt_is_Some; lia).
  assert (x = AParked) as -> by (destruct (I3 i x Hx) as [Hw _]; destruct x; try done; exfalso; (destruct Hw as [Hw _]; [done|lia])).
  assert (forall j a, <[i := AInit]> l !! j = Some a -> (j = i /\ a = AInit) \/ (j <> i /\ l !! j = Some a)) as Hl.
  { intros j a Ha. apply list_lookup_insert_Some in Ha. naive_solver. }
  split; simpl; try done.
  - by rewrite length_insert.
  - intros j a [[-> ->]|[Hne Ha]]%Hl; [split; [intros _; split; [lia|done]|done]|].
    rewrite (I3 j a Ha). split; intros [? ?]; (split; [lia|done]).
  - intros j [[-> _]|[Hne Ha]]%Hl; [done|]. by destruct (I5 j Ha).
  - intros _. right. exists i. split; [done|]. apply list_lookup_insert_eq. lia.
  - intros _ j a [[-> ->]|[Hne Ha]]%Hl; [done|]. by apply (I8 eq_refl j).
  - intros j k a b [[-> ->]|[H1 Ha]]%Hl [[-> ->]|[H2 Hb']]%Hl; try done. by apply I9.
  - rewrite I10. split; intros (j & a & Ha & Hin).
    + exists j, a. split; [|done]. rewrite list_lookup_insert_ne; [done|]. intros ->. rewrite Hx in Ha. by injection Ha as <-.
    + apply Hl in Ha as [[-> ->]|[_ Ha]]; [done|]. by exists j, a.
  - intros j v [[_ Hv]|[_ Ha]]%Hl; [done|]. by apply (I11 j).
  - rewrite (count_insert l i AParked AInit Hx). simpl. lia.
Qed.

Lemma inv_bsp s : inv s -> inv (bsp_step cpus arch_bsp_id s).
Proof using Hbsp.
  destruct s as [[boot enable completion complete] b l]. intros I.
  pose proof (all_counted _ I) as Hall. destruct b; cbn [bsp_step]; unfold try_acquire.
  - destruct enable; [done|]. destruct I as [I1 I2 I3 I4 I5 I6 I7 I8 I9 I10 I11 I12 I13]; simpl in *.
    split; simpl; try done; [naive_solver lia..|]. intros Hb. destruct (I6 Hb); naive_solver.
  - destruct (cpus !! i) as [id|] eqn:Hi; [btest|]; [| |].
    + destruct I as [I1 I2 I3 I4 I5 I6 I7 I8 I9 I10 I11 I12 I13]; simpl in *. pose proof (lookup_lt_Some _ _ _ Hi).
      split; simpl; try done; [|naive_solver..]. intros j a Ha. rewrite (I3 j a Ha). subst id.
      split; intros [H1 H2]; (split; [|done]); [lia|]. assert (j <> i) by congruence. lia.
    + destruct boot; [done|]. destruct I as [I1 I2 I3 I4 I5 I6 I7 I8 I9 I10 I11 I12 I13]; simpl in *.
      pose proof (lookup_lt_Some _ _ _ Hi). split; simpl; try done; [naive_solver..|eauto].
    + destruct I as [I1 I2 I3 I4 I5 I6 I7 I8 I9 I10 I11 I12 I13]; simpl in *. apply lookup_ge_None in Hi.
      assert (i = length cpus) as -> by lia. split; simpl; try done; [naive_solver..].
  - by apply inv_wake.
  - destruct boot; [done|]. destruct I as [I1 I2 I3 I4 I5 I6 I7 I8 I9 I10 I11 I12 I13]; simpl in *.
    split; simpl; try done; naive_solver.
  - destruct I as [I1 I2 I3 I4 I5 I6 I7 I8 I9 I10 I11 I12 I13]; simpl in *. split; simpl; try done; naive_solver.
  - btest; [|done]. specialize (Hall ltac:(done)). destruct I as [I1 I2 I3 I4 I5 I6 I7 I8 I9 I10 I11 I12 I13]; simpl in *.
    split; simpl; try done; naive_solver.
  - done.
Qed.

(** ** The other processors *)

(** A processor moves on without the bootstrap lock. *)
Lemma inv_move boot enable completion complete b l j a completion' complete' a' :
  inv (State (Shared boot enable completion complete) b l) -> l !! j = Some a ->
  a <> AParked -> a <> AInit -> a' <> AParked -> a' <> AInit ->
  (early a' = true \/ released b = true) ->
  (inside a' = true -> inside a = false -> completion = false) ->
  completion' = (if inside a then inside a' else if inside a' then true else completion) ->
  complete' = complete + Z.b2z (counted a') - Z.b2z (counted a) ->
  (forall v, a' = AWriting v -> v = complete') -> (complete' = complete \/ inside a = true) ->
  (counted a = true -> counted a' = true) ->
  inv (State (Shared boot enable completion' complete') b (<[j := a']> l)).
Proof using.
  clear Hbsp. intros [I1 I2 I3 I4 I5 I6 I7 I8 I9 I10 I11 I12 I13] Hj H1 H2 H3 H4 H5 H6 H7 H8 H9 H10 H11; simpl in *.
  assert (forall k x, <[j := a']> l !! k = Some x -> (k = j /\ x = a') \/ (k <> j /\ l !! k = Some x)) as Hl.
  { intros k x Hk. apply list_lookup_insert_Some in Hk. naive_solver. }
  assert (forall k x, k <> j -> l !! k = Some x -> inside x = true -> inside a = false /\ completion = true) as Ho.
  { intros k x Hk Hx Hi. split; [|apply I10; eauto]. destruct (inside a) eqn:E; [|done]. by destruct Hk; apply (I9 k j x a). }
  split; simpl; try done.
  - by rewrite length_insert.
  - intros k x [[-> ->]|[_ Hx]]%Hl; [|by apply I3]. rewrite <- (I3 j a Hj). done.
  - intros k [[_ Hx]|[_ Hx]]%Hl; [by destruct H4|by apply I5].
  - intros Hb. destruct (I6 Hb) as [?|(i & Hi & Hx)]; [by left|right]. exists i. split; [done|].
    rewrite list_lookup_insert_ne; [done|]. intros ->. congruence.
  - intros Hr k x [[-> ->]|[_ Hx]]%Hl; [destruct H5; congruence|by apply (I8 Hr k)].
  - intros k m x y [[-> ->]|[Hk Hx]]%Hl [[-> ->]|[Hm Hy]]%Hl Hi Hi'; [done|..].
    + destruct (Ho m y Hm Hy Hi') as [E1 E2]. rewrite (H6 Hi E1) in E2. done.
    + destruct (Ho k x Hk Hx Hi) as [E1 E2]. rewrite (H6 Hi' E1) in E2. done.
    + by apply (I9 k m x y).
  - rewrite H7. split.
    + intros Hc. destruct (inside a') eqn:E'.
      * exists j, a'. split; [|done]. apply list_lookup_insert_eq. by apply lookup_lt_Some in Hj.
      * destruct (inside a) eqn:E; [done|]. destruct (proj1 I10 Hc) as (k & x & Hx & Hi). exists k, x. split; [|done].
        rewrite list_lookup_insert_ne; [done|]. intros ->. congruence.
    + intros (k & x & [[-> ->]|[Hk Hx]]%Hl & Hi).
      * rewrite Hi. by destruct (inside a).
      * destruct (Ho k x Hk Hx Hi) as [-> ->]. by destruct (inside a').
  - intros k v [[-> Hv]|[Hk Hx]]%Hl; [by apply H9|]. destruct H10 as [->|Hin]; [by apply (I11 k)|].
    by destruct (Ho k _ Hk Hx eq_refl) as [Hf _]; rewrite Hf in Hin.
  - rewrite (count_insert l j a a' Hj), <- I12. done.
  - intros Hd k x [[-> ->]|[_ Hx]]%Hl Hn; [|by apply (I13 Hd k)]. apply H11. by apply (I13 Hd j).
Qed.

Lemma inv_leave enable completion complete b l j :
  inv (State (Shared true enable completion complete) b l) -> l !! j = Some AInit ->
  inv (State (Shared false enable completion complete) b (<[j := AWaitEnable]> l)).
Proof using.
  clear Hbsp. intros [I1 I2 I3 I4 I5 I6 I7 I8 I9 I10 I11 I12 I13] Hj; simpl in *.
  assert (forall k x, <[j := AWaitEnable]> l !! k = Some x -> (k = j /\ x = AWaitEnable) \/ (k <> j /\ l !! k = Some x)) as Hl.
  { intros k x Hk. apply list_lookup_insert_Some in Hk. naive_solver. }
  destruct (I5 j Hj) as [-> _]. split; simpl; try done.
  - by rewrite length_insert.
  - intros k x [[-> ->]|[_ Hx]]%Hl; [|by apply I3]. rewrite <- (I3 j AInit Hj). done.
  - intros k [[_ Hx]|[Hk Hx]]%Hl; [done|]. destruct (I5 k Hx) as [[= ->] _]. done.
  - intros _ k x [[-> ->]|[_ Hx]]%Hl; [done|by apply (I8 eq_refl k)].
  - intros k m x y [[-> ->]|[Hk Hx]]%Hl [[-> ->]|[Hm Hy]]%Hl; try done. by apply I9.
  - rewrite I10. split; intros (k & x & Hx & Hi).
    + exists k, x. split; [|done]. rewrite list_lookup_insert_ne; [done|]. intros ->. rewrite Hj in Hx. by injection Hx as <-.
    + apply Hl in Hx as [[-> ->]|[_ Hx]]; [done|]. by exists k, x.
  - intros k v [[_ Hv]|[_ Hx]]%Hl; [done|]. by apply (I11 k).
  - rewrite (count_insert l j AInit AWaitEnable Hj). simpl. lia.
Qed.

Lemma inv_ap s j : inv s -> inv (at_ap j s).
Proof using.
  clear Hbsp. destruct s as [[boot enable completion complete] b l]. intros I. unfold at_ap. simpl.
  destruct (l !! j) as [a|] eqn:Hj; [|done].
  assert (early a = false -> released b = true) as Hr.
  { intros He. destruct (released b) eqn:Er; [done|]. pose proof (i_early _ I Er j a Hj). congruence. }
  assert (enable = false -> a <> AParked -> released b = true) as Hen.
  { intros -> Ha. pose proof (i_enable _ I) as He. simpl in He. destruct b; try done.
    destruct (proj1 (i_awake _ I j a Hj) Ha) as [Hw _]. simpl in Hw. lia. }
  destruct a; cbn [ap_step]; unfold try_acquire, spinlock_release.
  - by rewrite list_insert_id.
  - pose proof (i_init _ I j Hj) as [_ Hb]. simpl in Hb. subst boot. by apply inv_leave.
  - destruct enable; [by rewrite list_insert_id|]. eapply inv_move; [exact I|exact Hj|done..|right; by apply Hen|done|done|simpl; lia|done|by left|done].
  - eapply inv_move; [exact I|exact Hj|done..|right; by apply Hr|done|done|simpl; lia|done|by left|done].
  - destruct completion; [by rewrite list_insert_id|].
    eapply inv_move; [exact I|exact Hj|done..|right; by apply Hr|done|done|simpl; lia|done|by left|done].
  - assert (completion = true) as -> by (apply (i_lock _ I); eauto).
    eapply inv_move; [exact I|exact Hj|done..|right; by apply Hr|done|done|simpl; lia|by intros v [= <-]|by left|done].
  - assert (completion = true) as -> by (apply (i_lock _ I); eauto). pose proof (i_value _ I j v Hj) as Hv. simpl in Hv. subst v.
    eapply inv_move; [exact I|exact Hj|done..|right; by apply Hr|done|done|simpl; lia|done|by right|done].
  - eapply inv_move; [exact I|exact Hj|done..|right; by apply Hr|done|done|simpl; lia|done|by left|done].
  - by rewrite list_insert_id.
Qed.

Lemma smp_invariant s : reachable cpus arch_bsp_id s -> inv s.
Proof using Hbsp. induction 1 as [|s s' _ IH Hs]; [apply inv_initial|]. destruct Hs; [by apply inv_bsp|by apply inv_ap]. Qed.

(** ** Progress *)

#[local] Instance ap_pc_eq : EqDecision ap_pc.
Proof using. solve_decision. Defined.

Lemma count_idle l b : forall n, n = length l -> (forall j a, l !! j = Some a -> counted a = negb (Nat.eqb j b)) -> (b < n)%nat ->
  count l = Z.of_nat n - 1.
Proof using.
  revert b. induction l as [|x l IH]; intros b n -> Hl Hb; [simpl in Hb; lia|]. rewrite count_cons, (Hl 0%nat x eq_refl).
  destruct b as [|b]; simpl.
  - assert (count l = Z.of_nat (length l)) as ->; [|lia].
    assert (Forall (fun a => counted a = true) l) as Hf by (apply Forall_lookup; intros j a Ha; by apply (Hl (S j))).
    clear -Hf. induction Hf as [|y l Hy _ IH]; [done|]. rewrite count_cons, Hy, IH. simpl. lia.
  - rewrite (IH b (length l)); [lia|done| |simpl in Hb; lia]. intros j a Ha. by apply (Hl (S j)).
Qed.

(** Nobody between the start and the end: everybody has counted. *)
Lemma idle_count s : inv s -> bsp s = BWaitComplete -> Forall (fun a => ~ (a <> AParked /\ a <> AEnabled)) (aps s) ->
  count (aps s) = Z.of_nat (length cpus) - 1.
Proof using Hbsp.
  intros I Eb Hf. destruct Hbsp as (b & Hb & Hu). apply (count_idle (aps s) b); [by rewrite (i_length _ I)| |by apply lookup_lt_Some in Hb].
  intros j a Hj. pose proof (Forall_lookup_1 _ _ _ _ Hf Hj) as Hd. cbn beta in Hd. pose proof (i_awake _ I j a Hj) as Hw. rewrite Eb in Hw. simpl in Hw.
  apply lookup_lt_Some in Hj. rewrite (i_length _ I) in Hj. destruct (Nat.eqb_spec j b) as [->|Hne]; simpl.
  - destruct (decide (a = AParked)) as [->|Hp]; [done|]. destruct (proj1 Hw Hp) as [_ Hx]. congruence.
  - assert (a <> AParked) as Hp by (apply Hw; split; [done|]; intros Hx; by apply Hne, Hu).
    destruct (decide (a = AEnabled)) as [->|He]; [done|]. exfalso. by apply Hd.
Qed.

(** How many steps a processor has left. *)
Definition bsp_rank (b : bsp_pc) : nat :=
  match b with
  | BLockEnable => 3 * length cpus + 4
  | BLoop i => 3 * (length cpus - i) + 3
  | BWake i => 3 * (length cpus - i) + 2
  | BWait i => 3 * (length cpus - i) + 1
  | BBooted => 2
  | BWaitComplete => 1
  | BDone => 0
  end.

Definition ap_rank (a : ap_pc) : nat :=
  match a with
  | AParked => 8
  | AInit => 7
  | AWaitEnable => 6
  | AInstall => 5
  | ALock => 4
  | AReading => 3
  | AWriting _ => 2
  | AUnlock => 1
  | AEnabled => 0
  end.

Definition rank (s : smp) : nat := bsp_rank (bsp s) + sum_list (ap_rank <$> aps s).

Lemma rank_insert l : forall j a a', l !! j = Some a ->
  (sum_list (ap_rank <$> <[j := a']> l) + ap_rank a = sum_list (ap_rank <$> l) + ap_rank a')%nat.
Proof using.
  induction l as [|x l IH]; intros j a a' Hj; [done|]. destruct j as [|j].
  - injection Hj as ->. simpl. lia.
  - change (<[S j := a']> (x :: l)) with (x :: <[j := a']> l). cbn [fmap list_fmap sum_list]. specialize (IH j a a' Hj). lia.
Qed.

Lemma ap_step_rank gs a : snd (ap_step gs a) = a /\ fst (ap_step gs a) = gs \/ (ap_rank (snd (ap_step gs a)) < ap_rank a)%nat.
Proof using. destruct gs as [boot enable completion complete]. destruct a, enable, completion; simpl; auto; right; lia. Qed.

Lemma rank_step s s' : inv s -> step cpus arch_bsp_id s s' -> s' = s \/ (rank s' < rank s)%nat.
Proof using.
  intros I Hs. destruct Hs as [s|s j].
  - destruct s as [[boot enable completion complete] b l]. unfold rank. destruct b; cbn [bsp_step]; unfold try_acquire.
    + destruct enable; [by left|right]. simpl. lia.
    + destruct (cpus !! i) as [id|] eqn:Hi; [|right; simpl; lia]. apply lookup_lt_Some in Hi.
      btest; [right; simpl; lia|]. destruct boot; [by left|right; simpl; lia].
    + right. destruct (i_wake _ I i eq_refl) as (Hi & Hn & _). simpl.
      assert (is_Some (l !! i)) as [x Hx] by (apply lookup_lt_is_Some; pose proof (i_length _ I) as Hlen; cbn in Hlen; lia).
      assert (x = AParked) as -> by (destruct (i_awake _ I i x Hx) as [Hw _]; simpl in Hw; destruct x; try done; exfalso; (destruct Hw as [Hw _]; [done|lia])).
      pose proof (rank_insert l i AParked AInit Hx). simpl in *. lia.
    + destruct boot; [by left|right]. pose proof (i_index _ I) as Hi. cbn in Hi. cbn [bsp aps bsp_rank]. lia.
    + right. simpl. lia.
    + btest; [right; simpl; lia|by left].
    + by left.
  - unfold at_ap. destruct (aps s !! j) as [a|] eqn:Hj; [|by left]. pose proof (ap_step_rank (g s) a) as Hr.
    destruct (ap_step (g s) a) as [g' a']. simpl in Hr. destruct Hr as [[-> ->]|Hr].
    + left. rewrite list_insert_id by done. by destruct s.
    + right. unfold rank. simpl. pose proof (rank_insert (aps s) j a a' Hj). lia.
Qed.

(** Everybody arrived. *)
Definition finished (s : smp) : Prop :=
  bsp s = BDone /\ forall j a, aps s !! j = Some a -> cpus !! j <> Some arch_bsp_id -> a = AEnabled.

(** A processor whose step lowers its rank moves the system. *)
Lemma ap_moves s j a : aps s !! j = Some a -> (ap_rank (snd (ap_step (g s) a)) < ap_rank a)%nat ->
  exists s', step cpus arch_bsp_id s s' /\ s' <> s.
Proof using.
  intros Hj Hr. exists (at_ap j s). split; [constructor|]. unfold at_ap. rewrite Hj. destruct (ap_step (g s) a) as [g' a'].
  intros E. assert (aps s !! j = Some a') as Ha. { rewrite <- E. simpl. apply list_lookup_insert_eq. by apply lookup_lt_Some in Hj. }
  rewrite Hj in Ha. injection Ha as <-. simpl in Hr. lia.
Qed.

(** Somebody inside the lock moves. *)
Lemma inside_moves s : inv s -> arch_mp_completion_lock (g s) = true -> exists s', step cpus arch_bsp_id s s' /\ s' <> s.
Proof using.
  intros I Hl. destruct (proj1 (i_lock _ I) Hl) as (k & x & Hx & Hi).
  apply (ap_moves s k x Hx). destruct (g s) as [boot enable completion complete]. destruct x; try done; simpl; lia.
Qed.

(** Once they are let go, everybody who is awake and not done moves, or waits for
    somebody who does. *)
Lemma awake_moves s j a : inv s -> arch_mp_enable_scheduler_lock (g s) = false -> aps s !! j = Some a ->
  a <> AParked -> a <> AEnabled -> exists s', step cpus arch_bsp_id s s' /\ s' <> s.
Proof using.
  intros I He Hj H1 H2. destruct (arch_mp_completion_lock (g s)) eqn:Hl; [by apply inside_moves|].
  apply (ap_moves s j a Hj). destruct (g s) as [boot enable completion complete]. simpl in *. subst enable completion.
  destruct a; try done; simpl; lia.
Qed.

Lemma bsp_moves s : (bsp (bsp_step cpus arch_bsp_id s) <> bsp s) -> exists s', step cpus arch_bsp_id s s' /\ s' <> s.
Proof using. intros Hb. exists (bsp_step cpus arch_bsp_id s). split; [constructor|]. congruence. Qed.

Lemma startup_progress s : inv s -> finished s \/ exists s', step cpus arch_bsp_id s s' /\ s' <> s.
Proof using Hbsp.
  intros I. destruct (bsp s) eqn:Eb.
  - right. apply bsp_moves. pose proof (i_enable _ I) as He. destruct s as [[boot enable completion complete] b l]. simpl in *. by subst.
  - right. apply bsp_moves. pose proof (i_boot _ I) as Hb. destruct s as [[boot enable completion complete] b l]. simpl in *. subst b. cbn [bsp_step].
    destruct (cpus !! i); [|done]. btest; [intros [= ?]; lia|]. unfold try_acquire. destruct boot; [|done]. by destruct (Hb eq_refl) as [[? ?]|(? & ? & ?)].
  - right. apply bsp_moves. destruct s as [[boot enable completion complete] b l]. simpl in *. by subst.
  - right. destruct (arch_mp_bootstrap_lock (g s)) eqn:Hl.
    + destruct (i_boot _ I Hl) as [[? ?]|(k & Hk & Hx)]; [congruence|]. apply (ap_moves s k AInit Hx).
      destruct (g s) as [boot enable completion complete]. simpl. lia.
    + apply bsp_moves. destruct s as [[boot enable completion complete] b l]. simpl in *. by subst.
  - right. apply bsp_moves. destruct s as [[boot enable completion complete] b l]. simpl in *. by subst.
  - right. pose proof (i_enable _ I) as He. rewrite Eb in He. simpl in He.
    destruct (decide (arch_complete (g s) = Z.of_nat (length cpus) - 1)) as [Hc|Hc].
    { apply bsp_moves. destruct s as [[boot enable completion complete] b l]. simpl in *. subst b complete. cbn [bsp_step]. by rewrite Z.eqb_refl. }
    destruct (decide (Exists (fun a => a <> AParked /\ a <> AEnabled) (aps s))) as [Hx|Hx].
    + apply Exists_exists in Hx as (a & [j Hj]%list_elem_of_lookup_1 & H1 & H2). by apply (awake_moves s j a).
    + exfalso. apply Hc. rewrite (i_count _ I). apply not_Exists_Forall in Hx; [|apply _]. by apply idle_count.
  - destruct (decide (Exists (fun a => a <> AParked /\ a <> AEnabled) (aps s))) as [Hx|Hx].
    + right. apply Exists_exists in Hx as (a & [j Hj]%list_elem_of_lookup_1 & H1 & H2). apply (awake_moves s j a); try done.
      pose proof (i_enable _ I) as He. by rewrite Eb in He.
    + left. split; [done|]. intros j a Hj Hn. apply not_Exists_Forall in Hx; [|apply _].
      pose proof (i_done _ I Eb j a Hj Hn). pose proof (Forall_lookup_1 _ _ _ _ Hx Hj) as Hd. cbn beta in Hd.
      destruct (decide (a = AEnabled)); [done|]. exfalso. apply Hd. split; [|done]. by intros ->.
Qed.
End Invariant.

(** * Properties *)

(** C25. In every interleaving of the start of the processors at most one of them is in its
    initialisation, and then the first one waits for it; none installs its scheduler before the
    first one releases the lock; when the first one goes on all the others have installed
    theirs; and arch_complete is the number of those that are past the increment. *)
Theorem smp_startup_ordered (cpus : list Z) (arch_bsp_id : Z) (s : smp) :
  (exists b, cpus !! b = Some arch_bsp_id /\ forall j, cpus !! j = Some arch_bsp_id -> j = b) ->
  reachable cpus arch_bsp_id s ->
  (forall j, aps s !! j = Some AInit -> bsp s = BWait j /\ forall k, aps s !! k = Some AInit -> k = j) /\
  (forall j a, aps s !! j = Some a -> installed a = true -> released (bsp s) = true) /\
  (forall j a, bsp s = BDone -> aps s !! j = Some a -> cpus !! j <> Some arch_bsp_id -> installed a = true) /\
  arch_complete (g s) = count (aps s).
Proof.
  intros Hb Hr. pose proof (smp_invariant cpus arch_bsp_id Hb s Hr) as I. split_and!.
  - intros j Hj. destruct (i_init _ _ _ I j Hj) as [Hw _]. split; [done|]. intros k Hk.
    destruct (i_init _ _ _ I k Hk) as [Hw' _]. rewrite Hw in Hw'. by injection Hw'.
  - intros j a Hj Hi. destruct (released (bsp s)) eqn:Er; [done|]. pose proof (i_early _ _ _ I Er j a Hj). by destruct a.
  - intros j a Hd Hj Hn. pose proof (i_done _ _ _ I Hd j a Hj Hn). by destruct a.
  - apply (i_count _ _ _ I).
Qed.

(** Three processors; the second entry is the first processor. *)
Definition demo_cpus : list Z := [4; 0; 6].

Lemma demo_one_bsp : exists b, demo_cpus !! b = Some 0 /\ forall j, demo_cpus !! j = Some 0 -> j = b.
Proof. exists 1%nat. split; [reflexivity|]. intros [|[|[|j]]] Hj; try discriminate Hj. reflexivity. Qed.

(** The first processor starts another one. *)
Definition demo_start : smp := bsp_step demo_cpus 0 (bsp_step demo_cpus 0 (bsp_step demo_cpus 0 (initial demo_cpus))).

Lemma demo_start_reachable : reachable demo_cpus 0 demo_start.
Proof. repeat (eapply reach_step; [|constructor]). constructor. Qed.

Lemma smp_startup_ordered_witness :
  aps demo_start !! 0%nat = Some AInit /\ bsp demo_start = BWait 0 /\
  forall j a, aps demo_start !! j = Some a -> installed a = true -> released (bsp demo_start) = true.
Proof.
  destruct (smp_startup_ordered demo_cpus 0 demo_start demo_one_bsp demo_start_reachable) as (H1 & H2 & _ & _).
  split; [reflexivity|]. split; [apply H1; reflexivity|exact H2].
Defined.

(** C26. From every reachable state of the start of the processors either all are finished or
    some processor can take a step that changes the state, and every such step lowers a rank, so
    the start terminates in every interleaving. *)
Theorem smp_startup_completes (cpus : list Z) (arch_bsp_id : Z) (s : smp) :
  (exists b, cpus !! b = Some arch_bsp_id /\ forall j, cpus !! j = Some arch_bsp_id -> j = b) ->
  reachable cpus arch_bsp_id s ->
  (finished cpus arch_bsp_id s \/ exists s', step cpus arch_bsp_id s s' /\ s' <> s) /\
  (forall s', step cpus arch_bsp_id s s' -> s' = s \/ (rank cpus s' < rank cpus s)%nat).
Proof.
  intros Hb Hr. pose proof (smp_invariant cpus arch_bsp_id Hb s Hr) as I. split.
  - by apply startup_progress.
  - intros s' Hs. by apply (rank_step cpus arch_bsp_id).
Qed.

Lemma smp_startup_completes_witness :
  (finished demo_cpus 0 demo_start \/ exists s', step demo_cpus 0 demo_start s' /\ s' <> demo_start) /\ rank demo_cpus demo_start = 33%nat.
Proof.
  destruct (smp_startup_completes demo_cpus 0 demo_start demo_one_bsp demo_start_reachable) as [H _].
  split; [exact H|reflexivity].
Defined.
