(* ===== verification/Stages.v ===== *)
(** The stages of the initialisation of a processor: [arch/x86_64/arch.c],
    [arch_table_manager_init] of [page_table_manager/table_manager.c],
    [devices/timers/timers.c], the part of [smp/smp.c] that a woken processor runs
    on its own, and the assembly that enables the vector registers and changes
    the stack.  They are the operations of the other files, called in order on one
    machine. *)

From S2P Require Import Prelude Memory Libc Spinlock PageAllocator PageAllocatorSpec PageTable AddressSpace BlockAllocator BlockAllocatorSpec Paths KernelHeap Scheduler Clock Acpi Descriptors Timers.

(** * The machine *)

(** What the code refers to by address: functions, strings, the names of the time
    sources. *)
Record kernel_image := Image {
  arch_isr_handlers : Z;
  arch_syscall_entry_at : Z;
  arch_xapic_isr_handler_entry : Z;
  str_HPET : Z;
  str_FACP : Z;
  hpet_name : Z;
  tsc_name : Z;
  xapic_name : Z;
  hpet_read_at : Z;
  hpet_sleep_at : Z;
  tsc_read_at : Z;
  tsc_sleep_at : Z;
  one_shot_at : Z;
  interrupt_now_at : Z
}.

(** The answers of the boot loader. *)
Record boot_info := BootInfo {
  memory_map : list limine_memmap_entry;
  LIMINE_MEMMAP_EXECUTABLE_AND_MODULES : Z;
  kernel_physical_base : Z;
  kernel_virtual_base : Z
}.

(** One processor with the memory: the registers that the stages set, and the
    globals of the files. *)
Record machine (P H : Type) := Machine {
  mc_timers : timers P (sched H);
  mc_cr0 : Z;
  mc_cr3 : Z;
  mc_cr4 : Z;
  mc_xcr0 : Z;
  mc_rsp : Z;
  arch_bootstrap_page_table : Z;
  arch_global_idtr : Z * Z;
  arch_bsp_id : Z;
  acpi_fadt : Z
}.
Arguments Machine {P H}.
Arguments mc_timers {P H}.
Arguments mc_cr0 {P H}.
Arguments mc_cr3 {P H}.
Arguments mc_cr4 {P H}.
Arguments mc_xcr0 {P H}.
Arguments mc_rsp {P H}.
Arguments arch_bootstrap_page_table {P H}.
Arguments arch_global_idtr {P H}.
Arguments arch_bsp_id {P H}.
Arguments acpi_fadt {P H}.

(** ** Vector registers, [arch/x86_64/simd/simd.asm] *)

(** [and ax, mask] and [or ax, v] on the whole register. *)
Definition and_low16 (mask r : Z) : Z := Z.lor (Z.land r 0xFFFFFFFFFFFF0000) (Z.land r mask).

Definition sse_enable (cr : Z * Z) : Z * Z :=
  let '(cr0, cr4) := cr in
  (Z.lor (and_low16 0xFFFB cr0) 2, Z.lor cr4 (Z.shiftl 3 9)).

(** [cpuid] leaf 1 gives [ecx]; without bit 28 nothing is enabled.  [or eax]
    clears the upper half of the register. *)
Definition avx_enable (cpuid1_ecx : Z) (cr : Z * Z) : Z * Z :=
  let '(cr4, xcr0) := cr in
  if Z.land cpuid1_ecx (Z.shiftl 1 28) =? 0 then (cr4, xcr0)
  else (u32 (Z.lor cr4 0x40000), Z.lor xcr0 6).

Section Model.
Context (kernel_hhdm_offset : Z) (img : kernel_image) (boot : boot_info).
Context {P : Type} `{!Platform P} {H : Type} `{!KernelHeap H} (polls : nat).
Implicit Types m : machine P H.

#[local] Instance sched_heap : KernelHeap (sched H) := lift_heap sc_heap with_heap.

Definition set_timers m (t : timers P (sched H)) : machine P H :=
  Machine t (mc_cr0 m) (mc_cr3 m) (mc_cr4 m) (mc_xcr0 m) (mc_rsp m) (arch_bootstrap_page_table m) (arch_global_idtr m) (arch_bsp_id m)
    (acpi_fadt m).
Definition set_cr3 m (table cr3 : Z) : machine P H :=
  Machine (mc_timers m) (mc_cr0 m) cr3 (mc_cr4 m) (mc_xcr0 m) (mc_rsp m) table (arch_global_idtr m) (arch_bsp_id m) (acpi_fadt m).
Definition set_idtr m (idtr : Z * Z) : machine P H :=
  Machine (mc_timers m) (mc_cr0 m) (mc_cr3 m) (mc_cr4 m) (mc_xcr0 m) (mc_rsp m) (arch_bootstrap_page_table m) idtr (arch_bsp_id m)
    (acpi_fadt m).

Definition mc_control m : control := tm_control (mc_timers m).
Definition mc_sched m : sched H := tm_src (mc_timers m).
Definition mc_mem m : mem := kh_mem (sc_heap (mc_sched m)).
Definition with_control m (c : control) : machine P H := set_timers m (set_control (mc_timers m) c).
Definition with_sched m (s : sched H) : machine P H := set_timers m (set_src (mc_timers m) s).

(** An operation of the timers on the machine. *)
Definition run (f : timers P (sched H) -> outcome (timers P (sched H))) m : outcome (machine P H) :=
  t ← f (mc_timers m); Done (set_timers m t).

Definition arch_simd_enable (cpuid1_ecx : Z) m : machine P H :=
  let '(cr0, cr4) := sse_enable (mc_cr0 m, mc_cr4 m) in
  let '(cr4, xcr0) := avx_enable cpuid1_ecx (cr4, mc_xcr0 m) in
  Machine (mc_timers m) cr0 (mc_cr3 m) cr4 xcr0 (mc_rsp m) (arch_bootstrap_page_table m) (arch_global_idtr m) (arch_bsp_id m) (acpi_fadt m).

(** The return address moves to the new stack, from which it is popped again. *)
Definition arch_swap_stack (return_address new_stack new_stack_size : Z) m : machine P H :=
  let top := new_stack +w new_stack_size in
  let s := mc_sched m in
  let m := with_sched m (with_heap s (kh_with_mem (sc_heap s) (st64 (kh_mem (sc_heap s)) (top -w 8) return_address))) in
  Machine (mc_timers m) (mc_cr0 m) (mc_cr3 m) (mc_cr4 m) (mc_xcr0 m) top (arch_bootstrap_page_table m) (arch_global_idtr m) (arch_bsp_id m)
    (acpi_fadt m).

(** ** The page table *)

Definition arch_table_manager_switch_to (table : Z) m : machine P H :=
  set_cr3 m (arch_bootstrap_page_table m) (table -w kernel_hhdm_offset).

Definition arch_table_manager_init m : outcome (machine P H) :=
  '(table, s) ← arch_table_manager_create_bootstrap_table_limine kernel_hhdm_offset (LIMINE_MEMMAP_EXECUTABLE_AND_MODULES boot)
     (kernel_physical_base boot) (kernel_virtual_base boot) (memory_map boot) (mc_sched m);
  let m := set_cr3 (with_sched m s) table (mc_cr3 m) in
  Done (arch_table_manager_switch_to (arch_bootstrap_page_table m) m).

(** ** One call each, on the machine *)

Definition load_gdt m : outcome (machine P H) :=
  '(c, s) ← arch_load_gdt (mc_control m) (mc_sched m);
  Done (with_sched (with_control m c) s).

Definition interrupts_init m : outcome (machine P H) :=
  '(idtr, c, s) ← arch_interrupts_init (arch_isr_handlers img) (mc_control m) (mc_sched m);
  Done (with_sched (with_control (set_idtr m idtr) c) s).

Definition xapic_init m : outcome (machine P H) :=
  '(is_bsp, cpu_id, t) ← arch_xapic_init kernel_hhdm_offset (arch_bootstrap_page_table m) (arch_bsp_id m) (mc_timers m);
  s ← arch_xapic_init_context is_bsp cpu_id (tm_src t);
  Done (set_timers m (set_src t s)).

Definition hpet_init (a : acpi) m : outcome (machine P H) :=
  run (arch_hpet_init kernel_hhdm_offset (arch_bootstrap_page_table m) (hpet_name img) (hpet_read_at img) (hpet_sleep_at img) a (str_HPET img)) m.

Definition tsc_init m : outcome (machine P H) :=
  run (arch_tsc_init kernel_hhdm_offset polls (tsc_name img) (hpet_sleep_at img) (tsc_read_at img) (tsc_sleep_at img)) m.

Definition syscall_init m : machine P H := with_control m (arch_syscall_init (arch_syscall_entry_at img) (mc_control m)).

Definition xapic_timer_init m : outcome (machine P H) :=
  run (arch_xapic_timer_init kernel_hhdm_offset polls (xapic_name img) (hpet_sleep_at img) (tsc_sleep_at img) (one_shot_at img)
    (interrupt_now_at img) (arch_bsp_id m) (snd (arch_global_idtr m)) (arch_xapic_isr_handler_entry img)) m.

(** ** The stages, [arch/x86_64/arch.c] *)

Definition arch_early_init m : machine P H := set_timers m (arch_tsc_reset (mc_timers m)).

Definition arch_init (a : acpi) m : outcome (machine P H) :=
  m ← load_gdt m;
  m ← interrupts_init m;
  m ← arch_table_manager_init m;
  m ← xapic_init m;
  m ← hpet_init a m;
  m ← tsc_init m;
  Done (syscall_init m).

Definition arch_late_init m : outcome (machine P H) := xapic_timer_init m.

(** [devices/timers/timers.c]. *)
Definition timers_init (a : acpi) m : machine P H :=
  Machine (mc_timers m) (mc_cr0 m) (mc_cr3 m) (mc_cr4 m) (mc_xcr0 m) (mc_rsp m) (arch_bootstrap_page_table m) (arch_global_idtr m)
    (arch_bsp_id m) (acpi_pm_timer_init kernel_hhdm_offset a (str_FACP img) (mc_mem m)).

(** ** Another processor, [arch/x86_64/smp/smp.c] *)

(** [arch_bootstrap_entry_limine] up to the release of [arch_mp_bootstrap_lock]
    is [processor_load], then [processor_finish]; the machine has the registers
    of the woken processor. *)
Definition processor_load (cpuid1_ecx return_address : Z) m : outcome (machine P H) :=
  let m := arch_simd_enable cpuid1_ecx m in
  m ← load_gdt m;
  let m := arch_table_manager_switch_to (arch_bootstrap_page_table m) m in
  '(stack, s) ← kh_page_allocate 1 (mc_sched m);
  let m := arch_swap_stack return_address stack (1 * PAGE) (with_sched m s) in
  m ← xapic_init m;
  xapic_timer_init m.

Definition processor_finish m : machine P H :=
  syscall_init (with_control m (arch_idt_load (arch_global_idtr m) (mc_control m))).

Definition processor_init (cpuid1_ecx return_address : Z) m : outcome (machine P H) :=
  m ← processor_load cpuid1_ecx return_address m;
  Done (processor_finish m).
End Model.
