(* ===== verification/StagesSpec.v ===== *)
(** What the stages of the initialisation establish: the descriptor tables, the
    page table and the clock after [arch_init], the gate of the timer after
    [arch_late_init], and the tables of another processor.  The first part shows
    what mapping pages leaves alone. *)

From S2P Require Import Prelude Memory Libc Spinlock PageAllocator PageAllocatorSpec PageTable AddressSpace BlockAllocator BlockAllocatorSpec Paths KernelHeap Scheduler Clock Acpi Descriptors Timers Stages.

(** * What mapping leaves alone *)

Section Kept.
Context (hhdm : Z) (Hh : hhdm_ok hhdm) {St : Type} `{!PageSource St} `{!PageSourceLaws hhdm St}.
Implicit Types s : St.

Lemma kept_refl s lev : kept s lev s lev.
Proof using. by intros a Ha Hl. Qed.

Lemma layer_kept s root lev l k i flags c s' :
  tree_wf hhdm s root lev -> lev !! l = Some (S (S k)) -> 0 <= i < 512 ->
  arch_table_manager_allocate_next_layer hhdm s l i flags = Done (c, s') ->
  exists lev', tree_wf hhdm s' root lev' /\ lev ⊆ lev' /\ lev' !! c = Some (S k) /\ kept s lev s' lev'.
Proof using All.
  intros W L Hi E. destruct (allocate_next_layer_spec hhdm Hh s root lev l k i flags W L Hi)
    as [E1|(c1 & s1 & lev1 & E1 & W1 & G1 & L1 & _ & K1)]; rewrite E1 in E; [done|]. injection E as -> ->.
  exists lev1. split_and!; [done|apply G1|done|done].
Qed.

Lemma entries_kept n : forall s root lev m i pa flags,
  tree_wf hhdm s root lev -> lev !! m = Some 1%nat -> 0 <= i -> i + Z.of_nat n <= 512 -> in_u64 flags ->
  pa mod PAGE = 0 -> 0 <= pa -> pa + Z.of_nat n * PAGE <= 4503599627370496 ->
  tree_wf hhdm (map_entries s m i pa flags n) root lev /\ kept s lev (map_entries s m i pa flags n) lev.
Proof using All.
  induction n as [|n IH]; intros s root lev m i pa flags W L H0 Hn Hf Ha Hp Hb; cbn [map_entries]; [split; [done|apply kept_refl]|].
  assert (pa +w PAGE = pa + PAGE) as -> by (apply u64_small; unfold PAGE in *; lia).
  assert (tree_wf hhdm (set_leaf s m i pa flags) root lev) as W1.
  { assert (frame_ok pa) by (split; [done|unfold PAGE in *; lia]). assert (0 <= i < 512) by lia. by apply (leaf_wf hhdm). }
  destruct (IH (set_leaf s m i pa flags) root lev m (i + 1) (pa + PAGE) flags) as [W2 K2];
    [done|done|lia|lia|done|unfold PAGE in *; zlia|unfold PAGE in *; lia..|].
  split; [done|]. eapply kept_trans; [|exact K2]. unfold set_leaf. eapply (set_entry_kept hhdm); [done|done|lia].
Qed.

(** The three ways to get the next leaf layer. *)
Lemma layers_kept s root lev i3 i2 i1 flags {A} (f : Z * Z * Z * St -> outcome A) (r : A) :
  tree_wf hhdm s root lev -> 0 <= i3 < 512 -> 0 <= i2 < 512 -> 0 <= i1 < 512 ->
  ('(c3, s) ← arch_table_manager_allocate_next_layer hhdm s root i3 flags;
   '(c2, s) ← arch_table_manager_allocate_next_layer hhdm s c3 i2 flags;
   '(c1, s) ← arch_table_manager_allocate_next_layer hhdm s c2 i1 flags;
   f (c3, c2, c1, s)) = Done r ->
  exists c3 c2 c1 s' lev', tree_wf hhdm s' root lev' /\ kept s lev s' lev' /\
    lev' !! c3 = Some 3%nat /\ lev' !! c2 = Some 2%nat /\ lev' !! c1 = Some 1%nat /\ f (c3, c2, c1, s') = Done r.
Proof using All.
  intros W R3 R2 R1 E. apply bind_done_inv in E as ([c3 s1] & E1 & E). apply bind_done_inv in E as ([c2 s2] & E2 & E).
  apply bind_done_inv in E as ([c1 s3] & E3 & E).
  destruct (layer_kept _ _ _ _ _ _ _ _ _ W (tw_root _ _ _ _ W) R3 E1) as (lev1 & W1 & _ & L1 & K1).
  destruct (layer_kept _ _ _ _ _ _ _ _ _ W1 L1 R2 E2) as (lev2 & W2 & S2 & L2 & K2).
  destruct (layer_kept _ _ _ _ _ _ _ _ _ W2 L2 R1 E3) as (lev3 & W3 & S3 & L3 & K3).
  exists c3, c2, c1, s3, lev3. split_and!; [done| |by eapply lookup_weaken; [eapply lookup_weaken|]|by eapply lookup_weaken|done|done].
  eapply kept_trans; [exact K1|]. by eapply kept_trans.
Qed.

Lemma range_loop_kept fuel : forall s root lev i3 i2 i1 pml3 pml2 pml1 ip pa count flags s',
  tree_wf hhdm s root lev -> lev !! pml3 = Some 3%nat -> lev !! pml2 = Some 2%nat -> lev !! pml1 = Some 1%nat ->
  0 <= i3 < 512 -> 0 <= i2 < 512 -> 0 <= i1 < 512 -> 0 <= ip < 512 -> 0 <= count -> in_u64 flags ->
  (count <> 0 -> first_page i3 i2 i1 + ip + count <= 68719476736 - 512) ->
  pa mod PAGE = 0 -> 0 <= pa -> pa + count * PAGE <= 4503599627370496 ->
  map_range_loop hhdm root flags fuel s pml3 pml2 pml1 i3 i2 i1 ip pa count = Done s' ->
  exists lev', tree_wf hhdm s' root lev' /\ kept s lev s' lev'.
Proof using All.
  induction fuel as [|fuel IH]; intros s root lev i3 i2 i1 pml3 pml2 pml1 ip pa count flags s' W L3 L2 L1 R3 R2 R1 Hip Hn Hf Hb Ha H0 Hpa E;
    cbn [map_range_loop] in E; (destruct (Z.eqb_spec count 0) as [->|Hne]; [injection E as <-; exists lev; split; [done|apply kept_refl]|]); [done|].
  specialize (Hb Hne). set (n := if count <? 512 - ip then count else 512 - ip) in *.
  assert (n <= 512 - ip /\ 1 <= n <= count /\ (count - n <> 0 -> n = 512 - ip)) as (N1 & N2 & N3) by (unfold n; btest; lia).
  destruct (entries_kept (Z.to_nat n) s root lev pml1 ip pa flags) as [W1 K1]; [done|done|lia|lia|done|done|done|unfold PAGE in *; lia|].
  set (s1 := map_entries s pml1 ip pa flags (Z.to_nat n)) in *.
  assert (pa +w (n *w PAGE) = pa + n * PAGE) as EP.
  { rewrite (u64_small (n * PAGE)) by (unfold PAGE in *; lia). apply u64_small. unfold PAGE in *; lia. }
  rewrite EP in E. clear EP.
  assert (forall c3 c2 c1 j3 j2 j1 s2 lev2, tree_wf hhdm s2 root lev2 -> kept s1 lev s2 lev2 -> lev2 !! c3 = Some 3%nat ->
    lev2 !! c2 = Some 2%nat -> lev2 !! c1 = Some 1%nat -> 0 <= j3 < 512 -> 0 <= j2 < 512 -> 0 <= j1 < 512 ->
    first_page j3 j2 j1 = first_page i3 i2 i1 + 512 ->
    map_range_loop hhdm root flags fuel s2 c3 c2 c1 j3 j2 j1 0 (pa + n * PAGE) (count - n) = Done s' ->
    exists lev', tree_wf hhdm s' root lev' /\ kept s lev s' lev') as HK.
  { intros c3 c2 c1 j3 j2 j1 s2 lev2 W2 K2 M3 M2 M1 J3 J2 J1 Hfp E2.
    eapply IH in E2 as (lev' & W' & K'); try done; try lia; try (unfold PAGE in *; zlia).
    exists lev'. split; [done|]. eapply kept_trans; [exact K1|]. by eapply kept_trans. }
  unfold first_page in *. destruct (Z.leb_spec 512 (i1 + 1)); [destruct (Z.leb_spec 512 (i2 + 1))|].
  - assert (i3 + 1 < 512) by lia. eapply (layers_kept s1 root lev (i3 + 1) 0 0 flags (fun '(c3, c2, c1, s2) =>
      map_range_loop hhdm root flags fuel s2 c3 c2 c1 (i3 + 1) 0 0 0 (pa + n * PAGE) (count - n))) in E as
      (c3 & c2 & c1 & s2 & lev2 & W2 & K2 & M3 & M2 & M1 & E); try done; try lia.
    apply (HK c3 c2 c1 (i3 + 1) 0 0 s2 lev2); [exact W2|exact K2|exact M3|exact M2|exact M1|lia|lia|lia|lia|exact E].
  - apply bind_done_inv in E as ([c2 s2] & E2 & E). apply bind_done_inv in E as ([c1 s3] & E3 & E).
    destruct (layer_kept s1 root lev pml3 1 (i2 + 1) flags c2 s2 W1 L3 ltac:(lia) E2) as (lev2 & W2 & S2 & M2 & K2).
    destruct (layer_kept s2 root lev2 c2 0 0 flags c1 s3 W2 M2 ltac:(lia) E3) as (lev3 & W3 & S3 & M1 & K3).
    apply (HK pml3 c2 c1 i3 (i2 + 1) 0 s3 lev3); [exact W3|by eapply kept_trans|by eapply lookup_weaken; [eapply lookup_weaken|]|by eapply lookup_weaken|exact M1|lia|lia|lia|lia|exact E].
  - apply bind_done_inv in E as ([c1 s3] & E3 & E).
    destruct (layer_kept s1 root lev pml2 0 (i1 + 1) flags c1 s3 W1 L2 ltac:(lia) E3) as (lev3 & W3 & S3 & M1 & K3).
    apply (HK pml3 pml2 c1 i3 i2 (i1 + 1) s3 lev3); [exact W3|exact K3|by eapply lookup_weaken|by eapply lookup_weaken|exact M1|lia|lia|lia|lia|exact E].
Qed.

(** A table with its layers: pages that are not layers keep their bytes, the
    memory changes only below the bound of the source. *)
Record table_at s root (t : Z -> Z) (lev : gmap Z nat) : Prop := {
  ta_wf : tree_wf hhdm s root lev;
  ta_view : table_view hhdm s root t
}.

Definition remapped s (lev : gmap Z nat) s' (lev' : gmap Z nat) : Prop := kept s lev s' lev' /\ within s s'.

Lemma remapped_trans s1 lev1 s2 lev2 s3 lev3 : remapped s1 lev1 s2 lev2 -> remapped s2 lev2 s3 lev3 -> remapped s1 lev1 s3 lev3.
Proof using. intros [K1 W1] [K2 W2]. split; [by eapply kept_trans|by eapply within_trans]. Qed.

Lemma map_range_frame table va pa flags count s t lev :
  range_ok va pa count -> in_u64 flags -> table_at s table t lev ->
  arch_table_manager_map_range hhdm table va pa flags count s = Panicked \/
  exists s' lev', arch_table_manager_map_range hhdm table va pa flags count s = Done s' /\
    table_at s' table (overlay (page_number va) pa count t) lev' /\ remapped s lev s' lev'.
Proof using All.
  intros Hr Hf [W V]. destruct (map_range_view hhdm table va pa flags count s t Hh Hr Hf V) as [->|(s' & E & V' & Wi)]; [by left|right].
  destruct Hr as (Hn & Hva & Ha & H0 & Hpa). pose proof (indices_range va) as (R3 & R2 & R1 & R0). exists s'. pose proof E as E'.
  unfold arch_table_manager_map_range in E.
  eapply (layers_kept s table lev (pml3_index va) (pml2_index va) (pml1_index va) flags (fun '(c3, c2, c1, s2) =>
    map_range_loop hhdm table flags (Z.to_nat count) s2 c3 c2 c1 (pml3_index va) (pml2_index va) (pml1_index va) (p_index va) pa count)) in E
    as (c3 & c2 & c1 & s2 & lev2 & W2 & K2 & M3 & M2 & M1 & E); try done.
  destruct (range_loop_kept (Z.to_nat count) s2 table lev2 (pml3_index va) (pml2_index va) (pml1_index va) c3 c2 c1 (p_index va) pa count flags s')
    as (lev' & W' & K'); try done; try lia.
  - intros _. rewrite page_number_indices in Hva. unfold first_page. lia.
  - exists lev'. split_and!; [done|by split|split; [by eapply kept_trans|done]].
Qed.

Lemma map_frame table va pa flags s t lev :
  frame_ok pa -> in_u64 flags -> table_at s table t lev ->
  arch_table_manager_map hhdm table va pa flags s = Panicked \/
  exists s' lev', arch_table_manager_map hhdm table va pa flags s = Done s' /\
    table_at s' table (overlay (page_number va) pa 1 t) lev' /\ remapped s lev s' lev'.
Proof using All.
  intros Hr Hf [W V]. destruct (map_view hhdm table va pa flags s t Hh Hr Hf V) as [->|(s' & E & V' & Wi)]; [by left|right].
  destruct (map_kept hhdm table lev va pa flags s s' Hh Hr Hf W E) as (lev' & W' & K'). exists s', lev'. by split_and!.
Qed.

Lemma memmap_frame EXEC kpb kvb table entries : forall s t lev,
  Forall (fun e => let '(va, pa, n) := memmap_range hhdm EXEC kpb kvb e in range_ok va pa n) entries -> table_at s table t lev ->
  map_memmap hhdm EXEC kpb kvb table entries s = Panicked \/
  exists s' lev', map_memmap hhdm EXEC kpb kvb table entries s = Done s' /\
    table_at s' table (memmap_view hhdm EXEC kpb kvb entries t) lev' /\ remapped s lev s' lev'.
Proof using All.
  induction entries as [|e es IH]; intros s t lev Hf V.
  { right. exists s, lev. split_and!; [done|done|]. split; [apply kept_refl|apply within_refl]. }
  apply Forall_cons in Hf as [He Hes]. cbn [map_memmap]. unfold memmap_range in He.
  assert ((if entry_base e mod PAGE =? 0 then entry_base e else entry_base e - entry_base e mod PAGE)
    = entry_base e - entry_base e mod PAGE) as -> by (btest; lia).
  assert (in_u64 TABLE_ENTRY_READ_WRITE) as Hrw by (unfold TABLE_ENTRY_READ_WRITE; lia).
  unfold memmap_view. cbn [foldl]. unfold memmap_range at 2.
  destruct (entry_type e =? EXEC);
    (edestruct map_range_frame as [->|(s1 & lev1 & -> & V1 & K1)]; [exact He|exact Hrw|exact V|by left|]);
    cbn [mbind outcome_bind];
    (edestruct IH as [->|(s2 & lev2 & -> & V2 & K2)]; [exact Hes|exact V1|by left|right]);
    exists s2, lev2; (split_and!; [done|exact V2|by eapply remapped_trans]).
Qed.

(** The pages in use before stay outside the bootstrap table. *)
Lemma bootstrap_frame EXEC kpb kvb entries s :
  Forall (fun e => let '(va, pa, n) := memmap_range hhdm EXEC kpb kvb e in range_ok va pa n) entries -> src_ok s ->
  arch_table_manager_create_bootstrap_table_limine hhdm EXEC kpb kvb entries s = Panicked \/
  exists table s' lev', arch_table_manager_create_bootstrap_table_limine hhdm EXEC kpb kvb entries s = Done (table, s') /\
    table_at s' table (memmap_view hhdm EXEC kpb kvb entries (fun _ => 0)) lev' /\ remapped s ∅ s' lev'.
Proof using All.
  intros Hf Hok. unfold arch_table_manager_create_bootstrap_table_limine, arch_table_manager_new.
  destruct (page_alloc hhdm s Hok) as [->|(table & s1 & E)]; [by left|]. rewrite E. cbn [mbind outcome_bind].
  destruct (new_table_wf hhdm s s1 table Hok E) as [W1 _]. pose proof (new_view hhdm s s1 table Hh Hok E) as V1.
  destruct (alloc_one hhdm s s1 table Hok E) as (_ & Hn & Ho & _ & Hb & Wi).
  destruct (memmap_frame EXEC kpb kvb table entries s1 (fun _ => 0) {[table := 4%nat]} Hf) as [->|(s' & lev' & -> & V' & K')]; [by split|by left|right].
  exists table, s', lev'. split_and!; [done|done|]. eapply remapped_trans; [|exact K']. split; [|done].
  intros a Ha _. split_and!; [apply Ho; by left|apply lookup_singleton_ne; by intros ->|]. intros b Hx. apply Hb. by exists a.
Qed.
End Kept.

(** * Firmware tables apart from the pages *)

(** The [n] bytes at [a] are none of [R]. *)
Definition apart (R : Z -> Prop) (a n : Z) : Prop := forall b, a <= b < a + n -> ~ R b.

Section Firmware.
Context (hhdm : Z).

(** The width of the entries of the root table. *)
Definition sdt_width (m : mem) (a : acpi) : Z := if xsdp_revision m (acpi_sdp a) =? 0 then 4 else 8.

(** The root pointer, the root table, the signature, the headers of the tables and
    the table with the signature, of 56 bytes, are none of the bytes of [R]. *)
Definition tables_apart (R : Z -> Prop) (m : mem) (a : acpi) (signature : Z) : Prop :=
  apart R (acpi_sdp a) 16 /\
  apart R (acpi_sdt a) (sizeof_sdt_header + sdt_entries m (acpi_sdt a) (sdt_width m a) * sdt_width m a) /\
  apart R signature 4 /\
  (forall i, 0 <= i < sdt_entries m (acpi_sdt a) (sdt_width m a) -> apart R (sdt_entry hhdm m (acpi_sdt a) (sdt_width m a) i) sizeof_sdt_header) /\
  apart R (acpi_get_table hhdm m a signature) 56.

Section Apart.
Context (R : Z -> Prop) (m m' : mem) (Hc : changes R m m').

Lemma load_apart a n k p : apart R a n -> a <= p -> p + Z.of_nat k <= a + n -> le_load m' p k = le_load m p k.
Proof using Hc. intros Ha H1 H2. apply le_load_ext. intros b Hb. apply Hc, Ha. lia. Qed.

Lemma memcmp_apart n : forall p q, apart R p (Z.of_nat n) -> apart R q (Z.of_nat n) -> memcmp_loop m' p q n = memcmp_loop m p q n.
Proof using Hc.
  induction n as [|n IH]; intros p q Hp Hq; cbn [memcmp_loop]; [done|].
  rewrite (Hc p), (Hc q), IH; [done|intros b Hb; apply Hp; lia|intros b Hb; apply Hq; lia|apply Hq; lia|apply Hp; lia].
Qed.

Lemma find_table_apart sdt width signature n : 0 < width -> apart R signature 4 -> forall i, 0 <= i ->
  apart R sdt (sizeof_sdt_header + (i + Z.of_nat n) * width) ->
  (forall j, i <= j < i + Z.of_nat n -> apart R (sdt_entry hhdm m sdt width j) sizeof_sdt_header) ->
  find_table hhdm m' sdt width signature i n = find_table hhdm m sdt width signature i n.
Proof using Hc.
  intros Hw Hg. induction n as [|n IH]; intros i Hi Hs He; cbn [find_table]; [done|].
  pose proof (He i ltac:(lia)) as Hv.
  assert (sdt_entry hhdm m' sdt width i = sdt_entry hhdm m sdt width i) as ->.
  { unfold sdt_entry. rewrite (load_apart _ _ _ _ Hs); [done|unfold sizeof_sdt_header; nia|]. rewrite Z2Nat.id by lia. nia. }
  unfold memcmp. rewrite memcmp_apart; [|intros b Hb; apply Hv; unfold sizeof_sdt_header; lia|intros b Hb; apply Hg; lia].
  destruct (_ =? 0); [done|]. apply IH; [lia| |intros j Hj; apply He; lia].
  intros b Hb. apply Hs. lia.
Qed.

Lemma revision_apart a signature : tables_apart R m a signature -> xsdp_revision m' (acpi_sdp a) = xsdp_revision m (acpi_sdp a).
Proof using Hc. intros (H1 & _). apply Hc, H1. lia. Qed.

Lemma entries_apart a signature width : tables_apart R m a signature -> sdt_entries m' (acpi_sdt a) width = sdt_entries m (acpi_sdt a) width.
Proof using Hc.
  intros (_ & H2 & _). unfold sdt_entries, sdt_length, ld32. rewrite (load_apart _ _ _ _ H2); [done|lia|].
  unfold sizeof_sdt_header. assert (0 <= sdt_entries m (acpi_sdt a) (sdt_width m a) * sdt_width m a); [|lia].
  assert (0 < sdt_width m a) by (unfold sdt_width; destruct (_ =? 0); lia). unfold sdt_entries.
  pose proof (u64_range (sdt_length m (acpi_sdt a) - sizeof_sdt_header)).
  apply Z.mul_nonneg_nonneg; [apply Z.div_pos; lia|lia].
Qed.

Lemma get_table_apart a signature : tables_apart R m a signature ->
  acpi_get_table hhdm m' a signature = acpi_get_table hhdm m a signature.
Proof using Hc.
  intros Ha. pose proof (revision_apart a signature Ha) as Er. pose proof (fun w => entries_apart a signature w Ha) as En.
  destruct Ha as (H1 & H2 & H3 & H4 & _). unfold acpi_get_table, sdt_width in *. rewrite Er.
  assert (forall width, 0 < width -> 0 <= sdt_entries m (acpi_sdt a) width) as H0.
  { intros width Hw. unfold sdt_entries. pose proof (u64_range (sdt_length m (acpi_sdt a) - sizeof_sdt_header)). apply Z.div_pos; lia. }
  unfold acpi_get_table_rsdt, acpi_get_table_xsdt. rewrite !En.
  destruct (xsdp_revision m (acpi_sdp a) =? 0);
    (apply find_table_apart; [lia|done|lia| |]; rewrite Z2Nat.id by (apply H0; lia); rewrite Z.add_0_l; [exact H2|exact H4]).
Qed.
End Apart.
End Firmware.

(** * Tables in pages *)

Section Pages.
Context (hhdm : Z) {St : Type} `{!PageSource St} `{!PageSourceLaws hhdm St}.
Implicit Types s : St.

(** A segment table at [info] as [arch_load_gdt] builds it, [l] are its pages. *)
Record gdt_page s (info : Z) (l : list Z) : Prop := {
  gp_range : in_u64 (info + 200) /\ 0 <= info;
  gp_owned : Forall (src_owned s) l;
  gp_bytes : exists m0, (forall b, info <= b < info + 200 -> ld8 m0 b = 0) /\ same_bytes (fill_gdt info m0) (src_mem s) info off_tss;
  gp_stacks : exists p1 p2 p3, l = [p3; p2; p1; info] /\ NoDup l /\
    ld64 (src_mem s) (info + off_tss + off_ist 0) = p1 +w PAGE /\ ld64 (src_mem s) (info + off_tss + off_rsp 0) = p2 +w PAGE /\
    ld64 (src_mem s) (info + off_tss + off_rsp 2) = p3 +w PAGE
}.

(** An interrupt table whose vector [v] leads to [f v]. *)
Record idt_page s (offset : Z) (f : Z -> Z) : Prop := {
  ip_owned : src_owned s offset;
  ip_range : 0 <= offset /\ offset + 4096 <= 18446744073709551616;
  ip_gates : forall v, 0 <= v < 255 -> gate_to (src_mem s) (offset + v * 16) (f v)
}.

(** Both live on in another state that has these pages with their bytes. *)
Definition preserves s s' (l : list Z) : Prop :=
  Forall (fun a => src_owned s' a /\ forall b, a <= b < a + PAGE -> ld8 (src_mem s') b = ld8 (src_mem s) b) l.

Lemma gdt_page_preserved s s' info l : preserves s s' l -> gdt_page s info l -> gdt_page s' info l.
Proof using.
  intros Hp [R O (m0 & Hz & Hb) (p1 & p2 & p3 & -> & Hn & L1 & L2 & L3)].
  assert (same_bytes (src_mem s) (src_mem s') info PAGE) as Hs.
  { intros b Hx. eapply Forall_forall in Hp as [_ Hp]; [by apply Hp|]. rewrite !elem_of_cons. auto. }
  assert (forall a, info <= a -> a + 8 <= info + PAGE -> ld64 (src_mem s') a = ld64 (src_mem s) a) as Hk.
  { intros a H0 H1. apply ld64_ext. intros b Hb'. apply Hs. lia. }
  split; [done| | |].
  - eapply Forall_impl; [exact Hp|]. by intros a [Ha _].
  - exists m0. split; [done|]. intros b Hx. rewrite Hs; [by apply Hb|]. unfold off_tss, PAGE in *. lia.
  - exists p1, p2, p3. unfold off_tss, off_ist, off_rsp in *. rewrite !Hk by (unfold PAGE; lia). done.
Qed.

Lemma idt_page_preserved s s' offset f : preserves s s' [offset] -> idt_page s offset f -> idt_page s' offset f.
Proof using.
  intros Hp [O R G]. apply Forall_cons in Hp as [[Ho Hb] _]. split; [done|done|]. intros v Hv.
  eapply gate_to_same; [|by apply G]. intros b Hx. apply Hb. unfold PAGE. lia.
Qed.

Lemma steady_preserves s s' l : steady s s' -> Forall (src_owned s) l -> preserves s s' l.
Proof using.
  intros [W B] Ho. eapply Forall_impl; [exact Ho|]. intros a Ha. split; [by apply W|]. intros b Hb. apply B. by exists a.
Qed.

(** Pages that are no layers of the table. *)
Definition outside (lev : gmap Z nat) (l : list Z) : Prop := Forall (fun a => lev !! a = None) l.

Lemma remapped_preserves s lev s' lev' l : remapped s lev s' lev' -> Forall (src_owned s) l -> outside lev l ->
  preserves s s' l /\ outside lev' l.
Proof using.
  intros [K _] Ho Hl. unfold preserves, outside in *. split; apply Forall_forall; intros a Ha; eapply Forall_forall in Ho; eapply Forall_forall in Hl; try done;
    destruct (K a Ho Hl) as (? & ? & ?); done.
Qed.

(** The selectors that the table serves. *)
Lemma gdt_page_selectors s info l c : gdt_page s info l -> c_gdtr c = (ld16 (src_mem s) info, ld64 (src_mem s) (info + 2)) ->
  selectors (src_mem s) c 0 8 16 = true /\ selectors (src_mem s) c 3 35 27 = true /\ tss_selector (src_mem s) c 40 = true /\
  tss_base (src_mem s) (descriptor c 40) = info + off_tss.
Proof using. intros [[R1 R2] _ (m0 & Hz & Hb) _] Hc. by apply (selectors_spec m0). Qed.

Lemma gdt_page_register s info l : gdt_page s info l -> ld16 (src_mem s) info = 55 /\ ld64 (src_mem s) (info + 2) = info + off_null.
Proof using.
  intros [[R1 R2] _ (m0 & Hz & Hb) _]. destruct (fill_gdt_reads m0 info R1 R2 Hz) as (<- & <- & _).
  split; apply (same_load _ _ _ _ _ _ Hb); unfold off_tss; lia.
Qed.

(** Steps that leave pages in use alone leave tables alone. *)
Lemma table_at_steady s s' root t lev : hhdm_ok hhdm -> src_ok s' -> steady s s' -> table_at hhdm s root t lev -> table_at hhdm s' root t lev.
Proof using PageSourceLaws0.
  intros Hh Hok [W B] [T [_ Hv]]. destruct (tree_ext hhdm s s' root lev T Hok (proj2 W)) as [T' L].
  { intros l k i Hl Hi. apply ld64_ext. intros b Hb. apply B. exists l. split; [by eapply (tw_owned _ _ _ _ T)|]. unfold PAGE. lia. }
  split; [done|]. split; [by exists lev|]. intros va. rewrite <- Hv.
  rewrite (translate_look hhdm Hh _ _ _ va T'), (translate_look hhdm Hh _ _ _ va T). apply L; [apply path_in_table|apply T].
Qed.
End Pages.

(** * The pages of a heap *)

Section Views.
Context (hhdm : Z) {H : Type} `{!KernelHeap H} (ok : H -> Prop) (owned : H -> Z -> Prop) (inside : (Z -> Prop) -> H -> Prop).

(** The pages, seen from the state of the scheduler. *)
Definition sched_view : PageSource (sched H) := @lift_pages (sched H) H sc_heap with_heap (page_view ok owned inside).

Lemma sched_view_laws : @PageSourceLaws hhdm H (page_view ok owned inside) -> @PageSourceLaws hhdm (sched H) sched_view.
Proof using. intros Hlaws. by apply (@lift_pages_laws _ _ sc_heap with_heap (page_view ok owned inside)). Qed.
End Views.

Section Stages.
Context (hhdm : Z) (Hh : hhdm_ok hhdm) {H : Type} `{!KernelHeap H} (ok : H -> Prop) (owned : H -> Z -> Prop) (inside : (Z -> Prop) -> H -> Prop).
Context (Hlaws : @PageSourceLaws hhdm H (page_view ok owned inside)).
Context {P : Type} `{!Platform P} (img : kernel_image) (boot : boot_info) (polls : nat).
Implicit Types m : machine P H.
#[local] Instance view : PageSource (sched H) := sched_view ok owned inside.
#[local] Instance view_laws : PageSourceLaws hhdm (sched H) := sched_view_laws hhdm ok owned inside Hlaws.

(** ** Segments *)

Lemma gdt_load_same (s s' : sched H) info l c : gdt_page s info l -> gdt_page s' info l ->
  arch_gdt_load (kh_mem (sc_heap s)) info c = arch_gdt_load (kh_mem (sc_heap s')) info c.
Proof using.
  intros G G'. unfold arch_gdt_load. destruct (gdt_page_register _ _ _ G) as [E1 E2]. destruct (gdt_page_register _ _ _ G') as [E3 E4].
  change (@src_mem _ view s) with (kh_mem (sc_heap s)) in E1, E2. change (@src_mem _ view s') with (kh_mem (sc_heap s')) in E3, E4.
  by rewrite E1, E2, E3, E4.
Qed.

Lemma load_gdt_spec m : src_ok (mc_sched m) ->
  load_gdt m = Panicked \/
  exists info l context s', load_gdt m = Done (with_sched (with_control m (arch_gdt_load (kh_mem (sc_heap s')) info (mc_control m))) s') /\
    src_ok s' /\ steady (mc_sched m) s' /\ gdt_page s' info l /\ Forall (fun p => ~ src_owned (mc_sched m) p) l /\
    gs_base (sc_cpu s') = context /\ context <> 0 /\ sc_cpu_contexts s' !! context = Some (CpuContext CONTEXT_TYPE_CPU 0 false info 0).
Proof using Hh Hlaws.
  intros Hok. unfold load_gdt, arch_load_gdt.
  destruct (@gdt_create_spec hhdm H (page_view ok owned inside) Hlaws (sc_heap (mc_sched m)) Hh Hok)
    as [E|(info & p1 & p2 & p3 & m0 & h & E & Hok1 & [Hnd Hfr] & Hi & H0 & Hz & Hs & L1 & L2 & L3 & Hst)];
    change (@gdt_create H (page_view ok owned inside)) with (@gdt_create H (@heap_source H _)) in E; rewrite E; [by left|]. cbn [mbind outcome_bind].
  unfold arch_context_install. cbn [sc_heap with_heap].
  destruct (@page_alloc hhdm H (page_view ok owned inside) Hlaws h Hok1) as [E2|(context & h2 & E2)];
    change (@src_page_allocate H (page_view ok owned inside)) with (@kh_page_allocate H _) in E2; rewrite E2; [by left|right].
  destruct (@alloc_one hhdm H (page_view ok owned inside) Hlaws h h2 context Hok1 E2) as (Hok2 & Hn2 & Ho2 & _ & Hb2 & Wi2).
  cbn [mbind outcome_bind sc_cpu_contexts with_cpu with_cpu_contexts with_heap]. rewrite lookup_insert_eq. cbn [deref mbind outcome_bind].
  set (s1 := with_heap (mc_sched m) h). match goal with |- context [with_sched _ ?x] => set (s' := x) end.
  assert (steady s1 s') as St1 by (split; [exact Wi2|exact Hb2]).
  assert (gdt_page s1 info [p3; p2; p1; info]) as G1.
  { split; [done|by eapply Forall_impl; [exact Hfr|intros x [? _]]|by exists m0|]. by exists p1, p2, p3. }
  assert (gdt_page s' info [p3; p2; p1; info]) as G2.
  { eapply gdt_page_preserved; [|exact G1]. apply steady_preserves; [done|]. by apply G1. }
  exists info, [p3; p2; p1; info], context, s'. split_and!; [|exact Hok2| |done| |done| |].
  - do 3 f_equal. change (kh_mem h) with (kh_mem (sc_heap s1)). by eapply gdt_load_same.
  - eapply steady_trans; [|exact St1]. exact Hst.
  - eapply Forall_impl; [exact Hfr|]. by intros x [_ ?].
  - assert (owned h2 context) as Hc by (apply Ho2; by right). destruct (@law_range hhdm H (page_view ok owned inside) Hlaws h2 context Hok2 Hc) as (_ & Hgt & _).
    unfold hhdm_ok in Hh. lia.
  - unfold s'. cbn [sc_cpu_contexts with_cpu with_cpu_contexts with_heap set_gdt cx_context_type cx_cpu_id cx_is_bsp cx_scheduler_context].
    by rewrite lookup_insert_eq.
Qed.

(** ** What the stages keep of the processor *)

(** Nothing but the heap differs. *)
Definition heap_only (s s' : sched H) : Prop := s' = with_heap s (sc_heap s').

Lemma heap_only_refl s : heap_only s s.
Proof using. by destruct s. Qed.

Lemma heap_only_mem s0 s mm : heap_only s0 s -> heap_only s0 (src_with_mem s mm).
Proof using. intros ->. done. Qed.

Lemma heap_only_page s0 s n p s' : src_page_allocate n s = Done (p, s') -> heap_only s0 s -> heap_only s0 s'.
Proof using. intros (h & _ & ->)%lift_op_done ->. done. Qed.

(** Nor does the rest of the state matter to the pages. *)
Lemma steady_heap (s s' : sched H) : sc_heap s' = sc_heap s -> steady s s'.
Proof using.
  intros E. split; [split|]; cbn [src_in src_owned src_mem view sched_view lift_pages page_view]; rewrite E; [|done|].
  - intros R HR. split; [done|apply changes_refl].
  - intros b _. done.
Qed.

(** ** Interrupts *)

Lemma interrupts_stage m R : src_ok (mc_sched m) -> src_in R (mc_sched m) -> apart R (arch_isr_handlers img) 2048 ->
  0 <= arch_isr_handlers img /\ arch_isr_handlers img + 2048 <= 18446744073709551616 ->
  interrupts_init img m = Panicked \/
  exists offset s', interrupts_init img m =
      Done (with_sched (with_control (set_idtr m (4079, offset)) (arch_interrupts_enable (arch_idt_load (4079, offset) (mc_control m)))) s') /\
    src_ok s' /\ steady (mc_sched m) s' /\ heap_only (mc_sched m) s' /\ ~ src_owned (mc_sched m) offset /\
    idt_page s' offset (fun v => ld64 (mc_mem m) (arch_isr_handlers img + 8 * v)).
Proof using Hh Hlaws.
  intros Hok HV Hle Hb. unfold interrupts_init.
  change (@arch_interrupts_init (sched H) _) with (@arch_interrupts_init (sched H) view).
  destruct (interrupts_init_spec hhdm (mc_sched m) (mc_control m) (arch_isr_handlers img) R Hh Hok HV Hle Hb)
    as [->|(limit & offset & c' & s' & E & Hok' & Hn & Ho & Hi & Hf & Hg & -> & Hst & -> & s1 & mm & E1 & ->)]; [by left|right].
  rewrite E. cbn [mbind outcome_bind]. eexists offset, _. split; [reflexivity|]. split_and!; [exact Hok'|exact Hst| |exact Hn|].
  - apply heap_only_mem. eapply heap_only_page; [exact E1|apply heap_only_refl].
  - destruct (law_range _ offset Hok' Ho) as (_ & R1 & R2). unfold hhdm_ok in Hh. split; [exact Ho| |intros v Hv; exact (proj2 (Hg v Hv))].
    clear - R1 R2 Hh. unfold PAGE in *. lia.
Qed.

(** ** The page table *)

Lemma table_stage m : src_ok (mc_sched m) ->
  Forall (fun e => let '(va, pa, n) := memmap_range hhdm (LIMINE_MEMMAP_EXECUTABLE_AND_MODULES boot) (kernel_physical_base boot)
    (kernel_virtual_base boot) e in range_ok va pa n) (memory_map boot) ->
  arch_table_manager_init hhdm boot m = Panicked \/
  exists table s' lev, arch_table_manager_init hhdm boot m = Done (set_cr3 (with_sched m s') table (table -w hhdm)) /\
    heap_only (mc_sched m) s' /\ remapped (mc_sched m) ∅ s' lev /\
    table_at hhdm s' table (memmap_view hhdm (LIMINE_MEMMAP_EXECUTABLE_AND_MODULES boot) (kernel_physical_base boot)
      (kernel_virtual_base boot) (memory_map boot) (fun _ => 0)) lev.
Proof using Hh Hlaws.
  intros Hok Hf. unfold arch_table_manager_init.
  change (@arch_table_manager_create_bootstrap_table_limine hhdm (sched H) _) with (@arch_table_manager_create_bootstrap_table_limine hhdm (sched H) view).
  destruct (bootstrap_frame hhdm Hh _ _ _ _ (mc_sched m) Hf Hok) as [->|(table & s' & lev & E & T & R)]; [by left|right].
  rewrite E. exists table, s', lev. split_and!; [done| |done|done].
  eapply (bootstrap_closed hhdm (heap_only (mc_sched m))); [apply heap_only_mem|apply heap_only_page|exact E|apply heap_only_refl].
Qed.

(** ** The interrupt controller *)

(** Accesses to the registers of the controller and to the ports take at most
    [step] ticks each. *)
Record quiet (ticks : P -> Z) (step : Z) : Prop := {
  q_write : forall a v p, ticks p <= ticks (mmio_write32 a v p) <= ticks p + step;
  q_read : forall a p, ticks p <= ticks (snd (mmio_read32 a p)) <= ticks p + step;
  q_port : forall a v p, ticks p <= ticks (port_write8 a v p) <= ticks p + step
}.

(** [p'] is at most [n] accesses after [p]. *)
Definition soon (n : Z) (p p' : P) : Prop := forall ticks step, quiet ticks step -> ticks p <= ticks p' <= ticks p + n * step.

Lemma soon_refl p : soon 0 p p.
Proof using. intros ticks step _. lia. Qed.

Lemma soon_write n p p' a v : soon n p p' -> soon (n + 1) p (mmio_write32 a v p').
Proof using. intros Hs ticks step Q. specialize (Hs ticks step Q). pose proof (q_write _ _ Q a v p'). lia. Qed.

Lemma soon_read n p p' a : soon n p p' -> soon (n + 1) p (snd (mmio_read32 a p')).
Proof using. intros Hs ticks step Q. specialize (Hs ticks step Q). pose proof (q_read _ _ Q a p'). lia. Qed.

Lemma soon_port n p p' a v : soon n p p' -> soon (n + 1) p (port_write8 a v p').
Proof using. intros Hs ticks step Q. specialize (Hs ticks step Q). pose proof (q_port _ _ Q a v p'). lia. Qed.

Lemma get_id_hw (t : timers P (sched H)) : exists id a, arch_get_id hhdm t = (id, set_hw t (snd (mmio_read32 a (tm_hw t)))).
Proof using.
  unfold arch_get_id, arch_xapic_read. destruct (mmio_read32 (XAPIC_BASE +w XAPIC_REG_ID +w hhdm) (tm_hw t)) as [v p] eqn:E.
  eexists _, (XAPIC_BASE +w XAPIC_REG_ID +w hhdm). rewrite E. reflexivity.
Qed.

Lemma is_bsp_hw bsp_id (t : timers P (sched H)) : exists b a, arch_is_bsp hhdm bsp_id t = (b, set_hw t (snd (mmio_read32 a (tm_hw t)))).
Proof using. unfold arch_is_bsp. destruct (get_id_hw t) as (id & a & ->). by eexists _, a. Qed.

Lemma xapic_registers table bsp_id (t : timers P (sched H)) s' :
  arch_table_manager_map hhdm table (XAPIC_BASE +w hhdm) XAPIC_BASE (Z.lor TABLE_ENTRY_READ_WRITE TABLE_ENTRY_CACHE_DISABLE) (tm_src t) = Done s' ->
  @arch_xapic_init hhdm table P _ (sched H) view bsp_id t = Panicked \/
  exists is_bsp id p base, @arch_xapic_init hhdm table P _ (sched H) view bsp_id t =
    Done (is_bsp, id, set_src (set_control (set_hw t p) (wrmsr MSR_APIC_BASE base (tm_control t))) s') /\ soon 12 (tm_hw t) p.
Proof using.
  intros E. unfold arch_xapic_init. destruct (negb _); [by left|right]. cbn [tm_src set_hw]. rewrite E. clear E.
  cbn [mbind outcome_bind]. cbv zeta.
  repeat match goal with
  | |- context [arch_is_bsp hhdm ?b ?s] => let x := fresh "b" in let a := fresh "a" in destruct (is_bsp_hw b s) as (x & a & ->)
  | |- context [arch_get_id hhdm ?s] => let x := fresh "id" in let a := fresh "a" in destruct (get_id_hw s) as (x & a & ->)
  end.
  eexists _, _, _, _. split; [reflexivity|]. unfold arch_xapic_write. cbn [tm_hw set_hw set_src set_control].
  change 12 with (0 + 1 + 1 + 1 + 1 + 1 + 1 + 1 + 1 + 1 + 1 + 1 + 1).
  repeat first [apply soon_read|apply soon_write|apply soon_port]. apply soon_refl.
Qed.

Lemma xapic_context is_bsp id (s : sched H) context old : gs_base (sc_cpu s) = context -> context <> 0 ->
  sc_cpu_contexts s !! context = Some old -> cx_context_type old = CONTEXT_TYPE_CPU ->
  arch_xapic_init_context is_bsp id s =
    Done (with_cpu_contexts s (<[context := CpuContext CONTEXT_TYPE_CPU id is_bsp (cx_gdt old) (cx_scheduler_context old)]> (sc_cpu_contexts s))).
Proof using.
  intros Hg H0 Hc Ht. unfold arch_xapic_init_context, arch_get_cpu_context, arch_get_current_context, context_type. rewrite Hg.
  apply Z.eqb_neq in H0. rewrite H0, Hc. cbn [mbind outcome_bind]. rewrite Ht, Z.eqb_refl. cbn [negb]. rewrite Hg, Hc.
  cbn [deref mbind outcome_bind]. by rewrite Ht.
Qed.

Lemma xapic_stage m t lev context old : table_at hhdm (mc_sched m) (arch_bootstrap_page_table m) t lev ->
  gs_base (sc_cpu (mc_sched m)) = context -> context <> 0 ->
  sc_cpu_contexts (mc_sched m) !! context = Some old -> cx_context_type old = CONTEXT_TYPE_CPU ->
  xapic_init hhdm m = Panicked \/
  exists p base is_bsp id s' lev', xapic_init hhdm m =
      Done (set_timers m (set_src (set_control (set_hw (mc_timers m) p) (wrmsr MSR_APIC_BASE base (mc_control m))) s')) /\
    soon 12 (tm_hw (mc_timers m)) p /\ src_ok s' /\ remapped (mc_sched m) lev s' lev' /\
    table_at hhdm s' (arch_bootstrap_page_table m) (overlay (page_number (XAPIC_BASE +w hhdm)) XAPIC_BASE 1 t) lev' /\
    gs_base (sc_cpu s') = context /\
    sc_cpu_contexts s' !! context = Some (CpuContext CONTEXT_TYPE_CPU id is_bsp (cx_gdt old) (cx_scheduler_context old)).
Proof using Hh Hlaws.
  intros T Hgs Hc0 Hcx Hty. unfold xapic_init. change (@arch_xapic_init hhdm ?x P _ (sched H) _) with (@arch_xapic_init hhdm x P _ (sched H) view).
  destruct (map_frame hhdm Hh (arch_bootstrap_page_table m) (XAPIC_BASE +w hhdm) XAPIC_BASE (Z.lor TABLE_ENTRY_READ_WRITE TABLE_ENTRY_CACHE_DISABLE)
    (mc_sched m) t lev) as [E|(s' & lev' & E & [W' V'] & R)]; [split; [reflexivity|unfold XAPIC_BASE; lia]|vm_compute; by split|done| |].
  { left. unfold arch_xapic_init. destruct (negb _); [done|]. cbn [tm_src set_hw]. unfold mc_sched in E. by rewrite E. }
  destruct (xapic_registers (arch_bootstrap_page_table m) (arch_bsp_id m) (mc_timers m) s' E) as [->|(is_bsp & id & p & base & -> & Hsoon)]; [by left|right].
  assert (heap_only (mc_sched m) s') as Hho.
  { eapply (map_closed hhdm (heap_only (mc_sched m))); [apply heap_only_mem|apply heap_only_page|exact E|apply heap_only_refl]. }
  cbn [mbind outcome_bind tm_src set_src]. rewrite (xapic_context is_bsp id s' context old);
    [|by rewrite Hho|done|by rewrite Hho|done]. cbn [mbind outcome_bind].
  eexists p, base, is_bsp, id, _, lev'. split; [reflexivity|]. split_and!; [exact Hsoon|exact (tw_ok _ _ _ _ W')|exact R| | |].
  - eapply (table_at_steady hhdm s'); [exact Hh| |by apply steady_heap|by split]. exact (tw_ok _ _ _ _ W').
  - rewrite Hho. exact Hgs.
  - cbn [sc_cpu_contexts with_cpu_contexts]. by rewrite lookup_insert_eq.
Qed.

(** ** The event timer *)

(** The counter of the table at [header]: its period in femtoseconds, at most
    [step] ticks per access, and writing 0 resets it. *)
Record timekeeping (mm : mem) (header : Z) (ticks : P -> Z) (step period : Z) : Prop := {
  tk_space : hpet_address_space mm header = ACPI_ADDRESS_SPACE_SYSTEM_MEMORY;
  tk_frame : frame_ok (hpet_address mm header);
  tk_period : 1000000 <= period <= 100000000;
  tk_capabilities : forall p, u32 (Z.shiftr (u64 (fst (mmio_read64 (hhdm +w hpet_address mm header +w HPET_OFFSET_GENERAL_CAPABILITIES) p))) 32) = period;
  tk_reset : forall p, 0 <= ticks (mmio_write64 (hpet_counter hhdm mm header) 0 p) <= step;
  tk_write : forall a v p, a <> hpet_counter hhdm mm header -> ticks p <= ticks (mmio_write64 a v p) <= ticks p + step;
  tk_tsc : forall p, ticks p <= ticks (snd (rdtsc p)) <= ticks p + step;
  tk_counts : counts (mmio_read64 (hpet_counter hhdm mm header)) ticks step;
  tk_step : step <= 1000000000
}.

Definition hpet_source (period : Z) : clock_time_source_t :=
  TimeSource (hpet_name img) true (1000000000000000 / period) (hpet_read_at img) (hpet_sleep_at img) false 0 0.

Lemma offset_ne x a b : 0 <= a < 4096 -> 0 <= b < 4096 -> a <> b -> u64 (x + a) <> u64 (x + b).
Proof using. intros Ha Hb Hne. unfold u64. zlia. Qed.

Lemma hpet_stage a m t lev R ticks step period :
  let header := acpi_get_table hhdm (mc_mem m) a (str_HPET img) in
  table_at hhdm (mc_sched m) (arch_bootstrap_page_table m) t lev -> src_in R (mc_sched m) ->
  tables_apart hhdm R (mc_mem m) a (str_HPET img) -> header <> 0 -> timekeeping (mc_mem m) header ticks step period ->
  tm_clock (mc_timers m) = Clock no_source no_source ->
  hpet_init hhdm img a m = Panicked \/
  exists p s' lev', hpet_init hhdm img a m = Done (set_timers m (set_hw (set_clock (set_src
      (set_hpet (mc_timers m) header (period / 1000000)) s') (Clock (hpet_source period) no_source)) p)) /\
    src_ok s' /\ heap_only (mc_sched m) s' /\ remapped (mc_sched m) lev s' lev' /\
    table_at hhdm s' (arch_bootstrap_page_table m)
      (overlay (page_number (hpet_address (mc_mem m) header +w hhdm)) (hpet_address (mc_mem m) header) 1 t) lev' /\
    0 <= ticks p <= 4 * step.
Proof using Hh Hlaws.
  intros header T HV Hab H0 K Hclk. unfold hpet_init, run, arch_hpet_init.
  change (@arch_table_manager_map hhdm (sched H) _) with (@arch_table_manager_map hhdm (sched H) view).
  cbn [tm_src set_hpet]. fold (mc_sched m). change (@tm_mem P (sched H) _ (mc_timers m)) with (mc_mem m). fold header.
  change (@tm_mem P (sched H) _ (set_hpet (mc_timers m) header (arch_hpet_ticks_to_nanoseconds (mc_timers m)))) with (mc_mem m).
  rewrite (proj2 (Z.eqb_neq header 0) H0), (tk_space _ _ _ _ _ K), Z.eqb_refl. cbn [negb].
  set (address := hpet_address (mc_mem m) header).
  destruct (map_frame hhdm Hh (arch_bootstrap_page_table m) (address +w hhdm) address (Z.lor TABLE_ENTRY_READ_WRITE TABLE_ENTRY_CACHE_DISABLE)
    (mc_sched m) t lev) as [->|(s' & lev' & E & T' & Rm)]; [apply K|vm_compute; by split|done|by left|right].
  rewrite E. assert (heap_only (mc_sched m) s') as Hho.
  { eapply (map_closed hhdm (heap_only (mc_sched m))); [apply heap_only_mem|apply heap_only_page|exact E|apply heap_only_refl]. }
  destruct (proj1 (proj2 Rm) R HV) as [_ Hc]. destruct Hab as (_ & _ & _ & _ & Hx). fold header in Hx.
  assert (hpet_address (kh_mem (sc_heap s')) header = address) as Ha by (apply (load_apart R _ _ Hc header 56); [done|lia|lia]).
  clear E. cbn [mbind outcome_bind]. unfold arch_hpet_read, arch_hpet_write, register.
  repeat match goal with |- context [@tm_mem P (sched H) ?i ?x] => progress change (@tm_mem P (sched H) i x) with (kh_mem (sc_heap s')) end.
  cbn [tm_hw set_hw set_clock set_hpet set_src arch_hpet_header tm_clock]. rewrite Ha.
  pose proof (tk_capabilities _ _ _ _ _ K (tm_hw (mc_timers m))) as Hcap. fold address in Hcap.
  destruct (mmio_read64 (hhdm +w address +w HPET_OFFSET_GENERAL_CAPABILITIES) (tm_hw (mc_timers m))) as [v p0]. cbn [fst] in Hcap.
  pose proof (tk_period _ _ _ _ _ K) as Hp. rewrite Hcap. cbv beta iota zeta.
  assert (10000000 <= 1000000000000000 / period <= 1000000000) as Hrate by (clear - Hp; split; [apply Z.div_le_lower_bound|apply Z.div_le_upper_bound]; lia).
  rewrite (proj2 (Z.eqb_neq period 0)) by lia. assert (u32 (1000000000000000 / period) = 1000000000000000 / period) as Hu by (apply Z.mod_small; lia). rewrite Hu.
  pose (w (off v : Z) (p : P) := mmio_write64 (hhdm +w address +w off) v p). cbn [mbind outcome_bind].
  exists (w 0x10 1 (w 0x108 0 (w 0x100 72 (w 0xF0 0 p0)))), s', lev'. split.
  - cbn [tm_clock set_hw set_src set_hpet]. rewrite Hclk. unfold clock_register_time_source.
    cbn [one_shot_capable time_keeping_capable ticks_per_second clock_system_timer clock_preemption_timer no_source].
    rewrite Z.gtb_ltb, (proj2 (Z.ltb_lt 0 _)) by lia.
    repeat match goal with |- context [@tm_mem P (sched H) ?i ?x] => progress change (@tm_mem P (sched H) i x) with (kh_mem (sc_heap s')) end.
    rewrite !Ha. reflexivity.
  - split; [exact (tw_ok _ _ _ _ (ta_wf _ _ _ _ _ T'))|]. split; [done|]. split; [done|]. split; [done|].
    pose proof (tk_reset _ _ _ _ _ K p0) as W0.
    pose proof (tk_write _ _ _ _ _ K (hhdm +w address +w 0x100) 72 (w 0xF0 0 p0) ltac:(by apply offset_ne)) as W1.
    pose proof (tk_write _ _ _ _ _ K (hhdm +w address +w 0x108) 0 (w 0x100 72 (w 0xF0 0 p0)) ltac:(by apply offset_ne)) as W2.
    pose proof (tk_write _ _ _ _ _ K (hhdm +w address +w 0x10) 1 (w 0x108 0 (w 0x100 72 (w 0xF0 0 p0))) ltac:(by apply offset_ne)) as W3.
    unfold w, hpet_counter, HPET_OFFSET_MAIN_COUNTER in *. fold address in W0. lia.
Qed.

(** ** The time-stamp counter *)

(** The system timer is the event timer or a constant time-stamp counter that counts
    faster. *)
Definition timer_chosen (clk : clock_state) (rate period : Z) (p : P) : Prop :=
  clock_system_timer clk = hpet_source period \/
  constant_tsc (u32 (cpuid_eax 1 p)) = true /\ 1000000000000000 / period < rate /\
  clock_system_timer clk = TimeSource (tsc_name img) true rate (tsc_read_at img) (tsc_sleep_at img) false 0 0.

Lemma tsc_stage m ticks step period :
  let t := mc_timers m in
  timekeeping (mc_mem m) (arch_hpet_header t) ticks step period -> arch_hpet_ticks_to_nanoseconds t = period / 1000000 ->
  tm_clock t = Clock (hpet_source period) no_source -> hpet_sleep_at img <> 0 -> 0 <= ticks (tm_hw t) <= 4 * step ->
  100000000 / (period / 1000000) <= Z.of_nat polls ->
  exists p rate clk, tsc_init hhdm img polls m =
      Done (set_timers m (set_clock (set_tsc (set_hw t p) (arch_tsc_offset t) rate) clk)) /\
    0 <= ticks p /\ timer_chosen clk rate period (tm_hw t).
Proof using.
  intros t K Hk Hclk Hs Ht Hpolls. unfold tsc_init, run, arch_tsc_init, timer_chosen. fold t. rewrite Hclk. cbn [clock_system_timer hpet_source sleep_nanoseconds].
  rewrite (proj2 (Z.eqb_neq _ 0) Hs). destruct (constant_tsc _).
  2:{ cbn [mbind outcome_bind]. exists (tm_hw t), (arch_tsc_ticks_per_second t), (tm_clock t).
      split; [by destruct t|]. split; [lia|]. left. by rewrite Hclk. }
  pose proof (tk_tsc _ _ _ _ _ K (tm_hw t)) as Hr. destruct (rdtsc (tm_hw t)) as [va pa]. cbn [snd] in Hr.
  unfold clock_sleep. cbn [tm_clock set_hw]. rewrite Hclk. cbn [clock_system_timer hpet_source sleep_nanoseconds]. rewrite Z.eqb_refl.
  pose proof (tk_period _ _ _ _ _ K) as Hp. pose proof (tk_step _ _ _ _ _ K) as Hst.
  destruct (@hpet_sleep_spec hhdm P _ (sched H) (@heap_source _ sched_heap) polls (set_hw t pa) ticks step period (100 * 1000000)) as (p & E & Hlow & _);
    [exact (tk_counts _ _ _ _ _ K)|lia|exact Hk|cbn [tm_hw set_hw]; lia|lia|done| |].
  { cbn [tm_hw set_hw]. assert (1 <= period / 1000000 <= 100) as Hd by (split; [apply Z.div_le_lower_bound|apply Z.div_le_upper_bound]; lia).
    transitivity (10000000000 * 100); [|lia]. apply Z.le_lt_trans with (9000000000 * (period / 1000000)); [apply Z.mul_le_mono_nonneg_r; lia|lia]. }
  rewrite E. cbn [mbind outcome_bind]. cbn [tm_hw set_hw] in *. pose proof (tk_tsc _ _ _ _ _ K p) as Hr2.
  destruct (rdtsc p) as [vb pb]. cbn [mbind outcome_bind snd] in *.
  eexists pb, _, _. split; [reflexivity|]. split; [clear - Hlow Hr Hr2 Ht Hp; nia|].
  cbn [tm_clock set_tsc set_hw]. rewrite Hclk. unfold clock_register_time_source.
  cbn [one_shot_capable time_keeping_capable clock_system_timer ticks_per_second hpet_source arch_tsc_ticks_per_second set_tsc].
  rewrite Z.gtb_ltb. destruct (Z.ltb_spec (1000000000000000 / period) ((vb -w va) *w 10)); [right|by left]. done.
Qed.

(** ** All tables *)

Record tables_up (s : sched H) (table : Z) (t : Z -> Z) (lev : gmap Z nat) (info : Z) (l : list Z) (offset : Z) (f : Z -> Z) : Prop := {
  tu_gdt : gdt_page s info l;
  tu_idt : idt_page s offset f;
  tu_table : table_at hhdm s table t lev;
  tu_outside : outside lev (offset :: l);
  tu_apart : offset ∉ l
}.

Lemma tables_up_remapped s table t lev info l offset f s' t' lev' :
  tables_up s table t lev info l offset f -> remapped s lev s' lev' -> table_at hhdm s' table t' lev' ->
  tables_up s' table t' lev' info l offset f.
Proof using.
  intros [G I T O A] R T'. destruct (remapped_preserves s lev s' lev' (offset :: l) R) as [Hp Ho]; [|done|].
  { constructor; [apply I|apply G]. }
  apply Forall_cons in Hp as [Hp1 Hp2]. split; [by eapply gdt_page_preserved|eapply idt_page_preserved; [by constructor|done]|done|done|done].
Qed.

Lemma tables_up_steady s table t lev info l offset f s' :
  src_ok s' -> steady s s' -> tables_up s table t lev info l offset f -> tables_up s' table t lev info l offset f.
Proof using Hh Hlaws.
  intros Hok St [G I T O A]. split; [| |by eapply (table_at_steady hhdm)|done|done].
  - eapply gdt_page_preserved; [|done]. apply steady_preserves; [done|apply G].
  - eapply idt_page_preserved; [|done]. apply steady_preserves; [done|]. constructor; [apply I|constructor].
Qed.

(** The first three steps of [arch_init]. *)
Definition memory_view : Z -> Z :=
  memmap_view hhdm (LIMINE_MEMMAP_EXECUTABLE_AND_MODULES boot) (kernel_physical_base boot) (kernel_virtual_base boot) (memory_map boot) (fun _ => 0).

Definition memory_map_ok : Prop :=
  Forall (fun e => let '(va, pa, n) := memmap_range hhdm (LIMINE_MEMMAP_EXECUTABLE_AND_MODULES boot) (kernel_physical_base boot)
    (kernel_virtual_base boot) e in range_ok va pa n) (memory_map boot).

Lemma tables_stage m R : src_ok (mc_sched m) -> src_in R (mc_sched m) -> apart R (arch_isr_handlers img) 2048 ->
  0 <= arch_isr_handlers img /\ arch_isr_handlers img + 2048 <= 18446744073709551616 -> memory_map_ok ->
  let r := m ← load_gdt m; m ← interrupts_init img m; arch_table_manager_init hhdm boot m in
  r = Panicked \/
  exists info l context offset table lev s', r = Done (set_cr3 (with_sched (with_control (set_idtr m (4079, offset))
      (arch_interrupts_enable (arch_idt_load (4079, offset) (arch_gdt_load (kh_mem (sc_heap s')) info (mc_control m))))) s') table (table -w hhdm)) /\
    within (mc_sched m) s' /\
    tables_up s' table memory_view lev info l offset (fun v => ld64 (mc_mem m) (arch_isr_handlers img + 8 * v)) /\
    gs_base (sc_cpu s') = context /\ context <> 0 /\ sc_cpu_contexts s' !! context = Some (CpuContext CONTEXT_TYPE_CPU 0 false info 0).
Proof using Hh Hlaws.
  intros Hok HV Hle Hb Hmap r. unfold r. clear r.
  destruct (load_gdt_spec m Hok) as [->|(info & l & context & s1 & -> & Hok1 & St1 & G1 & _ & Hgs & Hc0 & Hcx)]; [by left|].
  cbn [mbind outcome_bind]. set (m1 := with_sched _ s1). destruct (proj1 (proj1 St1) R HV) as [HV1 Hc1].
  destruct (interrupts_stage m1 R Hok1 HV1 Hle Hb) as [->|(offset & s2 & -> & Hok2 & St2 & Ho2 & Hn2 & I2)]; [by left|].
  change (mc_sched m1) with s1 in *. cbn [mbind outcome_bind]. set (m2 := with_sched _ s2).
  destruct (table_stage m2 Hok2 Hmap) as [->|(table & s3 & lev & -> & Ho3 & R3 & T3)]; [by left|right]. change (mc_sched m2) with s2 in *.
  assert (gdt_page s2 info l) as G2 by (eapply gdt_page_preserved; [|done]; apply steady_preserves; [done|apply G1]).
  destruct (remapped_preserves s2 ∅ s3 lev (offset :: l) R3) as [Hp Hout]; [constructor; [apply I2|apply G2]| |].
  { apply Forall_forall. intros x _. apply lookup_empty. }
  apply Forall_cons in Hp as [Hp1 Hp2]. assert (gdt_page s3 info l) as G3 by (by eapply gdt_page_preserved).
  exists info, l, context, offset, table, lev, s3. split_and!.
  - assert (arch_gdt_load (kh_mem (sc_heap s1)) info (mc_control m) = arch_gdt_load (kh_mem (sc_heap s3)) info (mc_control m)) as Eg
      by (by eapply gdt_load_same). unfold m2, m1. rewrite Eg. reflexivity.
  - eapply within_trans; [apply St1|]. eapply within_trans; [apply St2|apply R3].
  - split; [done| |done|done|intros Hin; apply Hn2; apply (proj1 (Forall_forall _ _) (gp_owned _ _ _ G1) _ Hin)]. eapply idt_page_preserved; [by constructor|]. destruct I2 as [I2 I3 I4]. split; [done|done|].
    intros v Hv. specialize (I4 v Hv). change (mc_mem m1) with (src_mem s1) in I4.
    rewrite (changes_ld64 _ _ _ (arch_isr_handlers img + 8 * v) Hc1) in I4; [exact I4|]. intros b Hx. apply Hle. lia.
  - by rewrite Ho3, Ho2.
  - done.
  - by rewrite Ho3, Ho2.
Qed.

(** ** Firmware tables that the stages leave alone *)

Lemma firmware_kept R mm mm' a ticks step period :
  changes R mm mm' -> tables_apart hhdm R mm a (str_HPET img) ->
  let header := acpi_get_table hhdm mm a (str_HPET img) in
  timekeeping mm header ticks step period ->
  tables_apart hhdm R mm' a (str_HPET img) /\ acpi_get_table hhdm mm' a (str_HPET img) = header /\
  hpet_address mm' header = hpet_address mm header /\ timekeeping mm' header ticks step period.
Proof using.
  intros Hc Hab header K. pose proof (get_table_apart hhdm R mm mm' Hc a (str_HPET img) Hab) as E.
  pose proof (revision_apart hhdm R mm mm' Hc a (str_HPET img) Hab) as Er.
  pose proof (fun w => entries_apart hhdm R mm mm' Hc a (str_HPET img) w Hab) as En.
  destruct Hab as (H1 & H2 & H3 & H4 & H5). fold header in E, H5.
  assert (hpet_address mm' header = hpet_address mm header) as Ea by (apply (load_apart R mm mm' Hc header 56); [done|lia|lia]).
  assert (hpet_address_space mm' header = hpet_address_space mm header) as Es by (apply Hc, H5; lia).
  split_and!; [|done|done|].
  - assert (sdt_width mm' a = sdt_width mm a) as Ew by (unfold sdt_width; by rewrite Er).
    unfold tables_apart. rewrite Ew, !En, E. fold header. split_and!; [done|done|done| |done]. intros i Hi.
    assert (sdt_entry hhdm mm' (acpi_sdt a) (sdt_width mm a) i = sdt_entry hhdm mm (acpi_sdt a) (sdt_width mm a) i) as ->; [|by apply H4].
    assert (0 < sdt_width mm a) by (unfold sdt_width; destruct (_ =? 0); lia).
    unfold sdt_entry. rewrite (load_apart R mm mm' Hc _ _ _ _ H2); [done|unfold sizeof_sdt_header; nia|]. rewrite Z2Nat.id by lia. nia.
  - destruct K as [K1 K2 K3 K4 K5 K6 K7 K8 K9]. unfold hpet_counter in *. split; unfold hpet_counter; rewrite ?Ea, ?Es; done.
Qed.

Lemma within_changes s s' R : within s s' -> src_in R s -> src_in R s' /\ changes R (kh_mem (sc_heap s)) (kh_mem (sc_heap s')).
Proof using. intros [W _] HV. exact (W R HV). Qed.

(** ** The whole of [arch_init] *)

Lemma arch_init_tables a m : arch_init hhdm img boot polls a m =
  (m ← (m ← load_gdt m; m ← interrupts_init img m; arch_table_manager_init hhdm boot m);
   m ← xapic_init hhdm m; m ← hpet_init hhdm img a m; m ← tsc_init hhdm img polls m; Done (syscall_init img m)).
Proof using.
  unfold arch_init. destruct (load_gdt m) as [m1| | | |]; try done. cbn [mbind outcome_bind]. by destruct (interrupts_init img m1).
Qed.

Lemma arch_init_spec a m R ticks step period : src_ok (mc_sched m) -> src_in R (mc_sched m) -> apart R (arch_isr_handlers img) 2048 ->
  0 <= arch_isr_handlers img /\ arch_isr_handlers img + 2048 <= 18446744073709551616 -> memory_map_ok ->
  tm_clock (mc_timers m) = Clock no_source no_source -> hpet_sleep_at img <> 0 -> tables_apart hhdm R (mc_mem m) a (str_HPET img) ->
  let header := acpi_get_table hhdm (mc_mem m) a (str_HPET img) in
  let address := hpet_address (mc_mem m) header in
  header <> 0 -> timekeeping (mc_mem m) header ticks step period -> 100000000 / (period / 1000000) <= Z.of_nat polls ->
  arch_init hhdm img boot polls a m = Panicked \/
  exists m' info l offset lev base id is_bsp, arch_init hhdm img boot polls a m = Done m' /\
    mc_control m' = arch_syscall_init (arch_syscall_entry_at img) (wrmsr MSR_APIC_BASE base (arch_interrupts_enable
      (arch_idt_load (4079, offset) (arch_gdt_load (mc_mem m') info (mc_control m))))) /\
    arch_global_idtr m' = (4079, offset) /\ mc_cr3 m' = arch_bootstrap_page_table m' -w hhdm /\
    tables_up (mc_sched m') (arch_bootstrap_page_table m')
      (overlay (page_number (address +w hhdm)) address 1 (overlay (page_number (XAPIC_BASE +w hhdm)) XAPIC_BASE 1 memory_view))
      lev info l offset (fun v => ld64 (mc_mem m) (arch_isr_handlers img + 8 * v)) /\
    sc_cpu_contexts (mc_sched m') !! gs_base (sc_cpu (mc_sched m')) = Some (CpuContext CONTEXT_TYPE_CPU id is_bsp info 0) /\
    0 <= ticks (tm_hw (mc_timers m')) /\ timekeeping (mc_mem m') (arch_hpet_header (mc_timers m')) ticks step period /\
    arch_hpet_ticks_to_nanoseconds (mc_timers m') = period / 1000000 /\
    exists p, timer_chosen (tm_clock (mc_timers m')) (arch_tsc_ticks_per_second (mc_timers m')) period p.
Proof using Hh Hlaws.
  intros Hok HV Hle Hb Hmap Hclk Hs Hab header address H0 K Hpolls.
  destruct (tables_stage m R Hok HV Hle Hb Hmap) as [E|(info & l & context & offset & table & lev & s3 & E & W3 & T3 & Hgs & Hc0 & Hcx)].
  { left. rewrite arch_init_tables. by rewrite E. }
  rewrite arch_init_tables, E. cbn [mbind outcome_bind]. clear E. set (m3 := set_cr3 _ table _).
  destruct (within_changes _ _ R W3 HV) as [HV3 C3].
  destruct (xapic_stage m3 memory_view lev context _ (tu_table _ _ _ _ _ _ _ _ T3) Hgs Hc0 Hcx eq_refl)
    as [->|(p & base & is_bsp & id & s4 & lev4 & -> & _ & Hok4 & R4 & T4 & Hgs4 & Hcx4)]; [by left|]. cbn [mbind outcome_bind].
  set (m4 := set_timers m3 _). change (mc_sched m3) with s3 in *. change (arch_bootstrap_page_table m3) with table in *.
  pose proof (tables_up_remapped _ _ _ _ _ _ _ _ _ _ _ T3 R4 T4) as U4. destruct (within_changes _ _ R (proj2 R4) HV3) as [HV4 C4].
  destruct (firmware_kept R _ _ a ticks step period (changes_trans _ _ _ _ C3 C4) Hab K) as (Hab4 & Eh4 & Ea4 & K4).
  fold header in Eh4, Ea4, K4. change (kh_mem (sc_heap s4)) with (mc_mem m4) in Hab4, Eh4, Ea4, K4.
  destruct (hpet_stage a m4 _ lev4 R ticks step period T4 HV4 Hab4) as [->|(p5 & s5 & lev5 & -> & Hok5 & Ho5 & R5 & T5 & Hticks)];
    [by rewrite Eh4|by rewrite Eh4|exact Hclk|by left|]. cbn [mbind outcome_bind]. rewrite Eh4, Ea4 in *. fold address in T5.
  set (m5 := set_timers m4 _). change (mc_sched m4) with s4 in *. change (arch_bootstrap_page_table m4) with table in *.
  pose proof (tables_up_remapped _ _ _ _ _ _ _ _ _ _ _ U4 R5 T5) as U5. destruct (within_changes _ _ R (proj2 R5) HV4) as [_ C5].
  destruct (firmware_kept R _ _ a ticks step period (changes_trans _ _ _ _ (changes_trans _ _ _ _ C3 C4) C5) Hab K) as (_ & _ & _ & K5).
  fold header in K5. destruct (tsc_stage m5 ticks step period) as (p6 & rate & clk & -> & Hticks6 & Hclk6);
    [exact K5|done|done|done|exact Hticks|done|]. right. cbn [mbind outcome_bind].
  eexists _, info, l, offset, lev5, base, id, is_bsp. split; [reflexivity|]. split_and!; [|done|done| | |exact Hticks6|exact K5|done|by eexists].
  - change (mc_mem (syscall_init img (set_timers m5 _))) with (kh_mem (sc_heap s5)). f_equal. by rewrite (gdt_load_same s5 s3 info l) by apply U5 || apply T3.
  - exact U5.
  - change (sc_cpu_contexts s5 !! gs_base (sc_cpu s5) = Some (CpuContext CONTEXT_TYPE_CPU id is_bsp info 0)).
    rewrite Ho5. cbn [sc_cpu_contexts with_heap sc_cpu]. rewrite Hgs4. exact Hcx4.
Qed.
(** ** The timer of the controller *)

(** The system timer counts, and is far from its end: sleeping for one period of
    the scheduler ends. *)
Definition clock_runs (t : timers P (sched H)) (ticks : P -> Z) (step : Z) : Prop :=
  let f := sleep_nanoseconds (clock_system_timer (tm_clock t)) in
  let now := ticks (tm_hw t) in
  f <> 0 /\ 0 <= now /\
  (f = hpet_sleep_at img /\
   (exists R, inside R (sc_heap (tm_src t)) /\ apart R (arch_hpet_header t) 56) /\
   counts (mmio_read64 (hpet_counter hhdm (kh_mem (sc_heap (tm_src t))) (arch_hpet_header t))) ticks step /\
   (exists period, 1000000 <= period /\ arch_hpet_ticks_to_nanoseconds t = period / 1000000 /\
     10000000 / (period / 1000000) <= Z.of_nat polls /\ (now + 10000000 + 18 * step) * (period / 1000000) < 18446744073709551616)
   \/
   f = tsc_sleep_at img /\ f <> hpet_sleep_at img /\ counts (@rdtsc P _) ticks step /\
   1000000000 <= arch_tsc_ticks_per_second t /\ 0 <= arch_tsc_offset t <= now /\
   10000000 * (arch_tsc_ticks_per_second t / 1000000000) <= Z.of_nat polls /\
   now + 10000000 * (arch_tsc_ticks_per_second t / 1000000000) + 17 * step < 18446744073709551616).

(** The state of the timers, apart from the hardware. *)
Definition same_clock (t t' : timers P (sched H)) : Prop :=
  tm_clock t' = tm_clock t /\ arch_hpet_header t' = arch_hpet_header t /\
  arch_hpet_ticks_to_nanoseconds t' = arch_hpet_ticks_to_nanoseconds t /\ arch_tsc_offset t' = arch_tsc_offset t /\
  arch_tsc_ticks_per_second t' = arch_tsc_ticks_per_second t.

Lemma counts_step ticks step (read : P -> Z * P) (p : P) : counts read ticks step -> 0 < step.
Proof using. intros Hc. destruct (Hc p) as (p' & _ & ?). lia. Qed.

Lemma clock_sleeps t0 t ticks step : clock_runs t0 ticks step -> quiet ticks step -> same_clock t0 t -> within (tm_src t0) (tm_src t) ->
  soon 16 (tm_hw t0) (tm_hw t) ->
  exists p, @clock_sleep hhdm P _ (sched H) (@heap_source _ sched_heap) polls (hpet_sleep_at img) (tsc_sleep_at img) 10000000 t = Done (set_hw t p).
Proof using.
  intros (Hf & H0 & Hr) Q (E1 & E2 & E3 & E4 & E5) W Hs. specialize (Hs ticks step Q). unfold clock_sleep. rewrite E1.
  set (f := sleep_nanoseconds (clock_system_timer (tm_clock t0))) in *.
  destruct Hr as [(Ef & (R & HV & Hle) & Hc & period & Hp & Hk & Hpolls & Hb)|(Ef & Hne & Hc & Hrate & Hoff & Hpolls & Hb)].
  - rewrite Ef, Z.eqb_refl. destruct (within_changes _ _ R W HV) as [_ Ch].
    destruct (@hpet_sleep_spec hhdm P _ (sched H) (@heap_source _ sched_heap) polls t ticks step period 10000000) as (p & E & _).
    + rewrite E2. unfold hpet_counter in *.
      change (hpet_address (@tm_mem P (sched H) (@heap_source _ sched_heap) t)) with (fun h => ld64 (kh_mem (sc_heap (tm_src t))) (h + 44)). cbn beta.
      rewrite (changes_ld64 _ _ _ (arch_hpet_header t0 + 44) Ch) by (intros b Hx; apply Hle; lia). exact Hc.
    + done.
    + by rewrite E3.
    + lia.
    + lia.
    + done.
    + eapply Z.le_lt_trans; [|exact Hb]. apply Z.mul_le_mono_nonneg_r; [zlia|]. lia.
    + by exists p.
  - rewrite (proj2 (Z.eqb_neq _ _) Hne), Ef, Z.eqb_refl.
    pose proof (counts_step _ _ _ (tm_hw t) Hc) as Hst.
    destruct (@tsc_sleep_returns_early P _ (sched H) (@heap_source _ sched_heap) polls t ticks step 10000000) as (p & E & _);
      rewrite ?E4, ?E5; [done|done|lia|lia|done|lia|by exists p].
Qed.

(** One gate is written. *)
Lemma tables_up_gate s table tv lev info l offset f v entry :
  tables_up s table tv lev info l offset f -> 0 <= v < 255 -> in_u64 entry ->
  let s' := src_with_mem s (arch_interrupts_map_vector offset v entry (src_mem s)) in
  tables_up s' table tv lev info l offset (fun w => if w =? v then entry else f w) /\ within s s'.
Proof using Hh Hlaws.
  intros [G I T O A] Hv He s'. pose proof (tw_ok _ _ _ _ (ta_wf _ _ _ _ _ T)) as Hok. pose proof (ip_owned _ _ _ I) as Ho.
  destruct (ip_range _ _ _ I) as [R1 R2]. destruct (map_vector_spec offset v entry (src_mem s) R1 Hv R2 He) as [Hg Hc].
  assert (changes (fun b => offset <= b < offset + PAGE) (src_mem s) (src_mem s')) as Hc'.
  { unfold s'. rewrite law_with_mem. eapply changes_mono; [|exact Hc]. intros b Hb. cbn beta in Hb. unfold PAGE. lia. }
  destruct (page_write hhdm s offset (arch_interrupts_map_vector offset v entry (src_mem s)) Hok Ho) as [Hok' Ho']; [unfold s' in Hc'; rewrite law_with_mem in Hc'; exact Hc'|].
  assert (forall a b, src_owned s a -> offset <> a -> a <= b < a + PAGE -> ld8 (src_mem s') b = ld8 (src_mem s) b) as Hkeep.
  { intros a b Ha Hne Hb. apply Hc'. destruct (owned_disjoint hhdm s offset a Hok Ho Ha Hne); lia. }
  apply Forall_cons in O as [O1 O2]. split; [split|].
  - eapply gdt_page_preserved; [|exact G]. apply Forall_forall. intros a Ha.
    pose proof (proj1 (Forall_forall _ _) (gp_owned _ _ _ G) a Ha) as Hoa. split; [by apply Ho'|]. intros b Hb. eapply Hkeep; [exact Hoa| |done].
    by intros ->.
  - split; [by apply Ho'|done|]. intros w Hw. unfold s'. rewrite law_with_mem. destruct (Z.eqb_spec w v) as [->|Hne]; [exact Hg|].
    eapply gate_to_same; [|by apply I]. intros b Hb. apply Hc. lia.
  - destruct T as [W [_ Tv]]. destruct (tree_ext hhdm s s' table lev W Hok') as [W' L]; [intros a; apply Ho'| |].
    { intros x k i Hx Hi. apply ld64_ext. intros b Hb. apply (Hkeep x); [by eapply (tw_owned _ _ _ _ W)|congruence|]. unfold PAGE. lia. }
    split; [done|]. split; [by exists lev|]. intros va. rewrite <- Tv.
    rewrite (translate_look hhdm Hh _ _ _ va W'), (translate_look hhdm Hh _ _ _ va W). apply L; [apply path_in_table|apply W].
  - by constructor.
  - done.
  - split; [|intros a; apply Ho']. intros R HV. split; [by apply law_in_mem|]. eapply changes_mono; [|exact Hc']. intros b Hb.
    by apply (law_in_owned s R offset b Hok HV Ho).
Qed.

Lemma timer_stage t0 m ticks step offset :
  clock_runs t0 ticks step -> quiet ticks step -> same_clock t0 (mc_timers m) -> within (tm_src t0) (mc_sched m) ->
  soon 12 (tm_hw t0) (tm_hw (mc_timers m)) -> arch_global_idtr m = (4079, offset) ->
  let v := interrupts_vector_base (mc_timers m) in
  exists t', xapic_timer_init hhdm img polls m = Done (set_timers m t') /\
    tm_control t' = arch_interrupts_enable (arch_interrupts_disable (mc_control m)) /\
    tm_src t' = src_with_mem (mc_sched m) (arch_interrupts_map_vector offset v (arch_xapic_isr_handler_entry img) (mc_mem m)) /\
    xapic_vector t' = v /\ interrupts_vector_base t' = u16 (v + 1).
Proof using.
  intros R Q Sc W Hs Hi v. unfold xapic_timer_init, run, arch_xapic_timer_init. rewrite Hi. cbn [snd].
  assert ((sleep_nanoseconds (clock_system_timer (tm_clock (mc_timers m))) =? 0) = false) as ->.
  { apply Z.eqb_neq. destruct Sc as (-> & _). apply R. }
  unfold arch_interrupts_reserve_kernel_vector. fold v. cbv zeta.
  match goal with |- context [clock_sleep hhdm polls _ _ _ ?x] => set (t1 := x) end.
  change (1000000000 / SCHEDULER_DESIRED_FREQUENCY) with 10000000.
  destruct (clock_sleeps t0 t1 ticks step R Q) as (p & E).
  - exact Sc.
  - exact W.
  - unfold t1, arch_xapic_write. cbn [tm_hw set_hw set_xapic set_control]. intros k st Qk. specialize (Hs k st Qk).
    match goal with |- context [mmio_write32 ?a3 ?v3 (mmio_write32 ?a2 ?v2 (mmio_write32 ?a1 ?v1 ?x))] =>
      pose proof (q_write _ _ Qk a1 v1 x); pose proof (q_write _ _ Qk a2 v2 (mmio_write32 a1 v1 x));
      pose proof (q_write _ _ Qk a3 v3 (mmio_write32 a2 v2 (mmio_write32 a1 v1 x))) end. lia.
  - rewrite E. cbn [mbind outcome_bind]. unfold arch_xapic_read.
    match goal with |- context [mmio_read32 ?a ?x] => destruct (mmio_read32 a x) as [count p2] end.
    match goal with |- context [arch_is_bsp hhdm ?b ?s] => destruct (is_bsp_hw b s) as (bsp & a & ->) end.
    destruct bsp; (eexists; split; [reflexivity|]; split_and!; reflexivity).
Qed.

(** ** Another processor *)

Lemma simd_machine ecx m : exists cr0 cr4 xcr0, arch_simd_enable ecx m =
  Machine (mc_timers m) cr0 (mc_cr3 m) cr4 xcr0 (mc_rsp m) (arch_bootstrap_page_table m) (arch_global_idtr m) (arch_bsp_id m) (acpi_fadt m).
Proof using. unfold arch_simd_enable. cbn [sse_enable]. destruct (avx_enable _ _) as [cr4 xcr0]. by eexists _, cr4, xcr0. Qed.

(** New pages are no layers. *)
Lemma fresh_outside s table tv lev l : table_at hhdm s table tv lev -> Forall (fun p => ~ src_owned s p) l -> outside lev l.
Proof using.
  intros [W _] Hf. eapply Forall_impl; [exact Hf|]. intros a Ha. destruct (lev !! a) as [k|] eqn:E; [|done].
  by apply (tw_owned _ _ _ _ W) in E.
Qed.

(** Tables of the machine and of the new processor, after its stack is set up. *)
Lemma stack_stage s table tv lev info l offset f ret :
  tables_up s table tv lev info l offset f ->
  @kh_page_allocate (sched H) sched_heap 1 s = Panicked \/
  exists stack s1, @kh_page_allocate (sched H) sched_heap 1 s = Done (stack, s1) /\ heap_only s s1 /\ ~ src_owned s stack /\
    let s' := src_with_mem s1 (st64 (src_mem s1) (stack +w 1 * PAGE -w 8) ret) in
    src_ok s' /\ steady s s' /\ src_owned s' stack.
Proof using Hh Hlaws.
  intros U. pose proof (tw_ok _ _ _ _ (ta_wf _ _ _ _ _ (tu_table _ _ _ _ _ _ _ _ U))) as Hok.
  change (@kh_page_allocate (sched H) sched_heap) with (@src_page_allocate (sched H) view).
  destruct (page_alloc hhdm s Hok) as [->|(stack & s1 & E)]; [by left|right]. exists stack, s1. rewrite E.
  destruct (alloc_one hhdm s s1 stack Hok E) as (Hok1 & Hn & Ho & _). assert (src_owned s1 stack) as Hs by (apply Ho; by right).
  destruct (law_range s1 stack Hok1 Hs) as (_ & R1 & R2). unfold hhdm_ok, PAGE in *.
  assert (changes (fun b => stack <= b < stack + 4096) (src_mem s1) (st64 (src_mem s1) (stack +w 1 * 4096 -w 8) ret)) as Hc.
  { assert (stack +w 1 * 4096 -w 8 = stack + 4088) as ->.
    { unfold u64. rewrite Zminus_mod_idemp_l. replace (stack + 1 * 4096 - 8) with (stack + 4088) by lia. apply Z.mod_small. lia. }
    apply changes_st64. intros b Hb. lia. }
  destruct (page_write hhdm s1 stack _ Hok1 Hs Hc) as [Hok2 Ho2]. split_and!; [done|by eapply heap_only_page; [|apply heap_only_refl]|done|done| |by apply Ho2].
  eapply (steady_write hhdm s s1 stack); [done|by eapply (steady_alloc hhdm)|done|done|exact Hc].
Qed.

(** The tables that are there and the segment table of the new processor. *)
Lemma own_tables s s1 table tv lev info l offset f info' l' :
  tables_up s table tv lev info l offset f -> src_ok s1 -> steady s s1 -> gdt_page s1 info' l' -> Forall (fun p => ~ src_owned s p) l' ->
  forall i k, (i, k) ∈ [(info, l); (info', l')] -> tables_up s1 table tv lev i k offset f.
Proof using Hh Hlaws.
  intros U Hok1 St1 G1 F1 i k Hik. pose proof (tables_up_steady _ _ _ _ _ _ _ _ _ Hok1 St1 U) as U1.
  apply elem_of_cons in Hik as [[= -> ->]|[[= -> ->]|Hn%elem_of_nil]%elem_of_cons]; [done| |done]. destruct U1 as [_ I1 T1 O1 _].
  split; [done|done|done| |]; [constructor; [by apply Forall_cons in O1 as [? _]|by eapply fresh_outside; [apply U|]]|].
  intros Hin. eapply Forall_forall in F1; [|exact Hin]. apply F1. apply U.
Qed.

Lemma processor_load_spec m ticks step ecx ret tv lev info l offset f :
  let table := arch_bootstrap_page_table m in
  let v := interrupts_vector_base (mc_timers m) in
  tables_up (mc_sched m) table tv lev info l offset f -> arch_global_idtr m = (4079, offset) ->
  clock_runs (mc_timers m) ticks step -> quiet ticks step -> 0 <= v < 255 -> in_u64 (arch_xapic_isr_handler_entry img) ->
  processor_load hhdm img polls ecx ret m = Panicked \/
  exists m' info' l' lev' stack base id is_bsp, processor_load hhdm img polls ecx ret m = Done m' /\
    mc_control m' = arch_interrupts_enable (arch_interrupts_disable (wrmsr MSR_APIC_BASE base
      (arch_gdt_load (mc_mem m') info' (mc_control m)))) /\
    arch_bootstrap_page_table m' = table /\ arch_global_idtr m' = (4079, offset) /\ mc_cr3 m' = table -w hhdm /\
    mc_rsp m' = stack +w 1 * PAGE /\ Forall (fun p => ~ src_owned (mc_sched m) p) (stack :: l') /\ src_owned (mc_sched m') stack /\
    (forall i k, (i, k) ∈ [(info, l); (info', l')] ->
       tables_up (mc_sched m') table (overlay (page_number (XAPIC_BASE +w hhdm)) XAPIC_BASE 1 tv) lev' i k offset
         (fun w => if w =? v then arch_xapic_isr_handler_entry img else f w)) /\
    sc_cpu_contexts (mc_sched m') !! gs_base (sc_cpu (mc_sched m')) = Some (CpuContext CONTEXT_TYPE_CPU id is_bsp info' 0).
Proof using Hh Hlaws.
  intros table v U Hi R Q Hv He. unfold processor_load. destruct (simd_machine ecx m) as (cr0 & cr4 & xcr0 & ->).
  set (m0 := Machine _ _ _ _ _ _ _ _ _ _). assert (src_ok (mc_sched m0)) as Hok by exact (tw_ok _ _ _ _ (ta_wf _ _ _ _ _ (tu_table _ _ _ _ _ _ _ _ U))).
  destruct (load_gdt_spec m0 Hok) as [->|(info' & l' & context & s1 & -> & Hok1 & St1 & G1 & F1 & Hgs & Hc0 & Hcx)]; [by left|].
  change (mc_sched m0) with (mc_sched m) in *. change (mc_control m0) with (mc_control m). cbn [mbind outcome_bind].
  set (m1 := arch_table_manager_switch_to hhdm _ _). change (mc_sched m1) with s1.
  pose proof (own_tables _ _ _ _ _ _ _ _ _ _ _ U Hok1 St1 G1 F1) as V1. pose proof (V1 info l ltac:(by left)) as U1.
  destruct (stack_stage s1 table tv lev info l offset f ret U1) as [->|(stack & s2 & -> & Ho2 & Hns & Hok3 & St3 & Hs3)]; [by left|].
  cbn [mbind outcome_bind]. set (m3 := arch_swap_stack ret stack _ _). set (s3 := src_with_mem s2 _) in *. change (mc_sched m3) with s3.
  assert (forall i k, (i, k) ∈ [(info, l); (info', l')] -> tables_up s3 table tv lev i k offset f) as V3
    by (intros i k Hik; eapply tables_up_steady; [exact Hok3|exact St3|by apply V1]).
  pose proof (V3 info l ltac:(by left)) as U3.
  destruct (xapic_stage m3 tv lev context (CpuContext CONTEXT_TYPE_CPU 0 false info' 0)) as
    [->|(p & base & is_bsp & id & s4 & lev4 & -> & Hsoon & Hok4 & R4 & T4 & Hgs4 & Hcx4)];
    [exact (tu_table _ _ _ _ _ _ _ _ U3)|change (gs_base (sc_cpu s2) = context); by rewrite Ho2|done|
     change (sc_cpu_contexts s2 !! context = Some (CpuContext CONTEXT_TYPE_CPU 0 false info' 0)); by rewrite Ho2|done|by left|].
  change (mc_sched m3) with s3 in *. change (arch_bootstrap_page_table m3) with table in *. cbn [mbind outcome_bind]. set (m4 := set_timers m3 _).
  assert (forall i k, (i, k) ∈ [(info, l); (info', l')] ->
    tables_up s4 table (overlay (page_number (XAPIC_BASE +w hhdm)) XAPIC_BASE 1 tv) lev4 i k offset f) as V4
    by (intros i k Hik; eapply tables_up_remapped; [by apply V3|exact R4|exact T4]).
  destruct (remapped_preserves s3 lev s4 lev4 [stack] R4) as [Hp4 _].
  { by constructor. }
  { eapply fresh_outside; [exact (tu_table _ _ _ _ _ _ _ _ U1)|by constructor]. }
  destruct (timer_stage (mc_timers m) m4 ticks step offset R Q) as (t5 & -> & Ec & Es & _);
    [done|eapply within_trans; [apply St1|]; eapply within_trans; [apply St3|apply R4]|exact Hsoon|exact Hi|right].
  change (interrupts_vector_base (mc_timers m4)) with v in Es. change (mc_mem m4) with (src_mem s4) in Es. change (mc_sched m4) with s4 in Es.
  exists (set_timers m4 t5), info', l', lev4, stack, base, id, is_bsp.
  change (mc_sched (set_timers m4 t5)) with (tm_src t5). rewrite Es.
  assert (forall i k, (i, k) ∈ [(info, l); (info', l')] -> tables_up (src_with_mem s4 (arch_interrupts_map_vector offset v (arch_xapic_isr_handler_entry img) (src_mem s4)))
    table (overlay (page_number (XAPIC_BASE +w hhdm)) XAPIC_BASE 1 tv) lev4 i k offset (fun w => if w =? v then arch_xapic_isr_handler_entry img else f w)) as V5
    by (intros i k Hik; by apply tables_up_gate; [apply V4| |]).
  destruct (tables_up_gate s4 _ _ _ _ _ _ _ v (arch_xapic_isr_handler_entry img) (V4 info l ltac:(by left)) Hv He) as [_ [_ W5]].
  split_and!; [reflexivity| |done|exact Hi|done|done| | |exact V5|].
  - change (mc_control (set_timers m4 t5)) with (tm_control t5). rewrite Ec. do 3 f_equal.
    change (mc_mem (set_timers m4 t5)) with (kh_mem (sc_heap (tm_src t5))). rewrite Es.
    change (mc_control m4) with (wrmsr MSR_APIC_BASE base (arch_gdt_load (kh_mem (sc_heap s1)) info' (mc_control m))). f_equal.
    eapply gdt_load_same; [exact G1|]. exact (tu_gdt _ _ _ _ _ _ _ _ (V5 info' l' ltac:(by right; left))).
  - constructor; [|done]. intros Hx. apply Hns. by apply St1.
  - apply W5. by apply Forall_cons in Hp4 as [[? _] _].
  - change (sc_cpu_contexts s4 !! gs_base (sc_cpu s4) = Some (CpuContext CONTEXT_TYPE_CPU id is_bsp info' 0)). by rewrite Hgs4.
Qed.
End Stages.

(** * A small machine *)

(** A board with an event timer at 0xFED00000 whose period is 100 ns and that
    advances by a million ticks with every access; its time-stamp counter is not
    constant. *)
Record board := Board { bd_ticks : Z; bd_local : gmap Z Z }.
Definition pass (b : board) : board := Board (bd_ticks b + 1000000) (bd_local b).

#[export] Instance board_platform : Platform board := {|
  mmio_read32 := fun a b => (default 0 (bd_local b !! a), pass b);
  mmio_write32 := fun a v b => Board (bd_ticks b) (<[a := v]> (bd_local b));
  mmio_read64 := fun a b => if a =? 0xFED00000 then (Z.shiftl 100000000 32, b) else (bd_ticks b, pass b);
  mmio_write64 := fun a v b => if a =? 0xFED000F0 then Board v (bd_local b) else b;
  port_read32 := fun a b => (0, b);
  port_write8 := fun a v b => b;
  rdtsc := fun b => (bd_ticks b, pass b);
  cpuid_eax := fun _ _ => 0
|}.

(** The root pointer at 0x100100, the root table with the one table of the event
    timer at 0x100200, which is at 0x100300; its signature is at 0x100400. *)
Definition board_mem : mem :=
  let m := put (put ∅ 0x100400 HPET) 0x100300 HPET in
  let m := st64 (st8 m 0x10010F 2) 0x100118 0x100200 in
  let m := st64 (st32 m 0x100204 44) 0x100224 0x100300 in
  st64 (st8 m 0x100328 0) 0x10032C 0xFED00000.

Definition board_sched : sched pa_state :=
  Sched (set_pa_mem table_state board_mem) ∅ ∅ ∅ 0 false 0 false (Cpu 0 0 [] None false false).

Definition board_image : kernel_image := Image 0x110000 0x120000 0x120100 0x100400 0x100500 1 2 3 0x120200 0x120300 0x120400 0x120500 0x120600 0x120700.
Definition board_boot : boot_info := BootInfo [MemmapEntry 8192 131072 0] 6 0 0.
Definition board_machine : machine board pa_state :=
  Machine (Timers (Board 0 ∅) board_sched (Control (0, 0) (0, 0) 0 0 0 false {[MSR_APIC_BASE := 0xFEE00000]}) (Clock no_source no_source)
    0 0 0 0 0 0 0x20) 0 0 0 0 0 0 (0, 0) 0 0.

(** * Properties *)


Lemma board_timekeeping : timekeeping 0 board_mem 0x100300 bd_ticks 1000000 100000000.
Proof.
  assert (hpet_address board_mem 0x100300 = 0xFED00000) as Ea by (vm_compute; reflexivity).
  split; unfold hpet_counter; rewrite ?Ea; change (0 +w 0xFED00000 +w HPET_OFFSET_MAIN_COUNTER) with 0xFED000F0.
  - vm_compute. reflexivity.
  - split; [vm_compute; reflexivity|lia].
  - lia.
  - intros p. vm_compute. reflexivity.
  - intros p. simpl. lia.
  - intros x v p Hx. apply Z.eqb_neq in Hx. cbn [mmio_write64 board_platform]. rewrite Hx. lia.
  - intros p. simpl. lia.
  - intros p. exists (pass p). split; [reflexivity|]. simpl. lia.
  - lia.
Qed.

(** The pages are below 0x100000. *)
Definition board_ram (b : Z) : Prop := b < 0x100000.

Lemma board_apart a n : 0x100000 <= a -> apart board_ram a n.
Proof. intros Ha b Hb. unfold board_ram. lia. Qed.

Lemma board_tables : tables_apart 0 board_ram board_mem (Acpi 0x100200 0x100100 2) 0x100400.
Proof.
  split_and!; [apply board_apart; simpl; lia..| |].
  - intros i Hi.
    assert (sdt_entries board_mem 0x100200 (sdt_width board_mem (Acpi 0x100200 0x100100 2)) = 1) as En by (vm_compute; reflexivity).
    cbn [acpi_sdt] in *. rewrite En in Hi. assert (i = 0) as -> by lia. apply board_apart. vm_compute. discriminate.
  - apply board_apart. vm_compute. discriminate.
Qed.

Lemma board_wf : pa_wf 0 (set_pa_mem table_state board_mem).
Proof.
  assert (map_Forall (fun k _ => 0x100000 <= k) board_mem) as Hk by (apply (bool_decide_unpack _); vm_compute; exact I).
  refine (proj1 (@law_in_write 0 pa_state (pa_source 0) (pa_source_laws 0) table_state board_ram board_mem table_state_wf _ _)).
  - constructor; [|constructor]. apply pool_bytes_below. unfold pool_end, table_pool. simpl. unfold PAGE. lia.
  - intros b Hb. unfold ld8. destruct (board_mem !! b) as [v|] eqn:E; [|done].
    apply Hk in E. exfalso. apply Hb. right. unfold board_ram. lia.
Qed.

(** The same machine after [arch_init]. *)
Definition board_acpi : acpi := Acpi 0x100200 0x100100 2.
Definition board_polls : nat := Z.to_nat 1000000.
Definition board_init : outcome (machine board pa_state) := @arch_init 0 board_image board_boot board _ pa_state early_heap board_polls board_acpi board_machine.
Definition done_or {A : Type} (a : A) (o : outcome A) : A := match o with Done b => b | _ => a end.
Definition board_after : machine board pa_state := done_or board_machine board_init.

Lemma board_init_done : is_done board_init = true.
Proof. vm_compute. reflexivity. Qed.

Lemma board_header : acpi_get_table 0 board_mem board_acpi 0x100400 = 0x100300.
Proof. vm_compute. reflexivity. Qed.

Lemma board_pools : pools_in board_ram (set_pa_mem table_state board_mem).
Proof. constructor; [|constructor]. apply pool_bytes_below. unfold pool_end, table_pool. simpl. unfold PAGE. lia. Qed.

Lemma board_memory_map : memory_map_ok 0 board_boot.
Proof. constructor; [|constructor]. split_and!; vm_compute; (reflexivity || discriminate). Qed.

Lemma board_time : timekeeping 0 board_mem (acpi_get_table 0 board_mem board_acpi 0x100400) bd_ticks 1000000 100000000.
Proof. rewrite board_header. exact board_timekeeping. Qed.

Lemma board_polls_enough : 100000000 / (100000000 / 1000000) <= Z.of_nat board_polls.
Proof. unfold board_polls. rewrite Z2Nat.id by lia. change (100000000 / (100000000 / 1000000)) with 1000000. lia. Qed.

Lemma board_up : exists tv lev info l offset f,
  @tables_up 0 pa_state early_heap (pa_wf 0) pa_allocated pools_in (mc_sched board_after) (arch_bootstrap_page_table board_after) tv lev info l offset f /\
  arch_global_idtr board_after = (4079, offset).
Proof.
  pose proof board_init_done as Hd. unfold board_after.
  destruct (@arch_init_spec 0 hhdm_ok_0 pa_state early_heap (pa_wf 0) pa_allocated pools_in (early_laws 0) board _ board_image board_boot board_polls
    board_acpi board_machine board_ram bd_ticks 1000000 100000000) as [Hp|(m' & info & l & offset & lev & base & id & is_bsp & E & _ & Ei & _ & U & _)];
    [exact board_wf|exact board_pools|apply board_apart; simpl; lia|simpl; lia|exact board_memory_map|reflexivity|simpl; lia|exact board_tables| |exact board_time|exact board_polls_enough| |].
  - change (acpi_get_table 0 board_mem board_acpi 0x100400 <> 0). rewrite board_header. lia.
  - unfold board_init in Hd. rewrite Hp in Hd. discriminate Hd.
  - unfold board_init. rewrite E. eexists _, lev, info, l, offset, _. split; [exact U|exact Ei].
Qed.


(** arch_late_init ends, with one gate of the interrupt table leading to the handler of the
    timer, the next vector reserved, interrupts enabled and the other tables as they were. *)
Theorem late_init_arms (hhdm : Z) {H} `{!KernelHeap H} (ok : H -> Prop) (owned : H -> Z -> Prop) (inside : (Z -> Prop) -> H -> Prop)
    {P} `{!Platform P} (img : kernel_image) (polls : nat) (m : machine P H) (ticks : P -> Z) (step : Z)
    (tv : Z -> Z) (lev : gmap Z nat) (info : Z) (l : list Z) (offset : Z) (f : Z -> Z) :
  hhdm_ok hhdm -> @PageSourceLaws hhdm H (page_view ok owned inside) ->
  tables_up hhdm ok owned inside (mc_sched m) (arch_bootstrap_page_table m) tv lev info l offset f -> arch_global_idtr m = (4079, offset) ->
  clock_runs hhdm inside img polls (mc_timers m) ticks step -> quiet ticks step ->
  let v := interrupts_vector_base (mc_timers m) in
  0 <= v < 255 -> in_u64 (arch_xapic_isr_handler_entry img) ->
  exists m', arch_late_init hhdm img polls m = Done m' /\ c_interrupts (mc_control m') = true /\
    interrupts_vector_base (mc_timers m') = v + 1 /\
    tables_up hhdm ok owned inside (mc_sched m') (arch_bootstrap_page_table m') tv lev info l offset
      (fun w => if w =? v then arch_xapic_isr_handler_entry img else f w).
Proof.
  intros Hh Hl U Hi R Q v Hv He.
  destruct (timer_stage hhdm ok owned inside img polls (mc_timers m) m ticks step offset R Q) as (t' & E & Ec & Es & _ & Eb);
    [by split_and!|apply within_refl|intros k st Qk; pose proof (q_write _ _ Qk 0 0 (tm_hw (mc_timers m))); lia|done|].
  exists (set_timers m t'). split; [exact E|]. change (mc_control (set_timers m t')) with (tm_control t'). rewrite Ec.
  change (mc_timers (set_timers m t')) with t'. change (mc_sched (set_timers m t')) with (tm_src t'). rewrite Es, Eb.
  split; [done|]. split; [apply Z.mod_small; lia|].
  exact (proj1 (tables_up_gate hhdm Hh ok owned inside Hl _ _ _ _ _ _ _ _ v (arch_xapic_isr_handler_entry img) U Hv He)).
Qed.

(** C28. With a clock that runs and a next vector below 255, a woken processor panics, out of
    pages or with its interrupt controller out of place, or ends with a segment table and a
    stack in fresh pages, the shared page table and interrupt table, and the tables of the other
    processors as they were, but for the gate of its timer; after arch_xapic_timer_init, before
    arch_idt_load, its interrupts are enabled with the table the boot loader left. *)
Theorem processor_joins (hhdm : Z) {H} `{!KernelHeap H} (ok : H -> Prop) (owned : H -> Z -> Prop) (inside : (Z -> Prop) -> H -> Prop)
    {P} `{!Platform P} (img : kernel_image) (polls : nat) (m : machine P H) (ticks : P -> Z) (step ecx ret : Z)
    (tv : Z -> Z) (lev : gmap Z nat) (info : Z) (l : list Z) (offset : Z) (f : Z -> Z) :
  hhdm_ok hhdm -> @PageSourceLaws hhdm H (page_view ok owned inside) ->
  tables_up hhdm ok owned inside (mc_sched m) (arch_bootstrap_page_table m) tv lev info l offset f -> arch_global_idtr m = (4079, offset) ->
  clock_runs hhdm inside img polls (mc_timers m) ticks step -> quiet ticks step ->
  let v := interrupts_vector_base (mc_timers m) in
  0 <= v < 255 -> in_u64 (arch_xapic_isr_handler_entry img) ->
  processor_init hhdm img polls ecx ret m = Panicked \/
  exists m1 m' info' l' lev' stack, processor_load hhdm img polls ecx ret m = Done m1 /\ processor_init hhdm img polls ecx ret m = Done m' /\
    c_interrupts (mc_control m1) = true /\ c_idtr (mc_control m1) = c_idtr (mc_control m) /\
    let c := mc_control m' in
    selectors (mc_mem m') c 0 (c_cs c) (c_ds c) = true /\ selectors (mc_mem m') c 3 (sysret_cs c) (sysret_ss c) = true /\
    tss_selector (mc_mem m') c (c_tr c) = true /\ c_idtr c = arch_global_idtr m /\ mc_cr3 m' = arch_bootstrap_page_table m -w hhdm /\
    mc_rsp m' = stack +w 1 * PAGE /\ Forall (fun p => ~ owned (sc_heap (mc_sched m)) p) (stack :: l') /\ info' ∈ l' /\
    (forall i k, (i, k) ∈ [(info, l); (info', l')] ->
       tables_up hhdm ok owned inside (mc_sched m') (arch_bootstrap_page_table m)
         (overlay (page_number (XAPIC_BASE +w hhdm)) XAPIC_BASE 1 tv) lev' i k offset
         (fun w => if w =? v then arch_xapic_isr_handler_entry img else f w)).
Proof.
  intros Hh Hl U Hi R Q v Hv He. unfold processor_init.
  destruct (processor_load_spec hhdm Hh ok owned inside Hl img polls m ticks step ecx ret tv lev info l offset f U Hi R Q Hv He)
    as [->|(m1 & info' & l' & lev' & stack & base & id & is_bsp & -> & Ec & Et & Ei & Er & Esp & Hf & _ & V & _)]; [by left|right].
  exists m1, (processor_finish img m1), info', l', lev', stack. split; [done|]. split; [done|]. rewrite Ec. split; [done|]. split; [done|]. cbv zeta.
  set (c := mc_control (processor_finish img m1)).
  assert (c = arch_syscall_init (arch_syscall_entry_at img) (arch_idt_load (4079, offset) (arch_interrupts_enable (arch_interrupts_disable
    (wrmsr MSR_APIC_BASE base (arch_gdt_load (mc_mem m1) info' (mc_control m))))))) as Hc by (unfold c; rewrite <- Ei, <- Ec; reflexivity).
  pose proof (V info' l' ltac:(by right; left)) as U'. destruct (tu_gdt _ _ _ _ _ _ _ _ _ _ _ _ U') as [G1 G2 G3 G4] eqn:EG. clear EG.
  destruct (@gdt_page_selectors _ (sched_view ok owned inside) _ _ _ c (tu_gdt _ _ _ _ _ _ _ _ _ _ _ _ U')) as (S1 & S2 & S3 & _); [by rewrite Hc|].
  assert (star c = 0x0013000800000000) as Hstar.
  { rewrite Hc. unfold star, rdmsr, arch_syscall_init, wrmsr. cbn [c_msrs]. unfold IA32_FMASK, IA32_LSTAR.
    rewrite !lookup_insert_ne, lookup_insert_eq by done. reflexivity. }
  unfold sysret_cs, sysret_ss. rewrite Hstar. assert (c_cs c = 8 /\ c_ds c = 16 /\ c_tr c = 40) as (-> & -> & ->) by (by rewrite Hc).
  split_and!; [exact S1|exact S2|exact S3|by rewrite Hc, Hi|exact Er|exact Esp|exact Hf| |exact V].
  destruct G4 as (p1 & p2 & p3 & -> & _). set_solver.
Qed.

(** A processor as the boot loader left it. *)
Definition board_processor : machine board pa_state :=
  with_control board_after (Control (0, 0) (15, 0x5000) 0 0 0 false {[MSR_APIC_BASE := 0xFEE00000]}).

Lemma board_processor_up : exists tv lev info l offset f,
  @tables_up 0 pa_state early_heap (pa_wf 0) pa_allocated pools_in (mc_sched board_processor) (arch_bootstrap_page_table board_processor) tv lev info l offset f /\
  arch_global_idtr board_processor = (4079, offset).
Proof.
  destruct board_up as (tv & lev & info & l & offset & f & U & Ei). exists tv, lev, info, l, offset, f. unfold board_processor.
  revert U Ei. generalize board_after. intros m U Ei. split; [exact U|exact Ei].
Qed.

Lemma board_quiet : @quiet board _ bd_ticks 1000000.
Proof. split; intros; simpl; lia. Qed.

Lemma board_clock : @clock_runs 0 pa_state early_heap pools_in board _ board_image board_polls (mc_timers board_processor) bd_ticks 1000000.
Proof.
  assert (clock_system_timer (tm_clock (mc_timers board_processor)) = hpet_source board_image 100000000) as Ec by (vm_compute; reflexivity).
  assert (hpet_counter 0 (@kh_mem _ early_heap (sc_heap (tm_src (mc_timers board_processor)))) (arch_hpet_header (mc_timers board_processor)) = 0xFED000F0)
    as Ea by (vm_compute; reflexivity).
  assert (arch_hpet_header (mc_timers board_processor) = 0x100300) as Eh by (vm_compute; reflexivity).
  assert (0 <= bd_ticks (tm_hw (mc_timers board_processor)) <= 1000000000) as Ht by (split; vm_compute; discriminate).
  unfold clock_runs. rewrite Ec. split; [simpl; lia|]. split; [lia|]. left. split; [reflexivity|]. split.
  - exists board_ram. rewrite Eh. split; [|by apply board_apart].
    assert (Forall (fun p => pool_end p <= 0x100000) (allocator_pools (sc_heap (tm_src (mc_timers board_processor))))) as Hp
      by (apply (bool_decide_unpack _); vm_compute; exact I).
    eapply Forall_impl; [exact Hp|]. intros p. apply pool_bytes_below.
  - rewrite Ea. split; [intros p; exists (pass p); split; [reflexivity|]; simpl; lia|].
    exists 100000000. split; [lia|]. split; [vm_compute; reflexivity|].
    unfold board_polls. rewrite Z2Nat.id by lia. change (100000000 / 1000000) with 100. change (10000000 / 100) with 100000.
    revert Ht. generalize (bd_ticks (tm_hw (mc_timers board_processor))). intros now Ht. lia.
Qed.

Lemma processor_joins_witness : exists m1 m',
  @processor_load 0 board_image board _ pa_state early_heap board_polls 0 0 board_processor = Done m1 /\
  @processor_init 0 board_image board _ pa_state early_heap board_polls 0 0 board_processor = Done m' /\
  c_interrupts (mc_control m1) = true /\ c_idtr (mc_control m1) = (15, 0x5000) /\ c_idtr (mc_control m') = arch_global_idtr board_processor.
Proof.
  assert (is_done (@processor_init 0 board_image board _ pa_state early_heap board_polls 0 0 board_processor) = true) as Hd by (vm_compute; reflexivity).
  destruct board_processor_up as (tv & lev & info & l & offset & f & U & Ei).
  destruct (@processor_joins 0 pa_state early_heap (pa_wf 0) pa_allocated pools_in board _ board_image board_polls board_processor bd_ticks 1000000 0 0
    tv lev info l offset f hhdm_ok_0 (early_laws 0) U Ei board_clock board_quiet)
    as [Hp|(m1 & m' & _ & _ & _ & _ & E1 & E2 & H1 & H2 & _ & _ & _ & H3 & _)].
  - split; vm_compute; (reflexivity || discriminate).
  - simpl. lia.
  - rewrite Hp in Hd. discriminate Hd.
  - exists m1, m'. split; [exact E1|]. split; [exact E2|]. split; [exact H1|]. split; [exact H2|exact H3].
Defined.

Lemma late_init_arms_witness : exists m', @arch_late_init 0 board_image board _ pa_state early_heap board_polls board_processor = Done m' /\
  c_interrupts (mc_control m') = true.
Proof.
  destruct board_processor_up as (tv & lev & info & l & offset & f & U & Ei).
  destruct (@late_init_arms 0 pa_state early_heap (pa_wf 0) pa_allocated pools_in board _ board_image board_polls board_processor bd_ticks 1000000
    tv lev info l offset f hhdm_ok_0 (early_laws 0) U Ei board_clock board_quiet) as (m' & E & H & _).
  - split; vm_compute; (reflexivity || discriminate).
  - simpl. lia.
  - exists m'. split; [exact E|exact H].
Defined.
