(* ===== verification/Logger.v ===== *)
(** The output of the kernel that is built on the printk family: the log
    ([misc/logger.c]), [panic] ([misc/panic.c]), the reports of the undefined
    behaviour sanitizer ([sanitizers/tinyubsan.c]), the stack protector
    ([sanitizers/stack_protector.c]) and the console device ([devices/console.c]).

    A [terminal] is the screen and the serial port on one memory with the two
    locks.  [literal t] is the address of the string literal [t], [buffer] that of
    the conversion buffer on the stack. *)

From stdpp Require Import strings.
From S2P Require Import Prelude Memory Libc Spinlock PageAllocator PageAllocatorSpec PageTable AddressSpace BlockAllocator BlockAllocatorSpec Paths KernelHeap Scheduler SchedulerSpec SchedulerProps Vfs VfsSpec Syscalls SyscallsSpec Fork Elf Clock DeviceManager Framebuffer Serial Printk Acpi Descriptors Timers.

(** The bytes of a string literal. *)
Definition text (s : string) : list Z := (fun c => Z.of_nat (Ascii.nat_of_ascii c)) <$> String.list_ascii_of_string s.

(** * The terminal *)

Record terminal (P : Type) := Terminal {
  te_screen : screen;
  te_ports : P;
  te_present : bool;
  printk_lock : spinlock_t;
  logger_spinlock : spinlock_t
}.
Arguments Terminal {P}.
Arguments te_screen {P}.
Arguments te_ports {P}.
Arguments te_present {P}.
Arguments printk_lock {P}.
Arguments logger_spinlock {P}.

Definition PREFIX_COLOUR : Z := 0xD0D0D0.
Definition DEBUG_COLOUR : Z := 0x3BADFF.
Definition INFO_COLOUR : Z := 0x10B010.
Definition WARN_COLOUR : Z := 0xD07000.
Definition ERROR_COLOUR : Z := 0xFF2020.

(** The lowest address of the code of the kernel, for the stack trace. *)
Definition KERNEL_TEXT : Z := 0xFFFFFFFF80000000.

Definition log_prefix : list Z := text "[%d.%d%d%d] %s: ".
Definition panic_banner : list Z := text "Kernel panic." ++ [LF] ++ text "Message: ".
Definition trace_format : list Z := text "Trace %d: %p" ++ [LF].
Definition smashed : list Z := text "Stack smashing detected.".
Definition location_format : list Z := text "tinyubsan: %s at file %s, line %d, column %d" ++ [LF].
Definition percent_c : list Z := text "%c".

Section Terminal.
Context {P : Type} `{!PortIO P} (polls : nat) (buffer : Z) (literal : list Z -> Z).
Implicit Types t : terminal P.

Definition te_mem t : mem := scr_mem (te_screen t).
Definition set_te_screen t (s : screen) : terminal P :=
  Terminal s (te_ports t) (te_present t) (printk_lock t) (logger_spinlock t).
Definition serial_of t : serial P := Serial (te_mem t) (te_ports t) (te_present t).
Definition set_te_serial t (s : serial P) : terminal P :=
  Terminal (set_scr_mem (te_screen t) (ser_mem s)) (ser_ports s) (uart16650_present s) (printk_lock t) (logger_spinlock t).
Definition set_printk_lock t (l : spinlock_t) : terminal P :=
  Terminal (te_screen t) (te_ports t) (te_present t) l (logger_spinlock t).
Definition set_logger_lock t (l : spinlock_t) : terminal P :=
  Terminal (te_screen t) (te_ports t) (te_present t) (printk_lock t) l.

Definition set_colour (colour : Z) t : terminal P :=
  let s := te_screen t in
  set_te_screen t (Screen (scr_mem s) (framebuffer_available s) (main_framebuffer s)
    (Cursor (cur_x (main_cursor s)) (cur_y (main_cursor s)) colour) (font s) (font_glyphs s) (framebuffer_spinlock s)).

(** A function of the printk family, with the lock or without it. *)
Definition locked_screen (f : spinlock_t -> screen -> outcome (spinlock_t * screen)) t : outcome (terminal P) :=
  '(l, s) ← f (printk_lock t) (te_screen t); Done (set_printk_lock (set_te_screen t s) l).
Definition locked_serial (f : spinlock_t -> serial P -> outcome (spinlock_t * serial P)) t : outcome (terminal P) :=
  '(l, s) ← f (printk_lock t) (serial_of t); Done (set_printk_lock (set_te_serial t s) l).
Definition at_screen (f : screen -> outcome screen) t : outcome (terminal P) :=
  s ← f (te_screen t); Done (set_te_screen t s).
Definition at_serial (f : serial P -> outcome (serial P)) t : outcome (terminal P) :=
  s ← f (serial_of t); Done (set_te_serial t s).

#[local] Abbreviation hex := (literal [48; 120]).

(** * The log *)

(** The arguments of the prefix. *)
Definition stamp (miliseconds module : Z) : list Z :=
  [miliseconds / 1000; miliseconds mod 1000 / 100; miliseconds mod 100 / 10; miliseconds mod 10; module].

(** [clock] holds the system timer, [read] is what the function at an address
    returns. *)
Definition _log (clock : clock_state) (read : Z -> Z) (colour module fmt : Z) (args : list Z) t : outcome (terminal P) :=
  lock ← spinlock_acquire (logger_spinlock t);
  let t := set_logger_lock t lock in
  let timer := clock_system_timer clock in
  let nanoseconds := if time_keeping_capable timer then read (read_nanoseconds timer) else 0 in
  let miliseconds := nanoseconds / 1000000 in
  t ← (if framebuffer_available (te_screen t) then
         let t := set_colour PREFIX_COLOUR t in
         t ← locked_screen (printk buffer hex (literal log_prefix) (stamp miliseconds module)) t;
         let t := set_colour colour t in
         t ← locked_screen (vprintk buffer hex fmt args) t;
         locked_screen (printk buffer hex (literal [LF]) []) t
       else Done t);
  t ← locked_serial (printk_serial polls buffer hex (literal log_prefix) (stamp miliseconds module)) t;
  t ← locked_serial (vprintk_serial polls buffer hex fmt args) t;
  t ← locked_serial (printk_serial polls buffer hex (literal [LF]) []) t;
  Done (set_logger_lock t (spinlock_release (logger_spinlock t))).

(** The macros [log_info], [log_warn] and [log_error]. *)
Definition log_info clock read module fmt args t := _log clock read INFO_COLOUR module fmt args t.
Definition log_warn clock read module fmt args t := _log clock read WARN_COLOUR module fmt args t.
Definition log_error clock read module fmt args t := _log clock read ERROR_COLOUR module fmt args t.

(** * Panic *)

(** [PRINT_TRACE_IF_POSSIBLE(x)], [n] times from [x] on; [walk] gives the return
    addresses of the frames, and the first one outside the kernel halts. *)
Fixpoint print_trace (walk : Z -> Z) (x : Z) (n : nat) t : outcome (terminal P) :=
  match n with
  | O => Done t
  | S n' =>
      if walk x <=? KERNEL_TEXT then Done t else
      t ← at_screen (printk_unsafe buffer hex (literal trace_format) [x; walk x]) t;
      t ← at_serial (printk_serial_unsafe polls buffer hex (literal trace_format) [x; walk x]) t;
      print_trace walk (x + 1) n' t
  end.

(** Up to the trace; the message is printed twice. *)
Definition panic_message (fmt : Z) (args : list Z) t : outcome (terminal P) :=
  t ← (if framebuffer_available (te_screen t) then
         let t := set_colour 0xFF0000 t in
         t ← at_screen (printk_unsafe buffer hex (literal panic_banner) []) t;
         at_screen (vprintk_unsafe buffer hex fmt args) t
       else Done t);
  t ← at_serial (printk_serial_unsafe polls buffer hex (literal panic_banner) []) t;
  t ← at_serial (vprintk_serial_unsafe polls buffer hex fmt args) t;
  t ← at_screen (printk_unsafe buffer hex (literal [LF]) []) t;
  at_serial (printk_serial_unsafe polls buffer hex (literal [LF]) []) t.

(** [halt] stops with the interrupts off: the result is the last state. *)
Definition halt (c : control) : control := arch_interrupts_disable c.

Definition panic {Q St} `{!Platform Q} (kernel_hhdm_offset : Z) (arch_aps_online : bool) (walk : Z -> Z) (fmt : Z)
    (args : list Z) (q : timers Q St) t : outcome (timers Q St * terminal P) :=
  let q := arch_kill_ap kernel_hhdm_offset arch_aps_online q in
  let q := set_control q (arch_interrupts_disable (tm_control q)) in
  t ← panic_message fmt args t;
  t ← print_trace walk 1 6 t;
  Done (set_control q (halt (tm_control q)), t).

Definition __stack_chk_guard : Z := 0xDEADBEEFF00DCACA.

Definition __stack_chk_fail {Q St} `{!Platform Q} (kernel_hhdm_offset : Z) (arch_aps_online : bool) (walk : Z -> Z)
    (q : timers Q St) t : outcome (timers Q St * terminal P) :=
  panic kernel_hhdm_offset arch_aps_online walk (literal smashed) [] q t.

(** * The console device *)

(** The characters from [c] on, [size] of them. *)
Fixpoint console_loop (c : Z) (size : nat) t : outcome (terminal P) :=
  match size with
  | O => Done t
  | S size' =>
      t ← locked_screen (printk buffer hex (literal percent_c) [u64 (char_value (ld8 (te_mem t) c))]) t;
      console_loop (c + 1) size' t
  end.

Definition console_write (node c size : Z) t : outcome (Z * terminal P) :=
  t ← console_loop c (Z.to_nat size) t;
  Done (size, t).

Definition console_read (node c size : Z) t : outcome (Z * terminal P) := Done (0, t).
End Terminal.

(** [console_create_device], with the addresses of its name and functions. *)
Definition console_create_device {H} `{!KernelHeap H} (dot name read write : Z) (s : vfs_state (dev_state H)) :
    outcome (Z * vfs_state (dev_state H)) :=
  device_create_at dot name DEV_RESERVED 0 read write s.

(** * The sanitizer *)

Record tu_source_location := Location { loc_file : Z; loc_line : Z; loc_column : Z }.

(** Every [data] starts with its location. *)
Definition location_at (m : mem) (data : Z) : tu_source_location :=
  Location (ld64 m data) (ld32 m (data + 8)) (ld32 m (data + 12)).

Definition tu_log_alignment (m : mem) (data : Z) : Z := ld8 m (data + 24).

Section Sanitizer.
Context {P : Type} `{!PortIO P} (polls : nat) (buffer : Z) (literal : list Z -> Z).
Implicit Types s : serial P.

Definition tu_print_location (message : list Z) (loc : tu_source_location) s : outcome (serial P) :=
  printk_serial_unsafe polls buffer (literal [48; 120]) (literal location_format)
    [literal message; loc_file loc; loc_line loc; loc_column loc] s.

Definition __ubsan_handle_add_overflow (data : Z) s :=
  tu_print_location (text "addition overflow") (location_at (ser_mem s) data) s.
Definition __ubsan_handle_sub_overflow (data : Z) s :=
  tu_print_location (text "subtraction overflow") (location_at (ser_mem s) data) s.
Definition __ubsan_handle_mul_overflow (data : Z) s :=
  tu_print_location (text "multiplication overflow") (location_at (ser_mem s) data) s.
Definition __ubsan_handle_divrem_overflow (data : Z) s :=
  tu_print_location (text "division overflow") (location_at (ser_mem s) data) s.
Definition __ubsan_handle_negate_overflow (data : Z) s :=
  tu_print_location (text "negation overflow") (location_at (ser_mem s) data) s.
Definition __ubsan_handle_pointer_overflow (data : Z) s :=
  tu_print_location (text "pointer overflow") (location_at (ser_mem s) data) s.
Definition __ubsan_handle_shift_out_of_bounds (data : Z) s :=
  tu_print_location (text "shift out of bounds") (location_at (ser_mem s) data) s.
Definition __ubsan_handle_load_invalid_value (data : Z) s :=
  tu_print_location (text "invalid load value") (location_at (ser_mem s) data) s.
Definition __ubsan_handle_out_of_bounds (data : Z) s :=
  tu_print_location (text "array out of bounds") (location_at (ser_mem s) data) s.

(** [1 << log_alignment] is an [int]. *)
Definition __ubsan_handle_type_mismatch_v1 (data ptr : Z) s : outcome (serial P) :=
  let loc := location_at (ser_mem s) data in
  if ptr =? 0 then tu_print_location (text "use of nullptr") loc s
  else if 31 <=? tu_log_alignment (ser_mem s) data then Undef
  else if negb (Z.land ptr (Z.shiftl 1 (tu_log_alignment (ser_mem s) data) - 1) =? 0)
  then tu_print_location (text "use of misaligned pointer") loc s
  else tu_print_location (text "no space for object") loc s.

Definition __ubsan_handle_vla_bound_not_positive (data : Z) s :=
  tu_print_location (text "variable-length argument is negative") (location_at (ser_mem s) data) s.
Definition __ubsan_handle_nonnull_return (data : Z) s :=
  tu_print_location (text "non-null return is null") (location_at (ser_mem s) data) s.
Definition __ubsan_handle_nonnull_arg (data : Z) s :=
  tu_print_location (text "non-null argument is null") (location_at (ser_mem s) data) s.
Definition __ubsan_handle_builtin_unreachable (data : Z) s :=
  tu_print_location (text "unreachable code reached") (location_at (ser_mem s) data) s.
Definition __ubsan_handle_invalid_builtin (data : Z) s :=
  tu_print_location (text "invalid builtin") (location_at (ser_mem s) data) s.

(** The handlers that take the data only, with the messages they are meant to
    print. *)
Definition ubsan_handlers : list ((Z -> serial P -> outcome (serial P)) * list Z) :=
  [(__ubsan_handle_add_overflow, text "addition overflow");
   (__ubsan_handle_sub_overflow, text "subtraction overflow");
   (__ubsan_handle_mul_overflow, text "multiplication overflow");
   (__ubsan_handle_divrem_overflow, text "division overflow");
   (__ubsan_handle_negate_overflow, text "negation overflow");
   (__ubsan_handle_pointer_overflow, text "pointer overflow");
   (__ubsan_handle_shift_out_of_bounds, text "shift out of bounds");
   (__ubsan_handle_load_invalid_value, text "invalid load value");
   (__ubsan_handle_out_of_bounds, text "array out of bounds");
   (__ubsan_handle_vla_bound_not_positive, text "variable-length argument is negative");
   (__ubsan_handle_nonnull_return, text "non-null return is null");
   (__ubsan_handle_nonnull_arg, text "non-null argument is null");
   (__ubsan_handle_builtin_unreachable, text "unreachable code reached");
   (__ubsan_handle_invalid_builtin, text "invalid builtin")].
End Sanitizer.

(** * Printing on the terminal *)

Section Printing.
Context {P : Type} `{!PortIO P} `{!Uart16550 P} (polls : nat).
Context (buffer : Z) (literal : list Z -> Z).
Implicit Types t : terminal P.
#[local] Abbreviation hex := (literal [48; 120]).

(** [n] more characters can be printed; a screen that is not there is no
    hindrance. *)
Record ready (n : nat) t : Prop := {
  rd_screen : framebuffer_available (te_screen t) = true -> screen_ready n (te_screen t);
  rd_online : online (serial_of t);
  rd_hex : stable buffer (te_screen t) hex [48; 120];
  rd_buffer : forall b, in_buffer buffer b -> ~ screen_own (te_screen t) b
}.

(** The serial line sent [w], the locks are as they were. *)
Record shown t (n : nat) (w : list Z) t' : Prop := {
  sh_ready : ready n t';
  sh_wire : wire (serial_of t') = wire (serial_of t) ++ crlf w;
  sh_mem : changes (fun b => on_screen (main_framebuffer (te_screen t)) b \/ in_buffer buffer b) (te_mem t) (te_mem t');
  sh_fb : main_framebuffer (te_screen t') = main_framebuffer (te_screen t);
  sh_font : font (te_screen t') = font (te_screen t);
  sh_available : framebuffer_available (te_screen t') = framebuffer_available (te_screen t);
  sh_printk : printk_lock t' = printk_lock t;
  sh_logger : logger_spinlock t' = logger_spinlock t
}.

Lemma shown_trans t1 t2 t3 n k w v : shown t1 n w t2 -> shown t2 k v t3 -> shown t1 k (w ++ v) t3.
Proof using.
  intros [R1 W1 M1 F1 O1 A1 P1 L1] [R2 W2 M2 F2 O2 A2 P2 L2]. split; try congruence.
  - by rewrite W2, W1, crlf_app, app_assoc.
  - eapply changes_trans; [exact M1|]. by rewrite F1 in M2.
Qed.

Lemma shown_own t n w t' : shown t n w t' -> screen_own (te_screen t') = screen_own (te_screen t).
Proof using. intros Hs. unfold screen_own. by rewrite (sh_fb _ _ _ _ Hs), (sh_font _ _ _ _ Hs). Qed.

Lemma stable_shown t n w t' p u : shown t n w t' -> stable buffer (te_screen t) p u -> stable buffer (te_screen t') p u.
Proof using.
  intros Hs [Hc Ha]. split.
  - eapply cstr_ext; [|exact Hc]. intros b Hb. apply (sh_mem _ _ _ _ Hs). destruct (Ha b Hb) as [Hn ?].
    intros [Hx|?]; [|done]. apply Hn. by left.
  - intros b Hb. cbn [con_own screen_laws] in *. rewrite (shown_own _ _ _ _ Hs). by apply Ha.
Qed.

(** Printing the format at [p] with these arguments means the text [out]. *)
Definition says t (p : Z) (args : list argument) (out : list Z) : Prop :=
  exists format, stable buffer (te_screen t) p format /\ Forall (arg_ok buffer (te_screen t)) args /\
    render format args = Some out.

Lemma says_shown t n w t' p args out : shown t n w t' -> says t p args out -> says t' p args out.
Proof using.
  intros Hs (format & H1 & H2 & H3). exists format. split_and!; [by eapply stable_shown| |done].
  eapply Forall_impl; [exact H2|]. intros [v|q u]; [done|]. by eapply stable_shown.
Qed.

Lemma stable_apart (s : screen) p u : stable buffer s p u -> apart_cstr (scr_mem s) buffer p u.
Proof using.
  intros [Hc Ha]. split; [exact Hc|]. destruct (Z.lt_ge_cases (p + Z.of_nat (length u)) buffer) as [|H1]; [by left|].
  destruct (Z.lt_ge_cases p (buffer + 32)) as [H2|]; [|by right]. exfalso.
  destruct (Ha (Z.max p buffer)) as [_ Hn]; [lia|]. apply Hn. unfold in_buffer. lia.
Qed.

Lemma ready_less n k t : ready (n + k) t -> ready k t.
Proof using.
  intros [R O X B]. split; [|done..]. intros Ha. destruct (R Ha) as [Hs Hy]. split; [done|]. pose proof (so_height _ Hs). nia.
Qed.

(** One format on the screen, if there is one. *)
Lemma screen_step t n p args out : ready (length out + n) t -> says t p args out ->
  exists t', at_screen (printk_unsafe buffer hex p (word <$> args)) t = Done t' /\ shown t n [] t'.
Proof using.
  intros Hr (format & Hf & Ha & Ho). unfold at_screen, printk_unsafe.
  destruct (framebuffer_available (te_screen t)) eqn:Ea; cbn [negb].
  - destruct (vprintk_format_spec buffer hex format p args out (te_screen t) n) as (s' & E & [R W M O A]);
      [split; [apply Hr|apply Hr]|done|done|done|by apply Hr|].
    unfold vprintk_unsafe. rewrite E. cbn [mbind outcome_bind]. eexists. split; [reflexivity|].
    destruct W as (Wf & Wo & _). cbn [con_own screen_laws] in O. assert (changes (fun b => on_screen (main_framebuffer (te_screen t)) b \/ in_buffer buffer b)
      (te_mem t) (scr_mem s')) as M' by exact M.
    assert (forall n', ready n' t -> ready n (set_te_screen t s')) as Hready.
    { intros n' [_ [O1 O2] X B]. split; [intros _; exact R|by split| |cbn; rewrite O; exact B].
      destruct X as [Xc Xa]. split; [|cbn; rewrite O; exact Xa]. eapply cstr_ext; [|exact Xc]. intros b Hb. apply M'.
      destruct (Xa b Hb) as [Hn ?]. intros [Hx|?]; [|done]. apply Hn. by left. }
    split; [by eapply Hready|simpl; by rewrite app_nil_r|exact M'|done|done| |done|done].
    simpl. rewrite Ea. apply R.
  - cbn [mbind outcome_bind]. eexists. split; [reflexivity|]. destruct t as [sc po pr pl ll]. cbn in *.
    split; [by eapply ready_less|by rewrite app_nil_r|done..].
Qed.

(** One format on the serial line. *)
Lemma serial_step t n p args out : (uart_time < polls)%nat -> ready n t -> says t p args out ->
  exists t', at_serial (printk_serial_unsafe polls buffer hex p (word <$> args)) t = Done t' /\ shown t n out t'.
Proof using.
  intros Htime [R O X B] (format & Hf & Ha & Ho). unfold at_serial, printk_serial_unsafe.
  destruct (vprintk_serial_spec polls buffer hex p format args out (serial_of t)) as (s' & E & O' & W & M);
    [done|done|by apply stable_apart|by apply stable_apart| |done|].
  { eapply Forall_impl; [exact Ha|]. intros [v|q u]; [done|]. apply stable_apart. }
  rewrite E. cbn [mbind outcome_bind]. eexists. split; [reflexivity|].
  assert (changes (fun b => on_screen (main_framebuffer (te_screen t)) b \/ in_buffer buffer b) (te_mem t) (ser_mem s')) as M'
    by (eapply changes_mono; [|exact M]; intros b ?; by right).
  split; [|exact W|exact M'|done..]. split.
  - intros Hav. apply screen_ready_mem; [by apply R|]. eapply changes_mono; [|exact M]. exact B.
  - exact O'.
  - destruct X as [Xc Xa]. split; [|exact Xa]. eapply cstr_ext; [|exact Xc]. intros b Hb. apply M. by apply Xa.
  - exact B.
Qed.

Lemma set_colour_shown colour t n : ready n t -> shown t n [] (set_colour colour t).
Proof using.
  intros [R O X B]. split; [|simpl; by rewrite app_nil_r|done..]. split; [|done..]. intros Ha. destruct (R Ha) as [[] Hy]. split; [split|]; done.
Qed.

(** With the lock free, the locked functions do the same. *)
Lemma locked_screen_at p args t : printk_lock t = false -> framebuffer_available (te_screen t) = true ->
  locked_screen (vprintk buffer hex p args) t = at_screen (printk_unsafe buffer hex p args) t /\
  locked_screen (printk buffer hex p args) t = at_screen (printk_unsafe buffer hex p args) t.
Proof using.
  intros Hl Ha. unfold locked_screen, at_screen, printk, printk_unsafe, vprintk, vprintk_locked, vprintk_unsafe.
  rewrite Hl, Ha. cbn [negb spinlock_acquire mbind outcome_bind]. destruct (vprintk_format _ _ _ _ _); try done.
  cbn [mbind outcome_bind]. unfold set_printk_lock, set_te_screen, spinlock_release. simpl. by rewrite Hl.
Qed.

Lemma locked_serial_at p args t : printk_lock t = false ->
  locked_serial (vprintk_serial polls buffer hex p args) t = at_serial (printk_serial_unsafe polls buffer hex p args) t.
Proof using.
  intros Hl. unfold locked_serial, at_serial, printk_serial_unsafe, vprintk_serial, vprintk_locked, vprintk_serial_unsafe.
  rewrite Hl. cbn [spinlock_acquire mbind outcome_bind]. destruct (vprintk_format _ _ _ _ _); try done.
  cbn [mbind outcome_bind]. unfold set_printk_lock, set_te_serial, spinlock_release. simpl. by rewrite Hl.
Qed.
End Printing.

(** * The texts *)

Lemma one_digit d : 0 <= d < 10 -> numeral 10 d = [48 + d].
Proof.
  intros Hd. assert (d = 0 \/ d = 1 \/ d = 2 \/ d = 3 \/ d = 4 \/ d = 5 \/ d = 6 \/ d = 7 \/ d = 8 \/ d = 9) as Hc by lia.
  repeat (destruct Hc as [->|Hc]; [reflexivity|]). by subst.
Qed.

(** The milliseconds within their second, with three digits. *)
Definition three_digits (d : Z) : list Z := [48 + d / 100; 48 + d / 10 mod 10; 48 + d mod 10].

Definition log_head (miliseconds : Z) (name : list Z) : list Z :=
  text "[" ++ numeral 10 (miliseconds / 1000) ++ text "." ++ three_digits (miliseconds mod 1000) ++ text "] " ++ name ++ text ": ".

Definition stamp_args (miliseconds module : Z) (name : list Z) : list argument :=
  [Num (miliseconds / 1000); Num (miliseconds mod 1000 / 100); Num (miliseconds mod 100 / 10); Num (miliseconds mod 10);
   Str module name].

Lemma stamp_words miliseconds module name : word <$> stamp_args miliseconds module name = stamp miliseconds module.
Proof. reflexivity. Qed.

Lemma render_prefix ms module name : 0 <= ms -> render log_prefix (stamp_args ms module name) = Some (log_head ms name).
Proof.
  intros H0. unfold log_head, three_digits, stamp_args.
  assert (ms mod 1000 mod 10 = ms mod 10 /\ ms mod 1000 / 10 mod 10 = ms mod 100 / 10) as [-> ->] by (split; Z.div_mod_to_equations; lia).
  change ([48 + ms mod 1000 / 100; 48 + ms mod 100 / 10; 48 + ms mod 10])
    with ([48 + ms mod 1000 / 100] ++ [48 + ms mod 100 / 10] ++ [48 + ms mod 10]).
  rewrite <- (one_digit (ms mod 1000 / 100)), <- (one_digit (ms mod 100 / 10)), <- (one_digit (ms mod 10))
    by (Z.div_mod_to_equations; lia).
  lazy -[numeral app Z.div Z.modulo]. simpl. by rewrite <- !app_assoc.
Qed.

Section Texts.
Context {P : Type} `{!PortIO P} `{!Uart16550 P} (polls : nat) (buffer : Z) (literal : list Z -> Z).
Implicit Types t : terminal P.
#[local] Abbreviation hex := (literal [48; 120]).

(** The literals are where printing does not write. *)
Definition literals t (l : list (list Z)) : Prop := Forall (fun u => stable buffer (te_screen t) (literal u) u) l.

Lemma literals_says t l u : literals t l -> u ∈ l -> Forall (fun c => c <> PERCENT) u -> says buffer t (literal u) [] u.
Proof using.
  intros Hl Hu Hp. exists u. split_and!; [by eapply Forall_forall in Hl|constructor|].
  clear Hl Hu. induction Hp as [|c u Hc Hp IH]; [done|]. cbn [render]. apply Z.eqb_neq in Hc as ->. cbn [negb]. by rewrite IH.
Qed.

Lemma prefix_says t l ms module name : literals t l -> log_prefix ∈ l -> stable buffer (te_screen t) module name ->
  0 <= ms < 18446744073709551616 -> says buffer t (literal log_prefix) (stamp_args ms module name) (log_head ms name).
Proof using.
  intros Hl Hp Hm Hms. exists log_prefix. split_and!; [by eapply Forall_forall in Hl| |apply render_prefix; lia].
  unfold stamp_args. do 4 (constructor; [cbn [arg_ok]; Z.div_mod_to_equations; lia|]). by constructor; [exact Hm|constructor].
Qed.

(** The three parts of a line on the screen. *)
Lemma log_screen t colour fmt args ms module name out n :
  framebuffer_available (te_screen t) = true -> printk_lock t = false ->
  ready buffer literal (length (log_head ms name) + (length out + (1 + n))) t ->
  says buffer t (literal log_prefix) (stamp_args ms module name) (log_head ms name) ->
  says buffer t fmt args out -> says buffer t (literal [LF]) [] [LF] ->
  exists t', (let t := set_colour PREFIX_COLOUR t in
    t ← locked_screen (printk buffer hex (literal log_prefix) (stamp ms module)) t;
    let t := set_colour colour t in
    t ← locked_screen (vprintk buffer hex fmt (word <$> args)) t;
    locked_screen (printk buffer hex (literal [LF]) []) t) = Done t' /\ shown buffer literal t n [] t'.
Proof using.
  intros Ha Hl Hr H1 H2 H3. cbv zeta. rewrite <- (stamp_words ms module name).
  pose proof (set_colour_shown buffer literal PREFIX_COLOUR t _ Hr) as S1.
  rewrite (proj2 (locked_screen_at _ _ _ _ (set_colour PREFIX_COLOUR t) Hl Ha)).
  destruct (screen_step buffer literal _ _ _ _ _ (sh_ready _ _ _ _ _ _ S1) (says_shown _ _ _ _ _ _ _ _ _ S1 H1)) as (t2 & -> & S2).
  cbn [mbind outcome_bind]. pose proof (shown_trans _ _ _ _ _ _ _ _ _ S1 S2) as S12.
  pose proof (set_colour_shown buffer literal colour t2 _ (sh_ready _ _ _ _ _ _ S2)) as S3.
  pose proof (shown_trans _ _ _ _ _ _ _ _ _ S12 S3) as S13.
  rewrite (proj1 (locked_screen_at _ _ _ _ (set_colour colour t2) ltac:(by rewrite (sh_printk _ _ _ _ _ _ S13)) ltac:(by rewrite (sh_available _ _ _ _ _ _ S13)))).
  destruct (screen_step buffer literal _ _ _ _ _ (sh_ready _ _ _ _ _ _ S3) (says_shown _ _ _ _ _ _ _ _ _ S13 H2)) as (t4 & -> & S4).
  cbn [mbind outcome_bind]. pose proof (shown_trans _ _ _ _ _ _ _ _ _ S13 S4) as S14.
  rewrite (proj2 (locked_screen_at _ _ _ _ t4 ltac:(by rewrite (sh_printk _ _ _ _ _ _ S14)) ltac:(by rewrite (sh_available _ _ _ _ _ _ S14)))).
  destruct (screen_step buffer literal t4 n (literal [LF]) [] [LF] (sh_ready _ _ _ _ _ _ S4) (says_shown _ _ _ _ _ _ _ _ _ S14 H3)) as (t5 & E5 & S5).
  exists t5. split; [exact E5|]. exact (shown_trans _ _ _ _ _ _ _ _ _ S14 S5).
Qed.

(** A format on the serial line while the lock is free. *)
Lemma log_serial_step t n p args out : (uart_time < polls)%nat -> printk_lock t = false -> ready buffer literal n t ->
  says buffer t p args out ->
  exists t', locked_serial (vprintk_serial polls buffer hex p (word <$> args)) t = Done t' /\ shown buffer literal t n out t'.
Proof using.
  intros Hp Hl Hr Hs. rewrite locked_serial_at by done. by apply serial_step.
Qed.
End Texts.

(** ** Panic *)

(** The frames up to the first one outside the kernel. *)
Fixpoint trace_text (walk : Z -> Z) (x : Z) (n : nat) : list Z :=
  match n with
  | O => []
  | S n' =>
      if walk x <=? KERNEL_TEXT then []
      else (text "Trace " ++ numeral 10 x ++ text ": 0x" ++ numeral 16 (walk x) ++ [LF]) ++ trace_text walk (x + 1) n'
  end.

Lemma render_trace x a : render trace_format [Num x; Num a] = Some (text "Trace " ++ numeral 10 x ++ text ": 0x" ++ numeral 16 a ++ [LF]).
Proof. lazy -[numeral app]. simpl. reflexivity. Qed.

Section Panic.
Context {P : Type} `{!PortIO P} `{!Uart16550 P} (polls : nat) (buffer : Z) (literal : list Z -> Z).
Implicit Types t : terminal P.
#[local] Abbreviation hex := (literal [48; 120]).

(** A format on both. *)
Lemma both_step t n p args out : (uart_time < polls)%nat -> ready buffer literal (length out + n) t -> says buffer t p args out ->
  exists t1 t2, at_screen (printk_unsafe buffer hex p (word <$> args)) t = Done t1 /\
    at_serial (printk_serial_unsafe polls buffer hex p (word <$> args)) t1 = Done t2 /\ shown buffer literal t n out t2.
Proof using.
  intros Hp Hr Hs. destruct (screen_step buffer literal t n p args out Hr Hs) as (t1 & E1 & S1).
  destruct (serial_step polls buffer literal t1 n p args out Hp (sh_ready _ _ _ _ _ _ S1) (says_shown _ _ _ _ _ _ _ _ _ S1 Hs)) as (t2 & E2 & S2).
  exists t1, t2. split_and!; [done|done|]. exact (shown_trans _ _ _ _ _ _ _ _ _ S1 S2).
Qed.

Lemma print_trace_spec walk k : forall x t n, (uart_time < polls)%nat ->
  ready buffer literal (length (trace_text walk x k) + n) t -> stable buffer (te_screen t) (literal trace_format) trace_format ->
  (forall i, in_u64 (walk i)) -> 0 <= x -> x + Z.of_nat k < 1000 ->
  exists t', print_trace polls buffer literal walk x k t = Done t' /\ shown buffer literal t n (trace_text walk x k) t'.
Proof using.
  induction k as [|k IH]; intros x t n Hp Hr Hl Hw H0 Hx; cbn [print_trace trace_text] in *;
    [|destruct (walk x <=? KERNEL_TEXT)];
    try (exists t; split; [done|]; split; [exact Hr|simpl; by rewrite app_nil_r|done..]).
  rewrite length_app, <- Nat.add_assoc in Hr.
  destruct (both_step t _ (literal trace_format) [Num x; Num (walk x)] _ Hp Hr) as (t1 & t2 & E1 & E2 & S2).
  { exists trace_format. split_and!; [done| |apply render_trace]. repeat (constructor; [cbn [arg_ok]; (lia || apply Hw)|]). constructor. }
  cbn [fmap list_fmap word] in E1, E2. rewrite E1. cbn [mbind outcome_bind]. rewrite E2. cbn [mbind outcome_bind].
  destruct (IH (x + 1) t2 n Hp (sh_ready _ _ _ _ _ _ S2)) as (t3 & E3 & S3); [by eapply stable_shown|done|lia|lia|].
  exists t3. split; [done|]. exact (shown_trans _ _ _ _ _ _ _ _ _ S2 S3).
Qed.

Definition panic_text (out : list Z) : list Z := panic_banner ++ out ++ [LF].

Lemma panic_message_spec fmt args out t n : (uart_time < polls)%nat ->
  ready buffer literal (length (panic_text out) + n) t -> literals buffer literal t [panic_banner; [LF]] -> says buffer t fmt args out ->
  exists t', panic_message polls buffer literal fmt (word <$> args) t = Done t' /\ shown buffer literal t n (panic_text out) t'.
Proof using.
  intros Hp Hr Hl Hf. unfold panic_text in *. rewrite !length_app, <- !Nat.add_assoc in Hr. unfold panic_message.
  assert (says buffer t (literal panic_banner) [] panic_banner) as Hb by (eapply literals_says; [exact Hl|set_solver|repeat constructor; discriminate]).
  assert (says buffer t (literal [LF]) [] [LF]) as Hn by (eapply literals_says; [exact Hl|set_solver|repeat constructor; discriminate]).
  assert (exists t1, (if framebuffer_available (te_screen t) then
      t ← at_screen (printk_unsafe buffer hex (literal panic_banner) []) (set_colour 0xFF0000 t);
      at_screen (vprintk_unsafe buffer hex fmt (word <$> args)) t else Done t) = Done t1 /\
      shown buffer literal t (1 + n) [] t1) as (t1 & -> & S1).
  { destruct (framebuffer_available (te_screen t)) eqn:Ea.
    - pose proof (set_colour_shown buffer literal 0xFF0000 t _ Hr) as S1.
      destruct (screen_step buffer literal _ _ _ _ _ (sh_ready _ _ _ _ _ _ S1) (says_shown _ _ _ _ _ _ _ _ _ S1 Hb)) as (t2 & E2 & S2).
      pose proof (shown_trans _ _ _ _ _ _ _ _ _ S1 S2) as S12. cbn [fmap list_fmap] in E2. rewrite E2. cbn [mbind outcome_bind].
      destruct (screen_step buffer literal _ _ _ _ _ (sh_ready _ _ _ _ _ _ S2) (says_shown _ _ _ _ _ _ _ _ _ S12 Hf)) as (t3 & E3 & S3).
      unfold at_screen, printk_unsafe in E3. rewrite (sh_available _ _ _ _ _ _ S12), Ea in E3.
      exists t3. split; [exact E3|]. exact (shown_trans _ _ _ _ _ _ _ _ _ S12 S3).
    - exists t. split; [done|]. split; [|simpl; by rewrite app_nil_r|done..].
      apply (ready_less _ _ (length panic_banner + length out)). by rewrite <- Nat.add_assoc. }
  cbn [mbind outcome_bind].
  destruct (serial_step polls buffer literal t1 _ _ [] _ Hp (sh_ready _ _ _ _ _ _ S1) (says_shown _ _ _ _ _ _ _ _ _ S1 Hb)) as (t2 & E2 & S2).
  cbn [fmap list_fmap] in E2. rewrite E2. cbn [mbind outcome_bind]. pose proof (shown_trans _ _ _ _ _ _ _ _ _ S1 S2) as S12.
  destruct (serial_step polls buffer literal t2 _ _ _ _ Hp (sh_ready _ _ _ _ _ _ S2) (says_shown _ _ _ _ _ _ _ _ _ S12 Hf)) as (t3 & E3 & S3).
  unfold printk_serial_unsafe in E3. change (at_serial (vprintk_serial_unsafe polls buffer hex fmt (word <$> args)) t2 = Done t3) in E3.
  rewrite E3. cbn [mbind outcome_bind]. pose proof (shown_trans _ _ _ _ _ _ _ _ _ S12 S3) as S13.
  destruct (both_step t3 n (literal [LF]) [] [LF] Hp (sh_ready _ _ _ _ _ _ S3) (says_shown _ _ _ _ _ _ _ _ _ S13 Hn)) as (t4 & t5 & E4 & E5 & S5).
  cbn [fmap list_fmap] in E4, E5. rewrite E4. cbn [mbind outcome_bind]. exists t5. split; [exact E5|].
  pose proof (shown_trans _ _ _ _ _ _ _ _ _ S13 S5) as S. by rewrite <- !app_assoc in S.
Qed.
End Panic.

(** ** The sanitizer *)

Definition report (message file : list Z) (line column : Z) : list Z :=
  text "tinyubsan: " ++ message ++ text " at file " ++ file ++ text ", line " ++ numeral 10 line ++ text ", column " ++ numeral 10 column ++ [LF].

Lemma render_report pm message pf file line column :
  render location_format [Str pm message; Str pf file; Num line; Num column] = Some (report message file line column).
Proof. lazy -[numeral app]. simpl. reflexivity. Qed.

(** The messages of the handlers. *)
Definition ubsan_messages {P} `{!PortIO P} (polls : nat) (buffer : Z) (literal : list Z -> Z) : list (list Z) :=
  (ubsan_handlers polls buffer literal).*2 ++
  [text "use of nullptr"; text "use of misaligned pointer"; text "no space for object"].

(** Everything that a report reads lies outside the conversion buffer. *)
Record reportable {P} `{!PortIO P} (polls : nat) (buffer : Z) (literal : list Z -> Z) (s : serial P) (data : Z) (file : list Z) : Prop := {
  rp_literals : Forall (fun u => apart_cstr (ser_mem s) buffer (literal u) u) ([48; 120] :: location_format :: ubsan_messages polls buffer literal);
  rp_file : apart_cstr (ser_mem s) buffer (loc_file (location_at (ser_mem s) data)) file
}.

Lemma tu_print_location_spec {P} `{!PortIO P} `{!Uart16550 P} polls buffer literal (s : serial P) data file message :
  (uart_time < polls)%nat -> online s -> reportable polls buffer literal s data file -> message ∈ ubsan_messages polls buffer literal ->
  exists s', tu_print_location polls buffer literal message (location_at (ser_mem s) data) s = Done s' /\
    wire s' = wire s ++ crlf (report message file (ld32 (ser_mem s) (data + 8)) (ld32 (ser_mem s) (data + 12))).
Proof.
  intros Hp Ho [Hl Hf] Hm. apply Forall_cons in Hl as [Hh Hl]. apply Forall_cons in Hl as [Hfmt Hl].
  eapply Forall_forall in Hl; [|exact Hm]. set (loc := location_at (ser_mem s) data).
  destruct (vprintk_serial_spec polls buffer (literal [48; 120]) (literal location_format) location_format
    [Str (literal message) message; Str (loc_file loc) file; Num (loc_line loc); Num (loc_column loc)]
    (report message file (loc_line loc) (loc_column loc)) s Hp Ho Hh Hfmt)
    as (s' & E & _ & W & _); [|apply render_report|exists s'; split; [exact E|exact W]].
  pose proof (ld32_range (ser_mem s) (data + 8)). pose proof (ld32_range (ser_mem s) (data + 12)).
  do 2 (constructor; [assumption|]). do 2 (constructor; [simpl; lia|]). constructor.
Qed.

Definition now (clock : clock_state) (read : Z -> Z) : Z :=
  if time_keeping_capable (clock_system_timer clock) then read (read_nanoseconds (clock_system_timer clock)) else 0.

(** A log line, after which [n] more characters can be printed. *)
Lemma log_spec {P} `{!PortIO P} `{!Uart16550 P} (polls : nat) (buffer : Z) (literal : list Z -> Z) (clock : clock_state)
    (read : Z -> Z) (colour module fmt : Z) (name : list Z) (args : list argument) (out : list Z) (t : terminal P) (n : nat) :
  let line := log_head (now clock read / 1000000) name ++ out ++ [LF] in
  (uart_time < polls)%nat -> logger_spinlock t = false -> printk_lock t = false -> in_u64 (now clock read) ->
  ready buffer literal (length line + n) t -> literals buffer literal t [log_prefix; [LF]] ->
  stable buffer (te_screen t) module name -> says buffer t fmt args out ->
  exists t', _log polls buffer literal clock read colour module fmt (word <$> args) t = Done t' /\ shown buffer literal t n line t'.
Proof.
  intros line Hp Hl Hk Hn Hr Hlit Hm Hf. subst line. set (ms := now clock read / 1000000) in *.
  assert (0 <= ms < 18446744073709551616) as Hms by (unfold ms; Z.div_mod_to_equations; lia).
  assert (says buffer t (literal [LF]) [] [LF]) as Hlf by (eapply literals_says; [exact Hlit|set_solver|repeat constructor; discriminate]).
  pose proof (prefix_says _ _ _ _ ms module name Hlit ltac:(set_solver) Hm Hms) as Hpre.
  rewrite !length_app, <- !Nat.add_assoc in Hr. unfold _log. rewrite Hl. cbn [spinlock_acquire mbind outcome_bind].
  set (t0 := set_logger_lock t true).
  assert (ready buffer literal (length (log_head ms name) + (length out + (1 + n))) t0) as R0 by (destruct Hr; by split).
  change (if time_keeping_capable _ then _ else 0) with (now clock read). cbv zeta. fold ms.
  assert (exists t1, (if framebuffer_available (te_screen t0) then
      t ← locked_screen (printk buffer (literal [48; 120]) (literal log_prefix) (stamp ms module)) (set_colour PREFIX_COLOUR t0);
      t ← locked_screen (vprintk buffer (literal [48; 120]) fmt (word <$> args)) (set_colour colour t);
      locked_screen (printk buffer (literal [48; 120]) (literal [LF]) []) t else Done t0) = Done t1 /\
      shown buffer literal t0 n [] t1) as (t1 & -> & S1).
  { destruct (framebuffer_available (te_screen t0)) eqn:Ea; [by apply (log_screen buffer literal t0 colour fmt args ms module name out n)|].
    exists t0. split; [done|]. split; [apply (ready_less _ _ (length (log_head ms name) + (length out + 1)) n); by rewrite <- !Nat.add_assoc|simpl; by rewrite app_nil_r|done..]. }
  cbn [mbind outcome_bind]. change (@printk_serial P _) with (@vprintk_serial P _). rewrite <- (stamp_words ms module name).
  destruct (log_serial_step polls buffer literal t1 n _ _ _ Hp ltac:(by rewrite (sh_printk _ _ _ _ _ _ S1)) (sh_ready _ _ _ _ _ _ S1)
    (says_shown _ _ _ _ _ _ _ _ _ S1 Hpre)) as (t2 & -> & S2). cbn [mbind outcome_bind].
  pose proof (shown_trans _ _ _ _ _ _ _ _ _ S1 S2) as S12.
  destruct (log_serial_step polls buffer literal t2 n _ _ _ Hp ltac:(by rewrite (sh_printk _ _ _ _ _ _ S12)) (sh_ready _ _ _ _ _ _ S2)
    (says_shown _ _ _ _ _ _ _ _ _ S12 Hf)) as (t3 & -> & S3). cbn [mbind outcome_bind].
  pose proof (shown_trans _ _ _ _ _ _ _ _ _ S12 S3) as S13.
  destruct (log_serial_step polls buffer literal t3 n _ [] _ Hp ltac:(by rewrite (sh_printk _ _ _ _ _ _ S13)) (sh_ready _ _ _ _ _ _ S3)
    (says_shown _ _ _ _ _ _ _ _ _ S13 Hlf)) as (t4 & E4 & S4). cbn [fmap list_fmap] in E4. rewrite E4. cbn [mbind outcome_bind].
  pose proof (shown_trans _ _ _ _ _ _ _ _ _ S13 S4) as S14. eexists. split; [reflexivity|].
  destruct S14 as [[R1 R2 R3 R4] W M F O A K L]. split; [by split| |exact M|done|done|done|done|by simpl; rewrite Hl].
  by rewrite <- !app_assoc in W.
Qed.

(** * A small terminal *)

(** The literals are 64 bytes apart, then come a module name, a format and a file
    name. *)
Definition demo_literals : list (list Z) :=
  [[48; 120]; [LF]; log_prefix; panic_banner; trace_format; location_format; percent_c] ++
  (@ubsan_messages chip _ 0 0 (fun _ => 0)) ++ [text "main"; text "ok %d"; text "a.c"].

Fixpoint place (p : Z) (l : list (list Z)) (m : mem) : mem :=
  match l with [] => m | u :: l' => place (p + 64) l' (put m p u) end.

Fixpoint position (p : Z) (l : list (list Z)) (u : list Z) : Z :=
  match l with [] => 0 | v :: l' => if decide (v = u) then p else position (p + 64) l' u end.

Definition demo_literal (u : list Z) : Z := position 10000 demo_literals u.

(** A location at 20000: file, line 7, column 3; pointers of 8 bytes. *)
Definition demo_mem : mem :=
  st8 (st8 (st8 (st64 (place 10000 demo_literals demo_font) 20000 (demo_literal (text "a.c"))) 20008 7) 20012 3) 20024 3.

Definition demo_terminal : terminal chip :=
  Terminal (set_scr_mem demo_screen demo_mem) (Chip (View 3 0 1 0 []) false) true false false.

Definition cstrb (m : mem) (p : Z) (u : list Z) : bool :=
  bool_decide (bytes m p (length u) = u) && bool_decide (ld8 m (p + Z.of_nat (length u)) = 0) && bool_decide (Forall (fun c => c <> 0) u).

Lemma cstrb_cstr m p u : cstrb m p u = true -> cstr m p u.
Proof. unfold cstrb. rewrite !andb_true_iff, !bool_decide_eq_true. intros [[H1 H2] H3]. by split_and!. Qed.

(** Every literal is where [demo_literal] says, between the font and the screen. *)
Lemma demo_literals_placed u : u ∈ demo_literals ->
  cstr demo_mem (demo_literal u) u /\ 10000 <= demo_literal u /\ demo_literal u + Z.of_nat (length u) < 20000.
Proof.
  intros Hu. assert (forallb (fun u => cstrb demo_mem (demo_literal u) u && (10000 <=? demo_literal u) &&
    (demo_literal u + Z.of_nat (length u) <? 20000)) demo_literals = true) as Ha by (vm_compute; reflexivity).
  rewrite forallb_forall in Ha. apply list_elem_of_In in Hu. apply Ha in Hu. rewrite !andb_true_iff in Hu.
  destruct Hu as [[H1%cstrb_cstr H2%Z.leb_le] H3%Z.ltb_lt]. done.
Qed.

Lemma demo_own b : screen_own (te_screen demo_terminal) b -> 65536 <= b \/ b < 288.
Proof.
  assert (main_framebuffer demo_screen = demo_fb) as Ef by apply demo_available.
  assert (font demo_screen = 256) as Eo by apply demo_available.
  unfold demo_terminal. cbn [te_screen]. unfold screen_own, on_screen. cbn [set_scr_mem main_framebuffer font]. rewrite Ef, Eo.
  unfold demo_fb. cbn [fb_base fb_height fb_pitch]. lia.
Qed.

Lemma demo_stable u : u ∈ demo_literals -> stable 9000 (te_screen demo_terminal) (demo_literal u) u.
Proof.
  intros Hu. destruct (demo_literals_placed u Hu) as (H1 & H2 & H3). split; [exact H1|].
  intros b Hb. split; [intros Hx; apply demo_own in Hx; lia|unfold in_buffer; lia].
Qed.

Lemma put_changes (A : Z -> Prop) l : forall m m' p, changes A m m' -> (forall b, p <= b < p + Z.of_nat (length l) -> A b) -> changes A m (put m' p l).
Proof.
  induction l as [|c l IH]; intros m m' p Hm Hp; cbn [put]; [done|]. cbn [length] in Hp.
  apply IH; [apply changes_st8; [done|apply Hp; lia]|intros b Hb; apply Hp; lia].
Qed.

Lemma place_changes (A : Z -> Prop) l : forall m m' p, changes A m m' -> Forall (fun u => length u <= 64)%nat l ->
  (forall b, p <= b < p + 64 * Z.of_nat (length l) -> A b) -> changes A m (place p l m').
Proof.
  induction l as [|u l IH]; intros m m' p Hm Hl Hp; cbn [place]; [done|]. apply Forall_cons in Hl as [Hu Hl]. cbn [length] in Hp.
  apply IH; [apply put_changes; [done|intros b Hb; apply Hp; lia]|done|intros b Hb; apply Hp; lia].
Qed.

Lemma demo_changes : changes (fun b => 10000 <= b < 30000) demo_font demo_mem.
Proof.
  unfold demo_mem. do 3 (apply changes_st8; [|lia]). eapply changes_trans; [|apply changes_st64; intros b Hb; lia].
  apply place_changes; [apply changes_refl| |].
  - apply (bool_decide_unpack _). vm_compute. exact I.
  - change (Z.of_nat (length demo_literals)) with 27. intros b Hb. lia.
Qed.

Lemma demo_terminal_ready n : (n < 1000)%nat -> ready 9000 demo_literal n demo_terminal.
Proof.
  intros Hn. split.
  - intros _. apply (screen_ready_mem n demo_screen demo_mem).
    + split; [exact demo_screen_ok|]. destruct demo_available as (_ & _ & _ & _ & ->). destruct demo_sizes as (_ & -> & _). simpl. lia.
    + rewrite demo_memory. eapply changes_mono; [|exact demo_changes]. cbn beta. intros b Hb Hx.
      apply (demo_own b) in Hx. lia.
  - split_and!; reflexivity.
  - apply demo_stable. set_solver.
  - intros b Hb Hx. apply demo_own in Hx. unfold in_buffer in Hb. lia.
Qed.

Lemma demo_says : says 9000 demo_terminal (demo_literal (text "ok %d")) [Num 42] (text "ok 42").
Proof. exists (text "ok %d"). split_and!; [apply demo_stable; set_solver|repeat constructor; lia|reflexivity]. Qed.

(** The system timer says 12345 milliseconds. *)
Definition demo_clock : clock_state := Clock (TimeSource 0 true 1 1 0 false 0 0) no_source.

(** * Properties *)

(** C31. With its locks free, _log terminates, releases both locks, sends the line that consists
    of the time with three digits of milliseconds, the module, the text of the format and a line
    end, and leaves a ready screen ready. *)
Theorem log_writes_line {P} `{!PortIO P} `{!Uart16550 P} (polls : nat) (buffer : Z) (literal : list Z -> Z) (clock : clock_state)
    (read : Z -> Z) (colour module fmt : Z) (name : list Z) (args : list argument) (out : list Z) (t : terminal P) :
  let line := log_head (now clock read / 1000000) name ++ out ++ [LF] in
  (uart_time < polls)%nat -> logger_spinlock t = false -> printk_lock t = false -> in_u64 (now clock read) ->
  ready buffer literal (length line) t -> literals buffer literal t [log_prefix; [LF]] ->
  stable buffer (te_screen t) module name -> says buffer t fmt args out ->
  exists t', _log polls buffer literal clock read colour module fmt (word <$> args) t = Done t' /\
    logger_spinlock t' = false /\ printk_lock t' = false /\
    wire (serial_of t') = wire (serial_of t) ++ crlf line /\
    (framebuffer_available (te_screen t) = true -> screen_ok (te_screen t')).
Proof.
  intros line Hp Hl Hk Hn Hr Hlit Hm Hf.
  destruct (log_spec polls buffer literal clock read colour module fmt name args out t 0 Hp Hl Hk Hn) as (t' & E & S);
    [by rewrite Nat.add_0_r|done|done|done|].
  exists t'. split_and!; [exact E|by rewrite (sh_logger _ _ _ _ _ _ S)|by rewrite (sh_printk _ _ _ _ _ _ S)|apply S|].
  intros Ha. apply (rd_screen _ _ _ _ (sh_ready _ _ _ _ _ _ S)). by rewrite (sh_available _ _ _ _ _ _ S).
Qed.

Lemma log_writes_line_witness :
  exists t', _log 2 9000 demo_literal demo_clock (fun _ => 12345678901) INFO_COLOUR (demo_literal (text "main"))
      (demo_literal (text "ok %d")) [42] demo_terminal = Done t' /\
    wire (serial_of t') = text "[12.345] main: ok 42" ++ [CR; LF].
Proof.
  destruct (log_writes_line 2 9000 demo_literal demo_clock (fun _ => 12345678901) INFO_COLOUR (demo_literal (text "main"))
    (demo_literal (text "ok %d")) (text "main") [Num 42] (text "ok 42") demo_terminal) as (t' & E & _ & _ & W & _).
  - simpl. lia.
  - reflexivity.
  - reflexivity.
  - vm_compute. by split.
  - apply demo_terminal_ready. vm_compute. lia.
  - repeat (constructor; [apply demo_stable; set_solver|]). constructor.
  - apply demo_stable. set_solver.
  - exact demo_says.
  - exists t'. split; [exact E|]. rewrite W. vm_compute. reflexivity.
Defined.

(** C30. While the lock of the framebuffer is free, panic stops with interrupts disabled after
    it sent the banner, the text of the format and one line per frame up to the first return
    address outside the kernel, six at most, whoever holds the locks of the log and of printk. *)
Theorem panic_reports {P} `{!PortIO P} `{!Uart16550 P} {Q St} `{!Platform Q} (polls : nat) (buffer : Z) (literal : list Z -> Z)
    (kernel_hhdm_offset : Z) (arch_aps_online : bool) (walk : Z -> Z) (fmt : Z) (args : list argument) (out : list Z)
    (q : timers Q St) (t : terminal P) :
  (uart_time < polls)%nat -> (forall i, in_u64 (walk i)) ->
  ready buffer literal (length (panic_text out ++ trace_text walk 1 6)) t ->
  literals buffer literal t [panic_banner; [LF]; trace_format] -> says buffer t fmt args out ->
  exists q' t', panic polls buffer literal kernel_hhdm_offset arch_aps_online walk fmt (word <$> args) q t = Done (q', t') /\
    c_interrupts (tm_control q') = false /\
    wire (serial_of t') = wire (serial_of t) ++ crlf (panic_text out ++ trace_text walk 1 6) /\
    (framebuffer_available (te_screen t) = true -> screen_ok (te_screen t')) /\
    printk_lock t' = printk_lock t /\ logger_spinlock t' = logger_spinlock t.
Proof.
  intros Hp Hw Hr Hl Hf. rewrite length_app in Hr. unfold panic. cbv zeta.
  destruct (panic_message_spec polls buffer literal fmt args out t (length (trace_text walk 1 6)) Hp Hr) as (t1 & -> & S1);
    [apply Forall_forall; intros u Hu; eapply Forall_forall in Hl; [exact Hl|set_solver]|done|].
  cbn [mbind outcome_bind]. destruct (print_trace_spec polls buffer literal walk 6 1 t1 0 Hp) as (t2 & -> & S2);
    [rewrite Nat.add_0_r; apply S1|eapply stable_shown; [exact S1|eapply Forall_forall in Hl; [exact Hl|set_solver]]|done|lia|lia|].
  cbn [mbind outcome_bind]. pose proof (shown_trans _ _ _ _ _ _ _ _ _ S1 S2) as S. eexists _, t2. split; [reflexivity|].
  split_and!; [done|apply S| |apply S|apply S].
  intros Ha. apply (rd_screen _ _ _ _ (sh_ready _ _ _ _ _ _ S)). by rewrite (sh_available _ _ _ _ _ _ S).
Qed.

(** A processor without registers, and a trace that leaves the kernel after one
    frame. *)
Definition demo_platform : Platform unit :=
  {| mmio_read32 := fun _ p => (0, p); mmio_write32 := fun _ _ p => p; mmio_read64 := fun _ p => (0, p); mmio_write64 := fun _ _ p => p;
     port_read32 := fun _ p => (0, p); port_write8 := fun _ _ p => p; rdtsc := fun p => (0, p); cpuid_eax := fun _ _ => 0 |}.
Definition demo_walk (x : Z) : Z := if x =? 1 then 0xFFFFFFFF80000010 else 0.
Definition demo_timers : timers unit unit := Timers tt tt (Control (0, 0) (0, 0) 0 0 0 true ∅) (Clock no_source no_source) 0 0 0 0 0 0 0.

(** The lock of printk is held. *)
Definition busy_terminal : terminal chip := set_printk_lock demo_terminal true.

Lemma panic_reports_witness :
  exists q' t', @panic _ _ 2 9000 demo_literal unit unit demo_platform 0 true demo_walk (demo_literal (text "ok %d")) [42] demo_timers busy_terminal = Done (q', t') /\
    c_interrupts (tm_control q') = false /\
    wire (serial_of t') = text "Kernel panic." ++ [CR; LF] ++ text "Message: ok 42" ++ [CR; LF] ++ text "Trace 1: 0xFFFFFFFF80000010" ++ [CR; LF].
Proof.
  destruct (@panic_reports _ _ _ unit unit demo_platform 2 9000 demo_literal 0 true demo_walk (demo_literal (text "ok %d")) [Num 42] (text "ok 42")
    demo_timers busy_terminal) as (q' & t' & E & I & W & _).
  - simpl. lia.
  - intros i. unfold demo_walk. destruct (i =? 1); lia.
  - destruct (demo_terminal_ready (length (panic_text (text "ok 42") ++ trace_text demo_walk 1 6)) ltac:(vm_compute; lia)). by split.
  - repeat (constructor; [apply demo_stable; set_solver|]). constructor.
  - exact demo_says.
  - exists q', t'. split_and!; [exact E|exact I|]. rewrite W. vm_compute. reflexivity.
Defined.

(** A port that never gets ready takes no character. *)
Lemma wait_for_ever {P} `{!PortIO P} (Hn : forall p : P, fst (uart16550_can_send p) = false) polls :
  forall p, wait_to_send polls p = Timeout.
Proof.
  induction polls as [|polls IH]; intros p; cbn [wait_to_send]; [done|]; specialize (Hn p);
    destruct (uart16550_can_send p) as [b p']; cbn [fst] in Hn; subst b; [apply IH].
Qed.

Lemma banner_times_out {P} `{!PortIO P} (polls : nat) (buffer : Z) (literal : list Z -> Z) (t : terminal P) :
  te_present t = true -> (forall p : P, fst (uart16550_can_send p) = false) ->
  cstr (te_mem t) (literal panic_banner) panic_banner ->
  at_serial (printk_serial_unsafe polls buffer (literal [48; 120]) (literal panic_banner) []) t = Timeout.
Proof.
  intros Hp Hn Hc. unfold at_serial, printk_serial_unsafe, vprintk_serial_unsafe, vprintk_format.
  change (con_mem (serial_of t)) with (te_mem t). rewrite (strlen_cstr _ _ _ Hc), Nat2Z.id. destruct Hc as (Hb & _ & _).
  assert (ld8 (te_mem t) (literal panic_banner) = 75) as H75 by (injection Hb; done).
  change (length panic_banner) with (S 22). generalize 22%nat as k. intros k. cbn [vprintk_loop].
  change (con_mem (serial_of t)) with (te_mem t). rewrite H75. change (75 =? 0) with false. change (negb (75 =? PERCENT)) with true.
  cbv iota. change (con_character 75 (serial_of t)) with (uart16550_send_byte polls 75 (serial_of t)). unfold uart16550_send_byte.
  change (uart16650_present (serial_of t)) with (te_present t). rewrite Hp. change (75 =? LF) with false. cbn [negb mbind outcome_bind].
  unfold send_raw. by rewrite wait_for_ever.
Qed.

(** C36. When the lock of the framebuffer is held, by a processor that was stopped or by the one
    that panics, panic spins on it and sends nothing: it does so even with a serial port that
    never becomes ready, where sending the banner would wait for the port for ever. *)
Theorem panic_waits_for_screen {P} `{!PortIO P} {Q St} `{!Platform Q} (buffer : Z) (literal : list Z -> Z)
    (kernel_hhdm_offset : Z) (arch_aps_online : bool) (walk : Z -> Z) (fmt : Z) (args : list Z) (q : timers Q St) (t : terminal P) :
  framebuffer_available (te_screen t) = true -> framebuffer_spinlock (te_screen t) = true ->
  cstr (te_mem t) (literal panic_banner) panic_banner ->
  (forall polls, panic polls buffer literal kernel_hhdm_offset arch_aps_online walk fmt args q t = Deadlock) /\
  (te_present t = true -> (forall p : P, fst (uart16550_can_send p) = false) -> forall polls,
     at_serial (printk_serial_unsafe polls buffer (literal [48; 120]) (literal panic_banner) []) t = Timeout).
Proof.
  intros Ha Hl Hc. split; [|intros Hp Hn polls; by apply banner_times_out].
  intros polls. unfold panic, panic_message. rewrite Ha. cbv zeta.
  assert (at_screen (printk_unsafe buffer (literal [48; 120]) (literal panic_banner) []) (set_colour 16711680 t) = Deadlock) as ->; [|done].
  set (s0 := te_screen (set_colour 16711680 t)).
  assert (con_character 75 s0 = Deadlock) as Hd by (cbn; unfold framebuffer_write_character; simpl; by rewrite Ha, Hl).
  destruct Hc as (Hb & Hc). assert (ld8 (te_mem t) (literal panic_banner) = 75) as H75 by (injection Hb; done).
  unfold at_screen, printk_unsafe, vprintk_unsafe, vprintk_format. fold s0.
  change (framebuffer_available s0) with (framebuffer_available (te_screen t)). rewrite Ha. cbn [negb].
  change (con_mem s0) with (te_mem t). rewrite (strlen_cstr _ _ _ (conj Hb Hc)), Nat2Z.id.
  change (length panic_banner) with (S 22). generalize 22%nat as k. intros k. cbn [vprintk_loop].
  change (con_mem s0) with (te_mem t). rewrite H75. change (75 =? 0) with false. change (negb (75 =? PERCENT)) with true.
  cbv iota. by rewrite Hd.
Qed.

Lemma panic_waits_for_screen_witness :
  let t := set_te_screen demo_terminal (set_fb_lock (te_screen demo_terminal) true) in
  @panic _ _ 2 9000 demo_literal unit unit demo_platform 0 true demo_walk 0 [] demo_timers t = Deadlock.
Proof.
  refine (proj1 (@panic_waits_for_screen _ _ unit unit demo_platform 9000 demo_literal 0 true demo_walk 0 [] demo_timers _ _ _ _) 2%nat).
  - reflexivity.
  - reflexivity.
  - apply demo_literals_placed. set_solver.
Defined.

(** What is wrong with a pointer. *)
Definition mismatch_message (ptr log_alignment : Z) : list Z :=
  if decide (ptr = 0) then text "use of nullptr"
  else if decide (ptr mod 2 ^ log_alignment = 0) then text "no space for object" else text "use of misaligned pointer".

(** Every handler of the sanitizer terminates and sends its own message with the file, line and
    column of the data; the one for pointers tells null, misaligned and other pointers apart. *)
Theorem ubsan_reports {P} `{!PortIO P} `{!Uart16550 P} (polls : nat) (buffer : Z) (literal : list Z -> Z) (s : serial P)
    (data : Z) (file : list Z) :
  (uart_time < polls)%nat -> online s -> reportable polls buffer literal s data file ->
  let line message := crlf (report message file (ld32 (ser_mem s) (data + 8)) (ld32 (ser_mem s) (data + 12))) in
  (forall handler message, (handler, message) ∈ ubsan_handlers polls buffer literal ->
     exists s', handler data s = Done s' /\ wire s' = wire s ++ line message) /\
  (forall ptr, tu_log_alignment (ser_mem s) data < 31 ->
     exists s', __ubsan_handle_type_mismatch_v1 polls buffer literal data ptr s = Done s' /\
       wire s' = wire s ++ line (mismatch_message ptr (tu_log_alignment (ser_mem s) data))).
Proof.
  intros Hp Ho Hr line. assert (forall message, message ∈ ubsan_messages polls buffer literal ->
    exists s', tu_print_location polls buffer literal message (location_at (ser_mem s) data) s = Done s' /\ wire s' = wire s ++ line message) as Hline
    by (intros; by apply tu_print_location_spec).
  split.
  - intros handler message Hin. assert (handler data s = tu_print_location polls buffer literal message (location_at (ser_mem s) data) s) as ->.
    { unfold ubsan_handlers in Hin. repeat (apply elem_of_cons in Hin as [[= -> ->]|Hin]; [reflexivity|]). by apply elem_of_nil in Hin. }
    apply Hline. apply elem_of_app. left. apply list_elem_of_fmap. by exists (handler, message).
  - intros ptr Ha. unfold __ubsan_handle_type_mismatch_v1, mismatch_message. set (k := tu_log_alignment (ser_mem s) data) in *.
    assert (0 <= k) as H0 by (unfold k, tu_log_alignment; apply ld8_range).
    destruct (Z.eqb_spec ptr 0) as [->|Hne]; [rewrite decide_True by done; apply Hline; set_solver|]. rewrite (decide_False (P := ptr = 0)) by done.
    rewrite (proj2 (Z.leb_gt 31 k)) by lia. rewrite Z.shiftl_1_l, Z.sub_1_r, <- Z.ones_equiv, Z.land_ones by done.
    destruct (Z.eqb_spec (ptr mod 2 ^ k) 0) as [E|E]; cbn [negb]; [rewrite decide_True by done|rewrite decide_False by done]; apply Hline; set_solver.
Qed.

Lemma ubsan_reports_witness :
  exists s', __ubsan_handle_type_mismatch_v1 2 9000 demo_literal 20000 4100 (serial_of demo_terminal) = Done s' /\
    wire s' = text "tinyubsan: use of misaligned pointer at file a.c, line 7, column 3" ++ [CR; LF].
Proof.
  destruct (ubsan_reports 2 9000 demo_literal (serial_of demo_terminal) 20000 (text "a.c")) as [_ H].
  - simpl. lia.
  - split_and!; reflexivity.
  - split.
    + apply Forall_forall. intros u Hu. apply (stable_apart 9000 (te_screen demo_terminal)), demo_stable. revert u Hu.
      apply Forall_forall, (bool_decide_unpack _). vm_compute. exact I.
    + change (apart_cstr (te_mem demo_terminal) 9000 (ld64 demo_mem 20000) (text "a.c")).
      assert (ld64 demo_mem 20000 = demo_literal (text "a.c")) as -> by (vm_compute; reflexivity).
      apply (stable_apart 9000 (te_screen demo_terminal)), demo_stable. set_solver.
  - destruct (H 4100) as (s' & E & W); [vm_compute; reflexivity|]. exists s'. split; [exact E|]. rewrite W. vm_compute. reflexivity.
Defined.

(** Writing to the console device prints every byte on the screen, returns the
    size and sends nothing over the serial line. *)
Lemma console_write_shows {P} `{!PortIO P} `{!Uart16550 P} (buffer : Z) (literal : list Z -> Z) (node c size : Z) (t : terminal P) :
  printk_lock t = false -> framebuffer_available (te_screen t) = true -> ready buffer literal (Z.to_nat size) t ->
  literals buffer literal t [percent_c] ->
  exists t', console_write buffer literal node c size t = Done (size, t') /\ shown buffer literal t 0 [] t'.
Proof.
  intros Hk Ha Hr Hl. unfold console_write.
  assert (exists t', console_loop buffer literal c (Z.to_nat size) t = Done t' /\ shown buffer literal t 0 [] t') as (t' & -> & S); [|by exists t'].
  revert c t Hk Ha Hr Hl. induction (Z.to_nat size) as [|n IH]; intros c t Hk Ha Hr Hl; cbn [console_loop].
  - exists t. split; [done|]. split; [exact Hr|simpl; by rewrite app_nil_r|done..].
  - set (v := u64 (char_value (ld8 (te_mem t) c))). rewrite (proj2 (locked_screen_at _ _ _ _ t Hk Ha)).
    destruct (screen_step buffer literal t n (literal percent_c) [Num v] [u8 v]) as (t1 & E1 & S1); [exact Hr| |].
    { exists percent_c. split_and!; [by inversion_clear Hl| |done]. repeat constructor; apply u64_range. }
    cbn [fmap list_fmap word] in E1. rewrite E1. cbn [mbind outcome_bind].
    destruct (IH (c + 1) t1) as (t2 & E2 & S2); [by rewrite (sh_printk _ _ _ _ _ _ S1)|by rewrite (sh_available _ _ _ _ _ _ S1)|apply S1| |].
    + eapply Forall_impl; [exact Hl|]. intros u Hu. by eapply stable_shown.
    + exists t2. split; [exact E2|]. exact (shown_trans _ _ _ _ _ _ _ _ _ S1 S2).
Qed.
