(* ===== verification/Listings.v ===== *)
(** The listings that the kernel prints: the devices ([list_devices],
    [devices/manager.c]), the mount points ([vfs_print_debug], [filesystem/vfs.c]),
    the blocks of the heap ([memory/physical/block_allocator.c]) and the files of
    the ram disk ([ustar_debug_print], [filesystem/ustar.c]).  They walk the
    structures of the other files and print with [printk_serial] and the log. *)

From stdpp Require Import strings.
From S2P Require Import Prelude Memory Libc Spinlock PageAllocator PageAllocatorSpec PageTable AddressSpace BlockAllocator BlockAllocatorSpec Paths KernelHeap Scheduler SchedulerSpec SchedulerProps Vfs VfsSpec Ustar UstarSpec Syscalls SyscallsSpec Fork Elf Clock DeviceManager Framebuffer Serial Printk Acpi Descriptors Timers Logger.

(** * The formats *)

Definition type_strings : list (list Z) :=
  [text "other"; text "reserved"; text "serial"; text "framebuffer"; text "timer"; text "hmi"; text "module"; text "acpi_table"].
Definition indent_format : list Z := text "-- ".
Definition device_format : list Z := text "%s" ++ [LF].
Definition listing_devices : list Z := text "listing devices:" ++ [LF].
Definition mount_format : list Z := text "vfs: mount point: %s on %s" ++ [LF].
Definition range_format : list Z := text "range %p-%p size %zu B (~%zu KB)" ++ [LF].
Definition dumping_free : list Z := text "dumping free list" ++ [LF].
Definition dumping_busy : list Z := text "dumping busy list" ++ [LF].
Definition file_format : list Z := text "file %s with %d bytes (%d bytes on disk)".

Section Model.
Context {P : Type} `{!PortIO P} (polls : nat) (buffer : Z) (literal : list Z -> Z).
Implicit Types s : serial P.
#[local] Abbreviation hex := (literal [48; 120]).

(** [printk_serial] of a literal, with [printk_lock]. *)
Definition say (format : list Z) (args : list Z) (c : spinlock_t * serial P) : outcome (spinlock_t * serial P) :=
  printk_serial polls buffer hex (literal format) args c.1 c.2.

(** [printk_serial_unsafe] of a literal. *)
Definition say_unsafe (format : list Z) (args : list Z) s : outcome (serial P) :=
  printk_serial_unsafe polls buffer hex (literal format) args s.

(** ** Devices *)

Fixpoint indent (depth : nat) (c : spinlock_t * serial P) : outcome (spinlock_t * serial P) :=
  match depth with
  | O => Done c
  | S depth' => c ← say indent_format [] c; indent depth' c
  end.

(** The loop and the recursion go down together: [fuel] bounds the length of a
    path through children and siblings. *)
Fixpoint list_devices_layer (ds : gmap Z device) (fuel : nat) (list : Z) (depth : nat) (c : spinlock_t * serial P) :
    outcome (spinlock_t * serial P) :=
  if list =? 0 then Done c else
  match fuel with
  | O => Timeout
  | S fuel' =>
      d ← deref (ds !! list);
      c ← indent depth c;
      type ← deref (type_strings !! Z.to_nat (d_type d));
      c ← say device_format [d_name d; literal type] c;
      c ← (if negb (d_child d =? 0) then list_devices_layer ds fuel' (d_child d) (S depth) c else Done c);
      list_devices_layer ds fuel' (d_next d) depth c
  end.

Definition list_devices (ds : gmap Z device) (device_list : Z) (c : spinlock_t * serial P) : outcome (spinlock_t * serial P) :=
  c ← say listing_devices [] c;
  list_devices_layer ds (size ds) device_list 0 c.

(** ** Mount points *)

(** [fs_name] gives the name of the file system at an address. *)
Fixpoint print_mounts (ms : gmap Z vfs_mount_point) (fs_name : Z -> Z) (fuel : nat) (point : Z) (c : spinlock_t * serial P) :
    outcome (spinlock_t * serial P) :=
  if point =? 0 then Done c else
  match fuel with
  | O => Timeout
  | S fuel' =>
      p ← deref (ms !! point);
      c ← say mount_format [m_name p; fs_name (m_fs p)] c;
      print_mounts ms fs_name fuel' (m_next p) c
  end.

(** The result holds [mount_lock]. *)
Definition vfs_print_debug {H} (fs_name : Z -> Z) (s : vfs_state H) (c : spinlock_t * serial P) :
    outcome (spinlock_t * (spinlock_t * serial P)) :=
  l ← spinlock_acquire (mount_lock s);
  head ← deref (vs_mounts s !! mount_points s);
  c ← print_mounts (vs_mounts s) fs_name (size (vs_mounts s)) (m_next head) c;
  Done (spinlock_release l, c).

(** ** Blocks *)

Fixpoint block_allocator_dump_list (fuel : nat) (current_block : Z) s : outcome (serial P) :=
  if current_block =? 0 then Done s else
  match fuel with
  | O => Timeout
  | S fuel' =>
      let size := h_size (ser_mem s) current_block in
      let contents := current_block +w sizeof_block_header in
      s ← say_unsafe range_format [contents; contents +w size; size; size / 1024] s;
      block_allocator_dump_list fuel' (h_next (ser_mem s) current_block) s
  end.

(** The memory is that of the heap. *)
Definition block_allocator_dump_free_list {St} (b : ba_state St) s : outcome (serial P) :=
  s ← say_unsafe dumping_free [] s;
  block_allocator_dump_list (Z.to_nat (block_allocator_current_virtual_address b - block_allocator_virtual_base b))
    (block_free_list_start b) s.

Definition block_allocator_dump_busy_list {St} (b : ba_state St) s : outcome (serial P) :=
  s ← say_unsafe dumping_busy [] s;
  block_allocator_dump_list (Z.to_nat (block_allocator_current_virtual_address b - block_allocator_virtual_base b))
    (block_busy_list_start b) s.

(** ** Files *)

(** The loop of [ustar_debug_print] from the [i]th file on; [reads i] is the clock
    at that time, the memory is that of the terminal. *)
Fixpoint print_files (clock : clock_state) (reads : nat -> Z -> Z) (i fuel : nat) (header : Z) (t : terminal P) : outcome (terminal P) :=
  if ld8 (te_mem t) header =? 0 then Done t else
  match fuel with
  | O => Timeout
  | S fuel' =>
      let size := parse_size_of (te_mem t) header in
      let real_size := tar_real_size size in
      t ← log_info polls buffer literal clock (reads i) (literal (text "ustar")) (literal file_format) [header; size; real_size] t;
      print_files clock reads (S i) fuel' (header +w real_size) t
  end.

Definition ustar_debug_print (clock : clock_state) (reads : nat -> Z -> Z) (initrd : Z) (t : terminal P) : outcome (terminal P) :=
  print_files clock reads 0 (size (te_mem t)) (initrd +w TAR_BLOCK_SIZE) t.
End Model.

(** * What is sent *)

Section Sending.
Context {P : Type} `{!PortIO P} `{!Uart16550 P} (polls : nat) (buffer : Z) (literal : list Z -> Z).
Implicit Types s : serial P.
#[local] Abbreviation hex := (literal [48; 120]).

(** The text [w] goes out; nothing but the conversion buffer is written. *)
Record sends s (w : list Z) (s' : serial P) : Prop := {
  sd_online : online s';
  sd_wire : wire s' = wire s ++ crlf w;
  sd_mem : changes (in_buffer buffer) (ser_mem s) (ser_mem s')
}.

Lemma sends_refl s : online s -> sends s [] s.
Proof using. intros Ho. split; [done|simpl; by rewrite app_nil_r|apply changes_refl]. Qed.

Lemma sends_trans s1 s2 s3 w v : sends s1 w s2 -> sends s2 v s3 -> sends s1 (w ++ v) s3.
Proof using.
  intros [O1 W1 M1] [O2 W2 M2]. split; [done|by rewrite W2, W1, crlf_app, app_assoc|by eapply changes_trans].
Qed.

Lemma apart_sends s w s' p t : sends s w s' -> apart_cstr (ser_mem s) buffer p t -> apart_cstr (ser_mem s') buffer p t.
Proof using.
  intros [_ _ M] [Hc Ha]. split; [|done]. eapply cstr_ext; [|exact Hc]. intros b Hb. apply M. unfold in_buffer. lia.
Qed.

Lemma plain_sends s w s' a : sends s w s' -> plain_arg (ser_mem s) buffer a -> plain_arg (ser_mem s') buffer a.
Proof using. intros Hs. destruct a; [done|]. by eapply apart_sends. Qed.

(** The literals lie outside the conversion buffer. *)
Definition placed s (l : list (list Z)) : Prop := Forall (fun u => apart_cstr (ser_mem s) buffer (literal u) u) ([48; 120] :: l).

Lemma placed_sends s w s' l : sends s w s' -> placed s l -> placed s' l.
Proof using. intros Hs Hl. eapply Forall_impl; [exact Hl|]. intros u. by apply (apart_sends s w). Qed.

Lemma placed_in s l u : placed s l -> u ∈ l -> apart_cstr (ser_mem s) buffer hex [48; 120] /\ apart_cstr (ser_mem s) buffer (literal u) u.
Proof using. intros Hl Hu. apply Forall_cons in Hl as [Hh Hl]. split; [done|]. by eapply Forall_forall in Hl. Qed.

(** One format without and with the lock. *)
Lemma say_unsafe_sends s l format args out :
  (uart_time < polls)%nat -> online s -> placed s l -> format ∈ l -> Forall (plain_arg (ser_mem s) buffer) args ->
  render format args = Some out ->
  exists s', say_unsafe polls buffer literal format (word <$> args) s = Done s' /\ sends s out s'.
Proof using.
  intros Ht Ho Hl Hin Ha Hr. destruct (placed_in s l format Hl Hin) as [Hh Hf].
  destruct (vprintk_serial_spec polls buffer hex (literal format) format args out s Ht Ho Hh Hf Ha Hr) as (s' & E & O & W & M).
  exists s'. split; [exact E|by split].
Qed.

Lemma say_sends s l format args out :
  (uart_time < polls)%nat -> online s -> placed s l -> format ∈ l -> Forall (plain_arg (ser_mem s) buffer) args ->
  render format args = Some out ->
  exists s', say polls buffer literal format (word <$> args) (false, s) = Done (false, s') /\ sends s out s'.
Proof using.
  intros Ht Ho Hl Hin Ha Hr. destruct (say_unsafe_sends s l format args out Ht Ho Hl Hin Ha Hr) as (s' & E & Hs).
  exists s'. split; [|done]. unfold say, printk_serial, vprintk_serial, vprintk_locked. cbn [fst snd spinlock_acquire mbind outcome_bind].
  unfold say_unsafe, printk_serial_unsafe, vprintk_serial_unsafe in E. by rewrite E.
Qed.

(** ** Devices *)

(** The devices as a tree: the first child, then the next sibling. *)
Inductive dtree := DNil | DNode (address : Z) (name : list Z) (child next : dtree).

(** The tree hangs at [p], every name outside the conversion buffer. *)
Fixpoint shaped (m : mem) (ds : gmap Z device) (p : Z) (t : dtree) : Prop :=
  match t with
  | DNil => p = 0
  | DNode address name child next =>
      p = address /\ p <> 0 /\ exists d, ds !! p = Some d /\ 0 <= d_type d < 8 /\ apart_cstr m buffer (d_name d) name /\
        shaped m ds (d_child d) child /\ shaped m ds (d_next d) next
  end.

Fixpoint addresses (t : dtree) : list Z :=
  match t with DNil => [] | DNode a _ c n => a :: addresses c ++ addresses n end.

Fixpoint depth_of (t : dtree) : nat :=
  match t with DNil => 0 | DNode _ _ c n => S (Nat.max (depth_of c) (depth_of n)) end.

(** Every device on a line of its own, after its parent. *)
Fixpoint listing (depth : nat) (t : dtree) : list Z :=
  match t with
  | DNil => []
  | DNode _ name c n => concat (replicate depth indent_format) ++ name ++ [LF] ++ listing (S depth) c ++ listing depth n
  end.

Lemma shaped_sends s w s' ds t : forall p, sends s w s' -> shaped (ser_mem s) ds p t -> shaped (ser_mem s') ds p t.
Proof using.
  induction t as [|a name c IHc n IHn]; intros p Hs; cbn [shaped]; [done|].
  intros (-> & H0 & d & Hd & Ht & Hn & Hc & Hx). split_and!; [done|done|]. exists d. split_and!; [done|lia|lia| | |].
  - by eapply apart_sends.
  - by apply IHc.
  - by apply IHn.
Qed.

Lemma depth_addresses t : (depth_of t <= length (addresses t))%nat.
Proof using. induction t as [|a name c IHc n IHn]; simpl; [lia|]. rewrite length_app. lia. Qed.

Lemma shaped_size m ds t p : shaped m ds p t -> NoDup (addresses t) -> (depth_of t <= size ds)%nat.
Proof using.
  intros Hs Hn. etransitivity; [apply depth_addresses|]. apply keys_size; [done|].
  clear Hn. revert p Hs. induction t as [|a name c IHc n IHn]; intros p; cbn [shaped addresses]; [intros _ x Hx; by apply elem_of_nil in Hx|].
  intros (-> & H0 & d & Hd & _ & _ & Hc & Hx) x [->|[Hy|Hy]%elem_of_app]%elem_of_cons; [by exists d|by eapply IHc|by eapply IHn].
Qed.

Definition device_literals : list (list Z) := [indent_format; device_format; listing_devices] ++ type_strings.

Lemma render_device pn name pt type : render device_format [Str pn name; Str pt type] = Some (name ++ [LF]).
Proof using. lazy -[app]. reflexivity. Qed.

Lemma indent_sends depth : forall s l, (uart_time < polls)%nat -> online s -> placed s l -> indent_format ∈ l ->
  exists s', indent polls buffer literal depth (false, s) = Done (false, s') /\ sends s (concat (replicate depth indent_format)) s'.
Proof using.
  induction depth as [|depth IH]; intros s l Ht Ho Hl Hin; cbn [indent]; [exists s; split; [done|by apply sends_refl]|].
  destruct (say_sends s l indent_format [] indent_format Ht Ho Hl Hin) as (s1 & E & S1); [constructor|reflexivity|].
  cbn [fmap list_fmap] in E. rewrite E. cbn [mbind outcome_bind].
  destruct (IH s1 l Ht) as (s2 & E2 & S2); [apply S1|by eapply placed_sends|done|].
  exists s2. split; [exact E2|]. exact (sends_trans _ _ _ _ _ S1 S2).
Qed.

Lemma list_layer_sends t : forall s l ds p depth fuel, (uart_time < polls)%nat -> online s -> placed s l ->
  device_literals ⊆ l -> shaped (ser_mem s) ds p t -> (depth_of t <= fuel)%nat ->
  exists s', list_devices_layer polls buffer literal ds fuel p depth (false, s) = Done (false, s') /\ sends s (listing depth t) s'.
Proof using.
  induction t as [|a name c IHc n IHn]; intros s l ds p depth fuel Ht Ho Hl Hin Hs Hf; cbn [shaped listing depth_of] in *.
  - subst p. exists s. split; [by destruct fuel|by apply sends_refl].
  - destruct Hs as (-> & H0 & d & Hd & Hty & Hn & Hc & Hx). destruct fuel as [|fuel]; [lia|]. cbn [list_devices_layer].
    rewrite (proj2 (Z.eqb_neq a 0)), Hd by done. cbn [deref mbind outcome_bind].
    destruct (indent_sends depth s l Ht Ho Hl) as (s1 & -> & S1); [apply Hin; unfold device_literals; set_solver|].
    cbn [mbind outcome_bind]. destruct (lookup_lt_is_Some_2 type_strings (Z.to_nat (d_type d))) as [ty Hy]; [simpl; lia|].
    rewrite Hy. cbn [deref mbind outcome_bind]. pose proof (placed_sends _ _ _ l S1 Hl) as L1.
    assert (ty ∈ l) as Hyl by (apply Hin, elem_of_app; right; by eapply list_elem_of_lookup_2).
    destruct (say_sends s1 l device_format [Str (d_name d) name; Str (literal ty) ty] (name ++ [LF]) Ht (sd_online _ _ _ S1) L1)
      as (s2 & E2 & S2); [apply Hin; unfold device_literals; set_solver| |apply render_device|].
    { constructor; [by eapply (apart_sends s)|]. constructor; [by apply (placed_in s1 l)|constructor]. }
    cbn [fmap list_fmap word] in E2. rewrite E2. cbn [mbind outcome_bind].
    pose proof (sends_trans _ _ _ _ _ S1 S2) as S12.
    destruct (IHc s2 l ds (d_child d) (S depth) fuel Ht (sd_online _ _ _ S2)) as (s3 & E3 & S3);
      [by eapply placed_sends|done|by eapply shaped_sends|lia|].
    pose proof (sends_trans _ _ _ _ _ S12 S3) as S13.
    destruct (IHn s3 l ds (d_next d) depth fuel Ht (sd_online _ _ _ S3)) as (s4 & E4 & S4);
      [by eapply placed_sends|done|by eapply shaped_sends|lia|].
    assert ((if negb (d_child d =? 0) then list_devices_layer polls buffer literal ds fuel (d_child d) (S depth) (false, s2)
      else Done (false, s2)) = Done (false, s3)) as ->.
    { destruct (Z.eqb_spec (d_child d) 0) as [E0|]; cbn [negb]; [|exact E3]. rewrite E0 in E3. rewrite <- E3. by destruct fuel. }
    cbn [mbind outcome_bind]. exists s4. split; [exact E4|]. pose proof (sends_trans _ _ _ _ _ S13 S4) as S.
    by rewrite <- !app_assoc in S.
Qed.

(** ** Mount points *)

(** The names of the mount points and of their file systems, outside the
    conversion buffer. *)
Fixpoint mounts_named (m : mem) (ms : gmap Z vfs_mount_point) (fs_name : Z -> Z) (fs_text : Z -> list Z) (L : list mounted) : Prop :=
  match L with
  | [] => True
  | e :: L' => (exists mp, ms !! mt_address e = Some mp /\ apart_cstr m buffer (m_name mp) (mt_name e)) /\
      apart_cstr m buffer (fs_name (mt_fs e)) (fs_text (mt_fs e)) /\ mounts_named m ms fs_name fs_text L'
  end.

Definition mount_line (fs_text : Z -> list Z) (e : mounted) : list Z :=
  text "vfs: mount point: " ++ mt_name e ++ text " on " ++ fs_text (mt_fs e) ++ [LF].

Lemma render_mount pn name pf fs : render mount_format [Str pn name; Str pf fs] =
  Some (text "vfs: mount point: " ++ name ++ text " on " ++ fs ++ [LF]).
Proof using. lazy -[app]. reflexivity. Qed.

Lemma print_mounts_sends ms fs_name fs_text L : forall s l m p fuel, (uart_time < polls)%nat -> online s -> placed s l -> mount_format ∈ l ->
  mount_chain m ms p L -> mounts_named (ser_mem s) ms fs_name fs_text L -> (length L <= fuel)%nat ->
  exists s', print_mounts polls buffer literal ms fs_name fuel p (false, s) = Done (false, s') /\
    sends s (concat (mount_line fs_text <$> L)) s'.
Proof using.
  induction L as [|e L IH]; intros s l m p fuel Ht Ho Hl Hin Hch Hn Hf; cbn [mount_chain mounts_named] in *.
  - subst p. exists s. split; [by destruct fuel|by apply sends_refl].
  - destruct Hch as (-> & H0 & mp & Hmp & _ & _ & Hfs & Hch). destruct Hn as ((mp' & Hmp' & Hname) & Hft & Hn).
    rewrite Hmp in Hmp'. injection Hmp' as <-. destruct fuel as [|fuel]; [simpl in Hf; lia|]. cbn [print_mounts].
    rewrite (proj2 (Z.eqb_neq _ 0)), Hmp by done. cbn [deref mbind outcome_bind]. rewrite Hfs.
    destruct (say_sends s l mount_format [Str (m_name mp) (mt_name e); Str (fs_name (mt_fs e)) (fs_text (mt_fs e))] (mount_line fs_text e)
      Ht Ho Hl Hin) as (s1 & E1 & S1); [do 2 (constructor; [assumption|]); constructor|apply render_mount|].
    cbn [fmap list_fmap word] in E1. rewrite E1. cbn [mbind outcome_bind].
    destruct (IH s1 l m (m_next mp) fuel Ht (sd_online _ _ _ S1)) as (s2 & E2 & S2); [by eapply placed_sends|done|done| |simpl in Hf; lia|].
    + clear - Hn S1. induction L as [|g L IH]; [done|]. destruct Hn as ((q & Hq & Hg) & Hx & Hn).
      split_and!; [exists q; split; [done|by eapply apart_sends]|by eapply apart_sends|by apply IH].
    + exists s2. split; [exact E2|]. exact (sends_trans _ _ _ _ _ S1 S2).
Qed.

(** ** Blocks *)

(** What is printed for a block: neither its size nor its kilobytes. *)
Definition block_line (m : mem) (b : Z) : list Z :=
  text "range 0x" ++ numeral 16 (b + 48) ++ text "-0x" ++ numeral 16 (b + 48 + h_size m b) ++ text " size zu B (~zu KB)" ++ [LF].

Lemma render_range a b c d : render range_format [Num a; Num b; Num c; Num d] =
  Some (text "range 0x" ++ numeral 16 a ++ text "-0x" ++ numeral 16 b ++ text " size zu B (~zu KB)" ++ [LF]).
Proof using. lazy -[app numeral]. simpl. reflexivity. Qed.

Lemma block_lines_same m m' (L : list Z) : (forall y, y ∈ L -> h_size m' y = h_size m y) -> block_line m' <$> L = block_line m <$> L.
Proof using. intros He. apply list_fmap_ext. intros i y Hy. apply list_elem_of_lookup_2 in Hy. unfold block_line. by rewrite He. Qed.

(** The headers lie outside the conversion buffer, and the blocks below the end
    of the addresses. *)
Definition dumpable (m : mem) (L : list Z) : Prop :=
  Forall (fun b => 0 <= b /\ (b + 48 <= buffer \/ buffer + 32 <= b) /\ b + 48 + h_size m b < 18446744073709551616) L.

Lemma header_sends s w s' b : sends s w s' -> (b + 48 <= buffer \/ buffer + 32 <= b) ->
  h_size (ser_mem s') b = h_size (ser_mem s) b /\ h_next (ser_mem s') b = h_next (ser_mem s) b /\ h_previous (ser_mem s') b = h_previous (ser_mem s) b.
Proof using.
  intros [_ _ M] Hb. unfold h_size, h_next, h_previous, off_size, off_next, off_previous.
  split_and!; apply ld64_ext; intros a Ha; apply M; unfold in_buffer; lia.
Qed.

Lemma dump_list_sends L : forall s l prev b fuel, (uart_time < polls)%nat -> online s -> placed s l -> range_format ∈ l ->
  dlist (h_next (ser_mem s)) (h_previous (ser_mem s)) prev b L -> dumpable (ser_mem s) L -> (length L <= fuel)%nat ->
  exists s', block_allocator_dump_list polls buffer literal fuel b s = Done s' /\ sends s (concat (block_line (ser_mem s) <$> L)) s'.
Proof using.
  induction L as [|x L IH]; intros s l prev b fuel Ht Ho Hl Hin Hd Hu Hf; cbn [dlist] in Hd.
  - subst b. exists s. split; [by destruct fuel|by apply sends_refl].
  - destruct Hd as (-> & H0 & _ & Hd). apply Forall_cons in Hu as ((Hx0 & Hx & Hend) & Hu).
    destruct fuel as [|fuel]; [simpl in Hf; lia|]. cbn [block_allocator_dump_list]. rewrite (proj2 (Z.eqb_neq x 0)) by done.
    pose proof (ld64_range (ser_mem s) (x + off_size)) as Hr. fold (h_size (ser_mem s) x) in Hr.
    unfold sizeof_block_header. rewrite (u64_small (x + 48)), (u64_small (x + 48 + h_size (ser_mem s) x)) by lia.
    destruct (say_unsafe_sends s l range_format [Num (x + 48); Num (x + 48 + h_size (ser_mem s) x); Num (h_size (ser_mem s) x); Num (h_size (ser_mem s) x / 1024)]
      (block_line (ser_mem s) x) Ht Ho Hl Hin) as (s1 & E1 & S1); [|apply render_range|].
    { repeat (constructor; [cbn [plain_arg]; Z.div_mod_to_equations; lia|]). constructor. }
    cbn [fmap list_fmap word] in E1. rewrite E1. cbn [mbind outcome_bind]. destruct (header_sends _ _ _ x S1 Hx) as (_ & -> & _).
    assert (forall y, y ∈ L -> h_size (ser_mem s1) y = h_size (ser_mem s) y /\ h_next (ser_mem s1) y = h_next (ser_mem s) y /\
      h_previous (ser_mem s1) y = h_previous (ser_mem s) y) as Hsame.
    { intros y Hy. eapply header_sends; [exact S1|]. eapply Forall_forall in Hu; [|exact Hy]. tauto. }
    destruct (IH s1 l x (h_next (ser_mem s) x) fuel Ht (sd_online _ _ _ S1)) as (s2 & E2 & S2); [by eapply placed_sends|done| | |simpl in Hf; lia|].
    + eapply dlist_ext; [|exact Hd]. intros y Hy. by destruct (Hsame y Hy) as (_ & ? & ?).
    + apply Forall_forall. intros y Hy. destruct (Hsame y Hy) as (-> & _). by eapply Forall_forall in Hu.
    + exists s2. split; [exact E2|]. pose proof (sends_trans _ _ _ _ _ S1 S2) as S. cbn [fmap list_fmap concat].
      rewrite <- (block_lines_same (ser_mem s) (ser_mem s1) L) by (intros y Hy; by destruct (Hsame y Hy)). exact S.
Qed.
End Sending.

(** ** Files *)

Definition file_text (f : tar_file) : list Z :=
  let size := Z.of_nat (length (tf_content f)) in
  text "file ./" ++ tf_name f ++ text " with " ++ numeral 10 size ++ text " bytes (" ++ numeral 10 (tar_real_size size) ++ text " bytes on disk)".

Lemma render_file p name size real : render file_format [Str p name; Num size; Num real] =
  Some (text "file " ++ name ++ text " with " ++ numeral 10 size ++ text " bytes (" ++ numeral 10 real ++ text " bytes on disk)").
Proof. lazy -[app numeral]. simpl. reflexivity. Qed.

(** The log lines of the files, from the [i]th on. *)
Fixpoint file_lines (clock : clock_state) (reads : nat -> Z -> Z) (i : nat) (A : list tar_file) : list Z :=
  match A with
  | [] => []
  | f :: A' => (log_head (now clock (reads i) / 1000000) (text "ustar") ++ file_text f ++ [LF]) ++ file_lines clock reads (S i) A'
  end.

Lemma literals_shown {P} `{!PortIO P} `{!Uart16550 P} buffer literal (t t' : terminal P) n w l :
  shown buffer literal t n w t' -> literals buffer literal t l -> literals buffer literal t' l.
Proof. intros Hs Hl. eapply Forall_impl; [exact Hl|]. intros u. by apply (stable_shown buffer literal t n w). Qed.

Section Files.
Context {P : Type} `{!PortIO P} `{!Uart16550 P} (polls : nat) (buffer : Z) (literal : list Z -> Z).
Implicit Types t : terminal P.

(** The archive is in bytes that printing does not write, and its names are
    strings there. *)
Fixpoint files_stable t (header : Z) (A : list tar_file) : Prop :=
  match A with
  | [] => ld8 (te_mem t) header = 0 /\ ~ screen_own (te_screen t) header /\ ~ in_buffer buffer header
  | f :: A' =>
      stable buffer (te_screen t) header (46 :: 47 :: tf_name f) /\ 0 <= header /\
      (forall b, header + off_tar_size <= b < header + off_tar_size + 12 -> ~ screen_own (te_screen t) b /\ ~ in_buffer buffer b) /\
      parse_size_of (te_mem t) header = Z.of_nat (length (tf_content f)) /\
      header + tar_real_size (Z.of_nat (length (tf_content f))) < 18446744073709551616 /\
      files_stable t (header + tar_real_size (Z.of_nat (length (tf_content f)))) A'
  end.

Lemma shown_byte t n w t' b : shown buffer literal t n w t' -> ~ screen_own (te_screen t) b -> ~ in_buffer buffer b ->
  ld8 (te_mem t') b = ld8 (te_mem t) b.
Proof using. intros Hs H1 H2. apply (sh_mem _ _ _ _ _ _ Hs). intros [?|?]; [apply H1; by left|done]. Qed.

Lemma files_shown t n w t' A : forall header, shown buffer literal t n w t' -> files_stable t header A -> files_stable t' header A.
Proof using.
  induction A as [|f A IH]; intros header Hs; cbn [files_stable].
  - intros (H1 & H2 & H3). rewrite (shown_own _ _ _ _ _ _ Hs). split_and!; [by rewrite (shown_byte _ _ _ _ _ Hs)|done|done].
  - intros (H1 & H0 & H2 & H3 & H4 & H5). split_and!; [by eapply stable_shown|done| | |done|by apply IH].
    + intros b Hb. rewrite (shown_own _ _ _ _ _ _ Hs). by apply H2.
    + rewrite <- H3. apply parse_digits_ext. intros b Hb. destruct (H2 b Hb). by apply (shown_byte t n w).
Qed.

Lemma tar_real_size_positive z : 0 <= z -> z + 1024 < 18446744073709551616 -> 0 <= tar_real_size z < 18446744073709551616.
Proof using.
  intros H0 H1. unfold tar_real_size, TAR_BLOCK_SIZE. rewrite (u64_small (z + 512)) by lia.
  pose proof (Z.mod_pos_bound (z + 512) 512 ltac:(lia)) as Hm. destruct (Z.eqb_spec ((z + 512) mod 512) 0) as [E|E]; cbn [negb]; [lia|].
  rewrite u64_small by lia. lia.
Qed.

Lemma print_files_shown clock reads A : forall i t n header fuel, (uart_time < polls)%nat ->
  logger_spinlock t = false -> printk_lock t = false -> (forall i, in_u64 (now clock (reads i))) ->
  ready buffer literal (length (file_lines clock reads i A) + n) t ->
  literals buffer literal t [log_prefix; [LF]; text "ustar"; file_format] -> files_stable t header A ->
  Forall (fun f => Z.of_nat (length (tf_content f)) + 1024 < 18446744073709551616) A -> (length A <= fuel)%nat ->
  exists t', print_files polls buffer literal clock reads i fuel header t = Done t' /\ shown buffer literal t n (file_lines clock reads i A) t'.
Proof using.
  induction A as [|f A IH]; intros i t n header fuel Hp Hl Hk Hc Hr Hlit HA Hsz Hf; cbn [files_stable file_lines] in *.
  - exists t. split; [destruct fuel; cbn [print_files]; by rewrite (proj1 HA)|]. split; [exact Hr|simpl; by rewrite app_nil_r|apply changes_refl|done..].
  - destruct HA as (Hn & H0 & Hx & Hs & Hb & HA). apply Forall_cons in Hsz as [Hz Hsz]. destruct fuel as [|fuel]; [simpl in Hf; lia|].
    cbn [print_files]. destruct (stable_tail _ _ _ _ _ Hn) as (E46 & _ & _). change (ld8 (te_mem t) header = 46) in E46.
    rewrite E46. change (46 =? 0) with false. cbv iota zeta. rewrite Hs.
    set (size := Z.of_nat (length (tf_content f))) in *. pose proof (tar_real_size_positive size ltac:(lia) Hz) as Hreal.
    rewrite length_app, <- Nat.add_assoc in Hr.
    destruct (log_spec polls buffer literal clock (reads i) INFO_COLOUR (literal (text "ustar")) (literal file_format) (text "ustar")
      [Str header (46 :: 47 :: tf_name f); Num size; Num (tar_real_size size)] (file_text f) t (length (file_lines clock reads (S i) A) + n)
      Hp Hl Hk (Hc i) Hr) as (t1 & E1 & S1).
    + apply Forall_forall. intros u Hu. eapply Forall_forall in Hlit; [exact Hlit|set_solver].
    + eapply Forall_forall in Hlit; [exact Hlit|set_solver].
    + exists file_format. split_and!; [eapply Forall_forall in Hlit; [exact Hlit|set_solver]| |apply render_file].
      constructor; [exact Hn|]. constructor; [cbn [arg_ok]; lia|]. constructor; [cbn [arg_ok]; lia|constructor].
    + cbn [fmap list_fmap word] in E1. unfold log_info. rewrite E1. cbn [mbind outcome_bind]. rewrite (u64_small (header + tar_real_size size)) by lia.
      destruct (IH (S i) t1 n (header + tar_real_size size) fuel Hp) as (t2 & E2 & S2);
        [by rewrite (sh_logger _ _ _ _ _ _ S1)|by rewrite (sh_printk _ _ _ _ _ _ S1)|done|apply S1|by eapply literals_shown|by eapply files_shown|done|simpl in Hf; lia|].
      exists t2. split; [exact E2|]. exact (shown_trans _ _ _ _ _ _ _ _ _ S1 S2).
Qed.
End Files.

(** The bytes from the first header up to the end of the archive. *)
Fixpoint span (A : list tar_file) : Z :=
  match A with [] => 0 | f :: A' => tar_real_size (Z.of_nat (length (tf_content f))) + span A' end.

Lemma tar_real_size_block z : 0 <= z -> z + 1024 < 18446744073709551616 -> 512 <= tar_real_size z <= z + 1024.
Proof.
  intros H0 H1. unfold tar_real_size, TAR_BLOCK_SIZE. rewrite (u64_small (z + 512)) by lia.
  pose proof (Z.mod_pos_bound (z + 512) 512 ltac:(lia)) as Hm. destruct (Z.eqb_spec ((z + 512) mod 512) 0) as [E|E]; cbn [negb]; [lia|].
  rewrite u64_small by lia. lia.
Qed.

Lemma archive_files_stable {P} buffer (t : terminal P) A : forall header, archive (te_mem t) header A ->
  Forall (fun f => (length (tf_name f) < 500)%nat) A -> (forall b, header <= b <= header + span A -> ~ screen_own (te_screen t) b /\ ~ in_buffer buffer b) ->
  files_stable buffer t header A.
Proof.
  induction A as [|f A IH]; intros header; cbn [archive files_stable span].
  - intros H0 _ Hq. destruct (Hq header ltac:(lia)). done.
  - intros (-> & H0 & Hn & Hs & _ & Hb & HA) [Hl Hls]%Forall_cons Hq. set (size := Z.of_nat (length (tf_content f))) in *.
    pose proof (tar_real_size_block size ltac:(lia) ltac:(lia)) as Hr.
    assert (0 <= span A) as Hspan.
    { clear - HA. revert HA. generalize (tf_header f + tar_real_size size). induction A as [|g A IH]; cbn [archive span]; [lia|].
      intros h (-> & H0 & _ & _ & _ & Hb & HA). pose proof (tar_real_size_block (Z.of_nat (length (tf_content g))) ltac:(lia) ltac:(lia)).
      specialize (IH _ HA). lia. }
    split_and!; [|lia| |done|lia|].
    + split; [exact Hn|]. intros b Hx. apply Hq. cbn [length] in Hx. lia.
    + intros b Hx. apply Hq. unfold off_tar_size in Hx. lia.
    + apply IH; [done|done|]. intros b Hx. apply Hq. lia.
Qed.

(** * Properties *)

(** list_devices terminates and sends one line per device, its name after three characters of
    indentation for each level, every parent before its children, and nothing of the type of the
    device. *)
Theorem list_devices_prints {P} `{!PortIO P} `{!Uart16550 P} (polls : nat) (buffer : Z) (literal : list Z -> Z)
    (ds : gmap Z device) (device_list : Z) (t : dtree) (s : serial P) :
  (uart_time < polls)%nat -> online s -> placed buffer literal s device_literals ->
  shaped buffer (ser_mem s) ds device_list t -> NoDup (addresses t) ->
  exists s', list_devices polls buffer literal ds device_list (false, s) = Done (false, s') /\
    wire s' = wire s ++ crlf (listing_devices ++ listing 0 t) /\ changes (in_buffer buffer) (ser_mem s) (ser_mem s').
Proof.
  intros Ht Ho Hl Hs Hn. unfold list_devices.
  destruct (say_sends polls buffer literal s _ listing_devices [] listing_devices Ht Ho Hl) as (s1 & E1 & S1);
    [unfold device_literals; set_solver|constructor|reflexivity|].
  cbn [fmap list_fmap] in E1. rewrite E1. cbn [mbind outcome_bind].
  destruct (list_layer_sends polls buffer literal t s1 device_literals ds device_list 0 (size ds) Ht (sd_online _ _ _ _ S1)) as (s2 & E2 & S2);
    [by eapply placed_sends|done|by eapply shaped_sends|by eapply shaped_size|].
  exists s2. pose proof (sends_trans _ _ _ _ _ _ S1 S2) as S. split_and!; [exact E2|apply S|apply S].
Qed.

(** A directory [a] with the device [b], and the device [c]. *)
Definition listing_strings : list (list Z) := ([48; 120] :: device_literals) ++ [text "a"; text "b"; text "c"].
Definition listing_literal (u : list Z) : Z := position 10000 listing_strings u.
Definition listing_mem : mem := place 10000 listing_strings ∅.
Definition listing_devs : gmap Z device :=
  <[100 := Device (listing_literal (text "a")) 1 DEV_RESERVED 0 0 0 0 101 102 0]>
  (<[101 := Device (listing_literal (text "b")) 1 DEV_SERIAL 0 0 0 100 0 0 0]>
   {[102 := Device (listing_literal (text "c")) 1 DEV_MODULE 0 0 0 0 0 0 100]}).
Definition listing_tree : dtree := DNode 100 (text "a") (DNode 101 (text "b") DNil DNil) (DNode 102 (text "c") DNil DNil).
Definition listing_serial : serial chip := Serial listing_mem (Chip (View 3 0 1 0 []) false) true.

Lemma listing_placed u : u ∈ listing_strings -> apart_cstr listing_mem 9000 (listing_literal u) u.
Proof.
  intros Hu. assert (forallb (fun u => cstrb listing_mem (listing_literal u) u && (10000 <=? listing_literal u)) listing_strings = true)
    as Ha by (vm_compute; reflexivity).
  rewrite forallb_forall in Ha. apply list_elem_of_In in Hu. apply Ha in Hu. rewrite andb_true_iff in Hu.
  destruct Hu as [H1%cstrb_cstr H2%Z.leb_le]. split; [done|]. right. lia.
Qed.

Lemma list_devices_prints_witness : exists s',
  list_devices 2 9000 listing_literal listing_devs 100 (false, listing_serial) = Done (false, s') /\
  wire s' = text "listing devices:" ++ [CR; LF] ++ text "a" ++ [CR; LF] ++ text "-- b" ++ [CR; LF] ++ text "c" ++ [CR; LF].
Proof.
  destruct (list_devices_prints 2 9000 listing_literal listing_devs 100 listing_tree listing_serial) as (s' & E & W & _).
  - simpl. lia.
  - split_and!; reflexivity.
  - apply Forall_forall. intros u Hu. apply listing_placed. apply elem_of_app. by left.
  - assert (forall u, u ∈ listing_strings -> apart_cstr (ser_mem listing_serial) 9000 (listing_literal u) u) as Hp by exact listing_placed.
    cbn [shaped listing_tree]. split; [done|]. split; [done|]. eexists. split; [reflexivity|]. split; [vm_compute; by split|].
    split; [apply Hp; unfold listing_strings; set_solver|]. split.
    + split; [done|]. split; [done|]. eexists. split; [reflexivity|]. split; [vm_compute; by split|].
      split; [apply Hp; unfold listing_strings; set_solver|done].
    + split; [done|]. split; [done|]. eexists. split; [reflexivity|]. split; [vm_compute; by split|].
      split; [apply Hp; unfold listing_strings; set_solver|done].
  - apply (bool_decide_unpack _). vm_compute. exact I.
  - exists s'. split; [exact E|]. rewrite W. vm_compute. reflexivity.
Defined.

(** vfs_print_debug sends one line per mount point in mount order and releases the lock. *)
Theorem vfs_print_debug_prints {P} `{!PortIO P} `{!Uart16550 P} {H} `{!KernelHeap H} (polls : nat) (buffer : Z) (literal : list Z -> Z)
    (fs_name : Z -> Z) (fs_text : Z -> list Z) (v : vfs_state H) (L : list mounted) (s : serial P) :
  (uart_time < polls)%nat -> online s -> placed buffer literal s [mount_format] -> vfs_wf v L ->
  mounts_named buffer (ser_mem s) (vs_mounts v) fs_name fs_text L ->
  exists s', vfs_print_debug polls buffer literal fs_name v (false, s) = Done (false, (false, s')) /\
    wire s' = wire s ++ crlf (concat (mount_line fs_text <$> L)).
Proof.
  intros Ht Ho Hl W Hn. unfold vfs_print_debug. rewrite (vw_lock _ _ W). cbn [spinlock_acquire mbind outcome_bind].
  destruct (vw_head _ _ W) as (hd & Hh & Hch). rewrite Hh. cbn [deref mbind outcome_bind].
  pose proof (vfs_wf_size _ _ W) as Hsz.
  destruct (print_mounts_sends polls buffer literal (vs_mounts v) fs_name fs_text L s [mount_format] (fs_mem v) (m_next hd) (size (vs_mounts v)) Ht Ho Hl)
    as (s' & -> & S); [set_solver|done|done|lia|].
  exists s'. split; [done|apply S].
Qed.

(** The dumps of the block lists end and send the range of every block, with the letters zu
    where the sizes belong. *)
Theorem block_dump_omits_sizes {P} `{!PortIO P} `{!Uart16550 P} (hhdm table : Z) {St} `{!PageSource St} (polls : nat) (buffer : Z)
    (literal : list Z -> Z) (b : ba_state St) (F B : list Z) (s : serial P) :
  (uart_time < polls)%nat -> online s -> placed buffer literal s [dumping_free; range_format] ->
  ba_wf hhdm table b F B -> ser_mem s = ba_mem b -> dumpable buffer (ser_mem s) F ->
  exists s', block_allocator_dump_free_list polls buffer literal b s = Done s' /\
    wire s' = wire s ++ crlf (dumping_free ++ concat (block_line (ba_mem b) <$> F)).
Proof.
  intros Ht Ho Hl W Hm Hd. unfold block_allocator_dump_free_list.
  destruct (say_unsafe_sends polls buffer literal s _ dumping_free [] dumping_free Ht Ho Hl) as (s1 & E1 & S1);
    [set_solver|constructor|reflexivity|]. cbn [fmap list_fmap] in E1. rewrite E1. cbn [mbind outcome_bind].
  pose proof (bw_heap _ _ _ _ _ W) as HH. rewrite <- Hm in HH.
  assert (forall y, y ∈ F -> h_size (ser_mem s1) y = h_size (ser_mem s) y /\ h_next (ser_mem s1) y = h_next (ser_mem s) y /\
      h_previous (ser_mem s1) y = h_previous (ser_mem s) y) as Hsame.
  { intros y Hy. eapply header_sends; [exact S1|]. eapply Forall_forall in Hd; [|exact Hy]. tauto. }
  destruct (dump_list_sends polls buffer literal F s1 [dumping_free; range_format] 0 (block_free_list_start b)
    (Z.to_nat (block_allocator_current_virtual_address b - block_allocator_virtual_base b)) Ht (sd_online _ _ _ _ S1)) as (s2 & E2 & S2).
  - by eapply placed_sends.
  - set_solver.
  - eapply dlist_ext; [|exact (hp_free _ _ _ _ _ _ _ HH)]. intros y Hy. by destruct (Hsame y Hy) as (_ & ? & ?).
  - apply Forall_forall. intros y Hy. destruct (Hsame y Hy) as (-> & _). by eapply Forall_forall in Hd.
  - eapply region_length; exact HH.
  - exists s2. split; [exact E2|]. rewrite <- Hm, <- (block_lines_same (ser_mem s) (ser_mem s1) F) by (intros y Hy; by destruct (Hsame y Hy)).
    exact (sd_wire _ _ _ _ (sends_trans _ _ _ _ _ _ S1 S2)).
Qed.

(** ustar_debug_print logs one line for every file of the archive, with its size and the bytes
    it takes. *)
Theorem ustar_debug_print_lists {P} `{!PortIO P} `{!Uart16550 P} (polls : nat) (buffer : Z) (literal : list Z -> Z)
    (clock : clock_state) (reads : nat -> Z -> Z) (initrd : Z) (A : list tar_file) (t : terminal P) :
  let lines := file_lines clock reads 0 A in
  (uart_time < polls)%nat -> logger_spinlock t = false -> printk_lock t = false -> (forall i, in_u64 (now clock (reads i))) ->
  ready buffer literal (length lines) t -> literals buffer literal t [log_prefix; [LF]; text "ustar"; file_format] ->
  archive (te_mem t) (initrd +w TAR_BLOCK_SIZE) A -> Forall (fun f => (length (tf_name f) < 500)%nat) A ->
  (forall b, initrd +w TAR_BLOCK_SIZE <= b <= (initrd +w TAR_BLOCK_SIZE) + span A -> ~ screen_own (te_screen t) b /\ ~ in_buffer buffer b) ->
  exists t', ustar_debug_print polls buffer literal clock reads initrd t = Done t' /\
    wire (serial_of t') = wire (serial_of t) ++ crlf lines /\ logger_spinlock t' = false /\ printk_lock t' = false.
Proof.
  intros lines Hp Hl Hk Hc Hr Hlit HA Hn Hq. unfold ustar_debug_print.
  destruct (print_files_shown polls buffer literal clock reads A 0 t 0 (initrd +w TAR_BLOCK_SIZE) (size (te_mem t)) Hp Hl Hk Hc)
    as (t' & E & S); [by rewrite Nat.add_0_r|done|by apply archive_files_stable| |by eapply archive_length|].
  - clear - HA. revert HA. generalize (initrd +w TAR_BLOCK_SIZE). induction A as [|f A IH]; intros h; cbn [archive]; [constructor|].
    intros (-> & H0 & _ & _ & _ & Hb & HA). constructor; [lia|by eapply IH].
  - exists t'. split_and!; [exact E|apply S|by rewrite (sh_logger _ _ _ _ _ _ S)|by rewrite (sh_printk _ _ _ _ _ _ S)].
Qed.
