(* ===== verification/Kernel.v ===== *)
(** The entry of the kernel, [_start] of [main.c]: the initialisations in their
    order on one machine, the first program, and the other processors, which run
    one after the other here ([Smp] has their interleavings).  Writing
    to the log and the list of the mount points are output (see [Logger] and
    [Listings]).  The heap grows on the way: first there are only pages, then
    blocks, then the devices and the file systems. *)

From S2P Require Import Prelude Memory Libc Spinlock PageAllocator PageAllocatorSpec PageTable AddressSpace BlockAllocator BlockAllocatorSpec Paths KernelHeap Scheduler SchedulerSpec SchedulerProps Vfs VfsSpec Ustar TarImage DeviceManager IoQueue Clock Framebuffer Serial Printk Acpi Boot Elf Descriptors Timers Stages StagesSpec Logger.

(** * What the boot loader and the image provide *)

Record answers := Answers {
  an_hhdm : Z;
  an_rsdp : Z;
  an_usable : Z;
  an_framebuffers : option (list framebuffer_t);
  an_modules : option (list limine_file);
  an_cpus : list Z;
  an_bsp_lapic_id : Z
}.

(** The strings and functions that are passed by address. *)
Record names := Names {
  nm_dot : Z;
  nm_dev : Z;
  nm_root : Z;
  nm_init : Z;
  nm_fb0 : Z;
  nm_uart0 : Z;
  nm_acpi : Z;
  nm_modules : Z;
  nm_console : Z;
  nm_idle : Z;
  nm_idle_task : Z;
  nm_io : Z;
  nm_io_task : Z;
  nm_devfs : Z;
  nm_ustar : Z;
  nm_font : Z;
  nm_fb_functions : Z * Z * Z;
  nm_uart_functions : Z * Z;
  nm_acpi_functions : Z * Z;
  nm_console_functions : Z * Z;
  nm_elf_header : Z;
  nm_program_header : Z
}.

(** The state of the scheduler, the timers and the machine over another heap. *)
Definition rebase_sched {H H' : Type} (h : H') (s : sched H) : sched H' :=
  Sched h (sc_tasks s) (sc_contexts s) (sc_cpu_contexts s) (last_context s) (last_context_lock s) (last_id s) (last_id_lock s) (sc_cpu s).

Definition rebase_timers {P S S' : Type} (s' : S') (t : timers P S) : timers P S' :=
  Timers (tm_hw t) s' (tm_control t) (tm_clock t) (arch_hpet_header t) (arch_hpet_ticks_to_nanoseconds t) (arch_tsc_offset t)
    (arch_tsc_ticks_per_second t) (ticks_per_scheduling_burst t) (xapic_vector t) (interrupts_vector_base t).

Definition rebase {P H H' : Type} (h : H') (m : machine P H) : machine P H' :=
  Machine (rebase_timers (rebase_sched h (mc_sched m)) (mc_timers m)) (mc_cr0 m) (mc_cr3 m) (mc_cr4 m) (mc_xcr0 m) (mc_rsp m)
    (arch_bootstrap_page_table m) (arch_global_idtr m) (arch_bsp_id m) (acpi_fadt m).

(** * The registers of a processor *)

Record registers := Registers {
  rg_control : control;
  rg_cpu : cpu;
  rg_cr0 : Z;
  rg_cr3 : Z;
  rg_cr4 : Z;
  rg_xcr0 : Z;
  rg_rsp : Z
}.

Definition registers_of {P H : Type} (m : machine P H) : registers :=
  Registers (mc_control m) (sc_cpu (mc_sched m)) (mc_cr0 m) (mc_cr3 m) (mc_cr4 m) (mc_xcr0 m) (mc_rsp m).

(** The same memory and globals, seen by another processor. *)
Definition with_registers {P H : Type} (r : registers) (m : machine P H) : machine P H :=
  Machine (set_control (set_src (mc_timers m) (with_cpu (mc_sched m) (rg_cpu r))) (rg_control r)) (rg_cr0 r) (rg_cr3 r) (rg_cr4 r) (rg_xcr0 r)
    (rg_rsp r) (arch_bootstrap_page_table m) (arch_global_idtr m) (arch_bsp_id m) (acpi_fadt m).

Section Start.
Context {P : Type} `{!Platform P} `{!PortIO P} (polls : nat) (img : kernel_image) (boot : boot_info) (an : answers) (nm : names).
(** What [cpuid] answers, and the return addresses of the calls that change the
    stack. *)
Context (cpuid1_ecx return_address : Z).

(** [kernel_hhdm_offset = kernel_hhdm_request.response->offset]. *)
Definition limine_init : Z := an_hhdm an.

#[local] Abbreviation hhdm := limine_init.

(** ** Pages *)

Section Early.
#[local] Instance early : KernelHeap pa_state := early_heap.

(** Up to [timers_init]: the machine, whether there are a serial port and a
    framebuffer, and the firmware tables. *)
Definition start_early (m : machine P pa_state) : outcome (machine P pa_state * bool * screen * acpi) :=
  let m := arch_simd_enable cpuid1_ecx m in
  let port := serial_init (Serial (mc_mem m) (tm_hw (mc_timers m)) false) in
  let m := set_timers m (set_hw (mc_timers m) (ser_ports port)) in
  let display := framebuffer_init (an_framebuffers an) (nm_font nm)
                   (Screen (mc_mem m) false (Framebuffer 0 0 0 0 0) (Cursor 0 0 0) 0 0 false) in
  let m := arch_early_init m in
  h ← page_allocator_init hhdm (an_usable an) (mc_mem m) (memory_map boot);
  let m := with_sched m (with_heap (mc_sched m) h) in
  '(stack, h) ← page_allocate 1 (sc_heap (mc_sched m));
  let m := arch_swap_stack return_address stack (1 * PAGE) (with_sched m (with_heap (mc_sched m) h)) in
  let a := acpi_init hhdm (mc_mem m) (an_rsdp an) in
  m ← arch_init hhdm img boot polls a m;
  Done (timers_init hhdm img a m, uart16650_present port, display, a).
End Early.

(** ** Other processors *)

Section Processors.
Context {H : Type} `{!KernelHeap H} (parked : Z -> registers).

(** The loop of [arch_bootstrap_ap_limine]: a processor that is woken runs until
    it releases the lock, and meanwhile this one waits. *)
Fixpoint boot_processors (cpus : list Z) (m : machine P H) : outcome (list registers * machine P H) :=
  match cpus with
  | [] => Done ([], m)
  | id :: cpus' =>
      if id =? arch_bsp_id m then boot_processors cpus' m else
      let own := registers_of m in
      m ← processor_init hhdm img polls cpuid1_ecx return_address (with_registers (parked id) m);
      let other := registers_of m in
      '(others, m) ← boot_processors cpus' (with_registers own m);
      Done (other :: others, m)
  end.

(** The locks and the counters are those of [Smp]. *)
Definition arch_bootstrap_ap (m : machine P H) : outcome (list registers * machine P H) :=
  boot_processors (an_cpus an)
    (Machine (mc_timers m) (mc_cr0 m) (mc_cr3 m) (mc_cr4 m) (mc_xcr0 m) (mc_rsp m) (arch_bootstrap_page_table m) (arch_global_idtr m)
       (an_bsp_lapic_id an) (acpi_fadt m)).

(** [task_scheduler_init] and [task_scheduler_install_context] on the machine. *)
Definition install_scheduler (m : machine P H) : outcome (machine P H) :=
  let '(_, t) := arch_get_id hhdm (mc_timers m) in
  let '(id, t) := arch_get_id hhdm t in
  s ← task_scheduler_round_robin_install_context hhdm (arch_bootstrap_page_table m) id (nm_idle nm) (nm_idle_task nm) (tm_src t);
  Done (set_timers m (set_src t s)).

Definition enable_scheduler (m : machine P H) : outcome (machine P H) :=
  s ← task_scheduler_round_robin_enable (mc_sched m);
  Done (with_sched m s).

(** The rest of [arch_bootstrap_entry_limine] for the waiting processors, in the
    order of the list. *)
Fixpoint arch_bootstrap_ap_scheduler (others : list registers) (m : machine P H) : outcome (list registers * machine P H) :=
  match others with
  | [] => Done ([], m)
  | r :: others' =>
      let own := registers_of m in
      m ← install_scheduler (with_registers r m);
      m ← enable_scheduler m;
      let r := registers_of m in
      '(rs, m) ← arch_bootstrap_ap_scheduler others' (with_registers own m);
      Done (r :: rs, m)
  end.

(** The end of [_start]. *)
Definition start_scheduler (others : list registers) (m : machine P H) : outcome (list registers * machine P H) :=
  '(others, m) ← arch_bootstrap_ap_scheduler others m;
  m ← enable_scheduler m;
  Done (others, m).
End Processors.

(** ** Blocks, devices and files *)

Section Late.
Context (table : Z).
#[local] Instance pages : PageSource pa_state := pa_source hhdm.
#[local] Instance blocks : KernelHeap (ba_state pa_state) := ba_heap hhdm table.

Definition start_blocks (m : machine P pa_state) : outcome (machine P (ba_state pa_state)) :=
  b ← block_allocator_init hhdm table (memory_map boot) (BA (sc_heap (mc_sched m)) 0 0 0 0 false);
  Done (rebase b m).

#[local] Abbreviation files := (vfs_state (dev_state (ba_state pa_state))).

Definition create_devices (port : bool) (display : screen) (a : acpi) (v : files) : outcome files :=
  let '(fb_initialise, fb_read, fb_write) := nm_fb_functions nm in
  v ← framebuffer_create_device (nm_dot nm) (nm_fb0 nm) fb_initialise fb_read fb_write (framebuffer_available display) v;
  v ← uart16550_create_device (nm_dot nm) (nm_uart0 nm) (fst (nm_uart_functions nm)) (snd (nm_uart_functions nm)) port v;
  v ← acpi_create_device hhdm a (nm_dot nm) (nm_acpi nm) (fst (nm_acpi_functions nm)) (snd (nm_acpi_functions nm)) v;
  v ← limine_create_device (nm_dot nm) (nm_modules nm) (an_modules an) v;
  '(_, v) ← console_create_device (nm_dot nm) (nm_console nm) (fst (nm_console_functions nm)) (snd (nm_console_functions nm)) v;
  Done v.

(** From [vfs_init] to [ustar_init]. *)
Definition start_files (port : bool) (display : screen) (a : acpi) (b : ba_state pa_state) : outcome files :=
  v ← vfs_init (Vfs (Devs b ∅ 0) ∅ ∅ 0 false 0);
  v ← device_manager_init (nm_dot nm) (nm_dev nm) (nm_devfs nm) (create_devices port display a) v;
  ustar_init hhdm table (nm_root nm) (nm_ustar nm) (default [] (an_modules an)) v.

(** The functions of the devices by their addresses. *)
Context (functions : Z -> option (Z -> Z -> Z -> files -> outcome (Z * files))) (initialisers : Z -> option (Z -> files -> outcome files)).

Definition filesystems (address : Z) : option (vfs_fs_ops files) :=
  if address =? nm_devfs nm then Some (devfs (nm_dot nm) functions initialisers)
  else if address =? nm_ustar nm then Some ustar
  else None.

(** [vfs_open("/init.elf", O_RDONLY)], the panic and [elf_load_from]. *)
Definition load_init (s : sched files) : outcome (sched files) :=
  '(init_node, h) ← vfs_open filesystems (nm_init nm) O_RDONLY (sc_heap s);
  if is_error init_node then Panicked else
  '(_, s) ← elf_load_from hhdm table filesystems (nm_elf_header nm) (nm_program_header nm) init_node (with_heap s h);
  Done s.

(** The registers of the other processors and the machine of this one, when it
    enters [halt]. *)
Definition start (parked : Z -> registers) (m : machine P pa_state) (port : bool) (display : screen) (a : acpi) :
    outcome (list registers * machine P files) :=
  m ← start_blocks m;
  '(others, m) ← arch_bootstrap_ap parked m;
  m ← arch_late_init hhdm img polls m;
  v ← start_files port display a (sc_heap (mc_sched m));
  m ← install_scheduler (rebase v m);
  '(_, s) ← io_queue_init hhdm table (nm_io nm) (nm_io_task nm) (mc_sched m);
  s ← load_init s;
  start_scheduler others (with_sched m s).
End Late.

Definition _start (parked : Z -> registers) functions initialisers (m : machine P pa_state) :
    outcome (list registers * machine P (vfs_state (dev_state (ba_state pa_state)))) :=
  '(m, port, display, a) ← start_early m;
  start (arch_bootstrap_page_table m) functions initialisers parked m port display a.
End Start.

(** * The processors join the scheduler *)

Section Joining.
Context {P : Type} `{!Platform P} {H : Type} `{!KernelHeap H} `{!KernelHeapLaws H} (an : answers) (nm : names).
Implicit Types m : machine P H.
Implicit Types s : sched H.

(** A processor that waits: GS holds its context, and no task. *)
Definition waiting s (r : registers) : Prop :=
  gs_base (rg_cpu r) <> 0 /\ gs_kernel_base (rg_cpu r) = 0 /\
  exists cx, sc_cpu_contexts s !! gs_base (rg_cpu r) = Some cx /\ cx_context_type cx = CONTEXT_TYPE_CPU.

(** The processor [r] continues as [r'] with the idle task, which is alone in the
    queue of the processor. *)
Definition idles (table : Z) s (N : list Z) (Q : Z -> list Z) (r r' : registers) : Prop :=
  exists cx x t top, sc_cpu_contexts s !! gs_base (rg_cpu r) = Some cx /\ cx_scheduler_context cx ∈ N /\ Q (cx_scheduler_context cx) = [x] /\
    sc_tasks s !! x = Some t /\ runnable t = true /\ t_state t = kernel_state (limine_init an) table (nm_idle_task nm) top /\
    r' = Registers (rg_control r) (Cpu (gs_base (rg_cpu r)) 0 (t_simd_state t) (Some (t_state t)) true (cpu_interrupts (rg_cpu r)))
           (rg_cr0 r) (rg_cr3 r) (rg_cr4 r) (rg_xcr0 r) (rg_rsp r).

(** Tasks that are there stay, except for their links. *)
Definition tasks_stay s s' : Prop := forall y ty, sc_tasks s !! y = Some ty -> exists v, sc_tasks s' !! y = Some (set_t_next v ty).

Lemma tasks_stay_trans s1 s2 s3 : tasks_stay s1 s2 -> tasks_stay s2 s3 -> tasks_stay s1 s3.
Proof using. intros H1 H2 y ty Hy. destruct (H1 y ty Hy) as [v Hv]. destruct (H2 _ _ Hv) as [w Hw]. by exists w. Qed.

Lemma waiting_on_cpu m r : waiting (mc_sched m) r ->
  exists cx, sc_cpu_contexts (mc_sched m) !! gs_base (rg_cpu r) = Some cx /\ on_cpu (mc_sched (with_registers r m)) (gs_base (rg_cpu r)) 0 cx.
Proof using. intros (H0 & Hk & cx & Hc & Ht). exists cx. split; [done|]. split; try done; [by left|by left]. Qed.

(** One processor joins. *)
Lemma processor_schedules m C Q r sizes :
  sched_wf (mc_sched m) C Q -> waiting (mc_sched m) r -> kh_fits (sizeof_scheduler_context :: sizes) (sc_heap (mc_sched m)) ->
  (m ← install_scheduler an nm (with_registers r m); enable_scheduler m) = Panicked \/
  exists m' n Q' cx, (m ← install_scheduler an nm (with_registers r m); enable_scheduler m) = Done m' /\ (n ∉ C) /\
    sched_wf (mc_sched m') (n :: C) Q' /\ (forall c, c ∈ C -> Q' c = Q c) /\
    idles (arch_bootstrap_page_table m) (mc_sched m') [n] Q' r (registers_of m') /\
    tasks_stay (mc_sched m) (mc_sched m') /\ arch_bootstrap_page_table m' = arch_bootstrap_page_table m /\
    sc_cpu_contexts (mc_sched m') = <[gs_base (rg_cpu r) := cx]> (sc_cpu_contexts (mc_sched m)) /\ kh_fits sizes (sc_heap (mc_sched m')).
Proof using KernelHeapLaws0.
  intros W Hw Hf. destruct (waiting_on_cpu m r Hw) as (cx & Hcx & Hoc).
  assert (sched_wf (mc_sched (with_registers r m)) C Q) as W1 by (by destruct W; split).
  unfold install_scheduler.
  destruct (get_id_hw (limine_init an) (mc_timers (with_registers r m))) as (id1 & a1 & ->).
  destruct (get_id_hw (limine_init an) (set_hw (mc_timers (with_registers r m)) (snd (mmio_read32 a1 (tm_hw (mc_timers (with_registers r m))))))) as (id & a2 & ->).
  set (t := set_hw _ _). change (tm_src t) with (mc_sched (with_registers r m)).
  change (arch_bootstrap_page_table (with_registers r m)) with (arch_bootstrap_page_table m).
  destruct (install_context_full (limine_init an) (arch_bootstrap_page_table m) _ C Q _ 0 cx id (nm_idle nm) (nm_idle_task nm) sizes W1 Hoc Hf)
    as [->|(s1 & n & x & ti & top & -> & W2 & Hn & Hx & Hts & Hr & _ & Hst & Hoc2 & Hcp & Hcs & Hf2)]; [by left|right].
  cbn [mbind outcome_bind]. unfold enable_scheduler.
  change (mc_sched (set_timers (with_registers r m) (set_src t s1))) with s1.
  assert (add_queue Q n x n = [x]) as Hq by (unfold add_queue; by rewrite decide_True).
  destruct (enable_spec s1 (n :: C) (add_queue Q n x) _ 0 (scheduled_context cx n) x [] W2 Hoc2) as (s2 & t2 & -> & W3 & Ht2 & Hsame & Hh & Hcp2 & Hcs2);
    [simpl; set_solver|exact Hq|].
  rewrite Hts, lookup_insert_eq in Ht2. injection Ht2 as <-. cbn [mbind outcome_bind].
  eexists _, n, (rotate_queue (add_queue Q n x) n), (scheduled_context cx n). split; [reflexivity|].
  change (mc_sched (with_sched _ s2)) with s2. split_and!; try done.
  - intros c Hc. unfold rotate_queue, add_queue. rewrite !decide_False; [done|..]; by intros ->.
  - destruct (same_next _ _ x ti Hsame) as [v Hv]; [rewrite Hts; apply lookup_insert_eq|].
    exists (scheduled_context cx n), x, (set_t_next v ti), top. rewrite Hcs2, Hcs. split_and!; try done.
    + apply lookup_insert_eq.
    + simpl. set_solver.
    + unfold rotate_queue. simpl. by rewrite decide_True, Hq.
    + change (Registers (rg_control r) (sc_cpu s2) (rg_cr0 r) (rg_cr3 r) (rg_cr4 r) (rg_xcr0 r) (rg_rsp r) =
        Registers (rg_control r) (Cpu (gs_base (rg_cpu r)) 0 (t_simd_state ti) (Some (t_state ti)) true (cpu_interrupts (rg_cpu r)))
          (rg_cr0 r) (rg_cr3 r) (rg_cr4 r) (rg_xcr0 r) (rg_rsp r)).
      by rewrite Hcp2, Hcp.
  - intros y ty Hy. apply (same_next _ _ _ _ Hsame). rewrite Hts. rewrite lookup_insert_ne; [done|]. intros ->. change (sc_tasks (mc_sched m) !! y = None) in Hx. congruence.
  - by rewrite Hcs2.
  - by rewrite Hh.
Qed.
Lemma idles_stay table s s' N Q Q' r r' :
  idles table s N Q r r' -> tasks_stay s s' -> (forall c, c ∈ N -> Q' c = Q c) ->
  sc_cpu_contexts s' !! gs_base (rg_cpu r) = sc_cpu_contexts s !! gs_base (rg_cpu r) -> idles table s' N Q' r r'.
Proof using.
  intros (cx & x & t & top & Hc & Hn & Hq & Ht & Hr & Hs & ->) Hst HQ Hcs. destruct (Hst x t Ht) as [v Hv].
  exists cx, x, (set_t_next v t), top. rewrite Hcs, HQ by done. by split_and!.
Qed.

Lemma idles_mono table s N N' Q r r' : idles table s N Q r r' -> N ⊆ N' -> idles table s N' Q r r'.
Proof using. intros (cx & x & t & top & Hc & Hn & HI) HN. exists cx, x, t, top. split; [done|]. split; [by apply HN|done]. Qed.

Lemma waiting_other s s' p cx r : waiting s r -> sc_cpu_contexts s' = <[p := cx]> (sc_cpu_contexts s) -> gs_base (rg_cpu r) <> p -> waiting s' r.
Proof using. intros (H0 & Hk & c & Hc & Ht) Hs Hp. split; [done|]. split; [done|]. exists c. by rewrite Hs, lookup_insert_ne by done. Qed.

(** All of them, one after the other. *)
Lemma processors_schedule others : forall m C Q,
  sched_wf (mc_sched m) C Q -> Forall (waiting (mc_sched m)) others -> NoDup ((fun r => gs_base (rg_cpu r)) <$> others) ->
  kh_fits (replicate (length others) sizeof_scheduler_context) (sc_heap (mc_sched m)) ->
  arch_bootstrap_ap_scheduler an nm others m = Panicked \/
  exists rs m' N Q', arch_bootstrap_ap_scheduler an nm others m = Done (rs, m') /\ sched_wf (mc_sched m') (N ++ C) Q' /\
    length N = length others /\ (forall c, c ∈ C -> Q' c = Q c) /\ Forall2 (idles (arch_bootstrap_page_table m) (mc_sched m') N Q') others rs /\
    tasks_stay (mc_sched m) (mc_sched m') /\ registers_of m' = registers_of m /\
    (forall p, Forall (fun r => gs_base (rg_cpu r) <> p) others -> sc_cpu_contexts (mc_sched m') !! p = sc_cpu_contexts (mc_sched m) !! p).
Proof using KernelHeapLaws0.
  induction others as [|r others IH]; intros m C Q W Hw Hn Hf.
  { right. exists [], m, [], Q. split_and!; try done. intros y ty Hy. exists (t_next ty). rewrite Hy. by destruct ty. }
  apply Forall_cons in Hw as [Hr Hw]. cbn [fmap list_fmap] in Hn. apply NoDup_cons in Hn as [Hrn Hn].
  cbn [arch_bootstrap_ap_scheduler]. cbv zeta.
  assert (forall A (f : machine P H -> outcome A), (m1 ← install_scheduler an nm (with_registers r m); m2 ← enable_scheduler m1; f m2) =
    (m2 ← (m1 ← install_scheduler an nm (with_registers r m); enable_scheduler m1); f m2)) as ->.
  { intros A f. by destruct (install_scheduler an nm (with_registers r m)). }
  destruct (processor_schedules m C Q r _ W Hr Hf) as [->|(m1 & n & Q1 & cx & -> & HnC & W1 & HQ1 & I1 & S1 & T1 & C1 & F1)]; [by left|].
  cbn [mbind outcome_bind]. set (m2 := with_registers (registers_of m) m1).
  assert (forall r', r' ∈ others -> gs_base (rg_cpu r') <> gs_base (rg_cpu r)) as Hne.
  { intros r' Hr' E. apply Hrn. rewrite <- E. apply list_elem_of_fmap. by exists r'. }
  destruct (IH m2 (n :: C) Q1) as [->|(rs & m3 & N & Q3 & -> & W3 & Hl & HQ3 & I3 & S3 & R3 & C3)].
  - by destruct W1; split.
  - apply Forall_forall. intros r' Hr'. eapply waiting_other; [eapply Forall_forall in Hw; done|exact C1|by apply Hne].
  - exact Hn.
  - exact F1.
  - by left.
  - right. cbn [mbind outcome_bind]. exists (registers_of m1 :: rs), m3, (N ++ [n]), Q3.
    assert (tasks_stay (mc_sched m1) (mc_sched m3)) as S13 by exact S3. split_and!; try done.
    + by rewrite <- app_assoc.
    + rewrite length_app. simpl. lia.
    + intros c Hc. rewrite HQ3 by set_solver. by apply HQ1.
    + constructor.
      * apply (idles_mono _ _ [n]); [|set_solver].
        eapply idles_stay; [exact I1|exact S13| |].
        -- intros c ->%list_elem_of_singleton. apply HQ3. set_solver.
        -- rewrite C3; [done|]. apply Forall_forall. exact Hne.
      * eapply Forall2_impl; [change (arch_bootstrap_page_table m2) with (arch_bootstrap_page_table m1) in I3; rewrite T1 in I3; exact I3|].
        intros r1 r2 Hi. eapply idles_mono; [exact Hi|]. set_solver.
    + by eapply tasks_stay_trans.
    + intros p Hp. apply Forall_cons in Hp as [Hp1 Hp]. rewrite C3 by done. change (mc_sched m2) with (with_cpu (mc_sched m1) (sc_cpu (mc_sched m))).
      cbn [with_cpu sc_cpu_contexts]. rewrite C1. by rewrite lookup_insert_ne.
Qed.
(** A processor that gets its context, seen by the one that goes on. *)
Definition get_context (m : machine P H) : outcome (registers * machine P H) :=
  '(p, s) ← arch_context_install (mc_sched m);
  Done (Registers (mc_control m) (sc_cpu s) (mc_cr0 m) (mc_cr3 m) (mc_cr4 m) (mc_xcr0 m) (mc_rsp m), with_sched m (with_cpu s (sc_cpu (mc_sched m)))).

Lemma get_context_waits m C Q r m' p k cx : sched_wf (mc_sched m) C Q -> on_cpu (mc_sched m) p k cx -> get_context m = Done (r, m') ->
  sched_wf (mc_sched m') C Q /\ waiting (mc_sched m') r /\ gs_base (rg_cpu r) <> p /\ on_cpu (mc_sched m') p k cx /\
  sc_tasks (mc_sched m') = sc_tasks (mc_sched m) /\ forall l, kh_fits l (sc_heap (mc_sched m')) <-> kh_fits l (sc_heap (mc_sched m)).
Proof using KernelHeapLaws0.
  intros W Hoc E. apply bind_done_inv in E as ([q s] & E & [= <- <-]). apply bind_done_inv in E as ([q' h] & E & [= <- <-]).
  destruct (kh_page_law _ _ _ (sw_heap _ _ _ W) E) as (Ok & Hq0 & Hnl & Hl & Mono & _ & Fit & _).
  assert (sc_cpu_contexts (mc_sched m) !! q' = None) as Hqn.
  { apply eq_None_not_Some. intros Hs. by apply Hnl, (sw_live_cpus _ _ _ W). }
  assert (sc_tasks (mc_sched m) !! q' = None) as Hqt.
  { apply eq_None_not_Some. intros Hs. by apply Hnl, (sw_live _ _ _ W). }
  assert (q' <> p) as Hqp by (intros ->; rewrite (oc_context _ _ _ _ Hoc) in Hqn; done).
  change (mc_sched (with_sched m _)) with (with_cpu_contexts (with_heap (mc_sched m) h) (<[q' := CpuContext CONTEXT_TYPE_CPU 0 false 0 0]> (sc_cpu_contexts (mc_sched m)))).
  split_and!; try done.
  - destruct W as [W1 W2 W3 W5 W6 W7 W8 W8c W8p W8a W9 W10 W11]. split; try done; simpl; auto.
    + intros d [cd Hd]. apply lookup_insert_Some in Hd as [[<- _]|[_ Hd]]; [done|]. apply Mono, W8p. by eexists.
    + intros y Hy. rewrite lookup_insert_ne; [by apply W8a|]. intros ->. destruct Hy. congruence.
  - split; [done|]. split; [done|]. eexists. split; [apply lookup_insert_eq|done].
  - destruct Hoc as [O1 O2 O3 O4 O5]. split; try done; simpl; [by rewrite lookup_insert_ne|].
    destruct O5 as [->|(O5 & tk & Htk & Hk)]; [by left|right]. rewrite lookup_insert_ne; [by eauto|]. intros ->. congruence.
Qed.
End Joining.

(** * The board *)

#[local] Existing Instance demo_source.
#[local] Existing Instance demo_source_laws.

(** Without a serial port. *)
#[export] Instance board_ports : PortIO board := {| arch_pio_read8 := fun _ b => (0, b); arch_pio_write8 := fun _ _ b => b |}.

(** The strings, 32 bytes apart from 0x130000 on: ".", "/dev", "/", "/init.elf",
    "/fb0", "/uart0", "/acpi/", "/boot/modules/", "/console", "idle", "io" and
    "/initrd.tar". *)
Definition board_strings : list (list Z) :=
  [[46]; [47; 100; 101; 118]; [47]; [47; 105; 110; 105; 116; 46; 101; 108; 102]; [47; 102; 98; 48]; [47; 117; 97; 114; 116; 48];
   [47; 97; 99; 112; 105; 47]; [47; 98; 111; 111; 116; 47; 109; 111; 100; 117; 108; 101; 115; 47]; [47; 99; 111; 110; 115; 111; 108; 101];
   [105; 100; 108; 101]; [105; 111]; [47; 105; 110; 105; 116; 114; 100; 46; 116; 97; 114]].

Definition board_string (i : Z) : Z := 0x130000 + 32 * i.

Definition board_names : names :=
  Names (board_string 0) (board_string 1) (board_string 2) (board_string 3) (board_string 4) (board_string 5) (board_string 6) (board_string 7)
    (board_string 8) (board_string 9) 0x121000 (board_string 10) 0x122000 0x123000 0x124000 0x125000 (0x126000, 0x126100, 0x126200)
    (0x126300, 0x126400) (0x126500, 0x126600) (0x126700, 0x126800) 0x138000 0x139000.

(** An archive with the program of [Elf] as "init.elf" at 0x140000. *)
Definition board_initrd : list Z := replicate 512 0 ++ tar_image [demo_member [105; 110; 105; 116; 46; 101; 108; 102] demo_elf].

Definition board_start_mem : mem :=
  foldl (fun m '(i, s) => put m (board_string (Z.of_nat i)) (s ++ [0])) (put board_mem 0x140000 board_initrd) (imap pair board_strings).

Definition board_answers : answers :=
  Answers 0 0x100100 0 None (Some [LimineFile (board_string 11) 0x140000 (Z.of_nat (length board_initrd))]) [0; 1; 2] 0.

Definition board_memory : boot_info := BootInfo [MemmapEntry 8192 0xE0000 0; MemmapEntry 0x100000 0x60000 1] 6 0 0.

Definition board_registers : registers :=
  Registers (Control (0, 0) (15, 0x5000) 0 0 0 false {[MSR_APIC_BASE := 0xFEE00000]}) (Cpu 0 0 [] None false false) 0 0 0 0 0.

(** One processor with a scheduler over the given heap. *)
Definition board_with {H : Type} (s : sched H) : machine board H :=
  Machine (Timers (Board 0 ∅) s (rg_control board_registers) (Clock no_source no_source) 0 0 0 0 0 0 0x20) 0 0 0 0 0 0 (0, 0) 0 0.

Definition board_start : outcome (list registers * machine board (vfs_state (dev_state (ba_state pa_state)))) :=
  _start board_polls board_image board_memory board_answers board_names 0 0 (fun _ => board_registers) (fun _ => None) (fun _ => None)
    (board_with (Sched (PA board_start_mem [] false) ∅ ∅ ∅ 0 false 0 false (rg_cpu board_registers))).

(** What the board is doing afterwards: each processor runs the idle task with its
    timer armed, and the task of the program waits at its entry point, where its
    page table has the bytes of the segment. *)
Definition idle_running (c : cpu) : bool :=
  cpu_timer_armed c && match cpu_running c with Some st => r_rip st =? 0x121000 | None => false end.

Definition init_ready (m : machine board (vfs_state (dev_state (ba_state pa_state)))) (t : scheduler_task) : bool :=
  let s := sc_heap (mc_sched m) in
  let entry := @arch_table_manager_translate_to_physical 0 _ (pa_source 0) (r_cr3 (t_state t)) (r_rip (t_state t)) (ba_src (dv_heap (vs_heap s))) in
  (t_id t =? 2) && negb (t_empty t) && (r_rip (t_state t) =? 0x401000) &&
  bool_decide (bytes (pa_mem (ba_src (dv_heap (vs_heap s)))) entry 3 = [11; 12; 13]).

Definition board_running (r : list registers * machine board (vfs_state (dev_state (ba_state pa_state)))) : bool :=
  let '(rs, m) := r in
  (length rs =? 2)%nat && forallb (fun r => idle_running (rg_cpu r)) rs && idle_running (sc_cpu (mc_sched m)) &&
  existsb (init_ready m) (map_to_list (sc_tasks (mc_sched m))).*2.

(** * Properties *)

(** C29. When the boot ends, arch_bootstrap_ap_scheduler and task_scheduler_enable run out of
    memory or leave every processor at work: each waiting processor has a context of its own in
    the chain, whose queue holds one runnable idle task that starts at its entry point on that
    processor with the timer armed; the first processor continues with the registers of the
    first task of its queue, which goes to the end; the queues stay well formed and no task is
    lost. *)
Theorem scheduling_starts {P} `{!Platform P} {H} `{!KernelHeap H} `{!KernelHeapLaws H} (an : answers) (nm : names) (others : list registers)
    (m : machine P H) (C : list Z) (Q : Z -> list Z) (p k : Z) (cx : arch_cpu_context_t) (x : Z) (l : list Z) (t : scheduler_task) :
  sched_wf (mc_sched m) C Q -> on_cpu (mc_sched m) p k cx -> cx_scheduler_context cx ∈ C -> Q (cx_scheduler_context cx) = x :: l ->
  sc_tasks (mc_sched m) !! x = Some t ->
  Forall (waiting (mc_sched m)) others -> NoDup (p :: ((fun r => gs_base (rg_cpu r)) <$> others)) ->
  kh_fits (replicate (length others) sizeof_scheduler_context) (sc_heap (mc_sched m)) ->
  start_scheduler an nm others m = Panicked \/
  exists rs m' N Q', start_scheduler an nm others m = Done (rs, m') /\ sched_wf (mc_sched m') (N ++ C) Q' /\ length N = length others /\
    Forall2 (idles an nm (arch_bootstrap_page_table m) (mc_sched m') N Q') others rs /\
    cpu_running (sc_cpu (mc_sched m')) = Some (t_state t) /\ cpu_timer_armed (sc_cpu (mc_sched m')) = true /\
    Q' (cx_scheduler_context cx) = l ++ [x] /\ tasks_stay (mc_sched m) (mc_sched m').
Proof.
  intros W Hoc Hc HQ Ht Hw Hn Hf. apply NoDup_cons in Hn as [Hpn Hn]. unfold start_scheduler.
  destruct (processors_schedule an nm others m C Q W Hw Hn Hf) as [->|(rs & m1 & N & Q1 & -> & W1 & Hl & HQ1 & I1 & S1 & R1 & C1)]; [by left|right].
  cbn [mbind outcome_bind]. unfold enable_scheduler.
  assert (sc_cpu (mc_sched m1) = sc_cpu (mc_sched m)) as Hcpu by (by injection R1).
  assert (sc_cpu_contexts (mc_sched m1) !! p = Some cx) as Hcx.
  { rewrite C1; [apply (oc_context _ _ _ _ Hoc)|]. apply Forall_forall. intros r Hr E. apply Hpn. rewrite <- E. apply list_elem_of_fmap. by exists r. }
  assert (on_cpu (mc_sched m1) p k cx) as Hoc1.
  { destruct Hoc as [O1 O2 O3 O4 O5]. split; [by rewrite Hcpu|done|done|done|].
    destruct O5 as [->|(O5 & tk & Htk & Hk)]; [by left|right]. split; [|destruct (S1 k tk Htk) as [v Hv]; by eexists].
    eapply (sw_apart _ _ _ W1). destruct (S1 k tk Htk) as [v Hv]. by eexists. }
  destruct (enable_spec _ _ Q1 _ _ _ x l W1 Hoc1) as (s2 & t2 & -> & W2 & Ht2 & Hsame & _ & Hcp2 & Hcs2); [set_solver|by rewrite HQ1|].
  cbn [mbind outcome_bind]. destruct (S1 x t Ht) as [v Hv]. rewrite Hv in Ht2. injection Ht2 as <-.
  assert (tasks_stay (mc_sched m1) s2) as S2 by (intros y ty Hy; by apply (same_next _ _ _ _ Hsame)).
  eexists rs, _, N, (rotate_queue Q1 (cx_scheduler_context cx)). split; [reflexivity|].
  change (mc_sched (with_sched m1 s2)) with s2. split_and!; [exact W2|exact Hl| | | | |by eapply tasks_stay_trans].
  - eapply Forall2_impl; [exact I1|]. intros r r' Hi. eapply idles_stay; [exact Hi|exact S2| |by rewrite Hcs2].
    intros c HcN. unfold rotate_queue. rewrite decide_False; [done|]. intros ->.
    pose proof (sw_nodup _ _ _ W1) as Hnd. apply NoDup_app in Hnd as (_ & Hd & _). by apply (Hd (cx_scheduler_context cx)).
  - by rewrite Hcp2.
  - by rewrite Hcp2.
  - unfold rotate_queue. by rewrite decide_True, HQ1, HQ.
Qed.

Lemma scheduling_starts_witness :
  exists table (r r' : registers) (m m' : machine board (ba_state pa_state)),
    @start_scheduler board _ board_answers board_names _ (ba_heap 0 table) [r] m = Done ([r'], m') /\
    cpu_timer_armed (rg_cpu r') = true /\ cpu_timer_armed (sc_cpu (mc_sched m')) = true.
Proof.
  assert (is_done ('(table, h) ← demo_boot; '(p, name, s) ← demo_install table h;
    '(r, m) ← @get_context board _ (ba_heap 0 table) (board_with s);
    @start_scheduler board _ board_answers board_names _ (ba_heap 0 table) [r] m) = true) as Hd by (vm_compute; reflexivity).
  destruct demo_sched as (table & h & p & name & s & n & x & t & cx & E1 & E2 & W & Ht & _ & _ & Hoc & Hcx & Hs & _).
  rewrite E1 in Hd. cbn [mbind outcome_bind] in Hd. rewrite E2 in Hd. cbn [mbind outcome_bind] in Hd.
  apply is_done_bind in Hd as ([r m] & E3 & Hd). destruct (demo_small_inv s sizeof_scheduler_context Hs ltac:(unfold sizeof_scheduler_context; lia)) as (_ & Hf1 & Hf2).
  destruct (@get_context_waits board _ (ba_heap 0 table) (ba_heap_laws 0 table hhdm_ok_0) (board_with s) [n] _ r m p 0 cx W Hoc E3)
    as (W' & Hw & Hp & Hoc' & Ht' & Hf).
  destruct (@scheduling_starts board _ _ (ba_heap 0 table) (ba_heap_laws 0 table hhdm_ok_0) board_answers board_names [r] m [n] _ p 0 cx x [] t W' Hoc')
    as [Ep|(rs & m' & N & Q' & E & _ & _ & HI & _ & Ha & _)].
  - rewrite Hcx. apply list_elem_of_here.
  - rewrite Hcx. unfold add_queue. rewrite decide_True by reflexivity. reflexivity.
  - rewrite Ht'. change (mc_sched (board_with s)) with s. rewrite Ht. apply lookup_singleton_eq.
  - constructor; [exact Hw|constructor].
  - apply NoDup_cons. split; [|apply NoDup_singleton]. intros Hin%list_elem_of_singleton. symmetry in Hin. exact (Hp Hin).
  - apply Hf. split; [exact Hf1|exact Hf2].
  - rewrite Ep in Hd. discriminate Hd.
  - inversion HI as [|? r' ? ? Hi Hnil]; subst. inversion Hnil; subst. exists table, r, r', m, m'. split; [exact E|]. split; [|exact Ha].
    destruct Hi as (? & ? & ? & ? & _ & _ & _ & _ & _ & _ & ->). reflexivity.
Defined.

(** On the board with three processors and an archive that holds the program as init.elf, the
    whole of _start ends with each processor in the idle task and the task of the program at its
    entry point, where its page table has the bytes of the segment. *)
Theorem board_boots : exists r, board_start = Done r /\ board_running r = true.
Proof.
  assert (is_done (r ← board_start; if board_running r then Done tt else Undef) = true) as Hd by (vm_compute; reflexivity).
  apply is_done_bind in Hd as (r & E & Hd). exists r. split; [exact E|]. destruct (board_running r); [reflexivity|discriminate Hd].
Qed.
