(* ===== verification/Init.v ===== *)
(** The table of the system calls, [syscalls/syscalls.c], as the entry of
    [arch/x86_64/syscall/syscall.asm] uses it, and the first user program,
    [apps/init/src/main.c].

    The program runs on the class [Userland]: a memory and the instruction that
    calls the kernel.  String literals and local arrays are at addresses that are
    arguments; a [while (1);] is [Timeout]. *)

From S2P Require Import Prelude Memory Libc Spinlock PageAllocator PageAllocatorSpec PageTable AddressSpace BlockAllocator BlockAllocatorSpec Paths KernelHeap Scheduler SchedulerSpec SchedulerProps Vfs VfsSpec Syscalls SyscallsSpec Fork.

(** * The table of the kernel *)

(** The functions of [syscall_handlers]. *)
Inductive handler :=
  | Write | Open | Close | Read | Fork | Yield | Waitpid | Exit | Lseek.

Definition syscall_count : Z := 9.
Definition syscall_handlers : list handler := [Write; Open; Close; Read; Fork; Yield; Waitpid; Exit; Lseek].

Section Entry.
Context (kernel_hhdm_offset arch_bootstrap_page_table : Z) {H : Type} `{!KernelHeap H}.
Context (filesystems : Z -> option (vfs_fs_ops (vfs_state H))).
Implicit Types s : sched (vfs_state H).
#[local] Abbreviation others := (sched (vfs_state H) -> outcome (sched (vfs_state H))).

Definition set_t_userspace_stack_top (v : Z) (t : scheduler_task) : scheduler_task :=
  Task (t_id t) (t_syscall_stack_top t) v (t_simd_state t) (t_state t)
    (t_name t) (t_name_length t) (t_empty t) (t_ppid t) (t_exit_code t) (t_run_mode t) (t_is_waited t)
    (t_virtual_stack_top t) (t_fd_count t) (t_fd_max t) (t_fd_translation t)
    (t_fd_allocated_pages t) (t_parent_queue t) (t_next t) (t_previous t).

(** The handler with its arguments from the registers; [None]: it does not
    return. *)
Definition call_handler (h : handler) (rsi rdx rcx : Z) (regs : arch_cpu_state_t) (turns : list others) s :
    outcome (option Z * sched (vfs_state H)) :=
  let returns r := '(v, s) ← r; Done (Some v, s) in
  match h with
  | Write => returns (sys_write kernel_hhdm_offset filesystems rsi rdx rcx s)
  | Open => returns (sys_open kernel_hhdm_offset filesystems rsi rdx s)
  | Close => returns (sys_close filesystems rsi s)
  | Read => returns (sys_read kernel_hhdm_offset filesystems rsi rdx rcx s)
  | Fork => returns (sys_fork kernel_hhdm_offset arch_bootstrap_page_table filesystems regs s)
  | Yield => match turns with [] => Done (None, s) | turn :: _ => returns (sys_yield turn s) end
  | Waitpid => sys_waitpid kernel_hhdm_offset (s64 rsi) rdx turns s
  | Exit => '(_, s) ← sys_exit (s32 rsi) turns s; Done (None, s)
  | Lseek => returns (sys_lseek filesystems rsi (s64 rdx) (s32 rcx) s)
  end.

(** [arch_syscall_entry] with the number in [rdi]: out of range, [rax] is what it
    was; otherwise the stack pointer of the program is kept in the task, and the
    context of the task is active again when the program goes on. *)
Definition arch_syscall_entry (rax rdi rsi rdx r10 rsp : Z) (regs : arch_cpu_state_t) (turns : list others) s :
    outcome (option Z * sched (vfs_state H)) :=
  if syscall_count <=? rdi then Done (Some rax, s) else
  '(task, s) ← arch_get_task_context s;
  s ← set_task (set_t_userspace_stack_top rsp) task s;
  h ← deref (syscall_handlers !! Z.to_nat rdi);
  '(rax, s) ← call_handler h rsi rdx r10 regs turns s;
  match rax with
  | None => Done (None, s)
  | Some v => '(_, s) ← arch_get_task_context s; Done (Some v, s)
  end.
End Entry.

(** * The user program *)

Class Userland (U : Type) := {
  u_mem : U -> mem;
  u_with_mem : U -> mem -> U;
  _syscall : Z -> Z -> Z -> Z -> Z -> Z -> U -> outcome (Z * U)
}.

Definition SYS_WRITE : Z := 0.
Definition SYS_OPEN : Z := 1.
Definition SYS_CLOSE : Z := 2.
Definition SYS_READ : Z := 3.
Definition SYS_FORK : Z := 4.
Definition SYS_YIELD : Z := 5.
Definition SYS_WAITPID : Z := 6.
Definition SYS_EXIT : Z := 7.
Definition SYS_LSEEK : Z := 8.
Definition STDOUT : Z := 1.

Section Program.
Context {U : Type} `{!Userland U}.
Implicit Types u : U.

Definition user_write (fd buffer size : Z) u : outcome (Z * U) := _syscall SYS_WRITE fd buffer size 0 0 u.
Definition user_read (fd buffer size : Z) u : outcome (Z * U) := _syscall SYS_READ fd buffer size 0 0 u.
Definition user_open (filename mode : Z) u : outcome (Z * U) := _syscall SYS_OPEN filename mode 0 0 0 u.
Definition user_close (fd : Z) u : outcome (Z * U) := _syscall SYS_CLOSE (u64 fd) 0 0 0 0 u.
Definition user_fork u : outcome (Z * U) := _syscall SYS_FORK 0 0 0 0 0 u.
Definition user_yield u : outcome U := '(_, u) ← _syscall SYS_YIELD 0 0 0 0 0 u; Done u.
Definition user_waitpid (pid stat_loc options : Z) u : outcome (Z * U) := _syscall SYS_WAITPID (u64 pid) stat_loc (u64 options) 0 0 u.
Definition user_lseek (fd offset whence : Z) u : outcome (Z * U) := _syscall SYS_LSEEK fd (u64 offset) (u64 whence) 0 0 u.
Definition user_exit (code : Z) u : outcome U := '(_, u) ← _syscall SYS_EXIT (u64 code) 0 0 0 0 u; Done u.

Definition puts (str : Z) u : outcome (Z * U) :=
  '(_, u) ← user_write STDOUT str (strlen (u_mem u) str) u;
  u ← user_yield u;
  Done (0, u).

(** [char name[] = {'0' + n, 0}] at [buffer]. *)
Definition digit_string (buffer n : Z) u : U :=
  u_with_mem u (st8 (st8 (u_mem u) buffer (48 + n)) (buffer + 1) 0).

Definition open_read_fd (fd_str filename : Z) u : outcome (Z * U) :=
  '(fd, u) ← user_open filename 0 u;
  let u := digit_string fd_str fd u in
  '(_, u) ← user_write STDOUT fd_str 1 u;
  Done (fd, u).

(** The literals "\n", "/test.txt" and "/init.elf". *)
Definition test_open_close (newline test_txt init_elf fd_str : Z) u : outcome U :=
  '(_, u) ← user_write STDOUT newline 1 u;
  '(_, u) ← open_read_fd fd_str test_txt u;
  '(fd, u) ← open_read_fd fd_str init_elf u;
  '(_, u) ← user_close fd u;
  '(fd, u) ← open_read_fd fd_str test_txt u;
  '(_, u) ← user_close fd u;
  '(_, u) ← open_read_fd fd_str init_elf u;
  '(_, u) ← open_read_fd fd_str init_elf u;
  '(_, u) ← user_write STDOUT newline 1 u;
  Done u.

(** [n] times reading and writing eight bytes. *)
Fixpoint copy_chunks (fd text : Z) (n : nat) u : outcome U :=
  match n with
  | O => Done u
  | S n' =>
      '(_, u) ← user_read fd text 8 u;
      '(_, u) ← user_write STDOUT text 8 u;
      copy_chunks fd text n' u
  end.

Definition test_read (test_txt text : Z) u : outcome U :=
  '(fd, u) ← user_open test_txt 0 u;
  let fd := s32 fd in
  '(_, u) ← user_lseek (u64 fd) 5 SEEK_SET u;
  u ← copy_chunks (u64 fd) text 8 u;
  '(_, u) ← user_close fd u;
  Done u.

(** [i << (i % 43)] on [int]: from 32 bits on C gives it no meaning. *)
Definition shift_left_int (i k : Z) : outcome Z :=
  if (k <? 0) || (32 <=? k) || (i <? 0) || (2147483648 <=? Z.shiftl i k) then Undef else Done (Z.shiftl i k).

(** [for (int i = 0; i < 4 * 1024; i++) to_write[i] = i << (i % 43)], from [i] on. *)
Fixpoint stripes (to_write i : Z) (n : nat) u : outcome U :=
  match n with
  | O => Done u
  | S n' =>
      v ← shift_left_int i (i mod 43);
      stripes to_write (i + 1) n' (u_with_mem u (st32 (u_mem u) (to_write + 4 * i) (u32 v)))
  end.

Fixpoint write_stripes (fd to_write : Z) (n : nat) u : outcome U :=
  match n with
  | O => Done u
  | S n' =>
      '(_, u) ← user_write fd to_write (4 * 1024 * 4) u;
      write_stripes fd to_write n' u
  end.

Definition test_fb (fb0 to_write : Z) u : outcome U :=
  '(fb_fd, u) ← user_open fb0 0 u;
  u ← stripes to_write 0 4096 u;
  write_stripes (u64 fb_fd) to_write 5 u.

(** [while ((pid = sys_waitpid(4, &status, 0)) < 0) sys_yield();]. *)
Fixpoint wait_child (status : Z) (fuel : nat) u : outcome (Z * U) :=
  '(pid, u) ← user_waitpid 4 status 0 u;
  let pid := s32 pid in
  if 0 <=? pid then Done (pid, u) else
  match fuel with
  | O => Timeout
  | S fuel' => u ← user_yield u; wait_child status fuel' u
  end.

(** The literals "Child process ", " terminated with exit code " and "\n". *)
Definition test_fork (child_process terminated newline pid_str status : Z) (fuel : nat) u : outcome U :=
  '(pid, u) ← user_fork u;
  if pid =? 0 then
    '(pid, u) ← user_fork u;
    u ← (if pid =? 0 then user_exit 7 u else Done u);
    Timeout
  else
    '(pid, u) ← wait_child status fuel u;
    '(_, u) ← puts child_process u;
    let u := digit_string pid_str pid u in
    '(_, u) ← puts pid_str u;
    '(_, u) ← puts terminated u;
    let u := u_with_mem u (st8 (u_mem u) pid_str (48 + Z.land (ld32 (u_mem u) status) 0xFF)) in
    '(_, u) ← puts pid_str u;
    '(_, u) ← puts newline u;
    Done u.

(** The addresses of the literals and of the local arrays. *)
Record layout := Layout {
  l_console : Z; l_started : Z; l_finished : Z; l_fb0 : Z; l_test_txt : Z; l_init_elf : Z; l_newline : Z;
  l_child_process : Z; l_terminated : Z; l_to_write : Z; l_fd_str : Z; l_text : Z; l_pid_str : Z; l_status : Z
}.

(** The last [while (1);] is [Timeout]; [fuel] is the number of times that the
    program yields while it waits. *)
Definition init_start (l : layout) (fuel : nat) u : outcome U :=
  '(_, u) ← user_open (l_console l) 0 u;
  '(_, u) ← user_open (l_console l) 0 u;
  '(_, u) ← user_open (l_console l) 0 u;
  '(_, u) ← puts (l_started l) u;
  u ← test_fb (l_fb0 l) (l_to_write l) u;
  u ← test_open_close (l_newline l) (l_test_txt l) (l_init_elf l) (l_fd_str l) u;
  u ← test_read (l_test_txt l) (l_text l) u;
  u ← test_fork (l_child_process l) (l_terminated l) (l_newline l) (l_pid_str l) (l_status l) fuel u;
  '(_, u) ← puts (l_finished l) u;
  Timeout.
End Program.

(** * The calls *)

(** The program and the kernel mean the same call by a number, and a number
    that is none changes nothing. *)
Lemma syscall_numbers_agree :
  (fun number => syscall_handlers !! Z.to_nat number) <$>
    [SYS_WRITE; SYS_OPEN; SYS_CLOSE; SYS_READ; SYS_FORK; SYS_YIELD; SYS_WAITPID; SYS_EXIT; SYS_LSEEK] =
  Some <$> [Write; Open; Close; Read; Fork; Yield; Waitpid; Exit; Lseek] /\
  syscall_count = Z.of_nat (length syscall_handlers).
Proof. split; reflexivity. Qed.

Lemma syscall_out_of_range {H} `{!KernelHeap H} hhdm table filesystems rax rdi rsi rdx r10 rsp regs turns (s : sched (vfs_state H)) :
  Z.of_nat (length syscall_handlers) <= rdi ->
  arch_syscall_entry hhdm table filesystems rax rdi rsi rdx r10 rsp regs turns s = Done (Some rax, s).
Proof. intros Hr. unfold arch_syscall_entry. by rewrite (proj2 (Z.leb_le _ _)). Qed.

(** * Properties *)

(** The shift by 27 is the first one whose value does not fit. *)
Lemma stripes_undefined {U} `{!Userland U} (to_write : Z) (j k : nat) : forall i (v : U),
  (k + Z.to_nat i = 27)%nat -> 0 <= i -> stripes to_write i (k + S j) v = Undef.
Proof.
  induction k as [|k IH]; intros i v Hk Hi; cbn [Nat.add stripes].
  - assert (i = 27) as -> by lia. reflexivity.
  - unfold shift_left_int at 1. case_match; [reflexivity|]. cbn [mbind outcome_bind]. apply IH; lia.
Qed.

(** test_fb shifts 27 by 27 bits as an int, which C leaves undefined. *)
Theorem test_fb_is_undefined {U} `{!Userland U} (u u' : U) (fb0 to_write fd : Z) :
  user_open fb0 0 u = Done (fd, u') -> test_fb fb0 to_write u = Undef.
Proof.
  intros E. unfold test_fb. rewrite E. cbn [mbind outcome_bind].
  replace 4096%nat with (27 + S 4068)%nat by (vm_compute; reflexivity).
  by rewrite (stripes_undefined to_write 4068 27 0 u' eq_refl ltac:(lia)).
Qed.

(** A memory where every call is answered with 3. *)
#[local] Instance answering_userland : Userland mem := {|
  u_mem := id;
  u_with_mem := fun _ m => m;
  _syscall := fun _ _ _ _ _ _ u => Done (3, u)
|}.

Lemma test_fb_is_undefined_witness : test_fb 110 1000 (∅ : mem) = Undef.
Proof. apply (test_fb_is_undefined (∅ : mem) ∅ 110 1000 3). reflexivity. Defined.
